(* ===== verification/_CoqProject ===== *)
-Q . S2P
Prelude.v
CString.v
Queue.v
Murmur.v
Dense.v
Env.v
Survey.v
World.v
Messages.v
Elements.v
Station.v
ApTable.v
Ht.v
Eids.v
Beacon.v
Rsn.v
Handler.v
Roam.v
Stamgd.v
Lifecycle.v
Books.v
Rc4.v
Acl.v
Auth.v
Assoc.v
ApList.v
Wmm.v
Probe.v
Mlme.v
Entries.v
Events.v
HashTable.v
Collector.v
