(* ===== verification/Prelude.v ===== *)
(** * LazyAS: a verification library for the access point and the collector

    LazyAS steers Wi-Fi stations between access points.  Each access point runs a
    modified hostapd: a roaming agent ([src/fnii] of the hostapd tree) is linked to
    a central controller over TCP, reports what it hears (probe requests, stations
    that come and go, traffic, the load of the channel) and obeys commands (assign a
    station to a virtual access point, take it off).  Next to it a collector
    ([InfoCollectClient_V1.1]) times TCP handshakes with libpcap and sends one
    record per connection, with the state of the radio, to a server.  This library
    models the C code of both; the controller and the servers are Java and C++.

    Paths: [fnii/] is [src/controller & handler/hostapd-2015-03-25/src/fnii/],
    [ap/] and [main.c] are [src/ap/] and [hostapd/main.c] of the same tree, and
    [client/] is [src/data collector/InfoCollectClient_V1.1/src/].

    ** How code is modelled

    A C function is a function with the same name.  Functions without effects
    return [res], a value or the undefined behaviour that the C code runs into
    ([ub]: out of bounds, NULL, a failed assertion, an uninitialised read, ...), so
    "returns [Ok]" is memory safety of that run.  Functions with effects are in the
    state and error monad [M] of this file, over the state of their component.
    Integers are in [Z] with the wrap-around of their width written out ([uwrap],
    [swrap]); bytes are integers, buffers lists, strings end at their first 0.  The
    target is the device's: 32-bit little-endian MIPS, [long] and [time_t] of 32
    bits, [char] signed.  Two differences of times that overflow in C only after
    half an hour and more wrap around here ([Collector.delay_of],
    [HashTable.insert_walk]).  Every call to the operating system, the shell, the driver
    or unmodelled hostapd is a constructor of [Env.call]; a state holds the history
    of calls and an oracle that answers the next one, so a theorem about every
    state holds for every behaviour of the environment.

    ** The files

    - [Prelude]: results, the monad, integers, lists, tactics, the hint database
      [lazyas].
    - [CString]: [strlen], [memcmp], [sprintf], [sscanf], [atoi], [strstr] and so on.
    - [Env]: the environment, the class [HasEnv], and two calculi for what a
      computation leaves alone ([env_only], [keeps]).
    - [Queue]: [client/buffer.c].  The circular buffer, each critical section a
      function, and the interleavings of any number of threads.
    - [Murmur]: [client/murmur.c].
    - [Dense]: the table [g_dense_station_hash] of [fnii/fnii_roam.c].
    - [Survey]: [fnii/ap_survey.c].
    - [World]: the state of the access point: the globals of [fnii_roam.c], the
      members of [hostapd_iface], [hostapd_data] and [sta_info] that the code
      uses, the heap of stations, the client of the station manager.
    - [Messages]: the [fnii_send_msg_*] functions.
    - [Station]: the tables of stations of [ap/sta_info.c], and the functions of
      [ap/beacon.c] that take a station off.
    - [Handler]: [fnii_parse_msg], the commands and [fnii_receive_msg_thread].
    - [Roam]: configuration, connection, [fnii_statistics_flow_thread], and
      [ieee802_11_update_beacons_odin], which has no caller in this version.
    - [Stamgd]: the client of the station manager in [main.c].  The layout of its
      packets is in a header that is not in the repository; it is the class
      [StamgdFormat], with the promises that the code relies on (one size, two
      messages with the same bytes are the same), and [demo_format] an instance.
    - [Lifecycle]: the rest of [ap/sta_info.c] and the indications of
      [ap/ap_mlme.c]: a station enters, associates, is timed, disconnected, and
      leaves; [Messages], [Dense], [Station] and [Stamgd] meet here.
    - [Elements]: the parser of information elements of
      [src/common/ieee802_11_common.c].
    - [ApTable], [ApList]: [ap/ap_list.c], the table of the neighbours: the operations
      on its list and its hash chains, then the beacons and the timer that use them.
    - [Ht]: [ap/ieee802_11_ht.c] and [ap/ieee802_11_vht.c]: the operation mode that
      follows from the counters, 20/40 coexistence, the capabilities of a station.
    - [Eids]: the elements of a response, of [ap/ieee802_11*.c] and [ap/wmm.c].
    - [Beacon]: the elements, the probe response and the beacon of [ap/beacon.c], among
      them [ieee802_11_build_ap_params_odin], LazyAS's copy for one station.
    - [Rsn]: [ap/wpa_auth_ie.c] and the ciphers and parsers of [src/common/wpa_common.c]:
      the elements of WPA that a network announces, and the judgement of the element with
      which a station answers ([wpa_validate_wpa_ie], which [Assoc] calls).
    - [Books]: the AIDs of [ap/ieee802_11.c], the invariant [mlme_ok] of everything
      that is kept of the stations and the neighbours, and the calculus [runs] for
      operations that return and keep it.
    - [Rc4], [Acl]: [src/crypto/rc4.c]; the access lists of [ap/ap_config.c] and
      [ap/ieee802_11_auth.c].
    - [Auth], [Assoc], [Wmm]: the handlers of authentication and association requests
      in [ap/ieee802_11.c] with their answers, and of TSPEC requests in [ap/wmm.c].
    - [Probe]: probe requests: the report in [ap/drv_callbacks.c], the decision to
      answer in [ap/beacon.c], and the frame of [Beacon] that is sent.
    - [Mlme]: the dispatch of received frames, the reports about sent frames and the
      other events of [ap/drv_callbacks.c] and [ap/ieee802_11.c].
    - [Entries]: a calculus for what an operation can do to the entries of the stations
      ([entrywise]), and every handler in it.
    - [Events]: sequences of all these events.
    - [HashTable]: [client/hashtable.c], with its chains in a memory.
    - [Collector]: [client/infoCollect.c] and [client/network.c], on top of
      [HashTable], [Queue] and the survey commands.

    ** What is shown

    - Protocol ([Messages], [Roam]): a message of any type is one well-formed frame
      with the next identifier, and the link is dropped when it cannot be sent; the
      two messages that can overflow their array, and exactly when; the throttle of
      probe reports; the announcement of the networks, and its bound of 8;
      configuration that is written is read back; flow reports follow the station
      dump; the heart beat, and when it keeps and when it ends the link.
    - Commands ([Handler]): frames that arrive whole are answered in order, and over a
      session the table of assigned stations is the set the commands describe; what
      goes wrong with frames that arrive in pieces, with a full buffer and an
      unknown network.
    - Tables: [Dense] refines a finite set; [HashTable] refines a finite map with
      ageing, and its ageing uses freed memory inside a chain; [Station] and
      [Lifecycle] keep an invariant ([bss_ok], [iface_ok]) that makes the list, the
      256 chains and the counter of each network one finite map.
    - Life of a station ([Lifecycle]): what [ap_sta_add], an association and
      [ap_free_sta] do on every branch; [station_life_safe], by induction on the
      steps: any sequence of operations keeps the tables and returns; a silent
      station is gone after three timers; [hostapd_free_stas] ends.
    - Neighbours ([ApTable], [ApList]): the pointers represent a list of entries
      ([table]); beacons make it a bounded list in the order of the last beacon, the
      timer frees exactly what has expired, and the flags follow.
    - Stations as hostapd sees them ([Ht], [Books], [Eids]): the AIDs of a network are
      distinct and the least free one is given; the counters of the interface count
      the flags of the entries, and the announced HT mode is a function of them; the
      elements of the association response read back.
    - Beacons ([Beacon], [Roam]): a probe response is written within its buffer and
      reads back as the elements it was made of, and so does the list of channels of a
      country; LazyAS's beacon is the ordinary one except for its receiver.
    - WPA ([Rsn]): the element of a station is accepted exactly when it is well-formed and
      shares its ciphers and key management with the network, and then the strongest
      common ones are chosen; the element that a network writes is accepted by it, and
      what it announces are whole elements within their buffer.
    - Requests of stations ([Auth], [Acl], [Rc4], [Assoc], [Wmm]): each is dropped or
      answered once, with which status, and what becomes of the entry.
    - All events ([Mlme], [Entries], [Events]): in every sequence of frames, reports and
      timers the handlers return and the books agree, or the event is a frame with
      one of four flaws ([frame_flaw]), which are shown to fail; nothing but the
      acknowledgement of an association response associates a station, and nothing
      else authorizes one but the order of 802.1X or of the handshake of WPA and,
      on an open network, data of a station that is not known
      ([hostapd_new_assoc_sta]); what the acknowledgement does, down to the
      controller and the station manager.
    - Probe requests ([Elements], [Probe]): the parser stays in its buffer and reads
      back any sequence of elements; who is answered, as a policy that holds of every
      answer, which is a probe response of that network, and the answer of every request that the policy admits.
    - Station manager ([Stamgd]): the daemon's list follows the access point's, also
      over partial sends and reconnections.
    - Concurrency ([Queue], [Collector]): FIFO order and no lost wake-up over all
      interleavings.
    - Measurement ([Murmur], [Survey], [Collector]): hashes read only their key;
      channel load, handshake times and rates are the ones of the inputs; the command
      of [getInfo] overflows its array for every station, so records are delivered
      in order and complete only with an array that is one byte larger.

    ** Fuel and bounds

    [rx_loop] takes one unit per frame, a buffer of 136 bytes holds less than 14,
    and the theorems hold for any fuel above the number of frames.  [send_rest] and
    [fgets_all] get the length of what they consume, of which each turn takes at
    least one byte, and so do [parse_loop] and [ssid_list_match].  [insert_walk] gets the number of entries in memory, and
    [ht_insert_he] one unit per doubling of the table; the theorems on tables state
    how much is enough ([fuel_ok]) and that the result is then reached.  The walks of
    [ApTable] and [ApList] get one unit more than there are entries in memory
    ([ap_fuel]), and the binary search of [Acl] one for each entry of the list.
    Everything else is structural recursion.  [beacon.c] writes into buffers of fixed
    size (768 bytes for a probe response, 256 and 512 for the two parts of a beacon) whose
    ends it hands to few of its elements; [beacon_sizes] and [beacon_conf_ok] of
    [Beacon] state the bounds of the configuration under which they are enough: 32
    rates, 32 bytes of extended capabilities, 42 channels, 128 bytes each of the WPA
    elements and of the time zone.

    ** What is not modelled

    Upstream hostapd and wpa_supplicant (EAP, TLS, the keys of WPA, WPS, RADIUS, P2P, drivers,
    utilities), tools and tests: code that LazyAS does not change, apart from the
    parts named above, through which every station passes; what the modelled code calls
    of the rest is a call of the environment (also the driver).  The collector's copy of [ap_survey.c] is the same code as [Survey] and is
    not repeated.  Features that the device is not built with (P2P, mesh, SAE, 802.11w,
    interworking, proxy ARP, RADIUS: the tree's [.cflags] and [wpad-mini]) have no
    state.  The search of a VLAN, the key handshake of WPA with its
    cache of PMKSAs and its variables of the MIB, and DFS are calls of the environment; so are the ordinary refresh of a beacon ([ieee802_11_set_beacons], which
    calls the builder that [Beacon] models) and [hostapd_update_time_adv].  The elements
    of WPA that beacons carry ([wpa_auth_ie]) are data of a network; [wpa_auth_gen_wpa_ie]
    makes them when it is set up, which is not modelled.  Of the builder, what it asks for drivers that
    make their own frames ([hostapd_build_ap_extra_ies]) and the parameters of the
    frequency are not kept, nor are the places of the counters of a channel switch.  Logging is modelled where it reads
    memory that may not be there.  [struct hostapd_sta_updown] has no definition in
    the repository (see [Stamgd]).  The controller (Java), the server of the
    collector (C++) and the analysis scripts are not C code of this program. *)

From stdpp Require Import base list numbers decidable tactics.
From Stdlib Require Import ZArith Lia.

#[export] Set Default Proof Using "Type".
Local Open Scope Z_scope.

(** ** Undefined behaviour and failures of the C code

    A C operation of the model either returns a value or stops with the reason
    why its behaviour is not defined by the language (or why the process
    dies): the program has no exceptions, so these are the only ways out that
    are not return values. *)

Inductive ub : Type :=
| OutOfBounds      (** read or write outside an object *)
| NullDeref        (** a NULL pointer is dereferenced *)
| UseAfterFree     (** a freed object is read, written or freed again *)
| UninitRead       (** an indeterminate value decides the behaviour *)
| AssertFail       (** [assert] fails and the process aborts *)
| DivByZero        (** integer division by zero *)
| SignedOverflow   (** the result of a signed operation does not fit its type *)
| BadConversion    (** a floating value outside the target type's range is converted *)
| TypeConfusion    (** an object is read through a pointer of another type *)
| OutOfFuel.       (** the model's fuel ran out: excluded by the theorems *)

#[export] Instance ub_eq_dec : EqDecision ub.
Proof. solve_decision. Defined.

Inductive res (A : Type) : Type :=
| Ok (a : A)
| Ub (u : ub).
Arguments Ok {A} a.
Arguments Ub {A} u.

#[export] Instance res_eq_dec {A} `{EqDecision A} : EqDecision (res A).
Proof. solve_decision. Defined.

Definition res_bind {A B} (m : res A) (k : A -> res B) : res B :=
  match m with Ok a => k a | Ub u => Ub u end.

Declare Scope c_scope.
Delimit Scope c_scope with c.
Notation "'let!' x := m 'in' k" := (res_bind m (fun x => k))
  (at level 10, x pattern, m at level 100, k at level 200) : c_scope.
Open Scope c_scope.

(** A computation of the C code over a state [S]. *)

Definition M (S A : Type) : Type := S -> res (A * S).

Definition ret {S A} (a : A) : M S A := fun s => Ok (a, s).
Definition bind {S A B} (m : M S A) (k : A -> M S B) : M S B :=
  fun s => match m s with Ok (a, s') => k a s' | Ub u => Ub u end.
Definition get {S} : M S S := fun s => Ok (s, s).
Definition modify {S} (f : S -> S) : M S unit := fun s => Ok (tt, f s).
Definition fail {S A} (u : ub) : M S A := fun _ => Ub u.
Definition lift {S A} (r : res A) : M S A :=
  fun s => match r with Ok a => Ok (a, s) | Ub u => Ub u end.

Notation "x <-- m ;; k" := (bind m (fun x => k))
  (at level 100, m at next level, right associativity) : c_scope.
Notation "m ;;; k" := (bind m (fun _ => k))
  (at level 100, right associativity) : c_scope.

Lemma bind_ret_l {S A B} (a : A) (k : A -> M S B) (s : S) :
  bind (ret a) k s = k a s.
Proof. reflexivity. Qed.

Lemma bind_Ok {S A B} (m : M S A) (k : A -> M S B) s a s' :
  m s = Ok (a, s') -> bind m k s = k a s'.
Proof. intros H. unfold bind. now rewrite H. Qed.

Lemma bind_Ub {S A B} (m : M S A) (k : A -> M S B) s u :
  m s = Ub u -> bind m k s = Ub u.
Proof. intros H. unfold bind. now rewrite H. Qed.

Lemma bind_inv {S A B} (m : M S A) (k : A -> M S B) s b s'' :
  bind m k s = Ok (b, s'') -> exists a s', m s = Ok (a, s') /\ k a s' = Ok (b, s'').
Proof. unfold bind. destruct (m s) as [[a s']|u]; [eauto|discriminate]. Qed.

Lemma bind_ext {S A B} (m : M S A) (k k' : A -> M S B) s :
  (forall a s', k a s' = k' a s') -> bind m k s = bind m k' s.
Proof. intros H. unfold bind. destruct (m s) as [[a s']|]; auto. Qed.

Lemma bind_assoc {S A B C} (m : M S A) (k : A -> M S B) (h : B -> M S C) s :
  bind (bind m k) h s = bind m (fun a => bind (k a) h) s.
Proof. unfold bind. destruct (m s) as [[a s']|u]; reflexivity. Qed.

Lemma res_bind_inv {A B} (m : res A) (k : A -> res B) b :
  res_bind m k = Ok b -> exists a, m = Ok a /\ k a = Ok b.
Proof. destruct m; simpl; [eauto|discriminate]. Qed.

(** A counted loop that may fail. *)
Fixpoint foldM {A B} (f : B -> A -> res B) (b : B) (l : list A) : res B :=
  match l with
  | [] => Ok b
  | a :: l' => let! b' := f b a in foldM f b' l'
  end.

Lemma foldM_app {A B} (f : B -> A -> res B) b l k :
  foldM f b (l ++ k) = let! b' := foldM f b l in foldM f b' k.
Proof.
  revert b. induction l as [|a l IH]; intros b; simpl; [done|].
  destruct (f b a); simpl; auto.
Qed.

(** A loop whose body succeeds and keeps an invariant succeeds and keeps it. *)
Lemma foldM_inv {A B} (f : B -> A -> res B) (I : B -> Prop) l :
  (forall b a, I b -> a ∈ l -> exists b', f b a = Ok b' /\ I b') ->
  forall b, I b -> exists b', foldM f b l = Ok b' /\ I b'.
Proof.
  induction l as [|a l IH]; intros Hf b Hb; simpl; [eauto|].
  destruct (Hf b a Hb) as (b' & -> & Hb'); [constructor|].
  apply IH; [|done]. intros c a' Hc Ha'. apply Hf; [done|]. now constructor.
Qed.

Lemma foldM_ext {A B} (f g : B -> A -> res B) l :
  (forall b a, a ∈ l -> f b a = g b a) -> forall b, foldM f b l = foldM g b l.
Proof.
  induction l as [|a l IH]; intros H b; simpl; [done|].
  rewrite H by constructor. destruct (g b a); simpl; [|done].
  apply IH. intros c a' Ha'. apply H. now constructor.
Qed.

(** ** Machine integers *)

(** [uwrap w z] and [swrap w z] are the conversions to an unsigned and a
    signed (two's complement) [w]-bit integer. *)

Definition uwrap (w z : Z) : Z := z mod 2 ^ w.
Definition swrap (w z : Z) : Z := (z + 2 ^ (w - 1)) mod 2 ^ w - 2 ^ (w - 1).

Definition u8 (z : Z) : Prop := 0 <= z < 2 ^ 8.
Definition u32 (z : Z) : Prop := 0 <= z < 2 ^ 32.
Definition s32 (z : Z) : Prop := - 2 ^ 31 <= z < 2 ^ 31.

Lemma uwrap_range w z : 0 <= w -> 0 <= uwrap w z < 2 ^ w.
Proof. intros. apply Z.mod_pos_bound. lia. Qed.

Lemma uwrap_small w z : 0 <= z < 2 ^ w -> uwrap w z = z.
Proof. apply Z.mod_small. Qed.

Lemma swrap_range w z : 0 < w -> - 2 ^ (w - 1) <= swrap w z < 2 ^ (w - 1).
Proof.
  intros Hw. unfold swrap.
  pose proof (Z.mod_pos_bound (z + 2 ^ (w - 1)) (2 ^ w) ltac:(lia)).
  replace (2 ^ w) with (2 * 2 ^ (w - 1)) in *; [lia|].
  rewrite <- Z.pow_succ_r by lia. f_equal. lia.
Qed.

Lemma uwrap_swrap w z : uwrap w (swrap w z) = uwrap w z.
Proof.
  unfold uwrap, swrap. rewrite Zminus_mod_idemp_l. f_equal. lia.
Qed.

Lemma swrap_small w z :
  0 < w -> - 2 ^ (w - 1) <= z < 2 ^ (w - 1) -> swrap w z = z.
Proof.
  intros Hw Hz. unfold swrap. rewrite Z.mod_small; [lia|].
  replace (2 ^ w) with (2 * 2 ^ (w - 1)); [lia|].
  rewrite <- Z.pow_succ_r by lia. f_equal. lia.
Qed.

(** Bitwise operations stay inside the width. *)
Lemma lxor_mod_pow2 w a b : 0 <= w ->
  Z.lxor a b mod 2 ^ w = Z.lxor (a mod 2 ^ w) (b mod 2 ^ w).
Proof.
  intros Hw. apply Z.bits_inj'. intros n Hn. rewrite Z.lxor_spec.
  destruct (Z.lt_ge_cases n w).
  - rewrite !Z.mod_pow2_bits_low by lia. now rewrite Z.lxor_spec.
  - rewrite !Z.mod_pow2_bits_high by lia. done.
Qed.

Lemma lor_mod_pow2 w a b : 0 <= w ->
  Z.lor a b mod 2 ^ w = Z.lor (a mod 2 ^ w) (b mod 2 ^ w).
Proof.
  intros Hw. apply Z.bits_inj'. intros n Hn. rewrite Z.lor_spec.
  destruct (Z.lt_ge_cases n w).
  - rewrite !Z.mod_pow2_bits_low by lia. now rewrite Z.lor_spec.
  - rewrite !Z.mod_pow2_bits_high by lia. done.
Qed.

Lemma lxor_range w a b : 0 <= w -> 0 <= a < 2 ^ w -> 0 <= b < 2 ^ w -> 0 <= Z.lxor a b < 2 ^ w.
Proof.
  intros Hw Ha Hb. pose proof (lxor_mod_pow2 w a b Hw) as E.
  rewrite (Z.mod_small a), (Z.mod_small b) in E by done. rewrite <- E. apply Z.mod_pos_bound. lia.
Qed.

Lemma lor_range w a b : 0 <= w -> 0 <= a < 2 ^ w -> 0 <= b < 2 ^ w -> 0 <= Z.lor a b < 2 ^ w.
Proof.
  intros Hw Ha Hb. pose proof (lor_mod_pow2 w a b Hw) as E.
  rewrite (Z.mod_small a), (Z.mod_small b) in E by done. rewrite <- E. apply Z.mod_pos_bound. lia.
Qed.

Lemma ldiff_range w a b : 0 <= w -> 0 <= a < 2 ^ w -> 0 <= Z.ldiff a b < 2 ^ w.
Proof.
  intros Hw Ha. assert (Z.ldiff a b = Z.ldiff a b mod 2 ^ w) as ->; [|apply Z.mod_pos_bound; lia].
  apply Z.bits_inj'. intros n Hn. destruct (Z.lt_ge_cases n w) as [Hlt|Hge].
  - now rewrite Z.mod_pow2_bits_low.
  - rewrite Z.mod_pow2_bits_high, Z.ldiff_spec by lia.
    rewrite <- (Z.mod_small a (2 ^ w)), Z.mod_pow2_bits_high by lia. done.
Qed.

Lemma land_range w a b : 0 <= w -> 0 <= b < 2 ^ w -> 0 <= Z.land a b < 2 ^ w.
Proof.
  intros Hw Hb. assert (Z.land a b = Z.land a b mod 2 ^ w) as ->; [|apply Z.mod_pos_bound; lia].
  apply Z.bits_inj'. intros n Hn. destruct (Z.lt_ge_cases n w) as [Hlt|Hge].
  - now rewrite Z.mod_pow2_bits_low.
  - rewrite Z.mod_pow2_bits_high, Z.land_spec by lia.
    rewrite <- (Z.mod_small b (2 ^ w)), Z.mod_pow2_bits_high by lia. apply andb_false_r.
Qed.

Lemma shiftr_range w a n : 0 <= n -> 0 <= a < 2 ^ w -> 0 <= Z.shiftr a n < 2 ^ w.
Proof.
  intros Hn Ha. rewrite Z.shiftr_div_pow2 by done.
  pose proof (Z.div_pos a (2 ^ n) ltac:(lia) ltac:(lia)).
  pose proof (Z.div_le_upper_bound a (2 ^ n) a ltac:(lia)). nia.
Qed.

(** A xor-shift by a positive amount is injective. *)
Lemma xorshift_inj n a b : 0 < n -> 0 <= a -> 0 <= b ->
  Z.lxor a (Z.shiftr a n) = Z.lxor b (Z.shiftr b n) -> a = b.
Proof.
  intros Hn Ha Hb E. apply Z.lxor_eq.
  assert (0 <= Z.lxor a b) as Hz by (apply Z.lxor_nonneg; tauto).
  assert (Z.lxor a b = Z.shiftr (Z.lxor a b) n) as Hs.
  { rewrite Z.shiftr_lxor. apply Z.lxor_eq.
    rewrite <- (Z.lxor_nilpotent (Z.lxor b (Z.shiftr b n))) at 1. rewrite <- E at 1.
    apply Z.bits_inj'. intros m Hm. rewrite !Z.lxor_spec.
    now destruct (Z.testbit a m), (Z.testbit b m), (Z.testbit (Z.shiftr a n) m),
      (Z.testbit (Z.shiftr b n) m). }
  destruct (Z.eq_dec (Z.lxor a b) 0) as [|Hne]; [done|exfalso].
  rewrite Z.shiftr_div_pow2 in Hs by lia.
  pose proof (Z.pow_gt_1 2 n ltac:(lia)) as [Hp _]. specialize (Hp ltac:(lia)).
  pose proof (Z.div_lt (Z.lxor a b) (2 ^ n) ltac:(lia) Hp). lia.
Qed.

(** Multiplication by an invertible constant is injective modulo [2 ^ w]. *)
Lemma mulmod_inj w c d a b : 0 <= w -> (c * d) mod 2 ^ w = 1 ->
  0 <= a < 2 ^ w -> 0 <= b < 2 ^ w -> uwrap w (a * c) = uwrap w (b * c) -> a = b.
Proof.
  intros Hw Hinv Ha Hb E. unfold uwrap in E.
  assert (forall x, 0 <= x < 2 ^ w -> (x * c mod 2 ^ w) * d mod 2 ^ w = x) as H.
  { intros x Hx. rewrite Z.mul_mod_idemp_l, <- Z.mul_assoc, <- Z.mul_mod_idemp_r by lia.
    rewrite Hinv, Z.mul_1_r. now apply Z.mod_small. }
  rewrite <- (H a Ha), <- (H b Hb), E. done.
Qed.

(** ** Arrays: bounded reads and writes of a run of elements *)

Definition zlen {A} (l : list A) : Z := Z.of_nat (length l).

(** [slice off n l] is what [memcpy(dst, l + off, n)] reads. *)
Definition slice {A} (off n : Z) (l : list A) : res (list A) :=
  if bool_decide (0 <= off /\ 0 <= n /\ off + n <= zlen l)
  then Ok (take (Z.to_nat n) (drop (Z.to_nat off) l))
  else Ub OutOfBounds.

(** [splice off src l] is [l] after [memcpy(l + off, src, length src)]. *)
Definition splice {A} (off : Z) (src l : list A) : res (list A) :=
  if bool_decide (0 <= off /\ off + zlen src <= zlen l)
  then Ok (take (Z.to_nat off) l ++ src ++ drop (Z.to_nat off + length src) l)
  else Ub OutOfBounds.

(** [rd l i] is [l[i]]. *)
Definition rd {A} (l : list A) (i : Z) : res A :=
  if bool_decide (i < 0) then Ub OutOfBounds
  else match l !! Z.to_nat i with Some a => Ok a | None => Ub OutOfBounds end.

(** [wr l i a] is [l[i] = a]. *)
Definition wr {A} (l : list A) (i : Z) (a : A) : res (list A) :=
  if bool_decide (0 <= i < zlen l) then Ok (<[Z.to_nat i := a]> l) else Ub OutOfBounds.

Lemma zlen_nonneg {A} (l : list A) : 0 <= zlen l.
Proof. unfold zlen. lia. Qed.

Lemma zlen_app {A} (l k : list A) : zlen (l ++ k) = zlen l + zlen k.
Proof. unfold zlen. rewrite length_app. lia. Qed.

Lemma zlen_cons {A} (a : A) l : zlen (a :: l) = 1 + zlen l.
Proof. unfold zlen. simpl length. lia. Qed.

Lemma zlen_nil {A} : zlen (@nil A) = 0.
Proof. reflexivity. Qed.

Lemma zlen_replicate {A} n (a : A) : zlen (replicate n a) = Z.of_nat n.
Proof. unfold zlen. now rewrite length_replicate. Qed.

Lemma zlen_map {A B} (f : A -> B) l : zlen (map f l) = zlen l.
Proof. unfold zlen. now rewrite length_map. Qed.

#[export] Instance zlen_proper {A} : Proper (Permutation ==> eq) (@zlen A).
Proof. intros l k H. unfold zlen. now rewrite H. Qed.

(** Reading inside the middle part of a three-part array. *)
Lemma slice_mid {A} (p m s : list A) off n :
  off = zlen p -> n = zlen m -> slice off n (p ++ m ++ s) = Ok m.
Proof.
  intros -> ->. unfold slice, zlen.
  rewrite bool_decide_eq_true_2 by (rewrite !length_app; lia).
  f_equal. rewrite !Nat2Z.id, drop_app_length, take_app_length. reflexivity.
Qed.

Lemma slice_length {A} off n (l m : list A) : slice off n l = Ok m -> zlen m = n.
Proof.
  unfold slice. case_bool_decide as H; [|discriminate]. intros [= <-].
  unfold zlen in *. rewrite length_take, length_drop. lia.
Qed.

Lemma splice_mid {A} (p m s src : list A) off :
  off = zlen p -> length src = length m -> splice off src (p ++ m ++ s) = Ok (p ++ src ++ s).
Proof.
  intros -> E. unfold splice, zlen.
  rewrite bool_decide_eq_true_2 by (rewrite !length_app; lia).
  rewrite !Nat2Z.id, take_app_length, E. do 2 f_equal.
  f_equal. rewrite drop_app_add, drop_app_length. reflexivity.
Qed.

Lemma splice_length {A} off (src l l' : list A) :
  splice off src l = Ok l' -> length l' = length l.
Proof.
  unfold splice, zlen. case_bool_decide as H; [|discriminate]. intros [= <-].
  rewrite !length_app, length_take, length_drop. lia.
Qed.

Lemma rd_Some {A} (l : list A) i a :
  0 <= i -> l !! Z.to_nat i = Some a -> rd l i = Ok a.
Proof. intros Hi H. unfold rd. rewrite bool_decide_eq_false_2 by lia. now rewrite H. Qed.

Lemma rd_Ok_inv {A} (l : list A) i a :
  rd l i = Ok a -> 0 <= i < zlen l /\ l !! Z.to_nat i = Some a.
Proof.
  unfold rd, zlen. case_bool_decide as H; [discriminate|].
  destruct (l !! Z.to_nat i) eqn:E; [|discriminate].
  apply lookup_lt_Some in E as E'. intros [= <-]. split; [lia|done].
Qed.

Lemma wr_Ok {A} (l : list A) i a :
  0 <= i < zlen l -> wr l i a = Ok (<[Z.to_nat i := a]> l).
Proof. intros H. unfold wr. now rewrite bool_decide_eq_true_2. Qed.

(** ** Lists without duplicates *)

(** ** Little-endian numbers *)

(** The number that bytes stand for. *)
Fixpoint le_num (bs : list Z) : Z :=
  match bs with [] => 0 | b :: bs' => b + 256 * le_num bs' end.

Fixpoint le_bytes (n : nat) (z : Z) : list Z :=
  match n with O => [] | S n' => z mod 256 :: le_bytes n' (z / 256) end.

Definition rd_le (off n : Z) (l : list Z) : res Z := let! bs := slice off n l in Ok (le_num bs).

Lemma le_num_bytes n z : le_num (le_bytes n z) = z mod 256 ^ Z.of_nat n.
Proof.
  revert z. induction n as [|n IH]; intros z; cbn [le_bytes le_num].
  - now rewrite Z.mod_1_r.
  - rewrite IH, Nat2Z.inj_succ, Z.pow_succ_r, Z.rem_mul_r by lia. done.
Qed.

Lemma zlen_le_bytes n z : zlen (le_bytes n z) = Z.of_nat n.
Proof. revert z. induction n as [|n IH]; intros z; [done|]. cbn [le_bytes]. rewrite zlen_cons, IH. lia. Qed.

Lemma le_bytes_u8 n z : Forall u8 (le_bytes n z).
Proof.
  revert z. induction n as [|n IH]; intros z; constructor; auto. unfold u8. apply Z.mod_pos_bound. lia.
Qed.

(** A number stored and read back at its width. *)
Lemma rd_le_mid n z (a b : list Z) off : off = zlen a ->
  rd_le off (Z.of_nat n) (a ++ le_bytes n z ++ b) = Ok (z mod 256 ^ Z.of_nat n).
Proof.
  intros ->. unfold rd_le. rewrite slice_mid by (done || now rewrite zlen_le_bytes). simpl.
  now rewrite le_num_bytes.
Qed.

Lemma le_num_range bs : Forall u8 bs -> 0 <= le_num bs < 256 ^ zlen bs.
Proof.
  induction 1 as [|b bs Hb Hbs IH]; [unfold zlen; simpl; lia|].
  simpl. rewrite zlen_cons, Z.pow_add_r by (unfold zlen; lia).
  change (256 ^ 1) with 256. unfold u8 in Hb. nia.
Qed.

(** Reads inside a list. *)
Lemma rd_in (l : list Z) j : 0 <= j < zlen l -> exists x, rd l j = Ok x /\ (Forall u8 l -> u8 x).
Proof.
  intros Hj. destruct (lookup_lt_is_Some_2 l (Z.to_nat j)) as [x Hx]; [unfold zlen in Hj; lia|].
  exists x. split; [now apply rd_Some|]. intros Hl. apply (Forall_lookup_1 _ _ _ _ Hl Hx).
Qed.

Lemma slice_in (l : list Z) off n : 0 <= off -> 0 <= n -> off + n <= zlen l ->
  exists m, slice off n l = Ok m /\ zlen m = n /\ (Forall u8 l -> Forall u8 m).
Proof.
  intros Ho Hn Hl. unfold slice. rewrite bool_decide_eq_true_2 by done. eexists. split; [done|]. split.
  - unfold zlen in *. rewrite length_take, length_drop. lia.
  - intros H. now apply Forall_take, Forall_drop.
Qed.

Lemma rd_le_in (l : list Z) off n : 0 <= off -> 0 <= n -> off + n <= zlen l ->
  exists x, rd_le off n l = Ok x /\ (Forall u8 l -> 0 <= x < 256 ^ n).
Proof.
  intros Ho Hn Hl. destruct (slice_in l off n Ho Hn Hl) as (m & E & Hm & Hu). unfold rd_le. rewrite E.
  eexists. split; [reflexivity|]. intros H. rewrite <- Hm. now apply le_num_range, Hu.
Qed.

Lemma le_num_inj bs cs :
  Forall u8 bs -> Forall u8 cs -> length bs = length cs -> le_num bs = le_num cs -> bs = cs.
Proof.
  intros Hb. revert cs. induction Hb as [|b bs Hb Hbs IH]; intros [|c cs] Hc Hl E;
    simpl in *; try discriminate; [done|].
  apply Forall_cons_1 in Hc as [Hc Hcs]. unfold u8 in *.
  pose proof (le_num_range bs Hbs). pose proof (le_num_range cs Hcs).
  assert (b = c) as -> by lia. f_equal. apply IH; (done || lia).
Qed.

Lemma NoDup_fmap_inj_on {A B} (f : A -> B) l x y :
  NoDup (f <$> l) -> x ∈ l -> y ∈ l -> f x = f y -> x = y.
Proof.
  intros Hn Hx Hy E. apply list_elem_of_lookup in Hx as [i Hi]. apply list_elem_of_lookup in Hy as [j Hj].
  assert (i = j) as ->; [|congruence].
  eapply (NoDup_lookup (f <$> l)); [done|rewrite list_lookup_fmap, Hi; done|].
  rewrite list_lookup_fmap, Hj. simpl. now rewrite E.
Qed.

(** ** Automation of the development *)

Create HintDb lazyas.
Create Rewrite HintDb zlen.
#[export] Hint Rewrite @zlen_app @zlen_cons @zlen_nil @zlen_replicate @zlen_map : zlen.
#[export] Hint Resolve zlen_nonneg uwrap_small swrap_small : lazyas.

(** [zlen_lia] normalises lengths and closes the arithmetic. *)
Ltac zlen_lia := autorewrite with zlen in *; unfold zlen in *; simpl length in *; lia.

(** [by_check] proves a decidable closed statement by evaluation. *)
Ltac by_check := refine (bool_decide_eq_true_1 _ _); vm_compute; reflexivity.

(** [inv_bind H] opens one bind of a successful run. *)
Ltac inv_bind H :=
  let a := fresh "a" in let s := fresh "s" in let E := fresh "E" in
  first [ apply bind_inv in H as (a & s & E & H)
        | apply res_bind_inv in H as (a & E & H) ].

(** [cases] splits on the tests of the goal, keeping the equations. *)
Ltac cases :=
  repeat match goal with
  | |- context [bool_decide ?P] => case_bool_decide
  | |- context [if ?b then _ else _] => destruct b eqn:?
  end.

(** ** Finite sequences of transitions, for the components that are state
    machines *)

Section Reach.
Context {S L : Type} (step : S -> L -> S -> Prop).

Inductive steps : S -> list L -> S -> Prop :=
| steps_nil s : steps s [] s
| steps_cons s l s' ls s'' : step s l s' -> steps s' ls s'' -> steps s (l :: ls) s''.

Lemma steps_inv (I : S -> Prop) :
  (forall s l s', I s -> step s l s' -> I s') ->
  forall s ls s', I s -> steps s ls s' -> I s'.
Proof. intros Hs s ls s' HI H. induction H; eauto. Qed.

Lemma steps_app s ls s' ls' s'' : steps s ls s' -> steps s' ls' s'' -> steps s (ls ++ ls') s''.
Proof. induction 1; simpl; eauto using steps. Qed.
End Reach.
