(* ===== verification/CString.v ===== *)
(** * The C standard library functions the program uses on bytes and strings

    Bytes are integers of [0, 256); a buffer is a list of bytes and a C string
    in a buffer ends at its first 0.  [sprintf] conversions are functions that
    return the bytes they print; [sprintf_at] stores them, with the final 0,
    and fails when they do not fit.  Used by every component that builds or
    parses text: [fnii_roam.c], [ap_survey.c], [infoCollect.c]. *)

From stdpp Require Import base list numbers strings.
From Stdlib Require Import ZArith Lia Ascii.
From S2P Require Import Prelude.
Local Open Scope Z_scope.

(** ** Literals *)

Fixpoint str (s : string) : list Z :=
  match s with
  | EmptyString => []
  | String a s' => Z.of_N (N_of_ascii a) :: str s'
  end.

(** ** Digits *)

Definition digit_val (c : Z) : option Z :=
  if bool_decide (48 <= c <= 57) then Some (c - 48)
  else if bool_decide (97 <= c <= 102) then Some (c - 87)
  else if bool_decide (65 <= c <= 70) then Some (c - 55)
  else None.

Definition digit_in (b c : Z) : option Z :=
  match digit_val c with
  | Some d => if bool_decide (d < b) then Some d else None
  | None => None
  end.

Definition digit_chr (d : Z) : Z := if bool_decide (d < 10) then 48 + d else 87 + d.

Fixpoint digits_fuel (b : Z) (fuel : nat) (n : Z) : list Z :=
  match fuel with
  | O => []
  | S f => if bool_decide (n < b) then [digit_chr n]
           else digits_fuel b f (n / b) ++ [digit_chr (n mod b)]
  end.

(** The digits of [n >= 0] in base [b], most significant first. *)
Definition digits (b n : Z) : list Z := digits_fuel b (S (Z.to_nat (Z.log2 n))) n.

(** ** [printf] conversions *)

(** [%0wd] (and [%d] with [w = 0]): sign first, then zeros up to width [w]. *)
Definition fmt_d (w : nat) (z : Z) : list Z :=
  let sign := if bool_decide (z < 0) then [45] else [] in
  let ds := digits 10 (Z.abs z) in
  sign ++ replicate (w - length sign - length ds) 48 ++ ds.

(** [%0wx] of an unsigned value. *)
Definition fmt_x (w : nat) (n : Z) : list Z :=
  let ds := digits 16 n in replicate (w - length ds) 48 ++ ds.

(** [%02x%02x%02x%02x%02x%02x] of a MAC address. *)
Definition fmt_mac (m : list Z) : list Z := concat (map (fmt_x 2) m).

(** ** [strtol], [atoi] *)

Definition is_space (c : Z) : bool := bool_decide (c = 32 \/ 9 <= c <= 13).

Fixpoint skip_spaces (s : list Z) : list Z :=
  match s with
  | c :: s' => if is_space c then skip_spaces s' else s
  | [] => []
  end.

Fixpoint read_digits (b acc : Z) (s : list Z) : Z :=
  match s with
  | c :: s' => match digit_in b c with
               | Some d => read_digits b (acc * b + d) s'
               | None => acc
               end
  | [] => acc
  end.

Definition clamp32 (z : Z) : Z := Z.max (- 2 ^ 31) (Z.min (2 ^ 31 - 1) z).

(** In base 16 an optional [0x] prefix is skipped when a digit follows it. *)
Definition skip_0x (b : Z) (s : list Z) : list Z :=
  match s with
  | 48 :: x :: c :: s' =>
      if bool_decide (b = 16 /\ (x = 120 \/ x = 88)) then
        match digit_in 16 c with Some _ => c :: s' | None => s end
      else s
  | _ => s
  end.

(** [strtol(s, NULL, b)] with a 32-bit [long]: out of range values saturate. *)
Definition strtol (b : Z) (s : list Z) : Z :=
  clamp32 (match skip_spaces s with
           | 45 :: s' => - read_digits b 0 (skip_0x b s')
           | 43 :: s' => read_digits b 0 (skip_0x b s')
           | s' => read_digits b 0 (skip_0x b s')
           end).

Definition atoi (s : list Z) : Z := strtol 10 s.

(** ** [sscanf] *)

Fixpoint span_digits (b : Z) (s : list Z) : list Z * list Z :=
  match s with
  | c :: s' => match digit_in b c with
               | Some _ => let '(d, r) := span_digits b s' in (c :: d, r)
               | None => ([], s)
               end
  | [] => ([], [])
  end.

Definition scan_sign (s : list Z) : bool * list Z :=
  match s with
  | 45 :: t => (true, t)
  | 43 :: t => (false, t)
  | t => (false, t)
  end.

(** [sscanf] of one [%u] (base 10) or [%x] (base 16): the 32-bit value and the
    rest of the text, when there is a number. *)
Definition scan_num (b : Z) (s : list Z) : option (Z * list Z) :=
  let '(neg, t) := scan_sign (skip_spaces s) in
  match span_digits b (skip_0x b t) with
  | ([], _) => None
  | (ds, rest) =>
      let n := Z.min (read_digits b 0 ds) (2 ^ 32 - 1) in
      Some (uwrap 32 (if neg : bool then - n else n), rest)
  end.

(** ** Strings in buffers *)

(** The bytes of the C string at the start of a buffer. *)
Fixpoint cstr (buf : list Z) : list Z :=
  match buf with
  | c :: buf' => if bool_decide (c = 0) then [] else c :: cstr buf'
  | [] => []
  end.

(** [strlen]: reading past the end of a buffer with no 0 is undefined. *)
Definition strlen (buf : list Z) : res Z :=
  if bool_decide (0 ∈ buf) then Ok (zlen (cstr buf)) else Ub OutOfBounds.

(** [memcmp(a, b, n) == 0]; both objects must hold [n] bytes. *)
Definition memeq (a b : list Z) (n : Z) : res bool :=
  let! x := slice 0 n a in
  let! y := slice 0 n b in
  Ok (bool_decide (x = y)).

Fixpoint prefix_of (p s : list Z) : bool :=
  match p, s with
  | [], _ => true
  | a :: p', b :: s' => bool_decide (a = b) && prefix_of p' s'
  | _ :: _, [] => false
  end.

(** [strstr]: the suffix of [s] that starts with [p]. *)
Fixpoint strstr (s p : list Z) : option (list Z) :=
  if prefix_of p s then Some s
  else match s with [] => None | _ :: s' => strstr s' p end.

(** [strncmp(p, s, strlen(p)) == 0] for a literal [p] and a string [s]. *)
Definition strneq (p s : list Z) : bool := prefix_of p s.

(** [sprintf(buf + off, ...)] that prints [s]. *)
Definition sprintf_at (off : Z) (s buf : list Z) : res (list Z) := splice off (s ++ [0]) buf.

(** [snprintf(buf, n, ...)]: at most [n - 1] bytes of [s] and a final 0. *)
Definition snprintf (n : nat) (s buf : list Z) : res (list Z) :=
  splice 0 (take (n - 1) s ++ [0]) buf.

(** ** Digits: facts *)

Lemma digit_val_chr d : 0 <= d < 16 -> digit_val (digit_chr d) = Some d.
Proof.
  intros H. unfold digit_val, digit_chr. cases; try lia; f_equal; lia.
Qed.

Lemma digit_in_chr b d : b <= 16 -> 0 <= d < b -> digit_in b (digit_chr d) = Some d.
Proof.
  intros Hb H. unfold digit_in. rewrite digit_val_chr by lia.
  now rewrite bool_decide_eq_true_2 by lia.
Qed.

Lemma digit_chr_u8 d : 0 <= d < 16 -> 48 <= digit_chr d <= 102.
Proof. intros H. unfold digit_chr. cases; lia. Qed.

Lemma digits_fuel_read b f n acc rest :
  2 <= b <= 16 -> 0 <= n -> n < 2 ^ Z.of_nat f ->
  read_digits b acc (digits_fuel b f n ++ rest)
  = read_digits b (acc * b ^ zlen (digits_fuel b f n) + n) rest.
Proof.
  intros Hb. revert n acc rest. induction f as [|f IH]; intros n acc rest Hn Hf.
  - change (2 ^ Z.of_nat 0) with 1 in Hf. simpl digits_fuel. rewrite zlen_nil, Z.pow_0_r.
    simpl. f_equal. lia.
  - simpl digits_fuel. case_bool_decide as Hd.
    + simpl app. simpl read_digits. rewrite digit_in_chr by lia.
      change (zlen [_]) with 1. now rewrite Z.pow_1_r.
    + rewrite <- app_assoc, IH.
      * simpl. pose proof (Z.mod_pos_bound n b ltac:(lia)).
        rewrite digit_in_chr by lia. f_equal. rewrite zlen_app.
        change (zlen [_]) with 1. rewrite Z.pow_add_r, Z.pow_1_r by (unfold zlen; lia).
        pose proof (Z.div_mod n b ltac:(lia)). nia.
      * apply Z.div_pos; lia.
      * rewrite Nat2Z.inj_succ, Z.pow_succ_r in Hf by lia.
        apply Z.div_lt_upper_bound; nia.
Qed.

Lemma digits_fuel_enough n : 0 <= n -> n < 2 ^ Z.of_nat (S (Z.to_nat (Z.log2 n))).
Proof.
  intros Hn. rewrite Nat2Z.inj_succ, Z2Nat.id by apply Z.log2_nonneg.
  destruct (Z.eq_dec n 0) as [->|]; [simpl; lia|].
  apply Z.log2_spec. lia.
Qed.

Lemma digits_read b n acc rest :
  2 <= b <= 16 -> 0 <= n ->
  read_digits b acc (digits b n ++ rest) = read_digits b (acc * b ^ zlen (digits b n) + n) rest.
Proof. intros. apply digits_fuel_read; auto using digits_fuel_enough. Qed.

Lemma digits_fuel_length b f n k :
  2 <= b -> 0 <= n -> n < b ^ Z.of_nat (S k) ->
  (length (digits_fuel b f n) <= S k)%nat.
Proof.
  intros Hb. revert n k. induction f as [|f IH]; intros n k Hn Hk; simpl; [lia|].
  case_bool_decide as Hd; simpl; [lia|].
  rewrite length_app. simpl.
  destruct k as [|k].
  - change (Z.of_nat 1) with 1 in Hk. rewrite Z.pow_1_r in Hk. lia.
  - specialize (IH (n / b) k ltac:(apply Z.div_pos; lia)).
    rewrite Nat2Z.inj_succ, Z.pow_succ_r in Hk by lia.
    pose proof (Z.div_lt_upper_bound n b (b ^ Z.of_nat (S k)) ltac:(lia) Hk). lia.
Qed.

Lemma digits_length b n k :
  2 <= b -> 0 <= n -> n < b ^ Z.of_nat (S k) -> (length (digits b n) <= S k)%nat.
Proof. apply digits_fuel_length. Qed.

Lemma digits_chars b n : 2 <= b <= 16 -> 0 <= n ->
  Forall (fun c => exists d, 0 <= d < b /\ c = digit_chr d) (digits b n).
Proof.
  intros Hb. unfold digits. generalize (S (Z.to_nat (Z.log2 n))) as f. intros f. revert n.
  induction f as [|f IH]; intros n Hn; simpl; [constructor|].
  case_bool_decide as Hd.
  - repeat constructor. exists n. lia.
  - apply Forall_app. split.
    + apply IH. apply Z.div_pos; lia.
    + repeat constructor. exists (n mod b). split; [apply Z.mod_pos_bound; lia|done].
Qed.

Lemma digits_nonempty b n : digits b n <> [].
Proof.
  unfold digits. simpl. case_bool_decide; [done|]. intros E.
  apply app_eq_nil in E as [_ E]. discriminate.
Qed.

(** ** Conversions: widths and round trips *)

(** Every byte value, checked by evaluation. *)
Lemma u8_forall (P : Z -> Prop) `{!forall b, Decision (P b)} :
  forallb (fun b => bool_decide (P b)) (seqZ 0 256) = true -> forall b, u8 b -> P b.
Proof.
  intros HF b Hb. rewrite forallb_forall in HF. eapply bool_decide_eq_true_1, HF.
  apply list_elem_of_In, elem_of_seqZ. unfold u8 in Hb. lia.
Qed.

Lemma fmt_x2_length b : u8 b -> length (fmt_x 2 b) = 2%nat.
Proof. revert b. apply (u8_forall (fun b => length (fmt_x 2 b) = 2%nat)). vm_compute. reflexivity. Qed.

(** A byte printed with [%02x] and read back with [strtol(.., 16)]. *)
Lemma strtol_fmt_x2 b : u8 b -> strtol 16 (fmt_x 2 b ++ [0]) = b.
Proof. revert b. apply (u8_forall (fun b => strtol 16 (fmt_x 2 b ++ [0]) = b)). vm_compute. reflexivity. Qed.

Lemma fmt_x2_u8 b : u8 b -> Forall (fun c => 48 <= c <= 102) (fmt_x 2 b).
Proof.
  intros Hb. unfold fmt_x. apply Forall_app. split.
  - apply Forall_replicate. lia.
  - eapply Forall_impl; [apply digits_chars; unfold u8 in Hb; lia|].
    intros c (d & Hd & ->). now apply digit_chr_u8.
Qed.

Lemma fmt_mac_length m : Forall u8 m -> length (fmt_mac m) = (2 * length m)%nat.
Proof.
  unfold fmt_mac. induction 1 as [|b m Hb Hm IH]; simpl; [done|].
  rewrite length_app, IH, fmt_x2_length by done. lia.
Qed.

Lemma fmt_mac_chars m : Forall u8 m -> Forall (fun c => 48 <= c <= 102) (fmt_mac m).
Proof.
  unfold fmt_mac. induction 1 as [|b m Hb Hm IH]; simpl; [constructor|].
  apply Forall_app. auto using fmt_x2_u8.
Qed.

Lemma fmt_d_nonneg_length (w : nat) z :
  (1 <= w)%nat -> 0 <= z < 10 ^ Z.of_nat w -> length (fmt_d w z) = w.
Proof.
  intros Hw Hz. unfold fmt_d. rewrite bool_decide_eq_false_2 by lia. simpl.
  destruct w as [|k]; [lia|].
  pose proof (digits_length 10 z k ltac:(lia) ltac:(lia) ltac:(lia)) as Hl.
  rewrite length_app, length_replicate, Z.abs_eq by lia. lia.
Qed.

Lemma fmt_d_neg_length (w : nat) z :
  (2 <= w)%nat -> - 10 ^ Z.of_nat (w - 1) < z < 0 -> length (fmt_d w z) = w.
Proof.
  intros Hw Hz. unfold fmt_d. rewrite bool_decide_eq_true_2 by lia. simpl.
  destruct w as [|[|k]]; [lia..|].
  replace (S (S k) - 1)%nat with (S k) in * by lia.
  pose proof (digits_length 10 (Z.abs z) k ltac:(lia) ltac:(lia) ltac:(lia)) as Hl.
  rewrite length_app, length_replicate. lia.
Qed.

Lemma fmt_d_chars (w : nat) z : Forall (fun c => 45 <= c <= 102) (fmt_d w z).
Proof.
  unfold fmt_d. repeat apply Forall_app_2.
  - case_bool_decide; repeat constructor; lia.
  - apply Forall_replicate. lia.
  - eapply Forall_impl; [apply digits_chars; lia|].
    intros c (d & Hd & ->). pose proof (digit_chr_u8 d ltac:(lia)). lia.
Qed.

(** What may follow a number so that its reading stops there. *)
Definition stops (b : Z) (rest : list Z) : Prop :=
  match rest with [] => True | c :: _ => digit_in b c = None end.

Lemma read_digits_stop b acc rest : stops b rest -> read_digits b acc rest = acc.
Proof. destruct rest as [|c rest]; simpl; [done|]. now intros ->. Qed.

Lemma read_digits_zeros n rest :
  read_digits 10 0 (replicate n 48 ++ rest) = read_digits 10 0 rest.
Proof. induction n; simpl; auto. Qed.

Lemma strtol10_digit c rest :
  48 <= c <= 57 -> strtol 10 (c :: rest) = clamp32 (read_digits 10 0 (c :: rest)).
Proof.
  intros H. unfold strtol. f_equal.
  assert (c = 48 \/ c = 49 \/ c = 50 \/ c = 51 \/ c = 52 \/ c = 53 \/ c = 54 \/ c = 55
          \/ c = 56 \/ c = 57) as Hc by lia.
  repeat (destruct Hc as [->|Hc]); try subst c; try reflexivity.
  simpl. destruct rest as [|x [|y rest]]; reflexivity.
Qed.

(** An [int] printed with [%0wd] is read back by [atoi]. *)
Lemma atoi_fmt_d (w : nat) z rest :
  0 <= z < 2 ^ 31 -> stops 10 rest -> atoi (fmt_d w z ++ rest) = z.
Proof.
  intros Hz Hs. unfold atoi.
  assert (exists c t, fmt_d w z = c :: t /\ 48 <= c <= 57) as (c & t & E & Hc).
  { unfold fmt_d. rewrite bool_decide_eq_false_2 by lia. simpl app.
    match goal with |- context [replicate ?k 48] => destruct k end; simpl.
    - pose proof (digits_chars 10 (Z.abs z) ltac:(lia) ltac:(lia)) as HF.
      pose proof (digits_nonempty 10 (Z.abs z)).
      destruct (digits 10 (Z.abs z)) as [|c t]; [done|].
      apply Forall_cons in HF as [(d & Hd & ->) _]. exists (digit_chr d), t.
      split; [done|]. unfold digit_chr. rewrite bool_decide_eq_true_2; lia.
    - eexists 48, _. split; [done|lia]. }
  rewrite E. simpl app. rewrite strtol10_digit by done. rewrite app_comm_cons, <- E.
  unfold fmt_d. rewrite bool_decide_eq_false_2 by lia. simpl app.
  rewrite <- app_assoc, read_digits_zeros, digits_read by lia.
  rewrite read_digits_stop by done. unfold clamp32. lia.
Qed.

(** ** [sscanf]: facts *)

Lemma span_digits_all b ds rest : Forall (fun c => digit_in b c <> None) ds -> stops b rest ->
  span_digits b (ds ++ rest) = (ds, rest).
Proof.
  intros HF Hs. induction HF as [|c ds Hc HF IH]; simpl.
  - destruct rest as [|c rest]; simpl in *; [done|]. now rewrite Hs.
  - destruct (digit_in b c); [|done]. now rewrite IH.
Qed.

Lemma scan_sign_none c s : c <> 45 -> c <> 43 -> scan_sign (c :: s) = (false, c :: s).
Proof.
  intros H1 H2. unfold scan_sign. destruct c as [|p|p]; try done.
  do 6 (try destruct p as [p|p|]); done.
Qed.

Lemma skip_0x_10 s : skip_0x 10 s = s.
Proof.
  unfold skip_0x. destruct s as [|c [|x [|y s]]]; try done; destruct c as [|p|p]; try done;
    do 6 (try destruct p as [p|p|]); done.
Qed.

Lemma skip_0x_no_x b c x s : x <> 120 -> x <> 88 -> skip_0x b (c :: x :: s) = c :: x :: s.
Proof.
  intros H1 H2. unfold skip_0x. rewrite bool_decide_eq_false_2 by lia.
  destruct c as [|p|p]; try done; do 6 (try destruct p as [p|p|]); try done; now destruct s.
Qed.

(** A number in decimal after a tab, as the scanning functions see it. *)
Lemma dec_scanned n rest : 0 <= n -> stops 10 rest ->
  scan_sign (skip_spaces (9 :: fmt_d 0 n ++ rest)) = (false, fmt_d 0 n ++ rest) /\
  span_digits 10 (fmt_d 0 n ++ rest) = (fmt_d 0 n, rest) /\
  read_digits 10 0 (fmt_d 0 n) = n /\ fmt_d 0 n <> [].
Proof.
  intros Hn Hs.
  assert (fmt_d 0 n = digits 10 n) as ->
    by (unfold fmt_d; rewrite bool_decide_eq_false_2, Z.abs_eq by lia; done).
  pose proof (digits_chars 10 n ltac:(lia) ltac:(lia)) as HF.
  pose proof (digits_nonempty 10 n) as Hne.
  split; [|split; [|split; [|done]]].
  - destruct (digits 10 n) as [|c t]; [done|].
    assert (48 <= c <= 57) as Hc.
    { apply Forall_cons in HF as [(d & Hd & ->) _]. unfold digit_chr.
      rewrite bool_decide_eq_true_2 by lia. lia. }
    assert (skip_spaces (9 :: (c :: t) ++ rest) = c :: t ++ rest) as ->.
    { simpl. unfold is_space at 1. rewrite bool_decide_eq_false_2 by lia. done. }
    now rewrite scan_sign_none by lia.
  - apply span_digits_all; [|done]. eapply Forall_impl; [exact HF|].
    intros c (d & Hd & ->). now rewrite digit_in_chr by lia.
  - rewrite <- (app_nil_r (digits 10 n)), digits_read by lia. simpl. lia.
Qed.

(** [%u] after blanks reads back a number printed with [%u]. *)
Lemma scan_num_dec n rest : 0 <= n < 2 ^ 32 -> stops 10 rest ->
  scan_num 10 (9 :: fmt_d 0 n ++ rest) = Some (n, rest).
Proof.
  intros Hn Hs. destruct (dec_scanned n rest ltac:(lia) Hs) as (H1 & H2 & H3 & H4).
  unfold scan_num. rewrite H1, skip_0x_10, H2.
  destruct (fmt_d 0 n); [done|]. rewrite H3, Z.min_l by lia. now rewrite uwrap_small.
Qed.

Lemma fmt_x2_digits b : u8 b -> fmt_x 2 b = [digit_chr (b / 16); digit_chr (b mod 16)].
Proof.
  revert b. apply (u8_forall (fun b => fmt_x 2 b = [digit_chr (b / 16); digit_chr (b mod 16)])).
  vm_compute. reflexivity.
Qed.

(** A byte printed with [%02x] is read back with [%x]. *)
Lemma scan_num_hex b rest : u8 b -> stops 16 rest ->
  scan_num 16 (fmt_x 2 b ++ rest) = Some (b, rest).
Proof.
  intros Hb Hs. rewrite fmt_x2_digits by done.
  assert (forall x y, 0 <= x < 16 -> 0 <= y < 16 ->
    scan_num 16 (digit_chr x :: digit_chr y :: rest) = Some (x * 16 + y, rest)) as H.
  { intros x y Hx Hy. pose proof (digit_chr_u8 x Hx) as Rx. pose proof (digit_chr_u8 y Hy) as Ry.
    unfold scan_num. simpl skip_spaces. unfold is_space. rewrite bool_decide_eq_false_2 by lia.
    rewrite scan_sign_none by lia.
    assert (skip_0x 16 (digit_chr x :: digit_chr y :: rest) = digit_chr x :: digit_chr y :: rest) as ->.
    { apply skip_0x_no_x; unfold digit_chr; case_bool_decide; lia. }
    change (digit_chr x :: digit_chr y :: rest) with ([digit_chr x; digit_chr y] ++ rest).
    rewrite (span_digits_all 16 [digit_chr x; digit_chr y]).
    - simpl read_digits. rewrite !digit_in_chr by lia. simpl read_digits.
      rewrite Z.min_l by lia. rewrite uwrap_small; [done|lia].
    - repeat constructor; rewrite digit_in_chr by lia; done.
    - done. }
  simpl app. rewrite H; [|unfold u8 in Hb; change (2^8) with 256 in Hb..].
  - do 2 f_equal. rewrite (Z.div_mod b 16) at 3 by lia. lia.
  - split; [apply Z.div_pos; lia|apply Z.div_lt_upper_bound; lia].
  - apply Z.mod_pos_bound. lia.
Qed.

(** ** Strings in buffers: facts *)

Lemma cstr_app s rest : 0 ∉ s -> cstr (s ++ 0 :: rest) = s.
Proof.
  induction s as [|c s IH]; simpl; intros H; [done|].
  apply not_elem_of_cons in H as [Hc Hs].
  rewrite bool_decide_eq_false_2 by done. now rewrite IH.
Qed.

Lemma cstr_all s : 0 ∉ s -> cstr s = s.
Proof.
  induction s as [|c s IH]; simpl; intros H; [done|].
  apply not_elem_of_cons in H as [Hc Hs].
  rewrite bool_decide_eq_false_2 by done. now rewrite IH.
Qed.

Lemma cstr_no0 s : 0 ∉ cstr s.
Proof.
  induction s as [|c s IH]; simpl; [apply not_elem_of_nil|].
  case_bool_decide; [apply not_elem_of_nil|]. apply not_elem_of_cons. auto.
Qed.

Lemma strlen_app s rest : 0 ∉ s -> strlen (s ++ 0 :: rest) = Ok (zlen s).
Proof.
  intros H. unfold strlen.
  rewrite bool_decide_eq_true_2 by (apply elem_of_app; right; constructor).
  now rewrite cstr_app.
Qed.

Lemma chars_no0 s : Forall (fun c => 45 <= c <= 102) s -> 0 ∉ s.
Proof. intros H Hin. rewrite Forall_forall in H. specialize (H 0 Hin). lia. Qed.

Lemma prefix_of_app p s : prefix_of p (p ++ s) = true.
Proof. induction p as [|a p IH]; simpl; [done|]. now rewrite bool_decide_eq_true_2 by done. Qed.

Lemma prefix_of_spec p s : prefix_of p s = true <-> exists t, s = p ++ t.
Proof.
  split.
  - revert s. induction p as [|a p IH]; intros [|b s] H; simpl in *; try discriminate; eauto.
    apply andb_true_iff in H as [Ha Hp]. apply bool_decide_eq_true in Ha as ->.
    destruct (IH _ Hp) as [t ->]. eauto.
  - intros [t ->]. apply prefix_of_app.
Qed.

Lemma sprintf_at_fresh (s : list Z) (n : nat) :
  (length s < n)%nat -> sprintf_at 0 s (replicate n 0) = Ok (s ++ replicate (n - length s) 0).
Proof.
  intros H. unfold sprintf_at, splice, zlen.
  rewrite bool_decide_eq_true_2 by (rewrite length_app, length_replicate; simpl; lia).
  f_equal. simpl. rewrite <- app_assoc. f_equal.
  rewrite length_app. simpl. rewrite drop_replicate.
  change ([0] ++ ?l) with (0 :: l).
  replace (n - length s)%nat with (S (n - (length s + 1)))%nat by lia. done.
Qed.

(** The overflow: a text that does not fit is never stored. *)
Lemma sprintf_at_overflow (s : list Z) (n : nat) :
  (n <= length s)%nat -> sprintf_at 0 s (replicate n 0) = Ub OutOfBounds.
Proof.
  intros H. unfold sprintf_at, splice, zlen.
  rewrite bool_decide_eq_false_2; [done|]. rewrite length_app, length_replicate. simpl. lia.
Qed.

Create Rewrite HintDb fmt.
#[export] Hint Rewrite @length_app @length_replicate @length_cons : fmt.
