(* ===== verification/Queue.v ===== *)
(** * The send queue of the collector: [buffer.c]

    [DSQueue] is a circular buffer guarded by one mutex and one condition
    variable.  A call of [ds_queue_put] or [ds_queue_get] is a sequence of
    critical sections: one from [pthread_mutex_lock] to the first
    [pthread_cond_wait] or to the unlock, then one for each time the thread
    wakes up.  Module [DSQueue] models the data and each critical section as a
    function, module [Threads] the interleavings of any number of calls with
    [close] and spurious wake-ups. *)

From stdpp Require Import base list numbers.
From Stdlib Require Import ZArith Lia.
From S2P Require Import Prelude.
Local Open Scope Z_scope.

Module DSQueue.
Section WithItem.
Context {A : Type}.

(** [void *] items: [None] is NULL. *)
Record DSQueue : Type := mkQueue {
  buf : list (option A);
  pos : Z;
  length_ : Z;
  capacity : Z;
  closed : bool
}.

(** [ds_queue_create]: [junk] is what [malloc] leaves in the new buffer, whose
    size in bytes is computed in a 32-bit [size_t] with 4-byte pointers. *)
Definition ds_queue_create (junk : nat -> option A) (buffer_capacity : Z) : res DSQueue :=
  if bool_decide (buffer_capacity > 0) then
    let n := Z.to_nat (uwrap 32 (buffer_capacity * 4) / 4) in
    Ok {| buf := map junk (seq 0 n); pos := 0; length_ := 0;
          capacity := buffer_capacity; closed := false |}
  else Ub AssertFail.

(** [ds_queue_free]: the return codes of the two [pthread_*_destroy] calls
    decide between [exit(1)] ([None]) and the freed queue. *)
Definition ds_queue_free (mutex_errno cond_errno : Z) (queue : DSQueue) : option unit :=
  if bool_decide (mutex_errno <> 0) then None
  else if bool_decide (cond_errno <> 0) then None
  else Some tt.

Definition ds_queue_length (queue : DSQueue) : Z := swrap 32 (length_ queue).
Definition ds_queue_capacity (queue : DSQueue) : Z := swrap 32 (capacity queue).

Definition ds_queue_close (queue : DSQueue) : DSQueue :=
  {| buf := buf queue; pos := pos queue; length_ := length_ queue;
     capacity := capacity queue; closed := true |}.

(** The end of [ds_queue_put], after its wait loop. *)
Definition put_store (queue : DSQueue) (item : option A) : res DSQueue :=
  if closed queue then Ub AssertFail
  else if bool_decide (length_ queue < capacity queue) then
    if bool_decide (capacity queue = 0) then Ub DivByZero else
    let! buf' := wr (buf queue) (uwrap 32 (pos queue + length_ queue) mod capacity queue) item in
    Ok {| buf := buf'; pos := pos queue; length_ := uwrap 32 (length_ queue + 1);
          capacity := capacity queue; closed := closed queue |}
  else Ub AssertFail.

(** A critical section of [ds_queue_put] that starts at the wait loop: the
    thread waits ([None]) or completes. *)
Definition put_loop (queue : DSQueue) (item : option A) : res (option DSQueue) :=
  if bool_decide (length_ queue = capacity queue) then Ok None
  else let! q := put_store queue item in Ok (Some q).

(** [ds_queue_put], from its lock. *)
Definition ds_queue_put (queue : DSQueue) (item : option A) : res (option DSQueue) :=
  if closed queue then Ub AssertFail else put_loop queue item.

(** [ds_queue_get], from its lock and after each wake-up: the thread waits
    ([None]), or returns an item (NULL on a closed empty queue). *)
Definition ds_queue_get (queue : DSQueue) : res (option (option A * DSQueue)) :=
  if bool_decide (length_ queue = 0) then
    if closed queue then Ok (Some (None, queue)) else Ok None
  else if bool_decide (length_ queue <= capacity queue) then
    if bool_decide (length_ queue > 0) then
      if bool_decide (capacity queue = 0) then Ub DivByZero else
      let! item := rd (buf queue) (pos queue) in
      let! buf' := wr (buf queue) (pos queue) None in
      Ok (Some (item, {| buf := buf'; pos := uwrap 32 (pos queue + 1) mod capacity queue;
                         length_ := uwrap 32 (length_ queue - 1);
                         capacity := capacity queue; closed := closed queue |}))
    else Ub AssertFail
  else Ub AssertFail.

(** ** The abstract bounded FIFO and the representation *)

(** The items of the queue, oldest first: [length] slots from [pos] on. *)
Definition items (queue : DSQueue) : list (option A) :=
  map (fun i : nat => default None (buf queue !! Z.to_nat ((pos queue + Z.of_nat i) mod capacity queue)))
      (seq 0 (Z.to_nat (length_ queue))).

Definition wf (queue : DSQueue) : Prop :=
  0 < capacity queue < 2 ^ 30 /\ zlen (buf queue) = capacity queue /\
  0 <= pos queue < capacity queue /\ 0 <= length_ queue <= capacity queue.

Lemma items_length queue : wf queue -> zlen (items queue) = length_ queue.
Proof.
  intros (Hc & Hb & Hp & Hl). unfold items, zlen. rewrite length_map, length_seq. lia.
Qed.

Lemma mod_add_cases c x : 0 < c -> 0 <= x < 2 * c ->
  x mod c = if bool_decide (x < c) then x else x - c.
Proof.
  intros Hc Hx. case_bool_decide.
  - apply Z.mod_small. lia.
  - symmetry. apply (Z.mod_unique_pos x c 1 (x - c)); lia.
Qed.

(** Two different offsets below the capacity are different slots. *)
Lemma slot_inj c p i j : 0 < c -> 0 <= p < c -> 0 <= i < c -> 0 <= j < c ->
  (p + i) mod c = (p + j) mod c -> i = j.
Proof. intros Hc Hp Hi Hj. rewrite !mod_add_cases by lia. cases; lia. Qed.

Lemma slot_range c x : 0 < c -> 0 <= x mod c < c.
Proof. intros. apply Z.mod_pos_bound. lia. Qed.
Lemma items_lookup queue (i : nat) :
  wf queue -> Z.of_nat i < length_ queue ->
  items queue !! i = buf queue !! Z.to_nat ((pos queue + Z.of_nat i) mod capacity queue).
Proof.
  intros (Hc & Hb & Hp & Hl) Hi. unfold items.
  rewrite list_lookup_fmap, lookup_seq_lt by lia. simpl.
  pose proof (slot_range (capacity queue) (pos queue + Z.of_nat i) ltac:(lia)).
  destruct (lookup_lt_is_Some_2 (buf queue)
    (Z.to_nat ((pos queue + Z.of_nat i) mod capacity queue))) as [x ->]; [|done].
  unfold zlen in Hb. lia.
Qed.

(** An equality of queues' contents is one of lengths and slots. *)
Lemma items_eq queue (l : list (option A)) :
  wf queue -> zlen l = length_ queue ->
  (forall i : nat, Z.of_nat i < length_ queue ->
     buf queue !! Z.to_nat ((pos queue + Z.of_nat i) mod capacity queue) = l !! i) ->
  items queue = l.
Proof.
  intros Hwf Hl H. apply list_eq. intros i.
  destruct (decide (Z.of_nat i < length_ queue)) as [Hi|Hi].
  - rewrite items_lookup by done. auto.
  - pose proof (items_length queue Hwf). unfold zlen in *.
    rewrite !lookup_ge_None_2 by lia. done.
Qed.

Lemma create_ok junk cap :
  0 < cap < 2 ^ 30 ->
  exists q, ds_queue_create junk cap = Ok q /\ wf q /\ items q = [] /\
            closed q = false /\ capacity q = cap.
Proof.
  intros Hc. unfold ds_queue_create. rewrite bool_decide_eq_true_2 by lia.
  rewrite uwrap_small, Z.div_mul by lia.
  eexists. split; [done|]. unfold wf, items, zlen. simpl.
  rewrite length_map, length_seq. repeat split; try done; lia.
Qed.

Lemma put_store_ok q x :
  wf q -> closed q = false -> length_ q < capacity q ->
  exists q', put_store q x = Ok q' /\ wf q' /\ items q' = items q ++ [x] /\
             closed q' = false /\ capacity q' = capacity q.
Proof.
  intros Hwf Hcl Hlt. pose proof Hwf as (Hc & Hb & Hp & Hl). unfold put_store.
  rewrite Hcl. do 2 rewrite ?bool_decide_eq_true_2, ?bool_decide_eq_false_2 by lia.
  rewrite (uwrap_small 32 (pos q + _)) by lia.
  pose proof (slot_range (capacity q) (pos q + length_ q) ltac:(lia)) as Hs.
  rewrite wr_Ok by lia. simpl. rewrite uwrap_small by lia.
  set (q' := {| buf := _ |}). exists q'. split; [done|].
  assert (wf q') as Hwf'.
  { unfold wf, q'. simpl. unfold zlen in *. rewrite length_insert. lia. }
  split; [done|]. split; [|done]. apply items_eq; [done| |].
  - rewrite zlen_app, (items_length q Hwf). reflexivity.
  - unfold q'. simpl. intros i Hi.
    destruct (decide (Z.of_nat i = length_ q)) as [E|E].
    + rewrite <- E in *. rewrite list_lookup_insert_eq by (unfold zlen in *; lia).
      rewrite lookup_app_r by (pose proof (items_length q Hwf); unfold zlen in *; lia).
      pose proof (items_length q Hwf). unfold zlen in *.
      replace (i - length (items q))%nat with 0%nat by lia. done.
    + rewrite list_lookup_insert_ne.
      * rewrite lookup_app_l by (pose proof (items_length q Hwf); unfold zlen in *; lia).
        rewrite items_lookup by (done || lia). done.
      * intros Eq. apply E. apply Z2Nat.inj in Eq; [|lia|apply slot_range; lia].
        symmetry. apply (slot_inj (capacity q) (pos q)); lia.
Qed.

Lemma get_pop q :
  wf q -> 0 < length_ q ->
  exists x q', ds_queue_get q = Ok (Some (x, q')) /\ wf q' /\ items q = x :: items q' /\
               closed q' = closed q /\ capacity q' = capacity q.
Proof.
  intros Hwf Hlt. pose proof Hwf as (Hc & Hb & Hp & Hl). unfold ds_queue_get.
  do 4 rewrite ?bool_decide_eq_true_2, ?bool_decide_eq_false_2 by lia.
  destruct (lookup_lt_is_Some_2 (buf q) (Z.to_nat (pos q))) as [x Hx]; [unfold zlen in *; lia|].
  rewrite (rd_Some _ _ x) by (done || lia). simpl. rewrite wr_Ok by lia. simpl.
  rewrite (uwrap_small 32 (pos q + 1)), uwrap_small by lia.
  pose proof (slot_range (capacity q) (pos q + 1) ltac:(lia)) as Hs.
  set (q' := {| buf := _ |}). exists x, q'. split; [done|].
  assert (wf q') as Hwf'.
  { unfold wf, q'. simpl. unfold zlen in *. rewrite length_insert. lia. }
  split; [done|]. split; [|done]. apply items_eq; [done| |].
  - rewrite zlen_cons, (items_length q' Hwf'). unfold q'. simpl. lia.
  - intros [|i] Hi.
    + simpl. rewrite Z.add_0_r, Z.mod_small by lia. done.
    + simpl. rewrite items_lookup by (done || (unfold q'; simpl; lia)). unfold q'. simpl.
      rewrite Zplus_mod_idemp_l, list_lookup_insert_ne.
      * do 3 f_equal. lia.
      * intros Eq. apply Z2Nat.inj in Eq; [|lia|apply slot_range; lia].
        enough (0 = 1 + Z.of_nat i) by lia. apply (slot_inj (capacity q) (pos q)); try lia.
        rewrite Z.add_0_r, Z.mod_small by lia. rewrite Eq at 1. f_equal. lia.
Qed.

End WithItem.
Arguments DSQueue : clear implicits.
End DSQueue.

(** ** Interleavings of calls *)

Module Threads.
Import DSQueue.
Section WithItem.
Context {A : Type}.

Inductive call : Type := CPut (item : option A) | CGet.

(** Where a call is: not yet locked, asleep in [pthread_cond_wait], woken (to
    re-acquire the mutex and re-test its loop), or returned. *)
Inductive tstate : Type :=
| Start (c : call)
| Asleep (c : call)
| Awake (c : call)
| Returned (c : call) (r : option A).

Record sys : Type := mkSys { queue : DSQueue A; threads : list tstate }.

(** [pthread_cond_broadcast]: every sleeper is woken. *)
Definition wake (t : tstate) : tstate := match t with Asleep c => Awake c | _ => t end.

Inductive event : Type :=
| Tau                        (** a thread went to sleep, woke spuriously or locked *)
| EPut (x : option A)        (** an item was stored *)
| EGot (x : option A)        (** an item was taken *)
| ENull                      (** [ds_queue_get] returned NULL on a closed empty queue *)
| EClose.

(** One critical section of thread [i]. *)
Inductive step : sys -> event -> sys -> Prop :=
| step_put_first q ts i x q' :
    ts !! i = Some (Start (CPut x)) -> ds_queue_put q x = Ok (Some q') ->
    step (mkSys q ts) (EPut x) (mkSys q' (wake <$> <[i := Returned (CPut x) None]> ts))
| step_put_again q ts i x q' :
    ts !! i = Some (Awake (CPut x)) -> put_loop q x = Ok (Some q') ->
    step (mkSys q ts) (EPut x) (mkSys q' (wake <$> <[i := Returned (CPut x) None]> ts))
| step_put_wait_first q ts i x :
    ts !! i = Some (Start (CPut x)) -> ds_queue_put q x = Ok None ->
    step (mkSys q ts) Tau (mkSys q (<[i := Asleep (CPut x)]> ts))
| step_put_wait_again q ts i x :
    ts !! i = Some (Awake (CPut x)) -> put_loop q x = Ok None ->
    step (mkSys q ts) Tau (mkSys q (<[i := Asleep (CPut x)]> ts))
| step_get q ts i t x q' :
    ts !! i = Some t -> t = Start CGet \/ t = Awake CGet ->
    length_ q <> 0 -> ds_queue_get q = Ok (Some (x, q')) ->
    step (mkSys q ts) (EGot x) (mkSys q' (wake <$> <[i := Returned CGet x]> ts))
| step_get_null q ts i t q' :
    ts !! i = Some t -> t = Start CGet \/ t = Awake CGet ->
    length_ q = 0 -> ds_queue_get q = Ok (Some (None, q')) ->
    step (mkSys q ts) ENull (mkSys q' (<[i := Returned CGet None]> ts))
| step_get_wait q ts i t :
    ts !! i = Some t -> t = Start CGet \/ t = Awake CGet -> ds_queue_get q = Ok None ->
    step (mkSys q ts) Tau (mkSys q (<[i := Asleep CGet]> ts))
| step_close q ts :
    step (mkSys q ts) EClose (mkSys (ds_queue_close q) (wake <$> ts))
| step_spurious q ts i c :
    ts !! i = Some (Asleep c) -> step (mkSys q ts) Tau (mkSys q (<[i := Awake c]> ts)).

Definition puts (l : list event) : list (option A) :=
  omap (fun e => match e with EPut x => Some x | _ => None end) l.
Definition gots (l : list event) : list (option A) :=
  omap (fun e => match e with EGot x => Some x | _ => None end) l.

(** What a sleeper may rely on: a consumer sleeps only on an open empty queue,
    a producer only on a full one. *)
Definition sleep_ok (q : DSQueue A) (t : tstate) : Prop :=
  match t with
  | Asleep CGet => items q = [] /\ closed q = false
  | Asleep (CPut _) => zlen (items q) = capacity q
  | _ => True
  end.

Definition inv (s : sys) : Prop :=
  wf (queue s) /\ Forall (sleep_ok (queue s)) (threads s).

Lemma items_nil (q : DSQueue A) : wf q -> length_ q = 0 <-> items q = [].
Proof.
  intros H. pose proof (items_length q H). unfold zlen in *.
  destruct (items q); simpl in *; split; intros; (lia || done).
Qed.

Lemma wake_sleep_ok (q : DSQueue A) ts : Forall (sleep_ok q) (wake <$> ts).
Proof. apply Forall_fmap, Forall_true. intros [[]|[]|[]|[]]; exact I. Qed.

Lemma insert_sleep_ok (q : DSQueue A) ts i t : Forall (sleep_ok q) ts -> sleep_ok q t -> Forall (sleep_ok q) (<[i := t]> ts).
Proof. intros. now apply Forall_insert. Qed.

Lemma put_loop_inv (q : DSQueue A) x o :
  wf q -> put_loop q x = Ok o ->
  match o with
  | None => zlen (items q) = capacity q
  | Some q' => wf q' /\ items q' = items q ++ [x] /\ closed q = false
  end.
Proof.
  intros Hwf. unfold put_loop. case_bool_decide as H.
  - intros [= <-]. rewrite items_length by done. done.
  - destruct (closed q) eqn:Hcl.
    { unfold put_store. rewrite Hcl. discriminate. }
    pose proof Hwf as (_ & _ & _ & Hl).
    destruct (put_store_ok q x Hwf Hcl ltac:(lia)) as (q' & -> & Hwf' & Hit & _).
    intros [= <-]. auto.
Qed.

Lemma put_inv (q : DSQueue A) x o :
  wf q -> ds_queue_put q x = Ok o ->
  match o with
  | None => zlen (items q) = capacity q
  | Some q' => wf q' /\ items q' = items q ++ [x] /\ closed q = false
  end.
Proof.
  intros Hwf H. apply put_loop_inv; [done|]. unfold ds_queue_put in H.
  now destruct (closed q).
Qed.

Lemma get_inv (q : DSQueue A) o :
  wf q -> ds_queue_get q = Ok o ->
  match o with
  | None => items q = [] /\ closed q = false
  | Some (x, q') => wf q' /\
      (items q = x :: items q' /\ length_ q <> 0 \/
       x = None /\ q' = q /\ items q = [] /\ length_ q = 0 /\ closed q = true)
  end.
Proof.
  intros Hwf. destruct (decide (length_ q = 0)) as [E|E].
  - pose proof (proj1 (items_nil q Hwf) E). unfold ds_queue_get.
    rewrite bool_decide_eq_true_2 by done.
    destruct (closed q) eqn:Hcl; intros [= <-]; auto 10.
  - pose proof Hwf as (_ & _ & _ & Hl).
    destruct (get_pop q Hwf ltac:(lia)) as (x & q' & -> & Hwf' & Hit & _).
    intros [= <-]. auto.
Qed.

Lemma step_preserves s e s' : inv s -> step s e s' ->
  inv s' /\
  items (queue s) ++ puts [e] = gots [e] ++ items (queue s').
Proof.
  intros [Hwf Hts] Hst.
  destruct Hst as [q ts i x q' Hi Hp|q ts i x q' Hi Hp|q ts i x Hi Hp|q ts i x Hi Hp
    |q ts i t x q' Hi Ht Hn Hg|q ts i t q' Hi Ht Hn Hg|q ts i t Hi Ht Hg|q ts|q ts i c Hi];
    unfold inv in *; simpl in *.
  1: apply put_inv in Hp as (Hwf' & Hit & _); [|done].
  2: apply put_loop_inv in Hp as (Hwf' & Hit & _); [|done].
  1,2: split; [split; [done|apply wake_sleep_ok]|done].
  1: apply put_inv in Hp; [|done].
  2: apply put_loop_inv in Hp; [|done].
  1,2: rewrite app_nil_r; split; [split; [done|now apply insert_sleep_ok]|done].
  - apply get_inv in Hg as (Hwf' & [[Hit _]|Hbad]); [|tauto|done].
    rewrite app_nil_r. split; [split; [done|apply wake_sleep_ok]|]. done.
  - apply get_inv in Hg as (Hwf' & [[_ Hbad]|(_ & -> & _)]); [done| |done].
    rewrite app_nil_r. split; [split; [done|now apply insert_sleep_ok]|done].
  - apply get_inv in Hg; [|done]. rewrite app_nil_r.
    split; [split; [done|now apply insert_sleep_ok]|done].
  - rewrite app_nil_r. split; [split; [done|apply wake_sleep_ok]|done].
  - rewrite app_nil_r. split; [split; [done|]|done].
    apply insert_sleep_ok; [done|exact I].
Qed.

Lemma start_inv (q : DSQueue A) (cs : list call) : wf q -> inv (mkSys q (Start <$> cs)).
Proof.
  intros Hq. split; [done|]. apply Forall_fmap, Forall_true. intros c. exact I.
Qed.

Lemma steps_fifo s l s' : inv s -> steps step s l s' ->
  inv s' /\ items (queue s) ++ puts l = gots l ++ items (queue s').
Proof.
  intros Hi Hs. revert Hi. induction Hs as [s|s e s1 l s2 H1 Hs IH]; intros Hi.
  - simpl. rewrite app_nil_r. auto.
  - destruct (step_preserves _ _ _ Hi H1) as [Hi1 E1]. destruct (IH Hi1) as [Hi2 E2].
    split; [done|]. change (e :: l) with ([e] ++ l). unfold puts, gots in *.
    rewrite !omap_app, app_assoc, E1, <- app_assoc, E2, app_assoc. done.
Qed.
End WithItem.
End Threads.

(** ** Statements *)

Import DSQueue Threads.

(** [ds_queue_put] on a well-formed queue appends the item when there is
    room, waits when the queue is full and aborts (failed assertion) when the
    queue is closed; it keeps the representation invariant, and never reads or
    writes outside the buffer. *)
Theorem ds_queue_put_spec {A} (q : DSQueue A) (x : option A) (Hwf : wf q) :
  match ds_queue_put q x with
  | Ub u => u = AssertFail /\ closed q = true
  | Ok None => closed q = false /\ zlen (items q) = capacity q
  | Ok (Some q') => closed q = false /\ zlen (items q) < capacity q /\
      wf q' /\ items q' = items q ++ [x] /\ capacity q' = capacity q /\ closed q' = false
  end.
Proof.
  pose proof (items_length q Hwf) as Hl. pose proof Hwf as (_ & _ & _ & Hr).
  unfold ds_queue_put, put_loop. destruct (closed q) eqn:Hcl; [done|].
  case_bool_decide as Hf; [split; [done|lia]|].
  destruct (put_store_ok q x Hwf Hcl ltac:(lia)) as (q' & -> & ? & ? & ? & ?).
  simpl. split; [done|]. split; [lia|]. auto.
Qed.

Definition q3 : DSQueue Z :=
  {| buf := [Some 7; None; Some 5]; pos := 2; length_ := 2; capacity := 3; closed := false |}.

Lemma ds_queue_put_spec_witness :
  items q3 = [Some 5; Some 7] /\
  match ds_queue_put q3 (Some 9) with
  | Ok (Some q') => items q' = [Some 5; Some 7; Some 9]
  | _ => False
  end.
Proof.
  split; [reflexivity|].
  pose proof (ds_queue_put_spec q3 (Some 9) ltac:(unfold wf, zlen; simpl; lia)) as H.
  vm_compute in H |- *. destruct H as (_ & _ & _ & H & _). reflexivity.
Defined.

(** [ds_queue_get] on a well-formed queue takes the oldest item; on an
    empty queue it waits while the queue is open and returns NULL at once when
    it is closed; it never fails. *)
Theorem ds_queue_get_spec {A} (q : DSQueue A) (Hwf : wf q) :
  match items q with
  | [] => ds_queue_get q = Ok (if closed q then Some (None, q) else None)
  | x :: xs => exists q', ds_queue_get q = Ok (Some (x, q')) /\ wf q' /\ items q' = xs /\
                          closed q' = closed q /\ capacity q' = capacity q
  end.
Proof.
  destruct (decide (length_ q = 0)) as [E|E].
  - rewrite (proj1 (items_nil q Hwf) E). unfold ds_queue_get.
    rewrite bool_decide_eq_true_2 by done. now destruct (closed q).
  - pose proof Hwf as (_ & _ & _ & Hl).
    destruct (get_pop q Hwf ltac:(lia)) as (x & q' & Hg & Hwf' & -> & Hc & Hk). eauto 10.
Qed.

Lemma ds_queue_get_spec_witness :
  exists q', ds_queue_get q3 = Ok (Some (Some 5, q')) /\ items q' = [Some 7].
Proof.
  pose proof (ds_queue_get_spec q3 ltac:(unfold wf, zlen; simpl; lia)) as H.
  change (items q3) with [Some 5; Some 7] in H. cbv iota beta in H.
  destruct H as (q' & H1 & _ & H2 & _). eauto.
Defined.

(** A run: a consumer sleeps on the empty queue, a producer stores and wakes
    it, the consumer takes the item. *)
Definition run_calls : list (call (A := Z)) := [CGet; CPut (Some 1)].
Definition run_q0 : DSQueue Z :=
  {| buf := [None; None]; pos := 0; length_ := 0; capacity := 2; closed := false |}.
Definition run_q1 : DSQueue Z :=
  {| buf := [Some 1; None]; pos := 0; length_ := 1; capacity := 2; closed := false |}.
Definition run_q2 : DSQueue Z :=
  {| buf := [None; None]; pos := 1; length_ := 0; capacity := 2; closed := false |}.

Lemma run_steps :
  steps step (mkSys run_q0 (Start <$> run_calls)) [Tau; EPut (Some 1); EGot (Some 1)]
    (mkSys run_q2 [Returned CGet (Some 1); Returned (CPut (Some 1)) None]).
Proof.
  eapply steps_cons; [apply (step_get_wait _ _ 0 (Start CGet)); auto; reflexivity|].
  eapply steps_cons; [apply (step_put_first _ _ 1 (Some 1) run_q1); reflexivity|].
  eapply steps_cons; [apply (step_get _ _ 0 (Awake CGet) _ run_q2); auto; reflexivity|].
  apply steps_nil.
Qed.

Lemma run_step1 :
  steps step (mkSys run_q0 (Start <$> run_calls)) [Tau]
    (mkSys run_q0 [Asleep CGet; Start (CPut (Some 1))]).
Proof.
  eapply steps_cons; [apply (step_get_wait _ _ 0 (Start CGet)); auto; reflexivity|].
  apply steps_nil.
Qed.

(** C13: over every interleaving of any number of producers and consumers,
    closings and spurious wake-ups that starts with an empty queue, the items
    taken followed by the items still queued are exactly the items stored, in
    the order in which they were stored: the queue is first in, first out,
    and loses or duplicates nothing. *)
Theorem queue_fifo {A} (junk : nat -> option A) (cap : Z) (calls : list call)
    (q : DSQueue A) (l : list event) (s : sys) :
  0 < cap < 2 ^ 30 -> ds_queue_create junk cap = Ok q ->
  steps step (mkSys q (Start <$> calls)) l s ->
  puts l = gots l ++ items (queue s).
Proof.
  intros Hc Hq Hs. destruct (create_ok junk cap Hc) as (q' & Hq' & Hwf & Hit & _).
  replace q' with q in * by congruence.
  destruct (steps_fifo _ _ _ (start_inv q calls Hwf) Hs) as [_ E].
  simpl in E. now rewrite Hit in E.
Qed.

Lemma queue_fifo_witness :
  puts (A := Z) [Tau; EPut (Some 1); EGot (Some 1)]
  = gots [Tau; EPut (Some 1); EGot (Some 1)] ++ items run_q2.
Proof.
  apply (queue_fifo (fun _ => None) 2 run_calls run_q0 _ _ ltac:(lia) eq_refl run_steps).
Defined.

(** C27: no wake-up is lost: in every state reachable from a new queue, a thread
    asleep in [ds_queue_get] faces an empty open queue and a thread asleep in
    [ds_queue_put] a full one, so nobody sleeps while it could proceed. *)
Theorem queue_no_lost_wakeup {A} (junk : nat -> option A) (cap : Z) (calls : list call)
    (q : DSQueue A) (l : list event) (s : sys) (i : nat) (c : call) :
  0 < cap < 2 ^ 30 -> ds_queue_create junk cap = Ok q ->
  steps step (mkSys q (Start <$> calls)) l s ->
  threads s !! i = Some (Asleep c) ->
  match c with
  | CGet => items (queue s) = [] /\ closed (queue s) = false
  | CPut _ => zlen (items (queue s)) = capacity (queue s)
  end.
Proof.
  intros Hc Hq Hs Hi. destruct (create_ok junk cap Hc) as (q' & Hq' & Hwf & Hit & _).
  replace q' with q in * by congruence.
  destruct (steps_fifo _ _ _ (start_inv q calls Hwf) Hs) as [[_ Hts] _].
  rewrite Forall_lookup in Hts. specialize (Hts _ _ Hi). now destruct c.
Qed.

Lemma queue_no_lost_wakeup_witness : items run_q0 = [] /\ closed run_q0 = false.
Proof.
  apply (queue_no_lost_wakeup (fun _ => None) 2 run_calls run_q0 _ _ 0 CGet ltac:(lia)
           eq_refl run_step1). reflexivity.
Defined.

(** A producer that went to sleep on a full queue and is woken after
    [ds_queue_close] made room does not store its item: the assertion after the
    wait loop fails and the process aborts, although [ds_queue_put] was called
    while the queue was open. *)
Theorem put_woken_after_close {A} (q : DSQueue A) (x y : option A) (xs : list (option A))
    (Hwf : wf q) (Hop : closed q = false) (Hit : items q = y :: xs)
    (Hfull : zlen (items q) = capacity q) :
  ds_queue_put q x = Ok None /\
  exists q', ds_queue_get (ds_queue_close q) = Ok (Some (y, q')) /\ put_loop q' x = Ub AssertFail.
Proof.
  pose proof (items_length q Hwf) as Hl. split.
  - unfold ds_queue_put, put_loop. rewrite Hop, bool_decide_eq_true_2 by lia. done.
  - assert (0 < length_ q) as Hpos by (rewrite <- Hl, Hit, zlen_cons; pose proof (zlen_nonneg xs); lia).
    destruct (get_pop (ds_queue_close q) Hwf Hpos) as (z & q' & Hg & Hwf' & Hit' & Hc & Hk).
    change (items (ds_queue_close q)) with (items q) in Hit'.
    rewrite Hit in Hit'. injection Hit' as <- Hxs. exists q'. split; [done|].
    unfold put_loop. rewrite bool_decide_eq_false_2.
    + unfold put_store. now rewrite Hc.
    + rewrite Hk. simpl. rewrite <- (items_length q' Hwf'), <- Hxs, <- Hfull, Hit, zlen_cons. lia.
Qed.

Lemma put_woken_after_close_witness :
  put_loop {| buf := [None; Some 6]; pos := 1; length_ := 1; capacity := 2; closed := true |}
    (Some 8) = Ub AssertFail.
Proof.
  destruct (put_woken_after_close
    {| buf := [Some 5; Some 6]; pos := 0; length_ := 2; capacity := 2; closed := false |}
    (Some 8) (Some 5) [Some 6] ltac:(unfold wf, zlen; simpl; lia) eq_refl eq_refl eq_refl)
    as (_ & q' & Hg & Hp).
  vm_compute in Hg. injection Hg as <-. exact Hp.
Defined.
