(* ===== verification/Murmur.v ===== *)
(** * MurmurHash3: [murmur.c]

    The three hash functions of the collector, on keys that are lists of
    bytes.  Words are integers with their wrap-around written out; blocks are
    read in little-endian order (the target is a little-endian MIPS). *)

From stdpp Require Import base list numbers.
From Stdlib Require Import ZArith Lia.
From S2P Require Import Prelude.
Local Open Scope Z_scope.

Definition rotl32 (x r : Z) : Z :=
  Z.lor (uwrap 32 (Z.shiftl x r)) (Z.shiftr x (32 - r)).
Definition rotl64 (x r : Z) : Z :=
  Z.lor (uwrap 64 (Z.shiftl x r)) (Z.shiftr x (64 - r)).

Definition fmix32 (h : Z) : Z :=
  let h := Z.lxor h (Z.shiftr h 16) in
  let h := uwrap 32 (h * 0x85ebca6b) in
  let h := Z.lxor h (Z.shiftr h 13) in
  let h := uwrap 32 (h * 0xc2b2ae35) in
  Z.lxor h (Z.shiftr h 16).

Definition fmix64 (k : Z) : Z :=
  let k := Z.lxor k (Z.shiftr k 33) in
  let k := uwrap 64 (k * 0xff51afd7ed558ccd) in
  let k := Z.lxor k (Z.shiftr k 33) in
  let k := uwrap 64 (k * 0xc4ceb9fe1a85ec53) in
  Z.lxor k (Z.shiftr k 33).

(** [getblock(blocks, i)] on 4- and 8-byte blocks counted from the start of
    the key. *)
Definition getblock (w : Z) (key : list Z) (i : Z) : res Z :=
  let! bs := slice (w * i) w key in Ok (le_num bs).

(** ** MurmurHash3_x86_32 *)

Definition x86_32_k1 (k1 : Z) : Z :=
  let c1 := 0xcc9e2d51 in let c2 := 0x1b873593 in
  let k1 := uwrap 32 (k1 * c1) in
  let k1 := rotl32 k1 15 in
  uwrap 32 (k1 * c2).

Definition x86_32_body (h1 k1 : Z) : Z :=
  let k1 := x86_32_k1 k1 in
  let h1 := Z.lxor h1 k1 in
  let h1 := rotl32 h1 13 in
  uwrap 32 (h1 * 5 + 0xe6546b64).

(** The tail: [tail[i] << s] is computed in [int] and xor-ed into a word. *)
Definition tl8 (tail : list Z) (i s : Z) : res Z :=
  let! b := rd tail i in Ok (uwrap 32 (Z.shiftl b s)).

(** One [case] label of the fall-through switch: taken when the remaining
    length is at least [n]. *)
Definition case_ge (r n : Z) (m : res Z) (k : Z) : res Z :=
  if bool_decide (r >= n) then let! x := m in Ok (Z.lxor k x) else Ok k.

Definition MurmurHash3_x86_32 (key : list Z) (len seed : Z) : res Z :=
  let nblocks := len ÷ 4 in
  let h1 := seed in
  let! h1 := foldM (fun h i => let! k1 := getblock 4 key i in Ok (x86_32_body h k1))
               h1 (seqZ 0 nblocks) in
  let tail := drop (Z.to_nat (nblocks * 4)) key in
  let r := Z.land len 3 in
  let! k1 := case_ge r 3 (tl8 tail 2 16) 0 in
  let! k1 := case_ge r 2 (tl8 tail 1 8) k1 in
  let! h1 := if bool_decide (r >= 1) then
               let! b := rd tail 0 in
               Ok (Z.lxor h1 (x86_32_k1 (Z.lxor k1 b)))
             else Ok h1 in
  let h1 := Z.lxor h1 (uwrap 32 len) in
  Ok (fmix32 h1).

(** ** MurmurHash3_x86_128 *)

Definition x86_128_k (ca cb rot k : Z) : Z :=
  let k := uwrap 32 (k * ca) in
  let k := rotl32 k rot in
  uwrap 32 (k * cb).

Definition c1_128 := 0x239b961b.
Definition c2_128 := 0xab0e9789.
Definition c3_128 := 0x38b34ae5.
Definition c4_128 := 0xa1e38b93.

Definition x86_128_body (h : Z * Z * Z * Z) (k1 k2 k3 k4 : Z) : Z * Z * Z * Z :=
  let '(h1, h2, h3, h4) := h in
  let h1 := Z.lxor h1 (x86_128_k c1_128 c2_128 15 k1) in
  let h1 := rotl32 h1 19 in
  let h1 := uwrap 32 (h1 + h2) in
  let h1 := uwrap 32 (h1 * 5 + 0x561ccd1b) in
  let h2 := Z.lxor h2 (x86_128_k c2_128 c3_128 16 k2) in
  let h2 := rotl32 h2 17 in
  let h2 := uwrap 32 (h2 + h3) in
  let h2 := uwrap 32 (h2 * 5 + 0x0bcaa747) in
  let h3 := Z.lxor h3 (x86_128_k c3_128 c4_128 17 k3) in
  let h3 := rotl32 h3 15 in
  let h3 := uwrap 32 (h3 + h4) in
  let h3 := uwrap 32 (h3 * 5 + 0x96cd1c35) in
  let h4 := Z.lxor h4 (x86_128_k c4_128 c1_128 18 k4) in
  let h4 := rotl32 h4 13 in
  let h4 := uwrap 32 (h4 + h1) in
  let h4 := uwrap 32 (h4 * 5 + 0x32ac3b17) in
  (h1, h2, h3, h4).

(** One group of [case] labels: the tail bytes [lo .. lo+n-1] are gathered from
    the highest down, and mixed in when there is at least one. *)
Definition tail_group32 (r : Z) (tail : list Z) (lo : Z) (n : nat) (mix : Z -> Z) (h : Z) : res Z :=
  let! k := foldM (fun k j => case_ge r (lo + j + 1) (tl8 tail (lo + j) (8 * j)) k)
              0 (reverse (seqZ 0 (Z.of_nat n))) in
  if bool_decide (r >= lo + 1) then Ok (Z.lxor h (mix k)) else Ok h.

Definition MurmurHash3_x86_128 (key : list Z) (len seed : Z) : res (list Z) :=
  let nblocks := len ÷ 16 in
  let! h := foldM (fun h i =>
      let! k1 := getblock 4 key (i * 4 + 0) in
      let! k2 := getblock 4 key (i * 4 + 1) in
      let! k3 := getblock 4 key (i * 4 + 2) in
      let! k4 := getblock 4 key (i * 4 + 3) in
      Ok (x86_128_body h k1 k2 k3 k4)) (seed, seed, seed, seed) (seqZ 0 nblocks) in
  let '(h1, h2, h3, h4) := h in
  let tail := drop (Z.to_nat (nblocks * 16)) key in
  let r := Z.land len 15 in
  let! h4 := tail_group32 r tail 12 3 (x86_128_k c4_128 c1_128 18) h4 in
  let! h3 := tail_group32 r tail 8 4 (x86_128_k c3_128 c4_128 17) h3 in
  let! h2 := tail_group32 r tail 4 4 (x86_128_k c2_128 c3_128 16) h2 in
  let! h1 := tail_group32 r tail 0 4 (x86_128_k c1_128 c2_128 15) h1 in
  let l := uwrap 32 len in
  let h1 := Z.lxor h1 l in let h2 := Z.lxor h2 l in
  let h3 := Z.lxor h3 l in let h4 := Z.lxor h4 l in
  let h1 := uwrap 32 (h1 + h2) in let h1 := uwrap 32 (h1 + h3) in
  let h1 := uwrap 32 (h1 + h4) in
  let h2 := uwrap 32 (h2 + h1) in let h3 := uwrap 32 (h3 + h1) in
  let h4 := uwrap 32 (h4 + h1) in
  let h1 := fmix32 h1 in let h2 := fmix32 h2 in
  let h3 := fmix32 h3 in let h4 := fmix32 h4 in
  let h1 := uwrap 32 (h1 + h2) in let h1 := uwrap 32 (h1 + h3) in
  let h1 := uwrap 32 (h1 + h4) in
  let h2 := uwrap 32 (h2 + h1) in let h3 := uwrap 32 (h3 + h1) in
  let h4 := uwrap 32 (h4 + h1) in
  Ok [h1; h2; h3; h4].

(** ** MurmurHash3_x64_128 *)

Definition c1_64 := 0x87c37b91114253d5.
Definition c2_64 := 0x4cf5ad432745937f.

Definition x64_128_k (ca cb rot k : Z) : Z :=
  let k := uwrap 64 (k * ca) in
  let k := rotl64 k rot in
  uwrap 64 (k * cb).

Definition x64_128_body (h : Z * Z) (k1 k2 : Z) : Z * Z :=
  let '(h1, h2) := h in
  let h1 := Z.lxor h1 (x64_128_k c1_64 c2_64 31 k1) in
  let h1 := rotl64 h1 27 in
  let h1 := uwrap 64 (h1 + h2) in
  let h1 := uwrap 64 (h1 * 5 + 0x52dce729) in
  let h2 := Z.lxor h2 (x64_128_k c2_64 c1_64 33 k2) in
  let h2 := rotl64 h2 31 in
  let h2 := uwrap 64 (h2 + h1) in
  let h2 := uwrap 64 (h2 * 5 + 0x38495ab5) in
  (h1, h2).

(** [((uint64_t)tail[i]) << s]. *)
Definition tl64 (tail : list Z) (i s : Z) : res Z :=
  let! b := rd tail i in Ok (uwrap 64 (Z.shiftl b s)).

Definition tail_group64 (r : Z) (tail : list Z) (lo : Z) (n : nat) (mix : Z -> Z) (h : Z) : res Z :=
  let! k := foldM (fun k j => case_ge r (lo + j + 1) (tl64 tail (lo + j) (8 * j)) k)
              0 (reverse (seqZ 0 (Z.of_nat n))) in
  if bool_decide (r >= lo + 1) then Ok (Z.lxor h (mix k)) else Ok h.

Definition MurmurHash3_x64_128 (key : list Z) (len seed : Z) : res (list Z) :=
  let nblocks := len ÷ 16 in
  let! h := foldM (fun h i =>
      let! k1 := getblock 8 key (i * 2 + 0) in
      let! k2 := getblock 8 key (i * 2 + 1) in
      Ok (x64_128_body h k1 k2)) (seed, seed) (seqZ 0 nblocks) in
  let '(h1, h2) := h in
  let tail := drop (Z.to_nat (nblocks * 16)) key in
  let r := Z.land len 15 in
  let! h2 := tail_group64 r tail 8 7 (x64_128_k c2_64 c1_64 33) h2 in
  let! h1 := tail_group64 r tail 0 8 (x64_128_k c1_64 c2_64 31) h1 in
  let l := uwrap 64 len in
  let h1 := Z.lxor h1 l in let h2 := Z.lxor h2 l in
  let h1 := uwrap 64 (h1 + h2) in let h2 := uwrap 64 (h2 + h1) in
  let h1 := fmix64 h1 in let h2 := fmix64 h2 in
  let h1 := uwrap 64 (h1 + h2) in let h2 := uwrap 64 (h2 + h1) in
  Ok [h1; h2].

(** ** Ranges *)

Definition word (w z : Z) : Prop := 0 <= z < 2 ^ w.

Lemma word_lxor w a b : 0 <= w -> word w a -> word w b -> word w (Z.lxor a b).
Proof. apply lxor_range. Qed.

Lemma word_uwrap w a : 0 <= w -> word w (uwrap w a).
Proof. apply uwrap_range. Qed.

Lemma word_shiftr w a n : 0 <= n -> word w a -> word w (Z.shiftr a n).
Proof. apply shiftr_range. Qed.

Lemma word_rotl32 x r : 0 <= r <= 32 -> word 32 x -> word 32 (rotl32 x r).
Proof.
  intros Hr Hx. unfold rotl32. apply lor_range; [lia|apply uwrap_range; lia|].
  apply shiftr_range; [lia|done].
Qed.

Lemma word_rotl64 x r : 0 <= r <= 64 -> word 64 x -> word 64 (rotl64 x r).
Proof.
  intros Hr Hx. unfold rotl64. apply lor_range; [lia|apply uwrap_range; lia|].
  apply shiftr_range; [lia|done].
Qed.

Lemma word_fmix32 h : word 32 h -> word 32 (fmix32 h).
Proof.
  intros H. unfold fmix32. repeat (apply word_lxor; [lia| |apply word_shiftr; [lia|]]);
    apply word_uwrap; lia.
Qed.

Lemma word_fmix64 h : word 64 h -> word 64 (fmix64 h).
Proof.
  intros H. unfold fmix64. repeat (apply word_lxor; [lia| |apply word_shiftr; [lia|]]);
    apply word_uwrap; lia.
Qed.

Create HintDb word.
#[export] Hint Resolve word_lxor word_uwrap word_fmix32 word_fmix64 : word.
#[export] Hint Extern 1 (_ <= _) => lia : word.
#[export] Hint Extern 1 (_ <= _ <= _) => lia : word.



Lemma getblock_word w key i : 0 <= w -> 0 <= i -> Forall u8 key -> w * i + w <= zlen key ->
  exists k, getblock w key i = Ok k /\ word (8 * w) k.
Proof.
  intros Hw Hi Hk Hl. unfold getblock, slice.
  rewrite bool_decide_eq_true_2 by nia. simpl. eexists. split; [done|].
  set (bs := take _ _). assert (Forall u8 bs) as Hbs by (apply Forall_take, Forall_drop, Hk).
  pose proof (le_num_range bs Hbs) as Hr. unfold word. rewrite Z.pow_mul_r by lia.
  assert (zlen bs = w) as E.
  { unfold bs, zlen in *. rewrite length_take, length_drop. nia. }
  rewrite E in Hr. exact Hr.
Qed.

Lemma rd_word key i : Forall u8 key -> 0 <= i < zlen key -> exists b, rd key i = Ok b /\ u8 b.
Proof.
  intros Hk Hi. destruct (lookup_lt_is_Some_2 key (Z.to_nat i)) as [b Hb]; [unfold zlen in *; lia|].
  exists b. split; [apply rd_Some; [lia|done]|]. rewrite Forall_lookup in Hk. eauto.
Qed.

Lemma case_ge_word w r n m k :
  0 <= w -> word w k -> (r >= n -> exists x, m = Ok x /\ word w x) ->
  exists k', case_ge r n m k = Ok k' /\ word w k'.
Proof.
  intros Hw Hk Hm. unfold case_ge. case_bool_decide as H; [|eauto].
  destruct (Hm H) as (x & -> & Hx). simpl. eauto using word_lxor.
Qed.

Lemma tl8_word tail i s : Forall u8 tail -> 0 <= i < zlen tail ->
  exists x, tl8 tail i s = Ok x /\ word 32 x.
Proof.
  intros Ht Hi. unfold tl8. destruct (rd_word tail i Ht Hi) as (b & -> & _). simpl.
  eauto with word.
Qed.

Lemma tl64_word tail i s : Forall u8 tail -> 0 <= i < zlen tail ->
  exists x, tl64 tail i s = Ok x /\ word 64 x.
Proof.
  intros Ht Hi. unfold tl64. destruct (rd_word tail i Ht Hi) as (b & -> & _). simpl.
  eauto with word.
Qed.

(** The tail of the key and the remaining length. *)
Lemma tail_facts m key len : (m = 4 \/ m = 16) -> Forall u8 key -> 0 <= len <= zlen key ->
  let tail := drop (Z.to_nat (len ÷ m * m)) key in
  Forall u8 tail /\ Z.land len (m - 1) <= zlen tail /\ 0 <= len ÷ m /\ len ÷ m * m <= len.
Proof.
  intros Hm Hk Hl. cbv zeta. rewrite Z.quot_div_nonneg by lia.
  pose proof (Z.div_mod len m ltac:(lia)). pose proof (Z.mod_pos_bound len m ltac:(lia)).
  assert (0 <= len / m) by (apply Z.div_pos; lia).
  split; [now apply Forall_drop|].
  assert (Z.land len (m - 1) = len mod m) as ->.
  { destruct Hm as [->| ->].
    - change (4 - 1) with (Z.ones 2). now rewrite Z.land_ones by lia.
    - change (16 - 1) with (Z.ones 4). now rewrite Z.land_ones by lia. }
  unfold zlen in *. rewrite length_drop. lia.
Qed.

Lemma tail_group32_word r tail lo n mix h :
  Forall u8 tail -> r <= zlen tail -> 0 <= lo -> word 32 h -> (forall k, word 32 (mix k)) ->
  exists h', tail_group32 r tail lo n mix h = Ok h' /\ word 32 h'.
Proof.
  intros Ht Hr Hlo Hh Hmix. unfold tail_group32.
  destruct (foldM_inv (fun k j => case_ge r (lo + j + 1) (tl8 tail (lo + j) (8 * j)) k)
    (word 32) (reverse (seqZ 0 (Z.of_nat n)))) with (b := 0) as (k & -> & Hk);
    [|unfold word; lia|].
  - intros k j Hk Hj. apply elem_of_reverse, elem_of_seqZ in Hj.
    apply case_ge_word; [lia|done|]. intros. apply tl8_word; [done|lia].
  - simpl. case_bool_decide; eauto with word.
Qed.

Lemma tail_group64_word r tail lo n mix h :
  Forall u8 tail -> r <= zlen tail -> 0 <= lo -> word 64 h -> (forall k, word 64 (mix k)) ->
  exists h', tail_group64 r tail lo n mix h = Ok h' /\ word 64 h'.
Proof.
  intros Ht Hr Hlo Hh Hmix. unfold tail_group64.
  destruct (foldM_inv (fun k j => case_ge r (lo + j + 1) (tl64 tail (lo + j) (8 * j)) k)
    (word 64) (reverse (seqZ 0 (Z.of_nat n)))) with (b := 0) as (k & -> & Hk);
    [|unfold word; lia|].
  - intros k j Hk Hj. apply elem_of_reverse, elem_of_seqZ in Hj.
    apply case_ge_word; [lia|done|]. intros. apply tl64_word; [done|lia].
  - simpl. case_bool_decide; eauto with word.
Qed.

Lemma x86_32_body_word h k : word 32 (x86_32_body h k).
Proof. unfold x86_32_body. auto with word. Qed.

Lemma x86_128_body_word h k1 k2 k3 k4 h1 h2 h3 h4 :
  x86_128_body h k1 k2 k3 k4 = (h1, h2, h3, h4) ->
  word 32 h1 /\ word 32 h2 /\ word 32 h3 /\ word 32 h4.
Proof.
  destruct h as [[[a b] c] d]. unfold x86_128_body. intros [= <- <- <- <-]. auto with word.
Qed.

Lemma x64_128_body_word h k1 k2 h1 h2 :
  x64_128_body h k1 k2 = (h1, h2) -> word 64 h1 /\ word 64 h2.
Proof. destruct h as [a b]. unfold x64_128_body. intros [= <- <-]. auto with word. Qed.

(** ** The finalisers and the rotation are injective *)

Lemma fmix32_injective x y : word 32 x -> word 32 y -> fmix32 x = fmix32 y -> x = y.
Proof.
  intros Hx Hy. unfold fmix32. intros E.
  assert (forall n z, 0 <= n -> word 32 z -> word 32 (Z.lxor z (Z.shiftr z n))) as W
    by (intros; apply word_lxor; [lia|done|now apply word_shiftr]).
  apply xorshift_inj in E; [|lia|apply word_uwrap; lia..].
  apply (mulmod_inj 32 _ 0x7ed1b41d) in E; [|lia|reflexivity|apply W; [lia|apply word_uwrap; lia]..].
  apply xorshift_inj in E; [|lia|apply word_uwrap; lia..].
  apply (mulmod_inj 32 _ 0xa5cb9243) in E; [|lia|reflexivity|apply W; [lia|done]..].
  apply xorshift_inj in E; [done|lia|apply Hx|apply Hy].
Qed.

Lemma fmix64_injective x y : word 64 x -> word 64 y -> fmix64 x = fmix64 y -> x = y.
Proof.
  intros Hx Hy. unfold fmix64. intros E.
  assert (forall n z, 0 <= n -> word 64 z -> word 64 (Z.lxor z (Z.shiftr z n))) as W
    by (intros; apply word_lxor; [lia|done|now apply word_shiftr]).
  apply xorshift_inj in E; [|lia|apply word_uwrap; lia..].
  apply (mulmod_inj 64 _ 0x9cb4b2f8129337db) in E;
    [|lia|reflexivity|apply W; [lia|apply word_uwrap; lia]..].
  apply xorshift_inj in E; [|lia|apply word_uwrap; lia..].
  apply (mulmod_inj 64 _ 0x4f74430c22a54005) in E; [|lia|reflexivity|apply W; [lia|done]..].
  apply xorshift_inj in E; [done|lia|apply Hx|apply Hy].
Qed.

(** A rotation is a permutation of the bits. *)
Lemma rotl32_testbit x r n : 0 < r < 32 -> word 32 x -> 0 <= n < 32 ->
  Z.testbit (rotl32 x r) n = Z.testbit x ((n - r) mod 32).
Proof.
  intros Hr Hx Hn. unfold rotl32, uwrap. rewrite Z.lor_spec, Z.mod_pow2_bits_low by lia.
  rewrite Z.shiftl_spec, Z.shiftr_spec by lia.
  destruct (Z.lt_ge_cases n r).
  - rewrite Z.testbit_neg_r by lia. simpl.
    replace (n + (32 - r)) with ((n - r) mod 32); [done|].
    symmetry. apply (Z.mod_unique_pos _ _ (-1)); lia.
  - rewrite (Z.mod_small (n - r)) by lia.
    rewrite <- (Z.mod_small x (2 ^ 32)) at 2 by apply Hx.
    rewrite Z.mod_pow2_bits_high by lia. apply orb_false_r.
Qed.

Lemma rotl32_injective x y r : 0 < r < 32 -> word 32 x -> word 32 y ->
  rotl32 x r = rotl32 y r -> x = y.
Proof.
  intros Hr Hx Hy E. apply Z.bits_inj'. intros n Hn.
  destruct (Z.lt_ge_cases n 32) as [Hlt|Hge].
  - pose proof (Z.mod_pos_bound (n + r) 32 ltac:(lia)) as Hm.
    assert (((n + r) mod 32 - r) mod 32 = n) as En.
    { rewrite Zminus_mod_idemp_l. replace (n + r - r) with n by lia. apply Z.mod_small. lia. }
    rewrite <- En, <- !rotl32_testbit by (done || lia). now rewrite E.
  - rewrite <- (Z.mod_small x (2 ^ 32)), <- (Z.mod_small y (2 ^ 32)) by (apply Hx || apply Hy).
    now rewrite !Z.mod_pow2_bits_high by lia.
Qed.

Lemma lxor_inj_r a b c : Z.lxor a c = Z.lxor b c -> a = b.
Proof.
  intros E. rewrite <- (Z.lxor_0_r a), <- (Z.lxor_0_r b), <- (Z.lxor_nilpotent c).
  now rewrite <- !Z.lxor_assoc, E.
Qed.

Lemma lxor_inj_l a b c : Z.lxor c a = Z.lxor c b -> a = b.
Proof. rewrite !(Z.lxor_comm c). apply lxor_inj_r. Qed.

Lemma x86_32_k1_injective x y : word 32 x -> word 32 y -> x86_32_k1 x = x86_32_k1 y -> x = y.
Proof.
  intros Hx Hy E. unfold x86_32_k1 in E.
  apply (mulmod_inj 32 _ 0x56ed309b) in E; [|lia|reflexivity|apply word_rotl32; auto with word..].
  apply rotl32_injective in E; [|lia|apply word_uwrap; lia..].
  apply (mulmod_inj 32 _ 0xdee13bb1) in E; (done || lia || reflexivity).
Qed.

Lemma x86_32_body_injective h x y : word 32 h -> word 32 x -> word 32 y ->
  x86_32_body h x = x86_32_body h y -> x = y.
Proof.
  intros Hh Hx Hy E. unfold x86_32_body in E.
  assert (forall z, word 32 (x86_32_k1 z)) as W by (intros; unfold x86_32_k1; auto with word).
  set (a := rotl32 (Z.lxor h (x86_32_k1 x)) 13) in E.
  set (b := rotl32 (Z.lxor h (x86_32_k1 y)) 13) in E.
  assert (word 32 a) as Ha by (apply word_rotl32; auto with word).
  assert (word 32 b) as Hb by (apply word_rotl32; auto with word).
  assert (uwrap 32 (a * 5) = uwrap 32 (b * 5)) as E5.
  { unfold uwrap in *. pose proof (Z.mod_pos_bound (a * 5) (2 ^ 32) ltac:(lia)).
    pose proof (Z.mod_pos_bound (b * 5) (2 ^ 32) ltac:(lia)).
    rewrite Zplus_mod, (Zplus_mod (b * 5)) in E.
    set (u := (a * 5) mod 2 ^ 32) in *. set (v := (b * 5) mod 2 ^ 32) in *.
    clearbody u v. Z.div_mod_to_equations. lia. }
  apply (mulmod_inj 32 5 0xcccccccd) in E5; [|lia|reflexivity|done..].
  apply rotl32_injective in E5; [|lia|auto with word..].
  apply lxor_inj_l in E5. now apply x86_32_k1_injective in E5.
Qed.

(** ** The block loops *)

Section Blocks.
Context (key : list Z) (len seed : Z).
Context (Hkey : Forall u8 key) (Hlen : 0 <= len <= zlen key) (Hseed : word 32 seed).

Lemma x86_32_blocks : exists h,
  foldM (fun h i => let! k1 := getblock 4 key i in Ok (x86_32_body h k1)) seed (seqZ 0 (len ÷ 4))
  = Ok h /\ word 32 h.
Proof using All.
  pose proof (tail_facts 4 key len (or_introl eq_refl) Hkey Hlen) as (_ & _ & Hn & Hm).
  apply foldM_inv with (I := word 32); [|done]. intros b i Hb Hi. apply elem_of_seqZ in Hi.
  destruct (getblock_word 4 key i) as (k & -> & _); [lia|lia|done|lia|].
  simpl. eauto using x86_32_body_word.
Qed.

Lemma x86_128_blocks : exists h1 h2 h3 h4,
  foldM (fun h i =>
      let! k1 := getblock 4 key (i * 4 + 0) in
      let! k2 := getblock 4 key (i * 4 + 1) in
      let! k3 := getblock 4 key (i * 4 + 2) in
      let! k4 := getblock 4 key (i * 4 + 3) in
      Ok (x86_128_body h k1 k2 k3 k4)) (seed, seed, seed, seed) (seqZ 0 (len ÷ 16))
  = Ok (h1, h2, h3, h4) /\ word 32 h1 /\ word 32 h2 /\ word 32 h3 /\ word 32 h4.
Proof using All.
  pose proof (tail_facts 16 key len (or_intror eq_refl) Hkey Hlen) as (_ & _ & Hn & Hm).
  match goal with |- context [foldM ?f ?b0 ?l] =>
    destruct (foldM_inv f (fun h : Z * Z * Z * Z => let '(h1, h2, h3, h4) := h in
       word 32 h1 /\ word 32 h2 /\ word 32 h3 /\ word 32 h4) l) with (b := b0) as (h & Hf & Hh)
  end; cycle 2.
  - destruct h as [[[h1 h2] h3] h4]. exists h1, h2, h3, h4. split; [exact Hf|exact Hh].
  - intros b i _ Hi. apply elem_of_seqZ in Hi.
    destruct (getblock_word 4 key (i * 4 + 0)) as (k1 & -> & _); [lia|lia|done|lia|].
    destruct (getblock_word 4 key (i * 4 + 1)) as (k2 & -> & _); [lia|lia|done|lia|].
    destruct (getblock_word 4 key (i * 4 + 2)) as (k3 & -> & _); [lia|lia|done|lia|].
    destruct (getblock_word 4 key (i * 4 + 3)) as (k4 & -> & _); [lia|lia|done|lia|].
    simpl. eexists. split; [done|].
    destruct (x86_128_body b k1 k2 k3 k4) as [[[a1 a2] a3] a4] eqn:E.
    now apply x86_128_body_word in E.
  - auto.
Qed.

Lemma x64_128_blocks : exists h1 h2,
  foldM (fun h i =>
      let! k1 := getblock 8 key (i * 2 + 0) in
      let! k2 := getblock 8 key (i * 2 + 1) in
      Ok (x64_128_body h k1 k2)) (seed, seed) (seqZ 0 (len ÷ 16))
  = Ok (h1, h2) /\ word 64 h1 /\ word 64 h2.
Proof using All.
  pose proof (tail_facts 16 key len (or_intror eq_refl) Hkey Hlen) as (_ & _ & Hn & Hm).
  match goal with |- context [foldM ?f ?b0 ?l] =>
    destruct (foldM_inv f (fun h : Z * Z => word 64 h.1 /\ word 64 h.2) l) with (b := b0)
      as (h & Hf & Hh)
  end; cycle 2.
  - destruct h as [h1 h2]. exists h1, h2. split; [exact Hf|exact Hh].
  - intros b i _ Hi. apply elem_of_seqZ in Hi.
    destruct (getblock_word 8 key (i * 2 + 0)) as (k1 & -> & _); [lia|lia|done|lia|].
    destruct (getblock_word 8 key (i * 2 + 1)) as (k2 & -> & _); [lia|lia|done|lia|].
    simpl. eexists. split; [done|].
    destruct (x64_128_body b k1 k2) as [a1 a2] eqn:E. now apply x64_128_body_word in E.
  - unfold word in *. simpl. lia.
Qed.
End Blocks.

(** A 4-byte key is one block and no tail. *)
Lemma x86_32_key4 k seed : length k = 4%nat ->
  MurmurHash3_x86_32 k 4 seed = Ok (fmix32 (Z.lxor (x86_32_body seed (le_num k)) 4)).
Proof. intros L. destruct k as [|a [|b [|c [|d [|]]]]]; done. Qed.

(** The 32-bit function, as a lemma for its callers. *)
Lemma x86_32_safe (key : list Z) (len seed : Z) :
  Forall u8 key -> 0 <= len <= zlen key -> word 32 seed ->
  exists h, MurmurHash3_x86_32 key len seed = Ok h /\ word 32 h.
Proof.
  intros Hkey Hlen Hseed.
  pose proof (tail_facts 4 key len (or_introl eq_refl) Hkey Hlen) as (Ht4 & Hr4 & Hn4 & Hm4).
  change (4 - 1) with 3 in Hr4.
  assert (0 <= Z.land len 3) as Hp3 by (apply Z.land_nonneg; lia).
  destruct (x86_32_blocks key len seed) as (h & Hf & Hh); auto.
  unfold MurmurHash3_x86_32. rewrite Hf. simpl.
  destruct (case_ge_word 32 (Z.land len 3) 3 (tl8 (drop (Z.to_nat (len ÷ 4 * 4)) key) 2 16) 0)
    as (k & -> & Hk); [lia|unfold word; lia|intros; apply tl8_word; [done|lia]|]. simpl.
  destruct (case_ge_word 32 (Z.land len 3) 2 (tl8 (drop (Z.to_nat (len ÷ 4 * 4)) key) 1 8) k)
    as (k' & -> & Hk'); [lia|done|intros; apply tl8_word; [done|lia]|]. simpl.
  case_bool_decide.
  - destruct (rd_word (drop (Z.to_nat (len ÷ 4 * 4)) key) 0) as (b & -> & Hb); [done|lia|].
    simpl. eexists. split; [done|]. unfold x86_32_k1. auto with word.
  - simpl. eauto 8 with word.
Qed.

(** ** Statements *)

(** On a key of at least [len] bytes the three hash functions read only
    inside the key and return words of their width: no block or tail access
    is out of bounds for any length, block-aligned or not. *)
Theorem murmur_safe (key : list Z) (len seed : Z)
    (Hkey : Forall u8 key) (Hlen : 0 <= len <= zlen key) (Hseed : word 32 seed) :
  (exists h, MurmurHash3_x86_32 key len seed = Ok h /\ word 32 h) /\
  (exists h, MurmurHash3_x86_128 key len seed = Ok h /\ length h = 4%nat /\ Forall (word 32) h) /\
  (exists h, MurmurHash3_x64_128 key len seed = Ok h /\ length h = 2%nat /\ Forall (word 64) h).
Proof.
  pose proof (tail_facts 16 key len (or_intror eq_refl) Hkey Hlen) as (Ht & Hr & Hn & Hm).
  change (16 - 1) with 15 in Hr.
  assert (0 <= Z.land len 15) as Hp15 by (apply Z.land_nonneg; lia).
  split; [|split].
  - now apply x86_32_safe.
  - destruct (x86_128_blocks key len seed) as (h1 & h2 & h3 & h4 & Hf & ? & ? & ? & ?); auto.
    unfold MurmurHash3_x86_128. rewrite Hf. simpl.
    assert (forall a b r k, word 32 (x86_128_k a b r k)) as W
      by (intros; unfold x86_128_k; auto with word).
    do 4 (edestruct tail_group32_word as (? & -> & ?); [exact Ht|exact Hr| | |apply W|];
      [lia|eassumption|]; simpl).
    eexists. split; [reflexivity|]. split; [reflexivity|]. repeat constructor; apply word_uwrap; lia.
  - destruct (x64_128_blocks key len seed) as (h1 & h2 & Hf & ? & ?); auto.
    unfold MurmurHash3_x64_128. rewrite Hf. simpl.
    assert (forall a b r k, word 64 (x64_128_k a b r k)) as W
      by (intros; unfold x64_128_k; auto with word).
    do 2 (edestruct tail_group64_word as (? & -> & ?); [exact Ht|exact Hr| | |apply W|];
      [lia|eassumption|]; simpl).
    eexists. split; [reflexivity|]. split; [reflexivity|]. repeat constructor; apply word_uwrap; lia.
Qed.

(** The bytes of "hello". *)
Definition hello : list Z := [104; 101; 108; 108; 111].

Lemma murmur_safe_witness :
  (exists h, MurmurHash3_x86_32 hello 5 0 = Ok h /\ word 32 h) /\
  MurmurHash3_x86_32 hello 5 0 = Ok 0x248bfa47 /\
  MurmurHash3_x64_128 hello 5 0 = Ok [0xcbd8a7b341bd9b02; 0x5b1e906a48ae1d19].
Proof.
  split.
  - apply (murmur_safe hello 5 0); [|unfold zlen; simpl; lia|unfold word; lia].
    repeat constructor; unfold u8; lia.
  - split; vm_compute; reflexivity.
Defined.

(** For a fixed seed, MurmurHash3_x86_32 is injective on 4-byte keys: two
    different addresses or ports pairs of 4 bytes never collide in the full
    32-bit hash (every mixing step, the rotation and the finaliser are
    invertible). *)
Theorem murmur_x86_32_injective4 (k1 k2 : list Z) (seed h : Z)
    (H1 : Forall u8 k1) (H2 : Forall u8 k2)
    (L1 : length k1 = 4%nat) (L2 : length k2 = 4%nat) (Hseed : word 32 seed) :
  MurmurHash3_x86_32 k1 4 seed = Ok h -> MurmurHash3_x86_32 k2 4 seed = Ok h -> k1 = k2.
Proof.
  intros E1 E2. rewrite x86_32_key4 in E1, E2 by done.
  rewrite <- E2 in E1. injection E1 as E.
  pose proof (le_num_range k1 H1) as R1. pose proof (le_num_range k2 H2) as R2.
  unfold zlen in R1, R2. rewrite L1 in R1. rewrite L2 in R2.
  apply fmix32_injective in E;
    [|apply word_lxor; [lia|apply x86_32_body_word|unfold word; simpl; lia]..].
  apply lxor_inj_r in E.
  apply x86_32_body_injective in E; [|done|exact R1|exact R2].
  apply le_num_inj; (done || congruence).
Qed.

Lemma murmur_x86_32_injective4_witness : exists h1 h2,
  MurmurHash3_x86_32 [1; 2; 3; 4] 4 9 = Ok h1 /\ MurmurHash3_x86_32 [1; 2; 3; 5] 4 9 = Ok h2 /\
  h1 <> h2.
Proof.
  eexists _, _. split; [vm_compute; reflexivity|]. split; [vm_compute; reflexivity|].
  intros E. cut ([1; 2; 3; 4] = [1; 2; 3; 5]); [discriminate|].
  eapply (murmur_x86_32_injective4 _ _ 9);
    [repeat constructor; unfold u8; lia|repeat constructor; unfold u8; lia|reflexivity|reflexivity
    |unfold word; lia|vm_compute; reflexivity|rewrite E || vm_compute; reflexivity].
Defined.
