(* ===== verification/Dense.v ===== *)
(** * The table of stations the controller assigned to this AP: the
    [g_dense_station_hash] of [fnii_roam.c]

    32 chains of (station, AP) address pairs, indexed by the first byte of the
    station address, and the counter [station_used].  Every operation holds
    [fnii_sta_lock] from its first access to its last, so each is one function
    of the table.  Refinement: the table is a finite set of pairs. *)

From stdpp Require Import base list numbers gmap sets.
From Stdlib Require Import ZArith Lia.
From S2P Require Import Prelude CString.
Local Open Scope Z_scope.

Definition ETH_ALEN : Z := 6.
Definition STAION_MAX : Z := 32.
Definition FNII_RET_OK : Z := 0.
Definition FNII_RET_ERR : Z := -1.
Definition SOCKET_STATUS_ENABLE : Z := 1.
Definition SOCKET_STATUS_DISABLE : Z := 0.

(** [cmd_msg_s]: what a command of the controller is about. *)
Record cmd_msg_s : Type := mkCmd { cmd_type : Z; bssid : list Z; stamac : list Z }.

(** [struct _fnii_dense_station_s], without its link. *)
Record dense_station : Type := mkStation { station : list Z; ap : list Z }.

#[export] Instance dense_station_eq_dec : EqDecision dense_station.
Proof. solve_decision. Defined.

(** [struct _fnii_dense_station_hash_s]: [tbl] is the array of chains. *)
Record dense_hash : Type := mkDense { tbl : list (list dense_station); station_used : Z }.

(** [UINT8 hash_idx = addr->stamac[0] % STAION_MAX]. *)
Definition hash_idx (mac : list Z) : res Z :=
  let! b := rd mac 0 in Ok (b mod STAION_MAX).

Definition fnii_init_dense_station_hash : dense_hash :=
  {| tbl := replicate (Z.to_nat STAION_MAX) []; station_used := 0 |}.

(** The test of the three search loops: both [os_memcmp] of 6 bytes are 0. *)
Definition same_station (s : dense_station) (addr : cmd_msg_s) : bool :=
  bool_decide (station s = stamac addr) && bool_decide (ap s = bssid addr).

(** The walk of a chain of [fnii_dense_station_find] and of
    [fnii_dense_station_add]. *)
Fixpoint chain_find (chain : list dense_station) (addr : cmd_msg_s) : bool :=
  match chain with
  | [] => false
  | s :: chain' => if same_station s addr then true else chain_find chain' addr
  end.

(** [fnii_dense_station_find]: a NULL address and a disabled socket are errors
    before the table is looked at. *)
Definition fnii_dense_station_find (status : Z) (addr : option cmd_msg_s) (g : dense_hash) : res Z :=
  match addr with
  | None => Ok FNII_RET_ERR
  | Some addr =>
      if bool_decide (status <> SOCKET_STATUS_ENABLE) then Ok FNII_RET_ERR
      else
        let! i := hash_idx (stamac addr) in
        let! chain := rd (tbl g) i in
        Ok (if chain_find chain addr then FNII_RET_OK else FNII_RET_ERR)
  end.

(** [fnii_dense_station_add]: [malloc_ok] is whether [os_malloc] returned a
    block; its result is not tested before the first write. *)
Definition fnii_dense_station_add (malloc_ok : bool) (addr : option cmd_msg_s) (g : dense_hash)
  : res (Z * dense_hash) :=
  match addr with
  | None => Ok (FNII_RET_ERR, g)
  | Some addr =>
      let! i := hash_idx (stamac addr) in
      let! chain := rd (tbl g) i in
      if chain_find chain addr then Ok (FNII_RET_ERR, g)
      else if malloc_ok then
        let s := {| station := stamac addr; ap := bssid addr |} in
        let! tbl' := wr (tbl g) i (s :: chain) in
        Ok (FNII_RET_OK, {| tbl := tbl'; station_used := station_used g + 1 |})
      else Ub NullDeref
  end.

(** The unlinking walk of [fnii_dense_station_del]: the chain without its first
    match, if there is one. *)
Fixpoint chain_del (chain : list dense_station) (addr : cmd_msg_s) : option (list dense_station) :=
  match chain with
  | [] => None
  | s :: chain' =>
      if same_station s addr then Some chain'
      else match chain_del chain' addr with
           | Some c => Some (s :: c)
           | None => None
           end
  end.

Definition fnii_dense_station_del (addr : option cmd_msg_s) (g : dense_hash)
  : res (Z * dense_hash) :=
  match addr with
  | None => Ok (FNII_RET_ERR, g)
  | Some addr =>
      let! i := hash_idx (stamac addr) in
      let! chain := rd (tbl g) i in
      match chain_del chain addr with
      | Some chain' =>
          let! tbl' := wr (tbl g) i chain' in
          Ok (FNII_RET_OK, {| tbl := tbl'; station_used := station_used g - 1 |})
      | None => Ok (FNII_RET_ERR, g)
      end
  end.

(** The stations that [fnii_reset_dense_station_hash] frees, in the order of
    its two loops, and the table it leaves. *)
Definition dense_reset (g : dense_hash) : list dense_station * dense_hash :=
  (concat (tbl g), {| tbl := replicate (Z.to_nat STAION_MAX) []; station_used := 0 |}).

(** ** The set a table stands for *)

Definition pair_of (s : dense_station) : list Z * list Z := (station s, ap s).
Definition key_of (addr : cmd_msg_s) : list Z * list Z := (stamac addr, bssid addr).

Definition contents (g : dense_hash) : gset (list Z * list Z) :=
  list_to_set (pair_of <$> concat (tbl g)).

Definition mac_ok (m : list Z) : Prop := length m = 6%nat /\ Forall u8 m.

(** The representation invariant: 32 chains, each station in the chain of its
    first byte, no duplicate, and the counter is the number of stations. *)
Record dense_ok (g : dense_hash) : Prop := {
  dense_len : length (tbl g) = 32%nat;
  dense_place : forall i chain s, tbl g !! i = Some chain -> s ∈ chain ->
                  mac_ok (station s) /\ hash_idx (station s) = Ok (Z.of_nat i);
  dense_nodup : NoDup (concat (tbl g));
  dense_count : station_used g = zlen (concat (tbl g)) }.

#[export] Instance pair_of_inj : Inj (=) (=) pair_of.
Proof. intros [a b] [c d] [= -> ->]. done. Qed.

Lemma same_station_spec s addr : same_station s addr = true <-> pair_of s = key_of addr.
Proof.
  unfold same_station, pair_of, key_of. rewrite andb_true_iff, !bool_decide_eq_true.
  split; [intros [-> ->]; done|intros [= -> ->]; done].
Qed.

Lemma chain_find_spec chain addr :
  chain_find chain addr = true <-> key_of addr ∈ pair_of <$> chain.
Proof.
  induction chain as [|s chain IH]; simpl.
  - split; [discriminate|]. intros H. inversion H.
  - destruct (same_station s addr) eqn:E.
    + apply same_station_spec in E. rewrite E. split; [constructor|done].
    + rewrite IH, elem_of_cons. split; [auto|]. intros [H|H]; [|done].
      symmetry in H. apply same_station_spec in H. congruence.
Qed.

Lemma hash_idx_ok m : mac_ok m -> exists i, hash_idx m = Ok i /\ 0 <= i < 32.
Proof.
  intros [L H]. destruct m as [|b m]; [discriminate|].
  unfold hash_idx, rd. simpl. eexists. split; [done|].
  apply Z.mod_pos_bound. done.
Qed.

Lemma contents_spec g p :
  p ∈ contents g <-> exists s, pair_of s = p /\ s ∈ concat (tbl g).
Proof.
  unfold contents. rewrite elem_of_list_to_set, list_elem_of_fmap. firstorder.
Qed.

Lemma concat_insert {A} (t : list (list A)) i c c' : t !! i = Some c ->
  exists t1 t2, concat t = concat t1 ++ c ++ concat t2 /\
                concat (<[i := c']> t) = concat t1 ++ c' ++ concat t2.
Proof.
  intros H. exists (take i t), (drop (S i) t).
  rewrite <- (take_drop_middle t i c H) at 1.
  rewrite insert_take_drop by (eapply lookup_lt_Some; eauto).
  now rewrite !concat_app.
Qed.

Lemma elem_of_concat_lookup {A} (t : list (list A)) x :
  x ∈ concat t <-> exists i c, t !! i = Some c /\ x ∈ c.
Proof.
  rewrite list_elem_of_In, in_concat. split.
  - intros (c & Hc & Hx). apply list_elem_of_In, list_elem_of_lookup in Hc as [i Hi].
    exists i, c. now rewrite list_elem_of_In.
  - intros (i & c & Hi & Hx). exists c. rewrite <- !list_elem_of_In.
    split; [|done]. eapply list_elem_of_lookup_2; eauto.
Qed.

Lemma chain_del_spec chain addr :
  match chain_del chain addr with
  | Some c => exists c1 s c2, chain = c1 ++ s :: c2 /\ c = c1 ++ c2 /\ pair_of s = key_of addr
  | None => chain_find chain addr = false
  end.
Proof.
  induction chain as [|s chain IH]; simpl; [done|].
  destruct (same_station s addr) eqn:E.
  - exists [], s, chain. split; [done|]. split; [done|]. now apply same_station_spec.
  - destruct (chain_del chain addr) as [c|]; [|done].
    destruct IH as (c1 & s' & c2 & -> & -> & Hs). exists (s :: c1), s', c2. done.
Qed.

Section Ops.
Context (g : dense_hash) (addr : cmd_msg_s).
Context (Hg : dense_ok g) (Hsta : mac_ok (stamac addr)).

(** Every operation finds the chain of the station. *)
Lemma the_chain : exists i chain,
  hash_idx (stamac addr) = Ok i /\ 0 <= i < 32 /\
  rd (tbl g) i = Ok chain /\ tbl g !! Z.to_nat i = Some chain /\
  (chain_find chain addr = true <-> key_of addr ∈ contents g).
Proof using Hg Hsta.
  destruct (hash_idx_ok (stamac addr) Hsta) as (i & Hi & Hr).
  destruct (lookup_lt_is_Some_2 (tbl g) (Z.to_nat i)) as [chain Hc].
  { rewrite (dense_len g Hg). lia. }
  exists i, chain. split; [done|]. split; [done|].
  split; [apply rd_Some; [lia|done]|]. split; [done|].
  rewrite chain_find_spec, contents_spec, list_elem_of_fmap. split.
  - intros (s & Hs & Hin). exists s. split; [done|].
    apply elem_of_concat_lookup. eauto.
  - intros (s & Hs & Hin). exists s. split; [done|].
    apply elem_of_concat_lookup in Hin as (j & c & Hj & Hin).
    destruct (dense_place g Hg j c s Hj Hin) as [_ Hp].
    assert (station s = stamac addr) as Es by (injection Hs; auto).
    rewrite Es, Hi in Hp. injection Hp as ->. rewrite Nat2Z.id in Hc. congruence.
Qed.

Lemma add_ok i chain :
  hash_idx (stamac addr) = Ok i -> 0 <= i < 32 -> tbl g !! Z.to_nat i = Some chain ->
  key_of addr ∉ contents g ->
  let g' := {| tbl := <[Z.to_nat i := {| station := stamac addr; ap := bssid addr |} :: chain]> (tbl g);
               station_used := station_used g + 1 |} in
  dense_ok g' /\ contents g' = {[key_of addr]} ∪ contents g.
Proof using Hg Hsta.
  intros Hi Hr Hc Hnew g'. set (s := {| station := _ |}) in g'.
  destruct (concat_insert (tbl g) _ chain (s :: chain) Hc) as (t1 & t2 & E1 & E2).
  assert (s ∉ concat (tbl g)) as Hs.
  { intros Hin. apply Hnew, contents_spec. exists s. done. }
  split.
  - split; simpl.
    + rewrite length_insert. apply (dense_len g Hg).
    + intros j c x Hj Hx. destruct (decide (Z.to_nat i = j)) as [<-|Hne].
      * rewrite list_lookup_insert_eq in Hj by (eapply lookup_lt_Some; eauto).
        injection Hj as <-. apply elem_of_cons in Hx as [->|Hx].
        -- split; [done|]. rewrite Z2Nat.id by lia. done.
        -- eapply (dense_place g Hg); eauto.
      * rewrite list_lookup_insert_ne in Hj by done. eapply (dense_place g Hg); eauto.
    + rewrite E2. pose proof (dense_nodup g Hg) as Hn. rewrite E1 in Hn, Hs.
      rewrite <- app_comm_cons. rewrite <- Permutation_middle. now constructor.
    + rewrite E2. rewrite (dense_count g Hg), E1. unfold zlen. rewrite !length_app. simpl. lia.
  - apply set_eq. intros p. rewrite elem_of_union, elem_of_singleton, !contents_spec.
    unfold g'. simpl. rewrite E1, E2.
    assert (forall x, x ∈ concat t1 ++ (s :: chain) ++ concat t2 <->
      x = s \/ x ∈ concat t1 ++ chain ++ concat t2) as Hin
      by (intros x; rewrite !elem_of_app, elem_of_cons; tauto).
    setoid_rewrite Hin. change (key_of addr) with (pair_of s). split.
    + intros (x & <- & [->|Hx]); eauto.
    + intros [->|(x & <- & Hx)]; eauto.
Qed.

Lemma del_ok i chain c1 s c2 :
  hash_idx (stamac addr) = Ok i -> 0 <= i < 32 -> tbl g !! Z.to_nat i = Some chain ->
  chain = c1 ++ s :: c2 -> pair_of s = key_of addr ->
  let g' := {| tbl := <[Z.to_nat i := c1 ++ c2]> (tbl g); station_used := station_used g - 1 |} in
  dense_ok g' /\ contents g' = contents g ∖ {[key_of addr]} /\ key_of addr ∈ contents g.
Proof using Hg.
  intros Hi Hr Hc -> Hs g'.
  destruct (concat_insert (tbl g) _ _ (c1 ++ c2) Hc) as (t1 & t2 & E1 & E2).
  assert (concat (tbl g) ≡ₚ s :: concat (<[Z.to_nat i := c1 ++ c2]> (tbl g))) as HP.
  { rewrite E1, E2. rewrite <- !app_assoc, <- app_comm_cons.
    rewrite (app_assoc (concat t1) c1), (app_assoc (concat t1) c1).
    symmetry. apply Permutation_middle. }
  pose proof (dense_nodup g Hg) as Hn. rewrite HP in Hn. apply NoDup_cons in Hn as [Hns Hn].
  split; [split; simpl|split].
  - rewrite length_insert. apply (dense_len g Hg).
  - intros j c x Hj Hx. destruct (decide (Z.to_nat i = j)) as [<-|Hne].
    + rewrite list_lookup_insert_eq in Hj by (eapply lookup_lt_Some; eauto).
      injection Hj as <-. eapply (dense_place g Hg); [done|].
      rewrite elem_of_app, elem_of_cons. apply elem_of_app in Hx. tauto.
    + rewrite list_lookup_insert_ne in Hj by done. eapply (dense_place g Hg); eauto.
  - done.
  - rewrite (dense_count g Hg). apply Permutation_length in HP. unfold zlen.
    rewrite HP. simpl. lia.
  - apply set_eq. intros p. rewrite elem_of_difference, elem_of_singleton, !contents_spec.
    unfold g'. simpl. setoid_rewrite HP. setoid_rewrite elem_of_cons. split.
    + intros (x & <- & Hx). split; [eauto|]. rewrite <- Hs. intros E. apply (inj pair_of) in E.
      congruence.
    + intros [(x & <- & [->|Hx]) Hne]; [congruence|eauto].
  - apply contents_spec. exists s. split; [done|]. rewrite HP. constructor.
Qed.
End Ops.

Lemma dense_count_size g : dense_ok g -> station_used g = Z.of_nat (size (contents g)).
Proof.
  intros Hg. rewrite (dense_count g Hg). unfold contents, zlen.
  rewrite size_list_to_set by (apply NoDup_fmap, (dense_nodup g Hg); apply _).
  now rewrite length_fmap.
Qed.

Lemma init_dense_ok : dense_ok fnii_init_dense_station_hash /\
  contents fnii_init_dense_station_hash = ∅.
Proof.
  split; [|reflexivity]. split; [reflexivity| |constructor|reflexivity].
  intros i chain s Hi Hs. unfold fnii_init_dense_station_hash, tbl in Hi.
  apply lookup_replicate in Hi as [-> _]. inversion Hs.
Qed.

(** A reset leaves an empty table and hands over every station once. *)
Lemma reset_dense_ok g : dense_ok g ->
  let '(freed, g') := dense_reset g in
  dense_ok g' /\ contents g' = ∅ /\ NoDup freed /\ list_to_set (pair_of <$> freed) = contents g.
Proof.
  intros Hg. simpl. destruct init_dense_ok as [Ho Hc]. split; [exact Ho|].
  split; [exact Hc|]. split; [apply (dense_nodup g Hg)|done].
Qed.

#[export] Instance u8_dec b : Decision (u8 b).
Proof. unfold u8. apply _. Defined.
#[export] Instance mac_ok_dec m : Decision (mac_ok m).
Proof. unfold mac_ok. apply _. Defined.

(** The invariant as a test, for concrete tables. *)
Definition dense_check (g : dense_hash) : bool :=
  bool_decide (length (tbl g) = 32%nat) &&
  forallb (fun p : nat * list dense_station =>
    forallb (fun s => bool_decide (mac_ok (station s) /\ hash_idx (station s) = Ok (Z.of_nat p.1))) p.2)
    (imap pair (tbl g)) &&
  bool_decide (NoDup (concat (tbl g))) &&
  bool_decide (station_used g = zlen (concat (tbl g))).

Section Runs.
Context (g : dense_hash) (addr : cmd_msg_s).
Context (Hg : dense_ok g) (Hsta : mac_ok (stamac addr)).

Lemma dense_find_run : fnii_dense_station_find SOCKET_STATUS_ENABLE (Some addr) g
  = Ok (if bool_decide (key_of addr ∈ contents g) then FNII_RET_OK else FNII_RET_ERR).
Proof using Hg Hsta.
  destruct (the_chain g addr Hg Hsta) as (i & chain & Hi & Hr & Hrd & Hc & Hf).
  unfold fnii_dense_station_find. rewrite bool_decide_eq_false_2 by (intros E; now apply E).
  rewrite Hi. simpl. rewrite Hrd. simpl. f_equal.
  case_bool_decide as H; destruct (chain_find chain addr); try done; exfalso; intuition congruence.
Qed.

Lemma dense_add_run : exists g', fnii_dense_station_add true (Some addr) g
    = Ok (if bool_decide (key_of addr ∈ contents g) then FNII_RET_ERR else FNII_RET_OK, g') /\
  dense_ok g' /\ contents g' = {[key_of addr]} ∪ contents g.
Proof using Hg Hsta.
  destruct (the_chain g addr Hg Hsta) as (i & chain & Hi & Hr & Hrd & Hc & Hf).
  unfold fnii_dense_station_add. rewrite Hi. simpl. rewrite Hrd. simpl.
  destruct (chain_find chain addr) eqn:E.
  - rewrite bool_decide_eq_true_2 by (now apply Hf). exists g. split; [done|]. split; [done|].
    apply set_eq. intros p. rewrite elem_of_union, elem_of_singleton. split; [auto|].
    intros [->|]; [now apply Hf|done].
  - assert (key_of addr ∉ contents g) as Hn by (rewrite <- Hf; congruence).
    rewrite bool_decide_eq_false_2 by done.
    rewrite wr_Ok by (unfold zlen; rewrite (dense_len g Hg); lia). simpl.
    eexists. split; [done|]. exact (add_ok g addr Hg Hsta i chain Hi Hr Hc Hn).
Qed.

Lemma dense_del_run : exists g', fnii_dense_station_del (Some addr) g
    = Ok (if bool_decide (key_of addr ∈ contents g) then FNII_RET_OK else FNII_RET_ERR, g') /\
  dense_ok g' /\ contents g' = contents g ∖ {[key_of addr]}.
Proof using Hg Hsta.
  destruct (the_chain g addr Hg Hsta) as (i & chain & Hi & Hr & Hrd & Hc & Hf).
  unfold fnii_dense_station_del. rewrite Hi. simpl. rewrite Hrd. simpl.
  pose proof (chain_del_spec chain addr) as Hd. destruct (chain_del chain addr) as [c|].
  - destruct Hd as (c1 & s & c2 & Ec & -> & Hs).
    destruct (del_ok g addr Hg i chain c1 s c2 Hi Hr Hc Ec Hs) as (Hok & Hcon & Hin).
    rewrite bool_decide_eq_true_2 by done.
    rewrite wr_Ok by (unfold zlen; rewrite (dense_len g Hg); lia). simpl. eauto.
  - assert (key_of addr ∉ contents g) as Hn by (rewrite <- Hf; congruence).
    rewrite bool_decide_eq_false_2 by done. exists g. split; [done|]. split; [done|].
    apply set_eq. intros p. rewrite elem_of_difference, elem_of_singleton. split; [|tauto].
    intros Hp. split; [done|]. congruence.
Qed.
End Runs.

(** ** Statements *)

(** C2: the 32 chains and the counter are a correct representation of a set of
    (station, AP) pairs.  [find] is membership (when the controller link is
    up); [add] inserts a pair that is absent and refuses one that is present;
    [del] removes a pair that is present and refuses one that is absent; each
    keeps the invariant, under which the counter is the size of the set. *)
Theorem dense_refines_set (g : dense_hash) (addr : cmd_msg_s)
    (Hg : dense_ok g) (Hsta : mac_ok (stamac addr)) :
  fnii_dense_station_find SOCKET_STATUS_ENABLE (Some addr) g
    = Ok (if bool_decide (key_of addr ∈ contents g) then FNII_RET_OK else FNII_RET_ERR) /\
  (exists g', fnii_dense_station_add true (Some addr) g
      = Ok (if bool_decide (key_of addr ∈ contents g) then FNII_RET_ERR else FNII_RET_OK, g') /\
    dense_ok g' /\ contents g' = {[key_of addr]} ∪ contents g) /\
  (exists g', fnii_dense_station_del (Some addr) g
      = Ok (if bool_decide (key_of addr ∈ contents g) then FNII_RET_OK else FNII_RET_ERR, g') /\
    dense_ok g' /\ contents g' = contents g ∖ {[key_of addr]}) /\
  station_used g = Z.of_nat (size (contents g)).
Proof.
  split; [now apply dense_find_run|]. split; [now apply dense_add_run|].
  split; [now apply dense_del_run|]. now apply dense_count_size.
Qed.

Definition mac1 : list Z := [0xb0; 0x9f; 0xba; 0x41; 0x4f; 0x13].
Definition mac2 : list Z := [0x70; 0x9f; 0xba; 0x41; 0x4f; 0x14].
Definition ap1 : list Z := [0; 1; 2; 3; 4; 5].
Definition dense1 : dense_hash :=
  {| tbl := replicate 16 [] ++ [[{| station := mac1; ap := ap1 |}]] ++ replicate 15 [];
     station_used := 1 |}.

Lemma dense_ok_of_check g : dense_check g = true -> dense_ok g.
Proof.
  unfold dense_check. rewrite !andb_true_iff, !bool_decide_eq_true.
  intros [[[H1 H2] H3] H4]. split; auto. intros i chain s Hi Hs.
  rewrite forallb_forall in H2.
  assert (List.In (i, chain) (imap pair (tbl g))) as Hin.
  { apply list_elem_of_In, (list_elem_of_lookup_2 _ i). rewrite list_lookup_imap, Hi. done. }
  specialize (H2 _ Hin). rewrite forallb_forall in H2.
  apply list_elem_of_In in Hs. specialize (H2 _ Hs). now apply bool_decide_eq_true_1 in H2.
Qed.

Lemma dense_refines_set_witness :
  exists g', fnii_dense_station_add true (Some (mkCmd 2 ap1 mac2)) dense1 = Ok (0, g') /\
             contents g' = {[(mac2, ap1)]} ∪ contents dense1.
Proof.
  destruct (dense_refines_set dense1 (mkCmd 2 ap1 mac2)) as (_ & (g' & H & _ & Hc) & _ & _).
  - apply dense_ok_of_check. vm_compute. reflexivity.
  - by_check.
  - exists g'. split; [|exact Hc]. rewrite H. vm_compute. reflexivity.
Defined.

(** [os_malloc] failing in [fnii_dense_station_add] is not handled: adding
    an absent pair then writes through a NULL pointer. *)
Theorem dense_add_no_memory (g : dense_hash) (addr : cmd_msg_s)
    (Hg : dense_ok g) (Hsta : mac_ok (stamac addr)) (Hnew : key_of addr ∉ contents g) :
  fnii_dense_station_add false (Some addr) g = Ub NullDeref.
Proof.
  destruct (the_chain g addr Hg Hsta) as (i & chain & Hi & Hr & Hrd & Hc & Hf).
  unfold fnii_dense_station_add. rewrite Hi. simpl. rewrite Hrd. simpl.
  destruct (chain_find chain addr); [|done]. exfalso. now apply Hnew, Hf.
Qed.

Lemma dense_add_no_memory_witness :
  fnii_dense_station_add false (Some (mkCmd 2 ap1 mac2)) dense1 = Ub NullDeref.
Proof.
  apply (dense_add_no_memory dense1 (mkCmd 2 ap1 mac2)).
  - apply dense_ok_of_check. vm_compute. reflexivity.
  - by_check.
  - by_check.
Defined.
