(* ===== verification/Env.v ===== *)
(** * What the program asks of its environment

    Every call the modelled C code makes to the operating system, to the shell
    and to the wireless driver is a constructor of [call].  A world holds an
    [env]: the history of the calls made so far and an oracle that answers the
    next one.  The oracle is an arbitrary function of the number of calls
    already made and of the call, so a theorem about every [env] holds for
    every behaviour of the environment over time.  The class [HasEnv] is what a
    component's state must offer for the calls to be made from it. *)

From stdpp Require Import base list numbers.
From Stdlib Require Import ZArith Lia.
From S2P Require Import Prelude CString.
Local Open Scope Z_scope.

(** [struct wpa_driver_ap_params], without the elements for drivers that build frames
    on their own and the frequency: the beacon, whose parts before and behind the
    TIM element are [ap_head] and [ap_tail], and what the driver is told with it. *)
Record ap_params : Type := mkParams {
  ap_head : list Z;
  ap_tail : list Z;
  ap_proberesp : option (list Z);
  ap_dtim_period : Z;
  ap_beacon_int : Z;
  ap_basic_rates : list Z;
  ap_ssid : list Z;
  ap_pairwise_ciphers : Z;
  ap_group_cipher : Z;
  ap_key_mgmt_suites : Z;
  ap_auth_algs : Z;
  ap_wpa_version : Z;
  ap_privacy : bool;
  ap_hide_ssid : Z;
  ap_isolate : Z;
  ap_smps_mode : Z;
  ap_cts_protect : bool;
  ap_preamble : bool;
  ap_short_slot_time : Z;
  ap_ht_opmode : Z;
  ap_interworking : bool;
  ap_hessid : option (list Z);
  ap_access_network_type : Z;
  ap_max_inactivity : Z }.

#[export] Instance ap_params_eq_dec : EqDecision ap_params.
Proof. solve_decision. Defined.

Inductive call : Type :=
(* C library and kernel *)
| Popen (cmd : list Z)
| System (cmd : list Z)
| Fopen (path : list Z)
| Malloc (size : Z)
| Time
| Sleep (seconds : Z)
| Socket
| InetPton (host : list Z)
| Connect (fd : Z) (host : list Z) (port : Z)
| Send (fd : Z) (data : list Z)
| Write (fd : Z) (size : Z)
| Recv (fd : Z) (size : Z)
| Shutdown (fd : Z)
| Close (fd : Z)
| Ioctl (fd : Z)
| PcapOpen (dev : list Z)
| Fcntl (fd : Z)
(* the driver, through [hapd->driver] *)
| DrvStaDisassoc (bssid sta : list Z) (reason : Z)
| DrvSend2StaDisassoc (bssid sta : list Z) (reason : Z)
| DrvStaDeauth (bssid sta : list Z) (reason : Z)
| DrvStaRemove (bssid sta : list Z)
| DrvSetAp (bssid : list Z) (params : ap_params)
| DrvSendMlme (frame : list Z) (noack : bool)
| DrvStaAdd (bssid sta : list Z) (aid capability : Z) (rates : list Z) (listen_interval : Z)
    (ht_capab vht_capab : option (list Z)) (vht_opmode_enabled : bool) (vht_opmode flags qosinfo : Z)
| DrvStaSetFlags (bssid sta : list Z) (total_flags flags_or flags_and : Z)
(* parts of hostapd that are called and not modelled; [arg] is the address they are about *)
| Hostapd (fn : list Z) (arg : list Z)
(* the event loop *)
| EloopTimeout (secs : Z) (fn : list Z) (arg : list Z)
| EloopCancel (fn : list Z) (arg : list Z)
| EloopReadSock (fd : Z)
| EloopUnregister (fd : Z).

#[export] Instance call_eq_dec : EqDecision call.
Proof. solve_decision. Defined.

Record env : Type := mkEnv {
  onum : nat -> call -> Z;                    (** an integer result *)
  obytes : nat -> call -> option (list Z);    (** the bytes of a stream, or NULL *)
  trace : list call }.                        (** the calls made so far, oldest first *)

Definition logged (c : call) (e : env) : env :=
  {| onum := onum e; obytes := obytes e; trace := trace e ++ [c] |}.

Class HasEnv (W : Type) : Type := {
  the_env : W -> env;
  put_env : env -> W -> W;
  env_put : forall e w, the_env (put_env e w) = e;
  put_put : forall e e' w, put_env e (put_env e' w) = put_env e w;
  put_env_id : forall w, put_env (the_env w) w = w }.

(** The environment alone, for components whose only state it is. *)
#[export] Instance env_has_env : HasEnv env :=
  {| the_env := fun e => e; put_env := fun e _ => e; env_put := fun e w => eq_refl;
     put_put := fun e e' w => eq_refl; put_env_id := fun w => eq_refl |}.

Section Calls.
Context {W : Type} `{HasEnv W}.

(** A call whose integer result is used. *)
Definition ext (c : call) : M W Z := fun w =>
  Ok (onum (the_env w) (length (trace (the_env w))) c, put_env (logged c (the_env w)) w).

(** A call whose result is a stream of bytes, or NULL. *)
Definition ext_bytes (c : call) : M W (option (list Z)) := fun w =>
  Ok (obytes (the_env w) (length (trace (the_env w))) c, put_env (logged c (the_env w)) w).

(** A call whose result is not looked at. *)
Definition ext_ (c : call) : M W unit := fun w =>
  Ok (tt, put_env (logged c (the_env w)) w).

Definition popen (cmd : list Z) : M W (option (list Z)) := ext_bytes (Popen cmd).

(** A computation that changes nothing but the environment. *)
Definition env_only {A} (m : M W A) : Prop :=
  forall w a w', m w = Ok (a, w') -> w' = put_env (the_env w') w.

Lemma env_only_ret {A} (a : A) : env_only (ret a).
Proof. intros w b w' [= _ <-]. symmetry. apply put_env_id. Qed.

Lemma env_only_fail {A} u : env_only (@fail W A u).
Proof. intros w a w' [=]. Qed.

Lemma env_only_lift {A} (r : res A) : env_only (lift r).
Proof. destruct r; [apply env_only_ret|apply env_only_fail]. Qed.

Lemma env_only_ext_bytes c : env_only (ext_bytes c).
Proof. intros w a w' [= _ <-]. now rewrite env_put. Qed.

Lemma env_only_bind {A B} (m : M W A) (k : A -> M W B) :
  env_only m -> (forall a, env_only (k a)) -> env_only (bind m k).
Proof.
  intros Hm Hk w b w' E. inv_bind E. apply Hm in E0. apply Hk in E.
  rewrite E, E0, put_put, env_put. done.
Qed.
End Calls.

#[export] Hint Resolve env_only_ret env_only_fail env_only_lift env_only_ext_bytes
  env_only_bind : lazyas.

(** ** What a computation leaves alone *)

Definition keeps {W X A} (p : W -> X) (m : M W A) : Prop :=
  forall w a w', m w = Ok (a, w') -> p w' = p w.

Section Keeps.
Context {W X : Type} `{HasEnv W} (p : W -> X).

Lemma keeps_ret {A} (a : A) : keeps p (ret a).
Proof using. intros w b w' [= _ <-]. done. Qed.
Lemma keeps_get : keeps p get.
Proof using. intros w b w' [= _ <-]. done. Qed.
Lemma keeps_fail {A} u : keeps p (@fail W A u).
Proof using. intros w b w' [=]. Qed.
Lemma keeps_lift {A} (r : res A) : keeps p (lift r).
Proof using. destruct r; [apply keeps_ret|apply keeps_fail]. Qed.
Lemma keeps_modify f : (forall w, p (f w) = p w) -> keeps p (modify f).
Proof using. intros Hf w b w' [= _ <-]. apply Hf. Qed.
Lemma keeps_bind {A B} (m : M W A) (k : A -> M W B) :
  keeps p m -> (forall a, keeps p (k a)) -> keeps p (bind m k).
Proof using. intros Hm Hk w b w' E. inv_bind E. rewrite (Hk _ _ _ _ E). eauto. Qed.

Context (Hp : forall c w, p (put_env (logged c (the_env w)) w) = p w).
Lemma keeps_ext c : keeps p (ext c).
Proof using Hp. intros w b w' E. inversion E. exact (Hp c w). Qed.
Lemma keeps_ext_ c : keeps p (ext_ c).
Proof using Hp. intros w b w' E. inversion E. exact (Hp c w). Qed.
Lemma keeps_ext_bytes c : keeps p (ext_bytes c).
Proof using Hp. intros w b w' E. inversion E. exact (Hp c w). Qed.
End Keeps.

(** [keeps_tac] walks through a computation; [known] closes the calls of other
    operations. *)
Ltac keeps_step known :=
  lazymatch goal with
  | |- keeps _ (bind _ _) => apply keeps_bind; [|intros]
  | |- keeps _ (ret _) => apply keeps_ret
  | |- keeps _ get => apply keeps_get
  | |- keeps _ (fail _) => apply keeps_fail
  | |- keeps _ (lift _) => apply keeps_lift
  | |- keeps _ (modify _) => apply keeps_modify; reflexivity
  | |- keeps _ (ext _) => apply keeps_ext; reflexivity
  | |- keeps _ (ext_ _) => apply keeps_ext_; reflexivity
  | |- keeps _ (ext_bytes _) => apply keeps_ext_bytes; reflexivity
  | |- keeps _ (match ?x with _ => _ end) => destruct x
  | |- keeps _ (let _ := _ in _) => cbv zeta
  | |- _ => known
  end.
Ltac keeps_tac known := repeat (keeps_step known).

(** ** Streams *)

(** The bytes up to and including the first newline, at most [n] of them, and
    the rest of the stream. *)
Fixpoint take_line (n : nat) (s : list Z) : list Z * list Z :=
  match n, s with
  | O, _ => ([], s)
  | _, [] => ([], [])
  | S n', c :: s' =>
      if bool_decide (c = 10) then ([c], s')
      else let '(l, r) := take_line n' s' in (c :: l, r)
  end.

(** [fgets(buf, n, stream)]: NULL at the end of the stream, or the bytes stored
    before the final 0. *)
Definition fgets (n : nat) (s : list Z) : option (list Z * list Z) :=
  match s with [] => None | _ => Some (take_line (n - 1) s) end.

Lemma take_line_length n s : (length (take_line n s).1 <= n)%nat.
Proof.
  revert s. induction n as [|n IH]; intros [|c s]; simpl; try lia.
  case_bool_decide; simpl; [lia|]. specialize (IH s). destruct (take_line n s). simpl in *. lia.
Qed.

Lemma take_line_shrinks n c s : (length (take_line (S n) (c :: s)).2 < S (length s))%nat.
Proof.
  simpl. case_bool_decide; simpl; [lia|].
  assert (length (take_line n s).2 <= length s)%nat as H1.
  { clear. revert s. induction n as [|n IH]; intros [|d s]; simpl; try lia.
    case_bool_decide; simpl; [lia|]. specialize (IH s). destruct (take_line n s). simpl in *. lia. }
  destruct (take_line n s). simpl in *. lia.
Qed.

(** The successive results of [fgets] until NULL, for a buffer of [n >= 2] bytes. *)
Fixpoint fgets_all (fuel n : nat) (s : list Z) : list (list Z) :=
  match fuel, fgets n s with
  | S f, Some (l, r) => l :: fgets_all f n r
  | _, _ => []
  end.
Definition stream_lines (n : nat) (s : list Z) : list (list Z) := fgets_all (length s) n s.

(** A full line that fits the buffer is read as one. *)
Lemma take_line_whole n l r : 10 ∉ l -> (length l < n)%nat ->
  take_line n (l ++ 10 :: r) = (l ++ [10], r).
Proof.
  revert n. induction l as [|c l IH]; intros [|n] Hl Hn; simpl in *; try lia.
  - reflexivity.
  - apply not_elem_of_cons in Hl as [Hc Hl]. rewrite bool_decide_eq_false_2 by congruence.
    rewrite IH by (auto; lia). reflexivity.
Qed.

(** A text with no newline fills the buffer. *)
Lemma take_line_no_newline n s : 10 ∉ s -> take_line n s = (take n s, drop n s).
Proof.
  revert n. induction s as [|c s IH]; intros [|n] Hs; simpl; try done.
  apply not_elem_of_cons in Hs as [Hc Hs]. rewrite bool_decide_eq_false_2 by congruence.
  now rewrite IH.
Qed.

Lemma fgets_all_nil f n : fgets_all f n [] = [].
Proof. destruct f; reflexivity. Qed.

(** A text whose lines fit the buffer is read line by line. *)
Lemma stream_lines_whole n (ls : list (list Z)) : (2 <= n)%nat ->
  Forall (fun l => (10 ∉ l) /\ (S (length l) < n)%nat) ls ->
  stream_lines n (concat (map (fun l => l ++ [10]) ls)) = map (fun l => l ++ [10]) ls.
Proof.
  intros Hn HF. unfold stream_lines.
  assert (forall f, (length ls <= f)%nat ->
    fgets_all f n (concat (map (fun l => l ++ [10]) ls)) = map (fun l => l ++ [10]) ls) as H.
  { induction HF as [|l ls [Hl Hlen] HF IH]; intros f Hf; simpl in *.
    - apply fgets_all_nil.
    - destruct f as [|f]; [lia|]. rewrite <- app_assoc. simpl.
      unfold fgets. destruct (l ++ 10 :: _) eqn:E; [now destruct l|]. rewrite <- E.
      rewrite take_line_whole by (auto; lia). f_equal. apply IH. lia. }
  apply H. clear. induction ls as [|l ls IH]; simpl; [lia|].
  rewrite !length_app. simpl. lia.
Qed.

(** The loop [while (fgets(...) != NULL)] makes progress, so it ends. *)
Lemma fgets_shrinks n s l r : (2 <= n)%nat -> fgets n s = Some (l, r) -> (length r < length s)%nat.
Proof.
  intros Hn. unfold fgets. destruct s as [|c s]; [discriminate|]. intros [= E].
  destruct n as [|[|n]]; [lia..|].
  pose proof (take_line_shrinks n c s) as H. replace (S (S n) - 1)%nat with (S n) in E by lia.
  rewrite E in H. simpl in *. lia.
Qed.
