(* ===== verification/Survey.v ===== *)
(** * Channel survey of an AP: [ap_survey.c]

    The file exists twice, in the collector and under [src/fnii]; the second
    adds [get_ap_au].  The functions run [iw] through the shell and read its
    output line by line.  [W] is the state of the caller; the shell is part of
    its [env].  Quotients of two [int]s computed in [double] are kept as the
    pair of their operands; where one is converted to [int] the conversion is
    written out ([dbl_quot_to_int]). *)

From stdpp Require Import base list numbers strings.
From Stdlib Require Import ZArith Lia.
From S2P Require Import Prelude CString Env.
Local Open Scope Z_scope.

Definition S_TRUE : Z := 1.
Definition S_FALSE : Z := 0.
Definition S_ERR : Z := -1.
Definition MAX_SSID : nat := 64.
Definition MAX_PARM : nat := 64.
Definition MAX_CMD : nat := 128.
Definition MAX_BUF : nat := 256.
Definition MAC_BUF : nat := 18.
Definition STA_INFO_SIGNAL : Z := 8.
Definition AP_INFO_BSSID : Z := 3.
Definition AP_INFO_SSID : Z := 4.
Definition AP_SURVEY_FREQUENCY : Z := 1.
Definition AP_SURVEY_CHANNEL_ACTIVE : Z := 2.
Definition AP_SURVEY_CHANNEL_BUSY : Z := 3.
Definition AP_SURVEY_CHANNEL_BUSY_EXT : Z := 4.

Record sta_info_t : Type := mkStaInfo {
  inactive_time : Z; signal : Z; rx_byte : Z; tx_byte : Z; rx_packets : Z; tx_packets : Z }.
Record ap_info_t : Type := mkApInfo {
  ai_bssid : list Z; ai_ssid : list Z; ai_channel : Z; ai_width : Z; ai_center : Z }.
(** [utilization] is the [double] quotient of the two integers. *)
Record ap_survey_t : Type := mkApSurvey {
  as_ssid : list Z; as_rssi : Z; as_channel : Z; utilization : Z * Z }.

(** The bytes of the string that [snprintf(buf, n, ...)] leaves in [buf]. *)
Definition snprintf_str (n : nat) (s : list Z) : list Z := take (n - 1) s.

(** [(int)((busy * 100) / active)] in [double].  Both operands are below 2^53,
    so the rounded quotient truncates to the exact one; a zero divisor gives an
    infinity or a NaN, and neither those nor a quotient outside [int] may be
    converted. *)
Definition dbl_quot_to_int (a b : Z) : res Z :=
  if bool_decide (b = 0) then Ub BadConversion
  else let q := Z.quot a b in
       if bool_decide (- 2 ^ 31 <= q < 2 ^ 31) then Ok q else Ub BadConversion.

Section Survey.
Context {W : Type} `{HasEnv W}.

Definition iw_stations (wlan : list Z) : list Z :=
  str "iw dev " ++ wlan ++ str " station dump | grep Station | awk '{ORS="
  ++ [34] ++ str "," ++ [34] ++ str ";print $2}'".

Definition find_sta (sta_mac : list Z) (chip_index : Z) : M W Z :=
  file <-- popen (iw_stations (if bool_decide (chip_index <> 0) then str "wlan1" else str "wlan0")) ;;
  match file with
  | None => ret S_ERR
  | Some file =>
      let buf := match fgets 256 file with Some (l, _) => cstr l | None => [] end in
      ret (match strstr buf sta_mac with Some _ => S_TRUE | None => S_FALSE end)
  end.

(** The loop [for (; chip_index <= 1; chip_index++)]. *)
Definition find_chipset (sta_mac : list Z) : M W Z :=
  r0 <-- find_sta sta_mac 0 ;;
  if bool_decide (S_TRUE = r0) then ret 1
  else r1 <-- find_sta sta_mac 1 ;;
       if bool_decide (S_TRUE = r1) then ret 2 else ret S_FALSE.

(** The command [get_parm] gives to the shell: 511 bytes of it at most. *)
Definition parm_cmd (head : list Z) : list Z :=
  snprintf_str 512 (str "echo -e " ++ [34] ++ head ++ [34] ++ str " | awk '{print $2}'").

(** [get_parm]: the string left in [parm], which is empty before.  No caller
    looks at the returned integer. *)
Definition get_parm (s : list Z) (parm_len : nat) (flag : list Z) : M W (list Z) :=
  match strstr s flag with
  | None => ret []
  | Some head =>
      file <-- popen (parm_cmd head) ;;
      ret (match file with
           | None => []
           | Some file => match fgets parm_len file with Some (l, _) => cstr l | None => [] end
           end)
  end.

(** The [while (fgets(...))] of [get_sta_info]: it ends at line 8. *)
Fixpoint sta_info_loop (lines : list (list Z)) (index : Z) (sta_info : sta_info_t) : M W sta_info_t :=
  match lines with
  | [] => ret sta_info
  | l :: lines' =>
      if bool_decide (index = STA_INFO_SIGNAL) then
        parm <-- get_parm (cstr l) MAX_PARM (str "signal:") ;;
        ret {| inactive_time := inactive_time sta_info; signal := atoi parm;
               rx_byte := rx_byte sta_info; tx_byte := tx_byte sta_info;
               rx_packets := rx_packets sta_info; tx_packets := tx_packets sta_info |}
      else sta_info_loop lines' (index + 1) sta_info
  end.

Definition get_sta_info (sta_mac : list Z) (sta_info : sta_info_t) (chip_index : Z)
  : M W (Z * sta_info_t) :=
  if bool_decide (chip_index = 1 \/ chip_index = 2) then
    let wlan := if bool_decide (chip_index = 1) then str "wlan0" else str "wlan1" in
    file <-- popen (snprintf_str MAX_CMD (str "iw " ++ wlan ++ str " station get " ++ sta_mac)) ;;
    match file with
    | None => ret (S_ERR, sta_info)
    | Some file =>
        info <-- sta_info_loop (stream_lines MAX_BUF file) 0 sta_info ;;
        ret (S_TRUE, info)
    end
  else ret (S_FALSE, sta_info).

(** [strncpy(dst, src, n)] into a zeroed array: the string it leaves. *)
Definition strncpy_str (n : nat) (s : list Z) : list Z := take n s.

(** The body of the loop of [get_ap_info].  [parm[strlen(parm) - 1] = 0] on an
    empty [parm] writes before the array. *)
Fixpoint ap_info_loop (lines : list (list Z)) (index : Z) (ap_info : ap_info_t) : M W ap_info_t :=
  match lines with
  | [] => ret ap_info
  | l :: lines' =>
      info <--
        (if bool_decide (index = AP_INFO_BSSID) then
           parm <-- get_parm (cstr l) MAX_PARM (str "addr") ;;
           ret {| ai_bssid := strncpy_str (MAC_BUF - 1) parm; ai_ssid := ai_ssid ap_info;
                  ai_channel := ai_channel ap_info; ai_width := ai_width ap_info;
                  ai_center := ai_center ap_info |}
         else if bool_decide (index = AP_INFO_SSID) then
           parm <-- get_parm (cstr l) MAX_PARM (str "ssid") ;;
           match parm with
           | [] => fail OutOfBounds
           | _ => ret {| ai_bssid := ai_bssid ap_info;
                         ai_ssid := strncpy_str (MAX_SSID - 1) (removelast parm);
                         ai_channel := ai_channel ap_info; ai_width := ai_width ap_info;
                         ai_center := ai_center ap_info |}
           end
         else ret ap_info) ;;
      ap_info_loop lines' (index + 1) info
  end.

Definition get_ap_info (sta_mac : list Z) (ap_info : ap_info_t) (chip_index : Z)
  : M W (Z * ap_info_t) :=
  if bool_decide (chip_index = 1 \/ chip_index = 2) then
    let wlan := if bool_decide (chip_index = 1) then str "wlan0" else str "wlan1" in
    file <-- popen (snprintf_str MAX_CMD (str "iw dev " ++ wlan ++ str " info")) ;;
    match file with
    | None => ret (S_ERR, ap_info)
    | Some file =>
        info <-- ap_info_loop (stream_lines MAX_BUF file) 0 ap_info ;;
        ret (S_TRUE, info)
    end
  else ret (S_FALSE, ap_info).

(** The loop of [get_ap_au] and of [get_ap_survey] over the survey dump: the
    accumulator is ([channel], [active], [busy], [ext_busy]); [au] says which
    of the two functions runs, the first of which reads two lines only. *)
Fixpoint survey_loop (au : bool) (lines : list (list Z)) (index : Z) (acc : Z * Z * Z * Z)
  : M W (Z * Z * Z * Z) :=
  match lines with
  | [] => ret acc
  | l :: lines' =>
      let '(channel, active, busy, ext_busy) := acc in
      acc' <--
        (if bool_decide (index = AP_SURVEY_FREQUENCY) then
           if au then ret acc
           else parm <-- get_parm (cstr l) MAX_PARM (str "frequency:") ;;
                ret (uwrap 32 (atoi parm), active, busy, ext_busy)
         else if bool_decide (index = AP_SURVEY_CHANNEL_ACTIVE) then
           parm <-- get_parm (cstr l) MAX_PARM (str "time:") ;;
           ret (channel, atoi parm, busy, ext_busy)
         else if bool_decide (index = AP_SURVEY_CHANNEL_BUSY) then
           parm <-- get_parm (cstr l) MAX_PARM (str "time:") ;;
           ret (channel, active, atoi parm, ext_busy)
         else if bool_decide (index = AP_SURVEY_CHANNEL_BUSY_EXT) then
           if au then ret acc
           else parm <-- get_parm (cstr l) MAX_PARM (str "time:") ;;
                ret (channel, active, busy, atoi parm)
         else ret acc) ;;
      survey_loop au lines' (index + 1) acc'
  end.

Definition survey_cmd (mode : Z) : list Z :=
  if bool_decide (mode = 0) then str "iw wlan0 survey dump" else str "iw wlan1 survey dump".

(** [get_ap_au]: the share of the channel time that was busy, in percent. *)
Definition get_ap_au (mode : Z) : M W Z :=
  if bool_decide (mode = 0 \/ mode = 1) then
    file <-- popen (survey_cmd mode) ;;
    match file with
    | None => ret S_ERR
    | Some file =>
        acc <-- survey_loop true (stream_lines MAX_BUF file) 0 (0, 0, 0, 0) ;;
        let '(_, active, busy, _) := acc in
        lift (dbl_quot_to_int (busy * 100) active)
    end
  else ret S_ERR.

Definition get_ap_survey (sta_mac : list Z) (ap_survey : ap_survey_t) : M W (Z * ap_survey_t) :=
  chip_index <-- find_chipset sta_mac ;;
  if bool_decide (chip_index <> 0) then
    r <-- get_sta_info sta_mac (mkStaInfo 0 0 0 0 0 0) chip_index ;;
    file <-- popen (survey_cmd (chip_index - 1)) ;;
    match file with
    | None => ret (S_ERR, ap_survey)
    | Some file =>
        acc <-- survey_loop false (stream_lines MAX_BUF file) 0 (as_channel ap_survey, 0, 0, 0) ;;
        let '(channel, active, busy, ext_busy) := acc in
        ret (S_TRUE, {| as_ssid := as_ssid ap_survey; as_rssi := signal (snd r);
                        as_channel := channel; utilization := (busy * 100, active) |})
    end
  else ret (S_FALSE, ap_survey).
End Survey.

(** The survey changes nothing but the environment. *)
Section Frame.
Context {W : Type} `{HasEnv W}.

Lemma get_parm_env s n flag : env_only (W := W) (get_parm s n flag).
Proof. unfold get_parm, popen. destruct (strstr s flag); auto with lazyas. Qed.
#[local] Hint Resolve get_parm_env : lazyas.

Lemma survey_loop_env au ls : forall index acc, env_only (W := W) (survey_loop au ls index acc).
Proof.
  induction ls as [|l ls IH]; intros index [[[c a] b] x]; simpl; [auto with lazyas|].
  apply env_only_bind; [|intros; apply IH].
  cases; auto with lazyas.
Qed.
#[local] Hint Resolve survey_loop_env : lazyas.

Lemma get_ap_au_env mode : env_only (W := W) (get_ap_au mode).
Proof.
  unfold get_ap_au, popen. cases; [|auto with lazyas]. apply env_only_bind; [auto with lazyas|].
  intros [file|]; [|auto with lazyas]. apply env_only_bind; [auto with lazyas|].
  intros [[[c a] b] x]. auto with lazyas.
Qed.
End Frame.

(** ** The shell pipeline of [get_parm] *)

Definition is_blank (c : Z) : bool := bool_decide (c = 32 \/ c = 9).

Fixpoint skip_blanks (s : list Z) : list Z :=
  match s with c :: s' => if is_blank c then skip_blanks s' else s | [] => [] end.
Fixpoint skip_word (s : list Z) : list Z :=
  match s with c :: s' => if is_blank c then s else skip_word s' | [] => [] end.
Fixpoint word (s : list Z) : list Z :=
  match s with c :: s' => if is_blank c then [] else c :: word s' | [] => [] end.

(** The field [$2] of a line. *)
Definition field2 (s : list Z) : list Z := word (skip_blanks (skip_word (skip_blanks s))).

(** [awk '{print $2}'] on a text of whole lines; [cur] is the line read so far. *)
Fixpoint print2 (cur s : list Z) : list Z :=
  match s with
  | [] => []
  | c :: s' => if bool_decide (c = 10) then field2 cur ++ 10 :: print2 [] s' else print2 (cur ++ [c]) s'
  end.

(** Text that the shell passes to [echo] and [echo -e] prints unchanged: letters,
    digits, [:], [-], [.] and white space, from a letter on. *)
Definition is_letter (c : Z) : bool := bool_decide (65 <= c <= 90) || bool_decide (97 <= c <= 122).
Definition plain_char (c : Z) : bool :=
  is_letter c || is_blank c || bool_decide (c = 10) || bool_decide (48 <= c <= 58) || bool_decide (c = 45 \/ c = 46).
Definition plain_text (s : list Z) : bool :=
  match s with c :: _ => is_letter c && forallb plain_char s | [] => false end.

(** The pipeline [echo -e "..." | awk '{print $2}'], when [popen] starts it:
    [echo] adds a newline, and of each line the second field is printed. *)
Definition echo_awk (e : env) : Prop :=
  forall t head, plain_text head = true -> (length head <= 256)%nat ->
    obytes e t (Popen (parm_cmd head)) = Some (print2 [] (head ++ [10])).

(** ** Facts *)

Lemma prefix_of_far (p s : list Z) (i : nat) (c : Z) :
  s !! i = Some c -> (i < length p)%nat -> c ∉ p -> prefix_of p s = false.
Proof.
  revert p s. induction i as [|i IH]; intros [|a p] [|b s] Hs Hi Hc; simpl in *; try lia; try discriminate.
  - injection Hs as ->. rewrite bool_decide_eq_false_2; [done|].
    intros ->. apply Hc. constructor.
  - rewrite (IH p s); [apply andb_false_r|done|lia|].
    intros Hin. apply Hc. now constructor.
Qed.

(** Looking for a word with no [c] in a text whose first [c] comes after at
    most [length p] bytes. *)
Lemma strstr_skip (p w s : list Z) (c : Z) :
  c ∉ p -> (length w <= length p)%nat -> p <> [] -> prefix_of p (w ++ c :: s) = false ->
  match strstr (w ++ c :: s) p with Some _ => true | None => false end
  = match strstr s p with Some _ => true | None => false end.
Proof.
  intros Hc Hw Hp. induction w as [|a w IH]; intros H0; simpl app in *.
  - simpl strstr. rewrite H0. done.
  - simpl strstr. rewrite H0. apply IH; [simpl in *; lia|].
    eapply (prefix_of_far p _ (length w)); [|simpl in *; lia|done].
    now rewrite lookup_app_r, Nat.sub_diag by lia.
Qed.

Lemma strstr_prefix p s : prefix_of p s = true -> strstr s p = Some s.
Proof. intros E. destruct s; simpl in *; rewrite E; done. Qed.

Lemma prefix_of_length p s : prefix_of p s = true -> (length p <= length s)%nat.
Proof. intros H. apply prefix_of_spec in H as [t ->]. rewrite length_app. lia. Qed.

Lemma strstr_short p s : (length s < length p)%nat -> strstr s p = None.
Proof.
  induction s as [|a s IH]; intros Hl; simpl.
  - destruct p; [simpl in Hl; lia|done].
  - destruct (prefix_of p (a :: s)) eqn:E; [apply prefix_of_length in E; simpl in *; lia|].
    apply IH. simpl in Hl. lia.
Qed.

Lemma prefix_of_exact p w s : length p = length w -> prefix_of p (w ++ s) = bool_decide (p = w).
Proof.
  intros Hl. destruct (prefix_of p (w ++ s)) eqn:E.
  - apply prefix_of_spec in E as [t E]. apply app_inj_1 in E as [-> _]; [|done].
    now rewrite bool_decide_eq_true_2.
  - rewrite bool_decide_eq_false_2; [done|]. intros ->. rewrite prefix_of_app in E. done.
Qed.

(** The station list as [awk] prints it. *)
Definition joined (macs : list (list Z)) : list Z := concat (map (fun m => m ++ [44]) macs).

Definition mac_text (m : list Z) : Prop :=
  length m = 17%nat /\ Forall (fun c => c = 58 \/ 48 <= c <= 57 \/ 97 <= c <= 102) m.

Lemma mac_text_not c m : mac_text m -> (c < 48 \/ 102 < c) -> c ∉ m.
Proof. intros [_ HF] Hc Hin. rewrite Forall_forall in HF. specialize (HF c Hin). lia. Qed.

Lemma strstr_joined mac macs tail :
  mac_text mac -> Forall mac_text macs -> (length tail < 17)%nat ->
  match strstr (joined macs ++ tail) mac with Some _ => true | None => false end
  = bool_decide (mac ∈ macs).
Proof.
  intros Hm HF Ht. assert (mac <> []) as Hne by (destruct mac; [by destruct Hm|done]).
  induction HF as [|m macs Hm' HF IH].
  - change (joined [] ++ tail) with tail. rewrite strstr_short by (destruct Hm; lia). rewrite bool_decide_eq_false_2; [done|].
    apply not_elem_of_nil.
  - unfold joined in *. simpl. rewrite <- !app_assoc. change ([44] ++ ?x) with (44 :: x).
    destruct (decide (mac = m)) as [->|Hd].
    + rewrite bool_decide_eq_true_2 by constructor.
      rewrite strstr_prefix by apply prefix_of_app. done.
    + rewrite strstr_skip.
      * rewrite IH. apply bool_decide_ext. rewrite elem_of_cons. intuition congruence.
      * eapply mac_text_not; [done|lia].
      * destruct Hm, Hm'. lia.
      * done.
      * rewrite prefix_of_exact by (destruct Hm, Hm'; congruence).
        now rewrite bool_decide_eq_false_2.
Qed.

Lemma joined_app l k : joined (l ++ k) = joined l ++ joined k.
Proof. unfold joined. now rewrite map_app, concat_app. Qed.

Lemma joined_length macs : Forall mac_text macs -> length (joined macs) = (18 * length macs)%nat.
Proof.
  induction 1 as [|m macs [Hm _] HF IH]; [done|]. unfold joined in *. simpl.
  rewrite !length_app, IH, Hm. simpl. lia.
Qed.

Lemma joined_not c macs : Forall mac_text macs -> (c < 44 \/ 102 < c) -> c ∉ joined macs.
Proof.
  intros HF Hc. induction HF as [|m macs Hm HF IH]; [apply not_elem_of_nil|].
  unfold joined in *. simpl. rewrite !not_elem_of_app. split; [|done]. split.
  - apply mac_text_not; [done|lia].
  - rewrite list_elem_of_singleton. lia.
Qed.

Lemma take_joined macs : Forall mac_text macs ->
  exists tail, take 255 (joined macs) = joined (take 14 macs) ++ tail /\ (length tail < 17)%nat.
Proof.
  intros HF. assert (joined macs = joined (take 14 macs) ++ joined (drop 14 macs)) as ->
    by (rewrite <- joined_app, take_drop; done).
  pose proof (joined_length _ (Forall_take _ 14%nat _ HF)) as L1.
  pose proof (joined_length _ (Forall_drop _ 14%nat _ HF)) as L2.
  rewrite length_take in L1. rewrite length_drop in L2. rewrite take_app.
  rewrite (take_ge (joined (take 14 macs))) by lia.
  eexists. split; [done|].
  rewrite length_take, L1, L2. destruct (Nat.le_gt_cases 14 (length macs)); lia.
Qed.

Lemma fmt_d_digits v : 0 <= v < 2 ^ 31 ->
  Forall (fun c => 48 <= c <= 57) (fmt_d 0 v) /\ (1 <= length (fmt_d 0 v) <= 10)%nat.
Proof.
  intros Hv. unfold fmt_d. rewrite bool_decide_eq_false_2 by lia. simpl. rewrite Z.abs_eq by lia.
  split.
  - eapply Forall_impl; [apply digits_chars; lia|]. intros c (d & Hd & ->).
    unfold digit_chr. rewrite bool_decide_eq_true_2 by lia. lia.
  - pose proof (digits_length 10 v 9 ltac:(lia) ltac:(lia) ltac:(lia)).
    pose proof (digits_nonempty 10 v). destruct (digits 10 v); [done|]. simpl in *. lia.
Qed.

Lemma plain_digits d : Forall (fun c => 48 <= c <= 57) d -> forallb plain_char d = true.
Proof.
  induction 1 as [|c d Hc Hd IH]; [done|]. simpl. rewrite IH, andb_true_r. unfold plain_char.
  rewrite (bool_decide_eq_true_2 (48 <= c <= 58)) by lia. by rewrite !orb_true_r.
Qed.

(** A line the survey loops hand to [get_parm]: [pre] then [time:], blanks and
    a number. *)
Definition time_line (pre : list Z) (v : Z) : list Z :=
  pre ++ str "time:" ++ [9; 9] ++ fmt_d 0 v ++ str " ms".

(** The text before [time:] in the two lines [iw] prints. *)
Definition active_pre : list Z := [9] ++ str "channel active ".
Definition busy_pre : list Z := [9] ++ str "channel busy ".

(** The second field of [time:		<digits> ms]. *)
Lemma field2_time v : 0 <= v < 2 ^ 31 ->
  field2 (time_line [] v) = fmt_d 0 v.
Proof.
  intros Hv. destruct (fmt_d_digits v Hv) as [Hd Hl]. unfold field2, time_line.
  change (skip_blanks (skip_word _)) with (skip_blanks (fmt_d 0 v ++ str " ms")).
  assert (forall d, Forall (fun c => 48 <= c <= 57) d -> word (d ++ str " ms") = d) as Hw.
  { clear. induction 1 as [|c d Hc Hd IH]; [reflexivity|]. simpl in *.
    unfold is_blank. rewrite bool_decide_eq_false_2 by lia. now rewrite IH. }
  destruct (fmt_d 0 v) as [|c d] eqn:E; [simpl in Hl; lia|].
  simpl skip_blanks. unfold is_blank at 1. apply Forall_cons_1 in Hd as Hc.
  rewrite bool_decide_eq_false_2 by lia. apply (Hw (c :: d) Hd).
Qed.

Lemma print2_line l : forall cur s, 10 ∉ l -> print2 cur (l ++ 10 :: s) = field2 (cur ++ l) ++ 10 :: print2 [] s.
Proof.
  induction l as [|c l IH]; intros cur s H; [by rewrite app_nil_r|]. apply not_elem_of_cons in H as [Hc H]. simpl.
  rewrite bool_decide_eq_false_2 by done. by rewrite IH, <- app_assoc.
Qed.

(** What the pipeline prints for such a line: the number, and an empty line for
    the newline of its own. *)
Lemma print2_time v : 0 <= v < 2 ^ 31 -> print2 [] ((time_line [] v ++ [10]) ++ [10]) = fmt_d 0 v ++ [10; 10].
Proof.
  intros Hv. rewrite <- app_assoc. change ([10] ++ [10]) with [10; 10]. rewrite print2_line, app_nil_l, field2_time by
    (try done; unfold time_line; rewrite !not_elem_of_app; repeat split; try by_check;
     intros Hin; destruct (fmt_d_digits v Hv) as [Hd _]; rewrite Forall_forall in Hd; specialize (Hd 10 Hin); lia).
  done.
Qed.

(** ** Statements *)

Section Statements.
Context {W : Type} `{HasEnv W}.

(** The oracle answers at the current point of the history. *)
Definition now_bytes (w : W) (c : call) : option (list Z) :=
  obytes (the_env w) (length (trace (the_env w))) c.

Lemma popen_run (w : W) cmd :
  popen cmd w = Ok (now_bytes w (Popen cmd), put_env (logged (Popen cmd) (the_env w)) w).
Proof. reflexivity. Qed.

Lemma get_parm_time (w : W) pre v :
  echo_awk (the_env w) -> 0 <= v < 2 ^ 31 -> (pre = active_pre \/ pre = busy_pre) ->
  get_parm (cstr (time_line pre v ++ [10])) MAX_PARM (str "time:") w
    = Ok (fmt_d 0 v ++ [10],
          put_env (logged (Popen (parm_cmd (time_line [] v ++ [10]))) (the_env w)) w).
Proof.
  intros He Hv Hpre. pose proof (fmt_d_digits v Hv) as [Hd Hl].
  assert (strstr (cstr (time_line pre v ++ [10])) (str "time:") = Some (time_line [] v ++ [10])) as Hs.
  { rewrite cstr_all.
    - unfold time_line. rewrite <- !app_assoc. generalize ([9; 9] ++ fmt_d 0 v ++ str " ms" ++ [10]).
      intros rest. destruct Hpre as [-> | ->]; reflexivity.
    - unfold time_line. rewrite !not_elem_of_app. repeat split; try by_check.
      + destruct Hpre as [-> | ->]; by_check.
      + intros Hin. rewrite Forall_forall in Hd. specialize (Hd 0 Hin). lia. }
  unfold get_parm. rewrite Hs. unfold bind. rewrite popen_run.
  unfold now_bytes. rewrite (He (length (trace (the_env w))) (time_line [] v ++ [10])).
  - rewrite print2_time by done. unfold ret.
    assert (fgets MAX_PARM (fmt_d 0 v ++ [10; 10]) = Some (fmt_d 0 v ++ [10], [10])) as ->.
    { unfold fgets. destruct (fmt_d 0 v ++ [10; 10]) eqn:E; [now destruct (fmt_d 0 v)|].
      rewrite <- E. rewrite take_line_whole; [done| |simpl; lia].
      intros Hin. rewrite Forall_forall in Hd. specialize (Hd 10 Hin). lia. }
    rewrite cstr_all; [done|]. rewrite not_elem_of_app. split; [|by_check].
    intros Hin. rewrite Forall_forall in Hd. specialize (Hd 0 Hin). lia.
  - change (forallb plain_char (time_line [] v ++ [10]) = true). unfold time_line.
    rewrite !forallb_app. rewrite (plain_digits _ Hd). reflexivity.
  - unfold time_line. rewrite !length_app. simpl. lia.
Qed.

(** The four lines of the first survey entry, then the rest of the dump. *)
Definition survey_text (l0 l1 : list Z) (active busy : Z) (more : list (list Z)) : list Z :=
  concat (map (fun l => l ++ [10])
    (l0 :: l1 :: time_line active_pre active :: time_line busy_pre busy :: more)).

Definition line_fits (l : list Z) : Prop := (10 ∉ l) /\ (S (length l) < MAX_BUF)%nat.

Lemma time_line_fits pre v : 0 <= v < 2 ^ 31 -> (pre = active_pre \/ pre = busy_pre) ->
  line_fits (time_line pre v).
Proof.
  intros Hv Hpre. destruct (fmt_d_digits v Hv) as [Hd Hl]. unfold line_fits, time_line. split.
  - rewrite !not_elem_of_app. repeat split; try by_check.
    + destruct Hpre as [-> | ->]; by_check.
    + intros Hin. rewrite Forall_forall in Hd. specialize (Hd 10 Hin). lia.
  - unfold MAX_BUF. rewrite !length_app. destruct Hpre as [-> | ->]; simpl; lia.
Qed.

(** Lines after the fourth are not looked at. *)
Lemma survey_loop_rest (w : W) ls index acc : 4 <= index ->
  survey_loop true ls index acc w = Ok (acc, w).
Proof.
  revert index. induction ls as [|l ls IH]; intros index Hi; [reflexivity|].
  destruct acc as [[[c a] b] x]. simpl. unfold bind.
  unfold AP_SURVEY_FREQUENCY, AP_SURVEY_CHANNEL_ACTIVE, AP_SURVEY_CHANNEL_BUSY in *.
  rewrite !bool_decide_eq_false_2 by lia.
  destruct (bool_decide _); unfold ret; apply IH; lia.
Qed.

Lemma survey_loop_skip (w : W) l ls index acc : (index = 0 \/ index = 1) ->
  survey_loop true (l :: ls) index acc w = survey_loop true ls (index + 1) acc w.
Proof. destruct acc as [[[c a] b] x]. intros [-> | ->]; reflexivity. Qed.

Lemma survey_loop_active (w : W) l ls c a b x :
  survey_loop true (l :: ls) 2 (c, a, b, x) w
  = bind (get_parm (cstr l) MAX_PARM (str "time:"))
      (fun parm => survey_loop true ls 3 (c, atoi parm, b, x)) w.
Proof. simpl. unfold bind. now destruct (get_parm _ _ _ w) as [[]|]. Qed.

Lemma survey_loop_busy (w : W) l ls c a b x :
  survey_loop true (l :: ls) 3 (c, a, b, x) w
  = bind (get_parm (cstr l) MAX_PARM (str "time:"))
      (fun parm => survey_loop true ls 4 (c, a, atoi parm, x)) w.
Proof. simpl. unfold bind. now destruct (get_parm _ _ _ w) as [[]|]. Qed.

Lemma survey_loop_au (w : W) l0 l1 active busy more :
  echo_awk (the_env w) -> 0 <= active < 2 ^ 31 -> 0 <= busy < 2 ^ 31 ->
  survey_loop true (l0 :: l1 :: (time_line active_pre active ++ [10])
                    :: (time_line busy_pre busy ++ [10]) :: more) 0 (0, 0, 0, 0) w
  = let w1 := put_env (logged (Popen (parm_cmd (time_line [] active ++ [10]))) (the_env w)) w in
    Ok ((0, active, busy, 0),
        put_env (logged (Popen (parm_cmd (time_line [] busy ++ [10]))) (the_env w1)) w1).
Proof.
  intros He Ha Hb. rewrite !survey_loop_skip by lia. simpl (0 + 1 + 1).
  rewrite survey_loop_active. erewrite bind_Ok by (apply get_parm_time; auto).
  rewrite survey_loop_busy.
  erewrite bind_Ok by (apply get_parm_time; rewrite ?env_put; auto).
  rewrite survey_loop_rest by lia. rewrite !atoi_fmt_d by (auto; reflexivity). done.
Qed.

(** C26: with a shell whose [echo -e] and [awk] are the usual ones and start, on a
    survey dump in the format of [iw], whose third and fourth lines
    carry the active and the busy time of the channel, [get_ap_au] runs the
    dump and one [echo | awk] pipeline for each of the two lines and returns
    the busy share in percent, rounded down; it lies between 0 and 100 when the
    channel was busy for no longer than it was active. *)
Theorem get_ap_au_correct (w : W) (mode active busy : Z) (l0 l1 : list Z) (more : list (list Z))
    (Hmode : mode = 0 \/ mode = 1)
    (Hshell : echo_awk (the_env w))
    (Hdump : now_bytes w (Popen (survey_cmd mode)) = Some (survey_text l0 l1 active busy more))
    (Hlines : Forall line_fits (l0 :: l1 :: more))
    (Hactive : 0 < active < 2 ^ 31) (Hbusy : 0 <= busy <= active) :
  exists w', get_ap_au mode w = Ok (100 * busy / active, w') /\
    0 <= 100 * busy / active <= 100 /\
    trace (the_env w') = trace (the_env w) ++
      [Popen (survey_cmd mode); Popen (parm_cmd (time_line [] active ++ [10]));
       Popen (parm_cmd (time_line [] busy ++ [10]))].
Proof.
  unfold get_ap_au. rewrite bool_decide_eq_true_2 by done. unfold bind at 1.
  rewrite popen_run, Hdump.
  apply Forall_cons_1 in Hlines as [H0 Hlines]. apply Forall_cons_1 in Hlines as [H1 Hmore].
  assert (Forall line_fits (l0 :: l1 :: time_line active_pre active :: time_line busy_pre busy :: more))
    as HF.
  { repeat (constructor; [first [done | apply time_line_fits; auto; lia]|]). done. }
  unfold survey_text.
  pose proof (stream_lines_whole MAX_BUF _ ltac:(unfold MAX_BUF; lia) HF) as ->. clear HF.
  simpl map. erewrite bind_Ok by (apply survey_loop_au; rewrite ?env_put; auto; lia).
  unfold lift, dbl_quot_to_int. rewrite bool_decide_eq_false_2 by lia.
  rewrite Z.quot_div_nonneg, (Z.mul_comm busy) by lia.
  assert (0 <= 100 * busy / active <= 100) as Hq.
  { split; [apply Z.div_pos; lia|]. apply Z.div_le_upper_bound; lia. }
  rewrite bool_decide_eq_true_2 by lia. eexists. split; [done|]. split; [done|].
  rewrite !env_put. simpl. now rewrite <- !app_assoc.
Qed.

(** When the third line of the dump has no [time:] field (the drivers that
    report noise put it there) no active time is read, and the conversion of
    the quotient to [int] is undefined. *)
Theorem get_ap_au_no_active (w : W) (mode : Z) (l0 l1 l2 : list Z)
    (Hmode : mode = 0 \/ mode = 1)
    (Hdump : now_bytes w (Popen (survey_cmd mode))
      = Some (concat (map (fun l => l ++ [10]) [l0; l1; l2])))
    (Hlines : Forall line_fits [l0; l1; l2])
    (Hno : strstr (cstr (l2 ++ [10])) (str "time:") = None) :
  get_ap_au mode w = Ub BadConversion.
Proof.
  unfold get_ap_au. rewrite bool_decide_eq_true_2 by done. unfold bind at 1.
  rewrite popen_run, Hdump.
  pose proof (stream_lines_whole MAX_BUF _ ltac:(unfold MAX_BUF; lia) Hlines) as ->.
  simpl map. unfold bind at 1. rewrite !survey_loop_skip by lia. rewrite survey_loop_active.
  unfold bind, get_parm. rewrite Hno. reflexivity.
Qed.

(** [find_sta] finds a station exactly when it is among the first 14 that
    [iw] lists for the radio: its 256-byte buffer holds no more of them. *)
Theorem find_sta_first_14 (w : W) (mac : list Z) (macs : list (list Z)) (chip : Z)
    (Hm : mac_text mac) (HF : Forall mac_text macs)
    (Hans : now_bytes w (Popen (iw_stations (if bool_decide (chip <> 0) then str "wlan1" else str "wlan0")))
      = Some (joined macs)) :
  exists w', find_sta mac chip w
    = Ok (if bool_decide (mac ∈ take 14 macs) then S_TRUE else S_FALSE, w').
Proof.
  unfold find_sta, bind. rewrite popen_run, Hans. eexists. unfold ret. do 2 f_equal.
  destruct (take_joined macs HF) as (tail & Et & Hl).
  assert (match fgets 256 (joined macs) with Some (l, _) => cstr l | None => [] end
          = joined (take 14 macs) ++ tail) as ->.
  { rewrite <- Et. unfold fgets. destruct (joined macs) as [|c s] eqn:E; [done|]. rewrite <- E.
    rewrite take_line_no_newline by (apply joined_not; [done|lia]).
    apply cstr_all. intros Hin. apply elem_of_take in Hin as (i & Hi & _).
    eapply (joined_not 0 macs); [done|lia|]. eapply list_elem_of_lookup_2; eauto. }
  pose proof (strstr_joined mac (take 14 macs) tail Hm (Forall_take _ 14%nat _ HF) Hl) as Hs.
  destruct (strstr _ _); rewrite <- Hs; done.
Qed.
End Statements.

(** ** Concrete runs *)

(** A shell: it evaluates the [echo | awk] pipeline and prints [dump] for any
    other command. *)
Definition demo_shell (dump : list Z) (t : nat) (c : call) : option (list Z) :=
  match c with
  | Popen cmd =>
      if prefix_of (str "echo -e " ++ [34]) cmd
      then Some (print2 [] (take (length cmd - 29) (drop 9 cmd) ++ [10]))
      else Some dump
  | _ => None
  end.

Definition demo_env (dump : list Z) : env :=
  {| onum := fun _ _ => 0; obytes := demo_shell dump; trace := [] |}.

Lemma demo_echo_awk dump : echo_awk (demo_env dump).
Proof.
  intros t head _ Hl. unfold demo_env, demo_shell, obytes.
  assert (parm_cmd head = (str "echo -e " ++ [34]) ++ head ++ ([34] ++ str " | awk '{print $2}'")) as ->.
  { unfold parm_cmd, snprintf_str. rewrite take_ge by (rewrite !length_app; simpl; lia).
    now rewrite <- !app_assoc. }
  rewrite prefix_of_app. do 3 f_equal.
  rewrite drop_app_length' by reflexivity. rewrite !length_app.
  rewrite take_app_length' by (simpl; lia). done.
Qed.

Definition demo_dump : list Z :=
  survey_text (str "Survey data from wlan1") ([9] ++ str "frequency: 5180 MHz") 400 122 [].

Lemma get_ap_au_correct_witness : exists w', get_ap_au 1 (demo_env demo_dump) = Ok (30, w').
Proof.
  destruct (get_ap_au_correct (demo_env demo_dump) 1 400 122
    (str "Survey data from wlan1") ([9] ++ str "frequency: 5180 MHz") []) as (w' & Hr & _).
  - now right.
  - apply demo_echo_awk.
  - reflexivity.
  - unfold line_fits. by_check.
  - lia.
  - lia.
  - exists w'. exact Hr.
Defined.

Definition noise_dump : list (list Z) :=
  [str "Survey data from wlan0"; [9] ++ str "frequency: 2412 MHz"; [9] ++ str "noise: -95 dBm"].

Lemma get_ap_au_no_active_witness :
  get_ap_au 0 (demo_env (concat (map (fun l => l ++ [10]) noise_dump))) = Ub BadConversion.
Proof.
  apply (get_ap_au_no_active (demo_env (concat (map (fun l => l ++ [10]) noise_dump))) 0
    (str "Survey data from wlan0") ([9] ++ str "frequency: 2412 MHz") ([9] ++ str "noise: -95 dBm")).
  - now left.
  - reflexivity.
  - unfold line_fits. by_check.
  - reflexivity.
Defined.

#[export] Instance mac_text_dec m : Decision (mac_text m).
Proof. unfold mac_text. apply _. Defined.

(** Sixteen stations; the last is not found. *)
Definition demo_macs : list (list Z) :=
  map (fun i => str "00:11:22:33:44:" ++ fmt_x 2 i) (seqZ 0 16).

Lemma find_sta_first_14_witness : exists w',
  find_sta (str "00:11:22:33:44:0f") 0 (demo_env (joined demo_macs)) = Ok (S_FALSE, w').
Proof.
  destruct (find_sta_first_14 (demo_env (joined demo_macs)) (str "00:11:22:33:44:0f") demo_macs 0)
    as (w' & Hr).
  - by_check.
  - by_check.
  - reflexivity.
  - exists w'. rewrite Hr. vm_compute. reflexivity.
Defined.
