(* ===== verification/World.v ===== *)
(** * The state of the handler: globals of [fnii_roam.c] and the parts of
    hostapd's interface, BSS and station data that LazyAS reads or writes

    One record per C struct, and the update of each member that the modelled
    code assigns. *)

From stdpp Require Import base list numbers gmap.
From Stdlib Require Import ZArith Lia.
From S2P Require Import Prelude CString Dense Env.
Local Open Scope Z_scope.

Definition SSID_MAX : Z := 8.
Definition SSID_LEN : Z := 32.
Definition BEAT_LIVE : Z := 1.
Definition BEAT_DEAD : Z := 0.
Definition VAP_IDLE : Z := 0.
Definition VAP_UNLOCK : Z := 1.
Definition VAP_LOCK : Z := 2.

(** ** [fnii_roam.h] *)

Record station_flow_s : Type := mkFlow { flow_mac : list Z; flow_rx : Z; flow_tx : Z }.
(** [ssid] is the 32-byte array. *)
Record update_station_s : Type := mkUpdate { up_ap_mac : list Z; up_sta_mac : list Z; up_ssid : list Z }.
Record mac_rrpair_s : Type := mkPair { pr_vif_mac : list Z; pr_sta_mac : list Z }.
Record interface_info_s : Type := mkIfInfo {
  vi_mac : list Z; vi_channel : Z; vi_ssid : list Z; vi_work_mode : Z }.
Record probe_info_s : Type := mkProbe {
  pb_rssi : Z; pb_au : Z; pb_mac : list Z; pb_channel : Z; pb_work_mode : Z }.
(** [ssid[i]] points to 33 bytes, or is NULL. *)
Record interface_all_info_s : Type := mkIfAll {
  ia_vap_num : Z; ia_ssid_num : Z; ia_channel : Z; ia_ssid : list (option (list Z)); ia_work_mode : Z }.

(** The globals of [fnii_roam.c]. *)
Record fnii_globals : Type := mkFnii {
  fnii_master_host : list Z;
  fnii_master_port : Z;
  fnii_socket_status : Z;
  fnii_master_socket : Z;
  fnii_msg_idf : Z;
  fnii_probe_mac : list Z;
  fnii_probe_count : Z;
  beat_status : Z;
  beat_cseq : Z;
  interface_all_info : interface_all_info_s;
  g_dense_station_hash : dense_hash }.

(** ** hostapd *)

(** What the judgement of an element of WPA keeps in [struct wpa_state_machine]: the
    version, the key management and the cipher of the station, its element, and whether
    a cached key was found. *)
Record wpa_state_machine : Type := mkWpaSm {
  sm_wpa : Z;
  sm_key_mgmt : Z;
  sm_pairwise : Z;
  sm_wpa_ie : option (list Z);
  sm_pmksa : bool }.

(** The members of [struct sta_info] that only authentication and association use.
    [supported_rates] is the array up to [supported_rates_len]; the capabilities are
    the bytes of the elements. *)
Record sta_mlme : Type := mkMlme {
  last_subtype : Z;
  capability : Z;
  listen_interval : Z;
  supported_rates : list Z;
  qosinfo : Z;
  challenge : option (list Z);
  wpa_sm : option wpa_state_machine;
  ht_capabilities : option (list Z);
  vht_capabilities : option (list Z);
  vht_opmode : Z;
  sta_vlan_id : Z;
  ht40_intolerant_set : bool }.

(** As [os_zalloc] leaves them. *)
Definition zero_mlme : sta_mlme := mkMlme 0 0 0 [] 0 None None None None 0 0 false.

(** What beacons and probe responses are made of, beside the members that are used
    elsewhere: of [struct hostapd_bss_config] and its [ssid], of the state machine of
    WPA ([wpa_auth_ie] is its [wpa_ie]), and of a channel switch that is under way. *)
Record beacon_bss : Type := mkBeaconBss {
  ignore_broadcast_ssid : Z;
  rrm_neighbor_report : bool;                (** bit 0 of [radio_measurements] *)
  bss_load_update_period : Z;
  time_zone : list Z;
  wpa_auth_ie : option (list Z);
  vendor_elements : option (list Z);
  wep_keys_set : bool;
  default_wep_key_len : Z;
  individual_wep_key_len : Z;
  dtim_period : Z;
  wpa_pairwise : Z;
  rsn_pairwise : Z;
  wpa_group : Z;
  wpa_key_mgmt : Z;
  isolate : Z;
  hessid : list Z;
  access_network_type : Z;
  max_inactivity_conf : Z;
  cs_freq : Z;
  cs_sec_channel_offset : Z;
  cs_block_tx : Z;
  cs_count : Z }.

(** [struct hostapd_channel_data]; the flag is [HOSTAPD_CHAN_DISABLED]. *)
Record hostapd_channel_data : Type := mkChan { chan : Z; chan_disabled : bool; max_tx_power : Z }.

(** The same of [struct hostapd_config], of [current_mode] and of the interface. *)
Record beacon_iface : Type := mkBeaconIface {
  beacon_int : Z;
  ieee80211d : bool;
  ieee80211h : bool;
  country : list Z;
  local_pwr_constraint : Z;
  mode_channels : list hostapd_channel_data;
  basic_rates : list Z;
  channel_utilization : Z }.

(** What is used of [struct hostapd_bss_config], the [conf] of a BSS; an entry of
    an access list is an address and a VLAN, [vlan] the identifiers of the VLANs. *)
Record bss_config : Type := mkBssConfig {
  auth_algs : Z;
  wpa : Z;
  ieee802_1x : bool;
  osen : bool;
  wmm_enabled : bool;
  wmm_uapsd : bool;
  rsn_preauth : bool;
  peerkey : bool;
  okc : bool;
  max_listen_interval : Z;
  disable_11n : bool;
  disable_11ac : bool;
  vendor_vht : bool;
  wds_sta : bool;
  macaddr_acl : Z;
  accept_mac : list (list Z * Z);
  deny_mac : list (list Z * Z);
  vlan : list Z;
  dynamic_vlan : Z;
  security_policy : Z;
  wep_default_len : Z;
  radio_measurements : bool;
  tdls : Z;
  interworking : bool;
  wnm_sleep_mode : bool;
  bss_transition : bool;
  proxy_arp : bool;
  time_advertisement : Z;
  qos_map_set : list Z;
  utf8_ssid : bool;
  bcn : beacon_bss }.

(** One entry of [wmm_ac_params]. *)
Record hostapd_wmm_ac_params : Type := mkAc {
  cwmin : Z; cwmax : Z; aifs : Z; txop_limit : Z; admission_control_mandatory : bool }.

(** What is used of [struct hostapd_config], the [conf] of an interface, and of its
    [current_mode]; a rate is its value and whether it is basic, an entry of
    [hw_features] is whether it is 802.11a, and its [vht_mcs_set]. *)
Record iface_config : Type := mkIfaceConfig {
  ieee80211n : bool;
  require_ht : bool;
  ieee80211ac : bool;
  require_vht : bool;
  ht_op_mode_fixed : bool;
  noscan : bool;
  no_ht_coex : bool;
  obss_interval : Z;
  ht_capab : Z;
  vht_capab : Z;
  vht_oper_chwidth : Z;
  vht_oper_centr_freq_seg0_idx : Z;
  vht_oper_centr_freq_seg1_idx : Z;
  short_preamble : bool;
  spectrum_mgmt_required : bool;
  wmm_ac_params : list hostapd_wmm_ac_params;
  mode_11a : bool;
  a_mpdu_params : Z;
  mcs_set : list Z;
  vht_mcs_set : list Z;
  current_rates : option (list (Z * bool));
  extended_capa : list Z;
  extended_capa_mask : list Z;
  mode_vht_capab : Z;
  hw_features : list (bool * list Z);
  ap_table_max_size : Z;
  ap_table_expiration_time : Z;
  bif : beacon_iface }.

(** The members of [struct hostapd_iface], and [secondary_channel] of its [conf],
    that change with the stations' HT capabilities. *)
Record ht_state : Type := mkHt {
  ht_op_mode : Z;
  num_sta_ht40_intolerant : Z;
  secondary_channel : Z;
  secondary_ch : Z;
  olbc_ht : bool }.

(** [struct ap_info]: what is known of a neighbour, and its links.  [last_beacon] is
    the pair of seconds and microseconds. *)
Record ap_data : Type := mkApData {
  ap_addr : list Z;
  ap_supported_rates : list Z;
  ap_erp : Z;
  ap_channel : Z;
  ap_ht_support : bool;
  ap_last_beacon : Z * Z }.

Record ap_info : Type := mkAp {
  ap_next : option positive;
  ap_prev : option positive;
  ap_hnext : option positive;
  ap_of : ap_data }.

(** The table of neighbours of [struct hostapd_iface], with the entries it points
    to, and [olbc], which is derived from them. *)
Record ap_table : Type := mkAps {
  ap_list : option positive;
  num_ap : Z;
  ap_hash : list (option positive);
  ap_heap : gmap positive ap_info;
  olbc : bool }.

(** [struct sta_info]; its links [next] and [hnext] are the lists of the BSS. *)
Record sta_info : Type := mkSta {
  sta_addr : list Z;
  sta_flags : Z;
  sta_aid_ : Z;
  timeout_next : Z;
  deauth_reason : Z;
  disassoc_reason : Z;
  auth_alg : Z;
  last_seq_ctrl : Z;
  nonerp_set : bool;
  no_short_slot_time_set : bool;
  no_short_preamble_set : bool;
  no_ht_gf_set : bool;
  no_ht_set : bool;
  ht_20mhz_set : bool;
  ssid_probe : option nat;                   (** the BSS whose name it points to *)
  mlme : sta_mlme }.

(** [struct hostapd_data] with what is used of its [conf]: [ssid] is the 32-byte
    array and [conf_iface] the interface name array. *)
Record hostapd_data : Type := mkBss {
  own_addr : list Z;
  own_sta : list Z;
  flag_priv : Z;
  beacon_set_done : Z;
  csa_in_progress : bool;
  ssid : list Z;
  ssid_len : Z;
  conf_iface : list Z;
  max_num_sta : Z;
  num_sta : Z;
  sta_list : list positive;
  sta_hash : list (list positive);
  sta_aid : list Z;
  bconf : bss_config;
  tkip_countermeasures : bool;
  parameter_set_count : Z }.

Record hostapd_iface : Type := mkIface {
  phy : list Z;
  channel : Z;
  bss : list hostapd_data;
  driver_ap_teardown : bool;
  drv_flags : Z;
  driver_ops : bool;                         (** [hapd->driver] has the station operations *)
  mode_11g : bool;
  num_sta_non_erp : Z;
  num_sta_no_short_slot_time : Z;
  num_sta_no_short_preamble : Z;
  num_sta_ht_no_gf : Z;
  num_sta_no_ht : Z;
  num_sta_ht_20mhz : Z;
  iconf : iface_config;
  ht : ht_state;
  aps : ap_table }.

(** [struct fnii_client_master] of [hostapd/main.c]: the socket, its state and
    the list of (station, interface) entries. *)
Record fnii_client_master : Type := mkMaster {
  sock : Z;
  ss : Z;
  msta : list (list Z * list Z) }.

Record world : Type := mkWorld {
  fn : fnii_globals;
  ifc : hostapd_iface;
  heap : gmap positive sta_info;
  master : fnii_client_master;
  wenv : env }.

#[export] Instance world_has_env : HasEnv world :=
  {| the_env := wenv;
     put_env := fun e w => {| fn := fn w; ifc := ifc w; heap := heap w; master := master w; wenv := e |};
     env_put := fun e w => eq_refl;
     put_put := fun e e' w => eq_refl;
     put_env_id := fun w => match w with mkWorld _ _ _ _ _ => eq_refl end |}.

(** ** Assignments *)

Definition upd_fn (f : fnii_globals -> fnii_globals) (w : world) : world :=
  {| fn := f (fn w); ifc := ifc w; heap := heap w; master := master w; wenv := wenv w |}.
Definition upd_ifc (f : hostapd_iface -> hostapd_iface) (w : world) : world :=
  {| fn := fn w; ifc := f (ifc w); heap := heap w; master := master w; wenv := wenv w |}.
Definition upd_master (f : fnii_client_master -> fnii_client_master) (w : world) : world :=
  {| fn := fn w; ifc := ifc w; heap := heap w; master := f (master w); wenv := wenv w |}.
Definition upd_heap (f : gmap positive sta_info -> gmap positive sta_info) (w : world) : world :=
  {| fn := fn w; ifc := ifc w; heap := f (heap w); master := master w; wenv := wenv w |}.

Definition set_fnii_master_host (v : list Z) (x : fnii_globals) : fnii_globals :=
  {| fnii_master_host := v; fnii_master_port := fnii_master_port x; fnii_socket_status :=
     fnii_socket_status x; fnii_master_socket := fnii_master_socket x; fnii_msg_idf :=
     fnii_msg_idf x; fnii_probe_mac := fnii_probe_mac x; fnii_probe_count := fnii_probe_count
     x; beat_status := beat_status x; beat_cseq := beat_cseq x; interface_all_info :=
     interface_all_info x; g_dense_station_hash := g_dense_station_hash x |}.
Definition set_fnii_master_port (v : Z) (x : fnii_globals) : fnii_globals :=
  {| fnii_master_host := fnii_master_host x; fnii_master_port := v; fnii_socket_status :=
     fnii_socket_status x; fnii_master_socket := fnii_master_socket x; fnii_msg_idf :=
     fnii_msg_idf x; fnii_probe_mac := fnii_probe_mac x; fnii_probe_count := fnii_probe_count
     x; beat_status := beat_status x; beat_cseq := beat_cseq x; interface_all_info :=
     interface_all_info x; g_dense_station_hash := g_dense_station_hash x |}.
Definition set_fnii_socket_status (v : Z) (x : fnii_globals) : fnii_globals :=
  {| fnii_master_host := fnii_master_host x; fnii_master_port := fnii_master_port x;
     fnii_socket_status := v; fnii_master_socket := fnii_master_socket x; fnii_msg_idf :=
     fnii_msg_idf x; fnii_probe_mac := fnii_probe_mac x; fnii_probe_count := fnii_probe_count
     x; beat_status := beat_status x; beat_cseq := beat_cseq x; interface_all_info :=
     interface_all_info x; g_dense_station_hash := g_dense_station_hash x |}.
Definition set_fnii_master_socket (v : Z) (x : fnii_globals) : fnii_globals :=
  {| fnii_master_host := fnii_master_host x; fnii_master_port := fnii_master_port x;
     fnii_socket_status := fnii_socket_status x; fnii_master_socket := v; fnii_msg_idf :=
     fnii_msg_idf x; fnii_probe_mac := fnii_probe_mac x; fnii_probe_count := fnii_probe_count
     x; beat_status := beat_status x; beat_cseq := beat_cseq x; interface_all_info :=
     interface_all_info x; g_dense_station_hash := g_dense_station_hash x |}.
Definition set_fnii_msg_idf (v : Z) (x : fnii_globals) : fnii_globals :=
  {| fnii_master_host := fnii_master_host x; fnii_master_port := fnii_master_port x;
     fnii_socket_status := fnii_socket_status x; fnii_master_socket := fnii_master_socket x;
     fnii_msg_idf := v; fnii_probe_mac := fnii_probe_mac x; fnii_probe_count :=
     fnii_probe_count x; beat_status := beat_status x; beat_cseq := beat_cseq x;
     interface_all_info := interface_all_info x; g_dense_station_hash := g_dense_station_hash x |}.
Definition set_fnii_probe_mac (v : list Z) (x : fnii_globals) : fnii_globals :=
  {| fnii_master_host := fnii_master_host x; fnii_master_port := fnii_master_port x;
     fnii_socket_status := fnii_socket_status x; fnii_master_socket := fnii_master_socket x;
     fnii_msg_idf := fnii_msg_idf x; fnii_probe_mac := v; fnii_probe_count := fnii_probe_count
     x; beat_status := beat_status x; beat_cseq := beat_cseq x; interface_all_info :=
     interface_all_info x; g_dense_station_hash := g_dense_station_hash x |}.
Definition set_fnii_probe_count (v : Z) (x : fnii_globals) : fnii_globals :=
  {| fnii_master_host := fnii_master_host x; fnii_master_port := fnii_master_port x;
     fnii_socket_status := fnii_socket_status x; fnii_master_socket := fnii_master_socket x;
     fnii_msg_idf := fnii_msg_idf x; fnii_probe_mac := fnii_probe_mac x; fnii_probe_count := v;
     beat_status := beat_status x; beat_cseq := beat_cseq x; interface_all_info :=
     interface_all_info x; g_dense_station_hash := g_dense_station_hash x |}.
Definition set_beat_status (v : Z) (x : fnii_globals) : fnii_globals :=
  {| fnii_master_host := fnii_master_host x; fnii_master_port := fnii_master_port x;
     fnii_socket_status := fnii_socket_status x; fnii_master_socket := fnii_master_socket x;
     fnii_msg_idf := fnii_msg_idf x; fnii_probe_mac := fnii_probe_mac x; fnii_probe_count :=
     fnii_probe_count x; beat_status := v; beat_cseq := beat_cseq x; interface_all_info :=
     interface_all_info x; g_dense_station_hash := g_dense_station_hash x |}.
Definition set_beat_cseq (v : Z) (x : fnii_globals) : fnii_globals :=
  {| fnii_master_host := fnii_master_host x; fnii_master_port := fnii_master_port x;
     fnii_socket_status := fnii_socket_status x; fnii_master_socket := fnii_master_socket x;
     fnii_msg_idf := fnii_msg_idf x; fnii_probe_mac := fnii_probe_mac x; fnii_probe_count :=
     fnii_probe_count x; beat_status := beat_status x; beat_cseq := v; interface_all_info :=
     interface_all_info x; g_dense_station_hash := g_dense_station_hash x |}.
Definition set_interface_all_info (v : interface_all_info_s) (x : fnii_globals) : fnii_globals :=
  {| fnii_master_host := fnii_master_host x; fnii_master_port := fnii_master_port x;
     fnii_socket_status := fnii_socket_status x; fnii_master_socket := fnii_master_socket x;
     fnii_msg_idf := fnii_msg_idf x; fnii_probe_mac := fnii_probe_mac x; fnii_probe_count :=
     fnii_probe_count x; beat_status := beat_status x; beat_cseq := beat_cseq x;
     interface_all_info := v; g_dense_station_hash := g_dense_station_hash x |}.
Definition set_g_dense_station_hash (v : dense_hash) (x : fnii_globals) : fnii_globals :=
  {| fnii_master_host := fnii_master_host x; fnii_master_port := fnii_master_port x;
     fnii_socket_status := fnii_socket_status x; fnii_master_socket := fnii_master_socket x;
     fnii_msg_idf := fnii_msg_idf x; fnii_probe_mac := fnii_probe_mac x; fnii_probe_count :=
     fnii_probe_count x; beat_status := beat_status x; beat_cseq := beat_cseq x;
     interface_all_info := interface_all_info x; g_dense_station_hash := v |}.
Definition set_ia_vap_num (v : Z) (x : interface_all_info_s) : interface_all_info_s :=
  {| ia_vap_num := v; ia_ssid_num := ia_ssid_num x; ia_channel := ia_channel x; ia_ssid :=
     ia_ssid x; ia_work_mode := ia_work_mode x |}.
Definition set_ia_ssid_num (v : Z) (x : interface_all_info_s) : interface_all_info_s :=
  {| ia_vap_num := ia_vap_num x; ia_ssid_num := v; ia_channel := ia_channel x; ia_ssid :=
     ia_ssid x; ia_work_mode := ia_work_mode x |}.
Definition set_ia_channel (v : Z) (x : interface_all_info_s) : interface_all_info_s :=
  {| ia_vap_num := ia_vap_num x; ia_ssid_num := ia_ssid_num x; ia_channel := v; ia_ssid :=
     ia_ssid x; ia_work_mode := ia_work_mode x |}.
Definition set_ia_ssid (v : list (option (list Z))) (x : interface_all_info_s) : interface_all_info_s :=
  {| ia_vap_num := ia_vap_num x; ia_ssid_num := ia_ssid_num x; ia_channel := ia_channel x;
     ia_ssid := v; ia_work_mode := ia_work_mode x |}.
Definition set_ia_work_mode (v : Z) (x : interface_all_info_s) : interface_all_info_s :=
  {| ia_vap_num := ia_vap_num x; ia_ssid_num := ia_ssid_num x; ia_channel := ia_channel x;
     ia_ssid := ia_ssid x; ia_work_mode := v |}.
Definition set_sta_flags (v : Z) (x : sta_info) : sta_info :=
  {| sta_addr := sta_addr x; sta_flags := v; sta_aid_ := sta_aid_ x; timeout_next := timeout_next x;
     deauth_reason := deauth_reason x; disassoc_reason := disassoc_reason x; auth_alg := auth_alg x;
     last_seq_ctrl := last_seq_ctrl x; nonerp_set := nonerp_set x; no_short_slot_time_set :=
     no_short_slot_time_set x; no_short_preamble_set := no_short_preamble_set x; no_ht_gf_set :=
     no_ht_gf_set x; no_ht_set := no_ht_set x; ht_20mhz_set := ht_20mhz_set x; ssid_probe :=
     ssid_probe x; mlme := mlme x |}.
Definition set_timeout_next (v : Z) (x : sta_info) : sta_info :=
  {| sta_addr := sta_addr x; sta_flags := sta_flags x; sta_aid_ := sta_aid_ x; timeout_next := v;
     deauth_reason := deauth_reason x; disassoc_reason := disassoc_reason x; auth_alg := auth_alg x;
     last_seq_ctrl := last_seq_ctrl x; nonerp_set := nonerp_set x; no_short_slot_time_set :=
     no_short_slot_time_set x; no_short_preamble_set := no_short_preamble_set x; no_ht_gf_set :=
     no_ht_gf_set x; no_ht_set := no_ht_set x; ht_20mhz_set := ht_20mhz_set x; ssid_probe :=
     ssid_probe x; mlme := mlme x |}.
Definition set_disassoc_reason (v : Z) (x : sta_info) : sta_info :=
  {| sta_addr := sta_addr x; sta_flags := sta_flags x; sta_aid_ := sta_aid_ x; timeout_next :=
     timeout_next x; deauth_reason := deauth_reason x; disassoc_reason := v; auth_alg := auth_alg x;
     last_seq_ctrl := last_seq_ctrl x; nonerp_set := nonerp_set x; no_short_slot_time_set :=
     no_short_slot_time_set x; no_short_preamble_set := no_short_preamble_set x; no_ht_gf_set :=
     no_ht_gf_set x; no_ht_set := no_ht_set x; ht_20mhz_set := ht_20mhz_set x; ssid_probe :=
     ssid_probe x; mlme := mlme x |}.
Definition set_deauth_reason (v : Z) (x : sta_info) : sta_info :=
  {| sta_addr := sta_addr x; sta_flags := sta_flags x; sta_aid_ := sta_aid_ x; timeout_next :=
     timeout_next x; deauth_reason := v; disassoc_reason := disassoc_reason x; auth_alg := auth_alg
     x; last_seq_ctrl := last_seq_ctrl x; nonerp_set := nonerp_set x; no_short_slot_time_set :=
     no_short_slot_time_set x; no_short_preamble_set := no_short_preamble_set x; no_ht_gf_set :=
     no_ht_gf_set x; no_ht_set := no_ht_set x; ht_20mhz_set := ht_20mhz_set x; ssid_probe :=
     ssid_probe x; mlme := mlme x |}.
Definition set_last_seq_ctrl (v : Z) (x : sta_info) : sta_info :=
  {| sta_addr := sta_addr x; sta_flags := sta_flags x; sta_aid_ := sta_aid_ x; timeout_next :=
     timeout_next x; deauth_reason := deauth_reason x; disassoc_reason := disassoc_reason x;
     auth_alg := auth_alg x; last_seq_ctrl := v; nonerp_set := nonerp_set x; no_short_slot_time_set
     := no_short_slot_time_set x; no_short_preamble_set := no_short_preamble_set x; no_ht_gf_set :=
     no_ht_gf_set x; no_ht_set := no_ht_set x; ht_20mhz_set := ht_20mhz_set x; ssid_probe :=
     ssid_probe x; mlme := mlme x |}.
Definition set_ssid_probe (v : option nat) (x : sta_info) : sta_info :=
  {| sta_addr := sta_addr x; sta_flags := sta_flags x; sta_aid_ := sta_aid_ x; timeout_next :=
     timeout_next x; deauth_reason := deauth_reason x; disassoc_reason := disassoc_reason x;
     auth_alg := auth_alg x; last_seq_ctrl := last_seq_ctrl x; nonerp_set := nonerp_set x;
     no_short_slot_time_set := no_short_slot_time_set x; no_short_preamble_set :=
     no_short_preamble_set x; no_ht_gf_set := no_ht_gf_set x; no_ht_set := no_ht_set x; ht_20mhz_set
     := ht_20mhz_set x; ssid_probe := v; mlme := mlme x |}.
Definition set_own_sta (v : list Z) (x : hostapd_data) : hostapd_data :=
  {| own_addr := own_addr x; own_sta := v; flag_priv := flag_priv x; beacon_set_done :=
     beacon_set_done x; csa_in_progress := csa_in_progress x; ssid := ssid x; ssid_len := ssid_len
     x; conf_iface := conf_iface x; max_num_sta := max_num_sta x; num_sta := num_sta x; sta_list :=
     sta_list x; sta_hash := sta_hash x; sta_aid := sta_aid x; bconf := bconf x;
     tkip_countermeasures := tkip_countermeasures x; parameter_set_count := parameter_set_count x
     |}.
Definition set_flag_priv (v : Z) (x : hostapd_data) : hostapd_data :=
  {| own_addr := own_addr x; own_sta := own_sta x; flag_priv := v; beacon_set_done :=
     beacon_set_done x; csa_in_progress := csa_in_progress x; ssid := ssid x; ssid_len := ssid_len
     x; conf_iface := conf_iface x; max_num_sta := max_num_sta x; num_sta := num_sta x; sta_list :=
     sta_list x; sta_hash := sta_hash x; sta_aid := sta_aid x; bconf := bconf x;
     tkip_countermeasures := tkip_countermeasures x; parameter_set_count := parameter_set_count x
     |}.
Definition set_beacon_set_done (v : Z) (x : hostapd_data) : hostapd_data :=
  {| own_addr := own_addr x; own_sta := own_sta x; flag_priv := flag_priv x; beacon_set_done := v;
     csa_in_progress := csa_in_progress x; ssid := ssid x; ssid_len := ssid_len x; conf_iface :=
     conf_iface x; max_num_sta := max_num_sta x; num_sta := num_sta x; sta_list := sta_list x;
     sta_hash := sta_hash x; sta_aid := sta_aid x; bconf := bconf x; tkip_countermeasures :=
     tkip_countermeasures x; parameter_set_count := parameter_set_count x |}.
Definition set_num_sta (v : Z) (x : hostapd_data) : hostapd_data :=
  {| own_addr := own_addr x; own_sta := own_sta x; flag_priv := flag_priv x; beacon_set_done :=
     beacon_set_done x; csa_in_progress := csa_in_progress x; ssid := ssid x; ssid_len := ssid_len
     x; conf_iface := conf_iface x; max_num_sta := max_num_sta x; num_sta := v; sta_list := sta_list
     x; sta_hash := sta_hash x; sta_aid := sta_aid x; bconf := bconf x; tkip_countermeasures :=
     tkip_countermeasures x; parameter_set_count := parameter_set_count x |}.
Definition set_sta_list (v : list positive) (x : hostapd_data) : hostapd_data :=
  {| own_addr := own_addr x; own_sta := own_sta x; flag_priv := flag_priv x; beacon_set_done :=
     beacon_set_done x; csa_in_progress := csa_in_progress x; ssid := ssid x; ssid_len := ssid_len
     x; conf_iface := conf_iface x; max_num_sta := max_num_sta x; num_sta := num_sta x; sta_list :=
     v; sta_hash := sta_hash x; sta_aid := sta_aid x; bconf := bconf x; tkip_countermeasures :=
     tkip_countermeasures x; parameter_set_count := parameter_set_count x |}.
Definition set_sta_hash (v : list (list positive)) (x : hostapd_data) : hostapd_data :=
  {| own_addr := own_addr x; own_sta := own_sta x; flag_priv := flag_priv x; beacon_set_done :=
     beacon_set_done x; csa_in_progress := csa_in_progress x; ssid := ssid x; ssid_len := ssid_len
     x; conf_iface := conf_iface x; max_num_sta := max_num_sta x; num_sta := num_sta x; sta_list :=
     sta_list x; sta_hash := v; sta_aid := sta_aid x; bconf := bconf x; tkip_countermeasures :=
     tkip_countermeasures x; parameter_set_count := parameter_set_count x |}.
Definition set_sta_aid (v : list Z) (x : hostapd_data) : hostapd_data :=
  {| own_addr := own_addr x; own_sta := own_sta x; flag_priv := flag_priv x; beacon_set_done :=
     beacon_set_done x; csa_in_progress := csa_in_progress x; ssid := ssid x; ssid_len := ssid_len
     x; conf_iface := conf_iface x; max_num_sta := max_num_sta x; num_sta := num_sta x; sta_list :=
     sta_list x; sta_hash := sta_hash x; sta_aid := v; bconf := bconf x; tkip_countermeasures :=
     tkip_countermeasures x; parameter_set_count := parameter_set_count x |}.
Definition set_sta_aid_ (v : Z) (x : sta_info) : sta_info :=
  {| sta_addr := sta_addr x; sta_flags := sta_flags x; sta_aid_ := v; timeout_next := timeout_next
     x; deauth_reason := deauth_reason x; disassoc_reason := disassoc_reason x; auth_alg := auth_alg
     x; last_seq_ctrl := last_seq_ctrl x; nonerp_set := nonerp_set x; no_short_slot_time_set :=
     no_short_slot_time_set x; no_short_preamble_set := no_short_preamble_set x; no_ht_gf_set :=
     no_ht_gf_set x; no_ht_set := no_ht_set x; ht_20mhz_set := ht_20mhz_set x; ssid_probe :=
     ssid_probe x; mlme := mlme x |}.
Definition set_auth_alg (v : Z) (x : sta_info) : sta_info :=
  {| sta_addr := sta_addr x; sta_flags := sta_flags x; sta_aid_ := sta_aid_ x; timeout_next :=
     timeout_next x; deauth_reason := deauth_reason x; disassoc_reason := disassoc_reason x;
     auth_alg := v; last_seq_ctrl := last_seq_ctrl x; nonerp_set := nonerp_set x;
     no_short_slot_time_set := no_short_slot_time_set x; no_short_preamble_set :=
     no_short_preamble_set x; no_ht_gf_set := no_ht_gf_set x; no_ht_set := no_ht_set x; ht_20mhz_set
     := ht_20mhz_set x; ssid_probe := ssid_probe x; mlme := mlme x |}.
Definition set_nonerp_set (v : bool) (x : sta_info) : sta_info :=
  {| sta_addr := sta_addr x; sta_flags := sta_flags x; sta_aid_ := sta_aid_ x; timeout_next :=
     timeout_next x; deauth_reason := deauth_reason x; disassoc_reason := disassoc_reason x;
     auth_alg := auth_alg x; last_seq_ctrl := last_seq_ctrl x; nonerp_set := v;
     no_short_slot_time_set := no_short_slot_time_set x; no_short_preamble_set :=
     no_short_preamble_set x; no_ht_gf_set := no_ht_gf_set x; no_ht_set := no_ht_set x; ht_20mhz_set
     := ht_20mhz_set x; ssid_probe := ssid_probe x; mlme := mlme x |}.
Definition set_no_short_slot_time_set (v : bool) (x : sta_info) : sta_info :=
  {| sta_addr := sta_addr x; sta_flags := sta_flags x; sta_aid_ := sta_aid_ x; timeout_next :=
     timeout_next x; deauth_reason := deauth_reason x; disassoc_reason := disassoc_reason x;
     auth_alg := auth_alg x; last_seq_ctrl := last_seq_ctrl x; nonerp_set := nonerp_set x;
     no_short_slot_time_set := v; no_short_preamble_set := no_short_preamble_set x; no_ht_gf_set :=
     no_ht_gf_set x; no_ht_set := no_ht_set x; ht_20mhz_set := ht_20mhz_set x; ssid_probe :=
     ssid_probe x; mlme := mlme x |}.
Definition set_no_short_preamble_set (v : bool) (x : sta_info) : sta_info :=
  {| sta_addr := sta_addr x; sta_flags := sta_flags x; sta_aid_ := sta_aid_ x; timeout_next :=
     timeout_next x; deauth_reason := deauth_reason x; disassoc_reason := disassoc_reason x;
     auth_alg := auth_alg x; last_seq_ctrl := last_seq_ctrl x; nonerp_set := nonerp_set x;
     no_short_slot_time_set := no_short_slot_time_set x; no_short_preamble_set := v; no_ht_gf_set :=
     no_ht_gf_set x; no_ht_set := no_ht_set x; ht_20mhz_set := ht_20mhz_set x; ssid_probe :=
     ssid_probe x; mlme := mlme x |}.
Definition set_no_ht_gf_set (v : bool) (x : sta_info) : sta_info :=
  {| sta_addr := sta_addr x; sta_flags := sta_flags x; sta_aid_ := sta_aid_ x; timeout_next :=
     timeout_next x; deauth_reason := deauth_reason x; disassoc_reason := disassoc_reason x;
     auth_alg := auth_alg x; last_seq_ctrl := last_seq_ctrl x; nonerp_set := nonerp_set x;
     no_short_slot_time_set := no_short_slot_time_set x; no_short_preamble_set :=
     no_short_preamble_set x; no_ht_gf_set := v; no_ht_set := no_ht_set x; ht_20mhz_set :=
     ht_20mhz_set x; ssid_probe := ssid_probe x; mlme := mlme x |}.
Definition set_no_ht_set (v : bool) (x : sta_info) : sta_info :=
  {| sta_addr := sta_addr x; sta_flags := sta_flags x; sta_aid_ := sta_aid_ x; timeout_next :=
     timeout_next x; deauth_reason := deauth_reason x; disassoc_reason := disassoc_reason x;
     auth_alg := auth_alg x; last_seq_ctrl := last_seq_ctrl x; nonerp_set := nonerp_set x;
     no_short_slot_time_set := no_short_slot_time_set x; no_short_preamble_set :=
     no_short_preamble_set x; no_ht_gf_set := no_ht_gf_set x; no_ht_set := v; ht_20mhz_set :=
     ht_20mhz_set x; ssid_probe := ssid_probe x; mlme := mlme x |}.
Definition set_ht_20mhz_set (v : bool) (x : sta_info) : sta_info :=
  {| sta_addr := sta_addr x; sta_flags := sta_flags x; sta_aid_ := sta_aid_ x; timeout_next :=
     timeout_next x; deauth_reason := deauth_reason x; disassoc_reason := disassoc_reason x;
     auth_alg := auth_alg x; last_seq_ctrl := last_seq_ctrl x; nonerp_set := nonerp_set x;
     no_short_slot_time_set := no_short_slot_time_set x; no_short_preamble_set :=
     no_short_preamble_set x; no_ht_gf_set := no_ht_gf_set x; no_ht_set := no_ht_set x; ht_20mhz_set
     := v; ssid_probe := ssid_probe x; mlme := mlme x |}.
Definition set_last_subtype (v : Z) (x : sta_mlme) : sta_mlme :=
  {| last_subtype := v; capability := capability x; listen_interval := listen_interval x;
     supported_rates := supported_rates x; qosinfo := qosinfo x; challenge := challenge x; wpa_sm :=
     wpa_sm x; ht_capabilities := ht_capabilities x; vht_capabilities := vht_capabilities x;
     vht_opmode := vht_opmode x; sta_vlan_id := sta_vlan_id x; ht40_intolerant_set :=
     ht40_intolerant_set x |}.
Definition set_capability (v : Z) (x : sta_mlme) : sta_mlme :=
  {| last_subtype := last_subtype x; capability := v; listen_interval := listen_interval x;
     supported_rates := supported_rates x; qosinfo := qosinfo x; challenge := challenge x; wpa_sm :=
     wpa_sm x; ht_capabilities := ht_capabilities x; vht_capabilities := vht_capabilities x;
     vht_opmode := vht_opmode x; sta_vlan_id := sta_vlan_id x; ht40_intolerant_set :=
     ht40_intolerant_set x |}.
Definition set_listen_interval (v : Z) (x : sta_mlme) : sta_mlme :=
  {| last_subtype := last_subtype x; capability := capability x; listen_interval := v;
     supported_rates := supported_rates x; qosinfo := qosinfo x; challenge := challenge x; wpa_sm :=
     wpa_sm x; ht_capabilities := ht_capabilities x; vht_capabilities := vht_capabilities x;
     vht_opmode := vht_opmode x; sta_vlan_id := sta_vlan_id x; ht40_intolerant_set :=
     ht40_intolerant_set x |}.
Definition set_supported_rates (v : list Z) (x : sta_mlme) : sta_mlme :=
  {| last_subtype := last_subtype x; capability := capability x; listen_interval := listen_interval
     x; supported_rates := v; qosinfo := qosinfo x; challenge := challenge x; wpa_sm := wpa_sm x;
     ht_capabilities := ht_capabilities x; vht_capabilities := vht_capabilities x; vht_opmode :=
     vht_opmode x; sta_vlan_id := sta_vlan_id x; ht40_intolerant_set := ht40_intolerant_set x |}.
Definition set_qosinfo (v : Z) (x : sta_mlme) : sta_mlme :=
  {| last_subtype := last_subtype x; capability := capability x; listen_interval := listen_interval
     x; supported_rates := supported_rates x; qosinfo := v; challenge := challenge x; wpa_sm :=
     wpa_sm x; ht_capabilities := ht_capabilities x; vht_capabilities := vht_capabilities x;
     vht_opmode := vht_opmode x; sta_vlan_id := sta_vlan_id x; ht40_intolerant_set :=
     ht40_intolerant_set x |}.
Definition set_challenge (v : option (list Z)) (x : sta_mlme) : sta_mlme :=
  {| last_subtype := last_subtype x; capability := capability x; listen_interval := listen_interval
     x; supported_rates := supported_rates x; qosinfo := qosinfo x; challenge := v; wpa_sm := wpa_sm
     x; ht_capabilities := ht_capabilities x; vht_capabilities := vht_capabilities x; vht_opmode :=
     vht_opmode x; sta_vlan_id := sta_vlan_id x; ht40_intolerant_set := ht40_intolerant_set x |}.
Definition set_wpa_sm (v : option wpa_state_machine) (x : sta_mlme) : sta_mlme :=
  {| last_subtype := last_subtype x; capability := capability x; listen_interval := listen_interval
     x; supported_rates := supported_rates x; qosinfo := qosinfo x; challenge := challenge x; wpa_sm
     := v; ht_capabilities := ht_capabilities x; vht_capabilities := vht_capabilities x; vht_opmode
     := vht_opmode x; sta_vlan_id := sta_vlan_id x; ht40_intolerant_set := ht40_intolerant_set x |}.
Definition set_ht_capabilities (v : option (list Z)) (x : sta_mlme) : sta_mlme :=
  {| last_subtype := last_subtype x; capability := capability x; listen_interval := listen_interval
     x; supported_rates := supported_rates x; qosinfo := qosinfo x; challenge := challenge x; wpa_sm
     := wpa_sm x; ht_capabilities := v; vht_capabilities := vht_capabilities x; vht_opmode :=
     vht_opmode x; sta_vlan_id := sta_vlan_id x; ht40_intolerant_set := ht40_intolerant_set x |}.
Definition set_vht_capabilities (v : option (list Z)) (x : sta_mlme) : sta_mlme :=
  {| last_subtype := last_subtype x; capability := capability x; listen_interval := listen_interval
     x; supported_rates := supported_rates x; qosinfo := qosinfo x; challenge := challenge x; wpa_sm
     := wpa_sm x; ht_capabilities := ht_capabilities x; vht_capabilities := v; vht_opmode :=
     vht_opmode x; sta_vlan_id := sta_vlan_id x; ht40_intolerant_set := ht40_intolerant_set x |}.
Definition set_vht_opmode (v : Z) (x : sta_mlme) : sta_mlme :=
  {| last_subtype := last_subtype x; capability := capability x; listen_interval := listen_interval
     x; supported_rates := supported_rates x; qosinfo := qosinfo x; challenge := challenge x; wpa_sm
     := wpa_sm x; ht_capabilities := ht_capabilities x; vht_capabilities := vht_capabilities x;
     vht_opmode := v; sta_vlan_id := sta_vlan_id x; ht40_intolerant_set := ht40_intolerant_set x |}.
Definition set_sta_vlan_id (v : Z) (x : sta_mlme) : sta_mlme :=
  {| last_subtype := last_subtype x; capability := capability x; listen_interval := listen_interval
     x; supported_rates := supported_rates x; qosinfo := qosinfo x; challenge := challenge x; wpa_sm
     := wpa_sm x; ht_capabilities := ht_capabilities x; vht_capabilities := vht_capabilities x;
     vht_opmode := vht_opmode x; sta_vlan_id := v; ht40_intolerant_set := ht40_intolerant_set x |}.
Definition set_ht40_intolerant_set (v : bool) (x : sta_mlme) : sta_mlme :=
  {| last_subtype := last_subtype x; capability := capability x; listen_interval := listen_interval
     x; supported_rates := supported_rates x; qosinfo := qosinfo x; challenge := challenge x; wpa_sm
     := wpa_sm x; ht_capabilities := ht_capabilities x; vht_capabilities := vht_capabilities x;
     vht_opmode := vht_opmode x; sta_vlan_id := sta_vlan_id x; ht40_intolerant_set := v |}.
Definition set_ht_op_mode (v : Z) (x : ht_state) : ht_state :=
  {| ht_op_mode := v; num_sta_ht40_intolerant := num_sta_ht40_intolerant x; secondary_channel :=
     secondary_channel x; secondary_ch := secondary_ch x; olbc_ht := olbc_ht x |}.
Definition set_num_sta_ht40_intolerant (v : Z) (x : ht_state) : ht_state :=
  {| ht_op_mode := ht_op_mode x; num_sta_ht40_intolerant := v; secondary_channel :=
     secondary_channel x; secondary_ch := secondary_ch x; olbc_ht := olbc_ht x |}.
Definition set_secondary_channel (v : Z) (x : ht_state) : ht_state :=
  {| ht_op_mode := ht_op_mode x; num_sta_ht40_intolerant := num_sta_ht40_intolerant x;
     secondary_channel := v; secondary_ch := secondary_ch x; olbc_ht := olbc_ht x |}.
Definition upd_mlme (f : sta_mlme -> sta_mlme) (x : sta_info) : sta_info :=
  {| sta_addr := sta_addr x; sta_flags := sta_flags x; sta_aid_ := sta_aid_ x; timeout_next :=
     timeout_next x; deauth_reason := deauth_reason x; disassoc_reason := disassoc_reason x;
     auth_alg := auth_alg x; last_seq_ctrl := last_seq_ctrl x; nonerp_set := nonerp_set x;
     no_short_slot_time_set := no_short_slot_time_set x; no_short_preamble_set :=
     no_short_preamble_set x; no_ht_gf_set := no_ht_gf_set x; no_ht_set := no_ht_set x; ht_20mhz_set
     := ht_20mhz_set x; ssid_probe := ssid_probe x; mlme := f (mlme x) |}.
Definition upd_ht (f : ht_state -> ht_state) (x : hostapd_iface) : hostapd_iface :=
  {| phy := phy x; channel := channel x; bss := bss x; driver_ap_teardown := driver_ap_teardown x;
     drv_flags := drv_flags x; driver_ops := driver_ops x; mode_11g := mode_11g x; num_sta_non_erp
     := num_sta_non_erp x; num_sta_no_short_slot_time := num_sta_no_short_slot_time x;
     num_sta_no_short_preamble := num_sta_no_short_preamble x; num_sta_ht_no_gf := num_sta_ht_no_gf
     x; num_sta_no_ht := num_sta_no_ht x; num_sta_ht_20mhz := num_sta_ht_20mhz x; iconf := iconf x;
     ht := f (ht x);
     aps := aps x |}.
Definition set_bss (v : list hostapd_data) (x : hostapd_iface) : hostapd_iface :=
  {| phy := phy x; channel := channel x; bss := v; driver_ap_teardown := driver_ap_teardown x;
     drv_flags := drv_flags x; driver_ops := driver_ops x; mode_11g := mode_11g x; num_sta_non_erp
     := num_sta_non_erp x; num_sta_no_short_slot_time := num_sta_no_short_slot_time x;
     num_sta_no_short_preamble := num_sta_no_short_preamble x; num_sta_ht_no_gf := num_sta_ht_no_gf
     x; num_sta_no_ht := num_sta_no_ht x; num_sta_ht_20mhz := num_sta_ht_20mhz x; iconf := iconf x;
     ht := ht x;
     aps := aps x |}.
Definition set_num_sta_non_erp (v : Z) (x : hostapd_iface) : hostapd_iface :=
  {| phy := phy x; channel := channel x; bss := bss x; driver_ap_teardown := driver_ap_teardown x;
     drv_flags := drv_flags x; driver_ops := driver_ops x; mode_11g := mode_11g x; num_sta_non_erp
     := v; num_sta_no_short_slot_time := num_sta_no_short_slot_time x; num_sta_no_short_preamble :=
     num_sta_no_short_preamble x; num_sta_ht_no_gf := num_sta_ht_no_gf x; num_sta_no_ht :=
     num_sta_no_ht x; num_sta_ht_20mhz := num_sta_ht_20mhz x; iconf := iconf x; ht := ht x;
     aps := aps x |}.
Definition set_num_sta_no_short_slot_time (v : Z) (x : hostapd_iface) : hostapd_iface :=
  {| phy := phy x; channel := channel x; bss := bss x; driver_ap_teardown := driver_ap_teardown x;
     drv_flags := drv_flags x; driver_ops := driver_ops x; mode_11g := mode_11g x; num_sta_non_erp
     := num_sta_non_erp x; num_sta_no_short_slot_time := v; num_sta_no_short_preamble :=
     num_sta_no_short_preamble x; num_sta_ht_no_gf := num_sta_ht_no_gf x; num_sta_no_ht :=
     num_sta_no_ht x; num_sta_ht_20mhz := num_sta_ht_20mhz x; iconf := iconf x; ht := ht x;
     aps := aps x |}.
Definition set_num_sta_no_short_preamble (v : Z) (x : hostapd_iface) : hostapd_iface :=
  {| phy := phy x; channel := channel x; bss := bss x; driver_ap_teardown := driver_ap_teardown x;
     drv_flags := drv_flags x; driver_ops := driver_ops x; mode_11g := mode_11g x; num_sta_non_erp
     := num_sta_non_erp x; num_sta_no_short_slot_time := num_sta_no_short_slot_time x;
     num_sta_no_short_preamble := v; num_sta_ht_no_gf := num_sta_ht_no_gf x; num_sta_no_ht :=
     num_sta_no_ht x; num_sta_ht_20mhz := num_sta_ht_20mhz x; iconf := iconf x; ht := ht x;
     aps := aps x |}.
Definition set_num_sta_ht_no_gf (v : Z) (x : hostapd_iface) : hostapd_iface :=
  {| phy := phy x; channel := channel x; bss := bss x; driver_ap_teardown := driver_ap_teardown x;
     drv_flags := drv_flags x; driver_ops := driver_ops x; mode_11g := mode_11g x; num_sta_non_erp
     := num_sta_non_erp x; num_sta_no_short_slot_time := num_sta_no_short_slot_time x;
     num_sta_no_short_preamble := num_sta_no_short_preamble x; num_sta_ht_no_gf := v; num_sta_no_ht
     := num_sta_no_ht x; num_sta_ht_20mhz := num_sta_ht_20mhz x; iconf := iconf x; ht := ht x;
     aps := aps x |}.
Definition set_num_sta_no_ht (v : Z) (x : hostapd_iface) : hostapd_iface :=
  {| phy := phy x; channel := channel x; bss := bss x; driver_ap_teardown := driver_ap_teardown x;
     drv_flags := drv_flags x; driver_ops := driver_ops x; mode_11g := mode_11g x; num_sta_non_erp
     := num_sta_non_erp x; num_sta_no_short_slot_time := num_sta_no_short_slot_time x;
     num_sta_no_short_preamble := num_sta_no_short_preamble x; num_sta_ht_no_gf := num_sta_ht_no_gf
     x; num_sta_no_ht := v; num_sta_ht_20mhz := num_sta_ht_20mhz x; iconf := iconf x; ht := ht x;
     aps := aps x |}.
Definition set_num_sta_ht_20mhz (v : Z) (x : hostapd_iface) : hostapd_iface :=
  {| phy := phy x; channel := channel x; bss := bss x; driver_ap_teardown := driver_ap_teardown x;
     drv_flags := drv_flags x; driver_ops := driver_ops x; mode_11g := mode_11g x; num_sta_non_erp
     := num_sta_non_erp x; num_sta_no_short_slot_time := num_sta_no_short_slot_time x;
     num_sta_no_short_preamble := num_sta_no_short_preamble x; num_sta_ht_no_gf := num_sta_ht_no_gf
     x; num_sta_no_ht := num_sta_no_ht x; num_sta_ht_20mhz := v; iconf := iconf x; ht := ht x;
     aps := aps x |}.

Definition upd_aps (f : ap_table -> ap_table) (x : hostapd_iface) : hostapd_iface :=
  {| phy := phy x; channel := channel x; bss := bss x; driver_ap_teardown := driver_ap_teardown x;
     drv_flags := drv_flags x; driver_ops := driver_ops x; mode_11g := mode_11g x; num_sta_non_erp
     := num_sta_non_erp x; num_sta_no_short_slot_time := num_sta_no_short_slot_time x;
     num_sta_no_short_preamble := num_sta_no_short_preamble x; num_sta_ht_no_gf := num_sta_ht_no_gf
     x; num_sta_no_ht := num_sta_no_ht x; num_sta_ht_20mhz := num_sta_ht_20mhz x; iconf := iconf x;
     ht := ht x; aps := f (aps x) |}.
Definition set_olbc_ht (v : bool) (x : ht_state) : ht_state :=
  {| ht_op_mode := ht_op_mode x; num_sta_ht40_intolerant := num_sta_ht40_intolerant x;
     secondary_channel := secondary_channel x; secondary_ch := secondary_ch x; olbc_ht := v |}.
Definition set_ap_list (v : option positive) (x : ap_table) : ap_table :=
  {| ap_list := v; num_ap := num_ap x; ap_hash := ap_hash x; ap_heap := ap_heap x; olbc := olbc x |}.
Definition set_num_ap (v : Z) (x : ap_table) : ap_table :=
  {| ap_list := ap_list x; num_ap := v; ap_hash := ap_hash x; ap_heap := ap_heap x; olbc := olbc x |}.
Definition set_ap_hash (v : list (option positive)) (x : ap_table) : ap_table :=
  {| ap_list := ap_list x; num_ap := num_ap x; ap_hash := v; ap_heap := ap_heap x; olbc := olbc x |}.
Definition upd_ap_heap (f : gmap positive ap_info -> gmap positive ap_info) (x : ap_table) : ap_table :=
  {| ap_list := ap_list x; num_ap := num_ap x; ap_hash := ap_hash x; ap_heap := f (ap_heap x); olbc := olbc x |}.
Definition set_olbc (v : bool) (x : ap_table) : ap_table :=
  {| ap_list := ap_list x; num_ap := num_ap x; ap_hash := ap_hash x; ap_heap := ap_heap x; olbc := v |}.
Definition set_ap_next (v : option positive) (x : ap_info) : ap_info :=
  {| ap_next := v; ap_prev := ap_prev x; ap_hnext := ap_hnext x; ap_of := ap_of x |}.
Definition set_ap_prev (v : option positive) (x : ap_info) : ap_info :=
  {| ap_next := ap_next x; ap_prev := v; ap_hnext := ap_hnext x; ap_of := ap_of x |}.
Definition set_ap_hnext (v : option positive) (x : ap_info) : ap_info :=
  {| ap_next := ap_next x; ap_prev := ap_prev x; ap_hnext := v; ap_of := ap_of x |}.
Definition upd_ap_of (f : ap_data -> ap_data) (x : ap_info) : ap_info :=
  {| ap_next := ap_next x; ap_prev := ap_prev x; ap_hnext := ap_hnext x; ap_of := f (ap_of x) |}.

(** The error test of [send], [connect] and the like. *)
Definition status_of (r : Z) : Z := if bool_decide (r < 0) then FNII_RET_ERR else FNII_RET_OK.

(** ** A concrete state: one 5 GHz interface with two networks and no station *)

Definition pad32 (s : list Z) : list Z := s ++ replicate (32 - length s) 0.

Definition demo_beacon_bss : beacon_bss :=
  {| ignore_broadcast_ssid := 0; rrm_neighbor_report := false; bss_load_update_period := 0; time_zone := [];
     wpa_auth_ie := None; vendor_elements := None; wep_keys_set := false; default_wep_key_len := 0; individual_wep_key_len := 0;
     dtim_period := 2; wpa_pairwise := 0; rsn_pairwise := 0; wpa_group := 0; wpa_key_mgmt := 0; isolate := 0;
     hessid := replicate 6 0; access_network_type := 0; max_inactivity_conf := 300; cs_freq := 0;
     cs_sec_channel_offset := 0; cs_block_tx := 0; cs_count := 0 |}.

(** The channels of the lower two bands, of which the last is not allowed. *)
Definition demo_beacon_iface : beacon_iface :=
  {| beacon_int := 100; ieee80211d := true; ieee80211h := false; country := [67; 78; 32]; local_pwr_constraint := -1;
     mode_channels := [mkChan 36 false 20; mkChan 40 false 20; mkChan 44 false 20; mkChan 48 false 20;
                       mkChan 52 false 23; mkChan 56 false 23; mkChan 60 false 23; mkChan 64 true 23];
     basic_rates := [60; 120; 240]; channel_utilization := 0 |}.

(** Open authentication or a shared key, no encryption, HT. *)
Definition demo_bss_config : bss_config :=
  {| auth_algs := 3; wpa := 0; ieee802_1x := false; osen := false; wmm_enabled := true; wmm_uapsd := false;
     rsn_preauth := false; peerkey := false; okc := false; max_listen_interval := 65535; disable_11n := false; disable_11ac := false; vendor_vht := false;
     wds_sta := false; macaddr_acl := 0; accept_mac := []; deny_mac := []; vlan := []; dynamic_vlan := 0;
     security_policy := 0; wep_default_len := 0; radio_measurements := false; tdls := 0; interworking := false;
     wnm_sleep_mode := false; bss_transition := false; proxy_arp := false; time_advertisement := 0;
     qos_map_set := []; utf8_ssid := false; bcn := demo_beacon_bss |}.

Definition demo_iface_config : iface_config :=
  {| ieee80211n := true; require_ht := false; ieee80211ac := false; require_vht := false; ht_op_mode_fixed := false;
     noscan := false; no_ht_coex := false; obss_interval := 0; ht_capab := 0x0c; vht_capab := 0; vht_oper_chwidth := 0;
     vht_oper_centr_freq_seg0_idx := 0; vht_oper_centr_freq_seg1_idx := 0; short_preamble := false;
     spectrum_mgmt_required := false;
     wmm_ac_params := [mkAc 4 10 3 0 false; mkAc 4 10 7 0 false; mkAc 3 4 2 94 false; mkAc 2 3 2 47 false];
     mode_11a := true; a_mpdu_params := 3; mcs_set := 255 :: replicate 15 0; vht_mcs_set := replicate 8 255;
     current_rates := Some [(60, true); (90, false); (120, true); (180, false); (240, true); (360, false); (480, false); (540, false)];
     extended_capa := []; extended_capa_mask := []; mode_vht_capab := 0; hw_features := [];
     ap_table_max_size := 255; ap_table_expiration_time := 60; bif := demo_beacon_iface |}.

Definition demo_bss (addr : list Z) (name : list Z) : hostapd_data :=
  {| own_addr := addr; own_sta := replicate 6 0; flag_priv := VAP_IDLE; beacon_set_done := 0;
     csa_in_progress := false; ssid := pad32 name; ssid_len := zlen name;
     conf_iface := replicate 17 0; max_num_sta := 2007; num_sta := 0; sta_list := [];
     sta_hash := replicate 256 []; sta_aid := replicate 63 0;
     bconf := demo_bss_config; tkip_countermeasures := false; parameter_set_count := 0 |}.

Definition demo_iface : hostapd_iface :=
  {| phy := replicate 16 0; channel := 36;
     bss := [demo_bss [2; 1; 2; 3; 4; 5] [65; 65]; demo_bss [6; 1; 2; 3; 4; 5] [66; 66; 66]];
     driver_ap_teardown := false; drv_flags := 0; driver_ops := true; mode_11g := false; num_sta_non_erp := 0;
     num_sta_no_short_slot_time := 0; num_sta_no_short_preamble := 0; num_sta_ht_no_gf := 0;
     num_sta_no_ht := 0; num_sta_ht_20mhz := 0; iconf := demo_iface_config;
     ht := mkHt 0 0 0 0 false; aps := mkAps None 0 (replicate 256 None) ∅ false |}.

Definition demo_fnii : fnii_globals :=
  {| fnii_master_host := replicate 32 0; fnii_master_port := 8888;
     fnii_socket_status := SOCKET_STATUS_ENABLE; fnii_master_socket := 5; fnii_msg_idf := 41;
     fnii_probe_mac := replicate 6 0; fnii_probe_count := 0; beat_status := BEAT_LIVE; beat_cseq := 0;
     interface_all_info :=
       mkIfAll 32 2 36 (map (fun s => Some (s ++ [0])) [pad32 [65; 65]; pad32 [66; 66; 66]]
                        ++ replicate 6 None) 0;
     g_dense_station_hash := fnii_init_dense_station_hash |}.

Definition demo_world (e : env) : world :=
  {| fn := demo_fnii; ifc := demo_iface; heap := ∅; master := mkMaster (-1) 0 []; wenv := e |}.

(** An environment in which every call returns [z]. *)
Definition const_env (z : Z) : env :=
  {| onum := fun _ _ => z; obytes := fun _ _ => None; trace := [] |}.
