(* ===== verification/Messages.v ===== *)
(** * Messages to the controller: the [fnii_send_msg_*] functions of
    [fnii_roam.c]

    A message is text: a 4-digit identifier, a 3-digit type, a 3-digit payload
    length, the payload (length-prefixed fields) and [;].  Each function prints
    into a local array of the size the code declares, and sends a number of
    bytes that is a constant for most of them. *)

From stdpp Require Import base list numbers gmap strings.
From Stdlib Require Import ZArith Lia.
From S2P Require Import Prelude CString Dense Env Survey World.
Local Open Scope Z_scope.

Definition FNII_MSG_OK : Z := 100.
Definition FNII_MSG_ERR : Z := 101.
Definition FNII_MSG_ADD_VAP : Z := 102.
Definition FNII_MSG_DEL_VAP : Z := 103.
Definition FNII_MSG_NEW_STA : Z := 104.
Definition FNII_MSG_DEL_STA : Z := 105.
Definition FNII_MSG_FLOW_INFO : Z := 106.
Definition FNII_MSG_PROBE_INFO : Z := 107.
Definition FNII_MSG_INTERFACE_INFO : Z := 108.
Definition FNII_MSG_LOCAL_MAC : Z := 109.
Definition FNII_MSG_HEART_BEAT : Z := 110.
Definition FNII_MSG_INTERFACE_NUM : Z := 111.
Definition FNII_MSG_UPDATE_STATION : Z := 116.
Definition FNII_MSG_OFFLINE_VAP : Z := 117.
Definition FNII_MSG_MAX : Z := 118.

Definition MSG_OK_LEN : Z := 12 + 1.
Definition MSG_ERR_LEN : Z := 13 + 1.
Definition MSG_FLOW_INFO_LEN : Z := 60 + 1.
Definition MSG_DEL_STATION_LEN : Z := 80.
Definition MSG_NEW_STATION_LEN : Z := 80.
Definition MSG_VIF_INFO_MAX_LEN : Z := 68.
Definition MSG_VIF_STA_MAC : Z := 38.
Definition MSG_PROBE_INFO_LEN : Z := 42.
Definition MSG_LOCAL_MAC_LEN : Z := 24.
Definition MSG_MIN_LEN : Z := 10.
Definition MSG_INTERFACE_ALL : Z := 360.

Definition zeros (n : Z) : list Z := replicate (Z.to_nat n) 0.

(** What [msg_data] points to.  [DIfAll] and [DBeat] are the addresses of the
    globals [interface_all_info] and [fnii_beat_info]; the other objects are
    the caller's. *)
Inductive msg_data : Type :=
| DStr (s : list Z)
| DFlow (f : station_flow_s)
| DSta (u : update_station_s)
| DIfAll
| DIfInfo (v : interface_info_s)
| DProbe (p : probe_info_s)
| DBeat
| DPair (p : mac_rrpair_s).

(** [FNII_IDF] *)
Definition FNII_IDF (w : world) : Z := Z.rem (fnii_msg_idf (fn w)) 9999.

(** [send(fnii_master_socket, buf, n, 0)] and its error test. *)
Definition send_buf (buf : list Z) (n : Z) : M world Z :=
  data <-- lift (slice 0 n buf) ;;
  w <-- get ;;
  r <-- ext (Send (fnii_master_socket (fn w)) data) ;;
  ret (status_of r).

Definition fnii_check_socket_status : M world Z := w <-- get ;; ret (fnii_socket_status (fn w)).

Definition fnii_set_socket_status (status : Z) : M world unit :=
  modify (upd_fn (set_fnii_socket_status status)).

Definition fnii_send_msg_ok (idf : list Z) : M world Z :=
  id4 <-- lift (slice 0 4 idf) ;;
  msg_ok <-- lift (splice 0 id4 (zeros (MSG_OK_LEN + 1))) ;;
  msg_ok <-- lift (sprintf_at 4 (str "100002OK;") msg_ok) ;;
  send_buf msg_ok MSG_OK_LEN.

Definition fnii_send_msg_err (idf : list Z) : M world Z :=
  id4 <-- lift (slice 0 4 idf) ;;
  msg_err <-- lift (splice 0 id4 (zeros (MSG_ERR_LEN + 1))) ;;
  msg_err <-- lift (sprintf_at 4 (str "101003ERR;") msg_err) ;;
  send_buf msg_err MSG_ERR_LEN.

Definition flow_text (idf : Z) (f : station_flow_s) : list Z :=
  fmt_d 4 idf ++ str "10605012" ++ fmt_mac (flow_mac f) ++ str "16" ++ fmt_d 16 (flow_tx f)
  ++ str "16" ++ fmt_d 16 (flow_rx f) ++ str ";".

Definition fnii_send_msg_flow_info (f : station_flow_s) : M world Z :=
  w <-- get ;;
  buf <-- lift (sprintf_at 0 (flow_text (FNII_IDF w) f) (zeros (MSG_FLOW_INFO_LEN + 1))) ;;
  send_buf buf MSG_FLOW_INFO_LEN.

(** The format that the reports of a lost and of a new station share; [ty] is
    the type in it. *)
Definition sta_text (ty : list Z) (idf : Z) (u : update_station_s) (ssid_len : Z) : list Z :=
  fmt_d 4 idf ++ ty ++ fmt_d 3 (30 + ssid_len) ++ str "12" ++ fmt_mac (up_sta_mac u) ++ str "12"
  ++ fmt_mac (up_ap_mac u) ++ fmt_d 2 ssid_len ++ cstr (up_ssid u) ++ str ";".

Definition fnii_send_msg_del_sta (del_mac : update_station_s) : M world Z :=
  n <-- lift (strlen (up_ssid del_mac)) ;;
  let ssid_len := uwrap 8 n in
  if bool_decide (ssid_len > SSID_LEN - 1) then ret FNII_RET_ERR
  else
    w <-- get ;;
    buf <-- lift (sprintf_at 0 (sta_text (str "105") (FNII_IDF w) del_mac ssid_len)
                    (zeros (MSG_DEL_STATION_LEN + 2))) ;;
    send_buf buf (MSG_DEL_STATION_LEN + 1).

Definition fnii_send_msg_new_sta (new_mac : update_station_s) : M world Z :=
  n <-- lift (strlen (up_ssid new_mac)) ;;
  let ssid_len := uwrap 8 n in
  if bool_decide (ssid_len > SSID_LEN - 1) then ret FNII_RET_ERR
  else
    w <-- get ;;
    buf <-- lift (sprintf_at 0 (sta_text (str "104") (FNII_IDF w) new_mac ssid_len)
                    (zeros (MSG_NEW_STATION_LEN + 2))) ;;
    send_buf buf (MSG_NEW_STATION_LEN + 1).

(** [sprintf(buf + os_strlen(buf), ...)] *)
Definition sprintf_append (s buf : list Z) : res (list Z) :=
  let! n := strlen buf in sprintf_at n s buf.

(** The loop over [ssid[0 .. ssid_num - 1]]. *)
Fixpoint append_ssids (n : nat) (i : Z) (ssids : list (option (list Z))) (buf : list Z) : res (list Z) :=
  match n with
  | O => Ok buf
  | S n' =>
      let! p := rd ssids i in
      match p with
      | None => Ub NullDeref
      | Some s =>
          let! l := strlen s in
          let! buf' := sprintf_append (fmt_d 2 l ++ cstr s) buf in
          append_ssids n' (i + 1) ssids buf'
      end
  end.

Definition fnii_send_msg_inerface_all : M world Z :=
  w0 <-- get ;;
  let mode := if bool_decide (ia_channel (interface_all_info (fn w0)) >= 36) then 1 else 0 in
  modify (upd_fn (fun g => set_interface_all_info (set_ia_work_mode mode (interface_all_info g)) g)) ;;;
  w <-- get ;;
  let info := interface_all_info (fn w) in
  buf <-- lift (sprintf_at 0
      (fmt_d 4 (FNII_IDF w) ++ str "11100002" ++ fmt_d 2 (ia_vap_num info) ++ str "03"
       ++ fmt_d 3 (ia_channel info) ++ str "01" ++ fmt_d 0 (ia_work_mode info))
      (zeros MSG_INTERFACE_ALL)) ;;
  buf <-- lift (append_ssids (Z.to_nat (ia_ssid_num info)) 0 (ia_ssid info) buf) ;;
  n <-- lift (strlen buf) ;;
  tmp <-- lift (sprintf_at 0 (fmt_d 3 (n - 10)) (zeros 4)) ;;
  len3 <-- lift (slice 0 3 tmp) ;;
  buf <-- lift (splice 7 len3 buf) ;;
  buf <-- lift (sprintf_append (str ";") buf) ;;
  n <-- lift (strlen buf) ;;
  send_buf buf n.

Definition fnii_send_msg_if_info (vif_info : interface_info_s) : M world Z :=
  n <-- lift (strlen (vi_ssid vif_info)) ;;
  let ssid_len := swrap 8 n in
  let mode := if bool_decide (vi_channel vif_info >= 36) then 1 else 0 in
  w <-- get ;;
  buf <-- lift (sprintf_at 0
      (fmt_d 4 (FNII_IDF w) ++ str "108" ++ fmt_d 3 (ssid_len + 23) ++ str "12"
       ++ fmt_mac (vi_mac vif_info) ++ str "02" ++ fmt_d 2 (vi_channel vif_info) ++ fmt_d 2 ssid_len
       ++ cstr (vi_ssid vif_info) ++ str "01" ++ fmt_d 0 mode ++ str ";") (zeros 64)) ;;
  n <-- lift (strlen buf) ;;
  send_buf buf n.

(** The channel number of a frequency in MHz, by C's truncating division. *)
Definition channel_of_freq (freq : Z) : Z :=
  if bool_decide (freq >= 5180) then Z.quot (freq - 5180) 5 + 36 else Z.quot (freq - 2407) 5.

Definition probe_text (idf : Z) (mac : list Z) (rssi au channel mode : Z) : list Z :=
  fmt_d 4 idf ++ str "10703212" ++ fmt_mac mac ++ str "03" ++ fmt_d 3 rssi ++ str "03" ++ fmt_d 3 au
  ++ str "03" ++ fmt_d 3 channel ++ str "01" ++ fmt_d 0 mode ++ str ";".

(** The throttle: the same station is reported again only after 20 requests
    (or another station). *)
Definition fnii_send_msg_probe_info (probe_info : probe_info_s) : M world Z :=
  w <-- get ;;
  same <-- lift (memeq (fnii_probe_mac (fn w)) (pb_mac probe_info) ETH_ALEN) ;;
  if same && bool_decide (fnii_probe_count (fn w) < 20) then
    modify (upd_fn (set_fnii_probe_count (fnii_probe_count (fn w) + 1))) ;;;
    ret FNII_RET_OK
  else
    mac <-- lift (slice 0 ETH_ALEN (pb_mac probe_info)) ;;
    modify (upd_fn (set_fnii_probe_mac mac)) ;;;
    modify (upd_fn (set_fnii_probe_count 1)) ;;;
    let channel := channel_of_freq (pb_channel probe_info) in
    if bool_decide (channel > 200 \/ channel < 0) then ret FNII_RET_OK
    else
      let mode := if bool_decide (channel >= 36) then 1 else 0 in
      au <-- get_ap_au mode ;;
      w <-- get ;;
      buf <-- lift (sprintf_at 0
          (probe_text (FNII_IDF w) (pb_mac probe_info) (pb_rssi probe_info) au channel mode)
          (zeros (MSG_PROBE_INFO_LEN + 2))) ;;
      send_buf buf (MSG_PROBE_INFO_LEN + 1).

Definition fnii_send_msg_local_mac (local_mac : list Z) : M world Z :=
  n <-- lift (strlen local_mac) ;;
  w <-- get ;;
  buf <-- lift (sprintf_at 0 (fmt_d 4 (FNII_IDF w) ++ str "10901412" ++ cstr local_mac ++ str ";")
                  (zeros (MSG_LOCAL_MAC_LEN + 2))) ;;
  send_buf buf (MSG_LOCAL_MAC_LEN + 1).

Definition pair_text (idf : Z) (p : mac_rrpair_s) : list Z :=
  fmt_d 4 idf ++ str "11602812" ++ fmt_mac (pr_vif_mac p) ++ str "12" ++ fmt_mac (pr_sta_mac p)
  ++ str ";".

Definition fnii_send_msg_update_station (mac_rrpair : mac_rrpair_s) : M world Z :=
  w <-- get ;;
  buf <-- lift (sprintf_at 0 (pair_text (FNII_IDF w) mac_rrpair) (zeros (MSG_VIF_STA_MAC + 2))) ;;
  send_buf buf (MSG_VIF_STA_MAC + 1).

Definition beat_text (cseq : Z) : list Z := fmt_d 4 (Z.rem cseq 9999) ++ str "110000;".

(** [beat_info] is the address of the global. *)
Definition fnii_send_msg_beat : M world Z :=
  w <-- get ;;
  buf <-- lift (sprintf_at 0 (beat_text (beat_cseq (fn w))) (zeros (MSG_MIN_LEN + 2))) ;;
  modify (upd_fn (set_beat_status BEAT_DEAD)) ;;;
  send_buf buf (MSG_MIN_LEN + 1).

(** The [switch] of [fnii_send_msg]: the pointer is used at the type that the
    message type implies. *)
Definition send_dispatch (msg_type : Z) (msg_data : msg_data) : M world Z :=
  if bool_decide (msg_type = FNII_MSG_OK) then
    match msg_data with DStr s => fnii_send_msg_ok s | _ => fail TypeConfusion end
  else if bool_decide (msg_type = FNII_MSG_ERR) then
    match msg_data with DStr s => fnii_send_msg_err s | _ => fail TypeConfusion end
  else if bool_decide (msg_type = FNII_MSG_FLOW_INFO) then
    match msg_data with DFlow f => fnii_send_msg_flow_info f | _ => fail TypeConfusion end
  else if bool_decide (msg_type = FNII_MSG_DEL_STA) then
    match msg_data with DSta u => fnii_send_msg_del_sta u | _ => fail TypeConfusion end
  else if bool_decide (msg_type = FNII_MSG_INTERFACE_NUM) then
    match msg_data with DIfAll => fnii_send_msg_inerface_all | _ => fail TypeConfusion end
  else if bool_decide (msg_type = FNII_MSG_INTERFACE_INFO) then
    match msg_data with DIfInfo v => fnii_send_msg_if_info v | _ => fail TypeConfusion end
  else if bool_decide (msg_type = FNII_MSG_NEW_STA) then
    match msg_data with DSta u => fnii_send_msg_new_sta u | _ => fail TypeConfusion end
  else if bool_decide (msg_type = FNII_MSG_PROBE_INFO) then
    match msg_data with DProbe p => fnii_send_msg_probe_info p | _ => fail TypeConfusion end
  else if bool_decide (msg_type = FNII_MSG_LOCAL_MAC) then
    match msg_data with DStr s => fnii_send_msg_local_mac s | _ => fail TypeConfusion end
  else if bool_decide (msg_type = FNII_MSG_HEART_BEAT) then
    match msg_data with
    | DBeat => w <-- get ;; modify (upd_fn (set_beat_cseq (fnii_msg_idf (fn w)))) ;;; fnii_send_msg_beat
    | _ => fail TypeConfusion
    end
  else if bool_decide (msg_type = FNII_MSG_UPDATE_STATION) then
    match msg_data with DPair p => fnii_send_msg_update_station p | _ => fail TypeConfusion end
  else ret FNII_RET_OK.

(** The end of a link: the status, [shutdown] and [close]. *)
Definition drop_link : M world unit :=
  fnii_set_socket_status SOCKET_STATUS_DISABLE ;;;
  w <-- get ;;
  ext_ (Shutdown (fnii_master_socket (fn w))) ;;;
  ext_ (Close (fnii_master_socket (fn w))).

(** The increment of [fnii_msg_idf]. *)
Definition next_idf (idf : Z) : Z := if bool_decide (idf + 1 > 9999) then 0 else idf + 1.

Definition fnii_send_msg (msg_type : Z) (data : option msg_data) : M world Z :=
  if bool_decide (msg_type < 100 \/ msg_type > FNII_MSG_MAX) then ret FNII_RET_ERR
  else
    status <-- fnii_check_socket_status ;;
    if bool_decide (status = SOCKET_STATUS_DISABLE /\ msg_type <> FNII_MSG_LOCAL_MAC /\
                    msg_type <> FNII_MSG_INTERFACE_INFO /\ msg_type <> FNII_MSG_INTERFACE_NUM)
    then ret FNII_RET_ERR
    else
      match data with
      | None => ret FNII_RET_ERR
      | Some data =>
          modify (upd_fn (fun g => set_fnii_msg_idf (next_idf (fnii_msg_idf g)) g)) ;;;
          r <-- send_dispatch msg_type data ;;
          if bool_decide (r <> FNII_RET_OK) then drop_link ;;; ret r else ret r
      end.

(** ** The protocol, as text *)

(** A length-prefixed field and a frame: this is the format that both ends of
    the link agree on. *)
Definition field (s : list Z) : list Z := fmt_d 2 (zlen s) ++ s.
Definition frame (id : list Z) (ty : Z) (payload : list Z) : list Z :=
  id ++ fmt_d 3 ty ++ fmt_d 3 (zlen payload) ++ payload ++ [59].

(** What each type of message must put on the wire, for the state [w] in which
    it is printed.  The two station reports are followed by zero bytes up to 81
    bytes. *)
Definition wire (w : world) (msg_type : Z) (data : msg_data) : list Z :=
  let id := fmt_d 4 (FNII_IDF w) in
  match data with
  | DStr s =>
      if bool_decide (msg_type = FNII_MSG_LOCAL_MAC) then frame id 109 (field (cstr s))
      else if bool_decide (msg_type = FNII_MSG_OK) then frame (take 4 s) 100 (str "OK")
      else frame (take 4 s) 101 (str "ERR")
  | DFlow f => frame id 106 (field (fmt_mac (flow_mac f)) ++ field (fmt_d 16 (flow_tx f))
                             ++ field (fmt_d 16 (flow_rx f)))
  | DSta u => let t := frame id msg_type (field (fmt_mac (up_sta_mac u)) ++ field (fmt_mac (up_ap_mac u))
                                          ++ field (cstr (up_ssid u))) in
              t ++ zeros (81 - zlen t)
  | DBeat => frame (fmt_d 4 (Z.rem (fnii_msg_idf (fn w)) 9999)) 110 []
  | DPair p => frame id 116 (field (fmt_mac (pr_vif_mac p)) ++ field (fmt_mac (pr_sta_mac p)))
  | DIfAll | DIfInfo _ | DProbe _ => []
  end.

(** When a message of a type may be sent with an object. *)
Definition data_ok (msg_type : Z) (data : msg_data) : Prop :=
  match data with
  | DStr s =>
      if bool_decide (msg_type = FNII_MSG_LOCAL_MAC)
      then length (cstr s) = 12%nat /\ 0 ∈ s
      else (msg_type = FNII_MSG_OK \/ msg_type = FNII_MSG_ERR) /\ 4 <= zlen s
  | DFlow f => msg_type = FNII_MSG_FLOW_INFO /\ mac_ok (flow_mac f) /\ s32 (flow_tx f) /\ s32 (flow_rx f)
  | DSta u => (msg_type = FNII_MSG_DEL_STA \/ msg_type = FNII_MSG_NEW_STA) /\
              mac_ok (up_sta_mac u) /\ mac_ok (up_ap_mac u) /\ length (up_ssid u) = 32%nat /\ 0 ∈ up_ssid u
  | DBeat => msg_type = FNII_MSG_HEART_BEAT
  | DPair p => msg_type = FNII_MSG_UPDATE_STATION /\ mac_ok (pr_vif_mac p) /\ mac_ok (pr_sta_mac p)
  | DIfAll | DIfInfo _ | DProbe _ => False
  end.

(** ** Facts about printing and sending *)

Lemma zlen_zeros n : 0 <= n -> zlen (zeros n) = n.
Proof. intros H. unfold zeros, zlen. rewrite length_replicate. lia. Qed.

Lemma sprintf_fresh (t : list Z) n : zlen t < n -> sprintf_at 0 t (zeros n) = Ok (t ++ zeros (n - zlen t)).
Proof.
  intros H. unfold zeros. pose proof (zlen_nonneg t).
  rewrite sprintf_at_fresh by (unfold zlen in *; lia).
  do 3 f_equal. unfold zlen in *. lia.
Qed.

Lemma slice_padded (t : list Z) m k : zlen t <= k -> k <= zlen t + m -> 0 <= m ->
  slice 0 k (t ++ zeros m) = Ok (t ++ zeros (k - zlen t)).
Proof.
  intros H1 H2 Hm. pose proof (zlen_nonneg t) as Ht. unfold slice.
  rewrite bool_decide_eq_true_2 by (rewrite zlen_app, zlen_zeros; lia).
  f_equal. rewrite drop_0, take_app. f_equal.
  - apply take_ge. unfold zlen in *. lia.
  - unfold zeros. rewrite take_replicate. f_equal. unfold zlen in *. lia.
Qed.

(** The state after [send] of [data], and its answer. *)
Definition send_fd (w : world) : Z := fnii_master_socket (fn w).
Definition send_answer (w : world) (data : list Z) : Z :=
  onum (wenv w) (length (trace (wenv w))) (Send (send_fd w) data).
Definition after_send (w : world) (data : list Z) : world :=
  put_env (logged (Send (send_fd w) data) (wenv w)) w.

Lemma send_buf_run (buf data : list Z) n (w : world) : slice 0 n buf = Ok data ->
  send_buf buf n w = Ok (status_of (send_answer w data), after_send w data).
Proof. intros H. unfold send_buf, bind, lift, get. rewrite H. reflexivity. Qed.

(** Print into a fresh array, then send the first [k] bytes of it. *)
Lemma print_send (t : list Z) n k (w : world) : zlen t < n -> zlen t <= k <= n ->
  (buf <-- lift (sprintf_at 0 t (zeros n)) ;; send_buf buf k) w
  = Ok (status_of (send_answer w (t ++ zeros (k - zlen t))), after_send w (t ++ zeros (k - zlen t))).
Proof.
  intros Hn Hk. unfold bind, lift. rewrite sprintf_fresh by done.
  apply send_buf_run, slice_padded; lia.
Qed.

Lemma zeros_0 : zeros 0 = [].
Proof. reflexivity. Qed.

Lemma print_send_exact (t : list Z) n k (w : world) : zlen t = k -> k < n ->
  (buf <-- lift (sprintf_at 0 t (zeros n)) ;; send_buf buf k) w
  = Ok (status_of (send_answer w t), after_send w t).
Proof.
  intros <- Hn. rewrite print_send by lia. rewrite Z.sub_diag, zeros_0, app_nil_r. done.
Qed.

Lemma zlen_mac m : mac_ok m -> zlen (fmt_mac m) = 12.
Proof. intros [Hl Hm]. unfold zlen. rewrite fmt_mac_length, Hl by done. done. Qed.

Lemma zlen_fmt_d w z : (1 <= w)%nat -> 0 <= z < 10 ^ Z.of_nat w -> zlen (fmt_d w z) = Z.of_nat w.
Proof. intros. unfold zlen. now rewrite fmt_d_nonneg_length. Qed.

Lemma zlen_fmt_d16 z : s32 z -> zlen (fmt_d 16 z) = 16.
Proof.
  unfold s32. intros Hz. unfold zlen. destruct (Z.lt_ge_cases z 0).
  - rewrite fmt_d_neg_length by (simpl; lia). done.
  - rewrite fmt_d_nonneg_length by (simpl; lia). done.
Qed.

(** The identifier stays between 0 and 9999, so that it prints in 4 digits. *)
Definition idf_ok (w : world) : Prop := 0 <= fnii_msg_idf (fn w) <= 9999.

Lemma rem9999 z : 0 <= z <= 9999 -> 0 <= Z.rem z 9999 < 10 ^ Z.of_nat 4.
Proof. intros H. rewrite Z.rem_mod_nonneg by lia. pose proof (Z.mod_pos_bound z 9999). simpl. lia. Qed.

Lemma zlen_idf w : idf_ok w -> zlen (fmt_d 4 (FNII_IDF w)) = 4.
Proof. intros H. apply (zlen_fmt_d 4); [lia|]. now apply rem9999. Qed.

Lemma next_idf_ok z : 0 <= z <= 9999 -> 0 <= next_idf z <= 9999.
Proof. intros H. unfold next_idf. case_bool_decide; lia. Qed.

(** ** One lemma per message *)

Lemma field_12 m : mac_ok m -> field (fmt_mac m) = str "12" ++ fmt_mac m.
Proof. intros H. unfold field. now rewrite zlen_mac. Qed.

Lemma field_16 z : s32 z -> field (fmt_d 16 z) = str "16" ++ fmt_d 16 z.
Proof. intros H. unfold field. now rewrite zlen_fmt_d16. Qed.

Lemma flow_text_frame idf f : mac_ok (flow_mac f) -> s32 (flow_tx f) -> s32 (flow_rx f) ->
  flow_text idf f = frame (fmt_d 4 idf) 106 (field (fmt_mac (flow_mac f)) ++ field (fmt_d 16 (flow_tx f))
                                             ++ field (fmt_d 16 (flow_rx f))).
Proof.
  intros H1 H2 H3. unfold flow_text, frame. rewrite field_12, !field_16 by done.
  rewrite !zlen_app, zlen_mac, !zlen_fmt_d16 by done.
  change (zlen (str "12")) with 2. change (zlen (str "16")) with 2.
  rewrite <- !app_assoc. reflexivity.
Qed.

Lemma send_flow (w : world) f : idf_ok w -> data_ok FNII_MSG_FLOW_INFO (DFlow f) ->
  fnii_send_msg_flow_info f w
  = Ok (status_of (send_answer w (wire w FNII_MSG_FLOW_INFO (DFlow f))),
        after_send w (wire w FNII_MSG_FLOW_INFO (DFlow f))).
Proof.
  intros Hi (_ & H1 & H2 & H3). unfold wire. rewrite <- flow_text_frame by done.
  unfold fnii_send_msg_flow_info. rewrite (bind_Ok _ _ w w w) by done.
  apply print_send_exact; [|unfold MSG_FLOW_INFO_LEN; lia].
  unfold flow_text. rewrite !zlen_app, zlen_mac, !zlen_fmt_d16, zlen_idf by done. reflexivity.
Qed.

Lemma pair_text_frame idf p : mac_ok (pr_vif_mac p) -> mac_ok (pr_sta_mac p) ->
  pair_text idf p = frame (fmt_d 4 idf) 116 (field (fmt_mac (pr_vif_mac p)) ++ field (fmt_mac (pr_sta_mac p))).
Proof.
  intros H1 H2. unfold pair_text, frame. rewrite !field_12 by done.
  rewrite !zlen_app, !zlen_mac by done. change (zlen (str "12")) with 2.
  rewrite <- !app_assoc. reflexivity.
Qed.

Lemma send_pair (w : world) p : idf_ok w -> data_ok FNII_MSG_UPDATE_STATION (DPair p) ->
  fnii_send_msg_update_station p w
  = Ok (status_of (send_answer w (wire w FNII_MSG_UPDATE_STATION (DPair p))),
        after_send w (wire w FNII_MSG_UPDATE_STATION (DPair p))).
Proof.
  intros Hi (_ & H1 & H2). unfold wire. rewrite <- pair_text_frame by done.
  unfold fnii_send_msg_update_station. rewrite (bind_Ok _ _ w w w) by done.
  apply print_send_exact; [|unfold MSG_VIF_STA_MAC; lia].
  unfold pair_text. rewrite !zlen_app, !zlen_mac, zlen_idf by done. reflexivity.
Qed.

(** The two replies copy the identifier of the command they answer. *)
Lemma reply_text (idf t : list Z) n (w : world) : 4 <= zlen idf -> zlen t + 5 = n ->
  (id4 <-- lift (slice 0 4 idf) ;; m <-- lift (splice 0 id4 (zeros n)) ;;
   m <-- lift (sprintf_at 4 t m) ;; send_buf m (n - 1)) w
  = Ok (status_of (send_answer w (take 4 idf ++ t)), after_send w (take 4 idf ++ t)).
Proof.
  intros Hidf Hn.
  assert (slice 0 4 idf = Ok (take 4 idf)) as H4.
  { unfold slice. now rewrite bool_decide_eq_true_2 by lia. }
  assert (length (take 4 idf) = 4%nat) as L4.
  { rewrite length_take. unfold zlen in Hidf. lia. }
  set (id4 := take 4 idf) in *.
  pose proof (zlen_nonneg t) as Ht.
  assert (zeros n = zeros 4 ++ zeros (zlen t + 1)) as Hz.
  { unfold zeros. rewrite <- replicate_add. f_equal. lia. }
  assert (splice 0 id4 (zeros n) = Ok (id4 ++ zeros (zlen t + 1))) as Hs.
  { rewrite Hz. apply (splice_mid [] (zeros 4) (zeros (zlen t + 1)) id4 0); done. }
  assert (sprintf_at 4 t (id4 ++ zeros (zlen t + 1)) = Ok (id4 ++ t ++ [0])) as Hp.
  { unfold sprintf_at. rewrite <- (app_nil_r (zeros _)) at 1.
    rewrite (splice_mid id4 (zeros (zlen t + 1)) [] (t ++ [0]) 4); [now rewrite app_nil_r| |].
    - unfold zlen. lia.
    - unfold zeros. rewrite length_app, length_replicate. simpl. unfold zlen. lia. }
  unfold bind, lift. rewrite H4, Hs, Hp. apply send_buf_run.
  rewrite app_assoc. apply (slice_mid [] (id4 ++ t) [0]); [done|].
  rewrite zlen_app. unfold zlen in *. lia.
Qed.

Lemma send_ok (w : world) s : 4 <= zlen s ->
  fnii_send_msg_ok s w = Ok (status_of (send_answer w (wire w FNII_MSG_OK (DStr s))),
                             after_send w (wire w FNII_MSG_OK (DStr s))).
Proof. intros H. exact (reply_text s (str "100002OK;") 14 w H eq_refl). Qed.

Lemma send_err (w : world) s : 4 <= zlen s ->
  fnii_send_msg_err s w = Ok (status_of (send_answer w (wire w FNII_MSG_ERR (DStr s))),
                              after_send w (wire w FNII_MSG_ERR (DStr s))).
Proof. intros H. exact (reply_text s (str "101003ERR;") 15 w H eq_refl). Qed.

Lemma strlen_cstr s : 0 ∈ s -> strlen s = Ok (zlen (cstr s)).
Proof. intros H. unfold strlen. now rewrite bool_decide_eq_true_2. Qed.

Lemma send_local_mac (w : world) s : idf_ok w -> length (cstr s) = 12%nat -> 0 ∈ s ->
  fnii_send_msg_local_mac s w
  = Ok (status_of (send_answer w (wire w FNII_MSG_LOCAL_MAC (DStr s))),
        after_send w (wire w FNII_MSG_LOCAL_MAC (DStr s))).
Proof.
  intros Hi Hl H0. unfold fnii_send_msg_local_mac.
  assert (zlen (cstr s) = 12) as Hz by (unfold zlen; lia).
  assert (wire w FNII_MSG_LOCAL_MAC (DStr s)
          = fmt_d 4 (FNII_IDF w) ++ str "10901412" ++ cstr s ++ str ";") as ->.
  { unfold wire. rewrite bool_decide_eq_true_2 by done. unfold frame, field.
    rewrite zlen_app, Hz. rewrite <- !app_assoc. reflexivity. }
  rewrite (bind_Ok _ _ w (zlen (cstr s)) w) by (unfold lift; now rewrite strlen_cstr).
  rewrite (bind_Ok _ _ w w w) by done.
  apply print_send_exact; [|unfold MSG_LOCAL_MAC_LEN; lia].
  rewrite !zlen_app, Hz, zlen_idf by done. reflexivity.
Qed.

Lemma cstr_length s : (length (cstr s) <= length s)%nat.
Proof. induction s as [|c s IH]; simpl; [lia|]. case_bool_decide; simpl; lia. Qed.

Lemma cstr_length_lt s : 0 ∈ s -> (length (cstr s) < length s)%nat.
Proof.
  induction s as [|c s IH]; intros H; [inversion H|]. simpl. case_bool_decide as E; simpl; [lia|].
  apply elem_of_cons in H as [H|H]; [congruence|]. specialize (IH H). lia.
Qed.

(** The text of a station report is a frame of its payload. *)
Lemma sta_text_frame (ty : Z) tys idf u : fmt_d 3 ty = tys ->
  mac_ok (up_sta_mac u) -> mac_ok (up_ap_mac u) ->
  sta_text tys idf u (zlen (cstr (up_ssid u)))
  = frame (fmt_d 4 idf) ty (field (fmt_mac (up_sta_mac u)) ++ field (fmt_mac (up_ap_mac u))
                            ++ field (cstr (up_ssid u))) \/ 100 <= zlen (cstr (up_ssid u)).
Proof.
  intros <- H1 H2. destruct (Z.lt_ge_cases (zlen (cstr (up_ssid u))) 100) as [Hl|]; [left|right; lia].
  unfold sta_text, frame. rewrite !field_12 by done. unfold field.
  rewrite !zlen_app, !zlen_mac, (zlen_fmt_d 2) by (try done; pose proof (zlen_nonneg (cstr (up_ssid u))); simpl; lia).
  change (zlen (str "12")) with 2. rewrite <- !app_assoc.
  replace (2 + 12 + (2 + 12 + (Z.of_nat 2 + zlen (cstr (up_ssid u))))) with (30 + zlen (cstr (up_ssid u))) by lia.
  reflexivity.
Qed.

Lemma send_sta (w : world) (ty : Z) (tys : list Z) u : idf_ok w -> fmt_d 3 ty = tys -> length tys = 3%nat ->
  mac_ok (up_sta_mac u) -> mac_ok (up_ap_mac u) -> length (up_ssid u) = 32%nat -> 0 ∈ up_ssid u ->
  (n <-- lift (strlen (up_ssid u)) ;;
   let ssid_len := uwrap 8 n in
   if bool_decide (ssid_len > SSID_LEN - 1) then ret FNII_RET_ERR
   else w <-- get ;;
        buf <-- lift (sprintf_at 0 (sta_text tys (FNII_IDF w) u ssid_len) (zeros 82)) ;;
        send_buf buf 81) w
  = Ok (status_of (send_answer w (wire w ty (DSta u))), after_send w (wire w ty (DSta u))).
Proof.
  intros Hi Hty L3 H1 H2 Hl H0.
  rewrite (bind_Ok _ _ w (zlen (cstr (up_ssid u))) w) by (unfold lift; now rewrite strlen_cstr).
  pose proof (cstr_length_lt _ H0) as Hlt. rewrite Hl in Hlt.
  pose proof (zlen_nonneg (cstr (up_ssid u))).
  assert (zlen (cstr (up_ssid u)) <= 31) as Hs by (unfold zlen in *; lia).
  cbv zeta. rewrite uwrap_small by lia. rewrite bool_decide_eq_false_2 by (unfold SSID_LEN; lia).
  rewrite (bind_Ok _ _ w w w) by done.
  destruct (sta_text_frame ty tys (FNII_IDF w) u Hty H1 H2) as [E|?]; [|lia].
  unfold wire. rewrite <- E.
  assert (zlen (sta_text tys (FNII_IDF w) u (zlen (cstr (up_ssid u)))) = 41 + zlen (cstr (up_ssid u))) as Hz.
  { unfold sta_text. rewrite !zlen_app, !zlen_mac, zlen_idf by done.
    rewrite (zlen_fmt_d 3), (zlen_fmt_d 2) by (simpl; lia).
    change (zlen (str "12")) with 2. change (zlen (str ";")) with 1.
    unfold zlen at 1. rewrite L3. lia. }
  rewrite print_send by lia. done.
Qed.

(** The heart beat takes the new identifier as its number and marks the link
    dead until the answer comes. *)
Definition beat_sent (w : world) : world :=
  upd_fn (set_beat_status BEAT_DEAD) (upd_fn (set_beat_cseq (fnii_msg_idf (fn w))) w).

Lemma send_beat (w : world) : idf_ok w ->
  (w <-- get ;; modify (upd_fn (set_beat_cseq (fnii_msg_idf (fn w)))) ;;; fnii_send_msg_beat) w
  = Ok (status_of (send_answer (beat_sent w) (wire w FNII_MSG_HEART_BEAT DBeat)),
        after_send (beat_sent w) (wire w FNII_MSG_HEART_BEAT DBeat)).
Proof.
  intros Hi.
  assert (wire w FNII_MSG_HEART_BEAT DBeat = beat_text (fnii_msg_idf (fn w))) as -> by reflexivity.
  assert (zlen (beat_text (fnii_msg_idf (fn w))) = 11) as Hz.
  { unfold beat_text. rewrite zlen_app, (zlen_fmt_d 4) by (try lia; now apply rem9999). reflexivity. }
  unfold fnii_send_msg_beat, bind, get, modify, lift. simpl fn.
  rewrite sprintf_fresh by (unfold MSG_MIN_LEN; simpl; lia).
  apply send_buf_run. simpl beat_cseq. rewrite slice_padded by (unfold MSG_MIN_LEN; lia).
  rewrite Hz. change (zeros (MSG_MIN_LEN + 1 - 11)) with (@nil Z). now rewrite app_nil_r.
Qed.

(** ** What [fnii_send_msg] promises *)

Definition bump_idf (w : world) : world :=
  upd_fn (fun g => set_fnii_msg_idf (next_idf (fnii_msg_idf g)) g) w.

(** The link after an error: disabled, shut down and closed. *)
Definition dropped (w : world) : world :=
  let w1 := upd_fn (set_fnii_socket_status SOCKET_STATUS_DISABLE) w in
  let w2 := put_env (logged (Shutdown (send_fd w)) (wenv w1)) w1 in
  put_env (logged (Close (send_fd w)) (wenv w2)) w2.

(** The specification: take the next identifier, put the frame on the wire, and
    drop the link when the kernel refuses it. *)
Definition send_spec (msg_type : Z) (data : msg_data) (w : world) : Z * world :=
  let w1 := bump_idf w in
  let text := wire w1 msg_type data in
  let w2 := match data with DBeat => beat_sent w1 | _ => w1 end in
  if bool_decide (send_answer w2 text < 0)
  then (FNII_RET_ERR, dropped (after_send w2 text))
  else (FNII_RET_OK, after_send w2 text).

Lemma drop_link_run (w : world) : drop_link w = Ok (tt, dropped w).
Proof. reflexivity. Qed.

Lemma bump_idf_ok w : idf_ok w -> idf_ok (bump_idf w).
Proof. apply next_idf_ok. Qed.

Lemma dispatch_run (w : world) ty data : idf_ok w -> data_ok ty data ->
  let w2 := match data with DBeat => beat_sent w | _ => w end in
  send_dispatch ty data w
  = Ok (status_of (send_answer w2 (wire w ty data)), after_send w2 (wire w ty data)).
Proof.
  intros Hi Hd. destruct data; simpl in Hd; try done.
  - case_bool_decide as E.
    + subst ty. destruct Hd. exact (send_local_mac w s Hi H H0).
    + destruct Hd as [[-> | ->] Hl]; [now apply send_ok|now apply send_err].
  - destruct Hd as (-> & Hd). apply send_flow; [done|now split].
  - destruct Hd as ([-> | ->] & H1 & H2 & H3 & H4).
    + now apply (send_sta w 105 (str "105")).
    + now apply (send_sta w 104 (str "104")).
  - subst ty. now apply send_beat.
  - destruct Hd as (-> & Hd). apply send_pair; [done|now split].
Qed.

Lemma data_ok_type ty data : data_ok ty data -> 100 <= ty <= FNII_MSG_MAX.
Proof.
  unfold FNII_MSG_MAX. destruct data; simpl; try done.
  - case_bool_decide as E; [subst; unfold FNII_MSG_LOCAL_MAC; lia|].
    unfold FNII_MSG_OK, FNII_MSG_ERR. lia.
  - unfold FNII_MSG_FLOW_INFO. lia.
  - unfold FNII_MSG_DEL_STA, FNII_MSG_NEW_STA. lia.
  - unfold FNII_MSG_HEART_BEAT. lia.
  - unfold FNII_MSG_UPDATE_STATION. lia.
Qed.

Lemma send_spec_idf ty data w : idf_ok w -> idf_ok (snd (send_spec ty data w)).
Proof.
  intros H. apply bump_idf_ok in H. unfold send_spec. cases; destruct data; apply H.
Qed.

Lemma fnii_send_msg_off (w : world) ty data :
  fnii_socket_status (fn w) = SOCKET_STATUS_DISABLE -> ty = FNII_MSG_OK \/ ty = FNII_MSG_ERR ->
  fnii_send_msg ty data w = Ok (FNII_RET_ERR, w).
Proof.
  intros Hs [-> | ->]; unfold fnii_send_msg, fnii_check_socket_status, bind, get, ret;
    (rewrite bool_decide_eq_false_2 by (unfold FNII_MSG_MAX, FNII_MSG_OK, FNII_MSG_ERR; lia));
    now rewrite bool_decide_eq_true_2 by (rewrite Hs; done).
Qed.

Lemma fnii_send_msg_run (w : world) (ty : Z) (data : msg_data) :
  idf_ok w -> data_ok ty data ->
  fnii_socket_status (fn w) <> SOCKET_STATUS_DISABLE \/ ty = FNII_MSG_LOCAL_MAC ->
  fnii_send_msg ty (Some data) w = Ok (send_spec ty data w).
Proof.
  intros Hi Hd Hlink.
  unfold fnii_send_msg. rewrite bool_decide_eq_false_2 by (pose proof (data_ok_type _ _ Hd); lia).
  unfold fnii_check_socket_status, bind at 1, bind at 1, get, ret at 1.
  rewrite bool_decide_eq_false_2
    by (unfold SOCKET_STATUS_DISABLE in *; intuition congruence).
  rewrite (bind_Ok _ _ w tt (bump_idf w)) by done.
  erewrite bind_Ok by (apply dispatch_run; [now apply bump_idf_ok|done]).
  unfold send_spec, status_of. cbv zeta.
  set (w2 := match data with DBeat => _ | _ => _ end). set (text := wire _ _ _).
  destruct (bool_decide (send_answer w2 text < 0)); [|reflexivity].
  exact (bind_Ok _ _ _ _ _ (drop_link_run _)).
Qed.

(** ** The list of the networks *)

Lemma sprintf_append_padded (t s : list Z) m : 0 ∉ t -> zlen s < m ->
  sprintf_append s (t ++ zeros m) = Ok ((t ++ s) ++ zeros (m - zlen s)).
Proof.
  intros Ht Hm. pose proof (zlen_nonneg s).
  assert (zeros m = 0 :: zeros (m - 1)) as Hz.
  { unfold zeros. replace (Z.to_nat m) with (S (Z.to_nat (m - 1))) by lia. done. }
  unfold sprintf_append. rewrite Hz, strlen_app, <- Hz by done. simpl.
  assert (zeros m = zeros (zlen s + 1) ++ zeros (m - zlen s - 1)) as ->.
  { unfold zeros. rewrite <- replicate_add. f_equal. lia. }
  unfold sprintf_at. rewrite (splice_mid t (zeros (zlen s + 1)) _ (s ++ [0])).
  - rewrite <- !app_assoc. do 3 f_equal. unfold zeros.
    replace (Z.to_nat (m - zlen s)) with (S (Z.to_nat (m - zlen s - 1))) by lia. done.
  - done.
  - unfold zeros. rewrite length_app, length_replicate. unfold zlen. simpl. lia.
Qed.

Lemma fmt_d_no0 w z : 0 ∉ fmt_d w z.
Proof. apply chars_no0, fmt_d_chars. Qed.

Lemma field_no0 s : 0 ∉ s -> 0 ∉ field s.
Proof. intros H. unfold field. rewrite not_elem_of_app. split; [apply fmt_d_no0|done]. Qed.

(** The fields of a list of strings, and the room they take. *)
Definition fields (ss : list (list Z)) : list Z := concat (map (fun s => field (cstr s)) ss).

Lemma fields_no0 ss : 0 ∉ fields ss.
Proof.
  induction ss as [|s ss IH]; unfold fields in *; simpl; [apply not_elem_of_nil|].
  rewrite not_elem_of_app. split; [apply field_no0, cstr_no0|done].
Qed.

Lemma zlen_field s : zlen s < 100 -> zlen (field s) = 2 + zlen s.
Proof.
  intros H. pose proof (zlen_nonneg s). unfold field.
  rewrite zlen_app, (zlen_fmt_d 2) by (simpl; lia). lia.
Qed.

Definition ssid_buf (s : list Z) : Prop := length s = 33%nat /\ 0 ∈ s.

Lemma ssid_buf_cstr s : ssid_buf s -> 0 <= zlen (cstr s) <= 32.
Proof.
  intros [Hl H0]. pose proof (cstr_length_lt s H0). pose proof (zlen_nonneg (cstr s)).
  unfold zlen in *. lia.
Qed.

Lemma zlen_fields ss : Forall ssid_buf ss -> 0 <= zlen (fields ss) <= 34 * zlen ss.
Proof.
  induction 1 as [|s ss Hs HF IH]; [done|]. unfold fields in *. simpl.
  apply ssid_buf_cstr in Hs. rewrite zlen_app, zlen_cons, zlen_field by lia. lia.
Qed.

Lemma append_ssids_run (pre ss : list (list Z)) rest (t : list Z) m :
  0 ∉ t -> Forall ssid_buf ss -> zlen (fields ss) < m ->
  append_ssids (length ss) (zlen pre) (map Some pre ++ map Some ss ++ rest) (t ++ zeros m)
  = Ok ((t ++ fields ss) ++ zeros (m - zlen (fields ss))).
Proof.
  intros Ht HF. revert pre t m Ht. induction HF as [|s ss Hs HF IH]; intros pre t m Ht Hm.
  - simpl. unfold fields in *. simpl. rewrite zlen_nil, app_nil_r, Z.sub_0_r. done.
  - simpl length. cbn [append_ssids].
    rewrite (rd_Some _ _ (Some s)) by
      (try apply zlen_nonneg; unfold zlen; rewrite Nat2Z.id, lookup_app_r, length_map, Nat.sub_diag
        by (rewrite length_map; lia); done).
    simpl res_bind. destruct Hs as [Hl H0]. rewrite strlen_cstr by done. simpl res_bind.
    assert (zlen (fields (s :: ss)) = zlen (field (cstr s)) + zlen (fields ss)) as Ez
      by (unfold fields; simpl; apply zlen_app).
    pose proof (zlen_fields ss HF).
    change (fmt_d 2 (zlen (cstr s)) ++ cstr s) with (field (cstr s)).
    rewrite sprintf_append_padded by (try done; lia). simpl res_bind.
    replace (zlen pre + 1) with (zlen (pre ++ [s])) by (rewrite zlen_app; done).
    replace (map Some pre ++ Some s :: map Some ss ++ rest)
      with (map Some (pre ++ [s]) ++ map Some ss ++ rest) by (rewrite map_app, <- app_assoc; done).
    rewrite IH; [| |lia].
    + rewrite Ez, Z.sub_add_distr, <- (app_assoc t). done.
    + rewrite not_elem_of_app. split; [done|]. apply field_no0, cstr_no0.
Qed.

Definition ifall_mode (info : interface_all_info_s) : Z :=
  if bool_decide (ia_channel info >= 36) then 1 else 0.

Definition ifall_payload (info : interface_all_info_s) (ss : list (list Z)) : list Z :=
  field (fmt_d 2 (ia_vap_num info)) ++ field (fmt_d 3 (ia_channel info))
  ++ field (fmt_d 0 (ifall_mode info)) ++ fields ss.

(** [interface_all_info] as [fnii_update_ap_info] leaves it for at most 8
    networks. *)
Definition ifall_ok (info : interface_all_info_s) (ss : list (list Z)) : Prop :=
  0 <= ia_vap_num info < 100 /\ 0 <= ia_channel info < 1000 /\
  ia_ssid_num info = zlen ss /\ zlen ss <= 8 /\ Forall ssid_buf ss /\
  exists rest, ia_ssid info = map Some ss ++ rest.

Definition with_mode (w : world) : world :=
  upd_fn (fun g => set_interface_all_info
    (set_ia_work_mode (ifall_mode (interface_all_info g)) (interface_all_info g)) g) w.

(** The head of the message, before its length is known, and its last part. *)
Definition ifall_tail (info : interface_all_info_s) : list Z :=
  str "02" ++ fmt_d 2 (ia_vap_num info) ++ str "03" ++ fmt_d 3 (ia_channel info) ++ str "01"
  ++ fmt_d 0 (ifall_mode info).

Lemma ifall_tail_spec info ss : ifall_ok info ss ->
  ifall_tail info ++ fields ss = ifall_payload info ss /\ zlen (ifall_tail info) = 12 /\
  0 ∉ ifall_tail info.
Proof.
  intros (H1 & H2 & _). assert (ifall_mode info = 0 \/ ifall_mode info = 1) as Hm
    by (unfold ifall_mode; case_bool_decide; auto).
  assert (zlen (fmt_d 0 (ifall_mode info)) = 1) as H3 by (destruct Hm as [-> | ->]; reflexivity).
  assert (zlen (fmt_d 2 (ia_vap_num info)) = 2) as H4 by (apply (zlen_fmt_d 2); [lia|simpl; lia]).
  assert (zlen (fmt_d 3 (ia_channel info)) = 3) as H5 by (apply (zlen_fmt_d 3); [lia|simpl; lia]).
  unfold ifall_tail, ifall_payload, field. rewrite H3, H4, H5. split; [|split].
  - rewrite <- !app_assoc. reflexivity.
  - rewrite !zlen_app, H3, H4, H5. reflexivity.
  - rewrite !not_elem_of_app. repeat split; try apply fmt_d_no0; by_check.
Qed.

Lemma strlen_padded (t : list Z) m : 0 ∉ t -> 0 < m -> strlen (t ++ zeros m) = Ok (zlen t).
Proof.
  intros Ht Hm. replace (zeros m) with (0 :: zeros (m - 1)); [now apply strlen_app|].
  unfold zeros. replace (Z.to_nat m) with (S (Z.to_nat (m - 1))) by lia. done.
Qed.

(** The three digits of the payload length replace the zeros of the head. *)
Lemma patch_length (h p : list Z) m (w : world) (k : list Z -> M world Z) :
  zlen h = 7 -> 0 ∉ h -> 0 ∉ p -> zlen p < 1000 -> 1 < m ->
  let buf := (h ++ str "000" ++ p) ++ zeros m in
  (n <-- lift (strlen buf) ;; tmp <-- lift (sprintf_at 0 (fmt_d 3 (n - 10)) (zeros 4)) ;;
   len3 <-- lift (slice 0 3 tmp) ;; buf <-- lift (splice 7 len3 buf) ;;
   buf <-- lift (sprintf_append (str ";") buf) ;; k buf) w
  = k ((h ++ fmt_d 3 (zlen p) ++ p ++ str ";") ++ zeros (m - 1)) w.
Proof.
  intros Hh Hh0 Hp0 Hp Hm buf. pose proof (zlen_nonneg p).
  assert (zlen (fmt_d 3 (zlen p)) = 3) as H3 by (apply (zlen_fmt_d 3); [lia|simpl; lia]).
  assert (strlen buf = Ok (zlen p + 10)) as E1.
  { unfold buf. rewrite strlen_padded; [| |lia].
    - rewrite !zlen_app, Hh. change (zlen (str "000")) with 3. f_equal. lia.
    - rewrite !not_elem_of_app. repeat split; [done|by_check|done]. }
  assert (splice 7 (fmt_d 3 (zlen p)) buf = Ok ((h ++ fmt_d 3 (zlen p) ++ p) ++ zeros m)) as E2.
  { unfold buf. rewrite <- !app_assoc. apply splice_mid; [done|].
    apply Nat2Z.inj. exact H3. }
  unfold bind, lift. rewrite E1. replace (zlen p + 10 - 10) with (zlen p) by lia.
  rewrite sprintf_fresh, H3 by lia.
  assert (slice 0 3 (fmt_d 3 (zlen p) ++ zeros (4 - 3)) = Ok (fmt_d 3 (zlen p))) as ->
    by (apply (slice_mid [] (fmt_d 3 (zlen p))); [done|congruence]).
  rewrite E2.
  rewrite sprintf_append_padded; [| |change (zlen (str ";")) with 1; lia].
  - rewrite <- !app_assoc. done.
  - rewrite !not_elem_of_app. repeat split; try done. apply fmt_d_no0.
Qed.

(** The announcement of the networks of an AP.  For at most 8 networks the
    message fits its array, its length field is the length of its payload (it
    is patched in after the payload is printed), and each name is preceded by
    its length; the band in it follows from the channel. *)
Theorem interface_all_frame (w : world) (ss : list (list Z))
    (Hi : idf_ok w) (Hok : ifall_ok (interface_all_info (fn w)) ss) :
  let text := frame (fmt_d 4 (FNII_IDF w)) 111 (ifall_payload (interface_all_info (fn w)) ss) in
  fnii_send_msg_inerface_all w
  = Ok (status_of (send_answer (with_mode w) text), after_send (with_mode w) text).
Proof.
  destruct (ifall_tail_spec _ _ Hok) as (Ep & Hz & H0).
  destruct Hok as (_ & _ & Hn & H8 & HF & rest & Hrest).
  set (info := interface_all_info (fn w)) in *. intros text.
  pose proof (zlen_fields ss HF) as Hf. set (h := fmt_d 4 (FNII_IDF w) ++ str "111").
  assert (zlen h = 7) as Hh by (unfold h; rewrite zlen_app, zlen_idf by done; reflexivity).
  assert (0 ∉ h) as Hh0 by (unfold h; rewrite not_elem_of_app; split; [apply fmt_d_no0|by_check]).
  set (p := ifall_payload info ss) in *.
  assert (zlen p = 12 + zlen (fields ss)) as Hp by (rewrite <- Ep, zlen_app; lia).
  assert (0 ∉ p) as Hp0 by (rewrite <- Ep, not_elem_of_app; split; [done|apply fields_no0]).
  assert (zlen (h ++ str "000" ++ ifall_tail info) = 22) as H22
    by (rewrite !zlen_app, Hh, Hz; reflexivity).
  unfold fnii_send_msg_inerface_all.
  rewrite (bind_Ok _ _ w w w) by done. rewrite (bind_Ok _ _ w tt (with_mode w)) by done.
  rewrite (bind_Ok _ _ _ (with_mode w) (with_mode w)) by done.
  rewrite (bind_Ok _ _ (with_mode w) ((h ++ str "000" ++ ifall_tail info) ++ zeros 338) (with_mode w)).
  2: { assert (sprintf_at 0 (h ++ str "000" ++ ifall_tail info) (zeros MSG_INTERFACE_ALL)
               = Ok ((h ++ str "000" ++ ifall_tail info) ++ zeros 338)) as E1.
       { rewrite sprintf_fresh by (rewrite H22; unfold MSG_INTERFACE_ALL; lia). rewrite H22. done. }
       unfold lift. match goal with |- match sprintf_at 0 ?t _ with _ => _ end = _ =>
         replace t with (h ++ str "000" ++ ifall_tail info)
           by (unfold h, ifall_tail; rewrite <- !app_assoc; reflexivity) end.
       now rewrite E1. }
  change (ia_ssid_num _) with (ia_ssid_num info). change (ia_ssid _) with (ia_ssid info).
  rewrite (bind_Ok _ _ (with_mode w) ((h ++ str "000" ++ p) ++ zeros (338 - zlen (fields ss))) (with_mode w)).
  2: { unfold lift. rewrite Hn, Hrest. unfold zlen at 1. rewrite Nat2Z.id.
       rewrite (append_ssids_run [] ss rest); [|rewrite !not_elem_of_app; repeat split; try done; by_check
         |done|lia].
       rewrite <- Ep, <- !app_assoc. reflexivity. }
  rewrite patch_length by (try done; lia).
  assert (0 ∉ h ++ fmt_d 3 (zlen p) ++ p ++ str ";") as Ht0.
  { rewrite !not_elem_of_app. repeat split; try done; [apply fmt_d_no0|by_check]. }
  assert (h ++ fmt_d 3 (zlen p) ++ p ++ str ";" = text) as Et
    by (unfold text, frame, h; rewrite <- !app_assoc; reflexivity).
  rewrite Et in Ht0 |- *.
  rewrite (bind_Ok _ _ (with_mode w) (zlen text) (with_mode w))
    by (unfold lift; now rewrite strlen_padded by (try done; lia)).
  apply send_buf_run. apply (slice_mid [] text); [done|done].
Qed.

(** ** Probe reports *)

Definition probe_marked (p : probe_info_s) (w : world) : world :=
  upd_fn (set_fnii_probe_count 1) (upd_fn (set_fnii_probe_mac (pb_mac p)) w).

Definition throttled (w : world) (p : probe_info_s) : Prop :=
  fnii_probe_mac (fn w) = pb_mac p /\ fnii_probe_count (fn w) < 20.

Definition mode_of_channel (c : Z) : Z := if bool_decide (c >= 36) then 1 else 0.

Definition probe_payload (p : probe_info_s) (au : Z) : list Z :=
  let c := channel_of_freq (pb_channel p) in
  field (fmt_mac (pb_mac p)) ++ field (fmt_d 3 (pb_rssi p)) ++ field (fmt_d 3 au)
  ++ field (fmt_d 3 c) ++ field (fmt_d 0 (mode_of_channel c)).

Lemma zlen_fmt_d3 z : -99 <= z <= 999 -> zlen (fmt_d 3 z) = 3.
Proof.
  intros Hz. unfold zlen. destruct (Z.lt_ge_cases z 0).
  - rewrite fmt_d_neg_length by (simpl; lia). done.
  - rewrite fmt_d_nonneg_length by (simpl; lia). done.
Qed.

Lemma mode_of_channel_cases c : mode_of_channel c = 0 \/ mode_of_channel c = 1.
Proof. unfold mode_of_channel. case_bool_decide; auto. Qed.

Lemma memeq_mac (a b : list Z) : length a = 6%nat -> length b = 6%nat ->
  memeq a b ETH_ALEN = Ok (bool_decide (a = b)).
Proof.
  intros Ha Hb. unfold memeq, slice, ETH_ALEN, zlen. rewrite Ha, Hb.
  rewrite (bool_decide_eq_true_2 (0 <= 0 /\ _)) by lia. unfold res_bind. rewrite !drop_0.
  change (Z.to_nat 6) with 6%nat. rewrite !take_ge by lia. done.
Qed.

(** Whether a value prints in the three characters that its field has. *)
Definition three (z : Z) : Prop := zlen (fmt_d 3 z) = 3.

Lemma fmt_d3_wide z : 3 <= zlen (fmt_d 3 z).
Proof. unfold zlen, fmt_d. rewrite !length_app, length_replicate. lia. Qed.

Lemma probe_text_length idf p au : zlen (fmt_d 4 idf) = 4 -> mac_ok (pb_mac p) ->
  0 <= channel_of_freq (pb_channel p) <= 200 ->
  zlen (probe_text idf (pb_mac p) (pb_rssi p) au (channel_of_freq (pb_channel p))
    (mode_of_channel (channel_of_freq (pb_channel p))))
  = 37 + zlen (fmt_d 3 (pb_rssi p)) + zlen (fmt_d 3 au).
Proof.
  intros H4 Hm Hc. set (c := channel_of_freq (pb_channel p)) in *.
  assert (zlen (fmt_d 0 (mode_of_channel c)) = 1) as H1
    by (destruct (mode_of_channel_cases c) as [-> | ->]; reflexivity).
  unfold probe_text. rewrite !zlen_app, H4, zlen_mac, (zlen_fmt_d3 c), H1 by (done || lia).
  change (zlen (str "10703212")) with 8. change (zlen (str "03")) with 2. change (zlen (str "01")) with 2.
  change (zlen (str ";")) with 1. lia.
Qed.

Lemma probe_text_frame idf p au :
  mac_ok (pb_mac p) -> three (pb_rssi p) -> three au ->
  0 <= channel_of_freq (pb_channel p) <= 200 ->
  probe_text idf (pb_mac p) (pb_rssi p) au (channel_of_freq (pb_channel p))
    (mode_of_channel (channel_of_freq (pb_channel p)))
  = frame (fmt_d 4 idf) 107 (probe_payload p au).
Proof.
  unfold three. intros Hm Hr Ha Hc. set (c := channel_of_freq (pb_channel p)) in *.
  assert (zlen (fmt_d 0 (mode_of_channel c)) = 1) as H1
    by (destruct (mode_of_channel_cases c) as [-> | ->]; reflexivity).
  assert (zlen (probe_payload p au) = 32) as Hp.
  { unfold probe_payload. fold c. rewrite !zlen_app, !zlen_field;
      rewrite ?H1, ?zlen_mac, ?Hr, ?Ha, ?zlen_fmt_d3 by (done || lia); lia. }
  unfold frame. rewrite Hp. unfold probe_payload, field, probe_text. fold c.
  rewrite H1, zlen_mac, Hr, Ha, !zlen_fmt_d3 by (done || lia). rewrite <- !app_assoc. reflexivity.
Qed.

(** The report of a probe request, up to the test of the channel. *)
Definition probe_ready (w : world) (p : probe_info_s) : Prop :=
  idf_ok w /\ mac_ok (pb_mac p) /\ length (fnii_probe_mac (fn w)) = 6%nat.

Lemma probe_throttled (w : world) p : probe_ready w p -> throttled w p ->
  fnii_send_msg_probe_info p w
  = Ok (FNII_RET_OK, upd_fn (set_fnii_probe_count (fnii_probe_count (fn w) + 1)) w).
Proof.
  intros (_ & [L6 _] & Hpm) [Hs Hc]. unfold fnii_send_msg_probe_info. rewrite (bind_Ok _ _ w w w) by done.
  rewrite (bind_Ok _ _ w true w).
  - by rewrite bool_decide_eq_true_2.
  - unfold lift. rewrite memeq_mac by done. by rewrite bool_decide_eq_true_2.
Qed.

Lemma probe_fresh (w : world) p : probe_ready w p -> ~ throttled w p ->
  let c := channel_of_freq (pb_channel p) in
  fnii_send_msg_probe_info p w
  = (if bool_decide (c > 200 \/ c < 0) then ret FNII_RET_OK
     else au <-- get_ap_au (mode_of_channel c) ;;
          w <-- get ;;
          buf <-- lift (sprintf_at 0 (probe_text (FNII_IDF w) (pb_mac p) (pb_rssi p) au c (mode_of_channel c))
                          (zeros (MSG_PROBE_INFO_LEN + 2))) ;;
          send_buf buf (MSG_PROBE_INFO_LEN + 1)) (probe_marked p w).
Proof.
  intros (_ & [L6 _] & Hpm) Hnew c. unfold fnii_send_msg_probe_info.
  rewrite (bind_Ok _ _ w w w) by done.
  rewrite (bind_Ok _ _ w (bool_decide (fnii_probe_mac (fn w) = pb_mac p)) w)
    by (unfold lift; now rewrite memeq_mac).
  replace (bool_decide _ && bool_decide _) with false
    by (symmetry; apply andb_false_iff; rewrite !bool_decide_eq_false; unfold throttled in Hnew;
        destruct (decide (fnii_probe_mac (fn w) = pb_mac p)); [right|left]; tauto).
  assert (slice 0 ETH_ALEN (pb_mac p) = Ok (pb_mac p)) as Hs.
  { rewrite <- (app_nil_r (pb_mac p)) at 1. apply (slice_mid [] _ []); [done|].
    unfold zlen, ETH_ALEN. lia. }
  rewrite (bind_Ok _ _ w (pb_mac p) w) by (unfold lift; now rewrite Hs). reflexivity.
Qed.

(** On a channel that is known: the frame, or an overflow when the signal or the
    utilisation needs more than three characters. *)
Lemma probe_printed (w : world) p au w2 : probe_ready w p -> ~ throttled w p ->
  0 <= channel_of_freq (pb_channel p) <= 200 ->
  get_ap_au (mode_of_channel (channel_of_freq (pb_channel p))) (probe_marked p w) = Ok (au, w2) ->
  let text := frame (fmt_d 4 (FNII_IDF w)) 107 (probe_payload p au) in
  fnii_send_msg_probe_info p w
  = (if bool_decide (three (pb_rssi p) /\ three au)
     then Ok (status_of (send_answer w2 text), after_send w2 text) else Ub OutOfBounds) /\
  (three (pb_rssi p) -> three au -> zlen text = 43) /\ fn w2 = fn (probe_marked p w).
Proof.
  intros Hp Hnew Hc Hau text. assert (fn w2 = fn (probe_marked p w)) as Hfn
    by (rewrite (get_ap_au_env _ _ _ _ Hau); done).
  rewrite (probe_fresh w p Hp Hnew), bool_decide_eq_false_2 by lia. destruct Hp as (Hi & Hm & _).
  pose proof (probe_text_length (FNII_IDF w) p au (zlen_idf w Hi) Hm Hc) as Hl.
  erewrite bind_Ok by exact Hau. rewrite (bind_Ok _ _ w2 w2 w2) by done.
  replace (FNII_IDF w2) with (FNII_IDF w) by (unfold FNII_IDF; now rewrite Hfn).
  split; [|split; [intros Hr Ha; unfold text; rewrite <- probe_text_frame, Hl by done; rewrite Hr, Ha; done|done]].
  case_bool_decide as H3.
  - destruct H3 as [Hr Ha]. rewrite probe_text_frame in * by done. fold text in Hl |- *. unfold three in *.
    apply print_send_exact; [rewrite Hl, Hr, Ha; done|]. unfold MSG_PROBE_INFO_LEN. lia.
  - apply bind_Ub. unfold lift, sprintf_at, splice.
    rewrite bool_decide_eq_false_2; [done|]. rewrite zlen_app, Hl. unfold three in H3.
    pose proof (fmt_d3_wide (pb_rssi p)). pose proof (fmt_d3_wide au).
    change (zlen (zeros (MSG_PROBE_INFO_LEN + 2))) with 44. change (zlen [0]) with 1. lia.
Qed.

(** C25: a probe request that is not throttled, on a channel the AP knows, is
    reported as one well-formed frame of type 107 with the station, the signal
    strength, the measured channel utilisation, the channel number computed
    from the frequency and the band; the station becomes the one that is
    throttled next. *)
Theorem probe_reported (w : world) (p : probe_info_s) (au : Z) (w2 : world)
    (Hi : idf_ok w) (Hm : mac_ok (pb_mac p)) (Hpm : length (fnii_probe_mac (fn w)) = 6%nat)
    (Hnew : ~ throttled w p)
    (Hc : 0 <= channel_of_freq (pb_channel p) <= 200)
    (Hau : get_ap_au (mode_of_channel (channel_of_freq (pb_channel p))) (probe_marked p w) = Ok (au, w2))
    (Hr : -99 <= pb_rssi p <= 999) (Ha : -99 <= au <= 999) :
  let text := frame (fmt_d 4 (FNII_IDF w)) 107 (probe_payload p au) in
  fnii_send_msg_probe_info p w = Ok (status_of (send_answer w2 text), after_send w2 text) /\
  fnii_probe_mac (fn w2) = pb_mac p /\ fnii_probe_count (fn w2) = 1 /\ zlen text = 43.
Proof.
  intros text. destruct (probe_printed w p au w2) as (E & Hl & Hfn); [done..|].
  apply zlen_fmt_d3 in Hr, Ha. rewrite E, bool_decide_eq_true_2 by done.
  split; [done|]. rewrite Hfn. by repeat split; apply Hl.
Qed.

(** [n] probe requests of one station in a row. *)
Fixpoint probes (n : nat) (p : probe_info_s) : M world unit :=
  match n with
  | O => ret tt
  | S n' => fnii_send_msg_probe_info p ;;; probes n' p
  end.

(** After a station has been reported, its next 19 probe requests cost one
    counter increment each: nothing is sent, surveyed or forgotten. *)
Theorem probe_throttle (w : world) (p : probe_info_s) (n : nat)
    (Hm : length (pb_mac p) = 6%nat) (Hsame : fnii_probe_mac (fn w) = pb_mac p)
    (Hn : fnii_probe_count (fn w) + Z.of_nat n <= 20) :
  probes n p w = Ok (tt, upd_fn (set_fnii_probe_count (fnii_probe_count (fn w) + Z.of_nat n)) w).
Proof.
  revert w Hsame Hn. induction n as [|n IH]; intros w Hsame Hn.
  - simpl. rewrite Z.add_0_r. unfold ret. do 2 f_equal. destruct w as [[] ? ? ? ?]. done.
  - simpl. rewrite (bind_Ok _ _ w FNII_RET_OK
      (upd_fn (set_fnii_probe_count (fnii_probe_count (fn w) + 1)) w)).
    + rewrite IH by (simpl; first [done|lia]). simpl.
      replace (fnii_probe_count (fn w) + 1 + Z.of_nat n) with (fnii_probe_count (fn w) + Z.of_nat (S n)) by lia.
      done.
    + unfold fnii_send_msg_probe_info. rewrite (bind_Ok _ _ w w w) by done.
      rewrite Hsame, (bind_Ok _ _ w true w); [|unfold lift; rewrite memeq_mac by done;
        now rewrite bool_decide_eq_true_2].
      rewrite (bool_decide_eq_true_2 (_ < _)) by lia. done.
Qed.

(** While the link is down, or when no object is given, nothing is sent
    and no identifier is used: only the announcements that precede the enabling
    of the link pass. *)
Theorem fnii_send_msg_refused (w : world) (ty : Z) (data : option msg_data)
    (H : ty < 100 \/ ty > FNII_MSG_MAX \/ data = None \/
         (fnii_socket_status (fn w) = SOCKET_STATUS_DISABLE /\ ty <> FNII_MSG_LOCAL_MAC /\
          ty <> FNII_MSG_INTERFACE_INFO /\ ty <> FNII_MSG_INTERFACE_NUM)) :
  fnii_send_msg ty data w = Ok (FNII_RET_ERR, w).
Proof.
  unfold fnii_send_msg, fnii_check_socket_status, bind, get, ret.
  case_bool_decide; [done|]. case_bool_decide; [done|].
  destruct H as [H|[H|[-> |H]]]; [lia|lia|done|tauto].
Qed.

(** ** The description of a network *)

Definition vif_payload (v : interface_info_s) : list Z :=
  field (fmt_mac (vi_mac v)) ++ field (fmt_d 2 (vi_channel v)) ++ field (cstr (vi_ssid v))
  ++ field (fmt_d 0 (mode_of_channel (vi_channel v))).

Definition vif_ok (v : interface_info_s) : Prop :=
  mac_ok (vi_mac v) /\ 0 <= vi_channel v < 100 /\ ssid_buf (vi_ssid v).

Definition vif_text (idf : Z) (v : interface_info_s) : list Z :=
  fmt_d 4 idf ++ str "108" ++ fmt_d 3 (zlen (cstr (vi_ssid v)) + 23) ++ str "12" ++ fmt_mac (vi_mac v)
  ++ str "02" ++ fmt_d 2 (vi_channel v) ++ fmt_d 2 (zlen (cstr (vi_ssid v))) ++ cstr (vi_ssid v)
  ++ str "01" ++ fmt_d 0 (mode_of_channel (vi_channel v)) ++ str ";".

Lemma vif_text_spec idf v : zlen (fmt_d 4 idf) = 4 -> vif_ok v ->
  vif_text idf v = frame (fmt_d 4 idf) 108 (vif_payload v) /\
  zlen (vif_text idf v) = 34 + zlen (cstr (vi_ssid v)) /\ 0 ∉ vif_text idf v.
Proof.
  intros H4 (Hm & Hc & Hs). pose proof (ssid_buf_cstr _ Hs) as Hn.
  assert (zlen (fmt_d 0 (mode_of_channel (vi_channel v))) = 1) as H1
    by (destruct (mode_of_channel_cases (vi_channel v)) as [-> | ->]; reflexivity).
  assert (zlen (fmt_d 2 (vi_channel v)) = 2) as H2 by (apply (zlen_fmt_d 2); [lia|simpl; lia]).
  assert (zlen (fmt_d 2 (zlen (cstr (vi_ssid v)))) = 2) as H5 by (apply (zlen_fmt_d 2); [lia|simpl; lia]).
  assert (zlen (vif_payload v) = zlen (cstr (vi_ssid v)) + 23) as Hp.
  { unfold vif_payload. rewrite !zlen_app, !zlen_field; rewrite ?H1, ?H2, ?zlen_mac by done; lia. }
  split; [|split].
  - unfold frame. rewrite Hp. unfold vif_payload, field, vif_text. rewrite H1, H2, zlen_mac by done.
    rewrite <- !app_assoc. reflexivity.
  - unfold vif_text. rewrite !zlen_app, H4, zlen_mac, H1, H2, H5, (zlen_fmt_d3 (_ + _)) by (done || lia).
    change (zlen (str "108")) with 3. change (zlen (str "12")) with 2. change (zlen (str "02")) with 2.
    change (zlen (str "01")) with 2. change (zlen (str ";")) with 1. lia.
  - unfold vif_text. rewrite !not_elem_of_app.
    repeat split; try apply fmt_d_no0; try apply cstr_no0; try by_check.
    apply chars_no0. eapply Forall_impl; [by apply fmt_mac_chars, Hm|]. simpl. lia.
Qed.

(** The text fits its 64 bytes when the name has at most 29. *)
Lemma send_vif (w : world) v : idf_ok w -> vif_ok v ->
  let text := frame (fmt_d 4 (FNII_IDF w)) 108 (vif_payload v) in
  fnii_send_msg_if_info v w
  = if bool_decide (zlen (cstr (vi_ssid v)) <= 29)
    then Ok (status_of (send_answer w text), after_send w text) else Ub OutOfBounds.
Proof.
  intros Hi Hv text. destruct (vif_text_spec (FNII_IDF w) v (zlen_idf w Hi) Hv) as (Et & Hl & H0).
  destruct Hv as (_ & _ & Hs). pose proof (ssid_buf_cstr _ Hs) as Hn. destruct Hs as [_ Hz].
  unfold fnii_send_msg_if_info.
  rewrite (bind_Ok _ _ w (zlen (cstr (vi_ssid v))) w) by (unfold lift; now rewrite strlen_cstr).
  cbv zeta. rewrite swrap_small by lia. rewrite (bind_Ok _ _ w w w) by done.
  fold (mode_of_channel (vi_channel v)). fold (vif_text (FNII_IDF w) v).
  case_bool_decide as H29.
  - unfold bind at 1, lift at 1. rewrite sprintf_fresh by lia. rewrite Et in *. fold text in Hl, H0 |- *.
    unfold bind, lift. rewrite strlen_padded by (done || lia).
    apply send_buf_run. apply (slice_mid [] text); done.
  - apply bind_Ub. unfold lift, sprintf_at, splice. rewrite bool_decide_eq_false_2; [done|].
    rewrite zlen_app, Hl. change (zlen (zeros 64)) with 64. change (zlen [0]) with 1. lia.
Qed.

(** ** What [fnii_send_msg] promises, for every type *)

(** The networks that the list of the networks names. *)
Definition networks (info : interface_all_info_s) : list (list Z) :=
  omap id (take (Z.to_nat (ia_ssid_num info)) (ia_ssid info)).

Lemma networks_ok info ss : ifall_ok info ss -> networks info = ss.
Proof.
  intros (_ & _ & Hn & _ & _ & rest & E). unfold networks. rewrite Hn, E. unfold zlen. rewrite Nat2Z.id.
  rewrite take_app_length' by now rewrite length_map. clear. induction ss as [|s ss IH]; [done|]. cbn. by f_equal.
Qed.

(** The objects that the code sends: those of [data_ok], the list of at most 8
    networks, the description of a network, a probe request. *)
Definition msg_ready (w : world) (msg_type : Z) (data : msg_data) : Prop :=
  match data with
  | DIfAll => msg_type = FNII_MSG_INTERFACE_NUM /\
              ifall_ok (interface_all_info (fn w)) (networks (interface_all_info (fn w)))
  | DIfInfo v => msg_type = FNII_MSG_INTERFACE_INFO /\ vif_ok v
  | DProbe p => msg_type = FNII_MSG_PROBE_INFO /\ probe_ready w p
  | _ => data_ok msg_type data
  end.

(** The frame that is to go out, if any, and the state in which it goes out.  The
    description of a network overflows its array when the name is longer than
    29 bytes, the report of a probe request when a value needs more than three
    characters. *)
Definition msg_plan (msg_type : Z) (data : msg_data) : M world (option (list Z)) :=
  w <-- get ;;
  let id := fmt_d 4 (FNII_IDF w) in
  match data with
  | DIfAll =>
      modify with_mode ;;;
      let info := interface_all_info (fn w) in
      ret (Some (frame id 111 (ifall_payload info (networks info))))
  | DIfInfo v =>
      if bool_decide (zlen (cstr (vi_ssid v)) <= 29) then ret (Some (frame id 108 (vif_payload v)))
      else fail OutOfBounds
  | DProbe p =>
      let c := channel_of_freq (pb_channel p) in
      if bool_decide (throttled w p) then
        modify (upd_fn (set_fnii_probe_count (fnii_probe_count (fn w) + 1))) ;;; ret None
      else
        modify (probe_marked p) ;;;
        if bool_decide (0 <= c <= 200) then
          au <-- get_ap_au (mode_of_channel c) ;;
          if bool_decide (three (pb_rssi p) /\ three au) then ret (Some (frame id 107 (probe_payload p au)))
          else fail OutOfBounds
        else ret None
  | DBeat => modify beat_sent ;;; ret (Some (wire w msg_type data))
  | _ => ret (Some (wire w msg_type data))
  end.

(** One [send] of the frame; the link is dropped when the kernel refuses it. *)
Definition deliver (text : list Z) : M world Z := fun w =>
  if bool_decide (send_answer w text < 0) then Ok (FNII_RET_ERR, dropped (after_send w text))
  else Ok (FNII_RET_OK, after_send w text).

(** What may pass while the link is disabled. *)
Definition before_link (msg_type : Z) : Prop :=
  msg_type = FNII_MSG_LOCAL_MAC \/ msg_type = FNII_MSG_INTERFACE_INFO \/ msg_type = FNII_MSG_INTERFACE_NUM.

(** The specification: refused while the link is disabled, else the next
    identifier, then the frame. *)
Definition msg_spec (msg_type : Z) (data : msg_data) : M world Z :=
  w <-- get ;;
  if bool_decide (fnii_socket_status (fn w) = SOCKET_STATUS_DISABLE /\ ~ before_link msg_type) then ret FNII_RET_ERR
  else
    modify bump_idf ;;;
    m <-- msg_plan msg_type data ;;
    match m with
    | Some text => deliver text
    | None => ret FNII_RET_OK
    end.

Lemma msg_ready_type w ty data : msg_ready w ty data -> 100 <= ty <= FNII_MSG_MAX.
Proof.
  destruct data; try apply data_ok_type; intros [-> _]; unfold FNII_MSG_MAX, FNII_MSG_INTERFACE_NUM,
    FNII_MSG_INTERFACE_INFO, FNII_MSG_PROBE_INFO; lia.
Qed.

Definition sent_as (m : option (list Z)) : M world Z := fun w =>
  match m with
  | Some text => Ok (status_of (send_answer w text), after_send w text)
  | None => Ok (FNII_RET_OK, w)
  end.

Lemma dispatch_probe (w : world) p : probe_ready w p ->
  fnii_send_msg_probe_info p w = (m <-- msg_plan FNII_MSG_PROBE_INFO (DProbe p) ;; sent_as m) w.
Proof.
  intros Hp. unfold msg_plan, bind, get. case_bool_decide as Ht; [by apply probe_throttled|].
  unfold modify, ret, sent_as. case_bool_decide as Hc.
  - destruct (get_ap_au _ _) as [[au w2]|u] eqn:E.
    + destruct (probe_printed w p au w2 Hp Ht Hc E) as (-> & _). by case_bool_decide.
    + rewrite (probe_fresh w p Hp Ht), bool_decide_eq_false_2 by lia. by rewrite (bind_Ub _ _ _ _ E).
  - rewrite (probe_fresh w p Hp Ht), bool_decide_eq_true_2 by lia. done.
Qed.

Lemma dispatch_plan (w : world) ty data : idf_ok w -> msg_ready w ty data ->
  send_dispatch ty data w = (m <-- msg_plan ty data ;; sent_as m) w.
Proof.
  intros Hi Hd.
  destruct data; try exact (dispatch_run w ty _ Hi Hd); destruct Hd as [-> Hd].
  - exact (interface_all_frame w _ Hi Hd).
  - etransitivity; [exact (send_vif w v Hi Hd)|]. unfold msg_plan, bind, get, sent_as. by case_bool_decide.
  - exact (dispatch_probe w p Hd).
Qed.

Lemma deliver_run m w :
  (r <-- sent_as m ;; if bool_decide (r <> FNII_RET_OK) then drop_link ;;; ret r else ret r) w
  = match m with Some text => deliver text w | None => ret FNII_RET_OK w end.
Proof.
  destruct m as [text|]; [|done]. unfold sent_as, deliver, bind at 1, status_of.
  by destruct (bool_decide (send_answer w text < 0)).
Qed.

Lemma bind_cong {A B} (m m' : M world A) (k : A -> M world B) w : m w = m' w -> bind m k w = bind m' k w.
Proof. intros E. unfold bind. by rewrite E. Qed.

Lemma msg_ready_bump w ty data : msg_ready w ty data -> msg_ready (bump_idf w) ty data.
Proof. destruct data; try done. intros (-> & Hi & H). split; [done|]. split; [by apply bump_idf_ok|done]. Qed.

Lemma msg_plan_idf ty data : keeps (fun w => fnii_msg_idf (fn w)) (msg_plan ty data).
Proof.
  unfold msg_plan. destruct data; keeps_tac idtac.
  intros v b v' E. by rewrite (get_ap_au_env _ _ _ _ E).
Qed.

Lemma msg_spec_idf ty data w r w' : idf_ok w -> msg_spec ty data w = Ok (r, w') -> idf_ok w'.
Proof.
  intros Hi. unfold msg_spec. rewrite (bind_Ok _ _ w w w) by done.
  case_bool_decide; [by intros [= _ <-]|]. rewrite (bind_Ok _ _ w tt (bump_idf w)) by done.
  intros E. apply bind_inv in E as (m & w1 & Em & E). apply (msg_plan_idf ty data) in Em.
  assert (idf_ok w1) as H1 by (unfold idf_ok; rewrite Em; by apply next_idf_ok).
  destruct m; [|by inversion E; subst]. unfold deliver in E. by case_bool_decide; inversion E; subst.
Qed.



(** ** Concrete runs *)

#[export] Instance s32_dec z : Decision (s32 z).
Proof. unfold s32. apply _. Defined.

#[export] Instance ssid_buf_dec s : Decision (ssid_buf s).
Proof. unfold ssid_buf. apply _. Defined.

Definition demo_ssids : list (list Z) := map (fun s => s ++ [0]) [pad32 [65; 65]; pad32 [66; 66; 66]].

Lemma interface_all_frame_witness :
  exists w', fnii_send_msg_inerface_all (demo_world (const_env 1)) = Ok (FNII_RET_OK, w') /\
  trace (wenv w') = [Send 5 (str "004111102102320303601102AA03BBB;")].
Proof.
  pose proof (interface_all_frame (demo_world (const_env 1)) demo_ssids) as H.
  eexists. split.
  - rewrite H.
    + reflexivity.
    + unfold idf_ok. by_check.
    + split; [by_check|]. split; [by_check|]. split; [reflexivity|]. split; [by_check|].
      split; [by_check|]. exists (replicate 6 None). reflexivity.
  - vm_compute. reflexivity.
Defined.

Definition demo_probe : probe_info_s := mkProbe (-45) 0 mac1 5180 0.

Lemma probe_reported_witness :
  exists w', fnii_send_msg_probe_info demo_probe (demo_world (demo_env demo_dump)) = Ok (FNII_RET_OK, w') /\
  last (trace (wenv w')) = Some (Send 5 (str "00411070321" ++ str "2b09fba414f1303-450303003036011;")).
Proof.
  destruct (get_ap_au 1 (probe_marked demo_probe (demo_world (demo_env demo_dump)))) as [[au w2]|u] eqn:E;
    [|exfalso; vm_compute in E; discriminate].
  assert (au = 30) as -> by (vm_compute in E; congruence).
  destruct (probe_reported (demo_world (demo_env demo_dump)) demo_probe 30 w2) as [H _].
  - unfold idf_ok. by_check.
  - by_check.
  - reflexivity.
  - intros [H _]. vm_compute in H. discriminate.
  - by_check.
  - exact E.
  - by_check.
  - by_check.
  - rewrite H. assert (w2 = snd (match get_ap_au 1 (probe_marked demo_probe
      (demo_world (demo_env demo_dump))) with Ok p => p | Ub _ => (0, w2) end)) as -> by now rewrite E.
    eexists. split; [vm_compute; reflexivity|]. vm_compute. reflexivity.
Defined.

(** A report of a station's traffic, a throttled probe request, and the
    description of a network whose name has 30 bytes. *)
Definition demo_vif : interface_info_s := mkIfInfo mac1 36 (replicate 30 65 ++ [0; 0; 0]) 0.


Lemma probe_throttle_witness :
  let w := probe_marked demo_probe (demo_world (const_env 0)) in
  probes 19 demo_probe w = Ok (tt, upd_fn (set_fnii_probe_count 20) w).
Proof. apply (probe_throttle (probe_marked demo_probe (demo_world (const_env 0))) demo_probe 19); by_check. Defined.

Lemma fnii_send_msg_refused_witness :
  let w := upd_fn (set_fnii_socket_status 0) (demo_world (const_env 0)) in
  fnii_send_msg FNII_MSG_HEART_BEAT (Some DBeat) w = Ok (FNII_RET_ERR, w).
Proof.
  apply (fnii_send_msg_refused (upd_fn (set_fnii_socket_status 0) (demo_world (const_env 0)))).
  do 3 right. by_check.
Defined.
