(* ===== verification/Elements.v ===== *)
(** * Information elements of 802.11 frames: [ieee802_11_common.c]

    A management frame ends in elements: an identifier, a length and that many
    bytes.  [ieee802_11_parse_elems] finds the elements that hostapd knows; a
    member of [struct ieee802_11_elems] is a pointer into the frame, modelled by
    the rest of the frame from there on, and a length. *)

From stdpp Require Import base list numbers.
From Stdlib Require Import ZArith Lia.
From S2P Require Import Prelude.
Local Open Scope Z_scope.

(** The members of [struct ieee802_11_elems]. *)
Inductive elem : Type :=
| SSID | SUPP_RATES | DS_PARAMS | CHALLENGE | ERP_INFO | EXT_SUPP_RATES | WPA_IE | RSN_IE | WMM | WMM_TSPEC | WPS_IE
| SUPP_CHANNELS | MDIE | FTIE | TIMEOUT_INT | HT_CAPABILITIES | HT_OPERATION | MESH_CONFIG | MESH_ID | PEER_MGMT
| VHT_CAPABILITIES | VHT_OPERATION | VHT_OPMODE_NOTIF | VENDOR_HT_CAP | VENDOR_VHT | P2P | WFD | LINK_ID | INTERWORKING
| QOS_MAP_SET | HS20 | EXT_CAPAB | BSS_MAX_IDLE_PERIOD | SSID_LIST | OSEN | AMPE | MIC.

#[export] Instance elem_eq_dec : EqDecision elem.
Proof. solve_decision. Defined.

Definition elems : Type := elem -> option (list Z * Z).
Definition no_elems : elems := fun _ => None.
Definition set_elem (x : elem) (pos : list Z) (elen : Z) (e : elems) : elems :=
  fun y => if decide (y = x) then Some (pos, elen) else e y.

Inductive ParseRes : Type := ParseOK | ParseUnknown | ParseFailed.

#[export] Instance ParseRes_eq_dec : EqDecision ParseRes.
Proof. solve_decision. Defined.

(** What the switches make of an element: it is stored in a member, known and
    left aside, or unknown. *)
Inductive verdict : Type := Store (x : elem) | Skip | Unknown.

Definition WLAN_EID_SSID : Z := 0.
Definition WLAN_EID_SUPP_RATES : Z := 1.
Definition WLAN_EID_DS_PARAMS : Z := 3.
Definition WLAN_EID_SSID_LIST : Z := 84.
Definition WLAN_EID_MIC : Z := 140.
Definition WLAN_EID_VENDOR_SPECIFIC : Z := 221.

Definition OUI_MICROSOFT : Z := 0x0050f2.
Definition OUI_WFA : Z := 0x506f9a.
Definition OUI_BROADCOM : Z := 0x00904c.

Definition WPA_GET_BE24 (a : list Z) : res Z :=
  let! x := rd a 0 in let! y := rd a 1 in let! z := rd a 2 in
  Ok (Z.lor (Z.lor (Z.shiftl x 16) (Z.shiftl y 8)) z).

(** [ieee802_11_parse_vendor_specific]: [Unknown] where it returns -1. *)
Definition ieee802_11_parse_vendor_specific (pos : list Z) (elen : Z) : res verdict :=
  if bool_decide (elen < 4) then Ok Unknown
  else
    let! oui := WPA_GET_BE24 pos in
    let! ty := rd pos 3 in
    if bool_decide (oui = OUI_MICROSOFT) then
      match ty with
      | 1 => Ok (Store WPA_IE)
      | 2 =>
          if bool_decide (elen < 5) then Ok Unknown
          else
            let! sub := rd pos 4 in
            Ok match sub with 0 | 1 => Store WMM | 2 => Store WMM_TSPEC | _ => Unknown end
      | 4 => Ok (Store WPS_IE)
      | _ => Ok Unknown
      end
    else if bool_decide (oui = OUI_WFA) then
      Ok match ty with 9 => Store P2P | 10 => Store WFD | 16 => Store HS20 | 18 => Store OSEN | _ => Unknown end
    else if bool_decide (oui = OUI_BROADCOM) then
      match ty with
      | 0x33 => Ok (Store VENDOR_HT_CAP)
      | 4 =>
          if bool_decide (elen > 4) then
            let! sub := rd pos 4 in
            Ok (if bool_decide (sub = 8 \/ sub = 0) then Store VENDOR_VHT else Unknown)
          else Ok Unknown
      | _ => Ok Unknown
      end
    else Ok Unknown.

(** The switch over the identifier. *)
Definition classify (id elen : Z) (pos : list Z) : res verdict :=
  match id with
  | 0 => Ok (Store SSID) | 1 => Ok (Store SUPP_RATES) | 3 => Ok (Store DS_PARAMS)
  | 4 | 5 => Ok Skip
  | 16 => Ok (Store CHALLENGE) | 42 => Ok (Store ERP_INFO) | 50 => Ok (Store EXT_SUPP_RATES)
  | 221 => ieee802_11_parse_vendor_specific pos elen
  | 48 => Ok (Store RSN_IE)
  | 33 => Ok Skip
  | 36 => Ok (Store SUPP_CHANNELS) | 54 => Ok (Store MDIE) | 55 => Ok (Store FTIE) | 56 => Ok (Store TIMEOUT_INT)
  | 45 => Ok (Store HT_CAPABILITIES) | 61 => Ok (Store HT_OPERATION)
  | 113 => Ok (Store MESH_CONFIG) | 114 => Ok (Store MESH_ID) | 117 => Ok (Store PEER_MGMT)
  | 191 => Ok (Store VHT_CAPABILITIES) | 192 => Ok (Store VHT_OPERATION)
  | 199 => Ok (if bool_decide (elen <> 1) then Skip else Store VHT_OPMODE_NOTIF)
  | 101 => Ok (if bool_decide (elen < 18) then Skip else Store LINK_ID)
  | 107 => Ok (Store INTERWORKING)
  | 110 => Ok (if bool_decide (elen < 16) then Skip else Store QOS_MAP_SET)
  | 127 => Ok (Store EXT_CAPAB)
  | 90 => Ok (if bool_decide (elen < 3) then Skip else Store BSS_MAX_IDLE_PERIOD)
  | 84 => Ok (Store SSID_LIST) | 139 => Ok (Store AMPE) | 140 => Ok (Store MIC)
  | _ => Ok Unknown
  end.

(** The loop.  [fuel] bounds the number of elements; each has at least 2 bytes. *)
Fixpoint parse_loop (fuel : nat) (pos : list Z) (left : Z) (e : elems) (unknown : bool) : res (ParseRes * elems) :=
  if bool_decide (left < 2) then
    Ok (if bool_decide (left <> 0) then ParseFailed else if unknown then ParseUnknown else ParseOK, e)
  else
    match fuel with
    | O => Ub OutOfFuel
    | S f =>
        let! id := rd pos 0 in
        let! elen := rd pos 1 in
        let pos := drop 2 pos in
        let left := left - 2 in
        if bool_decide (elen > left) then Ok (ParseFailed, e)
        else
          let! v := classify id elen pos in
          let e := match v with Store x => set_elem x pos elen e | _ => e end in
          let left := if bool_decide (id = WLAN_EID_MIC) then elen else left in
          parse_loop f (drop (Z.to_nat elen) pos) (left - elen) e
            (match v with Unknown => true | _ => unknown end)
    end.

Definition ieee802_11_parse_elems (start : list Z) (len : Z) : res (ParseRes * elems) :=
  parse_loop (Z.to_nat len) start len no_elems false.

(** ** What a sequence of elements is *)

(** An element, and the bytes of a sequence of elements. *)
Definition ie : Type := Z * list Z.
Definition ie_bytes (i : ie) : list Z := fst i :: zlen (snd i) :: snd i.
Definition ies_bytes (l : list ie) : list Z := concat (map ie_bytes l).

Definition ie_ok (i : ie) : Prop := u8 (fst i) /\ fst i <> WLAN_EID_MIC /\ Forall u8 (snd i) /\ zlen (snd i) <= 255.

(** What an element on its own is. *)
Definition verdict_of (i : ie) : verdict :=
  match classify (fst i) (zlen (snd i)) (snd i) with Ok v => v | Ub _ => Unknown end.

(** The last element of a sequence that goes into the member [x]. *)
Fixpoint last_of (x : elem) (l : list ie) : option (list Z) :=
  match l with
  | [] => None
  | i :: l' =>
      match last_of x l' with
      | Some d => Some d
      | None => match verdict_of i with Store y => if decide (x = y) then Some (snd i) else None | _ => None end
      end
  end.

Definition has_unknown (l : list ie) : bool :=
  existsb (fun i => match verdict_of i with Unknown => true | _ => false end) l.

(** The bytes of a member. *)
Definition elem_bytes (e : elems) (x : elem) : option (list Z) :=
  match e x with Some (p, n) => Some (take (Z.to_nat n) p) | None => None end.

(** ** The parser *)

(** An element is judged by its own bytes. *)
Lemma vendor_own d r : ieee802_11_parse_vendor_specific (d ++ r) (zlen d) = ieee802_11_parse_vendor_specific d (zlen d) /\
  exists v, ieee802_11_parse_vendor_specific d (zlen d) = Ok v.
Proof.
  unfold ieee802_11_parse_vendor_specific.
  destruct d as [|a [|b [|c [|t d]]]]; try (split; [reflexivity|eexists; reflexivity]).
  rewrite bool_decide_eq_false_2 by (unfold zlen; simpl; lia).
  change (WPA_GET_BE24 ((a :: b :: c :: t :: d) ++ r)) with (WPA_GET_BE24 (a :: b :: c :: t :: d)).
  change (rd ((a :: b :: c :: t :: d) ++ r) 3) with (rd (a :: b :: c :: t :: d) 3).
  cbn [res_bind WPA_GET_BE24 rd bool_decide]. change (rd (a :: b :: c :: t :: d) 3) with (Ok (A := Z) t). cbn [res_bind].
  change (WPA_GET_BE24 (a :: b :: c :: t :: d)) with (Ok (A := Z) (Z.lor (Z.lor (Z.shiftl a 16) (Z.shiftl b 8)) c)). cbn [res_bind].
  destruct d as [|s d].
  - change (bool_decide (zlen [a; b; c; t] < 5)) with true. change (bool_decide (zlen [a; b; c; t] > 4)) with false.
    repeat case_bool_decide; repeat case_match; (split; [reflexivity|eexists; reflexivity]).
  - change (rd ((a :: b :: c :: t :: s :: d) ++ r) 4) with (Ok (A := Z) s).
    change (rd (a :: b :: c :: t :: s :: d) 4) with (Ok (A := Z) s). cbn [res_bind].
    split; [done|]. repeat case_bool_decide; repeat case_match; eexists; reflexivity.
Qed.

Lemma classify_own id d r : classify id (zlen d) (d ++ r) = Ok (verdict_of (id, d)).
Proof.
  destruct (vendor_own d r) as [E [v Ev]]. unfold verdict_of. cbn [fst snd].
  assert (classify id (zlen d) (d ++ r) = classify id (zlen d) d /\ exists v, classify id (zlen d) d = Ok v) as [-> [? ->]]; [|done].
  unfold classify. rewrite E, Ev. repeat case_match; (split; [reflexivity|eexists; reflexivity]).
Qed.

Lemma ies_cons i l : ies_bytes (i :: l) = fst i :: zlen (snd i) :: snd i ++ ies_bytes l.
Proof. reflexivity. Qed.

(** The verdict of an element, in the members. *)
Definition store (i : ie) (pos : list Z) (e : elems) : elems :=
  match verdict_of i with Store x => set_elem x pos (zlen (snd i)) e | _ => e end.

Lemma elem_store i r e x : elem_bytes (store i (snd i ++ r) e) x
  = match last_of x [i] with Some d => Some d | None => elem_bytes e x end.
Proof.
  unfold store, last_of, elem_bytes, set_elem. destruct (verdict_of i) as [y| |]; [|done|done].
  case_decide; [|done]. f_equal. unfold zlen. rewrite Nat2Z.id. apply take_app_length.
Qed.

Lemma last_of_cons x i l : last_of x (i :: l) = match last_of x l with Some d => Some d | None => last_of x [i] end.
Proof. reflexivity. Qed.

(** One turn of the loop, over a whole element. *)
Lemma parse_step f i r left e u : fst i <> WLAN_EID_MIC -> 0 <= left ->
  parse_loop (S f) (fst i :: zlen (snd i) :: snd i ++ r) (2 + zlen (snd i) + left) e u
  = parse_loop f r left (store i (snd i ++ r) e) (match verdict_of i with Unknown => true | _ => u end).
Proof.
  intros Hm Hl. destruct i as [id d]. cbn [fst snd] in *. pose proof (zlen_nonneg d). cbn [parse_loop].
  rewrite bool_decide_eq_false_2 by lia.
  change (rd (id :: zlen d :: d ++ r) 0) with (Ok (A := Z) id). change (rd (id :: zlen d :: d ++ r) 1) with (Ok (A := Z) (zlen d)).
  cbn [res_bind]. change (drop 2 (id :: zlen d :: d ++ r)) with (d ++ r).
  rewrite bool_decide_eq_false_2 by lia. rewrite classify_own. cbn [res_bind].
  rewrite bool_decide_eq_false_2 by done. replace (2 + zlen d + left - 2 - zlen d) with left by lia.
  unfold zlen at 1. rewrite Nat2Z.id, drop_app_length. reflexivity.
Qed.

Lemma parse_encoded l r : Forall ie_ok l -> forall fuel e u, (length l <= fuel)%nat ->
  exists e', parse_loop fuel (ies_bytes l ++ r) (zlen (ies_bytes l)) e u
    = Ok (if u || has_unknown l then ParseUnknown else ParseOK, e') /\
    forall x, elem_bytes e' x = match last_of x l with Some d => Some d | None => elem_bytes e x end.
Proof.
  induction 1 as [|i l Hi Hl IH]; intros fuel e u Hf.
  - exists e. split; [|done]. destruct fuel, u; reflexivity.
  - destruct fuel as [|f]; [simpl in Hf; lia|]. rewrite ies_cons.
    replace (zlen (fst i :: zlen (snd i) :: snd i ++ ies_bytes l)) with (2 + zlen (snd i) + zlen (ies_bytes l))
      by (rewrite !zlen_cons, zlen_app; lia).
    rewrite <- !app_comm_cons, <- app_assoc. rewrite parse_step by (apply Hi || apply zlen_nonneg).
    destruct (IH f (store i (snd i ++ ies_bytes l ++ r) e) (match verdict_of i with Unknown => true | _ => u end)) as (e' & E & Hx);
      [simpl in Hf; lia|]. exists e'. split.
    + rewrite E. unfold has_unknown. cbn [existsb]. destruct (verdict_of i), u; reflexivity.
    + intros x. rewrite Hx, last_of_cons. destruct (last_of x l); [done|]. rewrite elem_store. done.
Qed.

(** What the parser makes of any bytes. *)
Record parsed (frame : list Z) (left : Z) (e : elems) (r : ParseRes) (e' : elems) : Prop := {
  pa_whole : r <> ParseFailed -> exists l rest, take (Z.to_nat left) frame = ies_bytes l ++ rest /\
               (rest = [] \/ exists d l', l = l' ++ [(WLAN_EID_MIC, d)]);
  pa_inside : forall x p n, e' x = Some (p, n) -> e x = Some (p, n) \/
               (0 <= n <= 255 /\ n <= zlen p /\ p `suffix_of` frame) }.

Lemma verdict_store i pos e x p n : store i pos e x = Some (p, n) -> e x = Some (p, n) \/ (p = pos /\ n = zlen (snd i)).
Proof. unfold store, set_elem. destruct (verdict_of i); [|auto..]. case_decide; [|auto]. intros [= <- <-]. auto. Qed.

Lemma parse_any fuel : forall pos left e u, Forall u8 pos -> 0 <= left <= zlen pos -> left <= Z.of_nat fuel ->
  exists r e', parse_loop fuel pos left e u = Ok (r, e') /\ parsed pos left e r e'.
Proof.
  induction fuel as [|f IH]; intros pos left e u Hb Hl Hf.
  - assert (left = 0) as -> by lia. exists (if u then ParseUnknown else ParseOK), e. split; [done|].
    split; [|auto]. intros _. exists [], []. split; [|auto]. reflexivity.
  - cbn [parse_loop]. case_bool_decide as E2.
    { eexists _, e. split; [reflexivity|]. split; [|auto]. intros Hr. exists [], []. split; [|auto].
      case_bool_decide; [done|]. replace left with 0 by lia. reflexivity. }
    destruct pos as [|id [|elen rest]]; [unfold zlen in Hl; simpl in Hl; lia..|].
    change (rd (id :: elen :: rest) 0) with (Ok (A := Z) id). change (rd (id :: elen :: rest) 1) with (Ok (A := Z) elen).
    cbn [res_bind]. change (drop 2 (id :: elen :: rest)) with rest. rewrite !zlen_cons in Hl.
    apply Forall_cons_1 in Hb as [Hid Hb]. apply Forall_cons_1 in Hb as [Hel Hb]. unfold u8 in Hel.
    case_bool_decide as Ef; [eexists ParseFailed, e; split; [done|]; split; [done|auto]|].
    set (d := take (Z.to_nat elen) rest). set (r := drop (Z.to_nat elen) rest).
    assert (rest = d ++ r) as Er by (symmetry; apply take_drop). assert (zlen d = elen) as Ed.
    { unfold d, zlen. rewrite length_take. unfold zlen in Hl. lia. }
    pose proof (classify_own id d r) as Hc. rewrite Ed, <- Er in Hc. rewrite Hc. cbn [res_bind].
    set (left' := (if bool_decide (id = WLAN_EID_MIC) then elen else left - 2) - elen).
    assert (0 <= left' <= zlen r) as Hr.
    { unfold left'. assert (zlen rest = elen + zlen r) as Hz by (rewrite Er, zlen_app; lia). case_bool_decide; lia. }
    change (match verdict_of (id, d) with Store x => set_elem x rest elen e | _ => e end) with
      (match verdict_of (id, d) with Store x => set_elem x rest elen e | _ => e end).
    replace (match verdict_of (id, d) with Store x => set_elem x rest elen e | _ => e end) with (store (id, d) rest e)
      by (unfold store; cbn [snd]; now rewrite Ed).
    destruct (IH r left' (store (id, d) rest e) (match verdict_of (id, d) with Unknown => true | _ => u end)) as (res & e' & E & P).
    { rewrite Er, Forall_app in Hb. apply Hb. } { done. } { unfold left'. case_bool_decide; lia. }
    exists res, e'. split; [exact E|]. split.
    + intros Hne. destruct (pa_whole _ _ _ _ _ P Hne) as (l & rs & El & Hm).
      assert (take (Z.to_nat left) (id :: elen :: rest) = id :: elen :: d ++ take (Z.to_nat (left - 2 - elen)) r) as Et.
      { replace (Z.to_nat left) with (S (S (length d + Z.to_nat (left - 2 - elen)))) by (unfold zlen in Ed; lia).
        cbn [take]. do 2 f_equal. rewrite Er at 1. now rewrite take_app_add. }
      destruct (decide (id = WLAN_EID_MIC)) as [Hmic|Hmic].
      * exists [(id, d)], (take (Z.to_nat (left - 2 - elen)) r). split.
        -- rewrite Et. unfold ies_bytes, ie_bytes. simpl. rewrite Ed, app_nil_r. done.
        -- right. exists d, []. by rewrite Hmic.
      * unfold left' in El. rewrite bool_decide_eq_false_2 in El by done. exists ((id, d) :: l), rs. split.
        -- rewrite Et, El, ies_cons. cbn [fst snd]. rewrite Ed, <- !app_comm_cons, app_assoc. done.
        -- destruct Hm as [Hm|(d' & l' & ->)]; [by left|]. right. by exists d', ((id, d) :: l').
    + intros x p n Hx. apply (pa_inside _ _ _ _ _ P) in Hx as [Hx|(H1 & H2 & [k Hk])].
      * apply verdict_store in Hx as [Hx|[-> ->]]; [auto|]. right. cbn [snd]. rewrite Ed. split; [lia|]. split; [lia|].
        by exists [id; elen].
      * right. split; [done|]. split; [done|]. exists (id :: elen :: d ++ k). rewrite Er at 1. rewrite Hk.
        simpl. now rewrite <- app_assoc.
Qed.

(** Every member is in the buffer. *)
Definition elems_inside (e : elems) : Prop := forall x p n, e x = Some (p, n) -> (0 <= n <= zlen p /\ n <= 255) /\ Forall u8 p.

Lemma parsed_inside frame left r e : Forall u8 frame -> parsed frame left no_elems r e -> elems_inside e.
Proof.
  intros Hu Pa x p n Hx. destruct (pa_inside _ _ _ _ _ Pa _ _ _ Hx) as [Hy|(H1 & H2 & [k Hk])]; [discriminate|].
  split; [lia|]. rewrite Hk in Hu. now apply Forall_app in Hu as [_ Hu].
Qed.

(** A buffer that goes on behind the frame goes on behind every member. *)
Lemma parse_strict fuel : forall pos left e u r e', Forall u8 pos -> left < zlen pos ->
  (forall x p n, e x = Some (p, n) -> n < zlen p) -> parse_loop fuel pos left e u = Ok (r, e') -> forall x p n, e' x = Some (p, n) -> n < zlen p.
Proof.
  induction fuel as [|f IH]; intros pos left e u r e' Hu Hl He E; cbn [parse_loop] in E.
  - destruct (bool_decide (left < 2)); [|done]. injection E as _ <-. exact He.
  - case_bool_decide as E2; [injection E as _ <-; exact He|].
    destruct pos as [|id [|elen rest]]; [unfold zlen in Hl; simpl in Hl; lia..|].
    change (rd (id :: elen :: rest) 0) with (Ok (A := Z) id) in E. change (rd (id :: elen :: rest) 1) with (Ok (A := Z) elen) in E.
    cbn [res_bind] in E. change (drop 2 (id :: elen :: rest)) with rest in E. rewrite !zlen_cons in Hl.
    apply Forall_cons_1 in Hu as [_ Hu]. apply Forall_cons_1 in Hu as [Hel Hu]. unfold u8 in Hel.
    case_bool_decide as Ef; [injection E as _ <-; exact He|]. destruct (classify id elen rest) as [v|]; [|done]. cbn [res_bind] in E.
    refine (IH _ _ _ _ _ _ _ _ _ E); [now apply Forall_drop| |].
    + assert (zlen (drop (Z.to_nat elen) rest) = zlen rest - elen) as -> by (unfold zlen in *; rewrite length_drop; lia). case_bool_decide; lia.
    + intros x p n. destruct v as [y| |]; [|apply He..]. unfold set_elem. destruct (decide (x = y)) as [_|_]; [|exact (He x p n)]. intros Hs. injection Hs as <- <-. lia.
Qed.

(** A member comes from an element of its kind. *)
Lemma parse_kind fuel : forall pos left e u r e' x p n, parse_loop fuel pos left e u = Ok (r, e') -> e' x = Some (p, n) ->
  e x = Some (p, n) \/ exists id, classify id n p = Ok (Store x).
Proof.
  induction fuel as [|f IH]; intros pos left e u r e' x p n E Hx; cbn [parse_loop] in E.
  - destruct (bool_decide (left < 2)); [|done]. injection E as _ <-. auto.
  - destruct (bool_decide (left < 2)); [injection E as _ <-; auto|].
    destruct (rd pos 0) as [id|]; [|done]. destruct (rd pos 1) as [elen|]; [|done]. cbn [res_bind] in E.
    destruct (bool_decide (elen > left - 2)); [injection E as _ <-; auto|].
    destruct (classify id elen (drop 2 pos)) as [v|] eqn:Ev; [|done]. cbn [res_bind] in E.
    destruct (IH _ _ _ _ _ _ _ _ _ E Hx) as [H|H]; [|auto]. destruct v as [y| |]; [|auto..].
    unfold set_elem in H. case_decide as Ey; [|auto]. subst y. injection H as <- <-. eauto.
Qed.

Lemma opmode_one start len r e p n : ieee802_11_parse_elems start len = Ok (r, e) -> e VHT_OPMODE_NOTIF = Some (p, n) -> n = 1.
Proof.
  intros E Hx. destruct (parse_kind _ _ _ _ _ _ _ _ _ _ E Hx) as [H|(id & H)]; [done|].
  assert (forall q m, ieee802_11_parse_vendor_specific q m <> Ok (Store VHT_OPMODE_NOTIF)) as Hv.
  { intros q m. unfold ieee802_11_parse_vendor_specific, WPA_GET_BE24. intros Hq.
    repeat first [discriminate Hq
      | match type of Hq with
        | context [rd ?a ?b] => destruct (rd a b); cbn [res_bind] in Hq
        | context [bool_decide ?P] => destruct (bool_decide P)
        | context [match ?y with _ => _ end] => destruct y
        end]. }
  unfold classify in H. destruct (decide (id = 221)) as [->|Hid]; [now apply Hv in H|].
  repeat match type of H with
    | context [bool_decide ?P] => destruct (bool_decide_reflect P); try discriminate H
    | context [match ?y with _ => _ end] => destruct y; try discriminate H
    end; try done; lia.
Qed.

(** ** Statements *)

Lemma ies_count l : (length l <= length (ies_bytes l))%nat.
Proof. induction l as [|i l IH]; [done|]. rewrite ies_cons. simpl. rewrite length_app. lia. Qed.

Lemma parse_whole start len l : 0 <= len <= zlen start -> Forall ie_ok l -> take (Z.to_nat len) start = ies_bytes l ->
  exists e, ieee802_11_parse_elems start len = Ok (if has_unknown l then ParseUnknown else ParseOK, e) /\
    forall x, elem_bytes e x = last_of x l.
Proof.
  intros Hlen Hl E. unfold ieee802_11_parse_elems.
  assert (len = zlen (ies_bytes l)) as El by (rewrite <- E; unfold zlen in *; rewrite length_take; lia).
  destruct (parse_encoded l (drop (Z.to_nat len) start) Hl (Z.to_nat len) no_elems false) as (e & Er & Hx).
  { rewrite El. unfold zlen. rewrite Nat2Z.id. apply ies_count. }
  rewrite <- E, take_drop, E, <- El in Er. exists e. split; [exact Er|]. intros x. rewrite Hx. by destruct (last_of x l).
Qed.

(** C37: the parser of elements.  On any bytes it ends inside the buffer with every
    member pointing into the buffer, at no more bytes than are left there; it
    reports success only for a sequence of whole elements (up to a MIC element,
    behind which nothing is looked at).  On the bytes of a sequence of elements it
    succeeds, says whether one was unknown, and each member is the last element of
    its kind. *)
Theorem elements_parsed (start : list Z) (len : Z) (Hb : Forall u8 start) (Hlen : 0 <= len <= zlen start) :
  (exists r e, ieee802_11_parse_elems start len = Ok (r, e) /\ parsed start len no_elems r e) /\
  (forall l, Forall ie_ok l -> take (Z.to_nat len) start = ies_bytes l ->
     exists e, ieee802_11_parse_elems start len = Ok (if has_unknown l then ParseUnknown else ParseOK, e) /\
       forall x, elem_bytes e x = last_of x l).
Proof.
  split; [apply parse_any; [done|done|lia]|]. intros l Hl E. now apply parse_whole.
Qed.

(** A name, rates, an unknown element and the WMM element of a vendor. *)
Definition demo_ies : list ie :=
  [(0, [65; 66]); (1, [0x82; 0x84]); (200, []); (221, [0; 0x50; 0xf2; 2; 0; 1; 0])].

Lemma elements_parsed_witness : exists e,
  ieee802_11_parse_elems (ies_bytes demo_ies ++ [7; 7; 7]) 19 = Ok (ParseUnknown, e) /\
  elem_bytes e SSID = Some [65; 66] /\ elem_bytes e WMM = Some [0; 0x50; 0xf2; 2; 0; 1; 0] /\ elem_bytes e P2P = None.
Proof.
  destruct (elements_parsed (ies_bytes demo_ies ++ [7; 7; 7]) 19) as [_ H].
  - by_check.
  - by_check.
  - destruct (H demo_ies) as (e & E & Hx); [by_check|reflexivity|]. exists e. split; [exact E|].
    rewrite !Hx. split; [reflexivity|]. split; reflexivity.
Defined.
