(* ===== verification/Station.v ===== *)
(** * hostapd's station table: [sta_info.c], and the functions of [beacon.c]
    that disconnect a station for the controller

    A BSS keeps its stations in a list and in a hash table of 256 chains, both
    of pointers to [sta_info] objects in the heap of the world.  A pointer to a
    [hostapd_data] is its index in [iface->bss]. *)

From stdpp Require Import base list numbers gmap strings.
From Stdlib Require Import ZArith Lia.
From S2P Require Import Prelude CString Dense Env World.
Local Open Scope Z_scope.

Definition WLAN_STA_AUTH : Z := 2 ^ 0.
Definition WLAN_STA_ASSOC : Z := 2 ^ 1.
Definition WLAN_STA_AUTHORIZED : Z := 2 ^ 5.
Definition WLAN_STA_PREAUTH : Z := 2 ^ 8.
Definition WLAN_STA_WDS : Z := 2 ^ 14.
Definition WLAN_STA_ASSOC_REQ_OK : Z := 2 ^ 15.
Definition WLAN_STA_PENDING_DISASSOC_CB : Z := 2 ^ 29.
Definition WLAN_STA_PENDING_DEAUTH_CB : Z := 2 ^ 30.
Definition STA_DEAUTH : Z := 2.
Definition STA_REMOVE : Z := 3.
Definition AP_MAX_INACTIVITY_AFTER_DISASSOC : Z := 30.
Definition AP_MAX_INACTIVITY_AFTER_DEAUTH : Z := 5.
Definition WLAN_INVALID_MGMT_SEQ : Z := 0xFFFF.
Definition WLAN_REASON_PREV_AUTH_NOT_VALID : Z := 2.
Definition WLAN_REASON_DISASSOC_AP_BUSY : Z := 5.
Definition WPA_DRIVER_FLAGS_DEAUTH_TX_STATUS : Z := 0x00020000.
Definition WPA_DRIVER_FLAGS_INACTIVITY_TIMER : Z := 0x00800000.
Definition RET_SUSS : Z := 0.
Definition RET_ERR : Z := 1.
Definition RET_TYPE_UNKOWN : Z := 2.

(** ** Access through pointers *)

Definition get_bss (hapd : nat) : M world hostapd_data :=
  w <-- get ;; match bss (ifc w) !! hapd with Some b => ret b | None => fail NullDeref end.

Definition put_bss (hapd : nat) (b : hostapd_data) (w : world) : world :=
  upd_ifc (fun i => set_bss (<[hapd := b]> (bss i)) i) w.

Definition upd_bss (hapd : nat) (f : hostapd_data -> hostapd_data) : M world unit :=
  b <-- get_bss hapd ;; modify (put_bss hapd (f b)).

Definition get_sta (sta : positive) : M world sta_info :=
  w <-- get ;; match heap w !! sta with Some s => ret s | None => fail UseAfterFree end.

Definition upd_sta (sta : positive) (f : sta_info -> sta_info) : M world unit :=
  s <-- get_sta sta ;; modify (upd_heap <[sta := f s]>).

Definition has (flags bit : Z) : bool := bool_decide (Z.land flags bit <> 0).

(** ** Lookup and links *)

(** The walk of a chain: the first station with this address. *)
Fixpoint find_chain (chain : list positive) (addr : list Z) : M world (option positive) :=
  match chain with
  | [] => ret None
  | p :: chain' =>
      s <-- get_sta p ;;
      if bool_decide (sta_addr s = addr) then ret (Some p) else find_chain chain' addr
  end.

Definition ap_get_sta (hapd : nat) (addr : list Z) : M world (option positive) :=
  b <-- get_bss hapd ;;
  i <-- lift (rd addr 5) ;;
  chain <-- lift (rd (sta_hash b) i) ;;
  find_chain chain addr.

(** The list without the first link to [sta]. *)
Fixpoint unlink (sta : positive) (l : list positive) : list positive :=
  match l with
  | [] => []
  | p :: l' => if bool_decide (p = sta) then l' else p :: unlink sta l'
  end.

Definition ap_sta_list_del (hapd : nat) (sta : positive) : M world unit :=
  upd_bss hapd (fun b => set_sta_list (unlink sta (sta_list b)) b).

Definition ap_sta_hash_add (hapd : nat) (sta : positive) : M world unit :=
  s <-- get_sta sta ;;
  b <-- get_bss hapd ;;
  i <-- lift (rd (sta_addr s) 5) ;;
  chain <-- lift (rd (sta_hash b) i) ;;
  hash <-- lift (wr (sta_hash b) i (sta :: chain)) ;;
  upd_bss hapd (set_sta_hash hash).

(** The chain without its first station of this address. *)
Fixpoint chain_unlink (chain : list positive) (addr : list Z) : M world (list positive) :=
  match chain with
  | [] => ret []
  | p :: chain' =>
      s <-- get_sta p ;;
      if bool_decide (sta_addr s = addr) then ret chain'
      else c <-- chain_unlink chain' addr ;; ret (p :: c)
  end.

Definition ap_sta_hash_del (hapd : nat) (sta : positive) : M world unit :=
  s <-- get_sta sta ;;
  b <-- get_bss hapd ;;
  i <-- lift (rd (sta_addr s) 5) ;;
  chain <-- lift (rd (sta_hash b) i) ;;
  c <-- chain_unlink chain (sta_addr s) ;;
  hash <-- lift (wr (sta_hash b) i c) ;;
  upd_bss hapd (set_sta_hash hash).

(** ** Leaving the network *)

(** [ap_sta_set_authorized(hapd, sta, 0)]: the callbacks it runs when the flag
    changes are one call of the environment. *)
Definition ap_sta_unauthorize (hapd : nat) (sta : positive) : M world unit :=
  s <-- get_sta sta ;;
  if has (sta_flags s) WLAN_STA_AUTHORIZED then
    upd_sta sta (fun s => set_sta_flags (Z.ldiff (sta_flags s) WLAN_STA_AUTHORIZED) s) ;;;
    ext_ (Hostapd (str "sta_authorized_cb") (sta_addr s))
  else ret tt.

Definition cb_delay (w : world) : Z :=
  if has (drv_flags (ifc w)) WPA_DRIVER_FLAGS_DEAUTH_TX_STATUS then 2 else 0.

Definition retimer (secs : Z) (fn : list Z) (addr : list Z) : M world unit :=
  ext_ (EloopCancel fn addr) ;;; ext_ (EloopTimeout secs fn addr).

Definition ap_sta_disassociate (hapd : nat) (sta : positive) (reason : Z) : M world unit :=
  upd_sta sta (set_last_seq_ctrl WLAN_INVALID_MGMT_SEQ) ;;;
  upd_sta sta (fun s => set_sta_flags
    (Z.ldiff (sta_flags s) (Z.lor WLAN_STA_ASSOC WLAN_STA_ASSOC_REQ_OK)) s) ;;;
  ap_sta_unauthorize hapd sta ;;;
  upd_sta sta (set_timeout_next STA_DEAUTH) ;;;
  s <-- get_sta sta ;;
  retimer AP_MAX_INACTIVITY_AFTER_DISASSOC (str "ap_handle_timer") (sta_addr s) ;;;
  ext_ (Hostapd (str "accounting_sta_stop") (sta_addr s)) ;;;
  ext_ (Hostapd (str "ieee802_1x_free_station") (sta_addr s)) ;;;
  upd_sta sta (set_disassoc_reason reason) ;;;
  upd_sta sta (fun s => set_sta_flags (Z.lor (sta_flags s) WLAN_STA_PENDING_DISASSOC_CB) s) ;;;
  w <-- get ;;
  retimer (cb_delay w) (str "ap_sta_disassoc_cb_timeout") (sta_addr s).

Definition ap_sta_deauthenticate (hapd : nat) (sta : positive) (reason : Z) : M world unit :=
  upd_sta sta (set_last_seq_ctrl WLAN_INVALID_MGMT_SEQ) ;;;
  upd_sta sta (fun s => set_sta_flags (Z.ldiff (sta_flags s)
    (Z.lor WLAN_STA_AUTH (Z.lor WLAN_STA_ASSOC WLAN_STA_ASSOC_REQ_OK))) s) ;;;
  ap_sta_unauthorize hapd sta ;;;
  upd_sta sta (set_timeout_next STA_REMOVE) ;;;
  s <-- get_sta sta ;;
  retimer AP_MAX_INACTIVITY_AFTER_DEAUTH (str "ap_handle_timer") (sta_addr s) ;;;
  ext_ (Hostapd (str "accounting_sta_stop") (sta_addr s)) ;;;
  ext_ (Hostapd (str "ieee802_1x_free_station") (sta_addr s)) ;;;
  upd_sta sta (set_deauth_reason reason) ;;;
  upd_sta sta (fun s => set_sta_flags (Z.lor (sta_flags s) WLAN_STA_PENDING_DEAUTH_CB) s) ;;;
  w <-- get ;;
  retimer (cb_delay w) (str "ap_sta_deauth_cb_timeout") (sta_addr s).

(** ** The driver ([ap_drv_ops.c]) *)

Definition hostapd_drv_sta_disassoc (hapd : nat) (addr : list Z) (reason : Z) : M world Z :=
  b <-- get_bss hapd ;;
  w <-- get ;;
  if driver_ops (ifc w) then ext (DrvStaDisassoc (own_addr b) addr reason) else ret 0.

Definition hostapd_drv_sta_only_disassoc (hapd : nat) (addr : list Z) (reason : Z) : M world Z :=
  b <-- get_bss hapd ;;
  w <-- get ;;
  if driver_ops (ifc w) then ext (DrvSend2StaDisassoc (own_addr b) addr reason) else ret 0.

(** ** Commands of the controller ([beacon.c]) *)

(** Disassociate through the driver and in the station table. *)
Definition kick (hapd : nat) (sta : positive) (addr : list Z) : M world unit :=
  hostapd_drv_sta_disassoc hapd addr WLAN_REASON_DISASSOC_AP_BUSY ;;;
  ap_sta_disassociate hapd sta WLAN_REASON_DISASSOC_AP_BUSY.

Definition ieee802_11_del_station_of_vap (hapd : option nat) (addr : option (list Z)) : M world Z :=
  match hapd, addr with
  | Some hapd, Some addr =>
      sta <-- ap_get_sta hapd addr ;;
      match sta with
      | Some sta => kick hapd sta addr ;;; ret RET_SUSS
      | None => ret RET_SUSS
      end
  | _, _ => ret RET_SUSS
  end.

Definition ieee802_11_del_offline (hapd : option nat) (addr : option (list Z)) : M world Z :=
  match hapd, addr with
  | Some hapd, Some addr =>
      sta <-- ap_get_sta hapd addr ;;
      match sta with
      | Some sta => hostapd_drv_sta_only_disassoc hapd addr WLAN_REASON_DISASSOC_AP_BUSY ;;; ret RET_SUSS
      | None => ret RET_SUSS
      end
  | _, _ => ret RET_SUSS
  end.

(** The index of the first BSS of this address. *)
Fixpoint bss_of_addr (bs : list hostapd_data) (addr : list Z) (i : nat) : option nat :=
  match bs with
  | [] => None
  | b :: bs' => if bool_decide (own_addr b = addr) then Some i else bss_of_addr bs' addr (S i)
  end.

Definition ieee802_11_del_station (addr : dense_station) : M world Z :=
  w <-- get ;;
  match bss_of_addr (bss (ifc w)) (ap addr) 0 with
  | Some hapd =>
      sta <-- ap_get_sta hapd (station addr) ;;
      match sta with
      | Some sta => kick hapd sta (station addr) ;;; ret RET_SUSS
      | None => ret RET_SUSS
      end
  | None => ret RET_SUSS
  end.

Definition macnull : list Z := [0x66; 0x55; 0x44; 0x33; 0x22; 0x11].

(** [ieee802_11_find_bss_odin]: the BSS, and what is left in [stamac] (which is
    overwritten when a BSS was found for a station). *)
Definition ieee802_11_find_bss_odin (bssid : option (list Z)) (stamac : option (list Z))
  : M world (option nat * option (list Z)) :=
  match bssid with
  | None => ret (None, stamac)
  | Some bssid =>
      w <-- get ;;
      match bss_of_addr (bss (ifc w)) bssid 0, stamac with
      | Some hapd, Some mac =>
          sta <-- ap_get_sta hapd mac ;;
          match sta with
          | Some sta => kick hapd sta mac ;;; ret (Some hapd, Some macnull)
          | None => ret (Some hapd, Some macnull)
          end
      | r, _ => ret (r, stamac)
      end
  end.

Definition DEL_IF : Z := 1.
Definition NEW_IF : Z := 2.
Definition UPDATE_IF : Z := 3.
Definition TYPE_MAX : Z := 4.
Definition LOCAL_MAC : Z := 2.

Definition GET_MAC_IDF (mac : list Z) : res Z := let! b := rd mac 0 in Ok (Z.land b 2).

Definition ieee802_11_update_bssflag_odin (hapd : option nat) (flag : Z) : M world Z :=
  match hapd with
  | None => ret (-1)
  | Some hapd =>
      if bool_decide (flag = DEL_IF) then upd_bss hapd (set_flag_priv VAP_IDLE) ;;; ret 0
      else
        b <-- get_bss hapd ;;
        idf <-- lift (GET_MAC_IDF (own_sta b)) ;;
        upd_bss hapd (set_flag_priv (if bool_decide (idf = LOCAL_MAC) then VAP_UNLOCK else VAP_LOCK)) ;;;
        ret 0
  end.

(** [fnii_reset_dense_station_hash]: every station of the table is disconnected
    from its AP, and the table emptied.  The lock is held throughout; nothing
    that is called takes it. *)
Fixpoint del_stations (l : list dense_station) : M world unit :=
  match l with
  | [] => ret tt
  | s :: l' => ieee802_11_del_station s ;;; del_stations l'
  end.

Definition fnii_reset_dense_station_hash (iface : bool) : M world Z :=
  if iface then
    w <-- get ;;
    let '(freed, g') := dense_reset (g_dense_station_hash (fn w)) in
    modify (upd_fn (set_g_dense_station_hash g')) ;;;
    del_stations freed ;;;
    ret FNII_RET_OK
  else ret FNII_RET_ERR.

(** ** Runs over one station

    [at_sta p s e w] is [w] with the station [p] being [s] and the environment
    [e]: the operations on a station only move through such states. *)

Definition at_sta (p : positive) (s : sta_info) (e : env) (w : world) : world :=
  put_env e (upd_heap <[p := s]> w).

Lemma at_sta_start p s w : heap w !! p = Some s -> at_sta p s (wenv w) w = w.
Proof.
  intros H. unfold at_sta, upd_heap. destruct w as [f i h m e]. simpl in *.
  now rewrite insert_id.
Qed.

Section AtSta.
Context (p : positive) (s : sta_info) (e : env) (w : world).

Lemma get_sta_at : get_sta p (at_sta p s e w) = Ok (s, at_sta p s e w).
Proof. unfold get_sta, bind, get. simpl. now rewrite lookup_insert_eq. Qed.

Lemma upd_sta_at f : upd_sta p f (at_sta p s e w) = Ok (tt, at_sta p (f s) e w).
Proof.
  unfold upd_sta. rewrite (bind_Ok _ _ _ _ _ get_sta_at). unfold modify, at_sta, upd_heap. simpl.
  now rewrite insert_insert_eq.
Qed.

Lemma ext_at c : ext_ c (at_sta p s e w) = Ok (tt, at_sta p s (logged c e) w).
Proof. reflexivity. Qed.

Lemma retimer_at secs fn addr :
  retimer secs fn addr (at_sta p s e w)
  = Ok (tt, at_sta p s (logged (EloopTimeout secs fn addr) (logged (EloopCancel fn addr) e)) w).
Proof. reflexivity. Qed.
End AtSta.

Lemma ldiff_none a b : Z.land a b = 0 -> Z.ldiff a b = a.
Proof.
  intros H. apply Z.bits_inj'. intros n Hn. rewrite Z.ldiff_spec.
  assert (Z.testbit (Z.land a b) n = false) as Hb by now rewrite H, Z.bits_0.
  rewrite Z.land_spec in Hb. destruct (Z.testbit a n), (Z.testbit b n); done.
Qed.

Definition unauthorized (s : sta_info) : sta_info :=
  set_sta_flags (Z.ldiff (sta_flags s) WLAN_STA_AUTHORIZED) s.

Definition unauthorize_calls (s : sta_info) : list call :=
  if has (sta_flags s) WLAN_STA_AUTHORIZED then [Hostapd (str "sta_authorized_cb") (sta_addr s)] else [].

Definition logged_all (cs : list call) (e : env) : env := foldl (fun e c => logged c e) e cs.

Lemma logged_all_trace cs e : trace (logged_all cs e) = trace e ++ cs.
Proof.
  revert e. induction cs as [|c cs IH]; intros e; simpl; [now rewrite app_nil_r|].
  rewrite IH. simpl. now rewrite <- app_assoc.
Qed.

Lemma unauthorize_at hapd p s e w :
  ap_sta_unauthorize hapd p (at_sta p s e w)
  = Ok (tt, at_sta p (unauthorized s) (logged_all (unauthorize_calls s) e) w).
Proof.
  unfold ap_sta_unauthorize, unauthorize_calls. rewrite (bind_Ok _ _ _ _ _ (get_sta_at p s e w)).
  destruct (has _ _) eqn:E.
  - rewrite (bind_Ok _ _ _ _ _ (upd_sta_at p s e w _)). reflexivity.
  - unfold has in E. apply bool_decide_eq_false in E. apply dec_stable in E.
    unfold unauthorized, ret. rewrite ldiff_none by done. destruct s. done.
Qed.

(** The station after [ap_sta_disassociate] and the calls that it makes. *)
Definition disassociated (reason : Z) (s : sta_info) : sta_info :=
  let f1 := Z.ldiff (sta_flags s) (Z.lor WLAN_STA_ASSOC WLAN_STA_ASSOC_REQ_OK) in
  let f2 := Z.lor (Z.ldiff f1 WLAN_STA_AUTHORIZED) WLAN_STA_PENDING_DISASSOC_CB in
  set_sta_flags f2 (set_disassoc_reason reason (set_timeout_next STA_DEAUTH
    (set_last_seq_ctrl WLAN_INVALID_MGMT_SEQ s))).

Definition timer_calls (secs : Z) (fn addr : list Z) : list call :=
  [EloopCancel fn addr; EloopTimeout secs fn addr].

Definition disassoc_calls (w : world) (s : sta_info) : list call :=
  unauthorize_calls (set_sta_flags (Z.ldiff (sta_flags s) (Z.lor WLAN_STA_ASSOC WLAN_STA_ASSOC_REQ_OK)) s)
  ++ timer_calls AP_MAX_INACTIVITY_AFTER_DISASSOC (str "ap_handle_timer") (sta_addr s)
  ++ [Hostapd (str "accounting_sta_stop") (sta_addr s); Hostapd (str "ieee802_1x_free_station") (sta_addr s)]
  ++ timer_calls (cb_delay w) (str "ap_sta_disassoc_cb_timeout") (sta_addr s).

Lemma logged_all_app a b e : logged_all (a ++ b) e = logged_all b (logged_all a e).
Proof. apply foldl_app. Qed.

(** The world after the calls [cs]. *)
Definition with_log (cs : list call) (w : world) : world := put_env (logged_all cs (wenv w)) w.

Lemma logged_all_onum cs e : onum (logged_all cs e) = onum e.
Proof. revert e. induction cs as [|c cs IH]; intros e; [done|]. simpl. now rewrite IH. Qed.

Lemma with_log_app cs ds w : with_log (cs ++ ds) w = with_log ds (with_log cs w).
Proof. unfold with_log. now rewrite logged_all_app. Qed.

Lemma ext_log c w : ext c w = Ok (onum (wenv w) (length (trace (wenv w))) c, with_log [c] w).
Proof. reflexivity. Qed.

Lemma disassociate_at hapd p s e w reason :
  ap_sta_disassociate hapd p reason (at_sta p s e w)
  = Ok (tt, at_sta p (disassociated reason s) (logged_all (disassoc_calls w s) e) w).
Proof.
  unfold ap_sta_disassociate, disassoc_calls. rewrite !logged_all_app.
  rewrite (bind_Ok _ _ _ _ _ (upd_sta_at p s e w _)).
  erewrite bind_Ok by apply upd_sta_at. erewrite bind_Ok by apply unauthorize_at.
  erewrite bind_Ok by apply upd_sta_at. erewrite bind_Ok by apply get_sta_at.
  erewrite bind_Ok by apply retimer_at. erewrite bind_Ok by apply ext_at.
  erewrite bind_Ok by apply ext_at. erewrite bind_Ok by apply upd_sta_at.
  erewrite bind_Ok by apply upd_sta_at. reflexivity.
Qed.

(** ** The representation invariant of a BSS's station table *)

Record bss_ok (h : gmap positive sta_info) (b : hostapd_data) : Prop := {
  bss_len : length (sta_hash b) = 256%nat;
  bss_live : forall p, p ∈ sta_list b -> exists s, h !! p = Some s /\ mac_ok (sta_addr s);
  bss_nodup : NoDup (sta_list b);
  bss_inj : forall p q s t, p ∈ sta_list b -> q ∈ sta_list b ->
              h !! p = Some s -> h !! q = Some t -> sta_addr s = sta_addr t -> p = q;
  bss_chain : forall i c, sta_hash b !! i = Some c -> NoDup c /\
                forall p, p ∈ c <-> p ∈ sta_list b /\
                  exists s, h !! p = Some s /\ rd (sta_addr s) 5 = Ok (Z.of_nat i);
  bss_count : num_sta b = zlen (sta_list b) }.

(** The station of an address in a BSS. *)
Definition sta_at (w : world) (b : hostapd_data) (addr : list Z) (p : positive) (s : sta_info) : Prop :=
  p ∈ sta_list b /\ heap w !! p = Some s /\ sta_addr s = addr.

Lemma get_bss_run w i b : bss (ifc w) !! i = Some b -> get_bss i w = Ok (b, w).
Proof. intros H. unfold get_bss, bind, get. now rewrite H. Qed.

Lemma upd_bss_ok w i b f : bss (ifc w) !! i = Some b -> upd_bss i f w = Ok (tt, put_bss i (f b) w).
Proof. intros Hb. unfold upd_bss. now rewrite (bind_Ok _ _ _ _ _ (get_bss_run _ _ _ Hb)). Qed.

Lemma put_bss_lookup w i b c : bss (ifc w) !! i = Some b -> bss (ifc (put_bss i c w)) !! i = Some c.
Proof. intros Hb. simpl. apply list_lookup_insert_eq. now apply lookup_lt_Some in Hb. Qed.

Lemma put_bss_twice w i b c : put_bss i c (put_bss i b w) = put_bss i c w.
Proof. unfold put_bss, upd_ifc. simpl. f_equal. unfold set_bss. simpl. now rewrite list_insert_insert_eq. Qed.

Lemma get_sta_run w p s : heap w !! p = Some s -> get_sta p w = Ok (s, w).
Proof. intros H. unfold get_sta, bind, get. now rewrite H. Qed.

Lemma find_chain_spec w addr chain :
  (forall p, p ∈ chain -> exists s, heap w !! p = Some s) ->
  exists r, find_chain chain addr w = Ok (r, w) /\
    match r with
    | Some p => p ∈ chain /\ exists s, heap w !! p = Some s /\ sta_addr s = addr
    | None => forall p s, p ∈ chain -> heap w !! p = Some s -> sta_addr s <> addr
    end.
Proof.
  induction chain as [|p chain IH]; intros Hl; simpl.
  - eexists. split; [done|]. intros p s Hp. inversion Hp.
  - destruct (Hl p) as [s Hs]; [constructor|]. rewrite (bind_Ok _ _ _ _ _ (get_sta_run _ _ _ Hs)).
    case_bool_decide as E.
    + exists (Some p). split; [done|]. split; [constructor|]. eauto.
    + destruct IH as (r & -> & Hr); [intros q Hq; apply Hl; now constructor|].
      exists r. split; [done|]. destruct r as [q|].
      * destruct Hr as [Hq Hr]. split; [now constructor|done].
      * intros q t Hq Ht. apply elem_of_cons in Hq as [-> |Hq]; [congruence|eauto].
Qed.

Lemma mac_byte5 m : mac_ok m -> exists i, rd m 5 = Ok (Z.of_nat i) /\ (i < 256)%nat.
Proof.
  intros [L H]. destruct (lookup_lt_is_Some_2 m 5) as [b Hb]; [lia|].
  rewrite Forall_forall in H. specialize (H b (list_elem_of_lookup_2 _ _ _ Hb)). unfold u8 in H.
  exists (Z.to_nat b). split; [|lia]. rewrite Z2Nat.id by lia. apply rd_Some; [lia|done].
Qed.

Section Table.
Context (w : world) (i : nat) (b : hostapd_data) (addr : list Z).
Context (Hb : bss (ifc w) !! i = Some b) (Hok : bss_ok (heap w) b) (Ha : mac_ok addr).

(** [ap_get_sta] finds the station of an address, if there is one. *)
Lemma ap_get_sta_spec : exists r, ap_get_sta i addr w = Ok (r, w) /\
  forall p, r = Some p <-> exists s, sta_at w b addr p s.
Proof using Hb Hok Ha.
  destruct (mac_byte5 addr Ha) as (k & Hk & Hlt).
  destruct (lookup_lt_is_Some_2 (sta_hash b) k) as [c Hc]; [rewrite (bss_len _ _ Hok); lia|].
  destruct (bss_chain _ _ Hok k c Hc) as [_ Hin].
  destruct (find_chain_spec w addr c) as (r & Hr & Hspec).
  { intros p Hp. apply Hin in Hp as [_ (s & Hs & _)]. eauto. }
  exists r. split.
  - unfold ap_get_sta. rewrite (bind_Ok _ _ _ _ _ (get_bss_run _ _ _ Hb)).
    rewrite (bind_Ok _ _ w (Z.of_nat k) w) by (unfold lift; now rewrite Hk).
    rewrite (bind_Ok _ _ w c w) by
      (unfold lift; rewrite (rd_Some _ _ c); [done|lia|now rewrite Nat2Z.id]).
    done.
  - intros p. unfold sta_at. split.
    + intros ->. destruct Hspec as [Hp (s & Hs & Es)]. exists s. apply Hin in Hp as [Hp _]. done.
    + intros (s & Hp & Hs & Es). destruct r as [q|].
      * destruct Hspec as [Hq (t & Ht & Et)]. f_equal. apply Hin in Hq as [Hq _].
        eapply (bss_inj _ _ Hok q p); eauto. congruence.
      * exfalso. apply (Hspec p s); [|done|done]. apply Hin. split; [done|].
        exists s. split; [done|]. now rewrite Es.
Qed.

Lemma kick_run p s : driver_ops (ifc w) = true -> heap w !! p = Some s ->
  kick i p addr w = Ok (tt, at_sta p (disassociated WLAN_REASON_DISASSOC_AP_BUSY s)
    (logged_all (DrvStaDisassoc (own_addr b) addr WLAN_REASON_DISASSOC_AP_BUSY :: disassoc_calls w s) (wenv w)) w).
Proof using Hb.
  intros Hd Hs. unfold kick.
  erewrite bind_Ok.
  2: { unfold hostapd_drv_sta_disassoc. rewrite (bind_Ok _ _ _ _ _ (get_bss_run _ _ _ Hb)).
       rewrite (bind_Ok _ _ w w w) by done. rewrite Hd. reflexivity. }
  set (w1 := put_env _ _).
  assert (w1 = at_sta p s (wenv w1) w) as ->.
  { unfold w1, at_sta, upd_heap. simpl. rewrite insert_id by done. done. }
  rewrite disassociate_at. reflexivity.
Qed.
End Table.

(** What being disassociated means. *)
Definition associated (s : sta_info) : Prop := has (sta_flags s) WLAN_STA_ASSOC = true.

Lemma has_bit f n : 0 <= n -> has f (2 ^ n) = Z.testbit f n.
Proof.
  intros Hn. unfold has.
  assert (forall m, 0 <= m -> Z.testbit (2 ^ n) m = bool_decide (m = n)) as Hp.
  { intros m Hm. rewrite Z.pow2_bits_eqb by done. case_bool_decide as E; [subst; apply Z.eqb_refl|].
    apply Z.eqb_neq. congruence. }
  destruct (Z.testbit f n) eqn:E.
  - apply bool_decide_eq_true_2. intros Hz.
    assert (Z.testbit (Z.land f (2 ^ n)) n = false) as Hb by now rewrite Hz, Z.bits_0.
    rewrite Z.land_spec, Hp, E, bool_decide_eq_true_2 in Hb by done. done.
  - apply bool_decide_eq_false_2. intros Hz. apply Hz. apply Z.bits_inj'. intros m Hm.
    rewrite Z.land_spec, Hp, Z.bits_0 by done.
    case_bool_decide; [subst; now rewrite E|apply andb_false_r].
Qed.

Lemma disassociated_spec reason s :
  ~ associated (disassociated reason s) /\
  has (sta_flags (disassociated reason s)) WLAN_STA_AUTHORIZED = false /\
  has (sta_flags (disassociated reason s)) WLAN_STA_PENDING_DISASSOC_CB = true /\
  sta_addr (disassociated reason s) = sta_addr s /\
  timeout_next (disassociated reason s) = STA_DEAUTH /\ disassoc_reason (disassociated reason s) = reason.
Proof.
  assert (forall n, 0 <= n -> Z.testbit (sta_flags (disassociated reason s)) n
    = Z.testbit (sta_flags s) n && negb (Z.testbit (Z.lor WLAN_STA_ASSOC WLAN_STA_ASSOC_REQ_OK) n)
      && negb (Z.testbit WLAN_STA_AUTHORIZED n) || Z.testbit WLAN_STA_PENDING_DISASSOC_CB n) as Hf.
  { intros n Hn. unfold disassociated. cbn [sta_flags set_sta_flags].
    now rewrite Z.lor_spec, !Z.ldiff_spec. }
  unfold associated. unfold WLAN_STA_ASSOC at 1. unfold WLAN_STA_AUTHORIZED at 1.
  unfold WLAN_STA_PENDING_DISASSOC_CB at 1. rewrite !has_bit, !Hf by lia.
  split; [|split; [|split]]; [..|done].
  - destruct (Z.testbit (sta_flags s) 1); intros [=].
  - destruct (Z.testbit (sta_flags s) 5); reflexivity.
  - destruct (Z.testbit (sta_flags s) 29); reflexivity.
Qed.

(** ** Disconnecting many stations *)

(** A change that keeps every entry with its address, and never associates a
    station. *)
Definition calm (w w' : world) : Prop :=
  fn w' = fn w /\ ifc w' = ifc w /\ master w' = master w /\
  forall p, match heap w !! p, heap w' !! p with
            | Some s, Some s' => sta_addr s' = sta_addr s /\ (~ associated s -> ~ associated s')
            | None, None => True
            | _, _ => False
            end.

Lemma calm_refl w : calm w w.
Proof. repeat split. intros p. destruct (heap w !! p); auto. Qed.

Lemma calm_trans w1 w2 w3 : calm w1 w2 -> calm w2 w3 -> calm w1 w3.
Proof.
  intros (A1 & A2 & A3 & A4) (B1 & B2 & B3 & B4). repeat split; try congruence.
  intros p. specialize (A4 p). specialize (B4 p).
  destruct (heap w1 !! p), (heap w2 !! p), (heap w3 !! p); try done.
  destruct A4, B4. split; [congruence|auto].
Qed.

Lemma calm_addr w w' p s : calm w w' -> heap w !! p = Some s ->
  exists s', heap w' !! p = Some s' /\ sta_addr s' = sta_addr s /\ (~ associated s -> ~ associated s').
Proof.
  intros (_ & _ & _ & H) Hs. specialize (H p). rewrite Hs in H.
  destruct (heap w' !! p); [|done]. destruct H. eauto.
Qed.

Lemma calm_back w w' p s' : calm w w' -> heap w' !! p = Some s' ->
  exists s, heap w !! p = Some s /\ sta_addr s' = sta_addr s /\ (~ associated s -> ~ associated s').
Proof.
  intros (_ & _ & _ & H) Hs. specialize (H p). rewrite Hs in H.
  destruct (heap w !! p); [|done]. destruct H. eauto.
Qed.

(** The invariant only looks at the addresses. *)
Lemma bss_ok_calm w w' b : calm w w' -> bss_ok (heap w) b -> bss_ok (heap w') b.
Proof.
  intros Hc H. split; try apply H.
  - intros p Hp. destruct (bss_live _ _ H p Hp) as (s & Hs & Hm).
    destruct (calm_addr _ _ _ _ Hc Hs) as (s' & Hs' & E & _). exists s'. now rewrite E.
  - intros p q s t Hp Hq Hs Ht E.
    destruct (calm_back _ _ _ _ Hc Hs) as (s0 & Hs0 & E1 & _).
    destruct (calm_back _ _ _ _ Hc Ht) as (t0 & Ht0 & E2 & _).
    eapply (bss_inj _ _ H p q s0 t0); eauto. congruence.
  - intros i c Hi. destruct (bss_chain _ _ H i c Hi) as [Hn Hin]. split; [done|].
    intros p. rewrite Hin. split; (intros [Hp (s & Hs & E)]; split; [done|]).
    + destruct (calm_addr _ _ _ _ Hc Hs) as (s' & Hs' & E' & _). exists s'. now rewrite E'.
    + destruct (calm_back _ _ _ _ Hc Hs) as (s' & Hs' & E' & _). exists s'. now rewrite <- E'.
Qed.

Definition stas_ok (w : world) : Prop :=
  driver_ops (ifc w) = true /\ forall i b, bss (ifc w) !! i = Some b -> bss_ok (heap w) b.

Lemma stas_ok_calm w w' : calm w w' -> stas_ok w -> stas_ok w'.
Proof.
  intros Hc [Hd H]. pose proof Hc as (_ & E & _ & _). unfold stas_ok. rewrite E.
  split; [done|]. intros i b Hb. eapply bss_ok_calm; eauto.
Qed.

Lemma calm_at_sta p s s' e w : heap w !! p = Some s -> sta_addr s' = sta_addr s ->
  ~ associated s' -> calm w (at_sta p s' e w).
Proof.
  intros Hs E Hn. repeat split. intros q. unfold at_sta, upd_heap. simpl.
  destruct (decide (p = q)) as [<- |Hne].
  - now rewrite Hs, lookup_insert_eq.
  - rewrite lookup_insert_ne by done. destruct (heap w !! q); auto.
Qed.

Lemma bss_of_addr_lookup bs addr k i : bss_of_addr bs addr k = Some i ->
  exists b, bs !! (i - k)%nat = Some b /\ own_addr b = addr /\ (k <= i)%nat.
Proof.
  revert k. induction bs as [|b bs IH]; intros k H; simpl in H; [discriminate|].
  case_bool_decide as E.
  - injection H as <-. exists b. rewrite Nat.sub_diag. auto.
  - destruct (IH _ H) as (b' & Hb & E' & Hle). exists b'.
    replace (i - k)%nat with (S (i - S k)) by lia. split; [done|]. split; [done|lia].
Qed.

(** The station of a pair is no longer associated with the AP of the pair. *)
Definition pair_off (w : world) (d : dense_station) : Prop :=
  forall i b p s, bss_of_addr (bss (ifc w)) (ap d) 0 = Some i -> bss (ifc w) !! i = Some b ->
    sta_at w b (station d) p s -> ~ associated s.

Lemma pair_off_calm w w' d : calm w w' -> pair_off w d -> pair_off w' d.
Proof.
  intros Hc H i b p s Hi Hb (Hp & Hs & Es). pose proof Hc as (_ & E & _ & _). rewrite E in Hi, Hb.
  destruct (calm_back _ _ _ _ Hc Hs) as (s0 & Hs0 & Ea & Hn). apply Hn.
  eapply (H i b p s0); [done|done|]. split; [done|]. split; [done|congruence].
Qed.

Lemma del_station_run w d : stas_ok w -> mac_ok (station d) ->
  exists w', ieee802_11_del_station d w = Ok (RET_SUSS, w') /\ calm w w' /\ pair_off w' d.
Proof.
  intros [Hd Hall] Hm. unfold ieee802_11_del_station. rewrite (bind_Ok _ _ w w w) by done.
  destruct (bss_of_addr _ _ _) as [i|] eqn:Ei.
  2: { exists w. split; [done|]. split; [apply calm_refl|]. intros i b p s Hi. congruence. }
  destruct (bss_of_addr_lookup _ _ _ _ Ei) as (b & Hb & Ea & _). rewrite Nat.sub_0_r in Hb.
  destruct (ap_get_sta_spec w i b (station d) Hb (Hall i b Hb) Hm) as (r & Hr & Hspec).
  rewrite (bind_Ok _ _ _ _ _ Hr). destruct r as [p|].
  - destruct (proj1 (Hspec p) eq_refl) as (s & Hp & Hs & Es).
    rewrite (bind_Ok _ _ _ _ _ (kick_run w i b (station d) Hb p s Hd Hs)).
    destruct (disassociated_spec WLAN_REASON_DISASSOC_AP_BUSY s) as (Hn & _ & _ & Hsa & _).
    eexists. split; [reflexivity|]. split; [now apply (calm_at_sta p s)|].
    intros j b' q t Hj Hb' (Hq & Ht & Et). simpl in *.
    assert (j = i) as -> by congruence. assert (b' = b) as -> by congruence.
    assert (q = p) as ->; [|rewrite lookup_insert_eq in Ht; injection Ht as <-; exact Hn].
    destruct (decide (p = q)) as [|Hne]; [done|]. rewrite lookup_insert_ne in Ht by done.
    eapply (bss_inj _ _ (Hall i b Hb) q p); eauto. congruence.
  - exists w. split; [done|]. split; [apply calm_refl|].
    intros j b' p s Hj Hb' Hp. assert (j = i) as -> by congruence. assert (b' = b) as -> by congruence.
    assert (None = Some p) by (apply Hspec; eauto). discriminate.
Qed.

Lemma del_stations_run l : forall w, stas_ok w -> Forall (fun d => mac_ok (station d)) l ->
  exists w', del_stations l w = Ok (tt, w') /\ calm w w' /\ Forall (pair_off w') l.
Proof.
  induction l as [|d l IH]; intros w Hw HF; simpl.
  - exists w. split; [done|]. split; [apply calm_refl|constructor].
  - apply Forall_cons_1 in HF as [Hm HF].
    destruct (del_station_run w d Hw Hm) as (w1 & H1 & Hc1 & Hoff).
    rewrite (bind_Ok _ _ _ _ _ H1).
    destruct (IH w1) as (w2 & H2 & Hc2 & HF2); [eapply stas_ok_calm; eauto|done|].
    exists w2. split; [done|]. split; [eapply calm_trans; eauto|].
    constructor; [eapply pair_off_calm; eauto|done].
Qed.

(** ** Statements *)

(** Taking a station off a virtual AP.  When the station is in the table of
    the BSS, the driver is told first (reason 5, AP busy), then the entry loses
    its association and its authorization, keeps its address, is marked for the
    disassociation callback and is scheduled for deauthentication; when it is
    not, nothing happens at all. *)
Theorem del_station_of_vap_spec (w : world) (i : nat) (b : hostapd_data) (addr : list Z)
    (Hb : bss (ifc w) !! i = Some b) (Hok : bss_ok (heap w) b) (Ha : mac_ok addr)
    (Hd : driver_ops (ifc w) = true) :
  (forall p s, sta_at w b addr p s ->
     let s' := disassociated WLAN_REASON_DISASSOC_AP_BUSY s in
     exists e', ieee802_11_del_station_of_vap (Some i) (Some addr) w = Ok (RET_SUSS, at_sta p s' e' w) /\
       trace e' = trace (wenv w) ++
         DrvStaDisassoc (own_addr b) addr WLAN_REASON_DISASSOC_AP_BUSY :: disassoc_calls w s /\
       ~ associated s' /\ has (sta_flags s') WLAN_STA_AUTHORIZED = false /\ sta_addr s' = addr /\
       timeout_next s' = STA_DEAUTH) /\
  ((forall p s, ~ sta_at w b addr p s) ->
     ieee802_11_del_station_of_vap (Some i) (Some addr) w = Ok (RET_SUSS, w)).
Proof.
  destruct (ap_get_sta_spec w i b addr Hb Hok Ha) as (r & Hr & Hspec).
  unfold ieee802_11_del_station_of_vap. rewrite (bind_Ok _ _ _ _ _ Hr). split.
  - intros p s Hp. assert (r = Some p) as -> by (apply Hspec; eauto).
    destruct Hp as (_ & Hs & Es). rewrite (bind_Ok _ _ _ _ _ (kick_run w i b addr Hb p s Hd Hs)).
    destruct (disassociated_spec WLAN_REASON_DISASSOC_AP_BUSY s) as (H1 & H2 & _ & H3 & H4 & _).
    eexists. split; [reflexivity|]. rewrite logged_all_trace. repeat split; auto; congruence.
  - intros Hn. destruct r as [p|]; [|done].
    destruct (proj1 (Hspec p) eq_refl) as [s Hp]. exfalso. eapply Hn, Hp.
Qed.

(** The reset, as a lemma for its callers. *)
Lemma reset_run (w : world)
    (Hst : stas_ok w) (Hg : dense_ok (g_dense_station_hash (fn w))) :
  exists w', fnii_reset_dense_station_hash true w = Ok (FNII_RET_OK, w') /\
    contents (g_dense_station_hash (fn w')) = ∅ /\ dense_ok (g_dense_station_hash (fn w')) /\
    station_used (g_dense_station_hash (fn w')) = 0 /\
    (forall sta a, (sta, a) ∈ contents (g_dense_station_hash (fn w)) -> pair_off w' (mkStation sta a)) /\
    ifc w' = ifc w /\ stas_ok w'.
Proof.
  unfold fnii_reset_dense_station_hash. rewrite (bind_Ok _ _ w w w) by done.
  pose proof (reset_dense_ok _ Hg) as Hr. destruct (dense_reset _) as [freed g'] eqn:Eg.
  destruct Hr as (Hg' & Hc' & _ & Hfreed).
  assert (Forall (fun d => mac_ok (station d)) freed) as HF.
  { injection Eg as <- _. apply Forall_forall. intros d Hd.
    apply elem_of_concat_lookup in Hd as (i & c & Hi & Hin). eapply (dense_place _ Hg); eauto. }
  rewrite (bind_Ok _ _ w tt (upd_fn (set_g_dense_station_hash g') w)) by done.
  destruct (del_stations_run freed (upd_fn (set_g_dense_station_hash g') w)) as (w' & H' & Hc & Hoff);
    [done..|]. rewrite (bind_Ok _ _ _ _ _ H').
  exists w'. split; [done|]. pose proof Hc as (E1 & E2 & _). rewrite E1, E2. simpl.
  split; [done|]. split; [done|]. split; [now injection Eg as _ <-|]. split; [|split; [done|]].
  - intros sta a Hin. rewrite Forall_forall in Hoff. apply Hoff.
    rewrite <- Hfreed, elem_of_list_to_set, list_elem_of_fmap in Hin.
    destruct Hin as (d & Ed & Hd). destruct d as [x y]. injection Ed as -> ->. done.
  - eapply stas_ok_calm; [exact Hc|]. exact Hst.
Qed.

(** The reset after a lost link.  The table of assigned stations is empty
    afterwards, every station that was in it and is known to its AP is no
    longer associated there, and nothing but station entries changed: all
    networks, their station lists and the rest of the globals are as before. *)
Theorem reset_disconnects_all (w : world)
    (Hst : stas_ok w) (Hg : dense_ok (g_dense_station_hash (fn w))) :
  exists w', fnii_reset_dense_station_hash true w = Ok (FNII_RET_OK, w') /\
    contents (g_dense_station_hash (fn w')) = ∅ /\ dense_ok (g_dense_station_hash (fn w')) /\
    station_used (g_dense_station_hash (fn w')) = 0 /\
    (forall sta a, (sta, a) ∈ contents (g_dense_station_hash (fn w)) -> pair_off w' (mkStation sta a)) /\
    ifc w' = ifc w /\ stas_ok w'.
Proof. now apply reset_run. Qed.

(** ** Concrete states *)

(** The invariant as a test. *)
Definition addr_of (h : gmap positive sta_info) (p : positive) : list Z :=
  match h !! p with Some s => sta_addr s | None => [] end.

Definition bss_check (h : gmap positive sta_info) (b : hostapd_data) : bool :=
  bool_decide (length (sta_hash b) = 256%nat) &&
  forallb (fun p => bool_decide (mac_ok (addr_of h p))) (sta_list b) &&
  bool_decide (NoDup (sta_list b)) && bool_decide (NoDup (addr_of h <$> sta_list b)) &&
  forallb (fun ic : nat * list positive =>
    bool_decide (NoDup ic.2) &&
    bool_decide (ic.2 ≡ₚ filter (fun p => rd (addr_of h p) 5 = Ok (Z.of_nat ic.1)) (sta_list b)))
    (imap pair (sta_hash b)) &&
  bool_decide (num_sta b = zlen (sta_list b)).

Lemma addr_of_mac h p : mac_ok (addr_of h p) -> exists s, h !! p = Some s /\ addr_of h p = sta_addr s.
Proof. unfold addr_of. destruct (h !! p) as [s|]; [eauto|]. intros [H _]. discriminate. Qed.

Lemma bss_ok_of_check h b : bss_check h b = true -> bss_ok h b.
Proof.
  unfold bss_check. rewrite !andb_true_iff, !bool_decide_eq_true, !forallb_forall.
  intros [[[[[H1 H2] H3] H4] H5] H6].
  assert (forall p, p ∈ sta_list b -> exists s, h !! p = Some s /\ addr_of h p = sta_addr s /\ mac_ok (sta_addr s))
    as Hl.
  { intros p Hp. apply list_elem_of_In in Hp. apply H2, bool_decide_eq_true in Hp.
    destruct (addr_of_mac _ _ Hp) as (s & Hs & E). exists s. rewrite E in Hp. done. }
  split; auto.
  - intros p Hp. destruct (Hl p Hp) as (s & Hs & _ & Hm). eauto.
  - intros p q s t Hp Hq Hs Ht E. eapply NoDup_fmap_inj_on; [exact H4|done|done|].
    unfold addr_of. now rewrite Hs, Ht.
  - intros i c Hi.
    assert (List.In (i, c) (imap pair (sta_hash b))) as Hin.
    { apply list_elem_of_In, (list_elem_of_lookup_2 _ i). rewrite list_lookup_imap, Hi. done. }
    specialize (H5 _ Hin). apply andb_true_iff in H5 as [Hn Hp].
    apply bool_decide_eq_true in Hn, Hp. simpl in *. split; [done|].
    intros p. rewrite Hp, list_elem_of_filter. split.
    + intros [Hr Hin']. split; [done|]. destruct (Hl p Hin') as (s & Hs & E & _). exists s.
      now rewrite <- E.
    + intros [Hin' (s & Hs & E)]. split; [|done]. unfold addr_of. now rewrite Hs.
Qed.

Definition demo_sta (addr : list Z) : sta_info :=
  {| sta_addr := addr; sta_flags := 0x8023; sta_aid_ := 1; timeout_next := 0; deauth_reason := 0;
     disassoc_reason := 0; auth_alg := 0; last_seq_ctrl := 0; nonerp_set := false;
     no_short_slot_time_set := false; no_short_preamble_set := false; no_ht_gf_set := false;
     no_ht_set := false; ht_20mhz_set := false; ssid_probe := None; mlme := zero_mlme |}.

(** The first network with the station [mac1] associated; the controller
    assigned it there. *)
Definition demo_bss1 : hostapd_data :=
  set_num_sta 1 (set_sta_aid (1 :: replicate 62 0) (set_sta_list [1%positive]
    (set_sta_hash (<[0x13%nat := [1%positive]]> (replicate 256 [])) (demo_bss [2; 1; 2; 3; 4; 5] [65; 65])))).

Definition demo_world1 (e : env) : world :=
  upd_fn (set_g_dense_station_hash
      {| tbl := <[16%nat := [mkStation mac1 [2; 1; 2; 3; 4; 5]]]> (replicate 32 []); station_used := 1 |})
    (upd_heap <[1%positive := demo_sta mac1]> (put_bss 0 demo_bss1 (demo_world e))).

Lemma demo_stas_ok e : stas_ok (demo_world1 e).
Proof.
  split; [reflexivity|]. intros i b Hb. apply bss_ok_of_check.
  destruct i as [|[|i]]; simpl in Hb; [| |discriminate];
    injection Hb as <-; vm_compute; reflexivity.
Qed.

Lemma del_station_of_vap_spec_witness :
  exists e' s', ieee802_11_del_station_of_vap (Some 0%nat) (Some mac1) (demo_world1 (const_env 0))
    = Ok (RET_SUSS, at_sta 1%positive s' e' (demo_world1 (const_env 0))) /\
    ~ associated s' /\ length (trace e') = 8%nat.
Proof.
  destruct (del_station_of_vap_spec (demo_world1 (const_env 0)) 0 demo_bss1 mac1) as [H _].
  - reflexivity.
  - apply (proj2 (demo_stas_ok _) 0%nat). reflexivity.
  - by_check.
  - reflexivity.
  - destruct (H 1%positive (demo_sta mac1)) as (e' & H1 & H2 & H3 & _).
    + split; [by_check|]. split; reflexivity.
    + exists e'. eexists. split; [exact H1|]. split; [exact H3|]. rewrite H2. reflexivity.
Defined.

Lemma reset_disconnects_all_witness :
  exists w', fnii_reset_dense_station_hash true (demo_world1 (const_env 0)) = Ok (FNII_RET_OK, w') /\
    contents (g_dense_station_hash (fn w')) = ∅ /\ pair_off w' (mkStation mac1 [2; 1; 2; 3; 4; 5]).
Proof.
  destruct (reset_disconnects_all (demo_world1 (const_env 0))) as (w' & H1 & H2 & _ & _ & H3 & _).
  - apply demo_stas_ok.
  - apply dense_ok_of_check. vm_compute. reflexivity.
  - exists w'. split; [exact H1|]. split; [exact H2|]. apply H3. by_check.
Defined.
