(* ===== verification/ApTable.v ===== *)
(** * The table of neighbours: [ap/ap_list.c]

    hostapd remembers the access points whose beacons it hears.  The entries are
    linked twice: in a list that goes back from its head to its tail ([head->prev] is
    the tail, [tail->next] is NULL) and is ordered by the last use, and in 256 hash
    chains.  This file holds the operations on the pointers and what they keep; the
    beacons and the timer that use them are in [ApList]. *)

From stdpp Require Import base list numbers gmap strings.
From Stdlib Require Import ZArith Lia.
From S2P Require Import Prelude CString Dense Env World Station.
Local Open Scope Z_scope.

(** ** The operations *)

Definition get_ap (t : ap_table) (p : positive) : res ap_info :=
  match ap_heap t !! p with Some a => Ok a | None => Ub UseAfterFree end.

Definition upd_ap (p : positive) (f : ap_info -> ap_info) (t : ap_table) : res ap_table :=
  let! a := get_ap t p in Ok (upd_ap_heap <[p := f a]> t).

(** A pointer that is followed without a test. *)
Definition deref (o : option positive) : res positive := match o with Some p => Ok p | None => Ub NullDeref end.

Definition ap_fuel (t : ap_table) : nat := S (size (ap_heap t)).

(** The walk of [ap_get_ap] along a chain. *)
Fixpoint find_ap (fuel : nat) (t : ap_table) (s : option positive) (addr : list Z) : res (option positive) :=
  match s, fuel with
  | None, _ => Ok None
  | Some _, O => Ub OutOfFuel
  | Some p, S f => let! a := get_ap t p in if bool_decide (ap_addr (ap_of a) = addr) then Ok (Some p) else find_ap f t (ap_hnext a) addr
  end.

Definition ap_get_ap (t : ap_table) (addr : list Z) : res (option positive) :=
  let! k := rd addr 5 in
  let! s := rd (ap_hash t) k in
  find_ap (ap_fuel t) t s addr.

Definition ap_ap_list_add (t : ap_table) (ap : positive) : res ap_table :=
  let! t := match ap_list t with
            | Some head =>
                let! h := get_ap t head in
                let! t := upd_ap ap (set_ap_prev (ap_prev h)) t in
                upd_ap head (set_ap_prev (Some ap)) t
            | None => upd_ap ap (set_ap_prev (Some ap)) t
            end in
  let! t := upd_ap ap (set_ap_next (ap_list t)) t in
  Ok (set_ap_list (Some ap) t).

Definition ap_ap_list_del (t : ap_table) (ap : positive) : res ap_table :=
  let! a := get_ap t ap in
  let! t := if bool_decide (ap_list t = Some ap) then Ok (set_ap_list (ap_next a) t)
            else let! q := deref (ap_prev a) in upd_ap q (set_ap_next (ap_next a)) t in
  let! a := get_ap t ap in
  match ap_next a with
  | Some n => upd_ap n (set_ap_prev (ap_prev a)) t
  | None => match ap_list t with Some head => upd_ap head (set_ap_prev (ap_prev a)) t | None => Ok t end
  end.

Definition ap_ap_hash_add (t : ap_table) (ap : positive) : res ap_table :=
  let! a := get_ap t ap in
  let! k := rd (ap_addr (ap_of a)) 5 in
  let! s := rd (ap_hash t) k in
  let! t := upd_ap ap (set_ap_hnext s) t in
  let! hash := wr (ap_hash t) k (Some ap) in
  Ok (set_ap_hash hash t).

(** The walk of [ap_ap_hash_del], and the link that it changes. *)
Fixpoint hash_unlink (fuel : nat) (t : ap_table) (s : positive) (addr : list Z) : res ap_table :=
  match fuel with
  | O => Ub OutOfFuel
  | S f =>
      let! a := get_ap t s in
      match ap_hnext a with
      | None => Ok t
      | Some n =>
          let! b := get_ap t n in
          if bool_decide (ap_addr (ap_of b) = addr) then upd_ap s (set_ap_hnext (ap_hnext b)) t
          else hash_unlink f t n addr
      end
  end.

Definition ap_ap_hash_del (t : ap_table) (ap : positive) : res ap_table :=
  let! a := get_ap t ap in
  let! k := rd (ap_addr (ap_of a)) 5 in
  let! s := rd (ap_hash t) k in
  match s with
  | None => Ok t
  | Some p =>
      let! b := get_ap t p in
      if bool_decide (ap_addr (ap_of b) = ap_addr (ap_of a)) then
        let! hash := wr (ap_hash t) k (ap_hnext b) in Ok (set_ap_hash hash t)
      else hash_unlink (ap_fuel t) t p (ap_addr (ap_of a))
  end.

Definition ap_free_ap (t : ap_table) (ap : positive) : res ap_table :=
  let! t := ap_ap_hash_del t ap in
  let! t := ap_ap_list_del t ap in
  Ok (upd_ap_heap (delete ap) (set_num_ap (num_ap t - 1) t)).

Fixpoint free_aps (fuel : nat) (t : ap_table) (ap : option positive) : res ap_table :=
  match ap, fuel with
  | None, _ => Ok t
  | Some _, O => Ub OutOfFuel
  | Some prev, S f => let! a := get_ap t prev in let! t := ap_free_ap t prev in free_aps f t (ap_next a)
  end.

Definition hostapd_free_aps (t : ap_table) : res ap_table :=
  let! t := free_aps (ap_fuel t) t (ap_list t) in Ok (set_ap_list None t).

Definition WLAN_SUPP_RATES_MAX : Z := 32.

(** An entry as [os_zalloc] leaves it, with its address. *)
Definition fresh_data (addr : list Z) : ap_data := mkApData addr (replicate 32 0) 0 0 false (0, 0).
Definition fresh_ap (addr : list Z) : ap_info := mkAp None None None (fresh_data addr).

(** [ap_ap_add] with the entry [ap] that was allocated; the least recently used entry
    goes when there are too many. *)
Definition ap_ap_add (max : Z) (t : ap_table) (ap : positive) (addr : list Z) : res ap_table :=
  let t := upd_ap_heap <[ap := fresh_ap addr]> t in
  let! t := ap_ap_list_add t ap in
  let! t := ap_ap_hash_add (set_num_ap (num_ap t + 1) t) ap in
  let! a := get_ap t ap in
  if bool_decide (num_ap t > max) && bool_decide (ap_prev a <> Some ap) then
    let! q := deref (ap_prev a) in
    let! _ := get_ap t q in
    ap_free_ap t q
  else Ok t.

(** ** What the pointers represent *)

(** The members of an entry that the hash chains, the list, and neither change. *)
Definition beside_list (a : ap_info) : option positive * ap_data := (ap_hnext a, ap_of a).
Definition beside_hash (a : ap_info) : option positive * option positive * ap_data := (ap_next a, ap_prev a, ap_of a).

(** Two memories with the same entries, as far as [v] looks. *)
Definition same {B} (v : ap_info -> B) (h h' : gmap positive ap_info) : Prop := forall q, v <$> h' !! q = v <$> h !! q.

Lemma same_refl {B} (v : ap_info -> B) h : same v h h.
Proof. done. Qed.
Lemma same_trans {B} (v : ap_info -> B) h1 h2 h3 : same v h1 h2 -> same v h2 h3 -> same v h1 h3.
Proof. intros H1 H2 q. now rewrite H2. Qed.
Lemma same_insert {B} (v : ap_info -> B) h p a b : h !! p = Some a -> v b = v a -> same v h (<[p := b]> h).
Proof. intros Hp E q. destruct (decide (q = p)) as [->|]; [rewrite lookup_insert_eq, Hp; simpl; now rewrite E|now rewrite lookup_insert_ne]. Qed.
Lemma same_proj {B C} (v : ap_info -> B) (f : B -> C) h h' : same v h h' -> same (fun a => f (v a)) h h'.
Proof. intros S q. rewrite !(option_fmap_compose v f). f_equal. exact (S q). Qed.
Lemma same_some {B} (v : ap_info -> B) h h' p a : same v h h' -> h !! p = Some a -> exists a', h' !! p = Some a' /\ v a' = v a.
Proof. intros H Hp. specialize (H p). rewrite Hp in H. destruct (h' !! p) as [a'|]; [|done]. apply (inj Some) in H. eauto. Qed.
Lemma same_back {B} (v : ap_info -> B) h h' p a : same v h h' -> h' !! p = Some a -> exists a', h !! p = Some a' /\ v a = v a'.
Proof. intros H Hp. specialize (H p). rewrite Hp in H. destruct (h !! p) as [a'|]; [|done]. apply (inj Some) in H. eauto. Qed.

(** The list from its head: every entry is linked to the one behind it and to the one
    before it, the first to the last. *)
Record links (h : gmap positive ap_info) (hd : option positive) (l : list positive) : Prop := {
  li_head : hd = head l;
  li_nodup : NoDup l;
  li_entry : forall l1 p l2, l = l1 ++ p :: l2 -> exists a, h !! p = Some a /\ ap_next a = head l2 /\
               ap_prev a = match last l1 with Some q => Some q | None => last l end }.

Lemma links_live h hd l p : links h hd l -> p ∈ l -> is_Some (h !! p).
Proof. intros L (l1 & l2 & ->)%list_elem_of_split. destruct (li_entry _ _ _ L l1 p l2 eq_refl) as (a & -> & _). eauto. Qed.

Lemma links_frame h h' hd l : links h hd l -> (forall p a, p ∈ l -> h !! p = Some a -> exists a', h' !! p = Some a' /\ ap_next a' = ap_next a /\ ap_prev a' = ap_prev a) ->
  links h' hd l.
Proof.
  intros L Hf. split; [apply L..|]. intros l1 p l2 E. destruct (li_entry _ _ _ L l1 p l2 E) as (a & Ha & <- & <-).
  apply (Hf p a); [rewrite E; apply elem_of_app; right; left|done].
Qed.

(** A chain of the hash table. *)
Fixpoint hchain (h : gmap positive ap_info) (o : option positive) (c : list positive) : Prop :=
  match c with
  | [] => o = None
  | p :: c' => o = Some p /\ exists a, h !! p = Some a /\ hchain h (ap_hnext a) c'
  end.

Lemma hchain_frame h h' o c : hchain h o c -> (forall p a, p ∈ c -> h !! p = Some a -> exists a', h' !! p = Some a' /\ ap_hnext a' = ap_hnext a) -> hchain h' o c.
Proof.
  revert o. induction c as [|p c IH]; intros o; [done|]. intros (-> & a & Ha & Hc) Hf. destruct (Hf p a) as (a' & Ha' & E); [left|done|].
  split; [done|]. exists a'. split; [done|]. rewrite E. apply IH; [done|]. intros q b Hq. apply Hf. now right.
Qed.

Lemma hchain_live h o c p : hchain h o c -> p ∈ c -> is_Some (h !! p).
Proof.
  revert o. induction c as [|q c IH]; intros o; [intros _ Hp; inversion Hp|]. intros (-> & a & Ha & Hc) [->|Hp]%elem_of_cons; [eauto|now apply (IH (ap_hnext a))].
Qed.

Lemma hchain_size h o c : hchain h o c -> NoDup c -> (length c <= size h)%nat.
Proof.
  intros Hc Hn. rewrite <- (size_list_to_set (C := gset positive) c) by done. rewrite <- size_dom. apply subseteq_size.
  intros p Hp%elem_of_list_to_set. apply elem_of_dom. now apply (hchain_live h o c).
Qed.

Definition bucket (a : ap_info) : option Z := ap_addr (ap_of a) !! 5%nat.

(** Chain [k] holds the entries of [l] whose address ends with [k]. *)
Definition hashed (h : gmap positive ap_info) (arr : list (option positive)) (l : list positive) : Prop :=
  forall k o, arr !! k = Some o -> exists c, hchain h o c /\ NoDup c /\
    forall p, p ∈ c <-> p ∈ l /\ exists a, h !! p = Some a /\ bucket a = Some (Z.of_nat k).

(** What the chains depend on. *)
Definition chain_view (a : ap_info) : option positive * option Z := (ap_hnext a, bucket a).

Lemma hashed_view h h' arr l : same chain_view h h' -> hashed h arr l -> hashed h' arr l.
Proof.
  intros S H k o Hk. destruct (H k o Hk) as (c & Hc & Hn & Hm). exists c. split; [|split; [done|]].
  - apply (hchain_frame h); [done|]. intros p a _ Ha. destruct (same_some _ _ _ _ _ S Ha) as (a' & Ha' & E). injection E as E _. eauto.
  - intros p. rewrite Hm. apply and_iff_compat_l. split; intros (a & Ha & E).
    + destruct (same_some _ _ _ _ _ S Ha) as (a' & Ha' & E'). injection E' as _ E'. exists a'. split; [done|congruence].
    + destruct (same_back _ _ _ _ _ S Ha) as (a' & Ha' & E'). injection E' as _ E'. exists a'. split; [done|congruence].
Qed.

Lemma hashed_frame h h' arr l : same beside_list h h' -> hashed h arr l -> hashed h' arr l.
Proof. intros S. apply hashed_view. exact (same_proj beside_list (fun x => (x.1, ap_addr x.2 !! 5%nat)) h h' S). Qed.

Lemma hashed_perm h arr l l' : (forall p, p ∈ l <-> p ∈ l') -> hashed h arr l -> hashed h arr l'.
Proof. intros E H k o Hk. destruct (H k o Hk) as (c & Hc & Hn & Hm). exists c. split; [done|]. split; [done|]. intros p. now rewrite Hm, E. Qed.

(** ** The list *)

Lemma upd_ap_run p f t a : ap_heap t !! p = Some a -> upd_ap p f t = Ok (upd_ap_heap <[p := f a]> t).
Proof. intros Hp. unfold upd_ap, get_ap. now rewrite Hp. Qed.

(** What an operation on the list leaves alone. *)
Record list_only (t t' : ap_table) : Prop := {
  lo_num : num_ap t' = num_ap t;
  lo_hash : ap_hash t' = ap_hash t;
  lo_olbc : olbc t' = olbc t;
  lo_heap : same beside_list (ap_heap t) (ap_heap t') }.

Lemma list_only_refl t : list_only t t.
Proof. done. Qed.
Lemma list_only_trans t1 t2 t3 : list_only t1 t2 -> list_only t2 t3 -> list_only t1 t3.
Proof. intros [N1 A1 O1 S1] [N2 A2 O2 S2]. split; [congruence..|]. now apply (same_trans _ _ (ap_heap t2)). Qed.
Lemma list_only_head t v : list_only t (set_ap_list v t).
Proof. done. Qed.
Lemma list_only_upd t p a b : ap_heap t !! p = Some a -> beside_list b = beside_list a -> list_only t (upd_ap_heap <[p := b]> t).
Proof. intros Hp E. split; try done. now apply (same_insert _ _ _ a). Qed.

Lemma list_add_run t l p a : links (ap_heap t) (ap_list t) l -> p ∉ l -> ap_heap t !! p = Some a ->
  exists t', ap_ap_list_add t p = Ok t' /\ links (ap_heap t') (ap_list t') (p :: l) /\ list_only t t'.
Proof.
  intros L Hp Ha. unfold ap_ap_list_add. rewrite (li_head _ _ _ L). destruct l as [|q l]; cbn [head].
  - rewrite (upd_ap_run _ _ _ a) by done. cbn [res_bind].
    rewrite (upd_ap_run _ _ _ (set_ap_prev (Some p) a)) by apply lookup_insert_eq. cbn [res_bind]. eexists. split; [reflexivity|].
    cbn [ap_heap ap_list set_ap_list upd_ap_heap]. rewrite insert_insert_eq. split.
    + split; [done|apply NoDup_singleton|]. intros l1 x l2 E. destruct l1 as [|y [|]]; simplify_eq/=.
      rewrite lookup_insert_eq. eexists. split; [done|]. split; [|done]. apply (li_head _ _ _ L).
    + eapply list_only_trans; [apply (list_only_upd t p a (set_ap_prev (Some p) a)); done|].
      eapply list_only_trans; [apply (list_only_upd _ p (set_ap_prev (Some p) a) (set_ap_next (ap_list t) (set_ap_prev (Some p) a))); [apply lookup_insert_eq|done]|apply list_only_head].
  - destruct (li_entry _ _ _ L [] q l eq_refl) as (b & Hb & Nb & Pb). cbn [last] in Pb.
    assert (p <> q) as Hpq by (intros ->; apply Hp; left).
    unfold get_ap. rewrite Hb. cbn [res_bind]. rewrite (upd_ap_run _ _ _ a) by done. cbn [res_bind].
    rewrite (upd_ap_run _ _ _ b) by (cbn [ap_heap upd_ap_heap]; now rewrite lookup_insert_ne by done). cbn [res_bind].
    rewrite (upd_ap_run _ _ _ (set_ap_prev (ap_prev b) a)) by (cbn [ap_heap upd_ap_heap]; rewrite lookup_insert_ne by done; apply lookup_insert_eq).
    cbn [res_bind]. eexists. split; [reflexivity|]. cbn [ap_heap ap_list set_ap_list upd_ap_heap]. rewrite (li_head _ _ _ L). cbn [head].
    set (a' := set_ap_next _ _). split.
    + split; [done|apply NoDup_cons_2; [done|apply L]|]. intros l1 x l2 E. destruct l1 as [|y l1]; cbn [app] in E; injection E as <- E.
      * subst l2. exists a'. rewrite lookup_insert_eq. split; [done|]. split; [done|]. exact Pb.
      * assert (x ∈ q :: l) as Hx by (rewrite E; apply elem_of_app; right; left). assert (x <> p) as Hxp by (intros ->; done).
        rewrite lookup_insert_ne by done. destruct (li_entry _ _ _ L l1 x l2 E) as (c & Hc & Nc & Pc). destruct l1 as [|z l1]; cbn [app] in E; injection E as <- E.
        -- rewrite lookup_insert_eq. eexists. split; [done|]. subst l2. split; [exact Nb|done].
        -- assert (NoDup (q :: l)) as Hn by apply L. apply NoDup_cons in Hn as [Hq _]. rewrite E in Hq.
           rewrite lookup_insert_ne by (intros ->; apply Hq; apply elem_of_app; right; left). rewrite lookup_insert_ne by done.
           exists c. split; [done|]. split; [done|]. rewrite Pc. change (last (p :: q :: l1)) with (last (q :: l1)). destruct (last (q :: l1)) eqn:El; [done|]. now apply last_None in El.
    + eapply list_only_trans; [apply (list_only_upd t p a (set_ap_prev (ap_prev b) a)); [done|done]|].
      eapply list_only_trans; [apply (list_only_upd _ q b (set_ap_prev (Some p) b)); [cbn [ap_heap upd_ap_heap]; now rewrite lookup_insert_ne by done|done]|].
      eapply list_only_trans; [apply (list_only_upd _ p (set_ap_prev (ap_prev b) a) a'); [cbn [ap_heap upd_ap_heap]; rewrite lookup_insert_ne by done; apply lookup_insert_eq|done]|].
      apply list_only_head.
Qed.

Lemma links_split h hd l1 p l2 : links h hd (l1 ++ p :: l2) -> (p ∉ l1) /\ (p ∉ l2) /\ NoDup l1 /\ NoDup l2 /\ (forall q, q ∈ l1 -> q ∉ l2).
Proof.
  intros L. pose proof (li_nodup _ _ _ L) as Hn. apply NoDup_app in Hn as (N1 & D & N2). apply NoDup_cons in N2 as [Hp N2].
  repeat split; try done; intros; intros Hq; eapply D; eauto; (now left) || now right.
Qed.

Lemma app_at {A} (l1 l2 k1 : list A) y k2 : l1 ++ l2 = k1 ++ y :: k2 ->
  (exists m, l1 = k1 ++ y :: m /\ k2 = m ++ l2) \/ (exists m, k1 = l1 ++ m /\ l2 = m ++ y :: k2).
Proof.
  revert k1. induction l1 as [|x l1 IH]; intros k1 E; [right; now exists k1|]. destruct k1 as [|z k1]; cbn [app] in E; injection E as -> E.
  - left. now exists l1.
  - destruct (IH k1 E) as [(m & -> & ->)|(m & -> & ->)]; [left|right]; now exists m.
Qed.

Lemma last_in {A} (l : list A) x : last l = Some x -> x ∈ l.
Proof. intros (l' & ->)%last_Some. apply elem_of_app. right. left. Qed.

Lemma head_in {A} (l : list A) x : head l = Some x -> x ∈ l.
Proof. destruct l; [done|]. intros [= ->]. left. Qed.

(** The entry [p] is taken out when its neighbours are linked to each other. *)
Lemma links_del h h' hd l1 p l2 : links h hd (l1 ++ p :: l2) ->
  (forall y a, y ∈ l1 ++ l2 -> h !! y = Some a -> exists a', h' !! y = Some a' /\
     ap_next a' = (if bool_decide (last l1 = Some y) then head l2 else ap_next a) /\
     ap_prev a' = (if bool_decide (head l2 = Some y) then match last l1 with Some q => Some q | None => last (p :: l2) end
                   else if bool_decide (l2 = []) && bool_decide (head l1 = Some y) then last l1 else ap_prev a)) ->
  links h' (head (l1 ++ l2)) (l1 ++ l2).
Proof.
  intros L Hf. destruct (links_split _ _ _ _ _ L) as (Hp1 & Hp2 & N1 & N2 & D). split; [done| |].
  { apply NoDup_app. repeat split; try done. }
  intros k1 y k2 E. assert (y ∈ l1 ++ l2) as Hy by (rewrite E; apply elem_of_app; right; left).
  destruct (app_at _ _ _ _ _ E) as [(m & -> & ->)|(m & -> & ->)].
  - assert (y ∈ k1 ++ y :: m) as Hy1 by (apply elem_of_app; right; left).
    apply NoDup_app in N1 as (_ & D1 & N1). apply NoDup_cons in N1 as [Hym _].
    destruct (li_entry _ _ _ L k1 y (m ++ p :: l2)) as (a & Ha & Na & Pa); [now rewrite <- app_assoc|].
    destruct (Hf y a Hy Ha) as (a' & Ha' & Na' & Pa'). exists a'. split; [done|]. split.
    + rewrite Na', Na. destruct m as [|z m]; [rewrite last_app; simpl; now rewrite bool_decide_eq_true_2|].
      rewrite bool_decide_eq_false_2; [done|]. rewrite last_app. intros El.
      change (last (y :: z :: m)) with (last (z :: m)) in El. destruct (last (z :: m)) eqn:Ez; [|now apply last_None in Ez].
      injection El as ->. now apply last_in in Ez.
    + rewrite Pa'. rewrite (bool_decide_eq_false_2 (head l2 = Some y)) by (intros Eh; apply (D y Hy1); now apply head_in). destruct k1 as [|z k1].
      * cbn [app head last]. rewrite (bool_decide_eq_true_2 (Some y = Some y)), andb_true_r by done. destruct (bool_decide_reflect (l2 = [])) as [->|Hne]; [now rewrite app_nil_r|].
        rewrite Pa. cbn [app last]. change (last ((y :: m) ++ p :: l2) = last ((y :: m) ++ l2)). destruct l2 as [|n l2]; [done|]. rewrite (last_app (y :: m) (p :: n :: l2)), (last_app (y :: m) (n :: l2)).
        change (last (p :: n :: l2)) with (last (n :: l2)). destruct (last (n :: l2)) eqn:En; [done|now apply last_None in En].
      * cbn [app head]. rewrite (bool_decide_eq_false_2 (Some z = Some y)), andb_false_r by (intros [= ->]; apply (D1 y); left). rewrite Pa.
        destruct (last (z :: k1)) eqn:Ez; [done|now apply last_None in Ez].
  - assert (y ∈ m ++ y :: k2) as Hy2 by (apply elem_of_app; right; left). assert (y ∉ l1) as Hy1 by (intros Hq; now apply (D y)).
    apply NoDup_app in N2 as (_ & D2 & N2).
    destruct (li_entry _ _ _ L (l1 ++ p :: m) y k2) as (a & Ha & Na & Pa); [now rewrite <- app_assoc|].
    destruct (Hf y a Hy Ha) as (a' & Ha' & Na' & Pa'). exists a'. split; [done|]. split.
    + rewrite Na', Na. rewrite bool_decide_eq_false_2; [done|]. intros El. now apply last_in in El.
    + rewrite Pa'. destruct m as [|z m].
      * cbn [app head]. rewrite bool_decide_eq_true_2, app_nil_r by done. destruct (last l1) eqn:E1; [done|]. apply last_None in E1 as ->. done.
      * cbn [app head]. rewrite (bool_decide_eq_false_2 (Some z = Some y)) by (intros [= ->]; apply (D2 y); left). rewrite bool_decide_eq_false_2 by done. cbn [andb].
        rewrite Pa, (last_app l1 (p :: z :: m)), (last_app l1 (z :: m)). change (last (p :: z :: m)) with (last (z :: m)). destruct (last (z :: m)) eqn:Ez; [done|now apply last_None in Ez].
Qed.

(** One entry of the memory changes: what is read. *)
Lemma at_insert (h : gmap positive ap_info) q b y a : h !! y = Some a -> h !! q = Some b -> forall f,
  <[q := f b]> h !! y = Some (if bool_decide (q = y) then f a else a).
Proof. intros Hy Hq f. case_bool_decide as E; [subst q; rewrite lookup_insert_eq; congruence|now rewrite lookup_insert_ne]. Qed.

Lemma some_eq_decide (x y : positive) : bool_decide (Some x = Some y) = bool_decide (x = y).
Proof. apply bool_decide_ext. split; [now intros [= ->]|now intros ->]. Qed.

Lemma list_del_run t l1 p l2 : links (ap_heap t) (ap_list t) (l1 ++ p :: l2) ->
  exists t', ap_ap_list_del t p = Ok t' /\ links (ap_heap t') (ap_list t') (l1 ++ l2) /\ list_only t t'.
Proof.
  intros L. destruct (links_split _ _ _ _ _ L) as (Hp1 & Hp2 & _). destruct (li_entry _ _ _ L l1 p l2 eq_refl) as (a & Ha & Na & Pa).
  assert (forall y, y ∈ l1 ++ l2 -> is_Some (ap_heap t !! y)) as Hlive.
  { intros y Hy. apply (links_live _ _ _ y L). rewrite elem_of_app in *. destruct Hy; [by left|right; by right]. }
  unfold ap_ap_list_del, get_ap at 1. rewrite Ha, (li_head _ _ _ L). cbn [res_bind]. destruct (last l1) as [q|] eqn:El.
  - assert (q ∈ l1) as Hq by now apply last_in. assert (q <> p) as Hqp by (intros ->; done).
    destruct (Hlive q) as [b Hb]; [apply elem_of_app; now left|]. destruct l1 as [|x l1]; [done|]. cbn [app head].
    rewrite bool_decide_eq_false_2 by (intros [= ->]; apply Hp1; left). rewrite Pa. cbn [deref res_bind]. rewrite (upd_ap_run _ _ _ b) by done. cbn [res_bind].
    set (t1 := upd_ap_heap _ t). assert (list_only t t1) as O1 by now apply (list_only_upd t q b).
    unfold get_ap. change (ap_heap t1) with (<[q := set_ap_next (ap_next a) b]> (ap_heap t)). rewrite lookup_insert_ne by done. rewrite Ha. cbn [res_bind]. rewrite Na.
    destruct l2 as [|n l2]; cbn [head].
    + change (ap_list t1) with (ap_list t). rewrite (li_head _ _ _ L). cbn [app head].
      destruct (Hlive x) as [c Hc]; [left|]. pose proof (at_insert _ q b x c Hc Hb (set_ap_next (ap_next a))) as Hx.
      rewrite (upd_ap_run _ _ t1 _ Hx). eexists. split; [reflexivity|]. split; [|eapply list_only_trans; [exact O1|now apply (list_only_upd t1 x _ _ Hx)]].
      change (ap_list (upd_ap_heap _ t1)) with (ap_list t). assert (ap_list t = head ((x :: l1) ++ [])) as -> by (rewrite (li_head _ _ _ L); done).
      apply (links_del (ap_heap t) _ (ap_list t) (x :: l1) p []); [exact L|]. intros y d Hy Hd. unfold t1. cbn [ap_heap upd_ap_heap].
      pose proof (at_insert _ q b y d Hd Hb (set_ap_next (ap_next a))) as Hy1. rewrite (at_insert _ x _ y _ Hy1 Hx (set_ap_prev (ap_prev a))).
      eexists. split; [reflexivity|]. rewrite El, some_eq_decide. cbn [head]. rewrite some_eq_decide, Na, Pa.
      destruct (bool_decide (q = y)), (bool_decide (x = y)); done.
    + assert (n <> p) as Hnp by (intros ->; apply Hp2; left). destruct (Hlive n) as [c Hc]; [rewrite elem_of_app; right; left|].
      pose proof (at_insert _ q b n c Hc Hb (set_ap_next (ap_next a))) as Hx. rewrite (upd_ap_run _ _ t1 _ Hx).
      eexists. split; [reflexivity|]. split; [|eapply list_only_trans; [exact O1|now apply (list_only_upd t1 n _ _ Hx)]].
      assert (ap_list t = head ((x :: l1) ++ n :: l2)) as E by (rewrite (li_head _ _ _ L); done). change (ap_list (upd_ap_heap _ t1)) with (ap_list t). rewrite E.
      apply (links_del (ap_heap t) _ (ap_list t) (x :: l1) p (n :: l2)); [exact L|]. intros y d Hy Hd. unfold t1. cbn [ap_heap upd_ap_heap].
      pose proof (at_insert _ q b y d Hd Hb (set_ap_next (ap_next a))) as Hy1. rewrite (at_insert _ n _ y _ Hy1 Hx (set_ap_prev (ap_prev a))).
      eexists. split; [reflexivity|]. rewrite El, some_eq_decide. cbn [head]. rewrite some_eq_decide, Na, Pa.
      destruct (bool_decide (q = y)), (bool_decide (n = y)); done.
  - apply last_None in El as ->. cbn [app head] in *. rewrite bool_decide_eq_true_2 by done. cbn [res_bind]. unfold get_ap. cbn [ap_heap set_ap_list]. rewrite Ha. cbn [res_bind]. rewrite Na.
    destruct l2 as [|n l2]; cbn [head].
    + eexists. split; [reflexivity|]. split; [|apply list_only_head]. apply (links_del (ap_heap t) _ (ap_list t) [] p []); [exact L|].
      intros y d Hy. inversion Hy.
    + destruct (Hlive n) as [c Hc]; [left|]. rewrite (upd_ap_run _ _ _ c) by done. eexists. split; [reflexivity|].
      split; [|eapply list_only_trans; [apply (list_only_head t (Some n))|now apply (list_only_upd _ n c)]].
      apply (links_del (ap_heap t) _ (ap_list t) [] p (n :: l2)); [exact L|]. intros y d Hy Hd. cbn [ap_heap upd_ap_heap set_ap_list].
      rewrite (at_insert _ n c y d Hd Hc (set_ap_prev (ap_prev a))). eexists. split; [reflexivity|]. cbn [last head]. rewrite some_eq_decide, Pa.
      rewrite (bool_decide_eq_false_2 (None = Some y)) by done. rewrite (bool_decide_eq_false_2 (n :: l2 = [])) by done. destruct (bool_decide (n = y)); done.
Qed.

(** ** The hash chains *)

(** What an operation on the chains leaves alone. *)
Record hash_only (t t' : ap_table) : Prop := {
  ho_num : num_ap t' = num_ap t;
  ho_list : ap_list t' = ap_list t;
  ho_olbc : olbc t' = olbc t;
  ho_len : length (ap_hash t') = length (ap_hash t);
  ho_heap : same beside_hash (ap_heap t) (ap_heap t') }.

Lemma bucket_rd a : mac_ok (ap_addr (ap_of a)) -> exists k, (k < 256)%nat /\ bucket a = Some (Z.of_nat k) /\ rd (ap_addr (ap_of a)) 5 = Ok (Z.of_nat k).
Proof.
  intros Hm. destruct (mac_byte5 _ Hm) as (k & Hk & Hlt). exists k. split; [done|]. split; [|exact Hk].
  now apply rd_Ok_inv in Hk as [_ Hk].
Qed.

Lemma hchain_hd h o c : hchain h o c -> o = head c.
Proof. destruct c; [done|]. by intros [-> _]. Qed.

Definition in_bucket (h : gmap positive ap_info) (l : list positive) (k : nat) (p : positive) : Prop :=
  p ∈ l /\ exists a, h !! p = Some a /\ bucket a = Some (Z.of_nat k).

(** The addresses do not change with a link. *)
Lemma in_bucket_insert (h : gmap positive ap_info) p b b' l k q : h !! p = Some b -> ap_of b' = ap_of b -> in_bucket (<[p := b']> h) l k q <-> in_bucket h l k q.
Proof.
  intros Hp E. apply and_iff_compat_l. destruct (decide (q = p)) as [->|Hq]; [|now rewrite lookup_insert_ne by done].
  rewrite lookup_insert_eq, Hp. unfold bucket. split; intros (a & [= <-] & Ha); eexists; (split; [done|]); congruence.
Qed.

(** An entry that is not in a chain changes. *)
Lemma hchain_insert (h : gmap positive ap_info) o c p b : hchain h o c -> p ∉ c -> hchain (<[p := b]> h) o c.
Proof. intros Hc Hp. apply (hchain_frame h); [done|]. intros q a Hq Ha. exists a. rewrite lookup_insert_ne by (intros ->; done). done. Qed.

Lemma rd_hash t k o : ap_hash t !! k = Some o -> rd (ap_hash t) (Z.of_nat k) = Ok o.
Proof. intros Ho. apply rd_Some; [lia|]. now rewrite Nat2Z.id. Qed.

Lemma wr_hash t k o : (k < length (ap_hash t))%nat -> wr (ap_hash t) (Z.of_nat k) o = Ok (<[k := o]> (ap_hash t)).
Proof. intros Hk. rewrite wr_Ok by (unfold zlen; lia). now rewrite Nat2Z.id. Qed.

Lemma hash_add_run t l p a : hashed (ap_heap t) (ap_hash t) l -> length (ap_hash t) = 256%nat -> p ∉ l -> ap_heap t !! p = Some a ->
  mac_ok (ap_addr (ap_of a)) -> exists t', ap_ap_hash_add t p = Ok t' /\ hashed (ap_heap t') (ap_hash t') (p :: l) /\ hash_only t t'.
Proof.
  intros H Hlen Hp Ha Hm. destruct (bucket_rd a Hm) as (k & Hk & Hb & Ek). destruct (lookup_lt_is_Some_2 (ap_hash t) k) as [o Ho]; [lia|].
  unfold ap_ap_hash_add, get_ap. rewrite Ha. cbn [res_bind]. rewrite Ek. cbn [res_bind]. rewrite (rd_hash t k o Ho). cbn [res_bind].
  rewrite (upd_ap_run _ _ _ a) by done. cbn [res_bind ap_hash upd_ap_heap]. rewrite wr_hash by lia. cbn [res_bind]. eexists. split; [reflexivity|].
  cbn [ap_heap ap_hash set_ap_hash upd_ap_heap]. set (a' := set_ap_hnext o a). split.
  - intros j o' Hj. assert (forall q, q ∈ (p :: l) /\ (exists a0, <[p := a']> (ap_heap t) !! q = Some a0 /\ bucket a0 = Some (Z.of_nat j)) <->
      in_bucket (ap_heap t) (p :: l) j q) as Hin by (intros q; now apply (in_bucket_insert _ _ a)).
    destruct (decide (j = k)) as [->|Hjk].
    + rewrite list_lookup_insert_eq in Hj by lia. injection Hj as <-. destruct (H k o Ho) as (c & Hc & Hn & Hi).
      assert (p ∉ c) as Hpc by (intros Hpc; now apply Hi in Hpc as [? _]). exists (p :: c). split; [|split; [now apply NoDup_cons|]].
      * split; [done|]. exists a'. rewrite lookup_insert_eq. split; [done|]. now apply hchain_insert.
      * intros q. rewrite Hin. unfold in_bucket. rewrite !elem_of_cons, Hi. split; [intros [->|[? ?]]|intros [[->|?] ?]]; eauto 6.
    + rewrite list_lookup_insert_ne in Hj by done. destruct (H j o' Hj) as (c & Hc & Hn & Hi).
      assert (p ∉ c) as Hpc by (intros Hpc; now apply Hi in Hpc as [? _]). exists c. split; [now apply hchain_insert|]. split; [done|].
      intros q. rewrite Hin, Hi. unfold in_bucket. rewrite elem_of_cons. split; [intros [? ?]; eauto|].
      intros [[->|?] (b & Hb' & E)]; [|eauto]. exfalso. rewrite Ha in Hb'. injection Hb' as <-. rewrite Hb in E. injection E as E. lia.
  - split; try done; [apply length_insert|]. now apply (same_insert _ _ _ a).
Qed.

(** The entry behind [u] is taken out of its chain. *)
Lemma hchain_cut (h : gmap positive ap_info) o c1 u p c2 a b : hchain h o (c1 ++ u :: p :: c2) -> NoDup (c1 ++ u :: p :: c2) ->
  h !! p = Some a -> h !! u = Some b -> hchain (<[u := set_ap_hnext (ap_hnext a) b]> h) o (c1 ++ u :: c2).
Proof.
  revert o. induction c1 as [|x c1 IH]; intros o Hc Hn Ha Hb; cbn [app hchain] in *.
  - destruct Hc as (-> & b' & Hb' & Eq & a' & Ha' & Hc). assert (a' = a) as -> by congruence. split; [done|].
    eexists. rewrite lookup_insert_eq. split; [done|]. cbn [ap_hnext set_ap_hnext]. apply hchain_insert; [done|].
    apply NoDup_cons in Hn as [Hn _]. intros Hu. apply Hn. now right.
  - destruct Hc as (-> & d & Hd & Hc). apply NoDup_cons in Hn as [Hx Hn]. split; [done|]. exists d.
    rewrite lookup_insert_ne; [split; [done|]; now apply IH|]. intros ->. apply Hx. apply elem_of_app. right. left.
Qed.

Lemma hash_unlink_run t addr : forall c1 s p c2 a fuel, hchain (ap_heap t) (Some s) (s :: c1 ++ p :: c2) -> ap_heap t !! p = Some a ->
  ap_addr (ap_of a) = addr -> (forall q b, q ∈ c1 -> ap_heap t !! q = Some b -> ap_addr (ap_of b) <> addr) -> (length c1 < fuel)%nat ->
  exists c0 u b, s :: c1 = c0 ++ [u] /\ ap_heap t !! u = Some b /\
    hash_unlink fuel t s addr = Ok (upd_ap_heap <[u := set_ap_hnext (ap_hnext a) b]> t).
Proof.
  induction c1 as [|x c1 IH]; intros s p c2 a fuel Hc Ha Ea Hne Hf; (destruct fuel as [|fuel]; [cbn in Hf; lia|]); cbn [app hchain] in Hc.
  - destruct Hc as (_ & b & Hb & En & a' & Ha' & _). exists [], s, b. split; [done|]. split; [done|]. cbn [hash_unlink]. unfold get_ap. rewrite Hb.
    cbn [res_bind]. rewrite En, Ha. cbn [res_bind]. rewrite bool_decide_eq_true_2 by done. now apply upd_ap_run.
  - destruct Hc as (_ & b & Hb & En & d & Hd & Hc).
    destruct (IH x p c2 a fuel) as (c0 & u & e & E & He & Er); [cbn [app hchain]; eauto|done|done|intros q f Hq; apply Hne; now right|cbn in Hf; lia|].
    exists (s :: c0), u, e. split; [cbn [app]; now rewrite <- E|]. split; [done|]. cbn [hash_unlink]. unfold get_ap. rewrite Hb. cbn [res_bind].
    rewrite En, Hd. cbn [res_bind]. rewrite bool_decide_eq_false_2; [exact Er|]. apply (Hne x); [left|done].
Qed.

(** The addresses of the entries are distinct. *)
Definition apart (h : gmap positive ap_info) : Prop := forall p q a b, h !! p = Some a -> h !! q = Some b ->
  ap_addr (ap_of a) = ap_addr (ap_of b) -> p = q.

Lemma hash_del_run t l l' p a : hashed (ap_heap t) (ap_hash t) l -> length (ap_hash t) = 256%nat -> apart (ap_heap t) -> p ∈ l ->
  ap_heap t !! p = Some a -> mac_ok (ap_addr (ap_of a)) -> (forall q, q ∈ l' <-> q ∈ l /\ q <> p) ->
  exists t', ap_ap_hash_del t p = Ok t' /\ hashed (ap_heap t') (ap_hash t') l' /\ hash_only t t'.
Proof.
  intros H Hlen Hap Hp Ha Hm Hl'. destruct (bucket_rd a Hm) as (k & Hk & Hb & Ek). destruct (lookup_lt_is_Some_2 (ap_hash t) k) as [o Ho]; [lia|].
  unfold ap_ap_hash_del, get_ap at 1. rewrite Ha. cbn [res_bind]. rewrite Ek. cbn [res_bind]. rewrite (rd_hash t k o Ho). cbn [res_bind].
  destruct (H k o Ho) as (c & Hc & Hn & Hi). assert (p ∈ c) as (c1 & c2 & ->)%list_elem_of_split by (apply Hi; eauto).
  assert (forall q, q ∈ c1 ++ c2 <-> q ∈ c1 ++ p :: c2 /\ q <> p) as Hcut.
  { intros q. rewrite !elem_of_app, elem_of_cons. apply NoDup_app in Hn as (_ & D & N2). apply NoDup_cons in N2 as [N2 _]. split.
    - intros [Hq|Hq]; (split; [auto|]); intros ->; [apply (D p Hq); left|done].
    - intros [[Hq|[->|Hq]] Hne]; [now left|done|now right]. }
  destruct c1 as [|s c1]; cbn [app] in *.
  - destruct Hc as (-> & a' & Ha' & Hc). assert (a' = a) as -> by congruence. unfold get_ap. rewrite Ha. cbn [res_bind].
    rewrite bool_decide_eq_true_2 by done. rewrite wr_hash by lia. cbn [res_bind]. eexists. split; [reflexivity|].
    cbn [ap_heap ap_hash set_ap_hash]. split; [|split; try done; apply length_insert].
    intros j o' Hj. destruct (decide (j = k)) as [->|Hjk].
    + rewrite list_lookup_insert_eq in Hj by lia. injection Hj as <-. exists c2. split; [done|]. apply NoDup_cons in Hn as [_ Hn]. split; [done|].
      intros q. rewrite Hcut, Hi, Hl'. tauto.
    + rewrite list_lookup_insert_ne in Hj by done. destruct (H j o' Hj) as (c & Hc' & Hn' & Hi'). exists c. split; [done|]. split; [done|].
      intros q. rewrite Hi', Hl'. split; [|tauto]. intros [Hq (b & Hb' & E)]. split; [|eauto]. split; [done|]. intros ->.
      rewrite Ha in Hb'. injection Hb' as <-. rewrite Hb in E. injection E as E. lia.
  - assert (o = Some s) as -> by (apply (hchain_hd _ _ _ Hc)). destruct (hchain_live _ _ _ s Hc) as [d Hd]; [left|]. unfold get_ap. rewrite Hd. cbn [res_bind].
    assert (s <> p) as Hsp by (intros ->; apply NoDup_cons in Hn as [Hn _]; apply Hn; apply elem_of_app; right; left).
    rewrite bool_decide_eq_false_2 by (intros E; apply Hsp; now apply (Hap s p d a)).
    destruct (hash_unlink_run t (ap_addr (ap_of a)) c1 s p c2 a (ap_fuel t)) as (c0 & u & b & E & Hu & Er); [done|done|done| | |].
    { intros q b Hq Hqb E. assert (q = p) as -> by now apply (Hap q p b a). apply NoDup_cons in Hn as [_ Hn]. apply NoDup_app in Hn as (_ & D & _). apply (D p Hq). left. }
    { pose proof (hchain_size _ _ _ Hc Hn) as Hs. cbn [length] in Hs. rewrite length_app in Hs. unfold ap_fuel. cbn [length] in Hs. lia. }
    rewrite Er. eexists. split; [reflexivity|]. cbn [ap_heap ap_hash upd_ap_heap]. split; [|split; try done; now apply (same_insert _ _ _ b)].
    assert (s :: c1 ++ p :: c2 = c0 ++ u :: p :: c2) as Es by (change (u :: p :: c2) with ([u] ++ p :: c2); rewrite app_assoc, <- E; done).
    assert (in_bucket (ap_heap t) l k u) as Hbu by (apply Hi; rewrite Es; apply elem_of_app; right; left).
    intros j o' Hj. assert (forall q, q ∈ l' /\ (exists a0, <[u := set_ap_hnext (ap_hnext a) b]> (ap_heap t) !! q = Some a0 /\ bucket a0 = Some (Z.of_nat j)) <->
      in_bucket (ap_heap t) l' j q) as Hin by (intros q; now apply (in_bucket_insert _ _ b)).
    destruct (decide (j = k)) as [->|Hjk].
    + assert (o' = Some s) as -> by congruence. exists (s :: c1 ++ c2). split; [|split].
      * assert (s :: c1 ++ c2 = c0 ++ u :: c2) as -> by (change (u :: c2) with ([u] ++ c2); rewrite app_assoc, <- E; done).
        apply (hchain_cut _ _ _ _ p _ a b); try done; now rewrite <- Es.
      * change (s :: c1 ++ p :: c2) with ((s :: c1) ++ p :: c2) in Hn. change (NoDup ((s :: c1) ++ c2)).
        apply NoDup_app in Hn as (N1 & D & N2). apply NoDup_cons in N2 as [_ N2]. apply NoDup_app. split; [done|]. split; [|done]. intros q Hq Hq2. apply (D q Hq). now right.
      * intros q. rewrite Hin, Hcut, Hi. unfold in_bucket. rewrite Hl'. tauto.
    + destruct (H j o' Hj) as (c & Hc' & Hn' & Hi'). exists c. split; [|split; [done|]].
      * apply hchain_insert; [done|]. intros Hq. apply Hi' in Hq as [_ (x & Hx & Ex)]. destruct Hbu as [_ (y & Hy & Ey)].
        assert (x = y) as -> by congruence. rewrite Ex in Ey. injection Ey as Ey. lia.
      * intros q. rewrite Hin, Hi'. unfold in_bucket. rewrite Hl'. split; [|tauto]. intros [Hq (x & Hx & Ex)]. split; [|eauto]. split; [done|]. intros ->.
        assert (x = a) as -> by congruence. rewrite Hb in Ex. injection Ex as Ex. lia.
Qed.

(** ** The table

    [table t l ds]: the entries are those at [l], from the last used one on, and hold
    [ds]. *)

Record ap_ok (d : ap_data) : Prop := {
  ao_addr : mac_ok (ap_addr d);
  ao_rates : zlen (ap_supported_rates d) = WLAN_SUPP_RATES_MAX /\ Forall u8 (ap_supported_rates d) }.

Definition holds (h : gmap positive ap_info) (p : positive) (d : ap_data) : Prop := ap_of <$> h !! p = Some d.

Record table (t : ap_table) (l : list positive) (ds : list ap_data) : Prop := {
  tb_links : links (ap_heap t) (ap_list t) l;
  tb_data : Forall2 (holds (ap_heap t)) l ds;
  tb_heap : forall p, is_Some (ap_heap t !! p) -> p ∈ l;
  tb_num : num_ap t = zlen l;
  tb_len : length (ap_hash t) = 256%nat;
  tb_hashed : hashed (ap_heap t) (ap_hash t) l;
  tb_ok : Forall ap_ok ds;
  tb_addr : NoDup (map ap_addr ds) }.

(** The neighbours that the interface knows, from the last heard one on. *)
Definition neighbours (t : ap_table) (ds : list ap_data) : Prop := exists l, table t l ds.

Lemma same_of_list h h' : same beside_list h h' -> same ap_of h h'.
Proof. intros S. exact (same_proj beside_list snd h h' S). Qed.
Lemma same_of_hash h h' : same beside_hash h h' -> same ap_of h h'.
Proof. intros S. exact (same_proj beside_hash snd h h' S). Qed.

Lemma links_same h h' hd l : same beside_hash h h' -> links h hd l -> links h' hd l.
Proof.
  intros S L. apply (links_frame h); [done|]. intros p a _ Ha. destruct (same_some _ _ _ _ _ S Ha) as (a' & Ha' & E). injection E as E1 E2 _. eauto.
Qed.

Lemma same_live {B} (v : ap_info -> B) h h' q : same v h h' -> is_Some (h' !! q) <-> is_Some (h !! q).
Proof. intros S. rewrite <- !(fmap_is_Some v). now rewrite (S q). Qed.

Lemma holds_same h h' l ds : same ap_of h h' -> Forall2 (holds h) l ds -> Forall2 (holds h') l ds.
Proof. intros S Hf. apply (Forall2_impl (holds h)); [done|]. intros p d Hp. unfold holds. now rewrite S. Qed.

Lemma holds_at h l ds p : Forall2 (holds h) l ds -> p ∈ l -> exists d, d ∈ ds /\ holds h p d.
Proof.
  intros Hf Hp. induction Hf as [|q d l ds Hq Hf IH]; [inversion Hp|]. apply elem_of_cons in Hp as [->|Hp]; [exists d; split; [left|done]|].
  destruct (IH Hp) as (e & He & Hh). exists e. split; [now right|done].
Qed.

Lemma table_holds t l ds p a : table t l ds -> ap_heap t !! p = Some a -> p ∈ l /\ ap_of a ∈ ds /\ ap_ok (ap_of a).
Proof.
  intros T Ha. assert (p ∈ l) as Hp by (apply (tb_heap _ _ _ T); eauto). destruct (holds_at _ _ _ p (tb_data _ _ _ T) Hp) as (d & Hd & E).
  unfold holds in E. rewrite Ha in E. injection E as <-. split; [done|]. split; [done|]. pose proof (tb_ok _ _ _ T) as Ho. rewrite Forall_forall in Ho. now apply Ho.
Qed.

Lemma holds_inj h l ds : Forall2 (holds h) l ds -> NoDup (map ap_addr ds) -> forall p q d e, p ∈ l -> q ∈ l -> holds h p d -> holds h q e ->
  ap_addr d = ap_addr e -> p = q.
Proof.
  intros Hf. induction Hf as [|r g l ds Hr Hf IH]; intros Hn p q d e Hp Hq Hd He E; [inversion Hp|]. cbn [map] in Hn. apply NoDup_cons in Hn as [Hg Hn].
  assert (forall x f, x ∈ l -> holds h x f -> ap_addr f = ap_addr g -> False) as Hx.
  { intros x f Hx Hh Ef. destruct (holds_at _ _ _ x Hf Hx) as (f' & Hf' & Hh'). unfold holds in Hh, Hh'. rewrite Hh in Hh'. injection Hh' as <-.
    apply Hg. rewrite <- Ef. now apply list_elem_of_fmap_2. }
  unfold holds in Hr. apply elem_of_cons in Hp as [->|Hp]; apply elem_of_cons in Hq as [->|Hq]; [done| | |now apply (IH Hn p q d e)].
  - exfalso. apply (Hx q e); try done. rewrite <- E. unfold holds in Hd. congruence.
  - exfalso. apply (Hx p d); try done. rewrite E. unfold holds in He. congruence.
Qed.

Lemma table_apart t l ds : table t l ds -> apart (ap_heap t).
Proof.
  intros T p q a b Ha Hb E. apply (holds_inj _ _ _ (tb_data _ _ _ T) (tb_addr _ _ _ T) p q (ap_of a) (ap_of b)); try done.
  1, 2: apply (tb_heap _ _ _ T); eauto. all: unfold holds; now rewrite ?Ha, ?Hb.
Qed.

Lemma hashed_delete h arr l p : hashed h arr l -> p ∉ l -> hashed (delete p h) arr l.
Proof.
  intros H Hp k o Hk. destruct (H k o Hk) as (c & Hc & Hn & Hi). assert (forall q, q ∈ l -> delete p h !! q = h !! q) as Hd.
  { intros q Hq. apply lookup_delete_ne. intros ->. done. }
  exists c. split; [|split; [done|]].
  - apply (hchain_frame h); [done|]. intros q a Hq Ha. apply Hi in Hq as [Hq _]. exists a. now rewrite Hd.
  - intros q. rewrite Hi. split; intros [Hq Hx]; (split; [done|]); [now rewrite Hd|now rewrite Hd in Hx].
Qed.

Lemma find_ap_run t c addr : forall fuel o, hchain (ap_heap t) o c -> (length c <= fuel)%nat ->
  exists r, find_ap fuel t o addr = Ok r /\
    match r with
    | Some p => p ∈ c /\ exists a, ap_heap t !! p = Some a /\ ap_addr (ap_of a) = addr
    | None => forall p a, p ∈ c -> ap_heap t !! p = Some a -> ap_addr (ap_of a) <> addr
    end.
Proof.
  induction c as [|q c IH]; intros fuel o Hc Hf; cbn [hchain] in Hc.
  - subst o. exists None. split; [by destruct fuel|]. intros p a Hp. inversion Hp.
  - destruct Hc as (-> & a & Ha & Hc). destruct fuel as [|fuel]; [cbn in Hf; lia|]. cbn [find_ap]. unfold get_ap. rewrite Ha. cbn [res_bind].
    case_bool_decide as E; [exists (Some q); split; [done|]; split; [left|eauto]|].
    destruct (IH fuel (ap_hnext a) Hc) as (r & Er & Hr); [cbn in Hf; lia|]. exists r. split; [done|]. destruct r as [p|].
    + destruct Hr as [Hp Hr]. split; [now right|done].
    + intros p b [->|Hp]%elem_of_cons Hb; [congruence|now apply (Hr p)].
Qed.

Lemma ap_get_ap_run t l ds addr : table t l ds -> mac_ok addr -> exists r, ap_get_ap t addr = Ok r /\
  match r with
  | Some p => exists d, p ∈ l /\ holds (ap_heap t) p d /\ ap_addr d = addr
  | None => addr ∉ map ap_addr ds
  end.
Proof.
  intros T Hm. destruct (mac_byte5 _ Hm) as (k & Ek & Hk). destruct (lookup_lt_is_Some_2 (ap_hash t) k) as [o Ho]; [rewrite (tb_len _ _ _ T); lia|].
  destruct (tb_hashed _ _ _ T k o Ho) as (c & Hc & Hn & Hi). unfold ap_get_ap. rewrite Ek. cbn [res_bind]. rewrite (rd_hash t k o Ho). cbn [res_bind].
  destruct (find_ap_run t c addr (ap_fuel t) o Hc) as (r & Er & Hr); [pose proof (hchain_size _ _ _ Hc Hn); unfold ap_fuel; lia|].
  exists r. split; [done|]. destruct r as [p|].
  - destruct Hr as (Hp & a & Ha & Ea). exists (ap_of a). split; [apply (tb_heap _ _ _ T); eauto|]. split; [unfold holds; now rewrite Ha|done].
  - intros (d & -> & Hd)%list_elem_of_fmap. pose proof (tb_data _ _ _ T) as Hf.
    apply list_elem_of_lookup in Hd as [j Hj]. destruct (Forall2_lookup_r _ _ _ _ _ Hf Hj) as (p & Hp & Hh). unfold holds in Hh.
    destruct (ap_heap t !! p) as [a|] eqn:Ha; [|done]. injection Hh as Hh. apply (Hr p a); [|done|congruence]. apply Hi.
    split; [now apply list_elem_of_lookup_2 in Hp|]. exists a. split; [done|]. unfold bucket. rewrite Hh. now apply rd_Ok_inv in Ek as [_ Ek].
Qed.

Lemma fmap_delete_ne (h : gmap positive ap_info) p l ds : p ∉ l -> Forall2 (holds h) l ds -> Forall2 (holds (delete p h)) l ds.
Proof.
  intros Hp Hf. induction Hf as [|q d l ds Hq Hf IH]; [done|]. constructor; [|apply IH; intros ?; apply Hp; now right].
  unfold holds. rewrite lookup_delete_ne; [done|]. intros ->. apply Hp. left.
Qed.

(** An entry is freed. *)
Lemma ap_free_ap_run t l1 p l2 ds1 d ds2 : table t (l1 ++ p :: l2) (ds1 ++ d :: ds2) -> length l1 = length ds1 ->
  exists t', ap_free_ap t p = Ok t' /\ table t' (l1 ++ l2) (ds1 ++ ds2) /\ olbc t' = olbc t.
Proof.
  intros T Hlen. destruct (links_split _ _ _ _ _ (tb_links _ _ _ T)) as (Hp1 & Hp2 & N1 & N2 & D).
  destruct (Forall2_app_inv _ _ _ _ _ Hlen (tb_data _ _ _ T)) as [F1 F2]. inversion F2 as [|? ? ? ? Hd F2']; subst.
  destruct (ap_heap t !! p) as [a|] eqn:Ha; [|unfold holds in Hd; now rewrite Ha in Hd]. destruct (table_holds _ _ _ p a T Ha) as (Hp & Hin & Hok).
  assert (forall q, q ∈ l1 ++ l2 <-> q ∈ l1 ++ p :: l2 /\ q <> p) as Hcut.
  { intros q. rewrite !elem_of_app, elem_of_cons. split; [intros [?|?]; (split; [auto|]); intros ->; done|]. intros [[?|[->|?]] ?]; auto; done. }
  destruct (hash_del_run t _ (l1 ++ l2) p a (tb_hashed _ _ _ T) (tb_len _ _ _ T) (table_apart _ _ _ T) Hp Ha (ao_addr _ Hok) Hcut) as (t1 & E1 & H1 & O1).
  destruct (list_del_run t1 l1 p l2) as (t2 & E2 & L2 & O2).
  { rewrite (ho_list _ _ O1). apply (links_same (ap_heap t)); [apply O1|apply T]. }
  unfold ap_free_ap. rewrite E1. cbn [res_bind]. rewrite E2. cbn [res_bind]. eexists. split; [reflexivity|].
  assert (same ap_of (ap_heap t) (ap_heap t2)) as S by (apply (same_trans _ _ (ap_heap t1)); [apply same_of_hash, O1|apply same_of_list, O2]).
  assert (p ∉ l1 ++ l2) as Hp' by (rewrite elem_of_app; intros [?|?]; done).
  split; [|cbn; now rewrite (lo_olbc _ _ O2), (ho_olbc _ _ O1)]. split; cbn [ap_heap ap_list ap_hash num_ap upd_ap_heap set_num_ap].
  - apply (links_frame (ap_heap t2)); [done|]. intros q b Hq Hb. exists b. rewrite lookup_delete_ne; [done|]. intros ->. done.
  - apply fmap_delete_ne; [done|]. apply (holds_same (ap_heap t)); [done|]. now apply Forall2_app.
  - intros q [b Hb]. apply lookup_delete_Some in Hb as [Hq Hb]. apply Hcut. split; [|done]. apply (tb_heap _ _ _ T). apply (same_live ap_of _ _ q S). eauto.
  - rewrite (lo_num _ _ O2), (ho_num _ _ O1), (tb_num _ _ _ T), !zlen_app, zlen_cons. lia.
  - rewrite (lo_hash _ _ O2), (ho_len _ _ O1). apply T.
  - apply hashed_delete; [|done]. rewrite (lo_hash _ _ O2). apply (hashed_frame (ap_heap t1)); [apply O2|done].
  - pose proof (tb_ok _ _ _ T) as Ho. apply Forall_app in Ho as [Ho1 Ho2]. inversion Ho2; subst. now apply Forall_app.
  - pose proof (tb_addr _ _ _ T) as Hn. rewrite map_app in *. cbn [map] in Hn. apply NoDup_app in Hn as (M1 & DD & M2). apply NoDup_cons in M2 as [_ M2].
    apply NoDup_app. split; [done|]. split; [|done]. intros x Hx Hx2. apply (DD x Hx). now right.
Qed.

(** The data of an entry change. *)
Lemma table_data t l1 p l2 ds1 d ds2 f : table t (l1 ++ p :: l2) (ds1 ++ d :: ds2) -> length l1 = length ds1 -> ap_addr (f d) = ap_addr d -> ap_ok (f d) ->
  exists t', upd_ap p (upd_ap_of f) t = Ok t' /\ table t' (l1 ++ p :: l2) (ds1 ++ f d :: ds2) /\ olbc t' = olbc t /\ ap_list t' = ap_list t.
Proof.
  intros T Hlen Ea Hok. destruct (links_split _ _ _ _ _ (tb_links _ _ _ T)) as (Hp1 & Hp2 & _).
  destruct (Forall2_app_inv _ _ _ _ _ Hlen (tb_data _ _ _ T)) as [F1 F2]. inversion F2 as [|? ? ? ? Hd F2']; subst.
  destruct (ap_heap t !! p) as [a|] eqn:Ha; [|unfold holds in Hd; now rewrite Ha in Hd]. assert (ap_of a = d) as Hda by (unfold holds in Hd; rewrite Ha in Hd; now injection Hd).
  rewrite (upd_ap_run p _ t a Ha). eexists. split; [reflexivity|]. split; [|done].
  assert (forall l ds, p ∉ l -> Forall2 (holds (ap_heap t)) l ds -> Forall2 (holds (<[p := upd_ap_of f a]> (ap_heap t))) l ds) as Hins.
  { intros l ds Hp Hf. induction Hf as [|q e l ds Hq Hf IH]; [done|]. constructor; [|apply IH; intros ?; apply Hp; now right].
    unfold holds. rewrite lookup_insert_ne; [done|]. intros ->. apply Hp. left. }
  split; cbn [ap_heap ap_list ap_hash num_ap upd_ap_heap]; try apply T.
  - apply (links_frame (ap_heap t)); [apply T|]. intros q b _ Hb. rewrite (at_insert _ p a q b Hb Ha (upd_ap_of f)). eexists. split; [reflexivity|].
    case_bool_decide; [|done]. subst q. now assert (b = a) as -> by congruence.
  - apply Forall2_app; [now apply Hins|]. constructor; [unfold holds; rewrite lookup_insert_eq, <- Hda; done|now apply Hins].
  - intros q [b Hb]. apply (tb_heap _ _ _ T). apply lookup_insert_Some in Hb as [[<- _]|[_ Hb]]; eauto.
  - apply (hashed_view (ap_heap t)); [|apply T]. apply (same_insert _ _ _ a); [done|]. unfold chain_view, bucket. cbn [ap_hnext ap_of upd_ap_of]. now rewrite Hda, Ea.
  - pose proof (tb_ok _ _ _ T) as Ho. apply Forall_app in Ho as [Ho1 Ho2]. inversion Ho2; subst. apply Forall_app. split; [done|]. now constructor.
  - pose proof (tb_addr _ _ _ T) as Hn. rewrite map_app in *. cbn [map] in *. now rewrite Ea.
Qed.

(** An entry moves to the head of the list. *)
Lemma table_move t l1 p l2 ds1 d ds2 : table t (l1 ++ p :: l2) (ds1 ++ d :: ds2) -> length l1 = length ds1 ->
  exists t', (let! t := ap_ap_list_del t p in ap_ap_list_add t p) = Ok t' /\ table t' (p :: l1 ++ l2) (d :: ds1 ++ ds2) /\ olbc t' = olbc t.
Proof.
  intros T Hlen. destruct (links_split _ _ _ _ _ (tb_links _ _ _ T)) as (Hp1 & Hp2 & _).
  destruct (list_del_run t l1 p l2 (tb_links _ _ _ T)) as (t1 & E1 & L1 & O1). rewrite E1. cbn [res_bind].
  destruct (ap_heap t1 !! p) as [a|] eqn:Ha.
  2: { destruct (links_live _ _ _ p (tb_links _ _ _ T)) as [b Hb]; [apply elem_of_app; right; left|].
       destruct (same_some _ _ _ _ _ (lo_heap _ _ O1) Hb) as (b' & Hb' & _). congruence. }
  destruct (list_add_run t1 (l1 ++ l2) p a L1) as (t2 & E2 & L2 & O2); [rewrite elem_of_app; intros [?|?]; done|done|]. exists t2. split; [exact E2|].
  assert (list_only t t2) as O by now apply (list_only_trans _ t1). split; [|apply O].
  assert (forall {A} (y : A) k1 k2, y :: k1 ++ k2 ≡ₚ k1 ++ y :: k2) as Hperm by (intros; apply Permutation_middle).
  destruct (Forall2_app_inv _ _ _ _ _ Hlen (tb_data _ _ _ T)) as [F1 F2]. inversion F2 as [|? ? ? ? Hd F2']; subst. split; [done| | | | | | |].
  - apply (holds_same (ap_heap t)); [apply same_of_list, O|]. constructor; [done|]. now apply Forall2_app.
  - intros q Hq. rewrite (Hperm _ p). apply (tb_heap _ _ _ T). now apply (same_live beside_list _ _ q (lo_heap _ _ O)).
  - rewrite (lo_num _ _ O), (tb_num _ _ _ T). unfold zlen. now rewrite (Hperm _ p).
  - rewrite (lo_hash _ _ O). apply T.
  - rewrite (lo_hash _ _ O). apply (hashed_frame (ap_heap t)); [apply O|]. apply (hashed_perm _ _ (l1 ++ p :: l2)); [intros q; now rewrite (Hperm _ p)|apply T].
  - rewrite (Hperm _ d). apply T.
  - rewrite (Hperm _ d). apply T.
Qed.

Lemma fresh_data_ok addr : mac_ok addr -> ap_ok (fresh_data addr).
Proof. intros Hm. split; [done|]. split; [done|]. cbn [ap_supported_rates fresh_data]. apply Forall_replicate. by_check. Qed.

(** A new entry stands at the head. *)
Lemma table_add t l ds p addr : table t l ds -> ap_heap t !! p = None -> mac_ok addr -> addr ∉ map ap_addr ds ->
  exists t', (let! t := ap_ap_list_add (upd_ap_heap <[p := fresh_ap addr]> t) p in ap_ap_hash_add (set_num_ap (num_ap t + 1) t) p) = Ok t' /\
    table t' (p :: l) (fresh_data addr :: ds) /\ olbc t' = olbc t.
Proof.
  intros T Hp Hm Hadr. set (t0 := upd_ap_heap _ t). assert (p ∉ l) as Hpl.
  { intros Hin. destruct (links_live _ _ _ p (tb_links _ _ _ T) Hin) as [a Ha]. congruence. }
  assert (forall q, q ∈ l -> ap_heap t0 !! q = ap_heap t !! q) as Hold by (intros q Hq; cbn; rewrite lookup_insert_ne; [done|intros ->; done]).
  destruct (list_add_run t0 l p (fresh_ap addr)) as (t1 & E1 & L1 & O1); [|done|apply lookup_insert_eq|].
  { apply (links_frame (ap_heap t)); [apply T|]. intros q a Hq Ha. exists a. now rewrite Hold. }
  rewrite E1. cbn [res_bind]. set (t1' := set_num_ap _ t1).
  destruct (same_some _ _ _ p (fresh_ap addr) (lo_heap _ _ O1)) as (a & Ha & Ea); [apply lookup_insert_eq|]. injection Ea as _ Ea.
  destruct (hash_add_run t1' l p a) as (t2 & E2 & H2 & O2); try done.
  { change (hashed (ap_heap t1) (ap_hash t1) l). rewrite (lo_hash _ _ O1). apply (hashed_frame (ap_heap t0)); [apply O1|].
    intros k o Hk. destruct (tb_hashed _ _ _ T k o Hk) as (c & Hc & Hn & Hi). exists c. split; [|split; [done|]].
    - apply hchain_insert; [done|]. intros Hq. now apply Hi in Hq as [Hq _].
    - intros q. rewrite Hi. split; intros [Hq Hx]; (split; [done|]); [now rewrite Hold|now rewrite Hold in Hx]. }
  { change (length (ap_hash t1) = 256%nat). rewrite (lo_hash _ _ O1). apply T. }
  { now rewrite Ea. }
  exists t2. split; [exact E2|].
  assert (same ap_of (ap_heap t0) (ap_heap t2)) as S by (apply (same_trans _ _ (ap_heap t1)); [apply same_of_list, O1|exact (same_of_hash _ _ (ho_heap _ _ O2))]).
  split; [|rewrite (ho_olbc _ _ O2); exact (lo_olbc _ _ O1)]. split.
  - rewrite (ho_list _ _ O2). apply (links_same (ap_heap t1)); [apply (ho_heap _ _ O2)|exact L1].
  - apply (holds_same (ap_heap t0)); [done|]. constructor; [unfold holds; cbn; now rewrite lookup_insert_eq|].
    pose proof (tb_data _ _ _ T) as Hf. apply Forall2_same_length_lookup in Hf as [Hl Hf]. apply Forall2_same_length_lookup. split; [done|].
    intros i q d Hq Hd. unfold holds. rewrite Hold by now apply list_elem_of_lookup_2 in Hq. now apply (Hf i).
  - intros q Hq. apply (same_live ap_of _ _ q S) in Hq. destruct (decide (q = p)) as [->|Hqp]; [left|right]. cbn in Hq.
    rewrite lookup_insert_ne in Hq by done. now apply (tb_heap _ _ _ T).
  - rewrite (ho_num _ _ O2). cbn. rewrite (lo_num _ _ O1). change (num_ap t0) with (num_ap t). rewrite (tb_num _ _ _ T), zlen_cons. lia.
  - rewrite (ho_len _ _ O2). cbn. rewrite (lo_hash _ _ O1). apply T.
  - exact H2.
  - constructor; [now apply fresh_data_ok|apply T].
  - cbn [map]. constructor; [done|apply T].
Qed.

(** [ap_ap_add]: the entry is the first, and the table stays within its bound. *)
Lemma ap_ap_add_run max t l ds p addr : table t l ds -> ap_heap t !! p = None -> mac_ok addr -> addr ∉ map ap_addr ds ->
  1 <= max -> zlen ds <= max ->
  exists t' l', ap_ap_add max t p addr = Ok t' /\ table t' (p :: l') (take (Z.to_nat max) (fresh_data addr :: ds)) /\ olbc t' = olbc t.
Proof.
  intros T Hp Hm Hadr H1 Hmax. destruct (table_add t l ds p addr T Hp Hm Hadr) as (t1 & E1 & T1 & O1). unfold ap_ap_add.
  destruct (ap_ap_list_add _ p) as [t0|?] eqn:E0; cbn [res_bind] in E1 |- *; [|done].
  rewrite E1. cbn [res_bind]. destruct (li_entry _ _ _ (tb_links _ _ _ T1) [] p l eq_refl) as (a & Ha & Na & Pa). cbn [last] in Pa.
  unfold get_ap at 1. rewrite Ha. cbn [res_bind]. rewrite (tb_num _ _ _ T1), Pa.
  pose proof (Forall2_length _ _ _ (tb_data _ _ _ T)) as Hlen.
  destruct (bool_decide_reflect (zlen (p :: l) > max)) as [Hgt|Hle]; cbn [andb].
  - rewrite zlen_cons in Hgt. unfold zlen in Hgt, Hmax. rewrite Hlen in Hgt.
    destruct (exists_last (l := l)) as (l1 & q & ->); [intros ->; cbn in Hlen; lia|].
    destruct (exists_last (l := ds)) as (ds1 & d & ->); [intros ->; rewrite length_app in Hlen; cbn in Hlen; lia|]. rewrite !length_app in Hgt, Hmax. rewrite (length_app l1), (length_app ds1) in Hlen. cbn [length] in *.
    change (p :: l1 ++ [q]) with ((p :: l1) ++ [q]). rewrite last_app. cbn [last].
    assert (q <> p) as Hqp.
    { intros ->. pose proof (li_nodup _ _ _ (tb_links _ _ _ T1)) as Hn. apply NoDup_cons in Hn as [Hn _]. apply Hn. apply elem_of_app. right. left. }
    rewrite bool_decide_eq_true_2 by (intros [= ?]; done). cbn [andb deref res_bind].
    destruct (ap_free_ap_run t1 (p :: l1) q [] (fresh_data addr :: ds1) d []) as (t2 & E2 & T2 & O2); [exact T1|cbn; lia|].
    unfold get_ap. destruct (links_live _ _ _ q (tb_links _ _ _ T1)) as [b Hb]; [right; apply elem_of_app; right; left|]. rewrite Hb. cbn [res_bind].
    exists t2, l1. split; [exact E2|]. rewrite !app_nil_r in T2. split; [|congruence].
    assert (take (Z.to_nat max) (fresh_data addr :: ds1 ++ [d]) = fresh_data addr :: ds1) as ->; [|exact T2].
    change (fresh_data addr :: ds1 ++ [d]) with ((fresh_data addr :: ds1) ++ [d]). rewrite take_app_length'; [done|]. cbn [length]. lia.
  - exists t1, l. split; [done|]. split; [|done]. rewrite take_ge; [exact T1|]. rewrite zlen_cons in Hle. unfold zlen in *. cbn [length]. lia.
Qed.

(** [hostapd_free_aps] frees every entry and ends. *)
Lemma free_aps_run : forall l ds t fuel, table t l ds -> (length l <= fuel)%nat ->
  exists t', free_aps fuel t (head l) = Ok t' /\ table t' [] [] /\ olbc t' = olbc t.
Proof.
  induction l as [|p l IH]; intros ds t fuel T Hf; pose proof (tb_data _ _ _ T) as Hd.
  - inversion Hd; subst. exists t. split; [by destruct fuel|done].
  - destruct fuel as [|fuel]; [cbn in Hf; lia|]. inversion Hd as [|? d ? ds' Hp Hd']; subst. cbn [head free_aps].
    destruct (li_entry _ _ _ (tb_links _ _ _ T) [] p l eq_refl) as (a & Ha & Na & _). unfold get_ap. rewrite Ha. cbn [res_bind].
    destruct (ap_free_ap_run t [] p l [] d ds' T eq_refl) as (t1 & E1 & T1 & O1). rewrite E1. cbn [res_bind]. rewrite Na.
    destruct (IH ds' t1 fuel T1) as (t2 & E2 & T2 & O2); [cbn in Hf; lia|]. exists t2. split; [done|]. split; [done|congruence].
Qed.

Lemma table_size t l ds : table t l ds -> (length l <= size (ap_heap t))%nat.
Proof.
  intros T. pose proof (tb_links _ _ _ T) as L. rewrite <- (size_list_to_set (C := gset positive) l) by apply L. rewrite <- size_dom. apply subseteq_size.
  intros p Hp%elem_of_list_to_set. apply elem_of_dom. now apply (links_live _ _ _ _ L).
Qed.

Lemma hostapd_free_aps_run t l ds : table t l ds -> exists t', hostapd_free_aps t = Ok t' /\ table t' [] [] /\ olbc t' = olbc t.
Proof.
  intros T. unfold hostapd_free_aps. rewrite (li_head _ _ _ (tb_links _ _ _ T)).
  destruct (free_aps_run l ds t (ap_fuel t) T) as (t' & E & T' & O); [pose proof (table_size _ _ _ T); unfold ap_fuel; lia|].
  rewrite E. cbn [res_bind]. eexists. split; [reflexivity|]. split; [|exact O]. 
  split; try apply T'. cbn. pose proof (tb_links _ _ _ T') as L. pose proof (li_head _ _ _ L) as E0. cbn [head] in E0. now rewrite E0 in L.
Qed.

(** The table of an interface that was set up. *)
Definition no_aps : ap_table := {| ap_list := None; num_ap := 0; ap_hash := replicate 256 None; ap_heap := ∅; olbc := false |}.

Lemma no_aps_table : table no_aps [] [].
Proof.
  split; try done.
  - split; [done|constructor|]. intros l1 p l2 E. by destruct l1.
  - intros p [a Ha]. cbn in Ha. now rewrite lookup_empty in Ha.
  - intros k o Hk. exists []. apply lookup_replicate in Hk as [-> _]. split; [done|]. split; [constructor|]. intros p. split; [intros H; inversion H|]. intros [H _]. inversion H.
  - constructor.
Qed.

(** The table stays within its bound. *)
Definition aps_ok (i : hostapd_iface) : Prop := exists ds, neighbours (aps i) ds /\ zlen ds <= Z.max 0 (ap_table_max_size (iconf i)).

(** What the operations on the stations leave alone in an interface. *)
Definition standing (i : hostapd_iface) : iface_config * ap_table := (iconf i, aps i).

Lemma standing_conf i j : standing i = standing j -> iconf i = iconf j.
Proof. now intros [= E _]. Qed.
Lemma standing_aps i j : standing i = standing j -> aps_ok j -> aps_ok i.
Proof. intros [= E1 E2]. unfold aps_ok. now rewrite E1, E2. Qed.
