(* ===== verification/Ht.v ===== *)
(** * 802.11n and 802.11ac: [ap/ieee802_11_ht.c] and [ap/ieee802_11_vht.c]

    What a station says about itself in an association is copied into its entry;
    counters of the interface say how many stations cannot do what HT offers, and
    the operation mode that the beacons announce follows from the counters. *)

From stdpp Require Import base list numbers gmap strings.
From Stdlib Require Import ZArith Lia.
From S2P Require Import Prelude CString Dense Env World Station.
Local Open Scope Z_scope.

Definition WLAN_STATUS_SUCCESS : Z := 0.
Definition WLAN_STATUS_UNSPECIFIED_FAILURE : Z := 1.
Definition WLAN_STA_WMM : Z := 2 ^ 9.
Definition WLAN_STA_HT : Z := 2 ^ 11.
Definition WLAN_STA_VHT : Z := 2 ^ 18.
Definition WLAN_STA_VHT_OPMODE_ENABLED : Z := 2 ^ 20.
Definition WLAN_STA_VENDOR_VHT : Z := 2 ^ 21.
Definition HT_CAP_INFO_SUPP_CHANNEL_WIDTH_SET : Z := 2 ^ 1.
Definition HT_CAP_INFO_GREEN_FIELD : Z := 2 ^ 4.
Definition HT_CAP_INFO_TX_STBC : Z := 2 ^ 7.
Definition HT_CAP_INFO_RX_STBC_MASK : Z := 2 ^ 8 + 2 ^ 9.
Definition HT_CAP_INFO_SMPS_MASK : Z := 2 ^ 2 + 2 ^ 3.
Definition HT_CAP_INFO_40MHZ_INTOLERANT : Z := 2 ^ 14.
Definition HT_PROT_NO_PROTECTION : Z := 0.
Definition HT_PROT_NONMEMBER_PROTECTION : Z := 1.
Definition HT_PROT_20MHZ_PROTECTION : Z := 2.
Definition HT_PROT_NON_HT_MIXED : Z := 3.
Definition HT_OPER_OP_MODE_HT_PROT_MASK : Z := 3.
Definition HT_OPER_OP_MODE_NON_GF_HT_STAS_PRESENT : Z := 2 ^ 2.
Definition HT_OPER_OP_MODE_OBSS_NON_HT_STAS_PRESENT : Z := 2 ^ 4.
Definition OVERLAPPING_BSS_TRANS_DELAY_FACTOR : Z := 5.
Definition WPA_DRIVER_FLAGS_HT_2040_COEX : Z := 0x100.
Definition WLAN_EID_20_40_BSS_COEXISTENCE : Z := 72.
Definition WLAN_EID_20_40_BSS_INTOLERANT : Z := 73.
Definition WLAN_20_40_BSS_COEX_40MHZ_INTOL : Z := 2.
Definition WLAN_20_40_BSS_COEX_20MHZ_WIDTH_REQ : Z := 4.
Definition WLAN_EID_VHT_CAP : Z := 191.
Definition sizeof_ht_capabilities : Z := 26.
Definition sizeof_vht_capabilities : Z := 12.

(** A call of hostapd about a station, whose result is not used. *)
Definition hostapd (fn : string) (addr : list Z) : M world unit := ext_ (Hostapd (str fn) addr).
Definition set_beacons : M world unit := hostapd "ieee802_11_set_beacons" [].

Definition set_flag (bit : Z) (s : sta_info) : sta_info := set_sta_flags (Z.lor (sta_flags s) bit) s.
Definition clear_flag (bit : Z) (s : sta_info) : sta_info := set_sta_flags (Z.ldiff (sta_flags s) bit) s.

(** ** The operation mode *)

(** One bit of the mode, which is set or cleared when it is not as wanted. *)
Definition ht_bit (bit : Z) (want : bool) (m : Z) : Z * Z :=
  if negb (has m bit) && want then (1, Z.lor m bit)
  else if has m bit && negb want then (1, Z.ldiff m bit)
  else (0, m).

Definition ht_protection (i : hostapd_iface) : Z :=
  if bool_decide (num_sta_no_ht i <> 0) then HT_PROT_NON_HT_MIXED
  else if bool_decide (secondary_channel (ht i) <> 0) && bool_decide (num_sta_ht_20mhz i <> 0) then HT_PROT_20MHZ_PROTECTION
  else if olbc_ht (ht i) then HT_PROT_NONMEMBER_PROTECTION
  else HT_PROT_NO_PROTECTION.

(** The number of changes, and the mode. *)
Definition ht_operation (i : hostapd_iface) : Z * Z :=
  let '(a, m) := ht_bit HT_OPER_OP_MODE_NON_GF_HT_STAS_PRESENT (bool_decide (num_sta_ht_no_gf i <> 0)) (ht_op_mode (ht i)) in
  let '(b, m) := ht_bit HT_OPER_OP_MODE_OBSS_NON_HT_STAS_PRESENT
                   (bool_decide (num_sta_no_ht i <> 0) || olbc_ht (ht i)) m in
  let new_op_mode := ht_protection i in
  if bool_decide (Z.land m HT_OPER_OP_MODE_HT_PROT_MASK <> new_op_mode)
  then (a + b + 1, Z.lor (Z.ldiff m HT_OPER_OP_MODE_HT_PROT_MASK) new_op_mode)
  else (a + b, m).

Definition hostapd_ht_operation_update : M world Z :=
  w <-- get ;;
  if negb (ieee80211n (iconf (ifc w))) || ht_op_mode_fixed (iconf (ifc w)) then ret 0
  else
    modify (upd_ifc (fun i => upd_ht (set_ht_op_mode (snd (ht_operation i))) i)) ;;;
    ret (fst (ht_operation (ifc w))).

(** ** Stations that do not tolerate 40 MHz *)

Definition ap_ht2040_timeout : M world unit :=
  modify (upd_ifc (fun i => upd_ht (set_secondary_channel (secondary_ch (ht i))) i)) ;;;
  set_beacons.

Definition count_intolerant (n : Z) : M world unit :=
  modify (upd_ifc (fun i => upd_ht (set_num_sta_ht40_intolerant (num_sta_ht40_intolerant (ht i) + n)) i)).

(** A counter of the interface and its flag in the entry: counted once. *)
Definition count_up (sta : positive) (flag : sta_info -> bool) (set_sta : sta_info -> sta_info)
    (num : hostapd_iface -> Z) (set : Z -> hostapd_iface -> hostapd_iface) : M world bool :=
  s <-- get_sta sta ;;
  if flag s then ret false
  else upd_sta sta set_sta ;;; modify (upd_ifc (fun i => set (num i + 1) i)) ;;; ret true.

Definition set_intolerant_count (n : Z) : hostapd_iface -> hostapd_iface := upd_ht (set_num_sta_ht40_intolerant n).

Definition ht40_intolerant_add (sta : positive) : M world unit :=
  w <-- get ;;
  let c := iconf (ifc w) in
  if negb (mode_11g (ifc w)) then ret tt
  else if noscan c || no_ht_coex c then ret tt
  else
    counted <-- count_up sta (fun s => ht40_intolerant_set (mlme s)) (upd_mlme (set_ht40_intolerant_set true))
                  (fun i => num_sta_ht40_intolerant (ht i)) set_intolerant_count ;;
    if counted : bool then
      ext_ (EloopCancel (str "ap_ht2040_timeout") []) ;;;
      if bool_decide (secondary_channel (ht (ifc w)) <> 0) && has (drv_flags (ifc w)) WPA_DRIVER_FLAGS_HT_2040_COEX then
        modify (upd_ifc (upd_ht (set_secondary_channel 0))) ;;; set_beacons
      else ret tt
    else ret tt.

(** [ht40_intolerant_remove] after its test of [sta->ht40_intolerant_set]. *)
Definition ht40_intolerant_left : M world unit :=
  count_intolerant (-1) ;;;
  w <-- get ;;
  if bool_decide (num_sta_ht40_intolerant (ht (ifc w)) = 0)
     && has (ht_capab (iconf (ifc w))) HT_CAP_INFO_SUPP_CHANNEL_WIDTH_SET
     && has (drv_flags (ifc w)) WPA_DRIVER_FLAGS_HT_2040_COEX
  then retimer (uwrap 32 (OVERLAPPING_BSS_TRANS_DELAY_FACTOR * obss_interval (iconf (ifc w)))) (str "ap_ht2040_timeout") []
  else ret tt.

Definition ht40_intolerant_remove (sta : positive) : M world unit :=
  s <-- get_sta sta ;;
  if ht40_intolerant_set (mlme s) then
    upd_sta sta (upd_mlme (set_ht40_intolerant_set false)) ;;; ht40_intolerant_left
  else ret tt.

(** ** The state of a station *)

Definition update_sta_ht (sta : positive) (ht_capabilities : list Z) : M world unit :=
  ht_capab <-- lift (rd_le 0 2 ht_capabilities) ;;
  (if bool_decide (Z.land ht_capab HT_CAP_INFO_GREEN_FIELD = 0)
   then count_up sta no_ht_gf_set (set_no_ht_gf_set true) num_sta_ht_no_gf set_num_sta_ht_no_gf ;;; ret tt else ret tt) ;;;
  (if bool_decide (Z.land ht_capab HT_CAP_INFO_SUPP_CHANNEL_WIDTH_SET = 0)
   then count_up sta ht_20mhz_set (set_ht_20mhz_set true) num_sta_ht_20mhz set_num_sta_ht_20mhz ;;; ret tt else ret tt) ;;;
  if has ht_capab HT_CAP_INFO_40MHZ_INTOLERANT then ht40_intolerant_add sta else ret tt.

Definition update_sta_no_ht (sta : positive) : M world unit :=
  count_up sta no_ht_set (set_no_ht_set true) num_sta_no_ht set_num_sta_no_ht ;;; ret tt.

Definition update_ht_state (sta : positive) : M world unit :=
  s <-- get_sta sta ;;
  match ht_capabilities (mlme s) with
  | Some cap => if has (sta_flags s) WLAN_STA_HT then update_sta_ht sta cap else update_sta_no_ht sta
  | None => update_sta_no_ht sta
  end ;;;
  r <-- hostapd_ht_operation_update ;;
  if bool_decide (r > 0) then set_beacons else ret tt.

(** [copy_sta_ht_capab]; [ht_capab] is the element and its length. *)
Definition copy_sta_ht_capab (b : hostapd_data) (sta : positive) (ht_capab : option (list Z * Z)) : M world Z :=
  s <-- get_sta sta ;;
  let disable := upd_sta sta (fun s => upd_mlme (set_ht_capabilities None) (clear_flag WLAN_STA_HT s)) ;;; ret WLAN_STATUS_SUCCESS in
  match ht_capab with
  | None => disable
  | Some (p, n) =>
      if bool_decide (n < sizeof_ht_capabilities) || negb (has (sta_flags s) WLAN_STA_WMM) || disable_11n (bconf b) then disable
      else
        r <-- (if bool_decide (ht_capabilities (mlme s) = None) then ext (Malloc sizeof_ht_capabilities) else ret 1) ;;
        if bool_decide (r = 0) then ret WLAN_STATUS_UNSPECIFIED_FAILURE
        else
          cap <-- lift (slice 0 sizeof_ht_capabilities p) ;;
          upd_sta sta (fun s => upd_mlme (set_ht_capabilities (Some cap)) (set_flag WLAN_STA_HT s)) ;;;
          ret WLAN_STATUS_SUCCESS
  end.

(** The capabilities that are handed to the driver: the station's, without what the
    access point does not support. *)
Definition hostapd_get_ht_capab (own : Z) (ht_cap : list Z) : res (list Z) :=
  let! cap := rd_le 0 2 ht_cap in
  let cap := Z.land cap (Z.lor own (Z.lor HT_CAP_INFO_RX_STBC_MASK (Z.lor HT_CAP_INFO_TX_STBC HT_CAP_INFO_SMPS_MASK))) in
  let cap := if has own HT_CAP_INFO_RX_STBC_MASK then cap else Z.ldiff cap HT_CAP_INFO_TX_STBC in
  let cap := if has own HT_CAP_INFO_TX_STBC then cap else Z.ldiff cap HT_CAP_INFO_RX_STBC_MASK in
  splice 0 (le_bytes 2 cap) ht_cap.

(** ** Coexistence reports of 20 and 40 MHz *)

Definition is_40_allowed (chan : Z) : M world bool :=
  w <-- get ;;
  if negb (mode_11g (ifc w)) then ret true
  else
    pri_freq <-- ext (Hostapd (str "hostapd_hw_get_freq") []) ;;
    let pri := 2407 + 5 * chan in
    let sec_freq := if bool_decide (secondary_channel (ht (ifc w)) > 0) then pri_freq + 20 else pri_freq - 20 in
    let affected_start := Z.quot (pri_freq + sec_freq) 2 - 25 in
    let affected_end := Z.quot (pri_freq + sec_freq) 2 + 25 in
    ret (bool_decide (pri < affected_start \/ pri > affected_end)).

(** The loop over the channels of the report: whether each allows 40 MHz. *)
Fixpoint channels_allowed (chans : list Z) : M world bool :=
  match chans with
  | [] => ret true
  | chan :: chans' => a <-- is_40_allowed chan ;; b <-- channels_allowed chans' ;; ret (a && b)
  end.

(** The intolerant channel report that follows at [off]: [None] when the frame is
    dropped, else whether it allows 40 MHz. *)
Definition intolerant_report (mgmt : list Z) (len off : Z) : M world (option bool) :=
  if bool_decide (len - off >= 3) then
    id <-- lift (rd mgmt off) ;;
    ielen <-- lift (rd mgmt (off + 1)) ;;
    if bool_decide (id = WLAN_EID_20_40_BSS_INTOLERANT) && bool_decide (ielen >= 1) then
      if bool_decide (ielen > len - off - 2) then ret None
      else
        chans <-- lift (slice (off + 3) (ielen - 1) mgmt) ;;
        a <-- channels_allowed chans ;; ret (Some a)
    else ret (Some true)
  else ret (Some true).

Definition hostapd_2040_coex_action (mgmt : list Z) (len : Z) : M world unit :=
  lift (rd mgmt 25) ;;;
  w <-- get ;;
  let c := iconf (ifc w) in
  if negb (has (ht_capab c) HT_CAP_INFO_SUPP_CHANNEL_WIDTH_SET) then ret tt
  else if noscan c || no_ht_coex c then ret tt
  else if bool_decide (len < 24 + 2 + 3) then ret tt
  else
    id <-- lift (rd mgmt 26) ;;
    n <-- lift (rd mgmt 27) ;;
    if bool_decide (id <> WLAN_EID_20_40_BSS_COEXISTENCE) || bool_decide (n < 1) then ret tt
    else if bool_decide (len < 24 + 2 + 2 + n) then ret tt
    else
      coex <-- lift (rd mgmt 28) ;;
      report <-- intolerant_report mgmt len (28 + n) ;;
      match report with
      | None => ret tt
      | Some a =>
          let is_ht_allowed := a && negb (has coex WLAN_20_40_BSS_COEX_20MHZ_WIDTH_REQ)
                               && negb (has coex WLAN_20_40_BSS_COEX_40MHZ_INTOL) in
          if negb is_ht_allowed && has (drv_flags (ifc w)) WPA_DRIVER_FLAGS_HT_2040_COEX then
            (if bool_decide (secondary_channel (ht (ifc w)) <> 0)
             then modify (upd_ifc (upd_ht (set_secondary_channel 0))) ;;; set_beacons else ret tt) ;;;
            if bool_decide (num_sta_ht40_intolerant (ht (ifc w)) = 0) && bool_decide (obss_interval c <> 0)
            then retimer (uwrap 32 (OVERLAPPING_BSS_TRANS_DELAY_FACTOR * obss_interval c)) (str "ap_ht2040_timeout") []
            else ret tt
          else ret tt
      end.

(** ** 802.11ac *)

(** [check_valid_vht_mcs]: the loop over the 8 streams, with the maps of both
    sides. *)
Definition streams : list Z := [0; 1; 2; 3; 4; 5; 6; 7].
Fixpoint mcs_loop (l : list Z) (ap_tx_mcs_set sta_rx_mcs_set : Z) : bool :=
  match l with
  | [] => false
  | i :: l' =>
      let m := Z.shiftl 3 (i * 2) in
      if bool_decide (Z.land ap_tx_mcs_set m = 3) then mcs_loop l' ap_tx_mcs_set sta_rx_mcs_set
      else if bool_decide (Z.land sta_rx_mcs_set m = 3) then mcs_loop l' ap_tx_mcs_set sta_rx_mcs_set
      else true
  end.

Definition check_valid_vht_mcs (vht_mcs_set sta_vht_capab : list Z) : res bool :=
  let! sta_rx_mcs_set := rd_le 4 2 sta_vht_capab in
  let! ap_tx_mcs_set := rd_le 4 2 vht_mcs_set in
  Ok (mcs_loop streams ap_tx_mcs_set sta_rx_mcs_set).

Definition copy_sta_vht_capab (b : hostapd_data) (sta : positive) (vht_capab : option (list Z * Z)) : M world Z :=
  s <-- get_sta sta ;;
  w <-- get ;;
  let disable := upd_sta sta (fun s => upd_mlme (set_vht_capabilities None) (clear_flag WLAN_STA_VHT s)) ;;; ret WLAN_STATUS_SUCCESS in
  match vht_capab with
  | None => disable
  | Some (p, n) =>
      if bool_decide (n < sizeof_vht_capabilities) || disable_11ac (bconf b) then disable
      else
        valid <-- lift (check_valid_vht_mcs (vht_mcs_set (iconf (ifc w))) p) ;;
        if negb valid then disable
        else
          r <-- (if bool_decide (vht_capabilities (mlme s) = None) then ext (Malloc sizeof_vht_capabilities) else ret 1) ;;
          if bool_decide (r = 0) then ret WLAN_STATUS_UNSPECIFIED_FAILURE
          else
            cap <-- lift (slice 0 sizeof_vht_capabilities p) ;;
            upd_sta sta (fun s => upd_mlme (set_vht_capabilities (Some cap)) (set_flag WLAN_STA_VHT s)) ;;;
            ret WLAN_STATUS_SUCCESS
  end.

Definition copy_sta_vendor_vht (b : hostapd_data) (sta : positive) (ie : option (list Z * Z)) : M world Z :=
  s <-- get_sta sta ;;
  let no_capab := upd_sta sta (clear_flag WLAN_STA_VENDOR_VHT) ;;; ret WLAN_STATUS_SUCCESS in
  match ie with
  | None => no_capab
  | Some (p, len) =>
      if bool_decide (len < 5 + 2 + sizeof_vht_capabilities) || disable_11ac (bconf b) then no_capab
      else
        id <-- lift (rd p 5) ;;
        if bool_decide (id <> WLAN_EID_VHT_CAP) then no_capab
        else
          n <-- lift (rd p 6) ;;
          if bool_decide (n < sizeof_vht_capabilities) || bool_decide (n > len - 5 - 2) then no_capab
          else
            r <-- (if bool_decide (vht_capabilities (mlme s) = None) then ext (Malloc sizeof_vht_capabilities) else ret 1) ;;
            if bool_decide (r = 0) then ret WLAN_STATUS_UNSPECIFIED_FAILURE
            else
              cap <-- lift (slice 7 sizeof_vht_capabilities p) ;;
              upd_sta sta (fun s => upd_mlme (set_vht_capabilities (Some cap)) (set_flag (Z.lor WLAN_STA_VHT WLAN_STA_VENDOR_VHT) s)) ;;;
              ret WLAN_STATUS_SUCCESS
  end.

Definition set_sta_vht_opmode (sta : positive) (vht_oper_notif : option (list Z * Z)) : M world Z :=
  match vht_oper_notif with
  | None => upd_sta sta (clear_flag WLAN_STA_VHT_OPMODE_ENABLED) ;;; ret WLAN_STATUS_SUCCESS
  | Some (p, _) =>
      x <-- lift (rd p 0) ;;
      upd_sta sta (fun s => upd_mlme (set_vht_opmode x) (set_flag WLAN_STA_VHT_OPMODE_ENABLED s)) ;;;
      ret WLAN_STATUS_SUCCESS
  end.

(** [hostapd_get_vht_capab], on the capabilities as a number: the mask for the
    channel widths, then those of the features that need one another. *)
Definition VHT_CAP_SUPP_CHAN_WIDTH_160MHZ : Z := 2 ^ 2.
Definition VHT_CAP_SUPP_CHAN_WIDTH_160_80PLUS80MHZ : Z := 2 ^ 3.
Definition VHT_CAP_SUPP_CHAN_WIDTH_MASK : Z := 2 ^ 2 + 2 ^ 3.
Definition VHT_CAP_SHORT_GI_80 : Z := 2 ^ 5.
Definition VHT_CAP_SHORT_GI_160 : Z := 2 ^ 6.
Definition VHT_CAP_TXSTBC : Z := 2 ^ 7.
Definition VHT_CAP_RXSTBC_MASK : Z := 2 ^ 8 + 2 ^ 9 + 2 ^ 10.
Definition VHT_CAP_SU_BEAMFORMER_CAPABLE : Z := 2 ^ 11.
Definition VHT_CAP_SU_BEAMFORMEE_CAPABLE : Z := 2 ^ 12.
Definition VHT_CAP_BEAMFORMEE_STS_MAX : Z := 2 ^ 13 + 2 ^ 14 + 2 ^ 15.
Definition VHT_CAP_SOUNDING_DIMENSION_MAX : Z := 2 ^ 16 + 2 ^ 17 + 2 ^ 18.
Definition VHT_CAP_MU_BEAMFORMER_CAPABLE : Z := 2 ^ 19.
Definition VHT_CAP_MU_BEAMFORMEE_CAPABLE : Z := 2 ^ 20.

(** [if (!(own_cap & need)) cap &= ~drop;] *)
Definition unless (own need drop cap : Z) : Z := if has own need then cap else Z.ldiff cap drop.

Definition vht_width (own_cap cap : Z) : Z :=
  let own := Z.land own_cap VHT_CAP_SUPP_CHAN_WIDTH_MASK in
  if bool_decide (own = VHT_CAP_SUPP_CHAN_WIDTH_160_80PLUS80MHZ) then cap
  else if bool_decide (own = VHT_CAP_SUPP_CHAN_WIDTH_160MHZ) then
    if has cap VHT_CAP_SUPP_CHAN_WIDTH_160_80PLUS80MHZ
    then Z.lor (Z.ldiff cap VHT_CAP_SUPP_CHAN_WIDTH_160_80PLUS80MHZ) VHT_CAP_SUPP_CHAN_WIDTH_160MHZ
    else cap
  else Z.ldiff cap VHT_CAP_SUPP_CHAN_WIDTH_MASK.

Definition vht_negotiate (own_cap cap : Z) : Z :=
  let sym_caps := Z.lor VHT_CAP_SHORT_GI_80 VHT_CAP_SHORT_GI_160 in
  let cap := Z.ldiff cap (Z.ldiff sym_caps own_cap) in
  let cap := unless own_cap VHT_CAP_SU_BEAMFORMER_CAPABLE (Z.lor VHT_CAP_SU_BEAMFORMEE_CAPABLE VHT_CAP_BEAMFORMEE_STS_MAX) cap in
  let cap := unless own_cap VHT_CAP_SU_BEAMFORMEE_CAPABLE (Z.lor VHT_CAP_SU_BEAMFORMER_CAPABLE VHT_CAP_SOUNDING_DIMENSION_MAX) cap in
  let cap := unless own_cap VHT_CAP_MU_BEAMFORMER_CAPABLE VHT_CAP_MU_BEAMFORMEE_CAPABLE cap in
  let cap := unless own_cap VHT_CAP_MU_BEAMFORMEE_CAPABLE VHT_CAP_MU_BEAMFORMER_CAPABLE cap in
  let cap := vht_width own_cap cap in
  let cap := unless cap VHT_CAP_SUPP_CHAN_WIDTH_MASK VHT_CAP_SHORT_GI_160 cap in
  let cap := unless own_cap VHT_CAP_RXSTBC_MASK VHT_CAP_TXSTBC cap in
  unless own_cap VHT_CAP_TXSTBC VHT_CAP_RXSTBC_MASK cap.

Definition hostapd_get_vht_capab (own_cap : Z) (vht_cap : list Z) : res (list Z) :=
  let! cap := rd_le 0 4 vht_cap in splice 0 (le_bytes 4 (vht_negotiate own_cap cap)) vht_cap.

(** ** The counters and the entries

    The flags of an entry, and the counters of the interface they are counted in. *)

Definition flags_of (s : sta_info) : list bool :=
  [nonerp_set s; no_short_slot_time_set s; no_short_preamble_set s; no_ht_gf_set s; no_ht_set s; ht_20mhz_set s;
   ht40_intolerant_set (mlme s)].
Definition counts_of (i : hostapd_iface) : list Z :=
  [num_sta_non_erp i; num_sta_no_short_slot_time i; num_sta_no_short_preamble i; num_sta_ht_no_gf i; num_sta_no_ht i;
   num_sta_ht_20mhz i; num_sta_ht40_intolerant (ht i)].

Definition flag_at (k : nat) (h : gmap positive sta_info) (p : positive) : bool :=
  match h !! p with Some s => default false (flags_of s !! k) | None => false end.

(** How many stations of a list, and of all BSSs, have the flag. *)
Definition tally (k : nat) (h : gmap positive sta_info) (l : list positive) : Z :=
  foldr (fun p n => Z.b2z (flag_at k h p) + n) 0 l.
Definition total (k : nat) (w : world) : Z := foldr (fun b n => tally k (heap w) (sta_list b) + n) 0 (bss (ifc w)).

(** Every counter is right. *)
Definition books_ok (w : world) : Prop := counts_of (ifc w) = map (fun k => total k w) (seq 0 7).

Lemma tally_frame k h h' l : (forall p, p ∈ l -> flag_at k h' p = flag_at k h p) -> tally k h' l = tally k h l.
Proof.
  induction l as [|p l IH]; intros Hf; [done|]. cbn [tally foldr]. fold (tally k h' l) (tally k h l).
  rewrite Hf by left. rewrite IH; [done|]. intros q Hq. apply Hf. now right.
Qed.

Lemma tally_unlink k h p l : p ∈ l -> tally k h (unlink p l) = tally k h l - Z.b2z (flag_at k h p).
Proof.
  induction 1 as [p l|p x l Hx IH]; cbn [unlink].
  - rewrite bool_decide_eq_true_2 by done. cbn [tally foldr]. fold (tally k h l). lia.
  - case_bool_decide as E; [subst x|]; cbn [tally foldr]; fold (tally k h l); [lia|].
    fold (tally k h (unlink p l)). rewrite IH. lia.
Qed.

(** Changing the table of one BSS changes the totals by as much. *)
Lemma total_insert (bs : list hostapd_data) (f g : hostapd_data -> Z) i b b' : bs !! i = Some b ->
  (forall j c, bs !! j = Some c -> j <> i -> g c = f c) ->
  foldr (fun b n => g b + n) 0 (<[i := b']> bs) = foldr (fun b n => f b + n) 0 bs + g b' - f b.
Proof.
  revert i. induction bs as [|c bs IH]; intros [|i] Hb Hf; try discriminate; simpl in *.
  - injection Hb as ->. assert (forall l, (forall j c, l !! j = Some c -> g c = f c) ->
      foldr (fun b n => g b + n) 0 l = foldr (fun b n => f b + n) 0 l) as Hl.
    { clear. induction l as [|c l IH]; intros Hf; [done|]. simpl. rewrite (Hf 0%nat c eq_refl), IH; [done|].
      intros j d Hd. now apply (Hf (S j)). }
    rewrite Hl; [lia|]. intros j d Hd. now apply (Hf (S j)).
  - rewrite (Hf 0%nat c eq_refl) by done. rewrite (IH i Hb); [lia|]. intros j d Hd Hj. apply (Hf (S j)); [done|lia].
Qed.

Lemma has_set f a b : 0 <= a -> 0 <= b -> has (Z.lor f (2 ^ a)) (2 ^ b) = has f (2 ^ b) || bool_decide (a = b).
Proof.
  intros Ha Hb. rewrite !has_bit, Z.lor_spec, Z.pow2_bits_eqb by done. f_equal. apply Bool.eq_iff_eq_true.
  now rewrite Z.eqb_eq, bool_decide_eq_true.
Qed.

Lemma has_clear f a b : 0 <= a -> 0 <= b -> has (Z.ldiff f (2 ^ a)) (2 ^ b) = has f (2 ^ b) && negb (bool_decide (a = b)).
Proof.
  intros Ha Hb. rewrite !has_bit, Z.ldiff_spec, Z.pow2_bits_eqb by done. do 2 f_equal. apply Bool.eq_iff_eq_true.
  now rewrite Z.eqb_eq, bool_decide_eq_true.
Qed.

(** ** The mode, bit by bit *)

Lemma ht_bit_spec k want m : 0 <= k ->
  (forall n, 0 <= n -> Z.testbit (snd (ht_bit (2 ^ k) want m)) n = if decide (n = k) then want else Z.testbit m n) /\
  (fst (ht_bit (2 ^ k) want m) = 0 \/ fst (ht_bit (2 ^ k) want m) = 1) /\
  (fst (ht_bit (2 ^ k) want m) = 0 <-> Z.testbit m k = want).
Proof.
  intros Hk. unfold ht_bit. rewrite has_bit by done.
  destruct (Z.testbit m k) eqn:E, want; cbn [negb andb fst snd]; (split; [|split; [auto|split; intros; congruence]]);
    intros n Hn; rewrite ?Z.lor_spec, ?Z.ldiff_spec, ?Z.pow2_bits_eqb by done; case_decide as Ek; subst;
    rewrite ?Z.eqb_refl, ?E, ?andb_false_r, ?orb_true_r; try done;
    destruct (Z.eqb_spec k n); try congruence; now rewrite ?orb_false_r, ?andb_true_r.
Qed.

Lemma land3_bit m n : 0 <= n -> Z.testbit (Z.land m 3) n = Z.testbit m n && bool_decide (n < 2).
Proof.
  intros Hn. change 3 with (Z.ones 2). rewrite Z.land_spec. f_equal. case_bool_decide.
  - apply Z.ones_spec_low. lia.
  - apply Z.ones_spec_high. lia.
Qed.

Lemma protection_range i : 0 <= ht_protection i < 4.
Proof. unfold ht_protection, HT_PROT_NON_HT_MIXED, HT_PROT_20MHZ_PROTECTION, HT_PROT_NONMEMBER_PROTECTION, HT_PROT_NO_PROTECTION. cases; lia. Qed.

Lemma small_bit z n : 0 <= z < 4 -> 2 <= n -> Z.testbit z n = false.
Proof.
  intros Hz Hn. apply Z.bits_above_log2; [lia|]. destruct (decide (z = 0)) as [->|]; [simpl; lia|].
  apply Z.lt_le_trans with 2; [apply Z.log2_lt_pow2; lia|done].
Qed.

(** The bits of the new mode. *)
Definition mode_bit (i : hostapd_iface) (n : Z) : bool :=
  if decide (n = 2) then bool_decide (num_sta_ht_no_gf i <> 0)
  else if decide (n = 4) then bool_decide (num_sta_no_ht i <> 0) || olbc_ht (ht i)
  else if decide (n < 2) then Z.testbit (ht_protection i) n
  else Z.testbit (ht_op_mode (ht i)) n.

Lemma ht_operation_bits i : (forall n, 0 <= n -> Z.testbit (snd (ht_operation i)) n = mode_bit i n) /\
  0 <= fst (ht_operation i) /\ (fst (ht_operation i) = 0 -> snd (ht_operation i) = ht_op_mode (ht i)).
Proof.
  unfold ht_operation. set (m0 := ht_op_mode (ht i)).
  destruct (ht_bit_spec 2 (bool_decide (num_sta_ht_no_gf i <> 0)) m0 ltac:(lia)) as (B1 & R1 & F1).
  unfold HT_OPER_OP_MODE_NON_GF_HT_STAS_PRESENT. destruct (ht_bit (2 ^ 2) _ m0) as [a m1]. cbn [fst snd] in *.
  destruct (ht_bit_spec 4 (bool_decide (num_sta_no_ht i <> 0) || olbc_ht (ht i)) m1 ltac:(lia)) as (B2 & R2 & F2).
  unfold HT_OPER_OP_MODE_OBSS_NON_HT_STAS_PRESENT. destruct (ht_bit (2 ^ 4) _ m1) as [b m2]. cbn [fst snd] in *.
  unfold HT_OPER_OP_MODE_HT_PROT_MASK. pose proof (protection_range i) as Hr.
  destruct (bool_decide_reflect (Z.land m2 3 <> ht_protection i)) as [E|E]; cbn [fst snd].
  - split; [|split; [lia|intros; lia]]. intros n Hn. rewrite Z.lor_spec, Z.ldiff_spec. change 3 with (Z.ones 2). unfold mode_bit. fold m0.
    destruct (decide (n < 2)) as [Hs|Hs].
    + rewrite (Z.ones_spec_low 2 n) by lia. cbn [negb]. rewrite andb_false_r. rewrite (decide_False (P := n = 2)), (decide_False (P := n = 4)) by lia. done.
    + rewrite (Z.ones_spec_high 2 n), (small_bit (ht_protection i) n) by lia. cbn [negb]. rewrite orb_false_r, andb_true_r. rewrite B2, B1 by done. repeat case_decide; subst; done || lia.
  - apply dec_stable in E. split; [|split; [lia|]].
    + intros n Hn. unfold mode_bit. fold m0. destruct (decide (n < 2)) as [Hs|Hs].
      * rewrite (decide_False (P := n = 2)), (decide_False (P := n = 4)) by lia. rewrite <- E, land3_bit by done. rewrite bool_decide_eq_true_2 by done. now rewrite andb_true_r.
      * rewrite B2, B1 by done. repeat case_decide; subst; done || lia.
    + intros Hz. assert (a = 0) as Ha by lia. assert (b = 0) as Hb by lia. apply F1 in Ha. apply F2 in Hb.
      apply Z.bits_inj'. intros n Hn. rewrite B2 by done.
      destruct (decide (n = 4)) as [->|]; [rewrite <- Hb, B1 by done; now rewrite decide_False|].
      rewrite B1 by done. destruct (decide (n = 2)) as [->|]; [now rewrite Ha|done].
Qed.

(** A second update changes nothing. *)
Lemma ht_operation_again i : ht_operation (upd_ht (set_ht_op_mode (snd (ht_operation i))) i) = (0, snd (ht_operation i)).
Proof.
  destruct (ht_operation_bits i) as (B & _ & _). set (m := snd (ht_operation i)) in *. set (i' := upd_ht _ i).
  unfold ht_operation. change (ht_op_mode (ht i')) with m. change (num_sta_ht_no_gf i') with (num_sta_ht_no_gf i).
  change (num_sta_no_ht i') with (num_sta_no_ht i). change (olbc_ht (ht i')) with (olbc_ht (ht i)).
  change (ht_protection i') with (ht_protection i).
  assert (forall k want, 0 <= k -> Z.testbit m k = want -> ht_bit (2 ^ k) want m = (0, m)) as Hb.
  { intros k want Hk E. unfold ht_bit. rewrite has_bit, E by done. now destruct want. }
  unfold HT_OPER_OP_MODE_NON_GF_HT_STAS_PRESENT. rewrite Hb by (lia || now rewrite B).
  unfold HT_OPER_OP_MODE_OBSS_NON_HT_STAS_PRESENT. rewrite Hb by (lia || now rewrite B).
  rewrite bool_decide_eq_false_2; [done|]. intros Hne. apply Hne. unfold HT_OPER_OP_MODE_HT_PROT_MASK.
  apply Z.bits_inj'. intros n Hn. rewrite land3_bit, B by done. unfold mode_bit.
  destruct (bool_decide_reflect (n < 2)).
  - rewrite (decide_False (P := n = 2)), (decide_False (P := n = 4)) by lia. rewrite decide_True by done. apply andb_true_r.
  - rewrite andb_false_r. symmetry. apply small_bit; [apply protection_range|lia].
Qed.

(** ** What is negotiated *)

(** A stream is supported when its two bits of the map are not 3. *)
Definition supports (map i : Z) : Prop := Z.land (Z.shiftr map (2 * i)) 3 <> 3.

Lemma mcs_loop_true a s : mcs_loop streams a s = true.
Proof.
  assert (forall m, bool_decide (Z.land m (Z.shiftl 3 (1 * 2)) = 3) = false) as H.
  { intros m. apply bool_decide_eq_false_2. intros E. apply (f_equal (fun z => Z.testbit z 0)) in E.
    rewrite Z.land_spec in E. change (Z.testbit (Z.shiftl 3 (1 * 2)) 0) with false in E. rewrite andb_false_r in E. discriminate. }
  unfold streams. cbn [mcs_loop]. rewrite (H a), (H s). destruct (bool_decide _); [|destruct (bool_decide _)]; reflexivity.
Qed.

Lemma rd_le_some (l : list Z) off n : 0 <= off -> 0 <= n -> off + n <= zlen l -> exists x, rd_le off n l = Ok x.
Proof. intros Ho Hn Hl. unfold rd_le, slice. rewrite bool_decide_eq_true_2 by done. eauto. Qed.

(** The test of the VHT-MCS maps of a station never fails: the fields above the
    first are compared with 3 without being shifted.  A station is accepted even
    when the two sides have no stream in common. *)
Theorem vht_mcs_never_refused (ours theirs : list Z) (Ho : 6 <= zlen ours) (Ht : 6 <= zlen theirs) :
  check_valid_vht_mcs ours theirs = Ok true /\
  (forall i, 0 <= i < 8 -> ~ supports 0xffff i) /\
  check_valid_vht_mcs (replicate 8 0xff) (replicate 12 0xff) = Ok true /\
  rd_le 4 2 (replicate 8 0xff) = Ok 0xffff /\ rd_le 4 2 (replicate 12 0xff) = Ok 0xffff.
Proof.
  split.
  - unfold check_valid_vht_mcs. destruct (rd_le_some theirs 4 2) as [x ->]; [lia..|]. cbn [res_bind].
    destruct (rd_le_some ours 4 2) as [y ->]; [lia..|]. cbn [res_bind]. now rewrite mcs_loop_true.
  - split; [|split; [|split]; reflexivity]. intros i Hi Hs. apply Hs.
    assert (i = 0 \/ i = 1 \/ i = 2 \/ i = 3 \/ i = 4 \/ i = 5 \/ i = 6 \/ i = 7) as Hc by lia.
    repeat destruct Hc as [->|Hc]; try reflexivity. subst. reflexivity.
Qed.

Lemma vht_mcs_never_refused_witness : check_valid_vht_mcs (vht_mcs_set demo_iface_config) (replicate 12 0xff) = Ok true.
Proof. apply (vht_mcs_never_refused (vht_mcs_set demo_iface_config) (replicate 12 0xff)); reflexivity || discriminate. Defined.

(** The bits of the HT capabilities that a station and the access point share. *)
Definition ht_shared (own cap : Z) (n : Z) : bool :=
  Z.testbit cap n &&
  (if decide (n = 2 \/ n = 3) then true
   else if decide (n = 7) then has own HT_CAP_INFO_RX_STBC_MASK
   else if decide (n = 8 \/ n = 9) then has own HT_CAP_INFO_TX_STBC
   else Z.testbit own n).

(** The same for VHT, but for the channel widths. *)
Definition vht_shared (own cap : Z) (n : Z) : bool :=
  Z.testbit cap n &&
  match n with
  | 5 => Z.testbit own 5
  | 6 => Z.testbit own 6 && has (vht_width own cap) VHT_CAP_SUPP_CHAN_WIDTH_MASK
  | 7 => has own VHT_CAP_RXSTBC_MASK
  | 8 | 9 | 10 => Z.testbit own 7
  | 11 | 16 | 17 | 18 => Z.testbit own 12
  | 12 | 13 | 14 | 15 => Z.testbit own 11
  | 19 => Z.testbit own 20
  | 20 => Z.testbit own 19
  | _ => true
  end.

Lemma unless_bit own need drop cap n : 0 <= n ->
  Z.testbit (unless own need drop cap) n = Z.testbit cap n && (has own need || negb (Z.testbit drop n)).
Proof.
  intros Hn. unfold unless. destruct (has own need); [now rewrite andb_true_r|]. now rewrite Z.ldiff_spec.
Qed.

Lemma width_bit own cap n : 0 <= n -> n <> 2 -> n <> 3 -> Z.testbit (vht_width own cap) n = Z.testbit cap n.
Proof.
  intros Hn H2 H3. assert (Z.testbit VHT_CAP_SUPP_CHAN_WIDTH_160MHZ n = false) as B2.
  { unfold VHT_CAP_SUPP_CHAN_WIDTH_160MHZ. rewrite Z.pow2_bits_eqb by lia. apply Z.eqb_neq. lia. }
  assert (Z.testbit VHT_CAP_SUPP_CHAN_WIDTH_160_80PLUS80MHZ n = false) as B3.
  { unfold VHT_CAP_SUPP_CHAN_WIDTH_160_80PLUS80MHZ. rewrite Z.pow2_bits_eqb by lia. apply Z.eqb_neq. lia. }
  assert (Z.testbit VHT_CAP_SUPP_CHAN_WIDTH_MASK n = false) as Bm.
  { change VHT_CAP_SUPP_CHAN_WIDTH_MASK with (Z.lor VHT_CAP_SUPP_CHAN_WIDTH_160MHZ VHT_CAP_SUPP_CHAN_WIDTH_160_80PLUS80MHZ).
    now rewrite Z.lor_spec, B2, B3. }
  unfold vht_width. repeat case_bool_decide; try done.
  - destruct (has _ _); [|done]. now rewrite Z.lor_spec, Z.ldiff_spec, B2, B3, orb_false_r, andb_true_r.
  - now rewrite Z.ldiff_spec, Bm, andb_true_r.
Qed.

Lemma has_two f j k : 0 <= j -> 0 <= k -> j <> k -> has f (2 ^ j + 2 ^ k) = Z.testbit f j || Z.testbit f k.
Proof.
  intros Hj Hk Hne. assert (2 ^ j + 2 ^ k = Z.lor (2 ^ j) (2 ^ k)) as ->.
  { assert (Z.land (2 ^ j) (2 ^ k) = 0) as Hz; [|rewrite Z.add_nocarry_lxor by done; now apply Z.lxor_lor].
    apply Z.bits_inj'. intros n Hn. rewrite Z.land_spec, !Z.pow2_bits_eqb, Z.bits_0 by done.
    destruct (Z.eqb_spec j n), (Z.eqb_spec k n); congruence || done. }
  apply Bool.eq_iff_eq_true. unfold has. rewrite bool_decide_eq_true, orb_true_iff. split.
  - intros Hz. destruct (Z.testbit f j) eqn:Ej; [by left|]. destruct (Z.testbit f k) eqn:Ek; [by right|]. exfalso. apply Hz.
    apply Z.bits_inj'. intros n Hn. rewrite Z.land_spec, Z.lor_spec, !Z.pow2_bits_eqb, Z.bits_0 by done.
    destruct (Z.eqb_spec j n) as [<-|]; [now rewrite Ej|]. destruct (Z.eqb_spec k n) as [<-|]; [now rewrite Ek|apply andb_false_r].
  - intros H Hz. assert (forall n, 0 <= n -> Z.testbit f n && (Z.eqb j n || Z.eqb k n) = false) as Hb.
    { intros n Hn. apply (f_equal (fun z => Z.testbit z n)) in Hz. now rewrite Z.land_spec, Z.lor_spec, !Z.pow2_bits_eqb, Z.bits_0 in Hz by done. }
    destruct H as [H|H]; [specialize (Hb j Hj)|specialize (Hb k Hk)]; rewrite H, Z.eqb_refl, ?orb_true_r in Hb; done.
Qed.

Lemma has_three f : has f VHT_CAP_RXSTBC_MASK = Z.testbit f 8 || Z.testbit f 9 || Z.testbit f 10.
Proof.
  assert (VHT_CAP_RXSTBC_MASK = Z.lor (2 ^ 8) (Z.lor (2 ^ 9) (2 ^ 10))) as -> by reflexivity.
  apply Bool.eq_iff_eq_true. unfold has. rewrite bool_decide_eq_true, !orb_true_iff.
  assert (forall n, 0 <= n -> Z.testbit (Z.land f (Z.lor (2 ^ 8) (Z.lor (2 ^ 9) (2 ^ 10)))) n = Z.testbit f n && (Z.eqb 8 n || (Z.eqb 9 n || Z.eqb 10 n))) as Hb
    by (intros n Hn; now rewrite Z.land_spec, !Z.lor_spec, !Z.pow2_bits_eqb by lia).
  split.
  - intros Hz. destruct (Z.testbit f 8) eqn:E8, (Z.testbit f 9) eqn:E9, (Z.testbit f 10) eqn:E10; auto. exfalso. apply Hz.
    apply Z.bits_inj'. intros n Hn. rewrite Hb, Z.bits_0 by done.
    destruct (Z.eqb_spec 8 n) as [<-|_]; [now rewrite E8|]. destruct (Z.eqb_spec 9 n) as [<-|_]; [now rewrite E9|].
    destruct (Z.eqb_spec 10 n) as [<-|_]; [now rewrite E10|apply andb_false_r].
  - intros Hf Hz. destruct Hf as [[H|H]|H];
      [specialize (Hb 8 ltac:(lia))|specialize (Hb 9 ltac:(lia))|specialize (Hb 10 ltac:(lia))]; rewrite Hz, Z.bits_0, H in Hb; discriminate Hb.
Qed.

Lemma width_same own cap cap' n : Z.testbit cap 2 = Z.testbit cap' 2 -> Z.testbit cap 3 = Z.testbit cap' 3 -> n = 2 \/ n = 3 ->
  Z.testbit (vht_width own cap) n = Z.testbit (vht_width own cap') n.
Proof.
  intros E2 E3 Hn. unfold vht_width, VHT_CAP_SUPP_CHAN_WIDTH_160_80PLUS80MHZ. rewrite !has_bit, E3 by lia.
  assert (Z.testbit cap n = Z.testbit cap' n) as En by (destruct Hn as [->| ->]; done).
  repeat case_bool_decide; try done.
  - destruct (Z.testbit cap' 3); [|done]. now rewrite !Z.lor_spec, !Z.ldiff_spec, En.
  - now rewrite !Z.ldiff_spec, En.
Qed.

Lemma above n k z : 0 <= z < 2 ^ k -> k <= n -> Z.testbit z n = false.
Proof.
  intros Hz Hn. destruct (decide (z = 0)) as [->|]; [apply Z.bits_0|]. apply Z.bits_above_log2; [lia|].
  apply Z.lt_le_trans with k; [apply Z.log2_lt_pow2; lia|done].
Qed.

(** A number up to 20, as a disjunction. *)
Lemma upto_20 n : 0 <= n -> 20 < n \/ n ∈ [0; 1; 2; 3; 4; 5; 6; 7; 8; 9; 10; 11; 12; 13; 14; 15; 16; 17; 18; 19; 20].
Proof.
  intros Hn. destruct (decide (n <= 20)); [right|left; lia]. rewrite !elem_of_cons. lia.
Qed.

(** Evaluates the bits of constants, then splits on the others. *)
Ltac closed_bits := repeat match goal with |- context [Z.testbit ?c ?k] =>
  lazymatch eval vm_compute in (Z.testbit c k) with
  | true => change (Z.testbit c k) with true
  | false => change (Z.testbit c k) with false
  end end.
Ltac open_bits := repeat match goal with
  | |- context [Z.testbit ?c ?k] => destruct (Z.testbit c k)
  | |- context [has ?c ?k] => destruct (has c k)
  end; reflexivity.

Lemma vht_negotiate_bits own cap n : 0 <= n ->
  Z.testbit (vht_negotiate own cap) n =
  if decide (n = 2 \/ n = 3) then Z.testbit (vht_width own cap) n else vht_shared own cap n.
Proof.
  intros Hn. unfold vht_negotiate.
  set (c1 := Z.ldiff cap _). set (c2 := unless _ _ _ c1). set (c3 := unless _ _ _ c2). set (c4 := unless _ _ _ c3).
  set (c5 := unless _ _ _ c4). rewrite !unless_bit by done.
  assert (forall m, 0 <= m -> Z.testbit c5 m = Z.testbit cap m && negb (Z.testbit (Z.lor VHT_CAP_SHORT_GI_80 VHT_CAP_SHORT_GI_160) m && negb (Z.testbit own m))
    && (has own VHT_CAP_SU_BEAMFORMER_CAPABLE || negb (Z.testbit (Z.lor VHT_CAP_SU_BEAMFORMEE_CAPABLE VHT_CAP_BEAMFORMEE_STS_MAX) m))
    && (has own VHT_CAP_SU_BEAMFORMEE_CAPABLE || negb (Z.testbit (Z.lor VHT_CAP_SU_BEAMFORMER_CAPABLE VHT_CAP_SOUNDING_DIMENSION_MAX) m))
    && (has own VHT_CAP_MU_BEAMFORMER_CAPABLE || negb (Z.testbit VHT_CAP_MU_BEAMFORMEE_CAPABLE m))
    && (has own VHT_CAP_MU_BEAMFORMEE_CAPABLE || negb (Z.testbit VHT_CAP_MU_BEAMFORMER_CAPABLE m))) as B5.
  { intros m Hm. unfold c5, c4, c3, c2, c1. now rewrite !unless_bit, !Z.ldiff_spec by done. }
  assert (forall m, m = 2 \/ m = 3 -> Z.testbit c5 m = Z.testbit cap m) as B23.
  { intros m Hm. rewrite B5 by lia. destruct Hm as [->| ->]; cbn; now rewrite !orb_true_r, !andb_true_r. }
  assert (forall m, m = 2 \/ m = 3 -> Z.testbit (vht_width own c5) m = Z.testbit (vht_width own cap) m) as W23.
  { intros m Hm. apply width_same; [apply B23; by left|apply B23; by right|done]. }
  assert (has (vht_width own c5) VHT_CAP_SUPP_CHAN_WIDTH_MASK = has (vht_width own cap) VHT_CAP_SUPP_CHAN_WIDTH_MASK) as ->.
  { unfold VHT_CAP_SUPP_CHAN_WIDTH_MASK. rewrite !has_two by lia. now rewrite !W23 by auto. }
  case_decide as D.
  - rewrite W23 by done. destruct D as [->| ->]; cbn; now rewrite !orb_true_r, !andb_true_r.
  - rewrite width_bit, B5 by (lia || tauto). unfold vht_shared.
    unfold VHT_CAP_SU_BEAMFORMER_CAPABLE at 1, VHT_CAP_SU_BEAMFORMEE_CAPABLE at 2, VHT_CAP_MU_BEAMFORMER_CAPABLE at 1,
      VHT_CAP_MU_BEAMFORMEE_CAPABLE at 2, VHT_CAP_TXSTBC at 2. rewrite !has_bit by lia.
    destruct (upto_20 n Hn) as [Hbig|Hsmall].
    + assert (forall z, 0 <= z < 2 ^ 21 -> Z.testbit z n = false) as Hz by (intros z Hz; apply (above n 21 z Hz); lia).
      rewrite (Hz (Z.lor VHT_CAP_SHORT_GI_80 VHT_CAP_SHORT_GI_160)), (Hz (Z.lor VHT_CAP_SU_BEAMFORMEE_CAPABLE VHT_CAP_BEAMFORMEE_STS_MAX)),
        (Hz (Z.lor VHT_CAP_SU_BEAMFORMER_CAPABLE VHT_CAP_SOUNDING_DIMENSION_MAX)), (Hz VHT_CAP_MU_BEAMFORMEE_CAPABLE),
        (Hz VHT_CAP_MU_BEAMFORMER_CAPABLE), (Hz VHT_CAP_SHORT_GI_160), (Hz VHT_CAP_TXSTBC), (Hz VHT_CAP_RXSTBC_MASK)
        by (split; [discriminate|reflexivity]). cbn [negb andb]. rewrite !orb_true_r, !andb_true_r.
      destruct n as [|p|p]; try lia. do 5 (try (destruct p as [p|p|]; try lia)); now rewrite ?andb_true_r.
    + rewrite !elem_of_cons in Hsmall. repeat destruct Hsmall as [->|Hsmall]; [..|inversion Hsmall]; try (exfalso; tauto);
        closed_bits; cbn [negb andb orb]; open_bits.
Qed.

(** The number at the start of an element, replaced. *)
Lemma splice_start n z (l : list Z) : Z.of_nat n <= zlen l -> splice 0 (le_bytes n z) l = Ok (le_bytes n z ++ drop n l).
Proof.
  intros Hl. unfold splice. pose proof (zlen_le_bytes n z) as E. rewrite bool_decide_eq_true_2 by lia.
  change (Z.to_nat 0) with 0%nat. simpl. unfold zlen in E. now rewrite (Nat2Z.inj _ _ E).
Qed.

Lemma rd_le_start n (l : list Z) : Z.of_nat n <= zlen l -> rd_le 0 (Z.of_nat n) l = Ok (le_num (take n l)).
Proof. intros Hl. unfold rd_le, slice. rewrite bool_decide_eq_true_2 by lia. simpl. now rewrite drop_0, Nat2Z.id. Qed.

Lemma ht_negotiated own (c : list Z) : 2 <= zlen c -> Forall u8 c ->
  exists m, hostapd_get_ht_capab own c = Ok (le_bytes 2 m ++ drop 2 c) /\ forall n, 0 <= n -> Z.testbit m n = ht_shared own (le_num (take 2 c)) n.
Proof.
  intros Hl Hu. unfold hostapd_get_ht_capab. assert (rd_le 0 2 c = Ok (le_num (take 2 c))) as -> by (apply (rd_le_start 2 c); lia). cbn [res_bind]. cbv zeta.
  rewrite splice_start by lia. eexists. split; [reflexivity|]. intros n Hn. set (cap := le_num (take 2 c)).
  set (c1 := Z.land cap _). set (c2 := if has own _ then c1 else _).
  assert (Z.testbit c2 n = Z.testbit cap n && (Z.testbit own n || Z.testbit (Z.lor HT_CAP_INFO_RX_STBC_MASK (Z.lor HT_CAP_INFO_TX_STBC HT_CAP_INFO_SMPS_MASK)) n)
    && (has own HT_CAP_INFO_RX_STBC_MASK || negb (Z.testbit HT_CAP_INFO_TX_STBC n))) as B2.
  { unfold c2, c1. destruct (has own HT_CAP_INFO_RX_STBC_MASK); rewrite ?Z.ldiff_spec, Z.land_spec, Z.lor_spec; now rewrite ?andb_true_r. }
  assert (forall x, Z.testbit (if has own HT_CAP_INFO_TX_STBC then x else Z.ldiff x HT_CAP_INFO_RX_STBC_MASK) n
    = Z.testbit x n && (has own HT_CAP_INFO_TX_STBC || negb (Z.testbit HT_CAP_INFO_RX_STBC_MASK n))) as ->.
  { intros x. destruct (has own HT_CAP_INFO_TX_STBC); rewrite ?Z.ldiff_spec; now rewrite ?andb_true_r. }
  rewrite B2. unfold ht_shared. destruct (upto_20 n Hn) as [Hbig|Hsmall].
  - assert (forall z, 0 <= z < 2 ^ 21 -> Z.testbit z n = false) as Hz by (intros z Hz; apply (above n 21 z Hz); lia).
    rewrite (Hz (Z.lor HT_CAP_INFO_RX_STBC_MASK (Z.lor HT_CAP_INFO_TX_STBC HT_CAP_INFO_SMPS_MASK))), (Hz HT_CAP_INFO_TX_STBC), (Hz HT_CAP_INFO_RX_STBC_MASK)
      by (split; [discriminate|reflexivity]). cbn [negb]. repeat (rewrite decide_False by lia). now rewrite !orb_true_r, !andb_true_r, orb_false_r.
  - rewrite !elem_of_cons in Hsmall. repeat destruct Hsmall as [->|Hsmall]; [..|inversion Hsmall];
      repeat first [rewrite decide_True by lia|rewrite decide_False by lia]; closed_bits; cbn [negb andb orb]; open_bits.
Qed.

Lemma vht_negotiated own (c : list Z) : 4 <= zlen c ->
  hostapd_get_vht_capab own c = Ok (le_bytes 4 (vht_negotiate own (le_num (take 4 c))) ++ drop 4 c).
Proof.
  intros Hl. unfold hostapd_get_vht_capab. assert (rd_le 0 4 c = Ok (le_num (take 4 c))) as -> by (apply (rd_le_start 4 c); lia). cbn [res_bind]. now rewrite splice_start by lia.
Qed.

(** A bit of the first VHT field after the negotiation, from the bits of both sides.
    The channel widths are two bits: 160 MHz, and 160 or 80+80 MHz. *)
Definition vht_agreed (own cap n : Z) : bool :=
  let only_160 := Z.testbit own 2 && negb (Z.testbit own 3) in
  let also_80_80 := Z.testbit own 3 && negb (Z.testbit own 2) in
  let wide := Z.testbit cap 2 || Z.testbit cap 3 in
  match n with
  | 2 => only_160 && wide || also_80_80 && Z.testbit cap 2
  | 3 => also_80_80 && Z.testbit cap 3
  | 5 => Z.testbit cap 5 && Z.testbit own 5
  | 6 => Z.testbit cap 6 && Z.testbit own 6 && (only_160 || also_80_80) && wide
  | 7 => Z.testbit cap 7 && (Z.testbit own 8 || Z.testbit own 9 || Z.testbit own 10)
  | 8 | 9 | 10 => Z.testbit cap n && Z.testbit own 7
  | 11 | 16 | 17 | 18 => Z.testbit cap n && Z.testbit own 12
  | 12 | 13 | 14 | 15 => Z.testbit cap n && Z.testbit own 11
  | 19 => Z.testbit cap 19 && Z.testbit own 20
  | 20 => Z.testbit cap 20 && Z.testbit own 19
  | _ => Z.testbit cap n
  end.

Lemma land_width own : Z.land own VHT_CAP_SUPP_CHAN_WIDTH_MASK = (if Z.testbit own 2 then 4 else 0) + (if Z.testbit own 3 then 8 else 0).
Proof.
  assert (forall b2 b3 : bool, (if b2 then 4 else 0) + (if b3 then 8 else 0) = Z.lor (Z.land (- Z.b2z b2) 4) (Z.land (- Z.b2z b3) 8)) as -> by (intros [] []; reflexivity).
  apply Z.bits_inj'. intros n Hn. rewrite Z.lor_spec, !Z.land_spec. unfold VHT_CAP_SUPP_CHAN_WIDTH_MASK.
  assert (forall b, Z.testbit (- Z.b2z b) n = b) as Hb by (intros []; simpl; [now apply Z.bits_m1|apply Z.bits_0]). rewrite !Hb.
  destruct (upto_20 n Hn) as [Hbig|Hsmall].
  - rewrite (above n 21 (2 ^ 2 + 2 ^ 3)), (above n 21 4), (above n 21 8) by lia. now rewrite !andb_false_r.
  - rewrite !elem_of_cons in Hsmall. repeat destruct Hsmall as [->|Hsmall]; [..|inversion Hsmall]; closed_bits; now rewrite ?andb_false_r, ?andb_true_r, ?orb_false_r.
Qed.

Lemma width_agreed own cap n : n = 2 \/ n = 3 -> Z.testbit (vht_width own cap) n = vht_agreed own cap n.
Proof.
  intros Hn. unfold vht_width, VHT_CAP_SUPP_CHAN_WIDTH_160_80PLUS80MHZ. cbv zeta. rewrite land_width, has_bit by lia.
  destruct Hn as [->| ->]; cbn [vht_agreed]; destruct (Z.testbit own 2), (Z.testbit own 3); cbn [andb orb negb];
    repeat (case_bool_decide; try lia); try (rewrite Z.ldiff_spec; closed_bits; now rewrite ?andb_false_r);
    destruct (Z.testbit cap 3) eqn:E3; rewrite ?Z.lor_spec, ?Z.ldiff_spec; closed_bits; rewrite ?E3, ?orb_true_r, ?orb_false_r, ?andb_false_r, ?andb_true_r; try done.
Qed.

Lemma agreed_bits own cap n : 0 <= n -> Z.testbit (vht_negotiate own cap) n = vht_agreed own cap n.
Proof.
  intros Hn. rewrite vht_negotiate_bits by done. case_decide as D; [now apply width_agreed|]. unfold vht_shared.
  assert (has (vht_width own cap) VHT_CAP_SUPP_CHAN_WIDTH_MASK = vht_agreed own cap 2 || vht_agreed own cap 3) as Hw.
  { unfold VHT_CAP_SUPP_CHAN_WIDTH_MASK. rewrite has_two by lia. now rewrite !width_agreed by auto. }
  assert (has own VHT_CAP_RXSTBC_MASK = Z.testbit own 8 || Z.testbit own 9 || Z.testbit own 10) as Hs by apply has_three.
  destruct (upto_20 n Hn) as [Hbig|Hsmall].
  - destruct n as [|p|p]; try lia. do 5 (try (destruct p as [p|p|]; try lia)); cbn [vht_agreed]; now rewrite ?andb_true_r.
  - rewrite !elem_of_cons in Hsmall. repeat destruct Hsmall as [->|Hsmall]; [..|inversion Hsmall]; try (exfalso; tauto); rewrite ?Hw, ?Hs;
      cbn [vht_agreed]; rewrite ?andb_true_r; try done.
    destruct (Z.testbit own 2), (Z.testbit own 3), (Z.testbit cap 2), (Z.testbit cap 3), (Z.testbit cap 6), (Z.testbit own 6); reflexivity.
Qed.

(** C38: the capabilities that are handed to the driver for a station are those of
    the station, and of the first field of HT and VHT some bits are dropped, by the
    bits of the access point.
    HT: a bit is kept when both have it, but for the mode of SM power save (bits 2 and
    3), which is the station's, and for STBC: that the station sends (receives) so is
    kept when the access point can receive (send) so.
    VHT: the short guard intervals are kept when both have them (and for 160 MHz when
    a width of 160 MHz is left); STBC as for HT; the station's being a single- or
    multi-user beamformee (beamformer), with the numbers that go with it, when the
    access point is a beamformer (beamformee); the two width bits as the access point
    has them, where a station with 80+80 MHz counts as one with 160 MHz for an access
    point that has 160 MHz only; every other bit is the station's.
    The rest of both elements is the station's. *)
Theorem capabilities_negotiated (own : Z) (c : list Z) (Hc : 4 <= zlen c) (Hu : Forall u8 c) :
  (exists m, hostapd_get_ht_capab own c = Ok (le_bytes 2 m ++ drop 2 c) /\
     forall n, 0 <= n -> Z.testbit m n = ht_shared own (le_num (take 2 c)) n) /\
  (exists m, hostapd_get_vht_capab own c = Ok (le_bytes 4 m ++ drop 4 c) /\
     forall n, 0 <= n -> Z.testbit m n = vht_agreed own (le_num (take 4 c)) n).
Proof.
  split; [apply ht_negotiated; [lia|done]|]. eexists. split; [now apply vht_negotiated|]. intros n Hn. now apply agreed_bits.
Qed.

Lemma capabilities_negotiated_witness : exists m, hostapd_get_ht_capab 0x0c (replicate 26 255) = Ok (le_bytes 2 m ++ drop 2 (replicate 26 255)) /\
  Z.testbit m 7 = false /\ Z.testbit m 2 = true.
Proof.
  destruct (capabilities_negotiated 0x0c (replicate 26 255)) as ((m & E & Hm) & _).
  - discriminate.
  - unfold u8. by_check.
  - exists m. split; [exact E|]. split; rewrite Hm by lia; reflexivity.
Defined.
