(* ===== verification/Eids.v ===== *)
(** * The elements that hostapd puts into its frames: the [hostapd_eid_*] functions
    of [ap/ieee802_11.c], [ap/ieee802_11_ht.c], [ap/ieee802_11_vht.c],
    [ap/ieee802_11_shared.c] and [ap/wmm.c]

    A function that writes at [eid] and returns the new end is the list of the bytes
    that it writes.  The interface has its [current_mode]; the arrays of the
    configuration have the sizes that [iconf_ok] states. *)

From stdpp Require Import base list numbers.
From Stdlib Require Import ZArith Lia.
From S2P Require Import Prelude World Elements Station Ht.
Local Open Scope Z_scope.

Definition WLAN_EID_HT_CAP : Z := 45.
Definition WLAN_EID_EXT_SUPP_RATES : Z := 50.
Definition WLAN_EID_HT_OPERATION : Z := 61.
Definition WLAN_EID_OVERLAPPING_BSS_SCAN_PARAMS : Z := 74.
Definition WLAN_EID_EXT_CAPAB : Z := 127.
Definition WLAN_EID_VHT_OPERATION : Z := 192.
Definition BSS_MEMBERSHIP_SELECTOR_VHT_PHY : Z := 126.
Definition BSS_MEMBERSHIP_SELECTOR_HT_PHY : Z := 127.
Definition TDLS_PROHIBIT : Z := 2 ^ 0.
Definition TDLS_PROHIBIT_CHAN_SWITCH : Z := 2 ^ 1.
Definition WPA_DRIVER_FLAGS_AP_UAPSD : Z := 0x400000.

(** ** Rates *)

Definition rate_byte (r : Z * bool) : Z :=
  let pos := uwrap 8 (Z.quot (fst r) 5) in if snd r then Z.lor pos 0x80 else pos.

(** The loop over the rates; those up to [skip] are passed over. *)
Fixpoint rate_loop (skip num : Z) (rates : list (Z * bool)) (count : Z) : list Z * Z :=
  match rates with
  | [] => ([], count)
  | r :: rates' =>
      if bool_decide (count < num) then
        let count := count + 1 in
        let '(bs, last) := rate_loop skip num rates' count in
        (if bool_decide (count <= skip) then bs else rate_byte r :: bs, last)
      else ([], count)
  end.

Definition ht_phy (c : iface_config) : bool := ieee80211n c && require_ht c.
Definition vht_phy (c : iface_config) : bool := ieee80211ac c && require_vht c.

Definition num_all (c : iface_config) (rates : list (Z * bool)) : Z :=
  zlen rates + Z.b2z (ht_phy c) + Z.b2z (vht_phy c).

Definition hostapd_eid_supp_rates (c : iface_config) : list Z :=
  match current_rates c with
  | None => []
  | Some rates =>
      let num := if bool_decide (num_all c rates > 8) then 8 else num_all c rates in
      let '(bs, count) := rate_loop 0 num rates 0 in
      let '(ht, count) :=
        if ht_phy c && bool_decide (count < 8) then ([Z.lor 0x80 BSS_MEMBERSHIP_SELECTOR_HT_PHY], count + 1) else ([], count) in
      let vht := if vht_phy c && bool_decide (count < 8) then [Z.lor 0x80 BSS_MEMBERSHIP_SELECTOR_VHT_PHY] else [] in
      [WLAN_EID_SUPP_RATES; num] ++ bs ++ ht ++ vht
  end.

Definition hostapd_eid_ext_supp_rates (c : iface_config) : list Z :=
  match current_rates c with
  | None => []
  | Some rates =>
      if bool_decide (num_all c rates <= 8) then []
      else
        let num := num_all c rates - 8 in
        let '(bs, count) := rate_loop 8 (num + 8) rates 0 in
        let '(ht, count) :=
          if ht_phy c then (if bool_decide (count + 1 > 8) then [Z.lor 0x80 BSS_MEMBERSHIP_SELECTOR_HT_PHY] else [], count + 1)
          else ([], count) in
        let vht := if vht_phy c && bool_decide (count + 1 > 8) then [Z.lor 0x80 BSS_MEMBERSHIP_SELECTOR_VHT_PHY] else [] in
        [WLAN_EID_EXT_SUPP_RATES; uwrap 8 num] ++ bs ++ ht ++ vht
  end.

(** ** HT *)

Definition hostapd_eid_ht_capabilities (i : hostapd_iface) (b : hostapd_data) : list Z :=
  let c := iconf i in
  if negb (ieee80211n c) || disable_11n (bconf b) then []
  else
    [WLAN_EID_HT_CAP; sizeof_ht_capabilities]
    ++ (le_bytes 2 (ht_capab c) ++ [uwrap 8 (a_mpdu_params c)] ++ mcs_set c ++ replicate 7 0)
    ++ if bool_decide (obss_interval c = 0) then []
       else [WLAN_EID_OVERLAPPING_BSS_SCAN_PARAMS; 14]
            ++ (le_bytes 2 20 ++ le_bytes 2 10 ++ le_bytes 2 (obss_interval c) ++ le_bytes 2 200 ++ le_bytes 2 20
                ++ le_bytes 2 5 ++ le_bytes 2 25).

Definition ht_param (secondary_channel : Z) : Z :=
  if bool_decide (secondary_channel = 1) then 2 ^ 0 + 2 ^ 2
  else if bool_decide (secondary_channel = -1) then 2 ^ 0 + 2 ^ 1 + 2 ^ 2 else 0.

Definition ht_operation_data (i : hostapd_iface) : list Z :=
  [uwrap 8 (channel i); ht_param (secondary_channel (ht i))] ++ le_bytes 2 (ht_op_mode (ht i)) ++ replicate 18 0.

Definition hostapd_eid_ht_operation (i : hostapd_iface) (b : hostapd_data) : list Z :=
  if negb (ieee80211n (iconf i)) || disable_11n (bconf b) then []
  else [WLAN_EID_HT_OPERATION; 22] ++ ht_operation_data i.

(** ** VHT *)

(** The mode whose MCS set is announced: on 2.4 GHz, where the mode has no VHT, the
    first 5 GHz mode. *)
Definition vht_mode (i : hostapd_iface) (b : hostapd_data) : list Z :=
  let c := iconf i in
  if mode_11g i && vendor_vht (bconf b) && bool_decide (mode_vht_capab c = 0) then
    match find (fun m : bool * list Z => fst m) (hw_features c) with Some m => snd m | None => vht_mcs_set c end
  else vht_mcs_set c.

Definition hostapd_eid_vht_capabilities (i : hostapd_iface) (b : hostapd_data) : list Z :=
  [WLAN_EID_VHT_CAP; sizeof_vht_capabilities] ++ le_bytes 4 (vht_capab (iconf i)) ++ vht_mode i b.

Definition hostapd_eid_vht_operation (i : hostapd_iface) : list Z :=
  let c := iconf i in
  [WLAN_EID_VHT_OPERATION; 5]
  ++ [uwrap 8 (vht_oper_chwidth c); uwrap 8 (vht_oper_centr_freq_seg0_idx c); uwrap 8 (vht_oper_centr_freq_seg1_idx c)]
  ++ le_bytes 2 0xfffc.

Definition hostapd_eid_vendor_vht (i : hostapd_iface) (b : hostapd_data) : list Z :=
  [WLAN_EID_VENDOR_SPECIFIC; 5 + 2 + sizeof_vht_capabilities + 2 + 5] ++ [0x00; 0x90; 0x4c; 0x04; 0x08]
  ++ hostapd_eid_vht_capabilities i b ++ hostapd_eid_vht_operation i.

(** ** Extended capabilities *)

Definition hostapd_ext_capab_byte (c : iface_config) (d : bss_config) (idx : Z) : Z :=
  let on (cond : bool) bit := if cond then bit else 0 in
  match idx with
  | 0 => on (bool_decide (obss_interval c <> 0)) 0x01
  | 1 => on (proxy_arp d) 0x10
  | 2 => Z.lor (on (wnm_sleep_mode d) 0x02) (on (bss_transition d) 0x08)
  | 3 => Z.lor (on (bool_decide (time_advertisement d = 2)) 0x08) (on (interworking d) 0x80)
  | 4 => Z.lor (Z.lor (on (bool_decide (qos_map_set d <> [])) 0x01) (on (has (tdls d) TDLS_PROHIBIT) 0x40))
           (on (has (tdls d) TDLS_PROHIBIT_CHAN_SWITCH) 0x80)
  | 6 => on (utf8_ssid d) 0x01
  | _ => 0
  end.

Definition ext_capab_len (c : iface_config) (d : bss_config) : Z :=
  let at_least (cond : bool) n len := if bool_decide (len < n) && cond then n else len in
  let len := if has (tdls d) (TDLS_PROHIBIT + TDLS_PROHIBIT_CHAN_SWITCH) then 5 else 0 in
  let len := at_least (interworking d) 4 len in
  let len := at_least (wnm_sleep_mode d) 3 len in
  let len := at_least (bool_decide (obss_interval c <> 0)) 1 len in
  let len := at_least (utf8_ssid d) 7 len in
  if bool_decide (len < zlen (extended_capa c)) then uwrap 8 (zlen (extended_capa c)) else len.

(** The [i]th byte, under the driver's. *)
Definition ext_capab_at (c : iface_config) (d : bss_config) (i : nat) : Z :=
  let pos := hostapd_ext_capab_byte c d (Z.of_nat i) in
  match extended_capa c !! i with
  | Some x => Z.lor (Z.ldiff pos (nth i (extended_capa_mask c) 0)) x
  | None => pos
  end.

(** The loop that takes off the zeros at the end, over the reversed bytes. *)
Fixpoint trim (rev_bytes : list Z) : list Z :=
  match rev_bytes with 0 :: l => trim l | l => l end.

Definition hostapd_eid_ext_capab (c : iface_config) (d : bss_config) : list Z :=
  let len := ext_capab_len c d in
  if bool_decide (len = 0) then []
  else
    let bytes := rev (trim (rev (map (ext_capab_at c d) (seq 0 (Z.to_nat len))))) in
    if bool_decide (bytes = []) then [] else [WLAN_EID_EXT_CAPAB; zlen bytes] ++ bytes.

(** Nothing without WNM. *)
Definition hostapd_eid_bss_max_idle_period : list Z := [].

(** ** WMM *)

Definition wmm_aci_aifsn (aifsn : Z) (acm : bool) (aci : Z) : Z :=
  Z.lor (Z.lor (Z.land aifsn 0x0f) (if acm then 0x10 else 0)) (Z.land (Z.shiftl aci 5) 0x60).
Definition wmm_ecw (ecwmin ecwmax : Z) : Z :=
  Z.lor (Z.land ecwmin 0x0f) (Z.land (Z.shiftl ecwmax 4) 0xf0).

Definition wmm_ac (e : Z) (acp : hostapd_wmm_ac_params) : list Z :=
  [wmm_aci_aifsn (aifs acp) (admission_control_mandatory acp) e; wmm_ecw (cwmin acp) (cwmax acp)] ++ le_bytes 2 (txop_limit acp).

Definition wmm_qos_info (i : hostapd_iface) (b : hostapd_data) : Z :=
  Z.lor (Z.land (parameter_set_count b) 0xf)
    (if wmm_uapsd (bconf b) && has (drv_flags i) WPA_DRIVER_FLAGS_AP_UAPSD then 0x80 else 0).

Definition hostapd_eid_wmm (i : hostapd_iface) (b : hostapd_data) : list Z :=
  if negb (wmm_enabled (bconf b)) then []
  else
    [WLAN_EID_VENDOR_SPECIFIC; 24] ++ [0x00; 0x50; 0xf2; 2; 1; 1; wmm_qos_info i b; 0]
    ++ concat (zip_with wmm_ac [0; 1; 2; 3] (wmm_ac_params (iconf i))).

Definition hostapd_eid_wmm_valid (eid : list Z) (len : Z) : res bool :=
  if bool_decide (len < 7) then Ok false
  else
    let! subtype := rd eid 4 in
    let! version := rd eid 5 in
    Ok (negb (bool_decide (subtype <> 0 \/ version <> 1))).

(** ** Capabilities of the BSS *)

Definition WLAN_CAPABILITY_ESS : Z := 2 ^ 0.
Definition WLAN_CAPABILITY_PRIVACY : Z := 2 ^ 4.
Definition WLAN_CAPABILITY_SHORT_PREAMBLE : Z := 2 ^ 5.
Definition WLAN_CAPABILITY_SPECTRUM_MGMT : Z := 2 ^ 8.
Definition WLAN_CAPABILITY_SHORT_SLOT_TIME : Z := 2 ^ 10.
Definition IEEE80211_CAP_RRM : Z := 2 ^ 12.
Definition SECURITY_PLAINTEXT : Z := 0.
Definition SECURITY_IEEE_802_1X : Z := 2.

(** From the choice of [privacy] on; [dfs] is what [hostapd_is_dfs_required] answers. *)
Definition capab_info (i : hostapd_iface) (b : hostapd_data) (dfs : Z) (privacy : bool) : Z :=
  let dfs := if bool_decide (dfs < 0) then 0 else dfs in
  let on (cond : bool) bit := if cond then bit else 0 in
  Z.lor (Z.lor (Z.lor (Z.lor (Z.lor WLAN_CAPABILITY_ESS
    (on (bool_decide (num_sta_no_short_preamble i = 0) && short_preamble (iconf i)) WLAN_CAPABILITY_SHORT_PREAMBLE))
    (on privacy WLAN_CAPABILITY_PRIVACY))
    (on (mode_11g i && bool_decide (num_sta_no_short_slot_time i = 0)) WLAN_CAPABILITY_SHORT_SLOT_TIME))
    (on (mode_11a (iconf i) && (spectrum_mgmt_required (iconf i) || bool_decide (dfs <> 0))) WLAN_CAPABILITY_SPECTRUM_MGMT))
    (on (radio_measurements (bconf b)) IEEE80211_CAP_RRM).

(** Of a network, for a station. *)
Definition ssid_privacy (c : bss_config) : bool :=
  bool_decide (security_policy c <> SECURITY_PLAINTEXT)
  && negb (bool_decide (security_policy c = SECURITY_IEEE_802_1X) && bool_decide (wep_default_len c = 0)).

(** Of the configuration, without a station. *)
Definition conf_privacy (c : bss_config) : bool :=
  wep_keys_set (bcn c)
  || (ieee802_1x c && (bool_decide (default_wep_key_len (bcn c) <> 0) || bool_decide (individual_wep_key_len (bcn c) <> 0)))
  || bool_decide (wpa c <> 0).

(** The network that [sta] is asked about: [ssid_probe] for a probe response, its own
    otherwise, which is that of its BSS. *)
Definition sta_privacy (i : hostapd_iface) (b : hostapd_data) (sta : option sta_info) (probe : bool) : bool :=
  match sta with
  | None => conf_privacy (bconf b)
  | Some s =>
      match (if probe then ssid_probe s else None) with
      | Some j => match bss i !! j with Some c => ssid_privacy (bconf c) | None => ssid_privacy (bconf b) end
      | None => ssid_privacy (bconf b)
      end
  end.

Definition hostapd_own_capab_info (i : hostapd_iface) (b : hostapd_data) (sta : option sta_info) (probe : bool) (dfs : Z) : Z :=
  capab_info i b dfs (sta_privacy i b sta probe).

(** ** Frames that hostapd builds *)

(** [IEEE80211_FC(WLAN_FC_TYPE_MGMT, stype)] *)
Definition mgmt_fc (stype : Z) : Z := Z.shiftl stype 4.

(** The 24 bytes of a header that hostapd builds in a zeroed buffer. *)
Definition mgmt_header (stype : Z) (dst src bss : list Z) : list Z :=
  le_bytes 2 (mgmt_fc stype) ++ [0; 0] ++ dst ++ src ++ bss ++ [0; 0].

(** What is written into a buffer of [n] bytes. *)
Definition within (n : Z) (bytes : list Z) : res (list Z) := if bool_decide (zlen bytes <= n) then Ok bytes else Ub OutOfBounds.

(** ** What is written *)

(** The arrays of the configuration. *)
Record iconf_ok (c : iface_config) : Prop := {
  ic_mcs : zlen (mcs_set c) = 16 /\ Forall u8 (mcs_set c);
  ic_vht : zlen (vht_mcs_set c) = 8 /\ Forall u8 (vht_mcs_set c);
  ic_hw : Forall (fun m : bool * list Z => zlen (snd m) = 8 /\ Forall u8 (snd m)) (hw_features c);
  ic_rates : forall rates, current_rates c = Some rates -> zlen rates <= 255;
  ic_capa : zlen (extended_capa c) <= 255 /\ Forall u8 (extended_capa c);
  ic_ac : length (wmm_ac_params c) = 4%nat }.

Lemma rate_u8 r : u8 (rate_byte r).
Proof.
  unfold rate_byte. pose proof (uwrap_range 8 (Z.quot (fst r) 5) ltac:(lia)).
  destruct (snd r); [apply (lor_range 8); lia|exact H].
Qed.

Lemma rate_loop_spec skip num rates : forall count, 0 <= count <= num -> 0 <= skip ->
  rate_loop skip num rates count
  = (drop (Z.to_nat (skip - count)) (map rate_byte (take (Z.to_nat (num - count)) rates)), Z.min num (count + zlen rates)).
Proof.
  induction rates as [|r rates IH]; intros count Hc Hs; cbn [rate_loop].
  - rewrite take_nil. cbn [map]. rewrite drop_nil. f_equal. unfold zlen. simpl. lia.
  - case_bool_decide as E.
    + rewrite IH by lia. replace (Z.to_nat (num - count)) with (S (Z.to_nat (num - (count + 1)))) by lia. cbn [take map].
      rewrite zlen_cons. f_equal; [|lia]. case_bool_decide as E2.
      * now replace (Z.to_nat (skip - count)) with (S (Z.to_nat (skip - (count + 1)))) by lia.
      * replace (Z.to_nat (skip - count)) with 0%nat by lia. now replace (Z.to_nat (skip - (count + 1))) with 0%nat by lia.
    + replace num with count by lia. rewrite Z.sub_diag. change (Z.to_nat 0) with 0%nat. cbn [take map]. rewrite drop_nil, zlen_cons. f_equal. pose proof (zlen_nonneg rates). lia.
Qed.

(** The rates and the selectors, in their order. *)
Definition all_rates (c : iface_config) (rates : list (Z * bool)) : list Z :=
  map rate_byte rates ++ (if ht_phy c then [255] else []) ++ (if vht_phy c then [254] else []).

Definition rates_ies (c : iface_config) : list ie :=
  match current_rates c with
  | None => []
  | Some rates =>
      (WLAN_EID_SUPP_RATES, take 8 (all_rates c rates))
      :: if bool_decide (num_all c rates <= 8) then [] else [(WLAN_EID_EXT_SUPP_RATES, drop 8 (all_rates c rates))]
  end.

Lemma zlen_all_rates c rates : zlen (all_rates c rates) = num_all c rates.
Proof. unfold all_rates, num_all. rewrite !zlen_app, zlen_map. destruct (ht_phy c), (vht_phy c); unfold zlen; simpl; lia. Qed.

Lemma supp_rates_run c rates : current_rates c = Some rates ->
  hostapd_eid_supp_rates c = ie_bytes (WLAN_EID_SUPP_RATES, take 8 (all_rates c rates)).
Proof.
  intros Er. unfold hostapd_eid_supp_rates. rewrite Er. cbv zeta. pose proof (zlen_nonneg rates) as Hn.
  assert (zlen rates <= num_all c rates <= zlen rates + 2) as Hall by (unfold num_all; destruct (ht_phy c), (vht_phy c); simpl; lia).
  set (num := if bool_decide _ then _ else _). assert (num = Z.min 8 (num_all c rates)) as En by (unfold num; case_bool_decide; lia).
  clearbody num. rewrite rate_loop_spec by lia. change (0 - 0) with 0. rewrite drop_0, Z.sub_0_r. unfold ie_bytes. cbn [fst snd].
  assert (zlen (take 8 (all_rates c rates)) = num) as ->.
  { unfold zlen in *. rewrite length_take. pose proof (zlen_all_rates c rates). unfold zlen in *. lia. }
  cbn [app]. destruct (Z.le_gt_cases 8 (zlen rates)) as [H8|H8].
  - replace num with 8 by lia. rewrite bool_decide_eq_false_2, andb_false_r by lia. cbv beta iota.
    rewrite bool_decide_eq_false_2, andb_false_r by lia.
    rewrite !app_nil_r. unfold all_rates. rewrite take_app_le by (rewrite length_map; unfold zlen in *; lia). now rewrite firstn_map.
  - rewrite (take_ge rates) by (unfold zlen in *; lia). replace (Z.min num (0 + zlen rates)) with (zlen rates) by lia.
    rewrite (bool_decide_eq_true_2 (zlen rates < 8)), andb_true_r by lia. unfold all_rates. rewrite take_app_ge by (rewrite length_map; unfold zlen in *; lia).
    rewrite length_map. do 3 f_equal. destruct (ht_phy c), (vht_phy c); cbn [andb app].
    + unfold zlen in *. case_bool_decide as E7; (destruct (8 - length rates)%nat as [|[|k]] eqn:Ek; [lia|simpl|simpl]); (done || lia || now rewrite take_nil).
    + destruct (8 - length rates)%nat eqn:Ek; [unfold zlen in *; lia|]. simpl. now rewrite take_nil.
    + rewrite bool_decide_eq_true_2 by lia. destruct (8 - length rates)%nat eqn:Ek; [unfold zlen in *; lia|]. simpl. now rewrite take_nil.
    + now rewrite take_nil.
Qed.

Lemma ext_rates_run c rates : current_rates c = Some rates -> zlen rates <= 255 ->
  hostapd_eid_ext_supp_rates c
  = ies_bytes (if bool_decide (num_all c rates <= 8) then [] else [(WLAN_EID_EXT_SUPP_RATES, drop 8 (all_rates c rates))]).
Proof.
  intros Er Hmax. unfold hostapd_eid_ext_supp_rates. rewrite Er. pose proof (zlen_nonneg rates) as Hn.
  case_bool_decide as E; [done|]. cbv zeta.
  assert (zlen rates <= num_all c rates <= zlen rates + 2) as Hall by (unfold num_all; destruct (ht_phy c), (vht_phy c); simpl; lia).
  replace (num_all c rates - 8 + 8) with (num_all c rates) by lia. rewrite rate_loop_spec by lia.
  rewrite !Z.sub_0_r, (take_ge rates) by (unfold zlen in *; lia). replace (Z.min _ _) with (zlen rates) by lia.
  unfold ies_bytes, ie_bytes. cbn [map concat fst snd]. rewrite app_nil_r.
  assert (zlen (drop 8 (all_rates c rates)) = num_all c rates - 8) as ->.
  { pose proof (zlen_all_rates c rates). unfold zlen in *. rewrite length_drop. lia. }
  rewrite uwrap_small by lia. cbn [app]. do 2 f_equal. change (Z.to_nat 8) with 8%nat. unfold all_rates.
  assert (num_all c rates = zlen rates + Z.b2z (ht_phy c) + Z.b2z (vht_phy c)) as En by done.
  destruct (Z.le_gt_cases 8 (zlen rates)) as [H8|H8].
  - rewrite drop_app_le by (rewrite length_map; unfold zlen in *; lia). f_equal.
    destruct (ht_phy c), (vht_phy c); cbn [andb]; rewrite ?bool_decide_eq_true_2 by lia; done.
  - rewrite drop_ge by (rewrite length_map; unfold zlen in *; lia). cbn [app].
    rewrite drop_app_ge by (rewrite length_map; unfold zlen in *; lia). rewrite length_map.
    destruct (ht_phy c), (vht_phy c); cbn [andb Z.b2z] in *; try lia.
    + rewrite bool_decide_eq_false_2, bool_decide_eq_true_2 by lia. assert (8 - length rates = 1)%nat as -> by (unfold zlen in *; lia). done.
Qed.

Lemma ies_app l k : ies_bytes (l ++ k) = ies_bytes l ++ ies_bytes k.
Proof. unfold ies_bytes. now rewrite map_app, concat_app. Qed.

Lemma rates_run c : iconf_ok c -> hostapd_eid_supp_rates c ++ hostapd_eid_ext_supp_rates c = ies_bytes (rates_ies c).
Proof.
  intros C. unfold rates_ies. destruct (current_rates c) as [rates|] eqn:Er.
  - rewrite (supp_rates_run _ _ Er), (ext_rates_run _ _ Er) by (now apply (ic_rates _ C)). reflexivity.
  - unfold hostapd_eid_supp_rates, hostapd_eid_ext_supp_rates. now rewrite Er.
Qed.

Lemma rates_ok c : iconf_ok c -> Forall ie_ok (rates_ies c).
Proof.
  intros C. unfold rates_ies. destruct (current_rates c) as [rates|] eqn:Er; [|constructor].
  pose proof (zlen_all_rates c rates) as Hl. pose proof (ic_rates _ C rates Er) as H255.
  assert (num_all c rates <= zlen rates + 2) as Hall by (unfold num_all; destruct (ht_phy c), (vht_phy c); simpl; lia).
  assert (Forall u8 (all_rates c rates)) as Hu.
  { unfold all_rates. rewrite !Forall_app, Forall_map. split; [apply Forall_true, rate_u8|].
    unfold u8. destruct (ht_phy c), (vht_phy c); split; by_check. }
  constructor; [|case_bool_decide; constructor; [|constructor]]; (split; [unfold u8; by_check|]; split; [done|]; cbn [snd]; split).
  - now apply Forall_take.
  - unfold zlen in *. rewrite length_take. lia.
  - now apply Forall_drop.
  - unfold zlen in *. rewrite length_drop. lia.
Qed.

(** ** The other elements, with their contents *)

Definition ht_cap_data (c : iface_config) : list Z :=
  le_bytes 2 (ht_capab c) ++ [uwrap 8 (a_mpdu_params c)] ++ mcs_set c ++ replicate 7 0.
Definition obss_data (c : iface_config) : list Z :=
  le_bytes 2 20 ++ le_bytes 2 10 ++ le_bytes 2 (obss_interval c) ++ le_bytes 2 200 ++ le_bytes 2 20 ++ le_bytes 2 5 ++ le_bytes 2 25.
Definition vht_cap_data (i : hostapd_iface) (b : hostapd_data) : list Z := le_bytes 4 (vht_capab (iconf i)) ++ vht_mode i b.
Definition vht_oper_data (i : hostapd_iface) : list Z :=
  let c := iconf i in
  [uwrap 8 (vht_oper_chwidth c); uwrap 8 (vht_oper_centr_freq_seg0_idx c); uwrap 8 (vht_oper_centr_freq_seg1_idx c)]
  ++ le_bytes 2 0xfffc.
Definition vendor_data (i : hostapd_iface) (b : hostapd_data) : list Z :=
  [0x00; 0x90; 0x4c; 0x04; 0x08] ++ hostapd_eid_vht_capabilities i b ++ hostapd_eid_vht_operation i.
Definition wmm_data (i : hostapd_iface) (b : hostapd_data) : list Z :=
  [0x00; 0x50; 0xf2; 2; 1; 1; wmm_qos_info i b; 0] ++ concat (zip_with wmm_ac [0; 1; 2; 3] (wmm_ac_params (iconf i))).
Definition ext_capab_data (c : iface_config) (d : bss_config) : list Z :=
  rev (trim (rev (map (ext_capab_at c d) (seq 0 (Z.to_nat (ext_capab_len c d)))))).

Definition opt (cond : bool) (l : list ie) : list ie := if cond then l else [].

Definition ht_on (i : hostapd_iface) (b : hostapd_data) : bool := ieee80211n (iconf i) && negb (disable_11n (bconf b)).

Definition ht_ies (i : hostapd_iface) (b : hostapd_data) : list ie :=
  opt (ht_on i b)
    ((WLAN_EID_HT_CAP, ht_cap_data (iconf i))
     :: opt (negb (bool_decide (obss_interval (iconf i) = 0))) [(WLAN_EID_OVERLAPPING_BSS_SCAN_PARAMS, obss_data (iconf i))]
     ++ [(WLAN_EID_HT_OPERATION, ht_operation_data i)]).
Definition vht_ies (i : hostapd_iface) (b : hostapd_data) : list ie :=
  [(WLAN_EID_VHT_CAP, vht_cap_data i b); (WLAN_EID_VHT_OPERATION, vht_oper_data i)].
Definition ext_capab_ies (c : iface_config) (d : bss_config) : list ie :=
  opt (negb (bool_decide (ext_capab_data c d = []))) [(WLAN_EID_EXT_CAPAB, ext_capab_data c d)].
Definition vendor_ies (i : hostapd_iface) (b : hostapd_data) : list ie := [(WLAN_EID_VENDOR_SPECIFIC, vendor_data i b)].
Definition wmm_ies (i : hostapd_iface) (b : hostapd_data) : list ie :=
  opt (wmm_enabled (bconf b)) [(WLAN_EID_VENDOR_SPECIFIC, wmm_data i b)].

Lemma ies_opt c l : ies_bytes (opt c l) = if c then ies_bytes l else [].
Proof. by destruct c. Qed.

Section Written.
Context (i : hostapd_iface) (b : hostapd_data) (C : iconf_ok (iconf i)).

Lemma u8_le n z rest : Forall u8 rest -> Forall u8 (le_bytes n z ++ rest).
Proof using. intros H. apply Forall_app. split; [apply le_bytes_u8|done]. Qed.

Lemma zlen_ht_cap : zlen (ht_cap_data (iconf i)) = 26 /\ Forall u8 (ht_cap_data (iconf i)).
Proof using C.
  destruct (ic_mcs _ C) as [Hl Hu]. unfold ht_cap_data. split.
  - rewrite !zlen_app, zlen_le_bytes, Hl. reflexivity.
  - apply u8_le, Forall_cons_2; [apply uwrap_range; lia|]. apply Forall_app. split; [done|]. unfold u8. by_check.
Qed.

Lemma zlen_ht_oper : zlen (ht_operation_data i) = 22 /\ Forall u8 (ht_operation_data i).
Proof using.
  unfold ht_operation_data. split; [rewrite !zlen_app, zlen_le_bytes; reflexivity|].
  apply Forall_app. split; [|apply u8_le; unfold u8; by_check].
  apply Forall_cons_2; [apply uwrap_range; lia|]. apply Forall_cons_2; [|constructor].
  unfold u8, ht_param. repeat case_bool_decide; lia.
Qed.

Lemma vht_mode_ok : zlen (vht_mode i b) = 8 /\ Forall u8 (vht_mode i b).
Proof using C.
  unfold vht_mode. destruct (_ && _); [|apply C]. destruct (find _ _) as [m|] eqn:E; [|apply C].
  apply find_some in E as [E _]. apply (proj1 (Forall_forall _ _) (ic_hw _ C) m E).
Qed.

Lemma zlen_vht_cap : zlen (vht_cap_data i b) = 12 /\ Forall u8 (vht_cap_data i b).
Proof using C.
  destruct vht_mode_ok as [Hl Hu]. unfold vht_cap_data. split; [rewrite zlen_app, zlen_le_bytes, Hl; reflexivity|now apply u8_le].
Qed.

Lemma zlen_vht_oper : zlen (vht_oper_data i) = 5 /\ Forall u8 (vht_oper_data i).
Proof using.
  unfold vht_oper_data. split; [rewrite zlen_app, zlen_le_bytes; reflexivity|].
  apply Forall_app. split; [|apply le_bytes_u8]. repeat constructor; apply uwrap_range; lia.
Qed.

Lemma zlen_vendor : zlen (vendor_data i b) = 26 /\ Forall u8 (vendor_data i b).
Proof using C.
  destruct zlen_vht_cap as [L1 U1], zlen_vht_oper as [L2 U2].
  unfold vendor_data, hostapd_eid_vht_capabilities, hostapd_eid_vht_operation. fold (vht_cap_data i b) (vht_oper_data i). split.
  - rewrite !zlen_app, L1, L2. reflexivity.
  - rewrite !Forall_app. repeat split; try done; unfold u8; by_check.
Qed.

Lemma wmm_ac_ok e acp : zlen (wmm_ac e acp) = 4 /\ Forall u8 (wmm_ac e acp).
Proof using.
  unfold wmm_ac. split; [rewrite zlen_app, zlen_le_bytes; reflexivity|].
  apply Forall_app. split; [|apply le_bytes_u8]. unfold wmm_aci_aifsn, wmm_ecw.
  repeat constructor; repeat apply (lor_range 8); try lia; try (apply (land_range 8); lia); destruct (admission_control_mandatory _); lia.
Qed.

Lemma zlen_wmm : zlen (wmm_data i b) = 24 /\ Forall u8 (wmm_data i b).
Proof using C.
  unfold wmm_data. destruct (wmm_ac_params (iconf i)) as [|a0 [|a1 [|a2 [|a3 [|]]]]] eqn:E; pose proof (ic_ac _ C) as Hl; rewrite E in Hl; try discriminate.
  cbn [zip_with concat]. destruct (wmm_ac_ok 0 a0) as [L0 U0], (wmm_ac_ok 1 a1) as [L1 U1], (wmm_ac_ok 2 a2) as [L2 U2], (wmm_ac_ok 3 a3) as [L3 U3].
  split; [rewrite !zlen_app, L0, L1, L2, L3; reflexivity|]. rewrite !Forall_app. repeat split; try done.
  assert (u8 (wmm_qos_info i b)) as Hq.
  { unfold wmm_qos_info. apply (lor_range 8); [lia|apply (land_range 8); lia|]. destruct (_ && _); lia. }
  generalize dependent (wmm_qos_info i b). intros q Hq. repeat (apply Forall_cons_2; [unfold u8 in *; lia|]). constructor.
Qed.

Lemma ext_capab_byte_ok d n : u8 (hostapd_ext_capab_byte (iconf i) d n).
Proof using.
  assert (forall (cond : bool) k, u8 k -> u8 (if cond then k else 0)) as Hon by (intros [] k Hk; [exact Hk|unfold u8; lia]).
  assert (forall x y, u8 x -> u8 y -> u8 (Z.lor x y)) as Hor by (intros; now apply (lor_range 8)).
  assert (u8 0) as H0 by (unfold u8; lia).
  unfold hostapd_ext_capab_byte. cbv zeta.
  destruct n as [|p|p]; [apply Hon; unfold u8; lia| |exact H0].
  do 3 (try destruct p as [p|p|]); try exact H0; repeat apply Hor; apply Hon; unfold u8; lia.
Qed.

Lemma ext_capab_at_ok d n : u8 (ext_capab_at (iconf i) d n).
Proof using C.
  unfold ext_capab_at. pose proof (ext_capab_byte_ok d (Z.of_nat n)). destruct (extended_capa _ !! n) as [x|] eqn:E; [|done].
  apply (lor_range 8); [lia|now apply (ldiff_range 8)|]. apply (Forall_lookup_1 _ _ _ _ (proj2 (ic_capa _ C)) E).
Qed.

Lemma trim_suffix l : exists k, l = replicate k 0 ++ trim l.
Proof using.
  induction l as [|x l [k IH]]; [by exists 0%nat|]. destruct x; [|by exists 0%nat..]. exists (S k). simpl. now rewrite <- IH.
Qed.

Lemma ext_capab_bound d : zlen (ext_capab_data (iconf i) d) <= Z.max 7 (zlen (extended_capa (iconf i))).
Proof using C.
  unfold ext_capab_data. set (l := map _ _). assert (zlen l <= Z.max 7 (zlen (extended_capa (iconf i)))) as Hl.
  { unfold l. rewrite zlen_map. unfold zlen at 1. rewrite length_seq. pose proof (proj1 (ic_capa _ C)).
    assert (0 <= ext_capab_len (iconf i) d <= Z.max 7 (zlen (extended_capa (iconf i)))); [|lia]. unfold ext_capab_len. cbv zeta.
    set (n := if bool_decide _ then uwrap _ _ else _). unfold n. case_bool_decide.
    - pose proof (zlen_nonneg (extended_capa (iconf i))). rewrite uwrap_small; lia.
    - repeat match goal with |- context [if ?x then _ else _] => destruct x end; lia. }
  destruct (trim_suffix (rev l)) as [k Hk].
  assert (length (rev l) = (k + length (trim (rev l)))%nat) as He by (rewrite Hk at 1; now rewrite length_app, length_replicate).
  unfold zlen in *. rewrite !length_rev in *. lia.
Qed.

Lemma zlen_ext_capab d : zlen (ext_capab_data (iconf i) d) <= 255 /\ Forall u8 (ext_capab_data (iconf i) d).
Proof using C.
  split; [pose proof (ext_capab_bound d); pose proof (proj1 (ic_capa _ C)); lia|].
  unfold ext_capab_data. set (l := map _ _). apply Forall_rev.
  assert (Forall u8 (rev l)) as Hu by (apply Forall_rev, Forall_map, Forall_true; intros; apply ext_capab_at_ok).
  destruct (trim_suffix (rev l)) as [k Hk]. rewrite Hk in Hu. now apply Forall_app in Hu as [_ Hu].
Qed.

Lemma ht_run : hostapd_eid_ht_capabilities i b ++ hostapd_eid_ht_operation i b = ies_bytes (ht_ies i b).
Proof using C.
  unfold ht_ies, hostapd_eid_ht_capabilities, hostapd_eid_ht_operation, ht_on, opt. cbv zeta. destruct (ieee80211n (iconf i)), (disable_11n (bconf b)); cbn [negb orb andb]; try done. fold (ht_cap_data (iconf i)) (obss_data (iconf i)).
  unfold ies_bytes, ie_bytes. case_bool_decide; cbn [negb map concat fst snd app]; rewrite (proj1 zlen_ht_oper), (proj1 zlen_ht_cap), ?app_nil_r, <- ?app_assoc; reflexivity.
Qed.

Lemma vht_run : hostapd_eid_vht_capabilities i b ++ hostapd_eid_vht_operation i = ies_bytes (vht_ies i b).
Proof using C.
  unfold vht_ies, ies_bytes, ie_bytes. cbn [map concat fst snd app]. rewrite (proj1 zlen_vht_oper), (proj1 zlen_vht_cap), app_nil_r. reflexivity.
Qed.

Lemma ext_capab_run d : hostapd_eid_ext_capab (iconf i) d = ies_bytes (ext_capab_ies (iconf i) d).
Proof using.
  unfold hostapd_eid_ext_capab, ext_capab_ies, opt. cbv zeta. fold (ext_capab_data (iconf i) d).
  assert (ext_capab_len (iconf i) d = 0 -> ext_capab_data (iconf i) d = []) as Hz by (unfold ext_capab_data; now intros ->).
  case_bool_decide as E; [rewrite bool_decide_eq_true_2 by auto; done|].
  case_bool_decide; [done|]. cbn [negb]. unfold ies_bytes, ie_bytes. cbn [map concat fst snd app]. now rewrite app_nil_r.
Qed.

Lemma vendor_run : hostapd_eid_vendor_vht i b = ies_bytes (vendor_ies i b).
Proof using C.
  unfold vendor_ies, ies_bytes, ie_bytes, hostapd_eid_vendor_vht. cbn [map concat fst snd]. rewrite (proj1 zlen_vendor), app_nil_r. reflexivity.
Qed.

Lemma wmm_run : hostapd_eid_wmm i b = ies_bytes (wmm_ies i b).
Proof using C.
  unfold wmm_ies, opt, hostapd_eid_wmm. destruct (wmm_enabled (bconf b)); [|done].
  unfold ies_bytes, ie_bytes. cbn [map concat fst snd negb]. rewrite (proj1 zlen_wmm), app_nil_r. reflexivity.
Qed.

Lemma ie_made id d n : u8 id -> id <> WLAN_EID_MIC -> zlen d = n /\ Forall u8 d -> n <= 255 -> ie_ok (id, d).
Proof using. intros Hi Hm [Hl Hu] Hn. split; [done|]. split; [done|]. split; [done|]. cbn [snd]. lia. Qed.

Lemma opt_ok c l : Forall ie_ok l -> Forall ie_ok (opt c l).
Proof using. destruct c; [done|constructor]. Qed.

Lemma elements_ok : Forall ie_ok (ht_ies i b) /\ Forall ie_ok (vht_ies i b) /\ Forall ie_ok (ext_capab_ies (iconf i) (bconf b)) /\
  Forall ie_ok (vendor_ies i b) /\ Forall ie_ok (wmm_ies i b).
Proof using C.
  assert (zlen (obss_data (iconf i)) = 14 /\ Forall u8 (obss_data (iconf i))) as Ho.
  { unfold obss_data. split; [rewrite !zlen_app, !zlen_le_bytes; reflexivity|]. repeat apply u8_le. apply le_bytes_u8. }
  destruct (zlen_ext_capab (bconf b)) as [L U].
  split; [|split; [|split; [|split]]].
  - apply opt_ok. constructor; [eapply ie_made; [unfold u8; by_check|done|apply zlen_ht_cap|done]|].
    apply Forall_app. split; [apply opt_ok|]; (constructor; [|constructor]); eapply ie_made; try apply Ho; try apply zlen_ht_oper; done.
  - constructor; [eapply ie_made; [unfold u8; by_check|done|apply zlen_vht_cap|done]|].
    constructor; [eapply ie_made; [unfold u8; by_check|done|apply zlen_vht_oper|done]|constructor].
  - apply opt_ok. constructor; [|constructor]. eapply ie_made; [unfold u8; by_check|done|split; [reflexivity|done]|done].
  - constructor; [|constructor]. eapply ie_made; [unfold u8; by_check|done|apply zlen_vendor|done].
  - apply opt_ok. constructor; [|constructor]. eapply ie_made; [unfold u8; by_check|done|apply zlen_wmm|done].
Qed.
End Written.

(** ** Sizes *)

(** The two elements, and the second of them for at most 32 rates. *)
Lemma rates_sizes c : iconf_ok c -> zlen (ies_bytes (rates_ies c)) <= 12 + 257 /\
  ((forall rates, current_rates c = Some rates -> zlen rates <= 32) ->
   zlen (hostapd_eid_supp_rates c) <= 10 /\ zlen (hostapd_eid_ext_supp_rates c) <= 28).
Proof.
  intros C. unfold rates_ies. destruct (current_rates c) as [rates|] eqn:Er.
  2: { split; [done|]. intros _. unfold hostapd_eid_supp_rates, hostapd_eid_ext_supp_rates. by rewrite Er. }
  rewrite (supp_rates_run _ _ Er), (ext_rates_run _ _ Er) by (now apply (ic_rates _ C)).
  pose proof (zlen_all_rates c rates) as Hl. pose proof (ic_rates _ C rates Er) as H255.
  assert (num_all c rates <= zlen rates + 2) as Hall by (unfold num_all; destruct (ht_phy _), (vht_phy _); simpl; lia).
  assert (zlen (take 8 (all_rates c rates)) <= 8) by (unfold zlen in *; rewrite length_take; lia).
  assert (zlen (drop 8 (all_rates c rates)) <= Z.max 0 (zlen rates - 6)) by (unfold zlen in *; rewrite length_drop; lia).
  unfold ies_bytes, ie_bytes. split; [|intros H32; specialize (H32 _ eq_refl)]; case_bool_decide; cbn [map concat fst snd];
    autorewrite with zlen; rewrite ?app_nil_r, ?zlen_cons, ?zlen_nil; lia.
Qed.

Section Sizes.
Context (i : hostapd_iface) (b : hostapd_data) (C : iconf_ok (iconf i)).

Lemma ht_size : zlen (ies_bytes (ht_ies i b)) <= 68.
Proof using C.
  assert (zlen (obss_data (iconf i)) = 14) by (unfold obss_data; rewrite !zlen_app, !zlen_le_bytes; done).
  pose proof (proj1 (zlen_ht_cap i C)). pose proof (proj1 (zlen_ht_oper i)). unfold ht_ies. rewrite ies_opt. destruct (ht_on i b); [|done].
  unfold ies_bytes, ie_bytes, opt. destruct (negb _); cbn [app map concat fst snd]; autorewrite with zlen; lia.
Qed.

Lemma vht_size : zlen (ies_bytes (vht_ies i b)) = 21.
Proof using C.
  unfold vht_ies, ies_bytes, ie_bytes. cbn [map concat fst snd].
  rewrite app_nil_r, zlen_app, !zlen_cons, (proj1 (zlen_vht_cap i b C)), (proj1 (zlen_vht_oper i)). lia.
Qed.

Lemma ext_capab_size d : zlen (ies_bytes (ext_capab_ies (iconf i) d)) <= 257 /\
  zlen (ies_bytes (ext_capab_ies (iconf i) d)) <= 2 + Z.max 7 (zlen (extended_capa (iconf i))).
Proof using C.
  unfold ext_capab_ies. rewrite ies_opt. destruct (negb _); [|change (zlen (@nil Z)) with 0; lia].
  unfold ies_bytes, ie_bytes. cbn [map concat fst snd]. rewrite app_nil_r, !zlen_cons.
  pose proof (proj1 (zlen_ext_capab i C d)). pose proof (ext_capab_bound i C d). lia.
Qed.

Lemma vendor_size : zlen (ies_bytes (vendor_ies i b)) = 28.
Proof using C. unfold vendor_ies, ies_bytes, ie_bytes. cbn [map concat fst snd]. rewrite app_nil_r, !zlen_cons, (proj1 (zlen_vendor i b C)). lia. Qed.

Lemma wmm_size : zlen (ies_bytes (wmm_ies i b)) <= 26.
Proof using C.
  unfold wmm_ies. rewrite ies_opt. destruct (wmm_enabled _); [|done]. unfold ies_bytes, ie_bytes. cbn [map concat fst snd].
  rewrite app_nil_r, !zlen_cons, (proj1 (zlen_wmm i b C)). lia.
Qed.
End Sizes.

(** ** What a reader finds *)

Lemma last_of_app x l k : last_of x (l ++ k) = match last_of x k with Some d => Some d | None => last_of x l end.
Proof.
  induction l as [|j l IH]; [cbn [app last_of]; by destruct (last_of x k)|]. rewrite <- app_comm_cons, (last_of_cons x j (l ++ k)), (last_of_cons x j l), IH.
  destruct (last_of x k); [done|]. done.
Qed.

Lemma last_of_opt x c l : last_of x (opt c l) = if c then last_of x l else None.
Proof. by destruct c. Qed.

Lemma last_of_kind x id d y : classify id (zlen d) d = Ok (Store y) -> last_of x [(id, d)] = if decide (x = y) then Some d else None.
Proof. intros E. unfold last_of, verdict_of. cbn [fst snd]. now rewrite E. Qed.

Lemma last_of_skip x id d v : classify id (zlen d) d = Ok v -> (forall y, v <> Store y) -> last_of x [(id, d)] = None.
Proof. intros E Hv. unfold last_of, verdict_of. cbn [fst snd]. rewrite E. destruct v; [now destruct (Hv x0)|done..]. Qed.

(** The kinds of the vendor elements of the answer. *)
Lemma vendor_kind t : let d := 0x00 :: 0x90 :: 0x4c :: 0x04 :: 0x08 :: t in classify WLAN_EID_VENDOR_SPECIFIC (zlen d) d = Ok (Store VENDOR_VHT).
Proof.
  cbv zeta. assert (forall d, classify WLAN_EID_VENDOR_SPECIFIC (zlen d) d = ieee802_11_parse_vendor_specific d (zlen d)) as -> by done.
  unfold ieee802_11_parse_vendor_specific. rewrite !zlen_cons. pose proof (zlen_nonneg t).
  rewrite bool_decide_eq_false_2, (bool_decide_eq_true_2 (_ > 4)) by lia. reflexivity.
Qed.

Lemma wmm_kind t : let d := 0x00 :: 0x50 :: 0xf2 :: 2 :: 1 :: t in classify WLAN_EID_VENDOR_SPECIFIC (zlen d) d = Ok (Store WMM).
Proof.
  cbv zeta. assert (forall d, classify WLAN_EID_VENDOR_SPECIFIC (zlen d) d = ieee802_11_parse_vendor_specific d (zlen d)) as -> by done.
  unfold ieee802_11_parse_vendor_specific. rewrite !zlen_cons. pose proof (zlen_nonneg t).
  rewrite !bool_decide_eq_false_2 by lia. reflexivity.
Qed.

(** The members of the answer. *)
Section LastOf.
Context (x : elem) (i : hostapd_iface) (b : hostapd_data).

Lemma last_wmm : last_of x (wmm_ies i b) = if wmm_enabled (bconf b) && bool_decide (x = WMM) then Some (wmm_data i b) else None.
Proof using.
  unfold wmm_ies. rewrite last_of_opt, (last_of_kind x _ _ WMM) by apply wmm_kind.
  destruct (wmm_enabled _); [|done]. cbn [andb]. case_bool_decide; by case_decide.
Qed.

Lemma last_vendor : last_of x (vendor_ies i b) = if bool_decide (x = VENDOR_VHT) then Some (vendor_data i b) else None.
Proof using. unfold vendor_ies. rewrite (last_of_kind x _ _ VENDOR_VHT) by apply vendor_kind. case_bool_decide; by case_decide. Qed.

Lemma last_ext_capab : x <> EXT_CAPAB -> last_of x (ext_capab_ies (iconf i) (bconf b)) = None.
Proof using.
  intros Hne. unfold ext_capab_ies. rewrite last_of_opt, (last_of_kind x _ _ EXT_CAPAB), decide_False by done. by destruct (negb _).
Qed.

Lemma last_vht : last_of x (vht_ies i b) = if bool_decide (x = VHT_OPERATION) then Some (vht_oper_data i)
  else if bool_decide (x = VHT_CAPABILITIES) then Some (vht_cap_data i b) else None.
Proof using.
  unfold vht_ies. rewrite last_of_cons, (last_of_kind x WLAN_EID_VHT_OPERATION _ VHT_OPERATION), (last_of_kind x WLAN_EID_VHT_CAP _ VHT_CAPABILITIES) by done.
  destruct (decide (x = VHT_OPERATION)) as [->|]; [reflexivity|]. rewrite (bool_decide_eq_false_2 (x = VHT_OPERATION)) by done.
  case_bool_decide; by case_decide.
Qed.

Lemma last_ht : last_of x (ht_ies i b) = if ht_on i b then if bool_decide (x = HT_OPERATION) then Some (ht_operation_data i)
  else if bool_decide (x = HT_CAPABILITIES) then Some (ht_cap_data (iconf i)) else None else None.
Proof using.
  unfold ht_ies. rewrite last_of_opt. destruct (ht_on i b); [|done].
  rewrite last_of_cons, last_of_app, last_of_opt, (last_of_kind x WLAN_EID_HT_OPERATION _ HT_OPERATION), (last_of_kind x WLAN_EID_HT_CAP _ HT_CAPABILITIES) by done.
  assert (last_of x [(WLAN_EID_OVERLAPPING_BSS_SCAN_PARAMS, obss_data (iconf i))] = None) as -> by (by apply (last_of_skip _ _ _ Unknown)).
  destruct (decide (x = HT_OPERATION)) as [->|]; [done|].
  rewrite (bool_decide_eq_false_2 (x = HT_OPERATION)) by done.
  destruct (negb (bool_decide (obss_interval (iconf i) = 0)));
    (destruct (decide (x = HT_CAPABILITIES)) as [->|]; [done|now rewrite bool_decide_eq_false_2]).
Qed.

Lemma last_rates : x <> SUPP_RATES -> x <> EXT_SUPP_RATES -> last_of x (rates_ies (iconf i)) = None.
Proof using.
  intros H1 H2. unfold rates_ies. destruct (current_rates _); [|done].
  rewrite last_of_cons, (last_of_kind x WLAN_EID_SUPP_RATES _ SUPP_RATES), (decide_False (P := x = SUPP_RATES)) by done.
  case_bool_decide; [done|]. now rewrite (last_of_kind x WLAN_EID_EXT_SUPP_RATES _ EXT_SUPP_RATES), decide_False by done.
Qed.
End LastOf.

Lemma demo_iconf_ok : iconf_ok demo_iface_config.
Proof. split; try (split; [reflexivity|unfold u8; by_check]); try (intros r [= <-]); done. Qed.
