(* ===== verification/Beacon.v ===== *)
(** * Beacons and probe responses: [beacon.c]

    [hostapd_gen_probe_resp] and [ieee802_11_build_ap_params] build the frames that
    announce a network; [ieee802_11_build_ap_params_odin] is the copy of the latter
    that LazyAS uses, whose beacon is addressed to one station.  As in Eids.v, a
    function that writes at [eid] and returns the new end is the list of the bytes it
    writes, and the interface has its [current_mode].  [end - pos] is a [size_t] of 32
    bits where the parameter is one.

    The element of time advertisement is kept by [hostapd_update_time_adv]: what it
    holds is an answer of the environment, and so is whether the channels require DFS.
    The offset of the counter of a channel switch is the second result of a frame; the
    program keeps it for the switch itself, which is not modelled. *)

From stdpp Require Import base list numbers gmap strings.
From Stdlib Require Import ZArith Lia.
From S2P Require Import Prelude CString Dense Env World Elements Station Ht Eids.
Local Open Scope Z_scope.

Definition WLAN_EID_COUNTRY : Z := 7.
Definition WLAN_EID_BSS_LOAD : Z := 11.
Definition WLAN_EID_PWR_CONSTRAINT : Z := 32.
Definition WLAN_EID_CHANNEL_SWITCH : Z := 37.
Definition WLAN_EID_ERP_INFO : Z := 42.
Definition WLAN_EID_SECONDARY_CHANNEL_OFFSET : Z := 62.
Definition WLAN_EID_TIME_ADVERTISEMENT : Z := 69.
Definition WLAN_EID_RRM_ENABLED_CAPABILITIES : Z := 70.
Definition WLAN_EID_TIME_ZONE : Z := 98.
Definition WLAN_FC_STYPE_PROBE_RESP : Z := 5.
Definition WLAN_FC_STYPE_BEACON : Z := 8.
Definition WPA_DRIVER_FLAGS_DFS_OFFLOAD : Z := 0x4.
Definition WPA_DRIVER_FLAGS_PROBE_RESP_OFFLOAD : Z := 0x200000.
Definition ERP_INFO_NON_ERP_PRESENT : Z := 2 ^ 0.
Definition ERP_INFO_USE_PROTECTION : Z := 2 ^ 1.
Definition ERP_INFO_BARKER_PREAMBLE_MODE : Z := 2 ^ 2.
Definition HT_CAP_INFO_SMPS_MASK : Z := 0xc.

Definition hostapd_drv_send_mlme (frame : list Z) (noack : bool) : M world Z :=
  w <-- get ;; if driver_ops (ifc w) then ext (DrvSendMlme frame noack) else ret 0.

(** ** Elements *)

Definition hostapd_eid_rm_enabled_capab (b : hostapd_data) (len : Z) : list Z :=
  if negb (radio_measurements (bconf b)) || bool_decide (len < 2 + 4) then []
  else [WLAN_EID_RRM_ENABLED_CAPABILITIES; 5; (if rrm_neighbor_report (bcn (bconf b)) then 2 else 0); 0; 0; 0; 0].

Definition hostapd_eid_bss_load (i : hostapd_iface) (b : hostapd_data) (len : Z) : list Z :=
  if bool_decide (len < 2 + 5) then []
  else if bool_decide (bss_load_update_period (bcn (bconf b)) = 0) then []
  else [WLAN_EID_BSS_LOAD; 5] ++ le_bytes 2 (num_sta b) ++ [channel_utilization (bif (iconf i))] ++ le_bytes 2 0.

Definition ieee802_11_erp_info (i : hostapd_iface) : Z :=
  if negb (mode_11g i) then 0
  else
    let erp := 0 in
    let erp := if olbc (aps i) then Z.lor erp ERP_INFO_USE_PROTECTION else erp in
    let erp := if bool_decide (num_sta_non_erp i > 0) then Z.lor erp (Z.lor ERP_INFO_NON_ERP_PRESENT ERP_INFO_USE_PROTECTION) else erp in
    if bool_decide (num_sta_no_short_preamble i > 0) || negb (short_preamble (iconf i)) then Z.lor erp ERP_INFO_BARKER_PREAMBLE_MODE else erp.

Definition hostapd_eid_ds_params (i : hostapd_iface) : list Z := [WLAN_EID_DS_PARAMS; 1; uwrap 8 (channel i)].

Definition hostapd_eid_erp_info (i : hostapd_iface) : list Z :=
  if negb (mode_11g i) then [] else [WLAN_EID_ERP_INFO; 1; ieee802_11_erp_info i].

Definition hostapd_is_dfs_required : M world Z := ext (Hostapd (str "hostapd_is_dfs_required") []).

Definition hostapd_eid_pwr_constraint (i : hostapd_iface) : M world (list Z) :=
  let lpc := local_pwr_constraint (bif (iconf i)) in
  if negb (mode_11a (iconf i)) then ret []
  else if has (drv_flags i) WPA_DRIVER_FLAGS_DFS_OFFLOAD then ret []
  else if negb (ieee80211h (bif (iconf i))) && bool_decide (lpc = -1) then ret []
  else
    dfs <-- hostapd_is_dfs_required ;;
    let dfs := if bool_decide (dfs < 0) then 0 else dfs in
    ret (if bool_decide (dfs = 0) && bool_decide (lpc = -1) then []
         else [WLAN_EID_PWR_CONSTRAINT; 1; (if bool_decide (lpc = -1) then 3 else uwrap 8 lpc)]).

(** *** The country and its channels *)

(** [end] is [max_len] behind the start; [pos] are the bytes up to there. *)
Definition hostapd_eid_country_add (pos : list Z) (max_len chan_spacing : Z) (start prev : hostapd_channel_data) : list Z :=
  if bool_decide (max_len - zlen pos < 3) then pos
  else pos ++ [uwrap 8 (chan start); uwrap 8 (Z.quot (chan prev - chan start) chan_spacing + 1); max_tx_power start].

(** The loop over the channels; [group] are [start] and [prev], which are set together. *)
Fixpoint country_loop (max_len chan_spacing : Z) (channels : list hostapd_channel_data)
    (group : option (hostapd_channel_data * hostapd_channel_data)) (pos : list Z) : list Z :=
  match channels with
  | [] => match group with Some (start, prev) => hostapd_eid_country_add pos max_len chan_spacing start prev | None => pos end
  | c :: channels' =>
      if chan_disabled c then country_loop max_len chan_spacing channels' group pos
      else
        match group with
        | Some (start, prev) =>
            if bool_decide (chan prev + chan_spacing = chan c) && bool_decide (max_tx_power start = max_tx_power c)
            then country_loop max_len chan_spacing channels' (Some (start, c)) pos
            else country_loop max_len chan_spacing channels' (Some (c, c)) (hostapd_eid_country_add pos max_len chan_spacing start prev)
        | None => country_loop max_len chan_spacing channels' (Some (c, c)) pos
        end
  end.

Definition chan_spacing (i : hostapd_iface) : Z := if mode_11a (iconf i) then 4 else 1.

Definition hostapd_eid_country (i : hostapd_iface) (max_len : Z) : list Z :=
  let c := bif (iconf i) in
  if negb (ieee80211d c) || bool_decide (max_len < 6) then []
  else
    let pos := country_loop max_len (chan_spacing i) (mode_channels c) None ([WLAN_EID_COUNTRY; 0] ++ take 3 (country c)) in
    let done (pos : list Z) := [WLAN_EID_COUNTRY; uwrap 8 (zlen pos - 2)] ++ drop 2 pos in
    if Z.odd (zlen pos) then if bool_decide (max_len - zlen pos < 1) then [] else done (pos ++ [0])
    else done pos.

(** *** WPA, channel switch, time *)

Definition hostapd_eid_wpa (b : hostapd_data) (len : Z) : list Z :=
  match wpa_auth_ie (bcn (bconf b)) with
  | None => []
  | Some ie => if bool_decide (zlen ie > len) then [] else ie
  end.

Inductive hostapd_hw_mode : Type := HOSTAPD_MODE_IEEE80211B | HOSTAPD_MODE_IEEE80211G | HOSTAPD_MODE_IEEE80211A | HOSTAPD_MODE_IEEE80211AD.

(** [None] is [NUM_HOSTAPD_MODES]. *)
Definition ieee80211_freq_to_chan (freq : Z) : option (hostapd_hw_mode * Z) :=
  if bool_decide (freq >= 2412) && bool_decide (freq <= 2472) then Some (HOSTAPD_MODE_IEEE80211G, uwrap 8 (Z.quot (freq - 2407) 5))
  else if bool_decide (freq = 2484) then Some (HOSTAPD_MODE_IEEE80211B, 14)
  else if bool_decide (freq >= 4900) && bool_decide (freq < 5000) then Some (HOSTAPD_MODE_IEEE80211A, uwrap 8 (Z.quot (freq - 4000) 5))
  else if bool_decide (freq >= 5000) && bool_decide (freq < 5900) then Some (HOSTAPD_MODE_IEEE80211A, uwrap 8 (Z.quot (freq - 5000) 5))
  else if bool_decide (freq >= 56160 + 2160 * 1) && bool_decide (freq <= 56160 + 2160 * 4)
  then Some (HOSTAPD_MODE_IEEE80211AD, uwrap 8 (Z.quot (freq - 56160) 2160))
  else None.

Definition hostapd_eid_csa (b : hostapd_data) : list Z :=
  let c := bcn (bconf b) in
  if bool_decide (cs_freq c = 0) then []
  else
    match ieee80211_freq_to_chan (cs_freq c) with
    | None => []
    | Some (_, chan) => [WLAN_EID_CHANNEL_SWITCH; 3; uwrap 8 (cs_block_tx c); chan; cs_count c]
    end.

Definition hostapd_eid_secondary_channel (b : hostapd_data) : list Z :=
  let off := cs_sec_channel_offset (bcn (bconf b)) in
  if bool_decide (off = -1) then [WLAN_EID_SECONDARY_CHANNEL_OFFSET; 1; 3]
  else if bool_decide (off = 1) then [WLAN_EID_SECONDARY_CHANNEL_OFFSET; 1; 1]
  else [].

(** The elements and the offset of the counter; [off] is [pos - start]. *)
Definition hostapd_add_csa_elems (b : hostapd_data) (off : Z) : list Z * Z :=
  let csa := hostapd_eid_csa b in
  if bool_decide (csa = []) then ([], 0) else (csa ++ hostapd_eid_secondary_channel b, off + zlen csa - 1).

(** The 17 bytes behind the head of the element. *)
Definition time_bytes (a : list Z) : list Z := map (fun k => uwrap 8 (nth k a 0)) (seq 0 17).

Definition hostapd_eid_time_adv (b : hostapd_data) : M world (list Z) :=
  if bool_decide (time_advertisement (bconf b) <> 2) then ret []
  else
    a <-- ext_bytes (Hostapd (str "hostapd_update_time_adv") (own_addr b)) ;;
    ret (match a with None => [] | Some t => [WLAN_EID_TIME_ADVERTISEMENT; 17] ++ time_bytes t end).

Definition hostapd_eid_time_zone (b : hostapd_data) : list Z :=
  if bool_decide (time_advertisement (bconf b) <> 2) then []
  else let tz := time_zone (bcn (bconf b)) in [WLAN_EID_TIME_ZONE; uwrap 8 (zlen tz)] ++ tz.

(** ** Frames *)

(** [end - pos], as a [size_t]. *)
Definition room (size : Z) (buf : list Z) : Z := uwrap 32 (size - zlen buf).

Definition MAX_PROBERESP_LEN : Z := 768.
Definition BEACON_HEAD_BUF_SIZE : Z := 256.
Definition BEACON_TAIL_BUF_SIZE : Z := 512.

(** The size of [vendor_elements] and of the vendor's VHT element. *)
Definition extra_len (b : hostapd_data) : Z :=
  match vendor_elements (bcn (bconf b)) with Some v => zlen v | None => 0 end
  + if vendor_vht (bconf b) then 5 + 2 + sizeof_vht_capabilities + 2 + 5 else 0.

(** Up to the variable part: timestamp, interval and capabilities behind the header. *)
Definition frame_start (i : hostapd_iface) (stype : Z) (da : list Z) (b : hostapd_data) (capab : Z) : list Z :=
  mgmt_header stype da (own_addr b) (own_addr b)
  ++ replicate 8 0 ++ le_bytes 2 (beacon_int (bif (iconf i))) ++ le_bytes 2 capab.

Definition vht_part (i : hostapd_iface) (b : hostapd_data) : list Z :=
  (if ieee80211ac (iconf i) && negb (disable_11ac (bconf b)) then hostapd_eid_vht_capabilities i b ++ hostapd_eid_vht_operation i else [])
  ++ (if vendor_vht (bconf b) then hostapd_eid_vendor_vht i b else []).

Definition vendor_part (b : hostapd_data) : list Z := match vendor_elements (bcn (bconf b)) with Some v => v | None => [] end.

(** The body of [hostapd_gen_probe_resp]; [pwr] and [adv] are the elements that are
    made with the help of the environment. *)
Definition probe_resp (i : hostapd_iface) (b : hostapd_data) (da : list Z) (capab : Z) (pwr adv : list Z) : list Z * Z :=
  let p := frame_start i WLAN_FC_STYPE_PROBE_RESP da b capab
           ++ [WLAN_EID_SSID; uwrap 8 (ssid_len b)] ++ take (Z.to_nat (ssid_len b)) (ssid b)
           ++ hostapd_eid_supp_rates (iconf i) ++ hostapd_eid_ds_params i in
  let p := p ++ hostapd_eid_country i (MAX_PROBERESP_LEN - zlen p) in
  let p := p ++ pwr ++ hostapd_eid_erp_info i ++ hostapd_eid_ext_supp_rates (iconf i) in
  let p := p ++ hostapd_eid_wpa b (room MAX_PROBERESP_LEN p) in
  let p := p ++ hostapd_eid_bss_load i b (room MAX_PROBERESP_LEN p) in
  let p := p ++ hostapd_eid_rm_enabled_capab b (room MAX_PROBERESP_LEN p) in
  let p := p ++ hostapd_eid_ht_capabilities i b ++ hostapd_eid_ht_operation i b ++ hostapd_eid_ext_capab (iconf i) (bconf b)
             ++ adv ++ hostapd_eid_time_zone b in
  let '(csa, off) := hostapd_add_csa_elems b (zlen p) in
  (p ++ csa ++ vht_part i b ++ hostapd_eid_wmm i b ++ vendor_part b, off).

(** [sta] and [req] are NULL for the template of the driver. *)
Definition hostapd_gen_probe_resp (hapd : nat) (sta : option positive) (req : option (list Z)) : M world (option (list Z)) :=
  b <-- get_bss hapd ;;
  let buflen := MAX_PROBERESP_LEN + extra_len b in
  m <-- ext (Malloc buflen) ;;
  if bool_decide (m = 0) then ret None
  else
    da <-- match req with Some r => lift (slice 10 ETH_ALEN r) | None => ret (replicate 6 0) end ;;
    s <-- match sta with Some p => s <-- get_sta p ;; ret (Some s) | None => ret None end ;;
    dfs <-- hostapd_is_dfs_required ;;
    w <-- get ;;
    pwr <-- hostapd_eid_pwr_constraint (ifc w) ;;
    adv <-- hostapd_eid_time_adv b ;;
    frame <-- lift (within buflen (fst (probe_resp (ifc w) b da (hostapd_own_capab_info (ifc w) b s true dfs) pwr adv))) ;;
    ret (Some frame).

Definition hostapd_probe_resp_offloads (hapd : nat) : M world (option (list Z)) :=
  w <-- get ;;
  if negb (has (drv_flags (ifc w)) WPA_DRIVER_FLAGS_PROBE_RESP_OFFLOAD) then ret None
  else hostapd_gen_probe_resp hapd None None.

(** The name in a beacon. *)
Definition beacon_ssid (b : hostapd_data) : list Z :=
  let hide := ignore_broadcast_ssid (bcn (bconf b)) in
  if bool_decide (hide = 2) then [WLAN_EID_SSID; uwrap 8 (ssid_len b)] ++ replicate (Z.to_nat (ssid_len b)) 0
  else if bool_decide (hide <> 0) then [WLAN_EID_SSID; 0]
  else [WLAN_EID_SSID; uwrap 8 (ssid_len b)] ++ take (Z.to_nat (ssid_len b)) (ssid b).

Definition beacon_head (i : hostapd_iface) (b : hostapd_data) (da : list Z) (capab : Z) : list Z :=
  frame_start i WLAN_FC_STYPE_BEACON da b capab ++ beacon_ssid b ++ hostapd_eid_supp_rates (iconf i) ++ hostapd_eid_ds_params i.

Definition beacon_tail (i : hostapd_iface) (b : hostapd_data) (pwr adv : list Z) : list Z * Z :=
  let p := hostapd_eid_country i BEACON_TAIL_BUF_SIZE in
  let p := p ++ pwr ++ hostapd_eid_erp_info i ++ hostapd_eid_ext_supp_rates (iconf i) in
  let p := p ++ hostapd_eid_wpa b (room BEACON_TAIL_BUF_SIZE p) in
  let p := p ++ hostapd_eid_rm_enabled_capab b (room BEACON_TAIL_BUF_SIZE p) in
  let p := p ++ hostapd_eid_bss_load i b (room BEACON_TAIL_BUF_SIZE p) in
  let p := p ++ hostapd_eid_ht_capabilities i b ++ hostapd_eid_ht_operation i b ++ hostapd_eid_ext_capab (iconf i) (bconf b) ++ adv in
  let '(csa, off) := hostapd_add_csa_elems b (zlen p) in
  (p ++ csa ++ vht_part i b ++ hostapd_eid_wmm i b ++ vendor_part b, off).

(** What the driver is told with the beacon. *)
Definition beacon_params (i : hostapd_iface) (b : hostapd_data) (head tail : list Z) (resp : option (list Z)) : ap_params :=
  let c := bconf b in
  let k := bcn c in
  {| ap_head := head; ap_tail := tail; ap_proberesp := resp; ap_dtim_period := dtim_period k;
     ap_beacon_int := beacon_int (bif (iconf i)); ap_basic_rates := basic_rates (bif (iconf i));
     ap_ssid := take (Z.to_nat (ssid_len b)) (ssid b);
     ap_pairwise_ciphers := Z.lor (wpa_pairwise k) (rsn_pairwise k); ap_group_cipher := wpa_group k;
     ap_key_mgmt_suites := wpa_key_mgmt k; ap_auth_algs := auth_algs c; ap_wpa_version := wpa c;
     ap_privacy := wep_keys_set k || bool_decide (wpa c <> 0)
       || (ieee802_1x c && (bool_decide (default_wep_key_len k <> 0) || bool_decide (individual_wep_key_len k <> 0)));
     ap_hide_ssid := (match ignore_broadcast_ssid k with 1 => 1 | 2 => 2 | _ => 0 end); ap_isolate := isolate k;
     ap_smps_mode := Z.land (ht_capab (iconf i)) HT_CAP_INFO_SMPS_MASK;
     ap_cts_protect := has (ieee802_11_erp_info i) ERP_INFO_USE_PROTECTION;
     ap_preamble := bool_decide (num_sta_no_short_preamble i = 0) && short_preamble (iconf i);
     ap_short_slot_time := (if mode_11g i then if bool_decide (num_sta_no_short_slot_time i > 0) then 0 else 1 else -1);
     ap_ht_opmode := (if negb (ieee80211n (iconf i)) || disable_11n c then -1 else ht_op_mode (ht i));
     ap_interworking := interworking c;
     ap_hessid := (if interworking c && negb (bool_decide (hessid k = replicate 6 0)) then Some (hessid k) else None);
     ap_access_network_type := access_network_type k; ap_max_inactivity := max_inactivity_conf k |}.

(** The common body of the two functions, which differ in the receiver. *)
Definition build_ap_params (da : list Z) (hapd : nat) : M world (option ap_params) :=
  b <-- get_bss hapd ;;
  let tail_len := BEACON_TAIL_BUF_SIZE + extra_len b in
  head <-- ext (Malloc BEACON_HEAD_BUF_SIZE) ;;
  tail <-- ext (Malloc tail_len) ;;
  if bool_decide (head = 0 \/ tail = 0) then ret None
  else
    dfs <-- hostapd_is_dfs_required ;;
    w <-- get ;;
    let i := ifc w in
    head <-- lift (within BEACON_HEAD_BUF_SIZE (beacon_head i b da (hostapd_own_capab_info i b None false dfs))) ;;
    pwr <-- hostapd_eid_pwr_constraint i ;;
    adv <-- hostapd_eid_time_adv b ;;
    tail <-- lift (within tail_len (fst (beacon_tail i b pwr adv))) ;;
    resp <-- hostapd_probe_resp_offloads hapd ;;
    ret (Some (beacon_params i b head tail resp)).

Definition ieee802_11_build_ap_params (hapd : nat) : M world (option ap_params) := build_ap_params (replicate 6 255) hapd.

Definition ieee802_11_build_ap_params_odin (hapd : nat) (statinmac : list Z) : M world (option ap_params) :=
  mac <-- lift (slice 0 ETH_ALEN statinmac) ;; build_ap_params mac hapd.

(** ** The channels of the country element *)

(** What a reader makes of the triplets. *)
Fixpoint country_channels (spacing : Z) (l : list Z) : list (Z * Z) :=
  match l with
  | first :: num :: power :: l' => map (fun k => (first + spacing * k, power)) (seqZ 0 num) ++ country_channels spacing l'
  | _ => []
  end.

Definition enabled (l : list hostapd_channel_data) : list hostapd_channel_data := List.filter (fun c => negb (chan_disabled c)) l.
Definition channel_power (c : hostapd_channel_data) : Z * Z := (chan c, max_tx_power c).

Definition chan_ok (c : hostapd_channel_data) : Prop := 1 <= chan c <= 255 /\ u8 (max_tx_power c).

Section Country.
Context (spacing max_len : Z) (Hsp : 1 <= spacing).

(** [prev] is [k] steps behind [start]. *)
Definition run_of (start : hostapd_channel_data) (k : Z) : list (Z * Z) :=
  map (fun j => (chan start + spacing * j, max_tx_power start)) (seqZ 0 (k + 1)).

Definition group_ok (g : option (hostapd_channel_data * hostapd_channel_data)) (k : Z) : Prop :=
  match g with
  | Some (s, p) => 0 <= k /\ chan_ok s /\ chan_ok p /\ chan p = chan s + spacing * k
  | None => True
  end.

Definition group_run (g : option (hostapd_channel_data * hostapd_channel_data)) (k : Z) : list (Z * Z) :=
  match g with Some (s, _) => run_of s k | None => [] end.

Definition group_size (g : option (hostapd_channel_data * hostapd_channel_data)) : Z := match g with Some _ => 1 | None => 0 end.

(** The triplets that are written behind [pos]. *)
Definition writes (pos out : list Z) (l : list (Z * Z)) (n : Z) : Prop :=
  exists bytes m, out = pos ++ bytes /\ zlen bytes = 3 * m /\ 0 <= m <= n /\ Forall u8 bytes /\
    forall rest, country_channels spacing (bytes ++ rest) = l ++ country_channels spacing rest.

Lemma writes_nil pos : writes pos pos [] 0.
Proof using. exists [], 0. split; [by rewrite app_nil_r|]. repeat split; done. Qed.

Lemma writes_app pos mid out l k n m : writes pos mid l n -> writes mid out k m -> writes pos out (l ++ k) (n + m).
Proof using.
  intros (b1 & m1 & -> & L1 & R1 & U1 & D1) (b2 & m2 & -> & L2 & R2 & U2 & D2). exists (b1 ++ b2), (m1 + m2).
  split; [by rewrite <- app_assoc|]. split; [rewrite zlen_app; lia|]. split; [lia|]. split; [by apply Forall_app|].
  intros rest. by rewrite <- app_assoc, D1, D2, <- app_assoc.
Qed.

Lemma writes_weaken pos out l n m : writes pos out l n -> n <= m -> writes pos out l m.
Proof using. intros (b & k & H1 & H2 & H3 & H4) Hm. exists b, k. split; [done|]. split; [done|]. split; [lia|done]. Qed.

Lemma add_writes pos s p k : group_ok (Some (s, p)) k -> zlen pos + 3 <= max_len ->
  writes pos (hostapd_eid_country_add pos max_len spacing s p) (run_of s k) 1.
Proof using Hsp.
  intros (Hk & [Hs Hu] & [Hp _] & E) Hr. unfold hostapd_eid_country_add. rewrite bool_decide_eq_false_2 by lia.
  replace (chan p - chan s) with (k * spacing) by lia. rewrite Z.quot_mul, !uwrap_small by nia.
  eexists _, 1. split; [reflexivity|]. split; [reflexivity|]. split; [lia|]. split; [|reflexivity].
  repeat (apply Forall_cons_2; [unfold u8 in *; nia|]). constructor.
Qed.

Lemma run_next s k : 0 <= k -> run_of s (k + 1) = run_of s k ++ [(chan s + spacing * (k + 1), max_tx_power s)].
Proof using.
  intros Hk. unfold run_of. rewrite (seqZ_app 0 (k + 1) 1), map_app by lia. cbn. done.
Qed.

Lemma run_first c : run_of c 0 = [channel_power c].
Proof using. unfold run_of, channel_power. change (seqZ 0 (0 + 1)) with [0]. cbn [map]. by rewrite Z.mul_0_r, Z.add_0_r. Qed.

Lemma enabled_cons c l : enabled (c :: l) = if chan_disabled c then enabled l else c :: enabled l.
Proof using. unfold enabled. cbn [List.filter]. by destruct (chan_disabled c). Qed.

(** The loop: the channels of the group and the enabled ones that follow. *)
Lemma country_loop_writes channels : Forall chan_ok channels -> forall g k pos, group_ok g k ->
  zlen pos + 3 * (group_size g + zlen (enabled channels)) <= max_len ->
  writes pos (country_loop max_len spacing channels g pos) (group_run g k ++ map channel_power (enabled channels))
    (group_size g + zlen (enabled channels)).
Proof using Hsp.
  induction 1 as [|c channels Hc _ IH]; intros g k pos Hg Hr; cbn [country_loop].
  - change (enabled []) with (@nil hostapd_channel_data) in *. cbn [map]. rewrite app_nil_r. change (zlen (@nil hostapd_channel_data)) with 0 in *. rewrite !Z.add_0_r in *.
    destruct g as [[s p]|]; [apply add_writes; [done|cbn in Hr; lia]|apply writes_nil].
  - rewrite enabled_cons in *. destruct (chan_disabled c); cbn [map]; [by apply IH|].
    rewrite zlen_cons in *. assert (group_ok (Some (c, c)) 0) as Hnew by (split; [done|split; [done|split; [done|lia]]]).
    destruct g as [[s p]|]; cbn [group_size group_run] in *.
    + pose proof (zlen_nonneg (enabled channels)) as Hn. destruct (bool_decide _ && bool_decide _) eqn:Et.
      * apply andb_true_iff in Et as [Ec%bool_decide_eq_true Ep%bool_decide_eq_true]. destruct Hg as (Hk & Hs & Hp & E).
        assert (channel_power c = (chan s + spacing * (k + 1), max_tx_power s)) as -> by (unfold channel_power; f_equal; lia).
        rewrite (cons_middle _ (run_of s k)), app_assoc, <- run_next by done.
        eapply writes_weaken; [apply (IH (Some (s, c)) (k + 1) pos)|]; cbn [group_size] in *; [|lia|lia].
        split; [lia|]. split; [done|]. split; [done|lia].
      * destruct (add_writes pos s p k Hg ltac:(lia)) as (b & m & E1 & L1 & R1 & U1 & D1).
        assert (writes pos (hostapd_eid_country_add pos max_len spacing s p) (run_of s k) 1) as W by (apply add_writes; [done|lia]).
        eapply writes_weaken; [eapply writes_app; [exact W|]|].
        -- change (channel_power c :: map channel_power (enabled channels)) with ([channel_power c] ++ map channel_power (enabled channels)).
           rewrite <- run_first. apply (IH (Some (c, c)) 0); [done|]. cbn [group_size]. rewrite E1, zlen_app. lia.
        -- cbn [group_size]. lia.
    + change (channel_power c :: map channel_power (enabled channels)) with ([channel_power c] ++ map channel_power (enabled channels)).
      rewrite <- run_first. eapply writes_weaken; [apply (IH (Some (c, c)) 0); [done|cbn [group_size]; lia]|cbn [group_size]; lia].
Qed.
End Country.

(** ** The configuration of beacons *)

(** The arrays, in the sizes for which the buffers were made. *)
Record beacon_sizes (c : iface_config) : Prop := {
  bs_rates : forall rates, current_rates c = Some rates -> zlen rates <= 32;
  bs_capa : zlen (extended_capa c) <= 32;
  bs_country : length (country (bif c)) = 3%nat /\ Forall u8 (country (bif c));
  bs_channels : zlen (mode_channels (bif c)) <= 42 /\ Forall chan_ok (mode_channels (bif c));
  bs_load : u8 (channel_utilization (bif c)) }.

Definition wpa_kind (e : ie) : Prop := verdict_of e = Store RSN_IE \/ verdict_of e = Store WPA_IE.

(** Elements that the parser does not store. *)
Definition not_stored (l : list ie) : Prop := Forall (fun e => forall x, verdict_of e <> Store x) l.

Record beacon_conf_ok (k : beacon_bss) : Prop := {
  bk_wpa : forall d, wpa_auth_ie k = Some d -> zlen d <= 128 /\ exists l, d = ies_bytes l /\ Forall ie_ok l /\ Forall wpa_kind l;
  bk_vendor : forall d, vendor_elements k = Some d -> exists l, d = ies_bytes l /\ Forall ie_ok l /\ not_stored l;
  bk_zone : zlen (time_zone k) <= 128 /\ Forall u8 (time_zone k);
  bk_count : u8 (cs_count k) }.

(** ** The elements as elements *)

(** Elements that are whole, take at most [n] bytes and are not stored by the parser. *)
Definition aside_ies (n : Z) (bytes : list Z) : Prop :=
  exists l, bytes = ies_bytes l /\ Forall ie_ok l /\ not_stored l /\ zlen bytes <= n.

Lemma not_stored_last l x : not_stored l -> last_of x l = None.
Proof.
  induction 1 as [|e l He _ IH]; [done|]. cbn [last_of]. rewrite IH. specialize (He x). destruct (verdict_of e) as [y| |]; [|done..].
  case_decide; [by subst|done].
Qed.

Lemma aside_nil n : 0 <= n -> aside_ies n [].
Proof. intros Hn. exists []. repeat split; try constructor. exact Hn. Qed.

Lemma aside_weaken n m bytes : aside_ies n bytes -> n <= m -> aside_ies m bytes.
Proof. intros (l & E & H1 & H2 & H3) Hn. exists l. repeat split; try done. lia. Qed.

Lemma aside_app n m x y : aside_ies n x -> aside_ies m y -> aside_ies (n + m) (x ++ y).
Proof.
  intros (l & -> & O1 & S1 & L1) (k & -> & O2 & S2 & L2). exists (l ++ k). split; [by rewrite ies_app|].
  split; [by apply Forall_app|]. split; [by apply Forall_app|]. rewrite zlen_app. lia.
Qed.

Lemma aside_one id d n : u8 id -> id <> WLAN_EID_MIC -> Forall u8 d -> zlen d <= 255 -> zlen d + 2 <= n ->
  (forall x, verdict_of (id, d) <> Store x) -> aside_ies n (id :: zlen d :: d).
Proof.
  intros Hi Hm Hu Hl Hn Hv. exists [(id, d)]. split; [unfold ies_bytes, ie_bytes; cbn [map concat fst snd app]; by rewrite app_nil_r|].
  split; [by apply Forall_singleton|]. split; [by apply Forall_singleton|]. rewrite !zlen_cons. lia.
Qed.

Section Asides.
Context (i : hostapd_iface) (b : hostapd_data) (C : beacon_sizes (iconf i)) (K : beacon_conf_ok (bcn (bconf b))).

Lemma rm_aside len : 7 <= len -> aside_ies 7 (hostapd_eid_rm_enabled_capab b len).
Proof using.
  intros Hl. unfold hostapd_eid_rm_enabled_capab. destruct (_ || _); [by apply aside_nil|].
  apply (aside_one WLAN_EID_RRM_ENABLED_CAPABILITIES [_; _; _; _; _]); try done.
  unfold u8. destruct (rrm_neighbor_report _); by_check.
Qed.

Lemma load_aside len : 7 <= len -> aside_ies 7 (hostapd_eid_bss_load i b len).
Proof using C.
  intros Hl. unfold hostapd_eid_bss_load. case_bool_decide; [by apply aside_nil|]. case_bool_decide; [by apply aside_nil|].
  apply (aside_one WLAN_EID_BSS_LOAD (le_bytes 2 _ ++ [_] ++ le_bytes 2 0)); try done.
  apply u8_le, Forall_cons_2; [apply C|unfold u8; by_check].
Qed.

Lemma zone_aside : aside_ies 130 (hostapd_eid_time_zone b).
Proof using K.
  unfold hostapd_eid_time_zone. case_bool_decide; [by apply aside_nil|]. destruct (bk_zone _ K) as [Hl Hu].
  pose proof (zlen_nonneg (time_zone (bcn (bconf b)))). cbv zeta. rewrite uwrap_small by lia.
  apply (aside_one WLAN_EID_TIME_ZONE); [unfold u8; by_check|done|done|lia|lia|done].
Qed.

Lemma chan_u8 freq m ch : ieee80211_freq_to_chan freq = Some (m, ch) -> u8 ch.
Proof using.
  unfold ieee80211_freq_to_chan. repeat destruct (_ && _); try case_bool_decide; try discriminate; intros [= _ <-];
    (apply uwrap_range; lia) || (unfold u8; lia).
Qed.

Lemma csa_aside off : aside_ies 8 (fst (hostapd_add_csa_elems b off)).
Proof using K.
  unfold hostapd_add_csa_elems. case_bool_decide as E; [by apply aside_nil|]. cbn [fst]. apply (aside_app 5 3).
  - unfold hostapd_eid_csa in *. case_bool_decide; [by apply aside_nil|]. destruct (ieee80211_freq_to_chan _) as [[m ch]|] eqn:Ec; [|by apply aside_nil].
    apply (aside_one WLAN_EID_CHANNEL_SWITCH [_; _; _]); try done.
    apply Forall_cons_2; [apply uwrap_range; lia|]. apply Forall_cons_2; [by apply chan_u8 in Ec|]. apply Forall_cons_2; [apply K|constructor].
  - unfold hostapd_eid_secondary_channel. repeat case_bool_decide; try by apply aside_nil.
    + apply (aside_one WLAN_EID_SECONDARY_CHANNEL_OFFSET [3]); try done; unfold u8; by_check.
    + apply (aside_one WLAN_EID_SECONDARY_CHANNEL_OFFSET [1]); try done; unfold u8; by_check.
Qed.

Lemma zlen_enabled : 0 <= zlen (enabled (mode_channels (bif (iconf i)))) <= zlen (mode_channels (bif (iconf i))).
Proof using. unfold enabled, zlen. pose proof (filter_length_le (fun c => negb (chan_disabled c)) (mode_channels (bif (iconf i)))). lia. Qed.
End Asides.

(** ** The country element *)

Lemma spacing_pos i : 1 <= chan_spacing i.
Proof. unfold chan_spacing. destruct (mode_11a _); lia. Qed.

(** What the element holds when there is room for the enabled channels. *)
Lemma country_run (i : hostapd_iface) (max_len : Z) : let c := bif (iconf i) in
  ieee80211d c = true -> length (country c) = 3%nat -> Forall u8 (country c) -> Forall chan_ok (mode_channels c) ->
  6 + 3 * zlen (enabled (mode_channels c)) <= max_len -> zlen (enabled (mode_channels c)) <= 83 ->
  exists data, hostapd_eid_country i max_len = ie_bytes (WLAN_EID_COUNTRY, data) /\ Forall u8 data /\
    zlen data <= 4 + 3 * zlen (enabled (mode_channels c)) /\ Z.even (zlen data) = true /\ take 3 data = country c /\
    country_channels (chan_spacing i) (drop 3 data) = map channel_power (enabled (mode_channels c)).
Proof.
  cbv zeta. intros Hd Hc Hcu Hok Hr Hn. pose proof (zlen_nonneg (enabled (mode_channels (bif (iconf i))))) as H0.
  unfold hostapd_eid_country. rewrite Hd, bool_decide_eq_false_2 by lia. cbn [negb orb]. cbv zeta.
  rewrite (take_ge (country _)) by lia.
  destruct (country (bif (iconf i))) as [|c0 [|c1 [|c2 [|]]]] eqn:Ec; try discriminate Hc.
  set (start := [WLAN_EID_COUNTRY; 0] ++ [c0; c1; c2]).
  destruct (country_loop_writes (chan_spacing i) max_len (spacing_pos i) _ Hok None 0 start Logic.I) as (t & m & -> & Lt & Hm & Ht & Rt).
  { unfold start. cbn [group_size]. change (zlen ([WLAN_EID_COUNTRY; 0] ++ [c0; c1; c2])) with 5. lia. }
  cbn [group_size group_run app] in *. assert (zlen (start ++ t) = 5 + 3 * m) as Lp by (rewrite zlen_app, Lt; reflexivity).
  assert (Forall u8 ([c0; c1; c2] ++ t)) as Hu by (by apply Forall_app).
  rewrite Lp. destruct (Z.odd _) eqn:Eo.
  - rewrite bool_decide_eq_false_2 by lia. exists ([c0; c1; c2] ++ t ++ [0]).
    assert (zlen ([c0; c1; c2] ++ t ++ [0]) = 4 + 3 * m) as Ld by (rewrite !zlen_app, Lt; change (zlen [c0; c1; c2]) with 3; change (zlen [0]) with 1; lia).
    split; [|split; [|split; [lia|split; [|split; [reflexivity|]]]]].
    + rewrite zlen_app, Lp. change (zlen [0]) with 1. rewrite uwrap_small by lia. unfold ie_bytes. cbn [fst snd]. rewrite Ld.
      unfold start. rewrite <- !app_assoc. cbn [app drop]. do 2 f_equal. lia.
    + rewrite !Forall_app in *. split; [apply Hu|]. split; [apply Hu|]. unfold u8. by_check.
    + rewrite Ld. replace (4 + 3 * m) with (Z.pred (5 + 3 * m)) by lia. by rewrite Z.even_pred.
    + cbn [app drop]. rewrite drop_0, Rt. by rewrite app_nil_r.
  - exists ([c0; c1; c2] ++ t).
    assert (zlen ([c0; c1; c2] ++ t) = 3 + 3 * m) as Ld by (rewrite !zlen_app, Lt; change (zlen [c0; c1; c2]) with 3; lia).
    split; [|split; [done|split; [lia|split; [|split; [reflexivity|]]]]].
    + rewrite uwrap_small by lia. unfold ie_bytes. cbn [fst snd]. rewrite Ld. unfold start. cbn [app drop]. do 2 f_equal. lia.
    + rewrite Ld. rewrite <- Z.negb_odd. replace (3 + 3 * m) with (5 + 3 * m + 2 * (-1)) by lia. by rewrite Z.odd_add_mul_2, Eo.
    + cbn [app drop]. rewrite drop_0, <- (app_nil_r t), Rt. by rewrite app_nil_r.
Qed.

Lemma country_aside i max_len : beacon_sizes (iconf i) -> 132 <= max_len -> aside_ies 132 (hostapd_eid_country i max_len).
Proof.
  intros C Hr. destruct (ieee80211d (bif (iconf i))) eqn:Ed.
  2: { unfold hostapd_eid_country. rewrite Ed. by apply aside_nil. }
  destruct (bs_country _ C) as [Hc Hcu], (bs_channels _ C) as [Hn Hok]. pose proof (zlen_enabled i) as He.
  destruct (country_run i max_len) as (d & -> & Hu & Hl & _); try done; try lia.
  apply (aside_one WLAN_EID_COUNTRY d); [unfold u8; by_check|done|done|lia|lia|done].
Qed.

(** ** What a receiver finds in a frame *)

(** The elements of a frame that the parser stores. *)
Definition ssid_ies (name : list Z) : list ie := [(WLAN_EID_SSID, name)].
Definition supp_ies (c : iface_config) : list ie :=
  match current_rates c with Some rates => [(WLAN_EID_SUPP_RATES, take 8 (all_rates c rates))] | None => [] end.
Definition ext_ies (c : iface_config) : list ie :=
  match current_rates c with
  | Some rates => if bool_decide (num_all c rates <= 8) then [] else [(WLAN_EID_EXT_SUPP_RATES, drop 8 (all_rates c rates))]
  | None => []
  end.
Definition ds_ies (i : hostapd_iface) : list ie := [(WLAN_EID_DS_PARAMS, [uwrap 8 (channel i)])].
Definition erp_ies (i : hostapd_iface) : list ie := opt (mode_11g i) [(WLAN_EID_ERP_INFO, [ieee802_11_erp_info i])].

(** What it finds in the beacon or response of a network called [name], if the
    member is neither of those for the security of the network. *)
Definition announced (i : hostapd_iface) (b : hostapd_data) (name : option (list Z)) (x : elem) : option (list Z) :=
  let c := iconf i in
  let vht := ieee80211ac c && negb (disable_11ac (bconf b)) in
  match x with
  | SSID => name
  | SUPP_RATES | EXT_SUPP_RATES => last_of x (rates_ies c)
  | DS_PARAMS => Some [uwrap 8 (channel i)]
  | ERP_INFO => if mode_11g i then Some [ieee802_11_erp_info i] else None
  | HT_CAPABILITIES => if ht_on i b then Some (ht_cap_data c) else None
  | HT_OPERATION => if ht_on i b then Some (ht_operation_data i) else None
  | VHT_CAPABILITIES => if vht then Some (vht_cap_data i b) else None
  | VHT_OPERATION => if vht then Some (vht_oper_data i) else None
  | VENDOR_VHT => if vendor_vht (bconf b) then Some (vendor_data i b) else None
  | EXT_CAPAB => last_of x (ext_capab_ies c (bconf b))
  | WMM => if wmm_enabled (bconf b) then Some (wmm_data i b) else None
  | _ => None
  end.

Section Frames.
Context (i : hostapd_iface) (b : hostapd_data).
Context (C : iconf_ok (iconf i)) (S : beacon_sizes (iconf i)) (K : beacon_conf_ok (bcn (bconf b))).

Lemma rates_split : rates_ies (iconf i) = supp_ies (iconf i) ++ ext_ies (iconf i).
Proof using. unfold rates_ies, supp_ies, ext_ies. by destruct (current_rates _). Qed.

Lemma supp_run : hostapd_eid_supp_rates (iconf i) = ies_bytes (supp_ies (iconf i)).
Proof using.
  unfold supp_ies. destruct (current_rates (iconf i)) as [r|] eqn:Er; [|unfold hostapd_eid_supp_rates; by rewrite Er].
  rewrite (supp_rates_run _ _ Er). unfold ies_bytes. cbn [map concat]. by rewrite app_nil_r.
Qed.

Lemma ext_run : hostapd_eid_ext_supp_rates (iconf i) = ies_bytes (ext_ies (iconf i)).
Proof using C.
  unfold ext_ies. destruct (current_rates (iconf i)) as [r|] eqn:Er; [|unfold hostapd_eid_ext_supp_rates; by rewrite Er].
  by rewrite (ext_rates_run _ _ Er) by (by apply (ic_rates _ C)).
Qed.

Lemma erp_u8 : u8 (ieee802_11_erp_info i).
Proof using.
  unfold ieee802_11_erp_info. destruct (negb (mode_11g i)); [unfold u8; by_check|]. cbv zeta.
  repeat match goal with |- context [if ?c then _ else _] => destruct c end; unfold u8; by_check.
Qed.

Lemma erp_run : hostapd_eid_erp_info i = ies_bytes (erp_ies i).
Proof using. unfold hostapd_eid_erp_info, erp_ies. by destruct (mode_11g i). Qed.

Lemma ds_run : hostapd_eid_ds_params i = ies_bytes (ds_ies i).
Proof using. done. Qed.

Lemma vht_part_run : vht_part i b
  = ies_bytes (opt (ieee80211ac (iconf i) && negb (disable_11ac (bconf b))) (vht_ies i b) ++ opt (vendor_vht (bconf b)) (vendor_ies i b)).
Proof using C. unfold vht_part. by rewrite ies_app, !ies_opt, <- (vht_run i b C), <- (vendor_run i b C). Qed.

(** The elements of WPA, wherever there is room for them. *)
Lemma wpa_run : exists l, Forall ie_ok l /\ Forall wpa_kind l /\ zlen (ies_bytes l) <= 128 /\
  forall len, 128 <= len -> hostapd_eid_wpa b len = ies_bytes l.
Proof using K.
  unfold hostapd_eid_wpa. destruct (wpa_auth_ie _) as [d|] eqn:E.
  - destruct (bk_wpa _ K d E) as [Hd (l & -> & H1 & H2)]. exists l. repeat split; try done. intros len Hl. by rewrite bool_decide_eq_false_2 by lia.
  - exists []. repeat split; done.
Qed.

Lemma wpa_last l x : Forall wpa_kind l -> x <> RSN_IE -> x <> WPA_IE -> last_of x l = None.
Proof using.
  intros Hl H1 H2. induction Hl as [|e l He _ IH]; [done|]. cbn [last_of]. rewrite IH.
  by destruct He as [-> | ->]; rewrite decide_False by done.
Qed.

Lemma or_none {A} (o : option A) : match o with Some d => Some d | None => None end = o.
Proof using. by destruct o. Qed.

(** The elements of a frame, between those that the parser leaves aside: those up to
    the TIM element of a beacon, and the rest. *)
Definition head_ies (name : list Z) : list ie := ssid_ies name ++ supp_ies (iconf i) ++ ds_ies i.
Definition tail_ies (s1 w s2 s3 v : list ie) : list ie :=
  s1 ++ erp_ies i ++ ext_ies (iconf i) ++ w ++ s2 ++ ht_ies i b
  ++ ext_capab_ies (iconf i) (bconf b) ++ s3 ++ opt (ieee80211ac (iconf i) && negb (disable_11ac (bconf b))) (vht_ies i b)
  ++ opt (vendor_vht (bconf b)) (vendor_ies i b) ++ wmm_ies i b ++ v.
Definition frame_ies (name : list Z) (s1 w s2 s3 v : list ie) : list ie := head_ies name ++ tail_ies s1 w s2 s3 v.

Record parts_ok (s1 w s2 s3 v : list ie) : Prop := {
  pt_ok : Forall ie_ok (s1 ++ w ++ s2 ++ s3 ++ v);
  pt_aside : not_stored s1 /\ not_stored s2 /\ not_stored s3 /\ not_stored v;
  pt_wpa : Forall wpa_kind w;
  pt_vendor : vendor_part b = ies_bytes v }.

Lemma frame_ies_ok name s1 w s2 s3 v : Forall u8 name -> zlen name <= 255 -> parts_ok s1 w s2 s3 v -> Forall ie_ok (frame_ies name s1 w s2 s3 v).
Proof using C.
  intros Hu Hl [P _ _ _]. destruct (elements_ok i b C) as (H1 & H2 & H3 & H4 & H5). pose proof (rates_ok _ C) as Hr. rewrite rates_split in Hr.
  unfold frame_ies, head_ies, tail_ies. rewrite !Forall_app in *. destruct P as (P1 & P2 & P3 & P4 & P5), Hr as [R1 R2].
  assert (Forall ie_ok (ssid_ies name)) by (apply Forall_singleton; by apply ie_made with (zlen name)).
  assert (Forall ie_ok (ds_ies i)).
  { apply Forall_singleton. apply ie_made with 1; [unfold u8; by_check|done| |done]. split; [done|]. apply Forall_singleton, uwrap_range. lia. }
  assert (Forall ie_ok (erp_ies i)).
  { apply opt_ok, Forall_singleton. apply ie_made with 1; [unfold u8; by_check|done| |done]. split; [done|]. apply Forall_singleton, erp_u8. }
  repeat split; try done; by apply opt_ok.
Qed.

Lemma frame_last name s1 w s2 s3 v x : parts_ok s1 w s2 s3 v -> x <> RSN_IE -> x <> WPA_IE ->
  last_of x (frame_ies name s1 w s2 s3 v) = announced i b (Some name) x.
Proof using.
  intros [_ (A1 & A2 & A3 & A4) W _] H1 H2. unfold frame_ies, head_ies, tail_ies.
  rewrite !last_of_app, !last_of_opt, last_wmm, last_vendor, last_vht, last_ht, (wpa_last w), (not_stored_last s1), (not_stored_last s2),
    (not_stored_last s3), (not_stored_last v) by done.
  assert (last_of x (ssid_ies name) = if decide (x = SSID) then Some name else None) as -> by (by apply last_of_kind).
  assert (last_of x (ds_ies i) = if decide (x = DS_PARAMS) then Some [uwrap 8 (channel i)] else None) as -> by (by apply last_of_kind).
  unfold erp_ies. rewrite last_of_opt. assert (last_of x [(WLAN_EID_ERP_INFO, [ieee802_11_erp_info i])] = if decide (x = ERP_INFO) then Some [ieee802_11_erp_info i] else None) as -> by (by apply last_of_kind).
  assert (x <> SUPP_RATES -> last_of x (supp_ies (iconf i)) = None) as Hs.
  { intros Hx. unfold supp_ies. destruct (current_rates _); [|done]. by rewrite (last_of_kind x WLAN_EID_SUPP_RATES _ SUPP_RATES), decide_False. }
  assert (x <> EXT_SUPP_RATES -> last_of x (ext_ies (iconf i)) = None) as He.
  { intros Hx. unfold ext_ies. destruct (current_rates _); [|done]. case_bool_decide; [done|].
    by rewrite (last_of_kind x WLAN_EID_EXT_SUPP_RATES _ EXT_SUPP_RATES), decide_False. }
  assert (x <> EXT_CAPAB -> last_of x (ext_capab_ies (iconf i) (bconf b)) = None) as Hc by apply last_ext_capab.
  unfold announced. rewrite rates_split, last_of_app.
  destruct x; try done; rewrite ?Hs, ?He, ?Hc by done; repeat (first [case_bool_decide|case_decide]; try done); rewrite ?andb_false_r, ?andb_true_r, ?or_none;
    repeat match goal with |- context [if ?c then _ else _] => destruct c end; by rewrite ?or_none.
Qed.

(** The number of bytes of the parts. *)
Lemma frame_start_len stype da capab : length (own_addr b) = 6%nat -> length da = 6%nat -> zlen (frame_start i stype da b capab) = 36.
Proof using.
  intros Ho Hd. unfold frame_start, mgmt_header. rewrite !zlen_app, !zlen_le_bytes. unfold zlen. by rewrite Ho, Hd.
Qed.

Lemma tail_sizes : zlen (ies_bytes (ht_ies i b)) <= 68 /\ zlen (ies_bytes (ext_capab_ies (iconf i) (bconf b))) <= 34 /\
  zlen (vht_part i b) <= 49 /\ zlen (ies_bytes (wmm_ies i b)) <= 26 /\ zlen (ies_bytes (supp_ies (iconf i))) <= 10 /\
  zlen (ies_bytes (ext_ies (iconf i))) <= 28 /\ zlen (ies_bytes (erp_ies i)) <= 3 /\ zlen (vht_part i b) <= 21 + if vendor_vht (bconf b) then 28 else 0.
Proof using C S.
  pose proof (ht_size i b C). destruct (ext_capab_size i C (bconf b)) as [_ He]. pose proof (bs_capa _ S).
  pose proof (vht_size i b C). pose proof (vendor_size i b C). pose proof (wmm_size i b C).
  destruct (rates_sizes _ C) as [_ Hr]. destruct (Hr (bs_rates _ S)) as [H10 H28]. rewrite supp_run in H10. rewrite ext_run in H28.
  rewrite vht_part_run, ies_app, !ies_opt, zlen_app. unfold erp_ies. rewrite ies_opt.
  repeat split; try done; try lia; repeat match goal with |- context [if ?c then _ else _] => destruct c end; rewrite ?zlen_nil; try lia; done.
Qed.

Lemma ht_app_run x : hostapd_eid_ht_capabilities i b ++ hostapd_eid_ht_operation i b ++ x = ies_bytes (ht_ies i b) ++ x.
Proof using C. by rewrite app_assoc, (ht_run i b C). Qed.

Lemma vendor_part_run : exists v, vendor_part b = ies_bytes v /\ Forall ie_ok v /\ not_stored v /\ extra_len b = zlen (ies_bytes v) + if vendor_vht (bconf b) then 26 else 0.
Proof using K.
  unfold vendor_part, extra_len. destruct (vendor_elements _) as [d|] eqn:E.
  - destruct (bk_vendor _ K d E) as (l & -> & H1 & H2). by exists l.
  - exists []. repeat split; constructor.
Qed.

Lemma room_small size buf : 0 <= size - zlen buf < 2 ^ 32 -> room size buf = size - zlen buf.
Proof using. apply uwrap_small. Qed.

(** A probe response is the start of a frame and whole elements, in its buffer. *)
Lemma probe_resp_run da capab pwr adv : length (own_addr b) = 6%nat -> length da = 6%nat ->
  0 <= ssid_len b <= 32 -> length (ssid b) = 32%nat -> aside_ies 3 pwr -> aside_ies 19 adv ->
  let name := take (Z.to_nat (ssid_len b)) (ssid b) in
  exists s1 w s2 s3 v, parts_ok s1 w s2 s3 v /\ zlen (fst (probe_resp i b da capab pwr adv)) <= MAX_PROBERESP_LEN + extra_len b /\
    fst (probe_resp i b da capab pwr adv) = frame_start i WLAN_FC_STYPE_PROBE_RESP da b capab ++ ies_bytes (frame_ies name s1 w s2 s3 v).
Proof using C S K.
  intros Ho Hda Hn Hl Ap Aa name. pose proof (frame_start_len WLAN_FC_STYPE_PROBE_RESP da capab Ho Hda) as Hstart.
  assert (zlen name = ssid_len b) as Hname by (unfold name, zlen; rewrite length_take; lia).
  destruct tail_sizes as (Z1 & Z2 & _ & Z4 & Z5 & Z6 & Z7 & Z8). destruct vendor_part_run as (v & Ev & Ov & Nv & Xv).
  unfold probe_resp. rewrite uwrap_small by lia. fold name. cbv zeta. rewrite supp_run, ds_run, erp_run, ext_run.
  set (p1 := frame_start _ _ _ _ _ ++ _).
  assert (zlen p1 <= 83) as L1.
  { unfold p1. rewrite !zlen_app, Hstart, Hname. change (zlen [WLAN_EID_SSID; ssid_len b]) with 2. change (zlen (ies_bytes (ds_ies i))) with 3. lia. }
  destruct (country_aside i (MAX_PROBERESP_LEN - zlen p1) S) as (lc & Ec & Oc & Nc & Hc); [unfold MAX_PROBERESP_LEN; lia|].
  rewrite Ec in *. set (p2 := (p1 ++ _) ++ _). destruct Ap as (lp & -> & Op & Np & Hp).
  assert (zlen p2 <= 83 + 132 + 34) as L2 by (unfold p2; rewrite !zlen_app; lia).
  destruct wpa_run as (lw & Ow & Kw & Hw & Ew). rewrite (Ew (room MAX_PROBERESP_LEN p2)) by (rewrite room_small; unfold MAX_PROBERESP_LEN; pose proof (zlen_nonneg p2); lia).
  set (p3 := p2 ++ _). assert (zlen p3 <= 377) as L3 by (unfold p3; rewrite zlen_app; lia).
  destruct (load_aside i b S (room MAX_PROBERESP_LEN p3)) as (ll & El & Ol & Nl & Hll); [rewrite room_small; unfold MAX_PROBERESP_LEN; pose proof (zlen_nonneg p3); lia|].
  rewrite El in *. set (p4 := p3 ++ _). assert (zlen p4 <= 384) as L4 by (unfold p4; rewrite zlen_app; lia).
  destruct (rm_aside b (room MAX_PROBERESP_LEN p4)) as (lm & Em & Om & Nm & Hm); [rewrite room_small; unfold MAX_PROBERESP_LEN; pose proof (zlen_nonneg p4); lia|].
  rewrite Em in *. destruct Aa as (la & -> & Oa & Na & Ha). destruct (zone_aside b K) as (lz & Ez & Oz & Nz & Hz). rewrite Ez in *.
  rewrite ht_app_run, ext_capab_run. set (p5 := (p4 ++ _) ++ _).
  assert (zlen p5 <= 642) as L5 by (unfold p5; rewrite !zlen_app; lia).
  destruct (csa_aside b K (zlen p5)) as (lk & Ek & Ok & Nk & Hk). destruct (hostapd_add_csa_elems b (zlen p5)) as [csa off]. cbn [fst] in *. subst csa.
  rewrite (wmm_run i b C), Ev, Xv. exists (lc ++ lp), lw, (ll ++ lm), (la ++ lz ++ lk), v. split; [|split].
  - split; [rewrite !Forall_app; tauto| |done|done]. repeat split; [by apply Forall_app..|repeat (apply Forall_app; split); done|done].
  - rewrite !zlen_app. unfold MAX_PROBERESP_LEN. destruct (vendor_vht _); lia.
  - unfold p5, p4, p3, p2, p1, frame_ies, head_ies, tail_ies, ssid_ies. rewrite vht_part_run, !ies_app. rewrite <- Hname.
    change (ies_bytes [(WLAN_EID_SSID, name)]) with ([WLAN_EID_SSID; zlen name] ++ name ++ []). rewrite app_nil_r.
    by rewrite <- !app_assoc.
Qed.

(** The name that a beacon shows. *)
Definition beacon_name : list Z :=
  let hide := ignore_broadcast_ssid (bcn (bconf b)) in
  if bool_decide (hide = 2) then replicate (Z.to_nat (ssid_len b)) 0
  else if bool_decide (hide <> 0) then [] else take (Z.to_nat (ssid_len b)) (ssid b).

Lemma beacon_name_len : 0 <= ssid_len b <= 32 -> length (ssid b) = 32%nat -> zlen beacon_name <= 32.
Proof using.
  intros Hn Hl. unfold beacon_name, zlen. repeat case_bool_decide; rewrite ?length_replicate, ?length_take; simpl; lia.
Qed.

Lemma beacon_head_run da capab : length (own_addr b) = 6%nat -> length da = 6%nat -> 0 <= ssid_len b <= 32 -> length (ssid b) = 32%nat ->
  beacon_head i b da capab = frame_start i WLAN_FC_STYPE_BEACON da b capab ++ ies_bytes (head_ies beacon_name) /\
  zlen (beacon_head i b da capab) <= 83.
Proof using C S.
  intros Ho Hda Hn Hl. pose proof (frame_start_len WLAN_FC_STYPE_BEACON da capab Ho Hda) as Hstart.
  destruct tail_sizes as (_ & _ & _ & _ & Z5 & _). pose proof (beacon_name_len Hn Hl) as Hbn.
  assert (beacon_ssid b = ies_bytes (ssid_ies beacon_name)) as Es.
  { unfold beacon_ssid, beacon_name, ssid_ies, ies_bytes, ie_bytes. cbn [map concat fst snd]. rewrite app_nil_r, uwrap_small by lia.
    repeat case_bool_decide; cbn [app]; do 2 f_equal; unfold zlen; rewrite ?length_replicate, ?length_take; simpl; lia. }
  unfold beacon_head, head_ies. rewrite supp_run, ds_run, Es, !ies_app. split; [done|].
  rewrite !zlen_app, Hstart. change (zlen (ies_bytes (ds_ies i))) with 3.
  assert (zlen (ies_bytes (ssid_ies beacon_name)) = 2 + zlen beacon_name) as -> by (unfold ssid_ies, ies_bytes, ie_bytes; cbn [map concat fst snd]; rewrite app_nil_r, !zlen_cons; lia).
  lia.
Qed.

Lemma beacon_tail_run pwr adv : aside_ies 3 pwr -> aside_ies 19 adv ->
  exists s1 w s2 s3 v, parts_ok s1 w s2 s3 v /\ zlen (fst (beacon_tail i b pwr adv)) <= BEACON_TAIL_BUF_SIZE + extra_len b /\
    fst (beacon_tail i b pwr adv) = ies_bytes (tail_ies s1 w s2 s3 v).
Proof using C S K.
  intros Ap Aa. destruct tail_sizes as (Z1 & Z2 & _ & Z4 & _ & Z6 & Z7 & Z8). destruct vendor_part_run as (v & Ev & Ov & Nv & Xv).
  unfold beacon_tail. cbv zeta. rewrite erp_run, ext_run.
  destruct (country_aside i BEACON_TAIL_BUF_SIZE S) as (lc & Ec & Oc & Nc & Hc); [by unfold BEACON_TAIL_BUF_SIZE|].
  rewrite Ec in *. set (p2 := ies_bytes lc ++ _). destruct Ap as (lp & -> & Op & Np & Hp).
  assert (zlen p2 <= 166) as L2 by (unfold p2; rewrite !zlen_app; lia).
  destruct wpa_run as (lw & Ow & Kw & Hw & Ew). rewrite (Ew (room BEACON_TAIL_BUF_SIZE p2)) by (rewrite room_small; unfold BEACON_TAIL_BUF_SIZE; pose proof (zlen_nonneg p2); lia).
  set (p3 := p2 ++ _). assert (zlen p3 <= 294) as L3 by (unfold p3; rewrite zlen_app; lia).
  destruct (rm_aside b (room BEACON_TAIL_BUF_SIZE p3)) as (lm & Em & Om & Nm & Hm); [rewrite room_small; unfold BEACON_TAIL_BUF_SIZE; pose proof (zlen_nonneg p3); lia|].
  rewrite Em in *. set (p4 := p3 ++ _). assert (zlen p4 <= 301) as L4 by (unfold p4; rewrite zlen_app; lia).
  destruct (load_aside i b S (room BEACON_TAIL_BUF_SIZE p4)) as (ll & El & Ol & Nl & Hll); [rewrite room_small; unfold BEACON_TAIL_BUF_SIZE; pose proof (zlen_nonneg p4); lia|].
  rewrite El in *. destruct Aa as (la & -> & Oa & Na & Ha). rewrite ht_app_run, ext_capab_run. set (p5 := (p4 ++ _) ++ _).
  assert (zlen p5 <= 429) as L5 by (unfold p5; rewrite !zlen_app; lia).
  destruct (csa_aside b K (zlen p5)) as (lk & Ek & Ok & Nk & Hk). destruct (hostapd_add_csa_elems b (zlen p5)) as [csa off]. cbn [fst] in *. subst csa.
  rewrite (wmm_run i b C), Ev, Xv. exists (lc ++ lp), lw, (lm ++ ll), (la ++ lk), v. split; [|split].
  - split; [rewrite !Forall_app; tauto| |done|done]. repeat split; [by apply Forall_app..|done].
  - rewrite !zlen_app. unfold BEACON_TAIL_BUF_SIZE. destruct (vendor_vht _); lia.
  - unfold p5, p4, p3, p2, tail_ies. rewrite vht_part_run, !ies_app. by rewrite <- !app_assoc.
Qed.
End Frames.

(** ** The functions *)

(** Calls that send nothing. *)
Definition asks (cs : list call) : Prop := Forall (fun c => match c with Hostapd _ _ | Malloc _ => True | _ => False end) cs.

(** The configuration and the names are such that frames can be made. *)
Record frame_ready (i : hostapd_iface) (b : hostapd_data) : Prop := {
  fd_iconf : iconf_ok (iconf i);
  fd_sizes : beacon_sizes (iconf i);
  fd_conf : beacon_conf_ok (bcn (bconf b));
  fd_addr : length (own_addr b) = 6%nat;
  fd_name : 0 <= ssid_len b <= 32 /\ length (ssid b) = 32%nat }.

Lemma with_log_nil w : with_log [] w = w.
Proof. by destruct w. Qed.

Lemma pwr_run i w : exists pwr cs, hostapd_eid_pwr_constraint i w = Ok (pwr, with_log cs w) /\ aside_ies 3 pwr /\ asks cs.
Proof.
  assert (exists pwr cs, @ret world _ [] w = Ok (pwr, with_log cs w) /\ aside_ies 3 pwr /\ asks cs) as Hnone.
  { exists [], []. rewrite with_log_nil. split; [done|]. split; [by apply aside_nil|constructor]. }
  unfold hostapd_eid_pwr_constraint. cbv zeta. destruct (negb (mode_11a _)); [done|]. destruct (has _ _); [done|].
  destruct (_ && bool_decide (_ = -1)); [done|]. unfold hostapd_is_dfs_required. rewrite (bind_Ok _ _ _ _ _ (ext_log _ _)).
  eexists _, [_]. split; [reflexivity|]. split; [|by apply Forall_singleton].
  destruct (bool_decide _ && _); [by apply aside_nil|]. apply (aside_one WLAN_EID_PWR_CONSTRAINT [_]); try done.
  apply Forall_singleton. case_bool_decide; [unfold u8; by_check|apply uwrap_range; lia].
Qed.

Lemma adv_run b w : exists adv cs, hostapd_eid_time_adv b w = Ok (adv, with_log cs w) /\ aside_ies 19 adv /\ asks cs.
Proof.
  unfold hostapd_eid_time_adv. case_bool_decide.
  - exists [], []. rewrite with_log_nil. split; [done|]. split; [by apply aside_nil|constructor].
  - eexists _, [Hostapd _ _]. split; [reflexivity|]. split; [|by apply Forall_singleton].
    destruct (obytes _ _ _) as [t|]; [|by apply aside_nil]. apply (aside_one WLAN_EID_TIME_ADVERTISEMENT (time_bytes t)); try done.
    unfold time_bytes. apply Forall_map, Forall_true. intros k. apply uwrap_range. lia.
Qed.

(** A probe response of the BSS to [da]. *)
Definition is_probe_resp (i : hostapd_iface) (b : hostapd_data) (da frame : list Z) : Prop :=
  zlen frame <= MAX_PROBERESP_LEN + extra_len b /\
  exists capab s1 w s2 s3 v, parts_ok b s1 w s2 s3 v /\
    frame = frame_start i WLAN_FC_STYPE_PROBE_RESP da b capab
            ++ ies_bytes (frame_ies i b (take (Z.to_nat (ssid_len b)) (ssid b)) s1 w s2 s3 v).

Definition memory (w : world) (n : Z) : Z := onum (wenv w) (length (trace (wenv w))) (Malloc n).

Lemma gen_run w hapd b sta req da : bss (ifc w) !! hapd = Some b -> frame_ready (ifc w) b ->
  (forall p, sta = Some p -> is_Some (heap w !! p)) ->
  match req with Some r => slice 10 ETH_ALEN r = Ok da | None => da = replicate 6 0 end ->
  exists r cs, hostapd_gen_probe_resp hapd sta req w = Ok (r, with_log cs w) /\ asks cs /\
    (r = None <-> memory w (MAX_PROBERESP_LEN + extra_len b) = 0) /\ forall frame, r = Some frame -> is_probe_resp (ifc w) b da frame.
Proof.
  intros Hb [C S K Ho [Hn Hl]] Hsta Hreq. unfold hostapd_gen_probe_resp. rewrite (bind_Ok _ _ _ _ _ (get_bss_run _ _ _ Hb)). cbv zeta.
  rewrite (bind_Ok _ _ _ _ _ (ext_log _ _)). fold (memory w (MAX_PROBERESP_LEN + extra_len b)).
  destruct (bool_decide_reflect (memory w (MAX_PROBERESP_LEN + extra_len b) = 0)) as [Hm|Hm].
  { eexists None, [_]. split; [reflexivity|]. split; [by apply Forall_singleton|]. split; [done|]. intros f [=]. }
  set (w1 := with_log _ w). assert (length da = 6%nat) as Hda.
  { destruct req; [|by rewrite Hreq]. apply slice_length in Hreq. unfold zlen, ETH_ALEN in Hreq. lia. }
  rewrite (bind_Ok _ _ w1 da w1) by (destruct req; [unfold lift; by rewrite Hreq|by rewrite Hreq]).
  assert (exists s, (match sta with Some p => s <-- get_sta p ;; ret (Some s) | None => ret None end) w1 = Ok (s, w1)) as [s Es].
  { destruct sta as [p|]; [|by exists None]. destruct (Hsta p eq_refl) as [s Hs]. exists (Some s).
    by rewrite (bind_Ok _ _ w1 s w1) by (by apply get_sta_run). }
  rewrite (bind_Ok _ _ _ _ _ Es). unfold hostapd_is_dfs_required at 1. rewrite (bind_Ok _ _ _ _ _ (ext_log _ _)). set (w2 := with_log _ w1).
  rewrite (bind_Ok _ _ w2 w2 w2) by done. destruct (pwr_run (ifc w2) w2) as (pwr & c1 & E1 & A1 & Q1). rewrite (bind_Ok _ _ _ _ _ E1).
  destruct (adv_run b (with_log c1 w2)) as (adv & c2 & E2 & A2 & Q2). rewrite (bind_Ok _ _ _ _ _ E2). change (ifc w2) with (ifc w).
  set (capab := hostapd_own_capab_info _ _ _ _ _).
  destruct (probe_resp_run (ifc w) b C S K da capab pwr adv Ho Hda Hn Hl A1 A2) as (s1 & lw & s2 & s3 & v & P & Hz & Ef).
  unfold lift, within. rewrite bool_decide_eq_true_2 by done. rewrite (bind_Ok _ _ _ (fst (probe_resp (ifc w) b da capab pwr adv)) (with_log c2 (with_log c1 w2))) by done.
  eexists (Some _), ([Malloc _; Hostapd _ _] ++ c1 ++ c2). rewrite !with_log_app. split; [reflexivity|]. split; [|split; [done|]].
  - apply Forall_app. split; [by repeat constructor|]. by apply Forall_app.
  - intros f [= <-]. split; [done|]. exists capab, s1, lw, s2, s3, v. by split.
Qed.

Lemma offloads_run w hapd b : bss (ifc w) !! hapd = Some b -> frame_ready (ifc w) b ->
  exists r cs, hostapd_probe_resp_offloads hapd w = Ok (r, with_log cs w) /\ asks cs /\
    forall frame, r = Some frame -> is_probe_resp (ifc w) b (replicate 6 0) frame.
Proof.
  intros Hb Hf. unfold hostapd_probe_resp_offloads. rewrite (bind_Ok _ _ w w w) by done. destruct (negb _).
  - exists None, []. rewrite with_log_nil. split; [done|]. split; [constructor|]. intros f [=].
  - destruct (gen_run w hapd b None None (replicate 6 0) Hb Hf) as (r & cs & E & Q & _ & H); [intros p [=]|done|]. by exists r, cs.
Qed.

(** The beacon of the BSS to [da], and its parts. *)
Record is_beacon (i : hostapd_iface) (b : hostapd_data) (da : list Z) (p : ap_params) : Prop := {
  bn_head : zlen (ap_head p) <= BEACON_HEAD_BUF_SIZE;
  bn_tail : zlen (ap_tail p) <= BEACON_TAIL_BUF_SIZE + extra_len b;
  bn_params : p = beacon_params i b (ap_head p) (ap_tail p) (ap_proberesp p);
  bn_parts : exists capab s1 w s2 s3 v, parts_ok b s1 w s2 s3 v /\
    ap_head p = frame_start i WLAN_FC_STYPE_BEACON da b capab ++ ies_bytes (head_ies i (beacon_name b)) /\
    ap_tail p = ies_bytes (tail_ies i b s1 w s2 s3 v);
  bn_resp : forall frame, ap_proberesp p = Some frame -> is_probe_resp i b (replicate 6 0) frame }.

Definition with_head (h : list Z) (p : ap_params) : ap_params :=
  {| ap_head := h; ap_tail := ap_tail p; ap_proberesp := ap_proberesp p; ap_dtim_period := ap_dtim_period p;
     ap_beacon_int := ap_beacon_int p; ap_basic_rates := ap_basic_rates p; ap_ssid := ap_ssid p;
     ap_pairwise_ciphers := ap_pairwise_ciphers p; ap_group_cipher := ap_group_cipher p; ap_key_mgmt_suites := ap_key_mgmt_suites p;
     ap_auth_algs := ap_auth_algs p; ap_wpa_version := ap_wpa_version p; ap_privacy := ap_privacy p; ap_hide_ssid := ap_hide_ssid p;
     ap_isolate := ap_isolate p; ap_smps_mode := ap_smps_mode p; ap_cts_protect := ap_cts_protect p; ap_preamble := ap_preamble p;
     ap_short_slot_time := ap_short_slot_time p; ap_ht_opmode := ap_ht_opmode p; ap_interworking := ap_interworking p;
     ap_hessid := ap_hessid p; ap_access_network_type := ap_access_network_type p; ap_max_inactivity := ap_max_inactivity p |}.

(** The receiver is the only difference, also in what the environment is asked. *)
Lemma build_run w hapd b : bss (ifc w) !! hapd = Some b -> frame_ready (ifc w) b ->
  exists cs, asks cs /\
    ((forall da, build_ap_params da hapd w = Ok (None, with_log cs w)) /\
       (memory w BEACON_HEAD_BUF_SIZE = 0 \/ memory (with_log [Malloc BEACON_HEAD_BUF_SIZE] w) (BEACON_TAIL_BUF_SIZE + extra_len b) = 0) \/
     exists capab tail resp, forall da, length da = 6%nat ->
       let p := beacon_params (ifc w) b (beacon_head (ifc w) b da capab) tail resp in
       build_ap_params da hapd w = Ok (Some p, with_log cs w) /\ is_beacon (ifc w) b da p).
Proof.
  intros Hb [C S K Ho [Hn Hl]]. unfold build_ap_params.
  set (w1 := with_log [Malloc BEACON_HEAD_BUF_SIZE] w). set (w2 := with_log [Malloc (BEACON_TAIL_BUF_SIZE + extra_len b)] w1).
  assert (forall {A} (k : hostapd_data -> Z -> Z -> M world A), (b <-- get_bss hapd ;;
    head <-- ext (Malloc BEACON_HEAD_BUF_SIZE) ;; tail <-- ext (Malloc (BEACON_TAIL_BUF_SIZE + extra_len b)) ;; k b head tail) w
    = k b (memory w BEACON_HEAD_BUF_SIZE) (memory w1 (BEACON_TAIL_BUF_SIZE + extra_len b)) w2) as Hstart.
  { intros A k. by rewrite (bind_Ok _ _ _ _ _ (get_bss_run _ _ _ Hb)), (bind_Ok _ _ _ _ _ (ext_log _ _)), (bind_Ok _ _ _ _ _ (ext_log _ _)). }
  cbv zeta. destruct (bool_decide_reflect (memory w BEACON_HEAD_BUF_SIZE = 0 \/ memory w1 (BEACON_TAIL_BUF_SIZE + extra_len b) = 0)) as [Hm|Hm].
  { exists ([Malloc BEACON_HEAD_BUF_SIZE] ++ [Malloc (BEACON_TAIL_BUF_SIZE + extra_len b)]). split; [by repeat constructor|]. left. split; [|done]. intros da.
    rewrite Hstart, bool_decide_eq_true_2 by done. by rewrite with_log_app. }
  set (w3 := with_log [Hostapd (str "hostapd_is_dfs_required") []] w2). destruct (pwr_run (ifc w) w3) as (pwr & c1 & E1 & A1 & Q1).
  destruct (adv_run b (with_log c1 w3)) as (adv & c2 & E2 & A2 & Q2). set (w4 := with_log c2 (with_log c1 w3)) in *.
  destruct (offloads_run w4 hapd b Hb) as (resp & c3 & E3 & Q3 & R3); [by split|].
  set (capab := hostapd_own_capab_info (ifc w) b None false (onum (wenv w2) (length (trace (wenv w2))) (Hostapd (str "hostapd_is_dfs_required") []))).
  destruct (beacon_tail_run (ifc w) b C S K pwr adv A1 A2) as (s1 & lw & s2 & s3 & v & P & Hz & Et).
  exists ([Malloc BEACON_HEAD_BUF_SIZE] ++ [Malloc (BEACON_TAIL_BUF_SIZE + extra_len b)] ++ [Hostapd (str "hostapd_is_dfs_required") []] ++ c1 ++ c2 ++ c3).
  split; [repeat (apply Forall_app; split); try done; by apply Forall_singleton|]. right.
  exists capab, (fst (beacon_tail (ifc w) b pwr adv)), resp. intros da Hda. cbv zeta.
  destruct (beacon_head_run (ifc w) b C S da capab Ho Hda Hn Hl) as [Eh Hh]. split.
  - rewrite Hstart, bool_decide_eq_false_2 by done. unfold hostapd_is_dfs_required at 1. rewrite (bind_Ok _ _ _ _ _ (ext_log _ _)). fold w3.
    rewrite (bind_Ok _ _ w3 w3 w3) by done. change (ifc w3) with (ifc w). fold capab.
    rewrite (bind_Ok _ _ w3 (beacon_head (ifc w) b da capab) w3) by (unfold lift, within; rewrite bool_decide_eq_true_2; [done|unfold BEACON_HEAD_BUF_SIZE; lia]).
    rewrite (bind_Ok _ _ _ _ _ E1), (bind_Ok _ _ _ _ _ E2). fold w4.
    rewrite (bind_Ok _ _ w4 (fst (beacon_tail (ifc w) b pwr adv)) w4) by (unfold lift, within; by rewrite bool_decide_eq_true_2).
    rewrite (bind_Ok _ _ _ _ _ E3). unfold ret. by rewrite !with_log_app.
  - split; cbn [beacon_params ap_head ap_tail ap_proberesp]; try done; [unfold BEACON_HEAD_BUF_SIZE; lia|].
    exists capab, s1, lw, s2, s3, v. by split.
Qed.

(** A receiver reads a frame whose variable part are whole elements. *)
Lemma frame_read i b name s1 w s2 s3 v (body : list Z) : iconf_ok (iconf i) -> parts_ok b s1 w s2 s3 v -> Forall u8 name -> zlen name <= 255 ->
  body = ies_bytes (frame_ies i b name s1 w s2 s3 v) ->
  exists r e, ieee802_11_parse_elems body (zlen body) = Ok (r, e) /\ r <> ParseFailed /\
    forall x, x <> RSN_IE -> x <> WPA_IE -> elem_bytes e x = announced i b (Some name) x.
Proof.
  intros C P Hu Hl ->. set (l := frame_ies i b name s1 w s2 s3 v). pose proof (frame_ies_ok i b C name s1 w s2 s3 v Hu Hl P) as Hok.
  destruct (parse_whole (ies_bytes l) (zlen (ies_bytes l)) l) as (e & E & Hx).
  { pose proof (zlen_nonneg (ies_bytes l)). lia. } { done. } { apply take_ge. unfold zlen. lia. }
  eexists _, e. split; [exact E|]. split; [by destruct (has_unknown l)|]. intros x H1 H2. rewrite Hx. by apply frame_last.
Qed.

(** The addresses and the interval in the fixed part. *)
Lemma start_read i stype da b capab rest : length (own_addr b) = 6%nat -> length da = 6%nat ->
  let frame := frame_start i stype da b capab ++ rest in
  slice 4 ETH_ALEN frame = Ok da /\ slice 10 ETH_ALEN frame = Ok (own_addr b) /\
  rd_le 32 2 frame = Ok (beacon_int (bif (iconf i)) mod 65536) /\ drop 36 frame = rest /\
  forall mac, length mac = 6%nat -> splice 4 mac frame = Ok (frame_start i stype mac b capab ++ rest).
Proof.
  intros Ho Hd. cbv zeta. unfold frame_start, mgmt_header. set (fc := le_bytes 2 (mgmt_fc stype)).
  assert (zlen da = 6 /\ zlen (own_addr b) = 6) as [Zd Zo] by (unfold zlen; by rewrite Hd, Ho).
  set (bi := le_bytes 2 (beacon_int _)). set (cp := le_bytes 2 capab).
  assert (forall x : list Z, ((fc ++ [0; 0] ++ x ++ own_addr b ++ own_addr b ++ [0; 0]) ++ replicate 8 0 ++ bi ++ cp) ++ rest
    = (fc ++ [0; 0]) ++ x ++ (own_addr b ++ own_addr b ++ [0; 0] ++ replicate 8 0 ++ bi ++ cp ++ rest)) as E
    by (intros x; by rewrite <- !app_assoc).
  split; [|split; [|split; [|split]]].
  - rewrite E. by apply slice_mid.
  - rewrite E, app_assoc. apply slice_mid; [by rewrite zlen_app, Zd|done].
  - rewrite E. assert (forall x : list Z, (fc ++ [0; 0]) ++ da ++ own_addr b ++ own_addr b ++ [0; 0] ++ replicate 8 0 ++ x
      = ((fc ++ [0; 0]) ++ da ++ own_addr b ++ own_addr b ++ [0; 0] ++ replicate 8 0) ++ x) as -> by (intros x; by rewrite <- !app_assoc).
    apply (rd_le_mid 2). rewrite !zlen_app, Zd, Zo. reflexivity.
  - rewrite E. assert ((fc ++ [0; 0]) ++ da ++ own_addr b ++ own_addr b ++ [0; 0] ++ replicate 8 0 ++ bi ++ cp ++ rest
      = ((fc ++ [0; 0]) ++ da ++ own_addr b ++ own_addr b ++ [0; 0] ++ replicate 8 0 ++ bi ++ cp) ++ rest) as -> by (by rewrite <- !app_assoc).
    apply drop_app_length'. rewrite !length_app, Ho, Hd. reflexivity.
  - intros mac Hmac. rewrite !E. apply splice_mid; [reflexivity|by rewrite Hmac].
Qed.

Lemma name_ok b : 0 <= ssid_len b <= 32 -> length (ssid b) = 32%nat -> Forall u8 (ssid b) ->
  Forall u8 (take (Z.to_nat (ssid_len b)) (ssid b)) /\ zlen (take (Z.to_nat (ssid_len b)) (ssid b)) <= 255 /\
  Forall u8 (beacon_name b) /\ zlen (beacon_name b) <= 255.
Proof.
  intros Hn Hl Hu. pose proof (beacon_name_len b Hn Hl). split; [by apply Forall_take|]. split; [unfold zlen; rewrite length_take; lia|].
  split; [|lia]. unfold beacon_name. case_bool_decide; [apply Forall_replicate; unfold u8; by_check|].
  case_bool_decide; [constructor|by apply Forall_take].
Qed.

(** What a probe response says. *)
Lemma probe_read i b da frame : is_probe_resp i b da frame -> frame_ready i b -> Forall u8 (ssid b) -> length da = 6%nat ->
  slice 4 ETH_ALEN frame = Ok da /\ slice 10 ETH_ALEN frame = Ok (own_addr b) /\
  rd_le 32 2 frame = Ok (beacon_int (bif (iconf i)) mod 65536) /\
  exists r e, ieee802_11_parse_elems (drop 36 frame) (zlen (drop 36 frame)) = Ok (r, e) /\ r <> ParseFailed /\
    forall x, x <> RSN_IE -> x <> WPA_IE -> elem_bytes e x = announced i b (Some (take (Z.to_nat (ssid_len b)) (ssid b))) x.
Proof.
  intros [_ (capab & s1 & lw & s2 & s3 & v & P & Ef)] [C _ _ Ho [Hn Hl]] Hu Hda. destruct (name_ok b Hn Hl Hu) as (N1 & N2 & _).
  destruct (start_read i WLAN_FC_STYPE_PROBE_RESP da b capab (ies_bytes (frame_ies i b (take (Z.to_nat (ssid_len b)) (ssid b)) s1 lw s2 s3 v)) Ho Hda)
    as (R1 & R2 & R3 & R4 & _). rewrite <- Ef in *. split; [done|]. split; [done|]. split; [done|].
  by apply (frame_read i b _ s1 lw s2 s3 v).
Qed.

(** What the two parts of a beacon say. *)
Lemma beacon_read i b da p : is_beacon i b da p -> frame_ready i b -> Forall u8 (ssid b) -> length da = 6%nat ->
  slice 4 ETH_ALEN (ap_head p) = Ok da /\ slice 10 ETH_ALEN (ap_head p) = Ok (own_addr b) /\
  zlen (ap_head p) <= BEACON_HEAD_BUF_SIZE /\ zlen (ap_tail p) <= BEACON_TAIL_BUF_SIZE + extra_len b /\
  let body := drop 36 (ap_head p) ++ ap_tail p in
  exists r e, ieee802_11_parse_elems body (zlen body) = Ok (r, e) /\ r <> ParseFailed /\
    forall x, x <> RSN_IE -> x <> WPA_IE -> elem_bytes e x = announced i b (Some (beacon_name b)) x.
Proof.
  intros B [C _ _ Ho [Hn Hl]] Hu Hda. destruct (bn_parts _ _ _ _ B) as (capab & s1 & lw & s2 & s3 & v & P & Eh & Et).
  destruct (name_ok b Hn Hl Hu) as (_ & _ & N1 & N2).
  destruct (start_read i WLAN_FC_STYPE_BEACON da b capab (ies_bytes (head_ies i (beacon_name b))) Ho Hda) as (R1 & R2 & _ & R4 & _).
  rewrite <- Eh in *. split; [done|]. split; [done|]. split; [apply B|]. split; [apply B|]. cbv zeta.
  apply (frame_read i b (beacon_name b) s1 lw s2 s3 v); try done. unfold frame_ies. by rewrite ies_app, R4, Et.
Qed.

(** ** Statements *)

(** C16: what a station learns of the channels from the country element: triplets of a
    first channel, a number and a power, padded to an even length, that unfold to
    exactly the channels that are allowed, in order and with their powers. *)
Theorem country_reads_back (i : hostapd_iface) (max_len : Z) (Hd : ieee80211d (bif (iconf i)) = true)
    (Hc : length (country (bif (iconf i))) = 3%nat) (Hu : Forall u8 (country (bif (iconf i))))
    (Hok : Forall chan_ok (mode_channels (bif (iconf i)))) (Hn : zlen (enabled (mode_channels (bif (iconf i)))) <= 83)
    (Hr : 6 + 3 * zlen (enabled (mode_channels (bif (iconf i)))) <= max_len) :
  exists data, hostapd_eid_country i max_len = ie_bytes (WLAN_EID_COUNTRY, data) /\ ie_ok (WLAN_EID_COUNTRY, data) /\
    Z.even (zlen data) = true /\ take 3 data = country (bif (iconf i)) /\
    country_channels (chan_spacing i) (drop 3 data) = map channel_power (enabled (mode_channels (bif (iconf i)))).
Proof.
  destruct (country_run i max_len Hd Hc Hu Hok Hr Hn) as (data & E & Hud & Hl & Hev & Ht & Hch). exists data. split; [done|].
  split; [|done]. split; [unfold u8; by_check|]. split; [done|]. split; [done|]. cbn [snd]. lia.
Qed.

(** C18: a probe response fits its buffer, is sent to the station that asks, from the
    address of the BSS, and a station that parses it finds whole elements with the
    name of the network and with what the state of the BSS and of the interface says
    ([announced]): rates, channel, ERP, HT, VHT and WMM. *)
Theorem probe_resp_reads_back (w : world) (hapd : nat) (b : hostapd_data) (sta : option positive) (req da : list Z)
    (Hb : bss (ifc w) !! hapd = Some b) (Hf : frame_ready (ifc w) b) (Hu : Forall u8 (ssid b))
    (Hsta : forall p, sta = Some p -> is_Some (heap w !! p)) (Hreq : slice 10 ETH_ALEN req = Ok da)
    (Hmem : memory w (MAX_PROBERESP_LEN + extra_len b) <> 0) :
  exists frame cs, hostapd_gen_probe_resp hapd sta (Some req) w = Ok (Some frame, with_log cs w) /\
    zlen frame <= MAX_PROBERESP_LEN + extra_len b /\ slice 4 ETH_ALEN frame = Ok da /\ slice 10 ETH_ALEN frame = Ok (own_addr b) /\
    rd_le 32 2 frame = Ok (beacon_int (bif (iconf (ifc w))) mod 65536) /\
    exists r e, ieee802_11_parse_elems (drop 36 frame) (zlen (drop 36 frame)) = Ok (r, e) /\ r <> ParseFailed /\
      forall x, x <> RSN_IE -> x <> WPA_IE ->
        elem_bytes e x = announced (ifc w) b (Some (take (Z.to_nat (ssid_len b)) (ssid b))) x.
Proof.
  destruct (gen_run w hapd b sta (Some req) da Hb Hf Hsta Hreq) as (r & cs & E & _ & Hr & Hframe).
  destruct r as [frame|]; [|by destruct Hmem; apply Hr]. pose proof (Hframe _ eq_refl) as P.
  assert (length da = 6%nat) as Hda by (apply slice_length in Hreq; unfold zlen, ETH_ALEN in Hreq; lia).
  exists frame, cs. split; [done|]. split; [apply P|]. by apply probe_read.
Qed.

(** C17: the beacon that LazyAS gives to the driver for a station is the ordinary beacon
    of the BSS, in everything that the driver is told, except for its receiver, which
    is the station instead of everybody; head and tail fit their buffers, and together
    they announce the network as a probe response does, under the name that the
    configuration lets be seen. *)
Theorem odin_beacon (w : world) (hapd : nat) (b : hostapd_data) (mac : list Z)
    (Hb : bss (ifc w) !! hapd = Some b) (Hf : frame_ready (ifc w) b) (Hu : Forall u8 (ssid b)) (Hmac : length mac = 6%nat)
    (Hmem : forall t n, onum (wenv w) t (Malloc n) <> 0) :
  exists p q cs, ieee802_11_build_ap_params_odin hapd mac w = Ok (Some p, with_log cs w) /\
    ieee802_11_build_ap_params hapd w = Ok (Some q, with_log cs w) /\
    slice 4 ETH_ALEN (ap_head p) = Ok mac /\ slice 4 ETH_ALEN (ap_head q) = Ok (replicate 6 255) /\
    (exists h, splice 4 mac (ap_head q) = Ok h /\ p = with_head h q) /\
    zlen (ap_head p) <= BEACON_HEAD_BUF_SIZE /\ zlen (ap_tail p) <= BEACON_TAIL_BUF_SIZE + extra_len b /\
    let body := drop 36 (ap_head p) ++ ap_tail p in
    exists r e, ieee802_11_parse_elems body (zlen body) = Ok (r, e) /\ r <> ParseFailed /\
      forall x, x <> RSN_IE -> x <> WPA_IE -> elem_bytes e x = announced (ifc w) b (Some (beacon_name b)) x.
Proof.
  destruct (build_run w hapd b Hb Hf) as (cs & _ & [[_ [H|H]]|(capab & tail & resp & H)]);
    [exfalso; eapply Hmem, H|exfalso; eapply (Hmem _ _ H)|].
  pose proof Hf as [C S _ Ho [Hn Hl]].
  destruct (H mac Hmac) as [E1 B1], (H (replicate 6 255) eq_refl) as [E2 B2]. set (p := beacon_params _ _ (beacon_head _ _ mac _) _ _) in *.
  set (q := beacon_params _ _ (beacon_head _ _ (replicate 6 255) _) _ _) in *. exists p, q, cs.
  assert (lift (slice 0 ETH_ALEN mac) w = Ok (mac, w)) as Es.
  { unfold lift, slice, ETH_ALEN. rewrite bool_decide_eq_true_2 by (unfold zlen; lia). rewrite drop_0, take_ge by (rewrite Hmac; done). done. }
  split; [unfold ieee802_11_build_ap_params_odin; by rewrite (bind_Ok _ _ _ _ _ Es)|]. split; [done|].
  destruct (beacon_head_run (ifc w) b C S mac capab Ho Hmac Hn Hl) as [Hp _].
  destruct (beacon_head_run (ifc w) b C S (replicate 6 255) capab Ho eq_refl Hn Hl) as [Hq _].
  change (beacon_head (ifc w) b mac capab) with (ap_head p) in Hp. change (beacon_head (ifc w) b (replicate 6 255) capab) with (ap_head q) in Hq.
  destruct (start_read (ifc w) WLAN_FC_STYPE_BEACON (replicate 6 255) b capab (ies_bytes (head_ies (ifc w) (beacon_name b))) Ho eq_refl) as (S1 & _ & _ & _ & S5).
  destruct (beacon_read _ _ _ _ B1 Hf Hu Hmac) as (R1 & _ & R3). rewrite <- Hq in *. split; [done|]. split; [done|]. split; [|exact R3].
  exists (ap_head p). split; [rewrite Hp; by apply S5|reflexivity].
Qed.

(** ** Concrete states *)

Lemma demo_sizes : beacon_sizes demo_iface_config.
Proof.
  split.
  - intros rates [= <-]. done.
  - done.
  - split; [done|]. unfold u8. by_check.
  - split; [done|]. unfold chan_ok, u8. by_check.
  - unfold u8. by_check.
Qed.

Lemma demo_beacon_conf : beacon_conf_ok demo_beacon_bss.
Proof.
  split; [intros d [=]|intros d [=]| |unfold u8; by_check]. split; [done|constructor].
Qed.

Lemma demo_frame_ready addr name : length addr = 6%nat -> zlen name <= 32 -> frame_ready demo_iface (demo_bss addr name).
Proof.
  intros Ha Hn. pose proof (zlen_nonneg name). split; [apply demo_iconf_ok|apply demo_sizes|apply demo_beacon_conf|done|]. split; [cbn; lia|].
  cbn [ssid demo_bss]. unfold pad32. rewrite length_app, length_replicate. unfold zlen in *. lia.
Qed.

(** Two groups of channels; the last is not allowed. *)
Lemma country_reads_back_witness : exists data, hostapd_eid_country demo_iface 512 = ie_bytes (WLAN_EID_COUNTRY, data) /\
  country_channels 4 (drop 3 data) = [(36, 20); (40, 20); (44, 20); (48, 20); (52, 23); (56, 23); (60, 23)] /\
  data = [67; 78; 32; 36; 4; 20; 52; 3; 23; 0].
Proof.
  destruct (country_reads_back demo_iface 512) as (data & E & _ & _ & _ & H).
  - reflexivity.
  - reflexivity.
  - unfold u8. by_check.
  - unfold chan_ok, u8. by_check.
  - by_check.
  - by_check.
  - exists data. split; [exact E|]. split; [exact H|].
    assert (hostapd_eid_country demo_iface 512 = [7; 10; 67; 78; 32; 36; 4; 20; 52; 3; 23; 0]) as Ev by reflexivity.
    rewrite Ev in E. unfold ie_bytes in E. cbn [fst snd] in E. injection E as _ E. now rewrite <- E.
Defined.

Definition demo_probed : list Z := [0x40; 0; 0; 0] ++ replicate 6 255 ++ [2; 0; 0; 0; 0; 7] ++ replicate 6 255 ++ [0; 0].

Lemma probe_resp_reads_back_witness : exists frame cs,
  hostapd_gen_probe_resp 0 None (Some demo_probed) (demo_world (const_env 1)) = Ok (Some frame, with_log cs (demo_world (const_env 1))) /\
  slice 4 6 frame = Ok [2; 0; 0; 0; 0; 7] /\
  exists r e, ieee802_11_parse_elems (drop 36 frame) (zlen (drop 36 frame)) = Ok (r, e) /\
    elem_bytes e SSID = Some [65; 65] /\ elem_bytes e DS_PARAMS = Some [36] /\ elem_bytes e ERP_INFO = None.
Proof.
  destruct (probe_resp_reads_back (demo_world (const_env 1)) 0 (demo_bss [2; 1; 2; 3; 4; 5] [65; 65]) None demo_probed [2; 0; 0; 0; 0; 7])
    as (frame & cs & E & _ & Hd & _ & _ & r & e & Ep & _ & He).
  - reflexivity.
  - apply demo_frame_ready; by_check.
  - unfold u8. by_check.
  - intros p [=].
  - reflexivity.
  - discriminate.
  - exists frame, cs. split; [exact E|]. split; [exact Hd|]. exists r, e. split; [exact Ep|].
    split; [|split]; rewrite He by discriminate; reflexivity.
Defined.

Lemma odin_beacon_witness : exists p q cs,
  ieee802_11_build_ap_params_odin 1 [2; 0; 0; 0; 0; 7] (demo_world (const_env 1)) = Ok (Some p, with_log cs (demo_world (const_env 1))) /\
  ieee802_11_build_ap_params 1 (demo_world (const_env 1)) = Ok (Some q, with_log cs (demo_world (const_env 1))) /\
  ap_head p <> ap_head q /\ ap_tail p = ap_tail q.
Proof.
  destruct (odin_beacon (demo_world (const_env 1)) 1 (demo_bss [6; 1; 2; 3; 4; 5] [66; 66; 66]) [2; 0; 0; 0; 0; 7])
    as (p & q & cs & E1 & E2 & H1 & H2 & (h & _ & Hp) & _).
  - reflexivity.
  - apply demo_frame_ready; by_check.
  - unfold u8. by_check.
  - reflexivity.
  - intros t n. discriminate.
  - exists p, q, cs. split; [exact E1|]. split; [exact E2|]. split.
    + intros Eh. rewrite Eh, H2 in H1. discriminate H1.
    + rewrite Hp. reflexivity.
Defined.
