(* ===== verification/Rsn.v ===== *)
(** * The elements of WPA: [ap/wpa_auth_ie.c] and the ciphers and parsers of
    [common/wpa_common.c]

    A network with WPA announces an element with its ciphers and its key management
    ([wpa_auth_gen_wpa_ie]); a station answers with an element that names its choice,
    which is parsed and judged when it associates ([wpa_validate_wpa_ie]).  A suite is
    four bytes, a cipher one bit of an [int].  A pointer into an element is the rest of
    the element from there on; the writers are the lists of the bytes that they write,
    and [None] where they return -1. *)

From stdpp Require Import base list numbers strings.
From Stdlib Require Import ZArith Lia.
From S2P Require Import Prelude CString Env World Elements Station Ht Eids Beacon.
Local Open Scope Z_scope.

Definition RSN_SELECTOR (a b c d : Z) : Z := Z.lor (Z.lor (Z.lor (Z.shiftl a 24) (Z.shiftl b 16)) (Z.shiftl c 8)) d.

Definition WPA_AUTH_KEY_MGMT_NONE : Z := RSN_SELECTOR 0x00 0x50 0xf2 0.
Definition WPA_AUTH_KEY_MGMT_UNSPEC_802_1X : Z := RSN_SELECTOR 0x00 0x50 0xf2 1.
Definition WPA_AUTH_KEY_MGMT_PSK_OVER_802_1X : Z := RSN_SELECTOR 0x00 0x50 0xf2 2.
Definition WPA_CIPHER_SUITE_NONE : Z := RSN_SELECTOR 0x00 0x50 0xf2 0.
Definition WPA_CIPHER_SUITE_WEP40 : Z := RSN_SELECTOR 0x00 0x50 0xf2 1.
Definition WPA_CIPHER_SUITE_TKIP : Z := RSN_SELECTOR 0x00 0x50 0xf2 2.
Definition WPA_CIPHER_SUITE_CCMP : Z := RSN_SELECTOR 0x00 0x50 0xf2 4.
Definition WPA_CIPHER_SUITE_WEP104 : Z := RSN_SELECTOR 0x00 0x50 0xf2 5.
Definition RSN_AUTH_KEY_MGMT_UNSPEC_802_1X : Z := RSN_SELECTOR 0x00 0x0f 0xac 1.
Definition RSN_AUTH_KEY_MGMT_PSK_OVER_802_1X : Z := RSN_SELECTOR 0x00 0x0f 0xac 2.
Definition RSN_AUTH_KEY_MGMT_802_1X_SUITE_B : Z := RSN_SELECTOR 0x00 0x0f 0xac 11.
Definition RSN_AUTH_KEY_MGMT_802_1X_SUITE_B_192 : Z := RSN_SELECTOR 0x00 0x0f 0xac 12.
Definition RSN_AUTH_KEY_MGMT_OSEN : Z := RSN_SELECTOR 0x50 0x6f 0x9a 0x01.
Definition RSN_CIPHER_SUITE_NONE : Z := RSN_SELECTOR 0x00 0x0f 0xac 0.
Definition RSN_CIPHER_SUITE_WEP40 : Z := RSN_SELECTOR 0x00 0x0f 0xac 1.
Definition RSN_CIPHER_SUITE_TKIP : Z := RSN_SELECTOR 0x00 0x0f 0xac 2.
Definition RSN_CIPHER_SUITE_CCMP : Z := RSN_SELECTOR 0x00 0x0f 0xac 4.
Definition RSN_CIPHER_SUITE_WEP104 : Z := RSN_SELECTOR 0x00 0x0f 0xac 5.
Definition RSN_CIPHER_SUITE_AES_128_CMAC : Z := RSN_SELECTOR 0x00 0x0f 0xac 6.
Definition RSN_CIPHER_SUITE_NO_GROUP_ADDRESSED : Z := RSN_SELECTOR 0x00 0x0f 0xac 7.
Definition RSN_CIPHER_SUITE_GCMP : Z := RSN_SELECTOR 0x00 0x0f 0xac 8.
Definition RSN_CIPHER_SUITE_GCMP_256 : Z := RSN_SELECTOR 0x00 0x0f 0xac 9.
Definition RSN_CIPHER_SUITE_CCMP_256 : Z := RSN_SELECTOR 0x00 0x0f 0xac 10.
Definition RSN_CIPHER_SUITE_BIP_GMAC_128 : Z := RSN_SELECTOR 0x00 0x0f 0xac 11.
Definition RSN_CIPHER_SUITE_BIP_GMAC_256 : Z := RSN_SELECTOR 0x00 0x0f 0xac 12.
Definition RSN_CIPHER_SUITE_BIP_CMAC_256 : Z := RSN_SELECTOR 0x00 0x0f 0xac 13.
Definition WPA_OUI_TYPE : Z := RSN_SELECTOR 0x00 0x50 0xf2 1.
Definition OSEN_IE_VENDOR_TYPE : Z := 0x506f9a12.

Definition WPA_CIPHER_NONE : Z := 2 ^ 0.
Definition WPA_CIPHER_WEP40 : Z := 2 ^ 1.
Definition WPA_CIPHER_WEP104 : Z := 2 ^ 2.
Definition WPA_CIPHER_TKIP : Z := 2 ^ 3.
Definition WPA_CIPHER_CCMP : Z := 2 ^ 4.
Definition WPA_CIPHER_AES_128_CMAC : Z := 2 ^ 5.
Definition WPA_CIPHER_GCMP : Z := 2 ^ 6.
Definition WPA_CIPHER_GCMP_256 : Z := 2 ^ 8.
Definition WPA_CIPHER_CCMP_256 : Z := 2 ^ 9.
Definition WPA_CIPHER_BIP_GMAC_128 : Z := 2 ^ 11.
Definition WPA_CIPHER_BIP_GMAC_256 : Z := 2 ^ 12.
Definition WPA_CIPHER_BIP_CMAC_256 : Z := 2 ^ 13.
Definition WPA_CIPHER_GTK_NOT_USED : Z := 2 ^ 14.
Definition WPA_KEY_MGMT_IEEE8021X : Z := 2 ^ 0.
Definition WPA_KEY_MGMT_PSK : Z := 2 ^ 1.
Definition WPA_KEY_MGMT_WPA_NONE : Z := 2 ^ 4.
Definition WPA_KEY_MGMT_OSEN : Z := 2 ^ 15.
Definition WPA_KEY_MGMT_IEEE8021X_SUITE_B : Z := 2 ^ 16.
Definition WPA_KEY_MGMT_IEEE8021X_SUITE_B_192 : Z := 2 ^ 17.

Definition WPA_PROTO_WPA : Z := 2 ^ 0.
Definition WPA_PROTO_RSN : Z := 2 ^ 1.
Definition WPA_PROTO_OSEN : Z := 2 ^ 3.
Definition WPA_VERSION : Z := 1.
Definition RSN_VERSION : Z := 1.
Definition WLAN_EID_RSN : Z := 48.
Definition RSN_SELECTOR_LEN : Z := 4.
Definition PMKID_LEN : Z := 16.
Definition HS20_OSEN_OUI_TYPE : Z := 18.
Definition RSN_NUM_REPLAY_COUNTERS_16 : Z := 3.
Definition WPA_CAPABILITY_PREAUTH : Z := 2 ^ 0.
Definition WPA_CAPABILITY_PEERKEY_ENABLED : Z := 2 ^ 9.

(** [WPA_PUT_BE32], [WPA_GET_BE32]. *)
Definition be32 (v : Z) : list Z := rev (le_bytes 4 v).
Definition RSN_SELECTOR_GET (s : list Z) : res Z := let! bs := slice 0 4 s in Ok (le_num (rev bs)).

(** ** Suites and bits *)

(** A chain of comparisons of a suite: the bit of the first that is equal, or 0. *)
Fixpoint suite_bit (table : list (Z * Z)) (v : Z) : Z :=
  match table with
  | [] => 0
  | (suite, bit) :: table' => if bool_decide (v = suite) then bit else suite_bit table' v
  end.

Definition rsn_selector_to_bitfield (s : list Z) : res Z :=
  let! v := RSN_SELECTOR_GET s in
  Ok (suite_bit [(RSN_CIPHER_SUITE_NONE, WPA_CIPHER_NONE); (RSN_CIPHER_SUITE_WEP40, WPA_CIPHER_WEP40);
                 (RSN_CIPHER_SUITE_TKIP, WPA_CIPHER_TKIP); (RSN_CIPHER_SUITE_CCMP, WPA_CIPHER_CCMP);
                 (RSN_CIPHER_SUITE_WEP104, WPA_CIPHER_WEP104); (RSN_CIPHER_SUITE_GCMP, WPA_CIPHER_GCMP);
                 (RSN_CIPHER_SUITE_CCMP_256, WPA_CIPHER_CCMP_256); (RSN_CIPHER_SUITE_GCMP_256, WPA_CIPHER_GCMP_256);
                 (RSN_CIPHER_SUITE_BIP_GMAC_128, WPA_CIPHER_BIP_GMAC_128); (RSN_CIPHER_SUITE_BIP_GMAC_256, WPA_CIPHER_BIP_GMAC_256);
                 (RSN_CIPHER_SUITE_BIP_CMAC_256, WPA_CIPHER_BIP_CMAC_256);
                 (RSN_CIPHER_SUITE_NO_GROUP_ADDRESSED, WPA_CIPHER_GTK_NOT_USED)] v).

Definition rsn_key_mgmt_to_bitfield (s : list Z) : res Z :=
  let! v := RSN_SELECTOR_GET s in
  Ok (suite_bit [(RSN_AUTH_KEY_MGMT_UNSPEC_802_1X, WPA_KEY_MGMT_IEEE8021X); (RSN_AUTH_KEY_MGMT_PSK_OVER_802_1X, WPA_KEY_MGMT_PSK);
                 (RSN_AUTH_KEY_MGMT_802_1X_SUITE_B, WPA_KEY_MGMT_IEEE8021X_SUITE_B);
                 (RSN_AUTH_KEY_MGMT_802_1X_SUITE_B_192, WPA_KEY_MGMT_IEEE8021X_SUITE_B_192);
                 (RSN_AUTH_KEY_MGMT_OSEN, WPA_KEY_MGMT_OSEN)] v).

Definition wpa_selector_to_bitfield (s : list Z) : res Z :=
  let! v := RSN_SELECTOR_GET s in
  Ok (suite_bit [(WPA_CIPHER_SUITE_NONE, WPA_CIPHER_NONE); (WPA_CIPHER_SUITE_WEP40, WPA_CIPHER_WEP40);
                 (WPA_CIPHER_SUITE_TKIP, WPA_CIPHER_TKIP); (WPA_CIPHER_SUITE_CCMP, WPA_CIPHER_CCMP);
                 (WPA_CIPHER_SUITE_WEP104, WPA_CIPHER_WEP104)] v).

Definition wpa_key_mgmt_to_bitfield (s : list Z) : res Z :=
  let! v := RSN_SELECTOR_GET s in
  Ok (suite_bit [(WPA_AUTH_KEY_MGMT_UNSPEC_802_1X, WPA_KEY_MGMT_IEEE8021X); (WPA_AUTH_KEY_MGMT_PSK_OVER_802_1X, WPA_KEY_MGMT_PSK);
                 (WPA_AUTH_KEY_MGMT_NONE, WPA_KEY_MGMT_WPA_NONE)] v).

Definition wpa_cipher_valid_pairwise (cipher : Z) : bool :=
  bool_decide (cipher ∈ [WPA_CIPHER_CCMP_256; WPA_CIPHER_GCMP_256; WPA_CIPHER_CCMP; WPA_CIPHER_GCMP; WPA_CIPHER_TKIP]).

Definition wpa_cipher_valid_group (cipher : Z) : bool :=
  wpa_cipher_valid_pairwise cipher || bool_decide (cipher ∈ [WPA_CIPHER_WEP104; WPA_CIPHER_WEP40; WPA_CIPHER_GTK_NOT_USED]).

Definition wpa_cipher_to_suite (proto cipher : Z) : Z :=
  let rsn := bool_decide (proto = WPA_PROTO_RSN) in
  if has cipher WPA_CIPHER_CCMP_256 then RSN_CIPHER_SUITE_CCMP_256
  else if has cipher WPA_CIPHER_GCMP_256 then RSN_CIPHER_SUITE_GCMP_256
  else if has cipher WPA_CIPHER_CCMP then if rsn then RSN_CIPHER_SUITE_CCMP else WPA_CIPHER_SUITE_CCMP
  else if has cipher WPA_CIPHER_GCMP then RSN_CIPHER_SUITE_GCMP
  else if has cipher WPA_CIPHER_TKIP then if rsn then RSN_CIPHER_SUITE_TKIP else WPA_CIPHER_SUITE_TKIP
  else if has cipher WPA_CIPHER_WEP104 then if rsn then RSN_CIPHER_SUITE_WEP104 else WPA_CIPHER_SUITE_WEP104
  else if has cipher WPA_CIPHER_WEP40 then if rsn then RSN_CIPHER_SUITE_WEP40 else WPA_CIPHER_SUITE_WEP40
  else if has cipher WPA_CIPHER_NONE then if rsn then RSN_CIPHER_SUITE_NONE else WPA_CIPHER_SUITE_NONE
  else if has cipher WPA_CIPHER_GTK_NOT_USED then RSN_CIPHER_SUITE_NO_GROUP_ADDRESSED
  else if has cipher WPA_CIPHER_AES_128_CMAC then RSN_CIPHER_SUITE_AES_128_CMAC
  else if has cipher WPA_CIPHER_BIP_GMAC_128 then RSN_CIPHER_SUITE_BIP_GMAC_128
  else if has cipher WPA_CIPHER_BIP_GMAC_256 then RSN_CIPHER_SUITE_BIP_GMAC_256
  else if has cipher WPA_CIPHER_BIP_CMAC_256 then RSN_CIPHER_SUITE_BIP_CMAC_256
  else 0.

Definition wpa_pick_pairwise_cipher (ciphers : Z) (none_allowed : bool) : Z :=
  if has ciphers WPA_CIPHER_CCMP_256 then WPA_CIPHER_CCMP_256
  else if has ciphers WPA_CIPHER_GCMP_256 then WPA_CIPHER_GCMP_256
  else if has ciphers WPA_CIPHER_CCMP then WPA_CIPHER_CCMP
  else if has ciphers WPA_CIPHER_GCMP then WPA_CIPHER_GCMP
  else if has ciphers WPA_CIPHER_TKIP then WPA_CIPHER_TKIP
  else if none_allowed && has ciphers WPA_CIPHER_NONE then WPA_CIPHER_NONE
  else -1.

(** The suites that are put for a set of bits: those of the table whose bit is set, in
    its order. *)
Definition put_suites (table : list (Z * Z)) (bits : Z) : list Z := map fst (filter (fun e : Z * Z => has bits (snd e) = true) table).
Definition suites_bytes (suites : list Z) : list Z := concat (map be32 suites).

Definition rsn_put_ciphers : list (Z * Z) :=
  [(RSN_CIPHER_SUITE_CCMP_256, WPA_CIPHER_CCMP_256); (RSN_CIPHER_SUITE_GCMP_256, WPA_CIPHER_GCMP_256);
   (RSN_CIPHER_SUITE_CCMP, WPA_CIPHER_CCMP); (RSN_CIPHER_SUITE_GCMP, WPA_CIPHER_GCMP);
   (RSN_CIPHER_SUITE_TKIP, WPA_CIPHER_TKIP); (RSN_CIPHER_SUITE_NONE, WPA_CIPHER_NONE)].
Definition rsn_cipher_put_suites (ciphers : Z) : list Z := put_suites rsn_put_ciphers ciphers.

Definition wpa_put_ciphers : list (Z * Z) :=
  [(WPA_CIPHER_SUITE_CCMP, WPA_CIPHER_CCMP); (WPA_CIPHER_SUITE_TKIP, WPA_CIPHER_TKIP); (WPA_CIPHER_SUITE_NONE, WPA_CIPHER_NONE)].
Definition wpa_cipher_put_suites (ciphers : Z) : list Z := put_suites wpa_put_ciphers ciphers.

(** ** The elements of a network *)

(** What is used of [struct wpa_auth_config]. *)
Record wpa_auth_config : Type := {
  wc_wpa : Z;
  wc_key_mgmt : Z;
  wc_wpa_pairwise : Z;
  wc_group : Z;
  wc_rsn_pairwise : Z;
  wc_rsn_preauth : bool;
  wc_peerkey : bool;
  wc_wmm_enabled : bool;
  wc_okc : bool }.

(** The key management that is put into the elements. *)
Definition wpa_put_key_mgmt : list (Z * Z) :=
  [(WPA_AUTH_KEY_MGMT_UNSPEC_802_1X, WPA_KEY_MGMT_IEEE8021X); (WPA_AUTH_KEY_MGMT_PSK_OVER_802_1X, WPA_KEY_MGMT_PSK)].
Definition rsn_put_key_mgmt : list (Z * Z) :=
  [(RSN_AUTH_KEY_MGMT_UNSPEC_802_1X, WPA_KEY_MGMT_IEEE8021X); (RSN_AUTH_KEY_MGMT_PSK_OVER_802_1X, WPA_KEY_MGMT_PSK);
   (RSN_AUTH_KEY_MGMT_802_1X_SUITE_B, WPA_KEY_MGMT_IEEE8021X_SUITE_B);
   (RSN_AUTH_KEY_MGMT_802_1X_SUITE_B_192, WPA_KEY_MGMT_IEEE8021X_SUITE_B_192)].

(** A count and its suites. *)
Definition counted (suites : list Z) : list Z := le_bytes 2 (zlen suites) ++ suites_bytes suites.

(** The identifier, the length that is filled in at the end, and the rest. *)
Definition element (id : Z) (data : list Z) : list Z := [id; uwrap 8 (zlen data)] ++ data.

Definition wpa_write_wpa_ie (conf : wpa_auth_config) : option (list Z) :=
  let suite := wpa_cipher_to_suite WPA_PROTO_WPA (wc_group conf) in
  let pairwise := wpa_cipher_put_suites (wc_wpa_pairwise conf) in
  let key_mgmt := put_suites wpa_put_key_mgmt (wc_key_mgmt conf) in
  if bool_decide (suite = 0) || bool_decide (pairwise = []) || bool_decide (key_mgmt = []) then None
  else Some (element WLAN_EID_VENDOR_SPECIFIC (be32 WPA_OUI_TYPE ++ le_bytes 2 WPA_VERSION ++ be32 suite ++ counted pairwise ++ counted key_mgmt)).

Definition rsn_capabilities (conf : wpa_auth_config) : Z :=
  let on (cond : bool) bit := if cond then bit else 0 in
  Z.lor (Z.lor (on (wc_rsn_preauth conf) WPA_CAPABILITY_PREAUTH) (on (wc_peerkey conf) WPA_CAPABILITY_PEERKEY_ENABLED))
    (on (wc_wmm_enabled conf) (Z.shiftl RSN_NUM_REPLAY_COUNTERS_16 2)).

(** [len] is the room for the element; only the PMKID looks at it. *)
Definition wpa_write_rsn_ie (conf : wpa_auth_config) (len : Z) (pmkid : option (list Z)) : option (list Z) :=
  let suite := wpa_cipher_to_suite WPA_PROTO_RSN (wc_group conf) in
  let pairwise := rsn_cipher_put_suites (wc_rsn_pairwise conf) in
  let key_mgmt := put_suites rsn_put_key_mgmt (wc_key_mgmt conf) in
  if bool_decide (suite = 0) || bool_decide (pairwise = []) || bool_decide (key_mgmt = []) then None
  else
    let pos := le_bytes 2 RSN_VERSION ++ be32 suite ++ counted pairwise ++ counted key_mgmt ++ le_bytes 2 (rsn_capabilities conf) in
    match pmkid with
    | None => Some (element WLAN_EID_RSN pos)
    | Some id =>
        if bool_decide (2 + zlen pos + 2 + PMKID_LEN > len) then None
        else Some (element WLAN_EID_RSN (pos ++ le_bytes 2 1 ++ take (Z.to_nat PMKID_LEN) id))
    end.

Definition wpa_write_osen (conf : wpa_auth_config) : list Z :=
  element WLAN_EID_VENDOR_SPECIFIC
    ([0x50; 0x6f; 0x9a; HS20_OSEN_OUI_TYPE] ++ be32 RSN_CIPHER_SUITE_NO_GROUP_ADDRESSED
     ++ le_bytes 2 1 ++ be32 RSN_CIPHER_SUITE_CCMP ++ le_bytes 2 1 ++ be32 RSN_AUTH_KEY_MGMT_OSEN
     ++ le_bytes 2 (if wc_wmm_enabled conf then Z.shiftl RSN_NUM_REPLAY_COUNTERS_16 2 else 0)).

(** The elements that are put into [buf] of 128 bytes and copied into [wpa_ie] of the
    authenticator, when there is memory; [None] is -1. *)
Definition wpa_auth_gen_wpa_ie (conf : wpa_auth_config) : res (option (list Z)) :=
  let osen := if bool_decide (wc_wpa conf = WPA_PROTO_OSEN) then wpa_write_osen conf else [] in
  let! osen := within 128 osen in
  match (if has (wc_wpa conf) WPA_PROTO_RSN then wpa_write_rsn_ie conf (128 - zlen osen) None else Some []) with
  | None => Ok None
  | Some rsn =>
      let! pos := within 128 (osen ++ rsn) in
      match (if has (wc_wpa conf) WPA_PROTO_WPA then wpa_write_wpa_ie conf else Some []) with
      | None => Ok None
      | Some wpa => let! buf := within 128 (pos ++ wpa) in Ok (Some buf)
      end
  end.

(** ** The element of a station *)

(** [struct wpa_ie_data]; [pmkid] points to [num_pmkid] identifiers. *)
Record wpa_ie_data : Type := mkIeData {
  proto : Z;
  pairwise_cipher : Z;
  group_cipher : Z;
  key_mgmt : Z;
  capabilities : Z;
  num_pmkid : Z;
  pmkid : option (list Z);
  mgmt_group_cipher : Z }.

Definition set_proto (v : Z) (d : wpa_ie_data) : wpa_ie_data :=
  mkIeData v (pairwise_cipher d) (group_cipher d) (key_mgmt d) (capabilities d) (num_pmkid d) (pmkid d) (mgmt_group_cipher d).
Definition set_pairwise_cipher (v : Z) (d : wpa_ie_data) : wpa_ie_data :=
  mkIeData (proto d) v (group_cipher d) (key_mgmt d) (capabilities d) (num_pmkid d) (pmkid d) (mgmt_group_cipher d).
Definition set_group_cipher (v : Z) (d : wpa_ie_data) : wpa_ie_data :=
  mkIeData (proto d) (pairwise_cipher d) v (key_mgmt d) (capabilities d) (num_pmkid d) (pmkid d) (mgmt_group_cipher d).
Definition set_key_mgmt (v : Z) (d : wpa_ie_data) : wpa_ie_data :=
  mkIeData (proto d) (pairwise_cipher d) (group_cipher d) v (capabilities d) (num_pmkid d) (pmkid d) (mgmt_group_cipher d).
Definition set_capabilities (v : Z) (d : wpa_ie_data) : wpa_ie_data :=
  mkIeData (proto d) (pairwise_cipher d) (group_cipher d) (key_mgmt d) v (num_pmkid d) (pmkid d) (mgmt_group_cipher d).
Definition set_pmkids (n : Z) (p : list Z) (d : wpa_ie_data) : wpa_ie_data :=
  mkIeData (proto d) (pairwise_cipher d) (group_cipher d) (key_mgmt d) (capabilities d) n (Some p) (mgmt_group_cipher d).

(** A parser leaves with a code and what it has filled in so far, or goes on with the
    [left] bytes at [pos]. *)
Definition rest : Type := wpa_ie_data -> list Z -> Z -> res (Z * wpa_ie_data).

(** The bits of [n] suites at [pos], on top of [acc]. *)
Fixpoint suite_loop (to_bitfield : list Z -> res Z) (n : nat) (pos : list Z) (acc : Z) : res Z :=
  match n with
  | O => Ok acc
  | S n' => let! bit := to_bitfield pos in suite_loop to_bitfield n' (drop 4 pos) (Z.lor acc bit)
  end.

(** A count of two bytes and that many suites; [botch] and [short] are the codes for a
    count that does not fit and for one byte alone. *)
Definition parse_suites (to_bitfield : list Z -> res Z) (set : Z -> wpa_ie_data -> wpa_ie_data) (botch short : Z) (k : rest) : rest :=
  fun data pos left =>
  if bool_decide (left >= 2) then
    let data := set 0 data in
    let! count := rd_le 0 2 pos in
    let pos := drop 2 pos in
    let left := left - 2 in
    if bool_decide (count = 0 \/ count > Z.quot left RSN_SELECTOR_LEN) then Ok (botch, data)
    else
      let! bits := suite_loop to_bitfield (Z.to_nat count) pos 0 in
      k (set bits data) (drop (Z.to_nat (4 * count)) pos) (left - 4 * count)
  else if bool_decide (left = 1) then Ok (short, data)
  else k data pos left.

Definition parse_capabilities (k : rest) : rest := fun data pos left =>
  if bool_decide (left >= 2) then let! v := rd_le 0 2 pos in k (set_capabilities v data) (drop 2 pos) (left - 2)
  else k data pos left.

Definition parse_pmkids : rest := fun data pos left =>
  if bool_decide (left >= 2) then
    let! num := rd_le 0 2 pos in
    let pos := drop 2 pos in
    let left := left - 2 in
    if bool_decide (num > Z.quot left PMKID_LEN) then Ok (-9, data)
    else Ok (0, set_pmkids num pos data)
  else Ok (0, data).

Definition parse_rsn_group (k : rest) : rest := fun data pos left =>
  if bool_decide (left >= RSN_SELECTOR_LEN) then
    let! group := rsn_selector_to_bitfield pos in
    let data := set_group_cipher group data in
    if negb (wpa_cipher_valid_group group) then Ok (-1, data) else k data (drop 4 pos) (left - RSN_SELECTOR_LEN)
  else if bool_decide (left > 0) then Ok (-3, data)
  else k data pos left.

(** From the group cipher on. *)
Definition parse_rsn_fields : rest :=
  parse_rsn_group (
  parse_suites rsn_selector_to_bitfield set_pairwise_cipher (-4) (-5) (
  parse_suites rsn_key_mgmt_to_bitfield set_key_mgmt (-6) (-7) (
  parse_capabilities parse_pmkids))).

(** What the parser assumes of fields that are missing. *)
Definition rsn_defaults : wpa_ie_data := mkIeData WPA_PROTO_RSN WPA_CIPHER_CCMP WPA_CIPHER_CCMP WPA_KEY_MGMT_IEEE8021X 0 0 None 0.

Definition wpa_parse_wpa_ie_rsn (rsn_ie : list Z) (rsn_ie_len : Z) : res (Z * wpa_ie_data) :=
  if bool_decide (rsn_ie_len < 4) then Ok (-1, rsn_defaults)
  else
    let! len := rd rsn_ie 1 in
    let! osen := (if bool_decide (rsn_ie_len >= 6 /\ len >= 4 /\ len = rsn_ie_len - 2)
                  then let! v := RSN_SELECTOR_GET (drop 2 rsn_ie) in Ok (bool_decide (v = OSEN_IE_VENDOR_TYPE)) else Ok false) in
    if osen : bool then parse_rsn_fields (set_proto WPA_PROTO_OSEN rsn_defaults) (drop 6 rsn_ie) (rsn_ie_len - 6)
    else
      let! id := rd rsn_ie 0 in
      let! version := rd_le 2 2 rsn_ie in
      if bool_decide (id <> WLAN_EID_RSN \/ len <> rsn_ie_len - 2 \/ version <> RSN_VERSION) then Ok (-2, rsn_defaults)
      else parse_rsn_fields rsn_defaults (drop 4 rsn_ie) (rsn_ie_len - 4).

(** The group cipher of a WPA element is not looked at. *)
Definition parse_wpa_group (k : rest) : rest := fun data pos left =>
  if bool_decide (left >= RSN_SELECTOR_LEN) then
    let! group := wpa_selector_to_bitfield pos in k (set_group_cipher group data) (drop 4 pos) (left - RSN_SELECTOR_LEN)
  else if bool_decide (left > 0) then Ok (-3, data)
  else k data pos left.

Definition parse_wpa_fields : rest :=
  parse_wpa_group (
  parse_suites wpa_selector_to_bitfield set_pairwise_cipher (-4) (-5) (
  parse_suites wpa_key_mgmt_to_bitfield set_key_mgmt (-6) (-7) (
  parse_capabilities (fun data _ _ => Ok (0, data))))).

Definition wpa_defaults : wpa_ie_data := mkIeData WPA_PROTO_WPA WPA_CIPHER_TKIP WPA_CIPHER_TKIP WPA_KEY_MGMT_IEEE8021X 0 0 None 0.

Definition wpa_parse_wpa_ie_wpa (wpa_ie : list Z) (wpa_ie_len : Z) : res (Z * wpa_ie_data) :=
  if bool_decide (wpa_ie_len < 8) then Ok (-1, wpa_defaults)
  else
    let! id := rd wpa_ie 0 in
    let! len := rd wpa_ie 1 in
    let! oui := RSN_SELECTOR_GET (drop 2 wpa_ie) in
    let! version := rd_le 6 2 wpa_ie in
    if bool_decide (id <> WLAN_EID_VENDOR_SPECIFIC \/ len <> wpa_ie_len - 2 \/ oui <> WPA_OUI_TYPE \/ version <> WPA_VERSION)
    then Ok (-2, wpa_defaults)
    else parse_wpa_fields wpa_defaults (drop 8 wpa_ie) (wpa_ie_len - 8).

(** ** The judgement of an element *)

Definition WPA_IE_OK : Z := 0.
Definition WPA_INVALID_IE : Z := 1.
Definition WPA_INVALID_GROUP : Z := 2.
Definition WPA_INVALID_PAIRWISE : Z := 3.
Definition WPA_INVALID_AKMP : Z := 4.
Definition WPA_NOT_ENABLED : Z := 5.
Definition WPA_ALLOC_FAIL : Z := 6.
Definition WPA_INVALID_PROTO : Z := 10.
Definition WPA_VERSION_WPA : Z := 1.
Definition WPA_VERSION_WPA2 : Z := 2.

(** [hostapd_wpa_auth_conf], for the members that are used. *)
Definition hostapd_wpa_auth_conf (c : bss_config) : wpa_auth_config :=
  {| wc_wpa := wpa c; wc_key_mgmt := wpa_key_mgmt (bcn c); wc_wpa_pairwise := wpa_pairwise (bcn c); wc_group := wpa_group (bcn c);
     wc_rsn_pairwise := rsn_pairwise (bcn c); wc_rsn_preauth := rsn_preauth c; wc_peerkey := peerkey c;
     wc_wmm_enabled := wmm_enabled c; wc_okc := okc c |}.

Definition set_sm_key_mgmt (v : Z) (x : wpa_state_machine) : wpa_state_machine :=
  mkWpaSm (sm_wpa x) v (sm_pairwise x) (sm_wpa_ie x) (sm_pmksa x).
Definition set_sm_pairwise (v : Z) (x : wpa_state_machine) : wpa_state_machine :=
  mkWpaSm (sm_wpa x) (sm_key_mgmt x) v (sm_wpa_ie x) (sm_pmksa x).
Definition set_sm_wpa (v : Z) (x : wpa_state_machine) : wpa_state_machine :=
  mkWpaSm v (sm_key_mgmt x) (sm_pairwise x) (sm_wpa_ie x) (sm_pmksa x).
Definition set_sm_wpa_ie (v : option (list Z)) (x : wpa_state_machine) : wpa_state_machine :=
  mkWpaSm (sm_wpa x) (sm_key_mgmt x) (sm_pairwise x) v (sm_pmksa x).
Definition set_sm_pmksa (v : bool) (x : wpa_state_machine) : wpa_state_machine :=
  mkWpaSm (sm_wpa x) (sm_key_mgmt x) (sm_pairwise x) (sm_wpa_ie x) v.

Definition sizeof_wpa_state_machine : Z := 504.

(** [wpa_auth_sta_init]: a zeroed state machine.  That the keys of the group could not
    be set is an answer of the environment. *)
Definition wpa_auth_sta_init (addr : list Z) : M world (option wpa_state_machine) :=
  fatal <-- ext (Hostapd (str "wpa_group_fatal_failure") []) ;;
  if bool_decide (fatal <> 0) then ret None
  else r <-- ext (Malloc sizeof_wpa_state_machine) ;; ret (if bool_decide (r = 0) then None else Some (mkWpaSm 0 0 0 None false)).

Definition wpa_auth_sta_no_wpa (sm : option wpa_state_machine) : option wpa_state_machine := option_map (set_sm_key_mgmt 0) sm.

(** The suites of the MIB for an element: key management, pairwise and group cipher. *)
Definition mib_suites (version : Z) (data : wpa_ie_data) : list Z :=
  let or_else (suite dflt : Z) := if bool_decide (suite = 0) then dflt else suite in
  if bool_decide (version = WPA_PROTO_RSN) then
    be32 (if has (key_mgmt data) WPA_KEY_MGMT_IEEE8021X_SUITE_B_192 then RSN_AUTH_KEY_MGMT_802_1X_SUITE_B_192
          else if has (key_mgmt data) WPA_KEY_MGMT_IEEE8021X_SUITE_B then RSN_AUTH_KEY_MGMT_802_1X_SUITE_B
          else if has (key_mgmt data) WPA_KEY_MGMT_IEEE8021X then RSN_AUTH_KEY_MGMT_UNSPEC_802_1X
          else if has (key_mgmt data) WPA_KEY_MGMT_PSK then RSN_AUTH_KEY_MGMT_PSK_OVER_802_1X
          else RSN_AUTH_KEY_MGMT_UNSPEC_802_1X)
    ++ be32 (or_else (wpa_cipher_to_suite WPA_PROTO_RSN (pairwise_cipher data)) RSN_CIPHER_SUITE_CCMP)
    ++ be32 (or_else (wpa_cipher_to_suite WPA_PROTO_RSN (group_cipher data)) RSN_CIPHER_SUITE_CCMP)
  else
    be32 (if has (key_mgmt data) WPA_KEY_MGMT_IEEE8021X then WPA_AUTH_KEY_MGMT_UNSPEC_802_1X
          else if has (key_mgmt data) WPA_KEY_MGMT_PSK then WPA_AUTH_KEY_MGMT_PSK_OVER_802_1X
          else WPA_AUTH_KEY_MGMT_UNSPEC_802_1X)
    ++ be32 (or_else (wpa_cipher_to_suite WPA_PROTO_WPA (pairwise_cipher data)) RSN_CIPHER_SUITE_TKIP)
    ++ be32 (or_else (wpa_cipher_to_suite WPA_PROTO_WPA (group_cipher data)) WPA_CIPHER_SUITE_TKIP).

(** The strongest key management of a set. *)
Definition pick_key_mgmt (key_mgmt : Z) : Z :=
  if has key_mgmt WPA_KEY_MGMT_IEEE8021X_SUITE_B_192 then WPA_KEY_MGMT_IEEE8021X_SUITE_B_192
  else if has key_mgmt WPA_KEY_MGMT_IEEE8021X_SUITE_B then WPA_KEY_MGMT_IEEE8021X_SUITE_B
  else if has key_mgmt WPA_KEY_MGMT_IEEE8021X then WPA_KEY_MGMT_IEEE8021X
  else WPA_KEY_MGMT_PSK.

(** From the comparison of the group cipher to the version of the state machine. *)
Definition wpa_judge (conf : wpa_auth_config) (version : Z) (data : wpa_ie_data) (sm : wpa_state_machine) : Z * wpa_state_machine :=
  if bool_decide (group_cipher data <> wc_group conf) then (WPA_INVALID_GROUP, sm)
  else
    let km := Z.land (key_mgmt data) (wc_key_mgmt conf) in
    if bool_decide (km = 0) then (WPA_INVALID_AKMP, sm)
    else
      let sm := set_sm_key_mgmt (pick_key_mgmt km) sm in
      let ciphers := Z.land (pairwise_cipher data)
        (if bool_decide (version = WPA_PROTO_RSN) then wc_rsn_pairwise conf else wc_wpa_pairwise conf) in
      if bool_decide (ciphers = 0) then (WPA_INVALID_PAIRWISE, sm)
      else
        let sm := set_sm_pairwise (wpa_pick_pairwise_cipher ciphers false) sm in
        if bool_decide (sm_pairwise sm < 0) then (WPA_INVALID_PAIRWISE, sm)
        else (WPA_IE_OK, set_sm_wpa (if bool_decide (version = WPA_PROTO_RSN) then WPA_VERSION_WPA2 else WPA_VERSION_WPA) sm).

(** The two loops over the PMKIDs: the cache of the network, then those of the others. *)
Fixpoint pmksa_own (n : nat) (addr ids : list Z) : M world (option (list Z)) :=
  match n with
  | O => ret None
  | S n' =>
      id <-- lift (slice 0 PMKID_LEN ids) ;;
      r <-- ext (Hostapd (str "pmksa_cache_auth_get") (addr ++ id)) ;;
      if bool_decide (r <> 0) then ret (Some id) else pmksa_own n' addr (drop 16 ids)
  end.

Fixpoint pmksa_okc (n : nat) (own addr ids : list Z) : M world (option (list Z)) :=
  match n with
  | O => ret None
  | S n' =>
      id <-- lift (slice 0 PMKID_LEN ids) ;;
      r <-- ext (Hostapd (str "pmksa_cache_get_okc") (own ++ addr ++ id)) ;;
      if bool_decide (r <> 0) then
        added <-- ext (Hostapd (str "pmksa_cache_add_okc") (own ++ id)) ;;
        ret (if bool_decide (added <> 0) then Some id else None)
      else pmksa_okc n' own addr (drop 16 ids)
  end.

Definition find_pmksa (conf : wpa_auth_config) (own addr : list Z) (data : wpa_ie_data) : M world bool :=
  let ids := default [] (pmkid data) in
  found <-- pmksa_own (Z.to_nat (num_pmkid data)) addr ids ;;
  found <-- (match found with
             | Some id => ret (Some id)
             | None => if wc_okc conf then pmksa_okc (Z.to_nat (num_pmkid data)) own addr ids else ret None
             end) ;;
  match found with Some id => hostapd "dot11RSNAPMKIDUsed" id ;;; ret true | None => ret false end.

(** The copy of the element: a new buffer when the old one is shorter. *)
Definition keep_ie (wpa_ie : list Z) (sm : wpa_state_machine) : M world (Z * wpa_state_machine) :=
  if (match sm_wpa_ie sm with None => true | Some old => bool_decide (zlen old < zlen wpa_ie) end) then
    r <-- ext (Malloc (zlen wpa_ie)) ;;
    if bool_decide (r = 0) then ret (WPA_ALLOC_FAIL, set_sm_wpa_ie None sm) else ret (WPA_IE_OK, set_sm_wpa_ie (Some wpa_ie) sm)
  else ret (WPA_IE_OK, set_sm_wpa_ie (Some wpa_ie) sm).

Definition ie_version (wpa_ie : list Z) : res Z :=
  let! id := rd wpa_ie 0 in Ok (if bool_decide (id = WLAN_EID_RSN) then WPA_PROTO_RSN else WPA_PROTO_WPA).

Definition parse_ie (version : Z) (wpa_ie : list Z) : res (Z * wpa_ie_data) :=
  if bool_decide (version = WPA_PROTO_RSN) then wpa_parse_wpa_ie_rsn wpa_ie (zlen wpa_ie) else wpa_parse_wpa_ie_wpa wpa_ie (zlen wpa_ie).

(** A network with WPA has its authenticator.  Its variables of the MIB are not kept:
    that they are set is a call. *)
Definition wpa_validate_wpa_ie (conf : wpa_auth_config) (own addr : list Z) (sm : option wpa_state_machine) (wpa_ie : list Z) :
    M world (Z * option wpa_state_machine) :=
  match sm with
  | None => ret (WPA_NOT_ENABLED, None)
  | Some sm =>
      if bool_decide (zlen wpa_ie < 1) then ret (WPA_INVALID_IE, Some sm)
      else
        version <-- lift (ie_version wpa_ie) ;;
        if negb (has (wc_wpa conf) version) then ret (WPA_INVALID_PROTO, Some sm)
        else
          r <-- lift (parse_ie version wpa_ie) ;;
          let '(res, data) := r in
          hostapd "dot11RSNASelected" (mib_suites version data) ;;;
          if bool_decide (res <> 0) then ret (WPA_INVALID_IE, Some sm)
          else
            let '(res, sm) := wpa_judge conf version data sm in
            if bool_decide (res <> WPA_IE_OK) then ret (res, Some sm)
            else
              found <-- find_pmksa conf own addr data ;;
              r <-- keep_ie wpa_ie (set_sm_pmksa found sm) ;;
              ret (fst r, Some (snd r))
  end.

(** ** Suites read back *)

Lemma zlen_be32 v : zlen (be32 v) = 4.
Proof. reflexivity. Qed.

Lemma be32_u8 v : Forall u8 (be32 v).
Proof. unfold be32. apply Forall_rev, le_bytes_u8. Qed.

Lemma selector_read v r : u32 v -> RSN_SELECTOR_GET (be32 v ++ r) = Ok v.
Proof.
  intros Hv. unfold RSN_SELECTOR_GET. rewrite (slice_mid [] (be32 v) r) by done. cbn [res_bind]. unfold be32.
  rewrite rev_involutive, le_num_bytes. f_equal. apply Z.mod_small. exact Hv.
Qed.

(** The entries of a table: suites whose bit the parser [f] knows. *)
Definition table_ok (f : list Z -> res Z) (t : list (Z * Z)) : Prop :=
  Forall (fun e => (forall r, f (be32 (fst e) ++ r) = Ok (snd e)) /\ exists k, 0 <= k /\ snd e = 2 ^ k) t.

(** All bits of a table. *)
Definition mask (t : list (Z * Z)) : Z := foldr (fun e m => Z.lor (snd e) m) 0 t.

Lemma land_bit bits k : 0 <= k -> Z.land bits (2 ^ k) = if has bits (2 ^ k) then 2 ^ k else 0.
Proof.
  intros Hk. rewrite has_bit by done. apply Z.bits_inj'. intros n Hn. rewrite Z.land_spec, Z.pow2_bits_eqb by done.
  destruct (Z.eqb_spec k n) as [<-|Hne]; destruct (Z.testbit bits k) eqn:E; rewrite ?Z.pow2_bits_eqb, ?E, ?Z.bits_0 by done; cbn [andb].
  - symmetry. apply Z.eqb_refl.
  - done.
  - rewrite andb_false_r. symmetry. by apply Z.eqb_neq.
  - apply andb_false_r.
Qed.

Lemma put_cons e t bits : put_suites (e :: t) bits = (if has bits (snd e) then [fst e] else []) ++ put_suites t bits.
Proof. unfold put_suites. rewrite filter_cons. destruct (has bits (snd e)) eqn:E; [rewrite decide_True|rewrite decide_False]; rewrite ?E; done. Qed.

Lemma suites_read f t bits r : table_ok f t -> forall acc,
  suite_loop f (length (put_suites t bits)) (suites_bytes (put_suites t bits) ++ r) acc = Ok (Z.lor acc (Z.land bits (mask t))).
Proof.
  induction 1 as [|e t [He (k & Hk & Eb)] _ IH]; intros acc; [cbn; now rewrite Z.land_0_r, Z.lor_0_r|].
  rewrite put_cons. cbn [mask foldr]. fold (mask t). rewrite Z.land_lor_distr_r, Z.lor_assoc, Eb, land_bit by done.
  destruct (has bits (2 ^ k)) eqn:Eh.
  - unfold suites_bytes. cbn [app length map concat suite_loop]. rewrite <- app_assoc, He. cbn [res_bind]. rewrite Eb.
    change (drop 4 (be32 (fst e) ++ concat (map be32 (put_suites t bits)) ++ r)) with (suites_bytes (put_suites t bits) ++ r). apply IH.
  - cbn [app]. rewrite Z.lor_0_r. apply IH.
Qed.

Lemma put_none f t bits : table_ok f t -> put_suites t bits = [] <-> Z.land bits (mask t) = 0.
Proof.
  induction 1 as [|e t [He (k & Hk & Eb)] _ IH]; [now rewrite Z.land_0_r|].
  rewrite put_cons. cbn [mask foldr]. fold (mask t). rewrite Z.land_lor_distr_r, Z.lor_eq_0_iff, Eb, land_bit by done.
  destruct (has bits (2 ^ k)); cbn [app]; [|tauto]. split; [done|]. intros [H0 _]. assert (0 < 2 ^ k) by (apply Z.pow_pos_nonneg; lia). lia.
Qed.

Lemma put_length t bits : zlen (put_suites t bits) <= zlen t.
Proof. unfold put_suites. rewrite zlen_map. unfold zlen. pose proof (length_filter (fun e : Z * Z => has bits (snd e) = true) t). lia. Qed.

Lemma zlen_suites s : zlen (suites_bytes s) = 4 * zlen s.
Proof. induction s as [|v s IH]; [done|]. unfold suites_bytes in *. cbn [map concat]. rewrite zlen_app, IH, zlen_be32, zlen_cons. lia. Qed.

Lemma zlen_counted s : zlen (counted s) = 2 + 4 * zlen s.
Proof. unfold counted. rewrite zlen_app, zlen_le_bytes, zlen_suites. done. Qed.

Lemma counted_u8 s : Forall u8 (counted s).
Proof.
  unfold counted. apply Forall_app. split; [apply le_bytes_u8|]. unfold suites_bytes. induction s as [|v s IH]; [constructor|].
  cbn [map concat]. apply Forall_app. split; [apply be32_u8|exact IH].
Qed.

(** The parser of a list on what is put there. *)
Lemma counted_read f t bits set botch short k data r left : table_ok f t -> zlen t < 1000 -> put_suites t bits <> [] ->
  left = zlen (counted (put_suites t bits) ++ r) ->
  parse_suites f set botch short k data (counted (put_suites t bits) ++ r) left
  = k (set (Z.land bits (mask t)) (set 0 data)) r (zlen r).
Proof.
  intros Ht Hl Hne ->. pose proof (put_length t bits) as Hp. set (s := put_suites t bits) in *.
  assert (0 < zlen s) as Hpos by (destruct s; [done|rewrite zlen_cons; pose proof (zlen_nonneg s); lia]).
  pose proof (zlen_nonneg r). rewrite zlen_app, zlen_counted. unfold parse_suites. rewrite bool_decide_eq_true_2 by lia. cbv zeta.
  unfold counted. rewrite <- app_assoc. change (le_bytes 2 (zlen s) ++ suites_bytes s ++ r) with ([] ++ le_bytes 2 (zlen s) ++ suites_bytes s ++ r) at 1.
  rewrite (rd_le_mid 2) by done. cbn [res_bind]. rewrite (Z.mod_small (zlen s)) by lia.
  assert (drop 2 (le_bytes 2 (zlen s) ++ suites_bytes s ++ r) = suites_bytes s ++ r) as -> by reflexivity.
  rewrite bool_decide_eq_false_2.
  2: { unfold RSN_SELECTOR_LEN. rewrite Z.quot_div_nonneg by lia. intros [H0|H0]; [lia|]. assert (zlen s <= (2 + 4 * zlen s + zlen r - 2) / 4); [|lia].
    apply Z.div_le_lower_bound; lia. }
  assert (Z.to_nat (zlen s) = length s) as -> by (unfold zlen; lia). unfold s. rewrite (suites_read f t bits r Ht 0). fold s. cbn [res_bind]. rewrite Z.lor_0_l. f_equal; [|lia].
  rewrite drop_app_ge by (pose proof (zlen_suites s); unfold zlen in *; lia).
  replace (_ - _)%nat with 0%nat; [done|]. pose proof (zlen_suites s). unfold zlen in *. lia.
Qed.

(** The tables of the writers and the parsers agree. *)
Lemma read_suite (f : Z -> Z) v b : u32 v -> f v = b -> forall r, (let! x := RSN_SELECTOR_GET (be32 v ++ r) in Ok (f x)) = Ok b.
Proof. intros Hv <- r. rewrite selector_read by done. reflexivity. Qed.

Lemma entry_ok (f : Z -> Z) v k : u32 v -> 0 <= k -> f v = 2 ^ k ->
  (forall r, (let! x := RSN_SELECTOR_GET (be32 (fst (v, 2 ^ k)) ++ r) in Ok (f x)) = Ok (snd (v, 2 ^ k))) /\
  exists n, 0 <= n /\ snd (v, 2 ^ k) = 2 ^ n.
Proof. intros Hv Hk Hf. split; [by apply read_suite|eauto]. Qed.

Ltac table_tac :=
  repeat (apply Forall_cons_2; [apply (entry_ok (suite_bit _)); [unfold u32; by_check|done|reflexivity]|]); apply Forall_nil_2.

Lemma rsn_ciphers_ok : table_ok rsn_selector_to_bitfield rsn_put_ciphers.
Proof. table_tac. Qed.

Lemma wpa_ciphers_ok : table_ok wpa_selector_to_bitfield wpa_put_ciphers.
Proof. table_tac. Qed.

Lemma rsn_key_mgmt_ok : table_ok rsn_key_mgmt_to_bitfield rsn_put_key_mgmt.
Proof. table_tac. Qed.

Lemma wpa_key_mgmt_ok : table_ok wpa_key_mgmt_to_bitfield wpa_put_key_mgmt.
Proof. table_tac. Qed.

(** The suite of one cipher for a group. *)
Lemma rsn_group_ok g : wpa_cipher_valid_group g = true ->
  u32 (wpa_cipher_to_suite WPA_PROTO_RSN g) /\ wpa_cipher_to_suite WPA_PROTO_RSN g <> 0 /\
  forall r, rsn_selector_to_bitfield (be32 (wpa_cipher_to_suite WPA_PROTO_RSN g) ++ r) = Ok g.
Proof.
  intros Hg. unfold wpa_cipher_valid_group, wpa_cipher_valid_pairwise in Hg.
  apply orb_true_iff in Hg as [Hg|Hg]; apply bool_decide_eq_true in Hg;
  repeat (apply elem_of_cons in Hg as [->|Hg];
    [split; [unfold u32; by_check|]; split; [by_check|]; apply read_suite; [unfold u32; by_check|reflexivity]|]); inversion Hg.
Qed.

(** The group ciphers that the older element can name. *)
Lemma wpa_group_ok g : g ∈ [WPA_CIPHER_CCMP; WPA_CIPHER_TKIP; WPA_CIPHER_WEP104; WPA_CIPHER_WEP40; WPA_CIPHER_NONE] ->
  u32 (wpa_cipher_to_suite WPA_PROTO_WPA g) /\ wpa_cipher_to_suite WPA_PROTO_WPA g <> 0 /\
  forall r, wpa_selector_to_bitfield (be32 (wpa_cipher_to_suite WPA_PROTO_WPA g) ++ r) = Ok g.
Proof.
  intros Hg. repeat (apply elem_of_cons in Hg as [->|Hg];
    [split; [unfold u32; by_check|]; split; [by_check|]; apply read_suite; [unfold u32; by_check|reflexivity]|]); inversion Hg.
Qed.

(** ** Elements read back *)

Lemma capabilities_small conf : 0 <= rsn_capabilities conf < 2 ^ 16.
Proof. unfold rsn_capabilities. destruct (wc_rsn_preauth conf), (wc_peerkey conf), (wc_wmm_enabled conf); by_check. Qed.

Lemma rsn_group_read g k data r left : wpa_cipher_valid_group g = true ->
  left = zlen (be32 (wpa_cipher_to_suite WPA_PROTO_RSN g) ++ r) ->
  parse_rsn_group k data (be32 (wpa_cipher_to_suite WPA_PROTO_RSN g) ++ r) left = k (set_group_cipher g data) r (zlen r).
Proof.
  intros Hg ->. destruct (rsn_group_ok g Hg) as (_ & _ & E). unfold parse_rsn_group. pose proof (zlen_nonneg r).
  rewrite zlen_app, zlen_be32, bool_decide_eq_true_2 by (unfold RSN_SELECTOR_LEN; lia). rewrite E. cbn [res_bind]. rewrite Hg. cbn [negb].
  f_equal. unfold RSN_SELECTOR_LEN. lia.
Qed.

Lemma capabilities_read v k data r left : 0 <= v < 2 ^ 16 -> left = zlen (le_bytes 2 v ++ r) ->
  parse_capabilities k data (le_bytes 2 v ++ r) left = k (set_capabilities v data) r (zlen r).
Proof.
  intros Hv ->. unfold parse_capabilities. pose proof (zlen_nonneg r). rewrite zlen_app, zlen_le_bytes, bool_decide_eq_true_2 by lia.
  rewrite (rd_le_mid 2 v [] r) by done. cbn [res_bind]. rewrite Z.mod_small by exact Hv. f_equal. lia.
Qed.

(** The fields from the group cipher on. *)
Lemma rsn_fields_read conf data r left (pw := rsn_cipher_put_suites (wc_rsn_pairwise conf)) (km := put_suites rsn_put_key_mgmt (wc_key_mgmt conf)) :
  wpa_cipher_valid_group (wc_group conf) = true -> pw <> [] -> km <> [] ->
  let l := be32 (wpa_cipher_to_suite WPA_PROTO_RSN (wc_group conf)) ++ counted pw ++ counted km ++ le_bytes 2 (rsn_capabilities conf) ++ r in
  left = zlen l ->
  parse_rsn_fields data l left
  = parse_pmkids (mkIeData (proto data) (Z.land (wc_rsn_pairwise conf) (mask rsn_put_ciphers)) (wc_group conf)
      (Z.land (wc_key_mgmt conf) (mask rsn_put_key_mgmt)) (rsn_capabilities conf) (num_pmkid data) (pmkid data) (mgmt_group_cipher data)) r (zlen r).
Proof.
  intros Hg Hp Hk l ->. unfold parse_rsn_fields, l. rewrite rsn_group_read by done. unfold pw, km, rsn_cipher_put_suites in *.
  rewrite (counted_read _ rsn_put_ciphers) by (apply rsn_ciphers_ok || done).
  rewrite (counted_read _ rsn_put_key_mgmt) by (apply rsn_key_mgmt_ok || done).
  rewrite capabilities_read by (apply capabilities_small || done). reflexivity.
Qed.

(** The header of an RSN element is not taken for an OSEN element. *)
Lemma not_osen suite r : RSN_SELECTOR_GET (le_bytes 2 RSN_VERSION ++ be32 suite ++ r) <> Ok OSEN_IE_VENDOR_TYPE.
Proof.
  pose proof (be32_u8 suite) as Hu. unfold RSN_SELECTOR_GET. unfold be32 in *. cbn [le_bytes rev app] in *.
  apply Forall_cons_1 in Hu as [H1 Hu]. apply Forall_cons_1 in Hu as [H2 _].
  lazymatch goal with |- context [slice 0 4 (?a :: ?b :: ?c :: ?d :: ?t)] => change (a :: b :: c :: d :: t) with ([] ++ [a; b; c; d] ++ t) end.
  rewrite slice_mid by done.
  cbn [res_bind rev app le_num]. change (RSN_VERSION mod 256) with 1. change (RSN_VERSION / 256 mod 256) with 0.
  unfold u8, OSEN_IE_VENDOR_TYPE in *. intros [= E]. lia.
Qed.

Lemma parsed_pmkids data id : length id = 16%nat ->
  parse_pmkids data (le_bytes 2 1 ++ id) (zlen (le_bytes 2 1 ++ id)) = Ok (0, set_pmkids 1 id data).
Proof.
  intros Hl. unfold parse_pmkids. assert (zlen id = 16) as Hz by (unfold zlen; now rewrite Hl). rewrite zlen_app, zlen_le_bytes, Hz.
  cbn [bool_decide]. rewrite (rd_le_mid 2 1 [] id) by done. reflexivity.
Qed.

(** What an RSN element says that was written from a configuration. *)
Definition written_data (conf : wpa_auth_config) (id : option (list Z)) : wpa_ie_data :=
  mkIeData WPA_PROTO_RSN (Z.land (wc_rsn_pairwise conf) (mask rsn_put_ciphers)) (wc_group conf)
    (Z.land (wc_key_mgmt conf) (mask rsn_put_key_mgmt)) (rsn_capabilities conf)
    (match id with Some _ => 1 | None => 0 end) id 0.

Lemma rsn_tail conf (id : option (list Z)) data tail : (forall x, id = Some x -> length x = 16%nat) ->
  tail = match id with Some x => le_bytes 2 1 ++ x | None => [] end ->
  wpa_cipher_valid_group (wc_group conf) = true -> rsn_cipher_put_suites (wc_rsn_pairwise conf) <> [] ->
  put_suites rsn_put_key_mgmt (wc_key_mgmt conf) <> [] -> data = rsn_defaults ->
  let l := be32 (wpa_cipher_to_suite WPA_PROTO_RSN (wc_group conf)) ++ counted (rsn_cipher_put_suites (wc_rsn_pairwise conf))
    ++ counted (put_suites rsn_put_key_mgmt (wc_key_mgmt conf)) ++ le_bytes 2 (rsn_capabilities conf) ++ tail in
  parse_rsn_fields data l (zlen l) = Ok (0, written_data conf id).
Proof.
  intros Hid -> Hg Hp Hk -> l. unfold l. rewrite rsn_fields_read by done. destruct id as [x|]; [|reflexivity].
  rewrite parsed_pmkids by (by apply Hid). reflexivity.
Qed.

(** A PMKID, if there is one. *)
Definition id_ok (id : option (list Z)) : Prop := forall x, id = Some x -> length x = 16%nat /\ Forall u8 x.

(** The body of the element, under 256 bytes. *)
Lemma rsn_parts conf len id l : wpa_write_rsn_ie conf len id = Some l -> id_ok id ->
  rsn_cipher_put_suites (wc_rsn_pairwise conf) <> [] /\ put_suites rsn_put_key_mgmt (wc_key_mgmt conf) <> [] /\
  exists body, l = [WLAN_EID_RSN; zlen body] ++ body /\ zlen body <= 70 /\ Forall u8 l /\ (id = None -> zlen body <= 52) /\
    body = le_bytes 2 RSN_VERSION ++ be32 (wpa_cipher_to_suite WPA_PROTO_RSN (wc_group conf))
      ++ counted (rsn_cipher_put_suites (wc_rsn_pairwise conf)) ++ counted (put_suites rsn_put_key_mgmt (wc_key_mgmt conf))
      ++ le_bytes 2 (rsn_capabilities conf) ++ match id with Some x => le_bytes 2 1 ++ x | None => [] end.
Proof.
  intros Hw Hid. unfold wpa_write_rsn_ie in Hw. destruct (_ || _) eqn:E; [done|].
  apply orb_false_iff in E as [[_ H1%bool_decide_eq_false]%orb_false_iff H2%bool_decide_eq_false].
  split; [done|]. split; [done|].
  pose proof (put_length rsn_put_ciphers (wc_rsn_pairwise conf)) as L1. pose proof (put_length rsn_put_key_mgmt (wc_key_mgmt conf)) as L2.
  change (zlen rsn_put_ciphers) with 6 in L1. change (zlen rsn_put_key_mgmt) with 4 in L2.
  set (tail := match id with Some x => le_bytes 2 1 ++ x | None => [] end) in *.
  assert (zlen tail <= 18 /\ Forall u8 tail /\ (id = None -> zlen tail = 0)) as (T1 & T2 & T3).
  { unfold tail. destruct id as [x|]; [|by split; [done|split; [apply Forall_nil_2|]]]. destruct (Hid x eq_refl) as [Hx Hu].
    rewrite zlen_app, zlen_le_bytes. unfold zlen. rewrite Hx. split; [lia|]. split; [|done]. apply Forall_app. split; [apply le_bytes_u8|done]. }
  set (body := le_bytes 2 RSN_VERSION ++ be32 (wpa_cipher_to_suite WPA_PROTO_RSN (wc_group conf))
      ++ counted (rsn_cipher_put_suites (wc_rsn_pairwise conf)) ++ counted (put_suites rsn_put_key_mgmt (wc_key_mgmt conf))
      ++ le_bytes 2 (rsn_capabilities conf) ++ tail).
  assert (zlen body = 2 + 4 + (2 + 4 * zlen (rsn_cipher_put_suites (wc_rsn_pairwise conf)))
    + (2 + 4 * zlen (put_suites rsn_put_key_mgmt (wc_key_mgmt conf))) + 2 + zlen tail) as Lb.
  { unfold body. rewrite !zlen_app, !zlen_counted, !zlen_le_bytes, zlen_be32. lia. }
  unfold rsn_cipher_put_suites in *. assert (zlen body <= 70) as B1 by lia. assert (id = None -> zlen body <= 52) as B2 by (intros Hn; specialize (T3 Hn); lia).
  assert (Forall u8 body) as Bu by (unfold body; rewrite !Forall_app; auto 10 using le_bytes_u8, be32_u8, counted_u8).
  assert (l = element WLAN_EID_RSN body) as ->.
  { destruct id as [x|].
    - case_bool_decide; [done|]. apply (inj Some) in Hw as <-. unfold body, tail. destruct (Hid x eq_refl) as [Hx _].
      rewrite (take_ge x) by (rewrite Hx; done). rewrite <- !app_assoc. reflexivity.
    - apply (inj Some) in Hw as <-. unfold body, tail. rewrite app_nil_r. reflexivity. }
  exists body. pose proof (zlen_nonneg body). unfold element. rewrite uwrap_small by lia. split; [done|]. split; [done|].
  split; [|by split]. apply Forall_cons_2; [unfold u8; by_check|]. apply Forall_cons_2; [unfold u8; lia|done].
Qed.

(** The RSN element that is written from a configuration, with or without a PMKID, is
    read back as the ciphers, the key management and the capabilities of the
    configuration: of the ciphers those that can be put, and of the PMKID its bytes. *)
Lemma rsn_reads_back (conf : wpa_auth_config) (len : Z) (id : option (list Z)) (l : list Z)
    (Hg : wpa_cipher_valid_group (wc_group conf) = true) (Hid : id_ok id) (Hw : wpa_write_rsn_ie conf len id = Some l) :
  wpa_parse_wpa_ie_rsn l (zlen l) = Ok (0, written_data conf id).
Proof.
  destruct (rsn_parts _ _ _ _ Hw Hid) as (Hp & Hk & body & -> & Hb & _ & _ & Eb). pose proof (zlen_nonneg body).
  assert (6 <= zlen body) as H6.
  { rewrite Eb, zlen_app, (zlen_app (be32 _)), zlen_le_bytes, zlen_be32.
    match goal with |- context [zlen (counted ?x ++ ?y)] => pose proof (zlen_nonneg (counted x ++ y)) end. lia. }
  unfold wpa_parse_wpa_ie_rsn. rewrite !zlen_app. change (zlen [WLAN_EID_RSN; zlen body]) with 2. rewrite bool_decide_eq_false_2 by lia.
  change (rd ([WLAN_EID_RSN; zlen body] ++ body) 1) with (Ok (A := Z) (zlen body)). cbn [res_bind]. rewrite bool_decide_eq_true_2 by lia.
  change (drop 2 ([WLAN_EID_RSN; zlen body] ++ body)) with body.
  set (rest_of := be32 (wpa_cipher_to_suite WPA_PROTO_RSN (wc_group conf)) ++ _) in Eb.
  assert (exists v, RSN_SELECTOR_GET body = Ok v /\ v <> OSEN_IE_VENDOR_TYPE) as (v & Ev & Hv).
  { destruct (RSN_SELECTOR_GET body) as [v|u] eqn:Ev.
    - exists v. split; [done|]. intros ->. rewrite Eb in Ev. by apply not_osen in Ev.
    - unfold RSN_SELECTOR_GET, slice in Ev. rewrite bool_decide_eq_true_2 in Ev by lia. done. }
  rewrite Ev. cbn [res_bind]. rewrite bool_decide_eq_false_2 by done.
  change (rd ([WLAN_EID_RSN; zlen body] ++ body) 0) with (Ok (A := Z) WLAN_EID_RSN). cbn [res_bind].
  assert (rd_le 2 2 ([WLAN_EID_RSN; zlen body] ++ body) = Ok RSN_VERSION) as ->.
  { rewrite Eb at 2. exact (rd_le_mid 2 1 [WLAN_EID_RSN; zlen body] rest_of 2 eq_refl). }
  cbn [res_bind]. rewrite bool_decide_eq_false_2 by (intros [?|[?|?]]; [done|lia|done]).
  assert (drop 4 ([WLAN_EID_RSN; zlen body] ++ body) = rest_of) as -> by now rewrite Eb.
  replace (2 + zlen body - 4) with (zlen rest_of) by (rewrite Eb, zlen_app, zlen_le_bytes; lia).
  apply rsn_tail; try done. intros x Hx. by apply Hid.
Qed.

(** ** Any element is parsed *)

(** The PMKIDs lie in the element. *)
Definition pm_ok (d : wpa_ie_data) : Prop :=
  0 <= num_pmkid d /\ match pmkid d with Some p => Forall u8 p /\ PMKID_LEN * num_pmkid d <= zlen p | None => num_pmkid d = 0 end.

Definition total (k : rest) : Prop := forall data pos left, left = zlen pos -> Forall u8 pos -> pm_ok data ->
  exists r d, k data pos left = Ok (r, d) /\ pm_ok d.

Lemma zlen_drop {A} n (l : list A) : 0 <= n <= zlen l -> zlen (drop (Z.to_nat n) l) = zlen l - n.
Proof. unfold zlen. rewrite length_drop. lia. Qed.

Lemma selector_in pos : 4 <= zlen pos -> exists v, RSN_SELECTOR_GET pos = Ok v.
Proof. intros H. destruct (slice_in pos 0 4) as (m & E & _); [lia..|]. unfold RSN_SELECTOR_GET. rewrite E. cbn [res_bind]. eauto. Qed.

(** A function of the suite at the pointer. *)
Definition by_suite (f : list Z -> res Z) : Prop := forall pos, 4 <= zlen pos -> exists v, f pos = Ok v.

Lemma suite_total f n : by_suite f -> forall pos acc, 4 * Z.of_nat n <= zlen pos -> exists v, suite_loop f n pos acc = Ok v.
Proof.
  intros Hf. induction n as [|n IH]; intros pos acc Hl; [by eexists|]. cbn [suite_loop]. destruct (Hf pos) as [v ->]; [lia|]. cbn [res_bind].
  apply IH. change (drop 4 pos) with (drop (Z.to_nat 4) pos). rewrite zlen_drop by lia. lia.
Qed.

Lemma total_suites f set botch short k : by_suite f -> (forall v d, pm_ok d -> pm_ok (set v d)) -> total k -> total (parse_suites f set botch short k).
Proof.
  intros Hf Hs Hk data pos left -> Hu Hd. unfold parse_suites. pose proof (zlen_nonneg pos). case_bool_decide as E2.
  2: { case_bool_decide; [by eexists _, _|by apply Hk]. }
  destruct (rd_le_in pos 0 2) as (count & Ec & Hc); [lia..|]. specialize (Hc Hu). rewrite Ec. cbn [res_bind].
  case_bool_decide as E; [eexists _, _; split; [done|by apply Hs]|]. unfold RSN_SELECTOR_LEN in E. rewrite Z.quot_div_nonneg in E by lia.
  assert (4 * count <= zlen pos - 2) as Hl by (assert (count <= (zlen pos - 2) / 4) by lia; pose proof (Z.mul_div_le (zlen pos - 2) 4); lia).
  assert (zlen (drop 2 pos) = zlen pos - 2) as Hd2 by (change (drop 2 pos) with (drop (Z.to_nat 2) pos); apply zlen_drop; lia).
  destruct (suite_total f (Z.to_nat count) Hf (drop 2 pos) 0) as [v ->]; [lia|]. cbn [res_bind].
  apply Hk; [rewrite zlen_drop; lia|by apply Forall_drop, Forall_drop|by apply Hs, Hs].
Qed.

Lemma total_capabilities k : total k -> total (parse_capabilities k).
Proof.
  intros Hk data pos left -> Hu Hd. unfold parse_capabilities. case_bool_decide as E; [|by apply Hk].
  destruct (rd_le_in pos 0 2) as (v & -> & _); [lia..|]. cbn [res_bind]. apply Hk; [|by apply Forall_drop|done].
  change (drop 2 pos) with (drop (Z.to_nat 2) pos). rewrite zlen_drop; lia.
Qed.

Lemma total_pmkids : total parse_pmkids.
Proof.
  intros data pos left -> Hu Hd. unfold parse_pmkids. case_bool_decide as E; [|by eexists _, _].
  destruct (rd_le_in pos 0 2) as (v & -> & Hv); [lia..|]. specialize (Hv Hu). cbn [res_bind]. case_bool_decide as E2; [by eexists _, _|].
  eexists _, _. split; [done|]. split; [cbn [num_pmkid set_pmkids]; lia|]. cbn [pmkid num_pmkid set_pmkids]. split; [by apply Forall_drop|].
  change (drop 2 pos) with (drop (Z.to_nat 2) pos). unfold PMKID_LEN in *. rewrite zlen_drop by lia. rewrite Z.quot_div_nonneg in E2 by lia.
  pose proof (Z.mul_div_le (zlen pos - 2) 16). lia.
Qed.

Lemma by_selector g : by_suite (fun s => let! v := RSN_SELECTOR_GET s in Ok (g v)).
Proof. intros pos H. destruct (selector_in pos H) as [v ->]. cbn [res_bind]. eauto. Qed.

Lemma total_group (f : list Z -> res Z) (k : rest) (bad : Z -> bool) : by_suite f -> total k ->
  total (fun data pos left =>
    if bool_decide (left >= RSN_SELECTOR_LEN) then
      let! group := f pos in
      let data := set_group_cipher group data in
      if bad group then Ok (-1, data) else k data (drop 4 pos) (left - RSN_SELECTOR_LEN)
    else if bool_decide (left > 0) then Ok (-3, data)
    else k data pos left).
Proof.
  intros Hf Hk data pos left -> Hu Hd. unfold RSN_SELECTOR_LEN. case_bool_decide; [|case_bool_decide; [by eexists _, _|by apply Hk]].
  destruct (Hf pos) as [v ->]; [lia|]. cbn [res_bind]. destruct (bad v); [by eexists _, _|]. apply Hk; [|by apply Forall_drop|done].
  change (drop 4 pos) with (drop (Z.to_nat 4) pos). rewrite zlen_drop; lia.
Qed.

Lemma total_rsn : total parse_rsn_fields.
Proof.
  apply (total_group _ _ (fun g => negb (wpa_cipher_valid_group g))); [apply by_selector|].
  apply total_suites; [apply by_selector|done|]. apply total_suites; [apply by_selector|done|]. apply total_capabilities, total_pmkids.
Qed.

Lemma total_wpa : total parse_wpa_fields.
Proof.
  apply (total_group _ _ (fun _ => false)); [apply by_selector|].
  apply total_suites; [apply by_selector|done|]. apply total_suites; [apply by_selector|done|]. apply total_capabilities.
  intros data pos left _ _ Hd. by eexists _, _.
Qed.

Lemma rsn_total l : Forall u8 l -> exists r d, wpa_parse_wpa_ie_rsn l (zlen l) = Ok (r, d) /\ pm_ok d.
Proof.
  intros Hu. unfold wpa_parse_wpa_ie_rsn. case_bool_decide; [by eexists _, _|].
  destruct (rd_in l 1) as (n & -> & _); [lia|]. destruct (rd_in l 0) as (i & -> & _); [lia|]. destruct (rd_le_in l 2 2) as (v & -> & _); [lia..|].
  cbn [res_bind]. assert (forall n, 0 <= n <= zlen l -> zlen (drop (Z.to_nat n) l) = zlen l - n) as Hd by (intros; by apply zlen_drop).
  destruct (bool_decide_reflect (zlen l >= 6 /\ n >= 4 /\ n = zlen l - 2)).
  - destruct (selector_in (drop 2 l)) as [o ->]; [change (drop 2 l) with (drop (Z.to_nat 2) l); rewrite Hd; lia|]. cbn [res_bind]. case_bool_decide.
    + apply total_rsn; [change (drop 6 l) with (drop (Z.to_nat 6) l); rewrite Hd; lia|by apply Forall_drop|done].
    + case_bool_decide; [by eexists _, _|]. apply total_rsn; [change (drop 4 l) with (drop (Z.to_nat 4) l); rewrite Hd; lia|by apply Forall_drop|done].
  - cbn [res_bind]. case_bool_decide; [by eexists _, _|]. apply total_rsn; [change (drop 4 l) with (drop (Z.to_nat 4) l); rewrite Hd; lia|by apply Forall_drop|done].
Qed.

Lemma wpa_total l : Forall u8 l -> exists r d, wpa_parse_wpa_ie_wpa l (zlen l) = Ok (r, d) /\ pm_ok d.
Proof.
  intros Hu. unfold wpa_parse_wpa_ie_wpa. case_bool_decide; [by eexists _, _|].
  destruct (rd_in l 1) as (n & -> & _); [lia|]. destruct (rd_in l 0) as (i & -> & _); [lia|]. destruct (rd_le_in l 6 2) as (v & -> & _); [lia..|].
  destruct (selector_in (drop 2 l)) as [o ->]; [change (drop 2 l) with (drop (Z.to_nat 2) l); rewrite zlen_drop; lia|].
  cbn [res_bind]. case_bool_decide; [by eexists _, _|].
  apply total_wpa; [change (drop 8 l) with (drop (Z.to_nat 8) l); rewrite zlen_drop; lia|by apply Forall_drop|done].
Qed.

(** ** Operations that only call the environment *)

(** [m] returns, changes the log alone, and [Q] holds of the answers of the environment
    and the result. *)
Definition logs {A} (m : M world A) (Q : (nat -> call -> Z) -> A -> Prop) : Prop :=
  forall w, exists a cs, m w = Ok (a, with_log cs w) /\ Q (onum (wenv w)) a.

Lemma with_log_onum cs w : onum (wenv (with_log cs w)) = onum (wenv w).
Proof. apply logged_all_onum. Qed.

Lemma logs_ret {A} (a : A) (Q : (nat -> call -> Z) -> A -> Prop) : (forall o, Q o a) -> logs (ret a) Q.
Proof. intros H w. exists a, []. rewrite with_log_nil. by split. Qed.

Lemma logs_bind {A B} (m : M world A) (k : A -> M world B) P Q : logs m P ->
  (forall a, logs (k a) (fun o b => P o a -> Q o b)) -> logs (bind m k) Q.
Proof.
  intros Hm Hk w. destruct (Hm w) as (a & cs & E & HP). rewrite (bind_Ok _ _ _ _ _ E). destruct (Hk a (with_log cs w)) as (b & ds & E2 & HQ).
  exists b, (cs ++ ds). rewrite with_log_app. split; [done|]. rewrite with_log_onum in HQ. by apply HQ.
Qed.

Lemma logs_weaken {A} (m : M world A) P Q : logs m P -> (forall o a, P o a -> Q o a) -> logs m Q.
Proof. intros Hm H w. destruct (Hm w) as (a & cs & E & HP). exists a, cs. auto. Qed.

Lemma logs_read {A B} (r : res A) a (k : A -> M world B) Q : r = Ok a -> logs (k a) Q -> logs (bind (lift r) k) Q.
Proof. intros -> Hk w. rewrite (bind_Ok _ _ w a w) by done. apply Hk. Qed.

Lemma logs_ext c : logs (ext c) (fun o r => exists t, r = o t c).
Proof. intros w. eexists _, [c]. split; [apply ext_log|eauto]. Qed.

Lemma logs_call fn a : logs (hostapd fn a) (fun _ _ => True).
Proof. intros w. exists tt, [Hostapd (str fn) a]. done. Qed.

Lemma logs_own n addr : forall ids, PMKID_LEN * Z.of_nat n <= zlen ids -> logs (pmksa_own n addr ids) (fun _ _ => True).
Proof.
  unfold PMKID_LEN. induction n as [|n IH]; intros ids Hl; [by apply logs_ret|]. cbn [pmksa_own]. unfold PMKID_LEN.
  destruct (slice_in ids 0 16) as (m & E & _); [lia..|]. apply (logs_read _ m); [done|].
  eapply logs_bind; [apply logs_ext|]. intros r. case_bool_decide; [by apply logs_ret|]. eapply logs_weaken; [apply IH|done].
  change (drop 16 ids) with (drop (Z.to_nat 16) ids). rewrite zlen_drop; lia.
Qed.

Lemma logs_okc n own addr : forall ids, PMKID_LEN * Z.of_nat n <= zlen ids -> logs (pmksa_okc n own addr ids) (fun _ _ => True).
Proof.
  unfold PMKID_LEN. induction n as [|n IH]; intros ids Hl; [by apply logs_ret|]. cbn [pmksa_okc]. unfold PMKID_LEN.
  destruct (slice_in ids 0 16) as (m & E & _); [lia..|]. apply (logs_read _ m); [done|].
  eapply logs_bind; [apply logs_ext|]. intros r. case_bool_decide.
  - eapply logs_bind; [apply logs_ext|]. intros a. by apply logs_ret.
  - eapply logs_weaken; [apply IH|done]. change (drop 16 ids) with (drop (Z.to_nat 16) ids). rewrite zlen_drop; lia.
Qed.

Lemma logs_pmksa conf own addr d : pm_ok d -> logs (find_pmksa conf own addr d) (fun _ _ => True).
Proof.
  intros [H0 Hp]. unfold find_pmksa. assert (PMKID_LEN * Z.of_nat (Z.to_nat (num_pmkid d)) <= zlen (default [] (pmkid d))) as Hl.
  { rewrite Z2Nat.id by done. destruct (pmkid d); [apply Hp|]. rewrite Hp. done. }
  eapply logs_bind; [by apply logs_own|]. intros f1. eapply (logs_bind _ _ (fun _ _ => True)).
  - destruct f1; [by apply logs_ret|]. destruct (wc_okc conf); [|by apply logs_ret]. eapply logs_weaken; [by apply logs_okc|done].
  - intros [id|]; [|by apply logs_ret]. eapply logs_bind; [apply logs_call|]. intros []. by apply logs_ret.
Qed.

(** The copy fails only when memory does. *)
Definition memory (o : nat -> call -> Z) : Prop := forall t n, o t (Malloc n) <> 0.

Lemma logs_keep ie sm : logs (keep_ie ie sm) (fun o r =>
  (r = (WPA_IE_OK, set_sm_wpa_ie (Some ie) sm) \/ r = (WPA_ALLOC_FAIL, set_sm_wpa_ie None sm)) /\
  (memory o -> r = (WPA_IE_OK, set_sm_wpa_ie (Some ie) sm))).
Proof.
  unfold keep_ie. destruct (match sm_wpa_ie sm with None => true | Some old => bool_decide (zlen old < zlen ie) end); [|apply logs_ret; auto].
  eapply logs_bind; [apply logs_ext|]. intros r. cbv beta. case_bool_decide as E; apply logs_ret; intros o (t & Ht); [|auto].
  split; [auto|]. intros Hm. destruct (Hm t (zlen ie)). congruence.
Qed.

(** ** What is accepted *)

(** The key management of a configuration is of the kinds that the elements can name. *)
Definition key_mgmt_named (conf : wpa_auth_config) : Prop := Z.land (wc_key_mgmt conf) (mask rsn_put_key_mgmt) = wc_key_mgmt conf.

(** The ciphers that an element and a configuration share. *)
Definition common_ciphers (conf : wpa_auth_config) (version : Z) (d : wpa_ie_data) : Z :=
  Z.land (pairwise_cipher d) (if bool_decide (version = WPA_PROTO_RSN) then wc_rsn_pairwise conf else wc_wpa_pairwise conf).
Definition common_key_mgmt (conf : wpa_auth_config) (d : wpa_ie_data) : Z := Z.land (key_mgmt d) (wc_key_mgmt conf).

Definition strong_ciphers : list Z := [WPA_CIPHER_CCMP_256; WPA_CIPHER_GCMP_256; WPA_CIPHER_CCMP; WPA_CIPHER_GCMP; WPA_CIPHER_TKIP].

(** An element suits a configuration. *)
Record acceptable (conf : wpa_auth_config) (version : Z) (d : wpa_ie_data) : Prop := {
  ac_version : has (wc_wpa conf) version = true;
  ac_group : group_cipher d = wc_group conf;
  ac_key_mgmt : common_key_mgmt conf d <> 0;
  ac_pairwise : exists c, c ∈ strong_ciphers /\ has (common_ciphers conf version d) c = true }.

(** What the state machine holds of an element that was accepted: the first in the
    order of strength of what both sides can do, and the element. *)
Record chosen (conf : wpa_auth_config) (version : Z) (d : wpa_ie_data) (ie : list Z) (sm : wpa_state_machine) : Prop := {
  ch_version : sm_wpa sm = if bool_decide (version = WPA_PROTO_RSN) then WPA_VERSION_WPA2 else WPA_VERSION_WPA;
  ch_pairwise : exists stronger weaker, strong_ciphers = stronger ++ sm_pairwise sm :: weaker /\
    has (common_ciphers conf version d) (sm_pairwise sm) = true /\
    Forall (fun c => has (common_ciphers conf version d) c = false) stronger;
  ch_key_mgmt : sm_key_mgmt sm = pick_key_mgmt (common_key_mgmt conf d) /\
    (key_mgmt_named conf -> has (common_key_mgmt conf d) (sm_key_mgmt sm) = true);
  ch_ie : sm_wpa_ie sm = Some ie }.

Lemma pick_pairwise_spec c : (wpa_pick_pairwise_cipher c false = -1 /\ Forall (fun x => has c x = false) strong_ciphers) \/
  exists stronger weaker, strong_ciphers = stronger ++ wpa_pick_pairwise_cipher c false :: weaker /\
    has c (wpa_pick_pairwise_cipher c false) = true /\ Forall (fun x => has c x = false) stronger.
Proof.
  unfold wpa_pick_pairwise_cipher, strong_ciphers. cbn [andb].
  destruct (has c WPA_CIPHER_CCMP_256) eqn:E1; [right; by exists [], (drop 1 strong_ciphers)|].
  destruct (has c WPA_CIPHER_GCMP_256) eqn:E2; [right; exists (take 1 strong_ciphers), (drop 2 strong_ciphers); repeat constructor; done|].
  destruct (has c WPA_CIPHER_CCMP) eqn:E3; [right; exists (take 2 strong_ciphers), (drop 3 strong_ciphers); repeat constructor; done|].
  destruct (has c WPA_CIPHER_GCMP) eqn:E4; [right; exists (take 3 strong_ciphers), (drop 4 strong_ciphers); repeat constructor; done|].
  destruct (has c WPA_CIPHER_TKIP) eqn:E5; [right; exists (take 4 strong_ciphers), []; repeat constructor; done|].
  left. split; [done|]. repeat constructor; done.
Qed.

Lemma strong_positive c : c ∈ strong_ciphers -> 0 < c.
Proof. intros H. repeat (apply elem_of_cons in H as [->|H]; [by_check|]). inversion H. Qed.

(** A set of key management that the elements can name holds the one that is picked. *)
Lemma pick_key_mgmt_in m : Z.land m (mask rsn_put_key_mgmt) = m -> m <> 0 -> has m (pick_key_mgmt m) = true.
Proof.
  intros Hm H0. unfold pick_key_mgmt. destruct (has m WPA_KEY_MGMT_IEEE8021X_SUITE_B_192) eqn:E1; [done|].
  destruct (has m WPA_KEY_MGMT_IEEE8021X_SUITE_B) eqn:E2; [done|]. destruct (has m WPA_KEY_MGMT_IEEE8021X) eqn:E3; [done|].
  destruct (has m WPA_KEY_MGMT_PSK) eqn:E4; [done|]. destruct H0. rewrite <- Hm. cbn [mask foldr rsn_put_key_mgmt snd].
  rewrite !Z.land_lor_distr_r. unfold has in *. apply bool_decide_eq_false in E1, E2, E3, E4.
  rewrite (dec_stable E1), (dec_stable E2), (dec_stable E3), (dec_stable E4). now rewrite Z.land_0_r.
Qed.

(** Why an element that does not suit is refused. *)
Definition refusal (conf : wpa_auth_config) (d : wpa_ie_data) : Z :=
  if decide (group_cipher d <> wc_group conf) then WPA_INVALID_GROUP
  else if decide (common_key_mgmt conf d = 0) then WPA_INVALID_AKMP else WPA_INVALID_PAIRWISE.

Lemma judge_spec conf v d sm r sm' : has (wc_wpa conf) v = true -> wpa_judge conf v d sm = (r, sm') ->
  sm_wpa_ie sm' = sm_wpa_ie sm /\
  (r = WPA_IE_OK /\ acceptable conf v d /\ (forall ie found, chosen conf v d ie (set_sm_wpa_ie (Some ie) (set_sm_pmksa found sm')))
   \/ ~ acceptable conf v d /\ r = refusal conf d).
Proof.
  intros Hv E. unfold wpa_judge in E. fold (common_key_mgmt conf d) (common_ciphers conf v d) in E. unfold refusal.
  case_bool_decide as E1; [injection E as <- <-; split; [done|right]; rewrite decide_True by done; split; [|done]; by intros []|].
  rewrite (decide_False (P := group_cipher d <> wc_group conf)) by (intros H; exact (H E1)).
  case_bool_decide as E2; [injection E as <- <-; split; [done|right]; rewrite decide_True by done; split; [|done]; by intros []|].
  rewrite decide_False by done.
  assert (forall z, has 0 z = false) as Hz by (intros z; unfold has; now rewrite Z.land_0_l).
  case_bool_decide as E3.
  { injection E as <- <-. split; [done|right]. split; [|done]. intros [_ _ _ (c & _ & Hc)]. now rewrite E3, Hz in Hc. }
  cbn [sm_pairwise set_sm_pairwise] in E. destruct (pick_pairwise_spec (common_ciphers conf v d)) as [[Ep Hn]|(a & z & Es & Hc & Hf)].
  - rewrite Ep in E. injection E as <- <-. split; [done|right]. split; [|done]. intros [_ _ _ (c & Hin & Hc)].
    rewrite (proj1 (Forall_forall _ _) Hn c Hin) in Hc. done.
  - assert (wpa_pick_pairwise_cipher (common_ciphers conf v d) false ∈ strong_ciphers) as Hin by (rewrite Es; apply elem_of_app; right; by left).
    pose proof (strong_positive _ Hin). rewrite bool_decide_eq_false_2 in E by lia. injection E as <- <-. split; [done|left]. split; [done|]. split.
    + split; [done|done|done|eauto].
    + intros ie found. split; [done|by exists a, z| |done]. split; [done|]. intros Hk. apply pick_key_mgmt_in; [|done].
      unfold common_key_mgmt, key_mgmt_named in *. now rewrite <- Z.land_assoc, Hk.
Qed.

Lemma version_read ie : ie <> [] -> exists v, ie_version ie = Ok v /\ (v = WPA_PROTO_RSN \/ v = WPA_PROTO_WPA).
Proof. destruct ie as [|a ie]; [done|intros _]. eexists. split; [reflexivity|]. case_bool_decide; auto. Qed.

Lemma parse_read v ie : Forall u8 ie -> exists res d, parse_ie v ie = Ok (res, d) /\ pm_ok d.
Proof. intros Hu. unfold parse_ie. case_bool_decide; [by apply rsn_total|by apply wpa_total]. Qed.

(** What becomes of an element that is parsed as [res] and [d]. *)
Record judged (conf : wpa_auth_config) (v res : Z) (d : wpa_ie_data) (sm : wpa_state_machine) (ie : list Z)
    (o : nat -> call -> Z) (r : Z) (sm' : wpa_state_machine) : Prop := {
  jd_ok : r = WPA_IE_OK -> res = 0 /\ acceptable conf v d /\ chosen conf v d ie sm';
  jd_suits : res = 0 -> acceptable conf v d -> r = WPA_IE_OK \/ r = WPA_ALLOC_FAIL /\ ~ memory o;
  jd_proto : has (wc_wpa conf) v = false -> r = WPA_INVALID_PROTO /\ sm' = sm;
  jd_malformed : has (wc_wpa conf) v = true -> res <> 0 -> r = WPA_INVALID_IE /\ sm' = sm;
  jd_refused : has (wc_wpa conf) v = true -> res = 0 -> ~ acceptable conf v d -> r = refusal conf d;
  jd_kept : r <> WPA_IE_OK -> sm_wpa_ie sm' = sm_wpa_ie sm \/ r = WPA_ALLOC_FAIL /\ sm_wpa_ie sm' = None }.

Lemma logs_validate conf own addr sm ie : Forall u8 ie -> ie <> [] -> exists v res d, ie_version ie = Ok v /\ parse_ie v ie = Ok (res, d) /\
  logs (wpa_validate_wpa_ie conf own addr (Some sm) ie) (fun o r => exists sm', snd r = Some sm' /\ judged conf v res d sm ie o (fst r) sm').
Proof.
  intros Hu Hne. destruct (version_read ie Hne) as (v & Ev & _). destruct (parse_read v ie Hu) as (res & d & Ep & Hd). exists v, res, d. do 2 (split; [done|]).
  assert (forall r sm', r <> WPA_IE_OK -> sm' = sm -> (has (wc_wpa conf) v = false -> r = WPA_INVALID_PROTO) ->
    (has (wc_wpa conf) v = true -> res <> 0 /\ r = WPA_INVALID_IE) -> forall o, judged conf v res d sm ie o r sm') as Hno.
  { intros r sm' Hr -> H1 H2 o. split; [done|intros H0 [Hv _ _ _]; destruct (H2 Hv); contradiction|auto|intros Hv _; split; [apply H2, Hv|done]
      |intros Hv H0; destruct (H2 Hv); contradiction|auto]. }
  unfold wpa_validate_wpa_ie. rewrite bool_decide_eq_false_2 by (destruct ie; [done|]; rewrite zlen_cons; pose proof (zlen_nonneg ie); lia).
  apply (logs_read _ v); [done|]. destruct (has (wc_wpa conf) v) eqn:Eh; cbn [negb].
  2: { apply logs_ret. intros o. exists sm. split; [done|]. by apply Hno. }
  apply (logs_read _ (res, d)); [done|]. eapply logs_bind; [apply logs_call|]. intros []. case_bool_decide as Er.
  { apply logs_ret. intros o _. exists sm. split; [done|]. by apply Hno. }
  assert (res = 0) as -> by lia. destruct (wpa_judge conf v d sm) as [r sm1] eqn:Ej. destruct (judge_spec _ _ _ _ _ _ Eh Ej) as [Hie [(-> & Ha & Hc)|[Ha Hr]]].
  - rewrite bool_decide_eq_false_2 by (intros H; by apply H). eapply logs_bind; [by apply logs_pmksa|]. intros found. eapply logs_bind; [apply logs_keep|].
    intros [r sm2]. cbn [fst snd]. apply logs_ret. intros o [H1 H2] _ _. exists sm2. split; [done|].
    destruct H1 as [[= -> ->]|[= -> ->]]; split; cbn [fst]; try done; try congruence; auto.
    intros _ _. right. split; [done|]. intros Hm. by specialize (H2 Hm).
  - assert (r <> WPA_IE_OK) as Hne0 by (rewrite Hr; unfold refusal; repeat case_decide; done).
    rewrite bool_decide_eq_true_2 by done. apply logs_ret. intros o _. exists sm1. split; [done|]. split; cbn [fst]; try done; try congruence; auto.
Qed.

(** C8: [wpa_validate_wpa_ie] returns for every element and says what it means: an
    element is accepted exactly when it is well-formed, of an enabled version, and
    shares the group cipher, a key management and a pairwise cipher with the network
    (if there is memory for its copy); the state machine then holds the strongest of
    what both can do and the element.  Otherwise the answer names the first reason, and
    the old element is kept. *)
Theorem wpa_ie_judged (conf : wpa_auth_config) (own addr : list Z) (sm : wpa_state_machine) (ie : list Z) (w : world)
    (Hu : Forall u8 ie) (Hne : ie <> []) :
  exists v res d, ie_version ie = Ok v /\ parse_ie v ie = Ok (res, d) /\
  exists r sm' cs, wpa_validate_wpa_ie conf own addr (Some sm) ie w = Ok ((r, Some sm'), with_log cs w) /\
    judged conf v res d sm ie (onum (wenv w)) r sm'.
Proof.
  destruct (logs_validate conf own addr sm ie Hu Hne) as (v & res & d & Ev & Ep & Hl). exists v, res, d. do 2 (split; [done|]).
  destruct (Hl w) as ([r o] & cs & E & sm' & Hs & J). cbn [fst snd] in *. subst o. by exists r, sm', cs.
Qed.

(** ** The elements of a network are good *)

(** The body of the older element. *)
Lemma wpa_parts conf l : wpa_write_wpa_ie conf = Some l -> zlen l <= 36 /\ Forall u8 l /\
  wpa_cipher_put_suites (wc_wpa_pairwise conf) <> [] /\ put_suites wpa_put_key_mgmt (wc_key_mgmt conf) <> [] /\
  exists body, l = ie_bytes (WLAN_EID_VENDOR_SPECIFIC, body) /\
  body = be32 WPA_OUI_TYPE ++ le_bytes 2 WPA_VERSION ++ be32 (wpa_cipher_to_suite WPA_PROTO_WPA (wc_group conf))
    ++ counted (wpa_cipher_put_suites (wc_wpa_pairwise conf)) ++ counted (put_suites wpa_put_key_mgmt (wc_key_mgmt conf)).
Proof.
  intros Hw. unfold wpa_write_wpa_ie in Hw. destruct (_ || _) eqn:E; [done|].
  apply orb_false_iff in E as [[_ H1%bool_decide_eq_false]%orb_false_iff H2%bool_decide_eq_false].
  pose proof (put_length wpa_put_ciphers (wc_wpa_pairwise conf)) as L1. pose proof (put_length wpa_put_key_mgmt (wc_key_mgmt conf)) as L2.
  change (zlen wpa_put_ciphers) with 3 in L1. change (zlen wpa_put_key_mgmt) with 2 in L2.
  apply (inj Some) in Hw as <-. set (body := be32 WPA_OUI_TYPE ++ _).
  assert (zlen body = 4 + 2 + 4 + (2 + 4 * zlen (wpa_cipher_put_suites (wc_wpa_pairwise conf)))
    + (2 + 4 * zlen (put_suites wpa_put_key_mgmt (wc_key_mgmt conf)))) as Lb.
  { unfold body. rewrite !zlen_app, !zlen_counted, !zlen_le_bytes, !zlen_be32. lia. }
  assert (Forall u8 body) as Bu by (unfold body; rewrite !Forall_app; auto 10 using le_bytes_u8, be32_u8, counted_u8).
  unfold wpa_cipher_put_suites in *. pose proof (zlen_nonneg body). assert (zlen body <= 34) as B by lia.
  unfold element. rewrite uwrap_small by lia. split; [rewrite zlen_app; change (zlen [WLAN_EID_VENDOR_SPECIFIC; zlen body]) with 2; lia|].
  split; [apply Forall_cons_2; [unfold u8; by_check|]; apply Forall_cons_2; [unfold u8; lia|done]|]. split; [done|]. split; [done|]. by exists body.
Qed.

Lemma wpa_kind_vendor body r : body = be32 WPA_OUI_TYPE ++ r -> wpa_kind (WLAN_EID_VENDOR_SPECIFIC, body).
Proof.
  intros ->. right. unfold verdict_of. cbn [fst snd]. unfold classify, WLAN_EID_VENDOR_SPECIFIC, ieee802_11_parse_vendor_specific.
  pose proof (zlen_nonneg r). rewrite zlen_app, zlen_be32, bool_decide_eq_false_2 by lia. reflexivity.
Qed.

(** The elements that [wpa_auth_gen_wpa_ie] makes fit its buffer and are what
    beacons expect of them: whole elements of WPA of at most 128 bytes. *)
Theorem announced_elements (conf : wpa_auth_config) (Hc : wc_wpa conf <> WPA_PROTO_OSEN) :
  exists o, wpa_auth_gen_wpa_ie conf = Ok o /\
  forall buf, o = Some buf -> zlen buf <= 128 /\ exists l, buf = ies_bytes l /\ Forall ie_ok l /\ Forall wpa_kind l.
Proof.
  unfold wpa_auth_gen_wpa_ie. rewrite bool_decide_eq_false_2 by done. change (within 128 []) with (Ok (A := list Z) []). cbn [res_bind].
  assert (forall x l, x = l -> zlen x <= 128 -> within 128 x = Ok l) as Hin by (intros x l <- Hx; unfold within; by rewrite bool_decide_eq_true_2).
  assert (exists o, (if has (wc_wpa conf) WPA_PROTO_RSN then wpa_write_rsn_ie conf (128 - zlen (@nil Z)) None else Some []) = o /\
    forall l, o = Some l -> zlen l <= 54 /\ exists k, l = ies_bytes k /\ Forall ie_ok k /\ Forall wpa_kind k) as (o1 & -> & H1).
  { eexists. split; [reflexivity|]. intros l Hl. destruct (has _ _); [|injection Hl as <-; split; [done|]; exists []; repeat split; constructor].
    destruct (rsn_parts _ _ _ _ Hl) as (_ & _ & body & -> & _ & Hu & Hb & _); [by intros|]. specialize (Hb eq_refl). pose proof (zlen_nonneg body).
    split; [rewrite zlen_app; change (zlen [WLAN_EID_RSN; zlen body]) with 2; lia|]. exists [(WLAN_EID_RSN, body)].
    split; [unfold ies_bytes, ie_bytes; cbn [map concat fst snd]; by rewrite app_nil_r|]. split; apply Forall_singleton; [|by left].
    apply Forall_app in Hu as [_ Hu]. split; [unfold u8; by_check|]. split; [done|]. split; [done|]. cbn [snd]. lia. }
  destruct o1 as [rsn|]; [|by eexists]. destruct (H1 rsn eq_refl) as (L1 & k1 & E1 & O1 & W1). cbn [app].
  rewrite (Hin rsn rsn) by (done || lia). cbn [res_bind].
  assert (exists o, (if has (wc_wpa conf) WPA_PROTO_WPA then wpa_write_wpa_ie conf else Some []) = o /\
    forall l, o = Some l -> zlen l <= 36 /\ exists k, l = ies_bytes k /\ Forall ie_ok k /\ Forall wpa_kind k) as (o2 & -> & H2).
  { eexists. split; [reflexivity|]. intros l Hl. destruct (has _ _); [|injection Hl as <-; split; [done|]; exists []; repeat split; constructor].
    destruct (wpa_parts _ _ Hl) as (Lb & Hu & _ & _ & body & -> & Eb). split; [done|]. exists [(WLAN_EID_VENDOR_SPECIFIC, body)].
    split; [unfold ies_bytes; cbn [map concat]; by rewrite app_nil_r|]. split; apply Forall_singleton; [|by eapply wpa_kind_vendor].
    unfold ie_bytes in Hu, Lb. cbn [fst snd] in Hu, Lb. rewrite !zlen_cons in Lb.
    apply Forall_cons_1 in Hu as [_ Hu]. apply Forall_cons_1 in Hu as [_ Hu]. split; [unfold u8; by_check|]. split; [done|]. split; [done|]. cbn [snd]. lia. }
  destruct o2 as [wp|]; [|by eexists]. destruct (H2 wp eq_refl) as (L2 & k2 & E2 & O2 & W2).
  rewrite (Hin (rsn ++ wp) (rsn ++ wp)) by (rewrite ?zlen_app; done || lia). cbn [res_bind]. eexists. split; [done|]. intros buf [= <-].
  split; [rewrite zlen_app; lia|]. exists (k1 ++ k2). split; [by rewrite ies_app, E1, E2|]. split; by apply Forall_app.
Qed.

Lemma land_twice a m : Z.land (Z.land a m) a = Z.land a m.
Proof. now rewrite (Z.land_comm a m), <- Z.land_assoc, Z.land_diag. Qed.

Lemma written_suits conf len id l : has (wc_wpa conf) WPA_PROTO_RSN = true -> id_ok id -> wpa_write_rsn_ie conf len id = Some l ->
  (exists c, c ∈ strong_ciphers /\ has (wc_rsn_pairwise conf) c = true) -> acceptable conf WPA_PROTO_RSN (written_data conf id).
Proof.
  intros Hv Hid Hw (c & Hin & Hc). destruct (rsn_parts _ _ _ _ Hw Hid) as (_ & Hk & _). split; [done|done| |].
  - unfold common_key_mgmt. cbn [key_mgmt written_data]. rewrite land_twice. intros H0. apply Hk. by apply (put_none _ _ _ rsn_key_mgmt_ok).
  - exists c. split; [done|]. unfold common_ciphers. rewrite bool_decide_eq_true_2 by done. cbn [pairwise_cipher written_data]. rewrite land_twice.
    revert Hc. unfold has. rewrite <- Z.land_assoc.
    assert (Z.land (mask rsn_put_ciphers) c = c) as ->; [|done]. repeat (apply elem_of_cons in Hin as [->|Hin]; [done|]). inversion Hin.
Qed.

(** C24: a station that answers with an element like the one the network announces is
    accepted: what [wpa_write_rsn_ie] writes, with or without a PMKID, is read back as the
    configuration, and judged it gives the strongest cipher and key management of the
    network, WPA2, and the copy of the element. *)
Theorem own_element_accepted (conf : wpa_auth_config) (own addr : list Z) (sm : wpa_state_machine) (len : Z) (id : option (list Z))
    (l : list Z) (w : world) (Hv : has (wc_wpa conf) WPA_PROTO_RSN = true) (Hg : wpa_cipher_valid_group (wc_group conf) = true)
    (Hid : id_ok id) (Hw : wpa_write_rsn_ie conf len id = Some l) (Hc : exists c, c ∈ strong_ciphers /\ has (wc_rsn_pairwise conf) c = true)
    (Hm : memory (onum (wenv w))) :
  wpa_parse_wpa_ie_rsn l (zlen l) = Ok (0, written_data conf id) /\
  exists sm' cs, wpa_validate_wpa_ie conf own addr (Some sm) l w = Ok ((WPA_IE_OK, Some sm'), with_log cs w) /\
    chosen conf WPA_PROTO_RSN (written_data conf id) l sm'.
Proof.
  pose proof (rsn_reads_back _ _ _ _ Hg Hid Hw) as Ep. split; [done|]. destruct (rsn_parts _ _ _ _ Hw Hid) as (_ & _ & body & El & _ & Hu & _).
  destruct (logs_validate conf own addr sm l Hu) as (v & res & d & Ev & Ed & Hl); [by rewrite El|].
  assert (v = WPA_PROTO_RSN) as -> by (rewrite El in Ev; by injection Ev as <-).
  change (parse_ie WPA_PROTO_RSN l) with (wpa_parse_wpa_ie_rsn l (zlen l)) in Ed. rewrite Ep in Ed. injection Ed as <- <-.
  destruct (Hl w) as ([r o] & cs & E & sm' & Hs & J). cbn [fst snd] in *. subst o. exists sm', cs.
  pose proof (written_suits _ _ _ _ Hv Hid Hw Hc) as Ha. destruct (jd_suits _ _ _ _ _ _ _ _ _ J eq_refl Ha) as [->|[_ []]]; [|done].
  split; [done|]. by apply (jd_ok _ _ _ _ _ _ _ _ _ J).
Qed.

(** ** Concrete networks *)

(** WPA and WPA2 with a shared key, CCMP before TKIP. *)
Definition demo_wpa_conf : wpa_auth_config :=
  {| wc_wpa := 3; wc_key_mgmt := WPA_KEY_MGMT_PSK; wc_wpa_pairwise := WPA_CIPHER_TKIP; wc_group := WPA_CIPHER_TKIP;
     wc_rsn_pairwise := WPA_CIPHER_CCMP + WPA_CIPHER_TKIP; wc_rsn_preauth := false; wc_peerkey := false; wc_wmm_enabled := true; wc_okc := false |}.

Lemma announced_elements_witness : exists o, wpa_auth_gen_wpa_ie demo_wpa_conf = Ok o /\
  forall buf, o = Some buf -> zlen buf <= 128 /\ exists l, buf = ies_bytes l /\ Forall ie_ok l /\ Forall wpa_kind l.
Proof. apply announced_elements. done. Defined.

(** Every call answers 1. *)
Definition willing_env : env := mkEnv (fun _ _ => 1) (fun _ _ => None) [].

(** The element of a station that uses CCMP and a shared key in a network with the
    group cipher of this suite: 2 is TKIP, 4 CCMP. *)
Definition demo_rsn (group : Z) : list Z :=
  [48; 20; 1; 0; 0; 0x0f; 0xac; group; 1; 0; 0; 0x0f; 0xac; 4; 1; 0; 0; 0x0f; 0xac; 2; 0; 0].

Lemma wpa_ie_judged_witness : exists sm1 sm2 w1 w2,
  wpa_validate_wpa_ie demo_wpa_conf [2; 1; 2; 3; 4; 5] [4; 1; 2; 3; 4; 5] (Some (mkWpaSm 0 0 0 None false)) (demo_rsn 2) (demo_world willing_env)
    = Ok ((WPA_IE_OK, Some sm1), w1) /\ sm_pairwise sm1 = WPA_CIPHER_CCMP /\ sm_key_mgmt sm1 = WPA_KEY_MGMT_PSK /\
  wpa_validate_wpa_ie demo_wpa_conf [2; 1; 2; 3; 4; 5] [4; 1; 2; 3; 4; 5] (Some sm1) (demo_rsn 4) (demo_world willing_env)
    = Ok ((WPA_INVALID_GROUP, Some sm2), w2) /\ sm_wpa_ie sm2 = Some (demo_rsn 2).
Proof.
  assert (forall g, u8 g -> Forall u8 (demo_rsn g)) as Hu.
  { intros g Hg. unfold demo_rsn. repeat (apply Forall_cons_2; [first [exact Hg|unfold u8; by_check]|]). constructor. }
  destruct (wpa_ie_judged demo_wpa_conf [2; 1; 2; 3; 4; 5] [4; 1; 2; 3; 4; 5] (mkWpaSm 0 0 0 None false) (demo_rsn 2) (demo_world willing_env))
    as (v & res & d & Ev & Ep & r & sm1 & cs & E & J); [apply Hu; unfold u8; by_check|done|].
  assert ((v, (res, d)) = (WPA_PROTO_RSN, (0, mkIeData 2 16 8 2 0 0 None 0))) as [= -> -> ->].
  { assert (ie_version (demo_rsn 2) = Ok WPA_PROTO_RSN) as Ev2 by reflexivity. rewrite Ev in Ev2. injection Ev2 as ->.
    assert (parse_ie WPA_PROTO_RSN (demo_rsn 2) = Ok (0, mkIeData 2 16 8 2 0 0 None 0)) as Ep2 by reflexivity. rewrite Ep in Ep2. now injection Ep2 as -> ->. }
  assert (Ok (r, Some sm1) = Ok (A := Z * option wpa_state_machine) (WPA_IE_OK, Some (mkWpaSm 2 2 16 (Some (demo_rsn 2)) false))) as [= -> ->].
  { apply (f_equal (fun x => match x with Ok (a, _) => Ok a | Ub u => Ub u end)) in E. cbv beta iota in E. rewrite <- E. vm_compute. reflexivity. }
  eexists _, (mkWpaSm 2 2 16 (Some (demo_rsn 2)) false), _, _. split; [exact E|]. split; [reflexivity|]. split; [reflexivity|]. split; [|reflexivity].
  vm_compute. reflexivity.
Defined.

(** The element of the network itself, with a PMKID. *)
Definition demo_written : list Z := default [] (wpa_write_rsn_ie demo_wpa_conf 128 (Some (replicate 16 7))).

Lemma own_element_accepted_witness : exists sm' cs,
  wpa_validate_wpa_ie demo_wpa_conf [2; 1; 2; 3; 4; 5] [4; 1; 2; 3; 4; 5] (Some (mkWpaSm 0 0 0 None false)) demo_written (demo_world willing_env)
    = Ok ((WPA_IE_OK, Some sm'), with_log cs (demo_world willing_env)) /\ sm_wpa_ie sm' = Some demo_written.
Proof.
  destruct (own_element_accepted demo_wpa_conf [2; 1; 2; 3; 4; 5] [4; 1; 2; 3; 4; 5] (mkWpaSm 0 0 0 None false) 128 (Some (replicate 16 7))
    demo_written (demo_world willing_env) eq_refl eq_refl) as (_ & sm' & cs & E & [_ _ _ H]).
  - intros x [= <-]. split; [reflexivity|]. unfold u8. by_check.
  - reflexivity.
  - exists WPA_CIPHER_CCMP. split; [by_check|reflexivity].
  - intros t n. discriminate.
  - exists sm', cs. split; [exact E|exact H].
Defined.
