(* ===== verification/Handler.v ===== *)
(** * Commands of the controller: parsing, handlers and the receive thread of
    [fnii_roam.c]

    A pointer into the receive buffer is the rest of the buffer from there on.
    [myprint("%s", p)] reads its argument up to the first 0 and is modelled by
    that read ([log_str]). *)

From stdpp Require Import base list numbers gmap strings.
From Stdlib Require Import ZArith Lia.
From S2P Require Import Prelude CString Dense Env Survey World Messages Station.
Local Open Scope Z_scope.

Definition FNII_ADD_VAP_MIN_LEN : Z := 31.
Definition FNII_DEL_VAP_MIN_LEN : Z := 28.

Definition log_str (p : option (list Z)) : res unit :=
  match p with
  | None => Ub NullDeref
  | Some s => let! _ := strlen s in Ok tt
  end.

(** [atoi] of [n] bytes copied into a zeroed buffer. *)
Definition field_num (off n : Z) (buf : list Z) : res Z :=
  let! t := slice off n buf in Ok (atoi (t ++ [0])).

(** [fnii_get_mac(mac, buf + off)]: six bytes of two characters each. *)
Fixpoint get_mac_loop (n : nat) (off : Z) (buf : list Z) : res (list Z) :=
  match n with
  | O => Ok []
  | S n' =>
      let! two := slice off 2 buf in
      let! rest := get_mac_loop n' (off + 2) buf in
      Ok (uwrap 8 (strtol 16 (two ++ [0])) :: rest)
  end.
Definition fnii_get_mac (off : Z) (buf : list Z) : res (list Z) := get_mac_loop 6 off buf.

(** The loop over [iface->bss]: the first network whose name starts with the
    [n] bytes of [name]. *)
Fixpoint find_ssid (bs : list hostapd_data) (name : list Z) (n : Z) (i : nat)
  : res (option (nat * hostapd_data)) :=
  match bs with
  | [] => Ok None
  | b :: bs' =>
      let! eq := memeq name (ssid b) n in
      if eq then Ok (Some (i, b)) else find_ssid bs' name n (S i)
  end.

(** The part the three handlers share: [None] when they return an error, or the
    BSS and the command.  [bssid] is what [cmd_info.bssid] holds before the
    loop: [None] when it was never assigned. *)
Definition vap_target (bssid : option (list Z)) (ty : Z) (msg_buf : list Z) (bs : list hostapd_data)
  : res (option (nat * cmd_msg_s)) :=
  let! mac := fnii_get_mac 2 msg_buf in
  let! n := field_num 31 2 msg_buf in
  let ssid_len := swrap 8 n in
  if bool_decide (ssid_len > SSID_LEN - 1) then Ok None
  else
    let! src := slice 33 (uwrap 32 ssid_len) msg_buf in
    let! name := splice 0 src (zeros SSID_LEN) in
    let! found := find_ssid bs name (uwrap 32 ssid_len) 0 in
    match found, bssid with
    | Some (i, b), _ =>
        let! b0 := rd (own_addr b) 0 in
        let! b5 := rd (own_addr b) 5 in
        if bool_decide (b0 = 0 /\ b5 = 0) then Ok None
        else Ok (Some (i, mkCmd ty (own_addr b) mac))
    | None, None => Ub UninitRead
    | None, Some a =>
        let! b0 := rd a 0 in
        let! b5 := rd a 5 in
        if bool_decide (b0 = 0 /\ b5 = 0) then Ok None
        else Ok (Some (pred (length bs), mkCmd ty a mac))
    end.

(** [fnii_dense_station_add], [_del] on the global table. *)
Definition dense_add (addr : cmd_msg_s) : M world Z :=
  w <-- get ;;
  let ok := bool_decide (onum (wenv w) (length (trace (wenv w))) (Malloc 16) <> 0) in
  r <-- lift (fnii_dense_station_add ok (Some addr) (g_dense_station_hash (fn w))) ;;
  (if bool_decide (fst r = FNII_RET_OK) then ext_ (Malloc 16) else ret tt) ;;;
  modify (upd_fn (set_g_dense_station_hash (snd r))) ;;;
  ret (fst r).

Definition dense_del (addr : cmd_msg_s) : M world Z :=
  w <-- get ;;
  r <-- lift (fnii_dense_station_del (Some addr) (g_dense_station_hash (fn w))) ;;
  modify (upd_fn (set_g_dense_station_hash (snd r))) ;;;
  ret (fst r).

Definition fnii_handle_add_vap (pdata : bool) (msg_buf : option (list Z)) (msg_buf_len : Z) : M world Z :=
  lift (log_str msg_buf) ;;;
  match msg_buf with
  | None => ret FNII_RET_ERR
  | Some m =>
      if bool_decide (msg_buf_len < FNII_ADD_VAP_MIN_LEN) || negb pdata then ret FNII_RET_ERR
      else
        w <-- get ;;
        t <-- lift (vap_target None NEW_IF m (bss (ifc w))) ;;
        match t with
        | None => ret FNII_RET_ERR
        | Some (_, cmd_info) => dense_add cmd_info
        end
  end.

Definition fnii_handle_del_vap (pdata : bool) (msg_buf : option (list Z)) (msg_buf_len : Z) : M world Z :=
  match msg_buf with
  | None => ret FNII_RET_ERR
  | Some m =>
      if bool_decide (msg_buf_len < FNII_DEL_VAP_MIN_LEN) || negb pdata then ret FNII_RET_ERR
      else
        lift (log_str msg_buf) ;;;
        w <-- get ;;
        t <-- lift (vap_target (Some (zeros ETH_ALEN)) DEL_IF m (bss (ifc w))) ;;
        match t with
        | None => ret FNII_RET_ERR
        | Some (i, cmd_info) =>
            r <-- dense_del cmd_info ;;
            ieee802_11_del_station_of_vap (Some i) (Some (stamac cmd_info)) ;;;
            ret r
        end
  end.

Definition fnii_handle_offline_vap (pdata : bool) (msg_buf : option (list Z)) (msg_buf_len : Z) : M world Z :=
  match msg_buf with
  | None => ret FNII_RET_ERR
  | Some m =>
      if bool_decide (msg_buf_len < FNII_DEL_VAP_MIN_LEN) || negb pdata then ret FNII_RET_ERR
      else
        lift (log_str msg_buf) ;;;
        w <-- get ;;
        t <-- lift (vap_target (Some (zeros ETH_ALEN)) DEL_IF m (bss (ifc w))) ;;
        match t with
        | None => ret FNII_RET_ERR
        | Some (i, cmd_info) =>
            ieee802_11_del_offline (Some i) (Some (stamac cmd_info)) ;;;
            ret FNII_RET_OK
        end
  end.

Definition fnii_handle_beat (cseq : Z) : M world Z :=
  w <-- get ;;
  if bool_decide (Z.rem (beat_cseq (fn w)) 9999 <> cseq) then ret FNII_RET_ERR
  else modify (upd_fn (set_beat_status BEAT_LIVE)) ;;; ret FNII_RET_OK.

(** [fnii_parse_msg]: a wrong length is logged and otherwise ignored. *)
Definition fnii_parse_msg (pdata : bool) (msg_buf : option (list Z)) (msg_buf_len : Z) : M world Z :=
  match msg_buf with
  | None => ret FNII_RET_ERR
  | Some m =>
      if bool_decide (msg_buf_len < MSG_MIN_LEN) then ret FNII_RET_ERR
      else
        cseq <-- lift (field_num 0 4 m) ;;
        ty <-- lift (field_num 4 3 m) ;;
        let msg_tpye := swrap 8 ty in
        field_len <-- lift (field_num 7 3 m) ;;
        let body := Some (drop 10 m) in
        if bool_decide (msg_tpye = FNII_MSG_ADD_VAP) then fnii_handle_add_vap pdata body field_len
        else if bool_decide (msg_tpye = FNII_MSG_DEL_VAP) then fnii_handle_del_vap pdata body field_len
        else if bool_decide (msg_tpye = FNII_MSG_OFFLINE_VAP) then fnii_handle_offline_vap pdata body field_len
        else if bool_decide (msg_tpye = FNII_MSG_HEART_BEAT) then fnii_handle_beat cseq
        else ret FNII_RET_ERR
  end.

(** ** The receive thread *)

(** Its local variables: the buffer of [2 * 68] bytes and the offset of
    [msg_alig] in it. *)
Record rx : Type := mkRx { msg_buf : list Z; msg_alig : Z }.

(** The rest of the buffer from an offset on. *)
Definition from (off : Z) (buf : list Z) : res (list Z) := slice off (zlen buf - off) buf.

(** The answer to one message. *)
Definition answer (pdata : bool) (m : list Z) (len : Z) : M world unit :=
  r <-- fnii_parse_msg pdata (Some m) len ;;
  (if bool_decide (r = FNII_RET_OK) then fnii_send_msg FNII_MSG_OK (Some (DStr m))
   else fnii_send_msg FNII_MSG_ERR (Some (DStr m))) ;;;
  ret tt.

(** The inner [while(1)]: complete messages at [alig]. *)
Fixpoint rx_loop (fuel : nat) (pdata : bool) (buf : list Z) (alig msg_len : Z) : M world (Z * Z) :=
  match fuel with
  | O => fail OutOfFuel
  | S f =>
      if bool_decide (msg_len < 10) then ret (alig, msg_len)
      else
        msg_sg_len <-- lift (field_num (alig + 7) 3 buf) ;;
        if bool_decide (msg_sg_len > msg_len - 10) then ret (alig, msg_len)
        else
          m <-- lift (from alig buf) ;;
          answer pdata m (msg_sg_len + 11) ;;;
          rx_loop f pdata buf (alig + (msg_sg_len + 11)) (msg_len - (msg_sg_len + 11))
  end.

(** One turn of the outer [while(1)]. *)
Definition rx_turn (fuel : nat) (pdata : bool) (l : rx) : M world rx :=
  status <-- fnii_check_socket_status ;;
  if bool_decide (status <> SOCKET_STATUS_ENABLE) then
    ext_ (Sleep 10) ;;; ret (mkRx (msg_buf l) MSG_VIF_INFO_MAX_LEN)
  else
    buf <-- lift (splice MSG_VIF_INFO_MAX_LEN (zeros MSG_VIF_INFO_MAX_LEN) (msg_buf l)) ;;
    w <-- get ;;
    r <-- ext_bytes (Recv (fnii_master_socket (fn w)) MSG_VIF_INFO_MAX_LEN) ;;
    match r with
    | None | Some [] =>
        status <-- fnii_check_socket_status ;;
        (if bool_decide (status = SOCKET_STATUS_ENABLE) then drop_link else ret tt) ;;;
        ret (mkRx buf (msg_alig l))
    | Some data =>
        let data := take (Z.to_nat MSG_VIF_INFO_MAX_LEN) data in
        buf <-- lift (splice MSG_VIF_INFO_MAX_LEN data buf) ;;
        let msg_len := zlen data + (MSG_VIF_INFO_MAX_LEN - msg_alig l) in
        (if bool_decide (MSG_VIF_INFO_MAX_LEN <> msg_alig l)
         then m <-- lift (from (msg_alig l) buf) ;; lift (log_str (Some m)) else ret tt) ;;;
        p <-- rx_loop fuel pdata buf (msg_alig l) msg_len ;;
        let '(_, residual) := p in
        let alig := MSG_VIF_INFO_MAX_LEN - residual in
        src <-- lift (slice (MSG_VIF_INFO_MAX_LEN * 2 - residual) (uwrap 32 residual) buf) ;;
        buf <-- lift (splice alig src buf) ;;
        ret (mkRx buf alig)
    end.

(** ** Commands as the controller means them *)

(** The payload of the three commands about a station: its address, the address
    of an AP (not used), three characters for the mode and the network. *)
Record vap_cmd : Type := mkVap { vc_sta : list Z; vc_ap : list Z; vc_mode : list Z; vc_ssid : list Z }.

Definition vap_payload (v : vap_cmd) : list Z :=
  field (fmt_mac (vc_sta v)) ++ field (vc_ap v) ++ vc_mode v ++ field (vc_ssid v).

Definition vap_ok (v : vap_cmd) : Prop :=
  mac_ok (vc_sta v) /\ length (vc_ap v) = 12%nat /\ length (vc_mode v) = 3%nat /\ zlen (vc_ssid v) <= 31.

Inductive command : Type :=
| CAdd (v : vap_cmd)
| CDel (v : vap_cmd)
| COffline (v : vap_cmd)
| CBeat.

Definition cmd_ty (c : command) : Z :=
  match c with
  | CAdd _ => FNII_MSG_ADD_VAP | CDel _ => FNII_MSG_DEL_VAP
  | COffline _ => FNII_MSG_OFFLINE_VAP | CBeat => FNII_MSG_HEART_BEAT
  end.

Definition cmd_payload (c : command) : list Z :=
  match c with CAdd v | CDel v | COffline v => vap_payload v | CBeat => [] end.

Definition cmd_ok (c : command) : Prop :=
  match c with CAdd v | CDel v | COffline v => vap_ok v | CBeat => True end.

(** A command with its identifier, and its frame on the wire. *)
Definition request : Type := Z * command.
Definition req_ok (r : request) : Prop := 0 <= fst r <= 9999 /\ cmd_ok (snd r).
Definition req_frame (r : request) : list Z :=
  frame (fmt_d 4 (fst r)) (cmd_ty (snd r)) (cmd_payload (snd r)).

(** The network a name selects: the first whose name begins with it. *)
Fixpoint net_of (bs : list hostapd_data) (name : list Z) (i : nat) : option (nat * hostapd_data) :=
  match bs with
  | [] => None
  | b :: bs' => if bool_decide (take (length name) (ssid b) = name) then Some (i, b)
                else net_of bs' name (S i)
  end.

(** An address that the handlers take for no address. *)
Definition null_addr (a : list Z) : bool := bool_decide (nth 0 a 0 = 0 /\ nth 5 a 0 = 0).

(** What a command does. *)
Definition cmd_effect (r : request) : M world Z :=
  match snd r with
  | CAdd v =>
      w <-- get ;;
      match net_of (bss (ifc w)) (vc_ssid v) 0 with
      | None => fail UninitRead
      | Some (i, b) => if null_addr (own_addr b) then ret FNII_RET_ERR
                       else dense_add (mkCmd NEW_IF (own_addr b) (vc_sta v))
      end
  | CDel v =>
      w <-- get ;;
      match net_of (bss (ifc w)) (vc_ssid v) 0 with
      | None => ret FNII_RET_ERR
      | Some (i, b) =>
          if null_addr (own_addr b) then ret FNII_RET_ERR
          else r <-- dense_del (mkCmd DEL_IF (own_addr b) (vc_sta v)) ;;
               ieee802_11_del_station_of_vap (Some i) (Some (vc_sta v)) ;;; ret r
      end
  | COffline v =>
      w <-- get ;;
      match net_of (bss (ifc w)) (vc_ssid v) 0 with
      | None => ret FNII_RET_ERR
      | Some (i, b) =>
          if null_addr (own_addr b) then ret FNII_RET_ERR
          else ieee802_11_del_offline (Some i) (Some (vc_sta v)) ;;; ret FNII_RET_OK
      end
  | CBeat => fnii_handle_beat (fst r)
  end.

(** The BSSs' names and addresses are arrays of 32 and 6 bytes. *)
Definition nets_ok (w : world) : Prop :=
  Forall (fun b => length (ssid b) = 32%nat /\ length (own_addr b) = 6%nat) (bss (ifc w)).

(** ** Reading a frame *)

Lemma get_mac_loop_run (pre m rest : list Z) off : off = zlen pre -> Forall u8 m ->
  get_mac_loop (length m) off (pre ++ fmt_mac m ++ rest) = Ok m.
Proof.
  intros -> HF. revert pre. induction HF as [|b m Hb HF IH]; intros pre; [done|].
  simpl get_mac_loop. unfold fmt_mac in *. simpl concat. rewrite <- app_assoc.
  pose proof (fmt_x2_length b Hb) as L2.
  rewrite (slice_mid pre (fmt_x 2 b)) by (unfold zlen; lia || done). simpl res_bind.
  replace (zlen pre + 2) with (zlen (pre ++ fmt_x 2 b)) by (rewrite zlen_app; unfold zlen; lia).
  rewrite (app_assoc pre), IH. simpl. rewrite strtol_fmt_x2 by done.
  rewrite uwrap_small by (unfold u8 in Hb; lia). done.
Qed.

Lemma field_num_run (pre rest : list Z) (k : nat) z off n :
  off = zlen pre -> (1 <= k)%nat -> 0 <= z < 10 ^ Z.of_nat k -> z < 2 ^ 31 -> n = Z.of_nat k ->
  field_num off n (pre ++ fmt_d k z ++ rest) = Ok z.
Proof.
  intros -> Hk Hz H31 ->. unfold field_num.
  rewrite (slice_mid pre (fmt_d k z)) by (rewrite ?zlen_fmt_d; done || lia). simpl.
  f_equal. apply atoi_fmt_d; [lia|]. reflexivity.
Qed.

Lemma memeq_prefix (name s : list Z) m : zlen name <= 32 -> length s = 32%nat -> 0 <= m ->
  memeq (name ++ zeros m) s (zlen name) = Ok (bool_decide (take (length name) s = name)).
Proof.
  intros Hn Hs Hm. unfold memeq.
  assert (slice 0 (zlen name) (name ++ zeros m) = Ok name) as -> by now apply (slice_mid [] name).
  unfold slice. rewrite (bool_decide_eq_true_2 (0 <= 0 /\ _)) by (unfold zlen in *; lia).
  simpl res_bind. rewrite drop_0. unfold zlen. rewrite Nat2Z.id. f_equal.
  apply bool_decide_ext. split; congruence.
Qed.

Lemma find_ssid_run bs name i m : zlen name <= 32 -> 0 <= m ->
  Forall (fun b => length (ssid b) = 32%nat /\ length (own_addr b) = 6%nat) bs ->
  find_ssid bs (name ++ zeros m) (zlen name) i = Ok (net_of bs name i).
Proof.
  intros Hn Hm HF. revert i. induction HF as [|b bs [Hs _] HF IH]; intros i; [done|].
  simpl. rewrite memeq_prefix by done. simpl. destruct (bool_decide _); [done|]. apply IH.
Qed.

Lemma net_of_lookup bs name i j b : net_of bs name i = Some (j, b) -> b ∈ bs /\ (i <= j)%nat /\
  bs !! (j - i)%nat = Some b.
Proof.
  revert i. induction bs as [|c bs IH]; intros i H; simpl in H; [discriminate|].
  case_bool_decide.
  - injection H as <- <-. split; [constructor|]. rewrite Nat.sub_diag. auto.
  - destruct (IH _ H) as (H1 & H2 & H3). split; [now constructor|]. split; [lia|].
    replace (j - i)%nat with (S (j - S i)) by lia. done.
Qed.

Lemma rd_nth (l : list Z) k : (k < length l)%nat -> rd l (Z.of_nat k) = Ok (nth k l 0).
Proof.
  intros H. apply rd_Some; [lia|]. rewrite Nat2Z.id.
  destruct (lookup_lt_is_Some_2 l k H) as [x Hx]. rewrite Hx. f_equal.
  symmetry. now apply nth_lookup_Some with (d := 0) in Hx.
Qed.

(** The payload in its parts, with the offsets the handlers use. *)
Lemma vap_payload_parts v : vap_ok v ->
  exists p1 p2 : list Z, zlen p1 = 2 /\ zlen p2 = 31 /\
    (forall rest, vap_payload v ++ rest = p1 ++ fmt_mac (vc_sta v) ++ (field (vc_ap v) ++ vc_mode v
        ++ field (vc_ssid v) ++ rest)) /\
    (forall rest, vap_payload v ++ rest = p2 ++ fmt_d 2 (zlen (vc_ssid v)) ++ (vc_ssid v ++ rest)) /\
    zlen (vap_payload v) = 33 + zlen (vc_ssid v).
Proof.
  intros (Hm & Ha & H3 & Hs). pose proof (zlen_nonneg (vc_ssid v)) as H0.
  assert (zlen (vc_ap v) = 12) as Hza by (unfold zlen; lia).
  assert (zlen (vc_mode v) = 3) as Hz3 by (unfold zlen; lia).
  pose proof (zlen_mac _ Hm) as Hzm.
  exists (str "12"), (field (fmt_mac (vc_sta v)) ++ field (vc_ap v) ++ vc_mode v).
  split; [done|]. split; [|split; [|split]].
  - rewrite !zlen_app, !zlen_field by lia. lia.
  - intros rest. unfold vap_payload. rewrite field_12 by done. rewrite <- !app_assoc. done.
  - intros rest. unfold vap_payload. unfold field at 3. rewrite <- !app_assoc. done.
  - unfold vap_payload. rewrite !zlen_app, !zlen_field by lia. lia.
Qed.

Lemma vap_target_run bssid ty v rest bs : vap_ok v ->
  Forall (fun b => length (ssid b) = 32%nat /\ length (own_addr b) = 6%nat) bs ->
  (bssid = None \/ bssid = Some (zeros ETH_ALEN)) ->
  vap_target bssid ty (vap_payload v ++ rest) bs
  = match net_of bs (vc_ssid v) 0 with
    | Some (i, b) => Ok (if null_addr (own_addr b) then None
                         else Some (i, mkCmd ty (own_addr b) (vc_sta v)))
    | None => match bssid with None => Ub UninitRead | Some _ => Ok None end
    end.
Proof.
  intros Hv HF Hinit. destruct (vap_payload_parts v Hv) as (p1 & p2 & L1 & L2 & E1 & E2 & _).
  destruct Hv as ([L6 H8] & _ & _ & Hs). pose proof (zlen_nonneg (vc_ssid v)) as H0.
  assert (fnii_get_mac 2 (vap_payload v ++ rest) = Ok (vc_sta v)) as Emac.
  { unfold fnii_get_mac. rewrite E1, <- L6. now apply get_mac_loop_run. }
  assert (field_num 31 2 (vap_payload v ++ rest) = Ok (zlen (vc_ssid v))) as Elen
    by (rewrite E2; apply (field_num_run p2 _ 2); simpl; done || lia).
  assert (slice 33 (zlen (vc_ssid v)) (vap_payload v ++ rest) = Ok (vc_ssid v)) as Esrc.
  { rewrite E2, app_assoc. apply slice_mid; [|done].
    rewrite zlen_app, L2, (zlen_fmt_d 2) by (simpl; lia). done. }
  assert (splice 0 (vc_ssid v) (zeros SSID_LEN) = Ok (vc_ssid v ++ zeros (32 - zlen (vc_ssid v)))) as Ename.
  { replace (zeros SSID_LEN) with ([] ++ zeros (zlen (vc_ssid v)) ++ zeros (32 - zlen (vc_ssid v))).
    - apply (splice_mid [] (zeros (zlen (vc_ssid v)))); [done|].
      unfold zeros, zlen. rewrite length_replicate. lia.
    - simpl. unfold zeros, SSID_LEN. rewrite <- replicate_add. f_equal. lia. }
  unfold vap_target. rewrite Emac, Elen. simpl res_bind. rewrite swrap_small by (simpl; lia).
  rewrite bool_decide_eq_false_2 by (unfold SSID_LEN; lia). rewrite uwrap_small by lia.
  rewrite Esrc. simpl res_bind. rewrite Ename. simpl res_bind.
  rewrite find_ssid_run by (done || lia). simpl res_bind.
  destruct (net_of bs (vc_ssid v) 0) as [[i b]|] eqn:En.
  - apply net_of_lookup in En as [Hb _]. rewrite Forall_forall in HF. destruct (HF b Hb) as [_ La].
    rewrite (rd_nth _ 0), (rd_nth _ 5) by lia. simpl. unfold null_addr.
    destruct (bool_decide _); done.
  - destruct Hinit as [-> | ->]; reflexivity.
Qed.

Lemma strlen_Ok s : 0 ∈ s -> exists n, strlen s = Ok n.
Proof. intros H. rewrite strlen_cstr by done. eauto. Qed.

Lemma log_str_Ok s : 0 ∈ s -> log_str (Some s) = Ok tt.
Proof. intros H. unfold log_str. rewrite strlen_cstr by done. done. Qed.

Lemma cmd_payload_len c : cmd_ok c -> 0 <= zlen (cmd_payload c) <= 64 /\
  (c <> CBeat -> 33 <= zlen (cmd_payload c)).
Proof.
  destruct c as [v|v|v|]; simpl; intros H; [..|done];
    destruct (vap_payload_parts v H) as (_ & _ & _ & _ & _ & _ & ->);
    destruct H as (_ & _ & _ & H); pose proof (zlen_nonneg (vc_ssid v)); lia.
Qed.

(** A frame is read back: identifier, type, length and payload. *)
Lemma frame_parts id ty payload rest :
  0 <= id <= 9999 -> 0 <= ty < 1000 -> zlen payload < 1000 ->
  let f := frame (fmt_d 4 id) ty payload ++ rest in
  field_num 0 4 f = Ok id /\ field_num 4 3 f = Ok ty /\ field_num 7 3 f = Ok (zlen payload) /\
  drop 10 f = payload ++ [59] ++ rest /\ zlen (frame (fmt_d 4 id) ty payload) = zlen payload + 11.
Proof.
  intros Hid Hty Hp. pose proof (zlen_nonneg payload) as H0.
  assert (zlen (fmt_d 4 id) = 4) as L4 by (apply (zlen_fmt_d 4); [lia|simpl; lia]).
  assert (zlen (fmt_d 3 ty) = 3) as L3 by (apply (zlen_fmt_d 3); [lia|simpl; lia]).
  assert (zlen (fmt_d 3 (zlen payload)) = 3) as L3' by (apply (zlen_fmt_d 3); [lia|simpl; lia]).
  unfold frame. cbv zeta. rewrite <- !app_assoc. split; [|split; [|split; [|split]]].
  - apply (field_num_run [] _ 4); simpl; done || lia.
  - apply (field_num_run (fmt_d 4 id) _ 3); simpl; done || lia.
  - rewrite (app_assoc (fmt_d 4 id)). apply (field_num_run _ _ 3); simpl; try done || lia.
    rewrite zlen_app. lia.
  - rewrite !(app_assoc (fmt_d 4 id)), (app_assoc (_ ++ fmt_d 3 ty)).
    apply drop_app_length'. rewrite !length_app. unfold zlen in L4, L3.
    apply Nat2Z.inj. rewrite !Nat2Z.inj_add. unfold zlen at 1 in L3'. lia.
  - rewrite !zlen_app, L4, L3, L3'. change (zlen [59]) with 1. lia.
Qed.

(** ** What handling a command does not touch: the interface and its networks *)

Lemma get_ap_au_ifc mode : keeps ifc (get_ap_au mode).
Proof. intros w a w' E. rewrite (get_ap_au_env _ _ _ _ E). done. Qed.

Lemma send_buf_ifc buf n : keeps ifc (send_buf buf n).
Proof. unfold send_buf. keeps_tac idtac. Qed.

Lemma send_dispatch_ifc ty d : keeps ifc (send_dispatch ty d).
Proof.
  unfold send_dispatch.
  repeat (destruct (bool_decide _); [destruct d; keeps_tac idtac; try apply keeps_fail|]);
    [..|apply keeps_ret].
  all: unfold fnii_send_msg_ok, fnii_send_msg_err, fnii_send_msg_flow_info, fnii_send_msg_del_sta,
    fnii_send_msg_inerface_all, fnii_send_msg_if_info, fnii_send_msg_new_sta, fnii_send_msg_probe_info,
    fnii_send_msg_local_mac, fnii_send_msg_beat, fnii_send_msg_update_station.
  all: keeps_tac ltac:(first [apply send_buf_ifc | apply get_ap_au_ifc]).
Qed.

Lemma fnii_send_msg_ifc ty d : keeps ifc (fnii_send_msg ty d).
Proof.
  unfold fnii_send_msg, fnii_check_socket_status, drop_link, fnii_set_socket_status.
  keeps_tac ltac:(apply send_dispatch_ifc).
Qed.

Lemma find_chain_ifc c a : keeps ifc (find_chain c a).
Proof. induction c; simpl; unfold get_sta; keeps_tac ltac:(assumption). Qed.

Lemma kick_ifc i p a : keeps ifc (kick i p a).
Proof.
  unfold kick, hostapd_drv_sta_disassoc, ap_sta_disassociate, ap_sta_unauthorize, retimer, get_bss,
    upd_sta, get_sta. keeps_tac idtac.
Qed.

Lemma cmd_effect_ifc r : keeps ifc (cmd_effect r).
Proof.
  unfold cmd_effect, dense_add, dense_del, ieee802_11_del_station_of_vap, ieee802_11_del_offline,
    ap_get_sta, hostapd_drv_sta_only_disassoc, get_bss, fnii_handle_beat.
  keeps_tac ltac:(first [apply find_chain_ifc | apply kick_ifc]).
Qed.

(** ** Serving a request *)

(** The command, then the reply with the identifier of the request. *)
Definition serve (r : request) : M world unit :=
  x <-- cmd_effect r ;;
  fnii_send_msg (if bool_decide (x = FNII_RET_OK) then FNII_MSG_OK else FNII_MSG_ERR)
    (Some (DStr (fmt_d 4 (fst r)))) ;;;
  ret tt.

Fixpoint serve_all (rs : list request) : M world unit :=
  match rs with
  | [] => ret tt
  | r :: rs' => serve r ;;; serve_all rs'
  end.

Lemma serve_ifc r : keeps ifc (serve r).
Proof. unfold serve. keeps_tac ltac:(first [apply cmd_effect_ifc | apply fnii_send_msg_ifc]). Qed.

Lemma cmd_ty_range c : 100 <= cmd_ty c <= 117.
Proof.
  destruct c; simpl; unfold FNII_MSG_ADD_VAP, FNII_MSG_DEL_VAP, FNII_MSG_OFFLINE_VAP,
    FNII_MSG_HEART_BEAT; lia.
Qed.

Section Handlers.
Context (w : world) (id : Z) (v : vap_cmd) (rest : list Z) (n : Z).
Context (Hv : vap_ok v) (Hn : nets_ok w) (Hlog : 0 ∈ vap_payload v ++ rest) (Hl : 33 <= n).

Lemma add_vap_run : fnii_handle_add_vap true (Some (vap_payload v ++ rest)) n w = cmd_effect (id, CAdd v) w.
Proof using Hv Hn Hlog Hl.
  unfold fnii_handle_add_vap, bind, lift. rewrite log_str_Ok by done.
  rewrite bool_decide_eq_false_2 by (unfold FNII_ADD_VAP_MIN_LEN; lia). cbn [orb negb].
  unfold get. rewrite vap_target_run by auto. unfold cmd_effect, bind, get. cbn [snd].
  destruct (net_of _ _ _) as [[i b]|]; [|done]. destruct (null_addr _); done.
Qed.

Lemma del_vap_run : fnii_handle_del_vap true (Some (vap_payload v ++ rest)) n w = cmd_effect (id, CDel v) w.
Proof using Hv Hn Hlog Hl.
  unfold fnii_handle_del_vap. rewrite bool_decide_eq_false_2 by (unfold FNII_DEL_VAP_MIN_LEN; lia).
  cbn [orb negb]. unfold bind, lift. rewrite log_str_Ok by done.
  unfold get. rewrite vap_target_run by auto. unfold cmd_effect, bind, get. cbn [snd].
  destruct (net_of _ _ _) as [[i b]|]; [|done]. destruct (null_addr _); done.
Qed.

Lemma offline_vap_run :
  fnii_handle_offline_vap true (Some (vap_payload v ++ rest)) n w = cmd_effect (id, COffline v) w.
Proof using Hv Hn Hlog Hl.
  unfold fnii_handle_offline_vap. rewrite bool_decide_eq_false_2 by (unfold FNII_DEL_VAP_MIN_LEN; lia).
  cbn [orb negb]. unfold bind, lift. rewrite log_str_Ok by done.
  unfold get. rewrite vap_target_run by auto. unfold cmd_effect, bind, get. cbn [snd].
  destruct (net_of _ _ _) as [[i b]|]; [|done]. destruct (null_addr _); done.
Qed.
End Handlers.

Lemma parse_request (w : world) r rest n : req_ok r -> nets_ok w -> 0 ∈ rest -> 10 <= n ->
  fnii_parse_msg true (Some (req_frame r ++ rest)) n w = cmd_effect r w.
Proof.
  intros [Hid Hc] Hn H0 Hl. destruct r as [id c]. simpl in Hid, Hc.
  pose proof (cmd_ty_range c) as Hty. destruct (cmd_payload_len c Hc) as [Hp Hp'].
  destruct (frame_parts id (cmd_ty c) (cmd_payload c) rest) as (E1 & E2 & E3 & E4 & _); [lia..|].
  unfold fnii_parse_msg.
  change (req_frame (id, c)) with (frame (fmt_d 4 id) (cmd_ty c) (cmd_payload c)).
  rewrite bool_decide_eq_false_2 by (unfold MSG_MIN_LEN; lia).
  unfold lift. rewrite E1, E2, E3, E4.
  rewrite (bind_Ok _ _ w id w), (bind_Ok _ _ w (cmd_ty c) w) by done. cbv zeta.
  rewrite (bind_Ok _ _ w (zlen (cmd_payload c)) w) by done.
  rewrite swrap_small by (simpl; lia).
  assert (0 ∈ cmd_payload c ++ [59] ++ rest) as Hlog by (rewrite !elem_of_app; auto).
  destruct c as [v|v|v|]; [| | |reflexivity]; simpl cmd_payload in *; specialize (Hp' ltac:(done)).
  - now apply add_vap_run.
  - apply del_vap_run; try done; lia.
  - apply offline_vap_run; try done; lia.
Qed.

(** A reply uses only the first four bytes of what it is given. *)
Lemma reply_prefix (w : world) ty s t : (ty = FNII_MSG_OK \/ ty = FNII_MSG_ERR) ->
  slice 0 4 s = slice 0 4 t -> fnii_send_msg ty (Some (DStr s)) w = fnii_send_msg ty (Some (DStr t)) w.
Proof.
  intros Hty E.
  assert (send_dispatch ty (DStr s) = send_dispatch ty (DStr t)) as Ed.
  { destruct Hty as [-> | ->].
    - change (fnii_send_msg_ok s = fnii_send_msg_ok t). unfold fnii_send_msg_ok. now rewrite E.
    - change (fnii_send_msg_err s = fnii_send_msg_err t). unfold fnii_send_msg_err. now rewrite E. }
  unfold fnii_send_msg. now rewrite Ed.
Qed.

Lemma answer_request (w : world) r rest n : req_ok r -> nets_ok w -> 0 ∈ rest -> 10 <= n ->
  answer true (req_frame r ++ rest) n w = serve r w.
Proof.
  intros Hr Hn H0 Hl. unfold answer, serve, bind at 1. rewrite parse_request by done.
  unfold bind at 2. destruct (cmd_effect r w) as [[x w']|]; [|done].
  assert (slice 0 4 (req_frame r ++ rest) = slice 0 4 (fmt_d 4 (fst r))) as E.
  { destruct Hr as [Hid _].
    assert (4 = zlen (fmt_d 4 (fst r))) as L4 by (symmetry; apply (zlen_fmt_d 4); [lia|simpl; lia]).
    unfold req_frame, frame. rewrite <- !app_assoc.
    transitivity (Ok (fmt_d 4 (fst r))); [now apply (slice_mid [] (fmt_d 4 (fst r)))|].
    rewrite <- (app_nil_r (fmt_d 4 (fst r))) at 2. symmetry. now apply (slice_mid [] (fmt_d 4 (fst r)) []). }
  destruct (bool_decide _); unfold bind.
  - now rewrite (reply_prefix w' FNII_MSG_OK _ _ (or_introl eq_refl) E).
  - now rewrite (reply_prefix w' FNII_MSG_ERR _ _ (or_intror eq_refl) E).
Qed.

(** ** The receive loop *)

Definition stream (rs : list request) : list Z := concat (map req_frame rs).

Lemma req_frame_len r : req_ok r -> zlen (req_frame r) = zlen (cmd_payload (snd r)) + 11.
Proof.
  intros [Hid Hc]. destruct (cmd_payload_len _ Hc) as [Hp _]. pose proof (cmd_ty_range (snd r)).
  now destruct (frame_parts (fst r) (cmd_ty (snd r)) (cmd_payload (snd r)) []) as (_ & _ & _ & _ & E); [lia..|].
Qed.

Lemma from_app (pre l : list Z) off : off = zlen pre -> from off (pre ++ l) = Ok l.
Proof.
  intros ->. unfold from. rewrite <- (app_nil_r l) at 2. apply slice_mid; [done|].
  rewrite zlen_app. lia.
Qed.

Lemma nets_ok_serve w r w' : serve r w = Ok (tt, w') -> nets_ok w -> nets_ok w'.
Proof. intros H. unfold nets_ok. now rewrite (serve_ifc r _ _ _ H). Qed.

(** Whole frames in the buffer, followed by at least one 0: each is served, in
    order, and nothing is left. *)
Lemma rx_loop_run rs : forall (w : world) fuel pre m,
  (length rs < fuel)%nat -> Forall req_ok rs -> nets_ok w -> 1 <= m ->
  rx_loop fuel true (pre ++ stream rs ++ zeros m) (zlen pre) (zlen (stream rs)) w
  = (serve_all rs ;;; ret (zlen pre + zlen (stream rs), 0)) w.
Proof.
  induction rs as [|r rs IH]; intros w fuel pre m Hf HF Hn Hm; (destruct fuel as [|fuel]; [simpl in Hf; lia|]).
  - simpl. change (zlen (stream [])) with 0. rewrite Z.add_0_r. done.
  - apply Forall_cons_1 in HF as [Hr HF].
    assert (stream (r :: rs) = req_frame r ++ stream rs) as Es by done.
    pose proof (req_frame_len r Hr) as Lr. pose proof (zlen_nonneg (stream rs)) as L0.
    destruct (Hr) as [Hid Hc]. destruct (cmd_payload_len _ Hc) as [Hp _]. pose proof (cmd_ty_range (snd r)).
    assert (zlen (stream (r :: rs)) = zlen (cmd_payload (snd r)) + 11 + zlen (stream rs)) as Ls
      by (rewrite Es, zlen_app; lia).
    cbn [rx_loop]. rewrite bool_decide_eq_false_2 by lia.
    rewrite (bind_Ok _ _ w (zlen (cmd_payload (snd r))) w).
    2: { unfold lift. rewrite Es, <- app_assoc.
         unfold req_frame at 1, frame at 1. rewrite <- !app_assoc.
         rewrite !(app_assoc pre), !(app_assoc (pre ++ fmt_d 4 (fst r))).
         rewrite (field_num_run _ _ 3); [done| |lia|simpl; lia|lia|done].
         rewrite !zlen_app, (zlen_fmt_d 4), (zlen_fmt_d 3) by (simpl; lia). lia. }
    rewrite bool_decide_eq_false_2 by lia.
    rewrite (bind_Ok _ _ w (stream (r :: rs) ++ zeros m) w) by (unfold lift; now rewrite from_app).
    rewrite Es, <- app_assoc. unfold bind at 1.
    rewrite answer_request by (try done; try lia; rewrite elem_of_app; right; unfold zeros;
      replace (Z.to_nat m) with (S (Z.to_nat (m - 1))) by lia; constructor).
    simpl serve_all. rewrite bind_assoc. unfold bind at 1.
    destruct (serve r w) as [[[] w']|] eqn:Esv; [|done].
    replace (zlen pre + (zlen (cmd_payload (snd r)) + 11)) with (zlen (pre ++ req_frame r))
      by (rewrite zlen_app; lia).
    replace (zlen (req_frame r ++ stream rs) - (zlen (cmd_payload (snd r)) + 11)) with (zlen (stream rs))
      by (rewrite zlen_app; lia).
    rewrite (app_assoc pre). rewrite IH; [|simpl in Hf; lia|done|eapply nets_ok_serve; eauto|done].
    unfold bind. destruct (serve_all rs w') as [[? ?]|]; [|done].
    unfold ret. rewrite !zlen_app. do 3 f_equal. lia.
Qed.

Definition after_recv (w : world) : world :=
  put_env (logged (Recv (fnii_master_socket (fn w)) MSG_VIF_INFO_MAX_LEN) (wenv w)) w.
Definition recv_answer (w : world) : option (list Z) :=
  obytes (wenv w) (length (trace (wenv w))) (Recv (fnii_master_socket (fn w)) MSG_VIF_INFO_MAX_LEN).

(** The part of a turn after [recv] returned [data]: [lo] is the lower half of
    the buffer, whose last [68 - alig] bytes are the residual. *)
Definition rx_rest (fuel : nat) (lo data : list Z) (alig : Z) : M world rx :=
  let buf := lo ++ data ++ zeros (68 - zlen data) in
  (if bool_decide (68 <> alig)
   then m <-- lift (from alig buf) ;; lift (log_str (Some m)) else ret tt) ;;;
  p <-- rx_loop fuel true buf alig (zlen data + (68 - alig)) ;;
  let '(_, residual) := p in
  src <-- lift (slice (136 - residual) (uwrap 32 residual) buf) ;;
  buf <-- lift (splice (68 - residual) src buf) ;;
  ret (mkRx buf (68 - residual)).

Lemma rx_turn_run fuel (w : world) (l : rx) lo hi data :
  fnii_socket_status (fn w) = SOCKET_STATUS_ENABLE -> msg_buf l = lo ++ hi ->
  zlen lo = 68 -> zlen hi = 68 -> recv_answer w = Some data -> data <> [] -> zlen data <= 68 ->
  rx_turn fuel true l w = rx_rest fuel lo data (msg_alig l) (after_recv w).
Proof.
  intros Hst El Hlo Hhi Hr Hne Hd. unfold rx_turn, fnii_check_socket_status.
  rewrite bind_assoc, (bind_Ok _ _ w w w), bind_ret_l by done.
  rewrite bool_decide_eq_false_2 by (rewrite Hst; intros H; now apply H).
  unfold MSG_VIF_INFO_MAX_LEN in *.
  rewrite (bind_Ok _ _ w (lo ++ zeros 68) w).
  2: { unfold lift. rewrite El, <- (app_nil_r hi).
       rewrite (splice_mid lo hi [] (zeros 68)); [now rewrite app_nil_r|lia|].
       unfold zlen in Hhi. unfold zeros. rewrite length_replicate. lia. }
  rewrite (bind_Ok _ _ w w w) by done.
  rewrite (bind_Ok _ _ w (Some data) (after_recv w)) by
    (rewrite <- Hr; reflexivity).
  destruct data as [|d data']; [done|]. set (data := d :: data') in *.
  rewrite (take_ge data) by (unfold zlen in Hd; lia).
  rewrite (bind_Ok _ _ (after_recv w) (lo ++ data ++ zeros (68 - zlen data)) (after_recv w)).
  2: { unfold lift. pose proof (zlen_nonneg data).
       replace (zeros 68) with (zeros (zlen data) ++ zeros (68 - zlen data))
         by (unfold zeros; rewrite <- replicate_add; f_equal; lia).
       rewrite splice_mid; [done|lia|]. unfold zeros, zlen. rewrite length_replicate. lia. }
  reflexivity.
Qed.

(** With nothing left over, the buffer stays as it is. *)
Lemma rx_end_empty (buf : list Z) (w : world) : zlen buf = 136 ->
  (src <-- lift (slice (136 - 0) (uwrap 32 0) buf) ;;
   buf <-- lift (splice (68 - 0) src buf) ;; ret (mkRx buf (68 - 0))) w = Ok (mkRx buf 68, w).
Proof.
  intros Hl. change (uwrap 32 0) with 0. rewrite !Z.sub_0_r.
  rewrite (bind_Ok _ _ w [] w).
  2: { unfold lift, slice. now rewrite bool_decide_eq_true_2 by lia. }
  rewrite (bind_Ok _ _ w buf w).
  2: { unfold lift, splice. rewrite bool_decide_eq_true_2 by (change (zlen []) with 0; lia).
       change (Z.to_nat 68 + length [])%nat with (Z.to_nat 68). rewrite app_nil_l, take_drop. done. }
  done.
Qed.

Lemma zlen_buf lo data : zlen lo = 68 -> zlen data <= 68 -> zlen (lo ++ data ++ zeros (68 - zlen data)) = 136.
Proof. intros H1 H2. rewrite !zlen_app, zlen_zeros by lia. lia. Qed.

Lemma serve_all_nets rs : forall w w', serve_all rs w = Ok (tt, w') -> nets_ok w -> nets_ok w'.
Proof.
  induction rs as [|r rs IH]; intros w w' H Hn; [now injection H as <-|].
  simpl in H. inv_bind H. destruct a. eapply IH; [exact H|]. eapply nets_ok_serve; eauto.
Qed.

Lemma receive_run (w : world) (l : rx) (rs : list request) (fuel : nat)
    (Hst : fnii_socket_status (fn w) = SOCKET_STATUS_ENABLE)
    (Hbuf : length (msg_buf l) = 136%nat) (Hal : msg_alig l = 68)
    (Hrs : rs <> []) (HF : Forall req_ok rs) (Hn : nets_ok w)
    (Hrecv : recv_answer w = Some (stream rs)) (Hlen : zlen (stream rs) < 68)
    (Hfuel : (length rs < fuel)%nat) :
  exists buf', length buf' = 136%nat /\
    rx_turn fuel true l w = (serve_all rs ;;; ret (mkRx buf' 68)) (after_recv w).
Proof.
  assert (zlen (take 68 (msg_buf l)) = 68) as Hlo by (unfold zlen; rewrite length_take; lia).
  assert (stream rs <> []) as Hne.
  { destruct rs as [|r rs]; [done|]. apply Forall_cons_1 in HF as [Hr _].
    apply req_frame_len in Hr as Lr. destruct Hr as [_ Hc]. destruct (cmd_payload_len _ Hc) as [Hp _].
    unfold stream. simpl. intros E. apply app_eq_nil in E as [E _]. rewrite E, zlen_nil in Lr. lia. }
  set (lo := take 68 (msg_buf l)) in *. pose proof (zlen_buf lo (stream rs) Hlo ltac:(lia)) as Lb.
  exists (lo ++ stream rs ++ zeros (68 - zlen (stream rs))).
  split; [apply Nat2Z.inj; exact Lb|].
  rewrite (rx_turn_run fuel w l lo (drop 68 (msg_buf l)) (stream rs)); try done; [| | |lia].
  2: { unfold lo. now rewrite take_drop. }
  2: { unfold zlen. rewrite length_drop. lia. }
  unfold rx_rest. rewrite Hal. change (bool_decide (68 <> 68)) with false. cbv zeta.
  rewrite (bind_Ok _ _ (after_recv w) tt (after_recv w)) by done.
  pose proof (rx_loop_run rs (after_recv w) fuel lo (68 - zlen (stream rs)) Hfuel HF Hn ltac:(lia)) as Hloop.
  rewrite Hlo in Hloop. rewrite Z.sub_diag, Z.add_0_r. unfold bind at 1. rewrite Hloop.
  unfold bind. destruct (serve_all rs (after_recv w)) as [[[] w']|]; [|done].
  exact (rx_end_empty _ w' Lb).
Qed.

(** C28: when [recv] returns whole frames (fewer than 68 bytes) and nothing was
    left over, the receive thread serves exactly these requests in their
    order: each command is carried out and answered with OK or ERR under its
    own identifier, before the next one; the buffer is empty again afterwards. *)
Theorem receive_whole_frames (w : world) (l : rx) (rs : list request) (fuel : nat)
    (Hst : fnii_socket_status (fn w) = SOCKET_STATUS_ENABLE)
    (Hbuf : length (msg_buf l) = 136%nat) (Hal : msg_alig l = 68)
    (Hrs : rs <> []) (HF : Forall req_ok rs) (Hn : nets_ok w)
    (Hrecv : recv_answer w = Some (stream rs)) (Hlen : zlen (stream rs) < 68)
    (Hfuel : (length rs < fuel)%nat) :
  exists buf', length buf' = 136%nat /\
    rx_turn fuel true l w = (serve_all rs ;;; ret (mkRx buf' 68)) (after_recv w).
Proof. now apply receive_run. Qed.

Lemma zeros_slice k n (pre : list Z) m : zlen pre <= k -> 0 <= n -> k + n <= zlen pre + m -> 0 <= m ->
  slice k n (pre ++ zeros m) = Ok (zeros n).
Proof.
  intros H1 H2 H3 H4. pose proof (zlen_nonneg pre).
  replace (pre ++ zeros m) with ((pre ++ zeros (k - zlen pre)) ++ zeros n ++ zeros (zlen pre + m - k - n)).
  - apply slice_mid; [|now rewrite zlen_zeros]. rewrite zlen_app, zlen_zeros by lia. lia.
  - rewrite <- app_assoc. f_equal. unfold zeros. rewrite <- !replicate_add. f_equal. lia.
Qed.

(** A frame that arrives in pieces.  When [recv] returns a beginning of a
    frame that is shorter than 10 bytes, the bytes kept for the next turn are
    zeros, not the bytes received: the residual is copied from the end of the
    buffer, where it is only when [recv] filled it. *)
Theorem short_read_loses_bytes (w : world) (l : rx) (data : list Z) (fuel : nat)
    (Hst : fnii_socket_status (fn w) = SOCKET_STATUS_ENABLE)
    (Hbuf : length (msg_buf l) = 136%nat) (Hal : msg_alig l = 68)
    (Hrecv : recv_answer w = Some data) (Hlen : 1 <= zlen data < 10) :
  exists buf', rx_turn (S fuel) true l w = Ok (mkRx buf' (68 - zlen data), after_recv w) /\
    slice (68 - zlen data) (zlen data) buf' = Ok (zeros (zlen data)).
Proof.
  assert (zlen (take 68 (msg_buf l)) = 68) as Hlo by (unfold zlen; rewrite length_take; lia).
  set (lo := take 68 (msg_buf l)) in *. set (n := zlen data) in *.
  rewrite (rx_turn_run (S fuel) w l lo (drop 68 (msg_buf l)) data); try done.
  2: { unfold lo. now rewrite take_drop. }
  2: { unfold zlen. rewrite length_drop. lia. }
  2: { intros ->. unfold n in Hlen. rewrite zlen_nil in Hlen. lia. }
  2: lia.
  unfold rx_rest. fold n. rewrite Hal. change (bool_decide (68 <> 68)) with false. cbv zeta.
  rewrite (bind_Ok _ _ (after_recv w) tt (after_recv w)) by done.
  rewrite Z.sub_diag, Z.add_0_r. cbn [rx_loop]. rewrite (bool_decide_eq_true_2 (n < 10)) by lia.
  rewrite (bind_Ok _ _ (after_recv w) (68, n) (after_recv w)) by done.
  assert (slice (136 - n) n (lo ++ data ++ zeros (68 - n)) = Ok (zeros n)) as Es.
  { rewrite app_assoc. apply zeros_slice; rewrite ?zlen_app; fold n; lia. }
  rewrite uwrap_small by lia.
  rewrite (bind_Ok _ _ (after_recv w) (zeros n) (after_recv w)) by (unfold lift; now rewrite Es).
  set (lo1 := take (Z.to_nat (68 - n)) lo). set (lo2 := drop (Z.to_nat (68 - n)) lo).
  assert (lo = lo1 ++ lo2) as El by (unfold lo1, lo2; now rewrite take_drop).
  assert (zlen lo1 = 68 - n) as L1 by (unfold zlen, lo1 in *; rewrite length_take; lia).
  assert (length (zeros n) = length lo2) as L2.
  { unfold lo2. rewrite length_drop. unfold zeros. rewrite length_replicate. unfold zlen in Hlo. lia. }
  exists (lo1 ++ zeros n ++ data ++ zeros (68 - n)). split.
  - rewrite (bind_Ok _ _ (after_recv w) (lo1 ++ zeros n ++ data ++ zeros (68 - n)) (after_recv w)); [done|].
    unfold lift. rewrite El, <- app_assoc. now rewrite splice_mid.
  - apply slice_mid; [lia|]. now rewrite zlen_zeros by lia.
Qed.

(** ** The state the handlers need *)

(** [os_malloc] of a station entry always succeeds. *)
Definition memory_ok (e : env) : Prop := forall t, onum e t (Malloc 16) <> 0.

Record handler_ok (w : world) : Prop := {
  h_nets : nets_ok w;
  h_stas : stas_ok w;
  h_dense : dense_ok (g_dense_station_hash (fn w));
  h_idf : idf_ok w;
  h_mem : memory_ok (wenv w) }.

(** The set of assigned (station, AP) pairs after a command. *)
Definition assign (bs : list hostapd_data) (c : command) (X : gset (list Z * list Z)) : gset (list Z * list Z) :=
  match c with
  | CAdd v => match net_of bs (vc_ssid v) 0 with
              | Some (_, b) => if null_addr (own_addr b) then X else {[(vc_sta v, own_addr b)]} ∪ X
              | None => X
              end
  | CDel v => match net_of bs (vc_ssid v) 0 with
              | Some (_, b) => if null_addr (own_addr b) then X else X ∖ {[(vc_sta v, own_addr b)]}
              | None => X
              end
  | COffline _ | CBeat => X
  end.

(** The network of an [add] must be one of the AP's. *)
Definition known (bs : list hostapd_data) (c : command) : Prop :=
  match c with CAdd v => net_of bs (vc_ssid v) 0 <> None | _ => True end.

(** The oracle stays the same. *)
Definition same_oracle (e e' : env) : Prop := onum e' = onum e /\ obytes e' = obytes e.

Lemma memory_ok_same e e' : same_oracle e e' -> memory_ok e -> memory_ok e'.
Proof. intros [H _] Hm t. rewrite H. apply Hm. Qed.

Lemma logged_all_same cs e : same_oracle e (logged_all cs e).
Proof. revert e. induction cs as [|c cs IH]; intros e; [done|]. destruct (IH (logged c e)). done. Qed.

Lemma handler_ok_calm w w' : calm w w' -> same_oracle (wenv w) (wenv w') -> handler_ok w -> handler_ok w'.
Proof.
  intros Hc Ho [H1 H2 H3 H4 H5]. pose proof Hc as (E1 & E2 & _). split.
  - unfold nets_ok. now rewrite E2.
  - now apply (stas_ok_calm w).
  - now rewrite E1.
  - unfold idf_ok. now rewrite E1.
  - now apply (memory_ok_same (wenv w)).
Qed.

(** Changes of the globals that the handlers make: the table, the heart beat,
    the identifier and the link. *)
Lemma handler_ok_fn w f e : handler_ok w -> same_oracle (wenv w) e ->
  dense_ok (g_dense_station_hash (f (fn w))) -> 0 <= fnii_msg_idf (f (fn w)) <= 9999 ->
  handler_ok (put_env e (upd_fn f w)).
Proof.
  intros [H1 H2 H3 H4 H5] Ho Hd Hi. split; try done. now apply (memory_ok_same (wenv w)).
Qed.

Lemma dense_add_world w addr : handler_ok w -> mac_ok (stamac addr) ->
  exists x w', dense_add addr w = Ok (x, w') /\ handler_ok w' /\ ifc w' = ifc w /\
    contents (g_dense_station_hash (fn w')) = {[key_of addr]} ∪ contents (g_dense_station_hash (fn w)).
Proof.
  intros Hw Hm. destruct (dense_add_run _ addr (h_dense _ Hw) Hm) as (g' & Ha & Hg' & Hc).
  set (x := if bool_decide (key_of addr ∈ _) then _ else _) in Ha. clearbody x.
  assert (exists e, same_oracle (wenv w) e /\
    dense_add addr w = Ok (x, put_env e (upd_fn (set_g_dense_station_hash g') w))) as (e & He & E).
  { unfold dense_add. rewrite (bind_Ok _ _ w w w) by done.
    rewrite (bool_decide_eq_true_2 (_ <> 0)) by apply (h_mem _ Hw).
    rewrite (bind_Ok _ _ w (x, g') w) by (unfold lift; now rewrite Ha). cbn [fst snd].
    destruct (bool_decide _).
    - exists (logged (Malloc 16) (wenv w)). split; [split; reflexivity|reflexivity].
    - exists (wenv w). split; [split; reflexivity|]. destruct w. reflexivity. }
  rewrite E. eexists _, _. split; [done|].
  split; [apply handler_ok_fn; [done|done|done|apply (h_idf _ Hw)]|]. done.
Qed.

Lemma dense_del_world w addr : handler_ok w -> mac_ok (stamac addr) ->
  exists x w', dense_del addr w = Ok (x, w') /\ handler_ok w' /\ ifc w' = ifc w /\
    contents (g_dense_station_hash (fn w')) = contents (g_dense_station_hash (fn w)) ∖ {[key_of addr]}.
Proof.
  intros Hw Hm. destruct (dense_del_run _ addr (h_dense _ Hw) Hm) as (g' & Ha & Hg' & Hc).
  unfold dense_del. rewrite (bind_Ok _ _ w w w) by done.
  erewrite bind_Ok by (unfold lift; rewrite Ha; reflexivity).
  eexists _, _. split; [reflexivity|].
  split; [exact (handler_ok_fn w (set_g_dense_station_hash g') (wenv w) Hw (conj eq_refl eq_refl) Hg'
    (h_idf _ Hw))|]. done.
Qed.

Lemma del_of_vap_world w i b addr : handler_ok w -> mac_ok addr -> bss (ifc w) !! i = Some b ->
  exists w', ieee802_11_del_station_of_vap (Some i) (Some addr) w = Ok (RET_SUSS, w') /\ handler_ok w' /\
    ifc w' = ifc w /\ fn w' = fn w.
Proof.
  intros Hw Hm Hb. destruct (h_stas _ Hw) as [Hd Hall].
  destruct (ap_get_sta_spec w i b addr Hb (Hall i b Hb) Hm) as (r & Hr & Hspec).
  unfold ieee802_11_del_station_of_vap. rewrite (bind_Ok _ _ _ _ _ Hr). destruct r as [p|].
  - destruct (proj1 (Hspec p) eq_refl) as (s & Hp & Hs & Es).
    rewrite (bind_Ok _ _ _ _ _ (kick_run w i b addr Hb p s Hd Hs)).
    destruct (disassociated_spec WLAN_REASON_DISASSOC_AP_BUSY s) as (Hn & _ & _ & Hsa & _).
    eexists. split; [reflexivity|]. split; [|done].
    eapply (handler_ok_calm w); [now apply (calm_at_sta p s)|apply logged_all_same|done].
  - exists w. done.
Qed.

Lemma offline_world w i b addr : handler_ok w -> mac_ok addr -> bss (ifc w) !! i = Some b ->
  exists w', ieee802_11_del_offline (Some i) (Some addr) w = Ok (RET_SUSS, w') /\ handler_ok w' /\
    ifc w' = ifc w /\ fn w' = fn w.
Proof.
  intros Hw Hm Hb. destruct (h_stas _ Hw) as [Hd Hall].
  destruct (ap_get_sta_spec w i b addr Hb (Hall i b Hb) Hm) as (r & Hr & Hspec).
  unfold ieee802_11_del_offline. rewrite (bind_Ok _ _ _ _ _ Hr). destruct r as [p|]; [|now exists w].
  unfold hostapd_drv_sta_only_disassoc. rewrite bind_assoc, (bind_Ok _ _ _ _ _ (get_bss_run _ _ _ Hb)).
  rewrite bind_assoc, (bind_Ok _ _ w w w) by done. rewrite Hd.
  eexists. split; [reflexivity|]. split; [|done].
  apply (handler_ok_calm w); [|done|done].
  repeat split. intros q. simpl. destruct (heap w !! q); auto.
Qed.

Lemma cmd_effect_world w r : handler_ok w -> req_ok r -> known (bss (ifc w)) (snd r) ->
  exists x w', cmd_effect r w = Ok (x, w') /\ handler_ok w' /\ ifc w' = ifc w /\
    contents (g_dense_station_hash (fn w'))
    = assign (bss (ifc w)) (snd r) (contents (g_dense_station_hash (fn w))).
Proof.
  intros Hw [Hid Hc] Hk. destruct r as [id c]. simpl in *. unfold cmd_effect. cbn [snd fst].
  destruct c as [v|v|v|]; simpl in *; [..|unfold fnii_handle_beat];
    rewrite (bind_Ok _ _ w w w) by done.
  - destruct (net_of _ _ _) as [[i b]|]; [|done]. destruct (null_addr _); [eexists _, w; done|].
    destruct (dense_add_world w (mkCmd NEW_IF (own_addr b) (vc_sta v)) Hw) as (x & w' & ? & ? & ? & ?);
      [apply Hc|]. exists x, w'. done.
  - destruct (net_of _ _ _) as [[i b]|] eqn:En; [|eexists _, w; done].
    apply net_of_lookup in En as (_ & _ & Hb). rewrite Nat.sub_0_r in Hb.
    destruct (null_addr _); [eexists _, w; done|].
    destruct (dense_del_world w (mkCmd DEL_IF (own_addr b) (vc_sta v)) Hw) as (x & w1 & E1 & Hw1 & Hi1 & Hc1);
      [apply Hc|].
    rewrite (bind_Ok _ _ _ _ _ E1). rewrite <- Hi1 in Hb.
    destruct (del_of_vap_world w1 i b (vc_sta v) Hw1) as (w2 & E2 & Hw2 & Hi2 & Hf2); [apply Hc|done|].
    rewrite (bind_Ok _ _ _ _ _ E2). exists x, w2. rewrite Hf2, Hi2. done.
  - destruct (net_of _ _ _) as [[i b]|] eqn:En; [|eexists _, w; done].
    apply net_of_lookup in En as (_ & _ & Hb). rewrite Nat.sub_0_r in Hb.
    destruct (null_addr _); [eexists _, w; done|].
    destruct (offline_world w i b (vc_sta v) Hw) as (w2 & E2 & Hw2 & Hi2 & Hf2); [apply Hc|done|].
    rewrite (bind_Ok _ _ _ _ _ E2). eexists _, w2. rewrite Hf2. done.
  - case_bool_decide; [eexists _, w; done|]. eexists _, _. split; [reflexivity|].
    split; [exact (handler_ok_fn w (set_beat_status BEAT_LIVE) (wenv w) Hw (conj eq_refl eq_refl)
      (h_dense _ Hw) (h_idf _ Hw))|]. done.
Qed.

Lemma reply_world w id ty : handler_ok w -> 0 <= id <= 9999 -> (ty = FNII_MSG_OK \/ ty = FNII_MSG_ERR) ->
  exists x w', fnii_send_msg ty (Some (DStr (fmt_d 4 id))) w = Ok (x, w') /\ handler_ok w' /\
    ifc w' = ifc w /\ g_dense_station_hash (fn w') = g_dense_station_hash (fn w).
Proof.
  intros Hw Hid Hty.
  destruct (decide (fnii_socket_status (fn w) = SOCKET_STATUS_DISABLE)) as [Hs|Hs].
  { eexists _, w. split; [now apply fnii_send_msg_off|]. done. }
  assert (data_ok ty (DStr (fmt_d 4 id))) as Hd.
  { simpl. rewrite bool_decide_eq_false_2 by (destruct Hty as [-> | ->]; done). split; [done|].
    rewrite (zlen_fmt_d 4) by (simpl; lia). done. }
  rewrite (fnii_send_msg_run w ty _ (h_idf _ Hw) Hd (or_introl Hs)). eexists _, _.
  split; [destruct (send_spec _ _ _) eqn:E; rewrite <- E; apply f_equal, surjective_pairing|].
  pose proof (send_spec_idf ty (DStr (fmt_d 4 id)) w (h_idf _ Hw)) as Hi.
  destruct Hw as [H1 H2 H3 H4 H5]. unfold send_spec in *. cbv zeta in *.
  destruct (bool_decide _); (split; [split; done|]); done.
Qed.

Lemma serve_world w r : handler_ok w -> req_ok r -> known (bss (ifc w)) (snd r) ->
  exists w', serve r w = Ok (tt, w') /\ handler_ok w' /\ ifc w' = ifc w /\
    contents (g_dense_station_hash (fn w'))
    = assign (bss (ifc w)) (snd r) (contents (g_dense_station_hash (fn w))).
Proof.
  intros Hw Hr Hk. destruct (cmd_effect_world w r Hw Hr Hk) as (x & w1 & E1 & Hw1 & Hi1 & Hc1).
  unfold serve. rewrite (bind_Ok _ _ _ _ _ E1).
  destruct (reply_world w1 (fst r) (if bool_decide (x = FNII_RET_OK) then FNII_MSG_OK else FNII_MSG_ERR) Hw1)
    as (y & w2 & E2 & Hw2 & Hi2 & Hc2); [apply Hr|destruct (bool_decide _); auto|].
  rewrite (bind_Ok _ _ _ _ _ E2). exists w2. rewrite Hc2, Hi2. done.
Qed.

Lemma serve_all_world rs : forall w, handler_ok w -> Forall req_ok rs ->
  Forall (fun r => known (bss (ifc w)) (snd r)) rs ->
  exists w', serve_all rs w = Ok (tt, w') /\ handler_ok w' /\ ifc w' = ifc w /\
    contents (g_dense_station_hash (fn w'))
    = foldl (fun X r => assign (bss (ifc w)) (snd r) X) (contents (g_dense_station_hash (fn w))) rs.
Proof.
  induction rs as [|r rs IH]; intros w Hw HF HK; simpl; [exists w; done|].
  apply Forall_cons_1 in HF as [Hr HF]. apply Forall_cons_1 in HK as [Hk HK].
  destruct (serve_world w r Hw Hr Hk) as (w1 & E1 & Hw1 & Hi1 & Hc1).
  rewrite (bind_Ok _ _ _ _ _ E1). rewrite <- Hi1 in HK.
  destruct (IH w1 Hw1 HF HK) as (w2 & E2 & Hw2 & Hi2 & Hc2).
  exists w2. split; [done|]. split; [done|]. split; [congruence|]. rewrite Hc2, Hi1, Hc1. done.
Qed.

(** The end of a turn that keeps a full buffer for the next one. *)
Lemma rx_end_full (data : list Z) (lo : list Z) (w : world) : zlen lo = 68 -> zlen data = 68 ->
  (src <-- lift (slice (136 - 68) (uwrap 32 68) (lo ++ data ++ zeros (68 - zlen data))) ;;
   buf <-- lift (splice (68 - 68) src (lo ++ data ++ zeros (68 - zlen data))) ;;
   ret (mkRx buf (68 - 68))) w = Ok (mkRx (data ++ data) 0, w).
Proof.
  intros Hlo Hd. rewrite Hd, Z.sub_diag, zeros_0, app_nil_r. change (uwrap 32 68) with 68.
  rewrite (bind_Ok _ _ w data w).
  2: { unfold lift. rewrite <- (app_nil_r data) at 1. rewrite slice_mid by (done || lia). done. }
  rewrite (bind_Ok _ _ w (data ++ data) w); [done|].
  unfold lift. pose proof (splice_mid [] lo data data 0) as H. simpl in H. rewrite H; [done|done|].
  unfold zlen in *. lia.
Qed.

(** Reading inside the part of a text that has arrived. *)
Lemma slice_take {A} (k : nat) off n (l x : list A) : off + n <= Z.of_nat k ->
  slice off n l = slice off n (take k l ++ x) \/ slice off n l = Ub OutOfBounds.
Proof.
  intros Hk. unfold slice at 1 3. case_bool_decide as H; [left|now right].
  unfold slice, zlen in *. rewrite bool_decide_eq_true_2 by (rewrite length_app, length_take; lia).
  f_equal. rewrite drop_app_le, take_app_le by (rewrite ?length_drop, length_take; lia).
  replace k with (Z.to_nat off + (k - Z.to_nat off))%nat at 1 by lia.
  rewrite <- take_drop_commute. rewrite take_take. f_equal. lia.
Qed.

Lemma slice_shift {A} (pre l : list A) off n : 0 <= off ->
  slice (zlen pre + off) n (pre ++ l) = slice off n l.
Proof.
  intros Ho. unfold slice. rewrite zlen_app. pose proof (zlen_nonneg pre).
  destruct (decide (0 <= off /\ 0 <= n /\ off + n <= zlen l)).
  2: { rewrite !bool_decide_eq_false_2 by lia. done. }
  rewrite !bool_decide_eq_true_2 by lia. do 2 f_equal. unfold zlen.
  rewrite Z2Nat.inj_add, Nat2Z.id, drop_app_add by lia. done.
Qed.

Lemma field_num_take (k : nat) (f : list Z) (lo x : list Z) v : zlen lo = 68 -> (10 <= k)%nat ->
  field_num 7 3 f = Ok v -> field_num (68 + 7) 3 (lo ++ take k f ++ x) = Ok v.
Proof.
  intros <- Hk Hf. unfold field_num in *. rewrite slice_shift by lia.
  destruct (slice_take k 7 3 f x) as [<- | E]; [lia|done|]. rewrite E in Hf. discriminate.
Qed.

Lemma zeros_has m : 1 <= m -> 0 ∈ zeros m.
Proof.
  intros H. unfold zeros. replace (Z.to_nat m) with (S (Z.to_nat (m - 1))) by lia. constructor.
Qed.

(** The loop waits when the announced payload is not all there. *)
Lemma rx_loop_wait fuel buf alig n k (w : world) :
  n = 68 + (68 - alig) -> alig = 68 -> k > n - 10 -> field_num (alig + 7) 3 buf = Ok k ->
  rx_loop (S fuel) true buf alig n w = Ok ((68, 68), w).
Proof.
  intros -> -> Hk Hf. cbn [rx_loop]. rewrite bool_decide_eq_false_2 by lia.
  rewrite (bind_Ok _ _ w k w) by (unfold lift; now rewrite Hf).
  rewrite bool_decide_eq_true_2 by lia. done.
Qed.

(** Reassembly.  A request of more than 69 bytes (a network name of 26
    characters or more), of which [recv] returns 68 bytes first and the rest
    next, is kept over the first turn without any effect and served by the
    second one. *)
Theorem receive_long_frame (w : world) (l : rx) (r : request) (fuel : nat)
    (Hst : fnii_socket_status (fn w) = SOCKET_STATUS_ENABLE)
    (Hbuf : length (msg_buf l) = 136%nat) (Hal : msg_alig l = 68)
    (Hr : req_ok r) (Hn : nets_ok w) (Hlen : 70 <= zlen (req_frame r))
    (Hrecv1 : recv_answer w = Some (take 68 (req_frame r)))
    (Hrecv2 : recv_answer (after_recv w) = Some (drop 68 (req_frame r))) :
  exists l1 l2, rx_turn (S (S fuel)) true l w = Ok (l1, after_recv w) /\
    rx_turn (S (S fuel)) true l1 (after_recv w) = (serve r ;;; ret l2) (after_recv (after_recv w)) /\
    msg_alig l2 = 68 /\ length (msg_buf l2) = 136%nat.
Proof.
  assert (zlen (take 68 (msg_buf l)) = 68) as Hlo by (unfold zlen; rewrite length_take; lia).
  set (lo := take 68 (msg_buf l)) in *. set (f := req_frame r) in *.
  assert (zlen (take 68 f) = 68) as Hd1 by (unfold zlen in *; rewrite length_take; lia).
  pose proof (req_frame_len r Hr) as Lf. fold f in Lf.
  destruct (Hr) as [Hid Hc]. destruct (cmd_payload_len _ Hc) as [Hp _]. pose proof (cmd_ty_range (snd r)) as Hty.
  assert (zlen (drop 68 f) = zlen f - 68) as Hd2 by (unfold zlen in *; rewrite length_drop; lia).
  exists (mkRx (take 68 f ++ take 68 f) 0).
  exists (mkRx (take 68 f ++ drop 68 f ++ zeros (68 - zlen (drop 68 f))) 68). split; [|split; [|split; [done|]]].
  3: { apply Nat2Z.inj, zlen_buf; lia. }
  - rewrite (rx_turn_run _ w l lo (drop 68 (msg_buf l)) (take 68 f)); try done; [| | | |lia].
    2: { unfold lo. now rewrite take_drop. }
    2: { unfold zlen. rewrite length_drop. lia. }
    2: { intros E. rewrite E, zlen_nil in Hd1. lia. }
    unfold rx_rest. rewrite Hal. change (bool_decide (68 <> 68)) with false. cbv zeta.
    rewrite (bind_Ok _ _ (after_recv w) tt (after_recv w)) by done.
    rewrite Hd1 at 2. rewrite (bind_Ok _ _ (after_recv w) (68, 68) (after_recv w));
      [now apply rx_end_full|].
    apply rx_loop_wait with (k := zlen (cmd_payload (snd r))); [done|lia|lia|].
    apply (field_num_take 68 f); [lia|lia|]. unfold f. rewrite <- (app_nil_r (req_frame r)).
    now apply frame_parts; lia.
  - rewrite (rx_turn_run _ (after_recv w) _ (take 68 f) (take 68 f) (drop 68 f)); try done; [| |lia].
    2: { intros E. rewrite E, zlen_nil in Hd2. lia. }
    unfold rx_rest. change (bool_decide (68 <> msg_alig (mkRx (take 68 f ++ take 68 f) 0))) with true.
    cbv zeta iota. change (msg_alig (mkRx (take 68 f ++ take 68 f) 0)) with 0.
    set (w2 := after_recv (after_recv w)).
    assert (take 68 f ++ drop 68 f ++ zeros (68 - zlen (drop 68 f)) = [] ++ stream [r] ++ zeros (136 - zlen f)) as Eb.
    { rewrite app_assoc, take_drop. unfold stream. simpl. rewrite app_nil_r. fold f.
      do 2 f_equal. lia. }
    assert (zlen (stream [r]) = zlen f) as Ls by (unfold stream; simpl; now rewrite app_nil_r).
    rewrite (bind_Ok _ _ w2 tt w2).
    2: { rewrite (bind_Ok _ _ w2 (stream [r] ++ zeros (136 - zlen f)) w2).
         - unfold lift. rewrite log_str_Ok; [done|]. rewrite elem_of_app. right. apply zeros_has. lia.
         - unfold lift. rewrite Eb. now rewrite from_app. }
    pose proof (rx_loop_run [r] w2 (S (S fuel)) [] (136 - zlen f) ltac:(simpl; lia)
      (Forall_cons_2 _ _ _ Hr (Forall_nil_2 _)) Hn ltac:(lia)) as Hloop.
    rewrite Eb. replace (zlen (drop 68 f) + (68 - 0)) with (zlen (stream [r])) by lia.
    unfold bind at 1. change 0 with (zlen (@nil Z)) at 1. rewrite Hloop. simpl serve_all.
    unfold bind at 1 2 3. unfold bind. destruct (serve r w2) as [[[] w3]|]; [|done]. unfold ret at 1 2.
    refine (rx_end_empty ([] ++ stream [r] ++ zeros (136 - zlen f)) w3 _).
    rewrite !zlen_app, zlen_zeros, zlen_nil by lia. lia.
Qed.

(** ** A session with the controller *)

(** The link is enabled and the kernel takes what is sent. *)
Definition sends_ok (e : env) : Prop := forall n fd data, 0 <= onum e n (Send fd data).
Definition link_up (w : world) : Prop :=
  fnii_socket_status (fn w) = SOCKET_STATUS_ENABLE /\ sends_ok (wenv w).

(** The part of the state that decides this. *)
Definition link (w : world) : Z * (nat -> call -> Z) := (fnii_socket_status (fn w), onum (wenv w)).

Lemma link_up_kept {A} (m : M world A) w a w' : keeps link m -> m w = Ok (a, w') -> link_up w -> link_up w'.
Proof. intros K E [H1 H2]. apply K in E. injection E as E1 E2. unfold link_up, sends_ok. by rewrite E1, E2. Qed.

Lemma find_chain_link c a : keeps link (find_chain c a).
Proof. induction c; simpl; unfold get_sta; keeps_tac ltac:(assumption). Qed.

Lemma kick_link i p a : keeps link (kick i p a).
Proof.
  unfold kick, hostapd_drv_sta_disassoc, ap_sta_disassociate, ap_sta_unauthorize, retimer, get_bss,
    upd_sta, get_sta. keeps_tac idtac.
Qed.

Lemma cmd_effect_link r : keeps link (cmd_effect r).
Proof.
  unfold cmd_effect, dense_add, dense_del, ieee802_11_del_station_of_vap, ieee802_11_del_offline,
    ap_get_sta, hostapd_drv_sta_only_disassoc, get_bss, fnii_handle_beat.
  keeps_tac ltac:(first [apply find_chain_link | apply kick_link]).
Qed.

Lemma reply_link w ty id x w' : handler_ok w -> link_up w -> 0 <= id <= 9999 -> (ty = FNII_MSG_OK \/ ty = FNII_MSG_ERR) ->
  fnii_send_msg ty (Some (DStr (fmt_d 4 id))) w = Ok (x, w') -> link_up w'.
Proof.
  intros Hw [Hs He] Hid Hty. assert (data_ok ty (DStr (fmt_d 4 id))) as Hd.
  { simpl. rewrite bool_decide_eq_false_2 by (destruct Hty as [-> | ->]; done). split; [done|].
    rewrite (zlen_fmt_d 4) by (simpl; lia). done. }
  rewrite (fnii_send_msg_run w ty _ (h_idf _ Hw) Hd) by (left; rewrite Hs; done).
  unfold send_spec. cbv zeta. rewrite bool_decide_eq_false_2 by (apply Z.le_ngt, He). by intros [= _ <-].
Qed.

Lemma serve_link w r w' : handler_ok w -> req_ok r -> known (bss (ifc w)) (snd r) -> link_up w ->
  serve r w = Ok (tt, w') -> link_up w'.
Proof.
  intros Hw Hr Hk Hl. destruct (cmd_effect_world w r Hw Hr Hk) as (x & w1 & E1 & Hw1 & _).
  unfold serve. rewrite (bind_Ok _ _ _ _ _ E1). intros E. inv_bind E. inversion E; subst.
  eapply (reply_link w1 _ (fst r)); [done|by eapply link_up_kept; [apply cmd_effect_link|..]|apply Hr| |done].
  destruct (bool_decide _); auto.
Qed.

Lemma serve_all_link rs : forall w w', handler_ok w -> Forall req_ok rs ->
  Forall (fun r => known (bss (ifc w)) (snd r)) rs -> link_up w -> serve_all rs w = Ok (tt, w') -> link_up w'.
Proof.
  induction rs as [|r rs IH]; intros w w' Hw HF HK Hl E; [by inversion E; subst|].
  apply Forall_cons_1 in HF as [Hr HF]. apply Forall_cons_1 in HK as [Hk HK].
  destruct (serve_world w r Hw Hr Hk) as (w1 & E1 & Hw1 & Hi1 & _). simpl in E.
  rewrite (bind_Ok _ _ _ _ _ E1) in E. rewrite <- Hi1 in HK.
  eapply IH; [exact Hw1|done..|exact (serve_link w r w1 Hw Hr Hk Hl E1)|exact E].
Qed.

(** What the controller's bytes arrive in: a read of whole frames, shorter than
    the 68 bytes asked for, or a frame of more than 69 bytes in two reads. *)
Inductive delivery : Type := Whole (rs : list request) | Halves (r : request).

Definition requests (d : delivery) : list request := match d with Whole rs => rs | Halves r => [r] end.

Definition delivery_ok (d : delivery) : Prop :=
  Forall req_ok (requests d) /\
  match d with
  | Whole rs => rs <> [] /\ zlen (stream rs) < 68
  | Halves r => 70 <= zlen (req_frame r)
  end.

(** The reads of the turns it takes, from the state [w]. *)
Definition arrives (d : delivery) (w : world) : Prop :=
  match d with
  | Whole rs => recv_answer w = Some (stream rs)
  | Halves r => recv_answer w = Some (take 68 (req_frame r)) /\
                recv_answer (after_recv w) = Some (drop 68 (req_frame r))
  end.

(** The turns of the receive thread for one delivery, and for a session. *)
Definition rx_delivery (fuel : nat) (d : delivery) (l : rx) : M world rx :=
  match d with
  | Whole _ => rx_turn fuel true l
  | Halves _ => l' <-- rx_turn fuel true l ;; rx_turn fuel true l'
  end.

Fixpoint rx_session (fuel : nat) (ds : list delivery) (l : rx) : M world rx :=
  match ds with
  | [] => ret l
  | d :: ds' => l' <-- rx_delivery fuel d l ;; rx_session fuel ds' l'
  end.

(** Each delivery arrives when the thread has dealt with those before it. *)
Fixpoint arrive_all (fuel : nat) (ds : list delivery) (l : rx) (w : world) : Prop :=
  match ds with
  | [] => True
  | d :: ds' => arrives d w /\
      forall l' w', rx_delivery fuel d l w = Ok (l', w') -> arrive_all fuel ds' l' w'
  end.

(** Between two deliveries. *)
Record rx_ok (l : rx) (w : world) : Prop := {
  ro_handler : handler_ok w;
  ro_link : link_up w;
  ro_buf : length (msg_buf l) = 136%nat;
  ro_alig : msg_alig l = 68 }.

Lemma after_recv_ok w : handler_ok w -> handler_ok (after_recv w).
Proof. apply handler_ok_calm; [exact (calm_refl w)|done]. Qed.

Lemma delivery_run fuel d (w : world) l : rx_ok l w -> delivery_ok d -> (length (requests d) < fuel)%nat -> arrives d w ->
  exists buf' w0, length buf' = 136%nat /\ handler_ok w0 /\ link_up w0 /\ ifc w0 = ifc w /\ fn w0 = fn w /\
    rx_delivery fuel d l w = (serve_all (requests d) ;;; ret (mkRx buf' 68)) w0.
Proof.
  intros [Hw Hl Hb Ha] [HF Hd] Hfuel Harr. pose proof (after_recv_ok w Hw) as Hw1. destruct d as [rs|r].
  - destruct Hd as [Hne Hlen]. destruct (receive_run w l rs fuel) as (buf' & Hb' & E); try done; [apply Hl|apply (h_nets _ Hw)|].
    by exists buf', (after_recv w).
  - destruct Harr as [Hr1 Hr2]. destruct fuel as [|[|fuel]]; [simpl in Hfuel; lia..|]. apply Forall_cons_1 in HF as [Hr _].
    destruct (receive_long_frame w l r fuel) as (l1 & l2 & E1 & E2 & Ha2 & Hb2); try done; [apply Hl|apply (h_nets _ Hw)|].
    exists (msg_buf l2), (after_recv (after_recv w)). split; [done|]. split; [by apply after_recv_ok|].
    split; [exact Hl|]. split; [done|]. split; [done|]. unfold rx_delivery.
    rewrite (bind_Ok _ _ _ _ _ E1), E2. destruct l2 as [b2 a2]. simpl in Ha2. subst a2.
    cbn [requests serve_all]. rewrite bind_assoc. apply bind_ext. by intros [] w'.
Qed.

(** C6: a session with the controller.  From a well-formed state with the link
    up, the receive thread deals with any sequence of deliveries - reads of
    fewer than 68 bytes that are whole frames, and frames of more than 69 bytes
    in two reads - of commands for known networks with names of at most 31
    bytes: every turn returns, the state stays well formed, the link up and the
    buffer empty, the interface is not touched, and the table of assigned
    stations is what the commands describe, applied in the order of the
    session. *)
Theorem controller_session (w : world) (l : rx) (ds : list delivery) (fuel : nat)
    (Hok : rx_ok l w) (HF : Forall delivery_ok ds)
    (Hfuel : Forall (fun d => length (requests d) < fuel)%nat ds)
    (HK : Forall (fun d => Forall (fun r => known (bss (ifc w)) (snd r)) (requests d)) ds)
    (Harr : arrive_all fuel ds l w) :
  exists l' w', rx_session fuel ds l w = Ok (l', w') /\ rx_ok l' w' /\ ifc w' = ifc w /\
    contents (g_dense_station_hash (fn w'))
    = foldl (fun X r => assign (bss (ifc w)) (snd r) X) (contents (g_dense_station_hash (fn w)))
        (concat (map requests ds)).
Proof.
  revert l w Hok HK Harr. induction ds as [|d ds IH]; intros l w Hok HK Harr; [by exists l, w|].
  apply Forall_cons_1 in HF as [Hd HF]. apply Forall_cons_1 in Hfuel as [Hf Hfuel]. apply Forall_cons_1 in HK as [Hk HK].
  destruct Harr as [Harr Hnext].
  destruct (delivery_run fuel d w l Hok Hd Hf Harr) as (buf' & w0 & Hb & Hw0 & Hl0 & Hi0 & Hf0 & E).
  rewrite <- Hi0 in Hk. destruct (serve_all_world (requests d) w0 Hw0 (proj1 Hd) Hk) as (w1 & E1 & Hw1 & Hi1 & Hc1).
  rewrite (bind_Ok _ _ _ _ _ E1) in E. specialize (Hnext _ _ E). rewrite Hi0 in Hi1, Hc1. rewrite <- Hi1 in HK.
  destruct (IH HF Hfuel (mkRx buf' 68) w1) as (l' & w' & E' & Hok' & Hi' & Hc'); [|exact HK|exact Hnext|].
  { split; [done| |done|done]. eapply serve_all_link; [exact Hw0|apply Hd|exact Hk|exact Hl0|exact E1]. }
  exists l', w'. simpl. rewrite (bind_Ok _ _ _ _ _ E), Hi1 in *. split; [done|]. split; [done|]. split; [done|].
  by rewrite Hc', Hc1, Hf0, foldl_app.
Qed.

Lemma field_num_prefix (k : nat) off (f x : list Z) n v : off + n <= Z.of_nat k ->
  field_num off n f = Ok v -> field_num off n (take k f ++ x) = Ok v.
Proof.
  intros Hk Hf. unfold field_num in *. destruct (slice_take k off n f x Hk) as [<- | E]; [done|].
  rewrite E in Hf. discriminate.
Qed.

(** An [add] command whose frame is 68 or 69 bytes long (a network name of
    24 or 25 characters) fills the receive buffer when it is read at once; the
    handler logs its payload as a string, and there is no 0 after it: the
    buffer is over-read. *)
Theorem full_read_overread (w : world) (l : rx) (id : Z) (v : vap_cmd) (fuel : nat)
    (Hst : fnii_socket_status (fn w) = SOCKET_STATUS_ENABLE)
    (Hbuf : length (msg_buf l) = 136%nat) (Hal : msg_alig l = 68)
    (Hr : req_ok (id, CAdd v)) (Hlen : 68 <= zlen (req_frame (id, CAdd v)) <= 69)
    (H0 : 0 ∉ req_frame (id, CAdd v))
    (Hrecv : recv_answer w = Some (take 68 (req_frame (id, CAdd v)))) :
  rx_turn (S fuel) true l w = Ub OutOfBounds.
Proof.
  set (f := req_frame (id, CAdd v)) in *.
  assert (zlen (take 68 (msg_buf l)) = 68) as Hlo by (unfold zlen; rewrite length_take; lia).
  set (lo := take 68 (msg_buf l)) in *.
  assert (zlen (take 68 f) = 68) as Hd by (unfold zlen in *; rewrite length_take; lia).
  pose proof (req_frame_len _ Hr) as Lf. fold f in Lf. destruct Hr as [Hid Hv]. simpl in Hid, Hv, Lf.
  destruct (frame_parts id 102 (vap_payload v) []) as (E1 & E2 & E3 & _ & _); [lia..|].
  rewrite app_nil_r in E1, E2, E3.
  change (frame (fmt_d 4 id) 102 (vap_payload v)) with f in E1, E2, E3.
  rewrite (rx_turn_run _ w l lo (drop 68 (msg_buf l)) (take 68 f)); try done; [| | | |lia].
  2: { unfold lo. now rewrite take_drop. }
  2: { unfold zlen. rewrite length_drop. lia. }
  2: { intros E. rewrite E, zlen_nil in Hd. lia. }
  unfold rx_rest. rewrite Hal. change (bool_decide (68 <> 68)) with false. cbv zeta.
  rewrite (bind_Ok _ _ (after_recv w) tt (after_recv w)) by done.
  apply bind_Ub. cbn [rx_loop]. rewrite bool_decide_eq_false_2 by lia.
  rewrite (bind_Ok _ _ (after_recv w) (zlen (vap_payload v)) (after_recv w)).
  2: { unfold lift. now rewrite (field_num_take 68 f lo _ (zlen (vap_payload v))) by (done || lia). }
  rewrite bool_decide_eq_false_2 by lia.
  rewrite (bind_Ok _ _ (after_recv w) (take 68 f ++ []) (after_recv w)).
  2: { unfold lift. rewrite Hd, Z.sub_diag, zeros_0. now rewrite from_app. }
  apply bind_Ub. unfold answer. apply bind_Ub. unfold fnii_parse_msg.
  rewrite bool_decide_eq_false_2 by (unfold MSG_MIN_LEN; lia).
  unfold lift, bind. rewrite (field_num_prefix 68 0 f [] 4 _ ltac:(lia) E1).
  rewrite (field_num_prefix 68 4 f [] 3 _ ltac:(lia) E2), (field_num_prefix 68 7 f [] 3 _ ltac:(lia) E3).
  change (bool_decide (swrap 8 102 = FNII_MSG_ADD_VAP)) with true. cbv iota.
  unfold fnii_handle_add_vap, lift, bind, log_str, strlen.
  rewrite bool_decide_eq_false_2; [done|]. rewrite app_nil_r. intros Hin. apply H0.
  apply (subseteq_drop 10), elem_of_take in Hin as (j & Hj & _). eapply list_elem_of_lookup_2; eauto.
Qed.

(** An [add] command for a network the AP does not have: the handler
    decides on the bytes of an address that it never assigned. *)
Theorem add_unknown_network (w : world) (id : Z) (v : vap_cmd) (rest : list Z) (n : Z)
    (Hr : req_ok (id, CAdd v)) (Hn : nets_ok w) (H0 : 0 ∈ rest) (Hl : 10 <= n)
    (Hnone : net_of (bss (ifc w)) (vc_ssid v) 0 = None) :
  fnii_parse_msg true (Some (req_frame (id, CAdd v) ++ rest)) n w = Ub UninitRead.
Proof.
  rewrite parse_request by done. unfold cmd_effect, bind, get. cbn [snd]. now rewrite Hnone.
Qed.

(** ** Concrete runs *)

Definition rx_env (data : nat -> option (list Z)) : env :=
  {| onum := fun _ _ => 1; obytes := fun t c => match c with Recv _ _ => data t | _ => None end;
     trace := [] |}.

Definition rx0 : rx := mkRx (replicate 136 0) 68.

Definition vap_AA : vap_cmd := mkVap mac2 (str "ffffffffffff") (str "000") (str "AA").

#[export] Instance vap_ok_dec v : Decision (vap_ok v).
Proof. unfold vap_ok. apply _. Defined.
#[export] Instance cmd_ok_dec c : Decision (cmd_ok c).
Proof. destruct c; simpl; apply _. Defined.
#[export] Instance req_ok_dec r : Decision (req_ok r).
Proof. unfold req_ok. apply _. Defined.
#[export] Instance nets_ok_dec w : Decision (nets_ok w).
Proof. unfold nets_ok. apply _. Defined.

(** A heart beat and an [add], in one read. *)
Definition demo_reqs : list request := [(41, CBeat); (42, CAdd vap_AA)].

Lemma demo_handler_ok data : handler_ok (demo_world1 (rx_env data)).
Proof.
  split.
  - unfold nets_ok. simpl. repeat constructor.
  - apply demo_stas_ok.
  - apply dense_ok_of_check. vm_compute. reflexivity.
  - unfold idf_ok. simpl. lia.
  - intros t. simpl. lia.
Qed.

Lemma receive_whole_frames_witness :
  exists buf', rx_turn 3 true rx0 (demo_world1 (rx_env (fun _ => Some (stream demo_reqs))))
    = (serve_all demo_reqs ;;; ret (mkRx buf' 68))
        (after_recv (demo_world1 (rx_env (fun _ => Some (stream demo_reqs))))).
Proof.
  destruct (receive_whole_frames (demo_world1 (rx_env (fun _ => Some (stream demo_reqs)))) rx0 demo_reqs 3)
    as (buf' & _ & H).
  - reflexivity.
  - reflexivity.
  - reflexivity.
  - discriminate.
  - by_check.
  - by_check.
  - reflexivity.
  - by_check.
  - simpl. lia.
  - exists buf'. exact H.
Defined.

Lemma short_read_loses_bytes_witness :
  exists buf', rx_turn 1 true rx0 (demo_world1 (rx_env (fun _ => Some (str "0041110"))))
    = Ok (mkRx buf' 61, after_recv (demo_world1 (rx_env (fun _ => Some (str "0041110"))))) /\
    slice 61 7 buf' = Ok (zeros 7).
Proof.
  apply (short_read_loses_bytes (demo_world1 (rx_env (fun _ => Some (str "0041110")))) rx0 (str "0041110") 0);
    [reflexivity..|by_check].
Defined.

Definition vap_long (k : nat) : vap_cmd := mkVap mac2 (str "ffffffffffff") (str "000") (replicate k 65).
Definition req_long (k : nat) : request := (42, CDel (vap_long k)).

Definition long_env (k : nat) : env :=
  rx_env (fun t => if decide (t = 0%nat) then Some (take 68 (req_frame (req_long k)))
                   else Some (drop 68 (req_frame (req_long k)))).

Lemma receive_long_frame_witness :
  exists l1 l2, rx_turn 2 true rx0 (demo_world1 (long_env 30)) = Ok (l1, after_recv (demo_world1 (long_env 30))) /\
    rx_turn 2 true l1 (after_recv (demo_world1 (long_env 30)))
    = (serve (req_long 30) ;;; ret l2) (after_recv (after_recv (demo_world1 (long_env 30)))) /\
    msg_alig l2 = 68 /\ length (msg_buf l2) = 136%nat.
Proof.
  apply (receive_long_frame (demo_world1 (long_env 30)) rx0 (req_long 30) 0);
    [reflexivity|reflexivity|reflexivity|by_check|by_check|by_check|reflexivity|reflexivity].
Defined.

Lemma full_read_overread_witness :
  rx_turn 1 true rx0 (demo_world1 (rx_env (fun _ => Some (take 68 (req_frame (42, CAdd (vap_long 24)))))))
  = Ub OutOfBounds.
Proof.
  apply (full_read_overread (demo_world1 (rx_env (fun _ => Some (take 68 (req_frame (42, CAdd (vap_long 24)))))))
    rx0 42 (vap_long 24) 0); [reflexivity|reflexivity|reflexivity|by_check|by_check|by_check|reflexivity].
Defined.

Lemma add_unknown_network_witness :
  fnii_parse_msg true (Some (req_frame (7, CAdd (vap_long 3)) ++ [0])) 57 (demo_world1 (const_env 1)) = Ub UninitRead.
Proof.
  apply (add_unknown_network (demo_world1 (const_env 1)) 7 (vap_long 3) [0] 57);
    [by_check|by_check|by_check|lia|reflexivity].
Defined.

(** A heart beat and an [add] in one read, then a [del] with a long name in two. *)
Definition demo_deliveries : list delivery := [Whole demo_reqs; Halves (req_long 30)].

Definition session_env : env :=
  rx_env (fun t => if decide (t = 0%nat) then Some (stream demo_reqs)
                   else if decide (t = 4%nat) then Some (take 68 (req_frame (req_long 30)))
                   else Some (drop 68 (req_frame (req_long 30)))).

Lemma controller_session_witness :
  exists l' w', rx_session 3 demo_deliveries rx0 (demo_world1 session_env) = Ok (l', w') /\
    contents (g_dense_station_hash (fn w')) = {[(mac2, [2; 1; 2; 3; 4; 5]); (mac1, [2; 1; 2; 3; 4; 5])]}.
Proof.
  destruct (controller_session (demo_world1 session_env) rx0 demo_deliveries 3)
    as (l' & w' & H & _ & _ & Hc).
  - split; [apply demo_handler_ok|split; [done|intros n fd d; simpl; lia]|done|done].
  - repeat constructor; try by_check; discriminate.
  - repeat constructor; simpl; lia.
  - repeat constructor; vm_compute; discriminate.
  - split; [reflexivity|]. intros l1 w1 E1. vm_compute in E1. injection E1 as <- <-.
    split; [split; reflexivity|done].
  - exists l', w'. split; [exact H|]. rewrite Hc. vm_compute. reflexivity.
Defined.
