(* ===== verification/Roam.v ===== *)
(** * The link to the controller: configuration, connection, statistics thread
    ([fnii_roam.c]), and the beacon updates of [beacon.c]

    [fnii_statistics_flow_thread] is an endless loop; [stat_turn] is one turn of
    it.  Reading of a file or of a pipe is a function of the bytes the
    environment gives. *)

From stdpp Require Import base list numbers gmap strings.
From Stdlib Require Import ZArith Lia.
From S2P Require Import Prelude CString Dense Env Survey World Messages Elements Station Eids Beacon Handler.
Local Open Scope Z_scope.

Definition USERID_VLAUE : Z := 32.
Definition USERID_FIELD : Z := 64.
Definition USERID_VLAUE_MIN : Z := 17.
Definition GET_MASTERIP : list Z := str "grep -r masterip /etc/hostapd/config.xml".
Definition GET_MASTERPORT : list Z := str "grep -r masterport /etc/hostapd/config.xml".
Definition LINE_LENGTH : nat := 128.
Definition WLAN1_VAP_MAX : nat := 16.

(** ** Configuration *)

(** The loop that looks for the value between the tags: the final [value_s] and
    [value_e]. *)
Fixpoint scan_value (buf : list Z) (i value_s value_e : Z) : Z * Z :=
  match buf with
  | [] => (value_s, value_e)
  | c :: buf' =>
      let value_s := if bool_decide (c = 62 /\ value_e = 0) then i + 1 else value_s in
      if bool_decide (c = 60 /\ value_s <> 0) then (value_s, i)
      else scan_value buf' (i + 1) value_s value_e
  end.

(** [fnii_read_config(cmd, read_data)]: the return code and the new contents of
    the 32-byte array [read_data]. *)
Definition fnii_read_config (cmd : list Z) (read_data : list Z) : M world (Z * list Z) :=
  read_fp <-- popen cmd ;;
  match read_fp with
  | None => ret (FNII_RET_OK, read_data)
  | Some out =>
      let buffer := take (Z.to_nat (USERID_FIELD - 1)) out in
      if bool_decide (zlen buffer < USERID_VLAUE_MIN) then ret (FNII_RET_ERR, read_data)
      else
        let '(value_s, value_e) := scan_value buffer 0 0 0 in
        if bool_decide (value_s = 0 \/ value_e = 0 \/ value_e < value_s \/ value_e - value_s > USERID_VLAUE)
        then ret (FNII_RET_ERR, read_data)
        else
          v <-- lift (slice value_s (value_e - value_s) buffer) ;;
          data <-- lift (splice 0 v read_data) ;;
          ret (FNII_RET_OK, data)
  end.

(** [atoi] of an array: it reads on while it sees a number. *)
Definition number_char (c : Z) : bool :=
  is_space c || bool_decide (48 <= c <= 57) || bool_decide (c = 43 \/ c = 45).
Definition atoi_buf (buf : list Z) : res Z :=
  if forallb number_char buf then Ub OutOfBounds else Ok (atoi buf).

Definition fnii_get_master_connect_info : M world Z :=
  ip <-- fnii_read_config GET_MASTERIP (zeros USERID_VLAUE) ;;
  if bool_decide (fst ip = FNII_RET_OK) then
    port <-- fnii_read_config GET_MASTERPORT (zeros USERID_VLAUE) ;;
    if bool_decide (fst port = FNII_RET_OK) then
      modify (upd_fn (set_fnii_master_host (snd ip))) ;;;
      n <-- lift (atoi_buf (snd port)) ;;
      modify (upd_fn (set_fnii_master_port (swrap 16 n))) ;;;
      ret FNII_RET_OK
    else ret FNII_RET_ERR
  else ret FNII_RET_ERR.

(** ** Connection *)

(** [htons(fnii_master_port)] sends the port as an unsigned 16-bit number. *)
Definition fnii_connect2master : M world Z :=
  fd <-- ext Socket ;;
  modify (upd_fn (set_fnii_master_socket fd)) ;;;
  if bool_decide (fd < 0) then ret FNII_RET_ERR
  else
    w <-- get ;;
    _ <-- lift (strlen (fnii_master_host (fn w))) ;;
    let host := cstr (fnii_master_host (fn w)) in
    p <-- ext (InetPton host) ;;
    if bool_decide (p <= 0) then ret FNII_RET_ERR
    else
      r <-- ext (Connect fd host (uwrap 16 (fnii_master_port (fn w)))) ;;
      if bool_decide (r < 0) then ret FNII_RET_ERR
      else modify (upd_fn (set_beat_status BEAT_LIVE)) ;;; ret FNII_RET_OK.

Definition fnii_roam_init : M world Z :=
  modify (upd_fn (set_g_dense_station_hash fnii_init_dense_station_hash)) ;;;
  a <-- fnii_get_master_connect_info ;;
  b <-- (if bool_decide (a <> FNII_RET_OK) then ret FNII_RET_ERR else fnii_connect2master) ;;
  if bool_decide (b <> FNII_RET_OK) then
    fnii_set_socket_status SOCKET_STATUS_DISABLE ;;;
    w <-- get ;;
    ext_ (Close (fnii_master_socket (fn w))) ;;;
    ret FNII_RET_ERR
  else ret FNII_RET_OK.

Definition fnii_roam_close : M world Z :=
  w <-- get ;; ext_ (Close (fnii_master_socket (fn w))) ;;; ret FNII_RET_OK.

(** ** Traffic reports *)

(** [n] numbers in base 16 with colons between them. *)
Fixpoint scan_colons (n : nat) (s : list Z) : list Z :=
  match n with
  | O => []
  | S n' => match scan_num 16 s with
            | None => []
            | Some (v, r) => v :: match r with 58 :: r' => scan_colons n' r' | _ => [] end
            end
  end.

(** [sta_mac] after [sscanf(line, "Station %x:...", ...)]: numbers that were not
    read keep what the array held ([None]: never assigned). *)
Definition scan_station (line : list Z) (sta_mac : list (option Z)) : list (option Z) :=
  let vs := scan_colons 6 (drop 7 line) in map Some vs ++ drop (length vs) sta_mac.

Fixpoint all_read (l : list (option Z)) : res (list Z) :=
  match l with
  | [] => Ok []
  | Some v :: l' => let! r := all_read l' in Ok (uwrap 8 v :: r)
  | None :: _ => Ub UninitRead
  end.

(** The number after [tx bytes:] or [rx bytes:]; [old] when there is none. *)
Definition scan_bytes (line : list Z) (old : Z) : Z :=
  match drop 9 line with
  | 58 :: r => match scan_num 10 r with Some (v, _) => swrap 32 v | None => old end
  | _ => old
  end.

Definition station_word : list Z := str "Station".
Definition tx_bytes : list Z := [9] ++ str "tx bytes".
Definition rx_bytes : list Z := [9] ++ str "rx bytes".

(** The two nested [while (fgets(...))] loops over one stream: [inner] is
    [Some get_info_num] inside the second. *)
Fixpoint flow_loop (lines : list (list Z)) (inner : option Z) (sta_mac : list (option Z))
    (info : station_flow_s) : M world unit :=
  match lines with
  | [] => ret tt
  | line :: lines' =>
      match inner with
      | None =>
          if strneq station_word line then
            let sta_mac := scan_station line sta_mac in
            mac <-- lift (all_read sta_mac) ;;
            flow_loop lines' (Some 0) sta_mac (mkFlow mac (flow_rx info) (flow_tx info))
          else flow_loop lines' None sta_mac info
      | Some n =>
          let '(n, info) :=
            if strneq tx_bytes line
            then (n + 1, mkFlow (flow_mac info) (flow_rx info) (scan_bytes line (flow_tx info)))
            else if strneq rx_bytes line
            then (n + 1, mkFlow (flow_mac info) (scan_bytes line (flow_rx info)) (flow_tx info))
            else (n, info) in
          if bool_decide (n = 2) then
            fnii_send_msg FNII_MSG_FLOW_INFO (Some (DFlow info)) ;;;
            flow_loop lines' None sta_mac info
          else flow_loop lines' (Some n) sta_mac info
      end
  end.

(** [iw_cmd] has 128 bytes. *)
Definition fnii_get_flow_info (vif : list Z) : M world Z :=
  let cmd := str "iw dev " ++ vif ++ str " station dump" in
  if bool_decide (zlen cmd >= Z.of_nat LINE_LENGTH) then fail OutOfBounds
  else
    fp <-- popen cmd ;;
    match fp with
    | None => ret FNII_RET_ERR
    | Some out =>
        flow_loop (map cstr (stream_lines LINE_LENGTH out)) None (replicate 6 None)
          (mkFlow (zeros 6) 0 0) ;;;
        ret FNII_RET_OK
    end.

(** ** Announcing the AP *)

(** The loop that drops the colons of [aa:bb:cc:dd:ee:ff]. *)
Fixpoint strip_colons (n : nat) (i : Z) (tmp mac : list Z) : res (list Z) :=
  match n with
  | O => Ok mac
  | S n' =>
      let! two := slice (i * 3) 2 tmp in
      let! mac := splice (i * 2) two mac in
      strip_colons n' (i + 1) tmp mac
  end.

Definition fnii_get_wan_mac (file : list Z) : M world Z :=
  fp <-- ext_bytes (Fopen file) ;;
  match fp with
  | None => ret FNII_RET_ERR
  | Some bytes =>
      tmp <-- lift (splice 0 (take 17 bytes) (zeros 18)) ;;
      local_mac <-- lift (strip_colons 6 0 tmp (zeros 13)) ;;
      fnii_send_msg FNII_MSG_LOCAL_MAC (Some (DStr local_mac)) ;;;
      ret FNII_RET_OK
  end.

Definition DS_LOCAL_MAC_FILE0 : list Z := str "/sys/class/net/wlan0/address".
Definition DS_LOCAL_MAC_FILE1 : list Z := str "/sys/class/net/wlan1/address".

(** The loop over [conf->bss]: each name is copied into 33 zeroed bytes. *)
Fixpoint copy_ssids (bs : list hostapd_data) (i : Z) : M world unit :=
  match bs with
  | [] => ret tt
  | b :: bs' =>
      p <-- ext (Malloc 33) ;;
      w <-- get ;;
      _ <-- lift (wr (ia_ssid (interface_all_info (fn w))) i None) ;;
      name <-- lift (slice 0 (ssid_len b) (ssid b)) ;;
      buf <-- lift (if bool_decide (p = 0) then Ub NullDeref else splice 0 name (zeros 33)) ;;
      ssids <-- lift (wr (ia_ssid (interface_all_info (fn w))) i (Some buf)) ;;
      modify (upd_fn (fun g => set_interface_all_info (set_ia_ssid ssids (interface_all_info g)) g)) ;;;
      copy_ssids bs' (i + 1)
  end.

Definition fnii_update_ap_info : M world Z :=
  w <-- get ;;
  is1 <-- lift (memeq (phy (ifc w)) (str "phy1") 4) ;;
  fnii_get_wan_mac (if is1 : bool then DS_LOCAL_MAC_FILE1 else DS_LOCAL_MAC_FILE0) ;;;
  w <-- get ;;
  first <-- lift (rd (ia_ssid (interface_all_info (fn w))) 0) ;;
  match first with
  | Some _ => fnii_send_msg FNII_MSG_INTERFACE_NUM (Some DIfAll) ;;; ret FNII_RET_OK
  | None =>
      modify (upd_fn (fun g => set_interface_all_info
        (set_ia_ssid_num (zlen (bss (ifc w))) (set_ia_vap_num STAION_MAX
          (set_ia_channel (channel (ifc w)) (interface_all_info g)))) g)) ;;;
      copy_ssids (bss (ifc w)) 0 ;;;
      fnii_send_msg FNII_MSG_INTERFACE_NUM (Some DIfAll) ;;;
      ret FNII_RET_OK
  end.

(** ** Beacons ([beacon.c]) *)

(** [ieee802_11_build_ap_params_odin], [hostapd_build_ap_extra_ies],
    [hostapd_drv_set_ap] and the calls that free what they made: the two tests and
    the result of the driver.  The elements that the second call makes for drivers
    that build their own frames, and the frequency, are left out of what the driver
    is told. *)
Inductive set_ap_result : Type := ParamsFailed | IesFailed | DriverSaid (res : Z).

Definition set_ap (hapd : nat) (stamac : list Z) : M world set_ap_result :=
  p <-- ieee802_11_build_ap_params_odin hapd stamac ;;
  match p with
  | None => ret ParamsFailed
  | Some params =>
      b <-- get_bss hapd ;;
      e <-- ext (Hostapd (str "hostapd_build_ap_extra_ies") (own_addr b)) ;;
      if bool_decide (e < 0) then ret IesFailed
      else r <-- ext (DrvSetAp (own_addr b) params) ;; ret (DriverSaid r)
  end.

Definition broadcast : list Z := replicate 6 0xff.

Definition ieee802_11_set_beacon_odin (hapd : nat) (flag : Z) : M world Z :=
  upd_bss hapd (set_own_sta macnull) ;;;
  upd_bss hapd (set_beacon_set_done 1) ;;;
  r <-- set_ap hapd (if bool_decide (flag = 1) then broadcast else macnull) ;;
  ret (match r with DriverSaid 0 => RET_SUSS | _ => RET_ERR end).

Fixpoint set_beacons (n : nat) (hapd : nat) (flag : Z) : M world unit :=
  match n with
  | O => ret tt
  | S n' => ieee802_11_set_beacon_odin hapd flag ;;; set_beacons n' (S hapd) flag
  end.

(** The function falls off its end; no caller uses its result. *)
Definition ieee802_11_update_all_beacons_odin (flag : Z) : M world unit :=
  w <-- get ;; set_beacons (length (bss (ifc w))) 0 flag.

Definition ieee802_11_update_beacons_odin (ap_info : option cmd_msg_s) : M world Z :=
  match ap_info with
  | None => ret RET_ERR
  | Some info =>
      if bool_decide (cmd_type info >= TYPE_MAX \/ cmd_type info < DEL_IF) then ret RET_TYPE_UNKOWN
      else
        found <-- ieee802_11_find_bss_odin (Some (bssid info))
                   (if bool_decide (cmd_type info = NEW_IF) then None else Some (stamac info)) ;;
        let mac := match snd found with Some m => m | None => stamac info end in
        match fst found with
        | None => ret RET_ERR
        | Some hapd =>
            upd_bss hapd (set_own_sta mac) ;;;
            b <-- get_bss hapd ;;
            if csa_in_progress b then ret (-1)
            else
              upd_bss hapd (set_beacon_set_done 1) ;;;
              r <-- set_ap hapd mac ;;
              match r with
              | ParamsFailed | IesFailed => ret RET_ERR
              | DriverSaid res =>
                  ieee802_11_update_bssflag_odin (Some hapd) (cmd_type info) ;;;
                  ret (if bool_decide (res = 0) then RET_SUSS else RET_ERR)
              end
        end
  end.

(** [mac_rrpair] is not initialised on the path that [goto fail] takes. *)
Definition ieee802_11_set_own_sta_odin (hapd : option nat) : M world Z :=
  match hapd with
  | None => ret RET_ERR
  | Some hapd =>
      b <-- get_bss hapd ;;
      if csa_in_progress b then ret (-1)
      else
        upd_bss hapd (set_beacon_set_done 1) ;;;
        r <-- set_ap hapd (own_sta b) ;;
        match r with
        | ParamsFailed => ret RET_ERR
        | IesFailed => fail UninitRead
        | DriverSaid _ =>
            fnii_send_msg FNII_MSG_UPDATE_STATION (Some (DPair (mkPair (own_addr b) (own_sta b)))) ;;;
            ret RET_SUSS
        end
  end.

(** ** The statistics thread *)

Definition wlan_name (i : Z) : list Z :=
  if bool_decide (i = 0) then str "wlan1" else str "wlan1-" ++ fmt_d 0 i.

Fixpoint all_flows (n : nat) (i : Z) : M world unit :=
  match n with
  | O => ret tt
  | S n' => fnii_get_flow_info (wlan_name i) ;;; all_flows n' (i + 1)
  end.

(** The start of the thread, before its loop. *)
Definition stat_start : M world unit :=
  fnii_update_ap_info ;;;
  fnii_set_socket_status SOCKET_STATUS_ENABLE.

(** The reports of a live link, or its end. *)
Definition stat_report : M world unit :=
  w <-- get ;;
  if bool_decide (beat_status (fn w) = BEAT_LIVE) then
    all_flows WLAN1_VAP_MAX 0 ;;;
    fnii_send_msg FNII_MSG_HEART_BEAT (Some DBeat) ;;;
    ext_ (Sleep 10)
  else drop_link.

(** One turn of [while(1)]. *)
Definition stat_turn : M world unit :=
  status <-- fnii_check_socket_status ;;
  if bool_decide (status <> SOCKET_STATUS_ENABLE) then
    r <-- fnii_connect2master ;;
    if bool_decide (r <> FNII_RET_OK) then
      fnii_set_socket_status SOCKET_STATUS_DISABLE ;;;
      w <-- get ;;
      ext_ (Close (fnii_master_socket (fn w))) ;;;
      ext_ (Sleep 10)
    else
      fnii_reset_dense_station_hash true ;;;
      fnii_update_ap_info ;;;
      ieee802_11_update_all_beacons_odin 0 ;;;
      ext_ (Sleep 30) ;;;
      ieee802_11_update_all_beacons_odin 1 ;;;
      fnii_set_socket_status SOCKET_STATUS_ENABLE ;;;
      stat_report
  else stat_report.

(** ** Virtual APs from the configuration *)

(** What [fnii_roam_add_vap] uses of [struct hostapd_bss_config];
    [ctrl_interface] is a pointer into [strings]. *)
Record bss_config : Type := mkConf {
  c_iface : list Z; c_bssid : list Z; c_ctrl : option positive; c_vlan : list Z }.
Record hostapd_config : Type := mkConfig {
  c_bss : list bss_config; strings : gmap positive (list Z) }.

(** One turn of the loop for BSS number [num_bss]: the new BSS and the strings.
    [bss] starts as a copy of [conf->bss[0]], so [os_free(bss->ctrl_interface)]
    frees the string of the first BSS, which is copied next. *)
Definition add_one_vap (num_bss : Z) (b0 : bss_config) (strs : gmap positive (list Z))
  : res (bss_config * gmap positive (list Z)) :=
  let iface := str "wlan1-" ++ fmt_d 0 num_bss in
  let! b := rd (c_bssid b0) 0 in
  let! mac := wr (c_bssid b0) 0 (uwrap 8 (b + (4 * num_bss - 2))) in
  let! strs := match c_ctrl b0 with
               | None => Ok strs
               | Some p => match strs !! p with
                           | None => Ub UseAfterFree
                           | Some _ => Ok (delete p strs)
                           end
               end in
  match c_ctrl b0 with
  | None => Ub NullDeref
  | Some p => match strs !! p with
              | None => Ub UseAfterFree
              | Some s => let q := fresh (dom strs) in
                          Ok (mkConf iface mac (Some q) iface, <[q := s]> strs)
              end
  end.

(** The loop; [mem] says of each [os_zalloc] (of a BSS and of its RADIUS data)
    whether it succeeds. *)
Fixpoint add_vaps (n : nat) (num_bss : Z) (b0 : bss_config) (mem : list bool) (acc : list bss_config)
    (strs : gmap positive (list Z)) : res (Z * list bss_config * gmap positive (list Z)) :=
  match n with
  | O => Ok (FNII_RET_OK, acc, strs)
  | S n' =>
      match mem with
      | true :: true :: mem' =>
          let! r := add_one_vap num_bss b0 strs in
          add_vaps n' (num_bss + 1) b0 mem' (acc ++ [fst r]) (snd r)
      | _ => Ok (FNII_RET_ERR, acc, strs)
      end
  end.

(** [realloc_ok] is the outcome of [os_realloc_array].  The number of BSSs
    changes only when all were added. *)
Definition fnii_roam_add_vap (realloc_ok : bool) (mem : list bool) (conf : option hostapd_config)
  : res (Z * option hostapd_config) :=
  match conf with
  | None => Ok (FNII_RET_ERR, None)
  | Some c =>
      if realloc_ok then
        match c_bss c with
        | [] => Ub NullDeref
        | b0 :: _ =>
            let! r := add_vaps (WLAN1_VAP_MAX - length (c_bss c)) (zlen (c_bss c)) b0 mem [] (strings c) in
            let '(code, new, strs) := r in
            if bool_decide (code = FNII_RET_OK)
            then Ok (FNII_RET_OK, Some (mkConfig (take WLAN1_VAP_MAX (c_bss c ++ new)) strs))
            else Ok (code, Some (mkConfig (c_bss c) strs))
        end
      else Ok (FNII_RET_ERR, Some c)
  end.

(** ** Configuration: facts *)

Lemma scan_value_skip (pre rest : list Z) i : 62 ∉ pre ->
  scan_value (pre ++ rest) i 0 0 = scan_value rest (i + zlen pre) 0 0.
Proof.
  revert i. induction pre as [|c pre IH]; intros i Hn; [now rewrite Z.add_0_r|].
  apply not_elem_of_cons in Hn as [Hc Hn]. simpl.
  rewrite (bool_decide_eq_false_2 (c = 62 /\ _)) by intuition congruence.
  rewrite bool_decide_eq_false_2 by intuition congruence.
  rewrite IH, zlen_cons by done. f_equal. lia.
Qed.

Lemma scan_value_in (v rest : list Z) i s : 60 ∉ v -> 62 ∉ v -> s <> 0 ->
  scan_value (v ++ 60 :: rest) i s 0 = (s, i + zlen v).
Proof.
  revert i. induction v as [|c v IH]; intros i H1 H2 Hs; simpl.
  - rewrite bool_decide_eq_true_2 by auto. now rewrite Z.add_0_r.
  - apply not_elem_of_cons in H1 as [Hc1 H1]. apply not_elem_of_cons in H2 as [Hc2 H2].
    rewrite (bool_decide_eq_false_2 (c = 62 /\ _)) by intuition congruence.
    rewrite bool_decide_eq_false_2 by intuition congruence.
    rewrite IH, zlen_cons by done. f_equal. lia.
Qed.

(** A configuration line: [pre > value < post], as [grep] prints it. *)
Definition config_line (pre v post : list Z) : list Z := pre ++ [62] ++ v ++ [60] ++ post.

Definition line_ok (pre v post : list Z) : Prop :=
  (62 ∉ pre) /\ (60 ∉ v) /\ (62 ∉ v) /\ zlen v <= 32 /\ 17 <= zlen (config_line pre v post) <= 63.

Lemma read_config_line (w : world) cmd pre v post :
  now_bytes w (Popen cmd) = Some (config_line pre v post) -> line_ok pre v post ->
  fnii_read_config cmd (zeros 32) w
  = Ok ((FNII_RET_OK, v ++ zeros (32 - zlen v)), put_env (logged (Popen cmd) (wenv w)) w).
Proof.
  intros Hout (H1 & H2 & H3 & Hv & Hl). unfold fnii_read_config, bind at 1.
  rewrite popen_run, Hout. change (the_env w) with (wenv w).
  pose proof (zlen_nonneg pre) as Hp. pose proof (zlen_nonneg v) as Hv0. pose proof (zlen_nonneg post) as Hq.
  unfold USERID_FIELD, USERID_VLAUE_MIN, USERID_VLAUE.
  rewrite take_ge by (unfold zlen in Hl; lia).
  rewrite bool_decide_eq_false_2 by lia.
  assert (scan_value (config_line pre v post) 0 0 0 = (zlen pre + 1, zlen pre + 1 + zlen v)) as ->.
  { unfold config_line. rewrite scan_value_skip by done. simpl.
    rewrite scan_value_in by (done || lia). f_equal; lia. }
  assert (zlen (config_line pre v post) = zlen pre + 1 + zlen v + 1 + zlen post) as Lc
    by (unfold config_line; rewrite !zlen_app; simpl; unfold zlen; simpl; lia).
  rewrite bool_decide_eq_false_2 by lia.
  replace (zlen pre + 1 + zlen v - (zlen pre + 1)) with (zlen v) by lia.
  set (w1 := put_env _ w).
  rewrite (bind_Ok _ _ w1 v w1).
  2: { unfold lift, config_line. rewrite app_assoc, slice_mid; [done| |done]. rewrite zlen_app. done. }
  rewrite (bind_Ok _ _ w1 (v ++ zeros (32 - zlen v)) w1); [done|].
  unfold lift.
  assert (zeros 32 = [] ++ zeros (zlen v) ++ zeros (32 - zlen v)) as ->
    by (simpl; unfold zeros; rewrite <- replicate_add; f_equal; lia).
  rewrite (splice_mid [] (zeros (zlen v))); [done|done|]. unfold zeros, zlen. rewrite length_replicate. lia.
Qed.

(** The configuration.  When the two [grep] commands print the elements of
    [config.xml], the host array holds the text of the address and the port is
    the number of the port element, as a 16-bit integer whose unsigned value is
    the port. *)
Theorem config_roundtrip (w : world) (pre1 post1 pre2 post2 ip : list Z) (port : Z)
    (Hip : now_bytes w (Popen GET_MASTERIP) = Some (config_line pre1 ip post1))
    (Hpo : obytes (wenv w) (S (length (trace (wenv w)))) (Popen GET_MASTERPORT)
           = Some (config_line pre2 (fmt_d 0 port) post2))
    (H1 : line_ok pre1 ip post1) (H2 : line_ok pre2 (fmt_d 0 port) post2)
    (Hport : 0 <= port < 2 ^ 16) :
  exists w', fnii_get_master_connect_info w = Ok (FNII_RET_OK, w') /\
    fnii_master_host (fn w') = ip ++ zeros (32 - zlen ip) /\
    uwrap 16 (fnii_master_port (fn w')) = port /\
    trace (wenv w') = trace (wenv w) ++ [Popen GET_MASTERIP; Popen GET_MASTERPORT].
Proof.
  unfold fnii_get_master_connect_info.
  erewrite bind_Ok by (eapply read_config_line; eassumption). cbn [fst snd].
  rewrite bool_decide_eq_true_2 by done. set (w1 := put_env _ w).
  assert (now_bytes w1 (Popen GET_MASTERPORT) = Some (config_line pre2 (fmt_d 0 port) post2)) as Hpo'.
  { rewrite <- Hpo. unfold now_bytes, w1. simpl. rewrite length_app. simpl. f_equal. lia. }
  erewrite bind_Ok by (eapply read_config_line; eassumption). cbn [fst snd].
  rewrite bool_decide_eq_true_2 by done.
  set (w2 := put_env _ w1). rewrite (bind_Ok _ _ w2 tt (upd_fn (set_fnii_master_host (ip ++ zeros (32 - zlen ip))) w2)) by done.
  set (w3 := upd_fn _ w2).
  destruct (fmt_d_digits port ltac:(lia)) as [Hd Hl10].
  assert (0 < 32 - zlen (fmt_d 0 port)) as Hz by (unfold zlen; lia).
  rewrite (bind_Ok _ _ w3 port w3).
  - eexists. split; [reflexivity|]. simpl. split; [done|]. split.
    + rewrite uwrap_swrap. apply Z.mod_small. exact Hport.
    + now rewrite <- app_assoc.
  - unfold lift, atoi_buf. rewrite forallb_app.
    replace (zeros (32 - zlen (fmt_d 0 port))) with (0 :: zeros (31 - zlen (fmt_d 0 port))).
    + simpl forallb. rewrite andb_false_r. rewrite atoi_fmt_d by (lia || reflexivity). done.
    + unfold zeros. replace (Z.to_nat (32 - zlen (fmt_d 0 port))) with (S (Z.to_nat (31 - zlen (fmt_d 0 port)))) by lia.
      done.
Qed.

(** ** Traffic reports: facts *)

(** *** What [iw dev <vif> station dump] prints *)

Fixpoint colons (m : list Z) : list Z :=
  match m with
  | [] => []
  | [b] => fmt_x 2 b
  | b :: m' => fmt_x 2 b ++ 58 :: colons m'
  end.

(** A station: its address, its counters, and the other lines around them. *)
Record iw_station : Type := mkIw {
  iw_mac : list Z; iw_on : list Z; iw_pre : list (list Z); iw_rx : Z; iw_mid : list (list Z);
  iw_tx : Z; iw_post : list (list Z) }.

Definition iw_header (s : iw_station) : list Z := str "Station " ++ colons (iw_mac s) ++ iw_on s.
Definition iw_count (h : list Z) (n : Z) : list Z := h ++ [58; 9] ++ fmt_d 0 n.

Definition iw_lines (s : iw_station) : list (list Z) :=
  iw_header s :: iw_pre s ++ (iw_count rx_bytes (iw_rx s) :: iw_mid s)
  ++ (iw_count tx_bytes (iw_tx s) :: iw_post s).

Definition iw_text (ss : list iw_station) : list Z :=
  concat (map (fun l => l ++ [10]) (concat (map iw_lines ss))).

(** A line that reports something else. *)
Definition other (l : list Z) : Prop :=
  strneq station_word (l ++ [10]) = false /\ strneq tx_bytes (l ++ [10]) = false /\
  strneq rx_bytes (l ++ [10]) = false.

Record iw_ok (s : iw_station) : Prop := {
  io_mac : mac_ok (iw_mac s);
  io_on : stops 16 (iw_on s);
  io_rx : 0 <= iw_rx s < 2 ^ 32;
  io_tx : 0 <= iw_tx s < 2 ^ 32;
  io_other : Forall other (iw_pre s ++ iw_mid s ++ iw_post s);
  io_lines : Forall (fun l => (10 ∉ l) /\ (0 ∉ l) /\ (S (length l) < LINE_LENGTH)%nat) (iw_lines s) }.

(** The counters of the report are [int]s. *)
Definition iw_flow (s : iw_station) : station_flow_s :=
  mkFlow (iw_mac s) (swrap 32 (iw_rx s)) (swrap 32 (iw_tx s)).

Fixpoint send_flows (fs : list station_flow_s) : M world unit :=
  match fs with
  | [] => ret tt
  | f :: fs' => fnii_send_msg FNII_MSG_FLOW_INFO (Some (DFlow f)) ;;; send_flows fs'
  end.

Lemma scan_colons_run m rest : Forall u8 m -> m <> [] -> stops 16 rest ->
  scan_colons (length m) (colons m ++ rest) = m.
Proof.
  intros HF _ Hs. induction HF as [|b m Hb HF IH]; [done|].
  destruct m as [|c m].
  - simpl. rewrite scan_num_hex by done. destruct rest as [|z r]; [done|].
    destruct z as [|p|p]; try done; do 6 (try destruct p as [p|p|]); done.
  - change (colons (b :: c :: m)) with (fmt_x 2 b ++ 58 :: colons (c :: m)).
    change (length (b :: c :: m)) with (S (length (c :: m))). cbn [scan_colons].
    rewrite <- app_assoc, scan_num_hex by done.
    change ((58 :: colons (c :: m)) ++ rest) with (58 :: colons (c :: m) ++ rest). cbv iota.
    now rewrite IH.
Qed.

(** Lines of no interest do not change what the inner loop holds. *)
Lemma flow_loop_other ls rest n mac info (w : world) : Forall other ls -> n <> 2 ->
  flow_loop (map (fun l => l ++ [10]) ls ++ rest) (Some n) mac info w
  = flow_loop rest (Some n) mac info w.
Proof.
  intros HF Hn. induction HF as [|l ls (_ & Ht & Hr) HF IH]; [done|].
  cbn [map app flow_loop]. rewrite Ht, Hr. now rewrite bool_decide_eq_false_2.
Qed.

Lemma flow_loop_outside ls rest mac info (w : world) : Forall other ls ->
  flow_loop (map (fun l => l ++ [10]) ls ++ rest) None mac info w = flow_loop rest None mac info w.
Proof.
  intros HF. induction HF as [|l ls (Hs & _) HF IH]; [done|]. cbn [map app flow_loop]. now rewrite Hs.
Qed.

Lemma all_read_some l : all_read (map Some l) = Ok (map (uwrap 8) l).
Proof. induction l as [|a l IH]; simpl; [done|]. now rewrite IH. Qed.

Lemma uwrap8_id m : Forall u8 m -> map (uwrap 8) m = m.
Proof. induction 1 as [|b m Hb HF IH]; simpl; [done|]. f_equal; [now apply uwrap_small|done]. Qed.

Lemma scan_bytes_run (h : list Z) n old : length h = 9%nat -> 0 <= n < 2 ^ 32 ->
  scan_bytes (iw_count h n ++ [10]) old = swrap 32 n.
Proof.
  intros Hh Hn. unfold scan_bytes, iw_count. rewrite <- !app_assoc, <- Hh, drop_app_length. simpl.
  now rewrite scan_num_dec.
Qed.

Lemma scan_station_run s mac : mac_ok (iw_mac s) -> stops 16 (iw_on s) -> length mac = 6%nat ->
  strneq station_word (iw_header s ++ [10]) = true /\
  scan_station (iw_header s ++ [10]) mac = map Some (iw_mac s).
Proof.
  intros [Lm Hm] Hon Lmac. split; [done|]. unfold scan_station, iw_header.
  assert (scan_colons 6 (drop 7 ((str "Station " ++ colons (iw_mac s) ++ iw_on s) ++ [10])) = iw_mac s) as E.
  { rewrite <- !app_assoc.
    change (scan_colons 6 (colons (iw_mac s) ++ iw_on s ++ [10]) = iw_mac s).
    rewrite <- Lm. apply scan_colons_run; [done|by destruct (iw_mac s)|].
    destruct (iw_on s); [done|exact Hon]. }
  rewrite E, Lm, drop_ge, app_nil_r by lia. done.
Qed.

(** One station block sends one report. *)
Lemma flow_loop_station s rest mac info : iw_ok s -> length mac = 6%nat -> forall w : world,
  flow_loop (map (fun l => l ++ [10]) (iw_lines s) ++ rest) None mac info w
  = (fnii_send_msg FNII_MSG_FLOW_INFO (Some (DFlow (iw_flow s))) ;;;
     flow_loop rest None (map Some (iw_mac s)) (iw_flow s)) w.
Proof.
  intros [Hm Hon Hrx Htx Ho _] Lmac w.
  apply Forall_app in Ho as [Ho1 Ho]. apply Forall_app in Ho as [Ho2 Ho3].
  destruct (scan_station_run s mac Hm Hon Lmac) as [E1 E2].
  unfold iw_lines. rewrite !map_cons, !map_app, !map_cons. cbn [app flow_loop]. rewrite <- !app_assoc.
  rewrite E1, E2, all_read_some, uwrap8_id by apply Hm.
  rewrite (bind_Ok _ _ w (iw_mac s) w) by done.
  rewrite flow_loop_other by done. cbn [flow_loop app flow_mac flow_rx flow_tx].
  assert (forall n, strneq tx_bytes (iw_count rx_bytes n ++ [10]) = false /\
    strneq rx_bytes (iw_count rx_bytes n ++ [10]) = true) as Hr by done.
  destruct (Hr (iw_rx s)) as [-> ->]. rewrite scan_bytes_run by done.
  rewrite bool_decide_eq_false_2 by lia. rewrite <- ?app_assoc, flow_loop_other by (done || lia).
  cbn [flow_loop app flow_mac flow_rx flow_tx].
  assert (forall n, strneq tx_bytes (iw_count tx_bytes n ++ [10]) = true) as -> by done.
  rewrite scan_bytes_run by done. rewrite bool_decide_eq_true_2 by lia.
  apply bind_ext. intros a w'. now rewrite flow_loop_outside.
Qed.

Lemma flow_loop_all ss : forall mac info (w : world), Forall iw_ok ss -> length mac = 6%nat ->
  flow_loop (map (fun l => l ++ [10]) (concat (map iw_lines ss))) None mac info w
  = send_flows (map iw_flow ss) w.
Proof.
  induction ss as [|s ss IH]; intros mac info w HF Lmac; [done|].
  apply Forall_cons in HF as [Hs HF]. cbn [map concat send_flows].
  rewrite map_app, flow_loop_station by done. apply bind_ext. intros a w'. apply IH; [done|].
  rewrite length_map. apply Hs.
Qed.

Definition dump_cmd (vif : list Z) : list Z := str "iw dev " ++ vif ++ str " station dump".

Lemma flow_info_run (w : world) (vif : list Z) (ss : list iw_station) :
  zlen vif <= 100 -> Forall iw_ok ss -> now_bytes w (Popen (dump_cmd vif)) = Some (iw_text ss) ->
  fnii_get_flow_info vif w
  = (ext_ (Popen (dump_cmd vif)) ;;; send_flows (map iw_flow ss) ;;; ret FNII_RET_OK) w.
Proof.
  unfold dump_cmd. intros Hvif Hss Hout. unfold fnii_get_flow_info.
  set (cmd := str "iw dev " ++ vif ++ str " station dump").
  rewrite bool_decide_eq_false_2.
  2: { unfold cmd. rewrite !zlen_app. unfold LINE_LENGTH. change (zlen (str "iw dev ")) with 7.
       change (zlen (str " station dump")) with 13. lia. }
  unfold bind at 1. rewrite popen_run. fold cmd in Hout. rewrite Hout.
  unfold iw_text. rewrite stream_lines_whole; [|unfold LINE_LENGTH; lia|].
  2: { apply Forall_concat, Forall_map. eapply Forall_impl; [exact Hss|]. intros s Hs.
       eapply Forall_impl; [apply (io_lines s Hs)|]. intros l (H1 & _ & H3). done. }
  assert (map cstr (map (fun l => l ++ [10]) (concat (map iw_lines ss)))
          = map (fun l => l ++ [10]) (concat (map iw_lines ss))) as ->.
  { rewrite map_map. apply map_ext_in. intros l Hl. apply cstr_all.
    apply in_concat in Hl as (ls & Hls & Hl). apply in_map_iff in Hls as (s & <- & Hs).
    apply list_elem_of_In in Hs, Hl.
    rewrite Forall_forall in Hss. pose proof (io_lines s (Hss s Hs)) as HF.
    rewrite Forall_forall in HF. destruct (HF l Hl) as (_ & H0 & _).
    rewrite elem_of_app, list_elem_of_singleton. intros [?|[=]]. done. }
  transitivity ((send_flows (map iw_flow ss) ;;; ret FNII_RET_OK) (put_env (logged (Popen cmd) (the_env w)) w)).
  - unfold bind. now rewrite flow_loop_all.
  - reflexivity.
Qed.

(** C29: the traffic reports of a network.  When [iw dev <vif> station dump] lists
    the stations [ss] in its format, whatever other lines it prints about them,
    [fnii_get_flow_info] sends the controller one report per station, in the
    order of the dump, with the station's address and its byte counters, and
    does nothing else. *)
Theorem flow_reports (w : world) (vif : list Z) (ss : list iw_station)
    (Hvif : zlen vif <= 100) (Hss : Forall iw_ok ss)
    (Hout : now_bytes w (Popen (str "iw dev " ++ vif ++ str " station dump")) = Some (iw_text ss)) :
  fnii_get_flow_info vif w
  = (ext_ (Popen (str "iw dev " ++ vif ++ str " station dump")) ;;;
     send_flows (map iw_flow ss) ;;; ret FNII_RET_OK) w.
Proof. now apply flow_info_run. Qed.

(** ** The heart beat *)

(** An environment in which the kernel takes what is sent and [iw] prints its
    format, or does not start. *)
Record link_env (e : env) : Prop := {
  le_send : forall n fd data, 0 <= onum e n (Send fd data);
  le_dump : forall n vif, match obytes e n (Popen (dump_cmd vif)) with
                          | Some out => exists ss, Forall iw_ok ss /\ out = iw_text ss
                          | None => True
                          end }.

(** [w] some calls later, with another message number. *)
Definition reported (cs : list call) (k : Z) (w : world) : world :=
  with_log cs (upd_fn (set_fnii_msg_idf k) w).

Lemma reported_id (w : world) : reported [] (fnii_msg_idf (fn w)) w = w.
Proof. by destruct w as [[] ? ? ? ?]. Qed.

Lemma reported_again ds j cs k w : reported ds j (reported cs k w) = reported (cs ++ ds) j w.
Proof. unfold reported. by rewrite with_log_app. Qed.

Lemma link_env_reported cs k w : link_env (wenv w) -> link_env (wenv (reported cs k w)).
Proof.
  intros [H1 H2]. destruct (logged_all_same cs (wenv w)) as [Eo Eb].
  split; intros n; simpl; [rewrite Eo; apply H1|rewrite Eb; apply H2].
Qed.

(** A computation that returns and changes nothing but the log and the number. *)
Definition reports {A} (m : M world A) : Prop := forall w, idf_ok w -> link_env (wenv w) ->
  fnii_socket_status (fn w) = SOCKET_STATUS_ENABLE ->
  exists a cs k, m w = Ok (a, reported cs k w) /\ 0 <= k <= 9999.

Lemma reports_ret {A} (a : A) : reports (ret a).
Proof. intros w Hi _ _. exists a, [], (fnii_msg_idf (fn w)). by rewrite reported_id. Qed.

Lemma reports_bind {A B} (m : M world A) (f : A -> M world B) :
  reports m -> (forall a, reports (f a)) -> reports (bind m f).
Proof.
  intros Hm Hf w Hi He Hon. destruct (Hm w Hi He Hon) as (a & cs & k & E & Hk).
  destruct (Hf a (reported cs k w)) as (b & ds & j & E2 & Hj); [done|by apply link_env_reported|done|].
  exists b, (cs ++ ds), j. by rewrite (bind_Ok _ _ _ _ _ E), E2, reported_again.
Qed.

Lemma reports_flow s : iw_ok s -> reports (fnii_send_msg FNII_MSG_FLOW_INFO (Some (DFlow (iw_flow s)))).
Proof.
  intros Hs w Hi He Hon. rewrite fnii_send_msg_run; [|done| |left; rewrite Hon; by_check].
  - unfold send_spec. cbv zeta. rewrite bool_decide_eq_false_2 by (apply Z.le_ngt, He).
    eexists _, [_], _. split; [reflexivity|]. by apply next_idf_ok.
  - unfold data_ok, iw_flow. simpl. split; [done|]. split; [apply (io_mac s Hs)|]. split; exact (swrap_range 32 _ eq_refl).
Qed.

Lemma reports_flows ss : Forall iw_ok ss -> reports (send_flows (map iw_flow ss)).
Proof. induction 1; [apply reports_ret|]. apply reports_bind; [by apply reports_flow|done]. Qed.

Lemma reports_ext_ c : reports (ext_ c).
Proof. intros w Hi _ _. exists tt, [c], (fnii_msg_idf (fn w)). split; [by destruct w as [[] ? ? ? ?]|done]. Qed.

Lemma reports_vif vif : zlen vif <= 100 -> reports (fnii_get_flow_info vif).
Proof.
  intros Hv w Hi He Hon. pose proof (le_dump _ He (length (trace (wenv w))) vif) as Hd.
  destruct (obytes _ _ _) as [out|] eqn:Eo.
  - destruct Hd as (ss & Hss & ->). rewrite (flow_info_run w vif ss) by done.
    apply (reports_bind (ext_ _)); [apply reports_ext_|intros _|done|done|done].
    apply reports_bind; [by apply reports_flows|intros _; apply reports_ret].
  - exists FNII_RET_ERR, [Popen (dump_cmd vif)], (fnii_msg_idf (fn w)). split; [|done].
    unfold fnii_get_flow_info. rewrite bool_decide_eq_false_2.
    2: { rewrite !zlen_app. unfold LINE_LENGTH. change (zlen (str "iw dev ")) with 7.
         change (zlen (str " station dump")) with 13. lia. }
    unfold bind at 1. rewrite popen_run. change (now_bytes w _) with (obytes (wenv w) (length (trace (wenv w))) (Popen (dump_cmd vif))).
    rewrite Eo. by destruct w as [[] ? ? ? ?].
Qed.

(** The names of the interfaces are short. *)
Lemma wlan_name_short i : 0 <= i < 16 -> zlen (wlan_name i) <= 100.
Proof.
  intros Hi. assert (Forall (fun i => zlen (wlan_name i) <= 100) (seqZ 0 16)) as HF by by_check.
  rewrite Forall_forall in HF. apply HF, elem_of_seqZ. lia.
Qed.

Lemma reports_all n : forall i, 0 <= i -> i + Z.of_nat n <= 16 -> reports (all_flows n i).
Proof.
  induction n as [|n IH]; intros i Hi Hn; [apply reports_ret|]. apply reports_bind; [|intros _; apply IH; lia].
  apply reports_vif, wlan_name_short. lia.
Qed.

(** The state after the beat number [k]: unanswered. *)
Definition beating (k : Z) (w : world) : world :=
  upd_fn (fun g => set_beat_status BEAT_DEAD (set_beat_cseq k g)) w.
Definition beat_frame (k : Z) : list Z := frame (fmt_d 4 (Z.rem k 9999)) 110 [].

Lemma stat_turn_on (w : world) : fnii_socket_status (fn w) = SOCKET_STATUS_ENABLE ->
  stat_turn w = stat_report w.
Proof.
  intros H. unfold stat_turn, fnii_check_socket_status, bind at 1 2, get, ret. now rewrite H.
Qed.

Lemma stat_report_dead (w : world) : beat_status (fn w) <> BEAT_LIVE -> stat_report w = Ok (tt, dropped w).
Proof. intros H. unfold stat_report, bind at 1, get. now rewrite bool_decide_eq_false_2. Qed.

Lemma send_beat_run (w : world) : idf_ok w -> link_env (wenv w) -> fnii_socket_status (fn w) = SOCKET_STATUS_ENABLE ->
  let k := next_idf (fnii_msg_idf (fn w)) in
  fnii_send_msg FNII_MSG_HEART_BEAT (Some DBeat) w
  = Ok (FNII_RET_OK, reported [Send (send_fd w) (beat_frame k)] k (beating k w)).
Proof.
  intros Hi He Hon k. rewrite fnii_send_msg_run; [|done..|left; rewrite Hon; by_check].
  unfold send_spec. cbv zeta. by rewrite bool_decide_eq_false_2 by (apply Z.le_ngt, He).
Qed.

(** A turn on a live link. *)
Lemma stat_turn_live (w : world) : idf_ok w -> link_env (wenv w) ->
  fnii_socket_status (fn w) = SOCKET_STATUS_ENABLE -> beat_status (fn w) = BEAT_LIVE ->
  exists cs k, 0 <= k <= 9999 /\
    stat_turn w = Ok (tt, reported (cs ++ [Send (send_fd w) (beat_frame k); Sleep 10]) k (beating k w)).
Proof.
  intros Hi He Hon Hl. rewrite stat_turn_on by done. unfold stat_report.
  rewrite (bind_Ok _ _ w w w), bool_decide_eq_true_2 by done.
  destruct (reports_all WLAN1_VAP_MAX 0 ltac:(lia) ltac:(by_check) w Hi He Hon) as ([] & cs & j & E & Hj).
  exists cs, (next_idf j). split; [by apply next_idf_ok|]. rewrite (bind_Ok _ _ _ _ _ E).
  rewrite (bind_Ok _ _ _ _ _ (send_beat_run (reported cs j w) Hj (link_env_reported cs j w He) Hon)).
  unfold reported, beating. rewrite with_log_app. reflexivity.
Qed.

(** C30: the heart beat protocol.  A turn of the statistics thread on an enabled
    link that counts as dead disables, shuts down and closes the link and does
    nothing else.  A turn on a live link, when the kernel takes what is sent and
    [iw] prints its format, keeps the link: it ends with a beat of number [k]
    on the wire and the link counted as dead.  If nothing arrives before the
    next turn, or only answers with another number, that turn ends the link; the
    answer with the number of the beat, and only it, makes the link live again,
    and the next turn keeps it. *)
Theorem heartbeat_monitor (w : world) (Hon : fnii_socket_status (fn w) = SOCKET_STATUS_ENABLE) :
  (beat_status (fn w) <> BEAT_LIVE -> stat_turn w = Ok (tt, dropped w)) /\
  (beat_status (fn w) = BEAT_LIVE -> idf_ok w -> link_env (wenv w) ->
   exists cs k, 0 <= k <= 9999 /\
     let w1 := reported (cs ++ [Send (send_fd w) (beat_frame k); Sleep 10]) k (beating k w) in
     stat_turn w = Ok (tt, w1) /\
     stat_turn w1 = Ok (tt, dropped w1) /\
     (forall cseq, cseq <> Z.rem k 9999 -> fnii_handle_beat cseq w1 = Ok (FNII_RET_ERR, w1)) /\
     fnii_handle_beat (Z.rem k 9999) w1 = Ok (FNII_RET_OK, upd_fn (set_beat_status BEAT_LIVE) w1) /\
     exists w2, stat_turn (upd_fn (set_beat_status BEAT_LIVE) w1) = Ok (tt, w2) /\
                fnii_socket_status (fn w2) = SOCKET_STATUS_ENABLE).
Proof.
  split; [intros Hd; rewrite stat_turn_on by done; by apply stat_report_dead|]. intros Hl Hi He.
  destruct (stat_turn_live w Hi He Hon Hl) as (cs & k & Hk & E). exists cs, k. split; [done|]. cbv zeta.
  set (w1 := reported _ _ _) in *. split; [done|]. split; [rewrite stat_turn_on by done; by apply stat_report_dead|].
  assert (beat_cseq (fn w1) = k) as Ek by done. unfold fnii_handle_beat.
  split; [intros cseq Hc; rewrite (bind_Ok _ _ w1 w1 w1), Ek by done; by rewrite bool_decide_eq_true_2|].
  split; [rewrite (bind_Ok _ _ w1 w1 w1), Ek by done; by rewrite bool_decide_eq_false_2 by tauto|].
  destruct (stat_turn_live (upd_fn (set_beat_status BEAT_LIVE) w1)) as (ds & j & _ & E2); [done| |done|done|].
  - change (link_env (wenv (reported (cs ++ [Send (send_fd w) (beat_frame k); Sleep 10]) k (beating k w)))).
    by apply link_env_reported.
  - eexists. split; [exact E2|done].
Qed.

(** ** Announcing the networks *)

Definition net_ok (b : hostapd_data) : Prop := length (ssid b) = 32%nat /\ 0 <= ssid_len b <= 32.

(** The copy of a network's name: 33 bytes, padded with zeros. *)
Definition ssid33 (b : hostapd_data) : list Z := take (Z.to_nat (ssid_len b)) (ssid b) ++ zeros (33 - ssid_len b).

Lemma ssid33_buf b : net_ok b -> ssid_buf (ssid33 b).
Proof.
  intros [L H]. unfold ssid33, ssid_buf. split.
  - rewrite length_app, length_take. unfold zeros. rewrite length_replicate. lia.
  - apply elem_of_app. right. apply zeros_has. lia.
Qed.

Lemma ssid33_copy b : net_ok b ->
  slice 0 (ssid_len b) (ssid b) = Ok (take (Z.to_nat (ssid_len b)) (ssid b)) /\
  splice 0 (take (Z.to_nat (ssid_len b)) (ssid b)) (zeros 33) = Ok (ssid33 b).
Proof.
  intros [L H]. split.
  - unfold slice, zlen. rewrite bool_decide_eq_true_2 by lia. done.
  - assert (zeros 33 = [] ++ zeros (ssid_len b) ++ zeros (33 - ssid_len b)) as ->
      by (simpl; unfold zeros; rewrite <- replicate_add; f_equal; lia).
    rewrite (splice_mid [] (zeros (ssid_len b))); [done|done|].
    unfold zeros. rewrite length_replicate, length_take. lia.
Qed.

Definition with_ssids (l : list (option (list Z))) (w : world) : world :=
  upd_fn (fun g => set_interface_all_info (set_ia_ssid l (interface_all_info g)) g) w.

Definition slots (done : list (list Z)) (free : nat) : list (option (list Z)) :=
  map Some done ++ replicate free None.

Lemma slots_full done i : i = zlen done -> forall x, wr (slots done 0) i x = Ub OutOfBounds.
Proof.
  intros -> x. unfold wr, slots. rewrite bool_decide_eq_false_2; [done|].
  rewrite zlen_app. unfold zlen. rewrite length_map. simpl. lia.
Qed.

Lemma slots_wr done free i s : i = zlen done ->
  wr (slots done (S free)) i (Some s) = Ok (slots (done ++ [s]) free).
Proof.
  intros ->. rewrite wr_Ok; [|unfold slots; rewrite zlen_app; unfold zlen; rewrite length_map; simpl; lia].
  unfold slots, zlen. rewrite Nat2Z.id, <- (length_map Some done), <- (Nat.add_0_r (length _)), insert_app_r.
  simpl. rewrite map_app, <- app_assoc. done.
Qed.

(** The loop over the networks: it fills the slots, and writes behind the array
    when there are more networks than slots. *)
Lemma copy_ssids_run bs : forall done free (w : world),
  Forall net_ok bs -> (forall t, onum (wenv w) t (Malloc 33) <> 0) ->
  ia_ssid (interface_all_info (fn w)) = slots done free ->
  copy_ssids bs (zlen done) w
  = if bool_decide (length bs <= free)%nat
    then Ok (tt, put_env (logged_all (replicate (length bs) (Malloc 33)) (wenv w))
                   (with_ssids (slots (done ++ map ssid33 bs) (free - length bs)) w))
    else Ub OutOfBounds.
Proof.
  induction bs as [|b bs IH]; intros done free w HF Hm Hs.
  - rewrite bool_decide_eq_true_2 by (simpl; lia). simpl. rewrite app_nil_r, Nat.sub_0_r, <- Hs.
    destruct w as [[? ? ? ? ? ? ? ? ? [] ?] i h m e]. done.
  - apply Forall_cons_1 in HF as [Hb HF]. destruct (ssid33_copy b Hb) as [E1 E2]. cbn [copy_ssids].
    set (w1 := put_env (logged (Malloc 33) (wenv w)) w).
    rewrite (bind_Ok _ _ w (onum (wenv w) (length (trace (wenv w))) (Malloc 33)) w1) by done.
    rewrite (bind_Ok _ _ w1 w1 w1) by done.
    change (ia_ssid (interface_all_info (fn w1))) with (ia_ssid (interface_all_info (fn w))). rewrite Hs.
    destruct free as [|free].
    { rewrite (bind_Ub _ _ _ OutOfBounds), bool_decide_eq_false_2; [done|simpl; lia|].
      unfold lift. now rewrite slots_full. }
    erewrite bind_Ok by (unfold lift; rewrite wr_Ok; [reflexivity|]; unfold slots; rewrite zlen_app;
      unfold zlen; rewrite length_map; simpl; lia).
    rewrite (bind_Ok _ _ _ _ w1) by (unfold lift; rewrite E1; reflexivity).
    rewrite (bind_Ok _ _ _ (ssid33 b) w1)
      by (unfold lift; rewrite bool_decide_eq_false_2 by apply Hm; now rewrite E2).
    rewrite (bind_Ok _ _ _ (slots (done ++ [ssid33 b]) free) w1) by (unfold lift; now rewrite slots_wr).
    rewrite (bind_Ok _ _ w1 tt (with_ssids (slots (done ++ [ssid33 b]) free) w1)) by done.
    replace (zlen done + 1) with (zlen (done ++ [ssid33 b])) by (rewrite zlen_app; done).
    rewrite (IH (done ++ [ssid33 b]) free); [|done|exact Hm|done]. simpl length.
    destruct (decide (length bs <= free)%nat) as [Hl|Hl].
    + rewrite !bool_decide_eq_true_2 by lia. simpl. rewrite <- app_assoc. done.
    + rewrite !bool_decide_eq_false_2 by lia. done.
Qed.

Definition mac_file (w : world) : list Z :=
  if bool_decide (take 4 (phy (ifc w)) = str "phy1") then DS_LOCAL_MAC_FILE1 else DS_LOCAL_MAC_FILE0.

(** The state in which the announcement is sent. *)
Definition nets_copied (w : world) : world :=
  let bs := bss (ifc w) in
  put_env (logged_all (replicate (length bs) (Malloc 33)) (wenv w))
    (upd_fn (set_interface_all_info (mkIfAll STAION_MAX (zlen bs) (channel (ifc w))
       (slots (map ssid33 bs) (8 - length bs)) (ia_work_mode (interface_all_info (fn w))))) w).

(** The first announcement of an AP.  After the address of the radio was
    sent, the names of at most 8 networks are copied into the global that the
    announcement is printed from, each with its final 0, and the announcement is
    sent from there; with more than 8 networks the copy writes behind the array
    of 8 pointers. *)
Theorem networks_announced (w w1 : world) (r : Z)
    (Hphy : length (phy (ifc w)) = 16%nat)
    (Hmac : fnii_get_wan_mac (mac_file w) w = Ok (r, w1))
    (Hempty : ia_ssid (interface_all_info (fn w1)) = replicate 8 None)
    (Hnets : Forall net_ok (bss (ifc w1))) (Hch : 0 <= channel (ifc w1) < 1000)
    (Hmem : forall t, onum (wenv w1) t (Malloc 33) <> 0) :
  (zlen (bss (ifc w1)) <= 8 ->
     fnii_update_ap_info w
     = (fnii_send_msg FNII_MSG_INTERFACE_NUM (Some DIfAll) ;;; ret FNII_RET_OK) (nets_copied w1) /\
     ifall_ok (interface_all_info (fn (nets_copied w1))) (map ssid33 (bss (ifc w1)))) /\
  (zlen (bss (ifc w1)) > 8 -> fnii_update_ap_info w = Ub OutOfBounds).
Proof.
  set (bs := bss (ifc w1)) in *.
  set (w2 := upd_fn (fun g => set_interface_all_info
        (set_ia_ssid_num (zlen bs) (set_ia_vap_num STAION_MAX
          (set_ia_channel (channel (ifc w1)) (interface_all_info g)))) g) w1).
  assert (fnii_update_ap_info w = (copy_ssids bs 0 ;;;
    fnii_send_msg FNII_MSG_INTERFACE_NUM (Some DIfAll) ;;; ret FNII_RET_OK) w2) as ->.
  { unfold fnii_update_ap_info. rewrite (bind_Ok _ _ w w w) by done.
    rewrite (bind_Ok _ _ w (bool_decide (take 4 (phy (ifc w)) = str "phy1")) w).
    2: { unfold lift, memeq. unfold slice at 1. rewrite bool_decide_eq_true_2 by (unfold zlen; lia). done. }
    rewrite (bind_Ok _ _ _ _ _ Hmac), (bind_Ok _ _ w1 w1 w1) by done.
    rewrite (bind_Ok _ _ w1 None w1) by (unfold lift; now rewrite Hempty).
    now rewrite (bind_Ok _ _ w1 tt w2). }
  assert (copy_ssids bs (zlen (@nil (list Z))) w2 = _) as E
    by (apply (copy_ssids_run bs [] 8 w2); [done|exact Hmem|exact Hempty]).
  change (zlen (@nil (list Z))) with 0 in E. split; intros Hn.
  - rewrite bool_decide_eq_true_2 in E by (unfold zlen in Hn; lia).
    rewrite (bind_Ok _ _ _ _ _ E). split; [done|].
    repeat split; try (simpl; done || lia).
    + rewrite zlen_map. done.
    + rewrite zlen_map. done.
    + apply Forall_map. eapply Forall_impl; [exact Hnets|apply ssid33_buf].
    + exists (replicate (8 - length bs) None). done.
  - rewrite bool_decide_eq_false_2 in E by (unfold zlen in Hn; lia).
    now rewrite (bind_Ub _ _ _ OutOfBounds).
Qed.

(** ** After a lost link *)

(** The table of assigned stations. *)
Definition table (w : world) : dense_hash := g_dense_station_hash (fn w).

Lemma send_buf_table buf n : keeps table (send_buf buf n).
Proof. unfold send_buf. keeps_tac idtac. Qed.

Lemma get_ap_au_table mode : keeps table (get_ap_au mode).
Proof. intros w a w' E. rewrite (get_ap_au_env _ _ _ _ E). done. Qed.

Lemma fnii_send_msg_table ty d : keeps table (fnii_send_msg ty d).
Proof.
  unfold fnii_send_msg, fnii_check_socket_status, drop_link, fnii_set_socket_status, send_dispatch.
  unfold fnii_send_msg_ok, fnii_send_msg_err, fnii_send_msg_flow_info, fnii_send_msg_del_sta,
    fnii_send_msg_inerface_all, fnii_send_msg_if_info, fnii_send_msg_new_sta, fnii_send_msg_probe_info,
    fnii_send_msg_local_mac, fnii_send_msg_beat, fnii_send_msg_update_station.
  keeps_tac ltac:(first [apply send_buf_table | apply get_ap_au_table]).
Qed.

Lemma update_ap_info_table : keeps table fnii_update_ap_info.
Proof.
  assert (forall bs i, keeps table (copy_ssids bs i)) as Hc.
  { induction bs as [|b bs IH]; intros i; simpl; keeps_tac ltac:(apply IH). }
  unfold fnii_update_ap_info, fnii_get_wan_mac.
  keeps_tac ltac:(first [apply Hc | apply fnii_send_msg_table]).
Qed.

Lemma build_params_table hapd mac : keeps table (ieee802_11_build_ap_params_odin hapd mac).
Proof.
  unfold ieee802_11_build_ap_params_odin, build_ap_params, hostapd_probe_resp_offloads, hostapd_gen_probe_resp, hostapd_eid_pwr_constraint,
    hostapd_eid_time_adv, hostapd_is_dfs_required, get_bss, get_sta. keeps_tac ltac:(fail).
Qed.

Lemma update_beacons_table flag : keeps table (ieee802_11_update_all_beacons_odin flag).
Proof.
  assert (forall n i, keeps table (set_beacons n i flag)) as Hc.
  { induction n as [|n IH]; intros i; simpl; [apply keeps_ret|].
    unfold ieee802_11_set_beacon_odin, set_ap, upd_bss, get_bss. keeps_tac ltac:(first [apply IH | apply build_params_table]). }
  unfold ieee802_11_update_all_beacons_odin. keeps_tac ltac:(apply Hc).
Qed.

Lemma stat_report_table : keeps table stat_report.
Proof.
  assert (forall ls o m i, keeps table (flow_loop ls o m i)) as Hf.
  { induction ls as [|l ls IH]; intros o m i; simpl; [apply keeps_ret|].
    keeps_tac ltac:(first [apply IH | apply fnii_send_msg_table]). }
  assert (forall n i, keeps table (all_flows n i)) as Ha.
  { induction n as [|n IH]; intros i; simpl; [apply keeps_ret|].
    unfold fnii_get_flow_info, popen. keeps_tac ltac:(first [apply IH | apply Hf]). }
  unfold stat_report, drop_link, fnii_set_socket_status.
  keeps_tac ltac:(first [apply Ha | apply fnii_send_msg_table]).
Qed.

Lemma connect_table : keeps (fun w => (table w, ifc w, heap w)) fnii_connect2master.
Proof. unfold fnii_connect2master. keeps_tac idtac. Qed.

(** After a lost link.  A turn of the statistics thread that finds the link
    disabled either fails to connect, and then leaves the link disabled and the
    table of assigned stations as it was, or starts over with an empty table:
    no assignment made by the controller on the old link survives on the new
    one. *)
Theorem reconnect_forgets (w w' : world)
    (Hoff : fnii_socket_status (fn w) <> SOCKET_STATUS_ENABLE)
    (Hst : stas_ok w) (Hg : dense_ok (g_dense_station_hash (fn w)))
    (Hturn : stat_turn w = Ok (tt, w')) :
  (fnii_socket_status (fn w') = SOCKET_STATUS_DISABLE /\
   g_dense_station_hash (fn w') = g_dense_station_hash (fn w)) \/
  (contents (g_dense_station_hash (fn w')) = ∅ /\ dense_ok (g_dense_station_hash (fn w')) /\
   station_used (g_dense_station_hash (fn w')) = 0).
Proof.
  unfold stat_turn in Hturn.
  rewrite (bind_Ok _ _ w (fnii_socket_status (fn w)) w), bool_decide_eq_true_2 in Hturn by done.
  inv_bind Hturn. pose proof (connect_table _ _ _ E) as [= Et Ei Eh]. revert Hturn.
  case_bool_decide; intros Hturn.
  - left. repeat inv_bind Hturn. inversion E0; subst. inversion E1; subst. inversion E2; subst.
    inversion Hturn; subst. simpl. split; [done|exact Et].
  - right. destruct (reset_run s) as (w1 & H1 & Hc & Hd & Hu & _).
    { unfold stas_ok. now rewrite Ei, Eh. } { fold (table s). now rewrite Et. }
    rewrite (bind_Ok _ _ _ _ _ H1) in Hturn.
    assert (table w' = table w1) as Ew; [|unfold table in Ew; now rewrite Ew].
    revert Hturn. apply (keeps_bind table); [apply update_ap_info_table|]. intros _.
    keeps_tac ltac:(first [apply update_beacons_table | apply stat_report_table
      | unfold fnii_set_socket_status]).
Qed.

(** ** Virtual APs from the configuration: use after free *)

(** Whenever a virtual AP is to be added to a configuration whose first BSS has
    a control interface, its name is read after it was freed. *)
Lemma add_vap_use_after_free (c : hostapd_config) b0 bs p s mem :
  c_bss c = b0 :: bs -> (length (c_bss c) < WLAN1_VAP_MAX)%nat -> c_ctrl b0 = Some p ->
  strings c !! p = Some s -> c_bssid b0 <> [] ->
  fnii_roam_add_vap true (true :: true :: mem) (Some c) = Ub UseAfterFree.
Proof.
  intros Hb Hl Hp Hs Hne. unfold fnii_roam_add_vap. rewrite Hb in Hl |- *.
  destruct (WLAN1_VAP_MAX - length (b0 :: bs))%nat eqn:En; [lia|]. cbn [add_vaps].
  assert (forall n, add_one_vap n b0 (strings c) = Ub UseAfterFree) as E; [|now rewrite E].
  intros k. unfold add_one_vap. destruct (c_bssid b0) as [|m0 m] eqn:Em; [done|].
  assert (rd (m0 :: m) 0 = Ok m0) as -> by done. cbn [res_bind].
  rewrite wr_Ok by (rewrite zlen_cons; pose proof (zlen_nonneg m); lia). cbn [res_bind].
  rewrite Hp, Hs. cbn [res_bind]. now rewrite lookup_delete_eq.
Qed.

(** ** The beacon of a virtual access point *)

(** The BSS after it was given to a station. *)
Definition given_to (mac : list Z) (b : hostapd_data) : hostapd_data :=
  set_flag_priv (if bool_decide (GET_MAC_IDF mac = Ok LOCAL_MAC) then VAP_UNLOCK else VAP_LOCK)
    (set_beacon_set_done 1 (set_own_sta mac b)).

(** The answers of the environment that let a beacon be set. *)
Record settable (w : world) (b : hostapd_data) : Prop := {
  se_memory : forall t n, onum (wenv w) t (Malloc n) <> 0;
  se_ies : forall t, 0 <= onum (wenv w) t (Hostapd (str "hostapd_build_ap_extra_ies") (own_addr b)) }.

Lemma frame_ready_put w i b c : frame_ready (ifc w) b -> bconf c = bconf b -> own_addr c = own_addr b -> ssid c = ssid b -> ssid_len c = ssid_len b ->
  frame_ready (ifc (put_bss i c w)) c.
Proof. intros [H1 H2 H3 H4 H5] E1 E2 E3 E4. split; rewrite ?E1, ?E2, ?E3, ?E4; done. Qed.

(** [set_ap] gives the driver a beacon to [mac]; its result is the driver's. *)
Lemma set_ap_run w i b mac : bss (ifc w) !! i = Some b -> frame_ready (ifc w) b -> length mac = 6%nat -> settable w b ->
  exists p cs, is_beacon (ifc w) b mac p /\ asks cs /\
    let w1 := with_log (cs ++ [Hostapd (str "hostapd_build_ap_extra_ies") (own_addr b)]) w in
    set_ap i mac w = Ok (DriverSaid (onum (wenv w) (length (trace (wenv w1))) (DrvSetAp (own_addr b) p)), with_log [DrvSetAp (own_addr b) p] w1).
Proof.
  intros Hb Hf Hm [M X]. unfold set_ap.
  destruct (build_run w i b Hb Hf) as (cs & Q & [[_ [H|H]]|(capab & tail & resp & H)]); [exfalso; eapply M, H|exfalso; eapply (M _ _ H)|].
  destruct (H mac Hm) as [E B]. set (p := beacon_params _ _ _ _ _) in *. exists p, cs. split; [done|]. split; [done|]. cbv zeta.
  assert (lift (slice 0 ETH_ALEN mac) w = Ok (mac, w)) as Es.
  { unfold lift, slice, ETH_ALEN. rewrite bool_decide_eq_true_2 by (unfold zlen; lia). by rewrite drop_0, take_ge by (by rewrite Hm). }
  unfold ieee802_11_build_ap_params_odin. rewrite bind_assoc, (bind_Ok _ _ _ _ _ Es), (bind_Ok _ _ _ _ _ E).
  rewrite (bind_Ok _ _ _ _ _ (get_bss_run (with_log cs w) i b Hb)), (bind_Ok _ _ _ _ _ (ext_log _ _)).
  rewrite bool_decide_eq_false_2. 2: { simpl. rewrite logged_all_onum. apply Z.le_ngt, X. }
  rewrite (bind_Ok _ _ _ _ _ (ext_log _ _)). rewrite with_log_app. unfold ret. simpl. by rewrite logged_all_onum.
Qed.

Lemma put_bss_log i c cs w : with_log cs (put_bss i c w) = put_bss i c (with_log cs w).
Proof. done. Qed.

(** A virtual access point for a station, as [ieee802_11_update_beacons_odin] makes
    it.  In this version of the program nothing calls it any more (the calls at the
    end of the handlers of [add] and [del] are commented out; the commands change
    the table of assigned stations only).  It hands the BSS of the given address
    to the station: the BSS notes the station and whether it
    has a local address (then the BSS stays open to others), and the driver is given
    one beacon, addressed to that station from the address of the BSS, which
    announces the network of the BSS; nothing else changes, and the result says what
    the driver answered. *)
Theorem vap_announced (w : world) (i : nat) (b : hostapd_data) (info : cmd_msg_s)
    (Hty : cmd_type info = NEW_IF) (Ha : bss_of_addr (bss (ifc w)) (bssid info) 0 = Some i) (Hb : bss (ifc w) !! i = Some b)
    (Hcsa : csa_in_progress b = false) (Hm : mac_ok (stamac info)) (Hf : frame_ready (ifc w) b) (Hu : Forall u8 (ssid b))
    (He : settable w b) :
  exists r p cs, let calls := cs ++ [Hostapd (str "hostapd_build_ap_extra_ies") (own_addr b); DrvSetAp (own_addr b) p] in
    ieee802_11_update_beacons_odin (Some info) w = Ok (r, put_bss i (given_to (stamac info) b) (with_log calls w)) /\ asks cs /\
    (r = RET_SUSS <-> onum (wenv w) (length (trace (wenv w)) + length cs + 1) (DrvSetAp (own_addr b) p) = 0) /\
    slice 4 ETH_ALEN (ap_head p) = Ok (stamac info) /\ slice 10 ETH_ALEN (ap_head p) = Ok (own_addr b) /\
    let body := drop 36 (ap_head p) ++ ap_tail p in
    exists q e, ieee802_11_parse_elems body (zlen body) = Ok (q, e) /\ q <> ParseFailed /\
      forall x, x <> RSN_IE -> x <> WPA_IE -> elem_bytes e x = announced (ifc w) b (Some (beacon_name b)) x.
Proof.
  set (b1 := set_own_sta (stamac info) b). set (b2 := set_beacon_set_done 1 b1). set (w1 := put_bss i b1 w). set (w2 := put_bss i b2 w).
  assert (bss (ifc w1) !! i = Some b1) as Hb1 by (by apply (put_bss_lookup w i b)).
  assert (bss (ifc w2) !! i = Some b2) as Hb2 by (by apply (put_bss_lookup w i b)).
  assert (frame_ready (ifc w2) b2) as Hf2 by (by apply (frame_ready_put w i b b2)).
  assert (settable w2 b2) as He2 by (destruct He as [M X]; split; [exact M|exact X]).
  destruct (set_ap_run w2 i b2 (stamac info) Hb2 Hf2 (proj1 Hm) He2) as (p & cs & B & Q & E).
  destruct (beacon_read _ _ _ _ B Hf2 Hu (proj1 Hm)) as (R1 & R2 & _ & _ & R3).
  exists (if bool_decide (onum (wenv w) (length (trace (wenv w)) + length cs + 1) (DrvSetAp (own_addr b) p) = 0) then RET_SUSS else RET_ERR), p, cs.
  cbv zeta. split; [|split; [done|split; [case_bool_decide; done|split; [exact R1|split; [exact R2|]]]]].
  2: { destruct R3 as (q & e & Ep & Hq & Hx). exists q, e. split; [done|]. split; [done|]. intros x H1 H2. rewrite Hx by done. by destruct x. }
  unfold ieee802_11_update_beacons_odin. rewrite Hty. cbn [bool_decide]. rewrite bool_decide_eq_false_2 by (unfold TYPE_MAX, NEW_IF, DEL_IF; lia).
  assert (ieee802_11_find_bss_odin (Some (bssid info)) None w = Ok ((Some i, None), w)) as Efind.
  { unfold ieee802_11_find_bss_odin. rewrite (bind_Ok _ _ w w w) by done. by rewrite Ha. }
  rewrite bool_decide_eq_true_2 by done. rewrite (bind_Ok _ _ _ _ _ Efind). cbn [fst snd]. cbv zeta.
  rewrite (bind_Ok _ _ _ _ _ (upd_bss_ok w i b (set_own_sta (stamac info)) Hb)). fold b1 w1. rewrite (bind_Ok _ _ _ _ _ (get_bss_run _ _ _ Hb1)).
  change (csa_in_progress b1) with (csa_in_progress b). rewrite Hcsa.
  rewrite (bind_Ok _ _ _ _ _ (upd_bss_ok w1 i b1 (set_beacon_set_done 1) Hb1)). unfold w1. rewrite put_bss_twice. fold b2 w2.
  rewrite (bind_Ok _ _ _ _ _ E). set (w3 := with_log [DrvSetAp _ _] _).
  assert (bss (ifc w3) !! i = Some b2) as Hb3 by exact Hb2. destruct (stamac info) as [|m0 ms] eqn:Emac; [by destruct Hm|].
  unfold ieee802_11_update_bssflag_odin. rewrite bool_decide_eq_false_2 by done. rewrite bind_assoc, (bind_Ok _ _ _ _ _ (get_bss_run _ _ _ Hb3)).
  change (own_sta b2) with (m0 :: ms). rewrite bind_assoc, (bind_Ok _ _ w3 (Z.land m0 2) w3) by done.
  rewrite bind_assoc, (bind_Ok _ _ _ _ _ (upd_bss_ok w3 i b2 _ Hb3)), bind_ret_l. unfold ret. do 2 f_equal.
  - assert (forall x, length (trace (wenv (with_log (cs ++ [x]) w2))) = (length (trace (wenv w)) + length cs + 1)%nat) as ->
      by (intros x; simpl; rewrite logged_all_trace, !length_app; simpl; lia). done.
  - unfold given_to. change (GET_MAC_IDF (m0 :: ms)) with (Ok (A := Z) (Z.land m0 2)).
    assert (bool_decide (Ok (Z.land m0 2) = Ok LOCAL_MAC) = bool_decide (Z.land m0 2 = LOCAL_MAC)) as -> by (apply bool_decide_ext; split; [by intros [= ->]|by intros ->]).
    unfold w3, w2. rewrite !put_bss_log, put_bss_twice, <- with_log_app, <- app_assoc. done.
Qed.

(** ** Concrete runs *)

Definition config_env : env :=
  {| onum := fun _ _ => 0;
     obytes := fun _ c => if bool_decide (c = Popen GET_MASTERIP)
                          then Some (config_line (str "  <masterip") (str "192.168.1.10") (str "/masterip>" ++ [10]))
                          else Some (config_line (str "  <masterport") (str "8888") (str "/masterport>" ++ [10]));
     trace := [] |}.

Lemma config_roundtrip_witness :
  exists w', fnii_get_master_connect_info (demo_world config_env) = Ok (FNII_RET_OK, w') /\
    cstr (fnii_master_host (fn w')) = str "192.168.1.10" /\ uwrap 16 (fnii_master_port (fn w')) = 8888.
Proof.
  destruct (config_roundtrip (demo_world config_env) (str "  <masterip") (str "/masterip>" ++ [10])
    (str "  <masterport") (str "/masterport>" ++ [10]) (str "192.168.1.10") 8888) as (w' & H1 & H2 & H3 & _).
  - reflexivity.
  - reflexivity.
  - by_check.
  - by_check.
  - by_check.
  - exists w'. split; [exact H1|]. split; [rewrite H2; reflexivity|exact H3].
Defined.

Definition demo_iw : iw_station :=
  mkIw mac1 (str " (on wlan1)") [[9] ++ str "inactive time:	20 ms"] 1500 [[9] ++ str "rx packets:	7"]
    3000000000 [[9] ++ str "tx packets:	9"].

Lemma demo_iw_ok : iw_ok demo_iw.
Proof. split; by_check. Qed.

Definition iw_env : env :=
  {| onum := fun _ _ => 61; obytes := fun _ _ => Some (iw_text [demo_iw]); trace := [] |}.

Lemma flow_reports_witness :
  exists w', fnii_get_flow_info (str "wlan1") (demo_world iw_env) = Ok (FNII_RET_OK, w') /\
    length (trace (wenv w')) = 2%nat.
Proof.
  rewrite (flow_reports (demo_world iw_env) (str "wlan1") [demo_iw]).
  - eexists. split; [vm_compute; reflexivity|reflexivity].
  - by_check.
  - repeat constructor; by_check.
  - reflexivity.
Defined.

Lemma iw_link_env : link_env iw_env.
Proof. split; [done|]. intros n vif. exists [demo_iw]. split; [|done]. constructor; [apply demo_iw_ok|constructor]. Qed.

Lemma heartbeat_monitor_witness : exists w1, stat_turn (demo_world iw_env) = Ok (tt, w1) /\ stat_turn w1 = Ok (tt, dropped w1) /\
  fnii_socket_status (fn w1) = SOCKET_STATUS_ENABLE.
Proof.
  assert (idf_ok (demo_world iw_env)) as Hi by (unfold idf_ok; by_check).
  destruct (heartbeat_monitor (demo_world iw_env) eq_refl) as [_ H].
  destruct (H eq_refl Hi iw_link_env) as (cs & k & _ & E & E1 & _).
  eexists. split; [exact E|]. split; [exact E1|done].
Defined.

(** Nothing announced yet. *)
Definition demo_fresh (n : nat) : world :=
  with_ssids (replicate 8 None)
    (upd_ifc (set_bss (replicate n (demo_bss [2; 1; 2; 3; 4; 5] [65; 65]))) (demo_world (const_env 1))).

Definition demo_fresh_mac (n : nat) : world := put_env (logged (Fopen DS_LOCAL_MAC_FILE0) (const_env 1)) (demo_fresh n).

Lemma networks_announced_witness :
  ifall_ok (interface_all_info (fn (nets_copied (demo_fresh_mac 2))))
    (map ssid33 (bss (ifc (demo_fresh_mac 2)))) /\
  fnii_update_ap_info (demo_fresh 9) = Ub OutOfBounds.
Proof.
  split.
  - apply (networks_announced (demo_fresh 2) (demo_fresh_mac 2) FNII_RET_ERR);
      [reflexivity|vm_compute; reflexivity|reflexivity|by_check|by_check|intros t; discriminate|by_check].
  - apply (networks_announced (demo_fresh 9) (demo_fresh_mac 9) FNII_RET_ERR);
      [reflexivity|vm_compute; reflexivity|reflexivity|by_check|by_check|intros t; discriminate|by_check].
Defined.

(** A link that is down, with one station assigned. *)
Definition demo_down : world := upd_fn (set_fnii_socket_status 0) (demo_world1 (const_env 1)).
Definition demo_up : world :=
  match stat_turn demo_down with Ok (_, w) => w | Ub _ => demo_down end.

Lemma reconnect_forgets_witness :
  fnii_socket_status (fn demo_up) = SOCKET_STATUS_ENABLE /\ contents (g_dense_station_hash (fn demo_up)) = ∅.
Proof.
  assert (fnii_socket_status (fn demo_up) = SOCKET_STATUS_ENABLE) as Hon by (vm_compute; reflexivity).
  split; [exact Hon|].
  destruct (reconnect_forgets demo_down demo_up) as [[H _]|[H _]].
  - by_check.
  - apply demo_stas_ok.
  - apply dense_ok_of_check. vm_compute. reflexivity.
  - vm_compute. reflexivity.
  - rewrite Hon in H. discriminate.
  - exact H.
Defined.

(** The second network, for a station with a universal address. *)
Definition set_env : env :=
  {| onum := fun _ c => match c with Malloc _ => 4096 | _ => 0 end; obytes := fun _ _ => None; trace := [] |}.

Lemma vap_announced_witness : exists w' cs p,
  ieee802_11_update_beacons_odin (Some (mkCmd NEW_IF [6; 1; 2; 3; 4; 5] [0; 1; 2; 3; 4; 7])) (demo_world set_env) = Ok (RET_SUSS, w') /\
  trace (wenv w') = cs ++ [DrvSetAp [6; 1; 2; 3; 4; 5] p] /\ slice 4 6 (ap_head p) = Ok [0; 1; 2; 3; 4; 7] /\
  (flag_priv <$> bss (ifc w') !! 1%nat) = Some VAP_LOCK.
Proof.
  destruct (vap_announced (demo_world set_env) 1 (demo_bss [6; 1; 2; 3; 4; 5] [66; 66; 66])
    (mkCmd NEW_IF [6; 1; 2; 3; 4; 5] [0; 1; 2; 3; 4; 7])) as (r & p & cs & E & _ & Hr & H1 & _).
  - reflexivity.
  - by_check.
  - reflexivity.
  - reflexivity.
  - unfold mac_ok, u8. by_check.
  - apply demo_frame_ready; by_check.
  - unfold u8. by_check.
  - split; [intros t n; discriminate|intros t; by_check].
  - assert (r = RET_SUSS) as -> by (apply Hr; reflexivity). eexists _, _, p. split; [exact E|]. split; [|split; [exact H1|reflexivity]].
    unfold put_bss, upd_ifc, with_log. simpl. rewrite logged_all_trace. simpl. apply (app_assoc cs [_] [_]).
Defined.
