(* ===== verification/Stamgd.v ===== *)
(** * The client of the station manager: [hostapd/main.c]

    hostapd tells a local daemon which stations are connected, over a stream
    socket ([/tmp/stamgd.socket]).  [fnii_new_sta] and [fnii_del_sta] keep the
    list [master.sta] and send a message for each change; a lost connection is
    set up again by a timer.  The layout of the messages
    ([struct hostapd_sta_updown]) is in a header that the repository does not
    have: it is the class [StamgdFormat]. *)

From stdpp Require Import base list numbers gmap strings.
From Stdlib Require Import ZArith Lia.
From S2P Require Import Prelude CString Dense Env World Station.
Local Open Scope Z_scope.

Definition FNII_PKT_TYPE_MODULE : Z := 0.
Definition FNII_PKT_TYPE_USR_DATA : Z := 1.
Definition STAMGD_SOCKET : list Z := str "/tmp/stamgd.socket".
Definition F_PKT_BUF : Z := 1024.

Inductive sta_event : Type := HOSTAPD_EVENT_STA_UP | HOSTAPD_EVENT_STA_DOWN.

(** [struct hostapd_sta_updown] with [pkt_type] = [HOSTAPD_PKT_STA_UPDW];
    [None]: not assigned. *)
Record hostapd_sta_updown : Type := mkUpdw {
  ud_mac : list Z;
  ud_event : sta_event;
  ud_ssid : option (list Z);
  ud_iface : option (list Z);
  ud_channel : option Z }.

(** The bytes of the structure; members that are not assigned have some value.
    It fits the packet, and has room for the event and the address. *)
Class StamgdFormat : Type := {
  updw_bytes : hostapd_sta_updown -> list Z;
  updw_size : Z;
  updw_length : forall u, zlen (updw_bytes u) = updw_size;
  updw_fits : 0 <= updw_size <= F_PKT_BUF - 4;
  updw_event_mac : forall u v, length (ud_mac u) = 6%nat -> length (ud_mac v) = 6%nat ->
    updw_bytes u = updw_bytes v -> ud_mac u = ud_mac v /\ ud_event u = ud_event v }.

(** ** Sending *)

(** [pkt_type] and [pkt_len], 16 bits each, and the data. *)
Definition word16 (z : Z) : list Z := [z mod 256; z / 256 mod 256].
Definition stamgd_frame (data_type : Z) (data : list Z) : list Z :=
  word16 data_type ++ word16 (4 + zlen data) ++ data.

(** The loop: what is left of the packet, and how much was sent.  [fuel] is its
    size at the start: every turn that goes on sends a byte. *)
Fixpoint send_rest (fuel : nat) (sock : Z) (rest : list Z) (len : Z) : M world Z :=
  if bool_decide (zlen rest <= 0) then ret len
  else
    match fuel with
    | O => fail OutOfFuel
    | S f =>
        r <-- ext (Send sock rest) ;;
        if bool_decide (r <= 0) then ret r
        else send_rest f sock (drop (Z.to_nat r) rest) (len + r)
    end.

(** [semd_msg2stamg(sock, buf, length, data_type)]. *)
Definition semd_msg2stamg (sock : Z) (data : list Z) (data_type : Z) : M world Z :=
  w <-- get ;;
  if bool_decide (ss (master w) <> 1) then ret (-1)
  else if bool_decide (zlen data > F_PKT_BUF - 4) then fail OutOfBounds
  else
    let pkt := stamgd_frame data_type data in
    send_rest (length pkt) sock pkt 0.

(** ** The list of stations *)

Section Client.
Context `{StamgdFormat}.

Definition send_updw (u : hostapd_sta_updown) : M world Z :=
  w <-- get ;; semd_msg2stamg (sock (master w)) (updw_bytes u) FNII_PKT_TYPE_USR_DATA.

Definition set_msta (l : list (list Z * list Z)) (m : fnii_client_master) : fnii_client_master :=
  mkMaster (sock m) (ss m) l.
Definition set_sock (s state : Z) (m : fnii_client_master) : fnii_client_master := mkMaster s state (msta m).

(** [snprintf(updw.ssid_assoc, 32, "%s", ssid)]: the text is read to its final 0. *)
Definition ssid_text (ssid : list Z) : M world (list Z) :=
  n <-- lift (strlen ssid) ;; ret (take 31 (cstr ssid)).

Definition event_cmd (event : string) (mac : list Z) : list Z :=
  str "fnii_sta_event.sh " ++ str event ++ str " " ++
  concat (imap (fun i b => (if bool_decide (i = O) then [] else [58]) ++ fmt_x 2 b) (take 6 mac)).

Definition updown (event : sta_event) (mac ssid iface : list Z) (ch : Z) : M world unit :=
  text <-- ssid_text ssid ;;
  send_updw (mkUpdw mac event (Some text) (Some iface) (Some (uwrap 8 ch))) ;;;
  ext_ (System (event_cmd (match event with HOSTAPD_EVENT_STA_UP => "online" | _ => "offline" end) mac)).

(** [sizeof(struct fnii_sta_list)]: two pointers and 23 bytes. *)
Definition sizeof_sta_list : Z := 32.

Definition fnii_new_sta (mac ssid_assoc iface : list Z) (ch : Z) : M world unit :=
  w <-- get ;;
  if existsb (fun e => bool_decide (fst e = mac)) (msta (master w)) then ret tt
  else
    r <-- ext (Malloc sizeof_sta_list) ;;
    (if bool_decide (r = 0) then ret tt
     else modify (upd_master (fun m => set_msta ((mac, iface) :: msta m) m))) ;;;
    updown HOSTAPD_EVENT_STA_UP mac ssid_assoc iface ch.

(** The list without its first entry of this station and interface, if there is
    one. *)
Fixpoint msta_del (mac iface : list Z) (l : list (list Z * list Z)) : option (list (list Z * list Z)) :=
  match l with
  | [] => None
  | e :: l' =>
      if bool_decide (fst e = mac /\ snd e = iface) then Some l'
      else match msta_del mac iface l' with Some l'' => Some (e :: l'') | None => None end
  end.

Definition fnii_del_sta (mac ssid_assoc iface : list Z) (ch : Z) : M world unit :=
  w <-- get ;;
  match msta_del mac iface (msta (master w)) with
  | None => ret tt
  | Some l => modify (upd_master (set_msta l)) ;;; updown HOSTAPD_EVENT_STA_DOWN mac ssid_assoc iface ch
  end.

(** ** The connection *)

Definition send_hostapd_name2stamgd : M world Z :=
  w <-- get ;; semd_msg2stamg (sock (master w)) (str "hostapd" ++ [0]) FNII_PKT_TYPE_MODULE.

Definition reconnect_timer : M world Z :=
  ext (EloopTimeout 1 (str "eloop_connect_stamgd") []).

(** [stamg_client_read(sock)]: [false] when the process exits. *)
Definition stamg_client_read (sock : Z) : M world bool :=
  ext_ (EloopUnregister sock) ;;;
  r <-- ext (Recv sock 512) ;;
  if bool_decide (r <= 0) then t <-- reconnect_timer ;; ret (bool_decide (t = 0)) else ret true.

(** Every station of the list is announced again; only [mac], [event] and
    [pkt_type] of the message are assigned. *)
Fixpoint announce_all (l : list (list Z * list Z)) : M world unit :=
  match l with
  | [] => ret tt
  | e :: l' => send_updw (mkUpdw (fst e) HOSTAPD_EVENT_STA_UP None None None) ;;; announce_all l'
  end.

Definition connect2stamg_success : M world unit := w <-- get ;; announce_all (msta (master w)).

Definition connect_err : M world unit :=
  w <-- get ;;
  ext_ (Close (sock (master w))) ;;;
  modify (upd_master (set_sock (-1) 0)) ;;;
  reconnect_timer ;;;
  ret tt.

Definition eloop_connect_stamgd : M world unit :=
  fd <-- ext Socket ;;
  modify (upd_master (fun m => set_sock fd (ss m) m)) ;;;
  if bool_decide (fd < 0) then connect_err
  else
    r <-- ext (Fcntl fd) ;;
    if bool_decide (r <> 0) then connect_err
    else
      r <-- ext (Connect fd STAMGD_SOCKET 0) ;;
      if bool_decide (r < 0) then connect_err
      else
        modify (upd_master (fun m => set_sock (sock m) 1 m)) ;;;
        r <-- send_hostapd_name2stamgd ;;
        if bool_decide (r <= 0) then connect_err
        else
          r <-- ext (EloopReadSock fd) ;;
          if bool_decide (r < 0) then connect_err else connect2stamg_success.

(** [fnii_connect_to_stamgd]: [master] is cleared, and the timer set. *)
Definition fnii_connect_to_stamgd : M world Z :=
  modify (upd_master (fun _ => mkMaster 0 0 [])) ;;;
  r <-- reconnect_timer ;;
  ret (if bool_decide (r <> 0) then -1 else 0).
End Client.

(** ** What reaches the daemon *)

(** The bytes that a socket took: of each [send] on it as many as it returned. *)
Fixpoint accepted (o : nat -> call -> Z) (s : Z) (i : nat) (cs : list call) : list Z :=
  match cs with
  | [] => []
  | c :: cs' =>
      match c with
      | Send fd data => if bool_decide (fd = s) then take (Z.to_nat (o i c)) data else []
      | _ => []
      end ++ accepted o s (S i) cs'
  end.

Definition wire (s : Z) (w : world) : list Z := accepted (onum (wenv w)) s 0 (trace (wenv w)).

Lemma accepted_app o s i cs ds : accepted o s i (cs ++ ds) = accepted o s i cs ++ accepted o s (i + length cs) ds.
Proof.
  revert i. induction cs as [|c cs IH]; intros i; simpl; [now rewrite Nat.add_0_r|].
  rewrite IH, <- app_assoc. do 2 f_equal. f_equal. lia.
Qed.

Lemma wire_app s cs w :
  wire s (with_log cs w) = wire s w ++ accepted (onum (wenv w)) s (length (trace (wenv w))) cs.
Proof. unfold wire, with_log. simpl. now rewrite logged_all_onum, logged_all_trace, accepted_app. Qed.

Lemma send_rest_run fuel s : forall rest len w, (length rest <= fuel)%nat -> 0 <= len ->
  exists r cs n, send_rest fuel s rest len w = Ok (r, with_log cs w) /\ (n <= length rest)%nat /\
    accepted (onum (wenv w)) s (length (trace (wenv w))) cs = take n rest /\
    (if bool_decide (n = length rest) then len + zlen rest <= r else r <= 0).
Proof.
  induction fuel as [|f IH]; intros rest len w Hf Hl.
  - destruct rest; [|simpl in Hf; lia]. exists len, [], 0%nat. split; [|split; [done|split; [done|]]].
    + unfold send_rest. rewrite bool_decide_eq_true_2 by (unfold zlen; simpl; lia). unfold ret, with_log. simpl.
      now destruct w.
    + rewrite bool_decide_eq_true_2 by done. unfold zlen. simpl. lia.
  - cbn [send_rest]. case_bool_decide as E.
    + assert (rest = []) as -> by (destruct rest; [done|unfold zlen in E; simpl in E; lia]).
      exists len, [], 0%nat. split; [unfold ret, with_log; simpl; now destruct w|]. split; [done|]. split; [done|].
      rewrite bool_decide_eq_true_2 by done. unfold zlen. simpl. lia.
    + rewrite (bind_Ok _ _ _ _ _ (ext_log _ _)). set (r := onum _ _ _). case_bool_decide as Er.
      * exists r, [Send s rest], 0%nat. split; [done|]. split; [lia|]. split.
        -- simpl. fold r. rewrite bool_decide_eq_true_2 by done. rewrite app_nil_r.
           replace (Z.to_nat r) with 0%nat by lia. done.
        -- rewrite bool_decide_eq_false_2; [done|]. unfold zlen in E. lia.
      * destruct (IH (drop (Z.to_nat r) rest) (len + r) (with_log [Send s rest] w)) as (r' & cs & n & Hr & Hn & Hc & Hz);
          [rewrite length_drop; lia|lia|].
        rewrite length_drop in Hn. exists r', (Send s rest :: cs), (Nat.min (Z.to_nat r) (length rest) + n)%nat.
        split; [rewrite Hr; f_equal; f_equal; symmetry; apply (with_log_app [_])|]. split; [lia|]. split.
        -- simpl. fold r. rewrite bool_decide_eq_true_2 by done.
           unfold with_log in Hc. simpl in Hc. rewrite length_app, Nat.add_1_r in Hc. rewrite Hc.
           destruct (decide (Z.to_nat r <= length rest)%nat) as [Hle|Hgt].
           ++ rewrite Nat.min_l by lia. now rewrite <- take_take_drop.
           ++ rewrite drop_ge, take_nil, app_nil_r by lia. rewrite !take_ge by lia. done.
        -- rewrite length_drop in Hz. unfold zlen in *. rewrite length_drop in Hz. repeat case_bool_decide; lia.
Qed.

Lemma semd_run w s data ty : ss (master w) = 1 -> zlen data <= F_PKT_BUF - 4 ->
  exists r cs n, semd_msg2stamg s data ty w = Ok (r, with_log cs w) /\
    accepted (onum (wenv w)) s (length (trace (wenv w))) cs = take n (stamgd_frame ty data) /\
    (0 < r <-> n = length (stamgd_frame ty data)).
Proof.
  intros Hup Hfit. set (pkt := stamgd_frame ty data). assert (0 < length pkt)%nat as Hpos by (simpl; lia).
  destruct (send_rest_run (length pkt) s pkt 0 w) as (r & cs & n & Hr & Hn & Hc & Hz); [lia..|].
  exists r, cs, n. split; [|split; [done|]].
  - unfold semd_msg2stamg. rewrite (bind_Ok _ _ _ w w) by done. rewrite bool_decide_eq_false_2 by lia.
    rewrite bool_decide_eq_false_2 by lia. exact Hr.
  - unfold zlen in Hz. case_bool_decide; lia.
Qed.

(** One packet.  With the connection up and data that fits, the call returns
    and changes nothing but what was sent.  On the wire is a beginning of the
    packet; the result is positive exactly when it is all of it. *)
Theorem semd_msg2stamg_sends (w : world) (s : Z) (data : list Z) (ty : Z)
    (Hup : ss (master w) = 1) (Hfit : zlen data <= F_PKT_BUF - 4) :
  exists r cs n, semd_msg2stamg s data ty w = Ok (r, with_log cs w) /\
    wire s (with_log cs w) = wire s w ++ take n (stamgd_frame ty data) /\
    (0 < r <-> n = length (stamgd_frame ty data)).
Proof.
  destruct (semd_run w s data ty Hup Hfit) as (r & cs & n & Hr & Hc & Hz).
  exists r, cs, n. split; [done|]. split; [|done]. now rewrite wire_app, Hc.
Qed.

Section Tracking.
Context `{StamgdFormat} (s : Z).

(** The connection is up, and everything works: each [send] takes all it is
    given, memory is there. *)
Record healthy (w : world) : Prop := {
  he_up : ss (master w) = 1;
  he_sock : sock (master w) = s;
  he_send : forall i fd d, onum (wenv w) i (Send fd d) = zlen d;
  he_mem : forall i n, onum (wenv w) i (Malloc n) <> 0 }.

Definition updw_frame (u : hostapd_sta_updown) : list Z := stamgd_frame FNII_PKT_TYPE_USR_DATA (updw_bytes u).

Lemma take_all_bytes (l : list Z) : take (Z.to_nat (zlen l)) l = l.
Proof. apply take_ge. unfold zlen. lia. Qed.

Lemma semd_healthy w data ty : healthy w -> zlen data <= F_PKT_BUF - 4 ->
  semd_msg2stamg s data ty w = Ok (zlen (stamgd_frame ty data), with_log [Send s (stamgd_frame ty data)] w).
Proof.
  intros Hw Hfit. unfold semd_msg2stamg. rewrite (bind_Ok _ _ _ w w) by done.
  rewrite bool_decide_eq_false_2 by (rewrite (he_up _ Hw); lia). rewrite bool_decide_eq_false_2 by lia.
  set (pkt := stamgd_frame ty data). assert (0 < zlen pkt) as Hpos.
  { unfold pkt, stamgd_frame. rewrite zlen_app. unfold word16. pose proof (zlen_nonneg (word16 (4 + zlen data) ++ data)).
    change (zlen [ty mod 256; ty / 256 mod 256]) with 2. unfold word16 in *. lia. }
  destruct (length pkt) as [|f] eqn:E; [unfold zlen in Hpos; lia|]. cbn [send_rest].
  rewrite bool_decide_eq_false_2 by lia. rewrite (bind_Ok _ _ _ _ _ (ext_log _ _)). rewrite (he_send _ Hw).
  rewrite bool_decide_eq_false_2 by lia. rewrite drop_ge by (unfold zlen; lia).
  destruct f; cbn [send_rest]; rewrite bool_decide_eq_true_2 by (unfold zlen; simpl; lia); done.
Qed.

(** A message and the command that goes with it. *)
Lemma updown_run w ev mac sd ifn ch : healthy w -> 0 ∈ sd ->
  exists u cs, updown ev mac sd ifn ch w = Ok (tt, with_log cs w) /\ ud_event u = ev /\ ud_mac u = mac /\
    wire s (with_log cs w) = wire s w ++ updw_frame u.
Proof.
  intros Hw Hsd.
  set (u := mkUpdw mac ev (Some (take 31 (cstr sd))) (Some ifn) (Some (uwrap 8 ch))).
  set (cmd := event_cmd (match ev with HOSTAPD_EVENT_STA_UP => "online" | _ => "offline" end) mac).
  exists u, [Send s (updw_frame u); System cmd]. split; [|split; [done|split; [done|]]].
  - unfold updown, ssid_text, strlen. rewrite bool_decide_eq_true_2 by done.
    rewrite (bind_Ok _ _ _ (take 31 (cstr sd)) w) by done.
    unfold send_updw. rewrite bind_assoc, (bind_Ok _ _ w w w) by done. rewrite (he_sock _ Hw). fold u.
    rewrite (bind_Ok _ _ _ _ _ (semd_healthy w (updw_bytes u) _ Hw ltac:(rewrite updw_length; apply updw_fits))).
    reflexivity.
  - rewrite wire_app. simpl. rewrite bool_decide_eq_true_2 by done. rewrite (he_send _ Hw), take_all_bytes.
    now rewrite app_nil_r.
Qed.

(** What the daemon makes of a message: a station comes that was not there, or one
    goes that was. *)
Definition daemon (X : gset (list Z)) (m : hostapd_sta_updown) : option (gset (list Z)) :=
  match ud_event m with
  | HOSTAPD_EVENT_STA_UP => if decide (ud_mac m ∈ X) then None else Some ({[ud_mac m]} ∪ X)
  | HOSTAPD_EVENT_STA_DOWN => if decide (ud_mac m ∈ X) then Some (X ∖ {[ud_mac m]}) else None
  end.

Fixpoint daemon_all (X : gset (list Z)) (ms : list hostapd_sta_updown) : option (gset (list Z)) :=
  match ms with
  | [] => Some X
  | m :: ms' => match daemon X m with Some Y => daemon_all Y ms' | None => None end
  end.

Definition listed (w : world) : gset (list Z) := list_to_set (map fst (msta (master w))).

(** The calls of the access point. *)
Inductive sta_call : Type :=
| NewSta (mac ssid iface : list Z) (ch : Z)
| DelSta (mac ssid iface : list Z) (ch : Z).

Definition call_ssid (c : sta_call) : list Z := match c with NewSta _ x _ _ | DelSta _ x _ _ => x end.

Definition do_call (c : sta_call) : M world unit :=
  match c with
  | NewSta mac sd ifn ch => fnii_new_sta mac sd ifn ch
  | DelSta mac sd ifn ch => fnii_del_sta mac sd ifn ch
  end.

Fixpoint do_calls (cs : list sta_call) : M world unit :=
  match cs with [] => ret tt | c :: cs' => do_call c ;;; do_calls cs' end.

Lemma daemon_app X ms ms' : daemon_all X (ms ++ ms')
  = match daemon_all X ms with Some Y => daemon_all Y ms' | None => None end.
Proof. revert X. induction ms as [|m ms IH]; intros X; simpl; [done|]. destruct (daemon X m); auto. Qed.

Lemma msta_del_some mac ifn l l' : msta_del mac ifn l = Some l' ->
  exists a b, l = a ++ (mac, ifn) :: b /\ l' = a ++ b.
Proof.
  revert l'. induction l as [|e l IH]; intros l'; simpl; [done|]. case_bool_decide as E.
  - intros [= <-]. exists [], l. destruct E as [<- <-]. now destruct e.
  - destruct (msta_del mac ifn l) as [l''|]; [|done]. intros [= <-].
    destruct (IH _ eq_refl) as (a & b & -> & ->). now exists (e :: a), b.
Qed.

Definition tracked (w : world) (ms : list hostapd_sta_updown) (w' : world) : Prop :=
  healthy w' /\ NoDup (map fst (msta (master w'))) /\
  wire s w' = wire s w ++ concat (map updw_frame ms) /\
  daemon_all (listed w) ms = Some (listed w').

Lemma tracked_log w cs : healthy w -> wire s (with_log cs w) = wire s w -> NoDup (map fst (msta (master w))) ->
  tracked w [] (with_log cs w).
Proof.
  intros [] Hc Hn. split; [|split; [done|split; [simpl; now rewrite app_nil_r|done]]].
  split; try done; simpl; now rewrite logged_all_onum.
Qed.

Lemma healthy_log w cs : healthy w -> healthy (with_log cs w).
Proof. intros []. split; try done; simpl; now rewrite logged_all_onum. Qed.

Lemma do_call_run w c : healthy w -> NoDup (map fst (msta (master w))) -> 0 ∈ call_ssid c ->
  exists ms w', do_call c w = Ok (tt, w') /\ tracked w ms w'.
Proof.
  intros Hw Hn Hsd. destruct c as [mac sd ifn ch|mac sd ifn ch]; simpl in *.
  - unfold fnii_new_sta. rewrite (bind_Ok _ _ w w w) by done. destruct (existsb _ _) eqn:Ex.
    { exists [], w. split; [done|]. split; [done|split; [done|split; [now rewrite app_nil_r|done]]]. }
    assert (mac ∉ map fst (msta (master w))) as Hmac.
    { intros (e & -> & He)%list_elem_of_fmap. apply not_true_iff_false in Ex. apply Ex, existsb_exists.
      exists e. split; [now apply list_elem_of_In|]. now apply bool_decide_eq_true_2. }
    rewrite (bind_Ok _ _ _ _ _ (ext_log _ _)). rewrite bool_decide_eq_false_2 by apply (he_mem _ Hw).
    set (w1 := upd_master (fun m => set_msta ((mac, ifn) :: msta m) m) (with_log [Malloc sizeof_sta_list] w)).
    rewrite (bind_Ok _ _ _ tt w1) by done.
    assert (healthy w1) as Hw1 by (pose proof (healthy_log w [Malloc sizeof_sta_list] Hw) as []; by split).
    destruct (updown_run w1 HOSTAPD_EVENT_STA_UP mac sd ifn ch Hw1 Hsd) as (u & cs & E & Eu & Em & Hc).
    exists [u], (with_log cs w1). split; [exact E|]. split; [now apply healthy_log|].
    split; [simpl; now constructor|]. split.
    + rewrite Hc. simpl. rewrite app_nil_r. f_equal.
      change (wire s w1) with (wire s (with_log [Malloc sizeof_sta_list] w)). rewrite wire_app. simpl. now rewrite app_nil_r.
    + simpl. unfold daemon. rewrite Eu, Em. unfold listed. rewrite decide_False by (rewrite elem_of_list_to_set; done).
      done.
  - unfold fnii_del_sta. rewrite (bind_Ok _ _ w w w) by done. destruct (msta_del _ _ _) as [l|] eqn:Ed.
    2: { exists [], w. split; [done|]. split; [done|split; [done|split; [now rewrite app_nil_r|done]]]. }
    apply msta_del_some in Ed as (a & b & El & ->).
    set (w1 := upd_master (set_msta (a ++ b)) w). rewrite (bind_Ok _ _ _ tt w1) by done.
    assert (healthy w1) as Hw1 by (destruct Hw; by split).
    destruct (updown_run w1 HOSTAPD_EVENT_STA_DOWN mac sd ifn ch Hw1 Hsd) as (u & cs & E & Eu & Em & Hc).
    rewrite El, map_app in Hn. simpl in Hn. apply NoDup_app in Hn as (Na & Nab & Nb). apply NoDup_cons in Nb as [Nm Nb].
    exists [u], (with_log cs w1). split; [exact E|]. split; [now apply healthy_log|]. split.
    { simpl. rewrite map_app. apply NoDup_app. split; [done|]. split; [|done]. intros x Hx Hx'. apply (Nab x Hx). now right. }
    split; [rewrite Hc; simpl; now rewrite app_nil_r|].
    simpl. unfold daemon. rewrite Eu, Em. unfold listed. change (msta (master w1)) with (a ++ b).
    change (msta (master (with_log cs w1))) with (a ++ b). rewrite El, !map_app. simpl.
    rewrite decide_True by (rewrite elem_of_list_to_set, elem_of_app; right; constructor). f_equal.
    specialize (Nab mac). assert (mac ∉ map fst a) as Na' by (intros Hx; apply (Nab Hx); left).
    apply set_eq. intros x. rewrite elem_of_difference, !elem_of_list_to_set, !elem_of_app, elem_of_cons, not_elem_of_singleton.
    split; [intros [[Ha|[Hx|Hb]] Hne]; [by left|by destruct Hne|by right]|].
    intros Hx. split; [destruct Hx as [Ha|Hb]; [by left|by right; right]|]. intros ->. by destruct Hx.
Qed.
End Tracking.

(** C11: the daemon's list.  While the connection is up and memory is there, after
    any sequence of calls of [fnii_new_sta] and [fnii_del_sta] the wire holds one
    frame per change, in order; a daemon that takes the frames one by one never
    sees a station come twice or one go that was not there, and ends with exactly
    the stations of [master.sta]. *)
Theorem stations_tracked `{StamgdFormat} (w : world) (cs : list sta_call)
    (Hw : healthy (sock (master w)) w) (Hn : NoDup (map fst (msta (master w))))
    (Hs : Forall (fun c => 0 ∈ call_ssid c) cs) :
  exists ms w', do_calls cs w = Ok (tt, w') /\ NoDup (map fst (msta (master w'))) /\
    wire (sock (master w)) w' = wire (sock (master w)) w ++ concat (map updw_frame ms) /\
    daemon_all (listed w) ms = Some (listed w').
Proof.
  set (s := sock (master w)) in *. clearbody s.
  assert (exists ms w', do_calls cs w = Ok (tt, w') /\ tracked s w ms w') as (ms & w' & E & T).
  { revert w Hw Hn. induction Hs as [|c cs Hc Hs IH]; intros w Hw Hn.
    - exists [], w. split; [done|]. split; [done|split; [done|split; [now rewrite app_nil_r|done]]].
    - destruct (do_call_run s w c Hw Hn Hc) as (ms1 & w1 & E1 & Hw1 & Hn1 & W1 & D1).
      destruct (IH w1 Hw1 Hn1) as (ms2 & w2 & E2 & Hw2 & Hn2 & W2 & D2).
      exists (ms1 ++ ms2), w2. split; [simpl; now rewrite (bind_Ok _ _ _ _ _ E1)|].
      split; [done|split; [done|]]. rewrite W2, W1, map_app, concat_app, app_assoc. split; [done|].
      now rewrite daemon_app, D1. }
  exists ms, w'. split; [done|]. apply T.
Qed.

(** ** Reconnection *)

Section Reconnect.
Context `{StamgdFormat}.

Lemma send_updw_any w u : ss (master w) = 1 -> exists r cs, send_updw u w = Ok (r, with_log cs w).
Proof.
  intros Hup. unfold send_updw. rewrite (bind_Ok _ _ w w w) by done.
  destruct (semd_run w (sock (master w)) (updw_bytes u) FNII_PKT_TYPE_USR_DATA Hup) as (r & cs & _ & E & _).
  - rewrite updw_length. apply updw_fits.
  - now exists r, cs.
Qed.

Lemma announce_any l : forall w, ss (master w) = 1 -> exists cs, announce_all l w = Ok (tt, with_log cs w).
Proof.
  induction l as [|e l IH]; intros w Hup; simpl.
  - exists []. now destruct w.
  - destruct (send_updw_any w (mkUpdw (fst e) HOSTAPD_EVENT_STA_UP None None None) Hup) as (r & cs & E).
    rewrite (bind_Ok _ _ _ _ _ E). destruct (IH (with_log cs w) Hup) as (ds & ->). exists (cs ++ ds). now rewrite with_log_app.
Qed.

Definition announcements (w : world) : list hostapd_sta_updown :=
  map (fun e => mkUpdw (fst e) HOSTAPD_EVENT_STA_UP None None None) (msta (master w)).

Lemma announce_healthy s l : forall w, healthy s w -> exists cs, announce_all l w = Ok (tt, with_log cs w) /\
  wire s (with_log cs w) = wire s w ++
    concat (map updw_frame (map (fun e => mkUpdw (fst e) HOSTAPD_EVENT_STA_UP None None None) l)).
Proof.
  induction l as [|e l IH]; intros w Hw; simpl.
  - exists []. rewrite app_nil_r. now destruct w.
  - set (u := mkUpdw (fst e) HOSTAPD_EVENT_STA_UP None None None). unfold send_updw.
    rewrite bind_assoc, (bind_Ok _ _ w w w) by done. rewrite (he_sock _ _ Hw).
    rewrite (bind_Ok _ _ _ _ _ (semd_healthy s w (updw_bytes u) _ Hw ltac:(rewrite updw_length; apply updw_fits))).
    set (c := Send s _). destruct (IH (with_log [c] w) (healthy_log _ _ _ Hw)) as (ds & -> & Hds).
    exists (c :: ds).
    change (with_log (c :: ds) w) with (with_log ds (with_log [c] w)). split; [done|]. rewrite Hds, wire_app. unfold c. simpl.
    rewrite bool_decide_eq_true_2 by done. rewrite (he_send _ _ Hw), take_all_bytes, app_nil_r, <- app_assoc. done.
Qed.

Lemma daemon_announced (l : list (list Z * list Z)) X : NoDup (map fst l) -> (forall a, a ∈ map fst l -> a ∉ X) ->
  daemon_all X (map (fun e => mkUpdw (fst e) HOSTAPD_EVENT_STA_UP None None None) l)
  = Some (list_to_set (map fst l) ∪ X).
Proof.
  revert X. induction l as [|e l IH]; intros X Hn Hx; simpl in *.
  - now rewrite (left_id_L ∅ (∪)).
  - apply NoDup_cons in Hn as [He Hn]. unfold daemon. simpl. rewrite decide_False by (apply Hx; left).
    rewrite IH by (done || (intros a Ha; rewrite not_elem_of_union, not_elem_of_singleton;
      split; [by intros ->|apply Hx; now right])).
    f_equal. now rewrite (assoc_L (∪)), (comm_L (∪) (list_to_set _)).
Qed.

(** The master after an attempt that failed. *)
Definition down (m : fnii_client_master) : fnii_client_master := mkMaster (-1) 0 (msta m).
Definition timer : call := EloopTimeout 1 (str "eloop_connect_stamgd") [].

Definition on_master (m : fnii_client_master) (cs : list call) (w : world) : world :=
  upd_master (fun _ => m) (with_log cs w).

Lemma connect_err_run m cs w : connect_err (on_master m cs w)
  = Ok (tt, on_master (down m) (cs ++ [Close (sock m); timer]) w).
Proof. unfold on_master. rewrite with_log_app. reflexivity. Qed.

Lemma ext_on c m cs w : ext c (on_master m cs w)
  = Ok (onum (wenv w) (length (trace (wenv w)) + length cs) c, on_master m (cs ++ [c]) w).
Proof.
  rewrite ext_log. unfold on_master, with_log. simpl.
  now rewrite logged_all_onum, logged_all_trace, length_app, logged_all_app.
Qed.

Lemma ext_start c w : ext c w = Ok (onum (wenv w) (length (trace (wenv w))) c, on_master (master w) [c] w).
Proof. destruct w. reflexivity. Qed.

Lemma on_master_log ds m cs w : with_log ds (on_master m cs w) = on_master m (cs ++ ds) w.
Proof. unfold on_master. rewrite with_log_app. reflexivity. Qed.

(** Connected with the reading side registered, or down with the timer set. *)
Definition settled (w w' : world) : Prop := exists cs,
  (exists fd, 0 <= fd /\ w' = on_master (mkMaster fd 1 (msta (master w))) cs w /\ EloopReadSock fd ∈ cs) \/
  (w' = on_master (down (master w)) cs w /\ last cs = Some timer).

Lemma err_settled m cs w : msta m = msta (master w) -> exists w', connect_err (on_master m cs w) = Ok (tt, w') /\ settled w w'.
Proof.
  intros Hm. eexists. split; [apply connect_err_run|]. eexists. right. unfold down. rewrite Hm. split; [done|].
  now rewrite last_app.
Qed.

Lemma connect_settled w : exists w', eloop_connect_stamgd w = Ok (tt, w') /\ settled w w'.
Proof.
  unfold eloop_connect_stamgd. rewrite (bind_Ok _ _ _ _ _ (ext_start Socket w)). set (fd := onum _ _ _).
  set (m1 := set_sock fd (ss (master w)) (master w)).
  rewrite (bind_Ok _ _ _ tt (on_master m1 [Socket] w)) by done. case_bool_decide; [now apply err_settled|].
  rewrite (bind_Ok _ _ _ _ _ (ext_on _ _ _ _)). case_bool_decide; [now apply err_settled|].
  rewrite (bind_Ok _ _ _ _ _ (ext_on _ _ _ _)). case_bool_decide; [now apply err_settled|].
  set (cs := (_ ++ _) ++ _). set (m2 := set_sock fd 1 m1). rewrite (bind_Ok _ _ _ tt (on_master m2 cs w)) by done.
  unfold send_hostapd_name2stamgd. rewrite bind_assoc, (bind_Ok _ _ _ (on_master m2 cs w) (on_master m2 cs w)) by done.
  destruct (semd_run (on_master m2 cs w) (sock m2) (str "hostapd" ++ [0]) FNII_PKT_TYPE_MODULE eq_refl ltac:(by_check))
    as (r & ds & _ & E & _). cbn [master on_master upd_master]. rewrite (bind_Ok _ _ _ _ _ E), on_master_log.
  case_bool_decide; [now apply err_settled|].
  rewrite (bind_Ok _ _ _ _ _ (ext_on _ _ _ _)). case_bool_decide; [now apply err_settled|].
  unfold connect2stamg_success. rewrite (bind_Ok _ _ _ _ _ eq_refl).
  match goal with |- context [announce_all ?l ?w0] => destruct (announce_any l w0 eq_refl) as (es & ->) end.
  eexists. split; [reflexivity|]. rewrite on_master_log. eexists. left. exists fd. split; [lia|]. split; [reflexivity|].
  rewrite !elem_of_app. left. right. constructor.
Qed.
End Reconnect.

(** A connection attempt.  Whatever the calls return, the attempt returns with
    the list of stations as it was, and either connected, with the socket watched,
    or disconnected, with the next attempt as its last call.  If everything works
    the daemon gets the name of the program and then, starting from nothing, exactly
    the stations of the list. *)
Theorem reconnection `{StamgdFormat} (w : world) :
  (exists w', eloop_connect_stamgd w = Ok (tt, w') /\ settled w w') /\
  (forall s, 0 <= s -> NoDup (map fst (msta (master w))) -> healthy s (upd_master (set_sock s 1) w) ->
     (forall i, onum (wenv w) i Socket = s) -> (forall i, onum (wenv w) i (Fcntl s) = 0) ->
     (forall i p n, onum (wenv w) i (Connect s p n) = 0) -> (forall i, onum (wenv w) i (EloopReadSock s) = 0) ->
     exists cs, eloop_connect_stamgd w = Ok (tt, on_master (mkMaster s 1 (msta (master w))) cs w) /\
       wire s (with_log cs w) = wire s w ++ stamgd_frame FNII_PKT_TYPE_MODULE (str "hostapd" ++ [0])
         ++ concat (map updw_frame (announcements w)) /\
       daemon_all ∅ (announcements w) = Some (listed w)).
Proof.
  split; [apply connect_settled|]. intros s Hs Hn Hw H1 H2 H3 H4.
  assert (forall cs, healthy s (on_master (mkMaster s 1 (msta (master w))) cs w)) as Hh.
  { intros cs. destruct Hw as [_ _ A B]. split; try done; simpl; rewrite logged_all_onum; done. }
  unfold eloop_connect_stamgd. rewrite (bind_Ok _ _ _ _ _ (ext_start Socket w)), H1.
  set (m1 := set_sock s (ss (master w)) (master w)).
  rewrite (bind_Ok _ _ _ tt (on_master m1 [Socket] w)) by done. rewrite bool_decide_eq_false_2 by lia.
  rewrite (bind_Ok _ _ _ _ _ (ext_on _ _ _ _)), H2, bool_decide_eq_false_2 by lia.
  rewrite (bind_Ok _ _ _ _ _ (ext_on _ _ _ _)), H3, bool_decide_eq_false_2 by lia.
  set (cs := (_ ++ _) ++ _). set (m2 := mkMaster s 1 (msta (master w))).
  rewrite (bind_Ok _ _ _ tt (on_master m2 cs w)) by done.
  unfold send_hostapd_name2stamgd. rewrite bind_assoc, (bind_Ok _ _ _ (on_master m2 cs w) (on_master m2 cs w)) by done.
  rewrite (bind_Ok _ _ _ _ _ (semd_healthy s _ (str "hostapd" ++ [0]) FNII_PKT_TYPE_MODULE (Hh cs) ltac:(by_check))).
  rewrite on_master_log, bool_decide_eq_false_2 by by_check.
  rewrite (bind_Ok _ _ _ _ _ (ext_on _ _ _ _)), H4, bool_decide_eq_false_2 by lia.
  unfold connect2stamg_success. rewrite (bind_Ok _ _ _ _ _ eq_refl).
  set (frame := stamgd_frame _ _). set (ds := (_ ++ _) ++ _).
  destruct (announce_healthy s (msta (master w)) (on_master m2 ds w) (Hh ds)) as (es & E & W).
  exists (ds ++ es). split; [rewrite <- on_master_log; exact E|]. split.
  - rewrite with_log_app. change (wire s (with_log es (on_master m2 ds w))) with (wire s (with_log es (with_log ds w))) in W.
    rewrite W. change (wire s (on_master m2 ds w)) with (wire s (with_log ds w)).
    rewrite wire_app. unfold ds, cs. simpl. rewrite bool_decide_eq_true_2 by done.
    destruct Hw as [_ _ A _]. simpl in A. rewrite A, take_all_bytes, <- app_assoc. done.
  - unfold announcements. rewrite daemon_announced by (done || set_solver). now rewrite (right_id_L ∅ (∪)).
Qed.

(** ** A concrete format and connection *)

Definition demo_bytes (u : hostapd_sta_updown) : list Z :=
  (match ud_event u with HOSTAPD_EVENT_STA_UP => 1 | _ => 2 end) :: resize 6 0 (ud_mac u).

Definition demo_format : StamgdFormat.
Proof.
  refine {| updw_bytes := demo_bytes; updw_size := 7 |}.
  - intros u. unfold demo_bytes. rewrite zlen_cons. unfold zlen. now rewrite length_resize.
  - unfold F_PKT_BUF. lia.
  - intros u v Hu Hv [= He Hm]. rewrite !resize_all_alt in Hm by done. split; [done|].
    now destruct (ud_event u), (ud_event v).
Defined.

(** Every call works; [send] takes all it is given. *)
Definition works_env : env :=
  {| onum := fun _ c => match c with Send _ d => zlen d | Socket => 9 | Malloc _ => 4096 | _ => 0 end;
     obytes := fun _ _ => None; trace := [] |}.

Definition demo_master (l : list (list Z * list Z)) : world :=
  upd_master (fun _ => mkMaster 9 1 l) (demo_world works_env).

Definition wlan0 : list Z := str "wlan0" ++ replicate 12 0.
Definition wlan1 : list Z := str "wlan1" ++ replicate 12 0.
Definition sta_a : list Z := [2; 0; 0; 0; 0; 1].
Definition sta_b : list Z := [2; 0; 0; 0; 0; 2].

Lemma demo_healthy l : healthy 9 (demo_master l).
Proof. split; done. Qed.

Lemma semd_msg2stamg_sends_witness :
  exists cs, semd_msg2stamg 9 [1; 2; 3] 1 (demo_master []) = Ok (7, with_log cs (demo_master [])) /\
    wire 9 (with_log cs (demo_master [])) = [1; 0; 7; 0; 1; 2; 3].
Proof.
  destruct (semd_msg2stamg_sends (demo_master []) 9 [1; 2; 3] 1) as (r & cs & n & E & W & Hr).
  - reflexivity.
  - by_check.
  - exists cs. assert (r = 7) as -> by (vm_compute in E; congruence). split; [exact E|].
    rewrite W. replace n with 7%nat by (symmetry; apply Hr; lia). reflexivity.
Defined.

Lemma stations_tracked_witness : exists ms w',
  do_calls (H := demo_format) [NewSta sta_a [65; 0] wlan0 36; NewSta sta_b [65; 0] wlan0 36; NewSta sta_a [66; 0] wlan1 36;
    DelSta sta_a [66; 0] wlan1 36; DelSta sta_a [65; 0] wlan0 36] (demo_master []) = Ok (tt, w') /\
  daemon_all ∅ ms = Some (listed w') /\ listed w' = {[ sta_b ]}.
Proof.
  destruct (stations_tracked (H := demo_format) (demo_master [])
    [NewSta sta_a [65; 0] wlan0 36; NewSta sta_b [65; 0] wlan0 36; NewSta sta_a [66; 0] wlan1 36;
     DelSta sta_a [66; 0] wlan1 36; DelSta sta_a [65; 0] wlan0 36]) as (ms & w' & E & _ & _ & D).
  - apply demo_healthy.
  - constructor.
  - by_check.
  - exists ms, w'. split; [exact E|]. split; [exact D|].
    assert (listed w' = listed (match do_calls (H := demo_format) [NewSta sta_a [65; 0] wlan0 36; NewSta sta_b [65; 0] wlan0 36;
      NewSta sta_a [66; 0] wlan1 36; DelSta sta_a [66; 0] wlan1 36; DelSta sta_a [65; 0] wlan0 36] (demo_master []) with
      Ok (_, w2) => w2 | Ub _ => w' end)) as -> by now rewrite E.
    by_check.
Defined.

Lemma reconnection_witness : exists cs,
  eloop_connect_stamgd (H := demo_format) (demo_master [(sta_a, wlan0); (sta_b, wlan1)])
  = Ok (tt, on_master (mkMaster 9 1 [(sta_a, wlan0); (sta_b, wlan1)]) cs (demo_master [(sta_a, wlan0); (sta_b, wlan1)])) /\
  daemon_all ∅ (announcements (demo_master [(sta_a, wlan0); (sta_b, wlan1)])) = Some {[ sta_a; sta_b ]}.
Proof.
  destruct (reconnection (H := demo_format) (demo_master [(sta_a, wlan0); (sta_b, wlan1)])) as [_ R].
  destruct (R 9) as (cs & E & _ & D).
  - lia.
  - by_check.
  - apply demo_healthy.
  - reflexivity.
  - reflexivity.
  - reflexivity.
  - reflexivity.
  - exists cs. split; [exact E|]. rewrite D. by_check.
Defined.
