(* ===== verification/Lifecycle.v ===== *)
(** * The life of a station: [sta_info.c] and [ap_mlme.c]

    A station enters the table with [ap_sta_add], its association and its end
    are reported to the controller ([fnii_send_msg]), to the table of assigned
    stations and to the station manager ([fnii_new_sta], [fnii_del_sta]), and it
    leaves with [ap_free_sta].  The features the device is not built with (P2P,
    mesh, SAE, 802.11w, interworking, proxy ARP, RADIUS: see [.cflags] of the tree)
    have no state here. *)

From stdpp Require Import base list numbers gmap strings.
From Stdlib Require Import ZArith Lia.
From S2P Require Import Prelude CString Dense Env World Messages Station ApTable Ht Handler Stamgd.
Local Open Scope Z_scope.

Definition WLAN_STA_PENDING_POLL : Z := 2 ^ 6.
Definition WLAN_STA_GAS : Z := 2 ^ 17.
Definition STA_NULLFUNC : Z := 0.
Definition STA_DISASSOC : Z := 1.
Definition STA_DISASSOC_FROM_CLI : Z := 4.
Definition AP_DISASSOC_DELAY : Z := 3.
Definition AP_DEAUTH_DELAY : Z := 1.
Definition WLAN_AUTH_FT : Z := 2.
Definition WLAN_REASON_UNSPECIFIED : Z := 1.
Definition WLAN_REASON_DISASSOC_DUE_TO_INACTIVITY : Z := 4.
Definition ENOENT : Z := 2.
Definition sizeof_sta_info : Z := 312.

(** ** Reports ([ap_mlme.c]) *)

(** The report of a station: the name of the network is copied into [ssid[32]]
    and terminated behind its last character. *)
Definition sta_report (b : hostapd_data) (addr : list Z) : res update_station_s :=
  let! name := slice 0 (ssid_len b) (ssid b) in
  let! s := splice 0 name (zeros 32) in
  let! s := wr s (ssid_len b) 0 in
  Ok (mkUpdate (own_addr b) addr s).

Section WithFormat.
Context `{StamgdFormat}.

(** [fnii_del_sta(sta->addr, sta->ssid->ssid, hapd->conf->iface,
    hapd->iconf->channel)], and the same for [fnii_new_sta]; [sta->ssid] is the
    name of the BSS of the station. *)
Definition tell_gone (b : hostapd_data) (addr : list Z) : M world unit :=
  w <-- get ;; fnii_del_sta addr (ssid b) (conf_iface b) (uwrap 8 (channel (ifc w))).
Definition tell_new (b : hostapd_data) (addr : list Z) : M world unit :=
  w <-- get ;; fnii_new_sta addr (ssid b) (conf_iface b) (uwrap 8 (channel (ifc w))).

Definition mlme_deauthenticate_indication (hapd : nat) (sta : positive) : M world unit :=
  s <-- get_sta sta ;;
  b <-- get_bss hapd ;;
  tell_gone b (sta_addr s) ;;;
  w <-- get ;;
  if driver_ap_teardown (ifc w) then ret tt else hostapd "mlme_deletekeys_request" (sta_addr s).

Definition mlme_disassociate_indication (hapd : nat) (sta : positive) : M world unit :=
  s <-- get_sta sta ;;
  b <-- get_bss hapd ;;
  tell_gone b (sta_addr s) ;;;
  hostapd "mlme_deletekeys_request" (sta_addr s).

(** The body that [mlme_associate_indication] and [mlme_reassociate_indication]
    share. *)
Definition assoc_indication (hapd : nat) (sta : positive) : M world unit :=
  s <-- get_sta sta ;;
  b <-- get_bss hapd ;;
  new_sta <-- lift (sta_report b (sta_addr s)) ;;
  fnii_send_msg FNII_MSG_NEW_STA (Some (DSta new_sta)) ;;;
  dense_add (mkCmd 0 (own_addr b) (sta_addr s)) ;;;
  tell_new b (sta_addr s) ;;;
  if bool_decide (auth_alg s <> WLAN_AUTH_FT) then hostapd "mlme_deletekeys_request" (sta_addr s) else ret tt.

Definition mlme_associate_indication (hapd : nat) (sta : positive) : M world unit := assoc_indication hapd sta.
Definition mlme_reassociate_indication (hapd : nat) (sta : positive) : M world unit := assoc_indication hapd sta.

(** ** Leaving *)

(** One of the counters of the interface that the station is in: whether the
    beacons must be set again. *)
Definition count_down (is_set : bool) (num : hostapd_iface -> Z) (set : Z -> hostapd_iface -> hostapd_iface)
    (beacon : hostapd_iface -> bool) : M world bool :=
  if is_set then
    modify (upd_ifc (fun i => set (num i - 1) i)) ;;;
    w <-- get ;; ret (beacon (ifc w) && bool_decide (num (ifc w) = 0))
  else ret false.

Definition never (i : hostapd_iface) : bool := false.
Definition always (i : hostapd_iface) : bool := true.

(** [hapd->sta_aid[(aid - 1) / 32] &= ~BIT((aid - 1) % 32)] *)
Definition release_aid (hapd : nat) (aid : Z) : M world unit :=
  if bool_decide (aid > 0) then
    b <-- get_bss hapd ;;
    word <-- lift (rd (sta_aid b) ((aid - 1) / 32)) ;;
    words <-- lift (wr (sta_aid b) ((aid - 1) / 32) (Z.ldiff word (2 ^ ((aid - 1) mod 32)))) ;;
    upd_bss hapd (set_sta_aid words)
  else ret tt.

(** The counters, in the order of the code; [sta]'s flags are cleared on the way,
    and the entry is freed at the end. *)
Definition leave_counters (s : sta_info) : M world bool :=
  b1 <-- count_down (nonerp_set s) num_sta_non_erp set_num_sta_non_erp always ;;
  b2 <-- count_down (no_short_slot_time_set s) num_sta_no_short_slot_time set_num_sta_no_short_slot_time mode_11g ;;
  b3 <-- count_down (no_short_preamble_set s) num_sta_no_short_preamble set_num_sta_no_short_preamble mode_11g ;;
  count_down (no_ht_gf_set s) num_sta_ht_no_gf set_num_sta_ht_no_gf never ;;;
  count_down (no_ht_set s) num_sta_no_ht set_num_sta_no_ht never ;;;
  count_down (ht_20mhz_set s) num_sta_ht_20mhz set_num_sta_ht_20mhz never ;;;
  (if ht40_intolerant_set (mlme s) then ht40_intolerant_left else ret tt) ;;;
  r <-- hostapd_ht_operation_update ;;
  ret (b1 || b2 || b3 || bool_decide (r > 0)).

Definition cancel_timers (addr : list Z) : M world unit :=
  ext_ (EloopCancel (str "ap_handle_timer") addr) ;;;
  ext_ (EloopCancel (str "ap_handle_session_timer") addr) ;;;
  ext_ (EloopCancel (str "ap_handle_session_warning_timer") addr) ;;;
  ext_ (EloopCancel (str "ap_sta_deauth_cb_timeout") addr) ;;;
  ext_ (EloopCancel (str "ap_sta_disassoc_cb_timeout") addr).

Definition free_parts (addr : list Z) : M world unit :=
  hostapd "ieee802_1x_free_station" addr ;;;
  hostapd "wpa_auth_sta_deinit" addr ;;;
  hostapd "rsn_preauth_free_station" addr.

(** Out of the hash table, of the list and of the bit field. *)
Definition take_out (hapd : nat) (sta : positive) (aid : Z) : M world unit :=
  ap_sta_hash_del hapd sta ;;;
  ap_sta_list_del hapd sta ;;;
  release_aid hapd aid ;;;
  upd_bss hapd (fun b => set_num_sta (num_sta b - 1) b).

Definition free_entry (sta : positive) : M world unit := get_sta sta ;;; modify (upd_heap (delete sta)).

Definition ap_free_sta (hapd : nat) (sta : positive) : M world unit :=
  s <-- get_sta sta ;;
  b <-- get_bss hapd ;;
  del_sta <-- lift (sta_report b (sta_addr s)) ;;
  fnii_send_msg FNII_MSG_DEL_STA (Some (DSta del_sta)) ;;;
  hostapd "accounting_sta_stop" (sta_addr s) ;;;
  ap_sta_unauthorize hapd sta ;;;
  (if has (sta_flags s) WLAN_STA_WDS then hostapd "hostapd_set_wds_sta" (sta_addr s) else ret tt) ;;;
  w <-- get ;;
  (if negb (driver_ap_teardown (ifc w)) && negb (has (sta_flags s) WLAN_STA_PREAUTH)
   then ext_ (DrvStaRemove (own_addr b) (sta_addr s)) else ret tt) ;;;
  take_out hapd sta (sta_aid_ s) ;;;
  set_beacon <-- leave_counters s ;;
  (if set_beacon : bool then hostapd "ieee802_11_set_beacons" [] else ret tt) ;;;
  cancel_timers (sta_addr s) ;;;
  free_parts (sta_addr s) ;;;
  free_entry sta.

(** The walk of [hostapd_free_stas]: the next station is read before the entry is
    freed.  [fuel] bounds the length of the list. *)
Fixpoint free_stas (l : list positive) (hapd : nat) : M world unit :=
  match l with
  | [] => ret tt
  | sta :: l' =>
      s <-- get_sta sta ;;
      (if has (sta_flags s) WLAN_STA_AUTH then mlme_deauthenticate_indication hapd sta else ret tt) ;;;
      ap_free_sta hapd sta ;;;
      free_stas l' hapd
  end.
Definition hostapd_free_stas (hapd : nat) : M world unit := b <-- get_bss hapd ;; free_stas (sta_list b) hapd.

(** ** Callbacks *)

(** [ap_sta_remove]: 0, or -1 when the driver did not remove an associated
    station. *)
Definition ap_sta_remove (hapd : nat) (sta : positive) : M world Z :=
  s <-- get_sta sta ;;
  b <-- get_bss hapd ;;
  hostapd "ieee802_1x_notify_port_enabled" (sta_addr s) ;;;
  r <-- ext (DrvStaRemove (own_addr b) (sta_addr s)) ;;
  ret (if bool_decide (r <> 0) && has (sta_flags s) WLAN_STA_ASSOC then -1 else 0).

Definition ap_sta_disassoc_cb_timeout (hapd : nat) (sta : positive) : M world unit :=
  ap_sta_remove hapd sta ;;; mlme_disassociate_indication hapd sta.
Definition ap_sta_deauth_cb_timeout (hapd : nat) (sta : positive) : M world unit :=
  ap_sta_remove hapd sta ;;; mlme_deauthenticate_indication hapd sta.

Definition pending_cb (bit : Z) (timeout : list Z) (cb : M world unit) (sta : positive) : M world unit :=
  s <-- get_sta sta ;;
  if has (sta_flags s) bit then
    upd_sta sta (fun s => set_sta_flags (Z.ldiff (sta_flags s) bit) s) ;;;
    ext_ (EloopCancel timeout (sta_addr s)) ;;;
    cb
  else ret tt.

Definition ap_sta_deauth_cb (hapd : nat) (sta : positive) : M world unit :=
  pending_cb WLAN_STA_PENDING_DEAUTH_CB (str "ap_sta_deauth_cb_timeout") (ap_sta_deauth_cb_timeout hapd sta) sta.
Definition ap_sta_disassoc_cb (hapd : nat) (sta : positive) : M world unit :=
  pending_cb WLAN_STA_PENDING_DISASSOC_CB (str "ap_sta_disassoc_cb_timeout") (ap_sta_disassoc_cb_timeout hapd sta) sta.

Definition hostapd_drv_sta_deauth (hapd : nat) (addr : list Z) (reason : Z) : M world Z :=
  b <-- get_bss hapd ;;
  w <-- get ;;
  if driver_ops (ifc w) then ext (DrvStaDeauth (own_addr b) addr reason) else ret 0.

(** [ap_sta_disconnect(hapd, sta, addr, reason)] *)
Definition ap_sta_disconnect (hapd : nat) (sta : option positive) (addr : option (list Z)) (reason : Z) : M world unit :=
  sta <-- match sta, addr with None, Some a => ap_get_sta hapd a | _, _ => ret sta end ;;
  match addr with Some a => hostapd_drv_sta_deauth hapd a reason ;;; ret tt | None => ret tt end ;;;
  match sta with
  | None => ret tt
  | Some p =>
      ap_sta_unauthorize hapd p ;;;
      s <-- get_sta p ;;
      hostapd "wpa_auth_sm_event" (sta_addr s) ;;;
      hostapd "ieee802_1x_notify_port_enabled" (sta_addr s) ;;;
      upd_sta p (fun s => set_sta_flags (Z.ldiff (sta_flags s) (Z.lor WLAN_STA_AUTH WLAN_STA_ASSOC)) s) ;;;
      retimer AP_MAX_INACTIVITY_AFTER_DEAUTH (str "ap_handle_timer") (sta_addr s) ;;;
      upd_sta p (set_timeout_next STA_REMOVE) ;;;
      upd_sta p (set_deauth_reason reason) ;;;
      upd_sta p (fun s => set_sta_flags (Z.lor (sta_flags s) WLAN_STA_PENDING_DEAUTH_CB) s) ;;;
      w <-- get ;;
      retimer (cb_delay w) (str "ap_sta_deauth_cb_timeout") (sta_addr s)
  end.

(** ** Entering *)

(** The loop over the BSSs of the interface, from the [i]th on: [act] is done to the
    entry that each of them but [hapd] has of the station. *)
Fixpoint in_others (act : nat -> positive -> M world unit) (n : nat) (i hapd : nat) (addr : list Z) : M world unit :=
  match n with
  | O => ret tt
  | S n' =>
      (if bool_decide (i = hapd) then ret tt
       else
         sta2 <-- ap_get_sta i addr ;;
         match sta2 with
         | None => ret tt
         | Some p => act i p
         end) ;;;
      in_others act n' (S i) hapd addr
  end.

Definition remove_others : nat -> nat -> nat -> list Z -> M world unit :=
  in_others (fun i p => s2 <-- get_sta p ;; ap_sta_disconnect i (Some p) (Some (sta_addr s2)) WLAN_REASON_PREV_AUTH_NOT_VALID).

(** [hostapd_prune_associations] of [ap/utils.c]: [prune_associations] is called for the
    interface, of which the process has one. *)
Definition prune_associations : nat -> nat -> nat -> list Z -> M world unit :=
  in_others (fun i p => ap_sta_disassociate i p WLAN_REASON_UNSPECIFIED).

Definition hostapd_prune_associations (hapd : nat) (addr : list Z) : M world unit :=
  w <-- get ;; prune_associations (length (bss (ifc w))) 0 hapd addr.

Definition ap_sta_remove_in_other_bss (hapd : nat) (sta : positive) : M world unit :=
  s <-- get_sta sta ;; w <-- get ;; remove_others (length (bss (ifc w))) 0 hapd (sta_addr s).

(** What [os_zalloc] leaves, with the address copied in. *)
Definition fresh_sta (addr : list Z) : sta_info := mkSta addr 0 0 STA_NULLFUNC 0 0 0 0 false false false false false false None zero_mlme.

(** [max_inactivity] is [hapd->conf->ap_max_inactivity]. *)
Definition ap_sta_add (max_inactivity : Z) (hapd : nat) (addr : list Z) : M world (option positive) :=
  sta <-- ap_get_sta hapd addr ;;
  match sta with
  | Some p => ret (Some p)
  | None =>
      b <-- get_bss hapd ;;
      if bool_decide (num_sta b >= max_num_sta b) then ret None
      else
        r <-- ext (Malloc sizeof_sta_info) ;;
        if bool_decide (r = 0) then ret None
        else
          w <-- get ;;
          let p := fresh (dom (heap w)) in
          hostapd "accounting_sta_get_id" addr ;;;
          w <-- get ;;
          (if has (drv_flags (ifc w)) WPA_DRIVER_FLAGS_INACTIVITY_TIMER then ret tt
           else ext_ (EloopTimeout max_inactivity (str "ap_handle_timer") addr)) ;;;
          modify (upd_heap <[p := fresh_sta addr]>) ;;;
          upd_bss hapd (fun b => set_sta_list (p :: sta_list b) b) ;;;
          upd_bss hapd (fun b => set_num_sta (num_sta b + 1) b) ;;;
          ap_sta_hash_add hapd p ;;;
          ap_sta_remove_in_other_bss hapd p ;;;
          upd_sta p (set_last_seq_ctrl WLAN_INVALID_MGMT_SEQ) ;;;
          ret (Some p)
  end.

(** ** The timer of a station *)

(** [ap_handle_timer]'s question about the activity of the station: [next_time],
    and whether the driver has lost the station. *)
Definition check_activity (max_inactivity : Z) (skip_poll : bool) (sta : positive) : M world (Z * bool) :=
  s <-- get_sta sta ;;
  if has (sta_flags s) WLAN_STA_ASSOC && bool_decide (timeout_next s = STA_NULLFUNC \/ timeout_next s = STA_DISASSOC) then
    r <-- ext (Hostapd (str "os_random") []) ;;
    let fuzz := r mod 20 in
    inactive_sec <-- ext (Hostapd (str "hostapd_drv_get_inact_sec") (sta_addr s)) ;;
    if bool_decide (inactive_sec = -1) then ret (max_inactivity + fuzz, false)
    else if bool_decide (inactive_sec = - ENOENT) then
      upd_sta sta (set_timeout_next STA_DISASSOC) ;;; ret (0, true)
    else if bool_decide (inactive_sec < max_inactivity) then
      upd_sta sta (set_timeout_next STA_NULLFUNC) ;;; ret (max_inactivity + fuzz - inactive_sec, false)
    else
      (if skip_poll then upd_sta sta (set_timeout_next STA_DISASSOC) else ret tt) ;;; ret (0, false)
  else ret (0, false).

(** The poll that was sent has been answered. *)
Definition check_poll (max_inactivity : Z) (skip_poll lost : bool) (next_time : Z) (sta : positive) : M world Z :=
  s <-- get_sta sta ;;
  if negb lost && has (sta_flags s) WLAN_STA_ASSOC && bool_decide (timeout_next s = STA_DISASSOC)
     && negb (has (sta_flags s) WLAN_STA_PENDING_POLL) && negb skip_poll
  then upd_sta sta (set_timeout_next STA_NULLFUNC) ;;; ret max_inactivity
  else ret next_time.

(** What is sent to the station. *)
Definition timer_frame (hapd : nat) (sta : positive) : M world unit :=
  s <-- get_sta sta ;;
  if bool_decide (timeout_next s = STA_NULLFUNC) && has (sta_flags s) WLAN_STA_ASSOC then
    upd_sta sta (fun s => set_sta_flags (Z.lor (sta_flags s) WLAN_STA_PENDING_POLL) s) ;;;
    hostapd "hostapd_drv_poll_client" (sta_addr s)
  else if bool_decide (timeout_next s <> STA_REMOVE) then
    if bool_decide (timeout_next s = STA_DEAUTH) then
      hostapd_drv_sta_deauth hapd (sta_addr s) WLAN_REASON_PREV_AUTH_NOT_VALID ;;; ret tt
    else
      hostapd_drv_sta_disassoc hapd (sta_addr s)
        (if bool_decide (timeout_next s = STA_DISASSOC) then WLAN_REASON_DISASSOC_DUE_TO_INACTIVITY
         else WLAN_REASON_PREV_AUTH_NOT_VALID) ;;; ret tt
  else ret tt.

(** The state that the timer moves the station to. *)
Definition timer_switch (hapd : nat) (sta : positive) : M world unit :=
  s <-- get_sta sta ;;
  let addr := sta_addr s in
  if bool_decide (timeout_next s = STA_NULLFUNC) then
    upd_sta sta (set_timeout_next STA_DISASSOC) ;;;
    ext_ (EloopTimeout AP_DISASSOC_DELAY (str "ap_handle_timer") addr)
  else if bool_decide (timeout_next s = STA_DISASSOC \/ timeout_next s = STA_DISASSOC_FROM_CLI) then
    ap_sta_unauthorize hapd sta ;;;
    upd_sta sta (fun s => set_sta_flags (Z.ldiff (sta_flags s) WLAN_STA_ASSOC) s) ;;;
    hostapd "ieee802_1x_notify_port_enabled" addr ;;;
    hostapd "accounting_sta_stop" addr ;;;
    hostapd "ieee802_1x_free_station" addr ;;;
    upd_sta sta (set_timeout_next STA_DEAUTH) ;;;
    ext_ (EloopTimeout AP_DEAUTH_DELAY (str "ap_handle_timer") addr) ;;;
    mlme_disassociate_indication hapd sta
  else if bool_decide (timeout_next s = STA_DEAUTH \/ timeout_next s = STA_REMOVE) then
    mlme_deauthenticate_indication hapd sta ;;;
    ap_free_sta hapd sta
  else ret tt.

Definition ap_handle_timer (max_inactivity : Z) (skip_poll : bool) (hapd : nat) (sta : positive) : M world unit :=
  s <-- get_sta sta ;;
  if bool_decide (timeout_next s = STA_REMOVE) then ap_free_sta hapd sta
  else
    c <-- check_activity max_inactivity skip_poll sta ;;
    next_time <-- check_poll max_inactivity skip_poll (snd c) (fst c) sta ;;
    if bool_decide (next_time <> 0) then ext_ (EloopTimeout next_time (str "ap_handle_timer") (sta_addr s))
    else timer_frame hapd sta ;;; timer_switch hapd sta.

(** ** The session of a station *)

Definition ap_handle_session_timer (hapd : nat) (sta : positive) : M world unit :=
  s <-- get_sta sta ;;
  if negb (has (sta_flags s) WLAN_STA_AUTH) then
    if has (sta_flags s) WLAN_STA_GAS then ap_free_sta hapd sta else ret tt
  else
    hostapd_drv_sta_deauth hapd (sta_addr s) WLAN_REASON_PREV_AUTH_NOT_VALID ;;;
    mlme_deauthenticate_indication hapd sta ;;;
    ap_free_sta hapd sta.

Definition ap_sta_session_timeout (sta : positive) (session_timeout : Z) : M world unit :=
  s <-- get_sta sta ;; retimer session_timeout (str "ap_handle_session_timer") (sta_addr s).

Definition ap_sta_no_session_timeout (sta : positive) : M world unit :=
  s <-- get_sta sta ;; ext_ (EloopCancel (str "ap_handle_session_timer") (sta_addr s)).

Definition ap_sta_session_warning_timeout (sta : positive) (warning_time : Z) : M world unit :=
  s <-- get_sta sta ;; retimer warning_time (str "ap_handle_session_warning_timer") (sta_addr s).
End WithFormat.

(** ** Changes that keep the tables *)

(** What the bookkeeping reads of an entry: the operations on a station that is in
    the tables leave it alone. *)
Definition face (s : sta_info) : list Z * (Z * (list bool * sta_mlme)) := (sta_addr s, (sta_aid_ s, (flags_of s, mlme s))).

(** The same interface, the same entries with the same faces, and the same answers
    to come. *)
Record quiet (w w' : world) : Prop := {
  q_ifc : ifc w' = ifc w;
  q_heap : forall p, face <$> heap w' !! p = face <$> heap w !! p;
  q_num : onum (wenv w') = onum (wenv w);
  q_trace : exists cs, trace (wenv w') = trace (wenv w) ++ cs;
  q_idf : idf_ok w -> idf_ok w';
  q_dense : dense_ok (g_dense_station_hash (fn w)) -> dense_ok (g_dense_station_hash (fn w')) }.

#[export] Instance quiet_preorder : PreOrder quiet.
Proof.
  split; [intros w; split; [done..|exists []; now rewrite app_nil_r|done|done]|].
  intros w1 w2 w3 [A1 A2 A3 [ca A4] A5 A6] [B1 B2 B3 [cb B4] B5 B6]. split; [congruence| |congruence| |auto|auto].
  - intros p. now rewrite B2, A2.
  - exists (ca ++ cb). now rewrite B4, A4, app_assoc.
Qed.

(** An operation that returns, and keeps the tables. *)
Definition quietly {A} (w : world) (r : res (A * world)) : Prop := exists a w', r = Ok (a, w') /\ quiet w w'.

Lemma quietly_from {A} w w1 (r : res (A * world)) : quiet w w1 -> quietly w1 r -> quietly w r.
Proof. intros Q (a & w' & E & Q'). exists a, w'. split; [done|]. now transitivity w1. Qed.

Lemma quietly_bind {A B} (m : M world A) (k : A -> M world B) w :
  quietly w (m w) -> (forall a w', m w = Ok (a, w') -> quiet w w' -> quietly w' (k a w')) -> quietly w (bind m k w).
Proof.
  intros (a & w' & E & Q) H. rewrite (bind_Ok _ _ _ _ _ E). apply (quietly_from _ _ _ Q). eauto.
Qed.

Lemma quietly_ret {A} (a : A) w : quietly w (ret a w).
Proof. exists a, w. by split. Qed.

Lemma quiet_log cs w : quiet w (with_log cs w).
Proof. split; [done|done| |exists cs|done|done]; simpl; [apply logged_all_onum|apply logged_all_trace]. Qed.

Lemma quietly_ext c w : quietly w (ext c w).
Proof. eexists _, _. split; [reflexivity|apply (quiet_log [c])]. Qed.
Lemma quietly_ext_ c w : quietly w (ext_ c w).
Proof. eexists _, _. split; [reflexivity|apply (quiet_log [c])]. Qed.

Lemma quiet_sta w w' p s : quiet w w' -> heap w !! p = Some s ->
  exists s', heap w' !! p = Some s' /\ sta_addr s' = sta_addr s /\ sta_aid_ s' = sta_aid_ s.
Proof.
  intros Q Hs. pose proof (q_heap _ _ Q p) as E. rewrite Hs in E.
  destruct (heap w' !! p) as [s'|]; [|done]. injection E as E1 E2. eauto.
Qed.

Lemma quiet_back w w' p s' : quiet w w' -> heap w' !! p = Some s' ->
  exists s, heap w !! p = Some s /\ sta_addr s' = sta_addr s /\ sta_aid_ s' = sta_aid_ s.
Proof.
  intros Q Hs. pose proof (q_heap _ _ Q p) as E. rewrite Hs in E.
  destruct (heap w !! p) as [s|]; [|done]. injection E as E1 E2. eauto.
Qed.

Lemma quietly_upd_sta p s f w : heap w !! p = Some s -> (forall s, face (f s) = face s) ->
  upd_sta p f w = Ok (tt, upd_heap <[p := f s]> w) /\ quiet w (upd_heap <[p := f s]> w).
Proof.
  intros Hs Hf. split.
  - unfold upd_sta. now rewrite (bind_Ok _ _ _ _ _ (get_sta_run _ _ _ Hs)).
  - split; [done| |done|exists []; now rewrite app_nil_r|done|done]. intros q. simpl. destruct (decide (q = p)) as [->|].
    + rewrite lookup_insert_eq, Hs. simpl. now rewrite Hf.
    + now rewrite lookup_insert_ne.
Qed.

(** ** The invariant of an interface *)

(** The name of a network leaves room for its final 0. *)
Record bss_named (b : hostapd_data) : Prop := {
  nm_len : length (ssid b) = 32%nat;
  nm_room : 0 <= ssid_len b <= 31;
  nm_end : 0 ∈ ssid b;
  nm_addr : mac_ok (own_addr b);
  nm_aids : length (sta_aid b) = 63%nat }.

Record iface_ok (w : world) : Prop := {
  io_ops : driver_ops (ifc w) = true;
  io_idf : idf_ok w;
  io_dense : dense_ok (g_dense_station_hash (fn w));
  io_bss : forall i b, bss (ifc w) !! i = Some b -> bss_ok (heap w) b /\ bss_named b;
  io_sep : forall i j b c p, bss (ifc w) !! i = Some b -> bss (ifc w) !! j = Some c ->
             p ∈ sta_list b -> p ∈ sta_list c -> i = j;
  io_aid : forall p s, heap w !! p = Some s -> 0 <= sta_aid_ s <= 2007 }.

(** The table of a BSS depends on the addresses of its entries only. *)
Lemma bss_ok_frame h h' b : (forall p, p ∈ sta_list b -> sta_addr <$> h' !! p = sta_addr <$> h !! p) ->
  bss_ok h b -> bss_ok h' b.
Proof.
  intros Hf H.
  assert (forall p s, p ∈ sta_list b -> h !! p = Some s -> exists s', h' !! p = Some s' /\ sta_addr s' = sta_addr s) as F1.
  { intros p s Hp Hs. specialize (Hf p Hp). rewrite Hs in Hf. destruct (h' !! p) as [s'|]; [|done]. injection Hf as E. eauto. }
  assert (forall p s', p ∈ sta_list b -> h' !! p = Some s' -> exists s, h !! p = Some s /\ sta_addr s' = sta_addr s) as F2.
  { intros p s' Hp Hs. specialize (Hf p Hp). rewrite Hs in Hf. destruct (h !! p) as [s|]; [|done]. injection Hf as E. eauto. }
  split; try apply H.
  - intros p Hp. destruct (bss_live _ _ H p Hp) as (s & Hs & Hm). destruct (F1 p s Hp Hs) as (s' & Hs' & E).
    exists s'. now rewrite E.
  - intros p q s t Hp Hq Hs Ht E. destruct (F2 p s Hp Hs) as (s0 & Hs0 & E1). destruct (F2 q t Hq Ht) as (t0 & Ht0 & E2).
    eapply (bss_inj _ _ H p q s0 t0); eauto. congruence.
  - intros i c Hi. destruct (bss_chain _ _ H i c Hi) as [Hn Hin]. split; [done|].
    intros p. rewrite Hin. split; (intros [Hp (s & Hs & E)]; split; [done|]).
    + destruct (F1 p s Hp Hs) as (s' & Hs' & E'). exists s'. now rewrite E'.
    + destruct (F2 p s Hp Hs) as (s' & Hs' & E'). exists s'. now rewrite <- E'.
Qed.

Lemma quiet_addr w w' p : quiet w w' -> sta_addr <$> heap w' !! p = sta_addr <$> heap w !! p.
Proof.
  intros Q. pose proof (f_equal (fmap fst) (q_heap _ _ Q p)) as E. rewrite <- !option_fmap_compose in E. exact E.
Qed.

Lemma iface_ok_quiet w w' : quiet w w' -> iface_ok w -> iface_ok w'.
Proof.
  intros Q I. pose proof (q_ifc _ _ Q) as E. split; try rewrite E.
  - apply I.
  - apply (q_idf _ _ Q), I.
  - apply (q_dense _ _ Q), I.
  - intros i b Hb. destruct (io_bss _ I i b Hb) as [H1 H2]. split; [|done].
    eapply bss_ok_frame; [|exact H1]. intros p _. now apply quiet_addr.
  - apply I.
  - intros p s Hs. destruct (quiet_back _ _ _ _ Q Hs) as (s0 & Hs0 & _ & ->). now apply (io_aid _ I p).
Qed.

(** ** Operations that keep the tables *)

Lemma unauthorize_quietly hapd p s w : heap w !! p = Some s -> quietly w (ap_sta_unauthorize hapd p w).
Proof.
  intros Hs. unfold ap_sta_unauthorize. rewrite (bind_Ok _ _ _ _ _ (get_sta_run _ _ _ Hs)).
  destruct (has _ _); [|apply quietly_ret].
  destruct (quietly_upd_sta p s (fun s => set_sta_flags (Z.ldiff (sta_flags s) WLAN_STA_AUTHORIZED) s) w Hs ltac:(done)) as [E Q].
  rewrite (bind_Ok _ _ _ _ _ E). eapply quietly_from; [exact Q|]. apply quietly_ext_.
Qed.

Lemma send_sta_down w ty u : data_ok ty (DSta u) -> fnii_socket_status (fn w) = SOCKET_STATUS_DISABLE ->
  fnii_send_msg ty (Some (DSta u)) w = Ok (FNII_RET_ERR, w).
Proof.
  intros Hd Hs. unfold fnii_send_msg. pose proof (data_ok_type _ _ Hd).
  rewrite bool_decide_eq_false_2 by lia. unfold fnii_check_socket_status. rewrite bind_assoc, (bind_Ok _ _ w w w) by done.
  rewrite bind_ret_l. rewrite bool_decide_eq_true_2; [done|]. split; [done|].
  destruct Hd as [[-> | ->] _]; done.
Qed.

Lemma send_sta_quietly w ty u : iface_ok w -> data_ok ty (DSta u) -> quietly w (fnii_send_msg ty (Some (DSta u)) w).
Proof.
  intros I Hd. destruct (decide (fnii_socket_status (fn w) = SOCKET_STATUS_DISABLE)) as [Hs|Hs].
  - exists FNII_RET_ERR, w. split; [now apply send_sta_down|done].
  - rewrite (fnii_send_msg_run _ _ _ (io_idf _ I) Hd (or_introl Hs)).
    exists (fst (send_spec ty (DSta u) w)), (snd (send_spec ty (DSta u) w)). split; [now destruct (send_spec _ _ _)|].
    unfold send_spec. case_bool_decide; (split; [done|done|done| | |done]).
    1,3: eexists; simpl; rewrite <- ?app_assoc; reflexivity.
    all: intros Hi; apply (bump_idf_ok w) in Hi; exact Hi.
Qed.

Lemma report_ok b addr : bss_named b -> mac_ok addr -> exists u, sta_report b addr = Ok u /\
  up_sta_mac u = addr /\ up_ap_mac u = own_addr b /\
  (up_ssid u = take (Z.to_nat (ssid_len b)) (ssid b) ++ zeros (32 - ssid_len b)) /\
  forall ty, (ty = FNII_MSG_DEL_STA \/ ty = FNII_MSG_NEW_STA) -> data_ok ty (DSta u).
Proof.
  intros [Hl Hr _ Ha _] Hm. set (n := Z.to_nat (ssid_len b)). set (name := take n (ssid b)).
  assert (length name = n) as Hn by (unfold name; rewrite length_take; lia).
  assert (sta_report b addr = Ok (mkUpdate (own_addr b) addr (name ++ zeros (32 - ssid_len b)))) as E.
  { unfold sta_report.
    assert (slice 0 (ssid_len b) (ssid b) = Ok name) as ->.
    { rewrite <- (take_drop n (ssid b)). fold name. apply (slice_mid [] name); [done|]. unfold zlen. lia. }
    cbn [res_bind].
    assert (zeros 32 = [] ++ zeros (ssid_len b) ++ zeros (32 - ssid_len b)) as ->.
    { unfold zeros. cbn [app]. rewrite <- replicate_add. f_equal. lia. }
    rewrite (splice_mid [] (zeros (ssid_len b)) _ name) by (done || (unfold zeros; now rewrite length_replicate)).
    cbn [res_bind app]. rewrite wr_Ok by (unfold zlen, zeros; rewrite length_app, length_replicate, Hn; unfold n; lia). cbn [res_bind].
    do 2 f_equal. fold n. rewrite insert_app_r_alt by lia. f_equal. rewrite Hn, Nat.sub_diag.
    unfold zeros. replace (Z.to_nat (32 - ssid_len b)) with (S (Z.to_nat (31 - ssid_len b))) by lia. done. }
  eexists. split; [exact E|]. do 3 (split; [done|]). intros ty Hty. simpl. split; [done|]. do 2 (split; [done|]).
  split; [unfold zeros; rewrite length_app, length_replicate; lia|]. apply elem_of_app. right.
  unfold zeros. replace (Z.to_nat (32 - ssid_len b)) with (S (Z.to_nat (31 - ssid_len b))) by lia. constructor.
Qed.

Section Quiet.
Context `{StamgdFormat}.

(** A message to the station manager only makes calls, whatever the connection. *)
Lemma updown_log w ev mac sd ifn ch : 0 ∈ sd -> exists cs, updown ev mac sd ifn ch w = Ok (tt, with_log cs w).
Proof.
  intros Hsd. unfold updown, ssid_text, strlen. rewrite bool_decide_eq_true_2 by done.
  rewrite (bind_Ok _ _ _ (take 31 (cstr sd)) w) by done. set (u := mkUpdw _ _ _ _ _).
  assert (exists r cs, send_updw u w = Ok (r, with_log cs w)) as (r & cs & E).
  { destruct (decide (ss (master w) = 1)) as [Hup|Hup]; [now apply send_updw_any|]. exists (-1), [].
    unfold send_updw, semd_msg2stamg. rewrite !(bind_Ok _ _ w w w) by done. rewrite bool_decide_eq_true_2 by done. by destruct w. }
  rewrite (bind_Ok _ _ _ _ _ E). eexists (cs ++ [_]). rewrite with_log_app. reflexivity.
Qed.

Lemma updown_quietly w ev mac sd ifn ch : 0 ∈ sd -> quietly w (updown ev mac sd ifn ch w).
Proof. intros Hsd. destruct (updown_log w ev mac sd ifn ch Hsd) as [cs E]. eexists _, _. split; [exact E|apply quiet_log]. Qed.

(** Telling the station manager that a station is gone changes its list and makes
    calls. *)
Lemma tell_gone_run w b addr : 0 ∈ ssid b -> exists f cs, tell_gone b addr w = Ok (tt, with_log cs (upd_master f w)).
Proof.
  intros Hsd. unfold tell_gone, fnii_del_sta. rewrite !(bind_Ok _ _ w w w) by done.
  destruct (msta_del _ _ _) as [l|]; [|exists id, []; by destruct w].
  destruct (updown_log (upd_master (set_msta l) w) HOSTAPD_EVENT_STA_DOWN addr (ssid b) (conf_iface b)
    (uwrap 8 (channel (ifc w))) Hsd) as [cs E]. exists (set_msta l), cs. exact E.
Qed.

Lemma quiet_master f w : quiet w (upd_master f w).
Proof. split; [done..|exists []; now rewrite app_nil_r|done|done]. Qed.

Lemma tell_gone_quietly w b addr : 0 ∈ ssid b -> quietly w (tell_gone b addr w).
Proof.
  intros Hsd. destruct (tell_gone_run w b addr Hsd) as (f & cs & E). eexists _, _. split; [exact E|].
  transitivity (upd_master f w); [apply quiet_master|apply quiet_log].
Qed.

Lemma deauth_ind_quietly w i b p s : iface_ok w -> bss (ifc w) !! i = Some b -> heap w !! p = Some s ->
  quietly w (mlme_deauthenticate_indication i p w).
Proof.
  intros I Hb Hs. unfold mlme_deauthenticate_indication. rewrite (bind_Ok _ _ _ _ _ (get_sta_run _ _ _ Hs)).
  rewrite (bind_Ok _ _ _ _ _ (get_bss_run _ _ _ Hb)). destruct (io_bss _ I i b Hb) as [_ []].
  apply quietly_bind; [now apply tell_gone_quietly|]. intros a w' _ _. rewrite (bind_Ok _ _ w' w' w') by done.
  destruct (driver_ap_teardown _); [apply quietly_ret|apply quietly_ext_].
Qed.

Lemma disassoc_ind_quietly w i b p s : iface_ok w -> bss (ifc w) !! i = Some b -> heap w !! p = Some s ->
  quietly w (mlme_disassociate_indication i p w).
Proof.
  intros I Hb Hs. unfold mlme_disassociate_indication. rewrite (bind_Ok _ _ _ _ _ (get_sta_run _ _ _ Hs)).
  rewrite (bind_Ok _ _ _ _ _ (get_bss_run _ _ _ Hb)). destruct (io_bss _ I i b Hb) as [_ []].
  apply quietly_bind; [now apply tell_gone_quietly|]. intros a w' _ _. apply quietly_ext_.
Qed.
End Quiet.

(** ** Taking an entry out, and putting one in *)

Lemma unlink_elem p l q : NoDup l -> q ∈ unlink p l <-> q ∈ l /\ q <> p.
Proof.
  induction 1 as [|x l Hx Hl IH]; simpl.
  - split; [intros Hq; inversion Hq|intros [Hq _]; inversion Hq].
  - case_bool_decide as E.
    + subst x. rewrite elem_of_cons. split; [intros Hq; split; [by right|by intros ->]|intros [[->|] ?]; done].
    + rewrite !elem_of_cons, IH. split; [intros [->|[? ?]]; auto|intros [[->|?] ?]; auto].
Qed.

Lemma unlink_nodup p l : NoDup l -> NoDup (unlink p l).
Proof.
  induction 1 as [|x l Hx Hl IH]; simpl; [constructor|]. case_bool_decide; [done|].
  constructor; [|done]. rewrite unlink_elem by done. tauto.
Qed.

Lemma unlink_zlen p l : p ∈ l -> zlen (unlink p l) = zlen l - 1.
Proof.
  induction 1 as [l|x l Hx IH]; simpl.
  - rewrite bool_decide_eq_true_2 by done. rewrite zlen_cons. lia.
  - case_bool_decide; rewrite !zlen_cons; lia.
Qed.

(** The chain without the station [p], when no other of its stations has the
    address. *)
Lemma chain_unlink_run w p s c : p ∈ c -> heap w !! p = Some s ->
  (forall q, q ∈ c -> exists t, heap w !! q = Some t /\ (sta_addr t = sta_addr s -> q = p)) ->
  chain_unlink c (sta_addr s) w = Ok (unlink p c, w).
Proof.
  intros Hp Hs. induction c as [|x c IH]; intros Hc; [inversion Hp|]. simpl.
  destruct (Hc x) as (t & Ht & Hx); [left|]. rewrite (bind_Ok _ _ _ _ _ (get_sta_run _ _ _ Ht)).
  destruct (decide (x = p)) as [->|Hne].
  - assert (t = s) as -> by congruence. now rewrite !bool_decide_eq_true_2.
  - rewrite !bool_decide_eq_false_2 by auto. apply elem_of_cons in Hp as [->|Hp]; [done|].
    rewrite (bind_Ok _ _ w (unlink p c) w); [done|]. apply IH; [done|]. intros q Hq. apply Hc. now right.
Qed.

Lemma leave_ok h b p s k c b' : bss_ok h b -> p ∈ sta_list b -> h !! p = Some s ->
  rd (sta_addr s) 5 = Ok (Z.of_nat k) -> sta_hash b !! k = Some c ->
  sta_hash b' = <[k := unlink p c]> (sta_hash b) -> sta_list b' = unlink p (sta_list b) -> num_sta b' = num_sta b - 1 ->
  bss_ok (delete p h) b'.
Proof.
  intros H Hp Hs Hk Hc E1 E2 E3. pose proof (bss_nodup _ _ H) as Hn.
  assert (forall q, q ∈ sta_list b' <-> q ∈ sta_list b /\ q <> p) as Hl by (intros q; rewrite E2; now apply unlink_elem).
  split.
  - rewrite E1, length_insert. apply H.
  - intros q [Hq Hne]%Hl. rewrite lookup_delete_ne by done. now apply (bss_live _ _ H).
  - rewrite E2. now apply unlink_nodup.
  - intros q r t u [Hq Hqp]%Hl [Hr Hrp]%Hl. rewrite !lookup_delete_ne by done. now apply (bss_inj _ _ H).
  - intros i d Hi. rewrite E1 in Hi. destruct (decide (i = k)) as [->|Hik].
    + rewrite list_lookup_insert_eq in Hi by (apply lookup_lt_Some in Hc; done). injection Hi as <-.
      destruct (bss_chain _ _ H k c Hc) as [Nc Hin]. split; [now apply unlink_nodup|].
      intros q. rewrite unlink_elem, Hin, Hl by done. split.
      * intros [[Hq (t & Ht & Er)] Hne]. split; [done|]. exists t. now rewrite lookup_delete_ne.
      * intros [[Hq Hne] (t & Ht & Er)]. rewrite lookup_delete_ne in Ht by done. eauto 10.
    + rewrite list_lookup_insert_ne in Hi by done. destruct (bss_chain _ _ H i d Hi) as [Nd Hin]. split; [done|].
      intros q. rewrite Hin, Hl. split.
      * intros [Hq (t & Ht & Er)]. assert (q <> p) as Hne.
        { intros ->. rewrite Hs in Ht. injection Ht as <-. rewrite Hk in Er. injection Er as Er. lia. }
        split; [done|]. exists t. now rewrite lookup_delete_ne.
      * intros [[Hq Hne] (t & Ht & Er)]. rewrite lookup_delete_ne in Ht by done. eauto.
  - rewrite E3, E2, unlink_zlen by done. now rewrite (bss_count _ _ H).
Qed.

Lemma enter_ok h b p s k c b' : bss_ok h b -> p ∉ dom h -> mac_ok (sta_addr s) ->
  (forall q t, q ∈ sta_list b -> h !! q = Some t -> sta_addr t <> sta_addr s) ->
  rd (sta_addr s) 5 = Ok (Z.of_nat k) -> sta_hash b !! k = Some c ->
  sta_hash b' = <[k := p :: c]> (sta_hash b) -> sta_list b' = p :: sta_list b -> num_sta b' = num_sta b + 1 ->
  bss_ok (<[p := s]> h) b'.
Proof.
  intros H Hp Hm Hnew Hk Hc E1 E2 E3.
  assert (forall q, q ∈ sta_list b -> q <> p) as Hne.
  { intros q Hq ->. destruct (bss_live _ _ H p Hq) as (t & Ht & _). apply Hp. apply elem_of_dom. eauto. }
  assert (forall q, q ∈ sta_list b' <-> q = p \/ q ∈ sta_list b) as Hl by (intros q; rewrite E2; apply elem_of_cons).
  split.
  - rewrite E1, length_insert. apply H.
  - intros q [->|Hq]%Hl; [rewrite lookup_insert_eq; eauto|]. rewrite lookup_insert_ne by (symmetry; auto).
    now apply (bss_live _ _ H).
  - rewrite E2. constructor; [intros Hq; now apply (Hne p Hq)|apply H].
  - intros q r t u [->|Hq]%Hl [->|Hr]%Hl; [done|..].
    + rewrite lookup_insert_eq, lookup_insert_ne by (symmetry; auto). intros [= <-] Hu E. exfalso. now apply (Hnew r u Hr Hu).
    + rewrite lookup_insert_eq, lookup_insert_ne by (symmetry; auto). intros Ht [= <-] E. exfalso. now apply (Hnew q t Hq Ht).
    + rewrite !lookup_insert_ne by (symmetry; auto). now apply (bss_inj _ _ H).
  - intros i d Hi. rewrite E1 in Hi. destruct (decide (i = k)) as [->|Hik].
    + rewrite list_lookup_insert_eq in Hi by (apply lookup_lt_Some in Hc; done). injection Hi as <-.
      destruct (bss_chain _ _ H k c Hc) as [Nc Hin]. split.
      { constructor; [|done]. intros Hq. apply Hin in Hq as [Hq _]. now apply (Hne p Hq). }
      intros q. rewrite elem_of_cons, Hin, Hl. split.
      * intros [->|[Hq (t & Ht & Er)]]; [split; [by left|]; exists s; now rewrite lookup_insert_eq|].
        split; [by right|]. exists t. now rewrite lookup_insert_ne by (symmetry; auto).
      * intros [[->|Hq] (t & Ht & Er)]; [by left|]. right. rewrite lookup_insert_ne in Ht by (symmetry; auto). eauto.
    + rewrite list_lookup_insert_ne in Hi by done. destruct (bss_chain _ _ H i d Hi) as [Nd Hin]. split; [done|].
      intros q. rewrite Hin, Hl. split.
      * intros [Hq (t & Ht & Er)]. split; [by right|]. exists t. now rewrite lookup_insert_ne by (symmetry; auto).
      * intros [[->|Hq] (t & Ht & Er)].
        -- rewrite lookup_insert_eq in Ht. injection Ht as <-. rewrite Hk in Er. injection Er as Er. lia.
        -- rewrite lookup_insert_ne in Ht by (symmetry; auto). eauto.
  - rewrite E3, E2, zlen_cons, (bss_count _ _ H). lia.
Qed.

(** ** Running [ap_free_sta] *)

(** Only counters of the interface and the log change. *)
Record counted (w w' : world) : Prop := {
  ct_bss : bss (ifc w') = bss (ifc w);
  ct_ops : driver_ops (ifc w') = driver_ops (ifc w);
  ct_conf : standing (ifc w') = standing (ifc w);
  ct_heap : heap w' = heap w;
  ct_fn : fn w' = fn w;
  ct_num : onum (wenv w') = onum (wenv w);
  ct_trace : exists cs, trace (wenv w') = trace (wenv w) ++ cs }.

#[export] Instance counted_preorder : PreOrder counted.
Proof.
  split; [intros w; split; [done..|exists []; now rewrite app_nil_r]|].
  intros w1 w2 w3 [A1 A2 A2' A3 A4 A5 [ca A6]] [B1 B2 B2' B3 B4 B5 [cb B6]]. split; [congruence..|].
  exists (ca ++ cb). now rewrite B6, A6, app_assoc.
Qed.

Lemma counted_log c w : counted w (with_log [c] w).
Proof. split; [done..|now exists [c]]. Qed.

(** A step that takes [d] off the counters. *)
Definition leaves {A} (d : list Z) (m : M world A) : Prop := forall w,
  exists a w', m w = Ok (a, w') /\ counted w w' /\ counts_of (ifc w') = zip_with Z.sub (counts_of (ifc w)) d.

Lemma leaves_bind {A B} d e (m : M world A) (k : A -> M world B) : length d = length e ->
  leaves d m -> (forall a, leaves e (k a)) -> leaves (zip_with Z.add d e) (bind m k).
Proof.
  intros Hl Hm Hk w. destruct (Hm w) as (a & w1 & E1 & C1 & N1). destruct (Hk a w1) as (b & w2 & E2 & C2 & N2).
  exists b, w2. rewrite (bind_Ok _ _ _ _ _ E1). split; [done|]. split; [now transitivity w1|]. rewrite N2, N1. clear - Hl.
  revert e Hl. generalize (counts_of (ifc w)) as c. induction d as [|x d IH]; intros [|y c] [|z e] Hl; try done.
  simpl. f_equal; [lia|]. apply IH. now injection Hl.
Qed.

Lemma sub_zeros (i : hostapd_iface) : zip_with Z.sub (counts_of i) (replicate 7 0) = counts_of i.
Proof. unfold counts_of. simpl. now rewrite !Z.sub_0_r. Qed.

Lemma leaves_same {A} (m : M world A) : (forall w, exists a w', m w = Ok (a, w') /\ counted w w' /\
  counts_of (ifc w') = counts_of (ifc w)) -> leaves (replicate 7 0) m.
Proof. intros Hm w. destruct (Hm w) as (a & w' & E & C & N). exists a, w'. rewrite sub_zeros. done. Qed.

Lemma leaves_ret {A} (a : A) : leaves (replicate 7 0) (ret a).
Proof. apply leaves_same. intros w. by exists a, w. Qed.
Lemma leaves_ext_ c : leaves (replicate 7 0) (ext_ c).
Proof. apply leaves_same. intros w. eexists _, _. split; [reflexivity|]. split; [apply counted_log|done]. Qed.

(** The [k]th counter. *)
Definition unit_at (k : nat) (b : bool) : list Z := <[k := Z.b2z b]> (replicate 7 0).

Lemma leaves_count k b num set beacon : (k < 7)%nat ->
  (forall z i, bss (set z i) = bss i /\ driver_ops (set z i) = driver_ops i /\ standing (set z i) = standing i) ->
  (forall i, counts_of (set (num i - 1) i) = zip_with Z.sub (counts_of i) (unit_at k true)) ->
  leaves (unit_at k b) (count_down b num set beacon).
Proof.
  intros Hk Hs Hc. unfold count_down. destruct b.
  - intros w. eexists _, (upd_ifc (fun i => set (num i - 1) i) w). split; [reflexivity|].
    destruct (Hs (num (ifc w) - 1) (ifc w)) as (E1 & E2 & E3).
    split; [split; [done..|exists []; now rewrite app_nil_r]|apply Hc].
  - assert (unit_at k false = replicate 7 0) as -> by (do 7 (destruct k as [|k]; [done|]); lia). apply leaves_ret.
Qed.

Lemma leaves_intolerant : leaves (unit_at 6 true) ht40_intolerant_left.
Proof.
  intros w. unfold ht40_intolerant_left, count_intolerant.
  set (w1 := upd_ifc (fun i => upd_ht (set_num_sta_ht40_intolerant (num_sta_ht40_intolerant (ht i) + -1)) i) w).
  rewrite (bind_Ok _ _ w tt w1) by done.
  rewrite (bind_Ok _ _ w1 w1 w1) by done.
  assert (counted w w1 /\ counts_of (ifc w1) = zip_with Z.sub (counts_of (ifc w)) (unit_at 6 true)) as [C N].
  { split; [split; [done..|exists []; now rewrite app_nil_r]|]. unfold counts_of, unit_at. simpl. rewrite !Z.sub_0_r. reflexivity. }
  destruct (_ && _); [|by exists tt, w1]. eexists _, _. split; [reflexivity|]. split; [|exact N].
  transitivity w1; [done|]. split; [done..|]. eexists [_; _]. simpl. now rewrite <- app_assoc.
Qed.

Lemma leaves_operation : leaves (replicate 7 0) hostapd_ht_operation_update.
Proof.
  apply leaves_same. intros w. unfold hostapd_ht_operation_update. rewrite (bind_Ok _ _ w w w) by done.
  destruct (_ || _); [by exists 0, w|]. eexists _, _. split; [reflexivity|].
  split; [|done]. split; [done..|exists []; now rewrite app_nil_r].
Qed.


#[export] Hint Resolve leaves_ret leaves_ext_ leaves_operation : lazyas.

Lemma leave_counters_run s : leaves (map Z.b2z (flags_of s)) (leave_counters s).
Proof.
  unfold leave_counters.
  eassert (map Z.b2z (flags_of s) = zip_with Z.add (unit_at 0 (nonerp_set s)) (zip_with Z.add (unit_at 1 (no_short_slot_time_set s))
    (zip_with Z.add (unit_at 2 (no_short_preamble_set s)) (zip_with Z.add (unit_at 3 (no_ht_gf_set s))
    (zip_with Z.add (unit_at 4 (no_ht_set s)) (zip_with Z.add (unit_at 5 (ht_20mhz_set s))
    (zip_with Z.add (unit_at 6 (ht40_intolerant_set (mlme s))) (zip_with Z.add (replicate 7 0) (replicate 7 0))))))))) as ->.
  { unfold flags_of, unit_at. simpl. repeat f_equal; lia. }
  do 6 (apply leaves_bind; [done|apply leaves_count; [lia|done|intros i; unfold counts_of, unit_at; simpl; now rewrite !Z.sub_0_r]|intros ?]).
  apply leaves_bind; [done| |intros ?; apply leaves_bind; auto with lazyas].
  destruct (ht40_intolerant_set (mlme s)); [apply leaves_intolerant|apply leaves_ret].
Qed.

(** The steps after that leave the counters alone. *)
Lemma leaves_then {A B} d (m : M world A) (k : A -> M world B) : length d = 7%nat ->
  leaves d m -> (forall a, leaves (replicate 7 0) (k a)) -> leaves d (bind m k).
Proof.
  intros Hl Hm Hk. assert (d = zip_with Z.add d (replicate 7 0)) as ->; [|now apply leaves_bind].
  do 8 (destruct d as [|? d]; try discriminate). simpl. now rewrite !Z.add_0_r.
Qed.

Lemma leaves_cancel addr : leaves (replicate 7 0) (cancel_timers addr).
Proof. unfold cancel_timers. repeat (apply leaves_then; [done|auto with lazyas|intros]). auto with lazyas. Qed.
Lemma leaves_parts addr : leaves (replicate 7 0) (free_parts addr).
Proof. unfold free_parts, hostapd. repeat (apply leaves_then; [done|auto with lazyas|intros]). auto with lazyas. Qed.

#[export] Hint Resolve leave_counters_run leaves_cancel leaves_parts : lazyas.

Definition aids_without (aid : Z) (l : list Z) : list Z :=
  if bool_decide (aid > 0) then
    match l !! Z.to_nat ((aid - 1) / 32) with
    | Some word => <[Z.to_nat ((aid - 1) / 32) := Z.ldiff word (2 ^ ((aid - 1) mod 32))]> l
    | None => l
    end
  else l.

Lemma release_aid_run w i b aid : bss (ifc w) !! i = Some b -> length (sta_aid b) = 63%nat -> aid <= 2007 ->
  release_aid i aid w = Ok (tt, put_bss i (set_sta_aid (aids_without aid (sta_aid b)) b) w).
Proof.
  intros Hb Hl Ha. unfold release_aid, aids_without. case_bool_decide as E.
  - rewrite (bind_Ok _ _ _ _ _ (get_bss_run _ _ _ Hb)).
    assert (0 <= (aid - 1) / 32 < 63) as Hi by (split; [apply Z.div_pos; lia|apply Z.div_lt_upper_bound; lia]).
    destruct (lookup_lt_is_Some_2 (sta_aid b) (Z.to_nat ((aid - 1) / 32))) as [x Hx]; [lia|]. rewrite Hx.
    rewrite (bind_Ok _ _ w x w) by (unfold lift; now rewrite (rd_Some _ _ x) by (lia || done)).
    rewrite (bind_Ok _ _ w (<[Z.to_nat ((aid - 1) / 32) := Z.ldiff x (2 ^ ((aid - 1) mod 32))]> (sta_aid b)) w)
      by (unfold lift; now rewrite wr_Ok by (unfold zlen; lia)).
    now apply upd_bss_ok.
  - unfold ret, put_bss, upd_ifc. do 2 f_equal. replace (set_sta_aid (sta_aid b) b) with b by now destruct b.
    destruct w as [f ic h m e]. simpl in *. f_equal. unfold set_bss. rewrite list_insert_id by done. now destruct ic.
Qed.

(** The BSS without the station. *)
Definition bss_without (p : positive) (k : nat) (c : list positive) (aid : Z) (b : hostapd_data) : hostapd_data :=
  set_num_sta (num_sta b - 1) (set_sta_aid (aids_without aid (sta_aid b))
    (set_sta_list (unlink p (sta_list b)) (set_sta_hash (<[k := unlink p c]> (sta_hash b)) b))).

Lemma unlink_run w i b p s : iface_ok w -> bss (ifc w) !! i = Some b -> p ∈ sta_list b -> heap w !! p = Some s ->
  exists k c, rd (sta_addr s) 5 = Ok (Z.of_nat k) /\ sta_hash b !! k = Some c /\
    take_out i p (sta_aid_ s) w = Ok (tt, put_bss i (bss_without p k c (sta_aid_ s) b) w).
Proof.
  intros I Hb Hp Hs. destruct (io_bss _ I i b Hb) as [Hok Hn].
  destruct (bss_live _ _ Hok p Hp) as (s' & Hs' & Hm). assert (s' = s) as -> by congruence.
  destruct (mac_byte5 _ Hm) as (k & Hk & Hlt).
  destruct (lookup_lt_is_Some_2 (sta_hash b) k) as [c Hc]; [rewrite (bss_len _ _ Hok); lia|].
  exists k, c. split; [done|]. split; [done|]. destruct (bss_chain _ _ Hok k c Hc) as [_ Hin]. unfold take_out.
  rewrite (bind_Ok _ _ w tt (put_bss i (set_sta_hash (<[k := unlink p c]> (sta_hash b)) b) w)).
  2: { unfold ap_sta_hash_del. rewrite (bind_Ok _ _ _ _ _ (get_sta_run _ _ _ Hs)).
       rewrite (bind_Ok _ _ _ _ _ (get_bss_run _ _ _ Hb)). rewrite (bind_Ok _ _ w (Z.of_nat k) w) by (unfold lift; now rewrite Hk).
       rewrite (bind_Ok _ _ w c w) by (unfold lift; now rewrite (rd_Some _ _ c) by (lia || now rewrite Nat2Z.id)).
       rewrite (bind_Ok _ _ w (unlink p c) w).
       2: { apply chain_unlink_run; [apply Hin; eauto|done|]. intros q Hq. apply Hin in Hq as (Hq & t & Ht & _).
            exists t. split; [done|]. intros E. eapply (bss_inj _ _ Hok q p); eauto. }
       rewrite (bind_Ok _ _ w (<[k := unlink p c]> (sta_hash b)) w); [now apply upd_bss_ok|]. unfold lift.
       rewrite wr_Ok by (rewrite <- (bss_len _ _ Hok) in Hlt; unfold zlen; lia). now rewrite Nat2Z.id. }
  set (b1 := set_sta_hash _ b). pose proof (put_bss_lookup w i b b1 Hb) as Hb1.
  unfold ap_sta_list_del. rewrite (bind_Ok _ _ _ _ _ (upd_bss_ok _ i b1 _ Hb1)), put_bss_twice.
  set (b2 := set_sta_list _ b1). pose proof (put_bss_lookup w i b b2 Hb) as Hb2.
  rewrite (bind_Ok _ _ _ _ _ (release_aid_run _ i b2 (sta_aid_ s) Hb2 (nm_aids _ Hn) (proj2 (io_aid _ I p s Hs)))), put_bss_twice.
  set (b3 := set_sta_aid _ b2). pose proof (put_bss_lookup w i b b3 Hb) as Hb3.
  rewrite (upd_bss_ok _ i b3 _ Hb3), put_bss_twice. done.
Qed.

(** The invariant after the station has left. *)
Lemma iface_ok_leave w w' i b p s k c : iface_ok w -> bss (ifc w) !! i = Some b -> p ∈ sta_list b ->
  heap w !! p = Some s -> rd (sta_addr s) 5 = Ok (Z.of_nat k) -> sta_hash b !! k = Some c ->
  bss (ifc w') = <[i := bss_without p k c (sta_aid_ s) b]> (bss (ifc w)) -> driver_ops (ifc w') = driver_ops (ifc w) ->
  heap w' = delete p (heap w) -> fn w' = fn w -> iface_ok w'.
Proof.
  intros I Hb Hp Hs Hk Hc Eb Ed Eh Hi. destruct (io_bss _ I i b Hb) as [Hok Hn].
  assert (i < length (bss (ifc w)))%nat as Hlt by now apply lookup_lt_Some in Hb.
  assert (forall j d, bss (ifc w') !! j = Some d -> exists d0, bss (ifc w) !! j = Some d0 /\
    (forall q, q ∈ sta_list d -> q ∈ sta_list d0) /\ (j = i -> d = bss_without p k c (sta_aid_ s) b) /\ (j <> i -> d0 = d)) as Hj.
  { intros j d Hd. rewrite Eb in Hd. destruct (decide (j = i)) as [->|Hne].
    - rewrite list_lookup_insert_eq in Hd by done. injection Hd as <-. exists b. split; [done|].
      split; [|done]. intros q Hq. simpl in Hq. apply unlink_elem in Hq; [tauto|apply Hok].
    - rewrite list_lookup_insert_ne in Hd by done. exists d. done. }
  split.
  - rewrite Ed. apply I.
  - unfold idf_ok. rewrite Hi. apply (io_idf _ I).
  - rewrite Hi. apply (io_dense _ I).
  - intros j d Hd. destruct (Hj j d Hd) as (d0 & Hd0 & _ & Hi1 & Hi2). rewrite Eh. destruct (decide (j = i)) as [->|Hne].
    + rewrite (Hi1 eq_refl). split; [now apply (leave_ok (heap w) b p s k c)|]. destruct Hn. split; try done.
      simpl. unfold aids_without. repeat case_match; rewrite ?length_insert; done.
    + rewrite (Hi2 Hne) in Hd0. destruct (io_bss _ I j d Hd0) as [H1 H2]. split; [|done].
      eapply bss_ok_frame; [|exact H1]. intros q Hq. rewrite lookup_delete_ne; [done|]. intros <-.
      apply Hne. eapply (io_sep _ I); eauto.
  - intros j l d e q Hd He Hq Hq'. destruct (Hj j d Hd) as (d0 & Hd0 & S1 & _). destruct (Hj l e He) as (e0 & He0 & S2 & _).
    eapply (io_sep _ I j l d0 e0 q); auto.
  - intros q t Ht. rewrite Eh in Ht. apply lookup_delete_Some in Ht as [_ Ht]. now apply (io_aid _ I q).
Qed.

Section FreeRun.
Context `{StamgdFormat}.

(** What an operation on the tables leaves alone in a BSS. *)
Definition same_conf (b b' : hostapd_data) : Prop :=
  own_addr b' = own_addr b /\ ssid b' = ssid b /\ ssid_len b' = ssid_len b /\ bconf b' = bconf b.

(** What [ap_free_sta] does. *)
Record freed (w : world) (i : nat) (b : hostapd_data) (p : positive) (s : sta_info) (w' : world) : Prop := {
  fr_ok : iface_ok w';
  fr_heap : forall q, face <$> heap w' !! q = if decide (q = p) then None else face <$> heap w !! q;
  fr_bss : exists b', bss (ifc w') = <[i := b']> (bss (ifc w)) /\ sta_list b' = unlink p (sta_list b) /\
             num_sta b' = num_sta b - 1 /\ sta_aid b' = aids_without (sta_aid_ s) (sta_aid b) /\ same_conf b b';
  fr_conf : standing (ifc w') = standing (ifc w);
  fr_counts : counts_of (ifc w') = zip_with Z.sub (counts_of (ifc w)) (map Z.b2z (flags_of s));
  fr_num : onum (wenv w') = onum (wenv w);
  fr_report : exists u r w0 cs, sta_report b (sta_addr s) = Ok u /\
                fnii_send_msg FNII_MSG_DEL_STA (Some (DSta u)) w = Ok (r, w0) /\ trace (wenv w') = trace (wenv w0) ++ cs }.

(** The part before the station is taken out of the tables. *)
Lemma free_start w i b p s : iface_ok w -> bss (ifc w) !! i = Some b -> p ∈ sta_list b -> heap w !! p = Some s ->
  exists u r w0 w1, sta_report b (sta_addr s) = Ok u /\
    fnii_send_msg FNII_MSG_DEL_STA (Some (DSta u)) w = Ok (r, w0) /\ quiet w0 w1 /\ quiet w w1 /\ ap_free_sta i p w =
    (take_out i p (sta_aid_ s) ;;;
     set_beacon <-- leave_counters s ;;
     (if set_beacon : bool then hostapd "ieee802_11_set_beacons" [] else ret tt) ;;;
     cancel_timers (sta_addr s) ;;; free_parts (sta_addr s) ;;; free_entry p) w1.
Proof.
  intros I Hb Hp Hs. destruct (io_bss _ I i b Hb) as [Hok Hn].
  destruct (bss_live _ _ Hok p Hp) as (s' & Hs' & Hm). assert (s' = s) as -> by congruence.
  destruct (report_ok b (sta_addr s) Hn Hm) as (u & Hu & _ & _ & _ & Hd). unfold ap_free_sta.
  rewrite (bind_Ok _ _ _ _ _ (get_sta_run _ _ _ Hs)). rewrite (bind_Ok _ _ _ _ _ (get_bss_run _ _ _ Hb)).
  rewrite (bind_Ok _ _ w u w) by (unfold lift; now rewrite Hu).
  destruct (send_sta_quietly w FNII_MSG_DEL_STA u I (Hd _ (or_introl eq_refl))) as (r & w1 & E1 & Q1).
  exists u, r, w1. rewrite (bind_Ok _ _ _ _ _ E1).
  destruct (quietly_ext_ (Hostapd (str "accounting_sta_stop") (sta_addr s)) w1) as (a2 & w2 & E2 & Q2).
  rewrite (bind_Ok _ _ _ _ _ E2).
  assert (quiet w w2) as Q02 by now transitivity w1. destruct (quiet_sta w w2 p s Q02 Hs) as (s2 & Hs2 & _).
  destruct (unauthorize_quietly i p s2 w2 Hs2) as (a3 & w3 & E3 & Q3). rewrite (bind_Ok _ _ _ _ _ E3).
  assert (quietly w3 ((if has (sta_flags s) WLAN_STA_WDS then hostapd "hostapd_set_wds_sta" (sta_addr s) else ret tt) w3))
    as (a4 & w4 & E4 & Q4) by (destruct (has _ _); [apply quietly_ext_|apply quietly_ret]).
  rewrite (bind_Ok _ _ _ _ _ E4). rewrite (bind_Ok _ _ w4 w4 w4) by done.
  assert (quietly w4 ((if negb (driver_ap_teardown (ifc w4)) && negb (has (sta_flags s) WLAN_STA_PREAUTH)
    then ext_ (DrvStaRemove (own_addr b) (sta_addr s)) else ret tt) w4))
    as (a5 & w5 & E5 & Q5) by (destruct (_ && _); [apply quietly_ext_|apply quietly_ret]).
  rewrite (bind_Ok _ _ _ _ _ E5). exists w5.
  assert (quiet w1 w5) as Q by (transitivity w2; [done|]; transitivity w3; [done|]; now transitivity w4).
  do 3 (split; [done|]). split; [now transitivity w1|done].
Qed.

Lemma free_run w i b p s : iface_ok w -> bss (ifc w) !! i = Some b -> p ∈ sta_list b -> heap w !! p = Some s ->
  exists w', ap_free_sta i p w = Ok (tt, w') /\ freed w i b p s w'.
Proof.
  intros I Hb Hp Hs. destruct (free_start w i b p s I Hb Hp Hs) as (u & r & w0 & w1 & Hu & Hr & Q0 & Q & ->).
  pose proof (iface_ok_quiet _ _ Q I) as I1. destruct (quiet_sta w w1 p s Q Hs) as (s1 & Hs1 & Ea & Eaid).
  assert (bss (ifc w1) !! i = Some b) as Hb1 by now rewrite (q_ifc _ _ Q).
  destruct (unlink_run w1 i b p s1 I1 Hb1 Hp Hs1) as (k & c & Hk & Hc & E). rewrite Eaid in E.
  rewrite (bind_Ok _ _ _ _ _ E). set (w2 := put_bss i _ w1) in *.
  assert (leaves (map Z.b2z (flags_of s)) (set_beacon <-- leave_counters s ;;
    (if set_beacon : bool then hostapd "ieee802_11_set_beacons" [] else ret tt) ;;;
     cancel_timers (sta_addr s) ;;; free_parts (sta_addr s))) as Hl.
  { apply leaves_then; [done|auto with lazyas|]. intros bc. apply leaves_then; [done|destruct bc; unfold hostapd; auto with lazyas|].
    intros _. apply leaves_then; auto with lazyas. }
  destruct (Hl w2) as (a3 & w3 & E3 & Q3 & N3).
  assert (heap w3 !! p = Some s1) as Hs3 by now rewrite (ct_heap _ _ Q3).
  exists (upd_heap (delete p) w3). split.
  - assert (forall X (m1 : M world bool) (m2 : bool -> M world unit) (m3 m4 : M world unit) (m5 : M world X) w0,
      (b0 <-- m1 ;; m2 b0 ;;; m3 ;;; m4 ;;; m5) w0 = ((b0 <-- m1 ;; m2 b0 ;;; m3 ;;; m4) ;;; m5) w0) as ->.
    { intros. rewrite !bind_assoc. apply bind_ext. intros b0 w'. rewrite bind_assoc. apply bind_ext. intros ? ?.
      now rewrite bind_assoc. }
    rewrite (bind_Ok _ _ _ _ _ E3). unfold free_entry. now rewrite (bind_Ok _ _ _ _ _ (get_sta_run _ _ _ Hs3)).
  - split.
    + apply (iface_ok_leave w1 _ i b p s1 k c); try done; simpl.
      * rewrite (ct_bss _ _ Q3). now rewrite Eaid.
      * apply (ct_ops _ _ Q3).
      * now rewrite (ct_heap _ _ Q3).
      * apply (ct_fn _ _ Q3).
    + intros q. simpl. rewrite (ct_heap _ _ Q3). simpl. case_decide as Eq.
      * subst q. now rewrite lookup_delete_eq.
      * rewrite lookup_delete_ne by done. apply (q_heap _ _ Q).
    + eexists. simpl. rewrite (ct_bss _ _ Q3). simpl. rewrite (q_ifc _ _ Q). done.
    + change (standing (ifc w3) = standing (ifc w)). rewrite (ct_conf _ _ Q3), <- (q_ifc _ _ Q). reflexivity.
    + simpl. rewrite N3. simpl. now rewrite (q_ifc _ _ Q).
    + simpl. rewrite (ct_num _ _ Q3). apply (q_num _ _ Q).
    + destruct (q_trace _ _ Q0) as [c0 T0]. destruct (ct_trace _ _ Q3) as [c3 T3].
      exists u, r, w0, (c0 ++ c3). do 2 (split; [done|]). simpl. rewrite T3. simpl. now rewrite T0, app_assoc.
Qed.

(** A table that has lost all its stations. *)
Record emptied (w : world) (i : nat) (l : list positive) (w' : world) : Prop := {
  em_ok : iface_ok w';
  em_gone : forall q, q ∈ l -> heap w' !! q = None;
  em_keep : forall q, q ∉ l -> face <$> heap w' !! q = face <$> heap w !! q;
  em_num : onum (wenv w') = onum (wenv w);
  em_bss : exists b', bss (ifc w') = <[i := b']> (bss (ifc w)) /\ sta_list b' = [] }.

Lemma free_stas_run l : forall w i b, iface_ok w -> bss (ifc w) !! i = Some b -> sta_list b = l ->
  exists w', free_stas l i w = Ok (tt, w') /\ emptied w i l w'.
Proof.
  induction l as [|p l IH]; intros w i b I Hb El; simpl.
  - exists w. split; [done|]. split; [done|intros q Hq; inversion Hq|done|done|].
    exists b. split; [symmetry; now apply list_insert_id|done].
  - destruct (io_bss _ I i b Hb) as [Hok _]. destruct (bss_live _ _ Hok p) as (s & Hs & _); [rewrite El; left|].
    rewrite (bind_Ok _ _ _ _ _ (get_sta_run _ _ _ Hs)).
    assert (quietly w ((if has (sta_flags s) WLAN_STA_AUTH then mlme_deauthenticate_indication i p else ret tt) w))
      as ([] & w1 & E1 & Q1) by (destruct (has _ _); [now apply (deauth_ind_quietly w i b p s)|apply quietly_ret]).
    rewrite (bind_Ok _ _ _ _ _ E1). destruct (quiet_sta _ _ _ _ Q1 Hs) as (s1 & Hs1 & _).
    destruct (free_run w1 i b p s1) as (w2 & E2 & F); [now apply (iface_ok_quiet w)|now rewrite (q_ifc _ _ Q1)|rewrite El; left|done|].
    rewrite (bind_Ok _ _ _ _ _ E2). destruct (fr_bss _ _ _ _ _ _ F) as (b2 & B2 & L2 & _).
    assert (i < length (bss (ifc w)))%nat as Hlt by now apply lookup_lt_Some in Hb.
    assert (p ∉ l) as Hpl by (pose proof (bss_nodup _ _ Hok) as Hn; rewrite El in Hn; now inversion Hn).
    rewrite (q_ifc _ _ Q1) in B2. rewrite El in L2. simpl in L2. rewrite bool_decide_eq_true_2 in L2 by done.
    destruct (IH w2 i b2) as (w3 & E3 & G); [apply (fr_ok _ _ _ _ _ _ F)|rewrite B2; now apply list_lookup_insert_eq|done|].
    exists w3. split; [done|]. split; [apply (em_ok _ _ _ _ G)|..].
    + intros q [->|Hq]%elem_of_cons; [|now apply (em_gone _ _ _ _ G)].
      pose proof (em_keep _ _ _ _ G p Hpl) as K. rewrite (fr_heap _ _ _ _ _ _ F), decide_True in K by done.
      now destruct (heap w3 !! p).
    + intros q [Hne Hq]%not_elem_of_cons. rewrite (em_keep _ _ _ _ G q Hq), (fr_heap _ _ _ _ _ _ F), decide_False by done.
      apply (q_heap _ _ Q1).
    + rewrite (em_num _ _ _ _ G), (fr_num _ _ _ _ _ _ F). apply (q_num _ _ Q1).
    + destruct (em_bss _ _ _ _ G) as (b3 & B3 & L3). exists b3. split; [|done].
      now rewrite B3, B2, list_insert_insert_eq.
Qed.
End FreeRun.

(** ** Disconnecting a station *)

Definition disconnected (reason : Z) (s : sta_info) : sta_info :=
  let f := Z.ldiff (Z.ldiff (sta_flags s) WLAN_STA_AUTHORIZED) (Z.lor WLAN_STA_AUTH WLAN_STA_ASSOC) in
  set_sta_flags (Z.lor f WLAN_STA_PENDING_DEAUTH_CB) (set_deauth_reason reason (set_timeout_next STA_REMOVE s)).

Definition disconnect_calls (w : world) (s : sta_info) : list call :=
  unauthorize_calls s
  ++ [Hostapd (str "wpa_auth_sm_event") (sta_addr s); Hostapd (str "ieee802_1x_notify_port_enabled") (sta_addr s)]
  ++ timer_calls AP_MAX_INACTIVITY_AFTER_DEAUTH (str "ap_handle_timer") (sta_addr s)
  ++ timer_calls (cb_delay w) (str "ap_sta_deauth_cb_timeout") (sta_addr s).

Lemma disconnect_run w i b p s reason : bss (ifc w) !! i = Some b -> driver_ops (ifc w) = true -> heap w !! p = Some s ->
  ap_sta_disconnect i (Some p) (Some (sta_addr s)) reason w
  = Ok (tt, at_sta p (disconnected reason s)
      (logged_all (DrvStaDeauth (own_addr b) (sta_addr s) reason :: disconnect_calls w s) (wenv w)) w).
Proof.
  intros Hb Hd Hs. unfold ap_sta_disconnect. rewrite bind_ret_l.
  erewrite bind_Ok.
  2: { unfold hostapd_drv_sta_deauth. rewrite bind_assoc, (bind_Ok _ _ _ _ _ (get_bss_run _ _ _ Hb)).
       rewrite bind_assoc, (bind_Ok _ _ w w w) by done. rewrite Hd. reflexivity. }
  set (w1 := put_env _ _). assert (w1 = at_sta p s (wenv w1) w) as ->.
  { unfold w1, at_sta, upd_heap. simpl. now rewrite insert_id. }
  change (wenv w1) with (logged (DrvStaDeauth (own_addr b) (sta_addr s) reason) (wenv w)).
  unfold disconnect_calls. rewrite (app_comm_cons _ _ (DrvStaDeauth _ _ _)). cbn [logged_all foldl].
  rewrite (bind_Ok _ _ _ _ _ (unauthorize_at i p s _ w)). erewrite bind_Ok by apply get_sta_at.
  unfold hostapd. do 2 (erewrite bind_Ok by apply ext_at). erewrite bind_Ok by apply upd_sta_at.
  erewrite bind_Ok by apply retimer_at. do 3 (erewrite bind_Ok by apply upd_sta_at).
  unfold unauthorize_calls, logged_all. destruct (has _ _); reflexivity.
Qed.

Lemma disconnected_off reason s : ~ associated (disconnected reason s) /\ face (disconnected reason s) = face s.
Proof.
  split; [|done]. unfold associated, disconnected, WLAN_STA_ASSOC at 2. cbn [sta_flags set_sta_flags].
  rewrite has_bit by lia. rewrite Z.lor_spec, !Z.ldiff_spec, Z.lor_spec.
  destruct (Z.testbit (sta_flags s) 1); intros [=].
Qed.

Lemma quiet_at_sta p s s' cs w : heap w !! p = Some s -> face s' = face s ->
  quiet w (at_sta p s' (logged_all cs (wenv w)) w).
Proof.
  intros Hs Hf. split; [done| | | |done|done]; simpl.
  - intros q. destruct (decide (q = p)) as [->|]; [|now rewrite lookup_insert_ne].
    rewrite lookup_insert_eq, Hs. simpl. now rewrite Hf.
  - apply logged_all_onum.
  - exists cs. apply logged_all_trace.
Qed.

(** The station of an address in every BSS but [hapd] is not associated. *)
Definition off_elsewhere (w : world) (hapd : nat) (addr : list Z) (j : nat) : Prop :=
  forall c q s, j <> hapd -> bss (ifc w) !! j = Some c -> sta_at w c addr q s -> ~ associated s.

Lemma off_calm w w' hapd addr j : calm w w' -> off_elsewhere w hapd addr j -> off_elsewhere w' hapd addr j.
Proof.
  intros C H c q s Hne Hc (Hq & Hs & Ea). rewrite (proj1 (proj2 C)) in Hc.
  destruct (calm_back _ _ _ _ C Hs) as (s0 & Hs0 & Ea0 & Hn). apply Hn, (H c q s0); [done|done|].
  split; [done|]. split; [done|congruence].
Qed.

(** What is done to an entry of another BSS: it is not associated any more, and only it
    has changed. *)
Definition puts_off (act : nat -> positive -> M world unit) : Prop := forall w j c p s,
  iface_ok w -> bss (ifc w) !! j = Some c -> heap w !! p = Some s ->
  exists s' cs, act j p w = Ok (tt, at_sta p s' (logged_all cs (wenv w)) w) /\ face s' = face s /\ sta_addr s' = sta_addr s /\ ~ associated s'.

Lemma disconnect_puts_off : puts_off (fun i p => s2 <-- get_sta p ;; ap_sta_disconnect i (Some p) (Some (sta_addr s2)) WLAN_REASON_PREV_AUTH_NOT_VALID).
Proof.
  intros w j c p s I Hc Hs. rewrite (bind_Ok _ _ _ _ _ (get_sta_run _ _ _ Hs)), (disconnect_run w j c p s _ Hc (io_ops _ I) Hs).
  destruct (disconnected_off WLAN_REASON_PREV_AUTH_NOT_VALID s) as [Hoff Hf]. eexists _, _. split; [reflexivity|]. split; [exact Hf|]. split; [reflexivity|exact Hoff].
Qed.

Lemma disassociate_puts_off reason : puts_off (fun i p => ap_sta_disassociate i p reason).
Proof.
  intros w j c p s I Hc Hs. assert (w = at_sta p s (wenv w) w) as Ew by (unfold at_sta, upd_heap; simpl; rewrite insert_id by done; by destruct w).
  eexists (disassociated reason s), _. split; [rewrite Ew at 1; rewrite disassociate_at; reflexivity|]. split; [reflexivity|].
  split; [reflexivity|apply disassociated_spec].
Qed.

Section Others.
Context (act : nat -> positive -> M world unit) (Hact : puts_off act).

(** One turn of the loop. *)
Lemma other_run w j c hapd addr : iface_ok w -> mac_ok addr -> j <> hapd -> bss (ifc w) !! j = Some c ->
  exists w', (sta2 <-- ap_get_sta j addr ;;
    match sta2 with
    | None => ret tt
    | Some p => act j p
    end) w = Ok (tt, w') /\ quiet w w' /\ calm w w' /\ off_elsewhere w' hapd addr j /\
    (forall b q, bss (ifc w) !! hapd = Some b -> q ∈ sta_list b -> heap w' !! q = heap w !! q).
Proof using Hact.
  intros I Hm Hne Hc. destruct (io_bss _ I j c Hc) as [Hok _].
  destruct (ap_get_sta_spec w j c addr Hc Hok Hm) as (r & Hr & Hspec). rewrite (bind_Ok _ _ _ _ _ Hr).
  destruct r as [p|].
  - destruct (proj1 (Hspec p) eq_refl) as (s & Hp & Hs & Ea).
    destruct (Hact w j c p s I Hc Hs) as (s' & cs & E & Hf & Ha & Hoff). eexists. split; [exact E|].
    split; [now apply (quiet_at_sta p s)|]. split; [now apply (calm_at_sta p s)|]. split.
    + intros c' q t _ Hc' (Hq & Ht & Et). simpl in Hc', Ht. assert (c' = c) as -> by congruence.
      destruct (decide (q = p)) as [->|Hqp]; [rewrite lookup_insert_eq in Ht; now injection Ht as <-|].
      rewrite lookup_insert_ne in Ht by done. exfalso. apply Hqp. apply (bss_inj _ _ Hok q p t s); congruence.
    + intros b q Hb Hq. simpl. rewrite lookup_insert_ne; [done|]. intros ->. apply Hne. eapply (io_sep _ I); eauto.
  - exists w. split; [done|]. split; [done|]. split; [apply calm_refl|]. split; [|done].
    intros c' q t _ Hc' Hq. assert (c' = c) as -> by congruence. assert (None = Some q) by (apply Hspec; eauto). discriminate.
Qed.

Lemma in_others_run hapd addr : mac_ok addr -> forall n i w, iface_ok w -> (i + n <= length (bss (ifc w)))%nat ->
  exists w', in_others act n i hapd addr w = Ok (tt, w') /\ quiet w w' /\ calm w w' /\
    (forall j, (i <= j < i + n)%nat -> off_elsewhere w' hapd addr j) /\
    (forall b q, bss (ifc w) !! hapd = Some b -> q ∈ sta_list b -> heap w' !! q = heap w !! q).
Proof using Hact.
  intros Hm. induction n as [|n IH]; intros i w I Hlen; cbn [in_others].
  - exists w. split; [done|]. split; [done|]. split; [apply calm_refl|]. split; [intros j Hj; lia|done].
  - assert (exists w1, (if bool_decide (i = hapd) then ret tt else
       sta2 <-- ap_get_sta i addr ;; match sta2 with None => ret tt | Some p => act i p end) w = Ok (tt, w1) /\ quiet w w1 /\ calm w w1 /\ off_elsewhere w1 hapd addr i /\
       (forall b q, bss (ifc w) !! hapd = Some b -> q ∈ sta_list b -> heap w1 !! q = heap w !! q))
      as (w1 & E1 & Q1 & C1 & O1 & K1).
    { case_bool_decide as Ei; [exists w; split; [done|]; split; [done|]; split; [apply calm_refl|]; split; [intros ? ? ? ?; congruence|done]|].
      destruct (lookup_lt_is_Some_2 (bss (ifc w)) i) as [c Hc]; [lia|]. now apply (other_run w i c). }
    rewrite (bind_Ok _ _ _ _ _ E1).
    destruct (IH (S i) w1) as (w2 & E2 & Q2 & C2 & O2 & K2); [now apply (iface_ok_quiet w)|rewrite (q_ifc _ _ Q1); lia|].
    exists w2. split; [done|]. split; [now transitivity w1|]. split; [now apply (calm_trans w w1)|]. split.
    + intros j Hj. destruct (decide (j = i)) as [->|]; [now apply (off_calm w1)|apply O2; lia].
    + intros b q Hb Hq. rewrite K2 with (b := b); [now apply K1 with (b := b)|now rewrite (q_ifc _ _ Q1)|done].
Qed.
End Others.

(** The associations with the other BSSs are over; the entries of [hapd] are as they were. *)
Lemma prune_run hapd addr w : mac_ok addr -> iface_ok w ->
  exists w', hostapd_prune_associations hapd addr w = Ok (tt, w') /\ quiet w w' /\ calm w w' /\
    (forall j, off_elsewhere w' hapd addr j) /\
    (forall b q, bss (ifc w) !! hapd = Some b -> q ∈ sta_list b -> heap w' !! q = heap w !! q).
Proof.
  intros Hm I. unfold hostapd_prune_associations. rewrite (bind_Ok _ _ w w w) by done.
  destruct (in_others_run _ (disassociate_puts_off WLAN_REASON_UNSPECIFIED) hapd addr Hm (length (bss (ifc w))) 0 w I) as (w' & E & Q & C & O & K); [lia|].
  exists w'. split; [exact E|]. split; [done|]. split; [done|]. split; [|done]. intros j c q s Hj Hc. apply (O j); [|done..].
  apply lookup_lt_Some in Hc. rewrite (q_ifc _ _ Q) in Hc. lia.
Qed.

(** ** Running [ap_sta_add] *)

(** The BSS with the station. *)
Definition bss_with (p : positive) (k : nat) (c : list positive) (b : hostapd_data) : hostapd_data :=
  set_sta_hash (<[k := p :: c]> (sta_hash b)) (set_num_sta (num_sta b + 1) (set_sta_list (p :: sta_list b) b)).

(** The part of [ap_sta_add] that puts the entry into the tables. *)
Lemma enter_run w i b p addr : iface_ok w -> bss (ifc w) !! i = Some b -> mac_ok addr ->
  exists k c, rd addr 5 = Ok (Z.of_nat k) /\ sta_hash b !! k = Some c /\
    forall A (m : M world A),
    (modify (upd_heap <[p := fresh_sta addr]>) ;;; upd_bss i (fun b => set_sta_list (p :: sta_list b) b) ;;;
     upd_bss i (fun b => set_num_sta (num_sta b + 1) b) ;;; ap_sta_hash_add i p ;;; m) w
    = m (put_bss i (bss_with p k c b) (upd_heap <[p := fresh_sta addr]> w)).
Proof.
  intros I Hb Hm. destruct (io_bss _ I i b Hb) as [Hok _].
  destruct (mac_byte5 _ Hm) as (k & Hk & Hlt).
  destruct (lookup_lt_is_Some_2 (sta_hash b) k) as [c Hc]; [rewrite (bss_len _ _ Hok); lia|].
  exists k, c. split; [done|]. split; [done|]. intros A m. set (w1 := upd_heap _ w).
  rewrite (bind_Ok _ _ w tt w1) by done. assert (bss (ifc w1) !! i = Some b) as Hb1 by done.
  rewrite (bind_Ok _ _ _ _ _ (upd_bss_ok _ i b _ Hb1)). set (b2 := set_sta_list _ b).
  pose proof (put_bss_lookup w1 i b b2 Hb1) as Hb2.
  rewrite (bind_Ok _ _ _ _ _ (upd_bss_ok _ i b2 _ Hb2)), put_bss_twice. set (b3 := set_num_sta _ b2).
  pose proof (put_bss_lookup w1 i b b3 Hb1) as Hb3.
  erewrite bind_Ok; [reflexivity|]. unfold ap_sta_hash_add. set (w3 := put_bss i b3 w1).
  assert (heap w3 !! p = Some (fresh_sta addr)) as Hp by apply lookup_insert_eq.
  rewrite (bind_Ok _ _ _ _ _ (get_sta_run _ _ _ Hp)), (bind_Ok _ _ _ _ _ (get_bss_run _ _ _ Hb3)).
  rewrite (bind_Ok _ _ w3 (Z.of_nat k) w3) by (unfold lift; simpl; now rewrite Hk).
  rewrite (bind_Ok _ _ w3 c w3) by (unfold lift; simpl; now rewrite (rd_Some _ _ c) by (lia || now rewrite Nat2Z.id)).
  rewrite (bind_Ok _ _ w3 (<[k := p :: c]> (sta_hash b)) w3).
  - rewrite (upd_bss_ok _ i b3 _ Hb3). unfold w3. now rewrite put_bss_twice.
  - unfold lift. simpl. rewrite wr_Ok by (unfold zlen; rewrite (bss_len _ _ Hok); lia). now rewrite Nat2Z.id.
Qed.

Lemma iface_ok_enter w w' i b p k c addr : iface_ok w -> bss (ifc w) !! i = Some b -> mac_ok addr ->
  p ∉ dom (heap w) -> (forall q s, ~ sta_at w b addr q s) -> rd addr 5 = Ok (Z.of_nat k) -> sta_hash b !! k = Some c ->
  w' = put_bss i (bss_with p k c b) (upd_heap <[p := fresh_sta addr]> w) -> iface_ok w'.
Proof.
  intros I Hb Hm Hp Hnew Hk Hc ->. destruct (io_bss _ I i b Hb) as [Hok Hn].
  assert (i < length (bss (ifc w)))%nat as Hlt by now apply lookup_lt_Some in Hb.
  assert (forall j d q, bss (ifc w) !! j = Some d -> q ∈ sta_list d -> q <> p) as Hne.
  { intros j d q Hd Hq ->. destruct (io_bss _ I j d Hd) as [Hd' _]. destruct (bss_live _ _ Hd' p Hq) as (t & Ht & _).
    apply Hp. apply elem_of_dom. eauto. }
  split; simpl.
  - apply I.
  - apply (io_idf _ I).
  - apply (io_dense _ I).
  - intros j d Hd. destruct (decide (j = i)) as [->|Hj].
    + rewrite list_lookup_insert_eq in Hd by done. injection Hd as <-. split; [|by destruct Hn].
      apply (enter_ok (heap w) b p (fresh_sta addr) k c); try done.
      intros q t Hq Ht E. now apply (Hnew q t).
    + rewrite list_lookup_insert_ne in Hd by done. destruct (io_bss _ I j d Hd) as [H1 H2]. split; [|done].
      eapply bss_ok_frame; [|exact H1]. intros q Hq. rewrite lookup_insert_ne; [done|]. intros E. now apply (Hne j d q Hd Hq).
  - intros j l d e q Hd He Hq Hq'. destruct (decide (j = i)) as [->|Hj], (decide (l = i)) as [->|Hl]; [done|..];
      rewrite ?list_lookup_insert_eq in Hd by done; rewrite ?list_lookup_insert_eq in He by done;
      rewrite ?list_lookup_insert_ne in Hd by done; rewrite ?list_lookup_insert_ne in He by done.
    + injection Hd as <-. simpl in Hq. apply elem_of_cons in Hq as [->|Hq]; [now destruct (Hne l e p)|].
      apply (io_sep _ I i l b e q Hb He Hq Hq').
    + injection He as <-. simpl in Hq'. apply elem_of_cons in Hq' as [->|Hq']; [now destruct (Hne j d p)|].
      apply (io_sep _ I j i d b q Hd Hb Hq Hq').
    + apply (io_sep _ I j l d e q Hd He Hq Hq').
  - intros q t Ht. destruct (decide (q = p)) as [->|Hq].
    + rewrite lookup_insert_eq in Ht. injection Ht as <-. simpl. lia.
    + rewrite lookup_insert_ne in Ht by done. now apply (io_aid _ I q).
Qed.

(** What [ap_sta_add] does for a station that is not there yet. *)
Record added (w : world) (i : nat) (b : hostapd_data) (addr : list Z) (p : positive) (w' : world) : Prop := {
  ad_ok : iface_ok w';
  ad_new : heap w !! p = None /\ heap w' !! p = Some (set_last_seq_ctrl WLAN_INVALID_MGMT_SEQ (fresh_sta addr));
  ad_keep : forall q, q <> p -> face <$> heap w' !! q = face <$> heap w !! q;
  ad_bss : exists b', bss (ifc w') = <[i := b']> (bss (ifc w)) /\ sta_list b' = p :: sta_list b /\
             num_sta b' = num_sta b + 1 /\ sta_aid b' = sta_aid b /\ same_conf b b';
  ad_conf : standing (ifc w') = standing (ifc w);
  ad_counts : counts_of (ifc w') = counts_of (ifc w);
  ad_num : onum (wenv w') = onum (wenv w);
  ad_trace : exists cs, trace (wenv w') = trace (wenv w) ++ cs;
  ad_off : forall j, off_elsewhere w' i addr j }.

Lemma add_run max_inactivity w i b addr : iface_ok w -> bss (ifc w) !! i = Some b -> mac_ok addr ->
  (forall q s, ~ sta_at w b addr q s) -> num_sta b < max_num_sta b ->
  onum (wenv w) (length (trace (wenv w))) (Malloc sizeof_sta_info) <> 0 ->
  exists p w', ap_sta_add max_inactivity i addr w = Ok (Some p, w') /\ added w i b addr p w'.
Proof.
  intros I Hb Hm Hnew Hroom Hmem. destruct (io_bss _ I i b Hb) as [Hok _]. unfold ap_sta_add.
  destruct (ap_get_sta_spec w i b addr Hb Hok Hm) as (r & Hr & Hspec). rewrite (bind_Ok _ _ _ _ _ Hr).
  destruct r as [q|]; [destruct (proj1 (Hspec q) eq_refl) as [s Hs]; exfalso; now apply (Hnew q s)|].
  rewrite (bind_Ok _ _ _ _ _ (get_bss_run _ _ _ Hb)). rewrite bool_decide_eq_false_2 by lia.
  set (w0 := with_log [Malloc sizeof_sta_info] w).
  rewrite (bind_Ok _ _ w (onum (wenv w) (length (trace (wenv w))) (Malloc sizeof_sta_info)) w0) by done.
  rewrite bool_decide_eq_false_2 by done. rewrite (bind_Ok _ _ w0 w0 w0) by done. cbv zeta.
  set (p := fresh (dom (heap w0))). unfold hostapd.
  rewrite (bind_Ok _ _ w0 tt (with_log [Hostapd (str "accounting_sta_get_id") addr] w0)) by done.
  set (w1 := with_log _ w0). rewrite (bind_Ok _ _ w1 w1 w1) by done.
  assert (quiet w w1) as Q1 by (transitivity w0; apply (quiet_log [_])).
  assert (exists cs, (if has (drv_flags (ifc w1)) WPA_DRIVER_FLAGS_INACTIVITY_TIMER then ret tt
    else ext_ (EloopTimeout max_inactivity (str "ap_handle_timer") addr)) w1 = Ok (tt, with_log cs w1)) as (cs & E2).
  { destruct (has _ _); [exists []|eexists [_]]; [by destruct w1|reflexivity]. }
  rewrite (bind_Ok _ _ _ _ _ E2). set (w2 := with_log cs w1).
  assert (quiet w w2) as Q2 by (transitivity w1; [done|apply quiet_log]).
  assert (bss (ifc w2) !! i = Some b) as Hb2 by done. assert (p ∉ dom (heap w2)) as Hp by apply is_fresh.
  destruct (enter_run w2 i b p addr (iface_ok_quiet _ _ Q2 I) Hb2 Hm) as (k & c & Hk & Hc & E3). rewrite E3.
  set (w3 := put_bss i _ _). assert (iface_ok w3) as I3.
  { apply (iface_ok_enter w2 w3 i b p k c addr); try done. now apply (iface_ok_quiet w). }
  assert (heap w3 !! p = Some (fresh_sta addr)) as Hp3 by apply lookup_insert_eq.
  assert (i < length (bss (ifc w)))%nat as Hlt by now apply lookup_lt_Some in Hb.
  destruct (in_others_run _ disconnect_puts_off i addr Hm (length (bss (ifc w3))) 0 w3 I3) as (w4 & E4 & Q4 & _ & O4 & K4); [lia|].
  unfold ap_sta_remove_in_other_bss. rewrite bind_assoc, (bind_Ok _ _ _ _ _ (get_sta_run _ _ _ Hp3)).
  rewrite bind_assoc, (bind_Ok _ _ w3 w3 w3) by done. unfold remove_others. rewrite (bind_Ok _ _ _ _ _ E4).
  assert (heap w4 !! p = Some (fresh_sta addr)) as Hp4.
  { rewrite (K4 (bss_with p k c b) p); [done|simpl; now apply list_lookup_insert_eq|left]. }
  destruct (quietly_upd_sta p (fresh_sta addr) (set_last_seq_ctrl WLAN_INVALID_MGMT_SEQ) w4 Hp4 ltac:(done)) as [E5 Q5].
  rewrite (bind_Ok _ _ _ _ _ E5). exists p. eexists. split; [reflexivity|]. set (w5 := upd_heap _ w4).
  assert (quiet w3 w5) as Q35 by now transitivity w4. split.
  - now apply (iface_ok_quiet w3).
  - split; [|apply lookup_insert_eq]. apply not_elem_of_dom in Hp. exact Hp.
  - intros q Hq. rewrite (q_heap _ _ Q35). simpl. now rewrite lookup_insert_ne.
  - exists (bss_with p k c b). now rewrite (q_ifc _ _ Q35).
  - now rewrite (q_ifc _ _ Q35).
  - now rewrite (q_ifc _ _ Q35).
  - rewrite (q_num _ _ Q35). apply (q_num _ _ Q2).
  - destruct (q_trace _ _ Q35) as [c1 T1], (q_trace _ _ Q2) as [c2 T2]. exists (c2 ++ c1). rewrite T1.
    change (trace (wenv w3)) with (trace (wenv w2)). now rewrite T2, app_assoc.
  - intros j. apply (off_calm w4).
    + repeat split. intros q. unfold w5. simpl. destruct (decide (q = p)) as [->|Hq].
      * rewrite Hp4, lookup_insert_eq. done.
      * rewrite lookup_insert_ne by done. destruct (heap w4 !! q); auto.
    + intros d q s Hj Hd. apply (O4 j); [|done|done]. apply lookup_lt_Some in Hd. rewrite (q_ifc _ _ Q4) in Hd. lia.
Qed.

(** Every branch. *)
Lemma add_cases max_inactivity w i b addr : iface_ok w -> bss (ifc w) !! i = Some b -> mac_ok addr ->
  (forall p s, sta_at w b addr p s -> ap_sta_add max_inactivity i addr w = Ok (Some p, w)) /\
  ((forall p s, ~ sta_at w b addr p s) ->
     (max_num_sta b <= num_sta b -> ap_sta_add max_inactivity i addr w = Ok (None, w)) /\
     (num_sta b < max_num_sta b -> onum (wenv w) (length (trace (wenv w))) (Malloc sizeof_sta_info) = 0 ->
        ap_sta_add max_inactivity i addr w = Ok (None, with_log [Malloc sizeof_sta_info] w)) /\
     (num_sta b < max_num_sta b -> onum (wenv w) (length (trace (wenv w))) (Malloc sizeof_sta_info) <> 0 ->
        exists p w', ap_sta_add max_inactivity i addr w = Ok (Some p, w') /\ added w i b addr p w')).
Proof.
  intros I Hb Hm. destruct (io_bss _ I i b Hb) as [Hok _].
  destruct (ap_get_sta_spec w i b addr Hb Hok Hm) as (r & Hr & Hspec). split.
  - intros p s Hp. assert (r = Some p) as -> by (apply Hspec; eauto). unfold ap_sta_add. now rewrite (bind_Ok _ _ _ _ _ Hr).
  - intros Hnew. split; [|split; [|intros; now apply add_run]].
    all: destruct r as [p|]; [destruct (proj1 (Hspec p) eq_refl) as [s Hp]; now destruct (Hnew p s)|].
    + intros Hf. unfold ap_sta_add. rewrite (bind_Ok _ _ _ _ _ Hr), (bind_Ok _ _ _ _ _ (get_bss_run _ _ _ Hb)).
      now rewrite bool_decide_eq_true_2 by lia.
    + intros Hf Hz. unfold ap_sta_add. rewrite (bind_Ok _ _ _ _ _ Hr), (bind_Ok _ _ _ _ _ (get_bss_run _ _ _ Hb)).
      rewrite bool_decide_eq_false_2 by lia. rewrite (bind_Ok _ _ _ _ _ (ext_log _ _)). now rewrite bool_decide_eq_true_2.
Qed.

(** ** Associating *)

Section Associate.
Context `{StamgdFormat}.

Lemma send_sta_dense w ty u r w' : iface_ok w -> data_ok ty (DSta u) -> fnii_send_msg ty (Some (DSta u)) w = Ok (r, w') ->
  g_dense_station_hash (fn w') = g_dense_station_hash (fn w) /\ master w' = master w.
Proof.
  intros I Hd. destruct (decide (fnii_socket_status (fn w) = SOCKET_STATUS_DISABLE)) as [Hs|Hs].
  - rewrite send_sta_down by done. intros E. by injection E as <- <-.
  - rewrite (fnii_send_msg_run _ _ _ (io_idf _ I) Hd (or_introl Hs)). intros [= E]. unfold send_spec in E.
    case_bool_decide; injection E as <- <-; done.
Qed.

(** What an association leaves behind. *)
Record joined (w : world) (b : hostapd_data) (addr : list Z) (w' : world) : Prop := {
  jo_quiet : quiet w w';
  jo_dense : dense_ok (g_dense_station_hash (fn w')) /\
             contents (g_dense_station_hash (fn w')) = {[(addr, own_addr b)]} ∪ contents (g_dense_station_hash (fn w));
  jo_listed : listed w' = {[addr]} ∪ listed w;
  jo_report : exists u r w0 cs, sta_report b addr = Ok u /\
                fnii_send_msg FNII_MSG_NEW_STA (Some (DSta u)) w = Ok (r, w0) /\ trace (wenv w') = trace (wenv w0) ++ cs }.

Lemma tell_new_run w b addr : 0 ∈ ssid b -> (forall t n, onum (wenv w) t (Malloc n) <> 0) ->
  exists w', tell_new b addr w = Ok (tt, w') /\ quiet w w' /\ fn w' = fn w /\ listed w' = {[addr]} ∪ listed w.
Proof.
  intros Hsd Hmem. unfold tell_new, fnii_new_sta. rewrite !(bind_Ok _ _ w w w) by done. destruct (existsb _ _) eqn:Ex.
  - exists w. split; [done|]. split; [done|]. split; [done|].
    assert (addr ∈ listed w) as Hin; [|symmetry; now apply subseteq_union_L, singleton_subseteq_l]. apply existsb_exists in Ex as (e & He & Ee%bool_decide_eq_true).
    unfold listed. apply elem_of_list_to_set. rewrite <- Ee. apply list_elem_of_fmap_2. now apply list_elem_of_In.
  - rewrite (bind_Ok _ _ _ _ _ (ext_log _ _)), bool_decide_eq_false_2 by apply Hmem.
    set (w1 := upd_master (fun m => set_msta ((addr, conf_iface b) :: msta m) m) (with_log [Malloc sizeof_sta_list] w)).
    rewrite (bind_Ok _ _ _ tt w1) by done.
    destruct (updown_log w1 HOSTAPD_EVENT_STA_UP addr (ssid b) (conf_iface b) (uwrap 8 (channel (ifc w))) Hsd) as [cs E].
    exists (with_log cs w1). split; [exact E|]. split; [|done]. transitivity w1; [|apply quiet_log].
    split; [done..|by eexists|done|done].
Qed.

Lemma dense_add_quiet w a : dense_ok (g_dense_station_hash (fn w)) -> mac_ok (stamac a) ->
  (forall t n, onum (wenv w) t (Malloc n) <> 0) ->
  exists x w', dense_add a w = Ok (x, w') /\ quiet w w' /\ master w' = master w /\ dense_ok (g_dense_station_hash (fn w')) /\
    contents (g_dense_station_hash (fn w')) = {[key_of a]} ∪ contents (g_dense_station_hash (fn w)).
Proof.
  intros Hd Hm Hmem. destruct (dense_add_run _ a Hd Hm) as (g' & Ha & Hg' & Hc).
  unfold dense_add. rewrite (bind_Ok _ _ w w w) by done. rewrite (bool_decide_eq_true_2 (_ <> 0)) by apply Hmem.
  erewrite bind_Ok by (unfold lift; rewrite Ha; reflexivity). cbn [fst snd].
  destruct (bool_decide (_ = FNII_RET_OK)); eexists _, _; (split; [reflexivity|]); (split; [|done]).
  - split; [done..|by eexists|done|done].
  - split; [done..|exists []; now rewrite app_nil_r|done|done].
Qed.

Lemma assoc_run w i b p s : iface_ok w -> bss (ifc w) !! i = Some b -> p ∈ sta_list b -> heap w !! p = Some s ->
  (forall t n, onum (wenv w) t (Malloc n) <> 0) ->
  exists w', assoc_indication i p w = Ok (tt, w') /\ joined w b (sta_addr s) w'.
Proof.
  intros I Hb Hp Hs Hmem. pose proof (io_dense _ I) as Hd. destruct (io_bss _ I i b Hb) as [Hok Hn].
  destruct (bss_live _ _ Hok p Hp) as (s' & Hs' & Hm). assert (s' = s) as -> by congruence.
  destruct (report_ok b (sta_addr s) Hn Hm) as (u & Hu & _ & _ & _ & Hdat). unfold assoc_indication.
  rewrite (bind_Ok _ _ _ _ _ (get_sta_run _ _ _ Hs)), (bind_Ok _ _ _ _ _ (get_bss_run _ _ _ Hb)).
  rewrite (bind_Ok _ _ w u w) by (unfold lift; now rewrite Hu).
  destruct (send_sta_quietly w FNII_MSG_NEW_STA u I (Hdat _ (or_intror eq_refl))) as (r & w1 & E1 & Q1).
  destruct (send_sta_dense _ _ _ _ _ I (Hdat _ (or_intror eq_refl)) E1) as [D1 M1]. rewrite (bind_Ok _ _ _ _ _ E1).
  destruct (dense_add_quiet w1 (mkCmd 0 (own_addr b) (sta_addr s))) as (x & w2 & E2 & Q2 & M2 & O2 & C2);
    [now rewrite D1|done|now rewrite (q_num _ _ Q1)|]. rewrite (bind_Ok _ _ _ _ _ E2).
  destruct (tell_new_run w2 b (sta_addr s) (nm_end _ Hn)) as (w3 & E3 & Q3 & F3 & L3);
    [now rewrite (q_num _ _ Q2), (q_num _ _ Q1)|]. rewrite (bind_Ok _ _ _ _ _ E3).
  assert (exists cs, (if bool_decide (auth_alg s <> WLAN_AUTH_FT) then hostapd "mlme_deletekeys_request" (sta_addr s)
    else ret tt) w3 = Ok (tt, with_log cs w3)) as (cs & E4).
  { case_bool_decide; [eexists [_]; reflexivity|exists []; by destruct w3]. }
  exists (with_log cs w3). split; [exact E4|].
  assert (quiet w1 (with_log cs w3)) as Q by (transitivity w2; [done|]; transitivity w3; [done|apply quiet_log]). split.
  - now transitivity w1.
  - simpl. rewrite F3, C2, D1. done.
  - change (listed (with_log cs w3)) with (listed w3). rewrite L3. unfold listed. now rewrite M2, M1.
  - destruct (q_trace _ _ Q) as [ds T]. now exists u, r, w1, ds.
Qed.
End Associate.

(** ** Any sequence of operations *)

(** An operation on the station [p] of the BSS [i] that returns and keeps the
    tables. *)
Definition gentle {A} (i : nat) (p : positive) (m : M world A) : Prop := forall w,
  iface_ok w -> is_Some (bss (ifc w) !! i) -> is_Some (heap w !! p) -> quietly w (m w).

Section Gentle.
Context `{StamgdFormat} (i : nat) (p : positive).

Lemma gentle_bind {A B} (m : M world A) (k : A -> M world B) :
  gentle i p m -> (forall a, gentle i p (k a)) -> gentle i p (bind m k).
Proof using.
  intros Hm Hk w I Hb Hp. apply quietly_bind; [now apply Hm|]. intros a w' _ Q. apply Hk.
  - now apply (iface_ok_quiet w).
  - now rewrite (q_ifc _ _ Q).
  - destruct Hp as [s Hs]. destruct (quiet_sta _ _ _ _ Q Hs) as (s' & Hs' & _). eauto.
Qed.

Lemma gentle_ret {A} (a : A) : gentle i p (ret a).
Proof using. intros w _ _ _. apply quietly_ret. Qed.
Lemma gentle_ret_bind {A B} (a : A) (k : A -> M world B) : gentle i p (k a) -> gentle i p (bind (ret a) k).
Proof using. intros Hk w. rewrite bind_ret_l. apply Hk. Qed.
Lemma gentle_get : gentle i p get.
Proof using. intros w _ _ _. by exists w, w. Qed.
Lemma gentle_ext c : gentle i p (ext c).
Proof using. intros w _ _ _. apply quietly_ext. Qed.
Lemma gentle_ext_ c : gentle i p (ext_ c).
Proof using. intros w _ _ _. apply quietly_ext_. Qed.
Lemma gentle_get_sta : gentle i p (get_sta p).
Proof using. intros w _ _ [s Hs]. exists s, w. split; [now apply get_sta_run|done]. Qed.
Lemma gentle_get_bss : gentle i p (get_bss i).
Proof using. intros w _ [b Hb] _. exists b, w. split; [now apply get_bss_run|done]. Qed.
Lemma gentle_upd_sta f : (forall s, face (f s) = face s) -> gentle i p (upd_sta p f).
Proof using. intros Hf w _ _ [s Hs]. eexists _, _. by apply quietly_upd_sta. Qed.
Lemma gentle_unauthorize : gentle i p (ap_sta_unauthorize i p).
Proof using. intros w _ _ [s Hs]. by apply (unauthorize_quietly i p s). Qed.
Lemma gentle_deauth_ind : gentle i p (mlme_deauthenticate_indication i p).
Proof using. intros w I [b Hb] [s Hs]. by apply (deauth_ind_quietly w i b p s). Qed.
Lemma gentle_disassoc_ind : gentle i p (mlme_disassociate_indication i p).
Proof using. intros w I [b Hb] [s Hs]. by apply (disassoc_ind_quietly w i b p s). Qed.
End Gentle.

#[export] Hint Resolve gentle_ret gentle_get gentle_ext gentle_ext_ gentle_get_sta gentle_get_bss
  gentle_unauthorize gentle_deauth_ind gentle_disassoc_ind : lazyas.
#[export] Hint Extern 1 (gentle _ _ (upd_sta _ _)) => apply gentle_upd_sta; intros; reflexivity : lazyas.

(** Walks through an operation. *)
Ltac gentle_tac :=
  repeat lazymatch goal with
  | |- gentle _ _ (bind _ _) => apply gentle_bind; [|intros]
  | |- gentle _ _ (if ?b then _ else _) => destruct b
  | |- gentle _ _ (let _ := _ in _) => cbv zeta
  end; auto with lazyas.

Section Life.
Context `{StamgdFormat}.

Lemma check_activity_gentle m b i p : gentle i p (check_activity m b p).
Proof. unfold check_activity. gentle_tac. Qed.
Lemma check_poll_gentle m b l n i p : gentle i p (check_poll m b l n p).
Proof. unfold check_poll. gentle_tac. Qed.
Lemma timer_frame_gentle i p : gentle i p (timer_frame i p).
Proof. unfold timer_frame, hostapd, hostapd_drv_sta_deauth, hostapd_drv_sta_disassoc. gentle_tac. Qed.
Lemma disconnect_gentle addr reason i p : gentle i p (ap_sta_disconnect i (Some p) addr reason).
Proof.
  unfold ap_sta_disconnect, hostapd_drv_sta_deauth, hostapd, retimer.
  destruct addr; (apply gentle_ret_bind; gentle_tac).
Qed.
Lemma deauth_cb_gentle i p : gentle i p (ap_sta_deauth_cb i p).
Proof. unfold ap_sta_deauth_cb, pending_cb, ap_sta_deauth_cb_timeout, ap_sta_remove, hostapd. gentle_tac. Qed.
Lemma disassoc_cb_gentle i p : gentle i p (ap_sta_disassoc_cb i p).
Proof. unfold ap_sta_disassoc_cb, pending_cb, ap_sta_disassoc_cb_timeout, ap_sta_remove, hostapd. gentle_tac. Qed.
Lemma kick_gentle addr i p : gentle i p (kick i p addr).
Proof. unfold kick, hostapd_drv_sta_disassoc, ap_sta_disassociate, retimer. gentle_tac. Qed.

(** What one entry keeps and what an operation may ask of the interface. *)
Definition in_table (w : world) (i : nat) (p : positive) : Prop :=
  exists b, bss (ifc w) !! i = Some b /\ p ∈ sta_list b.

Lemma in_table_live w i p : iface_ok w -> in_table w i p -> is_Some (bss (ifc w) !! i) /\ is_Some (heap w !! p).
Proof.
  intros I (b & Hb & Hp). destruct (io_bss _ I i b Hb) as [Hok _]. destruct (bss_live _ _ Hok p Hp) as (s & Hs & _). eauto.
Qed.

(** An operation that returns, keeps the invariant and the answers to come. *)
Definition safely {A} (w : world) (r : res (A * world)) : Prop :=
  exists a w', r = Ok (a, w') /\ iface_ok w' /\ onum (wenv w') = onum (wenv w).

Lemma quietly_safely {A} w (r : res (A * world)) : iface_ok w -> quietly w r -> safely w r.
Proof. intros I (a & w' & E & Q). exists a, w'. split; [done|]. split; [now apply (iface_ok_quiet w)|apply (q_num _ _ Q)]. Qed.

Lemma gentle_safely {A} (m : M world A) w i p : iface_ok w -> in_table w i p -> gentle i p m -> safely w (m w).
Proof. intros I Hp Hm. destruct (in_table_live _ _ _ I Hp). apply quietly_safely; [done|now apply Hm]. Qed.

Lemma free_safely w i p : iface_ok w -> in_table w i p -> safely w (ap_free_sta i p w).
Proof.
  intros I (b & Hb & Hp). destruct (io_bss _ I i b Hb) as [Hok _]. destruct (bss_live _ _ Hok p Hp) as (s & Hs & _).
  destruct (free_run w i b p s I Hb Hp Hs) as (w' & E & F). exists tt, w'. split; [done|].
  split; [apply (fr_ok _ _ _ _ _ _ F)|apply (fr_num _ _ _ _ _ _ F)].
Qed.

Lemma in_table_quiet w w' i p : quiet w w' -> in_table w i p -> in_table w' i p.
Proof. intros Q (b & Hb & Hp). exists b. now rewrite (q_ifc _ _ Q). Qed.

(** A gentle operation, then one that is safe. *)
Lemma gentle_then {A B} (m : M world A) (k : A -> M world B) w i p : iface_ok w -> in_table w i p -> gentle i p m ->
  (forall a w', iface_ok w' -> in_table w' i p -> safely w' (k a w')) -> safely w (bind m k w).
Proof.
  intros I Hp Hm Hk. destruct (in_table_live _ _ _ I Hp) as [Hb Hs]. destruct (Hm w I Hb Hs) as (a & w1 & E & Q).
  rewrite (bind_Ok _ _ _ _ _ E). destruct (Hk a w1) as (c & w2 & E2 & I2 & N2);
    [now apply (iface_ok_quiet w)|now apply (in_table_quiet w)|].
  exists c, w2. split; [done|]. split; [done|]. now rewrite N2, (q_num _ _ Q).
Qed.

Lemma timer_safely m b w i p : iface_ok w -> in_table w i p -> safely w (ap_handle_timer m b i p w).
Proof.
  intros I Hp. unfold ap_handle_timer. apply (gentle_then _ _ _ i p); auto with lazyas. intros s w1 I1 Hp1.
  destruct (bool_decide _); [now apply free_safely|].
  apply (gentle_then _ _ _ i p); auto using check_activity_gentle. intros c w2 I2 Hp2.
  apply (gentle_then _ _ _ i p); auto using check_poll_gentle. intros n w3 I3 Hp3.
  destruct (bool_decide _); [now apply (gentle_safely _ w3 i p); auto with lazyas|].
  apply (gentle_then _ _ _ i p); auto using timer_frame_gentle. intros [] w4 I4 Hp4. unfold timer_switch.
  apply (gentle_then _ _ _ i p); auto with lazyas. intros s5 w5 I5 Hp5. cbv zeta.
  destruct (bool_decide _); [apply (gentle_safely _ w5 i p); [done..|gentle_tac]|].
  destruct (bool_decide _); [apply (gentle_safely _ w5 i p); [done..|unfold hostapd; gentle_tac]|].
  destruct (bool_decide _); [|apply (gentle_safely _ w5 i p); [done..|gentle_tac]].
  apply (gentle_then _ _ _ i p); auto with lazyas. intros [] w6 I6 Hp6. now apply free_safely.
Qed.

Lemma session_safely w i p : iface_ok w -> in_table w i p -> safely w (ap_handle_session_timer i p w).
Proof.
  intros I Hp. unfold ap_handle_session_timer. apply (gentle_then _ _ _ i p); auto with lazyas. intros s w1 I1 Hp1.
  destruct (negb _).
  - destruct (has _ _); [now apply free_safely|now apply (gentle_safely _ w1 i p); auto with lazyas].
  - apply (gentle_then _ _ _ i p); [done..|unfold hostapd_drv_sta_deauth; gentle_tac|]. intros r w2 I2 Hp2.
    apply (gentle_then _ _ _ i p); auto with lazyas. intros [] w3 I3 Hp3. now apply free_safely.
Qed.

Lemma del_of_vap_safely w i addr : iface_ok w -> is_Some (bss (ifc w) !! i) -> mac_ok addr ->
  safely w (ieee802_11_del_station_of_vap (Some i) (Some addr) w).
Proof.
  intros I [b Hb] Hm. destruct (io_bss _ I i b Hb) as [Hok _].
  destruct (ap_get_sta_spec w i b addr Hb Hok Hm) as (r & Hr & Hspec).
  unfold ieee802_11_del_station_of_vap. rewrite (bind_Ok _ _ _ _ _ Hr). destruct r as [p|].
  - destruct (proj1 (Hspec p) eq_refl) as (s & Hp & _). apply (gentle_safely _ w i p I); [now exists b|].
    apply gentle_bind; [apply kick_gentle|auto with lazyas].
  - apply quietly_safely; [done|apply quietly_ret].
Qed.

Lemma add_safely m w i addr : iface_ok w -> is_Some (bss (ifc w) !! i) -> mac_ok addr -> safely w (ap_sta_add m i addr w).
Proof.
  intros I [b Hb] Hm. destruct (add_cases m w i b addr I Hb Hm) as [Hold Hnew].
  destruct (io_bss _ I i b Hb) as [Hok _].
  destruct (ap_get_sta_spec w i b addr Hb Hok Hm) as ([q|] & _ & Hspec).
  - destruct (proj1 (Hspec q) eq_refl) as [s Hs]. exists (Some q), w. split; [now apply (Hold q s)|done].
  - destruct Hnew as (H1 & H2 & H3).
    { intros q s Hq. assert (None = Some q) by (apply Hspec; eauto). discriminate. }
    destruct (decide (num_sta b < max_num_sta b)) as [Hn|Hn]; [|exists None, w; split; [apply H1; lia|done]].
    destruct (decide (onum (wenv w) (length (trace (wenv w))) (Malloc sizeof_sta_info) = 0)) as [Hz|Hz].
    + exists None, (with_log [Malloc sizeof_sta_info] w). split; [auto|]. split; [|done]. by apply (iface_ok_quiet w); [apply quiet_log|].
    + destruct (H3 Hn Hz) as (p & w' & E & D). exists (Some p), w'. split; [done|].
      split; [apply (ad_ok _ _ _ _ _ _ D)|apply (ad_num _ _ _ _ _ _ D)].
Qed.

(** The operations. *)
Inductive sta_op : Type :=
| OpAdd (max_inactivity : Z) (i : nat) (addr : list Z)
| OpAssoc (i : nat) (p : positive)
| OpReassoc (i : nat) (p : positive)
| OpTimer (max_inactivity : Z) (skip_poll : bool) (i : nat) (p : positive)
| OpSession (i : nat) (p : positive)
| OpSetSession (i : nat) (p : positive) (secs : option Z)
| OpDisconnect (i : nat) (p : positive) (addr : option (list Z)) (reason : Z)
| OpOffVap (i : nat) (addr : list Z)
| OpDeauthCb (i : nat) (p : positive)
| OpDisassocCb (i : nat) (p : positive)
| OpFree (i : nat) (p : positive)
| OpFlush (i : nat).

Definition run_op (o : sta_op) : M world unit :=
  match o with
  | OpAdd m i addr => ap_sta_add m i addr ;;; ret tt
  | OpAssoc i p => mlme_associate_indication i p
  | OpReassoc i p => mlme_reassociate_indication i p
  | OpTimer m b i p => ap_handle_timer m b i p
  | OpSession i p => ap_handle_session_timer i p
  | OpSetSession i p (Some t) => ap_sta_session_timeout p t
  | OpSetSession i p None => ap_sta_no_session_timeout p
  | OpDisconnect i p addr reason => ap_sta_disconnect i (Some p) addr reason
  | OpOffVap i addr => ieee802_11_del_station_of_vap (Some i) (Some addr) ;;; ret tt
  | OpDeauthCb i p => ap_sta_deauth_cb i p
  | OpDisassocCb i p => ap_sta_disassoc_cb i p
  | OpFree i p => ap_free_sta i p
  | OpFlush i => hostapd_free_stas i
  end.

(** The operation is called on a BSS of the interface, and on a station of it. *)
Definition called_on (w : world) (o : sta_op) : Prop :=
  match o with
  | OpAdd _ i addr | OpOffVap i addr => is_Some (bss (ifc w) !! i) /\ mac_ok addr
  | OpAssoc i p | OpReassoc i p | OpTimer _ _ i p | OpSession i p | OpSetSession i p _
  | OpDisconnect i p _ _ | OpDeauthCb i p | OpDisassocCb i p | OpFree i p =>
      in_table w i p
  | OpFlush i => is_Some (bss (ifc w) !! i)
  end.

(** One step: an operation, or what the rest of hostapd does to an entry. *)
Inductive life_step : world -> world -> Prop :=
| LifeOp w o w' : called_on w o -> run_op o w = Ok (tt, w') -> life_step w w'
| LifeEntry w p s s' : heap w !! p = Some s -> sta_addr s' = sta_addr s -> 0 <= sta_aid_ s' <= 2007 ->
    life_step w (upd_heap <[p := s']> w).

Definition life_ok (w : world) : Prop := iface_ok w /\ forall t n, onum (wenv w) t (Malloc n) <> 0.

Lemma op_safely w o : life_ok w -> called_on w o -> safely w (run_op o w).
Proof.
  intros [I Hmem] Hc. assert (forall A (m : M world A), safely w (m w) -> safely w ((m ;;; ret tt) w)) as Hret.
  { intros A m (a & w' & E & S). rewrite (bind_Ok _ _ _ _ _ E). by exists tt, w'. }
  assert (forall i p, in_table w i p -> safely w (assoc_indication i p w)) as Hassoc.
  { intros i p (b & Hb & Hp). destruct (io_bss _ I i b Hb) as [Hok _]. destruct (bss_live _ _ Hok p Hp) as (s & Hs & _).
    destruct (assoc_run w i b p s I Hb Hp Hs Hmem) as (w' & E & J). apply quietly_safely; [done|].
    exists tt, w'. split; [done|apply (jo_quiet _ _ _ _ J)]. }
  destruct o; simpl in *; try (now apply Hassoc).
  - destruct Hc. now apply Hret, add_safely.
  - now apply timer_safely.
  - now apply session_safely.
  - apply (gentle_safely _ w i p); [done..|]. unfold ap_sta_session_timeout, ap_sta_no_session_timeout, retimer.
    destruct secs; gentle_tac.
  - apply (gentle_safely _ w i p); auto using disconnect_gentle.
  - destruct Hc. now apply Hret, del_of_vap_safely.
  - apply (gentle_safely _ w i p); auto using deauth_cb_gentle.
  - apply (gentle_safely _ w i p); auto using disassoc_cb_gentle.
  - now apply free_safely.
  - destruct Hc as [b Hb]. unfold hostapd_free_stas. rewrite (bind_Ok _ _ _ _ _ (get_bss_run _ _ _ Hb)).
    destruct (free_stas_run (sta_list b) w i b I Hb eq_refl) as (w' & E & F). exists tt, w'. split; [done|].
    split; [apply (em_ok _ _ _ _ F)|apply (em_num _ _ _ _ F)].
Qed.

Lemma life_step_ok w w' : life_step w w' -> life_ok w -> life_ok w'.
Proof.
  destruct 1 as [w o w' Hc E|w p s s' Hs Ea Hr]; intros L.
  - destruct (op_safely w o L Hc) as ([] & w2 & E2 & I2 & N2). assert (w2 = w') as -> by congruence.
    split; [done|]. rewrite N2. apply L.
  - destruct L as [I Hmem]. split; [|done]. split; try apply I; simpl.
    + intros i b Hb. destruct (io_bss _ I i b Hb) as [H1 H2]. split; [|done]. eapply bss_ok_frame; [|exact H1].
      intros q _. destruct (decide (q = p)) as [->|]; [|now rewrite lookup_insert_ne].
      rewrite lookup_insert_eq, Hs. simpl. now rewrite Ea.
    + intros q t Ht. destruct (decide (q = p)) as [->|Hq]; [rewrite lookup_insert_eq in Ht; now injection Ht as <-|].
      rewrite lookup_insert_ne in Ht by done. now apply (io_aid _ I q).
Qed.

Lemma life_steps_ok w w' : rtc life_step w w' -> life_ok w -> life_ok w'.
Proof. induction 1; [done|]. eauto using life_step_ok. Qed.
End Life.

(** ** A station that stays silent *)

Section Silent.
Context `{StamgdFormat} (max_inactivity : Z) (i : nat) (p : positive) (w : world).

Definition silent (e : env) (addr : list Z) : Prop :=
  forall t, max_inactivity <= onum e t (Hostapd (str "hostapd_drv_get_inact_sec") addr).

Lemma activity_at s e : 0 < max_inactivity -> associated s -> timeout_next s = STA_NULLFUNC \/ timeout_next s = STA_DISASSOC ->
  silent e (sta_addr s) ->
  check_activity max_inactivity false p (at_sta p s e w)
  = Ok ((0, false), at_sta p s (logged_all [Hostapd (str "os_random") []; Hostapd (str "hostapd_drv_get_inact_sec") (sta_addr s)] e) w).
Proof using.
  intros Hm Ha Ht Hs. unfold check_activity. rewrite (bind_Ok _ _ _ _ _ (get_sta_at p s e w)).
  rewrite Ha, bool_decide_eq_true_2 by done. cbn [andb].
  erewrite bind_Ok by reflexivity. cbv zeta. erewrite bind_Ok by reflexivity.
  match goal with |- context [bool_decide (?x = -1)] => assert (max_inactivity <= x) by apply Hs; set (z := x) in * end.
  clearbody z. rewrite !bool_decide_eq_false_2 by (unfold ENOENT; lia). reflexivity.
Qed.

Lemma activity_off s e : ~ associated s ->
  check_activity max_inactivity false p (at_sta p s e w) = Ok ((0, false), at_sta p s e w).
Proof using.
  intros Ha. unfold check_activity. rewrite (bind_Ok _ _ _ _ _ (get_sta_at p s e w)).
  apply not_true_iff_false in Ha. now rewrite Ha.
Qed.

Lemma poll_none s e : timeout_next s <> STA_DISASSOC \/ has (sta_flags s) WLAN_STA_PENDING_POLL = true ->
  check_poll max_inactivity false false 0 p (at_sta p s e w) = Ok (0, at_sta p s e w).
Proof using.
  intros Hc. unfold check_poll. rewrite (bind_Ok _ _ _ _ _ (get_sta_at p s e w)).
  destruct Hc as [Hc|Hc]; [rewrite (bool_decide_eq_false_2 (_ = STA_DISASSOC)) by done|rewrite Hc];
    cbn [negb andb]; rewrite ?andb_false_r; reflexivity.
Qed.

(** The timer when there is nothing to wait for. *)
Lemma timer_at s e cs : timeout_next s <> STA_REMOVE ->
  check_activity max_inactivity false p (at_sta p s e w) = Ok ((0, false), at_sta p s (logged_all cs e) w) ->
  timeout_next s <> STA_DISASSOC \/ has (sta_flags s) WLAN_STA_PENDING_POLL = true ->
  ap_handle_timer max_inactivity false i p (at_sta p s e w)
  = (timer_frame i p ;;; timer_switch i p) (at_sta p s (logged_all cs e) w).
Proof using.
  intros Hr Hc Hp. unfold ap_handle_timer. rewrite (bind_Ok _ _ _ _ _ (get_sta_at p s e w)).
  rewrite bool_decide_eq_false_2 by done. rewrite (bind_Ok _ _ _ _ _ Hc). cbn [fst snd].
  rewrite (bind_Ok _ _ _ _ _ (poll_none _ _ Hp)). reflexivity.
Qed.

(** The first round: a poll is sent. *)
Definition polled (s : sta_info) : sta_info :=
  set_timeout_next STA_DISASSOC (set_sta_flags (Z.lor (sta_flags s) WLAN_STA_PENDING_POLL) s).

Lemma round_poll s e : 0 < max_inactivity -> associated s -> timeout_next s = STA_NULLFUNC -> silent e (sta_addr s) ->
  exists cs, ap_handle_timer max_inactivity false i p (at_sta p s e w)
  = Ok (tt, at_sta p (polled s) (logged_all (cs ++ [EloopTimeout AP_DISASSOC_DELAY (str "ap_handle_timer") (sta_addr s)]) e) w).
Proof using.
  intros Hm Ha Ht Hs. erewrite timer_at by (rewrite ?Ht; first [now apply activity_at; auto|done|now left]).
  set (e1 := logged_all _ e). eexists [_; _; _]. unfold timer_frame.
  rewrite bind_assoc, (bind_Ok _ _ _ _ _ (get_sta_at p s e1 w)). rewrite Ht, Ha.
  rewrite bool_decide_eq_true_2 by done. cbn [andb]. unfold hostapd.
  rewrite bind_assoc, (bind_Ok _ _ _ _ _ (upd_sta_at p s e1 w _)). erewrite bind_Ok by apply ext_at.
  unfold timer_switch. erewrite bind_Ok by apply get_sta_at. cbv zeta. cbn [timeout_next set_sta_flags].
  rewrite bool_decide_eq_true_2 by done. erewrite bind_Ok by apply upd_sta_at. rewrite ext_at. reflexivity.
Qed.

(** The second round: it is disassociated. *)
Definition expelled (s : sta_info) : sta_info :=
  set_timeout_next STA_DEAUTH (set_sta_flags (Z.ldiff (Z.ldiff (sta_flags s) WLAN_STA_AUTHORIZED) WLAN_STA_ASSOC) s).

Lemma expelled_off s : ~ associated (expelled s).
Proof using.
  unfold associated, expelled, WLAN_STA_ASSOC at 2. cbn [sta_flags set_timeout_next set_sta_flags].
  rewrite has_bit by lia. rewrite !Z.ldiff_spec. destruct (Z.testbit (sta_flags s) 1); intros [=].
Qed.

Lemma round_expel s e b : bss (ifc w) !! i = Some b -> driver_ops (ifc w) = true -> 0 ∈ ssid b ->
  0 < max_inactivity -> associated s -> timeout_next s = STA_DISASSOC -> has (sta_flags s) WLAN_STA_PENDING_POLL = true ->
  silent e (sta_addr s) ->
  exists f cs ds, ap_handle_timer max_inactivity false i p (at_sta p s e w)
  = Ok (tt, with_log ds (upd_master f (at_sta p (expelled s) (logged_all cs e) w))) /\
    DrvStaDisassoc (own_addr b) (sta_addr s) WLAN_REASON_DISASSOC_DUE_TO_INACTIVITY ∈ cs /\
    EloopTimeout AP_DEAUTH_DELAY (str "ap_handle_timer") (sta_addr s) ∈ cs.
Proof using.
  intros Hb Hd Hsd Hm Ha Ht Hp Hs. erewrite timer_at by (rewrite ?Ht; first [now apply activity_at; auto|done|now right]).
  set (c1 := [_; _]). set (e1 := logged_all _ e). unfold timer_frame.
  rewrite bind_assoc, (bind_Ok _ _ _ _ _ (get_sta_at p s e1 w)). rewrite Ht.
  rewrite (bool_decide_eq_false_2 (STA_DISASSOC = STA_NULLFUNC)), (bool_decide_eq_true_2 (_ <> _)) by done. cbn [andb].
  rewrite (bool_decide_eq_false_2 (STA_DISASSOC = STA_DEAUTH)), (bool_decide_eq_true_2 (STA_DISASSOC = STA_DISASSOC)) by done.
  set (kickc := DrvStaDisassoc (own_addr b) (sta_addr s) WLAN_REASON_DISASSOC_DUE_TO_INACTIVITY).
  erewrite bind_Ok.
  2: { unfold hostapd_drv_sta_disassoc. rewrite bind_assoc, (bind_Ok _ _ _ b (at_sta p s e1 w)) by (now apply get_bss_run).
       rewrite bind_assoc, (bind_Ok _ _ _ (at_sta p s e1 w) (at_sta p s e1 w)) by done.
       change (driver_ops (ifc (at_sta p s e1 w))) with (driver_ops (ifc w)). rewrite Hd. reflexivity. }
  change (put_env _ _) with (at_sta p s (logged kickc e1) w). set (e2 := logged _ e1).
  unfold timer_switch. rewrite (bind_Ok _ _ _ _ _ (get_sta_at p s e2 w)). cbv zeta. rewrite Ht.
  rewrite (bool_decide_eq_false_2 (STA_DISASSOC = STA_NULLFUNC)), (bool_decide_eq_true_2 (_ \/ _)) by (done || by left).
  rewrite (bind_Ok _ _ _ _ _ (unauthorize_at i p s e2 w)). erewrite bind_Ok by apply upd_sta_at. unfold hostapd.
  do 3 (erewrite bind_Ok by apply ext_at). erewrite bind_Ok by apply upd_sta_at. erewrite bind_Ok by apply ext_at.
  change (set_timeout_next STA_DEAUTH _) with (expelled s).
  set (e3 := logged (EloopTimeout _ _ _) _).
  assert (exists cs, e3 = logged_all cs e /\ kickc ∈ cs /\
    EloopTimeout AP_DEAUTH_DELAY (str "ap_handle_timer") (sta_addr s) ∈ cs) as (cs & -> & Hk & He).
  { eexists ((c1 ++ [kickc]) ++ unauthorize_calls s ++ [_; _; _; _]). split.
    - unfold e3, e2, e1. rewrite !logged_all_app. reflexivity.
    - split; rewrite !elem_of_app; [left; right; left|]. right. right.
      do 3 apply list_elem_of_further. left. }
  unfold mlme_disassociate_indication. erewrite bind_Ok by apply get_sta_at.
  erewrite bind_Ok by (apply get_bss_run; exact Hb).
  destruct (tell_gone_run (at_sta p (expelled s) (logged_all cs e) w) b (sta_addr (expelled s)) Hsd) as (f & ds & E).
  rewrite (bind_Ok _ _ _ _ _ E). exists f, cs, (ds ++ [Hostapd (str "mlme_deletekeys_request") (sta_addr s)]).
  rewrite with_log_app. done.
Qed.
End Silent.

Section Removed.
Context `{StamgdFormat}.

(** The third round: it is removed. *)
Lemma round_remove max_inactivity w i b p s : iface_ok w -> bss (ifc w) !! i = Some b -> p ∈ sta_list b ->
  heap w !! p = Some s -> ~ associated s -> timeout_next s = STA_DEAUTH ->
  exists w1 w', ap_handle_timer max_inactivity false i p w = Ok (tt, w') /\ quiet w w1 /\ freed w1 i b p s w'.
Proof.
  intros I Hb Hp Hs Ha Ht.
  assert (ap_handle_timer max_inactivity false i p w = ap_handle_timer max_inactivity false i p (at_sta p s (wenv w) w)) as ->
    by now rewrite at_sta_start.
  rewrite (timer_at _ _ _ w s _ []) by (rewrite ?Ht; first [now apply activity_off|done|now left]). cbn [logged_all foldl].
  rewrite at_sta_start by done. unfold timer_frame.
  rewrite bind_assoc, (bind_Ok _ _ _ _ _ (get_sta_run _ _ _ Hs)). rewrite Ht.
  rewrite (bool_decide_eq_false_2 (STA_DEAUTH = STA_NULLFUNC)), (bool_decide_eq_true_2 (_ <> _)) by done. cbn [andb].
  rewrite bool_decide_eq_true_2 by done. erewrite bind_Ok.
  2: { unfold hostapd_drv_sta_deauth. rewrite bind_assoc, (bind_Ok _ _ _ _ _ (get_bss_run _ _ _ Hb)).
       rewrite bind_assoc, (bind_Ok _ _ w w w) by done. rewrite (io_ops _ I). reflexivity. }
  set (w1 := put_env _ w). assert (quiet w w1) as Q1 by apply (quiet_log [_] w).
  assert (heap w1 !! p = Some s) as Hs1 by done. unfold timer_switch.
  rewrite (bind_Ok _ _ _ _ _ (get_sta_run _ _ _ Hs1)). cbv zeta. rewrite Ht.
  rewrite (bool_decide_eq_false_2 (STA_DEAUTH = STA_NULLFUNC)), (bool_decide_eq_false_2 (STA_DEAUTH = STA_DISASSOC \/ _)) by (done || by intros [|]).
  rewrite bool_decide_eq_true_2 by by left. pose proof (iface_ok_quiet _ _ Q1 I) as I1.
  unfold mlme_deauthenticate_indication. rewrite bind_assoc, (bind_Ok _ _ _ _ _ (get_sta_run _ _ _ Hs1)).
  rewrite bind_assoc, (bind_Ok _ _ w1 b w1) by (now apply get_bss_run).
  destruct (tell_gone_run w1 b (sta_addr s) (nm_end _ (proj2 (io_bss _ I i b Hb)))) as (f & cs & E).
  rewrite bind_assoc, (bind_Ok _ _ _ _ _ E). set (w2 := with_log cs _).
  assert (quiet w1 w2) as Q2 by (transitivity (upd_master f w1); [apply quiet_master|apply quiet_log]).
  assert (exists ds, (w0 <-- get ;; if driver_ap_teardown (ifc w0) then ret tt
    else hostapd "mlme_deletekeys_request" (sta_addr s)) w2 = Ok (tt, with_log ds w2)) as (ds & E3).
  { rewrite (bind_Ok _ _ w2 w2 w2) by done. destruct (driver_ap_teardown _); [exists []; by destruct w2|eexists [_]; reflexivity]. }
  rewrite (bind_Ok _ _ _ _ _ E3). set (w3 := with_log ds w2).
  assert (quiet w w3) as Q by (transitivity w1; [done|]; transitivity w2; [done|apply quiet_log]).
  destruct (free_run w3 i b p s) as (w4 & E4 & F); [now apply (iface_ok_quiet w)|done..|]. exists w3, w4. done.
Qed.
End Removed.

(** ** Statements *)

Section Statements.
Context `{StamgdFormat}.

(** C10: [ap_free_sta].  A station of a BSS is reported to the controller first;
    then it is taken out of the list, out of its chain and out of the bit field of
    the AIDs, the counter is one less, its entry is freed, and nothing of another
    station changes: the tables of all BSSs are in order as before. *)
Theorem ap_free_sta_spec (w : world) (i : nat) (b : hostapd_data) (p : positive) (s : sta_info)
    (Hw : iface_ok w) (Hb : bss (ifc w) !! i = Some b) (Hp : p ∈ sta_list b) (Hs : heap w !! p = Some s) :
  exists w', ap_free_sta i p w = Ok (tt, w') /\ freed w i b p s w'.
Proof. now apply free_run. Qed.

(** C15: [ap_sta_add] on every branch.  A known station is returned and nothing
    changes; a full table and no memory give NULL; else there is a new entry for
    the address, cleared, first in the list and in its chain, the tables stay in
    order, the other entries keep their addresses and AIDs, and the station is not
    associated with any other BSS of the interface. *)
Theorem ap_sta_add_spec (max_inactivity : Z) (w : world) (i : nat) (b : hostapd_data) (addr : list Z)
    (Hw : iface_ok w) (Hb : bss (ifc w) !! i = Some b) (Hm : mac_ok addr) :
  (forall p s, sta_at w b addr p s -> ap_sta_add max_inactivity i addr w = Ok (Some p, w)) /\
  ((forall p s, ~ sta_at w b addr p s) ->
     (max_num_sta b <= num_sta b -> ap_sta_add max_inactivity i addr w = Ok (None, w)) /\
     (num_sta b < max_num_sta b -> onum (wenv w) (length (trace (wenv w))) (Malloc sizeof_sta_info) = 0 ->
        ap_sta_add max_inactivity i addr w = Ok (None, with_log [Malloc sizeof_sta_info] w)) /\
     (num_sta b < max_num_sta b -> onum (wenv w) (length (trace (wenv w))) (Malloc sizeof_sta_info) <> 0 ->
        exists p w', ap_sta_add max_inactivity i addr w = Ok (Some p, w') /\ added w i b addr p w')).
Proof. now apply add_cases. Qed.

(** An association, or a reassociation, is told to everybody: the controller
    gets the report, the pair of the station and the AP is in the table of assigned
    stations (whatever the controller had assigned), and the station is on the list
    of the station manager; the tables of stations are as before. *)
Theorem association_recorded (w : world) (i : nat) (b : hostapd_data) (p : positive) (s : sta_info)
    (Hw : iface_ok w) (Hb : bss (ifc w) !! i = Some b) (Hp : p ∈ sta_list b) (Hs : heap w !! p = Some s)
    (Hmem : forall t n, onum (wenv w) t (Malloc n) <> 0) :
  exists w', mlme_associate_indication i p w = Ok (tt, w') /\ mlme_reassociate_indication i p w = Ok (tt, w') /\
    joined w b (sta_addr s) w'.
Proof. destruct (assoc_run w i b p s Hw Hb Hp Hs Hmem) as (w' & E & J). now exists w'. Qed.

(** A network whose name has all 32 bytes.  The name is copied into [ssid[32]]
    and its final 0 is written behind the array, when a station associates and when
    it is removed. *)
Theorem full_name_overflow (w : world) (i : nat) (b : hostapd_data) (p : positive) (s : sta_info)
    (Hb : bss (ifc w) !! i = Some b) (Hs : heap w !! p = Some s)
    (Hn : length (ssid b) = 32%nat) (Hl : ssid_len b = 32) :
  ap_free_sta i p w = Ub OutOfBounds /\ mlme_associate_indication i p w = Ub OutOfBounds.
Proof.
  assert (sta_report b (sta_addr s) = Ub OutOfBounds) as E.
  { unfold sta_report, slice, splice. rewrite Hl, bool_decide_eq_true_2 by (unfold zlen; lia). cbn [res_bind].
    change (Z.to_nat 32) with 32%nat. rewrite drop_0, take_ge by lia.
    rewrite bool_decide_eq_true_2 by (unfold zlen, zeros; rewrite length_replicate; lia). cbn [res_bind].
    unfold wr. rewrite bool_decide_eq_false_2; [done|]. unfold zlen, zeros. cbn [take].
    rewrite !length_app, length_drop, length_replicate. simpl. lia. }
  split; [unfold ap_free_sta|unfold mlme_associate_indication, assoc_indication];
    rewrite (bind_Ok _ _ _ _ _ (get_sta_run _ _ _ Hs)), (bind_Ok _ _ _ _ _ (get_bss_run _ _ _ Hb)); unfold bind, lift; now rewrite E.
Qed.

(** C35: [hostapd_free_stas] ends, and leaves the BSS without a station: the list,
    every chain and the counter are empty, each entry that was in the list is freed
    and no other is; the other BSSs are as before. *)
Theorem hostapd_free_stas_spec (w : world) (i : nat) (b : hostapd_data) (Hw : iface_ok w) (Hb : bss (ifc w) !! i = Some b) :
  exists w' b', hostapd_free_stas i w = Ok (tt, w') /\ iface_ok w' /\
    bss (ifc w') = <[i := b']> (bss (ifc w)) /\ sta_list b' = [] /\ sta_hash b' = replicate 256 [] /\ num_sta b' = 0 /\
    forall q, face <$> heap w' !! q = if decide (q ∈ sta_list b) then None else face <$> heap w !! q.
Proof.
  destruct (free_stas_run (sta_list b) w i b Hw Hb eq_refl) as (w' & E & F). destruct (em_bss _ _ _ _ F) as (b' & B & L).
  exists w', b'. split; [unfold hostapd_free_stas; now rewrite (bind_Ok _ _ _ _ _ (get_bss_run _ _ _ Hb))|].
  split; [apply (em_ok _ _ _ _ F)|]. split; [done|]. split; [done|].
  assert (bss (ifc w') !! i = Some b') as Hb' by (rewrite B; apply list_lookup_insert_eq; now apply lookup_lt_Some in Hb).
  destruct (io_bss _ (em_ok _ _ _ _ F) i b' Hb') as [Hok _]. split; [|split].
  - symmetry. apply replicate_as_Forall. split; [apply Hok|]. apply Forall_forall. intros c Hc. apply list_elem_of_lookup in Hc as [k Hk].
    destruct (bss_chain _ _ Hok k c Hk) as [_ Hin]. destruct c as [|q c]; [done|].
    destruct (proj1 (Hin q) ltac:(left)) as [Hq _]. rewrite L in Hq. inversion Hq.
  - now rewrite (bss_count _ _ Hok), L.
  - intros q. case_decide as Hq; [now rewrite (em_gone _ _ _ _ F q Hq)|now apply (em_keep _ _ _ _ F)].
Qed.

(** In every reachable state the tables of all BSSs are in order, and every
    operation that is called on a station of a table (or on an address) returns.
    The steps are additions, associations, timers, disconnections, the controller's
    removals, callbacks, the end of a station and of all stations, in any order,
    and any change that the rest of hostapd makes to an entry but to its address;
    memory is there and no name has all 32 bytes. *)
Theorem station_life_safe (w w' : world) (Hw : life_ok w) (Hr : rtc life_step w w') :
  iface_ok w' /\ forall o, called_on w' o -> exists w2, run_op o w' = Ok (tt, w2) /\ iface_ok w2.
Proof.
  pose proof (life_steps_ok _ _ Hr Hw) as L. split; [apply L|]. intros o Ho.
  destruct (op_safely _ _ L Ho) as ([] & w2 & E & I & _). eauto.
Qed.

(** C36: an associated station that stays silent is removed by three rounds of
    [ap_handle_timer], each of which sets the timer for the next: it is polled, then
    disassociated, then removed, and it is in no table of its BSS any more. *)
Theorem silent_station_removed (max_inactivity : Z) (w : world) (i : nat) (b : hostapd_data) (p : positive) (s : sta_info)
    (Hw : iface_ok w) (Hb : bss (ifc w) !! i = Some b) (Hp : p ∈ sta_list b) (Hs : heap w !! p = Some s)
    (Hm : 0 < max_inactivity) (Ha : associated s) (Ht : timeout_next s = STA_NULLFUNC)
    (Hsil : silent max_inactivity (wenv w) (sta_addr s)) :
  exists w1 w2 w3 c1 c2,
    ap_handle_timer max_inactivity false i p w = Ok (tt, w1) /\
    trace (wenv w1) = trace (wenv w) ++ c1 /\ EloopTimeout AP_DISASSOC_DELAY (str "ap_handle_timer") (sta_addr s) ∈ c1 /\
    ap_handle_timer max_inactivity false i p w1 = Ok (tt, w2) /\
    trace (wenv w2) = trace (wenv w1) ++ c2 /\ EloopTimeout AP_DEAUTH_DELAY (str "ap_handle_timer") (sta_addr s) ∈ c2 /\
    DrvStaDisassoc (own_addr b) (sta_addr s) WLAN_REASON_DISASSOC_DUE_TO_INACTIVITY ∈ c2 /\
    ap_handle_timer max_inactivity false i p w2 = Ok (tt, w3) /\
    iface_ok w3 /\ heap w3 !! p = None /\ ~ in_table w3 i p.
Proof.
  destruct (round_poll max_inactivity i p w s (wenv w) Hm Ha Ht Hsil) as (cs & E1). rewrite at_sta_start in E1 by done.
  set (c1 := cs ++ _) in E1. set (w1 := at_sta _ _ _ w) in E1.
  assert (quiet w w1) as Q1 by now apply (quiet_at_sta p s). pose proof (iface_ok_quiet _ _ Q1 Hw) as I1.
  destruct (round_expel max_inactivity i p w (polled s) (wenv w1) b Hb (io_ops _ Hw) (nm_end _ (proj2 (io_bss _ Hw i b Hb))) Hm)
    as (f & c2 & c3 & E2 & Hk & He); [..|unfold silent; simpl; rewrite logged_all_onum; apply Hsil|].
  { unfold associated, polled, WLAN_STA_ASSOC. cbn [sta_flags set_timeout_next set_sta_flags]. unfold associated, WLAN_STA_ASSOC in Ha.
    rewrite has_bit, Z.lor_spec in * by lia. now rewrite Ha. }
  { done. }
  { unfold polled, WLAN_STA_PENDING_POLL. cbn [sta_flags set_timeout_next set_sta_flags].
    rewrite has_bit, Z.lor_spec by lia. apply orb_true_r. }
  change (at_sta p (polled s) (wenv w1) w) with w1 in E2. set (w2 := with_log c3 _) in E2.
  assert (quiet w w2) as Q2.
  { transitivity (upd_master f (at_sta p (expelled (polled s)) (logged_all (c1 ++ c2) (wenv w)) w)).
    - transitivity (at_sta p (expelled (polled s)) (logged_all (c1 ++ c2) (wenv w)) w); [now apply (quiet_at_sta p s)|apply quiet_master].
    - unfold w2, w1. simpl. rewrite logged_all_app. apply quiet_log. }
  pose proof (iface_ok_quiet _ _ Q2 Hw) as I2.
  destruct (round_remove max_inactivity w2 i b p (expelled (polled s)) I2) as (w2' & w3 & E3 & Q & F);
    [done|done|apply lookup_insert_eq|apply expelled_off|done|].
  exists w1, w2, w3, c1, (c2 ++ c3). split; [exact E1|]. split; [apply logged_all_trace|].
  split; [apply elem_of_app; right; left|]. split; [exact E2|].
  split; [unfold w2; simpl; now rewrite !logged_all_trace, app_assoc|].
  rewrite !elem_of_app. split; [now left|]. split; [now left|]. split; [exact E3|]. split; [apply (fr_ok _ _ _ _ _ _ F)|].
  assert (heap w3 !! p = None) as Hn by (pose proof (fr_heap _ _ _ _ _ _ F p) as K; rewrite decide_True in K by done; now destruct (heap w3 !! p)).
  split; [done|]. intros Hin. destruct (in_table_live _ _ _ (fr_ok _ _ _ _ _ _ F) Hin) as [_ [t Hx]]. congruence.
Qed.
End Statements.

(** ** Concrete states *)

(** Everything works, and stations were last heard 500 seconds ago. *)
Definition silent_env : env :=
  {| onum := fun _ c => match c with
       | Send _ d => zlen d | Malloc _ => 4096
       | Hostapd f _ => if bool_decide (f = str "hostapd_drv_get_inact_sec") then 500 else 0
       | _ => 0 end;
     obytes := fun _ _ => None; trace := [] |}.

Lemma demo_iface_ok e : iface_ok (demo_world1 e).
Proof.
  split.
  - reflexivity.
  - by_check.
  - apply dense_ok_of_check. vm_compute. reflexivity.
  - intros i b Hb. split; [now apply (proj2 (demo_stas_ok e) i)|].
    destruct i as [|[|i]]; simpl in Hb; [| |discriminate]; injection Hb as <-; (split; by_check).
  - intros i j b c p Hb Hc Hp Hq.
    destruct i as [|[|i]], j as [|[|j]]; simpl in Hb, Hc; try discriminate; try reflexivity;
      injection Hb as <-; injection Hc as <-; [inversion Hq|inversion Hp].
  - intros p s Hs. change (heap (demo_world1 e)) with (<[1%positive := demo_sta mac1]> (∅ : gmap positive sta_info)) in Hs.
    apply lookup_insert_Some in Hs as [[_ <-]|[_ Hs]]; [simpl; lia|now rewrite lookup_empty in Hs].
Qed.

Lemma demo_life_ok : life_ok (demo_world1 silent_env).
Proof. split; [apply demo_iface_ok|]. intros t n. discriminate. Qed.

Lemma demo_in_table : in_table (demo_world1 silent_env) 0 1.
Proof. exists demo_bss1. split; [reflexivity|by_check]. Qed.

Lemma ap_free_sta_spec_witness : exists w', ap_free_sta 0 1 (demo_world1 silent_env) = Ok (tt, w') /\
  heap w' !! 1%positive = None /\ iface_ok w'.
Proof.
  destruct (ap_free_sta_spec (demo_world1 silent_env) 0 demo_bss1 1 (demo_sta mac1)) as (w' & E & F).
  - apply demo_iface_ok.
  - reflexivity.
  - by_check.
  - reflexivity.
  - exists w'. split; [exact E|]. split; [|apply (fr_ok _ _ _ _ _ _ F)].
    pose proof (fr_heap _ _ _ _ _ _ F 1%positive) as K. rewrite decide_True in K by reflexivity.
    destruct (heap w' !! 1%positive); [discriminate|reflexivity].
Defined.

(** The station of the first network enters the second. *)
Lemma ap_sta_add_spec_witness : exists p w', ap_sta_add 300 1 mac1 (demo_world1 silent_env) = Ok (Some p, w') /\
  iface_ok w' /\ off_elsewhere w' 1 mac1 0.
Proof.
  destruct (ap_sta_add_spec 300 (demo_world1 silent_env) 1 (demo_bss [6; 1; 2; 3; 4; 5] [66; 66; 66]) mac1) as [_ H].
  - apply demo_iface_ok.
  - reflexivity.
  - by_check.
  - destruct H as (_ & _ & H).
    + intros p s (Hp & _). inversion Hp.
    + destruct H as (p & w' & E & D); [by_check|discriminate|]. exists p, w'. split; [exact E|].
      split; [apply (ad_ok _ _ _ _ _ _ D)|apply (ad_off _ _ _ _ _ _ D)].
Defined.

Lemma association_recorded_witness : exists w',
  mlme_associate_indication (H := demo_format) 0 1 (demo_world1 silent_env) = Ok (tt, w') /\
  contents (g_dense_station_hash (fn w')) = {[(mac1, [2; 1; 2; 3; 4; 5])]} ∪ {[(mac1, [2; 1; 2; 3; 4; 5])]} /\ listed w' = {[mac1]} ∪ ∅.
Proof.
  destruct (association_recorded (H := demo_format) (demo_world1 silent_env) 0 demo_bss1 1 (demo_sta mac1)) as (w' & E & _ & J).
  - apply demo_iface_ok.
  - reflexivity.
  - by_check.
  - reflexivity.
  - intros t n. discriminate.
  - exists w'. split; [exact E|]. destruct (jo_dense _ _ _ _ J) as [_ C]. split; [|exact (jo_listed _ _ _ _ J)].
    rewrite C. by_check.
Defined.

Definition full_bss : hostapd_data := demo_bss [2; 1; 2; 3; 4; 5] (replicate 32 65).

Lemma full_name_overflow_witness :
  ap_free_sta 0 1 (put_bss 0 full_bss (demo_world1 silent_env)) = Ub OutOfBounds /\
  mlme_associate_indication (H := demo_format) 0 1 (put_bss 0 full_bss (demo_world1 silent_env)) = Ub OutOfBounds.
Proof.
  apply (full_name_overflow (H := demo_format) (put_bss 0 full_bss (demo_world1 silent_env)) 0 full_bss 1 (demo_sta mac1));
    reflexivity.
Defined.

Lemma hostapd_free_stas_spec_witness : exists w' b',
  hostapd_free_stas (H := demo_format) 0 (demo_world1 silent_env) = Ok (tt, w') /\ sta_list b' = [] /\
  face <$> heap w' !! 1%positive = None.
Proof.
  destruct (hostapd_free_stas_spec (H := demo_format) (demo_world1 silent_env) 0 demo_bss1) as (w' & b' & E & _ & _ & L & _ & _ & K).
  - apply demo_iface_ok.
  - reflexivity.
  - exists w', b'. split; [exact E|]. split; [exact L|]. rewrite K, decide_True by by_check. reflexivity.
Defined.

(** After hostapd has changed the flags of the station, its timer runs out. *)
Lemma station_life_safe_witness : exists w2,
  run_op (H := demo_format) (OpTimer 300 false 0 1)
    (upd_heap <[1%positive := set_sta_flags 3 (demo_sta mac1)]> (demo_world1 silent_env)) = Ok (tt, w2) /\ iface_ok w2.
Proof.
  apply (station_life_safe (H := demo_format) (demo_world1 silent_env)).
  - apply demo_life_ok.
  - apply rtc_once. apply (LifeEntry _ 1 (demo_sta mac1)); [reflexivity|reflexivity|simpl; lia].
  - exists demo_bss1. split; [reflexivity|by_check].
Defined.

Lemma silent_station_removed_witness : exists w1 w2 w3,
  ap_handle_timer (H := demo_format) 300 false 0 1 (demo_world1 silent_env) = Ok (tt, w1) /\
  ap_handle_timer (H := demo_format) 300 false 0 1 w1 = Ok (tt, w2) /\
  ap_handle_timer (H := demo_format) 300 false 0 1 w2 = Ok (tt, w3) /\ ~ in_table w3 0 1.
Proof.
  destruct (silent_station_removed (H := demo_format) 300 (demo_world1 silent_env) 0 demo_bss1 1 (demo_sta mac1))
    as (w1 & w2 & w3 & _ & _ & E1 & _ & _ & E2 & _ & _ & _ & E3 & _ & _ & N).
  - apply demo_iface_ok.
  - reflexivity.
  - by_check.
  - reflexivity.
  - lia.
  - by_check.
  - reflexivity.
  - intros t. by_check.
  - exists w1, w2, w3. split; [exact E1|]. split; [exact E2|]. split; [exact E3|exact N].
Defined.
