(* ===== verification/Books.v ===== *)
(** * The books of an interface: association identifiers and counters

    An interface keeps a bit field of the association identifiers (AIDs) of each
    BSS ([hapd->sta_aid]), and counters of the stations with some lack; the entries
    of the stations hold the other half of these books.  [mlme_ok] says that both
    halves agree; it is kept by every operation of [Lifecycle], by the assignment
    of AIDs and by the update of the HT state, and [holds] is the calculus with
    which the handlers of management frames are proved to keep it. *)

From stdpp Require Import base list numbers gmap strings.
From Stdlib Require Import ZArith Lia.
From S2P Require Import Prelude CString Dense Env World Messages Station ApTable Ht Eids Beacon Handler Stamgd Lifecycle.
Local Open Scope Z_scope.

(** ** Association identifiers *)

Definition word_full : Z := 2 ^ 32 - 1.

(** The first bit of the word that is not set, or 32. *)
Fixpoint first_zero (js : list Z) (word : Z) : Z :=
  match js with [] => 32 | j :: js' => if Z.testbit word j then first_zero js' word else j end.

(** The loop over the words: the word and the bit at which it stops. *)
Fixpoint aid_scan (words : list Z) (i j : Z) : Z * Z :=
  match words with
  | [] => (i, j)
  | word :: words' =>
      if bool_decide (word = word_full) then aid_scan words' (i + 1) j
      else
        let j := first_zero (map Z.of_nat (seq 0 32)) word in
        if bool_decide (j < 32) then (i, j) else aid_scan words' (i + 1) j
  end.

Definition hostapd_get_aid (hapd : nat) (sta : positive) : M world Z :=
  s <-- get_sta sta ;;
  if bool_decide (sta_aid_ s > 0) then ret 0
  else
    b <-- get_bss hapd ;;
    let '(i, j) := aid_scan (sta_aid b) 0 32 in
    if bool_decide (j = 32) then ret (-1)
    else
      let aid := i * 32 + j + 1 in
      if bool_decide (aid > 2007) then ret (-1)
      else
        upd_sta sta (set_sta_aid_ aid) ;;;
        word <-- lift (rd (sta_aid b) i) ;;
        words <-- lift (wr (sta_aid b) i (Z.lor word (2 ^ j))) ;;
        upd_bss hapd (set_sta_aid words) ;;;
        ret 0.

(** Whether an AID is taken. *)
Definition aid_taken (words : list Z) (a : Z) : bool :=
  match words !! Z.to_nat ((a - 1) / 32) with Some x => Z.testbit x ((a - 1) mod 32) | None => false end.

Lemma first_zero_spec w k : u32 w -> w <> word_full ->
  k = first_zero (map Z.of_nat (seq 0 32)) w ->
  0 <= k < 32 /\ Z.testbit w k = false /\ forall i, 0 <= i < k -> Z.testbit w i = true.
Proof.
  intros Hw Hf ->.
  assert (forall n m, (n + m = 32)%nat -> (forall i, 0 <= i < Z.of_nat n -> Z.testbit w i = true) ->
    0 <= first_zero (map Z.of_nat (seq n m)) w < 32 /\
    Z.testbit w (first_zero (map Z.of_nat (seq n m)) w) = false /\
    forall i, 0 <= i < first_zero (map Z.of_nat (seq n m)) w -> Z.testbit w i = true) as H.
  { intros n m. revert n. induction m as [|m IH]; intros n Hn Hb; cbn [seq map first_zero].
    - exfalso. apply Hf. apply Z.bits_inj'. intros i Hi. unfold word_full. rewrite <- Z.ones_equiv || change (2 ^ 32 - 1) with (Z.ones 32).
      destruct (Z.lt_ge_cases i 32) as [Hlt|Hge].
      + rewrite Z.ones_spec_low by lia. apply Hb. lia.
      + rewrite Z.ones_spec_high by lia. apply Z.bits_above_log2; [apply Hw|].
        destruct (decide (w = 0)) as [->|]; [simpl; lia|]. apply Z.log2_lt_pow2; [unfold u32 in Hw; lia|].
        apply Z.lt_le_trans with (2 ^ 32); [apply Hw|]. apply Z.pow_le_mono_r; lia.
    - destruct (Z.testbit w (Z.of_nat n)) eqn:En; [|split; [lia|]; split; [done|exact Hb]].
      apply IH; [lia|]. intros i Hi. destruct (decide (i = Z.of_nat n)) as [->|]; [done|]. apply Hb. lia. }
  apply (H 0%nat 32%nat); [done|lia].
Qed.

Lemma full_bits i : 0 <= i < 32 -> Z.testbit word_full i = true.
Proof. intros Hi. change word_full with (Z.ones 32). apply Z.ones_spec_low. lia. Qed.

(** The scan finds the first bit that is not set. *)
Lemma aid_scan_spec ws : Forall u32 ws -> forall i, 0 <= i ->
  (aid_scan ws i 32 = (i + zlen ws, 32) /\ Forall (eq word_full) ws) \/
  (exists k x j, aid_scan ws i 32 = (i + Z.of_nat k, j) /\ 0 <= j < 32 /\ ws !! k = Some x /\ Z.testbit x j = false /\
     (forall j', 0 <= j' < j -> Z.testbit x j' = true) /\ forall k', (k' < k)%nat -> ws !! k' = Some word_full).
Proof.
  induction 1 as [|w ws Hw Hws IH]; intros i Hi; cbn [aid_scan].
  - left. rewrite Z.add_0_r. done.
  - case_bool_decide as Ef.
    + destruct (IH (i + 1)) as [[E F]|(k & x & j & E & Hj & Hx & Hb & Hl & Hk)]; [lia|left|right].
      * rewrite E, zlen_cons. split; [f_equal; lia|]. by constructor.
      * exists (S k), x, j. rewrite E. split; [f_equal; lia|]. do 4 (split; [done|]).
        intros [|k'] Hk'; [simpl; by rewrite Ef|]. simpl. apply Hk. lia.
    + right. destruct (first_zero_spec w _ Hw Ef eq_refl) as (Hj & Hb & Hl).
      rewrite bool_decide_eq_true_2 by lia. eexists 0%nat, w, _. split; [f_equal; lia|].
      do 4 (split; [done|]). intros k' Hk'. lia.
Qed.

(** The bit field with one more AID. *)
Definition aids_with (a : Z) (l : list Z) : list Z :=
  match l !! Z.to_nat ((a - 1) / 32) with
  | Some x => <[Z.to_nat ((a - 1) / 32) := Z.lor x (2 ^ ((a - 1) mod 32))]> l
  | None => l
  end.

Lemma same_bit a c : 0 < a -> 0 < c -> Z.to_nat ((a - 1) / 32) = Z.to_nat ((c - 1) / 32) ->
  (a - 1) mod 32 = (c - 1) mod 32 -> a = c.
Proof.
  intros Ha Hc E1 E2. assert (0 <= (a - 1) / 32 /\ 0 <= (c - 1) / 32) as [? ?] by (split; apply Z.div_pos; lia).
  pose proof (Z.div_mod (a - 1) 32 ltac:(lia)). pose proof (Z.div_mod (c - 1) 32 ltac:(lia)). lia.
Qed.

Lemma bit_index a : 0 < a <= 2016 -> (Z.to_nat ((a - 1) / 32) < 63)%nat /\ 0 <= (a - 1) mod 32 < 32.
Proof.
  intros Ha. assert (0 <= (a - 1) / 32 < 63) by (split; [apply Z.div_pos; lia|apply Z.div_lt_upper_bound; lia]).
  pose proof (Z.mod_pos_bound (a - 1) 32). lia.
Qed.

Lemma taken_with a l c : length l = 63%nat -> 0 < a <= 2016 -> 0 < c ->
  aid_taken (aids_with a l) c = aid_taken l c || bool_decide (c = a).
Proof.
  intros Hl Ha Hc. destruct (bit_index a Ha) as [Hi Hm]. unfold aids_with, aid_taken.
  destruct (lookup_lt_is_Some_2 l (Z.to_nat ((a - 1) / 32))) as [x Hx]; [lia|]. rewrite Hx.
  destruct (decide (Z.to_nat ((c - 1) / 32) = Z.to_nat ((a - 1) / 32))) as [E|E].
  - rewrite E, list_lookup_insert_eq, Hx by lia. rewrite Z.lor_spec. f_equal.
    rewrite Z.pow2_bits_eqb by lia. pose proof (Z.mod_pos_bound (c - 1) 32). apply Bool.eq_iff_eq_true.
    rewrite Z.eqb_eq, bool_decide_eq_true. split; [intros E2; now apply same_bit|by intros ->].
  - rewrite list_lookup_insert_ne by done. rewrite bool_decide_eq_false_2, orb_false_r by congruence. done.
Qed.

Lemma taken_without a l c : length l = 63%nat -> 0 < a <= 2016 -> 0 < c ->
  aid_taken (aids_without a l) c = aid_taken l c && negb (bool_decide (c = a)).
Proof.
  intros Hl Ha Hc. destruct (bit_index a Ha) as [Hi Hm]. unfold aids_without, aid_taken.
  rewrite (bool_decide_eq_true_2 (a > 0)) by lia.
  destruct (lookup_lt_is_Some_2 l (Z.to_nat ((a - 1) / 32))) as [x Hx]; [lia|]. rewrite Hx.
  destruct (decide (Z.to_nat ((c - 1) / 32) = Z.to_nat ((a - 1) / 32))) as [E|E].
  - rewrite E, list_lookup_insert_eq, Hx by lia. rewrite Z.ldiff_spec. do 2 f_equal.
    rewrite Z.pow2_bits_eqb by lia. pose proof (Z.mod_pos_bound (c - 1) 32). apply Bool.eq_iff_eq_true.
    rewrite Z.eqb_eq, bool_decide_eq_true. split; [intros E2; now apply same_bit|by intros ->].
  - rewrite list_lookup_insert_ne by done. rewrite (bool_decide_eq_false_2 (c = a)), andb_true_r by congruence. done.
Qed.

Lemma u32_lor x j : u32 x -> 0 <= j < 32 -> u32 (Z.lor x (2 ^ j)).
Proof. intros Hx Hj. apply (lor_range 32); [lia|apply Hx|]. split; [apply Z.pow_nonneg; lia|apply Z.pow_lt_mono_r; lia]. Qed.

Lemma u32_ldiff x y : u32 x -> u32 (Z.ldiff x y).
Proof. apply ldiff_range. lia. Qed.

(** ** The invariant *)

(** The bit field of a BSS is the set of the AIDs of its stations, which are
    distinct. *)
Record aids_ok (h : gmap positive sta_info) (b : hostapd_data) : Prop := {
  ai_words : Forall u32 (sta_aid b);
  ai_taken : forall a, 0 < a -> (aid_taken (sta_aid b) a = true <->
               exists p s, p ∈ sta_list b /\ h !! p = Some s /\ sta_aid_ s = a);
  ai_inj : forall p q s t, p ∈ sta_list b -> q ∈ sta_list b -> h !! p = Some s -> h !! q = Some t ->
             0 < sta_aid_ s -> sta_aid_ t = sta_aid_ s -> p = q }.

(** The buffers of an entry have their sizes. *)
Record sta_ok (m : sta_mlme) : Prop := {
  so_rates : zlen (supported_rates m) <= 32;
  so_challenge : forall c, challenge m = Some c -> zlen c = 128 /\ Forall u8 c;
  so_ht : forall c, ht_capabilities m = Some c -> zlen c = sizeof_ht_capabilities /\ Forall u8 c;
  so_vht : forall c, vht_capabilities m = Some c -> zlen c = sizeof_vht_capabilities /\ Forall u8 c }.

(** The configuration is well-formed. *)
Record bconf_ok (c : bss_config) : Prop := {
  bc_accept : Forall (fun e => mac_ok (fst e)) (accept_mac c);
  bc_deny : Forall (fun e => mac_ok (fst e)) (deny_mac c);
  bc_beacon : beacon_conf_ok (bcn c) }.

Record mlme_ok (w : world) : Prop := {
  mo_iface : iface_ok w;
  mo_aids : forall i b, bss (ifc w) !! i = Some b -> aids_ok (heap w) b;
  mo_books : books_ok w;
  mo_sta : forall p s, heap w !! p = Some s -> sta_ok (mlme s);
  mo_iconf : iconf_ok (iconf (ifc w));
  mo_beacon : beacon_sizes (iconf (ifc w));
  mo_bconf : forall i b, bss (ifc w) !! i = Some b -> bconf_ok (bconf b);
  mo_aps : aps_ok (ifc w) }.

Lemma mlme_frame_ready w i b : mlme_ok w -> bss (ifc w) !! i = Some b -> frame_ready (ifc w) b.
Proof.
  intros M Hb. destruct (io_bss _ (mo_iface _ M) i b Hb) as [_ N].
  split; [apply M|apply M|apply (bc_beacon _ (mo_bconf _ M i b Hb))|apply N|]. pose proof (nm_room _ N). split; [lia|apply N].
Qed.

Lemma face_some (h h' : gmap positive sta_info) p s : face <$> h' !! p = face <$> h !! p -> h !! p = Some s ->
  exists s', h' !! p = Some s' /\ face s' = face s.
Proof. intros E Hs. rewrite Hs in E. destruct (h' !! p) as [s'|]; [|done]. apply (inj Some) in E. eauto. Qed.

Lemma face_aid s s' : face s' = face s -> sta_addr s' = sta_addr s /\ sta_aid_ s' = sta_aid_ s /\ flags_of s' = flags_of s /\ mlme s' = mlme s.
Proof. intros E. unfold face in E. injection E as E1 E2 E3 E4 E5 E6 E7 E8 E9 E10. unfold flags_of. repeat split; congruence. Qed.

Lemma flag_face k (h h' : gmap positive sta_info) p : face <$> h' !! p = face <$> h !! p -> flag_at k h' p = flag_at k h p.
Proof.
  intros E. unfold flag_at. destruct (h !! p) as [s|] eqn:Hs.
  - destruct (face_some h h' p s) as (s' & -> & Ef); [now rewrite Hs|done|]. destruct (face_aid _ _ Ef) as (_ & _ & -> & _). done.
  - now destruct (h' !! p).
Qed.

Lemma aids_frame (h h' : gmap positive sta_info) b b' : (forall p, p ∈ sta_list b -> face <$> h' !! p = face <$> h !! p) ->
  sta_list b' = sta_list b -> sta_aid b' = sta_aid b -> aids_ok h b -> aids_ok h' b'.
Proof.
  intros Hf El Ea A. rewrite <- El in Hf.
  assert (forall p s', p ∈ sta_list b' -> h' !! p = Some s' -> exists s, h !! p = Some s /\ sta_aid_ s = sta_aid_ s') as Hb.
  { intros p s' Hp Hs. destruct (face_some h' h p s') as (s & Hs' & E); [symmetry; now apply Hf|done|].
    exists s. split; [done|]. apply (face_aid _ _ E). }
  split; rewrite ?Ea; [apply A| |].
  - intros a Ha. rewrite (ai_taken _ _ A a Ha). rewrite El. split; intros (p & s & Hp & Hs & E).
    + destruct (face_some h h' p s) as (s' & Hs' & Ef); [apply Hf; by rewrite El|done|]. exists p, s'. split; [done|]. split; [done|].
      destruct (face_aid _ _ Ef) as (_ & -> & _). done.
    + destruct (Hb p s) as (s0 & Hs0 & E0); [by rewrite El|done|]. exists p, s0. rewrite E0. done.
  - intros p q s t Hp Hq Hs Ht Hpos E. destruct (Hb p s Hp Hs) as (s0 & Hs0 & Es). destruct (Hb q t Hq Ht) as (t0 & Ht0 & Et).
    rewrite El in Hp, Hq. apply (ai_inj _ _ A p q s0 t0); try done; congruence.
Qed.

Lemma mlme_ok_quiet w w' : quiet w w' -> mlme_ok w -> mlme_ok w'.
Proof.
  intros Q M. pose proof (q_ifc _ _ Q) as E. split; try rewrite E; try apply M.
  - apply (iface_ok_quiet w); [done|apply M].
  - intros i b Hb. apply (aids_frame (heap w) _ b b); [intros p _; apply (q_heap _ _ Q)|done|done|now apply (mo_aids _ M i)].
  - unfold books_ok. rewrite E, (mo_books _ M). apply map_ext. intros k. unfold total. rewrite E.
    induction (bss (ifc w)) as [|b bs IH]; [done|]. simpl. rewrite IH. f_equal. symmetry. apply tally_frame.
    intros p _. apply flag_face, (q_heap _ _ Q).
  - intros p s Hs. destruct (face_some (heap w') (heap w) p s) as (s0 & Hs0 & Ef); [symmetry; apply (q_heap _ _ Q)|done|].
    destruct (face_aid _ _ Ef) as (_ & _ & _ & <-). now apply (mo_sta _ M p).
Qed.


(** The table of another BSS does not have the station. *)
Lemma other_table w i j b c p : iface_ok w -> bss (ifc w) !! i = Some b -> bss (ifc w) !! j = Some c -> p ∈ sta_list b ->
  j <> i -> p ∉ sta_list c.
Proof. intros I Hb Hc Hp Hne Hq. apply Hne. symmetry. apply (io_sep _ I i j b c p Hb Hc Hp Hq). Qed.

Lemma flag_at_Some k (h : gmap positive sta_info) p s : h !! p = Some s -> flag_at k h p = default false (flags_of s !! k).
Proof. intros Hs. unfold flag_at. now rewrite Hs. Qed.

Lemma total_frame k w w' i b b' : bss (ifc w) !! i = Some b -> bss (ifc w') = <[i := b']> (bss (ifc w)) ->
  (forall j c q, bss (ifc w) !! j = Some c -> j <> i -> q ∈ sta_list c -> flag_at k (heap w') q = flag_at k (heap w) q) ->
  total k w' = total k w + tally k (heap w') (sta_list b') - tally k (heap w) (sta_list b).
Proof.
  intros Hb E Hf. unfold total. rewrite E.
  rewrite (total_insert _ (fun b => tally k (heap w) (sta_list b)) (fun b => tally k (heap w') (sta_list b)) i b b'); [done|done|].
  intros j c Hc Hj. apply tally_frame. intros q Hq. now apply (Hf j c).
Qed.

Lemma aids_free (h h' : gmap positive sta_info) b b' p s : bss_ok h b -> bss_named b -> p ∈ sta_list b -> h !! p = Some s ->
  0 <= sta_aid_ s <= 2007 -> (forall q, q <> p -> face <$> h' !! q = face <$> h !! q) ->
  sta_list b' = unlink p (sta_list b) -> sta_aid b' = aids_without (sta_aid_ s) (sta_aid b) ->
  aids_ok h b -> aids_ok h' b'.
Proof.
  intros Hok Hn Hp Hs Ha Hf El Ea A.
  assert (forall q, q ∈ sta_list b' <-> q ∈ sta_list b /\ q <> p) as Hl.
  { intros q. rewrite El. apply unlink_elem, Hok. }
  assert (forall q t', q ∈ sta_list b' -> h' !! q = Some t' -> exists t, h !! q = Some t /\ sta_aid_ t = sta_aid_ t') as Hb.
  { intros q t' [_ Hq]%Hl Ht. destruct (face_some h' h q t') as (t & Ht' & E); [symmetry; now apply Hf|done|].
    exists t. split; [done|]. apply (face_aid _ _ E). }
  split.
  - rewrite Ea. unfold aids_without. case_bool_decide; [|apply A]. destruct (sta_aid b !! _) as [x|] eqn:Hx; [|apply A].
    apply Forall_insert; [apply A|]. apply u32_ldiff. apply (Forall_lookup_1 _ _ _ _ (ai_words _ _ A) Hx).
  - intros c Hc. rewrite Ea.
    assert (aid_taken (aids_without (sta_aid_ s) (sta_aid b)) c = true <-> aid_taken (sta_aid b) c = true /\ c <> sta_aid_ s) as ->.
    { destruct (decide (sta_aid_ s = 0)) as [E|E].
      - unfold aids_without. rewrite bool_decide_eq_false_2 by lia. split; [|tauto]. intros; split; [done|lia].
      - rewrite taken_without by (apply Hn || lia). rewrite andb_true_iff, negb_true_iff, bool_decide_eq_false. done. }
    rewrite (ai_taken _ _ A c Hc). split.
    + intros [(q & t & Hq & Ht & E) Hne]. assert (q <> p) as Hqp by (intros ->; congruence).
      destruct (face_some h h' q t) as (t' & Ht' & Ef); [now apply Hf|done|]. exists q, t'. split; [now apply Hl|].
      split; [done|]. destruct (face_aid _ _ Ef) as (_ & -> & _). done.
    + intros (q & t & Hq & Ht & E). destruct (Hb q t Hq Ht) as (t0 & Ht0 & E0). apply Hl in Hq as [Hq Hqp].
      split; [exists q, t0; rewrite E0; done|]. intros ->. apply Hqp. apply (ai_inj _ _ A q p t0 s); try done; congruence.
  - intros q r t u Hq Hr Ht Hu Hpos E. destruct (Hb q t Hq Ht) as (t0 & Ht0 & Et). destruct (Hb r u Hr Hu) as (u0 & Hu0 & Eu).
    apply Hl in Hq as [Hq _], Hr as [Hr _]. apply (ai_inj _ _ A q r t0 u0); try done; congruence.
Qed.

Lemma mlme_ok_free w w' i b p s : mlme_ok w -> bss (ifc w) !! i = Some b -> p ∈ sta_list b -> heap w !! p = Some s ->
  freed w i b p s w' -> mlme_ok w'.
Proof.
  intros M Hb Hp Hs F. pose proof (mo_iface _ M) as I. destruct (io_bss _ I i b Hb) as [Hok Hn].
  destruct (fr_bss _ _ _ _ _ _ F) as (b' & Eb & El & _ & Ea & _ & _ & _ & Ec).
  assert (forall q, q <> p -> face <$> heap w' !! q = face <$> heap w !! q) as Hf.
  { intros q Hq. rewrite (fr_heap _ _ _ _ _ _ F). now rewrite decide_False. }
  assert (i < length (bss (ifc w)))%nat as Hlt by now apply lookup_lt_Some in Hb.
  split.
  - apply (fr_ok _ _ _ _ _ _ F).
  - intros j d Hd. rewrite Eb in Hd. destruct (decide (j = i)) as [->|Hj].
    + rewrite list_lookup_insert_eq in Hd by done. injection Hd as <-.
      apply (aids_free (heap w) _ b _ p s); try done; [apply (io_aid _ I p s Hs)|now apply (mo_aids _ M i)].
    + rewrite list_lookup_insert_ne in Hd by done. apply (aids_frame (heap w) _ d d); [|done|done|now apply (mo_aids _ M j)].
      intros q Hq. apply Hf. intros ->. now apply (other_table w i j b d p).
  - unfold books_ok. rewrite (fr_counts _ _ _ _ _ _ F), (mo_books _ M).
    assert (forall k, total k w' = total k w - Z.b2z (default false (flags_of s !! k))) as Ht.
    { intros k. rewrite (total_frame k w w' i b b' Hb Eb).
      - rewrite El. assert (tally k (heap w') (unlink p (sta_list b)) = tally k (heap w) (unlink p (sta_list b))) as ->.
        { apply tally_frame. intros q Hq. apply flag_face, Hf. apply unlink_elem in Hq; [tauto|apply Hok]. }
        rewrite tally_unlink, (flag_at_Some k _ _ _ Hs) by done. lia.
      - intros j c q Hc Hj Hq. apply flag_face, Hf. intros ->. now apply (other_table w i j b c p). }
    cbn [seq map]. rewrite !Ht. reflexivity.
  - intros q t Ht. assert (q <> p) as Hq.
    { intros ->. pose proof (fr_heap _ _ _ _ _ _ F p) as K. rewrite decide_True, Ht in K by done. done. }
    destruct (face_some (heap w') (heap w) q t) as (t0 & Ht0 & Ef); [symmetry; now apply Hf|done|].
    destruct (face_aid _ _ Ef) as (_ & _ & _ & <-). now apply (mo_sta _ M q).
  - rewrite (standing_conf _ _ (fr_conf _ _ _ _ _ _ F)). apply M.
  - rewrite (standing_conf _ _ (fr_conf _ _ _ _ _ _ F)). apply M.
  - intros j d Hd. rewrite Eb in Hd. destruct (decide (j = i)) as [->|Hj].
    + rewrite list_lookup_insert_eq in Hd by done. injection Hd as <-. rewrite Ec. now apply (mo_bconf _ M i).
    + rewrite list_lookup_insert_ne in Hd by done. now apply (mo_bconf _ M j).
  - apply (standing_aps _ (ifc w)); [apply F|apply M].
Qed.

Lemma sta_ok_zero : sta_ok zero_mlme.
Proof. split; [unfold zlen; simpl; lia|done..]. Qed.

Lemma aids_add (h h' : gmap positive sta_info) b b' p s : bss_ok h b -> h !! p = None -> h' !! p = Some s -> sta_aid_ s = 0 ->
  (forall q, q <> p -> face <$> h' !! q = face <$> h !! q) -> sta_list b' = p :: sta_list b -> sta_aid b' = sta_aid b ->
  aids_ok h b -> aids_ok h' b'.
Proof.
  intros Hok Hnew Hs Ha Hf El Ea A.
  assert (forall q, q ∈ sta_list b -> q <> p) as Hne.
  { intros q Hq ->. destruct (bss_live _ _ Hok p Hq) as (t & Ht & _). congruence. }
  assert (forall q t', q ∈ sta_list b' -> h' !! q = Some t' -> 0 < sta_aid_ t' ->
    exists t, q ∈ sta_list b /\ h !! q = Some t /\ sta_aid_ t = sta_aid_ t') as Hb.
  { intros q t' Hq Ht Hpos. rewrite El in Hq. assert (q <> p) as Hqp by (intros ->; assert (t' = s) by congruence; subst; lia).
    apply elem_of_cons in Hq as [->|Hq]; [done|].
    destruct (face_some h' h q t') as (t & Ht' & E); [symmetry; now apply Hf|done|].
    exists t. split; [done|]. split; [done|]. apply (face_aid _ _ E). }
  split; rewrite ?Ea; [apply A| |].
  - intros c Hc. rewrite (ai_taken _ _ A c Hc). split.
    + intros (q & t & Hq & Ht & E). destruct (face_some h h' q t) as (t' & Ht' & Ef); [now apply Hf, Hne|done|].
      exists q, t'. split; [rewrite El; now right|]. split; [done|]. destruct (face_aid _ _ Ef) as (_ & -> & _). done.
    + intros (q & t & Hq & Ht & E). destruct (Hb q t Hq Ht) as (t0 & Hq0 & Ht0 & E0); [lia|]. exists q, t0. rewrite E0. done.
  - intros q r t u Hq Hr Ht Hu Hpos E. destruct (Hb q t Hq Ht Hpos) as (t0 & Hq0 & Ht0 & Et).
    destruct (Hb r u Hr Hu) as (u0 & Hr0 & Hu0 & Eu); [lia|]. apply (ai_inj _ _ A q r t0 u0); try done; congruence.
Qed.

Lemma mlme_ok_add w w' i b addr p : mlme_ok w -> bss (ifc w) !! i = Some b -> added w i b addr p w' -> mlme_ok w'.
Proof.
  intros M Hb F. pose proof (mo_iface _ M) as I. destruct (io_bss _ I i b Hb) as [Hok Hn].
  destruct (ad_bss _ _ _ _ _ _ F) as (b' & Eb & El & _ & Ea & _ & _ & _ & Ec).
  destruct (ad_new _ _ _ _ _ _ F) as [Hnew Hs]. pose proof (ad_keep _ _ _ _ _ _ F) as Hf.
  assert (i < length (bss (ifc w)))%nat as Hlt by now apply lookup_lt_Some in Hb.
  assert (forall j d q, bss (ifc w) !! j = Some d -> q ∈ sta_list d -> q <> p) as Hne.
  { intros j d q Hd Hq ->. destruct (io_bss _ I j d Hd) as [Hd' _]. destruct (bss_live _ _ Hd' p Hq) as (t & Ht & _). congruence. }
  split.
  - apply (ad_ok _ _ _ _ _ _ F).
  - intros j d Hd. rewrite Eb in Hd. destruct (decide (j = i)) as [->|Hj].
    + rewrite list_lookup_insert_eq in Hd by done. injection Hd as <-.
      apply (aids_add (heap w) _ b _ p (set_last_seq_ctrl WLAN_INVALID_MGMT_SEQ (fresh_sta addr))); try done. now apply (mo_aids _ M i).
    + rewrite list_lookup_insert_ne in Hd by done. apply (aids_frame (heap w) _ d d); [|done|done|now apply (mo_aids _ M j)].
      intros q Hq. apply Hf. now apply (Hne j d).
  - unfold books_ok. rewrite (ad_counts _ _ _ _ _ _ F), (mo_books _ M).
    apply map_ext_in. intros k Hk. rewrite (total_frame k w w' i b b' Hb Eb).
    + rewrite El. cbn [tally foldr]. fold (tally k (heap w') (sta_list b)). rewrite (flag_at_Some k _ _ _ Hs).
      assert (tally k (heap w') (sta_list b) = tally k (heap w) (sta_list b)) as ->.
      { apply tally_frame. intros q Hq. apply flag_face, Hf. now apply (Hne i b). }
      apply in_seq in Hk. do 7 (destruct k as [|k]; [simpl; lia|]). lia.
    + intros j c q Hc Hj Hq. apply flag_face, Hf. now apply (Hne j c).
  - intros q t Ht. destruct (decide (q = p)) as [->|Hq].
    + assert (t = set_last_seq_ctrl WLAN_INVALID_MGMT_SEQ (fresh_sta addr)) as -> by congruence. apply sta_ok_zero.
    + destruct (face_some (heap w') (heap w) q t) as (t0 & Ht0 & Ef); [symmetry; now apply Hf|done|].
      destruct (face_aid _ _ Ef) as (_ & _ & _ & <-). now apply (mo_sta _ M q).
  - rewrite (standing_conf _ _ (ad_conf _ _ _ _ _ _ F)). apply M.
  - rewrite (standing_conf _ _ (ad_conf _ _ _ _ _ _ F)). apply M.
  - intros j d Hd. rewrite Eb in Hd. destruct (decide (j = i)) as [->|Hj].
    + rewrite list_lookup_insert_eq in Hd by done. injection Hd as <-. rewrite Ec. now apply (mo_bconf _ M i).
    + rewrite list_lookup_insert_ne in Hd by done. now apply (mo_bconf _ M j).
  - apply (standing_aps _ (ifc w)); [apply F|apply M].
Qed.

(** ** Steps that keep the books *)

(** An entry changes, but not in its address and its AID, and the interface, but not
    in its tables and its configuration: the counters are left to show. *)
Lemma mlme_ok_change w p s s' f : mlme_ok w -> heap w !! p = Some s -> sta_addr s' = sta_addr s -> sta_aid_ s' = sta_aid_ s ->
  sta_ok (mlme s') -> bss (f (ifc w)) = bss (ifc w) -> driver_ops (f (ifc w)) = driver_ops (ifc w) ->
  standing (f (ifc w)) = standing (ifc w) -> books_ok (upd_ifc f (upd_heap <[p := s']> w)) ->
  mlme_ok (upd_ifc f (upd_heap <[p := s']> w)).
Proof.
  intros M Hs Ea Eaid Hm Eb Ed Ec Hbk. pose proof (mo_iface _ M) as I.
  assert (forall q t', <[p := s']> (heap w) !! q = Some t' -> exists t, heap w !! q = Some t /\
    sta_aid_ t = sta_aid_ t' /\ (sta_ok (mlme t) -> sta_ok (mlme t'))) as Hb.
  { intros q t Ht. destruct (decide (q = p)) as [->|Hq].
    - rewrite lookup_insert_eq in Ht. injection Ht as <-. eauto 6.
    - rewrite lookup_insert_ne in Ht by done. eauto. }
  split; simpl; rewrite ?Eb, ?(standing_conf _ _ Ec); try apply M; [| |done| |now apply (standing_aps _ _ Ec), M].
  - split; simpl; rewrite ?Eb, ?Ed; try apply I.
    + intros i b Hi. destruct (io_bss _ I i b Hi) as [H1 H2]. split; [|done]. eapply bss_ok_frame; [|exact H1].
      intros q _. destruct (decide (q = p)) as [->|]; [rewrite lookup_insert_eq, Hs; simpl; now rewrite Ea|now rewrite lookup_insert_ne].
    + intros q t Ht. destruct (Hb q t Ht) as (t0 & Ht0 & <- & _). now apply (io_aid _ I q).
  - intros i b Hi. pose proof (mo_aids _ M i b Hi) as A. split; [apply A| |].
    + intros a Hpos. rewrite (ai_taken _ _ A a Hpos). split; intros (q & t & Hq & Ht & E).
      * destruct (decide (q = p)) as [->|Hqp].
        -- exists p, s'. rewrite lookup_insert_eq. split; [done|]. split; [done|]. rewrite Eaid. congruence.
        -- exists q, t. rewrite lookup_insert_ne by done. done.
      * destruct (Hb q t Ht) as (t' & Ht' & E' & _). exists q, t'. rewrite E'. done.
    + intros q r t u Hq Hr Ht Hu Hpos E. destruct (Hb q t Ht) as (t0 & Ht0 & Et & _). destruct (Hb r u Hu) as (u0 & Hu0 & Eu & _).
      apply (ai_inj _ _ A q r t0 u0); try done; congruence.
  - intros q t Ht. destruct (Hb q t Ht) as (t0 & Ht0 & _ & H). apply H. now apply (mo_sta _ M q).
Qed.

Lemma flag_at_insert k (h : gmap positive sta_info) p s' q :
  flag_at k (<[p := s']> h) q = if decide (q = p) then default false (flags_of s' !! k) else flag_at k h q.
Proof. unfold flag_at. case_decide as E; [subst q; now rewrite lookup_insert_eq|now rewrite lookup_insert_ne]. Qed.

(** An entry changes, but not in what is counted. *)
Lemma mlme_ok_entry w p s s' : mlme_ok w -> heap w !! p = Some s -> sta_addr s' = sta_addr s -> sta_aid_ s' = sta_aid_ s ->
  flags_of s' = flags_of s -> sta_ok (mlme s') -> mlme_ok (upd_heap <[p := s']> w).
Proof.
  intros M Hs Ea Eaid Ef Hm. apply (mlme_ok_change w p s s' id M Hs); try done.
  unfold books_ok. change (counts_of (ifc _)) with (counts_of (ifc w)). rewrite (mo_books _ M).
  apply map_ext. intros k. unfold total. simpl. induction (bss (ifc w)) as [|b bs IH]; [done|]. cbn [foldr]. rewrite IH. f_equal.
  symmetry. apply tally_frame. intros q _. rewrite flag_at_insert. case_decide; [|done]. subst q. now rewrite Ef, (flag_at_Some _ _ _ _ Hs).
Qed.

(** The interface changes, but not in its tables, its configuration or its
    counters. *)
Lemma mlme_ok_ifc w f : mlme_ok w -> bss (f (ifc w)) = bss (ifc w) -> driver_ops (f (ifc w)) = driver_ops (ifc w) ->
  standing (f (ifc w)) = standing (ifc w) -> counts_of (f (ifc w)) = counts_of (ifc w) -> mlme_ok (upd_ifc f w).
Proof.
  intros M Eb Ed Ec En. pose proof (mo_iface _ M) as I. split; cbn [heap ifc upd_ifc]; rewrite ?Eb, ?(standing_conf _ _ Ec); try apply M; [| |now apply (standing_aps _ _ Ec), M].
  - split; simpl; rewrite ?Eb, ?Ed; apply I.
  - unfold books_ok. cbn [ifc upd_ifc]. rewrite En, (mo_books _ M). apply map_ext. intros k. unfold total. simpl. now rewrite Eb.
Qed.

(** One more station of a list has the [k]th flag. *)
Lemma tally_flag k l (h h' : gmap positive sta_info) p ps : p ∈ ps -> NoDup ps ->
  (forall q, q <> p -> flag_at l h' q = flag_at l h q) -> flag_at k h p = false ->
  flag_at l h' p = flag_at l h p || bool_decide (l = k) -> tally l h' ps = tally l h ps + Z.b2z (bool_decide (l = k)).
Proof.
  intros Hp Hn Hq Hz Hpp. induction ps as [|q ps IH]; [inversion Hp|]. inversion Hn as [|? ? Hnp Hn']; subst.
  cbn [tally foldr]. fold (tally l h' ps) (tally l h ps). apply elem_of_cons in Hp as [<-|Hp].
  - rewrite (tally_frame l h h' ps) by (intros r Hr; apply Hq; intros ->; done). rewrite Hpp.
    case_bool_decide; [subst l; rewrite Hz|rewrite orb_false_r]; simpl; lia.
  - rewrite IH by done. rewrite Hq by (intros ->; done). lia.
Qed.

(** The [k]th flag of an entry is set, and the [k]th counter increased. *)
Lemma mlme_ok_count w i p s s' f k : mlme_ok w -> in_table w i p -> heap w !! p = Some s -> (k < 7)%nat ->
  flags_of s !! k = Some false -> flags_of s' = <[k := true]> (flags_of s) ->
  sta_addr s' = sta_addr s -> sta_aid_ s' = sta_aid_ s -> sta_ok (mlme s') ->
  bss (f (ifc w)) = bss (ifc w) -> driver_ops (f (ifc w)) = driver_ops (ifc w) -> standing (f (ifc w)) = standing (ifc w) ->
  counts_of (f (ifc w)) = zip_with Z.add (counts_of (ifc w)) (unit_at k true) ->
  mlme_ok (upd_ifc f (upd_heap <[p := s']> w)).
Proof.
  intros M (b & Hb & Hp) Hs Hk Hflag Hflag' Ea Eaid Hm Eb Ed Ec En. pose proof (mo_iface _ M) as I.
  destruct (io_bss _ I i b Hb) as [Hok _]. apply (mlme_ok_change w p s s' f M Hs); try done.
  set (w' := upd_ifc f (upd_heap <[p := s']> w)).
  assert (forall l q, flag_at l (heap w') q = if decide (q = p) then default false (flags_of s' !! l) else flag_at l (heap w) q) as Hq
    by (intros; apply flag_at_insert).
  assert (forall l, total l w' = total l w + Z.b2z (bool_decide (l = k))) as Ht.
  { intros l. rewrite (total_frame l w w' i b b Hb).
    - rewrite (tally_flag k l (heap w) (heap w') p); [lia|done|apply Hok|intros q Hne; rewrite Hq; now rewrite decide_False|..].
      + now rewrite (flag_at_Some _ _ _ _ Hs), Hflag.
      + rewrite Hq, decide_True, Hflag', (flag_at_Some _ _ _ _ Hs) by done. case_bool_decide as E.
        * subst l. rewrite list_lookup_insert_eq by (simpl; lia). now rewrite orb_true_r.
        * rewrite list_lookup_insert_ne by done. now rewrite orb_false_r.
    - unfold w'. simpl. rewrite Eb. now rewrite list_insert_id.
    - intros j c q Hc Hj Hqc. rewrite Hq, decide_False; [done|]. intros ->. now apply (other_table w i j b c p). }
  unfold books_ok. change (ifc w') with (f (ifc w)). rewrite En, (mo_books _ M). cbn [seq map]. rewrite !Ht. unfold unit_at.
  do 7 (destruct k as [|k]; [simpl; rewrite !Z.add_0_r; done|]). lia.
Qed.

(** ** Assigning an AID *)

Lemma taken_at ws k x j : ws !! k = Some x -> 0 <= j < 32 -> aid_taken ws (Z.of_nat k * 32 + j + 1) = Z.testbit x j.
Proof.
  intros Hx Hj. unfold aid_taken. replace (Z.of_nat k * 32 + j + 1 - 1) with (j + Z.of_nat k * 32) by lia.
  rewrite Z.div_add, Z.mod_add, Z.div_small, Z.mod_small by lia. rewrite Z.add_0_l, Nat2Z.id, Hx. done.
Qed.

(** An AID as a word and a bit. *)
Lemma aid_split a : 0 < a -> exists k j, a = Z.of_nat k * 32 + j + 1 /\ 0 <= j < 32.
Proof.
  intros Ha. exists (Z.to_nat ((a - 1) / 32)), ((a - 1) mod 32). pose proof (Z.mod_pos_bound (a - 1) 32).
  assert (0 <= (a - 1) / 32) by (apply Z.div_pos; lia). pose proof (Z.div_mod (a - 1) 32). lia.
Qed.

(** What the scan says of the AIDs that are taken. *)
Lemma scan_taken ws i j : Forall u32 ws -> length ws = 63%nat -> aid_scan ws 0 32 = (i, j) ->
  (j = 32 /\ forall a, 0 < a <= 2016 -> aid_taken ws a = true) \/
  (0 <= j < 32 /\ 0 <= i < 63 /\ aid_taken ws (i * 32 + j + 1) = false /\ forall a, 0 < a < i * 32 + j + 1 -> aid_taken ws a = true).
Proof.
  intros Hw Hl E. destruct (aid_scan_spec ws Hw 0 ltac:(lia)) as [[E' F]|(k & x & j' & E' & Hj & Hx & Hb & Hlow & Hk)];
    rewrite E' in E; injection E as <- <-.
  - left. split; [done|]. intros a Ha. destruct (aid_split a) as (k & j & -> & Hj); [lia|].
    destruct (lookup_lt_is_Some_2 ws k) as [x Hx]; [lia|]. rewrite (taken_at _ _ x) by done.
    rewrite <- (Forall_lookup_1 _ _ _ _ F Hx). now apply full_bits.
  - right. rewrite Z.add_0_l. split; [done|]. split; [apply lookup_lt_Some in Hx; lia|]. split; [now rewrite (taken_at _ _ x)|].
    intros a Ha. destruct (aid_split a) as (l & m & -> & Hm); [lia|]. assert (l <= k)%nat as Hlk by lia.
    destruct (decide (l = k)) as [->|Hne]; [rewrite (taken_at _ _ x) by done; apply Hlow; lia|].
    rewrite (taken_at _ _ word_full) by (done || apply Hk; lia). now apply full_bits.
Qed.

Definition with_aid (i : nat) (p : positive) (a : Z) (b : hostapd_data) (s : sta_info) (w : world) : world :=
  put_bss i (set_sta_aid (aids_with a (sta_aid b)) b) (upd_heap <[p := set_sta_aid_ a s]> w).

Lemma get_aid_run w i b p s : mlme_ok w -> bss (ifc w) !! i = Some b -> heap w !! p = Some s ->
  (0 < sta_aid_ s -> hostapd_get_aid i p w = Ok (0, w)) /\
  (sta_aid_ s = 0 ->
     ((forall a, 0 < a <= 2007 -> aid_taken (sta_aid b) a = true) /\ hostapd_get_aid i p w = Ok (-1, w)) \/
     (exists a, 0 < a <= 2007 /\ aid_taken (sta_aid b) a = false /\ (forall c, 0 < c < a -> aid_taken (sta_aid b) c = true) /\
        hostapd_get_aid i p w = Ok (0, with_aid i p a b s w))).
Proof.
  intros M Hb Hs. unfold hostapd_get_aid. rewrite (bind_Ok _ _ _ _ _ (get_sta_run _ _ _ Hs)).
  split; intros Ha; [now rewrite bool_decide_eq_true_2 by lia|]. rewrite bool_decide_eq_false_2 by lia.
  rewrite (bind_Ok _ _ _ _ _ (get_bss_run _ _ _ Hb)).
  pose proof (nm_aids _ (proj2 (io_bss _ (mo_iface _ M) i b Hb))) as Hl.
  pose proof (ai_words _ _ (mo_aids _ M i b Hb)) as Hw.
  destruct (aid_scan (sta_aid b) 0 32) as [k j] eqn:E.
  destruct (scan_taken _ _ _ Hw Hl E) as [[-> Ht]|(Hj & Hk & Hf & Ht)].
  - left. rewrite bool_decide_eq_true_2 by done. split; [intros a H; apply Ht; lia|done].
  - rewrite bool_decide_eq_false_2 by lia. cbv zeta. case_bool_decide as Hmax.
    + left. split; [intros a H; apply Ht; lia|done].
    + right. exists (k * 32 + j + 1). split; [lia|]. split; [done|]. split; [done|].
      erewrite bind_Ok by (unfold upd_sta; rewrite (bind_Ok _ _ _ _ _ (get_sta_run _ _ _ Hs)); reflexivity).
      destruct (lookup_lt_is_Some_2 (sta_aid b) (Z.to_nat k)) as [x Hx]; [lia|].
      set (w1 := upd_heap _ w). rewrite (bind_Ok _ _ w1 x w1) by (unfold lift; now rewrite (rd_Some _ _ x) by (lia || done)).
      rewrite (bind_Ok _ _ w1 (<[Z.to_nat k := Z.lor x (2 ^ j)]> (sta_aid b)) w1) by (unfold lift; now rewrite wr_Ok by (unfold zlen; lia)).
      erewrite bind_Ok by (unfold upd_bss; rewrite (bind_Ok _ _ w1 b w1) by (now apply get_bss_run); reflexivity).
      unfold with_aid, aids_with. replace ((k * 32 + j + 1 - 1)) with (j + k * 32) by lia.
      rewrite Z.div_add, Z.mod_add, Z.div_small, Z.mod_small by lia. rewrite Z.add_0_l, Hx. done.
Qed.

Lemma mlme_ok_aid w i b p s a : mlme_ok w -> bss (ifc w) !! i = Some b -> p ∈ sta_list b -> heap w !! p = Some s -> sta_aid_ s = 0 ->
  0 < a <= 2007 -> aid_taken (sta_aid b) a = false -> mlme_ok (with_aid i p a b s w).
Proof.
  intros M Hb Hp Hs Hz Ha Hfree. pose proof (mo_iface _ M) as I. unfold with_aid. set (s' := set_sta_aid_ a s). set (b' := set_sta_aid _ b).
  pose proof (proj2 (io_bss _ I i b Hb)) as Hn. pose proof (mo_aids _ M i b Hb) as A.
  assert (i < length (bss (ifc w)))%nat as Hlt by now apply lookup_lt_Some in Hb.
  assert (forall j d, <[i := b']> (bss (ifc w)) !! j = Some d -> exists d0, bss (ifc w) !! j = Some d0 /\
    sta_list d = sta_list d0 /\ (j = i -> d = b') /\ (j <> i -> d0 = d)) as Hj.
  { intros j d Hd. destruct (decide (j = i)) as [->|Hne].
    - rewrite list_lookup_insert_eq in Hd by done. injection Hd as <-. exists b. done.
    - rewrite list_lookup_insert_ne in Hd by done. exists d. done. }
  assert (forall d, bss_ok (heap w) d -> bss_ok (<[p := s']> (heap w)) d) as Hkeep.
  { intros d. apply bss_ok_frame. intros q _. destruct (decide (q = p)) as [->|]; [now rewrite lookup_insert_eq, Hs|now rewrite lookup_insert_ne]. }
  split; cbn [put_bss upd_ifc upd_heap ifc heap bss iconf set_bss]; [| | | |apply M|apply M| |apply (standing_aps _ (ifc w)); [done|apply M]].
  - split; cbn [put_bss upd_ifc upd_heap ifc heap bss driver_ops set_bss]; try apply I.
    + intros j d Hd. destruct (Hj j d Hd) as (d0 & Hd0 & _ & E1 & E2). destruct (decide (j = i)) as [->|Hne].
      * rewrite (E1 eq_refl). destruct (io_bss _ I i b Hb) as [H1 _]. split; [apply Hkeep; destruct H1; split; assumption|].
        destruct Hn. split; try done. simpl. unfold aids_with. case_match; [by rewrite length_insert|done].
      * rewrite (E2 Hne) in Hd0. destruct (io_bss _ I j d Hd0). auto.
    + intros j l d e q Hd He Hq Hq'. destruct (Hj j d Hd) as (d0 & Hd0 & L1 & _). destruct (Hj l e He) as (e0 & He0 & L2 & _).
      rewrite L1 in Hq. rewrite L2 in Hq'. apply (io_sep _ I j l d0 e0 q); auto.
    + intros q t Ht. destruct (decide (q = p)) as [->|Hq]; [rewrite lookup_insert_eq in Ht; injection Ht as <-; simpl; lia|].
      rewrite lookup_insert_ne in Ht by done. now apply (io_aid _ I q).
  - intros j d Hd. destruct (Hj j d Hd) as (d0 & Hd0 & _ & E1 & E2). destruct (decide (j = i)) as [->|Hne].
    + rewrite (E1 eq_refl). split.
      * simpl. unfold aids_with. destruct (sta_aid b !! _) as [x|] eqn:Hx; [|apply A]. apply Forall_insert; [apply A|].
        apply u32_lor; [apply (Forall_lookup_1 _ _ _ _ (ai_words _ _ A) Hx)|apply bit_index; lia].
      * intros c Hc. simpl. rewrite taken_with by (apply Hn || lia). rewrite orb_true_iff, bool_decide_eq_true, (ai_taken _ _ A c Hc). split.
        -- intros [(q & t & Hq & Ht & E)| ->]; [|exists p, s'; now rewrite lookup_insert_eq].
           exists q, t. rewrite lookup_insert_ne; [done|]. intros <-. assert (t = s) by congruence. subst t. lia.
        -- intros (q & t & Hq & Ht & E). destruct (decide (q = p)) as [->|Hqp].
           ++ rewrite lookup_insert_eq in Ht. injection Ht as <-. now right.
           ++ rewrite lookup_insert_ne in Ht by done. left. eauto.
      * assert (forall q t, q <> p -> q ∈ sta_list b -> heap w !! q = Some t -> sta_aid_ t <> a) as Hfr.
        { intros q t Hqp Hq Ht E. assert (aid_taken (sta_aid b) a = true); [|congruence]. apply (ai_taken _ _ A); [lia|eauto]. }
        intros q r t u Hq Hr. simpl in Hq, Hr.
        destruct (decide (q = p)) as [->|Hqp], (decide (r = p)) as [->|Hrp]; rewrite ?lookup_insert_eq, ?lookup_insert_ne by done.
        -- done.
        -- intros [= <-] Hu _ E. exfalso. now apply (Hfr r u).
        -- intros Ht [= <-] _ E. exfalso. apply (Hfr q t); [done..|]. simpl in E. congruence.
        -- exact (ai_inj _ _ A q r t u Hq Hr).
    + rewrite (E2 Hne) in Hd0. apply (aids_frame (heap w) _ d d); [|done|done|now apply (mo_aids _ M j)].
      intros q Hq. rewrite lookup_insert_ne; [done|]. intros <-. now apply (other_table w i j b d p).
  - unfold books_ok. cbn [put_bss upd_ifc upd_heap ifc]. change (counts_of (set_bss _ _)) with (counts_of (ifc w)).
    rewrite (mo_books _ M). apply map_ext. intros k. symmetry.
    rewrite (total_frame k w (put_bss i b' (upd_heap <[p := s']> w)) i b b' Hb); [|done|].
    + change (sta_list b') with (sta_list b). simpl. rewrite (tally_frame k (heap w)); [lia|].
      intros q _. rewrite flag_at_insert. case_decide; [|done]. subst q. now rewrite (flag_at_Some _ _ _ _ Hs).
    + intros j c q _ _ _. simpl. rewrite flag_at_insert. case_decide; [|done]. subst q. now rewrite (flag_at_Some _ _ _ _ Hs).
  - intros q t Ht. destruct (decide (q = p)) as [->|Hq].
    + rewrite lookup_insert_eq in Ht. injection Ht as <-. now apply (mo_sta _ M p s).
    + rewrite lookup_insert_ne in Ht by done. now apply (mo_sta _ M q).
  - intros j d Hd. destruct (Hj j d Hd) as (d0 & Hd0 & _ & E1 & E2). destruct (decide (j = i)) as [->|Hne].
    + rewrite (E1 eq_refl). apply (mo_bconf _ M i b Hb).
    + rewrite (E2 Hne) in Hd0. now apply (mo_bconf _ M j).
Qed.

(** ** The calculus

    [runs i o o' m]: [m], called on the BSS [i] and (if any) its station [o], returns
    and keeps the books; afterwards [o'] is a station of [i].  Memory is there. *)

Definition ready (w : world) : Prop := mlme_ok w /\ forall t n, onum (wenv w) t (Malloc n) <> 0.

Definition at_table (i : nat) (o : option positive) (w : world) : Prop :=
  is_Some (bss (ifc w) !! i) /\ match o with Some p => in_table w i p | None => True end.

Definition runs {A} (i : nat) (o o' : option positive) (m : M world A) : Prop := forall w, ready w -> at_table i o w ->
  exists a w', m w = Ok (a, w') /\ ready w' /\ at_table i o' w'.

Section Runs.
Context (i : nat).

Lemma runs_bind {A B} o o1 o2 (m : M world A) (k : A -> M world B) :
  runs i o o1 m -> (forall a, runs i o1 o2 (k a)) -> runs i o o2 (bind m k).
Proof using.
  intros Hm Hk w R T. destruct (Hm w R T) as (a & w1 & E & R1 & T1). rewrite (bind_Ok _ _ _ _ _ E). now apply Hk.
Qed.

Lemma runs_ret {A} o (a : A) : runs i o o (ret a).
Proof using. intros w R T. by exists a, w. Qed.

Lemma runs_ret_weak {A} p (a : A) : runs i (Some p) None (ret a).
Proof using. intros w R [T _]. by exists a, w. Qed.

Lemma runs_weak {A} o o' (m : M world A) : runs i o o' m -> runs i o None m.
Proof using. intros Hm w R T. destruct (Hm w R T) as (a & w' & E & R' & [T' _]). exists a, w'. done. Qed.

Lemma runs_any {A} o o' (m : M world A) : runs i None o' m -> runs i o o' m.
Proof using. intros Hm w R [T _]. by apply Hm. Qed.

Lemma runs_get {A} o o' (k : world -> M world A) : (forall w, ready w -> runs i o o' (k w)) -> runs i o o' (bind get k).
Proof using. intros Hk w R T. rewrite (bind_Ok _ _ w w w) by done. now apply Hk. Qed.

Lemma runs_lift {A B} o o' (r : res A) (P : A -> Prop) (k : A -> M world B) :
  (exists a, r = Ok a /\ P a) -> (forall a, P a -> runs i o o' (k a)) -> runs i o o' (bind (lift r) k).
Proof using. intros (a & -> & HP) Hk w R T. rewrite (bind_Ok _ _ w a w) by done. now apply Hk. Qed.

Lemma runs_get_sta {A} p o' (k : sta_info -> M world A) :
  (forall s, mac_ok (sta_addr s) -> sta_ok (mlme s) -> 0 <= sta_aid_ s <= 2007 -> runs i (Some p) o' (k s)) ->
  runs i (Some p) o' (bind (get_sta p) k).
Proof using.
  intros Hk w R T. pose proof (mo_iface _ (proj1 R)) as I. destruct T as [Hi (b & Hb & Hp)].
  destruct (bss_live _ _ (proj1 (io_bss _ I i b Hb)) p Hp) as (s & Hs & Hm). rewrite (bind_Ok _ _ _ _ _ (get_sta_run _ _ _ Hs)).
  apply Hk; [done|now apply (mo_sta _ (proj1 R) p)|now apply (io_aid _ I p)|done|by split; [|exists b]].
Qed.

Lemma runs_get_bss {A} o o' (k : hostapd_data -> M world A) :
  (forall b, bss_named b -> bconf_ok (bconf b) -> runs i o o' (k b)) -> runs i o o' (bind (get_bss i) k).
Proof using.
  intros Hk w R T. pose proof (mo_iface _ (proj1 R)) as I. destruct (proj1 T) as [b Hb].
  rewrite (bind_Ok _ _ _ _ _ (get_bss_run _ _ _ Hb)). apply Hk; [apply (io_bss _ I i b Hb)|now apply (mo_bconf _ (proj1 R) i)|done|done].
Qed.

Lemma at_table_quiet o w w' : quiet w w' -> at_table i o w -> at_table i o w'.
Proof using. intros Q [T1 T2]. split; [now rewrite (q_ifc _ _ Q)|]. destruct o; [|done]. now apply (in_table_quiet w). Qed.

Lemma ready_quiet w w' : quiet w w' -> ready w -> ready w'.
Proof using. intros Q [M Hm]. split; [now apply (mlme_ok_quiet w)|now rewrite (q_num _ _ Q)]. Qed.

Lemma runs_quietly {A} o (m : M world A) : (forall w, ready w -> at_table i o w -> quietly w (m w)) -> runs i o o m.
Proof using.
  intros Hm w R T. destruct (Hm w R T) as (a & w' & E & Q). exists a, w'. split; [done|]. split; [now apply (ready_quiet w)|now apply (at_table_quiet o w)].
Qed.

Lemma runs_ext o c : runs i o o (ext c).
Proof using. apply runs_quietly. intros. apply quietly_ext. Qed.
Lemma runs_ext_ o c : runs i o o (ext_ c).
Proof using. apply runs_quietly. intros. apply quietly_ext_. Qed.

(** Memory is there. *)
Lemma runs_malloc {A} o o' n (k : Z -> M world A) : (forall r, r <> 0 -> runs i o o' (k r)) -> runs i o o' (bind (ext (Malloc n)) k).
Proof using.
  intros Hk w R T. rewrite (bind_Ok _ _ _ _ _ (ext_log _ _)). apply Hk; [apply R|..].
  - apply (ready_quiet w); [apply (quiet_log [_])|done].
  - apply (at_table_quiet _ w); [apply (quiet_log [_])|done].
Qed.

Lemma runs_gentle {A} p (m : M world A) : gentle i p m -> runs i (Some p) (Some p) m.
Proof using.
  intros Hm. apply runs_quietly. intros w R T. pose proof (mo_iface _ (proj1 R)) as I.
  destruct (in_table_live _ _ _ I (proj2 T)). now apply Hm.
Qed.

(** An entry changes, but not in what is counted. *)
Lemma runs_upd_sta p f : (forall s, sta_addr (f s) = sta_addr s /\ sta_aid_ (f s) = sta_aid_ s /\ flags_of (f s) = flags_of s) ->
  (forall s, sta_ok (mlme s) -> sta_ok (mlme (f s))) -> runs i (Some p) (Some p) (upd_sta p f).
Proof using.
  intros Hf Hm w R T. pose proof (mo_iface _ (proj1 R)) as I. pose proof T as [Hi (b & Hb & Hp)].
  destruct (bss_live _ _ (proj1 (io_bss _ I i b Hb)) p Hp) as (s & Hs & _). destruct (Hf s) as (E1 & E2 & E3).
  exists tt, (upd_heap <[p := f s]> w). split; [unfold upd_sta; now rewrite (bind_Ok _ _ _ _ _ (get_sta_run _ _ _ Hs))|].
  split; [|exact T]. split; [|apply R]. apply (mlme_ok_entry w p s); try done; [apply R|]. apply Hm, (mo_sta _ (proj1 R) p s Hs).
Qed.

(** The interface changes, but not in its tables, its configuration or its
    counters. *)
Lemma runs_upd_ifc o f : (forall x, bss (f x) = bss x /\ driver_ops (f x) = driver_ops x /\ standing (f x) = standing x /\ counts_of (f x) = counts_of x) ->
  runs i o o (modify (upd_ifc f)).
Proof using.
  intros Hf w R T. destruct (Hf (ifc w)) as (E1 & E2 & E3 & E4). exists tt, (upd_ifc f w). split; [done|]. split.
  - split; [|apply R]. apply mlme_ok_ifc; try done. apply R.
  - destruct T as [T1 T2]. split; [simpl; now rewrite E1|]. destruct o as [p|]; [|done]. destruct T2 as (b & Hb & Hp). exists b. simpl. now rewrite E1.
Qed.

Lemma runs_count_up p flag set_sta num set k : (k < 7)%nat ->
  (forall s, flags_of s !! k = Some (flag s) /\ flags_of (set_sta s) = <[k := true]> (flags_of s) /\
             sta_addr (set_sta s) = sta_addr s /\ sta_aid_ (set_sta s) = sta_aid_ s) ->
  (forall s, sta_ok (mlme s) -> sta_ok (mlme (set_sta s))) ->
  (forall z x, bss (set z x) = bss x /\ driver_ops (set z x) = driver_ops x /\ standing (set z x) = standing x) ->
  (forall x, counts_of (set (num x + 1) x) = zip_with Z.add (counts_of x) (unit_at k true)) ->
  runs i (Some p) (Some p) (count_up p flag set_sta num set).
Proof using.
  intros Hk Hf Hm Hset Hc w R T. pose proof (mo_iface _ (proj1 R)) as I. pose proof T as [Hi (b & Hb & Hp)].
  destruct (bss_live _ _ (proj1 (io_bss _ I i b Hb)) p Hp) as (s & Hs & _). destruct (Hf s) as (E1 & E2 & E3 & E4).
  unfold count_up. rewrite (bind_Ok _ _ _ _ _ (get_sta_run _ _ _ Hs)).
  destruct (flag s) eqn:Ef; [by exists false, w|]. destruct (Hset (num (ifc w) + 1) (ifc w)) as (S1 & S2 & S3).
  set (w1 := upd_heap <[p := set_sta s]> w). exists true, (upd_ifc (fun x => set (num x + 1) x) w1).
  split; [erewrite bind_Ok by (unfold upd_sta; rewrite (bind_Ok _ _ _ _ _ (get_sta_run _ _ _ Hs)); reflexivity); reflexivity|].
  split.
  - split; [|apply R]. apply (mlme_ok_count w i p s (set_sta s) (fun x => set (num x + 1) x) k); try done; [apply R|by exists b|].
    apply Hm, (mo_sta _ (proj1 R) p s Hs).
  - split; [simpl; rewrite S1; eauto|]. exists b. simpl. now rewrite S1.
Qed.

Lemma runs_get_aid p : runs i (Some p) (Some p) (hostapd_get_aid i p).
Proof using.
  intros w R T. pose proof (mo_iface _ (proj1 R)) as I. pose proof T as [Hi (b & Hb & Hp)].
  destruct (bss_live _ _ (proj1 (io_bss _ I i b Hb)) p Hp) as (s & Hs & _). destruct (get_aid_run w i b p s (proj1 R) Hb Hs) as [Hold Hnew].
  pose proof (io_aid _ I p s Hs) as Ha. destruct (decide (sta_aid_ s = 0)) as [Hz|Hz]; [|exists 0, w; split; [apply Hold; lia|done]].
  destruct (Hnew Hz) as [[_ E]|(a & Hr & Hf & _ & E)]; [by exists (-1), w|]. eexists 0, _. split; [exact E|].
  split; [split; [apply mlme_ok_aid; try done; apply R|apply R]|]. unfold with_aid. apply lookup_lt_Some in Hb as Hlt. split.
  - simpl. rewrite list_lookup_insert_eq by done. eauto.
  - eexists. split; [simpl; now apply list_lookup_insert_eq|done].
Qed.

Lemma runs_ap_get_sta {A} o' addr (k : option positive -> M world A) : mac_ok addr ->
  (forall r, runs i r o' (k r)) -> runs i None o' (bind (ap_get_sta i addr) k).
Proof using.
  intros Hm Hk w R T. pose proof (mo_iface _ (proj1 R)) as I. destruct (proj1 T) as [b Hb].
  destruct (ap_get_sta_spec w i b addr Hb (proj1 (io_bss _ I i b Hb)) Hm) as (r & E & Hr). rewrite (bind_Ok _ _ _ _ _ E).
  apply (Hk r); [done|]. split; [apply T|]. destruct r as [p|]; [|done]. destruct (proj1 (Hr p) eq_refl) as (s & Hp & _). by exists b.
Qed.
End Runs.

(** Where [m] may have no defined behaviour, but only if [F]. *)
Definition runs_or (F : Prop) {A} (i : nat) (o o' : option positive) (m : M world A) : Prop := forall w, ready w -> at_table i o w ->
  (exists a w', m w = Ok (a, w') /\ ready w' /\ at_table i o' w') \/ (F /\ exists u, m w = Ub u).

Section RunsOr.
Context (F : Prop) (i : nat).

Lemma runs_or_runs {A} o o' (m : M world A) : runs i o o' m -> runs_or F i o o' m.
Proof using. intros Hm w R T. left. now apply Hm. Qed.

Lemma runs_or_weak {A} o o' (m : M world A) : runs_or F i o o' m -> runs_or F i o None m.
Proof using. intros Hm w R T. destruct (Hm w R T) as [(a & w' & E & R' & [T' _])|Hu]; [left; by exists a, w'|by right]. Qed.

Lemma runs_or_bind {A B} o o1 o2 (m : M world A) (k : A -> M world B) :
  runs_or F i o o1 m -> (forall a, runs_or F i o1 o2 (k a)) -> runs_or F i o o2 (bind m k).
Proof using.
  intros Hm Hk w R T. destruct (Hm w R T) as [(a & w1 & E & R1 & T1)|[HF [u E]]].
  - rewrite (bind_Ok _ _ _ _ _ E). now apply Hk.
  - right. split; [done|]. exists u. unfold bind. now rewrite E.
Qed.

Lemma runs_or_lift {A B} o o' (r : res A) (P : A -> Prop) (k : A -> M world B) :
  ((exists a, r = Ok a /\ P a) \/ (F /\ exists u, r = Ub u)) -> (forall a, P a -> runs_or F i o o' (k a)) -> runs_or F i o o' (bind (lift r) k).
Proof using.
  intros [(a & -> & HP)|[HF [u ->]]] Hk w R T; [now apply Hk|]. right. split; [done|]. by exists u.
Qed.

Lemma runs_or_get_sta {A} p o' (k : sta_info -> M world A) : (forall s, runs_or F i (Some p) o' (k s)) ->
  runs_or F i (Some p) o' (bind (get_sta p) k).
Proof using.
  intros Hk w R T. pose proof (mo_iface _ (proj1 R)) as I. destruct T as [Hi (b & Hb & Hp)].
  destruct (bss_live _ _ (proj1 (io_bss _ I i b Hb)) p Hp) as (s & Hs & Hm). rewrite (bind_Ok _ _ _ _ _ (get_sta_run _ _ _ Hs)).
  apply Hk; [done|by split; [|exists b]].
Qed.

Lemma runs_or_get_bss {A} o o' (k : hostapd_data -> M world A) : (forall b, runs_or F i o o' (k b)) -> runs_or F i o o' (bind (get_bss i) k).
Proof using. intros Hk w R T. destruct (proj1 T) as [b Hb]. rewrite (bind_Ok _ _ _ _ _ (get_bss_run _ _ _ Hb)). now apply Hk. Qed.

Lemma runs_or_ap_get_sta {A} o' addr (k : option positive -> M world A) : mac_ok addr ->
  (forall r, runs_or F i r o' (k r)) -> runs_or F i None o' (bind (ap_get_sta i addr) k).
Proof using.
  intros Hm Hk w R T. pose proof (mo_iface _ (proj1 R)) as I. destruct (proj1 T) as [b Hb].
  destruct (ap_get_sta_spec w i b addr Hb (proj1 (io_bss _ I i b Hb)) Hm) as (r & E & Hr). rewrite (bind_Ok _ _ _ _ _ E).
  apply (Hk r); [done|]. split; [apply T|]. destruct r as [p|]; [|done]. destruct (proj1 (Hr p) eq_refl) as (s & Hp & _). by exists b.
Qed.
End RunsOr.

Section RunsLife.
Context `{StamgdFormat} (i : nat).

Lemma runs_free p : runs i (Some p) None (ap_free_sta i p).
Proof using.
  intros w R T. pose proof (mo_iface _ (proj1 R)) as I. pose proof T as [Hi (b & Hb & Hp)].
  destruct (bss_live _ _ (proj1 (io_bss _ I i b Hb)) p Hp) as (s & Hs & _).
  destruct (free_run w i b p s I Hb Hp Hs) as (w' & E & F). exists tt, w'. split; [done|].
  split; [split; [now apply (mlme_ok_free w w' i b p s); [apply R|..]|now rewrite (fr_num _ _ _ _ _ _ F); apply R]|].
  destruct (fr_bss _ _ _ _ _ _ F) as (b' & Eb & _). split; [|done]. rewrite Eb. apply lookup_lt_Some in Hb.
  rewrite list_lookup_insert_eq by done. eauto.
Qed.

Lemma runs_add {A} o' max_inactivity addr (k : option positive -> M world A) : mac_ok addr ->
  (forall r, runs i r o' (k r)) -> runs i None o' (bind (ap_sta_add max_inactivity i addr) k).
Proof using.
  intros Hm Hk w R T. pose proof (mo_iface _ (proj1 R)) as I. destruct (proj1 T) as [b Hb].
  destruct (add_cases max_inactivity w i b addr I Hb Hm) as [Hold Hnew].
  destruct (ap_get_sta_spec w i b addr Hb (proj1 (io_bss _ I i b Hb)) Hm) as ([q|] & _ & Hspec).
  - destruct (proj1 (Hspec q) eq_refl) as [s Hs]. rewrite (bind_Ok _ _ _ _ _ (Hold q s Hs)).
    apply Hk; [done|]. split; [apply T|]. exists b. split; [done|apply Hs].
  - destruct Hnew as (H1 & _ & H3); [intros q s Hq; assert (None = Some q) by (apply Hspec; eauto); discriminate|].
    destruct (decide (num_sta b < max_num_sta b)) as [Hn|Hn].
    + destruct H3 as (p & w' & E & D); [done|apply R|]. rewrite (bind_Ok _ _ _ _ _ E).
      destruct (ad_bss _ _ _ _ _ _ D) as (b' & Eb & El & _). apply lookup_lt_Some in Hb as Hlt.
      apply Hk; [split; [now apply (mlme_ok_add w w' i b addr p); [apply R|..]|rewrite (ad_num _ _ _ _ _ _ D); apply R]|].
      assert (bss (ifc w') !! i = Some b') as Hb' by (rewrite Eb; now apply list_lookup_insert_eq).
      split; [eauto|]. exists b'. split; [done|]. rewrite El. left.
    + rewrite (bind_Ok _ _ w None w) by (apply H1; lia). now apply (Hk None).
Qed.

Lemma runs_deauth_ind p : runs i (Some p) (Some p) (mlme_deauthenticate_indication i p).
Proof. apply runs_gentle. auto with lazyas. Qed.
Lemma runs_disassoc_ind p : runs i (Some p) (Some p) (mlme_disassociate_indication i p).
Proof. apply runs_gentle. auto with lazyas. Qed.

Lemma runs_assoc_ind p : runs i (Some p) (Some p) (assoc_indication i p).
Proof.
  apply runs_quietly. intros w R T. pose proof (mo_iface _ (proj1 R)) as I. destruct T as [Hi (b & Hb & Hp)].
  destruct (bss_live _ _ (proj1 (io_bss _ I i b Hb)) p Hp) as (s & Hs & _).
  destruct (assoc_run w i b p s I Hb Hp Hs (proj2 R)) as (w' & E & J). exists tt, w'. split; [done|apply (jo_quiet _ _ _ _ J)].
Qed.
End RunsLife.

#[export] Hint Resolve runs_ret runs_ret_weak runs_ext runs_ext_ runs_get_aid runs_free runs_deauth_ind runs_disassoc_ind runs_assoc_ind : lazyas.
#[export] Hint Extern 1 (runs _ _ _ (upd_sta _ _)) => apply runs_upd_sta; [intros; repeat split; reflexivity|intros ? []; split; auto] : lazyas.
#[export] Hint Extern 1 (runs _ _ _ (modify (upd_ifc _))) => apply runs_upd_ifc; intros; repeat split; reflexivity : lazyas.

(** Reads of a buffer. *)
(** Walks through an operation. *)
Ltac runs_step :=
  lazymatch goal with
  | |- runs _ _ _ (bind get _) => apply runs_get; intros ? ?
  | |- runs _ _ _ (bind (get_sta _) _) => apply runs_get_sta; intros ? ? ? ?
  | |- runs _ _ _ (bind (get_bss _) _) => apply runs_get_bss; intros ? ? ?
  | |- runs _ _ _ (bind (ext (Malloc _)) _) => apply runs_malloc; intros ? ?
  | |- runs _ _ _ (bind (lift _) _) => fail
  | |- runs _ ?o _ (bind _ _) => apply (runs_bind _ _ o); [|intros]
  | |- runs _ _ _ (if ?b then _ else _) => destruct b eqn:?
  | |- runs _ _ _ (let _ := _ in _) => cbv zeta
  end.
Ltac runs_tac := repeat runs_step; auto with lazyas.

(** ** HT and VHT keep the books *)

Section RunsHt.
Context (i : nat) (p : positive).

Lemma runs_beacons o : runs i o o set_beacons.
Proof using. unfold set_beacons, hostapd. auto with lazyas. Qed.

Lemma runs_retimer o secs fn addr : runs i o o (retimer secs fn addr).
Proof using. unfold retimer. runs_tac. Qed.

Lemma runs_operation o : runs i o o hostapd_ht_operation_update.
Proof using. unfold hostapd_ht_operation_update. runs_tac. Qed.

Lemma runs_intolerant_add : runs i (Some p) (Some p) (ht40_intolerant_add p).
Proof using.
  unfold ht40_intolerant_add. runs_tac; try apply runs_beacons.
  apply (runs_count_up i p _ _ _ _ 6); try done; [lia|intros s []; by split|].
  intros x. unfold counts_of, unit_at, set_intolerant_count. simpl. now rewrite !Z.add_0_r.
Qed.

Lemma runs_count_plain flag set_sta num set k : (k < 6)%nat ->
  (forall s, flags_of s !! k = Some (flag s) /\ flags_of (set_sta s) = <[k := true]> (flags_of s) /\
             sta_addr (set_sta s) = sta_addr s /\ sta_aid_ (set_sta s) = sta_aid_ s /\ mlme (set_sta s) = mlme s) ->
  (forall z x, bss (set z x) = bss x /\ driver_ops (set z x) = driver_ops x /\ standing (set z x) = standing x) ->
  (forall x, counts_of (set (num x + 1) x) = zip_with Z.add (counts_of x) (unit_at k true)) ->
  runs i (Some p) (Some p) (count_up p flag set_sta num set).
Proof using.
  intros Hk Hf Hs Hc. apply (runs_count_up i p _ _ _ _ k); [lia|..|done|done].
  - intros s. destruct (Hf s) as (? & ? & ? & ? & _). done.
  - intros s. destruct (Hf s) as (_ & _ & _ & _ & ->). done.
Qed.

Ltac count_tac n := apply (runs_count_plain _ _ _ _ n); [lia|intros; repeat split; reflexivity|intros; repeat split; reflexivity|
  intros; unfold counts_of, unit_at; simpl; now rewrite !Z.add_0_r].

Lemma runs_non_erp : runs i (Some p) (Some p) (count_up p nonerp_set (set_nonerp_set true) num_sta_non_erp set_num_sta_non_erp).
Proof using. count_tac 0%nat. Qed.
Lemma runs_no_slot : runs i (Some p) (Some p) (count_up p no_short_slot_time_set (set_no_short_slot_time_set true)
  num_sta_no_short_slot_time set_num_sta_no_short_slot_time).
Proof using. count_tac 1%nat. Qed.
Lemma runs_no_preamble : runs i (Some p) (Some p) (count_up p no_short_preamble_set (set_no_short_preamble_set true)
  num_sta_no_short_preamble set_num_sta_no_short_preamble).
Proof using. count_tac 2%nat. Qed.

Lemma runs_update_sta_ht cap : zlen cap = sizeof_ht_capabilities -> runs i (Some p) (Some p) (update_sta_ht p cap).
Proof using.
  intros Hl. unfold update_sta_ht. apply (runs_lift _ _ _ _ (fun _ => True)).
  { destruct (rd_le_in cap 0 2) as (x & E & _); [lia..|rewrite Hl; unfold sizeof_ht_capabilities; lia|]. eauto. }
  intros x _. runs_tac; [count_tac 3%nat|count_tac 5%nat|apply runs_intolerant_add].
Qed.

Lemma runs_update_sta_no_ht : runs i (Some p) (Some p) (update_sta_no_ht p).
Proof using. unfold update_sta_no_ht. runs_tac. count_tac 4%nat. Qed.

Lemma runs_update_ht_state : runs i (Some p) (Some p) (update_ht_state p).
Proof using.
  unfold update_ht_state. runs_step. eapply runs_bind; [|intros; runs_tac; [apply runs_operation|apply runs_beacons]].
  destruct (ht_capabilities (mlme s)) as [cap|] eqn:E; [|apply runs_update_sta_no_ht].
  destruct (has _ _); [|apply runs_update_sta_no_ht]. apply runs_update_sta_ht. apply (so_ht _ H0 cap E).
Qed.

(** A pointer into the frame, with at least as many bytes behind it as its length
    says. *)
Definition elem_ok (e : option (list Z * Z)) : Prop :=
  forall l n, e = Some (l, n) -> (0 <= n <= zlen l /\ n <= 255) /\ Forall u8 l.

Lemma sta_ok_ht (cap : list Z) m : zlen cap = sizeof_ht_capabilities -> Forall u8 cap -> sta_ok m -> sta_ok (set_ht_capabilities (Some cap) m).
Proof using. intros Hl Hu []. split; auto. intros c [= <-]. done. Qed.
Lemma sta_ok_vht (cap : list Z) m : zlen cap = sizeof_vht_capabilities -> Forall u8 cap -> sta_ok m -> sta_ok (set_vht_capabilities (Some cap) m).
Proof using. intros Hl Hu []. split; auto. intros c [= <-]. done. Qed.

Lemma sta_ok_no_ht m : sta_ok m -> sta_ok (set_ht_capabilities None m).
Proof using. intros []. split; auto. intros c [=]. Qed.
Lemma sta_ok_no_vht m : sta_ok m -> sta_ok (set_vht_capabilities None m).
Proof using. intros []. split; auto. intros c [=]. Qed.
Hint Resolve sta_ok_ht sta_ok_vht sta_ok_no_ht sta_ok_no_vht : lazyas.

Ltac upd_tac := apply runs_upd_sta; [intros; repeat split; reflexivity|intros; simpl; auto with lazyas].

Lemma runs_copy_ht b e : elem_ok e -> runs i (Some p) (Some p) (copy_sta_ht_capab b p e).
Proof using.
  intros He. unfold copy_sta_ht_capab. runs_step. cbv zeta.
  destruct e as [[l n]|]; [|runs_tac; upd_tac]. destruct (He l n eq_refl) as [Hn Hu].
  destruct (_ || _) eqn:Ec; [runs_tac; upd_tac|]. apply orb_false_iff in Ec as [[Ec%bool_decide_eq_false _]%orb_false_iff _].
  unfold sizeof_ht_capabilities in *.
  eapply runs_bind; [destruct (bool_decide _); auto with lazyas|]. intros r. destruct (bool_decide _); auto with lazyas.
  apply (runs_lift _ _ _ _ (fun m => zlen m = 26 /\ Forall u8 m)).
  { destruct (slice_in l 0 26) as (m & E & Hm & Hum); [lia..|]. eauto. }
  intros m [Hm Hum]. runs_tac; upd_tac.
Qed.

Lemma runs_copy_vht b e : elem_ok e -> runs i (Some p) (Some p) (copy_sta_vht_capab b p e).
Proof using.
  intros He. unfold copy_sta_vht_capab. runs_step. runs_step. cbv zeta.
  destruct e as [[l n]|]; [|runs_tac; upd_tac]. destruct (He l n eq_refl) as [Hn Hu].
  destruct (_ || _) eqn:Ec; [runs_tac; upd_tac|]. apply orb_false_iff in Ec as [Ec%bool_decide_eq_false _].
  unfold sizeof_vht_capabilities in *. apply (runs_lift _ _ _ _ (fun _ => True)).
  { destruct (rd_le_in l 4 2) as (x & E & _); [lia..|]. destruct (ic_vht _ (mo_iconf _ (proj1 H2))) as [Hv _].
    destruct (rd_le_in (vht_mcs_set (iconf (ifc w))) 4 2) as (y & E' & _); [lia..|].
    unfold check_valid_vht_mcs. rewrite E. cbn [res_bind]. rewrite E'. cbn [res_bind]. eauto. }
  intros valid _. destruct (negb valid); [runs_tac; upd_tac|].
  eapply runs_bind; [destruct (bool_decide _); auto with lazyas|]. intros r. destruct (bool_decide _); auto with lazyas.
  apply (runs_lift _ _ _ _ (fun m => zlen m = 12 /\ Forall u8 m)).
  { destruct (slice_in l 0 12) as (m & E & Hm & Hum); [lia..|]. eauto. }
  intros m [Hm Hum]. runs_tac; upd_tac.
Qed.

Lemma runs_copy_vendor_vht b e : elem_ok e -> runs i (Some p) (Some p) (copy_sta_vendor_vht b p e).
Proof using.
  intros He. unfold copy_sta_vendor_vht. runs_step. cbv zeta.
  destruct e as [[l n]|]; [|runs_tac; upd_tac]. destruct (He l n eq_refl) as [Hn Hu].
  destruct (_ || _) eqn:Ec; [runs_tac; upd_tac|]. apply orb_false_iff in Ec as [Ec%bool_decide_eq_false _].
  unfold sizeof_vht_capabilities in *. apply (runs_lift _ _ _ _ (fun _ => True)).
  { destruct (rd_in l 5) as (x & E & _); [lia|]. eauto. }
  intros id _. destruct (bool_decide _); [runs_tac; upd_tac|]. apply (runs_lift _ _ _ _ (fun _ => True)).
  { destruct (rd_in l 6) as (x & E & _); [lia|]. eauto. }
  intros m _. destruct (_ || _); [runs_tac; upd_tac|].
  eapply runs_bind; [destruct (bool_decide _); auto with lazyas|]. intros r. destruct (bool_decide _); auto with lazyas.
  apply (runs_lift _ _ _ _ (fun m => zlen m = 12 /\ Forall u8 m)).
  { destruct (slice_in l 7 12) as (c & E & Hc & Huc); [lia..|]. eauto. }
  intros c [Hc Huc]. runs_tac; upd_tac.
Qed.

Lemma runs_opmode e : elem_ok e -> (forall l n, e = Some (l, n) -> n = 1) -> runs i (Some p) (Some p) (set_sta_vht_opmode p e).
Proof using.
  intros He Hone. unfold set_sta_vht_opmode. destruct e as [[l n]|]; [|runs_tac].
  apply (runs_lift _ _ _ _ (fun _ => True)); [|intros; runs_tac].
  destruct (He l n eq_refl) as [Hn _]. specialize (Hone l n eq_refl). destruct (rd_in l 0) as (x & E & _); [lia|]. eauto.
Qed.
End RunsHt.

Section RunsCoex.
Context (i : nat) (o : option positive).

Lemma runs_allowed chan : runs i o o (is_40_allowed chan).
Proof using. unfold is_40_allowed. runs_tac. Qed.

Lemma runs_channels chans : runs i o o (channels_allowed chans).
Proof using. induction chans as [|c chans IH]; cbn [channels_allowed]; runs_tac. apply runs_allowed. Qed.

Lemma runs_report mgmt len off : len <= zlen mgmt -> Forall u8 mgmt -> 0 <= off -> runs i o o (intolerant_report mgmt len off).
Proof using.
  intros Hl Hu Ho. unfold intolerant_report. case_bool_decide as E1; [|auto with lazyas].
  apply (runs_lift _ _ _ _ (fun _ => True)); [destruct (rd_in mgmt off) as (x & E & _); [lia|]; eauto|]. intros id _.
  apply (runs_lift _ _ _ _ (fun _ => True)); [destruct (rd_in mgmt (off + 1)) as (x & E & _); [lia|]; eauto|]. intros n _.
  destruct (_ && _) eqn:E2; [|auto with lazyas]. apply andb_true_iff in E2 as [_ E2%bool_decide_eq_true].
  case_bool_decide as E3; [auto with lazyas|].
  apply (runs_lift _ _ _ _ (fun _ => True)).
  { destruct (slice_in mgmt (off + 3) (n - 1)) as (m & E & _); [lia..|]. eauto. }
  intros chans _. runs_tac. apply runs_channels.
Qed.

(** It reads byte 25, which may be the one behind the frame. *)
Lemma runs_coex mgmt len : 24 < len -> 25 < zlen mgmt -> len <= zlen mgmt -> Forall u8 mgmt -> runs i o o (hostapd_2040_coex_action mgmt len).
Proof using.
  intros Hl Hz Hle Hu. unfold hostapd_2040_coex_action.
  apply (runs_lift _ _ _ _ (fun _ => True)); [destruct (rd_in mgmt 25) as (x & E & _); [lia|]; eauto|]. intros _ _.
  runs_step. cbv zeta. destruct (negb _); [auto with lazyas|]. destruct (_ || _); [auto with lazyas|].
  case_bool_decide as E1; [auto with lazyas|].
  apply (runs_lift _ _ _ _ (fun _ => True)); [destruct (rd_in mgmt 26) as (x & E & _); [lia|]; eauto|]. intros id _.
  apply (runs_lift _ _ _ _ (fun n => 0 <= n)); [destruct (rd_in mgmt 27) as (x & E & Hx); [lia|]; exists x; split; [done|]; apply Hx, Hu|].
  intros n Hn. destruct (_ || _); [auto with lazyas|]. case_bool_decide as E2; [auto with lazyas|].
  apply (runs_lift _ _ _ _ (fun _ => True)); [destruct (rd_in mgmt 28) as (x & E & _); [lia|]; eauto|]. intros coex _.
  eapply runs_bind; [apply runs_report; [done..|lia]|]. intros [a|]; [|auto with lazyas].
  runs_tac; (apply runs_beacons || apply runs_retimer).
Qed.
End RunsCoex.

(** ** Runs over one entry, with what they leave

    [sta_run p w m s Q]: from every state that is [w] but for its log and with the
    entry [s] at [p], [m] returns, changes the entry and the log only, and [Q] holds
    of the result, the entry and the calls. *)

Definition sta_run {A} (p : positive) (w : world) (m : M world A) (s : sta_info) (Q : A -> sta_info -> list call -> Prop) : Prop :=
  forall e, (forall t n, onum e t (Malloc n) <> 0) ->
  exists a s' cs, m (at_sta p s e w) = Ok (a, at_sta p s' (logged_all cs e) w) /\ Q a s' cs.

Section StaRun.
Context (p : positive) (w : world).

Lemma sr_bind {A B} (m : M world A) (k : A -> M world B) s Q :
  sta_run p w m s (fun a s' cs => sta_run p w (k a) s' (fun b s'' ds => Q b s'' (cs ++ ds))) -> sta_run p w (bind m k) s Q.
Proof using.
  intros Hm e He. destruct (Hm e He) as (a & s1 & cs & E & Hk). rewrite (bind_Ok _ _ _ _ _ E).
  destruct (Hk (logged_all cs e)) as (b & s2 & ds & E2 & HQ); [now rewrite logged_all_onum|].
  exists b, s2, (cs ++ ds). rewrite logged_all_app. done.
Qed.

Lemma sr_weaken {A} (m : M world A) s (Q Q' : A -> sta_info -> list call -> Prop) : (forall a s' cs, Q a s' cs -> Q' a s' cs) ->
  sta_run p w m s Q -> sta_run p w m s Q'.
Proof using. intros HQ Hm e He. destruct (Hm e He) as (a & s' & cs & E & H). eauto 6. Qed.

Lemma sr_ret {A} (a : A) s (Q : A -> sta_info -> list call -> Prop) : Q a s [] -> sta_run p w (ret a) s Q.
Proof using. intros HQ e _. by exists a, s, []. Qed.

Lemma sr_lift {A} (r : res A) a s (Q : A -> sta_info -> list call -> Prop) : r = Ok a -> Q a s [] -> sta_run p w (lift r) s Q.
Proof using. intros -> HQ e _. by exists a, s, []. Qed.

Lemma sr_get_sta s (Q : sta_info -> sta_info -> list call -> Prop) : Q s s [] -> sta_run p w (get_sta p) s Q.
Proof using. intros HQ e _. exists s, s, []. split; [apply get_sta_at|done]. Qed.

Lemma sr_upd f s (Q : unit -> sta_info -> list call -> Prop) : Q tt (f s) [] -> sta_run p w (upd_sta p f) s Q.
Proof using. intros HQ e _. exists tt, (f s), []. split; [apply upd_sta_at|done]. Qed.

Lemma sr_ext_ c s (Q : unit -> sta_info -> list call -> Prop) : Q tt s [c] -> sta_run p w (ext_ c) s Q.
Proof using. intros HQ e _. by exists tt, s, [c]. Qed.

Lemma sr_ext c s (Q : Z -> sta_info -> list call -> Prop) : (forall r, Q r s [c]) -> sta_run p w (ext c) s Q.
Proof using. intros HQ e _. eexists _, s, [c]. split; [reflexivity|apply HQ]. Qed.

Lemma sr_malloc n s (Q : Z -> sta_info -> list call -> Prop) : (forall r, r <> 0 -> Q r s [Malloc n]) -> sta_run p w (ext (Malloc n)) s Q.
Proof using. intros HQ e He. eexists _, s, [Malloc n]. split; [reflexivity|apply HQ, He]. Qed.

Lemma sr_get_bss i b s (Q : hostapd_data -> sta_info -> list call -> Prop) : bss (ifc w) !! i = Some b -> Q b s [] -> sta_run p w (get_bss i) s Q.
Proof using. intros Hb HQ e _. exists b, s, []. split; [now apply get_bss_run|done]. Qed.

(** The interface is that of [w]. *)
Lemma sr_get {A} (k : world -> M world A) s Q : (forall w', ifc w' = ifc w -> sta_run p w (k w') s Q) -> sta_run p w (bind get k) s Q.
Proof using. intros Hk e He. rewrite (bind_Ok _ _ _ (at_sta p s e w) (at_sta p s e w)) by done. now apply Hk. Qed.

Lemma sr_start {A} (m : M world A) s Q : sta_run p w m s Q -> heap w !! p = Some s -> (forall t n, onum (wenv w) t (Malloc n) <> 0) ->
  exists a s' cs, m w = Ok (a, at_sta p s' (logged_all cs (wenv w)) w) /\ Q a s' cs.
Proof using. intros Hm Hs He. destruct (Hm (wenv w) He) as (a & s' & cs & E & HQ). rewrite at_sta_start in E by done. eauto. Qed.
End StaRun.

(** Walks through an operation. *)
Ltac sr_step :=
  lazymatch goal with
  | |- sta_run _ _ (bind get _) _ _ => apply sr_get; intros ? ?
  | |- sta_run _ _ (bind _ _) _ _ => apply sr_bind
  | |- sta_run _ _ (ret _) _ _ => apply sr_ret
  | |- sta_run _ _ (get_sta _) _ _ => apply sr_get_sta
  | |- sta_run _ _ (upd_sta _ _) _ _ => apply sr_upd
  | |- sta_run _ _ (ext_ _) _ _ => apply sr_ext_
  | |- sta_run _ _ (ext (Malloc _)) _ _ => apply sr_malloc; intros ? ?
  | |- sta_run _ _ (ext _) _ _ => apply sr_ext; intros ?
  | |- sta_run _ _ (let _ := _ in _) _ _ => cbv zeta
  end.
Ltac sr_tac := repeat sr_step.

(** ** What goes out

    The frames that the driver was given, and the orders to disconnect a station, in
    order. *)
Definition sends (c : call) : bool :=
  match c with DrvSendMlme _ _ | DrvStaDisassoc _ _ _ | DrvSend2StaDisassoc _ _ _ | DrvStaDeauth _ _ _ => true | _ => false end.
Definition frames (w : world) : list call := filter (fun c => sends c = true) (trace (wenv w)).

Abbreviation silent := (keeps frames).

Lemma frames_log cs w : frames (with_log cs w) = frames w ++ filter (fun c => sends c = true) cs.
Proof. unfold frames. change (wenv (with_log cs w)) with (logged_all cs (wenv w)). now rewrite logged_all_trace, filter_app. Qed.

Lemma silent_ext c : sends c = false -> silent (ext c).
Proof. intros Hc w r w' E. injection E as _ <-. change (frames (with_log [c] w) = frames w). rewrite frames_log, filter_cons_False, filter_nil; [apply app_nil_r|by rewrite Hc]. Qed.
Lemma silent_ext_ c : sends c = false -> silent (ext_ c).
Proof. intros Hc w r w' E. injection E as _ <-. change (frames (with_log [c] w) = frames w). rewrite frames_log, filter_cons_False, filter_nil; [apply app_nil_r|by rewrite Hc]. Qed.
Lemma silent_hostapd fn addr : silent (hostapd fn addr).
Proof. now apply silent_ext_. Qed.

Create HintDb silent discriminated.
#[export] Hint Resolve silent_hostapd : silent.

Ltac silent_step :=
  lazymatch goal with
  | |- keeps frames (ext _) => now apply silent_ext
  | |- keeps frames (ext_ _) => now apply silent_ext_
  | |- keeps frames (get_sta _) => unfold get_sta
  | |- keeps frames (get_bss _) => unfold get_bss
  | |- keeps frames (upd_sta _ _) => unfold upd_sta
  | |- keeps frames (upd_bss _ _) => unfold upd_bss
  | |- keeps frames _ => keeps_step ltac:(solve [auto 2 with silent])
  end.
Ltac silent_tac := repeat silent_step.

Lemma silent_count_up p flag set_sta num set : silent (count_up p flag set_sta num set).
Proof. unfold count_up. silent_tac. Qed.
#[export] Hint Resolve silent_count_up : silent.

(** ** What the counters say *)

(** Some station of the interface has the [k]th flag. *)
Definition some_sta (w : world) (flag : sta_info -> bool) : Prop :=
  exists i p s, in_table w i p /\ heap w !! p = Some s /\ flag s = true.

Lemma tally_nonneg k (h : gmap positive sta_info) l : 0 <= tally k h l.
Proof. induction l as [|p l IH]; [done|]. cbn [tally foldr]. fold (tally k h l). destruct (flag_at k h p); simpl; lia. Qed.

Lemma tally_some k (h : gmap positive sta_info) l : tally k h l <> 0 <-> exists p, p ∈ l /\ flag_at k h p = true.
Proof.
  induction l as [|p l IH]; [split; [done|intros (p & Hp & _); inversion Hp]|].
  cbn [tally foldr]. fold (tally k h l). pose proof (tally_nonneg k h l). destruct (flag_at k h p) eqn:E; simpl.
  - split; [intros _; exists p; split; [left|done]|lia].
  - rewrite IH. split; intros (q & Hq & Eq); exists q; (split; [|done]); [now right|]. apply elem_of_cons in Hq as [->|Hq]; [congruence|done].
Qed.

Lemma total_some k w : total k w <> 0 <-> exists i p, in_table w i p /\ flag_at k (heap w) p = true.
Proof.
  unfold total, in_table. generalize (bss (ifc w)) as bs. intros bs.
  assert (0 <= foldr (fun b n => tally k (heap w) (sta_list b) + n) 0 bs) as H0.
  { induction bs as [|b bs IH]; [done|]. cbn [foldr]. pose proof (tally_nonneg k (heap w) (sta_list b)). lia. }
  induction bs as [|b bs IH]; [split; [done|intros (i & p & (c & Hc & _) & _); now rewrite lookup_nil in Hc]|]. cbn [foldr].
  assert (0 <= foldr (fun b n => tally k (heap w) (sta_list b) + n) 0 bs) as H1.
  { clear. induction bs as [|b bs IH]; [done|]. cbn [foldr]. pose proof (tally_nonneg k (heap w) (sta_list b)). lia. }
  specialize (IH H1). pose proof (tally_nonneg k (heap w) (sta_list b)) as Hb. split.
  - intros Hn. destruct (decide (tally k (heap w) (sta_list b) = 0)) as [Hz|Hz].
    + destruct (proj1 IH) as (i & p & (c & Hc & Hp) & Hf); [lia|]. exists (S i), p. split; [by exists c|done].
    + apply tally_some in Hz as (p & Hp & Hf). exists 0%nat, p. split; [by exists b|done].
  - intros ([|i] & p & (c & Hc & Hp) & Hf); simpl in Hc.
    + injection Hc as ->. assert (tally k (heap w) (sta_list c) <> 0) by (apply tally_some; eauto). lia.
    + assert (foldr (fun b n => tally k (heap w) (sta_list b) + n) 0 bs <> 0); [|lia]. apply IH. exists i, p. split; [by exists c|done].
Qed.

Lemma some_flag k w (flag : sta_info -> bool) : (forall s, flags_of s !! k = Some (flag s)) ->
  total k w <> 0 <-> some_sta w flag.
Proof.
  intros Hk. rewrite total_some. unfold some_sta, flag_at. split.
  - intros (i & p & Hp & Hf). exists i, p. destruct (heap w !! p) as [s|]; [|done]. rewrite Hk in Hf. by exists s.
  - intros (i & p & s & Hp & Hs & Hf). exists i, p. rewrite Hs, Hk. done.
Qed.

Lemma books_counts w : books_ok w -> num_sta_ht_no_gf (ifc w) = total 3 w /\ num_sta_no_ht (ifc w) = total 4 w /\
  num_sta_ht_20mhz (ifc w) = total 5 w.
Proof. unfold books_ok, counts_of. cbn [seq map]. intros [=]. done. Qed.

Definition with_mode (w : world) : world := upd_ifc (upd_ht (set_ht_op_mode (snd (ht_operation (ifc w))))) w.

Lemma ht_update_run w : ieee80211n (iconf (ifc w)) = true -> ht_op_mode_fixed (iconf (ifc w)) = false ->
  hostapd_ht_operation_update w = Ok (fst (ht_operation (ifc w)), with_mode w).
Proof. intros Hn Hf. unfold hostapd_ht_operation_update. rewrite (bind_Ok _ _ w w w) by done. now rewrite Hn, Hf. Qed.

Lemma protection_cases i : let narrow := secondary_channel (ht i) <> 0 /\ num_sta_ht_20mhz i <> 0 in
  (ht_protection i = HT_PROT_NON_HT_MIXED <-> num_sta_no_ht i <> 0) /\
  (ht_protection i = HT_PROT_20MHZ_PROTECTION <-> ~ num_sta_no_ht i <> 0 /\ narrow) /\
  (ht_protection i = HT_PROT_NONMEMBER_PROTECTION <-> ~ num_sta_no_ht i <> 0 /\ ~ narrow /\ olbc_ht (ht i) = true) /\
  (ht_protection i = HT_PROT_NO_PROTECTION <-> ~ num_sta_no_ht i <> 0 /\ ~ narrow /\ olbc_ht (ht i) = false).
Proof.
  cbv zeta. unfold ht_protection, HT_PROT_NON_HT_MIXED, HT_PROT_20MHZ_PROTECTION, HT_PROT_NONMEMBER_PROTECTION, HT_PROT_NO_PROTECTION.
  destruct (bool_decide_reflect (num_sta_no_ht i <> 0)); [intuition (congruence || lia)|].
  destruct (bool_decide_reflect (secondary_channel (ht i) <> 0)), (bool_decide_reflect (num_sta_ht_20mhz i <> 0)), (olbc_ht (ht i)); cbn [andb];
    intuition (congruence || lia).
Qed.

(** C21: the HT operation mode that the beacons announce, after an update, is a
    function of the stations in the tables of all BSSs: "non-greenfield stations
    present" exactly when a station without greenfield is there, "OBSS non-HT
    stations" when a station without HT is there or one was overheard, and the
    protection (the two lowest bits) is "mixed mode" exactly when a station without HT
    is there, else "20 MHz" exactly when there is a secondary channel and a station
    that uses 20 MHz only, else "nonmember" exactly when a station without HT was
    overheard, else none.  The other bits are as before, a change is reported whenever the mode changes, and a second
    update reports none. *)
Theorem ht_mode_announces (w : world) (Hw : mlme_ok w) (Hn : ieee80211n (iconf (ifc w)) = true)
    (Hf : ht_op_mode_fixed (iconf (ifc w)) = false) :
  exists r w', hostapd_ht_operation_update w = Ok (r, w') /\ mlme_ok w' /\
    (let m := ht_op_mode (ht (ifc w')) in
     (has m HT_OPER_OP_MODE_NON_GF_HT_STAS_PRESENT = true <-> some_sta w no_ht_gf_set) /\
     (has m HT_OPER_OP_MODE_OBSS_NON_HT_STAS_PRESENT = true <-> some_sta w no_ht_set \/ olbc_ht (ht (ifc w)) = true) /\
     let protection := Z.land m HT_OPER_OP_MODE_HT_PROT_MASK in
     let narrow := secondary_channel (ht (ifc w)) <> 0 /\ some_sta w ht_20mhz_set in
     (protection = HT_PROT_NON_HT_MIXED <-> some_sta w no_ht_set) /\
     (protection = HT_PROT_20MHZ_PROTECTION <-> ~ some_sta w no_ht_set /\ narrow) /\
     (protection = HT_PROT_NONMEMBER_PROTECTION <-> ~ some_sta w no_ht_set /\ ~ narrow /\ olbc_ht (ht (ifc w)) = true) /\
     (protection = HT_PROT_NO_PROTECTION <-> ~ some_sta w no_ht_set /\ ~ narrow /\ olbc_ht (ht (ifc w)) = false) /\
     (forall n, n = 3 \/ 4 < n -> Z.testbit m n = Z.testbit (ht_op_mode (ht (ifc w))) n) /\
     (m <> ht_op_mode (ht (ifc w)) -> 0 < r) /\
     hostapd_ht_operation_update w' = Ok (0, w')).
Proof.
  destruct (books_counts _ (mo_books _ Hw)) as (C3 & C4 & C5). destruct (ht_operation_bits (ifc w)) as (B & R & F).
  set (w' := with_mode w). exists (fst (ht_operation (ifc w))), w'. split; [now apply ht_update_run|].
  split; [now apply mlme_ok_ifc|]. cbv zeta. change (ht_op_mode (ht (ifc w'))) with (snd (ht_operation (ifc w))).
  assert (some_sta w no_ht_set <-> num_sta_no_ht (ifc w) <> 0) as Hno by (rewrite C4; symmetry; now apply (some_flag 4)).
  assert (some_sta w ht_20mhz_set <-> num_sta_ht_20mhz (ifc w) <> 0) as H20 by (rewrite C5; symmetry; now apply (some_flag 5)).
  assert (Z.land (snd (ht_operation (ifc w))) HT_OPER_OP_MODE_HT_PROT_MASK = ht_protection (ifc w)) as ->.
  { apply Z.bits_inj'. intros n Hn0. unfold HT_OPER_OP_MODE_HT_PROT_MASK. rewrite land3_bit, B by done. unfold mode_bit.
    destruct (bool_decide_reflect (n < 2)).
    - rewrite (decide_False (P := n = 2)), (decide_False (P := n = 4)), decide_True by lia. apply andb_true_r.
    - rewrite andb_false_r. symmetry. apply small_bit; [apply protection_range|lia]. }
  destruct (protection_cases (ifc w)) as (P3 & P2 & P1 & P0).
  split; [|split; [|split; [by rewrite Hno|split; [by rewrite Hno, H20|split; [by rewrite Hno, H20|split; [by rewrite Hno, H20|split; [|split]]]]]]].
  - unfold HT_OPER_OP_MODE_NON_GF_HT_STAS_PRESENT. rewrite has_bit, B by lia. unfold mode_bit. rewrite decide_True by done.
    rewrite bool_decide_eq_true, C3. now apply (some_flag 3).
  - unfold HT_OPER_OP_MODE_OBSS_NON_HT_STAS_PRESENT. rewrite has_bit, B by lia. unfold mode_bit.
    rewrite decide_False, decide_True by done. rewrite orb_true_iff, bool_decide_eq_true, Hno. done.
  - intros n Hn0. rewrite B by lia. unfold mode_bit. repeat (rewrite decide_False by lia). done.
  - intros Hne. destruct (decide (fst (ht_operation (ifc w)) = 0)) as [E|]; [|lia]. now apply F in E.
  - rewrite (ht_update_run w') by done. unfold with_mode. change (ifc w') with (upd_ht (set_ht_op_mode (snd (ht_operation (ifc w)))) (ifc w)).
    rewrite ht_operation_again. reflexivity.
Qed.

(** C22: the assignment of an AID.  A station that has one keeps it; else it gets the
    smallest AID of its BSS that is free, and -1 is returned exactly when all of 1
    to 2007 are taken.  The books are kept: the AIDs of the stations of the BSS are
    distinct and are those that the bit field marks. *)
Theorem aid_assigned (w : world) (i : nat) (b : hostapd_data) (p : positive) (s : sta_info) (Hw : mlme_ok w)
    (Hb : bss (ifc w) !! i = Some b) (Hp : p ∈ sta_list b) (Hs : heap w !! p = Some s) :
  (0 < sta_aid_ s -> hostapd_get_aid i p w = Ok (0, w)) /\
  (sta_aid_ s = 0 ->
     (hostapd_get_aid i p w = Ok (-1, w) /\
        forall a, 0 < a <= 2007 -> exists q t, q ∈ sta_list b /\ heap w !! q = Some t /\ sta_aid_ t = a) \/
     (exists a, 0 < a <= 2007 /\ hostapd_get_aid i p w = Ok (0, with_aid i p a b s w) /\ mlme_ok (with_aid i p a b s w) /\
        (forall q t, q ∈ sta_list b -> heap w !! q = Some t -> sta_aid_ t <> a) /\
        (forall c, 0 < c < a -> exists q t, q ∈ sta_list b /\ heap w !! q = Some t /\ sta_aid_ t = c))).
Proof.
  destruct (get_aid_run w i b p s Hw Hb Hs) as [H1 H2]. pose proof (mo_aids _ Hw i b Hb) as A. split; [done|].
  intros Hz. destruct (H2 Hz) as [[Ht E]|(a & Ha & Hf & Hl & E)]; [left|right].
  - split; [done|]. intros a Ha. apply (ai_taken _ _ A a); [lia|now apply Ht].
  - exists a. split; [done|]. split; [done|]. split; [now apply mlme_ok_aid|]. split.
    + intros q t Hq Ht Ea. assert (aid_taken (sta_aid b) a = true); [|congruence]. apply (ai_taken _ _ A); [lia|eauto].
    + intros c Hc. apply (ai_taken _ _ A c); [lia|now apply Hl].
Qed.

(** ** Concrete states *)

Lemma demo_taken a : 0 < a -> aid_taken (1 :: replicate 62 0) a = true <-> a = 1.
Proof.
  intros Ha. destruct (aid_split a Ha) as (k & j & -> & Hj).
  destruct (decide (k < 63)%nat) as [Hk|Hk].
  - destruct k as [|k].
    + rewrite (taken_at _ _ 1) by (done || lia).
      destruct (decide (j = 0)) as [->|Hj0]; [done|]. change 1 with (2 ^ 0). rewrite Z.pow2_bits_eqb by lia.
      destruct (Z.eqb_spec 0 j); [lia|]. split; [done|]. simpl. lia.
    + rewrite (taken_at _ _ 0) by (done || (apply (lookup_replicate_2 62); lia)). rewrite Z.bits_0. split; [done|lia].
  - unfold aid_taken. replace (Z.of_nat k * 32 + j + 1 - 1) with (j + Z.of_nat k * 32) by lia.
    rewrite Z.div_add, Z.div_small by lia. rewrite lookup_ge_None_2 by (simpl; lia). split; [done|lia].
Qed.

Lemma demo_untaken a : 0 < a -> aid_taken (replicate 63 0) a = false.
Proof.
  intros Ha. unfold aid_taken. destruct (replicate 63 0 !! _) as [x|] eqn:E; [|done].
  apply lookup_replicate in E as [-> _]. apply Z.bits_0.
Qed.

Lemma demo_mlme_ok e : mlme_ok (demo_world1 e).
Proof.
  assert (forall p s, heap (demo_world1 e) !! p = Some s -> p = 1%positive /\ s = demo_sta mac1) as Hheap.
  { intros p s Hs. change (heap (demo_world1 e)) with (<[1%positive := demo_sta mac1]> (∅ : gmap positive sta_info)) in Hs.
    apply lookup_insert_Some in Hs as [[<- <-]|[_ Hs]]; [done|now rewrite lookup_empty in Hs]. }
  split.
  - apply demo_iface_ok.
  - intros [|[|i]] b Hb; simpl in Hb; [| |discriminate]; injection Hb as <-.
    + split.
      * unfold u32. by_check.
      * intros a Ha. rewrite (demo_taken a Ha). split.
        -- intros ->. exists 1%positive, (demo_sta mac1). split; [by_check|done].
        -- intros (p & s & _ & Hs & <-). now destruct (Hheap p s Hs) as [_ ->].
      * intros p q s t _ _ Hs Ht _ _. destruct (Hheap p s Hs) as [-> _], (Hheap q t Ht) as [-> _]. done.
    + split.
      * unfold u32. by_check.
      * intros a Ha. change (sta_aid _) with (replicate 63 0). rewrite (demo_untaken a Ha). split; [done|]. intros (p & s & Hp & _). inversion Hp.
      * intros p q s t Hp. inversion Hp.
  - vm_compute. reflexivity.
  - intros p s Hs. destruct (Hheap p s Hs) as [_ ->]. apply sta_ok_zero.
  - apply demo_iconf_ok.
  - apply demo_sizes.
  - intros [|[|i]] b Hb; simpl in Hb; [| |discriminate]; injection Hb as <-; (split; [constructor|constructor|apply demo_beacon_conf]).
  - exists []. split; [exists []; exact no_aps_table|done].
Qed.

Lemma demo_ready : ready (demo_world1 silent_env).
Proof. split; [apply demo_mlme_ok|]. intros t n. discriminate. Qed.

(** The counters of the first network, none of whose stations lacks anything. *)
Lemma ht_mode_announces_witness : exists r w', hostapd_ht_operation_update (demo_world1 silent_env) = Ok (r, w') /\
  hostapd_ht_operation_update w' = Ok (0, w').
Proof.
  destruct (ht_mode_announces (demo_world1 silent_env)) as (r & w' & E & _ & _ & _ & _ & _ & _ & _ & _ & _ & E').
  - apply demo_mlme_ok.
  - reflexivity.
  - reflexivity.
  - exists r, w'. split; [exact E|exact E'].
Defined.

(** A second station comes: AID 1 is taken, it gets one of its own. *)

Lemma aid_assigned_witness : exists p (w1 : world) b s (a : Z), ap_sta_add 300 0 mac2 (demo_world1 silent_env) = Ok (Some p, w1) /\
  hostapd_get_aid 0 p w1 = Ok (0, with_aid 0 p a b s w1) /\ mlme_ok (with_aid 0 p a b s w1).
Proof.
  destruct (add_cases 300 (demo_world1 silent_env) 0 demo_bss1 mac2) as [_ Hnew].
  - apply demo_iface_ok.
  - reflexivity.
  - by_check.
  - destruct Hnew as (_ & _ & H).
    { intros p s (_ & Hs & E). change (heap _) with (<[1%positive := demo_sta mac1]> (∅ : gmap positive sta_info)) in Hs.
      apply lookup_insert_Some in Hs as [[<- <-]|[_ Hs]]; [discriminate|now rewrite lookup_empty in Hs]. }
    destruct H as (p & w1 & E & D); [by_check|discriminate|].
    destruct (ad_bss _ _ _ _ _ _ D) as (b & Eb & El & _). destruct (ad_new _ _ _ _ _ _ D) as [Hp Hs].
    destruct (aid_assigned w1 0 b p (set_last_seq_ctrl WLAN_INVALID_MGMT_SEQ (fresh_sta mac2))) as [_ H].
    + apply (mlme_ok_add (demo_world1 silent_env) w1 0 demo_bss1 mac2 p); [apply demo_mlme_ok|reflexivity|exact D].
    + rewrite Eb. reflexivity.
    + rewrite El. left.
    + exact Hs.
    + destruct H as [[_ H]|(a & _ & Ha & M & _)]; [reflexivity| |].
      * exfalso. destruct (H 5) as (q & t & Hq & Ht & Et); [lia|]. rewrite El in Hq. apply elem_of_cons in Hq as [->|Hq].
        -- rewrite Hs in Ht. injection Ht as <-. discriminate Et.
        -- apply list_elem_of_singleton in Hq as ->. assert (1%positive <> p) as Hne by (intros <-; discriminate Hp).
           destruct (face_some (heap (demo_world1 silent_env)) (heap w1) 1 (demo_sta mac1)) as (t' & Ht' & Ef);
             [now apply (ad_keep _ _ _ _ _ _ D)|reflexivity|].
           rewrite Ht in Ht'. injection Ht' as <-. destruct (face_aid _ _ Ef) as (_ & Ea & _). rewrite Et in Ea. discriminate Ea.
      * do 3 eexists. eexists. exists a. split; [exact E|]. split; [exact Ha|exact M].
Defined.
