(* ===== verification/Rc4.v ===== *)
(** * RC4: [src/crypto/rc4.c]

    hostapd makes the challenge of shared key authentication with it.  The state
    is a permutation of the bytes; the data is combined with a stream that depends
    on the key only. *)

From stdpp Require Import base list numbers.
From Stdlib Require Import ZArith Lia.
From S2P Require Import Prelude.
Local Open Scope Z_scope.

(** [S_SWAP(a, b)] *)
Definition S_SWAP (Sb : list Z) (a b : Z) : res (list Z) :=
  let! t := rd Sb a in
  let! y := rd Sb b in
  let! Sb := wr Sb a y in
  wr Sb b t.

Definition S0 : list Z := map Z.of_nat (seq 0 256).

(** One round of the setup; the state is [S], [j] and [kpos]. *)
Definition setup_round (key : list Z) (st : list Z * Z * Z) (i : Z) : res (list Z * Z * Z) :=
  let '(Sb, j, kpos) := st in
  let! s := rd Sb i in
  let! k := rd key kpos in
  let j := Z.land (uwrap 32 (j + s + k)) 0xff in
  let kpos := if bool_decide (kpos + 1 >= zlen key) then 0 else kpos + 1 in
  let! Sb := S_SWAP Sb i j in
  Ok (Sb, j, kpos).

Definition setup (key : list Z) : res (list Z) :=
  let! st := foldM (setup_round key) (S0, 0, 0) (map Z.of_nat (seq 0 256)) in Ok st.1.1.

(** [i = (i + 1) & 0xff; j = (j + S[i]) & 0xff; S_SWAP(i, j);] *)
Definition advance (st : list Z * Z * Z) : res (list Z * Z * Z) :=
  let '(Sb, i, j) := st in
  let i := Z.land (i + 1) 0xff in
  let! s := rd Sb i in
  let j := Z.land (j + s) 0xff in
  let! Sb := S_SWAP Sb i j in
  Ok (Sb, i, j).

(** [S[(S[i] + S[j]) & 0xff]] *)
Definition stream_byte (st : list Z * Z * Z) : res Z :=
  let '(Sb, i, j) := st in
  let! x := rd Sb i in
  let! y := rd Sb j in
  rd Sb (Z.land (x + y) 0xff).

Fixpoint skip_loop (n : nat) (st : list Z * Z * Z) : res (list Z * Z * Z) :=
  match n with O => Ok st | S n' => let! st := advance st in skip_loop n' st end.

Fixpoint apply_loop (data : list Z) (st : list Z * Z * Z) : res (list Z) :=
  match data with
  | [] => Ok []
  | d :: data' =>
      let! st := advance st in
      let! k := stream_byte st in
      let! out := apply_loop data' st in
      Ok (Z.lxor d k :: out)
  end.

(** The data after the call; the function itself returns 0. *)
Definition rc4_skip (key : list Z) (skip : nat) (data : list Z) : res (list Z) :=
  let! Sb := setup key in
  let! st := skip_loop skip (Sb, 0, 0) in
  apply_loop data st.

(** ** The state *)

(** A table of 256 bytes with no value twice. *)
Record table_ok (Sb : list Z) : Prop := {
  to_len : length Sb = 256%nat;
  to_bytes : Forall u8 Sb;
  to_nodup : NoDup Sb }.

Lemma table_ok_S0 : table_ok S0.
Proof. split; [reflexivity|unfold u8; by_check|by_check]. Qed.

Lemma land_ff z : 0 <= Z.land z 0xff < 256.
Proof. change 0xff with (Z.ones 8). rewrite Z.land_ones by lia. apply Z.mod_pos_bound. lia. Qed.

Lemma table_rd Sb i : table_ok Sb -> 0 <= i < 256 -> exists x, rd Sb i = Ok x /\ 0 <= x < 256.
Proof.
  intros T Hi. destruct (lookup_lt_is_Some_2 Sb (Z.to_nat i)) as [x Hx]; [rewrite (to_len _ T); lia|].
  exists x. split; [now apply rd_Some|]. apply (Forall_lookup_1 _ _ _ _ (to_bytes _ T) Hx).
Qed.

Lemma swap_perm (Sb : list Z) a b x y : Sb !! a = Some x -> Sb !! b = Some y -> <[b := x]> (<[a := y]> Sb) ≡ₚ Sb.
Proof.
  intros Ha Hb. destruct (decide (a = b)) as [->|Hne].
  - assert (x = y) as -> by congruence. rewrite list_insert_insert_eq, list_insert_id by done. done.
  - apply Permutation_inj. split; [now rewrite !length_insert|].
    exists (fun n => if decide (n = a) then b else if decide (n = b) then a else n). split.
    + intros m n. repeat case_decide; subst; congruence.
    + intros n. apply lookup_lt_Some in Ha as La. apply lookup_lt_Some in Hb as Lb. repeat case_decide; subst.
      * rewrite list_lookup_insert_ne, list_lookup_insert_eq by (done || lia). done.
      * rewrite list_lookup_insert_eq by (rewrite length_insert; lia). done.
      * rewrite !list_lookup_insert_ne by done. done.
Qed.

Lemma swap_ok Sb a b : table_ok Sb -> 0 <= a < 256 -> 0 <= b < 256 -> exists Sb', S_SWAP Sb a b = Ok Sb' /\ table_ok Sb' /\ Sb' ≡ₚ Sb.
Proof.
  intros T Ha Hb. pose proof (to_len _ T) as Hl.
  destruct (lookup_lt_is_Some_2 Sb (Z.to_nat a)) as [x Hx]; [lia|]. destruct (lookup_lt_is_Some_2 Sb (Z.to_nat b)) as [y Hy]; [lia|].
  unfold S_SWAP. rewrite (rd_Some Sb a x), (rd_Some Sb b y) by (lia || done). cbn [res_bind].
  rewrite wr_Ok by (unfold zlen; lia). cbn [res_bind]. rewrite wr_Ok by (unfold zlen; rewrite length_insert; lia).
  eexists. split; [done|]. assert (<[Z.to_nat b := x]> (<[Z.to_nat a := y]> Sb) ≡ₚ Sb) as P by now apply swap_perm.
  split; [|done]. split; [now rewrite !length_insert| |]; rewrite P; apply T.
Qed.

Definition state_ok (st : list Z * Z * Z) : Prop := table_ok st.1.1 /\ 0 <= st.1.2 < 256 /\ 0 <= st.2 < 256.

Lemma setup_ok key : Forall u8 key -> 0 < zlen key -> exists Sb, setup key = Ok Sb /\ table_ok Sb.
Proof.
  intros Hk Hl. unfold setup.
  destruct (foldM_inv (setup_round key) (fun st => table_ok st.1.1 /\ 0 <= st.1.2 < 256 /\ 0 <= st.2 < zlen key) (map Z.of_nat (seq 0 256)))
    with (b := (S0, 0, 0)) as (st & E & T & _).
  - intros [[Sb j] kpos] i (T & Hj & Hp) Hi. cbn [fst snd] in *. apply list_elem_of_fmap in Hi as (n & -> & Hn%elem_of_seq).
    unfold setup_round. destruct (table_rd Sb (Z.of_nat n) T) as (s & -> & Hs); [lia|]. cbn [res_bind].
    destruct (lookup_lt_is_Some_2 key (Z.to_nat kpos)) as [k Hkk]; [unfold zlen in Hp; lia|].
    rewrite (rd_Some _ _ k) by (lia || done). cbn [res_bind]. cbv zeta.
    destruct (swap_ok Sb (Z.of_nat n) (Z.land (uwrap 32 (j + s + k)) 0xff) T) as (Sb' & -> & T' & _); [lia|apply land_ff|].
    cbn [res_bind]. eexists. split; [done|]. cbn [fst snd]. split; [done|]. split; [apply land_ff|]. case_bool_decide; lia.
  - split; [apply table_ok_S0|]. cbn [fst snd]. lia.
  - rewrite E. eauto.
Qed.

Lemma advance_ok st : state_ok st -> exists st', advance st = Ok st' /\ state_ok st'.
Proof.
  destruct st as [[Sb i] j]. intros (T & Hi & Hj). cbn [fst snd] in *. unfold advance. cbv zeta.
  pose proof (land_ff (i + 1)). destruct (table_rd Sb (Z.land (i + 1) 0xff) T) as (s & -> & Hs); [done|]. cbn [res_bind].
  destruct (swap_ok Sb (Z.land (i + 1) 0xff) (Z.land (j + s) 0xff) T) as (Sb' & -> & T' & _); [done|apply land_ff|].
  cbn [res_bind]. eexists. split; [done|]. split; [done|]. split; [done|apply land_ff].
Qed.

Lemma stream_byte_ok st : state_ok st -> exists k, stream_byte st = Ok k /\ u8 k.
Proof.
  destruct st as [[Sb i] j]. intros (T & Hi & Hj). cbn [fst snd] in *. unfold stream_byte.
  destruct (table_rd Sb i T) as (x & -> & Hx); [done|]. destruct (table_rd Sb j T) as (y & -> & Hy); [done|]. cbn [res_bind].
  destruct (table_rd Sb (Z.land (x + y) 0xff) T) as (k & -> & Hk); [apply land_ff|]. exists k. split; [done|exact Hk].
Qed.

Lemma skip_ok n : forall st, state_ok st -> exists st', skip_loop n st = Ok st' /\ state_ok st'.
Proof.
  induction n as [|n IH]; intros st Hst; cbn [skip_loop]; [eauto|].
  destruct (advance_ok st Hst) as (st' & -> & H'). cbn [res_bind]. now apply IH.
Qed.

(** The stream from a state on. *)
Fixpoint stream (n : nat) (st : list Z * Z * Z) : res (list Z) :=
  match n with
  | O => Ok []
  | S n' => let! st := advance st in let! k := stream_byte st in let! ks := stream n' st in Ok (k :: ks)
  end.

Lemma stream_ok n : forall st, state_ok st -> exists ks, stream n st = Ok ks /\ length ks = n /\ Forall u8 ks.
Proof.
  induction n as [|n IH]; intros st Hst; cbn [stream]; [exists []; by repeat split|].
  destruct (advance_ok st Hst) as (st' & -> & H'). cbn [res_bind].
  destruct (stream_byte_ok st' H') as (k & -> & Hk). cbn [res_bind]. destruct (IH st' H') as (ks & -> & Hl & Hu). cbn [res_bind].
  exists (k :: ks). split; [done|]. split; [simpl; lia|by constructor].
Qed.

Lemma apply_stream data : forall st ks, stream (length data) st = Ok ks -> apply_loop data st = Ok (zip_with Z.lxor data ks).
Proof.
  induction data as [|d data IH]; intros st ks E; cbn [length stream apply_loop] in *; [by injection E as <-|].
  inv_bind E. rewrite E0. cbn [res_bind]. inv_bind E. rewrite E1. cbn [res_bind]. inv_bind E. injection E as <-.
  now rewrite (IH _ _ E2).
Qed.

Lemma stream_skip n m : forall st st', skip_loop n st = Ok st' ->
  forall ks, stream (n + m) st = Ok ks -> stream m st' = Ok (drop n ks).
Proof.
  induction n as [|n IH]; intros st st' E ks Hs; cbn [skip_loop Nat.add stream] in *; [injection E as <-; by rewrite drop_0|].
  inv_bind E. inv_bind Hs. inv_bind Hs. inv_bind Hs. injection Hs as <-. cbn [drop].
  apply (IH _ _ E). congruence.
Qed.

Lemma zip_lxor_twice l ks : length ks = length l -> zip_with Z.lxor (zip_with Z.lxor l ks) ks = l.
Proof.
  revert ks. induction l as [|x l IH]; intros [|k ks] Hl; try done. cbn. f_equal; [|apply IH; now injection Hl].
  now rewrite Z.lxor_assoc, Z.lxor_nilpotent, Z.lxor_0_r.
Qed.

(** The stream of a key, [n] bytes long. *)
Definition key_stream (key : list Z) (n : nat) : res (list Z) := let! Sb := setup key in stream n (Sb, 0, 0).

Lemma rc4_run key skip data : Forall u8 key -> 0 < zlen key ->
  exists ks, key_stream key (skip + length data) = Ok ks /\ length ks = (skip + length data)%nat /\ Forall u8 ks /\
    rc4_skip key skip data = Ok (zip_with Z.lxor data (drop skip ks)).
Proof.
  intros Hk Hl. destruct (setup_ok key Hk Hl) as (Sb & E & T).
  assert (state_ok (Sb, 0, 0)) as H0 by (split; [done|]; cbn; lia).
  destruct (stream_ok (skip + length data) (Sb, 0, 0) H0) as (ks & Es & Hks & Hu).
  exists ks. unfold key_stream, rc4_skip. rewrite E. cbn [res_bind]. split; [done|]. split; [done|]. split; [done|].
  destruct (skip_ok skip (Sb, 0, 0) H0) as (st' & Ek & _). rewrite Ek. cbn [res_bind]. apply apply_stream.
  now apply (stream_skip skip _ (Sb, 0, 0)).
Qed.

(** C39: [rc4_skip] returns for every key that is not empty and never leaves its
    table, and its result is the data combined with the stream of the key, from
    the byte [skip] on; so the same call on its result gives the data back, and
    skipping [n] bytes is the same as encrypting [n] bytes more in front. *)
Theorem rc4_skip_spec (key : list Z) (skip : nat) (data : list Z) (Hk : Forall u8 key) (Hl : 0 < zlen key) :
  exists out ks, rc4_skip key skip data = Ok out /\ key_stream key (skip + length data) = Ok ks /\
    out = zip_with Z.lxor data (drop skip ks) /\ length out = length data /\
    rc4_skip key skip out = Ok data /\
    forall pre, length pre = skip -> exists front, length front = skip /\ rc4_skip key 0 (pre ++ data) = Ok (front ++ out).
Proof.
  destruct (rc4_run key skip data Hk Hl) as (ks & Es & Hks & Hu & E).
  exists (zip_with Z.lxor data (drop skip ks)), ks. split; [done|]. split; [done|]. split; [done|].
  assert (length (drop skip ks) = length data) as Hd by (rewrite length_drop; lia).
  assert (length (zip_with Z.lxor data (drop skip ks)) = length data) as Ho by (rewrite length_zip_with; lia).
  split; [done|]. split.
  - destruct (rc4_run key skip (zip_with Z.lxor data (drop skip ks)) Hk Hl) as (ks' & Es' & _ & _ & E').
    rewrite Ho in Es'. assert (ks' = ks) as -> by congruence. rewrite E'. now rewrite zip_lxor_twice.
  - intros pre Hp. destruct (rc4_run key 0 (pre ++ data) Hk Hl) as (ks' & Es' & _ & _ & E').
    rewrite length_app, Hp in Es'. assert (ks' = ks) as -> by (simpl in Es'; congruence).
    rewrite E', drop_0. exists (zip_with Z.lxor pre (take skip ks)).
    split; [rewrite length_zip_with, length_take; lia|]. rewrite <- (take_drop skip ks) at 1.
    rewrite zip_with_app by (rewrite length_take; lia). done.
Qed.

Lemma rc4_skip_spec_witness : exists out, rc4_skip [75; 101; 121] 0 [80; 108; 97; 105; 110; 116; 101; 120; 116] = Ok out /\
  rc4_skip [75; 101; 121] 0 out = Ok [80; 108; 97; 105; 110; 116; 101; 120; 116].
Proof.
  destruct (rc4_skip_spec [75; 101; 121] 0 [80; 108; 97; 105; 110; 116; 101; 120; 116]) as (out & _ & E & _ & _ & _ & E' & _).
  - unfold u8. by_check.
  - reflexivity.
  - exists out. split; [exact E|exact E'].
Defined.

(** The published test vectors for the keys "Key" and "Wiki". *)
Example rc4_vector_key : rc4_skip [75; 101; 121] 0 [80; 108; 97; 105; 110; 116; 101; 120; 116]
  = Ok [0xbb; 0xf3; 0x16; 0xe8; 0xd9; 0x40; 0xaf; 0x0a; 0xd3].
Proof. vm_compute. reflexivity. Qed.
Example rc4_vector_wiki : rc4_skip [87; 105; 107; 105] 0 [112; 101; 100; 105; 97] = Ok [0x10; 0x21; 0xbf; 0x04; 0x20].
Proof. vm_compute. reflexivity. Qed.
