(* ===== verification/Acl.v ===== *)
(** * Access lists: [ap/ap_config.c] and [ap/ieee802_11_auth.c]

    The lists of accepted and denied addresses are sorted when the configuration is
    read, and searched by halving.  An entry is an address and a VLAN. *)

From stdpp Require Import base list numbers sorting.
From Stdlib Require Import ZArith Lia.
From S2P Require Import Prelude CString Dense Env World.
Local Open Scope Z_scope.

Definition HOSTAPD_ACL_REJECT : Z := 0.
Definition HOSTAPD_ACL_ACCEPT : Z := 1.
Definition ACCEPT_UNLESS_DENIED : Z := 0.
Definition DENY_UNLESS_ACCEPTED : Z := 1.
Definition USE_EXTERNAL_RADIUS_AUTH : Z := 2.
Definition VLAN_ID_WILDCARD : Z := -1.

(** [memcmp] of two objects of the same size: the first difference. *)
Fixpoint memcmp (a b : list Z) : Z :=
  match a, b with
  | x :: a', y :: b' => if bool_decide (x = y) then memcmp a' b' else x - y
  | _, _ => 0
  end.

(** The loop of [hostapd_maclist_found]: the VLAN of the entry that is found. *)
Fixpoint maclist_loop (fuel : nat) (l : list (list Z * Z)) (start end_ : Z) (addr : list Z) : res (option Z) :=
  if bool_decide (start <= end_) then
    match fuel with
    | O => Ub OutOfFuel
    | S f =>
        let middle := Z.quot (start + end_) 2 in
        let! e := rd l middle in
        let res := memcmp e.1 addr in
        if bool_decide (res = 0) then Ok (Some e.2)
        else if bool_decide (res < 0) then maclist_loop f l (middle + 1) end_ addr
        else maclist_loop f l start (middle - 1) addr
    end
  else Ok None.

Definition hostapd_maclist_found (l : list (list Z * Z)) (addr : list Z) : res (option Z) :=
  maclist_loop (length l) l 0 (zlen l - 1) addr.

Definition hostapd_vlan_id_valid (vlans : list Z) (vlan_id : Z) : bool :=
  existsb (fun v => bool_decide (v = vlan_id) || bool_decide (v = VLAN_ID_WILDCARD)) vlans.

(** [hostapd_allowed_address] of a build without RADIUS: the verdict and [*vlan_id]. *)
Definition hostapd_allowed_address (c : bss_config) (addr : list Z) : res (Z * Z) :=
  let! a := hostapd_maclist_found (accept_mac c) addr in
  match a with
  | Some v => Ok (HOSTAPD_ACL_ACCEPT, v)
  | None =>
      let! d := hostapd_maclist_found (deny_mac c) addr in
      match d with
      | Some v => Ok (HOSTAPD_ACL_REJECT, v)
      | None =>
          if bool_decide (macaddr_acl c = ACCEPT_UNLESS_DENIED) then Ok (HOSTAPD_ACL_ACCEPT, 0)
          else Ok (HOSTAPD_ACL_REJECT, 0)
      end
  end.

(** ** The order *)

Lemma memcmp_eq a b : length a = length b -> memcmp a b = 0 <-> a = b.
Proof.
  revert b. induction a as [|x a IH]; intros [|y b] Hl; simpl in *; try done.
  case_bool_decide as E; [subst y; rewrite IH by lia; split; congruence|]. split; [lia|congruence].
Qed.

Lemma memcmp_trans a b c : length a = length b -> length b = length c -> memcmp a b <= 0 -> memcmp b c < 0 -> memcmp a c < 0.
Proof.
  revert b c. induction a as [|x a IH]; intros [|y b] [|z c] Hl Hl' Hab Hbc; simpl in *; try (done || lia).
  repeat case_bool_decide; subst; try lia. apply (IH b c); lia.
Qed.

Lemma memcmp_trans' a b c : length a = length b -> length b = length c -> 0 < memcmp a b -> memcmp a c <= 0 -> 0 < memcmp c b.
Proof.
  revert b c. induction a as [|x a IH]; intros [|y b] [|z c] Hl Hl' Hab Hac; simpl in *; try (done || lia).
  repeat case_bool_decide; subst; try lia. apply (IH b c); lia.
Qed.

Definition acl_sorted (l : list (list Z * Z)) : Prop :=
  forall i j a b, (i <= j)%nat -> l !! i = Some a -> l !! j = Some b -> memcmp a.1 b.1 <= 0.

Section Search.
Context (l : list (list Z * Z)) (addr : list Z) (Hlen : Forall (fun e => length e.1 = length addr) l).

(** It returns, and what it finds is there. *)
Lemma maclist_returns fuel : forall start end_, 0 <= start -> end_ < zlen l -> end_ - start < Z.of_nat fuel ->
  exists r, maclist_loop fuel l start end_ addr = Ok r /\ forall v, r = Some v -> (addr, v) ∈ l.
Proof using Hlen.
  induction fuel as [|f IH]; intros start end_ Hs He Hf; cbn [maclist_loop]; case_bool_decide as E; try lia; try (by exists None).
  assert (start <= Z.quot (start + end_) 2 <= end_) as Hm by (rewrite Z.quot_div_nonneg by lia; Z.div_mod_to_equations; lia).
  set (middle := Z.quot (start + end_) 2) in *.
  destruct (lookup_lt_is_Some_2 l (Z.to_nat middle)) as [[a v] Ha]; [unfold zlen in He; lia|].
  rewrite (rd_Some _ _ (a, v)) by (lia || done). cbn [res_bind fst snd].
  case_bool_decide as E0.
  - exists (Some v). split; [done|]. intros v' [= <-]. apply memcmp_eq in E0 as ->; [|apply (Forall_lookup_1 _ _ _ _ Hlen Ha)].
    now apply (list_elem_of_lookup_2 _ (Z.to_nat middle)).
  - case_bool_decide; apply IH; lia.
Qed.

(** An address of the list is found. *)
Lemma maclist_finds fuel v : acl_sorted l -> forall start end_, 0 <= start -> end_ < zlen l -> end_ - start < Z.of_nat fuel ->
  (exists i, l !! i = Some (addr, v) /\ start <= Z.of_nat i <= end_) ->
  exists v', maclist_loop fuel l start end_ addr = Ok (Some v').
Proof using Hlen.
  intros Hsort. induction fuel as [|f IH]; intros start end_ Hs He Hf (i & Hi & Hr); cbn [maclist_loop]; rewrite bool_decide_eq_true_2 by lia; [lia|].
  assert (start <= Z.quot (start + end_) 2 <= end_) as Hm by (rewrite Z.quot_div_nonneg by lia; Z.div_mod_to_equations; lia).
  set (middle := Z.quot (start + end_) 2) in *.
  destruct (lookup_lt_is_Some_2 l (Z.to_nat middle)) as [[a u] Ha]; [unfold zlen in He; lia|].
  pose proof (Forall_lookup_1 _ _ _ _ Hlen Ha) as La. simpl in La.
  rewrite (rd_Some _ _ (a, u)) by (lia || done). cbn [res_bind fst snd]. case_bool_decide as E0; [eauto|].
  assert (memcmp addr addr = 0) as Hself by now apply memcmp_eq.
  case_bool_decide as E1; apply IH; try lia; exists i; (split; [done|]).
  - destruct (decide (Z.of_nat i <= middle)) as [Hle|]; [exfalso|lia].
    pose proof (Hsort i (Z.to_nat middle) _ _ ltac:(lia) Hi Ha) as Hc. simpl in Hc.
    pose proof (memcmp_trans addr a addr ltac:(done) ltac:(done) Hc E1). lia.
  - destruct (decide (middle <= Z.of_nat i)) as [Hle|]; [exfalso|lia].
    pose proof (Hsort (Z.to_nat middle) i _ _ ltac:(lia) Ha Hi) as Hc. simpl in Hc.
    pose proof (memcmp_trans' a addr addr ltac:(done) ltac:(done) ltac:(lia) Hc). lia.
Qed.
End Search.

Lemma maclist_run l addr : Forall (fun e => length e.1 = length addr) l ->
  exists r, hostapd_maclist_found l addr = Ok r /\ (forall v, r = Some v -> (addr, v) ∈ l) /\
    (acl_sorted l -> r = None -> forall v, (addr, v) ∉ l).
Proof.
  intros Hlen. destruct (maclist_returns l addr Hlen (length l) 0 (zlen l - 1)) as (r & E & Hr); [lia|lia|unfold zlen; lia|].
  exists r. split; [done|]. split; [done|]. intros Hs -> v Hin. apply list_elem_of_lookup in Hin as [i Hi].
  apply lookup_lt_Some in Hi as Hlt.
  destruct (maclist_finds l addr Hlen (length l) v Hs 0 (zlen l - 1)) as (v' & E'); [lia|lia|unfold zlen; lia| |].
  - exists i. split; [done|]. unfold zlen. lia.
  - unfold hostapd_maclist_found in E. congruence.
Qed.

(** The policy of the two lists. *)
Definition admits (c : bss_config) (addr : list Z) : Prop :=
  (exists v, (addr, v) ∈ accept_mac c) \/
  ((forall v, (addr, v) ∉ deny_mac c) /\ macaddr_acl c = ACCEPT_UNLESS_DENIED).

Lemma allowed_run c addr : Forall (fun e => length e.1 = length addr) (accept_mac c) -> Forall (fun e => length e.1 = length addr) (deny_mac c) ->
  exists r, hostapd_allowed_address c addr = Ok r /\ (r.1 = HOSTAPD_ACL_ACCEPT \/ r.1 = HOSTAPD_ACL_REJECT) /\
    (acl_sorted (accept_mac c) -> acl_sorted (deny_mac c) -> (r.1 = HOSTAPD_ACL_ACCEPT <-> admits c addr)) /\
    (r.1 = HOSTAPD_ACL_ACCEPT -> r.2 = 0 \/ (addr, r.2) ∈ accept_mac c).
Proof.
  intros Ha Hd. destruct (maclist_run _ addr Ha) as (ra & Ea & Sa & Na). destruct (maclist_run _ addr Hd) as (rd & Ed & Sd & Nd).
  unfold hostapd_allowed_address, admits. rewrite Ea. cbn [res_bind]. destruct ra as [v|].
  { exists (HOSTAPD_ACL_ACCEPT, v). split; [done|]. split; [by left|]. split; [|intros _; right; now apply Sa]. intros _ _. split; [|done].
    intros _. left. exists v. now apply Sa. }
  rewrite Ed. cbn [res_bind]. destruct rd as [v|].
  { exists (HOSTAPD_ACL_REJECT, v). split; [done|]. split; [by right|]. split; [|done]. intros Ha' Hd'. split; [done|].
    intros [[u Hu]|[Hn _]]; [now destruct (Na Ha' eq_refl u)|]. now destruct (Hn v (Sd v eq_refl)). }
  case_bool_decide as E; eexists; (split; [done|]); (split; [auto|]).
  - split; [|by left]. intros _ Hd'. split; [|done]. intros _. right. split; [now apply Nd|done].
  - split; [|done]. intros Ha' _. split; [done|]. intros [[u Hu]|[_ Hp]]; [now destruct (Na Ha' eq_refl u)|done].
Qed.

(** C40: the access lists.  The search by halving returns for every list of
    addresses, what it finds is an entry of the address, and in a sorted list it
    finds every address; so, without RADIUS, a station is admitted exactly when it
    is on the list of accepted addresses, or not on the list of denied ones and the
    policy is to accept the others. *)
Theorem allowed_address_spec (c : bss_config) (addr : list Z) (Hm : mac_ok addr)
    (Ha : Forall (fun e => mac_ok e.1) (accept_mac c)) (Hd : Forall (fun e => mac_ok e.1) (deny_mac c))
    (Hsa : acl_sorted (accept_mac c)) (Hsd : acl_sorted (deny_mac c)) :
  exists verdict vlan_id, hostapd_allowed_address c addr = Ok (verdict, vlan_id) /\
    (verdict = HOSTAPD_ACL_ACCEPT <-> admits c addr) /\ (verdict = HOSTAPD_ACL_REJECT <-> ~ admits c addr) /\
    (verdict = HOSTAPD_ACL_ACCEPT -> vlan_id = 0 \/ (addr, vlan_id) ∈ accept_mac c).
Proof.
  assert (forall l, Forall (fun e => mac_ok e.1) l -> Forall (fun e : list Z * Z => length e.1 = length addr) l) as Hl.
  { intros l H. apply (Forall_impl _ _ _ H). intros e [He _]. now rewrite He, (proj1 Hm). }
  destruct (allowed_run c addr (Hl _ Ha) (Hl _ Hd)) as ([verdict vlan_id] & E & Hv & Hp & Hvl). cbn [fst snd] in *.
  exists verdict, vlan_id. specialize (Hp Hsa Hsd). split; [done|]. split; [done|]. split; [|done].
  rewrite <- Hp. unfold HOSTAPD_ACL_ACCEPT, HOSTAPD_ACL_REJECT in *. lia.
Qed.

(** Two accepted stations, and everybody else is refused. *)
Definition demo_acl_config : bss_config :=
  {| auth_algs := 1; wpa := 0; ieee802_1x := false; osen := false; wmm_enabled := true; wmm_uapsd := false;
     rsn_preauth := false; peerkey := false; okc := false; max_listen_interval := 65535; disable_11n := false; disable_11ac := false; vendor_vht := false;
     wds_sta := false; macaddr_acl := DENY_UNLESS_ACCEPTED;
     accept_mac := [([2; 0; 0; 0; 0; 1], 7); ([2; 0; 0; 0; 0; 9], 0)]; deny_mac := []; vlan := [7]; dynamic_vlan := 0;
     security_policy := 0; wep_default_len := 0; radio_measurements := false; tdls := 0; interworking := false;
     wnm_sleep_mode := false; bss_transition := false; proxy_arp := false; time_advertisement := 0;
     qos_map_set := []; utf8_ssid := false; bcn := demo_beacon_bss |}.

Lemma demo_acl_sorted : acl_sorted (accept_mac demo_acl_config).
Proof.
  intros [|[|i]] [|[|j]] a b Hij Ha Hb; simpl in Ha, Hb; try lia; try discriminate; injection Ha as <-; injection Hb as <-; vm_compute; discriminate.
Qed.

Lemma allowed_address_spec_witness : hostapd_allowed_address demo_acl_config [2; 0; 0; 0; 0; 1] = Ok (HOSTAPD_ACL_ACCEPT, 7) /\
  admits demo_acl_config [2; 0; 0; 0; 0; 1].
Proof.
  destruct (allowed_address_spec demo_acl_config [2; 0; 0; 0; 0; 1]) as (verdict & vlan_id & E & H & _).
  - unfold mac_ok, u8. by_check.
  - unfold mac_ok, u8. by_check.
  - constructor.
  - exact demo_acl_sorted.
  - intros i j a b _ Ha. discriminate Ha.
  - assert (verdict = HOSTAPD_ACL_ACCEPT) as -> by (vm_compute in E; now injection E as <- <-). split; [reflexivity|now apply H].
Defined.
