(* ===== verification/Auth.v ===== *)
(** * Authentication: [handle_auth] of [ap/ieee802_11.c]

    An authentication frame is checked, its sender is put into the station table,
    and open system or shared key authentication is carried out; every frame that is
    not dropped is answered with a status. *)

From stdpp Require Import base list numbers gmap strings.
From Stdlib Require Import ZArith Lia.
From S2P Require Import Prelude CString Dense Env World Messages Elements Station Ht Eids Beacon Handler Stamgd Lifecycle Books Rc4 Acl.
Local Open Scope Z_scope.

Definition IEEE80211_HDRLEN : Z := 24.
Definition WLAN_AUTH_OPEN : Z := 0.
Definition WLAN_AUTH_SHARED_KEY : Z := 1.
Definition WPA_AUTH_ALG_OPEN : Z := 2 ^ 0.
Definition WPA_AUTH_ALG_SHARED : Z := 2 ^ 1.
Definition WLAN_FC_STYPE_AUTH : Z := 11.
Definition WLAN_FC_RETRY : Z := 2 ^ 11.
Definition WLAN_FC_ISWEP : Z := 2 ^ 14.
Definition WLAN_EID_CHALLENGE : Z := 16.
Definition WLAN_AUTH_CHALLENGE_LEN : Z := 128.
Definition WLAN_REASON_MICHAEL_MIC_FAILURE : Z := 14.
Definition WLAN_STATUS_NOT_SUPPORTED_AUTH_ALG : Z := 13.
Definition WLAN_STATUS_UNKNOWN_AUTH_TRANSACTION : Z := 14.
Definition WLAN_STATUS_CHALLENGE_FAIL : Z := 15.
Definition WLAN_STATUS_AP_UNABLE_TO_HANDLE_NEW_STA : Z := 17.

(** The header of a management frame. *)
Definition frame_control (mgmt : list Z) : res Z := rd_le 0 2 mgmt.
Definition da (mgmt : list Z) : res (list Z) := slice 4 6 mgmt.
Definition sa (mgmt : list Z) : res (list Z) := slice 10 6 mgmt.
Definition bssid (mgmt : list Z) : res (list Z) := slice 16 6 mgmt.
Definition seq_ctrl (mgmt : list Z) : res Z := rd_le 22 2 mgmt.

Definition auth_frame (b : hostapd_data) (dst bss : list Z) (auth_alg auth_transaction resp : Z) (ies : list Z) : list Z :=
  mgmt_header WLAN_FC_STYPE_AUTH dst (own_addr b) bss
  ++ le_bytes 2 auth_alg ++ le_bytes 2 auth_transaction ++ le_bytes 2 resp ++ ies.

Definition send_auth_reply (hapd : nat) (dst bss : list Z) (auth_alg auth_transaction resp : Z) (ies : list Z) : M world unit :=
  r <-- ext (Malloc (IEEE80211_HDRLEN + 6 + zlen ies)) ;;
  if bool_decide (r = 0) then ret tt
  else
    b <-- get_bss hapd ;;
    hostapd_drv_send_mlme (auth_frame b dst bss auth_alg auth_transaction resp ies) false ;;; ret tt.

Definition mlme_authenticate_indication (sta : positive) : M world unit :=
  s <-- get_sta sta ;;
  if bool_decide (auth_alg s <> WLAN_AUTH_FT) then hostapd "mlme_deletekeys_request" (sta_addr s) else ret tt.

(** The challenge: [rc4_skip] over 128 zeros, under a key made of the time and of a
    random number. *)
Definition new_challenge : M world (list Z) :=
  sec <-- ext (Hostapd (str "os_get_time") []) ;;
  r <-- ext (Hostapd (str "os_random") []) ;;
  lift (rc4_skip (le_bytes 4 sec ++ le_bytes 4 r) 0 (zeros WLAN_AUTH_CHALLENGE_LEN)).

Definition auth_shared_key (sta : positive) (auth_transaction : Z) (chal : option (list Z)) (iswep : bool) : M world Z :=
  s <-- get_sta sta ;;
  if bool_decide (auth_transaction = 1) then
    match challenge (mlme s) with
    | Some _ => ret 0
    | None =>
        r <-- ext (Malloc WLAN_AUTH_CHALLENGE_LEN) ;;
        if bool_decide (r = 0) then ret WLAN_STATUS_UNSPECIFIED_FAILURE
        else
          c <-- new_challenge ;;
          upd_sta sta (upd_mlme (set_challenge (Some c))) ;;;
          ret 0
    end
  else if bool_decide (auth_transaction <> 3) then ret WLAN_STATUS_UNSPECIFIED_FAILURE
  else
    match iswep, challenge (mlme s), chal with
    | true, Some c, Some c' =>
        eq <-- lift (memeq c c' WLAN_AUTH_CHALLENGE_LEN) ;;
        if eq : bool then
          upd_sta sta (set_flag WLAN_STA_AUTH) ;;;
          hostapd "wpa_auth_sm_event" (sta_addr s) ;;;
          upd_sta sta (upd_mlme (set_challenge None)) ;;;
          ret 0
        else ret WLAN_STATUS_CHALLENGE_FAIL
    | _, _, _ => ret WLAN_STATUS_CHALLENGE_FAIL
    end.

(** The challenge element of the frame, a pointer into it. *)
Definition frame_challenge (mgmt : list Z) (len : Z) : res (option (list Z)) :=
  if bool_decide (len >= IEEE80211_HDRLEN + 6 + 2 + WLAN_AUTH_CHALLENGE_LEN) then
    let! id := rd mgmt 30 in
    if bool_decide (id = WLAN_EID_CHALLENGE) then
      let! n := rd mgmt 31 in
      Ok (if bool_decide (n = WLAN_AUTH_CHALLENGE_LEN) then Some (drop 32 mgmt) else None)
    else Ok None
  else Ok None.

(** Whether the BSS has the algorithm switched on. *)
Definition alg_allowed (b : hostapd_data) (auth_alg : Z) : bool :=
  has (auth_algs (bconf b)) WPA_AUTH_ALG_OPEN && bool_decide (auth_alg = WLAN_AUTH_OPEN)
  || has (auth_algs (bconf b)) WPA_AUTH_ALG_SHARED && bool_decide (auth_alg = WLAN_AUTH_SHARED_KEY).

Definition transaction_known (auth_alg auth_transaction : Z) : bool :=
  bool_decide (auth_transaction = 1) || bool_decide (auth_alg = WLAN_AUTH_SHARED_KEY) && bool_decide (auth_transaction = 3).

(** The frame of a station that repeats itself. *)
Definition repeated (s : sta_info) (fc seq stype : Z) : bool :=
  has fc WLAN_FC_RETRY && bool_decide (last_seq_ctrl s <> WLAN_INVALID_MGMT_SEQ)
  && bool_decide (last_seq_ctrl s = seq) && bool_decide (last_subtype (mlme s) = stype).

(** The switch over the algorithm: the status, and the elements of the answer. *)
Definition auth_switch (sta : positive) (auth_alg auth_transaction : Z) (chal : option (list Z)) (iswep : bool) : M world (Z * list Z) :=
  if bool_decide (auth_alg = WLAN_AUTH_OPEN) then
    s <-- get_sta sta ;;
    upd_sta sta (set_flag WLAN_STA_AUTH) ;;;
    hostapd "wpa_auth_sm_event" (sta_addr s) ;;;
    upd_sta sta (set_auth_alg WLAN_AUTH_OPEN) ;;;
    mlme_authenticate_indication sta ;;;
    ret (WLAN_STATUS_SUCCESS, [])
  else if bool_decide (auth_alg = WLAN_AUTH_SHARED_KEY) then
    resp <-- auth_shared_key sta auth_transaction chal iswep ;;
    upd_sta sta (set_auth_alg WLAN_AUTH_SHARED_KEY) ;;;
    mlme_authenticate_indication sta ;;;
    s <-- get_sta sta ;;
    match challenge (mlme s) with
    | Some c =>
        if bool_decide (auth_transaction = 1) then
          c <-- lift (slice 0 WLAN_AUTH_CHALLENGE_LEN c) ;;
          ret (resp, [WLAN_EID_CHALLENGE; WLAN_AUTH_CHALLENGE_LEN] ++ c)
        else ret (resp, [])
    | None => ret (resp, [])
    end
  else ret (WLAN_STATUS_SUCCESS, []).

(** What is done for a station that is in the table. *)
Definition auth_station (b : hostapd_data) (sta : positive) (vlan_id fc seq auth_alg auth_transaction : Z) (chal : option (list Z))
    : M world (Z * list Z) :=
  upd_sta sta (set_last_seq_ctrl seq) ;;;
  upd_sta sta (upd_mlme (set_last_subtype WLAN_FC_STYPE_AUTH)) ;;;
  if bool_decide (vlan_id > 0) && negb (hostapd_vlan_id_valid (vlan (bconf b)) vlan_id) then ret (WLAN_STATUS_UNSPECIFIED_FAILURE, [])
  else
    (if bool_decide (vlan_id > 0) then upd_sta sta (upd_mlme (set_sta_vlan_id vlan_id)) else ret tt) ;;;
    upd_sta sta (clear_flag WLAN_STA_PREAUTH) ;;;
    s <-- get_sta sta ;;
    hostapd "ieee802_1x_notify_pre_auth" (sta_addr s) ;;;
    ap_sta_no_session_timeout sta ;;;
    auth_switch sta auth_alg auth_transaction chal (has fc WLAN_FC_ISWEP).

(** [handle_auth]; [None] is a dropped frame, else the status and the elements of
    the answer.  The access list never answers "pending" (see [Acl]). *)
Definition auth_outcome (max_inactivity : Z) (hapd : nat) (addr : list Z) (fc seq auth_alg auth_transaction : Z) (chal : option (list Z))
    : M world (option (Z * list Z)) :=
  b <-- get_bss hapd ;;
  let fail resp := ret (Some (resp, [])) in
  if tkip_countermeasures b then fail WLAN_REASON_MICHAEL_MIC_FAILURE
  else if negb (alg_allowed b auth_alg) then fail WLAN_STATUS_NOT_SUPPORTED_AUTH_ALG
  else if negb (transaction_known auth_alg auth_transaction) then fail WLAN_STATUS_UNKNOWN_AUTH_TRANSACTION
  else if bool_decide (addr = own_addr b) then fail WLAN_STATUS_UNSPECIFIED_FAILURE
  else
    r <-- lift (hostapd_allowed_address (bconf b) addr) ;;
    let '(res, vlan_id) := r in
    if bool_decide (res = HOSTAPD_ACL_REJECT) then fail WLAN_STATUS_UNSPECIFIED_FAILURE
    else
      u <-- ext (Hostapd (str "hostapd_ubus_handle_event") addr) ;;
      if bool_decide (u <> 0) then fail WLAN_STATUS_UNSPECIFIED_FAILURE
      else
        sta <-- ap_get_sta hapd addr ;;
        match sta with
        | Some p =>
            s <-- get_sta p ;;
            if repeated s fc seq WLAN_FC_STYPE_AUTH then ret None
            else o <-- auth_station b p vlan_id fc seq auth_alg auth_transaction chal ;; ret (Some o)
        | None =>
            sta <-- ap_sta_add max_inactivity hapd addr ;;
            match sta with
            | None => fail WLAN_STATUS_AP_UNABLE_TO_HANDLE_NEW_STA
            | Some p => o <-- auth_station b p vlan_id fc seq auth_alg auth_transaction chal ;; ret (Some o)
            end
        end.

Definition handle_auth (max_inactivity : Z) (hapd : nat) (mgmt : list Z) (len : Z) : M world unit :=
  if bool_decide (len < IEEE80211_HDRLEN + 6) then ret tt
  else
    auth_alg <-- lift (rd_le 24 2 mgmt) ;;
    auth_transaction <-- lift (rd_le 26 2 mgmt) ;;
    lift (rd_le 28 2 mgmt) ;;;
    fc <-- lift (frame_control mgmt) ;;
    seq <-- lift (seq_ctrl mgmt) ;;
    chal <-- lift (frame_challenge mgmt len) ;;
    addr <-- lift (sa mgmt) ;;
    o <-- auth_outcome max_inactivity hapd addr fc seq auth_alg auth_transaction chal ;;
    match o with
    | None => ret tt
    | Some (resp, ies) =>
        bss <-- lift (bssid mgmt) ;;
        send_auth_reply hapd addr bss auth_alg (uwrap 16 (auth_transaction + 1)) resp ies
    end.

(** ** It returns and keeps the books *)

(** A frame: bytes, the first [len] of which were received. *)
Record frame_ok (mgmt : list Z) (len : Z) : Prop := {
  fo_len : 0 <= len <= zlen mgmt;
  fo_bytes : Forall u8 mgmt }.

Lemma mac_in (l : list Z) off : Forall u8 l -> 0 <= off -> off + 6 <= zlen l -> exists m, slice off 6 l = Ok m /\ mac_ok m.
Proof.
  intros Hu Ho Hl. destruct (slice_in l off 6 Ho ltac:(lia) Hl) as (m & E & Hm & Hmu). exists m. split; [done|].
  split; [unfold zlen in Hm; lia|now apply Hmu].
Qed.

(** The parts of a frame that has a header. *)
Lemma header_ok mgmt len : frame_ok mgmt len -> 24 <= len ->
  (exists x, frame_control mgmt = Ok x) /\ (exists x, seq_ctrl mgmt = Ok x) /\
  (exists m, da mgmt = Ok m /\ mac_ok m) /\ (exists m, sa mgmt = Ok m /\ mac_ok m) /\ (exists m, bssid mgmt = Ok m /\ mac_ok m).
Proof.
  intros [Hl Hu] Hlen. unfold frame_control, seq_ctrl, da, sa, bssid.
  destruct (rd_le_in mgmt 0 2) as (x & -> & _); [lia..|]. destruct (rd_le_in mgmt 22 2) as (y & -> & _); [lia..|].
  repeat split; eauto; apply mac_in; (done || lia).
Qed.

Lemma frame_challenge_ok mgmt len : frame_ok mgmt len -> exists c, frame_challenge mgmt len = Ok c /\
  forall x, c = Some x -> WLAN_AUTH_CHALLENGE_LEN <= zlen x.
Proof.
  intros [Hl Hu]. assert (exists c : option (list Z), @Ok (option (list Z)) None = Ok c /\
    forall x, c = Some x -> WLAN_AUTH_CHALLENGE_LEN <= zlen x) as Hnone by (exists None; split; [done|intros x [=]]).
  unfold frame_challenge, IEEE80211_HDRLEN, WLAN_AUTH_CHALLENGE_LEN in *. case_bool_decide as E; [|exact Hnone].
  destruct (rd_in mgmt 30) as (id & -> & _); [lia|]. cbn [res_bind]. case_bool_decide; [|exact Hnone].
  destruct (rd_in mgmt 31) as (n & -> & _); [lia|]. cbn [res_bind]. case_bool_decide; [|exact Hnone].
  eexists. split; [done|]. intros x [= <-]. unfold zlen in *. rewrite length_drop. lia.
Qed.

Lemma memeq_in (a b : list Z) n : 0 <= n -> n <= zlen a -> n <= zlen b ->
  memeq a b n = Ok (bool_decide (take (Z.to_nat n) a = take (Z.to_nat n) b)).
Proof.
  intros Hn Ha Hb. unfold memeq, slice. rewrite !bool_decide_eq_true_2 by lia. cbn [res_bind].
  change (Z.to_nat 0) with 0%nat. now rewrite !drop_0.
Qed.

(** The key is 8 bytes of whatever the clock and the generator give. *)
Lemma challenge_made sec r : exists c, rc4_skip (le_bytes 4 sec ++ le_bytes 4 r) 0 (zeros WLAN_AUTH_CHALLENGE_LEN) = Ok c /\
  zlen c = 128 /\ Forall u8 c.
Proof.
  destruct (rc4_run (le_bytes 4 sec ++ le_bytes 4 r) 0 (zeros WLAN_AUTH_CHALLENGE_LEN)) as (ks & _ & Hl & Hu & E).
  - apply Forall_app. split; apply le_bytes_u8.
  - rewrite zlen_app, !zlen_le_bytes. lia.
  - eexists. split; [exact E|]. rewrite drop_0. unfold WLAN_AUTH_CHALLENGE_LEN, zeros in *. rewrite length_replicate in Hl. split.
    + unfold zlen. rewrite length_zip_with, length_replicate. lia.
    + rewrite zip_with_replicate_l by lia. apply Forall_fmap. apply (Forall_impl _ _ _ Hu). intros x Hx. exact Hx.
Qed.

Section RunsAuth.
Context (i : nat).

Lemma sta_ok_challenge c m : (forall x, c = Some x -> zlen x = 128 /\ Forall u8 x) -> sta_ok m -> sta_ok (set_challenge c m).
Proof using. intros Hc []. split; auto. Qed.

Lemma runs_challenge p c : (forall x, c = Some x -> zlen x = 128 /\ Forall u8 x) -> runs i (Some p) (Some p) (upd_sta p (upd_mlme (set_challenge c))).
Proof using. intros Hc. apply runs_upd_sta; [intros; by repeat split|]. intros s. simpl. now apply sta_ok_challenge. Qed.

Lemma runs_drv_send o frame noack : runs i o o (hostapd_drv_send_mlme frame noack).
Proof using. unfold hostapd_drv_send_mlme. runs_tac. Qed.

Lemma runs_auth_reply o dst bss a t r ies : runs i o o (send_auth_reply i dst bss a t r ies).
Proof using. unfold send_auth_reply. runs_tac. apply runs_drv_send. Qed.

Lemma runs_auth_ind p : runs i (Some p) (Some p) (mlme_authenticate_indication p).
Proof using. unfold mlme_authenticate_indication, hostapd. runs_tac. Qed.

Lemma runs_new_challenge {A} o o' (k : list Z -> M world A) : (forall c, zlen c = 128 /\ Forall u8 c -> runs i o o' (k c)) ->
  runs i o o' (bind new_challenge k).
Proof using.
  intros Hk w R T. unfold new_challenge. rewrite !bind_assoc.
  pose proof (runs_ext i o (Hostapd (str "os_get_time") [])) as H1. destruct (H1 w R T) as (sec & w1 & E1 & R1 & T1).
  rewrite (bind_Ok _ _ _ _ _ E1), bind_assoc.
  pose proof (runs_ext i o (Hostapd (str "os_random") [])) as H2. destruct (H2 w1 R1 T1) as (r & w2 & E2 & R2 & T2).
  rewrite (bind_Ok _ _ _ _ _ E2). destruct (challenge_made sec r) as (c & E & Hc).
  rewrite (bind_Ok _ _ w2 c w2) by (unfold lift; now rewrite E). now apply Hk.
Qed.

Lemma runs_shared_key p t chal iswep : (forall x, chal = Some x -> WLAN_AUTH_CHALLENGE_LEN <= zlen x) ->
  runs i (Some p) (Some p) (auth_shared_key p t chal iswep).
Proof using.
  intros Hc. unfold auth_shared_key. runs_step. destruct (bool_decide (t = 1)).
  - destruct (challenge (mlme s)); [auto with lazyas|]. runs_step. destruct (bool_decide _); [auto with lazyas|].
    apply runs_new_challenge. intros c Hc'. runs_tac. apply runs_challenge. intros x [= <-]. done.
  - destruct (bool_decide _); [auto with lazyas|]. destruct iswep; [|auto with lazyas].
    destruct (challenge (mlme s)) as [c|] eqn:Ec; [|auto with lazyas]. destruct chal as [c'|]; [|auto with lazyas].
    apply (runs_lift _ _ _ _ (fun _ => True)).
    { eexists. split; [apply memeq_in; [done|rewrite (proj1 (so_challenge _ H0 c Ec)); done|now apply Hc]|done]. }
    intros eq _. unfold hostapd. runs_tac; apply runs_challenge; intros x [=].
Qed.

Lemma runs_auth_switch p a t chal iswep : (forall x, chal = Some x -> WLAN_AUTH_CHALLENGE_LEN <= zlen x) ->
  runs i (Some p) (Some p) (auth_switch p a t chal iswep).
Proof using.
  intros Hc. unfold auth_switch, hostapd. destruct (bool_decide _); [runs_tac; apply runs_auth_ind|].
  destruct (bool_decide _); [|auto with lazyas]. eapply runs_bind; [now apply runs_shared_key|]. intros resp.
  eapply runs_bind; [auto with lazyas|]. intros _. eapply runs_bind; [apply runs_auth_ind|]. intros _. runs_step.
  destruct (challenge (mlme s)) as [c|] eqn:Ec; [|auto with lazyas]. destruct (bool_decide _); [|auto with lazyas].
  apply (runs_lift _ _ _ _ (fun _ => True)); [|auto with lazyas].
  destruct (slice_in c 0 WLAN_AUTH_CHALLENGE_LEN) as (x & E & _); [done|done|rewrite (proj1 (so_challenge _ H0 c Ec)); done|]. eauto.
Qed.

Lemma runs_auth_station b p v fc seq a t chal : (forall x, chal = Some x -> WLAN_AUTH_CHALLENGE_LEN <= zlen x) ->
  runs i (Some p) (Some p) (auth_station b p v fc seq a t chal).
Proof using.
  intros Hc. unfold auth_station, hostapd, ap_sta_no_session_timeout. runs_tac. now apply runs_auth_switch.
Qed.

Lemma acl_macs l addr : mac_ok addr -> Forall (fun e : list Z * Z => mac_ok e.1) l -> Forall (fun e => length e.1 = length addr) l.
Proof using. intros [Hm _] H. apply (Forall_impl _ _ _ H). intros e [He _]. now rewrite He, Hm. Qed.

Lemma runs_auth_outcome m addr fc seq a t chal : mac_ok addr -> (forall x, chal = Some x -> WLAN_AUTH_CHALLENGE_LEN <= zlen x) ->
  runs i None None (auth_outcome m i addr fc seq a t chal).
Proof using.
  intros Hm Hc. unfold auth_outcome. runs_step. cbv zeta. do 4 (match goal with |- runs _ _ _ (if ?x then _ else _) => destruct x end; [apply runs_ret|]).
  apply (runs_lift _ _ _ _ (fun _ => True)).
  { destruct (allowed_run (bconf b) addr) as (r & E & _); [apply acl_macs; [done|apply (bc_accept _ H0)]|apply acl_macs; [done|apply (bc_deny _ H0)]|]. eauto. }
  intros [res v] _. destruct (bool_decide _); [auto with lazyas|]. eapply runs_bind; [apply runs_ext|]. intros u.
  destruct (bool_decide _); [auto with lazyas|]. apply runs_ap_get_sta; [done|]. intros [p|].
  - runs_step. destruct (repeated _ _ _ _); [auto with lazyas|]. eapply runs_bind; [now apply runs_auth_station|]. auto with lazyas.
  - apply runs_add; [done|]. intros [p|]; [|auto with lazyas]. eapply runs_bind; [now apply runs_auth_station|]. auto with lazyas.
Qed.

Lemma runs_handle_auth m mgmt len : frame_ok mgmt len -> runs i None None (handle_auth m i mgmt len).
Proof using.
  intros Hf. unfold handle_auth, IEEE80211_HDRLEN. case_bool_decide as El; [auto with lazyas|].
  pose proof (proj1 (fo_len _ _ Hf)) as H0. pose proof (proj2 (fo_len _ _ Hf)) as H1.
  destruct (header_ok mgmt len Hf) as ((fc & Efc) & (seq & Eseq) & _ & (addr & Ea & Hm) & (bs & Eb & _)); [lia|].
  do 3 (apply (runs_lift _ _ _ _ (fun _ => True)); [edestruct (rd_le_in mgmt) as (x & E & _); [..|exists x; split; [exact E|done]]; lia|intros ? _]).
  apply (runs_lift _ _ _ _ (fun _ => True)); [eauto|]. intros ? _. apply (runs_lift _ _ _ _ (fun _ => True)); [eauto|]. intros ? _.
  eapply runs_lift; [apply (frame_challenge_ok mgmt len Hf)|]. intros chal Hc. cbv beta in Hc.
  apply (runs_lift _ _ _ _ mac_ok); [eauto|]. intros ad Had.
  eapply runs_bind; [now apply runs_auth_outcome|]. intros [[resp ies]|]; [|auto with lazyas].
  apply (runs_lift _ _ _ _ (fun _ => True)); [eauto|]. intros ? _. apply runs_auth_reply.
Qed.
End RunsAuth.

(** ** What a frame does *)

(** The station gives the challenge back, encrypted on the air. *)
Definition answers (s : sta_info) (chal : option (list Z)) (iswep : bool) : bool :=
  iswep && match challenge (mlme s), chal with
           | Some c, Some c' => bool_decide (take 128 c = take 128 c')
           | _, _ => false
           end.

Definition vlan_ok (b : hostapd_data) (v : Z) : bool := negb (bool_decide (v > 0)) || hostapd_vlan_id_valid (vlan (bconf b)) v.

(** What makes a station authenticated. *)
Definition auth_granted (b : hostapd_data) (s : sta_info) (v fc auth_alg t : Z) (chal : option (list Z)) : bool :=
  vlan_ok b v && (bool_decide (auth_alg = WLAN_AUTH_OPEN)
    || bool_decide (auth_alg = WLAN_AUTH_SHARED_KEY) && bool_decide (t = 3) && answers s chal (has fc WLAN_FC_ISWEP)).

Definition authenticated (s : sta_info) : bool := has (sta_flags s) WLAN_STA_AUTH.

(** The entry and the answer after [auth_station]. *)
Record auth_done (b : hostapd_data) (s : sta_info) (v fc auth_alg t : Z) (chal : option (list Z)) (o : Z * list Z) (s' : sta_info) : Prop := {
  ad_addr : sta_addr s' = sta_addr s;
  ad_auth : authenticated s' = authenticated s || auth_granted b s v fc auth_alg t chal;
  ad_resp : o.1 = 0 <-> auth_granted b s v fc auth_alg t chal = true \/
              (vlan_ok b v = true /\ auth_alg = WLAN_AUTH_SHARED_KEY /\ t = 1);
  ad_chal : vlan_ok b v = true -> auth_alg = WLAN_AUTH_SHARED_KEY -> t = 1 ->
              exists c, challenge (mlme s') = Some c /\ zlen c = 128 /\
                o.2 = [WLAN_EID_CHALLENGE; WLAN_AUTH_CHALLENGE_LEN] ++ c /\
                forall c0, challenge (mlme s) = Some c0 -> c0 = c }.

Section AuthDone.
Context (p : positive) (w : world).

Lemma auth_set s : authenticated (set_flag WLAN_STA_AUTH s) = true.
Proof using. unfold authenticated, set_flag, WLAN_STA_AUTH. cbn [sta_flags set_sta_flags]. rewrite has_set by lia. apply orb_true_r. Qed.

Lemma auth_preauth s : authenticated (clear_flag WLAN_STA_PREAUTH s) = authenticated s.
Proof using.
  unfold authenticated, clear_flag, WLAN_STA_AUTH, WLAN_STA_PREAUTH. cbn [sta_flags set_sta_flags].
  rewrite has_clear by lia. apply andb_true_r.
Qed.

Lemma auth_ind_sr s (Q : unit -> sta_info -> list call -> Prop) : (forall cs, Q tt s cs) -> sta_run p w (mlme_authenticate_indication p) s Q.
Proof using. intros HQ. unfold mlme_authenticate_indication, hostapd. sr_tac. case_bool_decide; sr_tac; apply HQ. Qed.

(** Shared key: the first transaction makes a challenge, or keeps the one that is
    there; the third one compares. *)
Lemma shared_one_sr s chal iswep : sta_ok (mlme s) ->
  sta_run p w (auth_shared_key p 1 chal iswep) s (fun r s' _ => r = 0 /\ sta_addr s' = sta_addr s /\ sta_flags s' = sta_flags s /\
    exists c, challenge (mlme s') = Some c /\ zlen c = 128 /\ forall c0, challenge (mlme s) = Some c0 -> c0 = c).
Proof using.
  intros Hs. unfold auth_shared_key. sr_step. sr_step. rewrite bool_decide_eq_true_2 by done.
  destruct (challenge (mlme s)) as [c|] eqn:Ec.
  - sr_step. repeat (split; [done|]). exists c. split; [done|]. split; [apply (so_challenge _ Hs c Ec)|congruence].
  - sr_step. sr_step. rewrite bool_decide_eq_false_2 by done. sr_step. unfold new_challenge. do 4 sr_step.
    destruct (challenge_made r0 r1) as (c & E & Hl & _). eapply sr_lift; [exact E|]. sr_tac.
    repeat (split; [done|]). exists c. split; [done|]. split; [done|]. intros c0 [=].
Qed.

Lemma shared_three_sr s chal iswep : sta_ok (mlme s) -> (forall x, chal = Some x -> WLAN_AUTH_CHALLENGE_LEN <= zlen x) ->
  sta_run p w (auth_shared_key p 3 chal iswep) s (fun r s' _ => sta_addr s' = sta_addr s /\
    (r = 0 <-> answers s chal iswep = true) /\ authenticated s' = authenticated s || answers s chal iswep).
Proof using.
  intros Hs Hc. unfold auth_shared_key, answers. sr_step. sr_step. rewrite bool_decide_eq_false_2, bool_decide_eq_false_2 by (done || (intros Hx; now apply Hx)).
  assert ((WLAN_STATUS_CHALLENGE_FAIL = 0 <-> false = true) /\ authenticated s = authenticated s || false) as Hno.
  { split; [split; intros [=]|now rewrite orb_false_r]. }
  destruct iswep; [|sr_step; split; [done|exact Hno]].
  destruct (challenge (mlme s)) as [c|] eqn:Ec; [|sr_step; split; [done|exact Hno]].
  destruct chal as [c'|]; [|sr_step; split; [done|exact Hno]]. sr_step.
  eapply sr_lift; [apply memeq_in; [done|rewrite (proj1 (so_challenge _ Hs c Ec)); done|now apply Hc]|].
  change (Z.to_nat WLAN_AUTH_CHALLENGE_LEN) with 128%nat. cbn [andb]. case_bool_decide as E.
  - unfold hostapd. sr_tac. split; [done|]. split; [done|]. rewrite orb_true_r. apply auth_set.
  - sr_step. split; [done|exact Hno].
Qed.

Lemma auth_station_sr b s v fc seq a t chal : sta_ok (mlme s) -> (forall x, chal = Some x -> WLAN_AUTH_CHALLENGE_LEN <= zlen x) ->
  a = WLAN_AUTH_OPEN /\ t = 1 \/ a = WLAN_AUTH_SHARED_KEY /\ (t = 1 \/ t = 3) ->
  sta_run p w (auth_station b p v fc seq a t chal) s (fun o s' _ => auth_done b s v fc a t chal o s').
Proof using.
  intros Hs Hc Hat. unfold auth_station. sr_step. sr_step. sr_step. sr_step.
  set (s1 := upd_mlme _ _). assert (sta_ok (mlme s1)) as Hs1 by (destruct Hs; now split).
  destruct (bool_decide (v > 0) && negb (hostapd_vlan_id_valid (vlan (bconf b)) v)) eqn:Ev.
  { sr_step. assert (vlan_ok b v = false) as Hv.
    { unfold vlan_ok. apply andb_true_iff in Ev as [-> ->%negb_true_iff]. done. }
    split; cbn [fst snd]; unfold auth_granted; rewrite ?Hv; [done|now rewrite orb_false_r| |done].
    unfold WLAN_STATUS_UNSPECIFIED_FAILURE. split; [done|]. intros [|[? _]]; done. }
  assert (vlan_ok b v = true) as Hv.
  { unfold vlan_ok. destruct (bool_decide (v > 0)); [|done]. simpl in *. now apply negb_false_iff in Ev. }
  sr_step. eapply (sr_weaken p w _ s1 (fun _ s2 _ => sta_ok (mlme s2) /\ sta_addr s2 = sta_addr s /\
    authenticated s2 = authenticated s /\ challenge (mlme s2) = challenge (mlme s))).
  2: { destruct (bool_decide (v > 0)); sr_tac; (split; [destruct Hs1; now split|done]). }
  intros [] s2 _ (Hs2 & Ea & Eu & Ec). do 4 sr_step. unfold hostapd. do 3 sr_step.
  unfold ap_sta_no_session_timeout. do 3 sr_step. set (s3 := clear_flag _ s2).
  assert (sta_ok (mlme s3)) as Hs3 by exact Hs2.
  assert (authenticated s3 = authenticated s) as Eu3 by (unfold s3; now rewrite auth_preauth).
  assert (forall iswep, answers s3 chal iswep = answers s chal iswep) as Ean by (intros; unfold answers; cbn [s3 clear_flag set_sta_flags mlme]; now rewrite Ec).
  unfold auth_switch. destruct Hat as [[-> ->]|[-> Ht]].
  - rewrite bool_decide_eq_true_2 by done. unfold hostapd. do 9 sr_step. apply auth_ind_sr. intros _. sr_step.
    unfold set_auth_alg. split; cbn [fst snd]; unfold auth_granted; rewrite ?Hv.
    + exact Ea.
    + rewrite orb_true_r. apply (auth_set s3).
    + split; [by left|done].
    + intros _ [=].
  - rewrite bool_decide_eq_false_2, bool_decide_eq_true_2 by done. sr_step.
    destruct Ht as [-> | ->].
    + eapply sr_weaken; [|now apply shared_one_sr]. intros r s4 _ (-> & Ea4 & Ef4 & c & E4 & Hl4 & Hk4).
      do 3 sr_step. apply auth_ind_sr. intros _. do 2 sr_step. cbn [mlme set_auth_alg]. rewrite E4.
      rewrite bool_decide_eq_true_2 by done. sr_step. eapply (sr_lift _ _ _ c).
      { unfold slice. rewrite bool_decide_eq_true_2 by (unfold WLAN_AUTH_CHALLENGE_LEN; lia). change (Z.to_nat 0) with 0%nat.
        rewrite drop_0, take_ge; [done|]. unfold zlen, WLAN_AUTH_CHALLENGE_LEN in *. lia. }
      sr_step. split; cbn [fst snd]; unfold auth_granted; rewrite ?Hv; cbn [andb orb].
      * exact (eq_trans Ea4 Ea).
      * rewrite andb_false_r, orb_false_r by done. unfold authenticated in *. cbn [sta_flags set_auth_alg]. now rewrite Ef4.
      * split; [by right|done].
      * intros _ _ _. exists c. cbn [mlme set_auth_alg]. do 3 (split; [done|]). intros c0 E0. apply Hk4. cbn [s3 clear_flag set_sta_flags mlme]. congruence.
    + eapply sr_weaken; [|now apply shared_three_sr]. intros r s4 _ (Ea4 & Er4 & Eu4).
      do 3 sr_step. apply auth_ind_sr. intros _. do 2 sr_step. cbn [mlme set_auth_alg].
      assert (auth_granted b s v fc WLAN_AUTH_SHARED_KEY 3 chal = answers s chal (has fc WLAN_FC_ISWEP)) as Eg by (unfold auth_granted; now rewrite Hv).
      assert (auth_done b s v fc WLAN_AUTH_SHARED_KEY 3 chal (r, []) (set_auth_alg WLAN_AUTH_SHARED_KEY s4)) as Hd.
      { split; rewrite ?Eg; cbn [fst snd].
        - exact (eq_trans Ea4 Ea).
        - unfold authenticated in *. cbn [sta_flags set_auth_alg]. now rewrite Eu4, Eu3, Ean.
        - rewrite Er4, Ean. split; [by left|]. intros [|(_ & _ & [=])]; done.
        - intros _ _ [=]. }
      destruct (challenge (mlme s4)); [rewrite bool_decide_eq_false_2 by done|]; sr_step; exact Hd.
Qed.
End AuthDone.

(** ** The whole of [handle_auth] *)

(** The fields of an authentication frame. *)
Record auth_request (mgmt : list Z) (len : Z) (addr bss : list Z) (fc seq a t : Z) (chal : option (list Z)) : Prop := {
  ar_len : 30 <= len;
  ar_alg : rd_le 24 2 mgmt = Ok a;
  ar_tran : rd_le 26 2 mgmt = Ok t;
  ar_fc : frame_control mgmt = Ok fc;
  ar_seq : seq_ctrl mgmt = Ok seq;
  ar_chal : frame_challenge mgmt len = Ok chal;
  ar_sa : sa mgmt = Ok addr;
  ar_bss : bssid mgmt = Ok bss }.

(** The first reason to refuse a frame, in the order of the tests: countermeasures, an
    algorithm that the BSS has not switched on, an unknown transaction, the BSS's own
    address, an address that the access list rejects. *)
Definition auth_refusal (b : hostapd_data) (addr : list Z) (a t acl : Z) : option Z :=
  if tkip_countermeasures b then Some WLAN_REASON_MICHAEL_MIC_FAILURE
  else if negb (alg_allowed b a) then Some WLAN_STATUS_NOT_SUPPORTED_AUTH_ALG
  else if negb (transaction_known a t) then Some WLAN_STATUS_UNKNOWN_AUTH_TRANSACTION
  else if bool_decide (addr = own_addr b) || bool_decide (acl = HOSTAPD_ACL_REJECT) then Some WLAN_STATUS_UNSPECIFIED_FAILURE
  else None.

Lemma auth_reply_run w i b dst bs a t r ies : driver_ops (ifc w) = true -> (forall k n, onum (wenv w) k (Malloc n) <> 0) ->
  bss (ifc w) !! i = Some b -> send_auth_reply i dst bs a t r ies w
  = Ok (tt, with_log [Malloc (IEEE80211_HDRLEN + 6 + zlen ies); DrvSendMlme (auth_frame b dst bs a t r ies) false] w).
Proof.
  intros Hd Hm Hb. unfold send_auth_reply. rewrite (bind_Ok _ _ _ _ _ (ext_log _ _)). rewrite bool_decide_eq_false_2 by apply Hm.
  set (w1 := with_log _ w). rewrite (bind_Ok _ _ w1 b w1) by (now apply get_bss_run).
  unfold hostapd_drv_send_mlme. rewrite bind_assoc, (bind_Ok _ _ w1 w1 w1) by done.
  change (driver_ops (ifc w1)) with (driver_ops (ifc w)). now rewrite Hd.
Qed.

Lemma handle_auth_run m w i mgmt len addr bs fc seq a t chal o w1 : frame_ok mgmt len -> auth_request mgmt len addr bs fc seq a t chal ->
  auth_outcome m i addr fc seq a t chal w = Ok (o, w1) ->
  handle_auth m i mgmt len w =
  match o with
  | None => Ok (tt, w1)
  | Some (resp, ies) => send_auth_reply i addr bs a (uwrap 16 (t + 1)) resp ies w1
  end.
Proof.
  intros [Hl Hu] [] E. unfold handle_auth, IEEE80211_HDRLEN. rewrite bool_decide_eq_false_2 by lia.
  rewrite (bind_Ok _ _ w a w) by (unfold lift; now rewrite ar_alg0). rewrite (bind_Ok _ _ w t w) by (unfold lift; now rewrite ar_tran0).
  destruct (rd_le_in mgmt 28 2) as (st & Es & _); [lia..|]. rewrite (bind_Ok _ _ w st w) by (unfold lift; now rewrite Es).
  rewrite (bind_Ok _ _ w fc w) by (unfold lift; now rewrite ar_fc0). rewrite (bind_Ok _ _ w seq w) by (unfold lift; now rewrite ar_seq0).
  rewrite (bind_Ok _ _ w chal w) by (unfold lift; now rewrite ar_chal0). rewrite (bind_Ok _ _ w addr w) by (unfold lift; now rewrite ar_sa0).
  rewrite (bind_Ok _ _ _ _ _ E). destruct o as [[resp ies]|]; [|done]. now rewrite (bind_Ok _ _ w1 bs w1) by (unfold lift; now rewrite ar_bss0).
Qed.

Definition ubus_asked (addr : list Z) : call := Hostapd (str "hostapd_ubus_handle_event") addr.

Lemma silent_auth_station b p v fc seq a t chal : silent (auth_station b p v fc seq a t chal).
Proof. unfold auth_station, ap_sta_no_session_timeout, auth_switch, auth_shared_key, new_challenge, mlme_authenticate_indication, hostapd. silent_tac. Qed.

(** What happens to the entry [s] at [p], from [w1] on: it is handled, one frame is
    sent, nobody is disconnected, and no other entry changes. *)
Definition auth_served (m : Z) (w w1 : world) (i : nat) (b : hostapd_data) (mgmt : list Z) (len : Z) (addr bs : list Z) (fc a t v : Z)
    (chal : option (list Z)) (p : positive) (s : sta_info) : Prop :=
  exists s' cs resp ies, let answer := DrvSendMlme (auth_frame b addr bs a (uwrap 16 (t + 1)) resp ies) false in
    let w' := at_sta p s' (logged_all (cs ++ [answer]) (wenv w1)) w1 in
    handle_auth m i mgmt len w = Ok (tt, w') /\ frames w' = frames w1 ++ [answer] /\ auth_done b s v fc a t chal (resp, ies) s'.

Lemma known_requests b addr a t acl : auth_refusal b addr a t acl = None ->
  a = WLAN_AUTH_OPEN /\ t = 1 \/ a = WLAN_AUTH_SHARED_KEY /\ (t = 1 \/ t = 3).
Proof.
  unfold auth_refusal. destruct (tkip_countermeasures b); [done|]. destruct (alg_allowed b a) eqn:Eal; [|done]. destruct (transaction_known a t) eqn:Etr; [|done]. intros _.
  unfold alg_allowed in Eal. unfold transaction_known in Etr.
  apply orb_true_iff in Eal as [[_ ->%bool_decide_eq_true]%andb_true_iff|[_ ->%bool_decide_eq_true]%andb_true_iff];
  apply orb_true_iff in Etr as [->%bool_decide_eq_true|[Ea'%bool_decide_eq_true ->%bool_decide_eq_true]%andb_true_iff]; auto.
Qed.

Section AuthCases.
Context (m : Z) (w : world) (i : nat) (b : hostapd_data) (mgmt : list Z) (len : Z) (addr bs : list Z) (fc seq a t : Z) (chal : option (list Z)).
Context (Hw : ready w) (Hb : bss (ifc w) !! i = Some b) (Hf : frame_ok mgmt len) (Hr : auth_request mgmt len addr bs fc seq a t chal).
Context (Hm : mac_ok addr) (Hc : forall x, chal = Some x -> WLAN_AUTH_CHALLENGE_LEN <= zlen x).
Context (acl v : Z) (Eacl : hostapd_allowed_address (bconf b) addr = Ok (acl, v)).

Definition refusal_sent (r : Z) : list call :=
  [Malloc (IEEE80211_HDRLEN + 6); DrvSendMlme (auth_frame b addr bs a (uwrap 16 (t + 1)) r []) false].

(** A status is sent. *)
Lemma auth_refused w1 r : auth_outcome m i addr fc seq a t chal w = Ok (Some (r, []), w1) -> driver_ops (ifc w1) = true ->
  (forall k n, onum (wenv w1) k (Malloc n) <> 0) -> bss (ifc w1) !! i = Some b ->
  handle_auth m i mgmt len w = Ok (tt, with_log (refusal_sent r) w1).
Proof using Hf Hr.
  intros E Hd Hmem Hb1. rewrite (handle_auth_run _ _ _ _ _ _ _ _ _ _ _ _ _ _ Hf Hr E). apply auth_reply_run; done.
Qed.

Lemma refusal_run r : auth_refusal b addr a t acl = Some r -> auth_outcome m i addr fc seq a t chal w = Ok (Some (r, []), w).
Proof using Hb Eacl.
  intros Er. unfold auth_outcome. rewrite (bind_Ok _ _ _ _ _ (get_bss_run _ _ _ Hb)). cbv zeta. unfold auth_refusal in Er.
  destruct (tkip_countermeasures b); [by injection Er as <-|]. destruct (negb (alg_allowed b a)); [by injection Er as <-|].
  destruct (negb (transaction_known a t)); [by injection Er as <-|]. destruct (bool_decide (addr = own_addr b)); [by injection Er as <-|].
  rewrite (bind_Ok _ _ w (acl, v) w) by (unfold lift; now rewrite Eacl). cbn [orb] in Er. destruct (bool_decide (acl = _)); [by injection Er as <-|discriminate Er].
Qed.

Lemma asked_run : auth_refusal b addr a t acl = None -> auth_outcome m i addr fc seq a t chal w =
  (if bool_decide (onum (wenv w) (length (trace (wenv w))) (ubus_asked addr) <> 0) then ret (Some (WLAN_STATUS_UNSPECIFIED_FAILURE, []))
   else
     sta <-- ap_get_sta i addr ;;
     match sta with
     | Some p =>
         s <-- get_sta p ;;
         if repeated s fc seq WLAN_FC_STYPE_AUTH then ret None
         else o <-- auth_station b p v fc seq a t chal ;; ret (Some o)
     | None =>
         sta <-- ap_sta_add m i addr ;;
         match sta with
         | None => ret (Some (WLAN_STATUS_AP_UNABLE_TO_HANDLE_NEW_STA, []))
         | Some p => o <-- auth_station b p v fc seq a t chal ;; ret (Some o)
         end
     end) (with_log [ubus_asked addr] w).
Proof using Hb Eacl.
  intros Er. unfold auth_outcome. rewrite (bind_Ok _ _ _ _ _ (get_bss_run _ _ _ Hb)). cbv zeta. unfold auth_refusal in Er.
  destruct (tkip_countermeasures b); [discriminate Er|]. destruct (negb (alg_allowed b a)); [discriminate Er|].
  destruct (negb (transaction_known a t)); [discriminate Er|]. destruct (bool_decide (addr = own_addr b)); [discriminate Er|].
  rewrite (bind_Ok _ _ w (acl, v) w) by (unfold lift; now rewrite Eacl). cbn [orb] in Er. destruct (bool_decide (acl = _)); [discriminate Er|].
  now rewrite (bind_Ok _ _ _ _ _ (ext_log _ _)).
Qed.

(** The entry is handled. *)
Lemma served_run w1 b1 p s : (forall o w2, auth_station b p v fc seq a t chal w1 = Ok (o, w2) -> auth_outcome m i addr fc seq a t chal w = Ok (Some o, w2)) ->
  auth_refusal b addr a t acl = None -> driver_ops (ifc w1) = true -> (forall k n, onum (wenv w1) k (Malloc n) <> 0) ->
  bss (ifc w1) !! i = Some b1 -> own_addr b1 = own_addr b -> heap w1 !! p = Some s -> sta_ok (mlme s) ->
  auth_served m w w1 i b mgmt len addr bs fc a t v chal p s.
Proof using Hf Hr Hc.
  intros Hgo Er Hd Hmem Hb1 Eo Hs Hok.
  destruct (sr_start p w1 _ s _ (auth_station_sr p w1 b s v fc seq a t chal Hok Hc (known_requests _ _ _ _ _ Er)) Hs Hmem) as ([resp ies] & s' & cs & E & D).
  set (w2 := at_sta p s' (logged_all cs (wenv w1)) w1) in E. pose proof (silent_auth_station b p v fc seq a t chal _ _ _ E) as Ef.
  assert (handle_auth m i mgmt len w = Ok (tt, with_log [Malloc (IEEE80211_HDRLEN + 6 + zlen ies); DrvSendMlme (auth_frame b addr bs a (uwrap 16 (t + 1)) resp ies) false] w2)) as Eh.
  { rewrite (handle_auth_run _ _ _ _ _ _ _ _ _ _ _ _ _ _ Hf Hr (Hgo _ _ E)).
    rewrite (auth_reply_run w2 i b1) by (done || (intros; simpl; rewrite logged_all_onum; apply Hmem)). unfold auth_frame. now rewrite Eo. }
  exists s', (cs ++ [Malloc (IEEE80211_HDRLEN + 6 + zlen ies)]), resp, ies. cbv zeta.
  assert (at_sta p s' (logged_all ((cs ++ [Malloc (IEEE80211_HDRLEN + 6 + zlen ies)]) ++ [DrvSendMlme (auth_frame b addr bs a (uwrap 16 (t + 1)) resp ies) false]) (wenv w1)) w1
    = with_log [Malloc (IEEE80211_HDRLEN + 6 + zlen ies); DrvSendMlme (auth_frame b addr bs a (uwrap 16 (t + 1)) resp ies) false] w2) as ->.
  { unfold w2, with_log, at_sta. cbn [wenv put_env world_has_env]. rewrite <- !app_assoc, (logged_all_app cs). done. }
  split; [exact Eh|]. split; [|exact D]. now rewrite frames_log, Ef.
Qed.
End AuthCases.

(** C9: an authentication frame with its three fixed fields, case by case.  A frame that the BSS does not offer to
    answer, or whose sender it does not admit, is refused with the status of the first
    test that fails, and nothing else happens; else it is refused when ubus says so.
    Else, if the sender has an entry, a repeated frame is dropped without an answer -
    no other frame is -, and if it has none and the table is full it is refused.
    Every other frame is served, for the entry that is there or for one that
    [ap_sta_add] makes: one answer is sent, and nothing but the entry changes.  The
    entry then is authenticated exactly when it was before, or the frame asks for an
    open system, or it is the third of a shared key exchange, was encrypted, and
    carries the challenge of the entry; and the answer has the status 0 exactly then,
    or when it carries a challenge.  A challenge that was sent stays the same until
    it is answered. *)
Theorem handle_auth_spec (m : Z) (w : world) (i : nat) (b : hostapd_data) (mgmt : list Z) (len : Z)
    (addr bs : list Z) (fc seq a t : Z) (chal : option (list Z)) (Hw : ready w) (Hb : bss (ifc w) !! i = Some b)
    (Hf : frame_ok mgmt len) (Hr : auth_request mgmt len addr bs fc seq a t chal) :
  let asked := ubus_asked addr in
  let w0 := with_log [asked] w in
  let refused r w1 := handle_auth m i mgmt len w = Ok (tt, with_log (refusal_sent b addr bs a t r) w1) in
  exists acl v, hostapd_allowed_address (bconf b) addr = Ok (acl, v) /\
    match auth_refusal b addr a t acl with
    | Some r => refused r w
    | None =>
        (onum (wenv w) (length (trace (wenv w))) asked <> 0 -> refused WLAN_STATUS_UNSPECIFIED_FAILURE w0) /\
        (onum (wenv w) (length (trace (wenv w))) asked = 0 ->
           (forall p s, sta_at w b addr p s ->
              (repeated s fc seq WLAN_FC_STYPE_AUTH = true -> handle_auth m i mgmt len w = Ok (tt, w0)) /\
              (repeated s fc seq WLAN_FC_STYPE_AUTH = false -> auth_served m w w0 i b mgmt len addr bs fc a t v chal p s)) /\
           ((forall p s, ~ sta_at w b addr p s) ->
              (max_num_sta b <= num_sta b -> refused WLAN_STATUS_AP_UNABLE_TO_HANDLE_NEW_STA w0) /\
              (num_sta b < max_num_sta b -> exists p s w1, ap_sta_add m i addr w0 = Ok (Some p, w1) /\ heap w1 !! p = Some s /\
                 authenticated s = false /\ challenge (mlme s) = None /\ auth_served m w w1 i b mgmt len addr bs fc a t v chal p s)))
    end.
Proof.
  cbv zeta. destruct (header_ok mgmt len Hf) as (_ & _ & _ & (addr' & Ea & Hm) & _); [pose proof (ar_len _ _ _ _ _ _ _ _ _ Hr); lia|].
  assert (addr' = addr) as -> by (pose proof (ar_sa _ _ _ _ _ _ _ _ _ Hr); congruence).
  destruct (frame_challenge_ok mgmt len Hf) as (c & Ec & Hc).
  assert (c = chal) as -> by (pose proof (ar_chal _ _ _ _ _ _ _ _ _ Hr); congruence).
  pose proof Hw as [Mw Hmem]. pose proof (mo_iface _ Mw) as I. pose proof (io_ops _ I) as Hd. pose proof (mo_bconf _ Mw i b Hb) as Bc.
  destruct (allowed_run (bconf b) addr) as ([acl v] & Eacl & _); [apply acl_macs; [done|apply Bc]|apply acl_macs; [done|apply Bc]|].
  exists acl, v. split; [done|]. destruct (auth_refusal b addr a t acl) as [r|] eqn:Er.
  { apply (auth_refused m w i b mgmt len addr bs fc seq a t chal Hf Hr); try done. now apply (refusal_run m w i b addr fc seq a t chal Hb acl v). }
  pose proof (asked_run m w i b addr fc seq a t chal Hb acl v Eacl Er) as Eo. set (w0 := with_log [ubus_asked addr] w) in *.
  pose proof (iface_ok_quiet w w0 (quiet_log [ubus_asked addr] w) I) as I0. assert (bss (ifc w0) !! i = Some b) as Hb0 by done.
  destruct (io_bss _ I0 i b Hb0) as [Hok0 _]. assert (forall k n, onum (wenv w0) k (Malloc n) <> 0) as Hmem0 by exact Hmem.
  split; intros Hu.
  { apply (auth_refused m w i b mgmt len addr bs fc seq a t chal Hf Hr); try done. rewrite Eo. now rewrite bool_decide_eq_true_2. }
  rewrite bool_decide_eq_false_2 in Eo by (intros Hne; by apply Hne).
  destruct (ap_get_sta_spec w0 i b addr Hb0 Hok0 Hm) as (r & Eg & Hg). rewrite (bind_Ok _ _ _ _ _ Eg) in Eo. split.
  - intros p s Hp. assert (r = Some p) as -> by (apply Hg; by exists s). destruct Hp as (Hpl & Hs & Hsa).
    rewrite (bind_Ok _ _ _ _ _ (get_sta_run w0 p s Hs)) in Eo. split; intros Hrep; rewrite Hrep in Eo.
    + now rewrite (handle_auth_run _ _ _ _ _ _ _ _ _ _ _ _ _ _ Hf Hr Eo).
    + apply (served_run m w i b mgmt len addr bs fc seq a t chal Hf Hr Hc acl v w0 b); try done; [|exact (mo_sta _ Mw p s Hs)].
      intros o w2 E. rewrite Eo. now rewrite (bind_Ok _ _ _ _ _ E).
  - intros Hnew. assert (r = None) as -> by (destruct r as [q|]; [destruct (proj1 (Hg q) eq_refl) as [u Hq]; by destruct (Hnew q u)|done]).
    destruct (add_cases m w0 i b addr I0 Hb0 Hm) as [_ Hadd]. destruct (Hadd Hnew) as (Hfull & _ & Hroom). split; intros Hn.
    + apply (auth_refused m w i b mgmt len addr bs fc seq a t chal Hf Hr); try done. rewrite Eo. now rewrite (bind_Ok _ _ _ _ _ (Hfull Hn)).
    + destruct (Hroom Hn) as (p & w1 & E & D); [apply Hmem0|]. destruct (ad_new _ _ _ _ _ _ D) as [_ Hs]. destruct (ad_bss _ _ _ _ _ _ D) as (b1 & B1 & _ & _ & _ & Ho & _).
      exists p, (set_last_seq_ctrl WLAN_INVALID_MGMT_SEQ (fresh_sta addr)), w1. split; [exact E|]. split; [exact Hs|]. split; [done|]. split; [done|].
      apply (served_run m w i b mgmt len addr bs fc seq a t chal Hf Hr Hc acl v w1 b1); try done.
      * intros o w2 E2. rewrite Eo, (bind_Ok _ _ _ _ _ E). now rewrite (bind_Ok _ _ _ _ _ E2).
      * apply (io_ops _ (ad_ok _ _ _ _ _ _ D)).
      * rewrite (ad_num _ _ _ _ _ _ D). exact Hmem0.
      * rewrite B1. apply list_lookup_insert_eq. now apply lookup_lt_Some in Hb0.
Qed.

(** ** Concrete frames *)

(** Authentication of [mac1], which the first network knows, and of [mac2]. *)
Definition demo_auth (addr : list Z) (a t : Z) : list Z :=
  mgmt_header WLAN_FC_STYPE_AUTH [2; 1; 2; 3; 4; 5] addr [2; 1; 2; 3; 4; 5] ++ le_bytes 2 a ++ le_bytes 2 t ++ [0; 0].

Lemma demo_frame_ok addr a t : mac_ok addr -> frame_ok (demo_auth addr a t) 30.
Proof.
  intros [Hl Hu]. split.
  - unfold demo_auth, mgmt_header. rewrite !zlen_app, !zlen_le_bytes. unfold zlen. rewrite Hl. simpl. lia.
  - unfold demo_auth, mgmt_header. rewrite !Forall_app. repeat split; auto using le_bytes_u8; unfold u8; by_check.
Qed.

Lemma handle_auth_spec_witness : exists p s' w1 w', handle_auth 300 0 (demo_auth mac1 0 1) 30 (demo_world1 silent_env) = Ok (tt, w') /\
  w' = at_sta p s' (wenv w') w1 /\ authenticated s' = true.
Proof.
  destruct (handle_auth_spec 300 (demo_world1 silent_env) 0 demo_bss1 (demo_auth mac1 0 1) 30 mac1 [2; 1; 2; 3; 4; 5] 176 0 0 1 None)
    as (acl & v & Eacl & H).
  - apply demo_ready.
  - reflexivity.
  - apply demo_frame_ok. unfold mac_ok, u8. by_check.
  - split; (reflexivity || discriminate).
  - assert (acl = HOSTAPD_ACL_ACCEPT /\ v = 0) as [-> ->] by (vm_compute in Eacl; injection Eacl as <- <-; done).
    change (auth_refusal demo_bss1 mac1 0 1 HOSTAPD_ACL_ACCEPT) with (None (A := Z)) in H. cbv iota in H.
    destruct (proj2 H eq_refl) as [H1 _].
    assert (sta_at (demo_world1 silent_env) demo_bss1 mac1 1 (demo_sta mac1)) as Hs by (split; [by_check|split; reflexivity]).
    destruct (proj2 (H1 1%positive (demo_sta mac1) Hs) eq_refl) as (s' & cs & resp & ies & E & _ & D).
    exists 1%positive, s', (with_log [ubus_asked mac1] (demo_world1 silent_env)). eexists. split; [exact E|]. split; [reflexivity|].
    rewrite (ad_auth _ _ _ _ _ _ _ _ _ D). apply orb_true_iff. right. reflexivity.
Defined.

(** The status of the frame that was sent last. *)
Definition last_status (w : world) : option Z :=
  match last (trace (wenv w)) with
  | Some (DrvSendMlme f _) => match rd_le 28 2 f with Ok z => Some z | Ub _ => None end
  | _ => None
  end.

(** A shared key exchange: the challenge is refused when it comes back in clear, and
    accepted when the frame was encrypted. *)
Definition answer_frame (c : list Z) : list Z := demo_auth mac1 1 3 ++ [16; 128] ++ c.

Example shared_key_exchange : exists w1 w2 w3 c, handle_auth 300 0 (demo_auth mac1 1 1) 30 (demo_world1 silent_env) = Ok (tt, w1) /\
  (mlme <$> heap w1 !! 1%positive) ≫= challenge = Some c /\
  handle_auth 300 0 (answer_frame c) 160 w1 = Ok (tt, w2) /\ last_status w2 = Some WLAN_STATUS_CHALLENGE_FAIL /\
  handle_auth 300 0 (<[1%nat := 0x40]> (answer_frame c)) 160 w2 = Ok (tt, w3) /\ last_status w3 = Some WLAN_STATUS_SUCCESS.
Proof.
  eexists _, _, _, _. split; [vm_compute; reflexivity|]. split; [reflexivity|]. split; [vm_compute; reflexivity|]. split; [reflexivity|].
  split; [vm_compute; reflexivity|reflexivity].
Qed.
