(* ===== verification/Assoc.v ===== *)
(** * Association: [handle_assoc] of [ap/ieee802_11.c]

    A (re)association request of a station that is authenticated is checked element by
    element, the station gets an association identifier, is counted in the
    interface and is answered with a status and the capabilities of the BSS.  Of WPA, the
    element of the station is judged (Rsn.v); its handshake is behind calls of hostapd. *)

From stdpp Require Import base list numbers gmap strings.
From Stdlib Require Import ZArith Lia.
From S2P Require Import Prelude CString Dense Env World Messages Elements Station Ht Eids Beacon Rsn Handler Stamgd Lifecycle Books Auth.
Local Open Scope Z_scope.

Definition WLAN_FC_STYPE_ASSOC_REQ : Z := 0.
Definition WLAN_FC_STYPE_ASSOC_RESP : Z := 1.
Definition WLAN_FC_STYPE_REASSOC_REQ : Z := 2.
Definition WLAN_FC_STYPE_REASSOC_RESP : Z := 3.
Definition WLAN_FC_STYPE_DEAUTH : Z := 12.
Definition WLAN_STATUS_ASSOC_DENIED_NO_HT : Z := 27.
Definition WLAN_STATUS_INVALID_IE : Z := 40.
Definition WLAN_STATUS_GROUP_CIPHER_NOT_VALID : Z := 41.
Definition WLAN_STATUS_PAIRWISE_CIPHER_NOT_VALID : Z := 42.
Definition WLAN_STATUS_AKMP_NOT_VALID : Z := 43.
Definition WLAN_STATUS_CIPHER_REJECTED_PER_POLICY : Z := 46.
Definition WLAN_STATUS_ASSOC_DENIED_LISTEN_INT_TOO_LARGE : Z := 51.
Definition WLAN_STATUS_INVALID_MDIE : Z := 54.
Definition WLAN_STATUS_ASSOC_DENIED_NO_VHT : Z := 104.
Definition WLAN_REASON_CLASS2_FRAME_FROM_NONAUTH_STA : Z := 6.
Definition WLAN_STA_SHORT_PREAMBLE : Z := 2 ^ 7.
Definition WLAN_STA_NONERP : Z := 2 ^ 31.
Definition sizeof_ieee80211_mgmt : Z := 40.

(** ** The elements of a request *)

Definition check_ssid (b : hostapd_data) (ssid_ie : option (list Z * Z)) : res Z :=
  match ssid_ie with
  | None => Ok WLAN_STATUS_UNSPECIFIED_FAILURE
  | Some (p, n) =>
      if bool_decide (n <> ssid_len b) then Ok WLAN_STATUS_UNSPECIFIED_FAILURE
      else
        let! eq := memeq p (ssid b) n in
        Ok (if eq : bool then WLAN_STATUS_SUCCESS else WLAN_STATUS_UNSPECIFIED_FAILURE)
  end.

Definition check_wmm (b : hostapd_data) (sta : positive) (wmm_ie : option (list Z * Z)) : M world Z :=
  upd_sta sta (fun s => upd_mlme (set_qosinfo 0) (clear_flag WLAN_STA_WMM s)) ;;;
  match wmm_ie with
  | None => ret WLAN_STATUS_SUCCESS
  | Some (p, n) =>
      if negb (wmm_enabled (bconf b)) then ret WLAN_STATUS_SUCCESS
      else
        valid <-- lift (hostapd_eid_wmm_valid p n) ;;
        if negb valid then ret WLAN_STATUS_UNSPECIFIED_FAILURE
        else
          qos_info <-- lift (rd p 6) ;;
          upd_sta sta (fun s => upd_mlme (set_qosinfo qos_info) (set_flag WLAN_STA_WMM s)) ;;;
          ret WLAN_STATUS_SUCCESS
  end.

(** [merge_byte_arrays], of [utils/common.c]: the bytes of [res] that are filled. *)
Definition merge_byte_arrays (res_len : Z) (src1 src2 : option (list Z * Z)) : res (list Z) :=
  let append (l : list Z) (src : option (list Z * Z)) : res (list Z * bool) :=
    match src with
    | None => Ok (l, false)
    | Some (p, n) =>
        if bool_decide (zlen l + n >= res_len) then let! x := slice 0 (res_len - zlen l) p in Ok (l ++ x, true)
        else let! x := slice 0 n p in Ok (l ++ x, false)
    end in
  let! r := append [] src1 in
  let '(l, full) := r in
  if full : bool then Ok l else let! r := append l src2 in Ok (fst r).

(** The length of an element, 0 when it is missing. *)
Definition elem_len (e : option (list Z * Z)) : Z := match e with Some (_, n) => n | None => 0 end.

Definition copy_supp_rates (sta : positive) (e : elems) : M world Z :=
  match e SUPP_RATES with
  | None => ret WLAN_STATUS_UNSPECIFIED_FAILURE
  | Some _ =>
      if bool_decide (elem_len (e SUPP_RATES) + elem_len (e EXT_SUPP_RATES) > 32) then ret WLAN_STATUS_UNSPECIFIED_FAILURE
      else
        rates <-- lift (merge_byte_arrays 32 (e SUPP_RATES) (e EXT_SUPP_RATES)) ;;
        upd_sta sta (upd_mlme (set_supported_rates rates)) ;;;
        ret WLAN_STATUS_SUCCESS
  end.

(** Nothing without interworking. *)
Definition check_ext_capab : Z := WLAN_STATUS_SUCCESS.

(** A check, then the rest of the function. *)
Definition check (m : M world Z) (k : M world Z) : M world Z :=
  resp <-- m ;; if bool_decide (resp <> WLAN_STATUS_SUCCESS) then ret resp else k.
Definition require (denied : bool) (status : Z) (k : M world Z) : M world Z := if denied then ret status else k.

Definition check_ht (b : hostapd_data) (sta : positive) (e : elems) (k : M world Z) : M world Z :=
  check (copy_sta_ht_capab b sta (e HT_CAPABILITIES)) (
  w <-- get ;; s <-- get_sta sta ;;
  require (ht_phy (iconf (ifc w)) && negb (has (sta_flags s) WLAN_STA_HT)) WLAN_STATUS_ASSOC_DENIED_NO_HT k).

Definition check_vht (b : hostapd_data) (sta : positive) (e : elems) (k : M world Z) : M world Z :=
  check (copy_sta_vht_capab b sta (e VHT_CAPABILITIES)) (
  check (set_sta_vht_opmode sta (e VHT_OPMODE_NOTIF)) (
  w <-- get ;; s <-- get_sta sta ;;
  require (vht_phy (iconf (ifc w)) && negb (has (sta_flags s) WLAN_STA_VHT)) WLAN_STATUS_ASSOC_DENIED_NO_VHT (
  if vendor_vht (bconf b) && bool_decide (e VHT_CAPABILITIES = None) then check (copy_sta_vendor_vht b sta (e VENDOR_VHT)) k
  else k))).

(** The RSN or WPA element that counts, with its identifier. *)
Definition wpa_ie_of (b : hostapd_data) (e : elems) : option (Z * (list Z * Z)) :=
  match (if has (wpa (bconf b)) WPA_PROTO_RSN then e RSN_IE else None) with
  | Some x => Some (48, x)
  | None => match (if has (wpa (bconf b)) WPA_PROTO_WPA then e WPA_IE else None) with
            | Some x => Some (WLAN_EID_VENDOR_SPECIFIC, x)
            | None => None
            end
  end.

(** The answer of [wpa_validate_wpa_ie], as a status. *)
Definition wpa_status (res : Z) : Z :=
  match res with
  | 0 => WLAN_STATUS_SUCCESS
  | 2 => WLAN_STATUS_GROUP_CIPHER_NOT_VALID
  | 3 => WLAN_STATUS_PAIRWISE_CIPHER_NOT_VALID
  | 4 => WLAN_STATUS_AKMP_NOT_VALID
  | 6 => WLAN_STATUS_UNSPECIFIED_FAILURE
  | 9 => WLAN_STATUS_INVALID_MDIE
  | _ => WLAN_STATUS_INVALID_IE
  end.

Definition elem_data (e : option (list Z * Z)) : res (list Z) := match e with Some (p, n) => slice 0 n p | None => Ok [] end.

(** It reads its argument, which is not checked. *)
Definition wpa_auth_get_pairwise (sm : option wpa_state_machine) : res Z :=
  match sm with Some x => Ok (sm_pairwise x) | None => Ub NullDeref end.

(** The element, with its header, is given to the WPA state machine. *)
Definition check_wpa_ie (b : hostapd_data) (sta : positive) (id : Z) (p : list Z) (n : Z) : M world Z :=
  s <-- get_sta sta ;;
  sm <-- (match wpa_sm (mlme s) with
          | Some sm => ret (Some sm)
          | None => sm <-- wpa_auth_sta_init (sta_addr s) ;; upd_sta sta (upd_mlme (set_wpa_sm sm)) ;;; ret sm
          end) ;;
  match sm with
  | None => ret WLAN_STATUS_UNSPECIFIED_FAILURE
  | Some sm =>
      body <-- lift (slice 0 n p) ;;
      r <-- wpa_validate_wpa_ie (hostapd_wpa_auth_conf (bconf b)) (own_addr b) (sta_addr s) (Some sm) ([id; n] ++ body) ;;
      upd_sta sta (upd_mlme (set_wpa_sm (snd r))) ;;;
      if bool_decide (wpa_status (fst r) <> WLAN_STATUS_SUCCESS) then ret (wpa_status (fst r))
      else
        if has (sta_flags s) WLAN_STA_HT || has (sta_flags s) WLAN_STA_VHT then
          cipher <-- lift (wpa_auth_get_pairwise (snd r)) ;;
          ret (if bool_decide (cipher = WPA_CIPHER_TKIP) then WLAN_STATUS_CIPHER_REJECTED_PER_POLICY else WLAN_STATUS_SUCCESS)
        else ret WLAN_STATUS_SUCCESS
  end.

Definition check_wpa (b : hostapd_data) (sta : positive) (e : elems) : M world Z :=
  if bool_decide (wpa (bconf b) = 0) then
    s <-- get_sta sta ;; upd_sta sta (upd_mlme (set_wpa_sm (wpa_auth_sta_no_wpa (wpa_sm (mlme s))))) ;;; ret WLAN_STATUS_SUCCESS
  else
    match wpa_ie_of b e with
    | None => ret WLAN_STATUS_INVALID_IE
    | Some (id, (p, n)) => check_wpa_ie b sta id p n
    end.

Definition check_assoc_ies (hapd : nat) (sta : positive) (ies : list Z) (ies_len : Z) : M world Z :=
  b <-- get_bss hapd ;;
  r <-- lift (ieee802_11_parse_elems ies ies_len) ;;
  let '(parse_res, e) := r in
  if bool_decide (parse_res = ParseFailed) then ret WLAN_STATUS_UNSPECIFIED_FAILURE
  else
    check (lift (check_ssid b (e SSID))) (
    check (check_wmm b sta (e WMM)) (
    check (ret check_ext_capab) (
    check (copy_supp_rates sta e) (
    check_ht b sta e (
    check_vht b sta e (
    check_wpa b sta e)))))).

(** ** The answer *)

Definition deauth_frame (b : hostapd_data) (addr : list Z) (reason_code : Z) : list Z :=
  mgmt_header WLAN_FC_STYPE_DEAUTH addr (own_addr b) (own_addr b) ++ le_bytes 2 reason_code.

Definition send_deauth (hapd : nat) (addr : list Z) (reason_code : Z) : M world unit :=
  b <-- get_bss hapd ;; hostapd_drv_send_mlme (deauth_frame b addr reason_code) false ;;; ret tt.

(** The elements of the answer. *)
Definition assoc_variable (i : hostapd_iface) (b : hostapd_data) (flags : Z) : list Z :=
  hostapd_eid_supp_rates (iconf i) ++ hostapd_eid_ext_supp_rates (iconf i)
  ++ hostapd_eid_ht_capabilities i b ++ hostapd_eid_ht_operation i b
  ++ (if ieee80211ac (iconf i) && negb (disable_11ac (bconf b))
      then hostapd_eid_vht_capabilities i b ++ hostapd_eid_vht_operation i else [])
  ++ hostapd_eid_ext_capab (iconf i) (bconf b) ++ hostapd_eid_bss_max_idle_period
  ++ (if vendor_vht (bconf b) && has flags WLAN_STA_VENDOR_VHT then hostapd_eid_vendor_vht i b else [])
  ++ (if has flags WLAN_STA_WMM then hostapd_eid_wmm i b else []).

Definition assoc_resp (i : hostapd_iface) (b : hostapd_data) (s : sta_info) (dfs status_code : Z) (reassoc : bool) : list Z :=
  mgmt_header (if reassoc then WLAN_FC_STYPE_REASSOC_RESP else WLAN_FC_STYPE_ASSOC_RESP) (sta_addr s) (own_addr b) (own_addr b)
  ++ le_bytes 2 (hostapd_own_capab_info i b (Some s) false dfs) ++ le_bytes 2 status_code
  ++ le_bytes 2 (Z.lor (sta_aid_ s) (2 ^ 14 + 2 ^ 15))
  ++ assoc_variable i b (sta_flags s).

Definition send_assoc_resp (hapd : nat) (sta : positive) (status_code : Z) (reassoc : bool) : M world unit :=
  b <-- get_bss hapd ;;
  s <-- get_sta sta ;;
  dfs <-- ext (Hostapd (str "hostapd_is_dfs_required") []) ;;
  w <-- get ;;
  frame <-- lift (within (sizeof_ieee80211_mgmt + 1024) (assoc_resp (ifc w) b s dfs status_code reassoc)) ;;
  hostapd_drv_send_mlme frame false ;;; ret tt.

(** ** The request *)

(** The station does not know ERP, as its rates show. *)
Definition mark_non_erp (sta : positive) : M world unit :=
  w <-- get ;;
  (if mode_11g (ifc w) then upd_sta sta (set_flag WLAN_STA_NONERP) else ret tt) ;;;
  s <-- get_sta sta ;;
  (if existsb (fun r => bool_decide (Z.land r 0x7f > 22)) (supported_rates (mlme s)) then upd_sta sta (clear_flag WLAN_STA_NONERP) else ret tt) ;;;
  s <-- get_sta sta ;;
  if has (sta_flags s) WLAN_STA_NONERP then
    counted <-- count_up sta nonerp_set (set_nonerp_set true) num_sta_non_erp set_num_sta_non_erp ;;
    w <-- get ;;
    if counted && bool_decide (num_sta_non_erp (ifc w) = 1) then set_beacons else ret tt
  else ret tt.

Definition mark_slot (sta : positive) : M world unit :=
  s <-- get_sta sta ;;
  if negb (has (capability (mlme s)) WLAN_CAPABILITY_SHORT_SLOT_TIME) then
    counted <-- count_up sta no_short_slot_time_set (set_no_short_slot_time_set true) num_sta_no_short_slot_time set_num_sta_no_short_slot_time ;;
    w <-- get ;;
    if counted && mode_11g (ifc w) && bool_decide (num_sta_no_short_slot_time (ifc w) = 1) then set_beacons else ret tt
  else ret tt.

Definition mark_preamble (sta : positive) : M world unit :=
  s <-- get_sta sta ;;
  if has (capability (mlme s)) WLAN_CAPABILITY_SHORT_PREAMBLE then upd_sta sta (set_flag WLAN_STA_SHORT_PREAMBLE)
  else
    upd_sta sta (clear_flag WLAN_STA_SHORT_PREAMBLE) ;;;
    counted <-- count_up sta no_short_preamble_set (set_no_short_preamble_set true) num_sta_no_short_preamble set_num_sta_no_short_preamble ;;
    w <-- get ;;
    if counted && mode_11g (ifc w) && bool_decide (num_sta_no_short_preamble (ifc w) = 1) then set_beacons else ret tt.

(** The request is granted. *)
Definition assoc_grant (sta : positive) (capab_info interval : Z) : M world unit :=
  upd_sta sta (upd_mlme (fun m => set_listen_interval interval (set_capability capab_info m))) ;;;
  mark_non_erp sta ;;;
  mark_slot sta ;;;
  mark_preamble sta ;;;
  update_ht_state sta ;;;
  upd_sta sta (set_flag WLAN_STA_ASSOC_REQ_OK) ;;;
  upd_sta sta (set_timeout_next STA_NULLFUNC).

(** The status of the request of a station that is authenticated. *)
Definition assoc_status (hapd : nat) (sta : positive) (pos : list Z) (left capab_info interval : Z) : M world Z :=
  b <-- get_bss hapd ;;
  if tkip_countermeasures b then ret WLAN_REASON_MICHAEL_MIC_FAILURE
  else if bool_decide (interval > max_listen_interval (bconf b)) then ret WLAN_STATUS_ASSOC_DENIED_LISTEN_INT_TOO_LARGE
  else
    check (check_assoc_ies hapd sta pos left) (
    r <-- hostapd_get_aid hapd sta ;;
    if bool_decide (r < 0) then ret WLAN_STATUS_AP_UNABLE_TO_HANDLE_NEW_STA
    else
      s <-- get_sta sta ;;
      u <-- ext (Hostapd (str "hostapd_ubus_handle_event") (sta_addr s)) ;;
      if bool_decide (u <> 0) then ret WLAN_STATUS_UNSPECIFIED_FAILURE
      else assoc_grant sta capab_info interval ;;; ret WLAN_STATUS_SUCCESS).

(** The test of a repeated frame: the whole conjunction is the condition of the [?:]
    whose value, a subtype, is what the [if] looks at. *)
Definition assoc_repeated (s : sta_info) (fc seq : Z) (reassoc : bool) : bool :=
  bool_decide ((if has fc WLAN_FC_RETRY && bool_decide (last_seq_ctrl s <> WLAN_INVALID_MGMT_SEQ)
                   && bool_decide (last_seq_ctrl s = seq) && bool_decide (last_subtype (mlme s) = Z.b2z reassoc)
                then WLAN_FC_STYPE_REASSOC_REQ else WLAN_FC_STYPE_ASSOC_REQ) <> 0).

(** The sizes of the fixed fields of the two requests. *)
Definition assoc_fixed (reassoc : bool) : Z := if reassoc then 10 else 4.

Definition handle_assoc (hapd : nat) (mgmt : list Z) (len : Z) (reassoc : bool) : M world unit :=
  if bool_decide (len < IEEE80211_HDRLEN + assoc_fixed reassoc) then ret tt
  else
    fc <-- lift (frame_control mgmt) ;;
    seq <-- lift (seq_ctrl mgmt) ;;
    capab_info <-- lift (rd_le 24 2 mgmt) ;;
    interval <-- lift (rd_le 26 2 mgmt) ;;
    let left := len - (IEEE80211_HDRLEN + assoc_fixed reassoc) in
    let pos := drop (Z.to_nat (IEEE80211_HDRLEN + assoc_fixed reassoc)) mgmt in
    addr <-- lift (sa mgmt) ;;
    sta <-- ap_get_sta hapd addr ;;
    match sta with
    | None => send_deauth hapd addr WLAN_REASON_CLASS2_FRAME_FROM_NONAUTH_STA
    | Some p =>
        s <-- get_sta p ;;
        if negb (has (sta_flags s) WLAN_STA_AUTH) then send_deauth hapd addr WLAN_REASON_CLASS2_FRAME_FROM_NONAUTH_STA
        else if assoc_repeated s fc seq reassoc then ret tt
        else
          upd_sta p (set_last_seq_ctrl seq) ;;;
          upd_sta p (upd_mlme (set_last_subtype (if reassoc then WLAN_FC_STYPE_REASSOC_REQ else WLAN_FC_STYPE_ASSOC_REQ))) ;;;
          resp <-- assoc_status hapd p pos left capab_info interval ;;
          send_assoc_resp hapd p resp reassoc
    end.

(** ** It returns and keeps the books *)

Lemma merge_run res_len a b : 0 <= res_len -> elem_ok a -> elem_ok b -> elem_len a + elem_len b <= res_len ->
  exists x y, elem_data a = Ok x /\ elem_data b = Ok y /\ merge_byte_arrays res_len a b = Ok (x ++ y) /\ zlen (x ++ y) = elem_len a + elem_len b.
Proof.
  intros Hr Ha Hb Hl.
  assert (forall e, elem_ok e -> exists x, elem_data e = Ok x /\ zlen x = elem_len e) as Hd.
  { intros [[l n]|] He; [|by exists []]. destruct (He l n eq_refl) as [Hn _].
    destruct (slice_in l 0 n) as (x & E & Hx & _); [lia..|]. exists x. done. }
  destruct (Hd a Ha) as (x & Ex & Lx), (Hd b Hb) as (y & Ey & Ly). exists x, y. do 2 (split; [done|]).
  assert (zlen (x ++ y) = elem_len a + elem_len b) as Hz by (rewrite zlen_app; lia). split; [|done].
  unfold merge_byte_arrays. cbv zeta. change (zlen (@nil Z)) with 0. rewrite Z.sub_0_r.
  pose proof (zlen_nonneg x). pose proof (zlen_nonneg y).
  assert (forall e z, elem_data e = Ok z -> forall p n, e = Some (p, n) -> slice 0 n p = Ok z) as Hs by (intros e z E p n ->; exact E).
  destruct a as [[p n]|]; cbn [elem_len] in *.
  - rewrite Z.add_0_l. case_bool_decide as E1.
    + assert (n = res_len) as -> by lia. rewrite (Hs _ _ Ex p res_len eq_refl). cbn [res_bind app].
      assert (y = []) as -> by (apply length_zero_iff_nil; unfold zlen in *; lia). now rewrite app_nil_r.
    + rewrite (Hs _ _ Ex p n eq_refl). cbn [res_bind app]. destruct b as [[q m]|]; cbn [elem_len] in *.
      * rewrite Lx. case_bool_decide as E2.
        -- assert (m = res_len - n) as -> by lia. now rewrite (Hs _ _ Ey q _ eq_refl).
        -- now rewrite (Hs _ _ Ey q _ eq_refl).
      * injection Ey as <-. cbn [res_bind fst]. now rewrite app_nil_r.
  - injection Ex as <-. cbn [res_bind app]. destruct b as [[q m]|]; cbn [elem_len] in *.
    + change (zlen (@nil Z)) with 0. rewrite !Z.sub_0_r, Z.add_0_l. case_bool_decide as E2.
      * assert (m = res_len) as -> by lia. now rewrite (Hs _ _ Ey q _ eq_refl).
      * now rewrite (Hs _ _ Ey q _ eq_refl).
    + injection Ey as <-. done.
Qed.

Lemma check_ssid_run b e : bss_named b -> elem_ok e -> exists r, check_ssid b e = Ok r /\
  (r = 0 <-> elem_data e = Ok (take (Z.to_nat (ssid_len b)) (ssid b)) /\ e <> None).
Proof.
  intros Hn He. unfold check_ssid. destruct e as [[p n]|]; [|eexists; split; [done|]; split; [intros [=]|intros [_ []]; done]].
  destruct (He p n eq_refl) as [Hp _]. pose proof (nm_room _ Hn) as Hr. pose proof (nm_len _ Hn) as Hl. cbn [elem_data].
  assert (slice 0 n p = Ok (take (Z.to_nat n) p)) as Es by (unfold slice; rewrite bool_decide_eq_true_2 by lia; done). rewrite Es.
  case_bool_decide as En.
  - eexists. split; [done|]. split; [intros [=]|]. intros [[= E] _]. apply (f_equal length) in E. rewrite !length_take in E. unfold zlen in *. lia.
  - assert (n = ssid_len b) as -> by lia. rewrite memeq_in by (unfold zlen in *; lia). cbn [res_bind]. eexists. split; [done|].
    case_bool_decide as E; split; try done; [by rewrite E|]. intros [[= E'] _]. congruence.
Qed.

Section RunsAssoc.
Context (i : nat) (p : positive).

Lemma runs_check o (m k : M world Z) : runs i (Some p) (Some p) m -> runs i (Some p) o k -> o = Some p -> runs i (Some p) o (check m k).
Proof using. intros Hm Hk ->. unfold check. eapply runs_bind; [done|]. intros r. destruct (bool_decide _); [apply runs_ret|done]. Qed.

Lemma sta_ok_rates l m : zlen l <= 32 -> sta_ok m -> sta_ok (set_supported_rates l m).
Proof using. intros Hl []. by split. Qed.

Lemma runs_check_wmm b e : elem_ok e -> runs i (Some p) (Some p) (check_wmm b p e).
Proof using.
  intros He. unfold check_wmm. runs_step; [auto with lazyas|]. destruct e as [[l n]|]; [|auto with lazyas]. destruct (He l n eq_refl) as [Hn _].
  destruct (negb _); [auto with lazyas|]. unfold hostapd_eid_wmm_valid.
  apply (runs_lift _ _ _ _ (fun v => v = true -> 7 <= n)).
  { case_bool_decide; [eexists; split; [done|]; done|]. destruct (rd_in l 4) as (x & -> & _); [lia|]. destruct (rd_in l 5) as (y & -> & _); [lia|].
    cbn [res_bind]. eexists. split; [done|]. lia. }
  intros [] Hv; cbn [negb]; [|auto with lazyas]. specialize (Hv eq_refl).
  apply (runs_lift _ _ _ _ (fun _ => True)); [destruct (rd_in l 6) as (x & E & _); [lia|]; eauto|]. intros q _. runs_tac.
Qed.

Lemma runs_supp_rates e : (forall x, elem_ok (e x)) -> runs i (Some p) (Some p) (copy_supp_rates p e).
Proof using.
  intros He. unfold copy_supp_rates. destruct (e SUPP_RATES) as [y|] eqn:Es; [|auto with lazyas]. rewrite <- Es. clear Es y.
  case_bool_decide as El; [auto with lazyas|].
  destruct (merge_run 32 (e SUPP_RATES) (e EXT_SUPP_RATES)) as (x & y & _ & _ & E & Hz); [lia|apply He..|lia|].
  apply (runs_lift _ _ _ _ (fun l => zlen l <= 32)); [eexists; split; [exact E|lia]|]. intros l Hl.
  runs_step; [|runs_tac]. apply runs_upd_sta; [intros; by repeat split|]. intros s. now apply sta_ok_rates.
Qed.

(** An operation that only calls the environment. *)
Lemma runs_logs {A B} o' (m : M world A) Q (k : A -> M world B) : logs m Q ->
  (forall a, (exists o, Q o a) -> runs i (Some p) o' (k a)) -> runs i (Some p) o' (bind m k).
Proof using.
  intros Hm Hk w R T. destruct (Hm w) as (a & cs & E & HQ). rewrite (bind_Ok _ _ _ _ _ E).
  apply Hk; [eauto|apply (ready_quiet w); [apply (quiet_log cs)|done]|apply (at_table_quiet _ _ w); [apply (quiet_log cs)|done]].
Qed.

Lemma runs_sta_init addr : runs i (Some p) (Some p) (wpa_auth_sta_init addr).
Proof using. unfold wpa_auth_sta_init. runs_tac. Qed.

Lemma elem_of_wpa b e id l n : (forall x, elem_ok (e x)) -> wpa_ie_of b e = Some (id, (l, n)) -> elem_ok (Some (l, n)) /\ (id = 48 \/ id = 221).
Proof using.
  intros He E. unfold wpa_ie_of in E. destruct (if has _ WPA_PROTO_RSN then _ else _) as [[q m]|] eqn:E1.
  - injection E as <- -> ->. destruct (has _ _); [|done]. split; [|by left]. rewrite <- E1. apply He.
  - destruct (if has _ WPA_PROTO_WPA then _ else _) as [[q m]|] eqn:E2; [|done]. injection E as <- -> ->.
    destruct (has _ WPA_PROTO_WPA); [|done]. split; [|by right]. rewrite <- E2. apply He.
Qed.

(** The bytes of the element, with its header. *)
Lemma wpa_bytes id l n : elem_ok (Some (l, n)) -> id = 48 \/ id = 221 ->
  exists x, slice 0 n l = Ok x /\ Forall u8 ([id; n] ++ x) /\ [id; n] ++ x <> [].
Proof using.
  intros Hl Hid. destruct (Hl l n eq_refl) as [Hn Hu]. destruct (slice_in l 0 n) as (x & E & _ & Hx); [lia..|]. exists x. split; [done|]. split; [|done].
  apply Forall_app. split; [|by apply Hx]. apply Forall_cons_2; [unfold u8; lia|]. apply Forall_cons_2; [unfold u8; lia|constructor].
Qed.

Lemma runs_wpa_ie b id l n : elem_ok (Some (l, n)) -> id = 48 \/ id = 221 -> runs i (Some p) (Some p) (check_wpa_ie b p id l n).
Proof using.
  intros Hl Hid. destruct (wpa_bytes id l n Hl Hid) as (x & Ex & Hu & Hne). unfold check_wpa_ie. runs_step. runs_step.
  { destruct (wpa_sm (mlme s)); [auto with lazyas|]. runs_step; [apply runs_sta_init|]. runs_tac. }
  destruct a as [sm|]; [|auto with lazyas].
  apply (runs_lift _ _ _ _ (eq x)); [eauto|]. intros ? <-.
  destruct (logs_validate (hostapd_wpa_auth_conf (bconf b)) (own_addr b) (sta_addr s) sm _ Hu Hne) as (v & res & d & _ & _ & Hv).
  apply (runs_logs _ _ _ _ Hv). intros [r sm'] (o & sm1 & Hs & _). cbn [fst snd] in *. subst sm'. cbn [wpa_auth_get_pairwise].
  runs_step; [|destruct (bool_decide _); [auto with lazyas|destruct (_ || _); [|auto with lazyas]; by apply (runs_lift _ _ _ _ (fun _ => True)); [eauto|auto with lazyas]]].
  apply runs_upd_sta; [intros; by repeat split|]. intros s' []. by split.
Qed.

Lemma runs_wpa b e : (forall x, elem_ok (e x)) -> runs i (Some p) (Some p) (check_wpa b p e).
Proof using.
  intros He. unfold check_wpa. destruct (bool_decide _).
  - runs_step. runs_step; [|auto with lazyas]. apply runs_upd_sta; [intros; by repeat split|]. intros s' []. by split.
  - destruct (wpa_ie_of b e) as [[id [l n]]|] eqn:E; [|auto with lazyas]. destruct (elem_of_wpa b e id l n He E) as [Hl Hid]. by apply runs_wpa_ie.
Qed.

Lemma runs_check_ies ies len : Forall u8 ies -> 0 <= len <= zlen ies -> runs i (Some p) (Some p) (check_assoc_ies i p ies len).
Proof using.
  intros Hu Hl. unfold check_assoc_ies. runs_step.
  destruct (parse_any (Z.to_nat len) ies len no_elems false) as (r & e & Ep & Pa); [done|done|lia|].
  fold (ieee802_11_parse_elems ies len) in Ep. pose proof (parsed_inside _ _ _ _ Hu Pa) as He.
  apply (runs_lift _ _ _ _ (eq (r, e))); [eauto|]. intros ? <-. destruct (bool_decide _); [auto with lazyas|].
  assert (forall x, elem_ok (e x)) as Hx by (intros x l n E; now apply (He x)).
  assert (forall (k : M world Z) c st, runs i (Some p) (Some p) k -> runs i (Some p) (Some p) (require c st k)) as Hreq by (intros k [] st Hk; [apply runs_ret|exact Hk]).
  apply runs_check; [|apply runs_check; [now apply runs_check_wmm| |done]|done].
  { destruct (check_ssid_run b (e SSID)) as (x & E & _); [done|apply Hx|]. rewrite E. apply runs_quietly. intros w _ _. by exists x, w. }
  apply runs_check; [apply runs_ret| |done]. apply runs_check; [now apply runs_supp_rates| |done].
  unfold check_ht. apply runs_check; [apply runs_copy_ht, Hx| |done]. runs_step. runs_step. apply Hreq.
  unfold check_vht. apply runs_check; [apply runs_copy_vht, Hx| |done].
  apply runs_check; [apply runs_opmode; [apply Hx|]; intros l n; now apply (opmode_one _ _ _ _ _ _ Ep)| |done].
  runs_step. runs_step. apply Hreq. destruct (_ && _).
  - apply runs_check; [apply runs_copy_vendor_vht, Hx|now apply runs_wpa|done].
  - now apply runs_wpa.
Qed.

Lemma runs_grant c l : runs i (Some p) (Some p) (assoc_grant p c l).
Proof using.
  unfold assoc_grant, mark_non_erp, mark_slot, mark_preamble. runs_tac; first [apply runs_beacons|apply runs_non_erp|apply runs_no_slot|apply runs_no_preamble|apply runs_update_ht_state].
Qed.

Lemma runs_assoc_status pos left c l : Forall u8 pos -> 0 <= left <= zlen pos -> runs i (Some p) (Some p) (assoc_status i p pos left c l).
Proof using.
  intros Hu Hl. unfold assoc_status. runs_step. destruct (tkip_countermeasures b); [auto with lazyas|]. destruct (bool_decide _); [auto with lazyas|].
  apply runs_check; [now apply runs_check_ies| |done]. runs_tac. apply runs_grant.
Qed.
End RunsAssoc.

(** The elements of the answer. *)
Definition assoc_ies (i : hostapd_iface) (b : hostapd_data) (flags : Z) : list ie :=
  rates_ies (iconf i) ++ ht_ies i b ++ opt (ieee80211ac (iconf i) && negb (disable_11ac (bconf b))) (vht_ies i b)
  ++ ext_capab_ies (iconf i) (bconf b) ++ opt (vendor_vht (bconf b) && has flags WLAN_STA_VENDOR_VHT) (vendor_ies i b)
  ++ opt (has flags WLAN_STA_WMM) (wmm_ies i b).

Lemma assoc_variable_run i b flags : iconf_ok (iconf i) -> assoc_variable i b flags = ies_bytes (assoc_ies i b flags).
Proof.
  intros C. unfold assoc_variable, assoc_ies, hostapd_eid_bss_max_idle_period. rewrite !ies_app, !ies_opt.
  rewrite <- (rates_run _ C), <- (ht_run i b C), <- (vht_run i b C), <- ext_capab_run, <- (vendor_run i b C), <- (wmm_run i b C).
  rewrite <- !app_assoc. reflexivity.
Qed.

Lemma assoc_ies_ok i b flags : iconf_ok (iconf i) -> Forall ie_ok (assoc_ies i b flags).
Proof.
  intros C. destruct (elements_ok i b C) as (H1 & H2 & H3 & H4 & H5). unfold assoc_ies.
  rewrite !Forall_app. split; [now apply rates_ok|]. repeat split; try done; by apply opt_ok.
Qed.

(** The answer fits its buffer. *)
Lemma assoc_fits i b s dfs status reassoc : iconf_ok (iconf i) -> length (own_addr b) = 6%nat -> length (sta_addr s) = 6%nat ->
  zlen (assoc_resp i b s dfs status reassoc) <= sizeof_ieee80211_mgmt + 1024.
Proof.
  intros C Ho Hs. unfold assoc_resp, mgmt_header. rewrite (assoc_variable_run _ _ _ C), !zlen_app, !zlen_le_bytes, !zlen_cons, !zlen_nil.
  assert (zlen (own_addr b) = 6 /\ zlen (sta_addr s) = 6) as [-> ->] by (unfold zlen; now rewrite Ho, Hs).
  assert (zlen (ies_bytes (assoc_ies i b (sta_flags s))) <= 700); [|unfold sizeof_ieee80211_mgmt; lia].
  unfold assoc_ies. rewrite !ies_app, !ies_opt, !zlen_app.
  pose proof (proj1 (rates_sizes _ C)) as H1. pose proof (ht_size i b C) as H2. pose proof (vht_size i b C) as H3.
  pose proof (proj1 (ext_capab_size i C (bconf b))) as H4. pose proof (vendor_size i b C) as H5. pose proof (wmm_size i b C) as H6.
  repeat match goal with |- context [if ?c then _ else _] => destruct c end; change (zlen (@nil Z)) with 0; lia.
Qed.

Section RunsRequest.
Context (i : nat).

Lemma runs_send_deauth o addr reason : runs i o o (send_deauth i addr reason).
Proof using. unfold send_deauth. runs_tac. apply runs_drv_send. Qed.

Lemma runs_send_resp p status reassoc : runs i (Some p) (Some p) (send_assoc_resp i p status reassoc).
Proof using.
  unfold send_assoc_resp. runs_step. runs_step. runs_step; [apply runs_ext|]. rename a into dfs. runs_step.
  apply (runs_lift _ _ _ _ (fun _ => True)).
  { unfold within. rewrite bool_decide_eq_true_2; [eauto|].
    match goal with R : ready _ |- _ => pose proof (mo_iconf _ (proj1 R)) as Hc end.
    apply assoc_fits; [done|apply nm_addr; done|]. match goal with A : mac_ok (sta_addr _) |- _ => apply A end. }
  intros frame _. eapply runs_bind; [apply runs_drv_send|]. auto with lazyas.
Qed.

Lemma runs_handle_assoc mgmt len reassoc : frame_ok mgmt len -> runs i None None (handle_assoc i mgmt len reassoc).
Proof using.
  intros Hf. unfold handle_assoc, IEEE80211_HDRLEN. assert (4 <= assoc_fixed reassoc <= 10) as Hfix by (destruct reassoc; unfold assoc_fixed; lia).
  case_bool_decide as El; [auto with lazyas|]. pose proof (proj1 (fo_len _ _ Hf)) as H0. pose proof (proj2 (fo_len _ _ Hf)) as H1.
  destruct (header_ok mgmt len Hf) as ((fc & Efc) & (seq & Eseq) & _ & (addr & Ea & Hm) & _); [lia|].
  apply (runs_lift _ _ _ _ (fun _ => True)); [eauto|]. intros ? _. apply (runs_lift _ _ _ _ (fun _ => True)); [eauto|]. intros ? _.
  do 2 (apply (runs_lift _ _ _ _ (fun _ => True)); [edestruct (rd_le_in mgmt) as (x & E & _); [..|exists x; split; [exact E|done]]; lia|intros ? _]).
  cbv zeta. apply (runs_lift _ _ _ _ mac_ok); [eauto|]. intros ad Had. apply runs_ap_get_sta; [done|]. intros [p|]; [|apply runs_send_deauth].
  runs_step. destruct (negb _); [apply (runs_weak i (Some p) (Some p)), runs_send_deauth|]. destruct (assoc_repeated _ _ _ _); [auto with lazyas|].
  apply (runs_weak i (Some p) (Some p)). runs_step; [auto with lazyas|]. runs_step; [auto with lazyas|].
  eapply runs_bind; [apply runs_assoc_status|intros; apply runs_send_resp].
  - apply Forall_drop, Hf.
  - unfold zlen in *. rewrite length_drop. lia.
Qed.
End RunsRequest.

(** ** What a request does *)

(** The bits of the flags that may have changed; the address, the AID and the rates
    have not. *)
Record moved (bits : list Z) (s s' : sta_info) : Prop := {
  mv_addr : sta_addr s' = sta_addr s;
  mv_aid : sta_aid_ s' = sta_aid_ s;
  mv_rates : supported_rates (mlme s') = supported_rates (mlme s);
  mv_flags : forall n, 0 <= n -> n ∉ bits -> has (sta_flags s') (2 ^ n) = has (sta_flags s) (2 ^ n) }.

Lemma moved_refl bits s : moved bits s s.
Proof. by split. Qed.

Lemma moved_trans bits1 bits2 bits s s1 s2 : moved bits1 s s1 -> moved bits2 s1 s2 -> bits1 ⊆ bits -> bits2 ⊆ bits -> moved bits s s2.
Proof.
  intros [A1 I1 R1 F1] [A2 I2 R2 F2] H1 H2. split; [congruence..|]. intros n Hn Hb. rewrite F2, F1; auto.
Qed.

Lemma moved_set k s f bits : 0 <= k -> k ∈ bits -> sta_addr (f s) = sta_addr s -> sta_aid_ (f s) = sta_aid_ s ->
  supported_rates (mlme (f s)) = supported_rates (mlme s) -> sta_flags (f s) = Z.lor (sta_flags s) (2 ^ k) -> moved bits s (f s).
Proof.
  intros Hk Hb Ha Hi Hr Hf. split; [done..|]. intros n Hn Hnb. rewrite Hf, has_set by done.
  rewrite bool_decide_eq_false_2 by (intros ->; done). apply orb_false_r.
Qed.

Lemma moved_clear k s f bits : 0 <= k -> k ∈ bits -> sta_addr (f s) = sta_addr s -> sta_aid_ (f s) = sta_aid_ s ->
  supported_rates (mlme (f s)) = supported_rates (mlme s) -> sta_flags (f s) = Z.ldiff (sta_flags s) (2 ^ k) -> moved bits s (f s).
Proof.
  intros Hk Hb Ha Hi Hr Hf. split; [done..|]. intros n Hn Hnb. rewrite Hf, has_clear by done.
  rewrite bool_decide_eq_false_2 by (intros ->; done). apply andb_true_r.
Qed.

Lemma moved_plain s f bits : sta_addr (f s) = sta_addr s -> sta_aid_ (f s) = sta_aid_ s ->
  supported_rates (mlme (f s)) = supported_rates (mlme s) -> sta_flags (f s) = sta_flags s -> moved bits s (f s).
Proof. intros Ha Hi Hr Hf. split; [done..|]. intros n _ _. now rewrite Hf. Qed.

(** Some member is there. *)
Definition present (e : option (list Z * Z)) : bool := match e with Some _ => true | None => false end.

(** The element of WPA is accepted and chosen from, and TKIP is not used with HT. *)
Definition wpa_admitted (b : hostapd_data) (e : elems) (s' : sta_info) : Prop := let conf := hostapd_wpa_auth_conf (bconf b) in
  exists id l n x v d sm, wpa_ie_of b e = Some (id, (l, n)) /\ slice 0 n l = Ok x /\
    ie_version ([id; n] ++ x) = Ok v /\ parse_ie v ([id; n] ++ x) = Ok (0, d) /\ acceptable conf v d /\
    wpa_sm (mlme s') = Some sm /\ chosen conf v d ([id; n] ++ x) sm /\
    (has (sta_flags s') WLAN_STA_HT || has (sta_flags s') WLAN_STA_VHT = true -> sm_pairwise sm <> WPA_CIPHER_TKIP).

Section CheckRuns.
Context (p : positive) (w : world).

Lemma check_wmm_sr b s e : elem_ok e -> sta_run p w (check_wmm b p e) s (fun r s' _ => moved [9] s s' /\
  (r = 0 -> has (sta_flags s') WLAN_STA_WMM = wmm_enabled (bconf b) && present e)).
Proof using.
  intros He. unfold check_wmm. do 2 sr_step. set (s1 := upd_mlme _ _).
  assert (moved [9] s s1) as M1 by (apply (moved_clear 9 s (fun s => upd_mlme (set_qosinfo 0) (clear_flag WLAN_STA_WMM s))); try done; by left).
  assert (has (sta_flags s1) WLAN_STA_WMM = false) as F1.
  { unfold s1. cbn [sta_flags upd_mlme clear_flag set_sta_flags]. unfold WLAN_STA_WMM. rewrite has_clear by done. apply andb_false_r. }
  destruct e as [[l n]|]; [|sr_step; split; [done|intros _; now rewrite andb_false_r]]. cbn [present]. rewrite andb_true_r.
  destruct (wmm_enabled (bconf b)); cbn [negb]; [|sr_step; done]. destruct (He l n eq_refl) as [Hn _]. sr_step. unfold hostapd_eid_wmm_valid.
  destruct (bool_decide_reflect (n < 7)); [apply (sr_lift _ _ _ false); [done|]; cbn [negb]; sr_step; done|].
  destruct (rd_in l 4) as (x & -> & _); [lia|]. destruct (rd_in l 5) as (y & -> & _); [lia|]. cbn [res_bind]. eapply sr_lift; [done|].
  destruct (bool_decide _); cbn [negb]; [sr_step; done|]. destruct (rd_in l 6) as (q & E & _); [lia|]. sr_step. eapply sr_lift; [exact E|].
  do 3 sr_step. set (s2 := upd_mlme _ _). split.
  - apply (moved_trans [9] [9] [9] s s1 s2); [done| |done|done]. apply (moved_set 9 s1 (fun s => upd_mlme (set_qosinfo q) (set_flag WLAN_STA_WMM s))); try done. by left.
  - intros _. unfold s2. cbn [sta_flags upd_mlme set_flag set_sta_flags]. unfold WLAN_STA_WMM. rewrite has_set by done. apply orb_true_r.
Qed.

Lemma supp_rates_sr s e : (forall x, elem_ok (e x)) -> sta_run p w (copy_supp_rates p e) s (fun r s' _ =>
  sta_addr s' = sta_addr s /\ sta_aid_ s' = sta_aid_ s /\ sta_flags s' = sta_flags s /\
  (r = 0 -> exists x y, present (e SUPP_RATES) = true /\ elem_data (e SUPP_RATES) = Ok x /\ elem_data (e EXT_SUPP_RATES) = Ok y /\
     supported_rates (mlme s') = x ++ y /\ zlen (x ++ y) <= 32)).
Proof using.
  intros He. unfold copy_supp_rates. destruct (e SUPP_RATES) as [z|] eqn:Es; [|sr_step; done]. rewrite <- Es.
  assert (present (e SUPP_RATES) = true) as Hp by now rewrite Es. clear Es z.
  case_bool_decide as El; [sr_step; done|].
  destruct (merge_run 32 (e SUPP_RATES) (e EXT_SUPP_RATES)) as (x & y & Ex & Ey & E & Hz); [lia|apply He..|lia|].
  sr_step. eapply sr_lift; [exact E|]. do 3 sr_step. do 3 (split; [done|]). intros _. exists x, y. do 4 (split; [done|]). lia.
Qed.

Lemma copy_ht_sr b s e : elem_ok e -> sta_run p w (copy_sta_ht_capab b p e) s (fun _ s' _ => moved [11] s s').
Proof using.
  intros He. unfold copy_sta_ht_capab. do 2 sr_step. cbv zeta.
  assert (sta_run p w (upd_sta p (fun s => upd_mlme (set_ht_capabilities None) (clear_flag WLAN_STA_HT s)) ;;; ret WLAN_STATUS_SUCCESS) s
    (fun _ s' _ => moved [11] s s')) as Hoff.
  { do 3 sr_step. apply (moved_clear 11 s (fun s => upd_mlme (set_ht_capabilities None) (clear_flag WLAN_STA_HT s))); try done. by left. }
  destruct e as [[l n]|]; [|exact Hoff]. destruct (He l n eq_refl) as [Hn _]. destruct (_ || _) eqn:Ec; [exact Hoff|].
  apply orb_false_iff in Ec as [[Ec%bool_decide_eq_false _]%orb_false_iff _]. unfold sizeof_ht_capabilities in *. sr_step.
  eapply (sr_weaken p w _ s (fun r s1 _ => r <> 0 /\ s1 = s)); [|destruct (bool_decide _); sr_tac; done].
  intros r s1 _ [Hr ->]. rewrite bool_decide_eq_false_2 by done. destruct (slice_in l 0 26) as (c & E & _); [lia..|].
  sr_step. eapply sr_lift; [exact E|]. do 3 sr_step.
  apply (moved_set 11 s (fun s => upd_mlme (set_ht_capabilities (Some c)) (set_flag WLAN_STA_HT s))); try done. by left.
Qed.

Lemma copy_vht_sr b s e : iconf_ok (iconf (ifc w)) -> elem_ok e -> sta_run p w (copy_sta_vht_capab b p e) s (fun _ s' _ => moved [18] s s').
Proof using.
  intros C He. unfold copy_sta_vht_capab. do 2 sr_step. sr_step. cbv zeta. rename w' into w1.
  assert (sta_run p w (upd_sta p (fun s => upd_mlme (set_vht_capabilities None) (clear_flag WLAN_STA_VHT s)) ;;; ret WLAN_STATUS_SUCCESS) s
    (fun _ s' _ => moved [18] s s')) as Hoff.
  { do 3 sr_step. apply (moved_clear 18 s (fun s => upd_mlme (set_vht_capabilities None) (clear_flag WLAN_STA_VHT s))); try done. by left. }
  destruct e as [[l n]|]; [|exact Hoff]. destruct (He l n eq_refl) as [Hn _]. destruct (_ || _) eqn:Ec; [exact Hoff|].
  apply orb_false_iff in Ec as [Ec%bool_decide_eq_false _]. unfold sizeof_vht_capabilities in *.
  destruct (rd_le_in l 4 2) as (x & Ex & _); [lia..|]. destruct (ic_vht _ C) as [Hv _].
  destruct (rd_le_in (vht_mcs_set (iconf (ifc w))) 4 2) as (y & Ey & _); [lia..|].
  sr_step. eapply sr_lift.
  { unfold check_valid_vht_mcs. rewrite Ex. cbn [res_bind]. match goal with E : ifc w1 = ifc w |- _ => rewrite E end. rewrite Ey. reflexivity. }
  destruct (negb _); [exact Hoff|]. sr_step.
  eapply (sr_weaken p w _ s (fun r s1 _ => r <> 0 /\ s1 = s)); [|destruct (bool_decide _); sr_tac; done].
  intros r s1 _ [Hr ->]. rewrite bool_decide_eq_false_2 by done. destruct (slice_in l 0 12) as (c & E & _); [lia..|].
  sr_step. eapply sr_lift; [exact E|]. do 3 sr_step.
  apply (moved_set 18 s (fun s => upd_mlme (set_vht_capabilities (Some c)) (set_flag WLAN_STA_VHT s))); try done. by left.
Qed.

Lemma opmode_sr s e : elem_ok e -> (forall l n, e = Some (l, n) -> n = 1) -> sta_run p w (set_sta_vht_opmode p e) s (fun _ s' _ => moved [20] s s').
Proof using.
  intros He H1. unfold set_sta_vht_opmode. destruct e as [[l n]|].
  - destruct (He l n eq_refl) as [Hn _]. specialize (H1 l n eq_refl). destruct (rd_in l 0) as (x & E & _); [lia|]. sr_step. eapply sr_lift; [exact E|].
    do 3 sr_step. apply (moved_set 20 s (fun s => upd_mlme (set_vht_opmode x) (set_flag WLAN_STA_VHT_OPMODE_ENABLED s))); try done. by left.
  - do 3 sr_step. apply (moved_clear 20 s (clear_flag WLAN_STA_VHT_OPMODE_ENABLED)); try done. by left.
Qed.

(** It never takes VHT away. *)
Lemma vendor_vht_sr b s e : elem_ok e -> sta_run p w (copy_sta_vendor_vht b p e) s (fun _ s' _ => moved [18; 21] s s' /\
  (has (sta_flags s) WLAN_STA_VHT = true -> has (sta_flags s') WLAN_STA_VHT = true)).
Proof using.
  intros He. unfold copy_sta_vendor_vht. do 2 sr_step. cbv zeta.
  assert (sta_run p w (upd_sta p (clear_flag WLAN_STA_VENDOR_VHT) ;;; ret WLAN_STATUS_SUCCESS) s
    (fun _ s' _ => moved [18; 21] s s' /\ (has (sta_flags s) WLAN_STA_VHT = true -> has (sta_flags s') WLAN_STA_VHT = true))) as Hoff.
  { do 3 sr_step. split; [apply (moved_clear 21 s (clear_flag WLAN_STA_VENDOR_VHT)); try done; right; by left|].
    intros Hv. unfold clear_flag, WLAN_STA_VENDOR_VHT, WLAN_STA_VHT in *. cbn [sta_flags set_sta_flags]. now rewrite has_clear, Hv by done. }
  destruct e as [[l n]|]; [|exact Hoff]. destruct (He l n eq_refl) as [Hn _]. destruct (_ || _) eqn:Ec; [exact Hoff|].
  apply orb_false_iff in Ec as [Ec%bool_decide_eq_false _]. unfold sizeof_vht_capabilities in *.
  destruct (rd_in l 5) as (x & Ex & _); [lia|]. sr_step. eapply sr_lift; [exact Ex|]. destruct (bool_decide _); [exact Hoff|].
  destruct (rd_in l 6) as (m & Em & _); [lia|]. sr_step. eapply sr_lift; [exact Em|]. destruct (_ || _); [exact Hoff|]. sr_step.
  eapply (sr_weaken p w _ s (fun r s1 _ => r <> 0 /\ s1 = s)); [|destruct (bool_decide _); sr_tac; done].
  intros r s1 _ [Hr ->]. rewrite bool_decide_eq_false_2 by done. destruct (slice_in l 7 12) as (c & E & _); [lia..|].
  sr_step. eapply sr_lift; [exact E|]. do 3 sr_step. set (s2 := upd_mlme _ _).
  assert (forall k, 0 <= k -> has (sta_flags s2) (2 ^ k) = has (sta_flags s) (2 ^ k) || bool_decide (k = 18) || bool_decide (k = 21)) as Hf.
  { intros k Hk. unfold s2, set_flag, WLAN_STA_VHT, WLAN_STA_VENDOR_VHT. cbn [sta_flags upd_mlme set_sta_flags].
    rewrite Z.lor_assoc, !has_set by done. now rewrite (bool_decide_ext (18 = k) (k = 18)), (bool_decide_ext (21 = k) (k = 21)) by done. }
  split; [|intros _; unfold WLAN_STA_VHT; rewrite Hf by done; now rewrite orb_true_r].
  split; [done..|]. intros k Hk Hkb. rewrite Hf by done. rewrite !bool_decide_eq_false_2 by (intros ->; apply Hkb; first [by left|right; by left]). now rewrite !orb_false_r.
Qed.

Lemma sr_logs {A} (m : M world A) Q s (Q' : A -> sta_info -> list call -> Prop) : logs m Q ->
  (forall o a cs, memory o -> Q o a -> Q' a s cs) -> sta_run p w m s Q'.
Proof using.
  intros Hm HQ e He. destruct (Hm (at_sta p s e w)) as (a & cs & E & H). exists a, s, cs. split; [exact E|]. by apply (HQ _ a cs He).
Qed.

Lemma wpa_status_ok r : wpa_status r = WLAN_STATUS_SUCCESS -> r = 0.
Proof using. unfold wpa_status. repeat case_match; done. Qed.

Lemma init_sr s addr : sta_run p w (wpa_auth_sta_init addr) s (fun _ s' _ => s' = s).
Proof using. unfold wpa_auth_sta_init. do 2 sr_step. destruct (bool_decide _); [by sr_step|]. do 2 sr_step. by sr_step. Qed.

Lemma wpa_sr b s e : (forall x, elem_ok (e x)) -> sta_run p w (check_wpa b p e) s (fun r s' cs => moved [] s s' /\
  (r = 0 -> wpa (bconf b) <> 0 -> wpa_admitted b e s')).
Proof using.
  intros He. unfold check_wpa. case_bool_decide as Ew.
  { do 5 sr_step. split; [|done]. match goal with |- moved _ _ (upd_mlme ?f _) => now apply (moved_plain s (upd_mlme f)) end. }
  destruct (wpa_ie_of b e) as [[id [l n]]|] eqn:E; [|sr_step; split; [apply moved_refl|done]].
  destruct (elem_of_wpa b e id l n He E) as [Hl Hid]. destruct (wpa_bytes id l n Hl Hid) as (x & Ex & Hu & Hne).
  unfold check_wpa_ie. do 3 sr_step.
  eapply (sr_weaken p w _ s (fun _ s1 _ => moved [] s s1)).
  2: { destruct (wpa_sm (mlme s)); [sr_step; apply moved_refl|]. sr_step. eapply sr_weaken; [|apply init_sr]. intros sm s1 cs ->. do 3 sr_step.
       match goal with |- moved _ _ (upd_mlme ?f _) => now apply (moved_plain s (upd_mlme f)) end. }
  intros sm s1 cs1 M1. destruct sm as [sm|]; [|sr_step; split; [done|done]].
  sr_step. eapply sr_lift; [exact Ex|]. sr_step.
  destruct (logs_validate (hostapd_wpa_auth_conf (bconf b)) (own_addr b) (sta_addr s) sm _ Hu Hne) as (v & res & d & Ev & Ep & Hv).
  eapply (sr_logs _ _ _ _ Hv). intros o [r sm'] cs _ (sm1 & Hs & J). cbn [fst snd] in *. subst sm'. do 2 sr_step. set (s2 := upd_mlme _ s1).
  assert (moved [] s s2) as M2.
  { apply (moved_trans [] [] [] s s1 s2); [done| |done|done]. now apply (moved_plain s1 (upd_mlme (set_wpa_sm (Some sm1)))). }
  case_bool_decide as Es; [sr_step; split; [done|intros Er; contradiction]|].
  assert (r = 0) as -> by (apply wpa_status_ok; exact Es). destruct (jd_ok _ _ _ _ _ _ _ _ _ J eq_refl) as (-> & Ha & Hc).
  assert ((has (sta_flags s) WLAN_STA_HT || has (sta_flags s) WLAN_STA_VHT = true -> sm_pairwise sm1 <> WPA_CIPHER_TKIP) -> wpa_admitted b e s2) as Hend.
  { intros Ht. exists id, l, n, x, v, d, sm1. do 7 (split; [done|]). unfold WLAN_STA_HT, WLAN_STA_VHT in *.
    rewrite !(mv_flags _ _ _ M2) by (lia || apply not_elem_of_nil). exact Ht. }
  destruct (_ || _) eqn:Eht; [|sr_step; split; [done|intros _ _; by apply Hend]].
  sr_step. eapply sr_lift; [reflexivity|]. sr_step. split; [done|]. case_bool_decide as Et; [done|]. intros _ _. by apply Hend.
Qed.
End CheckRuns.

(** The elements [e] of a request are accepted by the BSS; [s'] is the entry. *)
Record elems_admitted (i : hostapd_iface) (b : hostapd_data) (e : elems) (s' : sta_info) : Prop := {
  am_ssid : elem_data (e SSID) = Ok (take (Z.to_nat (ssid_len b)) (ssid b)) /\ e SSID <> None;
  am_wmm : has (sta_flags s') WLAN_STA_WMM = wmm_enabled (bconf b) && present (e WMM);
  am_rates : exists x y, present (e SUPP_RATES) = true /\ elem_data (e SUPP_RATES) = Ok x /\ elem_data (e EXT_SUPP_RATES) = Ok y /\
               supported_rates (mlme s') = x ++ y /\ zlen (x ++ y) <= 32;
  am_ht : ht_phy (iconf i) = true -> has (sta_flags s') WLAN_STA_HT = true;
  am_vht : vht_phy (iconf i) = true -> has (sta_flags s') WLAN_STA_VHT = true;
  am_wpa : wpa (bconf b) <> 0 -> wpa_admitted b e s' }.

(** What every check leaves alone. *)
Definition steady (s s' : sta_info) : Prop := sta_addr s' = sta_addr s /\ sta_aid_ s' = sta_aid_ s /\
  forall n, n ∈ [0; 1; 5] -> has (sta_flags s') (2 ^ n) = has (sta_flags s) (2 ^ n).

(** Sets of bits that do not meet. *)
Ltac far := by_check.

Lemma moved_steady bits s s' : moved bits s s' -> Forall (fun n => n ∉ bits) [0; 1; 5] -> steady s s'.
Proof.
  intros [A I R F] Hd. split; [done|]. split; [done|]. intros n Hn. apply F; [|by apply (proj1 (Forall_forall _ _) Hd)].
  repeat (apply elem_of_cons in Hn as [->|Hn]; [lia|]). inversion Hn.
Qed.

Lemma steady_trans s s1 s2 : steady s s1 -> steady s1 s2 -> steady s s2.
Proof. intros (A1 & I1 & F1) (A2 & I2 & F2). split; [congruence|]. split; [congruence|]. intros n Hn. now rewrite F2, F1. Qed.

(** One check after another: the first one refuses, or the rest follows. *)
Lemma check_sr p w (m k : M world Z) s (Q : Z -> sta_info -> list call -> Prop) :
  sta_run p w m s (fun r s' cs => (r <> 0 -> Q r s' cs) /\ (r = 0 -> sta_run p w k s' (fun r' s'' ds => Q r' s'' (cs ++ ds)))) ->
  sta_run p w (check m k) s Q.
Proof.
  intros Hm. unfold check. apply sr_bind. apply (sr_weaken _ _ _ _ _ _ (fun r s' cs H => H)) in Hm.
  eapply sr_weaken; [|exact Hm]. intros r s' cs [H1 H2]. case_bool_decide as E.
  - apply sr_ret. rewrite app_nil_r. now apply H1.
  - apply H2. unfold WLAN_STATUS_SUCCESS in E. lia.
Qed.

Lemma check_ies_sr p w i b s ies len : iconf_ok (iconf (ifc w)) -> bss_named b -> bss (ifc w) !! i = Some b ->
  Forall u8 ies -> 0 <= len <= zlen ies ->
  exists r e, ieee802_11_parse_elems ies len = Ok (r, e) /\
  sta_run p w (check_assoc_ies i p ies len) s (fun resp s' cs => steady s s' /\
    (resp = 0 -> r <> ParseFailed /\ elems_admitted (ifc w) b e s')).
Proof.
  intros C Hn Hb Hu Hl. destruct (parse_any (Z.to_nat len) ies len no_elems false) as (r & e & Ep & Pa); [done|done|lia|].
  fold (ieee802_11_parse_elems ies len) in Ep. exists r, e. split; [done|]. pose proof (parsed_inside _ _ _ _ Hu Pa) as He.
  assert (forall x, elem_ok (e x)) as Hx by (intros x l n E; now apply (He x)).
  assert (steady s s) as S0 by by (split; [|split]).
  unfold check_assoc_ies. apply sr_bind. apply (sr_get_bss p w i b); [done|]. apply sr_bind. apply (sr_lift _ _ _ (r, e)); [done|].
  case_bool_decide as Er; [apply sr_ret; split; [done|intros [=]]|].
  destruct (check_ssid_run b (e SSID)) as (r1 & E1 & H1); [done|apply Hx|].
  apply check_sr. apply (sr_lift _ _ _ r1); [done|]. split; [intros; split; [done|congruence]|]. intros Hr1. apply H1 in Hr1.
  apply check_sr. eapply sr_weaken; [|apply check_wmm_sr, Hx]. intros r2 s2 cs2 [M2 W2].
  assert (steady s s2) as S2 by (apply (moved_steady _ _ _ M2); far). split; [intros; split; [done|congruence]|]. intros Hr2. specialize (W2 Hr2).
  apply check_sr. apply sr_ret. split; [done|]. intros _.
  apply check_sr. eapply sr_weaken; [|apply supp_rates_sr, Hx]. intros r3 s3 cs3 (A3 & I3 & F3 & R3).
  assert (steady s s3) as S3 by (apply (steady_trans s s2); [done|split; [done|split; [done|intros n _; now rewrite F3]]]).
  split; [intros; split; [done|congruence]|]. intros Hr3. specialize (R3 Hr3).
  unfold check_ht. apply check_sr. eapply sr_weaken; [|apply copy_ht_sr, Hx]. intros r4 s4 cs4 M4.
  assert (steady s s4) as S4 by (apply (steady_trans s s3); [done|apply (moved_steady _ _ _ M4); far]).
  split; [intros; split; [done|congruence]|]. intros _. apply sr_get. intros w4 E4. apply sr_bind, sr_get_sta. rewrite E4.
  unfold require. destruct (ht_phy (iconf (ifc w)) && negb (has (sta_flags s4) WLAN_STA_HT)) eqn:Eht; [apply sr_ret; split; [done|intros [=]]|].
  unfold check_vht. apply check_sr. eapply sr_weaken; [|apply copy_vht_sr; [done|apply Hx]]. intros r5 s5 cs5 M5.
  assert (steady s s5) as S5 by (apply (steady_trans s s4); [done|apply (moved_steady _ _ _ M5); far]).
  split; [intros; split; [done|congruence]|]. intros _.
  apply check_sr. eapply sr_weaken; [|apply opmode_sr; [apply Hx|intros l n; now apply (opmode_one _ _ _ _ _ _ Ep)]]. intros r6 s6 cs6 M6.
  assert (steady s s6) as S6 by (apply (steady_trans s s5); [done|apply (moved_steady _ _ _ M6); far]).
  split; [intros; split; [done|congruence]|]. intros _. apply sr_get. intros w6 E6. apply sr_bind, sr_get_sta. rewrite E6. unfold require.
  destruct (vht_phy (iconf (ifc w)) && negb (has (sta_flags s6) WLAN_STA_VHT)) eqn:Evht; [apply sr_ret; split; [done|intros [=]]|].
  assert (forall s7, moved [18; 21] s6 s7 -> (has (sta_flags s6) WLAN_STA_VHT = true -> has (sta_flags s7) WLAN_STA_VHT = true) ->
    sta_run p w (check_wpa b p e) s7 (fun resp s' cs => steady s s' /\ (resp = 0 -> r <> ParseFailed /\ elems_admitted (ifc w) b e s'))) as Hend.
  { intros s7 M7 V7. eapply sr_weaken; [|apply wpa_sr, Hx]. intros r8 s8 cs8 [M8 W8]. split.
    { apply (steady_trans s s6); [done|]. apply (steady_trans s6 s7); [apply (moved_steady _ _ _ M7); far|apply (moved_steady _ _ _ M8); far]. }
    intros Hr8. split; [done|]. specialize (W8 Hr8).
    assert (forall n, n = 9 \/ n = 11 -> has (sta_flags s8) (2 ^ n) = has (sta_flags s4) (2 ^ n)) as Hflag.
    { intros n Hn9. assert (0 <= n) by lia. rewrite (mv_flags _ _ _ M8), (mv_flags _ _ _ M7), (mv_flags _ _ _ M6), (mv_flags _ _ _ M5); try done;
        rewrite ?elem_of_cons, ?elem_of_nil; lia. }
    assert (supported_rates (mlme s8) = supported_rates (mlme s3)) as Hrates.
    { now rewrite (mv_rates _ _ _ M8), (mv_rates _ _ _ M7), (mv_rates _ _ _ M6), (mv_rates _ _ _ M5), (mv_rates _ _ _ M4). }
    split; [exact Hr1| | | | |].
    - unfold WLAN_STA_WMM. rewrite Hflag by lia. rewrite (mv_flags _ _ _ M4) by (lia || far). rewrite F3. exact W2.
    - rewrite Hrates. exact R3.
    - intros Ht. unfold WLAN_STA_HT. rewrite Hflag by lia. rewrite Ht in Eht. cbn [andb] in Eht. now apply negb_false_iff in Eht.
    - intros Hv. rewrite Hv in Evht. cbn [andb] in Evht. apply negb_false_iff in Evht. specialize (V7 Evht). unfold WLAN_STA_VHT in *.
      rewrite (mv_flags _ _ _ M8) by (lia || far). exact V7.
    - exact W8. }
  destruct (vendor_vht (bconf b) && bool_decide (e VHT_CAPABILITIES = None)).
  - apply check_sr. eapply sr_weaken; [|apply vendor_vht_sr, Hx]. intros r7 s7 cs7 [M7 V7].
    assert (steady s s7) as S7 by (apply (steady_trans s s6); [done|apply (moved_steady _ _ _ M7); far]).
    split; [intros; split; [done|congruence]|]. intros _. eapply sr_weaken; [|apply (Hend s7 M7 V7)].
    done.
  - apply (Hend s6 (moved_refl _ _) id).
Qed.

(** ** The grant *)

(** What the grant leaves alone: the bits for short preambles and for ERP apart, the
    flags, and what the checks have put into the entry. *)
Definition settled_entry (s s' : sta_info) : Prop := moved [7; 31] s s' /\ capability (mlme s') = capability (mlme s) /\
  listen_interval (mlme s') = listen_interval (mlme s) /\ wpa_sm (mlme s') = wpa_sm (mlme s).

Definition stays {A} (p : positive) (m : M world A) : Prop := forall w a w' s, heap w !! p = Some s -> m w = Ok (a, w') ->
  exists s', heap w' !! p = Some s' /\ settled_entry s s'.

Section Stays.
Context (p : positive).

Lemma settled_refl s : settled_entry s s.
Proof using. split; [apply moved_refl|done]. Qed.

Lemma st_bind {A B} (m : M world A) (k : A -> M world B) : stays p m -> (forall a, stays p (k a)) -> stays p (bind m k).
Proof using.
  intros Hm Hk w b w' s Hs E. apply bind_inv in E as (a & w1 & E1 & E2). destruct (Hm _ _ _ _ Hs E1) as (s1 & Hs1 & M1 & C1 & L1 & W1).
  destruct (Hk a _ _ _ _ Hs1 E2) as (s2 & Hs2 & M2 & C2 & L2 & W2). exists s2. split; [done|].
  split; [by eapply moved_trans|]. split; [congruence|]. split; congruence.
Qed.

(** An operation that does not touch the entries. *)
Lemma st_heap {A} (m : M world A) : (forall w a w', m w = Ok (a, w') -> heap w' = heap w) -> stays p m.
Proof using. intros Hm w a w' s Hs E. exists s. rewrite (Hm _ _ _ E). split; [done|apply settled_refl]. Qed.

Lemma st_upd f : (forall s, settled_entry s (f s)) -> stays p (upd_sta p f).
Proof using.
  intros Hf w a w' s Hs E. unfold upd_sta in E. rewrite (bind_Ok _ _ _ _ _ (get_sta_run _ _ _ Hs)) in E. injection E as _ <-.
  exists (f s). split; [apply lookup_insert_eq|apply Hf].
Qed.

Lemma st_ret {A} (a : A) : stays p (ret a).
Proof using. apply st_heap. now intros w b w' [= _ <-]. Qed.
Lemma st_get : stays p get.
Proof using. apply st_heap. now intros w b w' [= _ <-]. Qed.
Lemma st_get_sta : stays p (get_sta p).
Proof using.
  apply st_heap. intros w a w' E. unfold get_sta in E. apply bind_inv in E as (b & w1 & [= <- <-] & E). destruct (_ !! _); [|done]. now injection E as _ <-.
Qed.
Lemma st_lift {A} (r : res A) : stays p (lift r).
Proof using. apply st_heap. intros w a w' E. unfold lift in E. destruct r; [|done]. now injection E as _ <-. Qed.
Lemma st_ifc f : stays p (modify (upd_ifc f)).
Proof using. apply st_heap. now intros w a w' [= _ <-]. Qed.
Lemma st_ext_ c : stays p (ext_ c).
Proof using. apply st_heap. now intros w a w' [= _ <-]. Qed.
Lemma st_ext c : stays p (ext c).
Proof using. apply st_heap. now intros w a w' [= _ <-]. Qed.

Lemma st_count flag set_sta num set : (forall s, settled_entry s (set_sta s)) -> stays p (count_up p flag set_sta num set).
Proof using.
  intros Hf. unfold count_up. apply st_bind; [apply st_get_sta|]. intros s. destruct (flag s); [apply st_ret|].
  apply st_bind; [by apply st_upd|]. intros _. apply st_bind; [apply st_ifc|]. intros _. apply st_ret.
Qed.
End Stays.

Lemma settled_plain s f : sta_addr (f s) = sta_addr s -> sta_aid_ (f s) = sta_aid_ s -> sta_flags (f s) = sta_flags s ->
  supported_rates (mlme (f s)) = supported_rates (mlme s) -> capability (mlme (f s)) = capability (mlme s) ->
  listen_interval (mlme (f s)) = listen_interval (mlme s) -> wpa_sm (mlme (f s)) = wpa_sm (mlme s) -> settled_entry s (f s).
Proof. intros. split; [by apply moved_plain|done]. Qed.

(** Walks through the grant. *)
Ltac st_tac :=
  repeat first
  [ apply st_ret | apply st_get | apply st_get_sta | apply st_lift | apply st_ifc | apply st_ext_ | apply st_ext
  | apply st_count; intros ?; match goal with |- settled_entry ?s (?f ?s) => by apply (settled_plain s f) end
  | match goal with |- stays _ (upd_sta _ ?f) => apply st_upd; intros ?; match goal with |- settled_entry ?s _ => by apply (settled_plain s f) end end
  | match goal with |- stays _ (bind _ _) => apply st_bind; [|intros ?] end
  | match goal with |- stays _ (if ?c then _ else _) => destruct c | |- stays _ (let _ := _ in _) => cbv zeta
    | |- stays _ (match ?c with Some _ => _ | None => _ end) => destruct c end ].

Lemma settled_flag_set k s : k ∈ [7; 31] -> settled_entry s (set_flag (2 ^ k) s).
Proof.
  intros Hk. split; [|done]. apply (moved_set k s (set_flag (2 ^ k))); try done.
  repeat (apply elem_of_cons in Hk as [->|Hk]; [lia|]). inversion Hk.
Qed.
Lemma settled_flag_clear k s : k ∈ [7; 31] -> settled_entry s (clear_flag (2 ^ k) s).
Proof.
  intros Hk. split; [|done]. apply (moved_clear k s (clear_flag (2 ^ k))); try done.
  repeat (apply elem_of_cons in Hk as [->|Hk]; [lia|]). inversion Hk.
Qed.

Lemma st_update_ht p : stays p (update_ht_state p).
Proof.
  unfold update_ht_state, update_sta_ht, update_sta_no_ht, ht40_intolerant_add, hostapd_ht_operation_update, set_beacons, hostapd. st_tac.
Qed.

Lemma st_marks p : stays p (mark_non_erp p) /\ stays p (mark_slot p) /\ stays p (mark_preamble p).
Proof.
  unfold mark_non_erp, mark_slot, mark_preamble, set_beacons, hostapd, WLAN_STA_NONERP, WLAN_STA_SHORT_PREAMBLE.
  split; [|split]; st_tac; apply st_upd; intros ?; (apply settled_flag_set || apply settled_flag_clear); by_check.
Qed.

Lemma grant_post p c l w a w' s : heap w !! p = Some s -> assoc_grant p c l w = Ok (a, w') ->
  exists s', heap w' !! p = Some s' /\ moved [7; 15; 31] s s' /\ capability (mlme s') = c /\ listen_interval (mlme s') = l /\
    wpa_sm (mlme s') = wpa_sm (mlme s) /\ has (sta_flags s') WLAN_STA_ASSOC_REQ_OK = true /\ timeout_next s' = STA_NULLFUNC.
Proof.
  intros Hs E. unfold assoc_grant in E. apply bind_inv in E as (? & w1 & E1 & E).
  unfold upd_sta in E1. rewrite (bind_Ok _ _ _ _ _ (get_sta_run _ _ _ Hs)) in E1. injection E1 as _ <-.
  set (s1 := upd_mlme _ s) in E. set (w1 := upd_heap _ w) in E. assert (heap w1 !! p = Some s1) as Hs1 by apply lookup_insert_eq.
  destruct (st_marks p) as (H1 & H2 & H3).
  assert (stays p (mark_non_erp p ;;; mark_slot p ;;; mark_preamble p ;;; update_ht_state p)) as Hm.
  { repeat (apply st_bind; [done|]; intros _). apply st_update_ht. }
  assert (exists w2, (mark_non_erp p ;;; mark_slot p ;;; mark_preamble p ;;; update_ht_state p) w1 = Ok (tt, w2) /\
    (upd_sta p (set_flag WLAN_STA_ASSOC_REQ_OK) ;;; upd_sta p (set_timeout_next STA_NULLFUNC)) w2 = Ok (a, w')) as (w2 & E2 & E3).
  { do 4 (apply bind_inv in E as ([] & ? & ? & E)). eexists. split; [|exact E]. do 3 (erewrite bind_Ok by done). done. }
  destruct (Hm _ _ _ _ Hs1 E2) as (s2 & Hs2 & M2 & C2 & L2 & W2).
  unfold upd_sta in E3. erewrite bind_Ok in E3 by (rewrite (bind_Ok _ _ _ _ _ (get_sta_run _ _ _ Hs2)); reflexivity).
  set (s3 := set_flag WLAN_STA_ASSOC_REQ_OK s2) in E3. set (w3 := upd_heap _ w2) in E3. assert (heap w3 !! p = Some s3) as Hs3 by apply lookup_insert_eq.
  rewrite (bind_Ok _ _ _ _ _ (get_sta_run _ _ _ Hs3)) in E3. injection E3 as _ <-. eexists. split; [apply lookup_insert_eq|].
  assert (moved [] s s1) as M1 by (now apply (moved_plain s (upd_mlme (fun m => set_listen_interval l (set_capability c m))))).
  assert (moved [15] s2 (set_timeout_next STA_NULLFUNC s3)) as M3.
  { apply (moved_set 15 s2 (fun x => set_timeout_next STA_NULLFUNC (set_flag WLAN_STA_ASSOC_REQ_OK x))); try done. by left. }
  split; [|do 3 (split; [done|]); split; [|done]].
  - apply (moved_trans [7; 31] [15] _ s s2); [|done|by_check|by_check]. apply (moved_trans [] [7; 31] _ s s1); [done|done|by_check|done].
  - cbn [sta_flags set_timeout_next]. unfold s3, set_flag, WLAN_STA_ASSOC_REQ_OK. cbn [sta_flags set_sta_flags]. rewrite has_set by done. apply orb_true_r.
Qed.

(** ** The whole request *)

(** The entry after the request was judged with [resp]. *)
Record assoc_judged (f : hostapd_iface) (b : hostapd_data) (pos : list Z) (left c l : Z) (s : sta_info) (resp : Z) (s' : sta_info) : Prop := {
  aj_addr : sta_addr s' = sta_addr s;
  aj_flags : forall n, n ∈ [0; 1; 5] -> has (sta_flags s') (2 ^ n) = has (sta_flags s) (2 ^ n);
  aj_ok : resp = 0 -> tkip_countermeasures b = false /\ l <= max_listen_interval (bconf b) /\
            0 < sta_aid_ s' <= 2007 /\ has (sta_flags s') WLAN_STA_ASSOC_REQ_OK = true /\ timeout_next s' = STA_NULLFUNC /\
            capability (mlme s') = c /\ listen_interval (mlme s') = l /\
            exists r e, ieee802_11_parse_elems pos left = Ok (r, e) /\ r <> ParseFailed /\ elems_admitted f b e s' }.

Lemma wpa_admitted_same b e s s' : (forall n, n ∈ [9; 11; 18] -> has (sta_flags s') (2 ^ n) = has (sta_flags s) (2 ^ n)) ->
  wpa_sm (mlme s') = wpa_sm (mlme s) -> wpa_admitted b e s -> wpa_admitted b e s'.
Proof.
  intros Hf Hw (id & l & n & x & v & d & sm & H). exists id, l, n, x, v, d, sm. rewrite Hw. unfold WLAN_STA_HT, WLAN_STA_VHT in *.
  by rewrite !Hf by far.
Qed.

Lemma admitted_settled i b e s s' : moved [7; 15; 31] s s' -> wpa_sm (mlme s') = wpa_sm (mlme s) ->
  elems_admitted i b e s -> elems_admitted i b e s'.
Proof.
  intros Hm Hw []. assert (forall n, n ∈ [9; 11; 18] -> has (sta_flags s') (2 ^ n) = has (sta_flags s) (2 ^ n)) as Hf.
  { intros n Hn. apply (mv_flags _ _ _ Hm); repeat (apply elem_of_cons in Hn as [->|Hn]; [lia || far|]); inversion Hn. }
  split; try done.
  - unfold WLAN_STA_WMM in *. now rewrite Hf by far.
  - now rewrite (mv_rates _ _ _ Hm).
  - unfold WLAN_STA_HT in *. now rewrite Hf by far.
  - unfold WLAN_STA_VHT in *. now rewrite Hf by far.
  - intros Hne. apply (wpa_admitted_same b e s); auto.
Qed.

(** The status of a request of the entry [s] at [p]. *)
Lemma assoc_status_run w i b p s pos left c l : ready w -> bss (ifc w) !! i = Some b -> p ∈ sta_list b -> heap w !! p = Some s ->
  Forall u8 pos -> 0 <= left <= zlen pos ->
  exists resp w' s', assoc_status i p pos left c l w = Ok (resp, w') /\ ready w' /\ at_table i (Some p) w' /\
    heap w' !! p = Some s' /\ assoc_judged (ifc w) b pos left c l s resp s'.
Proof.
  intros R Hb Hp Hs Hu Hl. assert (at_table i (Some p) w) as T by (split; [eauto|by exists b]).
  destruct (runs_assoc_status i p pos left c l Hu Hl w R T) as (resp & w' & E & R' & T').
  assert (exists s', heap w' !! p = Some s' /\ assoc_judged (ifc w) b pos left c l s resp s') as (s' & Hs' & J); [|by exists resp, w', s'].
  unfold assoc_status in E. rewrite (bind_Ok _ _ _ _ _ (get_bss_run _ _ _ Hb)) in E.
  assert (forall r, r <> 0 -> assoc_judged (ifc w) b pos left c l s r s) as Hno by (intros r Hr; by split).
  destruct (tkip_countermeasures b) eqn:Et; [injection E as <- <-; exists s; split; [done|now apply Hno]|].
  case_bool_decide as El; [injection E as <- <-; exists s; split; [done|now apply Hno]|].
  destruct (check_ies_sr p w i b s pos left) as (r & e & Ep & Hc); [apply (mo_iconf _ (proj1 R))|apply (io_bss _ (mo_iface _ (proj1 R)) i b Hb)|done..|].
  destruct (sr_start p w _ s _ Hc Hs (proj2 R)) as (r1 & s1 & cs & E1 & S1 & A1). set (w1 := at_sta p s1 _ w) in E1.
  destruct (runs_check_ies i p pos left Hu Hl w R T) as (? & ? & E1' & R1 & T1). rewrite E1 in E1'. injection E1' as <- <-.
  assert (heap w1 !! p = Some s1) as Hs1 by apply lookup_insert_eq. assert (bss (ifc w1) !! i = Some b) as Hb1 by exact Hb.
  destruct S1 as (SA & SI & SF). unfold check in E. rewrite (bind_Ok _ _ _ _ _ E1) in E. unfold WLAN_STATUS_SUCCESS in E.
  case_bool_decide as Er1; [injection E as <- <-; exists s1; split; [done|split; [done|done|congruence]]|].
  assert (r1 = 0) as -> by lia. destruct (A1 eq_refl) as [Hr Had]. clear A1.
  destruct (get_aid_run w1 i b p s1 (proj1 R1) Hb1 Hs1) as [Hold Hnew]. pose proof (io_aid _ (mo_iface _ (proj1 R1)) p s1 Hs1) as Ha.
  assert ((forall a, 0 < a <= 2007 -> aid_taken (sta_aid b) a = true) /\ hostapd_get_aid i p w1 = Ok (-1, w1) \/
    exists s2 w2, hostapd_get_aid i p w1 = Ok (0, w2) /\ heap w2 !! p = Some s2 /\ 0 < sta_aid_ s2 <= 2007 /\
      sta_addr s2 = sta_addr s1 /\ sta_flags s2 = sta_flags s1 /\ mlme s2 = mlme s1) as Haid.
  { destruct (decide (sta_aid_ s1 = 0)) as [Hz|Hz].
    - destruct (Hnew Hz) as [H|(a & Har & _ & _ & Ea)]; [by left|right]. eexists _, _. split; [exact Ea|]. split; [apply lookup_insert_eq|].
      repeat split; apply Har.
    - right. exists s1, w1. rewrite Hold by lia. split; [done|]. split; [done|]. split; [lia|done]. }
  destruct Haid as [[_ Ea]|(s2 & w2 & Ea & Hs2 & H2 & A2 & F2 & M2)]; rewrite (bind_Ok _ _ _ _ _ Ea) in E.
  { injection E as <- <-. exists s1. split; [done|]. by split. }
  cbn [bool_decide] in E. rewrite bool_decide_eq_false_2 in E by lia.
  rewrite (bind_Ok _ _ _ _ _ (get_sta_run _ _ _ Hs2)), (bind_Ok _ _ _ _ _ (ext_log _ _)) in E. set (w3 := with_log _ w2) in E.
  assert (heap w3 !! p = Some s2) as Hs3 by exact Hs2.
  assert (forall n, n ∈ [0; 1; 5] -> has (sta_flags s2) (2 ^ n) = has (sta_flags s) (2 ^ n)) as SF2 by (intros n Hn; rewrite F2; now apply SF).
  case_bool_decide; [injection E as <- <-; exists s2; split; [done|split; [congruence|done|done]]|].
  apply bind_inv in E as (? & w4 & E4 & E). injection E as <- <-.
  destruct (grant_post p c l w3 _ _ s2 Hs3 E4) as (s4 & Hs4 & M4 & C4 & L4 & W4 & O4 & T4). exists s4. split; [done|]. split.
  - rewrite (mv_addr _ _ _ M4). congruence.
  - intros n Hn. rewrite (mv_flags _ _ _ M4); [by apply SF2|..]; repeat (apply elem_of_cons in Hn as [->|Hn]; [lia || far|]); inversion Hn.
  - intros _. split; [done|]. split; [lia|]. rewrite (mv_aid _ _ _ M4). do 5 (split; [done|]). exists r, e. do 2 (split; [done|]).
    apply (admitted_settled _ _ _ s2); [done|done|]. destruct Had. split; rewrite ?F2, ?M2; try done. intros Hne. apply (wpa_admitted_same b e s1); [now rewrite F2|now rewrite M2|auto].
Qed.

Lemma send_resp_run w i b p s resp reassoc : ready w -> bss (ifc w) !! i = Some b -> heap w !! p = Some s -> mac_ok (sta_addr s) ->
  exists dfs, send_assoc_resp i p resp reassoc w
  = Ok (tt, with_log [Hostapd (str "hostapd_is_dfs_required") []; DrvSendMlme (assoc_resp (ifc w) b s dfs resp reassoc) false] w).
Proof.
  intros R Hb Hs Hm. pose proof (mo_iface _ (proj1 R)) as I. unfold send_assoc_resp.
  rewrite (bind_Ok _ _ _ _ _ (get_bss_run _ _ _ Hb)), (bind_Ok _ _ _ _ _ (get_sta_run _ _ _ Hs)), (bind_Ok _ _ _ _ _ (ext_log _ _)).
  set (dfs := onum _ _ _). exists dfs. set (w1 := with_log _ w). rewrite (bind_Ok _ _ w1 w1 w1) by done. change (ifc w1) with (ifc w).
  assert (within (sizeof_ieee80211_mgmt + 1024) (assoc_resp (ifc w) b s dfs resp reassoc) = Ok (assoc_resp (ifc w) b s dfs resp reassoc)) as E.
  { unfold within. rewrite bool_decide_eq_true_2; [done|]. apply assoc_fits; [apply (mo_iconf _ (proj1 R))|apply (nm_addr _ (proj2 (io_bss _ I i b Hb)))|apply Hm]. }
  erewrite (bind_Ok _ _ w1) by (unfold lift; rewrite E; reflexivity). unfold hostapd_drv_send_mlme.
  rewrite bind_assoc, (bind_Ok _ _ w1 w1 w1) by done. change (driver_ops (ifc w1)) with (driver_ops (ifc w)). now rewrite (io_ops _ I).
Qed.

(** ** What goes out *)

Section Silent.
Lemma silent_check (m k : M world Z) : silent m -> silent k -> silent (check m k).
Proof. intros Hm Hk. unfold check. repeat first [assumption|silent_step]. Qed.
Lemma silent_require c r (k : M world Z) : silent k -> silent (require c r k).
Proof. intros Hk. unfold require. repeat first [assumption|silent_step]. Qed.

Lemma silent_update_ht p : silent (update_ht_state p).
Proof.
  unfold update_ht_state, update_sta_ht, update_sta_no_ht, hostapd_ht_operation_update, ht40_intolerant_add, set_beacons, hostapd, retimer. silent_tac.
Qed.

Lemma silent_own n addr : forall ids, silent (pmksa_own n addr ids).
Proof. induction n as [|n IH]; intros ids; cbn [pmksa_own]; silent_tac; apply IH. Qed.
Lemma silent_okc n own addr : forall ids, silent (pmksa_okc n own addr ids).
Proof. induction n as [|n IH]; intros ids; cbn [pmksa_okc]; silent_tac; apply IH. Qed.
#[local] Hint Resolve silent_update_ht silent_own silent_okc : silent.

Lemma silent_check_ies i p pos left : silent (check_assoc_ies i p pos left).
Proof.
  unfold check_assoc_ies, check_wmm, copy_supp_rates, check_ht, check_vht, copy_sta_ht_capab, copy_sta_vht_capab, copy_sta_vendor_vht,
    set_sta_vht_opmode, check_wpa, check_wpa_ie, wpa_auth_sta_init, wpa_validate_wpa_ie, find_pmksa, keep_ie, hostapd.
  repeat first [apply silent_check|apply silent_require|silent_step].
Qed.
#[local] Hint Resolve silent_check_ies : silent.

Lemma silent_grant p c l : silent (assoc_grant p c l).
Proof. unfold assoc_grant, mark_non_erp, mark_slot, mark_preamble, set_beacons, hostapd. silent_tac. Qed.
#[local] Hint Resolve silent_grant : silent.

Lemma silent_assoc_status i p pos left c l : silent (assoc_status i p pos left c l).
Proof. unfold assoc_status, hostapd_get_aid. repeat first [apply silent_check|silent_step]. Qed.
End Silent.

(** The fields of a (re)association request. *)
Record assoc_request (mgmt : list Z) (len : Z) (reassoc : bool) (addr : list Z) (fc seq c l : Z) (pos : list Z) (left : Z) : Prop := {
  as_len : 24 + assoc_fixed reassoc <= len;
  as_fc : frame_control mgmt = Ok fc;
  as_seq : seq_ctrl mgmt = Ok seq;
  as_capab : rd_le 24 2 mgmt = Ok c;
  as_listen : rd_le 26 2 mgmt = Ok l;
  as_sa : sa mgmt = Ok addr;
  as_pos : pos = drop (Z.to_nat (24 + assoc_fixed reassoc)) mgmt;
  as_left : left = len - (24 + assoc_fixed reassoc) }.

(** The entry that the request was noted in. *)
Definition noted (seq : Z) (reassoc : bool) (s : sta_info) : sta_info :=
  upd_mlme (set_last_subtype (if reassoc then WLAN_FC_STYPE_REASSOC_REQ else WLAN_FC_STYPE_ASSOC_REQ)) (set_last_seq_ctrl seq s).

Lemma handle_assoc_run (w : world) (i : nat) (b : hostapd_data) (mgmt : list Z) (len : Z) (reassoc : bool)
    (addr : list Z) (fc seq c l : Z) (pos : list Z) (left : Z) (Hw : ready w) (Hb : bss (ifc w) !! i = Some b)
    (Hf : frame_ok mgmt len) (Hr : assoc_request mgmt len reassoc addr fc seq c l pos left) :
  ((forall p s, sta_at w b addr p s -> authenticated s = false) ->
     handle_assoc i mgmt len reassoc w = Ok (tt, with_log [DrvSendMlme (deauth_frame b addr WLAN_REASON_CLASS2_FRAME_FROM_NONAUTH_STA) false] w)) /\
  (forall p s, sta_at w b addr p s -> authenticated s = true ->
     (assoc_repeated s fc seq reassoc = true -> handle_assoc i mgmt len reassoc w = Ok (tt, w)) /\
     (assoc_repeated s fc seq reassoc = false ->
        exists resp w1 b1 s1 dfs, let answer := DrvSendMlme (assoc_resp (ifc w1) b1 s1 dfs resp reassoc) false in
          handle_assoc i mgmt len reassoc w = Ok (tt, with_log [Hostapd (str "hostapd_is_dfs_required") []; answer] w1) /\
          frames (with_log [Hostapd (str "hostapd_is_dfs_required") []; answer] w1) = frames w ++ [answer] /\
          ready w1 /\ bss (ifc w1) !! i = Some b1 /\ p ∈ sta_list b1 /\ heap w1 !! p = Some s1 /\
          assoc_judged (ifc w) b pos left c l (noted seq reassoc s) resp s1)).
Proof.
  destruct Hr. pose proof (mo_iface _ (proj1 Hw)) as I. destruct (io_bss _ I i b Hb) as [Hok _].
  assert (4 <= assoc_fixed reassoc <= 10) as Hfix by (destruct reassoc; unfold assoc_fixed; lia).
  destruct (header_ok mgmt len Hf) as (_ & _ & _ & (addr' & Ea & Hm) & _); [lia|]. assert (addr' = addr) as -> by congruence.
  assert (handle_assoc i mgmt len reassoc w = (sta <-- ap_get_sta i addr ;;
    match sta with
    | None => send_deauth i addr WLAN_REASON_CLASS2_FRAME_FROM_NONAUTH_STA
    | Some p =>
        s <-- get_sta p ;;
        if negb (authenticated s) then send_deauth i addr WLAN_REASON_CLASS2_FRAME_FROM_NONAUTH_STA
        else if assoc_repeated s fc seq reassoc then ret tt
        else
          upd_sta p (set_last_seq_ctrl seq) ;;;
          upd_sta p (upd_mlme (set_last_subtype (if reassoc then WLAN_FC_STYPE_REASSOC_REQ else WLAN_FC_STYPE_ASSOC_REQ))) ;;;
          resp <-- assoc_status i p pos left c l ;;
          send_assoc_resp i p resp reassoc
    end) w) as ->.
  { unfold handle_assoc, IEEE80211_HDRLEN. rewrite bool_decide_eq_false_2 by lia.
    rewrite (bind_Ok _ _ w fc w), (bind_Ok _ _ w seq w), (bind_Ok _ _ w c w), (bind_Ok _ _ w l w) by (unfold lift; now rewrite ?as_fc0, ?as_seq0, ?as_capab0, ?as_listen0).
    cbv zeta. rewrite (bind_Ok _ _ w addr w) by (unfold lift; now rewrite as_sa0). now subst pos left. }
  assert (send_deauth i addr WLAN_REASON_CLASS2_FRAME_FROM_NONAUTH_STA w
    = Ok (tt, with_log [DrvSendMlme (deauth_frame b addr WLAN_REASON_CLASS2_FRAME_FROM_NONAUTH_STA) false] w)) as Hde.
  { unfold send_deauth, hostapd_drv_send_mlme. rewrite (bind_Ok _ _ _ _ _ (get_bss_run _ _ _ Hb)), bind_assoc, (bind_Ok _ _ w w w) by done. now rewrite (io_ops _ I). }
  destruct (ap_get_sta_spec w i b addr Hb Hok Hm) as (r & Eg & Hg). rewrite (bind_Ok _ _ _ _ _ Eg). split.
  - intros Hna. destruct r as [p|]; [|exact Hde]. destruct (proj1 (Hg p) eq_refl) as (s & Hp). rewrite (bind_Ok _ _ _ _ _ (get_sta_run _ _ _ (proj1 (proj2 Hp)))).
    now rewrite (Hna p s Hp).
  - intros p s Hp Hau. assert (r = Some p) as -> by (apply Hg; eauto). destruct Hp as (Hpl & Hs & Has).
    rewrite (bind_Ok _ _ _ _ _ (get_sta_run _ _ _ Hs)), Hau. cbn [negb]. split; intros Hrep; rewrite Hrep; [done|].
    assert (at_table i (Some p) w) as T by (split; [eauto|by exists b]).
    assert ((upd_sta p (set_last_seq_ctrl seq) ;;; upd_sta p (upd_mlme (set_last_subtype (if reassoc then WLAN_FC_STYPE_REASSOC_REQ else WLAN_FC_STYPE_ASSOC_REQ)))) w
      = Ok (tt, upd_heap <[p := noted seq reassoc s]> w)) as En.
    { erewrite bind_Ok by (unfold upd_sta; rewrite (bind_Ok _ _ _ _ _ (get_sta_run _ _ _ Hs)); reflexivity).
      unfold upd_sta. rewrite (bind_Ok _ _ _ _ _ (get_sta_run (upd_heap <[p := set_last_seq_ctrl seq s]> w) p _ (lookup_insert_eq _ _ _))).
      unfold modify, upd_heap. cbn [heap fn ifc master wenv]. now rewrite insert_insert_eq. }
    set (w0 := upd_heap <[p := noted seq reassoc s]> w) in En.
    assert (ready w0 /\ at_table i (Some p) w0) as [R0 T0].
    { assert (runs i (Some p) (Some p) (upd_sta p (set_last_seq_ctrl seq) ;;; upd_sta p (upd_mlme (set_last_subtype (if reassoc then WLAN_FC_STYPE_REASSOC_REQ else WLAN_FC_STYPE_ASSOC_REQ))))) as Hrun by runs_tac.
      destruct (Hrun w Hw T) as (? & ? & E' & R' & T'). rewrite En in E'. now injection E' as _ <-. }
    assert (bss (ifc w0) !! i = Some b) as Hb0 by exact Hb. assert (heap w0 !! p = Some (noted seq reassoc s)) as Hs0 by apply lookup_insert_eq.
    destruct (assoc_status_run w0 i b p (noted seq reassoc s) pos left c l R0 Hb0 Hpl Hs0) as (resp & w1 & s1 & E1 & R1 & [_ (b1 & Hb1 & Hp1)] & Hs1 & J).
    { subst pos. apply Forall_drop, Hf. }
    { subst pos left. pose proof (proj2 (fo_len _ _ Hf)). unfold zlen in *. rewrite length_drop. lia. }
    assert (mac_ok (sta_addr s1)) as Hm1.
    { destruct (bss_live _ _ (proj1 (io_bss _ (mo_iface _ (proj1 R1)) i b1 Hb1)) p Hp1) as (s' & Hs' & Hm'). congruence. }
    destruct (send_resp_run w1 i b1 p s1 resp reassoc R1 Hb1 Hs1 Hm1) as (dfs & Es).
    assert (frames w1 = frames w) as Ef by exact (silent_assoc_status i p pos left c l _ _ _ E1).
    exists resp, w1, b1, s1, dfs. cbv zeta. split; [|split; [by rewrite frames_log, Ef|done]].
    rewrite <- bind_assoc, (bind_Ok _ _ _ _ _ En), (bind_Ok _ _ _ _ _ E1). exact Es.
Qed.


(** ** What the answer says *)

Section LastAssoc.
Context (x : elem) (i : hostapd_iface) (b : hostapd_data).

Lemma last_assoc flags : x <> EXT_CAPAB -> last_of x (assoc_ies i b flags) =
  if has flags WLAN_STA_WMM && wmm_enabled (bconf b) && bool_decide (x = WMM) then Some (wmm_data i b)
  else if vendor_vht (bconf b) && has flags WLAN_STA_VENDOR_VHT && bool_decide (x = VENDOR_VHT) then Some (vendor_data i b)
  else if ieee80211ac (iconf i) && negb (disable_11ac (bconf b)) && bool_decide (x = VHT_OPERATION) then Some (vht_oper_data i)
  else if ieee80211ac (iconf i) && negb (disable_11ac (bconf b)) && bool_decide (x = VHT_CAPABILITIES) then Some (vht_cap_data i b)
  else if ht_on i b && bool_decide (x = HT_OPERATION) then Some (ht_operation_data i)
  else if ht_on i b && bool_decide (x = HT_CAPABILITIES) then Some (ht_cap_data (iconf i))
  else last_of x (rates_ies (iconf i)).
Proof using.
  intros Hx. unfold assoc_ies. rewrite !last_of_app, !last_of_opt, last_wmm, last_vendor, last_ext_capab, last_vht, last_ht by done.
  destruct (has flags WLAN_STA_WMM), (wmm_enabled (bconf b)), (vendor_vht (bconf b)), (has flags WLAN_STA_VENDOR_VHT),
    (ieee80211ac (iconf i) && negb (disable_11ac (bconf b))), (ht_on i b); cbn [andb]; repeat case_bool_decide; by subst.
Qed.
End LastAssoc.

(** C23: the answer to a (re)association request fits the buffer it is written into,
    and a station that parses it finds whole elements and in each of them what the
    state of the BSS says: all rates of the interface, with the selectors of the
    required PHYs, split over the two rate elements; HT capabilities and the HT
    operation element with the current mode; VHT when it is on; the vendor's VHT
    and WMM elements exactly when the station uses them. *)
Theorem assoc_resp_reads_back (i : hostapd_iface) (b : hostapd_data) (s : sta_info) (dfs status : Z) (reassoc : bool)
    (C : iconf_ok (iconf i)) (Hown : length (own_addr b) = 6%nat) (Hsta : length (sta_addr s) = 6%nat) :
  let frame := assoc_resp i b s dfs status reassoc in
  let vht := ieee80211ac (iconf i) && negb (disable_11ac (bconf b)) in
  zlen frame <= sizeof_ieee80211_mgmt + 1024 /\
  rd_le 26 2 frame = Ok (status mod 65536) /\
  exists r e, ieee802_11_parse_elems (drop 30 frame) (zlen frame - 30) = Ok (r, e) /\ r <> ParseFailed /\
    (forall rates, current_rates (iconf i) = Some rates -> exists l k, elem_bytes e SUPP_RATES = Some l /\ zlen l <= 8 /\
       elem_bytes e EXT_SUPP_RATES = (if bool_decide (k = []) then None else Some k) /\ l ++ k = all_rates (iconf i) rates) /\
    elem_bytes e HT_CAPABILITIES = (if ht_on i b then Some (ht_cap_data (iconf i)) else None) /\
    elem_bytes e HT_OPERATION = (if ht_on i b then Some (ht_operation_data i) else None) /\
    elem_bytes e VHT_CAPABILITIES = (if vht then Some (vht_cap_data i b) else None) /\
    elem_bytes e VHT_OPERATION = (if vht then Some (vht_oper_data i) else None) /\
    elem_bytes e VENDOR_VHT = (if vendor_vht (bconf b) && has (sta_flags s) WLAN_STA_VENDOR_VHT then Some (vendor_data i b) else None) /\
    elem_bytes e WMM = (if has (sta_flags s) WLAN_STA_WMM && wmm_enabled (bconf b) then Some (wmm_data i b) else None) /\
    elem_bytes e RSN_IE = None.
Proof.
  cbv zeta. split; [now apply assoc_fits|].
  set (hdr := mgmt_header (if reassoc then WLAN_FC_STYPE_REASSOC_RESP else WLAN_FC_STYPE_ASSOC_RESP) (sta_addr s) (own_addr b) (own_addr b)). set (capab := le_bytes 2 (hostapd_own_capab_info i b (Some s) false dfs)). set (aid := le_bytes 2 (Z.lor (sta_aid_ s) (2 ^ 14 + 2 ^ 15))).
  assert (zlen hdr = 24) as Hh.
  { unfold hdr, mgmt_header. rewrite !zlen_app, zlen_le_bytes. unfold zlen. rewrite Hown, Hsta. done. }
  assert (assoc_resp i b s dfs status reassoc = (hdr ++ capab) ++ le_bytes 2 status ++ aid ++ ies_bytes (assoc_ies i b (sta_flags s))) as ->.
  { unfold assoc_resp. fold hdr capab aid. rewrite (assoc_variable_run _ _ _ C). now rewrite <- app_assoc. }
  assert (zlen (hdr ++ capab) = 26) as Hc by (rewrite zlen_app, Hh; unfold capab; now rewrite zlen_le_bytes).
  split; [rewrite (rd_le_mid 2 status _ _ 26) by done; done|].
  set (l := assoc_ies i b (sta_flags s)).
  assert (drop 30 ((hdr ++ capab) ++ le_bytes 2 status ++ aid ++ ies_bytes l) = ies_bytes l) as ->.
  { assert (forall k : list Z, (hdr ++ capab) ++ le_bytes 2 status ++ aid ++ k = ((hdr ++ capab) ++ le_bytes 2 status ++ aid) ++ k) as ->
      by (intros k; now rewrite <- !app_assoc). apply drop_app_length'.
    rewrite !length_app. unfold zlen in Hc. rewrite length_app in Hc. unfold aid. cbn [le_bytes length]. lia. }
  assert (zlen ((hdr ++ capab) ++ le_bytes 2 status ++ aid ++ ies_bytes l) - 30 = zlen (ies_bytes l)) as ->.
  { rewrite zlen_app, !(zlen_app (le_bytes 2 status)), (zlen_app aid), Hc. unfold aid. rewrite !zlen_le_bytes. lia. }
  destruct (parse_whole (ies_bytes l) (zlen (ies_bytes l)) l) as (e & E & Hx).
  { pose proof (zlen_nonneg (ies_bytes l)). lia. } { now apply assoc_ies_ok. } { apply take_ge. unfold zlen. lia. }
  eexists _, e. split; [exact E|]. split; [by destruct (has_unknown l)|].
  split; [|repeat split; rewrite Hx; unfold l; rewrite last_assoc by done; rewrite ?andb_true_r, ?andb_false_r, ?last_rates by done].
  - intros rates Er. assert (forall x, x = SUPP_RATES \/ x = EXT_SUPP_RATES -> elem_bytes e x = last_of x (rates_ies (iconf i))) as Hxr.
    { intros x Hor. rewrite Hx. unfold l. rewrite last_assoc by (by destruct Hor as [-> | ->]). destruct Hor as [-> | ->]; cbn; now rewrite ?andb_false_r. }
    exists (take 8 (all_rates (iconf i) rates)), (drop 8 (all_rates (iconf i) rates)). rewrite !Hxr by auto. unfold rates_ies. rewrite Er.
    pose proof (zlen_all_rates (iconf i) rates) as Hz.
    assert (drop 8 (all_rates (iconf i) rates) = [] <-> num_all (iconf i) rates <= 8) as Hd.
    { rewrite <- length_zero_iff_nil, length_drop. unfold zlen in Hz. lia. }
    rewrite (last_of_cons SUPP_RATES), (last_of_cons EXT_SUPP_RATES), !(last_of_kind _ WLAN_EID_SUPP_RATES _ SUPP_RATES), (bool_decide_ext _ _ Hd) by done.
    assert (zlen (take 8 (all_rates (iconf i) rates)) <= 8) as H8 by (unfold zlen; rewrite length_take; lia).
    pose proof (take_drop 8 (all_rates (iconf i) rates)) as Htd. case_bool_decide; done.
  - by destruct (ht_on i b).
  - by destruct (ht_on i b).
  - by destruct (_ && _).
  - by destruct (_ && _).
  - by destruct (_ && _).
  - by destruct (_ && _).
  - done.
Qed.

(** ** Repeated requests *)

(** The test of repeated requests works for one of the two kinds only.  The
    comparison of the subtype is with the flag [reassoc] and not with the subtype
    that was noted (the [?:] binds less tightly than the code's author meant): an
    association request that is sent again with its sequence number is dropped, and
    nothing changes; a reassociation request that is sent again is never dropped, and
    is answered once more. *)
Theorem reassoc_not_deduplicated (w w' : world) (i : nat) (b : hostapd_data) (p : positive) (s : sta_info) (mgmt : list Z) (len : Z)
    (reassoc : bool) (addr : list Z) (fc seq c l : Z) (pos : list Z) (left : Z) (Hw : ready w) (Hb : bss (ifc w) !! i = Some b)
    (Hf : frame_ok mgmt len) (Hr : assoc_request mgmt len reassoc addr fc seq c l pos left) (Hretry : has fc WLAN_FC_RETRY = true)
    (Hseq : seq <> WLAN_INVALID_MGMT_SEQ) (Hs : sta_at w b addr p s) (Ha : authenticated s = true)
    (Hlast : last_seq_ctrl s = seq) (Hsub : last_subtype (mlme s) = (if reassoc then WLAN_FC_STYPE_REASSOC_REQ else WLAN_FC_STYPE_ASSOC_REQ)) :
  handle_assoc i mgmt len reassoc w = Ok (tt, w') ->
  (reassoc = false -> w' = w) /\ (reassoc = true -> exists f, last (trace (wenv w')) = Some (DrvSendMlme f false)).
Proof.
  intros E. assert (assoc_repeated s fc seq reassoc = negb reassoc) as Hrep.
  { unfold assoc_repeated. rewrite Hretry, Hlast, Hsub, (bool_decide_eq_true_2 (seq <> _)), (bool_decide_eq_true_2 (seq = seq)) by done.
    by destruct reassoc. }
  destruct (handle_assoc_run w i b mgmt len reassoc addr fc seq c l pos left Hw Hb Hf Hr) as [_ H]. destruct (H p s Hs Ha) as [Hdrop Hgo]. split.
  - intros ->. rewrite (Hdrop Hrep) in E. now injection E as <-.
  - intros ->. destruct (Hgo Hrep) as (resp & w1 & b1 & s1 & dfs & E' & _). rewrite E' in E. injection E as <-.
    eexists. simpl. rewrite last_snoc. reflexivity.
Qed.

(** ** Concrete requests *)

(** A (re)association request of [mac1], which is authenticated with the first
    network. *)
Definition demo_assoc (fc : Z) (reassoc : bool) (seq l : Z) (ies : list ie) : list Z :=
  le_bytes 2 (Z.lor fc (mgmt_fc (if reassoc then WLAN_FC_STYPE_REASSOC_REQ else WLAN_FC_STYPE_ASSOC_REQ))) ++ [0; 0] ++ [2; 1; 2; 3; 4; 5] ++ mac1
  ++ [2; 1; 2; 3; 4; 5] ++ le_bytes 2 seq ++ le_bytes 2 0x431 ++ le_bytes 2 l ++ (if reassoc then replicate 6 0 else []) ++ ies_bytes ies.

Definition demo_assoc_ies : list ie :=
  [(0, [65; 65]); (1, [12; 18; 24; 36; 48; 72; 96; 108]); (221, [0; 0x50; 0xf2; 2; 0; 1; 0]); (45, ht_cap_data demo_iface_config)].

Definition demo_request (fc : Z) (reassoc : bool) : list Z := demo_assoc fc reassoc 16 10 demo_assoc_ies.

Lemma demo_request_ok fc reassoc : frame_ok (demo_request fc reassoc) (zlen (demo_request fc reassoc)).
Proof.
  split; [pose proof (zlen_nonneg (demo_request fc reassoc)); lia|].
  unfold demo_request, demo_assoc. rewrite !Forall_app. split; [apply le_bytes_u8|].
  destruct reassoc; repeat split; try apply le_bytes_u8; unfold u8; by_check.
Qed.

(** The status and the AID of the answer that was sent last. *)
Definition last_answer (w : world) : option (Z * Z) :=
  match last (trace (wenv w)) with
  | Some (DrvSendMlme f _) => match rd_le 26 2 f, rd_le 28 2 f with Ok st, Ok aid => Some (st, aid) | _, _ => None end
  | _ => None
  end.

Lemma demo_request_fields retry reassoc : let fc := if retry : bool then 0x800 else 0 in
  assoc_request (demo_request fc reassoc) (zlen (demo_request fc reassoc)) reassoc mac1
    (Z.lor fc (mgmt_fc (if reassoc then WLAN_FC_STYPE_REASSOC_REQ else WLAN_FC_STYPE_ASSOC_REQ))) 16 0x431 10
    (ies_bytes demo_assoc_ies) (zlen (ies_bytes demo_assoc_ies)).
Proof. destruct retry, reassoc; split; try reflexivity; vm_compute; discriminate. Qed.

Lemma demo_sta_at e p s : sta_at (demo_world1 e) demo_bss1 mac1 p s -> s = demo_sta mac1.
Proof.
  intros (_ & Hs & _). change (heap (demo_world1 e)) with (<[1%positive := demo_sta mac1]> (∅ : gmap positive sta_info)) in Hs.
  apply lookup_insert_Some in Hs as [[_ <-]|[_ Hs]]; [done|now rewrite lookup_empty in Hs].
Qed.

Lemma demo_sta_here e : sta_at (demo_world1 e) demo_bss1 mac1 1 (demo_sta mac1).
Proof. split; [by_check|]. split; [apply lookup_insert_eq|done]. Qed.


Lemma assoc_resp_reads_back_witness : exists r e,
  ieee802_11_parse_elems (drop 30 (assoc_resp demo_iface demo_bss1 (demo_sta mac1) 0 0 false)) (zlen (assoc_resp demo_iface demo_bss1 (demo_sta mac1) 0 0 false) - 30)
  = Ok (r, e) /\ elem_bytes e HT_OPERATION = Some (ht_operation_data demo_iface) /\ elem_bytes e WMM = None.
Proof.
  destruct (assoc_resp_reads_back demo_iface demo_bss1 (demo_sta mac1) 0 0 false) as (_ & _ & r & e & E & _ & _ & _ & H1 & _ & _ & _ & H2 & _).
  - apply demo_iconf_ok.
  - reflexivity.
  - reflexivity.
  - exists r, e. split; [exact E|]. split; [exact H1|exact H2].
Defined.

(** A network with WPA2 and a shared key. *)
Definition demo_wpa_bss (ciphers : Z) : hostapd_data :=
  {| own_addr := [2; 1; 2; 3; 4; 5]; own_sta := replicate 6 0; flag_priv := VAP_IDLE; beacon_set_done := 0; csa_in_progress := false;
     ssid := pad32 [65; 65]; ssid_len := 2; conf_iface := replicate 17 0; max_num_sta := 2007; num_sta := 0; sta_list := [];
     sta_hash := replicate 256 []; sta_aid := replicate 63 0; tkip_countermeasures := false; parameter_set_count := 0;
     bconf :=
       {| auth_algs := 1; wpa := 2; ieee802_1x := false; osen := false; wmm_enabled := true; wmm_uapsd := false; rsn_preauth := false;
          peerkey := false; okc := false; max_listen_interval := 65535; disable_11n := false; disable_11ac := false; vendor_vht := false;
          wds_sta := false; macaddr_acl := 0; accept_mac := []; deny_mac := []; vlan := []; dynamic_vlan := 0; security_policy := 0;
          wep_default_len := 0; radio_measurements := false; tdls := 0; interworking := false; wnm_sleep_mode := false;
          bss_transition := false; proxy_arp := false; time_advertisement := 0; qos_map_set := []; utf8_ssid := false;
          bcn :=
            {| ignore_broadcast_ssid := 0; rrm_neighbor_report := false; bss_load_update_period := 0; time_zone := [];
               wpa_auth_ie := None; vendor_elements := None; wep_keys_set := false; default_wep_key_len := 0; individual_wep_key_len := 0;
               dtim_period := 2; wpa_pairwise := 0; rsn_pairwise := ciphers; wpa_group := ciphers; wpa_key_mgmt := WPA_KEY_MGMT_PSK;
               isolate := 0; hessid := replicate 6 0; access_network_type := 0; max_inactivity_conf := 300; cs_freq := 0;
               cs_sec_channel_offset := 0; cs_block_tx := 0; cs_count := 0 |} |} |}.

(** The verdict on a station with HT and the element that names [ciphers]. *)
Definition wpa_verdict (ciphers : Z) (ie : option (list Z)) : option Z :=
  match (upd_sta 1 (set_flag WLAN_STA_HT) ;;;
         check_wpa (demo_wpa_bss ciphers) 1 (fun x => if decide (x = RSN_IE) then option_map (fun l => (drop 2 l, zlen l - 2)) ie else None))
          (demo_world1 silent_env) with
  | Ok (r, _) => Some r | Ub _ => None
  end.

(** With the network's own element it is let in, without one and with another group
    cipher it is not, and neither with TKIP and HT. *)
Example wpa_verdicts : forall ie, wpa_write_rsn_ie (hostapd_wpa_auth_conf (bconf (demo_wpa_bss WPA_CIPHER_CCMP))) 128 None = Some ie ->
  wpa_verdict WPA_CIPHER_CCMP (Some ie) = Some WLAN_STATUS_SUCCESS /\ wpa_verdict WPA_CIPHER_CCMP None = Some WLAN_STATUS_INVALID_IE /\
  wpa_verdict WPA_CIPHER_CCMP (Some (demo_rsn 2)) = Some WLAN_STATUS_GROUP_CIPHER_NOT_VALID /\
  wpa_verdict WPA_CIPHER_TKIP (wpa_write_rsn_ie (hostapd_wpa_auth_conf (bconf (demo_wpa_bss WPA_CIPHER_TKIP))) 128 None)
    = Some WLAN_STATUS_CIPHER_REJECTED_PER_POLICY.
Proof. intros ie [= <-]. repeat split; vm_compute; reflexivity. Qed.

(** The same reassociation request three times: three answers; the same association
    request: one. *)
Definition requests (reassoc : bool) : M world unit :=
  handle_assoc 0 (demo_request 0 reassoc) (zlen (demo_request 0 reassoc)) reassoc ;;;
  handle_assoc 0 (demo_request 0x800 reassoc) (zlen (demo_request 0x800 reassoc)) reassoc ;;;
  handle_assoc 0 (demo_request 0x800 reassoc) (zlen (demo_request 0x800 reassoc)) reassoc.

Definition answers_sent (w : world) : nat :=
  length (List.filter (fun c => match c with DrvSendMlme _ _ => true | _ => false end) (trace (wenv w))).

Example reassoc_answers : exists w1 w2, requests true (demo_world1 silent_env) = Ok (tt, w1) /\ answers_sent w1 = 3%nat /\
  requests false (demo_world1 silent_env) = Ok (tt, w2) /\ answers_sent w2 = 1%nat.
Proof. eexists _, _. split; [vm_compute; reflexivity|]. split; [vm_compute; reflexivity|]. split; [vm_compute; reflexivity|vm_compute; reflexivity]. Qed.

(** The second of them. *)
Definition demo_noted (reassoc : bool) : world := upd_heap <[1%positive := noted 16 reassoc (demo_sta mac1)]> (demo_world1 silent_env).

Lemma demo_noted_ready reassoc : ready (demo_noted reassoc).
Proof.
  split; [|intros t n; discriminate].
  apply (mlme_ok_entry (demo_world1 silent_env) 1 (demo_sta mac1) (noted 16 reassoc (demo_sta mac1))); try done; (apply demo_mlme_ok || (by destruct sta_ok_zero)).
Qed.

Lemma reassoc_not_deduplicated_witness : exists w', handle_assoc 0 (demo_request 0x800 true) (zlen (demo_request 0x800 true)) true (demo_noted true) = Ok (tt, w') /\
  exists f, last (trace (wenv w')) = Some (DrvSendMlme f false).
Proof.
  destruct (handle_assoc 0 (demo_request 0x800 true) (zlen (demo_request 0x800 true)) true (demo_noted true)) as [[[] w']|u] eqn:E.
  - exists w'. split; [reflexivity|].
    refine (proj2 (reassoc_not_deduplicated (demo_noted true) w' 0 demo_bss1 1 (noted 16 true (demo_sta mac1)) (demo_request 0x800 true)
      (zlen (demo_request 0x800 true)) true mac1 0x820 16 0x431 10 (ies_bytes demo_assoc_ies) (zlen (ies_bytes demo_assoc_ies))
      (demo_noted_ready true) eq_refl (demo_request_ok 0x800 true) (demo_request_fields true true) eq_refl _ _ eq_refl eq_refl eq_refl E) eq_refl).
    + discriminate.
    + split; [by_check|]. split; [apply lookup_insert_eq|reflexivity].
  - exfalso. apply (f_equal (fun r => match r with Ok _ => true | Ub _ => false end)) in E. vm_compute in E. discriminate E.
Defined.
