(* ===== verification/ApList.v ===== *)
(** * Beacons of the neighbours: [ap/ap_list.c]

    What a beacon says of a neighbour is kept in the table of [ApTable]; a timer takes
    out the entries that have not been heard for too long.  From the entries come
    [olbc], a neighbour on the channel that needs the protection of 802.11b, and
    [olbc_ht], one without HT.  [Mlme] passes the beacons it receives to
    [ap_list_process_beacon]; the timer is an event of [Events]. *)

From stdpp Require Import base list numbers gmap strings sorting.
From Stdlib Require Import ZArith Lia.
From S2P Require Import Prelude CString Dense Env World Messages Station Elements ApTable Ht Stamgd Lifecycle Books Assoc.
Local Open Scope Z_scope.

Definition sizeof_ap_info : Z := 72.
Definition ERP_INFO_NON_ERP_PRESENT : Z := 2 ^ 0.

(** [struct os_reltime], from the number of microseconds that the clock shows. *)
Definition reltime (now : Z) : Z * Z := (now / 1000000, now mod 1000000).

Definition os_reltime_sub (a b : Z * Z) : Z * Z :=
  let sec := fst a - fst b in
  let usec := snd a - snd b in
  if bool_decide (usec < 0) then (sec - 1, usec + 1000000) else (sec, usec).

Definition os_reltime_expired (now ts : Z * Z) (timeout_secs : Z) : bool :=
  let age := os_reltime_sub now ts in
  bool_decide (fst age > timeout_secs) || bool_decide (fst age = timeout_secs) && bool_decide (snd age > 0).

(** The loop over the rates: none is one of 802.11g or 802.11a. *)
Fixpoint only_b_rates (rates : list Z) : bool :=
  match rates with
  | [] => true
  | r :: rates' =>
      let rate := Z.land r 0x7f * 5 in
      if bool_decide (rate = 60) || bool_decide (rate = 90) || bool_decide (rate > 110) then false else only_b_rates rates'
  end.

Definition ap_list_beacon_olbc (i : hostapd_iface) (ap : ap_data) : bool :=
  if negb (mode_11g i) || bool_decide (channel i <> ap_channel ap) then false
  else if bool_decide (ap_erp ap <> -1) && has (ap_erp ap) ERP_INFO_NON_ERP_PRESENT then true
  else only_b_rates (ap_supported_rates ap).

(** What the elements of a beacon tell; [fi] is the channel of [struct
    hostapd_frame_info]. *)
Definition beacon_rates (e : elems) : res (list Z) :=
  let! rates := merge_byte_arrays WLAN_SUPP_RATES_MAX (e SUPP_RATES) (e EXT_SUPP_RATES) in
  Ok (rates ++ zeros (WLAN_SUPP_RATES_MAX - zlen rates)).

Definition beacon_erp (e : elems) : res Z :=
  match e ERP_INFO with Some (p, n) => if bool_decide (n = 1) then rd p 0 else Ok (-1) | None => Ok (-1) end.

Definition beacon_channel (fi : Z) (e : elems) : res Z :=
  let by_ht := match e HT_OPERATION with Some (p, n) => if bool_decide (n >= 1) then rd p 0 else Ok fi | None => Ok fi end in
  match e DS_PARAMS with Some (p, n) => if bool_decide (n = 1) then rd p 0 else by_ht | None => by_ht end.

Definition beacon_ht (e : elems) : bool := bool_decide (e HT_CAPABILITIES <> None).

(** A step on the table. *)
Definition aps_do (f : ap_table -> res ap_table) : M world unit :=
  w <-- get ;; t <-- lift (f (aps (ifc w))) ;; modify (upd_ifc (upd_aps (fun _ => t))).

Definition update_beacons : M world unit := hostapd "ieee802_11_update_beacons" [].

(** The end of both: the beacons change when a flag did. *)
Definition beacons_if (set_beacon : bool) : M world unit := if set_beacon then update_beacons else ret tt.

(** The entry of a beacon, and whether it is new; [None] when there is no memory. *)
Definition beacon_entry (addr : list Z) : M world (option (positive * bool)) :=
  w <-- get ;;
  found <-- lift (ap_get_ap (aps (ifc w)) addr) ;;
  match found with
  | Some ap => ret (Some (ap, false))
  | None =>
      r <-- ext (Malloc sizeof_ap_info) ;;
      if bool_decide (r = 0) then ret None
      else
        let ap := fresh (dom (ap_heap (aps (ifc w)))) in
        aps_do (fun t => ap_ap_add (ap_table_max_size (iconf (ifc w))) t ap addr) ;;;
        ret (Some (ap, true))
  end.

(** What is set in the entry. *)
Definition set_heard (rates : list Z) (erp channel : Z) (ht_support : bool) (last_beacon : Z * Z) (d : ap_data) : ap_data :=
  mkApData (ap_addr d) rates erp channel ht_support last_beacon.

(** [olbc] and [olbc_ht] from the entry that was heard. *)
Definition detect_olbc (d : ap_data) : M world bool :=
  w <-- get ;;
  if negb (olbc (aps (ifc w))) && ap_list_beacon_olbc (ifc w) d
  then modify (upd_ifc (upd_aps (set_olbc true))) ;;; ret true
  else ret false.

Definition detect_olbc_ht (d : ap_data) : M world bool :=
  w <-- get ;;
  if negb (olbc_ht (ht (ifc w))) && negb (ap_ht_support d)
     && (bool_decide (ap_channel d = 0) || bool_decide (ap_channel d = channel (ifc w))
         || bool_decide (ap_channel d = channel (ifc w) + secondary_channel (ht (ifc w)) * 4))
  then modify (upd_ifc (upd_ht (set_olbc_ht true))) ;;; hostapd_ht_operation_update ;;; ret true
  else ret false.

(** The part after the entry is found or added. *)
Definition beacon_heard (e : elems) (fi : Z) (ap : positive) (new_ap : bool) : M world unit :=
  rates <-- lift (beacon_rates e) ;;
  erp <-- lift (beacon_erp e) ;;
  chan <-- lift (beacon_channel fi e) ;;
  now <-- ext (Hostapd (str "os_get_reltime") []) ;;
  aps_do (upd_ap ap (upd_ap_of (set_heard rates erp chan (beacon_ht e) (reltime now)))) ;;;
  w <-- get ;;
  (if negb new_ap && bool_decide (ap_list (aps (ifc w)) <> Some ap)
   then aps_do (fun t => let! t := ap_ap_list_del t ap in ap_ap_list_add t ap) else ret tt) ;;;
  w <-- get ;;
  a <-- lift (get_ap (aps (ifc w)) ap) ;;
  b1 <-- detect_olbc (ap_of a) ;;
  b2 <-- detect_olbc_ht (ap_of a) ;;
  beacons_if (b1 || b2).

Definition ap_list_process_beacon (bssid : list Z) (e : elems) (fi : Z) : M world unit :=
  w <-- get ;;
  if bool_decide (ap_table_max_size (iconf (ifc w)) < 1) then ret tt
  else
    entry <-- beacon_entry bssid ;;
    match entry with
    | None => ret tt
    | Some (ap, new_ap) => beacon_heard e fi ap new_ap
    end.

(** The loop that frees what has expired, from the tail on. *)
Fixpoint free_expired (fuel : nat) (now : Z * Z) (timeout : Z) (t : ap_table) : res ap_table :=
  match ap_list t, fuel with
  | None, _ => Ok t
  | Some _, O => Ub OutOfFuel
  | Some head, S f =>
      let! h := get_ap t head in
      let! ap := deref (ap_prev h) in
      let! a := get_ap t ap in
      if os_reltime_expired now (ap_last_beacon (ap_of a)) timeout then let! t := ap_free_ap t ap in free_expired f now timeout t
      else Ok t
  end.

(** The loop over the entries that are left; it ends when both flags are set. *)
Fixpoint any_olbc (fuel : nat) (i : hostapd_iface) (ap : option positive) (v : bool * bool) : res (bool * bool) :=
  match ap with
  | Some p =>
      if v.1 && v.2 then Ok v
      else
        match fuel with
        | O => Ub OutOfFuel
        | S f =>
            let! a := get_ap (aps i) p in
            any_olbc f i (ap_next a) (ap_list_beacon_olbc i (ap_of a) || v.1, negb (ap_ht_support (ap_of a)) || v.2)
        end
  | None => Ok v
  end.

(** The flags that no entry asks for any more are cleared. *)
Definition clear_olbc (olbc' : bool) : M world bool :=
  w <-- get ;;
  if negb olbc' && olbc (aps (ifc w)) then modify (upd_ifc (upd_aps (set_olbc false))) ;;; ret true else ret false.

Definition clear_olbc_ht (olbc_ht' : bool) : M world bool :=
  w <-- get ;;
  if negb olbc_ht' && olbc_ht (ht (ifc w)) then modify (upd_ifc (upd_ht (set_olbc_ht false))) ;;; hostapd_ht_operation_update ;;; ret true
  else ret false.

Definition arm_timer : M world unit := ext_ (EloopTimeout 10 (str "ap_list_timer") []).

Definition ap_list_timer : M world unit :=
  arm_timer ;;;
  w <-- get ;;
  if bool_decide (ap_list (aps (ifc w)) = None) then ret tt
  else
    now <-- ext (Hostapd (str "os_get_reltime") []) ;;
    aps_do (fun t => free_expired (ap_fuel t) (reltime now) (ap_table_expiration_time (iconf (ifc w))) t) ;;;
    w <-- get ;;
    if olbc (aps (ifc w)) || olbc_ht (ht (ifc w)) then
      v <-- lift (any_olbc (ap_fuel (aps (ifc w))) (ifc w) (ap_list (aps (ifc w))) (false, false)) ;;
      b1 <-- clear_olbc v.1 ;;
      b2 <-- clear_olbc_ht v.2 ;;
      beacons_if (b1 || b2)
    else ret tt.

Definition ap_list_init : M world Z := arm_timer ;;; ret 0.

Definition ap_list_deinit : M world unit :=
  ext_ (EloopCancel (str "ap_list_timer") []) ;;; aps_do hostapd_free_aps.

(** ** The elements of a beacon can be read *)

Lemma merge_fits res_len (a b : option (list Z * Z)) : 0 < res_len -> elem_ok a -> elem_ok b ->
  exists l, merge_byte_arrays res_len a b = Ok l /\ zlen l <= res_len /\ Forall u8 l.
Proof.
  intros Hr Ha Hb. unfold merge_byte_arrays. cbv zeta.
  assert (forall l src, zlen l < res_len -> Forall u8 l -> elem_ok src -> exists l' full,
    match src with
    | None => Ok (l, false)
    | Some (p, n) => if bool_decide (zlen l + n >= res_len) then let! x := slice 0 (res_len - zlen l) p in Ok (l ++ x, true)
                     else let! x := slice 0 n p in Ok (l ++ x, false)
    end = Ok (l', full) /\ zlen l' <= res_len /\ Forall u8 l' /\ (full = false -> zlen l' < res_len)) as Happ.
  { intros l src Hl Hu He. destruct src as [[p n]|]; [|exists l, false; repeat split; (done || lia)].
    destruct (He p n eq_refl) as [Hn Hp]. pose proof (zlen_nonneg l). case_bool_decide as Hge.
    - destruct (slice_in p 0 (res_len - zlen l)) as (x & -> & Hx & Hux); [lia..|]. exists (l ++ x), true. cbn [res_bind].
      rewrite zlen_app. repeat split; [lia| |done]. apply Forall_app. auto.
    - destruct (slice_in p 0 n) as (x & -> & Hx & Hux); [lia..|]. exists (l ++ x), false. cbn [res_bind].
      rewrite zlen_app. repeat split; [lia| |lia]. apply Forall_app. auto. }
  destruct (Happ [] a) as (l & full & E & Hl & Hu & Hf); [unfold zlen; simpl; lia|constructor|done|]. rewrite E. cbn [res_bind].
  destruct full; [by exists l|]. destruct (Happ l b) as (l' & f' & E' & Hl' & Hu' & _); [auto..|]. rewrite E'. cbn [res_bind fst]. by exists l'.
Qed.

Lemma beacon_rates_run e : (forall x, elem_ok (e x)) -> exists rates, beacon_rates e = Ok rates /\ zlen rates = WLAN_SUPP_RATES_MAX /\ Forall u8 rates.
Proof.
  intros He. destruct (merge_fits WLAN_SUPP_RATES_MAX (e SUPP_RATES) (e EXT_SUPP_RATES)) as (l & E & Hl & Hu); [done|apply He..|].
  unfold beacon_rates. rewrite E. cbn [res_bind]. eexists. split; [reflexivity|]. split.
  - rewrite zlen_app, zlen_zeros by lia. lia.
  - apply Forall_app. split; [done|]. apply Forall_replicate. by_check.
Qed.

Lemma beacon_byte (e : elems) k (P : Z -> bool) (d : Z) : (forall x, elem_ok (e x)) -> (forall n, P n = true -> 1 <= n) ->
  exists v, match e k with Some (p, n) => if P n then rd p 0 else Ok d | None => Ok d end = Ok v.
Proof.
  intros He HP. destruct (e k) as [[p n]|] eqn:Ek; [|eauto]. destruct (P n) eqn:E; [|eauto]. apply HP in E.
  destruct (He k p n Ek) as [Hn _]. destruct (rd_in p 0) as (x & -> & _); [lia|]. eauto.
Qed.

Lemma beacon_erp_run e : (forall x, elem_ok (e x)) -> exists v, beacon_erp e = Ok v.
Proof. intros He. apply (beacon_byte e ERP_INFO (fun n => bool_decide (n = 1)) (-1) He). intros n ->%bool_decide_eq_true. lia. Qed.

Lemma beacon_channel_run fi e : (forall x, elem_ok (e x)) -> exists v, beacon_channel fi e = Ok v.
Proof.
  intros He. unfold beacon_channel. destruct (beacon_byte e HT_OPERATION (fun n => bool_decide (n >= 1)) fi He) as [v ->].
  { intros n ?%bool_decide_eq_true. lia. }
  apply (beacon_byte e DS_PARAMS (fun n => bool_decide (n = 1)) v He). intros n ->%bool_decide_eq_true. lia.
Qed.

(** ** What the operations leave alone *)

(** Only the table, [ht] apart from the number of intolerant stations, and the log change. *)
Definition aside (w w' : world) : Prop := exists t h cs,
  w' = with_log cs (upd_ifc (fun i => upd_ht (fun _ => h) (upd_aps (fun _ => t) i)) w) /\
  num_sta_ht40_intolerant h = num_sta_ht40_intolerant (ht (ifc w)) /\ secondary_channel h = secondary_channel (ht (ifc w)).

#[export] Instance aside_preorder : PreOrder aside.
Proof.
  split.
  - intros w. exists (aps (ifc w)), (ht (ifc w)), []. split; [|done]. now destruct w as [? [] ? ? ?].
  - intros w1 w2 w3 (t1 & h1 & c1 & -> & N1 & S1) (t2 & h2 & c2 & -> & N2 & S2). exists t2, h2, (c1 ++ c2). split; [|split; [now rewrite <- N1|now rewrite <- S1]].
    now rewrite with_log_app.
Qed.

Lemma aside_log cs w : aside w (with_log cs w).
Proof. exists (aps (ifc w)), (ht (ifc w)), cs. split; [|done]. now destruct w as [? [] ? ? ?]. Qed.

Lemma aside_aps f w : aside w (upd_ifc (upd_aps f) w).
Proof. exists (f (aps (ifc w))), (ht (ifc w)), []. split; [|done]. now destruct w as [? [] ? ? ?]. Qed.

Lemma aside_ht f w : num_sta_ht40_intolerant (f (ht (ifc w))) = num_sta_ht40_intolerant (ht (ifc w)) ->
  secondary_channel (f (ht (ifc w))) = secondary_channel (ht (ifc w)) -> aside w (upd_ifc (upd_ht f) w).
Proof. intros E1 E2. exists (aps (ifc w)), (f (ht (ifc w))), []. split; [|done]. now destruct w as [? [] ? ? ?]. Qed.

Lemma aside_same w w' : aside w w' -> iconf (ifc w') = iconf (ifc w) /\ bss (ifc w') = bss (ifc w) /\ driver_ops (ifc w') = driver_ops (ifc w) /\
  counts_of (ifc w') = counts_of (ifc w) /\ heap w' = heap w /\ fn w' = fn w /\ onum (wenv w') = onum (wenv w).
Proof. intros (t & h & cs & -> & E & _). unfold counts_of. simpl. rewrite E, logged_all_onum. done. Qed.

(** A neighbour asks for protection. *)
Definition wants_ht (i : hostapd_iface) (d : ap_data) : bool :=
  negb (ap_ht_support d) && (bool_decide (ap_channel d = 0) || bool_decide (ap_channel d = channel i)
                             || bool_decide (ap_channel d = channel i + secondary_channel (ht i) * 4)).

Lemma aside_wants w w' d : aside w w' -> ap_list_beacon_olbc (ifc w') d = ap_list_beacon_olbc (ifc w) d /\ wants_ht (ifc w') d = wants_ht (ifc w) d.
Proof. intros (t & h & cs & -> & _ & E). unfold ap_list_beacon_olbc, wants_ht. simpl. now rewrite E. Qed.

Lemma ht_update_aside w : exists r w', hostapd_ht_operation_update w = Ok (r, w') /\ aside w w' /\ aps (ifc w') = aps (ifc w) /\
  olbc_ht (ht (ifc w')) = olbc_ht (ht (ifc w)) /\ trace (wenv w') = trace (wenv w).
Proof.
  unfold hostapd_ht_operation_update. rewrite (bind_Ok _ _ w w w) by done. destruct (_ || _); [by exists 0, w|].
  eexists _, _. split; [reflexivity|]. split; [|done]. apply (aside_ht (set_ht_op_mode (snd (ht_operation (ifc w))))); done.
Qed.

Lemma set_olbc_id t : set_olbc (olbc t) t = t.
Proof. by destruct t. Qed.

Lemma detect_olbc_run d w : exists b w', detect_olbc d w = Ok (b, w') /\ aside w w' /\ b = negb (olbc (aps (ifc w))) && ap_list_beacon_olbc (ifc w) d /\
  aps (ifc w') = set_olbc (olbc (aps (ifc w)) || ap_list_beacon_olbc (ifc w) d) (aps (ifc w)) /\ ht (ifc w') = ht (ifc w) /\ trace (wenv w') = trace (wenv w).
Proof.
  unfold detect_olbc. rewrite (bind_Ok _ _ w w w) by done. destruct (olbc (aps (ifc w))) eqn:Eo; cbn [negb andb orb].
  - exists false, w. do 3 (split; [done|]). split; [|done]. rewrite <- Eo. symmetry. apply set_olbc_id.
  - destruct (ap_list_beacon_olbc (ifc w) d); cbn [orb].
    + eexists true, _. split; [reflexivity|]. split; [apply (aside_aps (set_olbc true))|done].
    + exists false, w. do 3 (split; [done|]). split; [|done]. rewrite <- Eo. symmetry. apply set_olbc_id.
Qed.

Lemma detect_olbc_ht_run d w : exists b w', detect_olbc_ht d w = Ok (b, w') /\ aside w w' /\ b = negb (olbc_ht (ht (ifc w))) && wants_ht (ifc w) d /\
  aps (ifc w') = aps (ifc w) /\ olbc_ht (ht (ifc w')) = olbc_ht (ht (ifc w)) || wants_ht (ifc w) d /\ trace (wenv w') = trace (wenv w).
Proof.
  unfold detect_olbc_ht. rewrite (bind_Ok _ _ w w w) by done. rewrite <- andb_assoc. fold (wants_ht (ifc w) d).
  destruct (olbc_ht (ht (ifc w))) eqn:Eo; cbn [negb andb orb]; [exists false, w; by rewrite Eo|].
  destruct (wants_ht (ifc w) d); [|exists false, w; by rewrite Eo]. set (w1 := upd_ifc (upd_ht (set_olbc_ht true)) w).
  destruct (ht_update_aside w1) as (r & w2 & E & A & Ea & Eh & Et). exists true, w2. rewrite (bind_Ok _ _ w tt w1) by done.
  rewrite (bind_Ok _ _ _ _ _ E). split; [done|]. split; [|done]. transitivity w1; [|done]. by apply (aside_ht (set_olbc_ht true)).
Qed.

Lemma beacons_if_run b w : beacons_if b w = Ok (tt, with_log (if b then [Hostapd (str "ieee802_11_update_beacons") []] else []) w).
Proof. destruct b; [done|]. unfold beacons_if, with_log. simpl. by destruct w. Qed.

(** ** The table after a beacon *)

(** What a beacon says of its sender. *)
Definition heard (bssid rates : list Z) (erp chan : Z) (ht : bool) (now : Z * Z) : ap_data := mkApData bssid rates erp chan ht now.

Definition others (bssid : list Z) (ds : list ap_data) : list ap_data := filter (fun d => ap_addr d <> bssid) ds.

Lemma others_all addr ds : addr ∉ map ap_addr ds -> others addr ds = ds.
Proof.
  induction ds as [|d ds IH]; [done|]. cbn [map]. intros Hn. apply not_elem_of_cons in Hn as [Hd Hn]. unfold others. rewrite filter_cons_True by done. f_equal. now apply IH.
Qed.

Lemma others_one ds1 d ds2 : NoDup (map ap_addr (ds1 ++ d :: ds2)) -> others (ap_addr d) (ds1 ++ d :: ds2) = ds1 ++ ds2.
Proof.
  intros Hn. rewrite map_app in Hn. cbn [map] in Hn. apply NoDup_app in Hn as (N1 & D & N2). apply NoDup_cons in N2 as [Hd N2].
  unfold others. rewrite filter_app, filter_cons_False by (intros E; now apply E). f_equal; apply others_all; [|done].
  intros Hi. apply (D _ Hi). left.
Qed.

Lemma aps_do_run f w t : f (aps (ifc w)) = Ok t -> aps_do f w = Ok (tt, upd_ifc (upd_aps (fun _ => t)) w).
Proof. intros E. unfold aps_do. rewrite (bind_Ok _ _ w w w) by done. unfold lift. now rewrite (bind_Ok _ _ w t w) by (now rewrite E). Qed.

Lemma at_entry t l ds p d : table t l ds -> p ∈ l -> holds (ap_heap t) p d -> exists l1 l2 ds1 ds2, l = l1 ++ p :: l2 /\ ds = ds1 ++ d :: ds2 /\ length l1 = length ds1.
Proof.
  intros T Hp Hd. apply list_elem_of_lookup in Hp as [i Hi]. destruct (Forall2_lookup_l _ _ _ _ _ (tb_data _ _ _ T) Hi) as (d' & Hd' & Hh).
  assert (d' = d) as -> by (unfold holds in *; congruence). exists (take i l), (drop (S i) l), (take i ds), (drop (S i) ds).
  rewrite !take_drop_middle by done. split; [done|]. split; [done|]. rewrite !length_take. apply lookup_lt_Some in Hi, Hd'. lia.
Qed.

Definition clock_call : call := Hostapd (str "os_get_reltime") [].
Definition beacons_call : call := Hostapd (str "ieee802_11_update_beacons") [].

(** After a beacon [d] is the first of the neighbours, and may set the flags. *)
Record noted (w : world) (d : ap_data) (ds : list ap_data) (w' : world) : Prop := {
  no_aside : aside w w';
  no_table : neighbours (aps (ifc w')) (d :: ds);
  no_olbc : olbc (aps (ifc w')) = olbc (aps (ifc w)) || ap_list_beacon_olbc (ifc w) d;
  no_olbc_ht : olbc_ht (ht (ifc w')) = olbc_ht (ht (ifc w)) || wants_ht (ifc w) d;
  no_trace : trace (wenv w') = trace (wenv w) ++ clock_call ::
               (if negb (olbc (aps (ifc w))) && ap_list_beacon_olbc (ifc w) d || negb (olbc_ht (ht (ifc w))) && wants_ht (ifc w) d
                then [beacons_call] else []) }.

Lemma table_set_olbc v t l ds : table t l ds -> table (set_olbc v t) l ds.
Proof. intros []. by split. Qed.

(** The entry is, or is moved to, the head of the list. *)
Lemma to_front_run w l1 p l2 ds1 d ds2 new_ap : table (aps (ifc w)) (l1 ++ p :: l2) (ds1 ++ d :: ds2) -> length l1 = length ds1 ->
  (new_ap = true -> l1 = []) ->
  exists t, (if negb new_ap && bool_decide (ap_list (aps (ifc w)) <> Some p)
    then aps_do (fun t => let! t := ap_ap_list_del t p in ap_ap_list_add t p) else ret tt) w = Ok (tt, upd_ifc (upd_aps (fun _ => t)) w) /\
    table t (p :: l1 ++ l2) (d :: ds1 ++ ds2) /\ olbc t = olbc (aps (ifc w)).
Proof.
  intros T Hlen Hnew. rewrite (li_head _ _ _ (tb_links _ _ _ T)).
  assert (upd_ifc (upd_aps (fun _ => aps (ifc w))) w = w) as Hid by now destruct w as [? [] ? ? ?]. destruct l1 as [|x l1].
  - destruct ds1; [|done]. exists (aps (ifc w)). cbn [app head]. rewrite (bool_decide_eq_false_2 (Some p <> Some p)), andb_false_r by (intros H; now apply H).
    split; [|done]. now rewrite Hid.
  - assert (new_ap = false) as -> by (destruct new_ap; [now specialize (Hnew eq_refl)|done]). cbn [negb andb app head].
    assert (x <> p) as Hx. { intros ->. destruct (links_split _ _ _ _ _ (tb_links _ _ _ T)) as (Hp & _). apply Hp. left. }
    rewrite bool_decide_eq_true_2 by (intros [= ?]; done). destruct (table_move _ (x :: l1) p l2 ds1 d ds2 T Hlen) as (t3 & E3 & T3 & O3).
    exists t3. split; [exact (aps_do_run _ w t3 E3)|done].
Qed.

Lemma beacon_heard_run w l1 p l2 ds1 d0 ds2 e fi new_ap : table (aps (ifc w)) (l1 ++ p :: l2) (ds1 ++ d0 :: ds2) -> length l1 = length ds1 ->
  (new_ap = true -> l1 = []) -> (forall x, elem_ok (e x)) ->
  exists rates erp chan w', beacon_rates e = Ok rates /\ beacon_erp e = Ok erp /\ beacon_channel fi e = Ok chan /\
    beacon_heard e fi p new_ap w = Ok (tt, w') /\
    noted w (heard (ap_addr d0) rates erp chan (beacon_ht e) (reltime (onum (wenv w) (length (trace (wenv w))) clock_call))) (ds1 ++ ds2) w'.
Proof.
  intros T Hlen Hnew He. destruct (beacon_rates_run e He) as (rates & Er & Hr), (beacon_erp_run e He) as (erp & Ee), (beacon_channel_run fi e He) as (chan & Ec).
  exists rates, erp, chan. unfold beacon_heard. rewrite (bind_Ok _ _ w rates w) by (unfold lift; now rewrite Er).
  rewrite (bind_Ok _ _ w erp w) by (unfold lift; now rewrite Ee). rewrite (bind_Ok _ _ w chan w) by (unfold lift; now rewrite Ec).
  rewrite (bind_Ok _ _ _ _ _ (ext_log _ w)). fold clock_call. set (now := reltime _). set (w1 := with_log _ w).
  set (d := heard _ _ _ _ _ _). assert (table (aps (ifc w1)) (l1 ++ p :: l2) (ds1 ++ d0 :: ds2)) as T1 by exact T.
  assert (ap_ok (set_heard rates erp chan (beacon_ht e) now d0)) as Hok.
  { pose proof (tb_ok _ _ _ T) as Ho. apply Forall_app in Ho as [_ Ho]. inversion Ho as [|? ? Hd0 _]; subst. split; [apply Hd0|exact Hr]. }
  destruct (table_data _ l1 p l2 ds1 d0 ds2 (set_heard rates erp chan (beacon_ht e) now) T1 Hlen eq_refl Hok) as (t2 & E2 & T2 & O2 & L2).
  change (set_heard rates erp chan (beacon_ht e) now d0) with d in T2. rewrite (bind_Ok _ _ _ _ _ (aps_do_run _ w1 t2 E2)). set (w2 := upd_ifc _ w1).
  rewrite (bind_Ok _ _ w2 w2 w2) by done.
  destruct (to_front_run w2 l1 p l2 ds1 d ds2 new_ap T2 Hlen Hnew) as (t3 & E3 & T3 & O3).
  rewrite (bind_Ok _ _ _ _ _ E3). set (w3 := upd_ifc _ w2). rewrite (bind_Ok _ _ w3 w3 w3) by done.
  destruct (ap_heap t3 !! p) as [a|] eqn:Ha; [|pose proof (tb_data _ _ _ T3) as Hd; inversion Hd as [|? ? ? ? H]; subst; unfold holds in H; now rewrite Ha in H].
  assert (ap_of a = d) as Hda. { pose proof (tb_data _ _ _ T3) as Hd. inversion Hd as [|? ? ? ? H]; subst. unfold holds in H. rewrite Ha in H. now injection H. }
  rewrite (bind_Ok _ _ w3 a w3) by (unfold lift, get_ap; change (ap_heap (aps (ifc w3))) with (ap_heap t3); now rewrite Ha). rewrite Hda.
  assert (aside w w3) as A3. { transitivity w1; [apply (aside_log [clock_call])|]. transitivity w2; [apply (aside_aps (fun _ => t2))|apply (aside_aps (fun _ => t3))]. }
  destruct (detect_olbc_run d w3) as (b1 & w4 & E4 & A4 & B1 & P4 & H4 & S4). rewrite (bind_Ok _ _ _ _ _ E4).
  destruct (detect_olbc_ht_run d w4) as (b2 & w5 & E5 & A5 & B2 & P5 & H5 & S5). rewrite (bind_Ok _ _ _ _ _ E5). rewrite beacons_if_run.
  destruct (aside_wants w w3 d A3) as [V1 V2]. destruct (aside_wants w w4 d) as [V3 V4]; [now transitivity w3|].
  assert (olbc (aps (ifc w3)) = olbc (aps (ifc w))) as O by (change (olbc t3 = olbc (aps (ifc w))); rewrite O3; exact O2).
  assert (ht (ifc w4) = ht (ifc w)) as Hh by now rewrite H4. rewrite V1, O in B1. rewrite V4, Hh in B2. rewrite V1, O in P4. rewrite V4, Hh in H5.
  eexists. do 3 (split; [done|]). split; [reflexivity|]. split.
  - transitivity w3; [done|]. transitivity w4; [done|]. transitivity w5; [done|apply aside_log].
  - exists (p :: l1 ++ l2). change (aps (ifc (with_log _ w5))) with (aps (ifc w5)). rewrite P5, P4. now apply table_set_olbc.
  - change (aps (ifc (with_log _ w5))) with (aps (ifc w5)). now rewrite P5, P4.
  - exact H5.
  - change (wenv (with_log ?c w5)) with (logged_all c (wenv w5)). rewrite logged_all_trace, S5, S4. change (trace (wenv w3)) with (trace (logged_all [clock_call] (wenv w))).
    rewrite logged_all_trace, <- app_assoc, B1, B2. done.
Qed.

Lemma beacon_entry_run w l ds addr : table (aps (ifc w)) l ds -> mac_ok addr -> 1 <= ap_table_max_size (iconf (ifc w)) ->
  zlen ds <= ap_table_max_size (iconf (ifc w)) ->
  (addr ∈ map ap_addr ds -> exists p l1 l2 ds1 d ds2, beacon_entry addr w = Ok (Some (p, false), w) /\
     l = l1 ++ p :: l2 /\ ds = ds1 ++ d :: ds2 /\ length l1 = length ds1 /\ ap_addr d = addr) /\
  (addr ∉ map ap_addr ds ->
     (onum (wenv w) (length (trace (wenv w))) (Malloc sizeof_ap_info) = 0 -> beacon_entry addr w = Ok (None, with_log [Malloc sizeof_ap_info] w)) /\
     (onum (wenv w) (length (trace (wenv w))) (Malloc sizeof_ap_info) <> 0 -> exists p l' t,
        beacon_entry addr w = Ok (Some (p, true), upd_ifc (upd_aps (fun _ => t)) (with_log [Malloc sizeof_ap_info] w)) /\
        table t (p :: l') (take (Z.to_nat (ap_table_max_size (iconf (ifc w)))) (fresh_data addr :: ds)) /\ olbc t = olbc (aps (ifc w)))).
Proof.
  intros T Hm H1 Hmax. unfold beacon_entry. rewrite (bind_Ok _ _ w w w) by done.
  destruct (ap_get_ap_run _ _ _ addr T Hm) as (r & Er & Hr). rewrite (bind_Ok _ _ w r w) by (unfold lift; now rewrite Er). destruct r as [p|].
  - destruct Hr as (d & Hp & Hd & Ha). split.
    + intros _. destruct (at_entry _ _ _ p d T Hp Hd) as (l1 & l2 & ds1 & ds2 & El & Ed & Hlen). exists p, l1, l2, ds1, d, ds2. done.
    + intros Hn. exfalso. apply Hn. rewrite <- Ha. destruct (at_entry _ _ _ p d T Hp Hd) as (l1 & l2 & ds1 & ds2 & El & -> & Hlen).
      rewrite map_app. apply elem_of_app. right. left.
  - split; [intros Hin; done|]. intros _. rewrite (bind_Ok _ _ _ _ _ (ext_log _ w)). set (w1 := with_log _ w). split; intros Hz.
    + now rewrite bool_decide_eq_true_2.
    + rewrite bool_decide_eq_false_2 by done. set (p := fresh _).
      assert (ap_heap (aps (ifc w)) !! p = None) as Hp by (apply not_elem_of_dom, is_fresh).
      destruct (ap_ap_add_run _ _ l ds p addr T Hp Hm Hr H1 Hmax) as (t & l' & E & T' & O).
      exists p, l', t. split; [|done]. rewrite (bind_Ok _ _ w1 tt (upd_ifc (upd_aps (fun _ => t)) w1)); [done|]. exact (aps_do_run _ w1 t E).
Qed.

(** What a beacon does to the table, on every branch. *)
Definition beacon_effect (w : world) (ds : list ap_data) (bssid : list Z) (e : elems) (fi : Z) (w' : world) : Prop :=
  exists rates erp chan k, beacon_rates e = Ok rates /\ beacon_erp e = Ok erp /\ beacon_channel fi e = Ok chan /\
    let d := heard bssid rates erp chan (beacon_ht e) (reltime (onum (wenv w) k clock_call)) in
    aside w w' /\
    neighbours (aps (ifc w')) (take (Z.to_nat (ap_table_max_size (iconf (ifc w)))) (d :: others bssid ds)) /\
    olbc (aps (ifc w')) = olbc (aps (ifc w)) || ap_list_beacon_olbc (ifc w) d /\
    olbc_ht (ht (ifc w')) = olbc_ht (ht (ifc w)) || wants_ht (ifc w) d.

Lemma process_beacon_run w ds bssid e fi : neighbours (aps (ifc w)) ds -> mac_ok bssid -> (forall x, elem_ok (e x)) ->
  zlen ds <= Z.max 0 (ap_table_max_size (iconf (ifc w))) ->
  exists w', ap_list_process_beacon bssid e fi w = Ok (tt, w') /\
    (ap_table_max_size (iconf (ifc w)) < 1 -> w' = w) /\
    (1 <= ap_table_max_size (iconf (ifc w)) -> bssid ∉ map ap_addr ds -> onum (wenv w) (length (trace (wenv w))) (Malloc sizeof_ap_info) = 0 ->
       w' = with_log [Malloc sizeof_ap_info] w) /\
    (1 <= ap_table_max_size (iconf (ifc w)) ->
       bssid ∈ map ap_addr ds \/ onum (wenv w) (length (trace (wenv w))) (Malloc sizeof_ap_info) <> 0 -> beacon_effect w ds bssid e fi w').
Proof.
  intros (l & T) Hm He Hmax. unfold ap_list_process_beacon. rewrite (bind_Ok _ _ w w w) by done.
  destruct (bool_decide_reflect (ap_table_max_size (iconf (ifc w)) < 1)) as [Hlt|Hge].
  { exists w. split; [done|]. split; [done|]. split; intros; lia. }
  destruct (beacon_entry_run w l ds bssid T Hm) as [Hold Hnew]; [lia..|]. destruct (decide (bssid ∈ map ap_addr ds)) as [Hin|Hin].
  - destruct (Hold Hin) as (p & l1 & l2 & ds1 & d0 & ds2 & E & -> & -> & Hlen & <-). rewrite (bind_Ok _ _ _ _ _ E).
    destruct (beacon_heard_run w l1 p l2 ds1 d0 ds2 e fi false T Hlen) as (rates & erp & chan & w' & Er & Ee & Ec & E' & N); [done|done|].
    exists w'. split; [done|]. split; [lia|]. split; [done|]. intros _ _. exists rates, erp, chan. eexists. do 3 (split; [done|]).
    split; [apply N|]. split; [|split; apply N]. rewrite others_one by apply T. rewrite take_ge; [apply N|].
    unfold zlen in Hmax. rewrite length_app in Hmax. cbn [length] in *. rewrite length_app. lia.
  - destruct (Hnew Hin) as [Hz Hnz]. destruct (decide (onum (wenv w) (length (trace (wenv w))) (Malloc sizeof_ap_info) = 0)) as [Em|Em].
    + rewrite (bind_Ok _ _ _ _ _ (Hz Em)). eexists. split; [reflexivity|]. split; [lia|]. split; [done|]. intros _ [?|?]; done.
    + destruct (Hnz Em) as (p & l' & t & E & T' & O). rewrite (bind_Ok _ _ _ _ _ E). set (w1 := upd_ifc _ _).
      set (n := Z.to_nat _) in *. destruct n as [|m] eqn:En; [unfold n in En; lia|]. cbn [take] in T'.
      destruct (beacon_heard_run w1 [] p l' [] (fresh_data bssid) (take m ds) e fi true T' eq_refl) as (rates & erp & chan & w' & Er & Ee & Ec & E' & N); [done|done|].
      assert (aside w w1) as A1 by (transitivity (with_log [Malloc sizeof_ap_info] w); [apply aside_log|apply (aside_aps (fun _ => t))]).
      exists w'. split; [done|]. split; [lia|]. split; [done|]. intros _ _. exists rates, erp, chan.
      destruct (aside_same _ _ A1) as (_ & _ & _ & _ & _ & _ & Eo).
      rewrite Eo in N. set (d := heard _ _ _ _ _ _) in N. destruct (aside_wants w w1 d A1) as [V1 V2].
      exists (length (trace (wenv w1))). do 3 (split; [done|]). cbv zeta. fold d.
      split; [transitivity w1; [done|apply N]|]. split; [|split].
      * rewrite others_all by done. assert (Z.to_nat (ap_table_max_size (iconf (ifc w))) = S m) as -> by exact En. exact (no_table _ _ _ _ N).
      * rewrite (no_olbc _ _ _ _ N), V1. f_equal. exact O.
      * rewrite (no_olbc_ht _ _ _ _ N), V2. reflexivity.
Qed.

(** The books are kept. *)
Lemma mlme_ok_aside w w' : mlme_ok w -> aside w w' -> aps_ok (ifc w') -> mlme_ok w'.
Proof.
  intros M A Ha. destruct (aside_same _ _ A) as (E1 & E2 & E3 & E4 & E5 & E6 & E7). destruct M as [I Ai B S C Z BC _]. split; rewrite ?E1, ?E2, ?E5; try done.
  - destruct I. split; rewrite ?E2, ?E3, ?E5, ?E6; try done. destruct A as (t & h & cs & -> & _). done.
  - unfold books_ok. rewrite E4, B. apply map_ext. intros k. unfold total. now rewrite E2, E5.
Qed.

Lemma length_others addr ds : (length (others addr ds) <= length ds)%nat.
Proof. apply length_filter. Qed.

Lemma process_beacon_keeps w bssid e fi : mlme_ok w -> mac_ok bssid -> (forall x, elem_ok (e x)) ->
  exists w', ap_list_process_beacon bssid e fi w = Ok (tt, w') /\ aside w w' /\ mlme_ok w'.
Proof.
  intros M Hm He. destruct (mo_aps _ M) as (ds & Hds & Hmax). destruct (process_beacon_run w ds bssid e fi Hds Hm He Hmax) as (w' & E & H1 & H2 & H3).
  exists w'. split; [done|]. assert (aside w w' /\ aps_ok (ifc w')) as [A Ha]; [|split; [done|now apply (mlme_ok_aside w)]].
  destruct (decide (ap_table_max_size (iconf (ifc w)) < 1)) as [Hlt|Hge]; [rewrite (H1 Hlt); split; [done|apply M]|].
  destruct (decide (bssid ∈ map ap_addr ds \/ onum (wenv w) (length (trace (wenv w))) (Malloc sizeof_ap_info) <> 0)) as [Hc|Hc].
  - destruct (H3 ltac:(lia) Hc) as (rates & erp & chan & k & _ & _ & _ & A & N & _). split; [done|].
    eexists. split; [exact N|]. destruct (aside_same _ _ A) as (-> & _). unfold zlen. rewrite length_take. lia.
  - assert (bssid ∉ map ap_addr ds) as Hn by tauto. assert (onum (wenv w) (length (trace (wenv w))) (Malloc sizeof_ap_info) = 0) as Hz.
    { destruct (decide (onum (wenv w) (length (trace (wenv w))) (Malloc sizeof_ap_info) = 0)); tauto. }
    rewrite (H2 ltac:(lia) Hn Hz). split; [apply aside_log|apply M].
Qed.

Lemma runs_aside {A} i o (m : M world A) : (forall w, mlme_ok w -> exists a w', m w = Ok (a, w') /\ aside w w' /\ mlme_ok w') -> runs i o o m.
Proof.
  intros Hm w R T. destruct (Hm w (proj1 R)) as (a & w' & E & As & M). exists a, w'. split; [done|].
  destruct (aside_same _ _ As) as (_ & E2 & _ & _ & _ & _ & E7). split.
  - split; [done|]. rewrite E7. apply R.
  - destruct T as [T1 T2]. split; [now rewrite E2|]. destruct o; [|done]. destruct T2 as (b & Hb & Hp). exists b. now rewrite E2.
Qed.

Lemma runs_process_beacon i o bssid e fi : mac_ok bssid -> (forall x, elem_ok (e x)) -> runs i o o (ap_list_process_beacon bssid e fi).
Proof.
  intros Hm He. apply runs_aside. intros w M. destruct (process_beacon_keeps w bssid e fi M Hm He) as (w' & E & A & M'). by exists tt, w'.
Qed.

(** ** The timer *)

(** The list without what is at its end and satisfies [P]. *)
Fixpoint strip {A} (P : A -> bool) (l : list A) : list A :=
  match l with
  | [] => []
  | x :: l' => match strip P l' with [] => if P x then [] else [x] | k => x :: k end
  end.

Lemma strip_snoc {A} (P : A -> bool) l x : strip P (l ++ [x]) = if P x then strip P l else l ++ [x].
Proof.
  induction l as [|y l IH]; cbn [app strip]; [by destruct (P x)|]. rewrite IH. destruct (P x); [done|]. by destruct l.
Qed.

(** What is older than something that satisfies [P] satisfies it too: then all that
    satisfies it goes. *)
Lemma strip_sorted {A} (P : A -> bool) l : StronglySorted (fun x y => P x = true -> P y = true) l -> strip P l = filter (fun x => P x = false) l.
Proof.
  induction 1 as [|x l S IH F]; [done|]. cbn [strip]. rewrite IH. destruct (P x) eqn:E.
  - rewrite filter_cons_False by (now rewrite E). destruct (filter _ l) as [|y k] eqn:Ey; [done|]. exfalso.
    assert (y ∈ filter (fun x => P x = false) l) as Hy by (rewrite Ey; left). apply list_elem_of_filter in Hy as [Hf Hy].
    rewrite Forall_forall in F. specialize (F y Hy eq_refl). congruence.
  - rewrite filter_cons_True by done. by destruct (filter _ l).
Qed.

Lemma strip_prefix {A} (P : A -> bool) l : strip P l = take (length (strip P l)) l.
Proof.
  induction l as [|x l IH]; [done|]. cbn [strip]. destruct (strip P l) as [|y k] eqn:E; [by destruct (P x)|]. cbn [length take]. f_equal. exact IH.
Qed.

(** The test in microseconds. *)
Lemma expired_us now ts timeout : os_reltime_expired (reltime now) (reltime ts) timeout = bool_decide (now - ts > timeout * 1000000).
Proof.
  unfold os_reltime_expired, os_reltime_sub, reltime. cbn [fst snd]. pose proof (Z.div_mod now 1000000). pose proof (Z.div_mod ts 1000000).
  pose proof (Z.mod_pos_bound now 1000000). pose proof (Z.mod_pos_bound ts 1000000). destruct (bool_decide_reflect (now mod 1000000 - ts mod 1000000 < 0)); cbn [fst snd];
  apply eq_true_iff_eq; rewrite orb_true_iff, andb_true_iff, !bool_decide_eq_true; lia.
Qed.

Lemma free_expired_run now timeout : forall ds l t fuel, table t l ds -> (length l < fuel)%nat ->
  exists t' l', free_expired fuel now timeout t = Ok t' /\ table t' l' (strip (fun d => os_reltime_expired now (ap_last_beacon d) timeout) ds) /\ olbc t' = olbc t.
Proof.
  induction ds as [|d ds IH] using rev_ind; intros l t fuel T Hf.
  - pose proof (tb_data _ _ _ T) as Hd. inversion Hd; subst. exists t, []. split; [|done]. pose proof (li_head _ _ _ (tb_links _ _ _ T)) as E.
    destruct fuel; cbn [free_expired]; now rewrite E.
  - destruct (proj1 (Forall2_app_inv_r _ _ _ _) (tb_data _ _ _ T)) as (l1 & l2 & F1 & F2 & ->). inversion F2 as [|p ? ? ? Hd F3]; subst. inversion F3; subst.
    destruct fuel as [|fuel]; [lia|]. cbn [free_expired]. rewrite (li_head _ _ _ (tb_links _ _ _ T)).
    destruct (ap_heap t !! p) as [b|] eqn:Hb; [|unfold holds in Hd; now rewrite Hb in Hd]. assert (ap_of b = d) as Hbd by (unfold holds in Hd; rewrite Hb in Hd; now injection Hd).
    assert (exists x a, head (l1 ++ [p]) = Some x /\ ap_heap t !! x = Some a /\ ap_prev a = Some p) as (x & a & Ex & Ha & Pa).
    { destruct l1 as [|x l1].
      - destruct (li_entry _ _ _ (tb_links _ _ _ T) [] p [] eq_refl) as (a & Ha & _ & Pa). exists p, a. done.
      - destruct (li_entry _ _ _ (tb_links _ _ _ T) [] x (l1 ++ [p]) eq_refl) as (a & Ha & _ & Pa). exists x, a. split; [done|]. split; [done|].
        rewrite Pa. cbn [last]. change (last ((x :: l1) ++ [p]) = Some p). now rewrite last_app. }
    rewrite Ex. unfold get_ap at 1. rewrite Ha. cbn [res_bind]. rewrite Pa. cbn [deref res_bind]. unfold get_ap. rewrite Hb. cbn [res_bind]. rewrite Hbd, strip_snoc.
    destruct (os_reltime_expired now (ap_last_beacon d) timeout); [|by exists t, (l1 ++ [p])].
    destruct (ap_free_ap_run t l1 p [] ds d [] T) as (t1 & E1 & T1 & O1); [exact (Forall2_length _ _ _ F1)|]. rewrite E1. cbn [res_bind].
    rewrite !app_nil_r in T1. destruct (IH l1 t1 fuel T1) as (t' & l' & E' & T' & O'); [rewrite length_app in Hf; cbn in Hf; lia|].
    exists t', l'. split; [done|]. split; [done|congruence].
Qed.

Definition lacks_ht (d : ap_data) : bool := negb (ap_ht_support d).

Lemma any_olbc_run i : forall l2 l1 ds1 ds2 fuel v, table (aps i) (l1 ++ l2) (ds1 ++ ds2) -> length l1 = length ds1 -> (length l2 <= fuel)%nat ->
  any_olbc fuel i (head l2) v = Ok (existsb (ap_list_beacon_olbc i) ds2 || v.1, existsb lacks_ht ds2 || v.2).
Proof.
  induction l2 as [|p l2 IH]; intros l1 ds1 ds2 fuel [v1 v2] T Hlen Hf; destruct (Forall2_app_inv _ _ _ _ _ Hlen (tb_data _ _ _ T)) as [F1 F2].
  - inversion F2; subst. by destruct fuel.
  - inversion F2 as [|? d ? ds2' Hd F2']; subst. cbn [head].
    assert (any_olbc fuel i (Some p) (v1, v2) = if v1 && v2 then Ok (v1, v2) else
      any_olbc (pred fuel) i (head l2) (ap_list_beacon_olbc i d || v1, negb (ap_ht_support d) || v2)) as ->.
    { destruct fuel as [|fuel]; [cbn in Hf; lia|]. cbn [any_olbc fst snd pred]. destruct (v1 && v2); [done|].
      destruct (li_entry _ _ _ (tb_links _ _ _ T) l1 p l2 eq_refl) as (a & Ha & Na & _). unfold get_ap. rewrite Ha. cbn [res_bind]. rewrite Na.
      unfold holds in Hd. rewrite Ha in Hd. injection Hd as ->. done. }
    cbn [fst snd existsb]. unfold lacks_ht at 1. destruct (v1 && v2) eqn:Ev.
    + apply andb_true_iff in Ev as [-> ->]. now rewrite !orb_true_r.
    + rewrite (IH (l1 ++ [p]) (ds1 ++ [d]) ds2'); [|now rewrite <- !app_assoc|rewrite !length_app; cbn; lia|cbn in Hf; lia].
      cbn [fst snd]. f_equal. f_equal; fold lacks_ht; unfold lacks_ht.
      * destruct (ap_list_beacon_olbc i d), (existsb _ ds2'), v1; done.
      * destruct (negb (ap_ht_support d)), (existsb _ ds2'), v2; done.
Qed.

Lemma clear_olbc_run v w : exists b w', clear_olbc v w = Ok (b, w') /\ aside w w' /\ aps (ifc w') = set_olbc (olbc (aps (ifc w)) && v) (aps (ifc w)) /\
  ht (ifc w') = ht (ifc w).
Proof.
  unfold clear_olbc. rewrite (bind_Ok _ _ w w w) by done. destruct v; cbn [negb andb].
  - exists false, w. do 2 (split; [done|]). split; [|done]. rewrite andb_true_r. symmetry. apply set_olbc_id.
  - rewrite andb_false_r. destruct (olbc (aps (ifc w))) eqn:Eo.
    + eexists true, _. split; [reflexivity|]. split; [apply (aside_aps (set_olbc false))|done].
    + exists false, w. do 2 (split; [done|]). split; [|done]. rewrite <- Eo. symmetry. apply set_olbc_id.
Qed.

Lemma clear_olbc_ht_run v w : exists b w', clear_olbc_ht v w = Ok (b, w') /\ aside w w' /\ aps (ifc w') = aps (ifc w) /\
  olbc_ht (ht (ifc w')) = olbc_ht (ht (ifc w)) && v.
Proof.
  unfold clear_olbc_ht. rewrite (bind_Ok _ _ w w w) by done. destruct v; cbn [negb andb]; [exists false, w; by rewrite andb_true_r|].
  rewrite andb_false_r. destruct (olbc_ht (ht (ifc w))) eqn:Eo; [|by exists false, w]. set (w1 := upd_ifc (upd_ht (set_olbc_ht false)) w).
  destruct (ht_update_aside w1) as (r & w2 & E & A & Ea & Eh & Et). exists true, w2. rewrite (bind_Ok _ _ w tt w1) by done.
  rewrite (bind_Ok _ _ _ _ _ E). split; [done|]. split; [transitivity w1; [by apply (aside_ht (set_olbc_ht false))|done]|]. split; [now rewrite Ea|now rewrite Eh].
Qed.

(** What the timer leaves. *)
Record aged (w : world) (ds ds' : list ap_data) (w' : world) : Prop := {
  ag_aside : aside w w';
  ag_table : neighbours (aps (ifc w')) ds';
  ag_olbc : olbc (aps (ifc w')) = olbc (aps (ifc w)) && existsb (ap_list_beacon_olbc (ifc w)) ds';
  ag_olbc_ht : olbc_ht (ht (ifc w')) = olbc_ht (ht (ifc w)) && existsb lacks_ht ds';
  ag_armed : exists cs, trace (wenv w') = trace (wenv w) ++ EloopTimeout 10 (str "ap_list_timer") [] :: cs }.

Lemma aside_trace w w' : aside w w' -> exists cs, trace (wenv w') = trace (wenv w) ++ cs.
Proof. intros (t & h & cs & -> & _). exists cs. simpl. now rewrite logged_all_trace. Qed.

Lemma aside_armed c w w' : aside (with_log [c] w) w' -> exists cs, trace (wenv w') = trace (wenv w) ++ c :: cs.
Proof. intros (cs & E)%aside_trace. exists cs. rewrite E. simpl. now rewrite <- app_assoc. Qed.

Lemma existsb_same {A} (f g : A -> bool) l : (forall x, f x = g x) -> existsb f l = existsb g l.
Proof. intros E. induction l as [|x l IH]; [done|]. cbn [existsb]. now rewrite E, IH. Qed.

Lemma timer_run w ds : neighbours (aps (ifc w)) ds ->
  (ds = [] -> ap_list_timer w = Ok (tt, with_log [EloopTimeout 10 (str "ap_list_timer") []] w)) /\
  (ds <> [] -> exists w', ap_list_timer w = Ok (tt, w') /\
     aged w ds (strip (fun d => os_reltime_expired (reltime (onum (wenv w) (S (length (trace (wenv w)))) clock_call)) (ap_last_beacon d)
                                  (ap_table_expiration_time (iconf (ifc w)))) ds) w').
Proof.
  intros (l & T). unfold ap_list_timer, arm_timer. set (w1 := with_log [EloopTimeout 10 (str "ap_list_timer") []] w).
  pose proof (li_head _ _ _ (tb_links _ _ _ T)) as Eh. rewrite (bind_Ok _ _ w tt w1) by done. rewrite (bind_Ok _ _ w1 w1 w1) by done.
  change (aps (ifc w1)) with (aps (ifc w)). split.
  { intros ->. pose proof (tb_data _ _ _ T) as Hd. inversion Hd; subst. now rewrite bool_decide_eq_true_2. }
  intros Hne. rewrite bool_decide_eq_false_2.
  2: { rewrite Eh. intros E. apply Hne. destruct l; [|done]. pose proof (tb_data _ _ _ T) as Hd. now inversion Hd. }
  rewrite (bind_Ok _ _ _ _ _ (ext_log _ w1)). fold clock_call. replace (onum (wenv w1) (length (trace (wenv w1))) clock_call)
    with (onum (wenv w) (S (length (trace (wenv w)))) clock_call) by (simpl; rewrite length_app; simpl; now rewrite Nat.add_1_r).
  set (now := reltime _). set (w2 := with_log _ w1). set (ds' := strip _ ds).
  destruct (free_expired_run now (ap_table_expiration_time (iconf (ifc w))) ds l (aps (ifc w)) (ap_fuel (aps (ifc w))) T) as (t & l' & E & T' & O).
  { pose proof (table_size _ _ _ T). unfold ap_fuel. lia. }
  set (w3 := upd_ifc (upd_aps (fun _ => t)) w2).
  rewrite (bind_Ok _ _ w2 tt w3) by exact (aps_do_run (fun t => free_expired (ap_fuel t) now (ap_table_expiration_time (iconf (ifc w))) t) w2 t E).
  rewrite (bind_Ok _ _ w3 w3 w3) by done.
  assert (aside w1 w3) as A3' by (transitivity w2; [apply aside_log|apply (aside_aps (fun _ => t))]).
  assert (aside w w3) as A3 by (transitivity w1; [apply aside_log|done]). change (aps (ifc w3)) with t.
  assert (existsb (ap_list_beacon_olbc (ifc w3)) ds' = existsb (ap_list_beacon_olbc (ifc w)) ds') as Eb by (apply existsb_same; intros; now apply aside_wants).
  destruct (olbc t || olbc_ht (ht (ifc w3))) eqn:Ef.
  - rewrite (bind_Ok _ _ w3 (existsb (ap_list_beacon_olbc (ifc w3)) ds' || false, existsb lacks_ht ds' || false) w3).
    2: { unfold lift. rewrite (li_head _ _ _ (tb_links _ _ _ T')). rewrite (any_olbc_run (ifc w3) l' [] [] ds'); [done|exact T'|done|].
         pose proof (table_size _ _ _ T'). unfold ap_fuel. lia. }
    rewrite !orb_false_r. cbn [fst snd]. destruct (clear_olbc_run (existsb (ap_list_beacon_olbc (ifc w3)) ds') w3) as (b1 & w4 & E4 & A4 & P4 & H4). rewrite (bind_Ok _ _ _ _ _ E4).
    destruct (clear_olbc_ht_run (existsb lacks_ht ds') w4) as (b2 & w5 & E5 & A5 & P5 & H5). rewrite (bind_Ok _ _ _ _ _ E5), beacons_if_run.
    eexists. split; [reflexivity|]. split.
    + transitivity w3; [done|]. transitivity w4; [done|]. transitivity w5; [done|apply aside_log].
    + exists l'. change (aps (ifc (with_log _ w5))) with (aps (ifc w5)). rewrite P5, P4. now apply table_set_olbc.
    + change (aps (ifc (with_log _ w5))) with (aps (ifc w5)). rewrite P5, P4, Eb. cbn [olbc set_olbc]. f_equal. exact O.
    + change (ht (ifc (with_log _ w5))) with (ht (ifc w5)). rewrite H5, H4. reflexivity.
    + apply aside_armed. fold w1. transitivity w3; [done|]. transitivity w4; [done|]. transitivity w5; [done|apply aside_log].
  - apply orb_false_iff in Ef as [E1 E2]. exists w3. split; [done|]. split; [done|by exists l'| | |now apply aside_armed].
    + change (olbc t = olbc (aps (ifc w)) && existsb (ap_list_beacon_olbc (ifc w)) ds'). now rewrite <- O, E1.
    + change (olbc_ht (ht (ifc w3)) = olbc_ht (ht (ifc w3)) && existsb lacks_ht ds'). now rewrite E2.
Qed.

Lemma timer_keeps w : mlme_ok w -> exists w', ap_list_timer w = Ok (tt, w') /\ aside w w' /\ mlme_ok w'.
Proof.
  intros M. destruct (mo_aps _ M) as (ds & Hds & Hmax). destruct (timer_run w ds Hds) as [H1 H2]. destruct (decide (ds = [])) as [Hn|Hn].
  - eexists. split; [exact (H1 Hn)|]. split; [apply aside_log|]. apply (mlme_ok_aside w); [done|apply aside_log|apply M].
  - destruct (H2 Hn) as (w' & E & G). exists w'. split; [done|]. split; [apply G|]. apply (mlme_ok_aside w); [done|apply G|]. eexists. split; [apply G|].
    destruct (aside_same _ _ (ag_aside _ _ _ _ G)) as (-> & _). rewrite strip_prefix. unfold zlen in *. rewrite length_take. lia.
Qed.

Lemma sorted_expired now timeout : forall ds ks, map ap_last_beacon ds = map reltime ks -> StronglySorted Z.ge ks ->
  StronglySorted (fun x y => os_reltime_expired (reltime now) (ap_last_beacon x) timeout = true ->
                             os_reltime_expired (reltime now) (ap_last_beacon y) timeout = true) ds.
Proof.
  induction ds as [|d ds IH]; intros [|k ks] E S; try done; [constructor|]. cbn [map] in E. injection E as Ed E. inversion S as [|? ? S' F]; subst.
  constructor; [now apply (IH ks)|]. apply Forall_forall. intros e He. assert (ap_last_beacon e ∈ map ap_last_beacon ds) as Hin by now apply list_elem_of_fmap_2.
  rewrite E in Hin. apply list_elem_of_fmap in Hin as (j & Ej & Hj). rewrite Forall_forall in F. specialize (F j Hj).
  rewrite Ed, Ej, !expired_us, !bool_decide_eq_true. lia.
Qed.

(** ** Statements *)

(** C19: the table of the neighbours is a bounded list in the order in which they were
    last heard.  After a beacon its sender comes first, with exactly what this beacon
    says, then the others as before, and what is beyond the bound, the one not heard
    for longest, is gone; a sender is in the list once.  The flags are set when the
    sender asks for protection on the channel, and never cleared.  Nothing happens
    when no table is wanted, or no memory for a new entry is there; no pointer is
    followed that is dead. *)
Theorem neighbours_in_order (w : world) (ds : list ap_data) (bssid : list Z) (e : elems) (fi : Z)
    (Hds : neighbours (aps (ifc w)) ds) (Hm : mac_ok bssid) (He : forall x, elem_ok (e x))
    (Hmax : zlen ds <= Z.max 0 (ap_table_max_size (iconf (ifc w)))) :
  exists w', ap_list_process_beacon bssid e fi w = Ok (tt, w') /\
    (ap_table_max_size (iconf (ifc w)) < 1 -> w' = w) /\
    (1 <= ap_table_max_size (iconf (ifc w)) -> bssid ∉ map ap_addr ds -> onum (wenv w) (length (trace (wenv w))) (Malloc sizeof_ap_info) = 0 ->
       w' = with_log [Malloc sizeof_ap_info] w) /\
    (1 <= ap_table_max_size (iconf (ifc w)) ->
       bssid ∈ map ap_addr ds \/ onum (wenv w) (length (trace (wenv w))) (Malloc sizeof_ap_info) <> 0 -> beacon_effect w ds bssid e fi w').
Proof. now apply process_beacon_run. Qed.

(** C20: the timer frees exactly the neighbours whose last beacon is older than the
    expiration time, when they are in the order in which they were heard, and ends; a
    flag stays set only when a neighbour that is left asks for it (for [olbc_ht]: one
    without HT on any channel), and the timer is armed again. *)
Theorem timer_frees_expired (w : world) (ds : list ap_data) (heard_at : list Z) (now : Z) (Hds : neighbours (aps (ifc w)) ds)
    (Hk : map ap_last_beacon ds = map reltime heard_at) (Hs : StronglySorted Z.ge heard_at)
    (Hnow : now = onum (wenv w) (S (length (trace (wenv w)))) clock_call) :
  exists w', ap_list_timer w = Ok (tt, w') /\ aside w w' /\
    let left_ds := filter (fun d => os_reltime_expired (reltime now) (ap_last_beacon d) (ap_table_expiration_time (iconf (ifc w))) = false) ds in
    neighbours (aps (ifc w')) left_ds /\
    (ds <> [] -> olbc (aps (ifc w')) = olbc (aps (ifc w)) && existsb (ap_list_beacon_olbc (ifc w)) left_ds /\
                 olbc_ht (ht (ifc w')) = olbc_ht (ht (ifc w)) && existsb lacks_ht left_ds) /\
    exists cs, trace (wenv w') = trace (wenv w) ++ EloopTimeout 10 (str "ap_list_timer") [] :: cs.
Proof.
  destruct (timer_run w ds Hds) as [H1 H2]. destruct (decide (ds = [])) as [->|Hn].
  - eexists. split; [exact (H1 eq_refl)|]. split; [apply aside_log|]. split; [exact Hds|]. split; [done|]. now apply aside_armed.
  - destruct (H2 Hn) as (w' & E & G). rewrite <- Hnow, (strip_sorted _ ds (sorted_expired now _ ds heard_at Hk Hs)) in G.
    exists w'. split; [done|]. split; [apply G|]. split; [apply G|]. split; [intros _; split; apply G|apply G].
Qed.

(** When the interface goes down every entry is freed. *)
Lemma deinit_frees w ds : neighbours (aps (ifc w)) ds -> exists w', ap_list_deinit w = Ok (tt, w') /\ neighbours (aps (ifc w')) [].
Proof.
  intros (l & T). unfold ap_list_deinit. set (w1 := with_log [EloopCancel (str "ap_list_timer") []] w). rewrite (bind_Ok _ _ w tt w1) by done.
  destruct (hostapd_free_aps_run _ _ _ T) as (t & E & T' & _). eexists. split; [exact (aps_do_run _ w1 t E)|]. by exists [].
Qed.

(** ** Concrete runs *)

(** A clock that moves 100 seconds with every call. *)
Definition clock_env : env := {| onum := fun k _ => 100000000 * Z.of_nat (S k); obytes := fun _ _ => None; trace := [] |}.
Definition demo_beacon : elems := set_elem DS_PARAMS [6] 1 (set_elem SUPP_RATES [0x82; 0x84] 2 no_elems).

Lemma demo_beacon_ok x : elem_ok (demo_beacon x).
Proof. intros l n E. destruct x; cbv in E; try discriminate E; injection E as <- <-; (split; [by_check|unfold u8; by_check]). Qed.

Lemma demo_no_aps e : neighbours (aps (ifc (demo_world1 e))) [].
Proof. exists []. exact no_aps_table. Qed.

Lemma neighbours_in_order_witness : exists w', ap_list_process_beacon mac2 demo_beacon 0 (demo_world1 clock_env) = Ok (tt, w') /\
  beacon_effect (demo_world1 clock_env) [] mac2 demo_beacon 0 w'.
Proof.
  destruct (neighbours_in_order (demo_world1 clock_env) [] mac2 demo_beacon 0) as (w' & E & _ & _ & H).
  - apply demo_no_aps.
  - by_check.
  - apply demo_beacon_ok.
  - done.
  - exists w'. split; [exact E|]. apply H; [vm_compute; discriminate|right; vm_compute; discriminate].
Defined.

(** When the first neighbour was last heard. *)
Definition first_heard (w : world) : option (Z * Z) :=
  match ap_list (aps (ifc w)) with Some p => ap_last_beacon ∘ ap_of <$> ap_heap (aps (ifc w)) !! p | None => None end.

Lemma first_heard_at w d ds : neighbours (aps (ifc w)) (d :: ds) -> first_heard w = Some (ap_last_beacon d).
Proof.
  intros (l & T). pose proof (tb_data _ _ _ T) as Hd. inversion Hd as [|p ? l' ? Hp]; subst. unfold first_heard.
  rewrite (li_head _ _ _ (tb_links _ _ _ T)). cbn [head]. unfold holds in Hp. rewrite option_fmap_compose, Hp. done.
Qed.

(** The neighbour is heard, and freed at the next timer, 200 seconds later. *)
Lemma timer_frees_expired_witness : exists w1 d w2, neighbours (aps (ifc w1)) [d] /\ ap_list_timer w1 = Ok (tt, w2) /\ neighbours (aps (ifc w2)) [].
Proof.
  destruct (process_beacon_run (demo_world1 clock_env) [] mac2 demo_beacon 0 (demo_no_aps _)) as (w1 & E & _ & _ & H); [by_check|apply demo_beacon_ok|done|].
  destruct H as (rates & erp & chan & k & _ & _ & _ & A & N & _); [vm_compute; discriminate|right; vm_compute; discriminate|].
  set (d := heard _ _ _ _ _ _) in N. change (neighbours (aps (ifc w1)) [d]) in N.
  assert (match ap_list_process_beacon mac2 demo_beacon 0 (demo_world1 clock_env) with Ok (_, w) => first_heard w = Some (200, 0) /\ length (trace (wenv w)) = 2%nat | Ub _ => False end)
    as Hw by (vm_compute; split; reflexivity).
  rewrite E in Hw. destruct Hw as [Ef Et]. rewrite (first_heard_at _ _ _ N) in Ef. assert (ap_last_beacon d = (200, 0)) as Ed by exact (inj Some _ _ Ef). clearbody d.
  exists w1, d.
  destruct (timer_frees_expired w1 [d] [200000000] (onum (wenv w1) (S (length (trace (wenv w1)))) clock_call) N) as (w2 & E2 & _ & N2 & _).
  - cbn [map]. rewrite Ed. reflexivity.
  - repeat constructor.
  - reflexivity.
  - exists w2. split; [exact N|]. split; [exact E2|]. rewrite filter_cons_False in N2; [exact N2|].
    destruct (aside_same _ _ A) as (Ec & _ & _ & _ & _ & _ & Eo). rewrite Ec, Eo, Et, Ed. vm_compute. discriminate.
Defined.
