(* ===== verification/Wmm.v ===== *)
(** * Admission control of WMM: [ap/wmm.c]

    A station asks with an ADDTS request for a share of the medium, in a traffic
    specification (TSPEC); [hostapd_wmm_action] finds it among the elements of the
    frame, [wmm_process_tspec] judges it, and the station is answered with the
    same TSPEC.  The elements that announce WMM are in [Eids]. *)

From stdpp Require Import base list numbers gmap strings.
From Stdlib Require Import ZArith Lia.
From S2P Require Import Prelude CString Dense Env World Messages Elements Station Ht Eids Beacon Handler Stamgd Lifecycle Books Auth Assoc.
Local Open Scope Z_scope.

Definition WLAN_FC_STYPE_ACTION : Z := 13.
Definition WLAN_ACTION_WMM : Z := 17.
Definition WMM_ACTION_CODE_ADDTS_REQ : Z := 0.
Definition WMM_ACTION_CODE_ADDTS_RESP : Z := 1.
Definition WMM_ADDTS_STATUS_ADMISSION_ACCEPTED : Z := 0.
Definition WMM_ADDTS_STATUS_INVALID_PARAMETERS : Z := 1.
Definition WMM_ADDTS_STATUS_REFUSED : Z := 3.
Definition sizeof_tspec : Z := 63.

(** [a * b] on [int]. *)
Definition mul32 (a b : Z) : res Z := if bool_decide (s32 (a * b)) then Ok (a * b) else Ub SignedOverflow.

(** The members of [struct wmm_tspec_element] that are used. *)
Definition nominal_msdu_size (t : list Z) : res Z := rd_le 11 2 t.
Definition mean_data_rate (t : list Z) : res Z := rd_le 39 4 t.
Definition minimum_phy_rate (t : list Z) : res Z := rd_le 55 4 t.
Definition surplus_bandwidth_allowance (t : list Z) : res Z := rd_le 59 2 t.
Definition set_medium_time (v : Z) (t : list Z) : list Z := take 61 t ++ le_bytes 2 v.

(** [pps] and [duration] are computed in unsigned arithmetic. *)
Definition tspec_pps (mean nominal : Z) : Z := uwrap 32 (mean / 8 + nominal - 1) / nominal.
Definition tspec_duration (nominal phy : Z) : Z := uwrap 32 (Z.land nominal 0x7fff * 8 / (phy / 1000000) + 50).

(** The status, and the TSPEC with [medium_time] filled in. *)
Definition wmm_process_tspec (tspec : list Z) : res (Z * list Z) :=
  let! nominal := nominal_msdu_size tspec in
  let! mean := mean_data_rate tspec in
  let! phy := minimum_phy_rate tspec in
  let! surplus := surplus_bandwidth_allowance tspec in
  if bool_decide (nominal = 0) then Ok (WMM_ADDTS_STATUS_INVALID_PARAMETERS, tspec)
  else if bool_decide (phy < 1000000) then Ok (WMM_ADDTS_STATUS_INVALID_PARAMETERS, tspec)
  else if bool_decide (surplus <= 0x2000) then Ok (WMM_ADDTS_STATUS_INVALID_PARAMETERS, tspec)
  else
    let! x := mul32 surplus (tspec_pps mean nominal) in
    let! y := mul32 x (tspec_duration nominal phy) in
    let medium_time := Z.quot y 0x2000 in
    if bool_decide (medium_time > 750000) then Ok (WMM_ADDTS_STATUS_REFUSED, tspec)
    else Ok (WMM_ADDTS_STATUS_ADMISSION_ACCEPTED, set_medium_time (Z.quot medium_time 32) tspec).

(** The frame of [wmm_send_action]. *)
Definition wmm_action_frame (b : hostapd_data) (addr tspec : list Z) (action_code dialogue_token status_code : Z) : list Z :=
  mgmt_header WLAN_FC_STYPE_ACTION addr (own_addr b) (own_addr b) ++ [WLAN_ACTION_WMM; action_code; dialogue_token; status_code] ++ tspec.

Definition wmm_send_action (hapd : nat) (addr tspec : list Z) (action_code dialogue_token status_code : Z) : M world unit :=
  b <-- get_bss hapd ;;
  frame <-- lift (within 256 (wmm_action_frame b addr tspec action_code dialogue_token status_code)) ;;
  hostapd_drv_send_mlme frame false ;;; ret tt.

(** [tspec] is a pointer into the frame, given by its offset. *)
Definition wmm_addts_req (hapd : nat) (mgmt : list Z) (tspec len : Z) : M world unit :=
  if bool_decide (tspec + sizeof_tspec > len) then ret tt
  else
    t <-- lift (slice tspec sizeof_tspec mgmt) ;;
    r <-- lift (wmm_process_tspec t) ;;
    let '(res, t) := r in
    addr <-- lift (sa mgmt) ;;
    dialog_token <-- lift (rd mgmt 26) ;;
    wmm_send_action hapd addr t WMM_ACTION_CODE_ADDTS_RESP dialog_token res.

Definition wmm_station (s : sta_info) : bool :=
  bool_decide (Z.land (sta_flags s) (Z.lor WLAN_STA_ASSOC WLAN_STA_WMM) = Z.lor WLAN_STA_ASSOC WLAN_STA_WMM).

(** From the check of the length on. *)
Definition wmm_action_of (hapd : nat) (mgmt : list Z) (len : Z) : M world unit :=
  let left := len - IEEE80211_HDRLEN - 4 in
  if bool_decide (left < 0) then ret tt
  else
    r <-- lift (ieee802_11_parse_elems (drop (Z.to_nat (IEEE80211_HDRLEN + 4)) mgmt) left) ;;
    let '(parse_res, e) := r in
    if bool_decide (parse_res = ParseFailed) then ret tt
    else
      match e WMM_TSPEC with
      | None => ret tt
      | Some (p, n) =>
          if bool_decide (n <> sizeof_tspec - 2) then ret tt
          else
            action_code <-- lift (rd mgmt 25) ;;
            if bool_decide (action_code = WMM_ACTION_CODE_ADDTS_REQ) then wmm_addts_req hapd mgmt (zlen mgmt - zlen p - 2) len
            else ret tt
      end.

Definition hostapd_wmm_action (hapd : nat) (mgmt : list Z) (len : Z) : M world unit :=
  addr <-- lift (sa mgmt) ;;
  sta <-- ap_get_sta hapd addr ;;
  match sta with
  | None => ret tt
  | Some p =>
      s <-- get_sta p ;;
      if negb (wmm_station s) then ret tt else wmm_action_of hapd mgmt len
  end.

(** ** The judgement *)

(** The fields of a TSPEC. *)
Record tspec_fields (t : list Z) (nominal mean phy surplus : Z) : Prop := {
  tf_len : zlen t = sizeof_tspec;
  tf_bytes : Forall u8 t;
  tf_nominal : nominal_msdu_size t = Ok nominal;
  tf_mean : mean_data_rate t = Ok mean;
  tf_phy : minimum_phy_rate t = Ok phy;
  tf_surplus : surplus_bandwidth_allowance t = Ok surplus }.

Lemma rd_le_u (l : list Z) off n : 0 <= off -> 0 <= n -> off + n <= zlen l -> Forall u8 l -> exists x, rd_le off n l = Ok x /\ 0 <= x < 256 ^ n.
Proof.
  intros Ho Hn Hl Hu. destruct (slice_in l off n Ho Hn Hl) as (m & E & Hm & Hmu). unfold rd_le. rewrite E. cbn [res_bind].
  eexists. split; [done|]. rewrite <- Hm. now apply le_num_range, Hmu.
Qed.

Lemma tspec_read t : zlen t = sizeof_tspec -> Forall u8 t -> exists nominal mean phy surplus, tspec_fields t nominal mean phy surplus /\
  0 <= nominal < 2 ^ 16 /\ 0 <= mean < 2 ^ 32 /\ 0 <= phy < 2 ^ 32 /\ 0 <= surplus < 2 ^ 16.
Proof.
  intros Hl Hu. unfold sizeof_tspec in *.
  destruct (rd_le_u t 11 2) as (n & En & Rn); [lia..|done|]. destruct (rd_le_u t 39 4) as (m & Em & Rm); [lia..|done|].
  destruct (rd_le_u t 55 4) as (p & Ep & Rp); [lia..|done|]. destruct (rd_le_u t 59 2) as (s & Es & Rs); [lia..|done|].
  exists n, m, p, s. split; [by split|]. simpl in *. lia.
Qed.

(** What is asked for, in microseconds of a second: the packets of a second, each
    with its time on the air, with the surplus (a number of 1/8192). *)
Definition demand (nominal mean phy surplus : Z) : Z :=
  surplus * ((mean / 8 + nominal - 1) / nominal) * (Z.land nominal 0x7fff * 8 / (phy / 1000000) + 50).

Definition tspec_valid (nominal phy surplus : Z) : bool :=
  bool_decide (nominal <> 0) && bool_decide (1000000 <= phy) && bool_decide (0x2000 < surplus).

Lemma small_terms nominal mean phy : 0 < nominal < 2 ^ 16 -> 0 <= mean < 2 ^ 32 -> 1000000 <= phy < 2 ^ 32 ->
  tspec_pps mean nominal = (mean / 8 + nominal - 1) / nominal /\ 0 <= tspec_pps mean nominal /\
  tspec_duration nominal phy = Z.land nominal 0x7fff * 8 / (phy / 1000000) + 50 /\ 50 <= tspec_duration nominal phy.
Proof.
  intros Hn Hm Hp. unfold tspec_pps, tspec_duration.
  assert (0 <= mean / 8 < 2 ^ 29) as Hm8 by (split; [apply Z.div_pos; lia|apply Z.div_lt_upper_bound; lia]).
  assert (0 <= Z.land nominal 0x7fff < 2 ^ 15) as Hl by (apply (land_range 15); lia).
  assert (1 <= phy / 1000000) as Hp1 by (apply Z.div_le_lower_bound; lia).
  assert (0 <= Z.land nominal 0x7fff * 8 / (phy / 1000000) <= Z.land nominal 0x7fff * 8) as Hd.
  { split; [apply Z.div_pos; lia|]. apply Z.div_le_upper_bound; [lia|]. nia. }
  unfold uwrap. rewrite !Z.mod_small by lia. repeat split; try lia. apply Z.div_pos; lia.
Qed.

Lemma process_run t nominal mean phy surplus : tspec_fields t nominal mean phy surplus ->
  wmm_process_tspec t =
  if negb (tspec_valid nominal phy surplus) then Ok (WMM_ADDTS_STATUS_INVALID_PARAMETERS, t)
  else if bool_decide (demand nominal mean phy surplus < 2 ^ 31) then
    Ok (WMM_ADDTS_STATUS_ADMISSION_ACCEPTED, set_medium_time (demand nominal mean phy surplus / 0x2000 / 32) t)
  else Ub SignedOverflow.
Proof.
  intros F. destruct (tspec_read t) as (n & m & p & s & F' & Rn & Rm & Rp & Rs); [apply F|apply F|].
  assert (n = nominal /\ m = mean /\ p = phy /\ s = surplus) as (-> & -> & -> & ->).
  { destruct F, F'. repeat split; congruence. }
  clear F'. destruct F as [_ _ En Em Ep Es]. unfold wmm_process_tspec. rewrite En, Em, Ep, Es. cbn [res_bind]. unfold tspec_valid.
  case_bool_decide as Hn; [by rewrite (bool_decide_eq_false_2 (nominal <> 0)) by auto|]. rewrite (bool_decide_eq_true_2 (nominal <> 0)) by done.
  case_bool_decide as Hp; [by rewrite (bool_decide_eq_false_2 (1000000 <= phy)) by lia|]. rewrite (bool_decide_eq_true_2 (1000000 <= phy)) by lia.
  case_bool_decide as Hs; [by rewrite (bool_decide_eq_false_2 (8192 < surplus)) by lia|]. rewrite (bool_decide_eq_true_2 (8192 < surplus)) by lia.
  cbn [andb negb]. destruct (small_terms nominal mean phy) as (E1 & P1 & E2 & P2); [lia..|].
  unfold demand. rewrite <- E1, <- E2. set (pps := tspec_pps mean nominal) in *. set (dur := tspec_duration nominal phy) in *.
  unfold mul32, s32. destruct (bool_decide_reflect (- 2 ^ 31 <= surplus * pps < 2 ^ 31)) as [H1|H1]; cbn [res_bind].
  2: { rewrite bool_decide_eq_false_2; [done|]. nia. }
  destruct (bool_decide_reflect (- 2 ^ 31 <= surplus * pps * dur < 2 ^ 31)) as [H2|H2]; cbn [res_bind].
  2: { rewrite bool_decide_eq_false_2; [done|]. nia. }
  rewrite (bool_decide_eq_true_2 (surplus * pps * dur < 2 ^ 31)) by lia. assert (0 <= surplus * pps * dur) as H0 by nia.
  rewrite Z.quot_div_nonneg by lia. assert (0 <= surplus * pps * dur / 8192 < 2 ^ 18) as Hq by (split; [apply Z.div_pos; lia|apply Z.div_lt_upper_bound; lia]).
  rewrite bool_decide_eq_false_2 by lia. now rewrite Z.quot_div_nonneg by lia.
Qed.

(** C34: the judgement of a TSPEC.  It is invalid exactly when a size, a rate or the
    surplus is out of its range, and is then answered as it came; else it is accepted
    with the time it asks for in [medium_time], provided that the product fits an
    [int], and has no defined result otherwise.  The test for more than 75% of the
    medium never refuses anything: a demand that passes the multiplication is at most
    262143 microseconds of a second, far below the limit of 750000, and a demand above
    the limit has overflowed before. *)
Theorem wmm_never_refuses (t : list Z) (nominal mean phy surplus : Z) (F : tspec_fields t nominal mean phy surplus) :
  (forall t', wmm_process_tspec t <> Ok (WMM_ADDTS_STATUS_REFUSED, t')) /\
  (tspec_valid nominal phy surplus = false -> wmm_process_tspec t = Ok (WMM_ADDTS_STATUS_INVALID_PARAMETERS, t)) /\
  (tspec_valid nominal phy surplus = true ->
     (750000 < demand nominal mean phy surplus / 0x2000 -> wmm_process_tspec t = Ub SignedOverflow) /\
     (2 ^ 31 <= demand nominal mean phy surplus -> wmm_process_tspec t = Ub SignedOverflow) /\
     (demand nominal mean phy surplus < 2 ^ 31 -> exists t', wmm_process_tspec t = Ok (WMM_ADDTS_STATUS_ADMISSION_ACCEPTED, t') /\
        zlen t' = sizeof_tspec /\ take 61 t' = take 61 t /\ rd_le 61 2 t' = Ok (demand nominal mean phy surplus / 0x2000 / 32))).
Proof.
  rewrite (process_run t nominal mean phy surplus F). split; [|split].
  - intros t'. destruct (tspec_valid _ _ _); cbn [negb]; [|intros [=]]. case_bool_decide; intros [=].
  - by intros ->.
  - intros Hv. rewrite Hv. cbn [negb]. split; [|split].
    + intros Hd. rewrite bool_decide_eq_false_2; [done|]. intros Hlt. assert (demand nominal mean phy surplus / 8192 < 2 ^ 18); [|lia].
      apply Z.div_lt_upper_bound; lia.
    + intros Hd. now rewrite bool_decide_eq_false_2 by lia.
    + intros Hd. rewrite bool_decide_eq_true_2 by done. eexists. split; [reflexivity|].
      assert (zlen (take 61 t) = 61) as H61.
      { pose proof (tf_len _ _ _ _ _ F) as Hl. unfold zlen, sizeof_tspec in *. rewrite length_take. lia. }
      assert (0 <= demand nominal mean phy surplus) as H0.
      { destruct (tspec_read t) as (n & m & p & s & F' & Rn & Rm & Rp & Rs); [apply F|apply F|].
        assert (n = nominal /\ m = mean /\ p = phy /\ s = surplus) as (-> & -> & -> & ->) by (destruct F, F'; repeat split; congruence).
        unfold tspec_valid in Hv. apply andb_true_iff in Hv as [[Hn%bool_decide_eq_true Hp%bool_decide_eq_true]%andb_true_iff Hs%bool_decide_eq_true].
        destruct (small_terms nominal mean phy) as (E1 & P1 & E2 & P2); [lia..|]. unfold demand. rewrite <- E1, <- E2. nia. }
      assert (0 <= demand nominal mean phy surplus / 8192 / 32 < 2 ^ 13) as Hr.
      { split; [apply Z.div_pos; [apply Z.div_pos; lia|lia]|]. do 2 (apply Z.div_lt_upper_bound; [lia|]). lia. }
      unfold set_medium_time. split; [|split].
      * rewrite zlen_app, H61, zlen_le_bytes. done.
      * rewrite take_app_length'; [done|]. unfold zlen in H61. lia.
      * rewrite <- (app_nil_r (le_bytes 2 _)), (rd_le_mid 2) by done. f_equal. apply Z.mod_small. simpl. lia.
Qed.

(** ** The request *)

Lemma parse_frame (ies : list Z) len : Forall u8 ies -> 0 <= len <= zlen ies ->
  exists r e, ieee802_11_parse_elems ies len = Ok (r, e) /\ (forall x, elem_ok (e x)) /\
    forall x p n, e x = Some (p, n) -> p `suffix_of` ies.
Proof.
  intros Hu Hl. destruct (parse_any (Z.to_nat len) ies len no_elems false) as (r & e & Ep & Pa); [done|done|lia|].
  exists r, e. split; [exact Ep|]. pose proof (parsed_inside _ _ _ _ Hu Pa) as He. split; [intros x l n E; now apply (He x)|].
  intros x p n E. destruct (pa_inside _ _ _ _ _ Pa x p n E) as [[=]|(_ & _ & Hs)]. exact Hs.
Qed.

(** The TSPEC of a frame: where it is, and its bytes. *)
Record tspec_in (mgmt : list Z) (len off : Z) (t : list Z) : Prop := {
  ti_parse : exists r e p, ieee802_11_parse_elems (drop 28 mgmt) (len - 28) = Ok (r, e) /\ r <> ParseFailed /\
               e WMM_TSPEC = Some (p, sizeof_tspec - 2) /\ off = zlen mgmt - zlen p - 2;
  ti_room : off + sizeof_tspec <= len;
  ti_slice : slice off sizeof_tspec mgmt = Ok t }.

(** A valid TSPEC of the frame asks for so much that the product does not fit. *)
Definition tspec_heavy (mgmt : list Z) (len : Z) : Prop :=
  exists off t nominal mean phy surplus, tspec_in mgmt len off t /\ tspec_fields t nominal mean phy surplus /\
    tspec_valid nominal phy surplus = true /\ 2 ^ 31 <= demand nominal mean phy surplus.

Lemma process_or t : zlen t = sizeof_tspec -> Forall u8 t ->
  (exists r, wmm_process_tspec t = Ok r) \/
  ((exists nominal mean phy surplus, tspec_fields t nominal mean phy surplus /\ tspec_valid nominal phy surplus = true /\
      2 ^ 31 <= demand nominal mean phy surplus) /\ exists u, wmm_process_tspec t = Ub u).
Proof.
  intros Hl Hu. destruct (tspec_read t Hl Hu) as (n & m & p & s & F & _). rewrite (process_run _ _ _ _ _ F).
  destruct (tspec_valid n p s) eqn:Ev; cbn [negb]; [|eauto]. case_bool_decide as Hd; [eauto|]. right. split; [|eauto].
  exists n, m, p, s. split; [done|]. split; [done|lia].
Qed.

Lemma process_tspec_in t r t' : zlen t = sizeof_tspec -> Forall u8 t -> wmm_process_tspec t = Ok (r, t') -> zlen t' = sizeof_tspec /\ 0 <= r < 256.
Proof.
  intros Hl Hu E. destruct (tspec_read t Hl Hu) as (n & m & p & s & F & _). rewrite (process_run _ _ _ _ _ F) in E.
  destruct (negb _); [injection E as <- <-; done|]. case_bool_decide; [|done]. injection E as <- <-. split; [|done].
  unfold set_medium_time. rewrite zlen_app, zlen_le_bytes. unfold zlen, sizeof_tspec in *. rewrite length_take. lia.
Qed.

Lemma wmm_action_fits b addr t c d st : length (own_addr b) = 6%nat -> length addr = 6%nat -> zlen t = sizeof_tspec ->
  zlen (wmm_action_frame b addr t c d st) = 91.
Proof.
  intros Ho Ha Ht. unfold wmm_action_frame, mgmt_header. rewrite !zlen_app, zlen_le_bytes, Ht. unfold zlen. rewrite Ho, Ha. done.
Qed.

Lemma runs_wmm_send i o addr t c d st : mac_ok addr -> zlen t = sizeof_tspec -> runs i o o (wmm_send_action i addr t c d st).
Proof.
  intros [Ha _] Ht. unfold wmm_send_action. runs_step. apply (runs_lift _ _ _ _ (fun _ => True)).
  { unfold within. rewrite bool_decide_eq_true_2; [eauto|]. rewrite wmm_action_fits; [done| |done..]. now apply nm_addr. }
  intros frame _. eapply runs_bind; [apply runs_drv_send|]. auto with lazyas.
Qed.

Lemma tspec_inside mgmt len p : frame_ok mgmt len -> p `suffix_of` drop 28 mgmt -> sizeof_tspec - 2 <= zlen p -> 28 <= len ->
  exists t, slice (zlen mgmt - zlen p - 2) sizeof_tspec mgmt = Ok t /\ zlen t = sizeof_tspec /\ Forall u8 t.
Proof.
  intros [Hl Hu] [q Eq] Hp H28. unfold sizeof_tspec in *. apply (f_equal length) in Eq. rewrite length_app, length_drop in Eq.
  destruct (slice_in mgmt (zlen mgmt - zlen p - 2) 63) as (t & E & Ht & Htu); [unfold zlen in *; lia..|]. exists t. auto.
Qed.

Lemma runs_addts_req F i p mgmt off len t : frame_ok mgmt len -> 28 <= len -> (off + sizeof_tspec <= len -> slice off sizeof_tspec mgmt = Ok t /\ zlen t = sizeof_tspec /\ Forall u8 t) ->
  (off + sizeof_tspec <= len -> (exists nominal mean phy surplus, tspec_fields t nominal mean phy surplus /\ tspec_valid nominal phy surplus = true /\
      2 ^ 31 <= demand nominal mean phy surplus) -> F) ->
  runs_or F i (Some p) (Some p) (wmm_addts_req i mgmt off len).
Proof.
  intros Hf H28 Ht HF. pose proof (proj2 (fo_len _ _ Hf)) as Hl. destruct (header_ok mgmt len Hf) as (_ & _ & _ & (addr & Ea & Hm) & _); [lia|].
  unfold wmm_addts_req. case_bool_decide as Ein; [apply runs_or_runs, runs_ret|]. destruct Ht as (E & Htl & Htu); [lia|].
  apply (runs_or_lift _ _ _ _ _ (eq t)); [eauto|]. intros ? <-.
  apply (runs_or_lift _ _ _ _ _ (fun r => wmm_process_tspec t = Ok r)).
  { destruct (process_or t Htl Htu) as [(r & Er)|[Hh Hu]]; [eauto|]. right. split; [apply HF; [lia|done]|done]. }
  intros [st t'] Er. apply runs_or_runs, (runs_lift _ _ _ _ mac_ok); [eauto|]. intros ad' Had'.
  apply (runs_lift _ _ _ _ (fun _ => True)); [destruct (rd_in mgmt 26) as (x & E' & _); [lia|]; eauto|]. intros d _.
  apply runs_wmm_send; [done|]. now apply (process_tspec_in t st t').
Qed.

Lemma runs_wmm_action i mgmt len : frame_ok mgmt len -> 24 <= len -> runs_or (tspec_heavy mgmt len) i None None (hostapd_wmm_action i mgmt len).
Proof.
  intros Hf H24. pose proof (proj2 (fo_len _ _ Hf)) as Hl. destruct (header_ok mgmt len Hf H24) as (_ & _ & _ & (addr & Ea & Hm) & _).
  unfold hostapd_wmm_action. apply (runs_or_lift _ _ _ _ _ mac_ok); [eauto|]. intros ad Had. apply runs_or_ap_get_sta; [done|].
  intros [p|]; [|apply runs_or_runs, runs_ret]. apply (runs_or_weak _ i _ (Some p)). apply runs_or_get_sta. intros s.
  destruct (negb _); [apply runs_or_runs, runs_ret|].
  unfold wmm_action_of, IEEE80211_HDRLEN. cbv zeta. case_bool_decide as H28; [apply runs_or_runs, runs_ret|]. change (Z.to_nat (24 + 4)) with 28%nat.
  destruct (parse_frame (drop 28 mgmt) (len - 24 - 4)) as (r & e & Ep & He & Hs); [apply Forall_drop, Hf|unfold zlen in *; rewrite length_drop; lia|].
  apply (runs_or_lift _ _ _ _ _ (eq (r, e))); [eauto|]. intros ? <-. case_bool_decide as Er; [apply runs_or_runs, runs_ret|].
  destruct (e WMM_TSPEC) as [[q n]|] eqn:Et; [|apply runs_or_runs, runs_ret]. case_bool_decide as En; [apply runs_or_runs, runs_ret|].
  assert (n = sizeof_tspec - 2) as -> by lia.
  apply (runs_or_lift _ _ _ _ _ (fun _ => True)); [destruct (rd_in mgmt 25) as (x & E & _); [lia|]; eauto|]. intros c _.
  destruct (bool_decide (c = _)); [|apply runs_or_runs, runs_ret].
  destruct (tspec_inside mgmt len q Hf (Hs _ _ _ Et)) as (t & E & Htl & Htu); [apply (He WMM_TSPEC q _ Et)|lia|].
  apply (runs_addts_req _ i p mgmt _ len t); [done|lia|done|]. intros Hin (n0 & m0 & p0 & s0 & Hf0 & Hv & Hd).
  exists (zlen mgmt - zlen q - 2), t, n0, m0, p0, s0. split; [|done].
  split; [exists r, e, q; replace (len - 28) with (len - 24 - 4) by lia; done|lia|done].
Qed.

Lemma wmm_station_has s : wmm_station s = has (sta_flags s) WLAN_STA_ASSOC && has (sta_flags s) WLAN_STA_WMM.
Proof.
  unfold wmm_station, WLAN_STA_ASSOC, WLAN_STA_WMM. rewrite !has_bit by lia. apply Bool.eq_iff_eq_true. rewrite bool_decide_eq_true, andb_true_iff. split.
  - intros E. split.
    + specialize (f_equal (fun x => Z.testbit x 1) E) as E1. cbv beta in E1. rewrite Z.land_spec in E1. by apply andb_true_iff in E1 as [? _].
    + specialize (f_equal (fun x => Z.testbit x 9) E) as E1. cbv beta in E1. rewrite Z.land_spec in E1. by apply andb_true_iff in E1 as [? _].
  - intros [H1 H9]. apply Z.bits_inj'. intros n Hn. rewrite Z.land_spec, Z.lor_spec, !Z.pow2_bits_eqb by lia.
    destruct (Z.eqb_spec 1 n) as [E1|]; [rewrite <- E1; now rewrite H1|]. destruct (Z.eqb_spec 9 n) as [E9|]; [rewrite <- E9; now rewrite H9|].
    apply andb_false_r.
Qed.

(** An ADDTS request with a TSPEC of the right size, from [addr]. *)
Record addts_request (mgmt : list Z) (len : Z) (addr : list Z) (dialog off : Z) (t : list Z) : Prop := {
  aq_len : 28 <= len;
  aq_sa : sa mgmt = Ok addr;
  aq_code : rd mgmt 25 = Ok WMM_ACTION_CODE_ADDTS_REQ;
  aq_dialog : rd mgmt 26 = Ok dialog;
  aq_tspec : tspec_in mgmt len off t }.

(** An ADDTS request of a station of the BSS that is associated and uses WMM is
    answered by one frame to this station: it has the dialog token of the request, the
    status of [wmm_process_tspec] and the TSPEC it leaves; a sender that is not such a
    station gets no answer; nothing else changes in either case.  When the product of
    the TSPEC does not fit an [int] the handler has no defined behaviour, whatever the
    state is: one frame is enough. *)
Theorem addts_answered (w : world) (i : nat) (b : hostapd_data) (mgmt : list Z) (len : Z) (addr : list Z) (dialog off : Z) (t : list Z)
    (Hw : ready w) (Hb : bss (ifc w) !! i = Some b) (Hf : frame_ok mgmt len) (Hq : addts_request mgmt len addr dialog off t) :
  ((forall p s, sta_at w b addr p s -> wmm_station s = false) -> hostapd_wmm_action i mgmt len w = Ok (tt, w)) /\
  (forall p s, sta_at w b addr p s -> has (sta_flags s) WLAN_STA_ASSOC = true -> has (sta_flags s) WLAN_STA_WMM = true ->
     (forall r t', wmm_process_tspec t = Ok (r, t') ->
        hostapd_wmm_action i mgmt len w =
        Ok (tt, with_log [DrvSendMlme (wmm_action_frame b addr t' WMM_ACTION_CODE_ADDTS_RESP dialog r) false] w)) /\
     (forall u, wmm_process_tspec t = Ub u -> hostapd_wmm_action i mgmt len w = Ub u)).
Proof.
  destruct Hq as [H28 Ea Ec Ed Ht]. pose proof (mo_iface _ (proj1 Hw)) as I. destruct (io_bss _ I i b Hb) as [Hok Hn].
  destruct (header_ok mgmt len Hf) as (_ & _ & _ & (addr' & Ea' & Hm) & _); [lia|]. assert (addr' = addr) as -> by congruence.
  pose proof (proj2 (fo_len _ _ Hf)) as Hl.
  unfold hostapd_wmm_action. rewrite (bind_Ok _ _ w addr w) by (unfold lift; now rewrite Ea).
  destruct (ap_get_sta_spec w i b addr Hb Hok Hm) as (r & Eg & Hg). rewrite (bind_Ok _ _ _ _ _ Eg). split.
  - intros Hno. destruct r as [p|]; [|done]. destruct (proj1 (Hg p) eq_refl) as (s & Hp).
    rewrite (bind_Ok _ _ _ _ _ (get_sta_run _ _ _ (proj1 (proj2 Hp)))). now rewrite (Hno p s Hp).
  - intros p s Hp Has Hwm. assert (r = Some p) as -> by (apply Hg; eauto). destruct Hp as (_ & Hs & _).
    rewrite (bind_Ok _ _ _ _ _ (get_sta_run _ _ _ Hs)), wmm_station_has, Has, Hwm. cbn [andb negb].
    destruct Ht as [(pr & e & q & Ep & Hpr & Et & Eo) Hroom Et'].
    assert (zlen t = sizeof_tspec /\ Forall u8 t) as [Htl Htu].
    { destruct (slice_in mgmt off sizeof_tspec) as (t0 & E0 & H1 & H2).
      - destruct (parse_frame (drop 28 mgmt) (len - 28)) as (r1 & e1 & Ep1 & He1 & Hs1); [apply Forall_drop, Hf|unfold zlen in *; rewrite length_drop; lia|].
        assert (e1 = e) as -> by congruence. specialize (Hs1 _ _ _ Et) as [z Ez]. apply (f_equal length) in Ez. rewrite length_app, length_drop in Ez.
        unfold zlen in *. lia.
      - done.
      - lia.
      - assert (t0 = t) as -> by congruence. split; [done|]. apply H2, Hf. }
    assert (wmm_action_of i mgmt len w = (r <-- lift (wmm_process_tspec t) ;; let '(res, t) := r in
      wmm_send_action i addr t WMM_ACTION_CODE_ADDTS_RESP dialog res) w) as ->.
    { unfold wmm_action_of, IEEE80211_HDRLEN. cbv zeta. rewrite bool_decide_eq_false_2 by lia. change (Z.to_nat (24 + 4)) with 28%nat.
      rewrite (bind_Ok _ _ w (pr, e) w) by (unfold lift; replace (len - 24 - 4) with (len - 28) by lia; now rewrite Ep).
      rewrite bool_decide_eq_false_2 by done. rewrite Et, (bool_decide_eq_false_2 (sizeof_tspec - 2 <> _)) by (intros H; now apply H).
      rewrite (bind_Ok _ _ w _ w) by (unfold lift; now rewrite Ec). rewrite (bool_decide_eq_true_2 (_ = WMM_ACTION_CODE_ADDTS_REQ)) by done.
      rewrite <- Eo. unfold wmm_addts_req. rewrite bool_decide_eq_false_2 by lia. rewrite (bind_Ok _ _ w t w) by (unfold lift; now rewrite Et').
      destruct (wmm_process_tspec t) as [[res t']|u]; [|reflexivity]. rewrite !(bind_Ok _ _ w (res, t') w) by done.
      rewrite (bind_Ok _ _ w addr w) by (unfold lift; now rewrite Ea). now rewrite (bind_Ok _ _ w dialog w) by (unfold lift; now rewrite Ed). }
    split; [intros r t' Er|intros u Eu; unfold bind, lift; now rewrite Eu].
    rewrite (bind_Ok _ _ w (r, t') w) by (unfold lift; now rewrite Er). destruct (process_tspec_in _ _ _ Htl Htu Er) as [Htl' _].
    unfold wmm_send_action. rewrite (bind_Ok _ _ _ _ _ (get_bss_run _ _ _ Hb)).
    set (frame := wmm_action_frame b addr t' WMM_ACTION_CODE_ADDTS_RESP dialog r).
    rewrite (bind_Ok _ _ w frame w).
    2: { unfold lift, within. rewrite bool_decide_eq_true_2; [reflexivity|]. unfold frame. rewrite wmm_action_fits; [lia|now apply nm_addr|apply Hm|exact Htl']. }
    unfold hostapd_drv_send_mlme. rewrite bind_assoc, (bind_Ok _ _ w w w) by done. now rewrite (io_ops _ I).
Qed.

(** ** Concrete requests *)

(** 1000 bytes at a mean rate of 800 kbit/s, 6 Mbit/s on the air, surplus 1.25; and
    the same with a mean rate of 80 Mbit/s. *)
Definition demo_tspec (mean : Z) : list Z :=
  ([221; 61; 0; 0x50; 0xf2; 2; 2; 1] ++ [0; 0; 0] ++ le_bytes 2 1000 ++ le_bytes 2 1000 ++ replicate 24 0)
  ++ le_bytes 4 mean ++ replicate 12 0 ++ le_bytes 4 6000000 ++ le_bytes 2 10240 ++ [0; 0].

Definition demo_addts (mean : Z) : list Z :=
  mgmt_header WLAN_FC_STYPE_ACTION [2; 1; 2; 3; 4; 5] mac1 [2; 1; 2; 3; 4; 5] ++ [17; 0; 7; 0] ++ demo_tspec mean.

(** The state in which [mac1] is associated and uses WMM. *)
Definition demo_wmm_sta : sta_info := set_sta_flags (Z.lor WLAN_STA_AUTH (Z.lor WLAN_STA_ASSOC WLAN_STA_WMM)) (demo_sta mac1).
Definition demo_wmm_world : world := upd_heap <[1%positive := demo_wmm_sta]> (demo_world1 silent_env).

Lemma demo_wmm_ready : ready demo_wmm_world.
Proof.
  split; [|intros t n; discriminate].
  apply (mlme_ok_entry (demo_world1 silent_env) 1 (demo_sta mac1) demo_wmm_sta); try done; (apply demo_mlme_ok || (by destruct sta_ok_zero)).
Qed.

Lemma demo_addts_ok mean : frame_ok (demo_addts mean) 91.
Proof.
  split; [split; [done|]; reflexivity || discriminate|]. unfold demo_addts, demo_tspec, mgmt_header. rewrite !Forall_app.
  repeat split; auto using le_bytes_u8; unfold u8; by_check.
Qed.

Lemma wmm_never_refuses_witness : tspec_fields (demo_tspec 80000000) 1000 80000000 6000000 10240 /\
  (exists t', wmm_process_tspec (demo_tspec 800000) = Ok (0, t') /\ rd_le 61 2 t' = Ok 5402) /\
  wmm_process_tspec (demo_tspec 80000000) = Ub SignedOverflow.
Proof.
  assert (forall mean, 0 <= mean < 2 ^ 32 -> tspec_fields (demo_tspec mean) 1000 mean 6000000 10240) as F.
  { intros mean Hm. split; try reflexivity.
    - unfold demo_tspec. rewrite !Forall_app. repeat split; auto using le_bytes_u8; unfold u8; by_check.
    - unfold mean_data_rate, demo_tspec. rewrite (rd_le_mid 4) by reflexivity. f_equal. apply Z.mod_small. exact Hm. }
  split; [apply F; lia|]. split.
  - destruct (wmm_never_refuses (demo_tspec 800000) 1000 800000 6000000 10240) as (_ & _ & H); [apply F; lia|].
    destruct (H eq_refl) as (_ & _ & Hok). destruct Hok as (t' & E & _ & _ & Er); [reflexivity|]. exists t'. split; [exact E|]. rewrite Er. reflexivity.
  - destruct (wmm_never_refuses (demo_tspec 80000000) 1000 80000000 6000000 10240) as (_ & _ & H); [apply F; lia|].
    destruct (H eq_refl) as (_ & Hov & _). apply Hov. vm_compute. discriminate.
Defined.

Lemma demo_addts_request mean : addts_request (demo_addts mean) 91 mac1 7 28 (demo_tspec mean).
Proof.
  split; try reflexivity; try done. split; [|done|reflexivity].
  eexists _, _, _. split; [reflexivity|]. split; [discriminate|]. split; reflexivity.
Qed.

Lemma addts_answered_witness : hostapd_wmm_action 0 (demo_addts 80000000) 91 demo_wmm_world = Ub SignedOverflow /\
  exists f, hostapd_wmm_action 0 (demo_addts 800000) 91 demo_wmm_world = Ok (tt, with_log [DrvSendMlme f false] demo_wmm_world) /\
    slice 24 4 f = Ok [17; 1; 7; 0] /\ slice 4 6 f = Ok mac1.
Proof.
  assert (sta_at demo_wmm_world demo_bss1 mac1 1 demo_wmm_sta) as Hs by (split; [by_check|]; split; [apply lookup_insert_eq|reflexivity]).
  split.
  - destruct (addts_answered demo_wmm_world 0 demo_bss1 (demo_addts 80000000) 91 mac1 7 28 (demo_tspec 80000000)) as [_ H];
      [apply demo_wmm_ready|reflexivity|apply demo_addts_ok|apply demo_addts_request|].
    apply (proj2 (H 1%positive demo_wmm_sta Hs eq_refl eq_refl)). reflexivity.
  - destruct (addts_answered demo_wmm_world 0 demo_bss1 (demo_addts 800000) 91 mac1 7 28 (demo_tspec 800000)) as [_ H];
      [apply demo_wmm_ready|reflexivity|apply demo_addts_ok|apply demo_addts_request|].
    eexists. split; [apply (proj1 (H 1%positive demo_wmm_sta Hs eq_refl eq_refl)); reflexivity|]. split; reflexivity.
Defined.
