(* ===== verification/Probe.v ===== *)
(** * Probe requests: [beacon.c] and [drv_callbacks.c]

    Every probe request that the access point hears is reported to the controller
    ([hostapd_wpa_event]); whether it is answered is decided by [handle_probe_req]:
    a station that looks for any access point is answered by those to which the
    controller has assigned it.  The answer is made by [hostapd_gen_probe_resp] of
    Beacon.v. *)

From stdpp Require Import base list numbers gmap strings.
From Stdlib Require Import ZArith Lia.
From S2P Require Import Prelude CString Dense Env World Messages Elements Station Eids Beacon Handler Stamgd Lifecycle.
Local Open Scope Z_scope.

Definition IEEE80211_HDRLEN : Z := 24.
Definition broadcast : list Z := replicate 6 255.
Definition WLAN_FC_TYPE_MGMT : Z := 0.
Definition WLAN_FC_STYPE_PROBE_REQ : Z := 4.

(** [IS_LOCAL_MAC] *)
Definition IS_LOCAL_MAC (mac : list Z) : res bool := let! x := rd mac 0 in Ok (bool_decide (Z.land x 2 = 2)).

(** ** Which BSS a frame is for ([drv_callbacks.c]) *)

Inductive hapd_ref : Type := HAPD_BROADCAST | HAPD (i : nat).

Definition get_hapd_bssid (bs : list hostapd_data) (bssid : option (list Z)) : option hapd_ref :=
  match bssid with
  | None => None
  | Some a =>
      if bool_decide (a = broadcast) then Some HAPD_BROADCAST
      else match bss_of_addr bs a 0 with Some i => Some (HAPD i) | None => None end
  end.

(** [get_hapd_bssid_dense]: the first BSS of the address, when the station is its
    own or it is unlocked. *)
Definition get_hapd_bssid_dense (bs : list hostapd_data) (bssid : option (list Z)) (sta : list Z) : option hapd_ref :=
  match bssid with
  | None => None
  | Some a =>
      if bool_decide (a = broadcast) then Some HAPD_BROADCAST
      else
        match bss_of_addr bs a 0 with
        | None => None
        | Some i =>
            match bs !! i with
            | Some b =>
                if bool_decide (sta = own_sta b) then Some (HAPD i)
                else if bool_decide (flag_priv b = VAP_UNLOCK) then Some (HAPD i) else None
            | None => None
            end
        end
  end.

(** ** The report of what is heard *)

(** The part of [hostapd_wpa_event] for [EVENT_RX_MGMT]. *)
Definition hostapd_wpa_event_rx (frame : option (list Z)) (frame_len freq ssi_signal : Z) : M world unit :=
  match frame with
  | None => ret tt
  | Some hdr =>
      if bool_decide (frame_len >= 24) then
        lo <-- lift (rd hdr 0) ;;
        hi <-- lift (rd hdr 1) ;;
        let fc := lo + 256 * hi in
        if bool_decide (Z.shiftr (Z.land fc 0x000c) 2 = WLAN_FC_TYPE_MGMT)
           && bool_decide (Z.shiftr (Z.land fc 0x00f0) 4 = WLAN_FC_STYPE_PROBE_REQ) then
          let rssi := if bool_decide (ssi_signal > -10) then -10 else ssi_signal in
          addr2 <-- lift (slice 10 ETH_ALEN hdr) ;;
          local <-- lift (IS_LOCAL_MAC addr2) ;;
          if negb local && bool_decide (rssi > -90) then
            fnii_send_msg FNII_MSG_PROBE_INFO (Some (DProbe (mkProbe rssi 0 addr2 freq 0))) ;;; ret tt
          else ret tt
        else ret tt
      else ret tt
  end.

(** ** The name that is asked for *)

Inductive ssid_match_result : Type := NO_SSID_MATCH | EXACT_SSID_MATCH | WILDCARD_SSID_MATCH.

#[export] Instance ssid_match_result_eq_dec : EqDecision ssid_match_result.
Proof. solve_decision. Defined.

(** The loop over the list of names; [left] is what is left of it.  [fuel] bounds
    the names; each takes at least 2 bytes. *)
Fixpoint ssid_list_match (fuel : nat) (b : hostapd_data) (pos : list Z) (left : Z) (wildcard : bool) : res ssid_match_result :=
  if bool_decide (left < 1) then Ok (if wildcard then WILDCARD_SSID_MATCH else NO_SSID_MATCH)
  else
    match fuel with
    | O => Ub OutOfFuel
    | S f =>
        let! n := rd pos 1 in
        if bool_decide (2 + n > left) then Ok (if wildcard then WILDCARD_SSID_MATCH else NO_SSID_MATCH)
        else
          let! eq := if bool_decide (n = ssid_len b) then memeq (drop 2 pos) (ssid b) n else Ok false in
          if eq : bool then Ok EXACT_SSID_MATCH
          else ssid_list_match f b (drop (Z.to_nat (2 + n)) pos) (left - (2 + n)) (bool_decide (n = 0) || wildcard)
    end.

Definition ssid_match (b : hostapd_data) (name : list Z) (name_len : Z) (ssid_list : option (list Z * Z)) : res ssid_match_result :=
  let wildcard := bool_decide (name_len = 0) in
  let! eq := if bool_decide (name_len = ssid_len b) then memeq name (ssid b) name_len else Ok false in
  if eq : bool then Ok EXACT_SSID_MATCH
  else
    match ssid_list with
    | None => Ok (if wildcard then WILDCARD_SSID_MATCH else NO_SSID_MATCH)
    | Some (pos, n) => ssid_list_match (Z.to_nat n) b pos n wildcard
    end.

(** ** The answer *)

(** What is used of the configuration of the interface: the registered callbacks,
    [send_probe_response], and whether the mode is 802.11b or 802.11g. *)
Record probe_conf : Type := mkProbeConf { num_probereq_cb : nat; send_probe_response : bool; mode_bg : bool }.

(** The registered callbacks: whether one took the frame. *)
Fixpoint probereq_cbs (n : nat) (sa : list Z) : M world bool :=
  match n with
  | O => ret false
  | S n' => r <-- ext (Hostapd (str "probereq_cb") sa) ;; if bool_decide (r > 0) then ret true else probereq_cbs n' sa
  end.

(** The check of a frame that is to be dropped unless it names the network. *)
Definition probe_named (b : hostapd_data) (name : list Z) (name_len : Z) : M world bool :=
  status <-- fnii_check_socket_status ;;
  if bool_decide (status <> SOCKET_STATUS_ENABLE) then ret false
  else if bool_decide (name_len <> ssid_len b) then ret false
  else lift (memeq name (ssid b) name_len).

(** Whether the frame was sent on another channel. *)
Definition probe_foreign (c : probe_conf) (e : elems) : M world bool :=
  match e DS_PARAMS with
  | Some (p, n) =>
      if bool_decide (n = 1) && mode_bg c then
        w <-- get ;; x <-- lift (rd p 0) ;; ret (bool_decide (channel (ifc w) <> x))
      else ret false
  | None => ret false
  end.

(** From the match of the name on. *)
Definition probe_reply (hapd : nat) (b : hostapd_data) (mgmt sa : list Z) (e : elems) (name : list Z) (name_len : Z) : M world unit :=
  sta <-- ap_get_sta hapd sa ;;
  r <-- lift (ssid_match b name name_len (e SSID_LIST)) ;;
  if bool_decide (r = NO_SSID_MATCH) then ret tt
  else
    match sta with Some p => upd_sta p (set_ssid_probe (Some hapd)) | None => ret tt end ;;;
    x <-- ext (Hostapd (str "hostapd_ubus_handle_event") sa) ;;
    if bool_decide (x <> 0) then ret tt
    else
      resp <-- hostapd_gen_probe_resp hapd sta (Some mgmt) ;;
      match resp with
      | None => ret tt
      | Some resp =>
          da <-- lift (slice 4 ETH_ALEN mgmt) ;;
          hostapd_drv_send_mlme resp (bool_decide (r = WILDCARD_SSID_MATCH) && bool_decide (da = broadcast)) ;;;
          ret tt
      end.

Definition probe_elems (c : probe_conf) (hapd : nat) (b : hostapd_data) (mgmt sa : list Z) (drop_it : bool) (e : elems)
    (name : list Z) (name_len : Z) : M world unit :=
  named <-- (if drop_it then probe_named b name name_len else ret true) ;;
  if negb named then ret tt
  else
    foreign <-- probe_foreign c e ;;
    if foreign : bool then ret tt else probe_reply hapd b mgmt sa e name name_len.

Definition handle_probe_req (c : probe_conf) (hapd : nat) (mgmt : list Z) (len : Z) : M world unit :=
  b <-- get_bss hapd ;;
  bssid <-- lift (slice 16 ETH_ALEN mgmt) ;;
  sa <-- lift (slice 10 ETH_ALEN mgmt) ;;
  local <-- lift (IS_LOCAL_MAC sa) ;;
  w <-- get ;;
  find <-- lift (fnii_dense_station_find (fnii_socket_status (fn w)) (Some (mkCmd 0 (own_addr b) sa)) (g_dense_station_hash (fn w))) ;;
  let full := bool_decide (station_used (g_dense_station_hash (fn w)) >= STAION_MAX) in
  let drop_it := bool_decide (bssid = broadcast) && (negb local || full) && bool_decide (find = FNII_RET_ERR) in
  if drop_it && full then ret tt
  else if bool_decide (len < IEEE80211_HDRLEN) then ret tt
  else
    taken <-- probereq_cbs (num_probereq_cb c) sa ;;
    if taken || negb (send_probe_response c) then ret tt
    else
      p <-- lift (ieee802_11_parse_elems (drop (Z.to_nat IEEE80211_HDRLEN) mgmt) (len - IEEE80211_HDRLEN)) ;;
      if bool_decide (fst p = ParseFailed) then ret tt
      else
        match snd p SSID, snd p SUPP_RATES with
        | Some (name, name_len), Some _ => probe_elems c hapd b mgmt sa drop_it (snd p) name name_len
        | _, _ => ret tt
        end.

(** ** What an operation of this file can do

    It returns, keeps the tables, and sends nothing but answers of the BSS to the
    station, and these only if [P]; or it has no defined behaviour, and this only if
    [F]. *)
Definition outcome (F : Prop) (b : hostapd_data) (sa : list Z) (P : Prop) (w : world) (r : res (unit * world)) : Prop :=
  (exists w' cs, r = Ok (tt, w') /\ quiet w w' /\ trace (wenv w') = trace (wenv w) ++ cs /\
    forall frame na, DrvSendMlme frame na ∈ cs -> is_probe_resp (ifc w) b sa frame /\ P) \/
  (F /\ exists u, r = Ub u).

Definition no_answer (cs : list call) : Prop := forall frame na, DrvSendMlme frame na ∉ cs.

Lemma asks_no_answer cs : asks cs -> no_answer cs.
Proof. intros H f na Hin. apply (proj1 (Forall_forall _ _) H) in Hin. done. Qed.

Section Outcome.
Context (F : Prop) (b : hostapd_data) (sa : list Z).

Lemma outcome_ret P w : outcome F b sa P w (ret tt w).
Proof.
  left. exists w, []. split; [done|]. split; [done|]. split; [now rewrite app_nil_r|]. intros f na Hna. inversion Hna.
Qed.

Lemma outcome_mono P Q w r : outcome F b sa P w r -> (P -> Q) -> outcome F b sa Q w r.
Proof. intros [(w' & cs & E & K & T & H)|H] HPQ; [left|by right]. exists w', cs. do 3 (split; [done|]). intros f na Hin. destruct (H f na Hin). auto. Qed.

Lemma outcome_from P w w1 cs r : quiet w w1 -> trace (wenv w1) = trace (wenv w) ++ cs -> no_answer cs ->
  outcome F b sa P w1 r -> outcome F b sa P w r.
Proof.
  intros Q T Hcs [(w' & ds & E & K & T' & H)|H]; [left|by right]. exists w', (cs ++ ds). split; [done|]. split; [now transitivity w1|].
  split; [now rewrite T', T, app_assoc|]. rewrite <- (q_ifc _ _ Q). intros f na [Hc|Hd]%elem_of_app; [now apply Hcs in Hc|eauto].
Qed.

Lemma outcome_log {A} P (m : M world A) (k : A -> M world unit) a cs w : m w = Ok (a, with_log cs w) -> no_answer cs ->
  outcome F b sa P (with_log cs w) (k a (with_log cs w)) -> outcome F b sa P w (bind m k w).
Proof.
  intros E Hcs H. rewrite (bind_Ok _ _ _ _ _ E). eapply outcome_from; [apply (quiet_log cs)| |exact Hcs|exact H].
  apply logged_all_trace.
Qed.

Lemma outcome_lift {A} P (r : res A) (k : A -> M world unit) a w : r = Ok a -> outcome F b sa P w (k a w) ->
  outcome F b sa P w (bind (lift r) k w).
Proof. intros -> H. exact H. Qed.

Lemma outcome_ub {A} P (r : res A) (k : A -> M world unit) w : (exists u, r = Ub u) -> F -> outcome F b sa P w (bind (lift r) k w).
Proof. intros [u ->] HF. right. split; [done|]. by exists u. Qed.
End Outcome.

Lemma no_answer_call c : (forall f na, c <> DrvSendMlme f na) -> no_answer [c].
Proof. intros Hc f na Hin. apply list_elem_of_singleton in Hin. now apply (Hc f na). Qed.

Lemma no_answer_app cs ds : no_answer cs -> no_answer ds -> no_answer (cs ++ ds).
Proof. intros H1 H2 f na [H|H]%elem_of_app; [now apply H1 in H|now apply H2 in H]. Qed.

Lemma no_answer_nil : no_answer [].
Proof. intros f na H. inversion H. Qed.

Lemma cbs_run n sa : forall w, exists r cs, probereq_cbs n sa w = Ok (r, with_log cs w) /\ no_answer cs.
Proof.
  induction n as [|n IH]; intros w; simpl.
  - exists false, []. split; [by destruct w|apply no_answer_nil].
  - rewrite (bind_Ok _ _ _ _ _ (ext_log _ _)). case_bool_decide.
    + eexists _, [_]. split; [reflexivity|]. apply no_answer_call. discriminate.
    + destruct (IH (with_log [Hostapd (str "probereq_cb") sa] w)) as (r & cs & E & Hcs). exists r, (Hostapd (str "probereq_cb") sa :: cs).
      split; [etransitivity; [exact E|]; f_equal; f_equal; symmetry; apply (with_log_app [_])|].
      apply (no_answer_app [_]); [apply no_answer_call; discriminate|done].
Qed.

(** ** The match of the name *)

Lemma memeq_ok (x y : list Z) n : 0 <= n <= zlen x -> n <= zlen y -> exists r, memeq x y n = Ok r /\
  (r = true -> take (Z.to_nat n) x = take (Z.to_nat n) y).
Proof.
  intros Hx Hy. unfold memeq, slice. rewrite !bool_decide_eq_true_2 by lia. cbn [res_bind]. rewrite !drop_0.
  eexists. split; [reflexivity|]. intros H%bool_decide_eq_true. exact H.
Qed.

Lemma ssid_list_total b : bss_named b -> forall fuel pos left wild, left <= Z.of_nat fuel -> left < zlen pos -> Forall u8 pos ->
  exists r, ssid_list_match fuel b pos left wild = Ok r.
Proof.
  intros Hn. induction fuel as [|f IH]; intros pos left wild Hf Hl Hb; cbn [ssid_list_match].
  - rewrite bool_decide_eq_true_2 by lia. by eexists.
  - case_bool_decide as E1; [by eexists|].
    destruct pos as [|a [|n rest]]; [unfold zlen in Hl; simpl in Hl; lia..|].
    change (rd (a :: n :: rest) 1) with (Ok (A := Z) n). cbn [res_bind]. case_bool_decide as E2; [by eexists|].
    apply Forall_cons_1 in Hb as [_ Hb]. apply Forall_cons_1 in Hb as [Hu Hb]. unfold u8 in Hu. rewrite !zlen_cons in Hl.
    assert (exists r, (if bool_decide (n = ssid_len b) then memeq (drop 2 (a :: n :: rest)) (ssid b) n else Ok false) = Ok r) as [r ->].
    { case_bool_decide as En; [|by eexists]. change (drop 2 (a :: n :: rest)) with rest. destruct (memeq_ok rest (ssid b) n) as (r & -> & _); [lia| |by eexists].
      unfold zlen. rewrite (nm_len _ Hn). pose proof (nm_room _ Hn). lia. }
    cbn [res_bind]. destruct r; [by eexists|].
    apply IH; [lia| |].
    + replace (Z.to_nat (2 + n)) with (S (S (Z.to_nat n))) by lia. simpl. unfold zlen in *. rewrite length_drop. lia.
    + replace (Z.to_nat (2 + n)) with (S (S (Z.to_nat n))) by lia. simpl. now apply Forall_drop.
Qed.

(** The list ends the buffer, or it does not. *)
Definition list_ends (e : elems) : Prop := exists p n, e SSID_LIST = Some (p, n) /\ zlen p <= n.
Definition list_inside (e : elems) : Prop := forall p n, e SSID_LIST = Some (p, n) -> n < zlen p.

Lemma ssid_match_total b name name_len e : bss_named b -> 0 <= name_len <= zlen name -> elems_inside e -> list_inside e ->
  exists r, ssid_match b name name_len (e SSID_LIST) = Ok r.
Proof.
  intros Hn Hl Hu He. unfold ssid_match.
  assert (exists r, (if bool_decide (name_len = ssid_len b) then memeq name (ssid b) name_len else Ok false) = Ok r) as [r ->].
  { case_bool_decide as En; [|by eexists]. destruct (memeq_ok name (ssid b) name_len) as (r & -> & _); [lia| |by eexists].
    unfold zlen. rewrite (nm_len _ Hn). pose proof (nm_room _ Hn). lia. }
  cbn [res_bind]. destruct r; [by eexists|]. destruct (e SSID_LIST) as [[p n]|] eqn:E; [|by eexists].
  pose proof (He p n E) as Hp. destruct (Hu _ _ _ E) as [Hr Hp8]. apply ssid_list_total; [done|lia|done|done].
Qed.

Lemma ssid_match_or b name name_len e : bss_named b -> 0 <= name_len <= zlen name -> elems_inside e ->
  (exists r, ssid_match b name name_len (e SSID_LIST) = Ok r) \/ (list_ends e /\ exists u, ssid_match b name name_len (e SSID_LIST) = Ub u).
Proof.
  intros Hn Hl Hu. destruct (ssid_match b name name_len (e SSID_LIST)) as [r|u] eqn:E; [eauto|]. right. split; [|eauto].
  destruct (e SSID_LIST) as [[p n]|] eqn:El.
  - exists p, n. split; [done|]. destruct (decide (n < zlen p)); [|lia]. exfalso.
    destruct (ssid_match_total b name name_len e Hn Hl Hu) as [r Er]; [intros q m Hq; congruence|congruence].
  - exfalso. destruct (ssid_match_total b name name_len e Hn Hl Hu) as [r Er]; [intros q m Hq; congruence|congruence].
Qed.

(** ** The answer *)

Lemma ap_get_sta_run w i b addr : iface_ok w -> bss (ifc w) !! i = Some b -> mac_ok addr ->
  exists r, ap_get_sta i addr w = Ok (r, w) /\ forall p, r = Some p -> exists s, heap w !! p = Some s.
Proof.
  intros I Hb Hm. destruct (io_bss _ I i b Hb) as [Hok _].
  destruct (ap_get_sta_spec w i b addr Hb Hok Hm) as (r & E & Hspec). exists r. split; [done|].
  intros p ->. destruct (proj1 (Hspec p) eq_refl) as (s & _ & Hs & _). eauto.
Qed.

(** A frame of at least the length of its header. *)
Definition frame_ok (mgmt : list Z) : Prop := Forall u8 mgmt /\ IEEE80211_HDRLEN <= zlen mgmt.

Lemma frame_slice mgmt off : frame_ok mgmt -> 0 <= off <= 18 ->
  exists a, slice off ETH_ALEN mgmt = Ok a /\ mac_ok a.
Proof.
  intros [Hb Hl] Ho. unfold slice, ETH_ALEN, IEEE80211_HDRLEN in *. rewrite bool_decide_eq_true_2 by lia.
  eexists. split; [reflexivity|]. split.
  - unfold zlen in Hl. rewrite length_take, length_drop. lia.
  - apply Forall_take, Forall_drop, Hb.
Qed.

Section Reply.
Context (w : world) (i : nat) (b : hostapd_data) (mgmt sa : list Z) (e : elems) (name : list Z) (name_len : Z).
Context (I : iface_ok w) (Hb : bss (ifc w) !! i = Some b) (Hr : frame_ready (ifc w) b) (Hf : frame_ok mgmt) (Hsa : slice 10 ETH_ALEN mgmt = Ok sa).
Context (F : Prop) (Hn : 0 <= name_len <= zlen name) (Hu : elems_inside e) (He : list_ends e -> F).

Lemma reply_outcome : mac_ok sa -> outcome F b sa True w (probe_reply i b mgmt sa e name name_len w).
Proof using I Hb Hr Hf Hsa Hn Hu He.
  intros Hmac. destruct (ap_get_sta_run w i b sa I Hb Hmac) as (st & E & Hst). unfold probe_reply. rewrite (bind_Ok _ _ _ _ _ E).
  destruct (ssid_match_or b name name_len e (proj2 (io_bss _ I i b Hb)) Hn Hu) as [(r & Er)|[Hends Hub]]; [|apply outcome_ub; [done|now apply He]].
  apply (outcome_lift _ _ _ _ _ _ r); [done|]. case_bool_decide; [apply outcome_ret|].
  assert (exists w1, (match st with Some p => upd_sta p (set_ssid_probe (Some i)) | None => ret tt end) w = Ok (tt, w1) /\
    quiet w w1 /\ trace (wenv w1) = trace (wenv w) /\ forall p, st = Some p -> is_Some (heap w1 !! p)) as (w1 & E1 & Q1 & T1 & L1).
  { destruct st as [p|]; [|by exists w]. destruct (Hst p eq_refl) as [s Hs].
    destruct (quietly_upd_sta p s (set_ssid_probe (Some i)) w Hs ltac:(done)) as [Eu Qu]. eexists. split; [exact Eu|]. split; [done|]. split; [done|].
    intros q [= <-]. eexists. apply lookup_insert_eq. }
  rewrite (bind_Ok _ _ _ _ _ E1). apply (outcome_from _ _ _ _ w w1 []); [done|now rewrite app_nil_r|apply no_answer_nil|].
  eapply (outcome_log _ _ _ _ _ _ _ [_]); [reflexivity|apply no_answer_call; discriminate|]. set (w2 := with_log _ w1).
  case_bool_decide; [apply outcome_ret|].
  assert (ifc w2 = ifc w) as Ei by apply (q_ifc _ _ Q1).
  destruct (gen_run w2 i b st (Some mgmt) sa) as (resp & cs & Eg & Qg & _ & Hg); [by rewrite Ei|by rewrite Ei|done|done|].
  eapply outcome_log; [exact Eg|by apply asks_no_answer|]. destruct resp as [frame|]; [|apply outcome_ret].
  destruct (frame_slice mgmt 4 Hf) as (da & Eda & _); [lia|]. apply (outcome_lift _ _ _ _ _ _ da); [done|].
  set (w3 := with_log cs w2). set (noack := bool_decide _ && _). left. exists (with_log [DrvSendMlme frame noack] w3), [DrvSendMlme frame noack].
  assert (driver_ops (ifc w3) = true) as Ho by (change (ifc w3) with (ifc w2); rewrite Ei; apply I).
  split; [|split; [apply (quiet_log [_])|split; [done|]]].
  - unfold hostapd_drv_send_mlme. rewrite bind_assoc, (bind_Ok _ _ w3 w3 w3) by done. by rewrite Ho.
  - intros f na [= -> ->]%list_elem_of_singleton. split; [|done]. change (ifc w3) with (ifc w2). by apply Hg.
Qed.
End Reply.

(** ** The decision *)

(** What lets the access point answer a station that looks for any access point:
    the controller has assigned it, or there is room and it has a local address, or
    there is room and it asks for this network by its name, while the link is up. *)
Definition names (b : hostapd_data) (e : elems) : Prop :=
  exists p n, e SSID = Some (p, n) /\ n = ssid_len b /\ take (Z.to_nat n) p = take (Z.to_nat n) (ssid b).

Definition linked (w : world) : Prop := fnii_socket_status (fn w) = SOCKET_STATUS_ENABLE.

Definition may_answer (w : world) (b : hostapd_data) (sa : list Z) (e : elems) : Prop :=
  (linked w /\ (sa, own_addr b) ∈ contents (g_dense_station_hash (fn w))) \/
  (station_used (g_dense_station_hash (fn w)) < STAION_MAX /\
   (IS_LOCAL_MAC sa = Ok true \/ (linked w /\ names b e))).

Lemma named_run w b name name_len : bss_named b -> 0 <= name_len <= zlen name ->
  exists r, probe_named b name name_len w = Ok (r, w) /\
    (r = true -> linked w /\ name_len = ssid_len b /\ take (Z.to_nat name_len) name = take (Z.to_nat name_len) (ssid b)).
Proof.
  intros Hn Hl. unfold probe_named, fnii_check_socket_status. rewrite bind_assoc, (bind_Ok _ _ w w w) by done.
  rewrite bind_ret_l. case_bool_decide as E1; [by exists false|].
  case_bool_decide as E2; [by exists false|].
  destruct (memeq_ok name (ssid b) name_len Hl) as (r & Er & Hr).
  { unfold zlen. rewrite (nm_len _ Hn). pose proof (nm_room _ Hn). lia. }
  exists r. split; [unfold lift; now rewrite Er|]. intros ->. auto.
Qed.

Lemma foreign_run c e w : elems_inside e -> exists r, probe_foreign c e w = Ok (r, w).
Proof.
  intros He. unfold probe_foreign. destruct (e DS_PARAMS) as [[p n]|] eqn:E; [|by exists false].
  destruct (He _ _ _ E) as [[Hn _] _]. case_bool_decide as E1; [|by exists false]. destruct (mode_bg c); [|by exists false]. cbn [andb].
  destruct p as [|x p]; [subst n; unfold zlen in Hn; simpl in Hn; lia|].
  rewrite (bind_Ok _ _ w w w) by done. rewrite (bind_Ok _ _ w x w) by done. by eexists.
Qed.

Lemma elems_outcome F w i b c mgmt sa e name n d : iface_ok w -> bss (ifc w) !! i = Some b -> frame_ready (ifc w) b -> frame_ok mgmt ->
  mac_ok sa -> slice 10 ETH_ALEN mgmt = Ok sa ->
  elems_inside e -> (list_ends e -> F) -> e SSID = Some (name, n) ->
  outcome F b sa (d = true -> linked w /\ names b e) w (probe_elems c i b mgmt sa d e name n w).
Proof.
  intros I Hb Hr0 Hf Hsa Hsl He Hi Es. destruct (He _ _ _ Es) as [[Hn _] _]. unfold probe_elems.
  assert (exists r, (if d then probe_named b name n else ret true) w = Ok (r, w) /\
    (r = true -> d = true -> linked w /\ names b e)) as (r & Er & Hr).
  { destruct d; [|by exists true]. destruct (named_run w b name n (proj2 (io_bss _ I i b Hb)) Hn) as (r & Er & Hr).
    exists r. split; [done|]. intros Ht _. destruct (Hr Ht) as (H1 & H2 & H3). split; [done|]. by exists name, n. }
  rewrite (bind_Ok _ _ _ _ _ Er). destruct r; [|apply outcome_ret]. cbn [negb].
  destruct (foreign_run c e w He) as [f Ef]. rewrite (bind_Ok _ _ _ _ _ Ef). destruct f; [apply outcome_ret|].
  eapply outcome_mono; [now apply (reply_outcome w i b mgmt sa e name n)|]. auto.
Qed.

Section Decision.
Context (w : world) (i : nat) (b : hostapd_data) (c : probe_conf) (mgmt sa : list Z).
Context (I : iface_ok w) (Hb : bss (ifc w) !! i = Some b) (Hf : frame_ok mgmt) (Hsa : mac_ok sa) (Hfr : frame_ready (ifc w) b).

(** [handle_probe_req] up to the callbacks. *)
Definition dropped_frame (bssid : list Z) (loc : bool) : bool :=
  bool_decide (bssid = broadcast) && (negb loc || bool_decide (station_used (g_dense_station_hash (fn w)) >= STAION_MAX))
  && negb (bool_decide (linked w) && bool_decide ((sa, own_addr b) ∈ contents (g_dense_station_hash (fn w)))).

Lemma find_run : exists r, fnii_dense_station_find (fnii_socket_status (fn w)) (Some (mkCmd 0 (own_addr b) sa)) (g_dense_station_hash (fn w)) = Ok r /\
  bool_decide (r = FNII_RET_ERR)
  = negb (bool_decide (linked w) && bool_decide ((sa, own_addr b) ∈ contents (g_dense_station_hash (fn w)))).
Proof using I Hsa.
  destruct (decide (linked w)) as [Hl|Hl].
  - rewrite (bool_decide_eq_true_2 (linked w)) by done. unfold linked in Hl. rewrite Hl.
    rewrite (dense_find_run _ (mkCmd 0 (own_addr b) sa) (io_dense _ I) Hsa). eexists. split; [done|].
    change (key_of (mkCmd 0 (own_addr b) sa)) with (sa, own_addr b). destruct (bool_decide (_ ∈ _)); reflexivity.
  - rewrite (bool_decide_eq_false_2 (linked w)) by done. exists FNII_RET_ERR. split; [|done].
    unfold fnii_dense_station_find. now rewrite bool_decide_eq_true_2.
Qed.

Lemma handle_start len bssid loc : slice 10 ETH_ALEN mgmt = Ok sa -> slice 16 ETH_ALEN mgmt = Ok bssid -> IS_LOCAL_MAC sa = Ok loc ->
  handle_probe_req c i mgmt len w =
    (if dropped_frame bssid loc && bool_decide (station_used (g_dense_station_hash (fn w)) >= STAION_MAX) then ret tt
     else if bool_decide (len < IEEE80211_HDRLEN) then ret tt
     else
       taken <-- probereq_cbs (num_probereq_cb c) sa ;;
       if taken || negb (send_probe_response c) then ret tt
       else
         p <-- lift (ieee802_11_parse_elems (drop (Z.to_nat IEEE80211_HDRLEN) mgmt) (len - IEEE80211_HDRLEN)) ;;
         if bool_decide (fst p = ParseFailed) then ret tt
         else
           match snd p SSID, snd p SUPP_RATES with
           | Some (name, name_len), Some _ => probe_elems c i b mgmt sa (dropped_frame bssid loc) (snd p) name name_len
           | _, _ => ret tt
           end) w.
Proof using I Hb Hsa.
  intros E1 E2 E3. unfold handle_probe_req. rewrite (bind_Ok _ _ _ _ _ (get_bss_run _ _ _ Hb)).
  rewrite (bind_Ok _ _ w bssid w) by (unfold lift; now rewrite E2).
  rewrite (bind_Ok _ _ w sa w) by (unfold lift; now rewrite E1).
  rewrite (bind_Ok _ _ w loc w) by (unfold lift; now rewrite E3). rewrite (bind_Ok _ _ w w w) by done.
  destruct find_run as (r & Er & Hr). rewrite (bind_Ok _ _ w r w) by (unfold lift; now rewrite Er). cbv zeta.
  rewrite Hr. reflexivity.
Qed.

Lemma handle_outcome F len bssid : slice 10 ETH_ALEN mgmt = Ok sa -> slice 16 ETH_ALEN mgmt = Ok bssid -> len <= zlen mgmt ->
  (forall r e, ieee802_11_parse_elems (drop 24 mgmt) (len - 24) = Ok (r, e) -> list_ends e -> F) ->
  outcome F b sa (bssid = broadcast ->
    exists r e, ieee802_11_parse_elems (drop 24 mgmt) (len - 24) = Ok (r, e) /\ may_answer w b sa e) w (handle_probe_req c i mgmt len w).
Proof using I Hb Hf Hsa Hfr.
  intros E1 E2 Hlen Hin.
  assert (exists loc, IS_LOCAL_MAC sa = Ok loc) as [loc E3].
  { destruct Hsa as [L _]. unfold IS_LOCAL_MAC. destruct sa; [discriminate|]. by eexists. }
  rewrite (handle_start len bssid loc E1 E2 E3). set (d := dropped_frame bssid loc).
  destruct (d && bool_decide _) eqn:Ed; [apply outcome_ret|].
  destruct (bool_decide (len < _)) eqn:Hl; [apply outcome_ret|]. apply bool_decide_eq_false in Hl.
  destruct (cbs_run (num_probereq_cb c) sa w) as (t & cs & Ec & Hcs).
  apply (outcome_log _ _ _ _ _ _ t cs); [done|done|]. set (w1 := with_log cs w).
  destruct (t || _); [apply outcome_ret|]. unfold IEEE80211_HDRLEN in *. change (Z.to_nat 24) with 24%nat.
  destruct (parse_any (Z.to_nat (len - 24)) (drop 24 mgmt) (len - 24) no_elems false) as (r & e & Ep & Pa);
    [apply Forall_drop, Hf|unfold zlen in *; rewrite length_drop; lia|lia|].
  fold (ieee802_11_parse_elems (drop 24 mgmt) (len - 24)) in Ep.
  apply (outcome_lift _ _ _ _ _ _ (r, e)); [done|]. cbn [fst snd].
  destruct (bool_decide (r = _)); [apply outcome_ret|].
  destruct (e SSID) as [[name n]|] eqn:Es; [|apply outcome_ret]. destruct (e SUPP_RATES); [|apply outcome_ret].
  assert (elems_inside e) as He by (apply (parsed_inside _ _ _ _ (Forall_drop _ 24 _ (proj1 Hf)) Pa)).
  eapply outcome_mono; [apply (elems_outcome F w1 i b c mgmt sa e name n d); [|done..|by eapply Hin|done]; apply (iface_ok_quiet w); [apply quiet_log|done]|].
  intros Hd Hbc. exists r, e. split; [done|]. unfold d, dropped_frame in Hd, Ed. rewrite (bool_decide_eq_true_2 (bssid = broadcast)) in * by done.
  cbn [andb] in Hd, Ed. unfold may_answer.
  destruct (bool_decide (linked w) && bool_decide (_ ∈ _)) eqn:Ea.
  { apply andb_true_iff in Ea as [H1%bool_decide_eq_true H2%bool_decide_eq_true]. by left. }
  right. destruct (bool_decide (_ >= _)) eqn:Eu; [destruct loc; discriminate|]. apply bool_decide_eq_false in Eu. split; [lia|].
  destruct loc; [by left|right]. now apply Hd.
Qed.
End Decision.

(** ** A request that is answered *)

Definition network_name (b : hostapd_data) : list Z := take (Z.to_nat (ssid_len b)) (ssid b).

(** Nothing of hostapd stands in the way. *)
Record unfiltered (w : world) (c : probe_conf) (sa : list Z) : Prop := {
  uf_send : send_probe_response c = true;
  uf_mode : mode_bg c = false;
  uf_cb : forall t, onum (wenv w) t (Hostapd (str "probereq_cb") sa) <= 0;
  uf_ubus : forall t, onum (wenv w) t (Hostapd (str "hostapd_ubus_handle_event") sa) = 0;
  uf_memory : forall t n, onum (wenv w) t (Malloc n) <> 0 }.

Lemma cbs_none n sa : forall w, (forall t, onum (wenv w) t (Hostapd (str "probereq_cb") sa) <= 0) ->
  exists cs, probereq_cbs n sa w = Ok (false, with_log cs w) /\ no_answer cs.
Proof.
  induction n as [|n IH]; intros w Hw; simpl.
  - exists []. split; [by destruct w|apply no_answer_nil].
  - rewrite (bind_Ok _ _ _ _ _ (ext_log _ _)). rewrite bool_decide_eq_false_2 by (intros Hgt%Z.gt_lt; apply Z.lt_nge in Hgt; apply Hgt, Hw).
    destruct (IH (with_log [Hostapd (str "probereq_cb") sa] w) Hw) as (cs & E & Hcs). exists (Hostapd (str "probereq_cb") sa :: cs).
    split; [exact E|]. apply (no_answer_app [_]); [apply no_answer_call; discriminate|done].
Qed.

(** The name that was found, as the parser gives it. *)
Lemma name_pointer e p n name : elems_inside e -> e SSID = Some (p, n) -> elem_bytes e SSID = Some name ->
  take (Z.to_nat n) p = name /\ n = zlen name /\ 0 <= n <= zlen p.
Proof.
  intros He Es. unfold elem_bytes. rewrite Es. intros [= <-]. destruct (He _ _ _ Es) as [[Hn _] _]. split; [done|].
  split; [|done]. unfold zlen in *. rewrite length_take. lia.
Qed.

Lemma network_name_len b : bss_named b -> zlen (network_name b) = ssid_len b.
Proof. intros []. unfold network_name, zlen. rewrite length_take. lia. Qed.

Lemma match_asked b p n name : bss_named b -> 1 <= ssid_len b -> take (Z.to_nat n) p = name -> n = zlen name -> 0 <= n <= zlen p ->
  name = [] \/ name = network_name b ->
  ssid_match b p n None = Ok (if bool_decide (name = []) then WILDCARD_SSID_MATCH else EXACT_SSID_MATCH).
Proof.
  intros Hb Hone Ht En Hn Hname. pose proof (network_name_len b Hb) as Hl. unfold ssid_match. destruct Hname as [-> | ->].
  - change (zlen []) with 0 in En. subst n. rewrite (bool_decide_eq_false_2 (0 = ssid_len b)) by lia. reflexivity.
  - rewrite Hl in En. subst n. rewrite !(bool_decide_eq_true_2 (ssid_len b = ssid_len b)) by done.
    unfold memeq, slice. rewrite !bool_decide_eq_true_2 by (try (unfold zlen; rewrite (nm_len _ Hb); pose proof (nm_room _ Hb)); lia).
    cbn [res_bind]. rewrite !drop_0, Ht. rewrite bool_decide_eq_true_2 by done. cbn [res_bind].
    rewrite bool_decide_eq_false_2; [done|]. intros E0. rewrite E0 in Hl. change (zlen []) with 0 in Hl. lia.
Qed.

(** What an answered request leaves behind. *)
Record answered (w : world) (i : nat) (b : hostapd_data) (sa da name : list Z) (w' : world) : Prop := {
  an_quiet : quiet w w';
  an_sent : exists cs frame, trace (wenv w') = trace (wenv w) ++ cs ++
              [DrvSendMlme frame (bool_decide (name = []) && bool_decide (da = broadcast))] /\
              no_answer cs /\ is_probe_resp (ifc w) b sa frame;
  an_probe : forall p s, sta_at w b sa p s -> exists s', heap w' !! p = Some s' /\ ssid_probe s' = Some i }.

Lemma reply_run w i b mgmt sa da e p n name c : iface_ok w -> bss (ifc w) !! i = Some b -> frame_ready (ifc w) b -> mac_ok sa ->
  slice 10 ETH_ALEN mgmt = Ok sa -> slice 4 ETH_ALEN mgmt = Ok da ->
  unfiltered w c sa -> 1 <= ssid_len b -> e SSID_LIST = None ->
  take (Z.to_nat n) p = name -> n = zlen name -> 0 <= n <= zlen p -> name = [] \/ name = network_name b ->
  exists w', probe_reply i b mgmt sa e p n w = Ok (tt, w') /\ answered w i b sa da name w'.
Proof.
  intros I Hb Hfr Hsa Hsl Hda Hu Hone Hlist Ht En Hn Hname. destruct (io_bss _ I i b Hb) as [Hok Hnm].
  destruct (ap_get_sta_spec w i b sa Hb Hok Hsa) as (st & Est & Hspec). unfold probe_reply.
  rewrite (bind_Ok _ _ _ _ _ Est). rewrite Hlist.
  set (r := if bool_decide (name = []) then WILDCARD_SSID_MATCH else EXACT_SSID_MATCH).
  rewrite (bind_Ok _ _ w r w) by (unfold lift; now rewrite (match_asked b p n name)).
  rewrite bool_decide_eq_false_2 by (unfold r; case_bool_decide; discriminate).
  assert (exists w1, (match st with Some q => upd_sta q (set_ssid_probe (Some i)) | None => ret tt end) w = Ok (tt, w1) /\
    quiet w w1 /\ wenv w1 = wenv w /\ (forall q, st = Some q -> is_Some (heap w1 !! q)) /\
    forall q s, sta_at w b sa q s -> exists s', heap w1 !! q = Some s' /\ ssid_probe s' = Some i)
    as (w1 & E1 & Q1 & T1 & L1 & H1).
  { destruct st as [q|].
    - destruct (proj1 (Hspec q) eq_refl) as (s & Hq & Hs & Ea).
      destruct (quietly_upd_sta q s (set_ssid_probe (Some i)) w Hs ltac:(done)) as [Eu Qu]. eexists. split; [exact Eu|].
      split; [done|]. split; [done|]. split; [intros q' [= <-]; eexists; apply lookup_insert_eq|].
      intros q' s' Hq'. assert (Some q = Some q') as [= <-] by (apply Hspec; eauto). eexists. split; [apply lookup_insert_eq|done].
    - exists w. do 3 (split; [done|]). split; [done|]. intros q s Hq. assert (None = Some q) by (apply Hspec; eauto). discriminate. }
  rewrite (bind_Ok _ _ _ _ _ E1). rewrite (bind_Ok _ _ _ _ _ (ext_log _ _)).
  rewrite T1, (uf_ubus _ _ _ Hu), (bool_decide_eq_false_2 (0 <> 0)) by lia. set (w2 := with_log _ w1).
  assert (ifc w2 = ifc w) as Ei by apply (q_ifc _ _ Q1).
  destruct (gen_run w2 i b st (Some mgmt) sa) as (resp & cs & Eg & Qg & Hm & Hg); [by rewrite Ei|by rewrite Ei|done|done|].
  rewrite (bind_Ok _ _ _ _ _ Eg). destruct resp as [frame|].
  2: { exfalso. apply (uf_memory _ _ _ Hu (length (trace (wenv w2))) (MAX_PROBERESP_LEN + extra_len b)).
       rewrite <- (proj1 Hm eq_refl). unfold memory, w2. simpl. by rewrite T1. }
  set (w3 := with_log cs w2). rewrite (bind_Ok _ _ w3 da w3) by (unfold lift; now rewrite Hda).
  assert (bool_decide (r = WILDCARD_SSID_MATCH) = bool_decide (name = [])) as -> by (unfold r; destruct (bool_decide (name = [])); reflexivity).
  unfold hostapd_drv_send_mlme. rewrite bind_assoc, (bind_Ok _ _ w3 w3 w3) by done.
  assert (driver_ops (ifc w3) = true) as -> by (change (ifc w3) with (ifc w2); rewrite Ei; apply I).
  eexists. split; [reflexivity|]. split.
  - transitivity w1; [done|]. transitivity w2; [apply (quiet_log [_])|]. transitivity w3; [apply quiet_log|apply (quiet_log [_])].
  - exists (Hostapd (str "hostapd_ubus_handle_event") sa :: cs), frame. split; [|split].
    + unfold w3, w2. simpl. rewrite logged_all_trace. simpl. rewrite T1, <- !app_assoc. reflexivity.
    + apply (no_answer_app [_]); [apply no_answer_call; discriminate|by apply asks_no_answer].
    + rewrite <- Ei. by apply Hg.
  - exact H1.
Qed.

(** A frame that the policy admits is dropped only when it names the network. *)
Lemma drop_admitted w b sa bssid loc name : IS_LOCAL_MAC sa = Ok loc ->
  (bssid = broadcast -> (linked w /\ (sa, own_addr b) ∈ contents (g_dense_station_hash (fn w))) \/
     (station_used (g_dense_station_hash (fn w)) < STAION_MAX /\
      (IS_LOCAL_MAC sa = Ok true \/ (linked w /\ name = network_name b)))) ->
  dropped_frame w b sa bssid loc && bool_decide (station_used (g_dense_station_hash (fn w)) >= STAION_MAX) = false /\
  (dropped_frame w b sa bssid loc = true -> linked w /\ name = network_name b).
Proof.
  intros El Hadm. unfold dropped_frame. destruct (decide (bssid = broadcast)) as [Hb|Hb].
  2: { rewrite (bool_decide_eq_false_2 (bssid = broadcast)) by done. by split. }
  destruct (Hadm Hb) as [[H1 H2]|[H1 H2]].
  - rewrite (bool_decide_eq_true_2 (linked w)), (bool_decide_eq_true_2 (_ ∈ _)) by done. cbn [andb negb]. rewrite andb_false_r. by split.
  - rewrite (bool_decide_eq_false_2 (_ >= _)) by lia. split; [apply andb_false_r|]. rewrite orb_false_r.
    destruct H2 as [H2|H2]; [|done]. assert (loc = true) as -> by congruence. cbn [negb]. rewrite andb_false_r. done.
Qed.

Lemma named_exact w b p n name : bss_named b -> linked w -> name = network_name b ->
  take (Z.to_nat n) p = name -> n = zlen name -> 0 <= n <= zlen p -> probe_named b p n w = Ok (true, w).
Proof.
  intros Hb Hl -> Ht En Hp. rewrite network_name_len in En by done. subst n.
  unfold probe_named, fnii_check_socket_status. rewrite bind_assoc, (bind_Ok _ _ w w w) by done. rewrite bind_ret_l.
  rewrite bool_decide_eq_false_2 by (intros Hne; now apply Hne). rewrite bool_decide_eq_false_2 by lia.
  unfold memeq, slice, lift. rewrite !bool_decide_eq_true_2 by (try (unfold zlen; rewrite (nm_len _ Hb); pose proof (nm_room _ Hb)); lia).
  cbn [res_bind]. rewrite !drop_0, Ht. rewrite bool_decide_eq_true_2 by done. done.
Qed.

(** ** Statements *)

(** C12: the policy for probe requests.  [handle_probe_req] returns for every frame
    with its header (whose list of names, if there is one, does not end the buffer)
    and keeps the tables; when it answers a request that is sent to everybody, the
    controller has assigned the station to this BSS, or fewer than 32 stations are
    assigned and the station has a local address or asks for this network by name.
    Without the link only stations with local addresses are answered. *)
Theorem probe_policy (w : world) (i : nat) (b : hostapd_data) (c : probe_conf) (mgmt sa bssid : list Z) (len : Z)
    (Hw : iface_ok w) (Hb : bss (ifc w) !! i = Some b) (Hfr : frame_ready (ifc w) b) (Hf : frame_ok mgmt) (Hlen : len <= zlen mgmt)
    (Hs : slice 10 ETH_ALEN mgmt = Ok sa) (Hd : slice 16 ETH_ALEN mgmt = Ok bssid)
    (Hin : forall r e, ieee802_11_parse_elems (drop 24 mgmt) (len - 24) = Ok (r, e) -> list_inside e) :
  exists w' cs, handle_probe_req c i mgmt len w = Ok (tt, w') /\ quiet w w' /\ trace (wenv w') = trace (wenv w) ++ cs /\
    forall frame noack, DrvSendMlme frame noack ∈ cs -> is_probe_resp (ifc w) b sa frame /\ (bssid = broadcast ->
      exists r e, ieee802_11_parse_elems (drop 24 mgmt) (len - 24) = Ok (r, e) /\ may_answer w b sa e).
Proof.
  destruct (frame_slice mgmt 10 Hf) as (a & Ea & Hm); [lia|]. assert (a = sa) as -> by congruence.
  destruct (handle_outcome w i b c mgmt sa Hw Hb Hf Hm Hfr False len bssid Hs Hd Hlen) as [H|[[] _]]; [|exact H].
  intros r e E (p & n & En & Hp). pose proof (Hin r e E p n En). lia.
Qed.

(** A request that may be answered is answered.  For a frame made of whole
    elements, with rates and a name that is empty or the network's, from a station
    that the policy admits, and with nothing of hostapd in the way, exactly one answer
    is sent; it is not to be acknowledged when neither a network nor a receiver was
    named; a known station remembers the network. *)
Theorem probe_answered (w : world) (i : nat) (b : hostapd_data) (c : probe_conf) (mgmt sa bssid da name : list Z) (l : list ie)
    (Hw : iface_ok w) (Hb : bss (ifc w) !! i = Some b) (Hfr : frame_ready (ifc w) b) (Hf : frame_ok mgmt) (Hone : 1 <= ssid_len b)
    (Hs : slice 10 ETH_ALEN mgmt = Ok sa) (Hd : slice 16 ETH_ALEN mgmt = Ok bssid) (Hda : slice 4 ETH_ALEN mgmt = Ok da)
    (Hl : Forall ie_ok l) (He : drop 24 mgmt = ies_bytes l)
    (Hname : last_of SSID l = Some name) (Hask : name = [] \/ name = network_name b)
    (Hrates : last_of SUPP_RATES l <> None) (Hlist : last_of SSID_LIST l = None) (Hu : unfiltered w c sa)
    (Hadm : bssid = broadcast -> (linked w /\ (sa, own_addr b) ∈ contents (g_dense_station_hash (fn w))) \/
       (station_used (g_dense_station_hash (fn w)) < STAION_MAX /\
        (IS_LOCAL_MAC sa = Ok true \/ (linked w /\ name = network_name b)))) :
  exists w', handle_probe_req c i mgmt (zlen mgmt) w = Ok (tt, w') /\ answered w i b sa da name w'.
Proof.
  destruct (frame_slice mgmt 10 Hf) as (a & Ea & Hm); [lia|]. assert (a = sa) as -> by congruence.
  assert (exists loc, IS_LOCAL_MAC sa = Ok loc) as [loc E3].
  { destruct Hm as [L _]. unfold IS_LOCAL_MAC. destruct sa; [discriminate|]. by eexists. }
  rewrite (handle_start w i b c mgmt sa Hw Hb Hm (zlen mgmt) bssid loc Hs Hd E3).
  destruct (drop_admitted w b sa bssid loc name E3 Hadm) as [Hfull Hnamed]. rewrite Hfull.
  destruct Hf as [Hu8 Hlen]. rewrite bool_decide_eq_false_2 by lia.
  destruct (cbs_none (num_probereq_cb c) sa w (uf_cb _ _ _ Hu)) as (cs & Ec & Hcs). rewrite (bind_Ok _ _ _ _ _ Ec).
  rewrite (uf_send _ _ _ Hu). cbn [orb negb]. set (w1 := with_log cs w).
  assert (zlen mgmt - 24 = zlen (drop 24 mgmt)) as Ez by (unfold zlen, IEEE80211_HDRLEN in *; rewrite length_drop; lia).
  destruct (parse_whole (drop 24 mgmt) (zlen mgmt - 24) l) as (e & Ep & Hx);
    [rewrite Ez; pose proof (zlen_nonneg (drop 24 mgmt)); lia|done|rewrite Ez, <- He; apply take_ge; unfold zlen; lia|].
  destruct (parse_any (Z.to_nat (zlen mgmt - 24)) (drop 24 mgmt) (zlen mgmt - 24) no_elems false) as (r & e0 & Ep0 & Pa);
    [now apply Forall_drop|rewrite Ez; pose proof (zlen_nonneg (drop 24 mgmt)); lia|lia|].
  unfold ieee802_11_parse_elems in Ep. rewrite Ep in Ep0. injection Ep0 as <- <-.
  assert (elems_inside e) as Hin by (apply (parsed_inside _ _ _ _ (Forall_drop _ 24 _ Hu8) Pa)).
  rewrite (bind_Ok _ _ w1 (if has_unknown l then ParseUnknown else ParseOK, e) w1) by (unfold lift, ieee802_11_parse_elems; unfold IEEE80211_HDRLEN; change (Z.to_nat 24) with 24%nat; now rewrite Ep).
  cbn [fst snd]. rewrite (bool_decide_eq_false_2 (_ = ParseFailed)) by (destruct (has_unknown l); discriminate).
  assert (elem_bytes e SSID = Some name) as Hn by now rewrite Hx.
  destruct (e SSID) as [[p n]|] eqn:Es; [|unfold elem_bytes in Hn; rewrite Es in Hn; discriminate].
  destruct (e SUPP_RATES) as [rates|] eqn:Er; [|exfalso; apply Hrates; rewrite <- Hx; unfold elem_bytes; now rewrite Er].
  assert (e SSID_LIST = None) as Els.
  { specialize (Hx SSID_LIST). rewrite Hlist in Hx. unfold elem_bytes in Hx. destruct (e SSID_LIST) as [[]|]; [discriminate|done]. }
  destruct (name_pointer e p n name Hin Es Hn) as (Ht & En & Hp). unfold probe_elems.
  assert ((if dropped_frame w b sa bssid loc then probe_named b p n else ret true) w1 = Ok (true, w1)) as E4.
  { destruct (dropped_frame _ _ _ _ _); [|done]. destruct (Hnamed eq_refl) as [H1 H2].
    apply (named_exact w1 b p n name); [apply (io_bss _ Hw i b Hb)|done..]. }
  rewrite (bind_Ok _ _ _ _ _ E4). cbn [negb].
  assert (probe_foreign c e w1 = Ok (false, w1)) as E5.
  { unfold probe_foreign. destruct (e DS_PARAMS) as [[]|]; [|done]. rewrite (uf_mode _ _ _ Hu), andb_false_r. done. }
  rewrite (bind_Ok _ _ _ _ _ E5).
  destruct (reply_run w1 i b mgmt sa da e p n name c) as (w' & E6 & A); try done.
  { apply (iface_ok_quiet w); [apply quiet_log|done]. }
  { destruct Hu. split; try done; simpl; now rewrite logged_all_onum. }
  exists w'. split; [done|]. destruct A as [A1 (ds & frame & A2 & A4 & A5) A3]. split.
  - transitivity w1; [apply quiet_log|done].
  - exists (cs ++ ds), frame. split; [rewrite A2; unfold w1; simpl; now rewrite logged_all_trace, <- !app_assoc|].
    split; [by apply no_answer_app|done].
  - intros q s Hq. apply (A3 q s Hq).
Qed.

(** ** Concrete states *)

(** There is memory, and nobody objects. *)
Definition probe_env : env :=
  {| onum := fun _ c => match c with Send _ d => zlen d | Malloc _ => 4096 | _ => 0 end;
     obytes := fun _ _ => None; trace := [] |}.

Definition demo_conf : probe_conf := mkProbeConf 2 true false.

(** A probe request of [sa] to everybody. *)
Definition probe_frame (sa name : list Z) : list Z :=
  [0x40; 0; 0; 0] ++ broadcast ++ sa ++ broadcast ++ [0; 0] ++ ies_bytes [(0, name); (1, [0x82; 0x84; 0x8b; 0x96])].

Lemma demo_probe_ready : frame_ready (ifc (demo_world1 probe_env)) demo_bss1.
Proof.
  destruct (demo_frame_ready [2; 1; 2; 3; 4; 5] [65; 65] eq_refl ltac:(done)) as [H1 H2 H3 H4 H5]. by split.
Qed.

(** [mac1] is assigned to the first network and asks for nobody in particular. *)
Lemma probe_answered_witness : exists w' cs frame,
  handle_probe_req demo_conf 0 (probe_frame mac1 []) 32 (demo_world1 probe_env) = Ok (tt, w') /\
  trace (wenv w') = cs ++ [DrvSendMlme frame true] /\ slice 4 6 frame = Ok mac1.
Proof.
  destruct (probe_answered (demo_world1 probe_env) 0 demo_bss1 demo_conf (probe_frame mac1 []) mac1 broadcast broadcast []
    [(0, []); (1, [0x82; 0x84; 0x8b; 0x96])]) as (w' & E & A).
  - apply demo_iface_ok.
  - reflexivity.
  - exact demo_probe_ready.
  - by_check.
  - by_check.
  - reflexivity.
  - reflexivity.
  - reflexivity.
  - by_check.
  - reflexivity.
  - reflexivity.
  - left. reflexivity.
  - discriminate.
  - reflexivity.
  - split; [reflexivity|reflexivity|intros t; by_check|intros t; reflexivity|intros t n; discriminate].
  - intros _. left. split; by_check.
  - destruct (an_sent _ _ _ _ _ _ _ A) as (cs & frame & T & _ & P). exists w', cs, frame. split; [exact E|]. split; [exact T|].
    apply (probe_read _ _ _ _ P demo_probe_ready); [unfold u8; by_check|reflexivity].
Defined.

(** [mac2] is not assigned: the second network does not answer it. *)
Lemma probe_policy_witness : exists w' cs,
  handle_probe_req demo_conf 0 (probe_frame mac2 []) 32 (demo_world1 probe_env) = Ok (tt, w') /\
  trace (wenv w') = cs /\ forall frame noack, DrvSendMlme frame noack ∉ cs.
Proof.
  destruct (probe_policy (demo_world1 probe_env) 0 demo_bss1 demo_conf (probe_frame mac2 []) mac2 broadcast 32)
    as (w' & cs & E & _ & T & H).
  - apply demo_iface_ok.
  - reflexivity.
  - exact demo_probe_ready.
  - by_check.
  - by_check.
  - reflexivity.
  - reflexivity.
  - intros r e [= _ <-] p n [=].
  - exists w', cs. split; [exact E|]. split; [exact T|]. intros frame noack Hin.
    destruct (H frame noack Hin) as [_ Hp]. destruct (Hp eq_refl) as (r & e & Ep & Hmay). injection Ep as _ <-.
    destruct Hmay as [[_ Hc]|[_ [Hl|[_ (p & n & Es & En & _)]]]].
    + revert Hc. by_check.
    + discriminate Hl.
    + injection Es as _ <-. discriminate En.
Defined.
