(* ===== verification/Mlme.v ===== *)
(** * Management frames: the entry points of [ap/ieee802_11.c] and
    [ap/drv_callbacks.c]

    A frame that the driver hands over is checked for its receiver and given to the
    handler of its kind ([ieee802_11_mgmt]); the driver also reports whether a frame
    that was sent has been acknowledged ([ieee802_11_mgmt_cb]), and the
    acknowledgement of an association response is what makes a station associated.
    hostapd's callbacks for public and vendor action frames are not registered. *)

From stdpp Require Import base list numbers gmap strings.
From Stdlib Require Import ZArith Lia.
From S2P Require Import Prelude CString Dense Env World Messages Elements Station Ht Eids Beacon Handler Stamgd Lifecycle Books Probe Auth Assoc ApTable ApList Wmm.
Local Open Scope Z_scope.

Definition WLAN_FC_TYPE_CTRL : Z := 1.
Definition WLAN_FC_TYPE_DATA : Z := 2.
Definition WLAN_FC_TODS : Z := 2 ^ 8.
Definition WLAN_FC_FROMDS : Z := 2 ^ 9.
Definition WLAN_FC_STYPE_PROBE_RESP : Z := 5.
Definition WLAN_FC_STYPE_BEACON : Z := 8.
Definition WLAN_FC_STYPE_DISASSOC : Z := 10.
Definition WLAN_FC_STYPE_PSPOLL : Z := 10.
Definition WLAN_ACTION_PUBLIC : Z := 4.
Definition WLAN_ACTION_PROTECTED_DUAL : Z := 9.
Definition WLAN_PA_20_40_BSS_COEX : Z := 0.
Definition WLAN_STA_MFP : Z := 2 ^ 10.
Definition WLAN_STA_WPS : Z := 2 ^ 12.
Definition WLAN_STA_MAYBE_WPS : Z := 2 ^ 13.
Definition WLAN_STA_WNM_SLEEP_MODE : Z := 2 ^ 19.
Definition WLAN_REASON_CLASS3_FRAME_FROM_NONASSOC_STA : Z := 7.
Definition WPA_STA_AUTHORIZED : Z := 2 ^ 0.
Definition WPA_STA_WMM : Z := 2 ^ 1.
Definition WPA_STA_SHORT_PREAMBLE : Z := 2 ^ 2.
Definition WPA_STA_MFP : Z := 2 ^ 3.
Definition DYNAMIC_VLAN_DISABLED : Z := 0.

Definition WLAN_FC_GET_TYPE (fc : Z) : Z := Z.shiftr (Z.land fc 0x000c) 2.
Definition WLAN_FC_GET_STYPE (fc : Z) : Z := Z.shiftr (Z.land fc 0x00f0) 4.

(** ** The driver ([ap_drv_ops.c]) *)

Definition hostapd_sta_flags_to_drv (flags : Z) : Z :=
  let put bit v r := if has flags bit then Z.lor r v else r in
  put WLAN_STA_MFP WPA_STA_MFP (put WLAN_STA_SHORT_PREAMBLE WPA_STA_SHORT_PREAMBLE
    (put WLAN_STA_WMM WPA_STA_WMM (put WLAN_STA_AUTHORIZED WPA_STA_AUTHORIZED 0))).

Definition hostapd_sta_add (hapd : nat) (s : sta_info) (ht_capab vht_capab : option (list Z)) : M world Z :=
  b <-- get_bss hapd ;;
  w <-- get ;;
  if driver_ops (ifc w) then
    ext (DrvStaAdd (own_addr b) (sta_addr s) (sta_aid_ s) (capability (mlme s)) (supported_rates (mlme s)) (listen_interval (mlme s))
      ht_capab vht_capab (has (sta_flags s) WLAN_STA_VHT_OPMODE_ENABLED) (vht_opmode (mlme s))
      (hostapd_sta_flags_to_drv (sta_flags s)) (qosinfo (mlme s)))
  else ret 0.

Definition hostapd_set_sta_flags (hapd : nat) (sta : positive) : M world Z :=
  b <-- get_bss hapd ;;
  s <-- get_sta sta ;;
  w <-- get ;;
  let total_flags := hostapd_sta_flags_to_drv (sta_flags s) in
  let set_flags := Z.lor WPA_STA_SHORT_PREAMBLE (Z.lor WPA_STA_WMM WPA_STA_MFP) in
  let set_flags :=
    if (negb (ieee802_1x (bconf b)) && bool_decide (wpa (bconf b) = 0) || bool_decide (auth_alg s = WLAN_AUTH_FT))
       && has (sta_flags s) WLAN_STA_AUTHORIZED
    then Z.lor set_flags WPA_STA_AUTHORIZED else set_flags in
  if driver_ops (ifc w) then
    ext (DrvStaSetFlags (own_addr b) (sta_addr s) total_flags (Z.land total_flags set_flags) (Z.lor total_flags (Z.lnot set_flags)))
  else ret 0.

Definition hostapd_set_authorized (hapd : nat) (sta : positive) (authorized : bool) : M world Z :=
  b <-- get_bss hapd ;;
  s <-- get_sta sta ;;
  w <-- get ;;
  let total_flags := hostapd_sta_flags_to_drv (sta_flags s) in
  if driver_ops (ifc w) then
    if authorized then ext (DrvStaSetFlags (own_addr b) (sta_addr s) total_flags WPA_STA_AUTHORIZED (-1))
    else ext (DrvStaSetFlags (own_addr b) (sta_addr s) total_flags 0 (Z.lnot WPA_STA_AUTHORIZED))
  else ret 0.

(** ** A station that leaves *)

Section WithFormat.
Context `{StamgdFormat}.

Definition handle_disassoc (hapd : nat) (mgmt : list Z) (len : Z) : M world unit :=
  if bool_decide (len < IEEE80211_HDRLEN + 2) then ret tt
  else
    lift (rd_le 24 2 mgmt) ;;;
    addr <-- lift (sa mgmt) ;;
    sta <-- ap_get_sta hapd addr ;;
    match sta with
    | None => ret tt
    | Some p =>
        ap_sta_unauthorize hapd p ;;;
        upd_sta p (set_last_seq_ctrl WLAN_INVALID_MGMT_SEQ) ;;;
        upd_sta p (fun s => set_sta_flags (Z.ldiff (sta_flags s) (Z.lor WLAN_STA_ASSOC WLAN_STA_ASSOC_REQ_OK)) s) ;;;
        s <-- get_sta p ;;
        hostapd "wpa_auth_sm_event" (sta_addr s) ;;;
        hostapd "ieee802_1x_notify_port_enabled" (sta_addr s) ;;;
        hostapd "accounting_sta_stop" (sta_addr s) ;;;
        hostapd "ieee802_1x_free_station" (sta_addr s) ;;;
        b <-- get_bss hapd ;;
        ext_ (DrvStaRemove (own_addr b) (sta_addr s)) ;;;
        (if bool_decide (timeout_next s = STA_NULLFUNC \/ timeout_next s = STA_DISASSOC) then
           upd_sta p (set_timeout_next STA_DEAUTH) ;;;
           retimer AP_DEAUTH_DELAY (str "ap_handle_timer") (sta_addr s)
         else ret tt) ;;;
        mlme_disassociate_indication hapd p
    end.

Definition handle_deauth (hapd : nat) (mgmt : list Z) (len : Z) : M world unit :=
  if bool_decide (len < IEEE80211_HDRLEN + 2) then ret tt
  else
    lift (rd_le 24 2 mgmt) ;;;
    addr <-- lift (sa mgmt) ;;
    sta <-- ap_get_sta hapd addr ;;
    match sta with
    | None => ret tt
    | Some p =>
        ap_sta_unauthorize hapd p ;;;
        upd_sta p (set_last_seq_ctrl WLAN_INVALID_MGMT_SEQ) ;;;
        upd_sta p (fun s => set_sta_flags (Z.ldiff (sta_flags s) (Z.lor WLAN_STA_AUTH (Z.lor WLAN_STA_ASSOC WLAN_STA_ASSOC_REQ_OK))) s) ;;;
        s <-- get_sta p ;;
        hostapd "wpa_auth_sm_event" (sta_addr s) ;;;
        mlme_deauthenticate_indication hapd p ;;;
        hostapd "ieee802_1x_notify_port_enabled" (sta_addr s) ;;;
        ap_free_sta hapd p
    end.

(** ** Beacons and action frames *)

Definition handle_beacon (hapd : nat) (mgmt : list Z) (len : Z) : M world unit :=
  if bool_decide (len < IEEE80211_HDRLEN + 12) then ret tt
  else
    r <-- lift (ieee802_11_parse_elems (drop (Z.to_nat (IEEE80211_HDRLEN + 12)) mgmt) (len - (IEEE80211_HDRLEN + 12))) ;;
    get_bss hapd ;;;
    addr <-- lift (bssid mgmt) ;;
    ap_list_process_beacon addr (snd r) 0.

(** The frame that goes back: the receiver, the sender and the network are replaced,
    and the category has its highest bit set. *)
Definition action_echo (b : hostapd_data) (addr mgmt : list Z) (len category : Z) : res (list Z) :=
  let! head := slice 0 4 mgmt in
  let! seq := slice 22 2 mgmt in
  let! rest := slice 25 (len - 25) mgmt in
  Ok (head ++ addr ++ own_addr b ++ own_addr b ++ seq ++ [Z.lor category 0x80] ++ rest).

(** From behind the switch on. *)
Definition unknown_action (hapd : nat) (mgmt : list Z) (len category : Z) : M world Z :=
  d <-- lift (da mgmt) ;;
  addr <-- lift (sa mgmt) ;;
  d0 <-- lift (rd d 0) ;;
  a0 <-- lift (rd addr 0) ;;
  if negb (has d0 0x01) && negb (has category 0x80) && negb (has a0 0x01) then
    r <-- ext (Malloc len) ;;
    if bool_decide (r = 0) then ret 0
    else
      b <-- get_bss hapd ;;
      resp <-- lift (action_echo b addr mgmt len category) ;;
      hostapd_drv_send_mlme resp false ;;;
      ret 1
  else ret 1.

(** The switch over the category. *)
Definition action_switch (hapd : nat) (mgmt : list Z) (len category : Z) : M world Z :=
  if bool_decide (category = WLAN_ACTION_WMM) then hostapd_wmm_action hapd mgmt len ;;; ret 1
  else if bool_decide (category = WLAN_ACTION_PUBLIC \/ category = WLAN_ACTION_PROTECTED_DUAL) then
    action <-- lift (rd mgmt 25) ;;
    (if bool_decide (action = WLAN_PA_20_40_BSS_COEX) then hostapd_2040_coex_action mgmt len else ret tt) ;;;
    unknown_action hapd mgmt len category
  else unknown_action hapd mgmt len category.

Definition handle_action (hapd : nat) (mgmt : list Z) (len : Z) : M world Z :=
  addr <-- lift (sa mgmt) ;;
  sta <-- ap_get_sta hapd addr ;;
  if bool_decide (len < IEEE80211_HDRLEN + 1) then ret 0
  else
    category <-- lift (rd mgmt 24) ;;
    assoc <-- match sta with Some p => s <-- get_sta p ;; ret (has (sta_flags s) WLAN_STA_ASSOC) | None => ret false end ;;
    if bool_decide (category <> WLAN_ACTION_PUBLIC) && negb assoc then ret 0
    else
      repeats <-- match sta with
                  | Some p =>
                      fc <-- lift (frame_control mgmt) ;;
                      seq <-- lift (seq_ctrl mgmt) ;;
                      s <-- get_sta p ;;
                      if repeated s fc seq WLAN_FC_STYPE_ACTION then ret true
                      else
                        upd_sta p (set_last_seq_ctrl seq) ;;;
                        upd_sta p (upd_mlme (set_last_subtype WLAN_FC_STYPE_ACTION)) ;;;
                        ret false
                  | None => ret false
                  end ;;
      if repeats : bool then ret 1 else action_switch hapd mgmt len category.

(** ** A frame that was received *)

(** What the handlers read of the configuration: [ap_max_inactivity], and what
    [handle_probe_req] uses. *)
Record frame_conf : Type := mkFrameConf { max_inactivity : Z; probes_conf : probe_conf }.

Definition ieee802_11_mgmt (c : frame_conf) (hapd : nat) (buf : list Z) (len : Z) : M world Z :=
  if bool_decide (len < 24) then ret 0
  else
    fc <-- lift (frame_control buf) ;;
    let stype := WLAN_FC_GET_STYPE fc in
    if bool_decide (stype = WLAN_FC_STYPE_BEACON) then handle_beacon hapd buf len ;;; ret 1
    else
      bs <-- lift (bssid buf) ;;
      b <-- get_bss hapd ;;
      if bool_decide (bs <> broadcast) && bool_decide (bs <> own_addr b) then ret 0
      else if bool_decide (stype = WLAN_FC_STYPE_PROBE_REQ) then handle_probe_req (probes_conf c) hapd buf len ;;; ret 1
      else
        d <-- lift (da buf) ;;
        if bool_decide (d <> own_addr b) then ret 0
        else if bool_decide (stype = WLAN_FC_STYPE_AUTH) then handle_auth (max_inactivity c) hapd buf len ;;; ret 1
        else if bool_decide (stype = WLAN_FC_STYPE_ASSOC_REQ) then handle_assoc hapd buf len false ;;; ret 1
        else if bool_decide (stype = WLAN_FC_STYPE_REASSOC_REQ) then handle_assoc hapd buf len true ;;; ret 1
        else if bool_decide (stype = WLAN_FC_STYPE_DISASSOC) then handle_disassoc hapd buf len ;;; ret 1
        else if bool_decide (stype = WLAN_FC_STYPE_DEAUTH) then handle_deauth hapd buf len ;;; ret 1
        else if bool_decide (stype = WLAN_FC_STYPE_ACTION) then handle_action hapd buf len
        else ret 0.

(** ** A frame that was sent *)

Definition handle_auth_cb (hapd : nat) (mgmt : list Z) (len : Z) (ok : bool) : M world unit :=
  if negb ok then ret tt
  else if bool_decide (len < IEEE80211_HDRLEN + 6) then ret tt
  else
    auth_alg <-- lift (rd_le 24 2 mgmt) ;;
    auth_transaction <-- lift (rd_le 26 2 mgmt) ;;
    status_code <-- lift (rd_le 28 2 mgmt) ;;
    addr <-- lift (da mgmt) ;;
    sta <-- ap_get_sta hapd addr ;;
    match sta with
    | None => ret tt
    | Some p =>
        if bool_decide (status_code = WLAN_STATUS_SUCCESS)
           && (bool_decide (auth_alg = WLAN_AUTH_OPEN) && bool_decide (auth_transaction = 2)
               || bool_decide (auth_alg = WLAN_AUTH_SHARED_KEY) && bool_decide (auth_transaction = 4))
        then upd_sta p (set_flag WLAN_STA_AUTH) else ret tt
    end.

(** [ap_sta_set_authorized(hapd, sta, 1)] *)
Definition ap_sta_authorize (hapd : nat) (sta : positive) : M world unit :=
  s <-- get_sta sta ;;
  if has (sta_flags s) WLAN_STA_AUTHORIZED then ret tt
  else upd_sta sta (set_flag WLAN_STA_AUTHORIZED) ;;; ext_ (Hostapd (str "sta_authorized_cb") (sta_addr s)).

(** The port of a station: [ieee802_1x_set_sta_authorized], and the case of
    [hostapd_wpa_auth_set_eapol] in which the authenticator of WPA, whose handshake is
    not modelled, calls it.  The time of the connection is not kept. *)
Definition ieee802_1x_set_sta_authorized (hapd : nat) (sta : positive) (authorized : bool) : M world unit :=
  s <-- get_sta sta ;;
  if has (sta_flags s) WLAN_STA_PREAUTH then ret tt
  else
    (if authorized then ap_sta_authorize hapd sta else ap_sta_unauthorize hapd sta) ;;;
    hostapd_set_authorized hapd sta authorized ;;;
    if authorized then hostapd "accounting_sta_start" (sta_addr s) else ret tt.

Definition hostapd_wpa_auth_set_eapol (hapd : nat) (addr : list Z) (authorized : bool) : M world unit :=
  sta <-- ap_get_sta hapd addr ;;
  match sta with None => ret tt | Some p => ieee802_1x_set_sta_authorized hapd p authorized end.

(** A network without a separate step of authorization. *)
Definition open_network (c : bss_config) : bool := negb (ieee802_1x c) && bool_decide (wpa c = 0) && negb (osen c).

(** [hostapd_new_assoc_sta] of [ap/hostapd.c]; 802.11f is not built in. *)
Definition hostapd_new_assoc_sta (max_inactivity : Z) (hapd : nat) (sta : positive) (reassoc : bool) : M world unit :=
  b <-- get_bss hapd ;;
  s <-- get_sta sta ;;
  if tkip_countermeasures b then hostapd_drv_sta_deauth hapd (sta_addr s) WLAN_REASON_MICHAEL_MIC_FAILURE ;;; ret tt
  else
    hostapd_prune_associations hapd (sta_addr s) ;;;
    (if open_network (bconf b) then ap_sta_authorize hapd sta ;;; hostapd "accounting_sta_start" (sta_addr s) else ret tt) ;;;
    hostapd "ieee802_1x_new_station" (sta_addr s) ;;;
    (if reassoc then
       s <-- get_sta sta ;;
       if bool_decide (auth_alg s <> WLAN_AUTH_FT) && negb (has (sta_flags s) (Z.lor WLAN_STA_WPS WLAN_STA_MAYBE_WPS))
       then hostapd "wpa_auth_sm_event" (sta_addr s) else ret tt
     else hostapd "wpa_auth_sta_associated" (sta_addr s)) ;;;
    w <-- get ;;
    if has (drv_flags (ifc w)) WPA_DRIVER_FLAGS_INACTIVITY_TIMER then ret tt
    else retimer max_inactivity (str "ap_handle_timer") (sta_addr s).

(** The keys themselves are not in the state. *)
Definition hostapd_set_wds_encryption (b : hostapd_data) (addr : list Z) : M world unit :=
  if ieee802_1x (bconf b) || bool_decide (wpa (bconf b) <> 0) then ret tt else hostapd "hostapd_drv_set_key" addr.

Definition wds_sta_on (b : hostapd_data) (addr : list Z) : M world unit :=
  r <-- ext (Hostapd (str "hostapd_set_wds_sta") addr) ;;
  if bool_decide (r = 0) then hostapd_set_wds_encryption b addr else ret tt.

(** [ap_sta_bind_vlan(hapd, sta, 0)]: the search for the VLAN and its binding is one
    call of the environment. *)
Definition ap_sta_bind_vlan (hapd : nat) (sta : positive) : M world Z :=
  s <-- get_sta sta ;;
  if bool_decide (sta_vlan_id (mlme s) = 0) then ret 0
  else
    b <-- get_bss hapd ;;
    (if bool_decide (dynamic_vlan (bconf b) = DYNAMIC_VLAN_DISABLED) then upd_sta sta (upd_mlme (set_sta_vlan_id 0)) else ret tt) ;;;
    ext (Hostapd (str "bind_vlan") (sta_addr s)).

(** What the driver is told of the station's capabilities; the structure on the stack
    is not initialised when the pointer of the entry is NULL. *)
Definition capab_for (on : bool) (caps : option (list Z)) (negotiate : list Z -> res (list Z)) : res (option (list Z)) :=
  if on then match caps with Some c => let! n := negotiate c in Ok (Some n) | None => Ub UninitRead end else Ok None.

(** What the acknowledgement makes of the entry. *)
Definition assoc_mark (hapd : nat) (sta : positive) : M world unit :=
  s <-- get_sta sta ;;
  b <-- get_bss hapd ;;
  hostapd "accounting_sta_stop" (sta_addr s) ;;;
  upd_sta sta (set_flag WLAN_STA_ASSOC) ;;;
  upd_sta sta (clear_flag WLAN_STA_WNM_SLEEP_MODE) ;;;
  if open_network (bconf b) || bool_decide (auth_alg s = WLAN_AUTH_FT) then ap_sta_authorize hapd sta else ret tt.

Definition assoc_acked (hapd : nat) (sta : positive) (reassoc : bool) : M world unit :=
  assoc_mark hapd sta ;;;
  (if reassoc then mlme_reassociate_indication hapd sta else mlme_associate_indication hapd sta) ;;;
  s <-- get_sta sta ;;
  b <-- get_bss hapd ;;
  ext_ (DrvStaRemove (own_addr b) (sta_addr s)).

(** From there on; [known] is whether the station was associated before. *)
Definition assoc_driver (max_inactivity : Z) (hapd : nat) (sta : positive) (known : bool) : M world unit :=
  s <-- get_sta sta ;;
  b <-- get_bss hapd ;;
  w <-- get ;;
  ht_cap <-- lift (capab_for (has (sta_flags s) WLAN_STA_HT) (ht_capabilities (mlme s)) (hostapd_get_ht_capab (ht_capab (iconf (ifc w))))) ;;
  vht_cap <-- lift (capab_for (has (sta_flags s) WLAN_STA_VHT) (vht_capabilities (mlme s)) (hostapd_get_vht_capab (vht_capab (iconf (ifc w))))) ;;
  r <-- hostapd_sta_add hapd s ht_cap vht_cap ;;
  if bool_decide (r <> 0) then ap_sta_disconnect hapd (Some sta) (Some (sta_addr s)) WLAN_REASON_DISASSOC_AP_BUSY
  else
    (if has (sta_flags s) WLAN_STA_WDS then wds_sta_on b (sta_addr s) else ret tt) ;;;
    bound <-- ap_sta_bind_vlan hapd sta ;;
    if bool_decide (bound < 0) then ret tt
    else
      hostapd_set_sta_flags hapd sta ;;;
      hostapd "wpa_auth_sm_event" (sta_addr s) ;;;
      hostapd_new_assoc_sta max_inactivity hapd sta known ;;;
      hostapd "ieee802_1x_notify_port_enabled" (sta_addr s).

Definition handle_assoc_cb (max_inactivity : Z) (hapd : nat) (mgmt : list Z) (len : Z) (reassoc ok : bool) : M world unit :=
  if bool_decide (len < IEEE80211_HDRLEN + 6) then ret tt
  else
    addr <-- lift (da mgmt) ;;
    sta <-- ap_get_sta hapd addr ;;
    match sta with
    | None => ret tt
    | Some p =>
        if negb ok then upd_sta p (clear_flag WLAN_STA_ASSOC_REQ_OK)
        else
          status <-- lift (rd_le 26 2 mgmt) ;;
          if bool_decide (status <> WLAN_STATUS_SUCCESS) then ret tt
          else
            s <-- get_sta p ;;
            assoc_acked hapd p reassoc ;;;
            assoc_driver max_inactivity hapd p (has (sta_flags s) WLAN_STA_ASSOC)
    end.

(** [handle_deauth_cb] and [handle_disassoc_cb] *)
Definition leave_cb (cb : nat -> positive -> M world unit) (hapd : nat) (mgmt : list Z) : M world unit :=
  addr <-- lift (da mgmt) ;;
  d0 <-- lift (rd addr 0) ;;
  if has d0 0x01 then ret tt
  else
    sta <-- ap_get_sta hapd addr ;;
    match sta with None => ret tt | Some p => cb hapd p end.
Definition handle_deauth_cb (hapd : nat) (mgmt : list Z) (len : Z) (ok : bool) : M world unit := leave_cb ap_sta_deauth_cb hapd mgmt.
Definition handle_disassoc_cb (hapd : nat) (mgmt : list Z) (len : Z) (ok : bool) : M world unit := leave_cb ap_sta_disassoc_cb hapd mgmt.

Definition ieee802_11_mgmt_cb (max_inactivity : Z) (hapd : nat) (buf : list Z) (len stype : Z) (ok : bool) : M world unit :=
  if bool_decide (stype = WLAN_FC_STYPE_AUTH) then handle_auth_cb hapd buf len ok
  else if bool_decide (stype = WLAN_FC_STYPE_ASSOC_RESP) then handle_assoc_cb max_inactivity hapd buf len false ok
  else if bool_decide (stype = WLAN_FC_STYPE_REASSOC_RESP) then handle_assoc_cb max_inactivity hapd buf len true ok
  else if bool_decide (stype = WLAN_FC_STYPE_DEAUTH) then handle_deauth_cb hapd buf len ok
  else if bool_decide (stype = WLAN_FC_STYPE_DISASSOC) then handle_disassoc_cb hapd buf len ok
  else ret tt.

(** ** The events of the driver ([drv_callbacks.c]) *)

(** [get_hdr_bssid], of [ieee802_11_common.c]: NULL, or a pointer into the frame.  The
    length is checked for 16 bytes only, although [addr3] of a management frame ends
    at 22. *)
Definition get_hdr_bssid (hdr : list Z) (len : Z) : res (option (list Z)) :=
  let address (off : Z) := let! a := slice off 6 hdr in Ok (Some a) in
  if bool_decide (len < 16) then Ok None
  else
    let! fc := frame_control hdr in
    if bool_decide (WLAN_FC_GET_TYPE fc = WLAN_FC_TYPE_DATA) then
      if bool_decide (len < 24) then Ok None
      else if has fc WLAN_FC_TODS then address 4
      else if has fc WLAN_FC_FROMDS then address 10
      else Ok None
    else if bool_decide (WLAN_FC_GET_TYPE fc = WLAN_FC_TYPE_CTRL) then
      if bool_decide (WLAN_FC_GET_STYPE fc <> WLAN_FC_STYPE_PSPOLL) then Ok None else address 4
    else if bool_decide (WLAN_FC_GET_TYPE fc = WLAN_FC_TYPE_MGMT) then address 16
    else Ok None.

(** The loop over the BSSs, from the [i]th on; [drv_priv] is the BSS of the driver, if
    it names one. *)
Fixpoint mgmt_all (c : frame_conf) (n : nat) (i : nat) (drv_priv : option nat) (buf : list Z) (len : Z) (ret_ : Z) : M world Z :=
  match n with
  | O => ret ret_
  | S n' =>
      if match drv_priv with Some j => negb (bool_decide (i = j)) | None => false end then mgmt_all c n' (S i) drv_priv buf len ret_
      else
        r <-- ieee802_11_mgmt c i buf len ;;
        mgmt_all c n' (S i) drv_priv buf len (if bool_decide (r > 0) then 1 else ret_)
  end.

Definition hostapd_mgmt_rx (c : frame_conf) (drv_priv : option nat) (frame : list Z) (frame_len : Z) : M world Z :=
  bs <-- lift (get_hdr_bssid frame frame_len) ;;
  match bs with
  | None => ret 0
  | Some a =>
      w <-- get ;;
      fc <-- lift (frame_control frame) ;;
      let target :=
        match get_hapd_bssid (bss (ifc w)) (Some a) with
        | Some t => Some t
        | None =>
            if bool_decide (WLAN_FC_GET_TYPE fc = WLAN_FC_TYPE_MGMT) && bool_decide (WLAN_FC_GET_STYPE fc = WLAN_FC_STYPE_BEACON)
            then Some (HAPD 0) else None
        end in
      match target with
      | None => ret 0
      | Some t =>
          r <-- match t with
                | HAPD_BROADCAST => mgmt_all c (length (bss (ifc w))) 0 drv_priv frame frame_len 0
                | HAPD i => ieee802_11_mgmt c i frame frame_len
                end ;;
          hostapd "random_add_randomness" [] ;;;
          ret r
      end
  end.

Definition hostapd_mgmt_tx_cb (max_inactivity : Z) (buf : list Z) (len stype : Z) (ok : bool) : M world unit :=
  bs <-- lift (get_hdr_bssid buf len) ;;
  w <-- get ;;
  match get_hapd_bssid (bss (ifc w)) bs with
  | Some (HAPD i) => ieee802_11_mgmt_cb max_inactivity i buf len stype ok
  | _ => ret tt
  end.

Definition hostapd_event_new_sta (max_inactivity : Z) (hapd : nat) (addr : list Z) : M world Z :=
  sta <-- ap_get_sta hapd addr ;;
  match sta with
  | Some _ => ret 0
  | None =>
      sta <-- ap_sta_add max_inactivity hapd addr ;;
      match sta with
      | Some p => hostapd_new_assoc_sta max_inactivity hapd p false ;;; ret 0
      | None => ret (-1)
      end
  end.

(** The search of [hostapd_tx_status] and its like: the BSS, then all of them; the
    BSS at which it ends and the station. *)
Fixpoint find_all (n : nat) (i last : nat) (addr : list Z) : M world (nat * option positive) :=
  match n with
  | O => ret (last, None)
  | S n' =>
      sta <-- ap_get_sta i addr ;;
      match sta with Some p => ret (i, Some p) | None => find_all n' (S i) i addr end
  end.

Definition find_sta (hapd : nat) (addr : list Z) : M world (nat * option positive) :=
  sta <-- ap_get_sta hapd addr ;;
  w <-- get ;;
  match sta with
  | None => if bool_decide (1 < length (bss (ifc w)))%nat then find_all (length (bss (ifc w))) 0 hapd addr else ret (hapd, None)
  | Some p => ret (hapd, Some p)
  end.

Definition hostapd_tx_status (hapd : nat) (addr : list Z) (ack : bool) : M world unit :=
  r <-- find_sta hapd addr ;;
  match snd r with
  | None => ret tt
  | Some p =>
      s <-- get_sta p ;;
      if negb (has (sta_flags s) WLAN_STA_ASSOC) then ret tt
      else
        (if has (sta_flags s) WLAN_STA_PENDING_POLL && ack then upd_sta p (clear_flag WLAN_STA_PENDING_POLL) else ret tt) ;;;
        hostapd "ieee802_1x_tx_status" (sta_addr s)
  end.

Definition hostapd_eapol_tx_status (hapd : nat) (dst : list Z) : M world unit :=
  r <-- find_sta hapd dst ;;
  match snd r with
  | None => ret tt
  | Some p =>
      s <-- get_sta p ;;
      if negb (has (sta_flags s) WLAN_STA_ASSOC) then ret tt else hostapd "ieee802_1x_eapol_tx_status" (sta_addr s)
  end.

Definition hostapd_client_poll_ok (hapd : nat) (addr : list Z) : M world unit :=
  r <-- find_sta hapd addr ;;
  match snd r with
  | None => ret tt
  | Some p =>
      s <-- get_sta p ;;
      if negb (has (sta_flags s) WLAN_STA_PENDING_POLL) then ret tt else upd_sta p (clear_flag WLAN_STA_PENDING_POLL)
  end.

(** A class 3 frame of a station that is not associated; [flags] are those of its
    entry, if there is one. *)
Definition class3_frame (hapd : nat) (src : list Z) (flags : option Z) : M world unit :=
  let on bit := match flags with Some f => has f bit | None => false end in
  s0 <-- lift (rd src 0) ;;
  if has s0 0x01 then ret tt
  else if on WLAN_STA_ASSOC_REQ_OK then ret tt
  else if on WLAN_STA_AUTH then hostapd_drv_sta_disassoc hapd src WLAN_REASON_CLASS3_FRAME_FROM_NONASSOC_STA ;;; ret tt
  else hostapd_drv_sta_deauth hapd src WLAN_REASON_CLASS3_FRAME_FROM_NONASSOC_STA ;;; ret tt.

Definition ieee802_11_rx_from_unknown (hapd : nat) (src : list Z) (wds : bool) : M world unit :=
  sta <-- ap_get_sta hapd src ;;
  match sta with
  | None => class3_frame hapd src None
  | Some p =>
      s <-- get_sta p ;;
      if has (sta_flags s) WLAN_STA_ASSOC then
        b <-- get_bss hapd ;;
        if negb (wds_sta (bconf b)) then ret tt
        else if wds && negb (has (sta_flags s) WLAN_STA_WDS) then upd_sta p (set_flag WLAN_STA_WDS) ;;; wds_sta_on b (sta_addr s)
        else ret tt
      else class3_frame hapd src (Some (sta_flags s))
  end.

Definition hostapd_rx_from_unknown_sta (bssid addr : list Z) (wds : bool) : M world unit :=
  w <-- get ;;
  match get_hapd_bssid (bss (ifc w)) (Some bssid) with
  | Some (HAPD i) => ieee802_11_rx_from_unknown i addr wds
  | _ => ret tt
  end.
End WithFormat.

(** ** They return and keep the books *)

Section RunsFrames.
Context `{StamgdFormat} (i : nat).

Lemma runs_unauthorize p : runs i (Some p) (Some p) (ap_sta_unauthorize i p).
Proof. apply runs_gentle. auto with lazyas. Qed.

Lemma runs_authorize p : runs i (Some p) (Some p) (ap_sta_authorize i p).
Proof. unfold ap_sta_authorize. runs_tac. Qed.

Lemma runs_wds o b addr : runs i o o (wds_sta_on b addr).
Proof. unfold wds_sta_on, hostapd_set_wds_encryption, hostapd. runs_tac. Qed.

Lemma runs_bind_vlan p : runs i (Some p) (Some p) (ap_sta_bind_vlan i p).
Proof. unfold ap_sta_bind_vlan. runs_tac. Qed.

Lemma runs_set_sta_flags p : runs i (Some p) (Some p) (hostapd_set_sta_flags i p).
Proof. unfold hostapd_set_sta_flags. runs_tac. Qed.

Lemma runs_sta_add o s ht vht : runs i o o (hostapd_sta_add i s ht vht).
Proof. unfold hostapd_sta_add. runs_tac. Qed.

(** The start of a handler: the fields, and the sender in the table. *)
Lemma runs_read {A} o' (l : list Z) off n (k : Z -> M world A) : 0 <= off -> 0 <= n -> off + n <= zlen l ->
  (forall x, runs i None o' (k x)) -> runs i None o' (bind (lift (rd_le off n l)) k).
Proof.
  intros Ho Hn Hl Hk. apply (runs_lift _ _ _ _ (fun _ => True)); [destruct (rd_le_in l off n) as (x & E & _); eauto|auto].
Qed.

Lemma runs_handle_disassoc mgmt len : frame_ok mgmt len -> runs i None None (handle_disassoc i mgmt len).
Proof.
  intros Hf. unfold handle_disassoc, IEEE80211_HDRLEN. case_bool_decide; [auto with lazyas|]. pose proof (proj2 (fo_len _ _ Hf)).
  destruct (header_ok mgmt len Hf) as (_ & _ & _ & (addr & Ea & Hm) & _); [lia|]. apply runs_read; [lia..|]. intros _.
  apply (runs_lift _ _ _ _ mac_ok); [eauto|]. intros ad Had. apply runs_ap_get_sta; [done|]. intros [p|]; [|auto with lazyas].
  apply (runs_weak i (Some p) (Some p)). runs_step; [apply runs_unauthorize|]. unfold hostapd, retimer. runs_tac.
Qed.

Lemma runs_handle_deauth mgmt len : frame_ok mgmt len -> runs i None None (handle_deauth i mgmt len).
Proof.
  intros Hf. unfold handle_deauth, IEEE80211_HDRLEN. case_bool_decide; [auto with lazyas|]. pose proof (proj2 (fo_len _ _ Hf)).
  destruct (header_ok mgmt len Hf) as (_ & _ & _ & (addr & Ea & Hm) & _); [lia|]. apply runs_read; [lia..|]. intros _.
  apply (runs_lift _ _ _ _ mac_ok); [eauto|]. intros ad Had. apply runs_ap_get_sta; [done|]. intros [p|]; [|auto with lazyas].
  runs_step; [apply runs_unauthorize|]. unfold hostapd. runs_tac.
Qed.

Lemma runs_handle_beacon mgmt len : frame_ok mgmt len -> runs i None None (handle_beacon i mgmt len).
Proof.
  intros Hf. unfold handle_beacon, IEEE80211_HDRLEN. case_bool_decide; [auto with lazyas|]. pose proof (proj2 (fo_len _ _ Hf)).
  destruct (header_ok mgmt len Hf) as (_ & _ & _ & _ & (addr & Ea & Hm)); [lia|].
  destruct (parse_frame (drop (Z.to_nat (24 + 12)) mgmt) (len - (24 + 12))) as (r & e & Ep & He & _).
  { apply Forall_drop, Hf. } { unfold zlen in *. rewrite length_drop. lia. }
  apply (runs_lift _ _ _ _ (fun r => forall x, elem_ok (snd r x))); [eauto|]. intros [r' e'] He'. cbn [snd] in *. runs_step.
  apply (runs_lift _ _ _ _ mac_ok); [eauto|]. intros a' Ha'. now apply runs_process_beacon.
Qed.

Lemma runs_unknown_action o mgmt len category : frame_ok mgmt len -> 25 <= len -> runs i o o (unknown_action i mgmt len category).
Proof.
  intros Hf Hl. pose proof (proj2 (fo_len _ _ Hf)). unfold unknown_action.
  destruct (header_ok mgmt len Hf) as (_ & _ & (d & Ed & Hd) & (addr & Ea & Hm) & _); [lia|].
  apply (runs_lift _ _ _ _ mac_ok); [eauto|]. intros d' Hd'. apply (runs_lift _ _ _ _ mac_ok); [eauto|]. intros a' Ha'.
  do 2 (apply (runs_lift _ _ _ _ (fun _ => True)); [edestruct rd_in as (x & E & _); [|exists x; split; [exact E|done]]; unfold mac_ok, zlen in *; lia|intros ? _]).
  runs_step; [|auto with lazyas]. runs_step. destruct (bool_decide _); [auto with lazyas|]. runs_step.
  apply (runs_lift _ _ _ _ (fun _ => True)).
  { unfold action_echo. destruct (slice_in mgmt 0 4) as (x & -> & _); [lia..|]. destruct (slice_in mgmt 22 2) as (y & -> & _); [lia..|].
    destruct (slice_in mgmt 25 (len - 25)) as (z & -> & _); [lia..|]. cbn [res_bind]. eauto. }
  intros resp _. eapply runs_bind; [apply runs_drv_send|]. auto with lazyas.
Qed.

(** A frame on which a handler reads behind its buffer or overflows:
    - a management frame of which fewer than 22 bytes are there, but more than the 16
      that [get_hdr_bssid] asks for before it reads [addr3];
    - an action frame that ends, with its buffer, at the category, when the switch
      reads the byte of the action;
    - a probe request whose list of names ends the buffer: the walk through the list
      reads the length of a name that is not there;
    - an action frame with a valid TSPEC whose demand does not fit an [int]. *)
Inductive frame_flaw (mgmt : list Z) (len : Z) : Prop :=
| FlawHeader (fc : Z) : frame_control mgmt = Ok fc -> WLAN_FC_GET_TYPE fc = WLAN_FC_TYPE_MGMT -> 16 <= len -> zlen mgmt < 22 -> frame_flaw mgmt len
| FlawAction (fc category : Z) : frame_control mgmt = Ok fc -> WLAN_FC_GET_STYPE fc = WLAN_FC_STYPE_ACTION -> len = 25 -> zlen mgmt = 25 ->
    rd mgmt 24 = Ok category -> category = WLAN_ACTION_PUBLIC \/ category = WLAN_ACTION_PROTECTED_DUAL -> frame_flaw mgmt len
| FlawNames (fc : Z) (r : ParseRes) (e : elems) : frame_control mgmt = Ok fc -> WLAN_FC_GET_STYPE fc = WLAN_FC_STYPE_PROBE_REQ ->
    ieee802_11_parse_elems (drop 24 mgmt) (len - 24) = Ok (r, e) -> list_ends e -> frame_flaw mgmt len
| FlawTspec (fc : Z) : frame_control mgmt = Ok fc -> WLAN_FC_GET_STYPE fc = WLAN_FC_STYPE_ACTION -> tspec_heavy mgmt len -> frame_flaw mgmt len.

(** The action frames of these. *)
Definition action_flaw (mgmt : list Z) (len : Z) : Prop :=
  (len = 25 /\ zlen mgmt = 25 /\ exists category, rd mgmt 24 = Ok category /\
     (category = WLAN_ACTION_PUBLIC \/ category = WLAN_ACTION_PROTECTED_DUAL)) \/ tspec_heavy mgmt len.

Lemma runs_action_switch mgmt len category : frame_ok mgmt len -> 25 <= len -> rd mgmt 24 = Ok category ->
  runs_or (action_flaw mgmt len) i None None (action_switch i mgmt len category).
Proof.
  intros Hf Hl Hc. pose proof (proj2 (fo_len _ _ Hf)) as Hz. unfold action_switch. destruct (bool_decide (category = WLAN_ACTION_WMM)).
  { intros w R T. destruct (runs_wmm_action i mgmt len Hf ltac:(lia) w R T) as [([] & w' & E & R' & T')|[Hh [u E]]].
    - left. exists 1, w'. now rewrite (bind_Ok _ _ _ _ _ E).
    - right. split; [by right|]. exists u. unfold bind. now rewrite E. }
  case_bool_decide as Hp; [|now apply runs_or_runs, runs_unknown_action].
  apply (runs_or_lift _ _ _ _ _ (fun _ => 25 < zlen mgmt)).
  { destruct (decide (25 < zlen mgmt)) as [Hr|Hr]; [left; destruct (rd_in mgmt 25) as (x & E & _); [lia|]; eauto|]. right. split; [left; split; [lia|]; split; [lia|]; eauto|].
    exists OutOfBounds. unfold rd. change (bool_decide (25 < 0)) with false. cbv iota. rewrite lookup_ge_None_2; [done|]. unfold zlen in Hr. lia. }
  intros a Hr. apply runs_or_runs. runs_step; [|now apply runs_unknown_action]. destruct (bool_decide _); [|auto with lazyas]. apply runs_coex; [lia..|apply Hf].
Qed.

Lemma runs_handle_action mgmt len : frame_ok mgmt len -> 24 <= len -> runs_or (action_flaw mgmt len) i None None (handle_action i mgmt len).
Proof.
  intros Hf Hl. pose proof (proj2 (fo_len _ _ Hf)) as Hz. unfold handle_action, IEEE80211_HDRLEN.
  destruct (header_ok mgmt len Hf) as ((fc & Efc) & (seq & Eseq) & _ & (addr & Ea & Hm) & _); [lia|].
  apply (runs_or_lift _ _ _ _ _ mac_ok); [eauto|]. intros ad Had. apply runs_or_ap_get_sta; [done|]. intros r.
  assert (forall A (a : A), runs i r None (ret a)) as Hret by (intros A a; apply (runs_weak i r r), runs_ret).
  case_bool_decide; [apply runs_or_runs, Hret|].
  apply (runs_or_lift _ _ _ _ _ (fun x => rd mgmt 24 = Ok x)); [destruct (rd_in mgmt 24) as (x & E & _); [lia|]; eauto|]. intros category Hcat.
  eapply (runs_or_bind _ i _ r); [apply runs_or_runs; destruct r as [p|]; [runs_tac|auto with lazyas]|]. intros assoc.
  destruct (_ && _); [apply runs_or_runs, Hret|].
  eapply (runs_or_bind _ i _ None); [|intros []; [apply runs_or_runs; auto with lazyas|apply runs_action_switch; (done || lia)]].
  apply runs_or_runs. destruct r as [p|]; [|apply runs_ret]. apply (runs_weak i (Some p) (Some p)).
  apply (runs_lift _ _ _ _ (fun _ => True)); [eauto|]. intros fc' _. apply (runs_lift _ _ _ _ (fun _ => True)); [eauto|]. intros seq' _. runs_tac.
Qed.

Lemma runs_handle_probe c mgmt len : frame_ok mgmt len -> 24 <= len ->
  runs_or (exists r e, ieee802_11_parse_elems (drop 24 mgmt) (len - 24) = Ok (r, e) /\ list_ends e) i None None (handle_probe_req c i mgmt len).
Proof.
  intros Hf H24 w R T. pose proof (proj2 (fo_len _ _ Hf)) as Hz. destruct (proj1 T) as [b Hb].
  destruct (header_ok mgmt len Hf H24) as (_ & _ & _ & (addr & Ea & Hm) & (bs & Eb & _)).
  edestruct (handle_outcome w i b c mgmt addr (mo_iface _ (proj1 R)) Hb) with (len := len) (bssid := bs) as [(w' & cs & E & Q & _)|H0];
    [split; [apply Hf|unfold Probe.IEEE80211_HDRLEN; lia]|done|apply (mlme_frame_ready w i b (proj1 R) Hb)|done..|lia| | |right; exact H0].
  - intros r e E Hl. exists r, e. done.
  - left. exists tt, w'. split; [done|]. split; [now apply (ready_quiet w)|now apply (at_table_quiet i None w)].
Qed.

Lemma runs_mgmt c mgmt len : frame_ok mgmt len -> runs_or (frame_flaw mgmt len) i None None (ieee802_11_mgmt c i mgmt len).
Proof.
  intros Hf. unfold ieee802_11_mgmt. case_bool_decide as Hl; [apply runs_or_runs; auto with lazyas|]. assert (24 <= len) as H24 by lia.
  destruct (header_ok mgmt len Hf H24) as ((fc & Efc) & _ & (d & Ed & _) & _ & (bs & Eb & _)).
  apply (runs_or_lift _ _ _ _ _ (eq fc)); [eauto|]. intros ? <-. cbv zeta.
  assert (forall m : M world unit, runs i None None m -> runs_or (frame_flaw mgmt len) i None None (m ;;; ret 1)) as Hone.
  { intros m Hm. apply runs_or_runs. eapply runs_bind; [exact Hm|auto with lazyas]. }
  destruct (bool_decide _); [now apply Hone, runs_handle_beacon|].
  apply (runs_or_lift _ _ _ _ _ (fun _ => True)); [eauto|]. intros bs' _. apply runs_or_get_bss. intros b. destruct (_ && _); [apply runs_or_runs; auto with lazyas|].
  case_bool_decide as Hpr.
  { apply (runs_or_bind _ i _ None); [|intros; apply runs_or_runs; auto with lazyas]. intros w R T.
    destruct (runs_handle_probe (probes_conf c) mgmt len Hf H24 w R T) as [Hok|[(r & e & Ep & He) Hu]]; [by left|right]. split; [|done]. now apply (FlawNames _ _ fc r e). }
  apply (runs_or_lift _ _ _ _ _ (fun _ => True)); [eauto|]. intros d' _. destruct (bool_decide _); [apply runs_or_runs; auto with lazyas|].
  destruct (bool_decide _); [now apply Hone, runs_handle_auth|].
  do 2 (destruct (bool_decide _); [now apply Hone, runs_handle_assoc|]).
  destruct (bool_decide _); [now apply Hone, runs_handle_disassoc|]. destruct (bool_decide _); [now apply Hone, runs_handle_deauth|].
  case_bool_decide as Hac; [|apply runs_or_runs; auto with lazyas]. intros w R T.
  destruct (runs_handle_action mgmt len Hf H24 w R T) as [Hok|[Hfl Hu]]; [by left|right]. split; [|done].
  destruct Hfl as [(E1 & E2 & cat & E3 & E4)|Hh]; [now apply (FlawAction _ _ fc cat)|now apply (FlawTspec _ _ fc)].
Qed.

Lemma runs_handle_auth_cb mgmt len ok : frame_ok mgmt len -> runs i None None (handle_auth_cb i mgmt len ok).
Proof.
  intros Hf. unfold handle_auth_cb, IEEE80211_HDRLEN. destruct (negb ok); [auto with lazyas|]. case_bool_decide; [auto with lazyas|].
  pose proof (proj2 (fo_len _ _ Hf)). destruct (header_ok mgmt len Hf) as (_ & _ & (addr & Ea & Hm) & _); [lia|].
  do 3 (apply runs_read; [lia..|]; intros ?). apply (runs_lift _ _ _ _ mac_ok); [eauto|]. intros ad Had.
  apply runs_ap_get_sta; [done|]. intros [p|]; [|auto with lazyas]. apply (runs_weak i (Some p) (Some p)). runs_tac.
Qed.

Lemma runs_leave_cb cb mgmt len : (forall p, gentle i p (cb i p)) -> frame_ok mgmt len -> 24 <= len -> runs i None None (leave_cb cb i mgmt).
Proof.
  intros Hcb Hf Hl. unfold leave_cb. destruct (header_ok mgmt len Hf Hl) as (_ & _ & (addr & Ea & Hm) & _).
  apply (runs_lift _ _ _ _ mac_ok); [eauto|]. intros ad Had.
  apply (runs_lift _ _ _ _ (fun _ => True)); [destruct (rd_in ad 0) as (x & E & _); [unfold mac_ok, zlen in *; lia|]; eauto|]. intros d0 _.
  destruct (has d0 1); [auto with lazyas|]. apply runs_ap_get_sta; [done|]. intros [p|]; [|auto with lazyas].
  apply (runs_weak i (Some p) (Some p)). now apply runs_gentle.
Qed.

Lemma runs_assoc_acked p reassoc : runs i (Some p) (Some p) (assoc_acked i p reassoc).
Proof.
  unfold assoc_acked, assoc_mark, hostapd. runs_tac; first [apply runs_authorize|apply runs_assoc_ind].
Qed.

(** A station whose association is complete. *)

Lemma runs_prune addr o : mac_ok addr -> runs i o o (hostapd_prune_associations i addr).
Proof.
  intros Hm. apply runs_quietly. intros w R T. destruct (prune_run i addr w Hm (mo_iface _ (proj1 R))) as (w' & E & Q & _). by exists tt, w'.
Qed.

Lemma runs_new_assoc m p reassoc : runs i (Some p) (Some p) (hostapd_new_assoc_sta m i p reassoc).
Proof.
  unfold hostapd_new_assoc_sta, hostapd, retimer. apply runs_get_bss. intros b _ _. apply runs_get_sta. intros s Hm _ _.
  destruct (tkip_countermeasures b); [unfold hostapd_drv_sta_deauth; runs_tac|].
  eapply runs_bind; [now apply runs_prune|]. intros _. runs_tac; apply runs_authorize.
Qed.

(** The port of a station is opened or closed. *)
Lemma runs_set_port addr authorized : mac_ok addr -> runs i None None (hostapd_wpa_auth_set_eapol i addr authorized).
Proof.
  intros Hm. unfold hostapd_wpa_auth_set_eapol. apply runs_ap_get_sta; [done|]. intros [p|]; [|auto with lazyas].
  apply (runs_weak i _ (Some p)). unfold ieee802_1x_set_sta_authorized, hostapd_set_authorized, hostapd. runs_tac; first [apply runs_authorize|apply runs_unauthorize].
Qed.
End RunsFrames.
