(* ===== verification/Entries.v ===== *)
(** * What an operation can do to the entries of the stations

    [entrywise R m]: whatever [m] does, every entry that is there afterwards is in the
    relation [R] to what was there before.  The relation [held] says that an entry has
    not become associated or authorized, and that the capabilities of a flag are
    stored; every operation but the one that follows an acknowledged association
    response is in it. *)

From stdpp Require Import base list numbers gmap strings.
From Stdlib Require Import ZArith Lia.
From S2P Require Import Prelude CString Dense Env Survey World Messages Elements Station Ht Eids Beacon Rsn Handler Stamgd Lifecycle Books Probe Auth Assoc ApTable ApList Wmm Mlme.
Local Open Scope Z_scope.

(** ** The calculus *)

(** A relation on the entries: where an entry is, what was there and what is there. *)
Definition entry_rel : Type := positive -> option sta_info -> sta_info -> Prop.

Class Entry (R : entry_rel) : Prop := {
  en_refl : forall p s, R p (Some s) s;
  en_trans : forall p o s s', R p o s -> R p (Some s) s' -> R p o s';
  en_none : forall p o s, R p None s -> R p o s }.

Definition num_bss (w : world) : nat := length (bss (ifc w)).

(** The configurations of the BSSs, which no operation changes either. *)
Definition confs (w : world) : list bss_config := bconf <$> bss (ifc w).

Definition entrywise (R : entry_rel) {A} (m : M world A) : Prop := forall w a w', m w = Ok (a, w') ->
  confs w' = confs w /\ forall p s', heap w' !! p = Some s' -> R p (heap w !! p) s'.

Lemma confs_num w w' : confs w' = confs w -> num_bss w' = num_bss w.
Proof. intros E. apply (f_equal length) in E. unfold confs in E. now rewrite !length_fmap in E. Qed.

Lemma confs_bss w w' i b b' : confs w' = confs w -> bss (ifc w) !! i = Some b -> bss (ifc w') !! i = Some b' -> bconf b' = bconf b.
Proof.
  intros E Hb Hb'. assert (confs w' !! i = confs w !! i) as E' by now rewrite E. unfold confs in E'.
  rewrite !list_lookup_fmap, Hb, Hb' in E'. cbn in E'. congruence.
Qed.

Section Calculus.
Context (R : entry_rel) `{Entry R}.

(** What reads and writes neither. *)
Definition off_table (w : world) : gmap positive sta_info * list bss_config := (heap w, confs w).

Lemma ew_same {A} (m : M world A) : keeps off_table m -> entrywise R m.
Proof using H.
  intros Hm w a w' E. specialize (Hm _ _ _ E). injection Hm as E1 E2. split; [done|]. intros p s' Hs. rewrite E1 in Hs. rewrite Hs. apply en_refl.
Qed.

Lemma ew_ret {A} (a : A) : entrywise R (ret a).
Proof using H. apply ew_same, keeps_ret. Qed.
Lemma ew_get : entrywise R get.
Proof using H. apply ew_same, keeps_get. Qed.
Lemma ew_fail {A} u : entrywise R (@fail world A u).
Proof using. intros w a w' [=]. Qed.
Lemma ew_lift {A} (r : res A) : entrywise R (lift r).
Proof using H. apply ew_same, keeps_lift. Qed.
Lemma ew_modify f : (forall w, heap (f w) = heap w) -> (forall w, confs (f w) = confs w) -> entrywise R (modify f).
Proof using H. intros Hf Hn. apply ew_same, keeps_modify. intros w. unfold off_table. now rewrite Hf, Hn. Qed.
Lemma ew_ext c : entrywise R (ext c).
Proof using H. now apply ew_same, keeps_ext. Qed.
Lemma ew_ext_ c : entrywise R (ext_ c).
Proof using H. now apply ew_same, keeps_ext_. Qed.
Lemma ew_ext_bytes c : entrywise R (ext_bytes c).
Proof using H. now apply ew_same, keeps_ext_bytes. Qed.

Lemma ew_bind {A B} (m : M world A) (k : A -> M world B) :
  entrywise R m -> (forall a, entrywise R (k a)) -> entrywise R (bind m k).
Proof using H.
  intros Hm Hk w b w' E. unfold bind in E. destruct (m w) as [[a w1]|] eqn:E0; [|done].
  destruct (Hm _ _ _ E0) as [N0 H0]. destruct (Hk _ _ _ _ E) as [N1 H1]. split; [congruence|]. intros p s' Hs. specialize (H1 p s' Hs).
  destruct (heap w1 !! p) as [s|] eqn:Es; [|now apply en_none]. apply (en_trans _ _ s); [|done]. now apply H0.
Qed.

Lemma ew_get_sta p : entrywise R (get_sta p).
Proof using H. apply ew_same. unfold get_sta. keeps_tac idtac. Qed.
Lemma ew_get_bss i : entrywise R (get_bss i).
Proof using H. apply ew_same. unfold get_bss. keeps_tac idtac. Qed.

Lemma map_insert_same {X Y} (f : X -> Y) (l : list X) i x y : l !! i = Some x -> f y = f x -> f <$> <[i := y]> l = f <$> l.
Proof using.
  intros Hx Hf. rewrite list_fmap_insert, Hf. apply list_insert_id. now rewrite list_lookup_fmap, Hx.
Qed.

Lemma ew_upd_bss i f : (forall b, bconf (f b) = bconf b) -> entrywise R (upd_bss i f).
Proof using H.
  intros Hf. apply ew_same. intros w a w' E. unfold upd_bss, get_bss, bind, get in E. destruct (bss (ifc w) !! i) as [b|] eqn:Hb; [|discriminate E].
  injection E as _ <-. unfold off_table, confs. simpl. now rewrite (map_insert_same bconf _ i b).
Qed.

Lemma ew_upd_sta p f : (forall s, R p (Some s) (f s)) -> entrywise R (upd_sta p f).
Proof using H.
  intros Hf w a w' E. destruct (heap w !! p) as [t|] eqn:Et.
  2: { unfold upd_sta, get_sta, bind, get in E. simpl in E. now rewrite Et in E. }
  unfold upd_sta in E. rewrite (bind_Ok _ _ _ _ _ (get_sta_run _ _ _ Et)) in E. injection E as <- <-. split; [done|]. intros q s' Hs. simpl in Hs.
  destruct (decide (q = p)) as [->|Hq].
  - rewrite lookup_insert_eq in Hs. injection Hs as <-. rewrite Et. apply Hf.
  - rewrite lookup_insert_ne in Hs by done. rewrite Hs. apply en_refl.
Qed.

Lemma ew_new p s : R p None s -> entrywise R (modify (upd_heap <[p := s]>)).
Proof using H.
  intros Hs w a w' E. injection E as <- <-. split; [done|]. intros q s' Hq. simpl in Hq. destruct (decide (q = p)) as [->|Hne].
  - rewrite lookup_insert_eq in Hq. injection Hq as <-. now apply en_none.
  - rewrite lookup_insert_ne in Hq by done. rewrite Hq. apply en_refl.
Qed.

Lemma ew_delete p : entrywise R (modify (upd_heap (delete p))).
Proof using H.
  intros w a w' E. injection E as <- <-. split; [done|]. intros q s' Hq. simpl in Hq. apply lookup_delete_Some in Hq as [_ Hq]. rewrite Hq. apply en_refl.
Qed.
End Calculus.

Lemma ew_weaken {A} (R R' : entry_rel) (m : M world A) : (forall p o s, R p o s -> R' p o s) -> entrywise R m -> entrywise R' m.
Proof. intros HR Hm w a w' E. destruct (Hm _ _ _ E) as [N Hs]. split; [done|]. intros p s' Hs'. eapply HR, Hs; eauto. Qed.

(** ** The relations *)

(** The capabilities that the flags promise are there. *)
Definition caps_ok (s : sta_info) : Prop :=
  (Z.testbit (sta_flags s) 11 = true -> ht_capabilities (mlme s) <> None) /\
  (Z.testbit (sta_flags s) 18 = true -> vht_capabilities (mlme s) <> None).

Definition caps_kept : entry_rel := fun _ o s' => (forall s, o = Some s -> caps_ok s) -> caps_ok s'.

(** The flags of association (bit 1) and authorization (bit 5). *)
Definition granted_bit (n : Z) : Prop := n = 1 \/ n = 5.

Definition bits_held : entry_rel := fun _ o s' =>
  forall n, granted_bit n -> Z.testbit (sta_flags s') n = true -> exists s, o = Some s /\ Z.testbit (sta_flags s) n = true.

Definition held : entry_rel := fun p o s' => bits_held p o s' /\ caps_kept p o s'.

(** Nothing at all, and what may happen to one entry only. *)
Definition untouched : entry_rel := fun _ o s' => o = Some s'.
Definition held_but (q : positive) : entry_rel := fun p o s' => p = q \/ bits_held p o s'.

#[export] Instance caps_kept_entry : Entry caps_kept.
Proof.
  split.
  - intros p s Hs. now apply Hs.
  - intros p o s s' H1 H2 Ho. apply H2. intros t [= <-]. now apply H1.
  - intros p o s H1 _. apply H1. intros t [=].
Qed.

#[export] Instance bits_held_entry : Entry bits_held.
Proof.
  split.
  - intros p s n _ Hn. eauto.
  - intros p o s s' A B n Hn Hb. destruct (B n Hn Hb) as (t & [= <-] & Ht). now apply A.
  - intros p o s A n Hn Hb. destruct (A n Hn Hb) as (t & [=] & _).
Qed.

#[export] Instance held_entry : Entry held.
Proof.
  split.
  - intros p s. split; apply en_refl.
  - intros p o s s' [A1 A2] [B1 B2]. split; now apply (en_trans _ _ s).
  - intros p o s [A1 A2]. split; now apply en_none.
Qed.

#[export] Instance untouched_entry : Entry untouched.
Proof. split; [done|intros p o s s' -> [= ->]; done|intros p o s [=]]. Qed.

#[export] Instance held_but_entry q : Entry (held_but q).
Proof.
  split.
  - intros p s. right. apply en_refl.
  - intros p o s s' [A|A] [B|B]; try (by left). right. now apply (en_trans _ _ s).
  - intros p o s [A|A]; [by left|right; now apply en_none].
Qed.

(** Flags and capabilities of an entry that is changed by assignments. *)
Lemma held_assign p s s' : (forall n, granted_bit n -> Z.testbit (sta_flags s') n = true -> Z.testbit (sta_flags s) n = true) ->
  (Z.testbit (sta_flags s') 11 = true -> ht_capabilities (mlme s') = None -> Z.testbit (sta_flags s) 11 = true /\ ht_capabilities (mlme s) = None) ->
  (Z.testbit (sta_flags s') 18 = true -> vht_capabilities (mlme s') = None -> Z.testbit (sta_flags s) 18 = true /\ vht_capabilities (mlme s) = None) ->
  held p (Some s) s'.
Proof.
  intros H1 H2 H3. split; [intros n Hn Hb; exists s; auto|]. intros Ho. destruct (Ho s eq_refl) as [C1 C2]. split; intros Hb Hc.
  - destruct (H2 Hb Hc) as [E1 E2]. now apply C1.
  - destruct (H3 Hb Hc) as [E1 E2]. now apply C2.
Qed.

(** Evaluates the bits of constants. *)
Ltac const_bits :=
  repeat match goal with
  | |- context [Z.testbit ?c ?n] => let b := eval vm_compute in (Z.testbit c n) in
      match b with true => change (Z.testbit c n) with true | false => change (Z.testbit c n) with false end
  end.

Ltac bits_tac :=
  rewrite ?Z.lor_spec, ?Z.ldiff_spec; const_bits; cbn [orb andb negb]; rewrite ?orb_false_r, ?andb_true_r, ?andb_false_r, ?orb_true_r;
  intuition (first [congruence | discriminate]).

Ltac held_tac :=
  intros; apply held_assign;
  [intros ? [-> | ->]|..]; unfold set_flag, clear_flag; cbn -[Z.testbit Z.lor Z.ldiff]; bits_tac.

Lemma held_fresh p addr : held p None (fresh_sta addr).
Proof. split; [intros n _ Hn|intros _; split; intros Hn]; cbn [sta_flags fresh_sta] in Hn; by rewrite Z.bits_0 in Hn. Qed.

(** ** The operations *)

Create HintDb entries discriminated.

(** Walks through an operation; the hints know the operations it calls. *)
Ltac ew_step :=
  lazymatch goal with
  | |- entrywise _ (bind _ _) => apply ew_bind; [apply _| |intros]
  | |- entrywise _ (ret _) => apply ew_ret; apply _
  | |- entrywise _ get => apply ew_get; apply _
  | |- entrywise _ (fail _) => apply ew_fail
  | |- entrywise _ (lift _) => apply ew_lift; apply _
  | |- entrywise _ (ext _) => apply ew_ext; apply _
  | |- entrywise _ (ext_ _) => apply ew_ext_; apply _
  | |- entrywise _ (ext_bytes _) => apply ew_ext_bytes; apply _
  | |- entrywise _ (get_sta _) => apply ew_get_sta; apply _
  | |- entrywise _ (get_bss _) => apply ew_get_bss; apply _
  | |- entrywise _ (upd_bss _ _) => apply ew_upd_bss; [apply _|reflexivity]
  | |- entrywise _ (upd_sta _ _) => apply ew_upd_sta; [apply _|held_tac]
  | |- entrywise _ (modify (upd_heap <[_ := _]>)) => apply ew_new; [apply _|apply held_fresh]
  | |- entrywise _ (modify (upd_heap (delete _))) => apply ew_delete; apply _
  | |- entrywise _ (modify _) => apply ew_modify; [apply _|reflexivity|reflexivity]
  | |- entrywise _ (match ?x with _ => _ end) => destruct x
  | |- entrywise _ (let _ := _ in _) => cbv zeta
  | |- entrywise _ _ => solve [auto 2 with entries]
  end.
Ltac ew_tac := repeat ew_step.

Abbreviation quiet_entries := (entrywise held).

#[export] Hint Extern 0 (Entry _) => apply _ : entries.

Section Reports.
Context (R : entry_rel) {HR : Entry R}.

Lemma ew_send_buf buf n : entrywise R (send_buf buf n).
Proof using HR. unfold send_buf. ew_tac. Qed.

Lemma ew_get_ap_au mode : entrywise R (get_ap_au mode).
Proof using HR. apply (ew_same R). intros w a w' E. rewrite (get_ap_au_env _ _ _ _ E). done. Qed.
#[local] Hint Resolve ew_send_buf ew_get_ap_au : entries.

Lemma ew_send_msg ty d : entrywise R (fnii_send_msg ty d).
Proof using HR.
  unfold fnii_send_msg, fnii_check_socket_status, drop_link, fnii_set_socket_status, send_dispatch.
  unfold fnii_send_msg_ok, fnii_send_msg_err, fnii_send_msg_flow_info, fnii_send_msg_del_sta,
    fnii_send_msg_inerface_all, fnii_send_msg_if_info, fnii_send_msg_new_sta, fnii_send_msg_probe_info,
    fnii_send_msg_local_mac, fnii_send_msg_beat, fnii_send_msg_update_station.
  ew_tac.
Qed.

Lemma ew_dense_add c : entrywise R (dense_add c).
Proof using HR. unfold dense_add. ew_tac. Qed.

Lemma ew_send_rest f : forall sk rest len, entrywise R (send_rest f sk rest len).
Proof using HR. induction f as [|f IH]; intros; simpl; ew_tac. Qed.
#[local] Hint Resolve ew_send_rest : entries.

Lemma ew_hostapd fn addr : entrywise R (hostapd fn addr).
Proof using HR. unfold hostapd. ew_tac. Qed.
Lemma ew_retimer secs fn addr : entrywise R (retimer secs fn addr).
Proof using HR. unfold retimer. ew_tac. Qed.
Lemma ew_beacons : entrywise R set_beacons.
Proof using HR. apply ew_hostapd. Qed.
Lemma ew_send_mlme frame noack : entrywise R (hostapd_drv_send_mlme frame noack).
Proof using HR. unfold hostapd_drv_send_mlme. ew_tac. Qed.

Context `{StamgdFormat}.

Lemma ew_updown ev mac sid ifn ch : entrywise R (updown ev mac sid ifn ch).
Proof using All. unfold updown, ssid_text, send_updw, semd_msg2stamg. ew_tac. Qed.
#[local] Hint Resolve ew_updown ew_send_msg ew_dense_add : entries.

Lemma ew_tell_gone b addr : entrywise R (tell_gone b addr).
Proof using All. unfold tell_gone, fnii_del_sta. ew_tac. Qed.
Lemma ew_tell_new b addr : entrywise R (tell_new b addr).
Proof using All. unfold tell_new, fnii_new_sta. ew_tac. Qed.
#[local] Hint Resolve ew_tell_new : entries.

Lemma ew_assoc_ind i p : entrywise R (assoc_indication i p).
Proof using All. unfold assoc_indication, hostapd. ew_tac. Qed.
End Reports.

#[export] Hint Resolve ew_send_msg ew_dense_add ew_tell_gone ew_tell_new ew_assoc_ind ew_hostapd ew_retimer ew_beacons ew_send_mlme : entries.

Section Tables.

Lemma ew_find_chain c a : quiet_entries (find_chain c a).
Proof. induction c; simpl; ew_tac. Qed.
#[local] Hint Resolve ew_find_chain : entries.

Lemma ew_ap_get_sta i addr : quiet_entries (ap_get_sta i addr).
Proof. unfold ap_get_sta. ew_tac. Qed.

Lemma ew_chain_unlink c a : quiet_entries (chain_unlink c a).
Proof. induction c; simpl; ew_tac. Qed.
#[local] Hint Resolve ew_chain_unlink : entries.

Lemma ew_hash_del i p : quiet_entries (ap_sta_hash_del i p).
Proof. unfold ap_sta_hash_del. ew_tac. Qed.
Lemma ew_hash_add i p : quiet_entries (ap_sta_hash_add i p).
Proof. unfold ap_sta_hash_add. ew_tac. Qed.
Lemma ew_list_del i p : quiet_entries (ap_sta_list_del i p).
Proof. unfold ap_sta_list_del. ew_tac. Qed.
Lemma ew_unauthorize i p : quiet_entries (ap_sta_unauthorize i p).
Proof.
  unfold ap_sta_unauthorize. ew_tac.
Qed.
End Tables.

#[export] Hint Resolve ew_ap_get_sta ew_hash_del ew_hash_add ew_list_del ew_unauthorize : entries.

Section Ht.

Lemma ew_ht_update : quiet_entries hostapd_ht_operation_update.
Proof. unfold hostapd_ht_operation_update. ew_tac. Qed.
#[local] Hint Resolve ew_ht_update : entries.

Lemma ew_count_up p flag set_sta num set : (forall s, held p (Some s) (set_sta s)) -> (forall z x, bss (set z x) = bss x) ->
  quiet_entries (count_up p flag set_sta num set).
Proof.
  intros Hs Hn. unfold count_up. ew_tac; [apply ew_upd_sta; [apply _|exact Hs]|].
  apply ew_modify; [apply _|done|]. intros w. unfold confs. simpl. now rewrite Hn.
Qed.

Lemma ew_intolerant_left : quiet_entries ht40_intolerant_left.
Proof. unfold ht40_intolerant_left, count_intolerant. ew_tac. Qed.

Lemma ew_intolerant_add p : quiet_entries (ht40_intolerant_add p).
Proof. unfold ht40_intolerant_add. ew_tac. apply ew_count_up; [held_tac|reflexivity]. Qed.
#[local] Hint Resolve ew_intolerant_add : entries.

Lemma ew_update_sta_ht p cap : quiet_entries (update_sta_ht p cap).
Proof. unfold update_sta_ht. ew_tac; (apply ew_count_up; [held_tac|reflexivity]). Qed.
Lemma ew_update_sta_no_ht p : quiet_entries (update_sta_no_ht p).
Proof. unfold update_sta_no_ht. ew_tac; (apply ew_count_up; [held_tac|reflexivity]). Qed.
#[local] Hint Resolve ew_update_sta_ht ew_update_sta_no_ht : entries.

Lemma ew_update_ht_state p : quiet_entries (update_ht_state p).
Proof. unfold update_ht_state. ew_tac. Qed.

Lemma ew_copy_ht b p e : quiet_entries (copy_sta_ht_capab b p e).
Proof. unfold copy_sta_ht_capab. ew_tac. Qed.
Lemma ew_copy_vht b p e : quiet_entries (copy_sta_vht_capab b p e).
Proof. unfold copy_sta_vht_capab. ew_tac. Qed.
Lemma ew_copy_vendor b p e : quiet_entries (copy_sta_vendor_vht b p e).
Proof. unfold copy_sta_vendor_vht. ew_tac. Qed.
Lemma ew_opmode p e : quiet_entries (set_sta_vht_opmode p e).
Proof. unfold set_sta_vht_opmode. ew_tac. Qed.

Lemma ew_channels chans : quiet_entries (channels_allowed chans).
Proof. induction chans; simpl; unfold is_40_allowed; ew_tac. Qed.
#[local] Hint Resolve ew_channels : entries.

Lemma ew_coex mgmt len : quiet_entries (hostapd_2040_coex_action mgmt len).
Proof. unfold hostapd_2040_coex_action, intolerant_report. ew_tac. Qed.
End Ht.

#[export] Hint Resolve ew_ht_update ew_intolerant_left ew_update_ht_state ew_copy_ht ew_copy_vht ew_copy_vendor ew_opmode ew_coex : entries.

Section Life.
Context `{StamgdFormat}.

Lemma ew_deauth_ind i p : quiet_entries (mlme_deauthenticate_indication i p).
Proof. unfold mlme_deauthenticate_indication. ew_tac. Qed.
Lemma ew_disassoc_ind i p : quiet_entries (mlme_disassociate_indication i p).
Proof. unfold mlme_disassociate_indication. ew_tac. Qed.

Lemma ew_count_down c num set beacon : (forall z x, bss (set z x) = bss x) -> quiet_entries (count_down c num set beacon).
Proof. intros Hn. unfold count_down. ew_tac. apply ew_modify; [apply _|done|]. intros w. unfold confs. simpl. now rewrite Hn. Qed.
#[local] Hint Resolve ew_deauth_ind ew_disassoc_ind : entries.

Lemma ew_free i p : quiet_entries (ap_free_sta i p).
Proof. unfold ap_free_sta, take_out, release_aid, leave_counters, cancel_timers, free_parts, free_entry. ew_tac; (apply ew_count_down; reflexivity). Qed.
#[local] Hint Resolve ew_free : entries.

Lemma ew_free_stas l i : quiet_entries (free_stas l i).
Proof. induction l; simpl; ew_tac. Qed.
#[local] Hint Resolve ew_free_stas : entries.

Lemma ew_drv_deauth i addr reason : quiet_entries (hostapd_drv_sta_deauth i addr reason).
Proof. unfold hostapd_drv_sta_deauth. ew_tac. Qed.
Lemma ew_drv_disassoc i addr reason : quiet_entries (hostapd_drv_sta_disassoc i addr reason).
Proof. unfold hostapd_drv_sta_disassoc. ew_tac. Qed.
#[local] Hint Resolve ew_drv_deauth ew_drv_disassoc : entries.

Lemma ew_disconnect i p addr reason : quiet_entries (ap_sta_disconnect i p addr reason).
Proof. unfold ap_sta_disconnect. ew_tac. Qed.
#[local] Hint Resolve ew_disconnect : entries.

Lemma ew_ap_get_sta_any R `{Entry R} i addr : entrywise R (ap_get_sta i addr).
Proof using.
  assert (forall c a, entrywise R (find_chain c a)) as Hc by (induction c as [|q c IH]; intros; cbn [find_chain]; ew_tac; auto).
  unfold ap_get_sta. ew_tac.
Qed.

Lemma ew_in_others R `{Entry R} act n : (forall i p, entrywise R (act i p)) -> forall j i addr, entrywise R (in_others act n j i addr).
Proof using.
  intros Ha. induction n as [|n IH]; intros j i addr; cbn [in_others].
  - apply ew_ret; done.
  - apply ew_bind; [done| |intros _; apply IH]. destruct (bool_decide _); [apply ew_ret; done|].
    apply ew_bind; [done|now apply ew_ap_get_sta_any|]. intros [p|]; [apply Ha|apply ew_ret; done].
Qed.

Lemma ew_remove_others n j i addr : quiet_entries (remove_others n j i addr).
Proof. apply ew_in_others; [apply _|]. intros. ew_tac. Qed.
#[local] Hint Resolve ew_remove_others : entries.

Lemma ew_prune i addr : quiet_entries (hostapd_prune_associations i addr).
Proof. unfold hostapd_prune_associations, prune_associations. ew_tac. apply ew_in_others; [apply _|]. intros. unfold ap_sta_disassociate. ew_tac. Qed.

Lemma ew_add m i addr : quiet_entries (ap_sta_add m i addr).
Proof. unfold ap_sta_add, ap_sta_remove_in_other_bss. ew_tac. Qed.

Lemma ew_deauth_cb i p : quiet_entries (ap_sta_deauth_cb i p).
Proof. unfold ap_sta_deauth_cb, pending_cb, ap_sta_deauth_cb_timeout, ap_sta_remove. ew_tac. Qed.
Lemma ew_disassoc_cb i p : quiet_entries (ap_sta_disassoc_cb i p).
Proof. unfold ap_sta_disassoc_cb, pending_cb, ap_sta_disassoc_cb_timeout, ap_sta_remove. ew_tac. Qed.

Lemma ew_timer m b i p : quiet_entries (ap_handle_timer m b i p).
Proof. unfold ap_handle_timer, check_activity, check_poll, timer_frame, timer_switch. ew_tac. Qed.
Lemma ew_session i p : quiet_entries (ap_handle_session_timer i p).
Proof. unfold ap_handle_session_timer. ew_tac. Qed.
Lemma ew_off_vap i addr : quiet_entries (ieee802_11_del_station_of_vap i addr).
Proof. unfold ieee802_11_del_station_of_vap, kick, ap_sta_disassociate. ew_tac. Qed.
End Life.

#[export] Hint Resolve ew_deauth_ind ew_disassoc_ind ew_free ew_free_stas ew_drv_deauth ew_drv_disassoc ew_disconnect ew_add
  ew_deauth_cb ew_disassoc_cb ew_timer ew_session ew_off_vap : entries.

Section Frames.

Lemma ew_get_aid i p : quiet_entries (hostapd_get_aid i p).
Proof. unfold hostapd_get_aid. ew_tac. Qed.

Lemma ew_check (m k : M world Z) : quiet_entries m -> quiet_entries k -> quiet_entries (check m k).
Proof. intros Hm Hk. unfold check. ew_tac; assumption. Qed.

Lemma ew_check_wmm b p e : quiet_entries (check_wmm b p e).
Proof. unfold check_wmm. ew_tac. Qed.
Lemma ew_supp_rates p e : quiet_entries (copy_supp_rates p e).
Proof. unfold copy_supp_rates. ew_tac. Qed.

Lemma ew_pmksa_own n addr ids : quiet_entries (pmksa_own n addr ids).
Proof. revert ids. induction n as [|n IH]; intros ids; cbn [pmksa_own]; ew_tac. Qed.
Lemma ew_pmksa_okc n own addr ids : quiet_entries (pmksa_okc n own addr ids).
Proof. revert ids. induction n as [|n IH]; intros ids; cbn [pmksa_okc]; ew_tac. Qed.
Lemma ew_validate conf own addr sm ie : quiet_entries (wpa_validate_wpa_ie conf own addr sm ie).
Proof.
  unfold wpa_validate_wpa_ie, find_pmksa, keep_ie, hostapd. ew_tac; first [apply ew_pmksa_own|apply ew_pmksa_okc|idtac].
Qed.
Lemma ew_check_wpa b p e : quiet_entries (check_wpa b p e).
Proof. unfold check_wpa, check_wpa_ie, wpa_auth_sta_init. ew_tac. all: apply ew_validate. Qed.

Lemma ew_check_ies i p ies len : quiet_entries (check_assoc_ies i p ies len).
Proof.
  unfold check_assoc_ies, check_ht, check_vht, require. ew_tac.
  all: repeat first [apply ew_check_wmm|apply ew_supp_rates|apply ew_check_wpa|apply ew_check|ew_step].
Qed.

Lemma ew_grant p c l : quiet_entries (assoc_grant p c l).
Proof.
  unfold assoc_grant, mark_non_erp, mark_slot, mark_preamble. ew_tac; (apply ew_count_up; [held_tac|reflexivity]).
Qed.
#[local] Hint Resolve ew_get_aid ew_check_ies ew_grant : entries.

Lemma ew_assoc_status i p pos left c l : quiet_entries (assoc_status i p pos left c l).
Proof. unfold assoc_status. ew_tac. apply ew_check; ew_tac. Qed.

Lemma ew_send_resp i p status reassoc : quiet_entries (send_assoc_resp i p status reassoc).
Proof. unfold send_assoc_resp. ew_tac. Qed.
#[local] Hint Resolve ew_assoc_status ew_send_resp : entries.

Lemma ew_handle_assoc i mgmt len reassoc : quiet_entries (handle_assoc i mgmt len reassoc).
Proof. unfold handle_assoc, send_deauth. ew_tac. Qed.

Context `{StamgdFormat}.

Lemma ew_auth_switch p a t chal iswep : quiet_entries (auth_switch p a t chal iswep).
Proof. unfold auth_switch, auth_shared_key, new_challenge, mlme_authenticate_indication. ew_tac. Qed.
#[local] Hint Resolve ew_auth_switch : entries.

Lemma ew_auth_station b p v fc seq a t chal : quiet_entries (auth_station b p v fc seq a t chal).
Proof. unfold auth_station, ap_sta_no_session_timeout. ew_tac. Qed.
#[local] Hint Resolve ew_auth_station : entries.

Lemma ew_handle_auth m i mgmt len : quiet_entries (handle_auth m i mgmt len).
Proof. unfold handle_auth, auth_outcome, send_auth_reply. ew_tac. Qed.

Lemma ew_wmm_action i mgmt len : quiet_entries (hostapd_wmm_action i mgmt len).
Proof. unfold hostapd_wmm_action, wmm_action_of, wmm_addts_req, wmm_send_action. ew_tac. Qed.
#[local] Hint Resolve ew_wmm_action : entries.

Lemma ew_probereq_cbs n addr : quiet_entries (probereq_cbs n addr).
Proof. induction n; simpl; ew_tac. Qed.
#[local] Hint Resolve ew_probereq_cbs : entries.

Lemma ew_gen_probe hapd sta req : quiet_entries (hostapd_gen_probe_resp hapd sta req).
Proof. unfold hostapd_gen_probe_resp, hostapd_eid_pwr_constraint, hostapd_eid_time_adv, hostapd_is_dfs_required. ew_tac. Qed.
#[local] Hint Resolve ew_gen_probe : entries.

Lemma ew_handle_probe c i mgmt len : quiet_entries (handle_probe_req c i mgmt len).
Proof. unfold handle_probe_req, probe_elems, probe_named, probe_foreign, probe_reply, fnii_check_socket_status. ew_tac. Qed.

Lemma ew_handle_disassoc i mgmt len : quiet_entries (handle_disassoc i mgmt len).
Proof. unfold handle_disassoc. ew_tac. Qed.
Lemma ew_handle_deauth i mgmt len : quiet_entries (handle_deauth i mgmt len).
Proof. unfold handle_deauth. ew_tac. Qed.
Lemma ew_aps_do f : quiet_entries (aps_do f).
Proof. unfold aps_do. ew_tac. Qed.
Lemma ew_beacons_if b : quiet_entries (beacons_if b).
Proof. unfold beacons_if, update_beacons. ew_tac. Qed.
#[local] Hint Resolve ew_aps_do ew_beacons_if : entries.
Lemma ew_beacon_entry addr : quiet_entries (beacon_entry addr).
Proof. unfold beacon_entry. ew_tac. Qed.
Lemma ew_detect d : quiet_entries (detect_olbc d) /\ quiet_entries (detect_olbc_ht d).
Proof. unfold detect_olbc, detect_olbc_ht. split; ew_tac. Qed.
Lemma ew_clear v : quiet_entries (clear_olbc v) /\ quiet_entries (clear_olbc_ht v).
Proof. unfold clear_olbc, clear_olbc_ht. split; ew_tac. Qed.
#[local] Hint Resolve ew_beacon_entry : entries.
#[local] Hint Extern 1 => apply ew_detect : entries.
#[local] Hint Extern 1 => apply ew_clear : entries.
Lemma ew_process_beacon addr e fi : quiet_entries (ap_list_process_beacon addr e fi).
Proof. unfold ap_list_process_beacon, beacon_heard. ew_tac. Qed.
Lemma ew_ap_timer : quiet_entries ap_list_timer.
Proof. unfold ap_list_timer, arm_timer. ew_tac. Qed.
#[local] Hint Resolve ew_process_beacon : entries.

Lemma ew_handle_beacon i mgmt len : quiet_entries (handle_beacon i mgmt len).
Proof. unfold handle_beacon. ew_tac. Qed.

Lemma ew_unknown_action i mgmt len category : quiet_entries (unknown_action i mgmt len category).
Proof. unfold unknown_action. ew_tac. Qed.
#[local] Hint Resolve ew_unknown_action : entries.
Lemma ew_handle_action i mgmt len : quiet_entries (handle_action i mgmt len).
Proof. unfold handle_action, action_switch. ew_tac. Qed.
#[local] Hint Resolve ew_handle_auth ew_handle_assoc ew_handle_probe ew_handle_disassoc ew_handle_deauth ew_handle_beacon ew_handle_action : entries.

Lemma ew_mgmt c i mgmt len : quiet_entries (ieee802_11_mgmt c i mgmt len).
Proof. unfold ieee802_11_mgmt. ew_tac. Qed.
#[local] Hint Resolve ew_mgmt : entries.

Lemma ew_mgmt_all c n : forall i d mgmt len r, quiet_entries (mgmt_all c n i d mgmt len r).
Proof. induction n as [|n IH]; intros; simpl; ew_tac. Qed.
#[local] Hint Resolve ew_mgmt_all : entries.

Lemma ew_mgmt_rx c d mgmt len : quiet_entries (hostapd_mgmt_rx c d mgmt len).
Proof. unfold hostapd_mgmt_rx. ew_tac. Qed.
End Frames.
