(* ===== verification/Events.v ===== *)
(** * Any sequence of events

    What the driver and the event loop can ask of hostapd as far as it is modelled:
    frames that were received, frames that were sent, data of stations that are not
    known, answers to polls, and the timers of the stations, of the neighbours and of
    20/40 coexistence.  In every sequence of
    them the handlers return and the books of the interface agree, and only the
    acknowledgement of an association response associates a station. *)

From stdpp Require Import base list numbers gmap strings.
From Stdlib Require Import ZArith Lia.
From S2P Require Import Prelude CString Dense Env World Messages Elements Station Ht Eids Beacon Handler Stamgd Lifecycle Books Probe Auth Assoc ApTable ApList Wmm Mlme Entries.
Local Open Scope Z_scope.

(** ** The state *)

(** The books agree, memory is there, and the capabilities that the flags of an entry
    promise are stored. *)
Definition caps_stored (w : world) : Prop := forall p s, heap w !! p = Some s -> caps_ok s.
Definition armed (w : world) : Prop := ready w /\ caps_stored w.

Definition stays {A} (i : nat) (o o' : option positive) (m : M world A) : Prop := forall w, armed w -> at_table i o w ->
  exists a w', m w = Ok (a, w') /\ armed w' /\ at_table i o' w'.

Lemma caps_stored_by {A} (m : M world A) w a w' : entrywise caps_kept m -> m w = Ok (a, w') -> caps_stored w -> caps_stored w'.
Proof. intros Hm E Hc p s' Hs. apply (proj2 (Hm _ _ _ E) p s' Hs). intros s Hs0. now apply (Hc p). Qed.

Lemma held_caps {A} (m : M world A) : quiet_entries m -> entrywise caps_kept m.
Proof. apply ew_weaken. intros p o s Hh. apply Hh. Qed.

Lemma held_bits {A} (m : M world A) : quiet_entries m -> entrywise bits_held m.
Proof. apply ew_weaken. intros p o s Hh. apply Hh. Qed.

Section Stays.
Context (i : nat).

Lemma stays_runs {A} o o' (m : M world A) : entrywise caps_kept m -> runs i o o' m -> stays i o o' m.
Proof using.
  intros Hm Hr w [R C] T. destruct (Hr w R T) as (a & w' & E & R' & T'). exists a, w'. split; [done|]. split; [|done].
  split; [done|]. now apply (caps_stored_by m w a).
Qed.

Lemma stays_bind {A B} o o1 o2 (m : M world A) (k : A -> M world B) :
  stays i o o1 m -> (forall a, stays i o1 o2 (k a)) -> stays i o o2 (bind m k).
Proof using.
  intros Hm Hk w R T. destruct (Hm w R T) as (a & w1 & E & R1 & T1). rewrite (bind_Ok _ _ _ _ _ E). now apply Hk.
Qed.

Lemma stays_get_sta {A} p o' (k : sta_info -> M world A) :
  (forall s, mac_ok (sta_addr s) -> sta_ok (mlme s) -> caps_ok s -> stays i (Some p) o' (k s)) -> stays i (Some p) o' (bind (get_sta p) k).
Proof using.
  intros Hk w R T. pose proof (mo_iface _ (proj1 (proj1 R))) as I. pose proof T as [Hi (b & Hb & Hp)].
  destruct (bss_live _ _ (proj1 (io_bss _ I i b Hb)) p Hp) as (s & Hs & Hm). rewrite (bind_Ok _ _ _ _ _ (get_sta_run _ _ _ Hs)).
  apply Hk; [done|now apply (mo_sta _ (proj1 (proj1 R)) p)|now apply (proj2 R p)|done|done].
Qed.

Lemma stays_ap_get_sta {A} o' addr (k : option positive -> M world A) : mac_ok addr ->
  (forall r, stays i r o' (k r)) -> stays i None o' (bind (ap_get_sta i addr) k).
Proof using.
  intros Hm Hk w R T. pose proof (mo_iface _ (proj1 (proj1 R))) as I. destruct (proj1 T) as [b Hb].
  destruct (ap_get_sta_spec w i b addr Hb (proj1 (io_bss _ I i b Hb)) Hm) as (r & E & Hr). rewrite (bind_Ok _ _ _ _ _ E).
  apply (Hk r); [done|]. split; [apply T|]. destruct r as [p|]; [|done]. destruct (proj1 (Hr p) eq_refl) as (s & Hp & _). by exists b.
Qed.

Lemma stays_lift {A B} o o' (r : res A) (k : A -> M world B) : (exists a, r = Ok a) -> (forall a, r = Ok a -> stays i o o' (k a)) ->
  stays i o o' (bind (lift r) k).
Proof using. intros (a & ->) Hk w R T. rewrite (bind_Ok _ _ w a w) by done. now apply Hk. Qed.

Lemma stays_weak {A} o o' (m : M world A) : stays i o o' m -> stays i o None m.
Proof using. intros Hm w R T. destruct (Hm w R T) as (a & w' & E & R' & [T' _]). by exists a, w'. Qed.
End Stays.

(** ** What can authorize an entry *)

(** The entry [q] may become authorized; nothing else does, and nothing becomes
    associated. *)
Definition bit_held (n : Z) : entry_rel := fun _ o s' =>
  Z.testbit (sta_flags s') n = true -> exists s, o = Some s /\ Z.testbit (sta_flags s) n = true.
Definition opened (q : positive) : entry_rel := fun p o s' => bit_held 1 p o s' /\ (p = q \/ bit_held 5 p o s').

#[export] Instance bit_held_entry n : Entry (bit_held n).
Proof.
  split.
  - intros p s Hb. eauto.
  - intros p o s s' A B Hb. destruct (B Hb) as (t & [= <-] & Ht). now apply A.
  - intros p o s A Hb. destruct (A Hb) as (t & [=] & _).
Qed.

#[export] Instance opened_entry q : Entry (opened q).
Proof.
  split.
  - intros p s. split; [|right]; apply en_refl.
  - intros p o s s' [A1 A2] [B1 B2]. split; [now apply (en_trans _ _ s)|]. destruct A2 as [A|A], B2 as [B|B]; try (by left). right. now apply (en_trans _ _ s).
  - intros p o s [A1 A2]. split; [now apply en_none|]. destruct A2; [by left|right; now apply en_none].
Qed.

Lemma held_opened q p o s : held p o s -> opened q p o s.
Proof. intros [Hb _]. split; [intros H1; apply (Hb 1); [by left|done]|right; intros H5; apply (Hb 5); [by right|done]]. Qed.

Lemma opened_self q s : opened q q (Some s) (set_flag WLAN_STA_AUTHORIZED s).
Proof.
  split; [|by left]. intros Hb. exists s. split; [done|]. unfold set_flag, WLAN_STA_AUTHORIZED in Hb. cbn [sta_flags set_sta_flags] in Hb.
  rewrite Z.lor_spec in Hb. revert Hb. const_bits. now rewrite orb_false_r.
Qed.

Lemma held_caps_rel p o s : held p o s -> caps_kept p o s.
Proof. intros Hh. apply Hh. Qed.

Lemma caps_set_authorized p s : caps_kept p (Some s) (set_flag WLAN_STA_AUTHORIZED s).
Proof.
  intros Hs. destruct (Hs s eq_refl) as [C1 C2]. unfold caps_ok, set_flag. cbn -[Z.testbit Z.lor Z.ldiff]. rewrite ?Z.lor_spec. const_bits.
  cbn [orb]. now rewrite ?orb_false_r.
Qed.

Section NewAssoc.
Context `{StamgdFormat} (m : Z) (i : nat) (p : positive).

(** [hostapd_new_assoc_sta] and what calls it: only the entry itself is authorized. *)
Lemma ew_authorize R `{Entry R} : (forall s, R p (Some s) (set_flag WLAN_STA_AUTHORIZED s)) -> entrywise R (ap_sta_authorize i p).
Proof using. intros HA. unfold ap_sta_authorize. ew_tac; apply ew_upd_sta; done. Qed.

Lemma ew_new_assoc R `{Entry R} reassoc : (forall q o s, held q o s -> R q o s) -> (forall s, R p (Some s) (set_flag WLAN_STA_AUTHORIZED s)) ->
  entrywise R (hostapd_new_assoc_sta m i p reassoc).
Proof using.
  intros HR HA. pose proof (ew_authorize R HA) as Hau.
  assert (forall addr, entrywise R (hostapd_prune_associations i addr)) as Hpr by (intros addr; apply (ew_weaken held R); [done|apply ew_prune]).
  assert (forall addr r, entrywise R (hostapd_drv_sta_deauth i addr r)) as Hde by (intros addr r; apply (ew_weaken held R); [done|apply ew_drv_deauth]).
  unfold hostapd_new_assoc_sta. ew_tac; auto.
Qed.

Lemma ew_driver R `{Entry R} known : (forall q o s, held q o s -> R q o s) -> (forall s, R p (Some s) (set_flag WLAN_STA_AUTHORIZED s)) ->
  entrywise R (assoc_driver m i p known).
Proof using.
  intros HR HA. pose proof (ew_new_assoc R known HR HA) as Hn.
  assert (forall a r, entrywise R (ap_sta_disconnect i (Some p) (Some a) r)) as Hd by (intros; apply (ew_weaken held R); [done|apply ew_disconnect]).
  assert (entrywise R (ap_sta_bind_vlan i p)) as Hv by (apply (ew_weaken held R); [done|unfold ap_sta_bind_vlan; ew_tac]).
  unfold assoc_driver, hostapd_sta_add, wds_sta_on, hostapd_set_wds_encryption, hostapd_set_sta_flags. ew_tac; auto.
Qed.

(** Where there is a separate step of authorization, nothing is authorized here. *)
Lemma closed_new_assoc w b reassoc w' : bss (ifc w) !! i = Some b -> open_network (bconf b) = false ->
  hostapd_new_assoc_sta m i p reassoc w = Ok (tt, w') -> forall q s', heap w' !! q = Some s' -> held q (heap w !! q) s'.
Proof using.
  intros Hb Ho E. unfold hostapd_new_assoc_sta in E. rewrite (bind_Ok _ _ _ _ _ (get_bss_run _ _ _ Hb)), Ho in E.
  match type of E with ?k w = _ => assert (quiet_entries k) as Hq by (pose proof (ew_prune i); ew_tac; auto) end. exact (proj2 (Hq _ _ _ E)).
Qed.
End NewAssoc.

(** ** The acknowledged association response *)

Section Acked.
Context `{StamgdFormat} (i : nat) (p : positive).

Lemma ew_wds R `{Entry R} b addr : entrywise R (wds_sta_on b addr).
Proof. unfold wds_sta_on, hostapd_set_wds_encryption, hostapd. ew_tac. Qed.

(** All that is done to the entry; the rest are reports. *)
Lemma ew_acked R `{Entry R} reassoc : (forall s, R p (Some s) (set_flag WLAN_STA_ASSOC s)) ->
  (forall s, R p (Some s) (clear_flag WLAN_STA_WNM_SLEEP_MODE s)) -> (forall s, R p (Some s) (set_flag WLAN_STA_AUTHORIZED s)) ->
  entrywise R (assoc_indication i p) -> entrywise R (assoc_acked i p reassoc).
Proof using.
  intros H1 H2 H3 Hk. unfold assoc_acked, assoc_mark, ap_sta_authorize, mlme_reassociate_indication, mlme_associate_indication, hostapd. ew_tac.
  all: first [apply ew_upd_sta; [apply _|done]|done].
Qed.

Lemma ew_acked_caps reassoc : entrywise caps_kept (assoc_acked i p reassoc).
Proof.
  apply ew_acked; [apply _|..|apply ew_assoc_ind, _]; intros s; intros Hs; destruct (Hs s eq_refl) as [C1 C2];
    unfold caps_ok, set_flag, clear_flag; cbn -[Z.testbit Z.lor Z.ldiff]; rewrite ?Z.lor_spec, ?Z.ldiff_spec; const_bits;
    cbn [orb andb negb]; now rewrite ?orb_false_r, ?andb_true_r.
Qed.

Lemma ew_acked_but reassoc : entrywise (held_but p) (assoc_acked i p reassoc).
Proof.
  apply ew_acked; [apply _|by left..|apply ew_assoc_ind, _].
Qed.

Lemma capab_for_ok on caps negotiate (n : Z) : (on = true -> caps <> None) -> (forall c, caps = Some c -> zlen c = n /\ Forall u8 c) ->
  (forall c, zlen c = n -> Forall u8 c -> exists m, negotiate c = Ok m) -> exists r, capab_for on caps negotiate = Ok r.
Proof using.
  intros Hon Hc Hn. unfold capab_for. destruct on; [|eauto]. destruct caps as [c|]; [|by destruct (Hon eq_refl)].
  destruct (Hc c eq_refl) as [Hl Hu]. destruct (Hn c Hl Hu) as [m ->]. cbn [res_bind]. eauto.
Qed.

Lemma runs_get_plain o : runs i o o get.
Proof using. intros w R T. by exists w, w. Qed.

Lemma runs_get_bss_plain o : runs i o o (get_bss i).
Proof using. intros w R T. destruct (proj1 T) as [b Hb]. exists b, w. split; [now apply get_bss_run|done]. Qed.

Lemma stays_driver m known : stays i (Some p) (Some p) (assoc_driver m i p known).
Proof.
  unfold assoc_driver. apply stays_get_sta. intros s Hm Hs [C1 C2].
  eapply stays_bind; [apply stays_runs; [apply (ew_get_bss _)|apply runs_get_bss_plain]|]. intros b.
  eapply stays_bind; [apply stays_runs; [apply (ew_get _)|apply runs_get_plain]|]. intros w.
  apply stays_lift.
  { apply (capab_for_ok _ _ _ sizeof_ht_capabilities).
    - unfold WLAN_STA_HT. rewrite has_bit by lia. exact C1.
    - apply (so_ht _ Hs).
    - intros c Hl Hu. destruct (ht_negotiated (ht_capab (iconf (ifc w))) c) as (x & E & _); [unfold sizeof_ht_capabilities in Hl; lia|done|eauto]. }
  intros ht_cap _. apply stays_lift.
  { apply (capab_for_ok _ _ _ sizeof_vht_capabilities).
    - unfold WLAN_STA_VHT. rewrite has_bit by lia. exact C2.
    - apply (so_vht _ Hs).
    - intros c Hl Hu. eexists. apply vht_negotiated. unfold sizeof_vht_capabilities in Hl. lia. }
  intros vht_cap _. apply stays_runs.
  - pose proof (ew_new_assoc m i p caps_kept known held_caps_rel (caps_set_authorized p)) as Hn.
    assert (forall a r, entrywise caps_kept (ap_sta_disconnect i (Some p) (Some a) r)) as Hd by (intros; apply held_caps, ew_disconnect).
    assert (entrywise caps_kept (ap_sta_bind_vlan i p)) as Hv by (apply held_caps; unfold ap_sta_bind_vlan; ew_tac).
    unfold hostapd_sta_add, wds_sta_on, hostapd_set_wds_encryption, hostapd_set_sta_flags. ew_tac; auto.
  - eapply runs_bind; [apply runs_sta_add|]. intros r. destruct (bool_decide _); [apply runs_gentle, disconnect_gentle|].
    runs_step; [destruct (has _ _); [apply runs_wds|auto with lazyas]|]. runs_step; [apply runs_bind_vlan|]. destruct (bool_decide _); [auto with lazyas|].
    runs_step; [apply runs_set_sta_flags|]. unfold hostapd. runs_step; [auto with lazyas|].
    eapply runs_bind; [apply runs_new_assoc|]. intros. auto with lazyas.
Qed.
End Acked.

Section Handlers.
Context `{StamgdFormat} (i : nat).

Lemma stays_ret_weak {A} o (a : A) : stays i o None (ret a).
Proof using. intros w R [T _]. by exists a, w. Qed.

Lemma stays_assoc_cb m mgmt len reassoc ok : frame_ok mgmt len -> stays i None None (handle_assoc_cb m i mgmt len reassoc ok).
Proof.
  intros Hf. unfold handle_assoc_cb, IEEE80211_HDRLEN. case_bool_decide as El; [apply stays_ret_weak|]. pose proof (proj2 (fo_len _ _ Hf)).
  destruct (header_ok mgmt len Hf) as (_ & _ & (addr & Ea & Hm) & _); [lia|]. apply stays_lift; [eauto|]. intros ad Ead.
  assert (ad = addr) as -> by congruence. apply stays_ap_get_sta; [done|]. intros [p|]; [|apply stays_ret_weak].
  apply (stays_weak i _ (Some p)). destruct (negb ok).
  { apply stays_runs; [apply held_caps; ew_tac|auto with lazyas]. }
  apply stays_lift; [destruct (rd_le_in mgmt 26 2) as (x & E & _); [lia..|]; eauto|]. intros status _.
  destruct (bool_decide _); [apply stays_runs; [apply (ew_ret _)|auto with lazyas]|]. apply stays_get_sta. intros s _ _ _.
  eapply stays_bind; [apply stays_runs; [apply ew_acked_caps|apply runs_assoc_acked]|]. intros _. apply stays_driver.
Qed.

Lemma ew_handle_auth_cb mgmt len ok : quiet_entries (handle_auth_cb i mgmt len ok).
Proof. unfold handle_auth_cb. ew_tac. Qed.

Lemma ew_leave_cb cb mgmt : (forall p, quiet_entries (cb i p)) -> quiet_entries (leave_cb cb i mgmt).
Proof. intros Hcb. unfold leave_cb. ew_tac. Qed.

Lemma stays_mgmt_cb m mgmt len stype ok : frame_ok mgmt len -> 24 <= len -> stays i None None (ieee802_11_mgmt_cb m i mgmt len stype ok).
Proof.
  intros Hf H24. unfold ieee802_11_mgmt_cb.
  destruct (bool_decide _); [apply stays_runs; [apply held_caps, ew_handle_auth_cb|now apply runs_handle_auth_cb]|].
  do 2 (destruct (bool_decide _); [now apply stays_assoc_cb|]).
  destruct (bool_decide _); [apply stays_runs; [apply held_caps, ew_leave_cb, ew_deauth_cb|apply (runs_leave_cb _ _ _ len); [apply deauth_cb_gentle|done..]]|].
  destruct (bool_decide _); [apply stays_runs; [apply held_caps, ew_leave_cb, ew_disassoc_cb|apply (runs_leave_cb _ _ _ len); [apply disassoc_cb_gentle|done..]]|].
  apply stays_ret_weak.
Qed.

(** ** The timers *)

Lemma runs_timer m skip p : runs i (Some p) None (ap_handle_timer m skip i p).
Proof.
  assert (forall (k : M world unit), gentle i p k -> runs i (Some p) None k) as Hg by (intros k Hk; apply (runs_weak i _ (Some p)); now apply runs_gentle).
  unfold ap_handle_timer. runs_step. destruct (bool_decide _); [apply runs_free|].
  eapply runs_bind; [apply runs_gentle, check_activity_gentle|]. intros c. eapply runs_bind; [apply runs_gentle, check_poll_gentle|]. intros n.
  destruct (bool_decide _); [apply Hg; auto with lazyas|]. eapply runs_bind; [apply runs_gentle, timer_frame_gentle|]. intros _.
  unfold timer_switch. runs_step. cbv zeta. destruct (bool_decide _); [apply Hg; gentle_tac|].
  destruct (bool_decide _); [apply Hg; unfold hostapd; gentle_tac|]. destruct (bool_decide _); [|apply Hg; auto with lazyas].
  eapply runs_bind; [apply runs_deauth_ind|]. intros _. apply runs_free.
Qed.

Lemma runs_session p : runs i (Some p) None (ap_handle_session_timer i p).
Proof.
  unfold ap_handle_session_timer. runs_step. destruct (negb _).
  - destruct (has _ _); [apply runs_free|apply (runs_weak i _ (Some p)), runs_ret].
  - eapply runs_bind; [apply runs_gentle; unfold hostapd_drv_sta_deauth; gentle_tac|]. intros _.
    eapply runs_bind; [apply runs_deauth_ind|]. intros _. apply runs_free.
Qed.

Lemma runs_cb_timeout (deauth : bool) p : runs i (Some p) None (if deauth then ap_sta_deauth_cb_timeout i p else ap_sta_disassoc_cb_timeout i p).
Proof.
  apply (runs_weak i _ (Some p)), runs_gentle. unfold ap_sta_deauth_cb_timeout, ap_sta_disassoc_cb_timeout, ap_sta_remove, hostapd. gentle_tac.
Qed.

Lemma ew_cb_timeout (deauth : bool) p : quiet_entries (if deauth then ap_sta_deauth_cb_timeout i p else ap_sta_disassoc_cb_timeout i p).
Proof. unfold ap_sta_deauth_cb_timeout, ap_sta_disassoc_cb_timeout, ap_sta_remove. ew_tac. Qed.

(** ** Data of a station *)

Lemma stays_new_sta m addr : mac_ok addr -> stays i None None (hostapd_event_new_sta m i addr).
Proof.
  intros Hm. apply stays_runs.
  - assert (forall p, entrywise caps_kept (hostapd_new_assoc_sta m i p false)) as Hn by (intros p; apply ew_new_assoc; [apply _|apply held_caps_rel|apply caps_set_authorized]).
    pose proof (fun a => held_caps _ (ew_ap_get_sta i a)) as Hg. pose proof (fun a => held_caps _ (ew_add m i a)) as Ha.
    unfold hostapd_event_new_sta. ew_tac; auto.
  - unfold hostapd_event_new_sta, hostapd. apply runs_ap_get_sta; [done|]. intros [p|]; [apply (runs_weak i _ (Some p)), runs_ret|].
    apply runs_add; [done|]. intros [p|]; [|auto with lazyas]. apply (runs_weak i _ (Some p)).
    eapply runs_bind; [apply runs_new_assoc|]. auto with lazyas.
Qed.

Lemma stays_set_port addr authorized : mac_ok addr -> stays i None None (hostapd_wpa_auth_set_eapol i addr authorized).
Proof.
  intros Hm. apply stays_runs; [|now apply runs_set_port].
  pose proof (fun a => held_caps _ (ew_ap_get_sta i a)) as Hg. pose proof (fun p => held_caps _ (ew_unauthorize i p)) as Hu.
  assert (forall p, entrywise caps_kept (ap_sta_authorize i p)) as Ha by (intros p; apply ew_authorize; [apply _|apply caps_set_authorized]).
  unfold hostapd_wpa_auth_set_eapol, ieee802_1x_set_sta_authorized, hostapd_set_authorized. ew_tac; auto.
Qed.

Lemma runs_from_unknown addr wds : mac_ok addr -> runs i None None (ieee802_11_rx_from_unknown i addr wds).
Proof.
  intros Hm. unfold ieee802_11_rx_from_unknown.
  assert (forall o flags, runs i o o (class3_frame i addr flags)) as Hc.
  { intros o flags. unfold class3_frame, hostapd_drv_sta_disassoc, hostapd_drv_sta_deauth. cbv zeta.
    apply (runs_lift _ _ _ _ (fun _ => True)); [destruct (rd_in addr 0) as (x & E & _); [unfold mac_ok, zlen in *; lia|]; eauto|]. intros s0 _. runs_tac. }
  apply runs_ap_get_sta; [done|]. intros [p|]; [|apply Hc]. apply (runs_weak i _ (Some p)). runs_tac; first [apply Hc|apply runs_wds].
Qed.

Lemma ew_from_unknown addr wds : quiet_entries (ieee802_11_rx_from_unknown i addr wds).
Proof. unfold ieee802_11_rx_from_unknown, class3_frame, wds_sta_on, hostapd_set_wds_encryption. ew_tac. Qed.

(** ** The search *)

Lemma find_all_run n : forall w j last addr, armed w -> (j + n = num_bss w)%nat -> mac_ok addr -> exists r, find_all n j last addr w = Ok (r, w) /\
  forall p, snd r = Some p -> in_table w (fst r) p.
Proof using.
  induction n as [|n IH]; intros w j last addr R Hn Hm; cbn [find_all].
  - by eexists (_, None).
  - destruct (lookup_lt_is_Some_2 (bss (ifc w)) j) as [b Hb]; [unfold num_bss in Hn; lia|].
    destruct (io_bss _ (mo_iface _ (proj1 (proj1 R))) j b Hb) as [Hok _]. destruct (ap_get_sta_spec w j b addr Hb Hok Hm) as (r & E & Hr).
    rewrite (bind_Ok _ _ _ _ _ E). destruct r as [p|]; [|apply IH; [done|lia|done]].
    eexists (j, Some p). split; [done|]. intros q [= <-]. destruct (proj1 (Hr p) eq_refl) as (s & Hp & _). by exists b.
Qed.

Lemma find_sta_run w addr : armed w -> is_Some (bss (ifc w) !! i) -> mac_ok addr -> exists r, find_sta i addr w = Ok (r, w) /\
  forall p, snd r = Some p -> in_table w (fst r) p.
Proof using.
  intros R [b Hb] Hm. unfold find_sta. destruct (io_bss _ (mo_iface _ (proj1 (proj1 R))) i b Hb) as [Hok _].
  destruct (ap_get_sta_spec w i b addr Hb Hok Hm) as (r & E & Hr). rewrite (bind_Ok _ _ _ _ _ E), (bind_Ok _ _ w w w) by done.
  destruct r as [p|].
  - exists (i, Some p). split; [done|]. intros q [= <-]. destruct (proj1 (Hr p) eq_refl) as (s & Hp & _). by exists b.
  - destruct (bool_decide _); [|by exists (i, None)]. now apply find_all_run.
Qed.

Lemma ew_find_all n : forall j last addr, quiet_entries (find_all n j last addr).
Proof. induction n as [|n IH]; intros; simpl; ew_tac. Qed.
#[local] Hint Resolve ew_find_all : entries.

Lemma ew_find_sta addr : quiet_entries (find_sta i addr).
Proof. unfold find_sta. ew_tac. Qed.
End Handlers.

(** ** The events *)

Inductive event : Type :=
| RxFrame (c : frame_conf) (drv_priv : option nat) (frame : list Z) (len : Z)
| TxFrame (max_inactivity : Z) (frame : list Z) (len stype : Z) (ok : bool)
| RxData (max_inactivity : Z) (i : nat) (addr : list Z)
| RxUnknown (bssid addr : list Z) (wds : bool)
| TxData (i : nat) (addr : list Z) (ack : bool)
| TxEapol (i : nat) (addr : list Z)
| PollOk (i : nat) (addr : list Z)
| SetPort (i : nat) (addr : list Z) (authorized : bool)
| Timer (max_inactivity : Z) (skip_poll : bool) (i : nat) (p : positive)
| SessionTimer (i : nat) (p : positive)
| CbTimeout (deauth : bool) (i : nat) (p : positive)
| ApTimer
| CoexTimer.

Section Events.
Context `{StamgdFormat}.

Definition handle (e : event) : M world unit :=
  match e with
  | RxFrame c d frame len => hostapd_mgmt_rx c d frame len ;;; ret tt
  | TxFrame m frame len stype ok => hostapd_mgmt_tx_cb m frame len stype ok
  | RxData m i addr => hostapd_event_new_sta m i addr ;;; ret tt
  | RxUnknown bssid addr wds => hostapd_rx_from_unknown_sta bssid addr wds
  | TxData i addr ack => hostapd_tx_status i addr ack
  | TxEapol i addr => hostapd_eapol_tx_status i addr
  | PollOk i addr => hostapd_client_poll_ok i addr
  | SetPort i addr authorized => hostapd_wpa_auth_set_eapol i addr authorized
  | Timer m b i p => ap_handle_timer m b i p
  | SessionTimer i p => ap_handle_session_timer i p
  | CbTimeout deauth i p => if deauth then ap_sta_deauth_cb_timeout i p else ap_sta_disassoc_cb_timeout i p
  | ApTimer => ap_list_timer
  | CoexTimer => ap_ht2040_timeout
  end.

(** The frames are bytes in a buffer, the addresses have 6 bytes, and the indices and
    pointers are valid; nothing is asked of the contents of a frame that was received. *)
Definition event_ok (w : world) (e : event) : Prop :=
  match e with
  | RxFrame _ _ frame len => frame_ok frame len /\ (0 < num_bss w)%nat
  | TxFrame _ frame len _ _ => frame_ok frame len /\ 24 <= len
  | RxData _ i addr | TxData i addr _ | TxEapol i addr | PollOk i addr | SetPort i addr _ => is_Some (bss (ifc w) !! i) /\ mac_ok addr
  | RxUnknown _ addr _ => mac_ok addr
  | Timer _ _ i p | SessionTimer i p | CbTimeout _ i p => in_table w i p
  | ApTimer | CoexTimer => True
  end.

Inductive event_step : world -> world -> Prop :=
| Event w e w' : event_ok w e -> handle e w = Ok (tt, w') -> event_step w w'.

(** A computation that returns in an armed state. *)
Definition returns {A} (w : world) (m : M world A) : Prop := exists a w', m w = Ok (a, w') /\ armed w'.

Lemma stays_returns {A} i o o' (m : M world A) w : armed w -> at_table i o w -> stays i o o' m -> returns w m.
Proof using. intros R T Hm. destruct (Hm w R T) as (a & w' & E & R' & _). by exists a, w'. Qed.

Lemma returns_bind {A B} (m : M world A) (k : A -> M world B) w : returns w m ->
  (forall a w', m w = Ok (a, w') -> armed w' -> returns w' (k a)) -> returns w (bind m k).
Proof using. intros (a & w' & E & R) Hk. unfold returns. rewrite (bind_Ok _ _ _ _ _ E). now apply (Hk a). Qed.

Lemma returns_ret {A} (a : A) w : armed w -> returns w (ret a).
Proof using. intros R. by exists a, w. Qed.

Lemma returns_quiet {A} i o o' (m : M world A) w : armed w -> at_table i o w -> quiet_entries m -> runs i o o' m -> returns w m.
Proof using. intros R T Hq Hr. apply (stays_returns i o o'); [done..|]. apply stays_runs; [now apply held_caps|done]. Qed.

Lemma found_returns (k : nat * option positive -> M world unit) i addr w : armed w -> is_Some (bss (ifc w) !! i) -> mac_ok addr ->
  (forall j, k (j, None) = ret tt) -> (forall j p, quiet_entries (k (j, Some p)) /\ runs j (Some p) (Some p) (k (j, Some p))) ->
  returns w (bind (find_sta i addr) k).
Proof using.
  intros R Hi Hm H0 Hk. destruct (find_sta_run i w addr R Hi Hm) as ([j r] & E & Hp). unfold returns. rewrite (bind_Ok _ _ _ _ _ E).
  destruct r as [p|]; [|rewrite H0; by eexists _, _]. apply (returns_quiet j (Some p) (Some p)); [done| |apply Hk..].
  split; [|now apply (Hp p)]. destruct (Hp p eq_refl) as (b & Hb & _). eauto.
Qed.

(** The same where the behaviour is undefined only if [F]. *)
Definition returns_or (F : Prop) {A} (w : world) (m : M world A) : Prop := returns w m \/ (F /\ exists u, m w = Ub u).

Lemma returns_or_bind F {A B} (m : M world A) (k : A -> M world B) w : returns_or F w m ->
  (forall a w', m w = Ok (a, w') -> armed w' -> returns_or F w' (k a)) -> returns_or F w (bind m k).
Proof using.
  intros [(a & w' & E & R)|[HF [u E]]] Hk.
  - unfold returns_or, returns. rewrite (bind_Ok _ _ _ _ _ E). now apply (Hk a).
  - right. split; [done|]. exists u. unfold bind. now rewrite E.
Qed.

Lemma mgmt_or c j mgmt len w : frame_ok mgmt len -> armed w -> is_Some (bss (ifc w) !! j) -> returns_or (frame_flaw mgmt len) w (ieee802_11_mgmt c j mgmt len).
Proof.
  intros Hf [R C] Hj. destruct (runs_mgmt j c mgmt len Hf w R (conj Hj I)) as [(a & w' & E & R' & _)|Hu]; [left|by right].
  exists a, w'. split; [done|]. split; [done|]. exact (caps_stored_by _ _ _ _ (held_caps _ (ew_mgmt c j mgmt len)) E C).
Qed.

Lemma mgmt_all_returns c d mgmt len : frame_ok mgmt len -> forall n j r w, armed w -> (j + n = num_bss w)%nat ->
  returns_or (frame_flaw mgmt len) w (mgmt_all c n j d mgmt len r).
Proof.
  intros Hs. induction n as [|n IH]; intros j r w R Hn; cbn [mgmt_all]; [left; now apply returns_ret|].
  assert (returns_or (frame_flaw mgmt len) w (r0 <-- ieee802_11_mgmt c j mgmt len;; mgmt_all c n (S j) d mgmt len (if bool_decide (r0 > 0) then 1 else r))) as Hgo.
  { assert (is_Some (bss (ifc w) !! j)) as Hj by (apply lookup_lt_is_Some_2; unfold num_bss in Hn; lia).
    apply returns_or_bind; [now apply mgmt_or|].
    intros a w' E R'. apply IH; [done|]. rewrite (confs_num w w'); [lia|]. apply (ew_mgmt c j mgmt len w a w' E). }
  destruct d as [k|]; [|exact Hgo]. destruct (negb _); [|exact Hgo]. apply IH; [done|lia].
Qed.

Lemma hdr_bssid_or hdr len : frame_ok hdr len ->
  (exists r, get_hdr_bssid hdr len = Ok r /\ forall a, r = Some a -> 16 <= len) \/
  (frame_flaw hdr len /\ exists u, get_hdr_bssid hdr len = Ub u).
Proof using.
  intros [Hl Hu]. unfold get_hdr_bssid. case_bool_decide as H16; [left; by exists None|].
  destruct (rd_le_in hdr 0 2) as (fc & Efc & _); [lia..|]. unfold frame_control. rewrite Efc. cbn [res_bind].
  destruct (slice_in hdr 4 6) as (a4 & E4 & _); [lia..|]. destruct (slice_in hdr 10 6) as (a10 & E10 & _); [lia..|].
  repeat (case_bool_decide || (match goal with |- context [if has ?a ?b then _ else _] => destruct (has a b) end));
    rewrite ?E4, ?E10; cbn [res_bind]; try (left; eexists; split; [done|]; intros; lia).
  destruct (decide (22 <= zlen hdr)) as [H22|H22].
  - left. destruct (slice_in hdr 16 6) as (a16 & -> & _); [lia..|]. cbn [res_bind]. eexists. split; [done|]. intros; lia.
  - right. split; [apply (FlawHeader _ _ fc); [exact Efc|done|lia|lia]|]. exists OutOfBounds. unfold slice. rewrite bool_decide_eq_false_2; [done|]. lia.
Qed.

Lemma bssid_found bs bssid j : get_hapd_bssid bs bssid = Some (HAPD j) -> is_Some (bs !! j).
Proof using.
  unfold get_hapd_bssid. destruct bssid as [a|]; [|done]. case_bool_decide; [done|]. destruct (bss_of_addr bs a 0) as [k|] eqn:E; [|done]. intros [= <-].
  destruct (bss_of_addr_lookup _ _ _ _ E) as (b & Hb & _). rewrite Nat.sub_0_r in Hb. eauto.
Qed.

Lemma returns_ext_ c w : armed w -> returns w (ext_ c).
Proof using.
  intros [R C]. exists tt, (with_log [c] w). split; [done|]. split; [|exact C]. apply (ready_quiet w); [apply (quiet_log [c])|done].
Qed.

Lemma returns_lift {A B} (r : res A) (k : A -> M world B) a w : r = Ok a -> returns w (k a) -> returns w (bind (lift r) k).
Proof using. intros -> Hk. unfold returns. now rewrite (bind_Ok _ _ w a w). Qed.

Lemma rx_returns c d mgmt len w : armed w -> event_ok w (RxFrame c d mgmt len) ->
  returns_or (frame_flaw mgmt len) w (hostapd_mgmt_rx c d mgmt len).
Proof.
  intros R (Hf & Hn). unfold hostapd_mgmt_rx. destruct (hdr_bssid_or mgmt len Hf) as [(r & E & Hr)|[HF [u E]]].
  2: { right. split; [done|]. exists u. unfold bind, lift. now rewrite E. }
  apply returns_or_bind; [left; exists r, w; unfold lift; now rewrite E|]. intros r' w' E' _. unfold lift in E'. rewrite E in E'. injection E' as <- <-.
  destruct r as [a|]; [|left; now apply returns_ret]. specialize (Hr a eq_refl). apply returns_or_bind; [left; by exists w, w|]. intros ? ? [= <- <-] _.
  unfold frame_control. destruct (rd_le_in mgmt 0 2) as (fc & Efc & _); [pose proof (proj2 (fo_len _ _ Hf)); lia..|].
  apply returns_or_bind; [left; exists fc, w; unfold lift; now rewrite Efc|]. intros fc' w' E' _. unfold lift in E'. rewrite Efc in E'. injection E' as <- <-.
  cbv zeta.
  assert (forall m : M world Z, returns_or (frame_flaw mgmt len) w m -> returns_or (frame_flaw mgmt len) w (r <-- m ;; hostapd "random_add_randomness" [] ;;; ret r)) as Hend.
  { intros m Hm. apply returns_or_bind; [done|]. intros x w' _ R'. left. apply returns_bind; [now apply returns_ext_|]. intros. now apply returns_ret. }
  destruct (get_hapd_bssid (bss (ifc w)) (Some a)) as [[|i]|] eqn:Eb.
  - apply Hend. now apply mgmt_all_returns.
  - apply Hend, mgmt_or; [done..|]. now apply (bssid_found _ _ _ Eb).
  - destruct (_ && _); [|left; now apply returns_ret]. apply Hend, mgmt_or; [done..|]. now apply lookup_lt_is_Some_2.
Qed.

Lemma tx_returns m mgmt len stype ok w : armed w -> event_ok w (TxFrame m mgmt len stype ok) -> returns w (hostapd_mgmt_tx_cb m mgmt len stype ok).
Proof.
  intros R (Hf & H24). unfold hostapd_mgmt_tx_cb. pose proof (proj2 (fo_len _ _ Hf)).
  assert (exists r, get_hdr_bssid mgmt len = Ok r) as [r E].
  { unfold get_hdr_bssid, frame_control. destruct (rd_le_in mgmt 0 2) as (fc & -> & _); [lia..|]. cbn [res_bind].
    destruct (slice_in mgmt 4 6) as (a4 & -> & _); [lia..|]. destruct (slice_in mgmt 10 6) as (a10 & -> & _); [lia..|]. destruct (slice_in mgmt 16 6) as (a16 & -> & _); [lia..|].
    cbn [res_bind]. repeat (match goal with |- context [if ?c then _ else _] => destruct c end; eauto). }
  apply (returns_lift _ _ r); [done|]. apply returns_bind; [by exists w, w|]. intros ? ? [= <- <-] _.
  destruct (get_hapd_bssid (bss (ifc w)) r) as [[|i]|] eqn:Eb; [now apply returns_ret| |now apply returns_ret].
  apply (stays_returns i None None); [done| |now apply stays_mgmt_cb]. split; [now apply (bssid_found _ _ _ Eb)|done].
Qed.

(** What keeps the books without a station. *)
Lemma returns_kept {A} (m : M world A) w : armed w -> quiet_entries m ->
  (mlme_ok w -> exists a w', m w = Ok (a, w') /\ mlme_ok w' /\ onum (wenv w') = onum (wenv w)) -> returns w m.
Proof using.
  intros [[M Hm] C] Hq Hk. destruct (Hk M) as (a & w' & E & M' & Eo). exists a, w'. split; [done|]. split; [split; [done|now rewrite Eo]|].
  now apply (caps_stored_by m w a); [apply held_caps|..].
Qed.

(** An event is handled. *)
Definition event_flaw (e : event) : Prop := exists c d frame len, e = RxFrame c d frame len /\ frame_flaw frame len.

Lemma event_returns w e : armed w -> event_ok w e -> returns_or (event_flaw e) w (handle e).
Proof.
  intros R He. assert (forall A (m : M world A), returns w m -> returns w (m ;;; ret tt)) as Hret.
  { intros A m Hm. apply returns_bind; [done|]. intros. now apply returns_ret. }
  assert (forall i p, in_table w i p -> at_table i (Some p) w) as Ht by (intros i p (b & Hb & Hp); split; [eauto|by exists b]).
  destruct e; cbn [handle].
  { destruct (rx_returns _ _ _ _ _ R He) as [Hr|[HF [u E]]]; [left; now apply Hret|right]. split; [by eexists _, _, _, _|].
    exists u. unfold bind. now rewrite E. }
  all: left.
  - now apply tx_returns.
  - destruct He. apply Hret, (stays_returns i None None); [done..|now apply stays_new_sta].
  - unfold hostapd_rx_from_unknown_sta. apply returns_bind; [by exists w, w|]. intros ? ? [= <- <-] _.
    destruct (get_hapd_bssid (bss (ifc w)) (Some bssid)) as [[|i]|] eqn:Eb; [now apply returns_ret| |now apply returns_ret].
    apply (returns_quiet i None None); [done| |apply ew_from_unknown|now apply runs_from_unknown]. split; [now apply (bssid_found _ _ _ Eb)|done].
  - destruct He. unfold hostapd_tx_status. apply found_returns; [done..|]. intros j p. cbn [snd]. split; [ew_tac|]. unfold hostapd. runs_tac.
  - destruct He. unfold hostapd_eapol_tx_status. apply found_returns; [done..|]. intros j p. cbn [snd]. split; [ew_tac|]. unfold hostapd. runs_tac.
  - destruct He. unfold hostapd_client_poll_ok. apply found_returns; [done..|]. intros j p. cbn [snd]. split; [ew_tac|]. runs_tac.
  - destruct He. apply (stays_returns i None None); [done..|now apply stays_set_port].
  - apply (returns_quiet i (Some p) None); [done|now apply Ht|apply ew_timer|apply runs_timer].
  - apply (returns_quiet i (Some p) None); [done|now apply Ht|apply ew_session|apply runs_session].
  - apply (returns_quiet i (Some p) None); [done|now apply Ht|apply ew_cb_timeout|apply runs_cb_timeout].
  - apply returns_kept; [done|apply ew_ap_timer|]. intros M. destruct (timer_keeps w M) as (w' & E & A & M'). exists tt, w'. split; [done|]. split; [done|].
    apply (aside_same _ _ A).
  - apply returns_kept; [done|unfold ap_ht2040_timeout, set_beacons, hostapd; ew_tac|]. intros M. eexists tt, _. split; [reflexivity|].
    split; [|reflexivity]. apply (mlme_ok_quiet (upd_ifc (fun i => upd_ht (set_secondary_channel (secondary_ch (ht i))) i) w)); [apply (quiet_log [_])|now apply mlme_ok_ifc].
Qed.

Lemma steps_armed w w' : rtc event_step w w' -> armed w -> armed w'.
Proof.
  induction 1 as [|w1 w2 w3 [w e w2' He E] _ IH]; [done|]. intros R. apply IH. destruct (event_returns w e R He) as [([] & w4 & E4 & R4)|[_ [u E4]]]; congruence.
Qed.
End Events.

(** ** Statements *)

Section Statements.
Context `{StamgdFormat}.

(** C4: in every sequence of events, starting from a state in which the books agree,
    every event that can come next - any bytes that the driver hands over as a
    received frame, a report about a frame that was sent, data of a station that is
    not known, a port that is opened or closed, a timer - is handled: the handlers
    return (they never read or write outside a buffer, follow a dead pointer or leave
    the list of an interface), and the books agree again: the lists, the hash tables
    and the AIDs of every BSS describe the same stations, an AID belongs to one
    station, the counters of the interface count the flags of the entries, and the
    capabilities that are promised are stored; the list and the chains of the table of
    neighbours hold the same entries, within the bound.  The only events of which
    this is not so are received frames with one of the four flaws of [frame_flaw]: the
    handler then has no defined behaviour, and the witness shows such a frame for each
    of them. *)
Theorem events_safe (w0 w : world) (R0 : armed w0) (Hs : rtc event_step w0 w) :
  armed w /\ forall e, event_ok w e ->
    (exists w', handle e w = Ok (tt, w') /\ armed w' /\ event_step w w') \/
    (exists c d frame len u, e = RxFrame c d frame len /\ frame_flaw frame len /\ handle e w = Ub u).
Proof.
  pose proof (steps_armed _ _ Hs R0) as R. split; [done|]. intros e He.
  destruct (event_returns w e R He) as [([] & w' & E & R')|[(c & d & frame & len & Ee & HF) [u E]]].
  - left. exists w'. split; [done|]. split; [done|]. now apply (Event w e).
  - right. by exists c, d, frame, len, u.
Qed.

(** What a step that returned has done. *)
Lemma get_sta_inv p w s w' : get_sta p w = Ok (s, w') -> w' = w /\ heap w !! p = Some s.
Proof using.
  unfold get_sta, bind, get. destruct (heap w !! p) as [t|] eqn:E; [|discriminate]. intros Hr. by injection Hr as <- <-.
Qed.

Lemma get_bss_inv i w b w' : get_bss i w = Ok (b, w') -> w' = w.
Proof using. unfold get_bss, bind, get. destruct (bss (ifc w) !! i); [|discriminate]. intros Hr. by injection Hr as _ <-. Qed.

Lemma lift_inv {A} (r : res A) (w : world) a w' : lift r w = Ok (a, w') -> r = Ok a /\ w' = w.
Proof using. unfold lift. destruct r; [|discriminate]. intros Hr. by injection Hr as <- <-. Qed.

(** The station that is found has the address. *)
Lemma find_chain_inv c addr w r w' : find_chain c addr w = Ok (r, w') ->
  w' = w /\ forall p, r = Some p -> exists s, heap w !! p = Some s /\ sta_addr s = addr.
Proof using.
  induction c as [|q c IH]; cbn [find_chain].
  - intros Hr. injection Hr as <- <-. done.
  - intros (s & w1 & E1 & E2)%bind_inv. apply get_sta_inv in E1 as [-> Hs]. case_bool_decide as Ha; [|now apply IH].
    injection E2 as <- <-. split; [done|]. intros p [= <-]. eauto.
Qed.

Lemma ap_get_sta_inv i addr w r w' : ap_get_sta i addr w = Ok (r, w') ->
  w' = w /\ forall p, r = Some p -> exists s, heap w !! p = Some s /\ sta_addr s = addr.
Proof using.
  unfold ap_get_sta. intros (b & w1 & E1 & E)%bind_inv. apply get_bss_inv in E1 as ->. apply bind_inv in E as (k & w1 & E1 & E).
  apply lift_inv in E1 as [_ ->]. apply bind_inv in E as (c & w1 & E1 & E). apply lift_inv in E1 as [_ ->]. now apply (find_chain_inv c).
Qed.

(** The network has no separate step of authorization, or the station used FT. *)
Definition opens (b : hostapd_data) (s : sta_info) : bool := open_network (bconf b) || bool_decide (auth_alg s = WLAN_AUTH_FT).

(** The report that an association response of [b] to [addr], with the status 0, was
    acknowledged; the order to open the port of [addr]; data from a station that is
    not known, on an open network. *)
Definition acks_association (w : world) (e : event) (b : hostapd_data) (addr : list Z) : Prop :=
  exists m frame len stype bs i, e = TxFrame m frame len stype true /\ (stype = WLAN_FC_STYPE_ASSOC_RESP \/ stype = WLAN_FC_STYPE_REASSOC_RESP) /\
    rd_le 26 2 frame = Ok WLAN_STATUS_SUCCESS /\ da frame = Ok addr /\
    get_hdr_bssid frame len = Ok bs /\ get_hapd_bssid (bss (ifc w)) bs = Some (HAPD i) /\ bss (ifc w) !! i = Some b.
Definition opens_port (e : event) (addr : list Z) : Prop := exists i, e = SetPort i addr true.
Definition joins_open (w : world) (e : event) : Prop :=
  exists m i addr b, e = RxData m i addr /\ bss (ifc w) !! i = Some b /\ open_network (bconf b) = true.

(** [entrywise] from the states with the configurations [cs]. *)
Definition entrywise_at (cs : list bss_config) (R : entry_rel) {A} (m : M world A) : Prop := forall w a w', confs w = cs -> m w = Ok (a, w') ->
  confs w' = cs /\ forall p s', heap w' !! p = Some s' -> R p (heap w !! p) s'.

Lemma at_of_ew cs R {A} (m : M world A) : entrywise R m -> entrywise_at cs R m.
Proof using. intros Hm w a w' Ec E. destruct (Hm _ _ _ E) as [E1 H1]. split; [congruence|done]. Qed.

Lemma at_bind cs R `{Entry R} {A B} (m : M world A) (k : A -> M world B) :
  entrywise_at cs R m -> (forall a, entrywise_at cs R (k a)) -> entrywise_at cs R (bind m k).
Proof using.
  intros Hm Hk w b w' Ec E. apply bind_inv in E as (a & w1 & E0 & E). destruct (Hm _ _ _ Ec E0) as [C1 H1]. destruct (Hk _ _ _ _ C1 E) as [C2 H2].
  split; [done|]. intros p s' Hs. specialize (H2 p s' Hs). destruct (heap w1 !! p) as [s|] eqn:Es; [|now apply en_none].
  apply (en_trans _ _ s); [|done]. now apply H1.
Qed.

Section Closed.
Context (cs : list bss_config) (i : nat) (c : bss_config) (Hc : cs !! i = Some c) (Ho : open_network c = false).

Lemma closed_assoc m p reassoc : entrywise_at cs held (hostapd_new_assoc_sta m i p reassoc).
Proof using Hc Ho.
  intros w u w' Ec E. destruct u. split; [rewrite <- Ec; apply (ew_new_assoc m i p caps_kept reassoc held_caps_rel (caps_set_authorized p) _ _ _ E)|].
  pose proof E as E'. unfold hostapd_new_assoc_sta in E'. apply bind_inv in E' as (b & w1 & E1 & _).
  assert (bss (ifc w) !! i = Some b) as Hb.
  { unfold get_bss, bind, get in E1. destruct (bss (ifc w) !! i) as [d|]; [|discriminate E1]. by injection E1 as <- _. }
  apply (closed_new_assoc m i p w b reassoc w' Hb); [|exact E].
  assert (cs !! i = Some (bconf b)) as Hcb by (rewrite <- Ec; unfold confs; now rewrite list_lookup_fmap, Hb). congruence.
Qed.

Ltac at_step := lazymatch goal with
  | |- entrywise_at _ _ (bind _ _) => apply at_bind; [apply _| |intros]
  | |- entrywise_at _ _ (match ?x with _ => _ end) => destruct x
  | |- entrywise_at _ _ (let _ := _ in _) => cbv zeta
  | |- entrywise_at _ _ (hostapd_new_assoc_sta _ _ _ _) => apply closed_assoc
  | |- entrywise_at _ _ _ => apply at_of_ew
  end.

Lemma closed_driver m p known : entrywise_at cs held (assoc_driver m i p known).
Proof using Hc Ho.
  unfold assoc_driver, hostapd_sta_add, wds_sta_on, hostapd_set_wds_encryption, ap_sta_bind_vlan, hostapd_set_sta_flags. repeat at_step; ew_tac.
Qed.

Lemma closed_new_sta m addr : entrywise_at cs held (hostapd_event_new_sta m i addr).
Proof using Hc Ho. unfold hostapd_event_new_sta. repeat at_step; ew_tac. Qed.
End Closed.

Definition bits (n : Z) (o : option sta_info) : Prop := exists s, o = Some s /\ Z.testbit (sta_flags s) n = true.

Lemma closed_mark i p b s w w' : bss (ifc w) !! i = Some b -> heap w !! p = Some s -> opens b s = false -> assoc_mark i p w = Ok (tt, w') ->
  forall q s', heap w' !! q = Some s' -> bit_held 5 q (heap w !! q) s'.
Proof using.
  intros Hb Hs Ho E. unfold assoc_mark in E. rewrite (bind_Ok _ _ _ _ _ (get_sta_run _ _ _ Hs)), (bind_Ok _ _ _ _ _ (get_bss_run _ _ _ Hb)) in E.
  fold (opens b s) in E. rewrite Ho in E.
  match type of E with ?k w = _ => assert (entrywise (bit_held 5) k) as Hq end; [|exact (proj2 (Hq _ _ _ E))].
  unfold hostapd. ew_tac; apply ew_upd_sta; try apply _; intros t Hb5; exists t; (split; [done|]); unfold set_flag, clear_flag, WLAN_STA_ASSOC, WLAN_STA_WNM_SLEEP_MODE in Hb5;
    cbn [sta_flags set_sta_flags] in Hb5; revert Hb5; rewrite ?Z.lor_spec, ?Z.ldiff_spec; const_bits; cbn [negb]; now rewrite ?orb_false_r, ?andb_true_r.
Qed.

Lemma get_bss_some i w b w' : get_bss i w = Ok (b, w') -> bss (ifc w) !! i = Some b.
Proof using. unfold get_bss, bind, get. destruct (bss (ifc w) !! i) as [d|]; [|discriminate]. intros E. by injection E as <- _. Qed.

Lemma confs_at i w b : bss (ifc w) !! i = Some b -> confs w !! i = Some (bconf b).
Proof using. intros Hb. unfold confs. now rewrite list_lookup_fmap, Hb. Qed.

(** The acknowledgement, where it does not authorize. *)
Lemma closed_ack m i q b s reassoc known w w1 w' : bss (ifc w) !! i = Some b -> heap w !! q = Some s -> opens b s = false ->
  assoc_acked i q reassoc w = Ok (tt, w1) -> assoc_driver m i q known w1 = Ok (tt, w') ->
  forall x t, heap w' !! x = Some t -> bit_held 5 x (heap w !! x) t.
Proof.
  intros Hb Hs Eo E1 E x t Hx.
  assert (open_network (bconf b) = false) as Hn by (unfold opens in Eo; now apply orb_false_iff in Eo as [? _]).
  assert (confs w1 = confs w) as C1 by apply (ew_acked_but i q reassoc _ _ _ E1).
  destruct (closed_driver (confs w) i (bconf b) (confs_at i w b Hb) Hn m q known w1 tt w' C1 E) as [_ HD].
  unfold assoc_acked in E1. apply bind_inv in E1 as ([] & w0 & Em & Er).
  match type of Er with ?k w0 = _ => assert (entrywise (bit_held 5) k) as Hq by (ew_tac; apply ew_assoc_ind; apply _) end.
  pose proof (closed_mark i q b s w w0 Hb Hs Eo Em) as HM. pose proof (fun t => proj2 (Hq _ _ _ Er) x t) as HR.
  pose proof (proj1 (HD x t Hx) 5 (or_intror eq_refl)) as HD5.
  destruct (heap w1 !! x) as [t1|] eqn:E1; [|intros Hb5; destruct (HD5 Hb5) as (y & [=] & _)].
  apply (en_trans _ _ t1); [|exact HD5]. specialize (HR t1 eq_refl).
  destruct (heap w0 !! x) as [t0|] eqn:E0; [|now apply en_none]. apply (en_trans _ _ t0); [now apply HM|exact HR].
Qed.

(** The acknowledged response: what becomes of the flags. *)
Lemma assoc_cb_gains m i frame len reassoc ok w w' p s' : handle_assoc_cb m i frame len reassoc ok w = Ok (tt, w') -> heap w' !! p = Some s' ->
  bits_held p (heap w !! p) s' \/
  (ok = true /\ rd_le 26 2 frame = Ok WLAN_STATUS_SUCCESS /\ exists s, heap w !! p = Some s /\ da frame = Ok (sta_addr s) /\
   (Z.testbit (sta_flags s') 5 = true -> Z.testbit (sta_flags s) 5 = true \/ exists b, bss (ifc w) !! i = Some b /\ opens b s = true)).
Proof.
  intros E Hp. unfold handle_assoc_cb in E.
  assert (forall {A} (k : M world A) a, entrywise bits_held k -> k w = Ok (a, w') -> bits_held p (heap w !! p) s') as Hheld.
  { intros A k a Hk Ek. exact (proj2 (Hk _ _ _ Ek) p s' Hp). }
  destruct (bool_decide _); [left; now apply (Hheld _ _ _ (ew_ret _ tt) E)|].
  apply bind_inv in E as (addr & w1 & E1 & E). apply lift_inv in E1 as [Ed ->]. apply bind_inv in E as (r & w1 & E1 & E).
  apply ap_get_sta_inv in E1 as [-> Hr]. destruct r as [q|]; [|left; now apply (Hheld _ _ _ (ew_ret _ tt) E)].
  destruct (Hr q eq_refl) as (s & Hs & <-). destruct ok; cbn [negb] in E.
  2: { left. refine (Hheld _ _ _ _ E). apply held_bits. ew_tac. }
  apply bind_inv in E as (st & w1 & E1 & E). apply lift_inv in E1 as [Est ->].
  case_bool_decide as Hst; [left; now apply (Hheld _ _ _ (ew_ret _ tt) E)|].
  assert (st = WLAN_STATUS_SUCCESS) as -> by (destruct (decide (st = WLAN_STATUS_SUCCESS)); [done|by destruct Hst]).
  rewrite (bind_Ok _ _ _ _ _ (get_sta_run _ _ _ Hs)) in E. apply bind_inv in E as ([] & w1 & E1 & E).
  assert (held_but q p (heap w !! p) s') as [<-|Hbut]; [|right|now left].
  { assert (entrywise (held_but q) (assoc_acked i q reassoc ;;; assoc_driver m i q (has (sta_flags s) WLAN_STA_ASSOC))) as Hk.
    { apply ew_bind; [apply _|apply ew_acked_but|]. intros _. apply ew_driver; [apply _| |by left]. intros x o t Hh. right. apply Hh. }
    refine (proj2 (Hk w tt w' _) p s' Hp). rewrite (bind_Ok _ _ _ _ _ E1). exact E. }
  split; [done|]. split; [done|]. exists s. split; [done|]. split; [done|]. intros H5.
  assert (exists b, bss (ifc w) !! i = Some b) as [b Hb].
  { pose proof E1 as Em. unfold assoc_acked, assoc_mark in Em. apply bind_inv in Em as ([] & w0 & Em & _).
    rewrite (bind_Ok _ _ _ _ _ (get_sta_run _ _ _ Hs)) in Em. apply bind_inv in Em as (b & w2 & Eb & _). exists b. now apply (get_bss_some _ _ _ w2). }
  destruct (opens b s) eqn:Eo; [right; by exists b|left].
  destruct (closed_ack m i p b s reassoc _ w w1 w' Hb Hs Eo E1 E p s' Hp H5) as (t & Ht & H5'). congruence.
Qed.

(** A new entry has a new address in memory. *)
Lemma add_fresh m i addr w q w' : ap_get_sta i addr w = Ok (None, w) -> ap_sta_add m i addr w = Ok (Some q, w') -> heap w !! q = None.
Proof.
  intros Eg E. unfold ap_sta_add in E. rewrite (bind_Ok _ _ _ _ _ Eg) in E.
  apply bind_inv in E as (b & w1 & E1 & E). apply get_bss_inv in E1 as ->. destruct (bool_decide _); [by injection E|].
  apply bind_inv in E as (r & w1 & E1 & E). injection E1 as _ <-. destruct (bool_decide _); [by injection E|].
  apply bind_inv in E as (w1 & w2 & E1 & E). injection E1 as <- <-.
  repeat (apply bind_inv in E as (? & ? & _ & E)). injection E as <- _. apply not_elem_of_dom. apply is_fresh.
Qed.

(** What may have happened to an entry. *)
Definition gained (w : world) (e : event) (p : positive) (s' : sta_info) : Prop :=
  bits_held p (heap w !! p) s' \/
  (exists s b, heap w !! p = Some s /\ acks_association w e b (sta_addr s) /\
     (Z.testbit (sta_flags s') 5 = true -> Z.testbit (sta_flags s) 5 = true \/ opens b s = true)) \/
  (bit_held 1 p (heap w !! p) s' /\
     ((exists s, heap w !! p = Some s /\ opens_port e (sta_addr s)) \/ (heap w !! p = None /\ joins_open w e))).

Section Gains.
Context (w w' : world) (p : positive) (s' : sta_info) (Hp : heap w' !! p = Some s').

Lemma quiet_held {A} (k : M world A) a : quiet_entries k -> k w = Ok (a, w') -> bits_held p (heap w !! p) s'.
Proof using Hp. intros Hk Ek. exact (proj1 (proj2 (Hk _ _ _ Ek) p s' Hp)). Qed.

Lemma tx_gains m frame len stype ok : hostapd_mgmt_tx_cb m frame len stype ok w = Ok (tt, w') -> gained w (TxFrame m frame len stype ok) p s'.
Proof using Hp.
  intros E. unfold hostapd_mgmt_tx_cb in E. apply bind_inv in E as (bs & w1 & E1 & E). apply lift_inv in E1 as [Ebs ->].
  apply bind_inv in E as (w1 & w2 & E1 & E). injection E1 as <- <-.
  destruct (get_hapd_bssid (bss (ifc w)) bs) as [[|i]|] eqn:Ei; [left; now apply (quiet_held _ _ (ew_ret _ tt) E)| |left; now apply (quiet_held _ _ (ew_ret _ tt) E)].
  unfold ieee802_11_mgmt_cb in E. case_bool_decide; [left; now apply (quiet_held _ _ (ew_handle_auth_cb _ _ _ _) E)|].
  assert (forall reassoc, stype = (if reassoc : bool then WLAN_FC_STYPE_REASSOC_RESP else WLAN_FC_STYPE_ASSOC_RESP) ->
    handle_assoc_cb m i frame len reassoc ok w = Ok (tt, w') -> gained w (TxFrame m frame len stype ok) p s') as Hcb.
  { intros reassoc Hst Ecb. destruct (assoc_cb_gains _ _ _ _ _ _ _ _ _ _ Ecb Hp) as [Hh|(-> & Est & s & Hs & Ed & H5)]; [by left|right; left].
    destruct (bssid_found _ _ _ Ei) as [b Hb]. exists s, b. split; [done|]. split.
    - exists m, frame, len, stype, bs, i. split; [done|]. split; [destruct reassoc; auto|done].
    - intros Hb5. destruct (H5 Hb5) as [?|(b' & Hb' & Ho)]; [auto|right; congruence]. }
  case_bool_decide; [now apply (Hcb false)|]. case_bool_decide; [now apply (Hcb true)|]. left.
  case_bool_decide; [now apply (quiet_held _ _ (ew_leave_cb _ _ _ (ew_deauth_cb _)) E)|].
  case_bool_decide; [now apply (quiet_held _ _ (ew_leave_cb _ _ _ (ew_disassoc_cb _)) E)|]. now apply (quiet_held _ _ (ew_ret _ tt) E).
Qed.

Lemma data_gains m i addr r : hostapd_event_new_sta m i addr w = Ok (r, w') -> gained w (RxData m i addr) p s'.
Proof using Hp.
  intros E. pose proof E as E0. unfold hostapd_event_new_sta in E.
  apply bind_inv in E as (o & w1 & Eg & E). pose proof Eg as Eg0. apply ap_get_sta_inv in Eg as [-> _].
  destruct o as [q|]; [left; now apply (quiet_held _ _ (ew_ret _ _) E)|].
  apply bind_inv in E as (o & w1 & Ea & E). destruct o as [q|].
  2: { left. injection E as _ ->. now apply (quiet_held _ _ (ew_add _ _ _) Ea). }
  apply bind_inv in E as ([] & w2 & En & E). injection E as _ ->.
  assert (opened q p (heap w !! p) s') as [H1 Hq5].
  { assert (entrywise (opened q) (ap_sta_add m i addr ;;; hostapd_new_assoc_sta m i q false)) as Hk.
    { apply ew_bind; [apply _|apply (ew_weaken held (opened q)); [apply held_opened|apply ew_add]|]. intros _. apply ew_new_assoc; [apply _|apply held_opened|apply opened_self]. }
    refine (proj2 (Hk w tt w' _) p s' Hp). now rewrite (bind_Ok _ _ _ _ _ Ea). }
  destruct Hq5 as [<-|H5]; [|left; intros n [->| ->]; assumption].
  assert (exists b, bss (ifc w) !! i = Some b) as [b Hb0].
  { unfold ap_get_sta in Eg0. apply bind_inv in Eg0 as (b & w3 & Eb & _). exists b. now apply (get_bss_some _ _ _ w3). }
  destruct (open_network (bconf b)) eqn:Eo.
  - right. right. split; [done|]. right. split; [now apply (add_fresh m i addr w p w1)|]. by exists m, i, addr, b.
  - left. destruct (closed_new_sta (confs w) i (bconf b) (confs_at i w b Hb0) Eo m addr w r w' eq_refl E0) as [_ HD]. exact (proj1 (HD p s' Hp)).
Qed.

Lemma port_gains i addr authorized : hostapd_wpa_auth_set_eapol i addr authorized w = Ok (tt, w') -> gained w (SetPort i addr authorized) p s'.
Proof using Hp.
  intros E. unfold hostapd_wpa_auth_set_eapol in E. apply bind_inv in E as (o & w1 & Eg & E). apply ap_get_sta_inv in Eg as [-> Hg].
  destruct o as [q|]; [|left; now apply (quiet_held _ _ (ew_ret _ tt) E)]. destruct (Hg q eq_refl) as (s & Hs & <-).
  destruct authorized.
  2: { left. refine (quiet_held _ _ _ E). unfold ieee802_1x_set_sta_authorized, hostapd_set_authorized. ew_tac. }
  assert (entrywise (opened q) (ieee802_1x_set_sta_authorized i q true)) as Hk.
  { pose proof (ew_authorize i q (opened q) (opened_self q)). unfold ieee802_1x_set_sta_authorized, hostapd_set_authorized. ew_tac; auto. }
  destruct (proj2 (Hk _ _ _ E) p s' Hp) as [H1 [<-|H5]]; [|left; intros n [->| ->]; assumption].
  right. right. split; [done|]. left. exists s. split; [done|]. by exists i.
Qed.

Lemma event_gains e : handle e w = Ok (tt, w') -> gained w e p s'.
Proof using Hp.
  intros E. destruct e; cbn [handle] in E.
  - apply bind_inv in E as (r & w1 & E & E1). injection E1 as ->. left. now apply (quiet_held _ _ (ew_mgmt_rx _ _ _ _) E).
  - now apply tx_gains.
  - apply bind_inv in E as (r & w1 & E & E1). injection E1 as ->. now apply (data_gains _ _ _ r).
  - left. refine (quiet_held _ _ _ E). unfold hostapd_rx_from_unknown_sta. ew_tac. apply ew_from_unknown.
  - left. refine (quiet_held _ _ _ E). unfold hostapd_tx_status. apply ew_bind; [apply _|apply ew_find_sta|]. intros r. ew_tac.
  - left. refine (quiet_held _ _ _ E). unfold hostapd_eapol_tx_status. apply ew_bind; [apply _|apply ew_find_sta|]. intros r. ew_tac.
  - left. refine (quiet_held _ _ _ E). unfold hostapd_client_poll_ok. apply ew_bind; [apply _|apply ew_find_sta|]. intros r. ew_tac.
  - now apply port_gains.
  - left. now apply (quiet_held _ _ (ew_timer _ _ _ _) E).
  - left. now apply (quiet_held _ _ (ew_session _ _) E).
  - left. now apply (quiet_held _ _ (ew_cb_timeout _ _ _) E).
  - left. now apply (quiet_held _ _ ew_ap_timer E).
  - left. refine (quiet_held _ _ _ E). unfold ap_ht2040_timeout, set_beacons, hostapd. ew_tac.
Qed.
End Gains.

End Statements.

(** ** What an acknowledgement does *)

(** The entry that is associated now. *)
Record marked (b : hostapd_data) (s s' : sta_info) : Prop := {
  mk_addr : sta_addr s' = sta_addr s;
  mk_aid : sta_aid_ s' = sta_aid_ s;
  mk_mlme : mlme s' = mlme s;
  mk_assoc : has (sta_flags s') WLAN_STA_ASSOC = true;
  mk_authorized : has (sta_flags s') WLAN_STA_AUTHORIZED = has (sta_flags s) WLAN_STA_AUTHORIZED || opens b s;
  mk_rest : forall n, 0 <= n -> n ∉ [1; 5; 19] -> has (sta_flags s') (2 ^ n) = has (sta_flags s) (2 ^ n) }.

(** The entry that the driver did not take. *)
Record refused (s s' : sta_info) : Prop := {
  rf_addr : sta_addr s' = sta_addr s;
  rf_flags : forall n, n ∈ [0; 1; 5] -> has (sta_flags s') (2 ^ n) = false;
  rf_next : timeout_next s' = STA_REMOVE }.

Section Ack.
Context `{StamgdFormat} (i : nat) (p : positive) (b : hostapd_data) (w : world) (Hb : bss (ifc w) !! i = Some b).

Lemma mark_sr s : sta_run p w (assoc_mark i p) s (fun _ s' _ => marked b s s').
Proof using Hb.
  unfold assoc_mark, ap_sta_authorize, hostapd. sr_step. sr_step. sr_step. apply (sr_get_bss p w i b); [done|]. do 6 sr_step.
  fold (opens b s). set (s1 := clear_flag _ _).
  assert (forall n, 0 <= n -> has (sta_flags s1) (2 ^ n) = (has (sta_flags s) (2 ^ n) || bool_decide (1 = n)) && negb (bool_decide (19 = n))) as Hf.
  { intros n Hn. unfold s1, set_flag, clear_flag, WLAN_STA_ASSOC, WLAN_STA_WNM_SLEEP_MODE. cbn [sta_flags set_sta_flags]. now rewrite has_clear, has_set by done. }
  assert (forall n, 0 <= n -> n ∉ [1; 5; 19] -> has (sta_flags s1) (2 ^ n) = has (sta_flags s) (2 ^ n)) as Hrest.
  { intros n Hn Hne. rewrite Hf, !bool_decide_eq_false_2 by (done || (intros <-; apply Hne; rewrite !elem_of_cons; auto)). cbn [negb]. now rewrite orb_false_r, andb_true_r. }
  assert (has (sta_flags s1) WLAN_STA_ASSOC = true) as H1 by (unfold WLAN_STA_ASSOC; rewrite Hf, orb_true_r by done; done).
  assert (has (sta_flags s1) WLAN_STA_AUTHORIZED = has (sta_flags s) WLAN_STA_AUTHORIZED) as H5.
  { unfold WLAN_STA_AUTHORIZED. rewrite Hf, !bool_decide_eq_false_2 by (done || lia). cbn [negb]. now rewrite orb_false_r, andb_true_r. }
  destruct (opens b s) eqn:Eo.
  - sr_step. sr_step. destruct (has (sta_flags s1) WLAN_STA_AUTHORIZED) eqn:E5.
    + sr_step. split; try done. rewrite Eo, orb_true_r. congruence.
    + do 3 sr_step. split; try done; unfold set_flag, WLAN_STA_AUTHORIZED, WLAN_STA_ASSOC in *; cbn [sta_flags set_sta_flags].
      * now rewrite has_set, H1 by done.
      * rewrite has_set by done. rewrite Eo. now rewrite !orb_true_r.
      * intros n Hn Hne. rewrite has_set, Hrest by done. rewrite bool_decide_eq_false_2; [apply orb_false_r|]. intros <-. apply Hne. rewrite !elem_of_cons. auto.
  - sr_step. split; try done. rewrite Eo. now rewrite orb_false_r.
Qed.

Lemma unauthorized_sr s : sta_run p w (ap_sta_unauthorize i p) s (fun _ s' cs => sta_addr s' = sta_addr s /\
  has (sta_flags s') WLAN_STA_AUTHORIZED = false).
Proof using.
  unfold ap_sta_unauthorize. sr_step. sr_step. destruct (has (sta_flags s) WLAN_STA_AUTHORIZED) eqn:E5; [|by sr_step].
  do 3 sr_step. split; [done|]. unfold WLAN_STA_AUTHORIZED. cbn [sta_flags set_sta_flags]. rewrite has_clear by done.
  rewrite bool_decide_eq_true_2 by done. apply andb_false_r.
Qed.

(** The flags of an entry that is disconnected. *)
Lemma disconnected_flags f n : has f WLAN_STA_AUTHORIZED = false -> n ∈ [0; 1; 5] ->
  has (Z.lor (Z.ldiff f (Z.lor WLAN_STA_AUTH WLAN_STA_ASSOC)) WLAN_STA_PENDING_DEAUTH_CB) (2 ^ n) = false.
Proof using.
  unfold WLAN_STA_AUTHORIZED. rewrite has_bit by done. intros H5 Hn.
  rewrite !elem_of_cons, elem_of_nil in Hn. destruct Hn as [->|[->|[->|[]]]]; rewrite has_bit, Z.lor_spec, Z.ldiff_spec by done;
    unfold WLAN_STA_AUTH, WLAN_STA_ASSOC, WLAN_STA_PENDING_DEAUTH_CB; const_bits; rewrite ?H5; cbn [andb orb negb]; now rewrite ?andb_false_r.
Qed.

Lemma refused_sr s addr reason : driver_ops (ifc w) = true ->
  sta_run p w (ap_sta_disconnect i (Some p) (Some addr) reason) s
  (fun _ s' cs => refused s s' /\ DrvStaDeauth (own_addr b) addr reason ∈ cs).
Proof using Hb.
  intros Hops. unfold ap_sta_disconnect, hostapd_drv_sta_deauth, hostapd, retimer. sr_step. sr_step. sr_step. sr_step. sr_step.
  apply (sr_get_bss p w i b); [done|]. apply sr_get. intros w' Ew. rewrite Ew, Hops. sr_step. sr_step. sr_step.
  eapply sr_weaken; [|apply unauthorized_sr]. intros _ s1 cs1 [Ha Hf].
  repeat lazymatch goal with |- refused _ _ /\ _ => fail | _ => sr_step end.
  split; [|cbn [app]; left]. split; cbn [sta_addr sta_flags timeout_next set_sta_flags set_timeout_next set_deauth_reason]; [done| |done].
  intros n Hn. now apply disconnected_flags.
Qed.
End Ack.

(** What the driver is asked for. *)
Definition driver_add (b : hostapd_data) (s : sta_info) (ht_capab vht_capab : option (list Z)) : call :=
  DrvStaAdd (own_addr b) (sta_addr s) (sta_aid_ s) (capability (mlme s)) (supported_rates (mlme s)) (listen_interval (mlme s))
    ht_capab vht_capab (has (sta_flags s) WLAN_STA_VHT_OPMODE_ENABLED) (vht_opmode (mlme s))
    (hostapd_sta_flags_to_drv (sta_flags s)) (qosinfo (mlme s)).

(** The driver was asked for the entry [s1], and the entry is now [s']: its answer
    decides. *)
Definition driver_decides (w w' : world) (b : hostapd_data) (s1 s' : sta_info) : Prop :=
  exists ht vht t cs, let add := driver_add b s1 ht vht in
    capab_for (has (sta_flags s1) WLAN_STA_HT) (ht_capabilities (mlme s1)) (hostapd_get_ht_capab (ht_capab (iconf (ifc w)))) = Ok ht /\
    capab_for (has (sta_flags s1) WLAN_STA_VHT) (vht_capabilities (mlme s1)) (hostapd_get_vht_capab (vht_capab (iconf (ifc w)))) = Ok vht /\
    trace (wenv w') = t ++ add :: cs /\
    (onum (wenv w) (length t) add = 0 -> s' = s1) /\
    (onum (wenv w) (length t) add <> 0 -> refused s1 s' /\ DrvStaDeauth (own_addr b) (sta_addr s1) WLAN_REASON_DISASSOC_AP_BUSY ∈ cs).

(** Another state with the same entry at [p], in which the tables and the links to the
    controller and the manager are the same. *)
Record beside (p : positive) (w w' : world) : Prop := {
  be_quiet : quiet w w';
  be_fn : fn w' = fn w;
  be_master : master w' = master w;
  be_entry : heap w' !! p = heap w !! p }.

#[export] Instance beside_preorder p : PreOrder (beside p).
Proof. split; [by intros w; split|]. intros w1 w2 w3 [A1 A2 A3 A4] [B1 B2 B3 B4]. split; [now transitivity w2|congruence..]. Qed.

Lemma beside_log p cs w : beside p w (with_log cs w).
Proof. split; [apply quiet_log|done..]. Qed.

(** An operation that only makes calls. *)
Lemma sr_beside {A} p w (m : M world A) s (Q : A -> Prop) : sta_run p w m s (fun a s' _ => s' = s /\ Q a) -> heap w !! p = Some s ->
  (forall t n, onum (wenv w) t (Malloc n) <> 0) -> exists a w', m w = Ok (a, w') /\ beside p w w' /\ Q a.
Proof.
  intros Hm Hs He. destruct (sr_start p w m s _ Hm Hs He) as (a & s' & cs & E & -> & HQ). exists a, (with_log cs w).
  split; [|split; [apply beside_log|done]]. rewrite E. f_equal. f_equal. unfold at_sta, with_log, upd_heap. destruct w. simpl in *. now rewrite insert_id.
Qed.

Section NewRun.
Context `{StamgdFormat} (w : world) (i : nat) (b : hostapd_data) (p : positive) (s : sta_info) (m : Z) (known : bool).
Context (I : iface_ok w) (Hb : bss (ifc w) !! i = Some b) (Hin : p ∈ sta_list b) (Hs : heap w !! p = Some s).
Context (Hmem : forall t n, onum (wenv w) t (Malloc n) <> 0).
Context (Hau : open_network (bconf b) = true -> has (sta_flags s) WLAN_STA_AUTHORIZED = true).

Lemma beside_at w' : beside p w w' -> iface_ok w' /\ bss (ifc w') !! i = Some b /\ heap w' !! p = Some s /\ forall t n, onum (wenv w') t (Malloc n) <> 0.
Proof using I Hb Hs Hmem.
  intros B. split; [exact (iface_ok_quiet w w' (be_quiet _ _ _ B) I)|]. rewrite (q_ifc _ _ (be_quiet _ _ _ B)), (be_entry _ _ _ B), (q_num _ _ (be_quiet _ _ _ B)). done.
Qed.

(** The end of [hostapd_new_assoc_sta]: an entry that is authorized stays as it is. *)
Lemma new_assoc_run : exists w', hostapd_new_assoc_sta m i p known w = Ok (tt, w') /\ beside p w w'.
Proof using I Hb Hin Hs Hmem Hau.
  assert (mac_ok (sta_addr s)) as Hmac.
  { destruct (bss_live _ _ (proj1 (io_bss _ I i b Hb)) p Hin) as (s0 & Hs0 & Hm). congruence. }
  unfold hostapd_new_assoc_sta. rewrite (bind_Ok _ _ _ _ _ (get_bss_run _ _ _ Hb)), (bind_Ok _ _ _ _ _ (get_sta_run _ _ _ Hs)).
  destruct (tkip_countermeasures b).
  - unfold hostapd_drv_sta_deauth. rewrite bind_assoc, (bind_Ok _ _ _ _ _ (get_bss_run _ _ _ Hb)), bind_assoc, (bind_Ok _ _ w w w), (io_ops _ I) by done.
    eexists. split; [reflexivity|]. apply (beside_log p [_]).
  - destruct (prune_run i (sta_addr s) w Hmac I) as (w1 & E1 & Q1 & (C1 & _ & C3 & _) & _ & K1). rewrite (bind_Ok _ _ _ _ _ E1).
    assert (beside p w w1) as B1 by (split; [done..|now apply (K1 b)]).
    destruct (beside_at w1 B1) as (I1 & Hb1 & Hs1 & Hmem1).
    edestruct (sr_beside (A := unit) p w1) as ([] & w2 & E2 & B2 & _); [|exact Hs1|exact Hmem1|exists w2; split; [exact E2|by transitivity w1]].
    instantiate (1 := fun _ => True). unfold ap_sta_authorize, hostapd, retimer. destruct (open_network (bconf b)).
    + sr_step. sr_step. sr_step. sr_step. rewrite (Hau eq_refl). sr_step. sr_step. sr_step. sr_step. destruct known; sr_tac; [case_match|]; sr_tac; case_match; by sr_tac.
    + sr_step. sr_step. sr_step. sr_step. destruct known; sr_tac; [case_match|]; sr_tac; case_match; by sr_tac.
Qed.

End NewRun.

Section Taken.
Context `{StamgdFormat} (w : world) (i : nat) (b : hostapd_data) (p : positive) (s : sta_info) (m : Z) (known : bool).
Context (I : iface_ok w) (Hb : bss (ifc w) !! i = Some b) (Hin : p ∈ sta_list b) (Hs : heap w !! p = Some s).
Context (Hmem : forall t n, onum (wenv w) t (Malloc n) <> 0).
Context (Hau : open_network (bconf b) = true -> has (sta_flags s) WLAN_STA_AUTHORIZED = true).

(** What happens after the driver has taken the station. *)
Lemma taken_run : sta_vlan_id (mlme s) = 0 -> exists w',
  ((if has (sta_flags s) WLAN_STA_WDS then wds_sta_on b (sta_addr s) else ret tt) ;;;
   bound <-- ap_sta_bind_vlan i p ;;
   if bool_decide (bound < 0) then ret tt
   else
     hostapd_set_sta_flags i p ;;;
     hostapd "wpa_auth_sm_event" (sta_addr s) ;;;
     hostapd_new_assoc_sta m i p known ;;;
     hostapd "ieee802_1x_notify_port_enabled" (sta_addr s)) w = Ok (tt, w') /\ beside p w w'.
Proof using I Hb Hin Hs Hmem Hau.
  intros Hv.
  destruct (sr_beside p w ((if has (sta_flags s) WLAN_STA_WDS then wds_sta_on b (sta_addr s) else ret tt) ;;; ap_sta_bind_vlan i p) s (fun r => r = 0)) as (r & w1 & E1 & B1 & ->); [|done..|].
  { apply sr_bind. apply (sr_weaken p w _ _ (fun _ s' _ => s' = s)); [intros _ s' _ ->|].
    - unfold ap_sta_bind_vlan. sr_step. sr_step. rewrite (bool_decide_eq_true_2 _ Hv). by sr_step.
    - destruct (has (sta_flags s) WLAN_STA_WDS); [|by sr_step]. unfold wds_sta_on, hostapd_set_wds_encryption, hostapd. sr_step. sr_step.
      destruct (bool_decide _); [|by sr_step]. destruct (_ || _); by sr_step. }
  rewrite <- bind_assoc, (bind_Ok _ _ _ _ _ E1). rewrite bool_decide_eq_false_2 by lia. destruct (beside_at w i b p s I Hb Hs Hmem w1 B1) as (I1 & Hb1 & Hs1 & Hmem1).
  destruct (sr_beside p w1 (hostapd_set_sta_flags i p ;;; hostapd "wpa_auth_sm_event" (sta_addr s)) s (fun _ => True)) as ([] & w2 & E2 & B2 & _); [|done..|].
  { unfold hostapd_set_sta_flags, hostapd. sr_step. sr_step. apply (sr_get_bss p w1 i b); [done|]. sr_step. sr_step. sr_step. cbv zeta.
    destruct (driver_ops _); sr_tac; done. }
  rewrite <- bind_assoc, (bind_Ok _ _ _ _ _ E2).
  assert (beside p w w2) as B12 by (by transitivity w1). destruct (beside_at w i b p s I Hb Hs Hmem w2 B12) as (I2 & Hb2 & Hs2 & Hmem2).
  destruct (new_assoc_run w2 i b p s m known I2 Hb2 Hin Hs2 Hmem2 Hau) as (w3 & E3 & B3). rewrite (bind_Ok _ _ _ _ _ E3).
  eexists. split; [reflexivity|]. transitivity w2; [done|]. transitivity w3; [done|]. apply (beside_log p [_]).
Qed.
End Taken.

Section AckRuns.
Context `{StamgdFormat} (w : world) (i : nat) (b : hostapd_data) (p : positive).

Lemma driver_run m known s : armed w -> bss (ifc w) !! i = Some b -> p ∈ sta_list b -> heap w !! p = Some s -> sta_vlan_id (mlme s) = 0 ->
  (open_network (bconf b) = true -> has (sta_flags s) WLAN_STA_AUTHORIZED = true) ->
  exists w' s', assoc_driver m i p known w = Ok (tt, w') /\ heap w' !! p = Some s' /\ fn w' = fn w /\ master w' = master w /\ driver_decides w w' b s s'.
Proof.
  intros [[Mo Hmem] C] Hb Hin Hs Hv Hau. pose proof (mo_iface _ Mo) as I. pose proof (mo_sta _ Mo p s Hs) as So. destruct (C p s Hs) as [C1 C2].
  destruct (capab_for_ok (has (sta_flags s) WLAN_STA_HT) (ht_capabilities (mlme s)) (hostapd_get_ht_capab (ht_capab (iconf (ifc w)))) sizeof_ht_capabilities) as [ht Eht].
  { unfold WLAN_STA_HT. rewrite has_bit by lia. exact C1. }
  { apply (so_ht _ So). }
  { intros c Hl Hu. destruct (ht_negotiated (ht_capab (iconf (ifc w))) c) as (x & E & _); [unfold sizeof_ht_capabilities in Hl; lia|done|eauto]. }
  destruct (capab_for_ok (has (sta_flags s) WLAN_STA_VHT) (vht_capabilities (mlme s)) (hostapd_get_vht_capab (vht_capab (iconf (ifc w)))) sizeof_vht_capabilities) as [vht Evht].
  { unfold WLAN_STA_VHT. rewrite has_bit by lia. exact C2. }
  { apply (so_vht _ So). }
  { intros c Hl Hu. eexists. apply vht_negotiated. unfold sizeof_vht_capabilities in Hl. lia. }
  set (add := driver_add b s ht vht). set (w1 := with_log [add] w).
  assert (heap w1 !! p = Some s) as Hs1 by exact Hs. assert (bss (ifc w1) !! i = Some b) as Hb1 by exact Hb.
  assert (trace (wenv w1) = trace (wenv w) ++ [add]) as T1 by reflexivity.
  unfold assoc_driver. rewrite (bind_Ok _ _ _ _ _ (get_sta_run _ _ _ Hs)), (bind_Ok _ _ _ _ _ (get_bss_run _ _ _ Hb)), (bind_Ok _ _ w w w) by done.
  rewrite (bind_Ok _ _ w ht w), (bind_Ok _ _ w vht w) by (unfold lift; now rewrite ?Eht, ?Evht).
  erewrite bind_Ok.
  2: { unfold hostapd_sta_add. rewrite (bind_Ok _ _ _ _ _ (get_bss_run _ _ _ Hb)), (bind_Ok _ _ w w w) by done. rewrite (io_ops _ I). apply (ext_log add). }
  fold w1. set (r := onum _ _ _). case_bool_decide as Hr.
  - destruct (sr_start p w1 _ s _ (refused_sr i p b w1 Hb1 s (sta_addr s) WLAN_REASON_DISASSOC_AP_BUSY (io_ops _ I)) Hs1 Hmem) as ([] & s' & cs & E & Href).
    eexists _, s'. split; [exact E|]. split; [apply lookup_insert_eq|]. split; [done|]. split; [done|].
    exists ht, vht, (trace (wenv w)), cs. cbv zeta. fold add. fold r. split; [exact Eht|]. split; [exact Evht|].
    split; [|split; intros H0; [by destruct Hr || reflexivity|exact Href || by destruct H0]]. change (trace (logged_all cs (wenv w1)) = trace (wenv w) ++ add :: cs). rewrite logged_all_trace, T1, <- app_assoc. done.
  - destruct (taken_run w1 i b p s m known) as (w' & E & B); [exact (iface_ok_quiet w w1 (quiet_log [add] w) I)|done..|].
    exists w', s. split; [exact E|]. split; [rewrite (be_entry _ _ _ B); exact Hs|]. split; [apply (be_fn _ _ _ B)|]. split; [apply (be_master _ _ _ B)|].
    destruct (q_trace _ _ (be_quiet _ _ _ B)) as [cs Ecs]. exists ht, vht, (trace (wenv w)), cs. cbv zeta. fold add. fold r. split; [exact Eht|]. split; [exact Evht|].
    split; [|split; intros H0; [reflexivity|by destruct Hr]]. now rewrite Ecs, T1, <- app_assoc.
Qed.

(** Up to the driver. *)
Lemma acked_run s reassoc : armed w -> bss (ifc w) !! i = Some b -> p ∈ sta_list b -> heap w !! p = Some s ->
  exists w' s1, assoc_acked i p reassoc w = Ok (tt, w') /\ armed w' /\ heap w' !! p = Some s1 /\ marked b s s1 /\
    ifc w' = ifc w /\ onum (wenv w') = onum (wenv w) /\
    contents (g_dense_station_hash (fn w')) = {[(sta_addr s, own_addr b)]} ∪ contents (g_dense_station_hash (fn w)) /\
    listed w' = {[sta_addr s]} ∪ listed w.
Proof.
  intros A Hb Hp Hs. destruct A as [R C] eqn:EA. assert (at_table i (Some p) w) as T by (split; [eauto|by exists b]).
  destruct (sr_start p w _ s _ (mark_sr i p b w Hb s) Hs (proj2 R)) as ([] & s1 & cs & E1 & Hm). set (w1 := at_sta p s1 (logged_all cs (wenv w)) w) in E1.
  assert (ready w1) as R1.
  { assert (runs i (Some p) (Some p) (assoc_mark i p)) as Hr by (unfold assoc_mark, hostapd; runs_tac; apply runs_authorize).
    destruct (Hr w R T) as (u & w1' & E & R' & _). rewrite E1 in E. now injection E as _ <-. }
  assert (heap w1 !! p = Some s1) as Hs1 by apply lookup_insert_eq. assert (bss (ifc w1) !! i = Some b) as Hb1 by exact Hb.
  destruct (assoc_run w1 i b p s1 (mo_iface _ (proj1 R1)) Hb1 Hp Hs1 (proj2 R1)) as (w2 & E2 & J).
  pose proof (jo_quiet _ _ _ _ J) as Q. destruct (quiet_sta _ _ _ _ Q Hs1) as (s2 & Hs2 & _).
  assert (heap w1 !! p = Some s2) as Hs2' by exact (proj2 (ew_assoc_ind untouched i p _ _ _ E2) p s2 Hs2).
  assert (s2 = s1) as -> by congruence. set (w3 := with_log [DrvStaRemove (own_addr b) (sta_addr s1)] w2).
  assert (assoc_acked i p reassoc w = Ok (tt, w3)) as E3.
  { unfold assoc_acked. rewrite (bind_Ok _ _ _ _ _ E1).
    assert ((if reassoc then mlme_reassociate_indication i p else mlme_associate_indication i p) w1 = Ok (tt, w2)) as E2' by (by destruct reassoc).
    assert (bss (ifc w2) !! i = Some b) as Hb2 by now rewrite (q_ifc _ _ Q).
    now rewrite (bind_Ok _ _ _ _ _ E2'), (bind_Ok _ _ _ _ _ (get_sta_run _ _ _ Hs2)), (bind_Ok _ _ _ _ _ (get_bss_run _ _ _ Hb2)). }
  exists w3, s1. split; [exact E3|].
  assert (armed w3) as A3.
  { split; [|exact (caps_stored_by _ _ _ _ (ew_acked_caps i p reassoc) E3 C)].
    destruct (runs_assoc_acked i p reassoc w R T) as (u & w3' & E & R' & _). rewrite E3 in E. now injection E as _ <-. }
  split; [exact A3|]. split; [exact Hs2|]. split; [exact Hm|]. split; [exact (q_ifc _ _ Q)|].
  split; [change (onum (wenv w2) = onum (wenv w)); rewrite (q_num _ _ Q); unfold w1; cbn [wenv at_sta put_env]; apply logged_all_onum|].
  rewrite <- (mk_addr _ _ _ Hm). split; [exact (proj2 (jo_dense _ _ _ _ J))|exact (jo_listed _ _ _ _ J)].
Qed.
End AckRuns.

(** C3: the acknowledgement of an association response.  When the station of an
    entry has acknowledged a (re)association response with the status 0, the entry is
    associated (and, without a separate step of authorization, authorized), the
    controller's table has the pair of the station and the BSS and the manager's list
    has the station.  Then the driver is asked for the station, with the entry's AID
    and rates and the capabilities negotiated with it.  If the driver takes it, the
    entry stays like this; if not, the entry is neither authenticated nor associated
    nor authorized any more, its removal is timed and the station is told.  (The two
    tables are not told of the refusal.) *)
Theorem ack_associates `{StamgdFormat} (w : world) (i : nat) (b : hostapd_data) (p : positive) (s : sta_info) (addr mgmt : list Z)
    (m len : Z) (reassoc : bool) (A : armed w) (Hb : bss (ifc w) !! i = Some b) (Hs : sta_at w b addr p s)
    (Hf : frame_ok mgmt len) (Hlen : IEEE80211_HDRLEN + 6 <= len) (Hda : da mgmt = Ok addr) (Hst : rd_le 26 2 mgmt = Ok WLAN_STATUS_SUCCESS)
    (Hvlan : sta_vlan_id (mlme s) = 0) :
  exists w' s1 s', handle_assoc_cb m i mgmt len reassoc true w = Ok (tt, w') /\
    heap w' !! p = Some s' /\ marked b s s1 /\ driver_decides w w' b s1 s' /\
    contents (g_dense_station_hash (fn w')) = {[(addr, own_addr b)]} ∪ contents (g_dense_station_hash (fn w)) /\
    listed w' = {[addr]} ∪ listed w.
Proof.
  destruct Hs as (Hp & Hsp & Ha). pose proof (mo_iface _ (proj1 (proj1 A))) as I. destruct (io_bss _ I i b Hb) as [Hok _].
  destruct (bss_live _ _ Hok p Hp) as (s0 & Hs0 & Hm). assert (s0 = s) as -> by congruence. rewrite Ha in Hm.
  destruct (ap_get_sta_spec w i b addr Hb Hok Hm) as (r & Eg & Hg). assert (r = Some p) as -> by (apply Hg; exists s; done).
  destruct (acked_run w i b p s reassoc A Hb Hp Hsp) as (w1 & s1 & E1 & A1 & Hs1 & Hmk & Hi & Ho & Hc & Hl). rewrite Ha in Hc, Hl.
  destruct (driver_run w1 i b p m (has (sta_flags s) WLAN_STA_ASSOC) s1 A1) as (w' & s' & E2 & Hs' & Hfn & Hma & (ht & vht & t & cs & D));
    [now rewrite Hi|done|done|now rewrite (mk_mlme _ _ _ Hmk)|intros Hop; rewrite (mk_authorized _ _ _ Hmk); unfold opens; rewrite Hop; apply orb_true_r|].
  exists w', s1, s'. split.
  - unfold handle_assoc_cb. rewrite bool_decide_eq_false_2 by lia. rewrite (bind_Ok _ _ w addr w) by (unfold lift; now rewrite Hda).
    rewrite (bind_Ok _ _ _ _ _ Eg). cbn [negb]. rewrite (bind_Ok _ _ w 0 w) by (unfold lift; now rewrite Hst).
    rewrite bool_decide_eq_false_2 by (intros Hne; by apply Hne). now rewrite (bind_Ok _ _ _ _ _ (get_sta_run _ _ _ Hsp)), (bind_Ok _ _ _ _ _ E1).
  - split; [done|]. split; [done|]. split; [exists ht, vht, t, cs; now rewrite <- Hi, <- Ho|]. split; [now rewrite Hfn|]. unfold listed in *. now rewrite Hma.
Qed.

(** ** Concrete events *)

#[local] Existing Instance demo_format.

(** [mac1] is authenticated with the first network. *)
Definition demo_authd_sta : sta_info := set_sta_flags WLAN_STA_AUTH (demo_sta mac1).
Definition demo_authd (e : env) : world := upd_heap <[1%positive := demo_authd_sta]> (demo_world1 e).

(** The driver takes every station, or none. *)
Definition refusing_env : env :=
  {| onum := fun t c => match c with DrvStaAdd _ _ _ _ _ _ _ _ _ _ _ _ => -1 | _ => onum silent_env t c end;
     obytes := fun _ _ => None; trace := [] |}.

Lemma demo_authd_armed e : (forall t n, onum e t (Malloc n) <> 0) -> armed (demo_authd e).
Proof.
  intros He. split.
  - split; [|exact He].
    apply (mlme_ok_entry (demo_world1 e) 1 (demo_sta mac1) demo_authd_sta (demo_mlme_ok e)); try done; by destruct sta_ok_zero.
  - intros p s Hs. change (heap (demo_authd e)) with (<[1%positive := demo_authd_sta]> (<[1%positive := demo_sta mac1]> (∅ : gmap positive sta_info))) in Hs.
    apply lookup_insert_Some in Hs as [[_ <-]|[_ Hs]]; [split; vm_compute; discriminate|].
    apply lookup_insert_Some in Hs as [[_ <-]|[_ Hs]]; [split; vm_compute; discriminate|now rewrite lookup_empty in Hs].
Qed.

(** The response that the station acknowledges; an authentication frame in a larger
    buffer. *)
Definition demo_response : list Z :=
  mgmt_header WLAN_FC_STYPE_ASSOC_RESP mac1 [2; 1; 2; 3; 4; 5] [2; 1; 2; 3; 4; 5] ++ [0x31; 4; 0; 0; 1; 0xc0].

Lemma demo_response_ok : frame_ok demo_response 30.
Proof. split; [split; [done|]; reflexivity || discriminate|]. unfold demo_response, mgmt_header. rewrite !Forall_app. repeat split; auto using le_bytes_u8; unfold u8; by_check. Qed.

Definition demo_rx : event := RxFrame (mkFrameConf 300 demo_conf) None (demo_auth mac1 0 1 ++ [0]) 30.
Definition demo_tx : event := TxFrame 300 demo_response 30 WLAN_FC_STYPE_ASSOC_RESP true.

Lemma demo_rx_ok w : (0 < num_bss w)%nat -> event_ok w demo_rx.
Proof.
  intros Hn. split; [|exact Hn]. destruct (demo_frame_ok mac1 0 1) as [_ Hu]; [unfold mac_ok, u8; by_check|].
  split; [split; [done|]; vm_compute; discriminate|]. apply Forall_app. split; [exact Hu|]. unfold u8. by_check.
Qed.

(** A frame for each of the flaws: the first 16 bytes of one; a public action frame
    that ends at the category; a probe request that ends with a list of names of one
    byte; an ADDTS request (of a station that is associated) for 80 Mbit/s. *)
Definition demo_own : list Z := [2; 1; 2; 3; 4; 5].
Definition flawed_rx (frame : list Z) : event := RxFrame (mkFrameConf 300 demo_conf) None frame (zlen frame).
Definition demo_short : list Z := take 16 (demo_auth mac1 0 1).
Definition demo_cut : list Z := mgmt_header WLAN_FC_STYPE_ACTION demo_own mac1 demo_own ++ [WLAN_ACTION_PUBLIC].
Definition demo_names : list Z := mgmt_header WLAN_FC_STYPE_PROBE_REQ demo_own mac1 demo_own ++ [0; 1; 65; 1; 1; 2; 84; 1; 0].

Definition undefined_on (w : world) (e : event) : bool := match handle e w with Ub _ => true | Ok _ => false end.

Lemma flawed_frames_fail :
  Forall (fun frame => frame_ok frame (zlen frame) /\ frame_flaw frame (zlen frame)) [demo_short; demo_cut; demo_names; demo_addts 80000000] /\
  undefined_on (demo_authd silent_env) (flawed_rx demo_short) = true /\ undefined_on (demo_authd silent_env) (flawed_rx demo_cut) = true /\
  undefined_on (demo_authd silent_env) (flawed_rx demo_names) = true /\ undefined_on demo_wmm_world (flawed_rx (demo_addts 80000000)) = true.
Proof.
  split; [|repeat split; vm_compute; reflexivity].
  assert (forall f, 0 <= zlen f -> Forall u8 f -> frame_ok f (zlen f)) as Hok by (intros f H0 Hu; split; [lia|done]).
  repeat apply Forall_cons_2; [| | | |apply Forall_nil_2].
  - split; [apply Hok; [vm_compute; discriminate|unfold u8; by_check]|].
    apply (FlawHeader _ _ 0xb0); [reflexivity..|vm_compute; discriminate|reflexivity].
  - split; [apply Hok; [vm_compute; discriminate|unfold u8; by_check]|].
    apply (FlawAction _ _ 0xd0 WLAN_ACTION_PUBLIC); try reflexivity. by left.
  - split; [apply Hok; [vm_compute; discriminate|unfold u8; by_check]|].
    eapply (FlawNames _ _ 0x40); [reflexivity..|]. exists [0], 1. split; [reflexivity|done].
  - split; [change (zlen (demo_addts 80000000)) with 91; apply demo_addts_ok|].
    apply (FlawTspec _ _ 0xd0); [reflexivity..|]. exists 28, (demo_tspec 80000000), 1000, 80000000, 6000000, 10240.
    split; [apply (aq_tspec _ _ _ _ _ _ (demo_addts_request 80000000))|]. split; [|split; [reflexivity|vm_compute; discriminate]].
    split; try reflexivity. unfold u8. by_check.
Qed.

(** Two events are handled in turn, after them the station is associated; and the
    four flaws. *)
Lemma events_safe_witness : (exists w1 w2, event_step (demo_authd silent_env) w1 /\ event_step w1 w2 /\ armed w2 /\
    (sta_flags <$> heap w2 !! 1%positive) = Some 0x23) /\
  undefined_on (demo_authd silent_env) (flawed_rx demo_short) = true /\ undefined_on (demo_authd silent_env) (flawed_rx demo_cut) = true /\
  undefined_on (demo_authd silent_env) (flawed_rx demo_names) = true /\ undefined_on demo_wmm_world (flawed_rx (demo_addts 80000000)) = true.
Proof.
  split; [|exact (proj2 flawed_frames_fail)].
  assert (armed (demo_authd silent_env)) as A by (apply demo_authd_armed; discriminate).
  assert ((0 < num_bss (demo_authd silent_env))%nat) as Hn by (vm_compute; repeat constructor).
  destruct (handle demo_rx (demo_authd silent_env)) as [[[] w1]|u] eqn:E1; [|exfalso; vm_compute in E1; discriminate E1].
  destruct (handle demo_tx w1) as [[[] w2]|u] eqn:E2.
  2: { exfalso. assert ((handle demo_rx ;;; handle demo_tx) (demo_authd silent_env) = Ub u) as E by now rewrite (bind_Ok _ _ _ _ _ E1).
       vm_compute in E. discriminate E. }
  destruct (events_safe (demo_authd silent_env) (demo_authd silent_env) A (rtc_refl _ _)) as [_ H1].
  destruct (H1 demo_rx (demo_rx_ok _ Hn)) as [(w1' & E1' & A1 & S1)|(c & d & f & l & u & _ & _ & E1')]; [|exfalso; rewrite E1 in E1'; discriminate E1'].
  assert (w1' = w1) as -> by congruence.
  destruct (events_safe (demo_authd silent_env) w1 A (rtc_once _ _ S1)) as [_ H2].
  destruct (H2 demo_tx) as [(w2' & E2' & A2 & S2)|(c & d & f & l & u & _ & _ & E2')]; [split; [apply demo_response_ok|discriminate]| |exfalso; rewrite E2 in E2'; discriminate E2'].
  assert (w2' = w2) as -> by congruence.
  exists w1, w2. split; [exact S1|]. split; [exact S2|]. split; [exact A2|].
  assert ((handle demo_rx ;;; handle demo_tx) (demo_authd silent_env) = Ok (tt, w2)) as E by now rewrite (bind_Ok _ _ _ _ _ E1).
  apply (f_equal (fun r => match r with Ok (_, w') => sta_flags <$> heap w' !! 1%positive | Ub _ => None end)) in E.
  cbv beta iota in E. rewrite <- E. vm_compute. reflexivity.
Defined.


Definition demo_authd_at e : sta_at (demo_authd e) demo_bss1 mac1 1 demo_authd_sta :=
  conj (proj1 (demo_sta_here e)) (conj (lookup_insert_eq _ _ _) eq_refl).

(** With a driver that takes the station, and with one that does not. *)
Definition acked_flags (e : env) (flags : Z) : Prop := exists w' s1 s',
  handle_assoc_cb 300 0 demo_response 30 false true (demo_authd e) = Ok (tt, w') /\ heap w' !! 1%positive = Some s' /\
  driver_decides (demo_authd e) w' demo_bss1 s1 s' /\ mac1 ∈ listed w' /\ sta_flags s' = flags.

Lemma ack_associates_witness : acked_flags silent_env 0x23 /\ acked_flags refusing_env WLAN_STA_PENDING_DEAUTH_CB.
Proof.
  split; [set (e := silent_env)|set (e := refusing_env)];
    (destruct (ack_associates (demo_authd e) 0 demo_bss1 1 demo_authd_sta mac1 demo_response 300 30 false)
       as (w' & s1 & s' & E & Hs & _ & D & _ & L);
     [apply demo_authd_armed; discriminate|reflexivity|apply demo_authd_at|apply demo_response_ok|unfold IEEE80211_HDRLEN; lia|reflexivity..|];
     exists w', s1, s'; split; [exact E|]; split; [exact Hs|]; split; [exact D|]; split; [rewrite L; apply elem_of_union; left; by apply elem_of_singleton|];
     apply (f_equal (fun r => match r with Ok (_, w') => sta_flags <$> heap w' !! 1%positive | Ub _ => None end)) in E;
     cbv beta iota in E; rewrite Hs in E; vm_compute in E; injection E as E; symmetry; exact E).
Defined.
