(* ===== verification/HashTable.v ===== *)
(** * The hash tables of the collector ([hashtable.c])

    The chains of a table are linked entries in a memory [hmem], addressed by
    pointers, so that a walk over them meets the entries that the walk itself
    freed.  The keys and values that an entry owns (no [HT_KEY_CONST],
    [HT_VALUE_CONST]) are nobody else's and are kept in the entry ([Own]); a
    pointer that the caller keeps is [Const].  The table itself is a record that
    the operations take and return. *)

From stdpp Require Import base list numbers gmap fin_maps.
From Stdlib Require Import ZArith Lia.
From S2P Require Import Prelude CString Env Murmur.
Local Open Scope Z_scope.

Definition HT_INITIAL_SIZE : Z := 64.
Definition AGE_TIMEOUT : Z := 30.
Definition HT_NONE : Z := 0.
Definition HT_KEY_CONST : Z := 1.
Definition HT_VALUE_CONST : Z := 2.
Definition HT_NO_AUTORESIZE : Z := 4.

(** ** Data *)

(** What a [void *] of the table points to. *)
Inductive blob : Type :=
| Own (bytes : list Z)        (** a block of the entry's own *)
| Const (p : positive).       (** memory that the table does not own *)

Record hash_entry : Type := mkHe {
  he_key : blob;
  he_value : option blob;                     (** NULL when a replacement had no memory *)
  he_key_size : Z;
  he_value_size : Z;
  he_next : option positive }.

Record hmem : Type := mkMem {
  ents : gmap positive hash_entry;            (** the live entries, of all tables *)
  cmem : gmap positive (list Z);              (** memory of the callers *)
  global_seed : Z;
  menv : env }.

#[export] Instance hmem_has_env : HasEnv hmem :=
  {| the_env := menv;
     put_env := fun e m => mkMem (ents m) (cmem m) (global_seed m) e;
     env_put := fun e m => eq_refl;
     put_put := fun e e' m => eq_refl;
     put_env_id := fun m => match m with mkMem _ _ _ _ => eq_refl end |}.

(** A finite [double]: [d_mant * 2 ^ d_exp]. *)
Record double : Type := mkD { d_mant : Z; d_exp : Z }.

Definition HashFunc (A : Type) : Type := list Z -> Z -> Z -> res A.

Record hash_table : Type := mkHt {
  hashfunc_x86_32 : option (HashFunc Z);
  hashfunc_x86_128 : option (HashFunc (list Z));
  hashfunc_x64_128 : option (HashFunc (list Z));
  key_count : Z;
  array_size : Z;
  array : option (list (option positive));
  collisions : Z;
  flags : Z;
  max_load_factor : double;
  current_load_factor : double }.

Definition set_key_count (v : Z) (t : hash_table) : hash_table :=
  mkHt (hashfunc_x86_32 t) (hashfunc_x86_128 t) (hashfunc_x64_128 t) v (array_size t) (array t)
    (collisions t) (flags t) (max_load_factor t) (current_load_factor t).
Definition set_array (v : list (option positive)) (t : hash_table) : hash_table :=
  mkHt (hashfunc_x86_32 t) (hashfunc_x86_128 t) (hashfunc_x64_128 t) (key_count t) (array_size t) (Some v)
    (collisions t) (flags t) (max_load_factor t) (current_load_factor t).
Definition set_collisions (v : Z) (t : hash_table) : hash_table :=
  mkHt (hashfunc_x86_32 t) (hashfunc_x86_128 t) (hashfunc_x64_128 t) (key_count t) (array_size t) (array t)
    v (flags t) (max_load_factor t) (current_load_factor t).
Definition set_load (v : double) (t : hash_table) : hash_table :=
  mkHt (hashfunc_x86_32 t) (hashfunc_x86_128 t) (hashfunc_x64_128 t) (key_count t) (array_size t) (array t)
    (collisions t) (flags t) (max_load_factor t) v.
Definition set_next (v : option positive) (e : hash_entry) : hash_entry :=
  mkHe (he_key e) (he_value e) (he_key_size e) (he_value_size e) v.
Definition set_value (v : option blob) (n : Z) (e : hash_entry) : hash_entry :=
  mkHe (he_key e) v (he_key_size e) n (he_next e).

Definition has_flag (fl bit : Z) : bool := bool_decide (Z.land fl bit <> 0).

(** ** Load factors *)

(** [(double)a / b] for 32-bit numbers [a] and [b > 0]: the quotient rounded to
    53 bits, to nearest and to even. *)
Definition round_half_even (n d : Z) : Z :=
  let q := n / d in let r := n mod d in
  if bool_decide (2 * r < d \/ (2 * r = d /\ Z.even q = true)) then q else q + 1.

Definition double_div (a b : Z) : double :=
  if bool_decide (a = 0) then mkD 0 0
  else
    let s := 53 - (Z.log2 a - Z.log2 b) in
    let s := if bool_decide (a * 2 ^ s >= b * 2 ^ 53) then s - 1 else s in
    mkD (round_half_even (a * 2 ^ s) b) (- s).

(** [x > y] *)
Definition double_gtb (x y : double) : bool :=
  let e := Z.min (d_exp x) (d_exp y) in
  bool_decide (d_mant x * 2 ^ (d_exp x - e) > d_mant y * 2 ^ (d_exp y - e)).

(** The [double] of the literal [0.05]. *)
Definition load_005 : double := mkD 3602879701896397 (-56).

(** ** Memory *)

Definition get_entry (p : positive) : M hmem hash_entry :=
  m <-- get ;; match ents m !! p with Some e => ret e | None => fail UseAfterFree end.

Definition on_ents (f : gmap positive hash_entry -> gmap positive hash_entry) (m : hmem) : hmem :=
  mkMem (f (ents m)) (cmem m) (global_seed m) (menv m).

Definition upd_entry (p : positive) (f : hash_entry -> hash_entry) : M hmem unit :=
  e <-- get_entry p ;; modify (on_ents <[p := f e]>).

Definition bytes_of (b : blob) : M hmem (list Z) :=
  match b with
  | Own bs => ret bs
  | Const p => m <-- get ;; match cmem m !! p with Some bs => ret bs | None => fail UseAfterFree end
  end.

(** [malloc(n)] and a copy of [n] bytes of [b] into it; [None]: no memory. *)
Definition copy_of (b : blob) (n : Z) : M hmem (option blob) :=
  r <-- ext (Malloc n) ;;
  if bool_decide (r = 0) then ret None
  else bs <-- bytes_of b ;; c <-- lift (slice 0 n bs) ;; ret (Some (Own c)).

(** ** Entries *)

(** The size of [struct hash_entry]: five words. *)
Definition sizeof_entry : Z := 20.

Definition he_create (fl : Z) (key : blob) (key_size : Z) (value : blob) (value_size : Z)
  : M hmem (option positive) :=
  r <-- ext (Malloc sizeof_entry) ;;
  if bool_decide (r = 0) then ret None
  else
    k <-- (if has_flag fl HT_KEY_CONST then ret (Some key) else copy_of key key_size) ;;
    match k with
    | None => ret None
    | Some k =>
        v <-- (if has_flag fl HT_VALUE_CONST then ret (Some value) else copy_of value value_size) ;;
        match v with
        | None => ret None
        | Some v =>
            m <-- get ;;
            let p := fresh (dom (ents m)) in
            modify (on_ents <[p := mkHe k (Some v) key_size value_size None]>) ;;;
            ret (Some p)
        end
    end.

(** The blocks that the entry owns go with it. *)
Definition he_destroy (fl : Z) (entry : positive) : M hmem unit :=
  get_entry entry ;;; modify (on_ents (delete entry)).

Definition he_key_compare (e1 e2 : hash_entry) : M hmem bool :=
  if bool_decide (he_key_size e1 <> he_key_size e2) then ret false
  else
    k1 <-- bytes_of (he_key e1) ;;
    k2 <-- bytes_of (he_key e2) ;;
    lift (memeq k1 k2 (he_key_size e1)).

Definition he_set_value (fl : Z) (entry : positive) (value : option blob) (value_size : Z) : M hmem unit :=
  if has_flag fl HT_VALUE_CONST then upd_entry entry (set_value value value_size)
  else
    get_entry entry ;;;
    r <-- ext (Malloc value_size) ;;
    if bool_decide (r = 0) then upd_entry entry (fun e => set_value None (he_value_size e) e)
    else
      match value with
      | None => fail NullDeref
      | Some v =>
          bs <-- bytes_of v ;; c <-- lift (slice 0 value_size bs) ;;
          upd_entry entry (set_value (Some (Own c)) value_size)
      end.

(** ** Tables *)

Definition null_array (n : Z) : list (option positive) := replicate (Z.to_nat n) None.

(** [malloc] of [n] pointers and the loop that clears the array: the
    size is computed modulo 2^32. *)
Definition alloc_array (n : Z) : M hmem (list (option positive)) :=
  r <-- ext (Malloc (uwrap 32 (n * 4))) ;;
  if bool_decide (n = 0) then ret []
  else if bool_decide (r = 0) then fail NullDeref
  else if bool_decide (n * 4 >= 2 ^ 32) then fail OutOfBounds
  else ret (null_array n).

Definition ht_init (fl : Z) (max_load : double) : M hmem hash_table :=
  arr <-- alloc_array HT_INITIAL_SIZE ;;
  ret (mkHt (Some MurmurHash3_x86_32) (Some MurmurHash3_x86_128) (Some MurmurHash3_x64_128)
         0 HT_INITIAL_SIZE (Some arr) 0 fl max_load (mkD 0 0)).

(** The longest walk over entries that are all different. *)
Definition walk_fuel (m : hmem) : nat := S (size (ents m)).

Fixpoint destroy_chain (fuel : nat) (fl : Z) (entry : option positive) : M hmem unit :=
  match entry with
  | None => ret tt
  | Some p =>
      match fuel with
      | O => fail OutOfFuel
      | S f => e <-- get_entry p ;; he_destroy fl p ;;; destroy_chain f fl (he_next e)
      end
  end.

Fixpoint destroy_all (fl : Z) (arr : list (option positive)) : M hmem unit :=
  match arr with
  | [] => ret tt
  | h :: arr' => m <-- get ;; destroy_chain (walk_fuel m) fl h ;;; destroy_all fl arr'
  end.

Definition the_array (t : hash_table) : M hmem (list (option positive)) :=
  match array t with Some a => ret a | None => fail NullDeref end.

Definition ht_destroy (t : hash_table) : M hmem hash_table :=
  (if bool_decide (array_size t = 0) then ret tt
   else arr <-- the_array t ;; destroy_all (flags t) arr) ;;;
  ret (mkHt None None None 0 0 None 0 (flags t) (max_load_factor t) (current_load_factor t)).

Definition ht_index (t : hash_table) (key : blob) (key_size : Z) : M hmem Z :=
  match hashfunc_x86_32 t with
  | None => fail NullDeref
  | Some h =>
      bs <-- bytes_of key ;;
      m <-- get ;;
      index <-- lift (h bs (swrap 32 key_size) (global_seed m)) ;;
      if bool_decide (array_size t = 0) then fail DivByZero else ret (index mod array_size t)
  end.

(** [((struct timeval* )value)->tv_sec]: the first four bytes, as a [time_t] of
    32 bits. *)
Definition tv_sec (value : option blob) : M hmem Z :=
  match value with
  | None => fail NullDeref
  | Some v => bs <-- bytes_of v ;; w <-- lift (slice 0 4 bs) ;; ret (swrap 32 (le_num w))
  end.

(** The loop of [ht_insert_he]: the table, [prev] and [find_ret] after it.  An
    entry that is too old is taken out and freed on the way.  The age is a
    difference of signed words, which wraps here as in the compiled code; a
    difference that does not fit is an overflow of the language. *)
Fixpoint insert_walk (fuel : nat) (t : hash_table) (index now : Z) (entry : positive)
    (prev find_ret tmp : option positive) : M hmem (hash_table * option positive * option positive) :=
  match tmp with
  | None => ret (t, prev, find_ret)
  | Some p =>
      match fuel with
      | O => fail OutOfFuel
      | S f =>
          e <-- get_entry p ;;
          sec <-- tv_sec (he_value e) ;;
          if bool_decide (swrap 32 (now - sec) > AGE_TIMEOUT) then
            let t := set_key_count (uwrap 32 (key_count t - 1)) t in
            match prev with
            | None =>
                he_destroy (flags t) p ;;;
                arr <-- the_array t ;;
                arr <-- lift (wr arr index (he_next e)) ;;
                insert_walk f (set_array arr t) index now entry None find_ret (he_next e)
            | Some q =>
                let t := set_collisions (uwrap 32 (collisions t - 1)) t in
                he_destroy (flags t) p ;;;
                upd_entry q (set_next (he_next e)) ;;;
                insert_walk f t index now entry (he_next e) find_ret (he_next e)
            end
          else
            en <-- get_entry entry ;;
            same <-- he_key_compare e en ;;
            insert_walk f t index now entry (Some p) (if same : bool then Some p else find_ret) (he_next e)
      end
  end.

(** [ht_resize] with the insertion it uses. *)
Fixpoint move_chain (ins : hash_table -> option positive -> M hmem hash_table) (fuel : nat)
    (nt : hash_table) (entry : option positive) : M hmem hash_table :=
  match entry with
  | None => ret nt
  | Some p =>
      match fuel with
      | O => fail OutOfFuel
      | S f => e <-- get_entry p ;; nt <-- ins nt (Some p) ;; move_chain ins f nt (he_next e)
      end
  end.

Fixpoint move_all (ins : hash_table -> option positive -> M hmem hash_table)
    (arr : list (option positive)) (nt : hash_table) : M hmem hash_table :=
  match arr with
  | [] => ret nt
  | h :: arr' => m <-- get ;; nt <-- move_chain ins (walk_fuel m) nt h ;; move_all ins arr' nt
  end.

(** [new_table.current_load_factor] is not set; nothing reads it before it is
    assigned. *)
Definition resize_with (ins : hash_table -> option positive -> M hmem hash_table)
    (t : hash_table) (new_size : Z) : M hmem hash_table :=
  arr <-- alloc_array new_size ;;
  let nt := mkHt (hashfunc_x86_32 t) (hashfunc_x86_128 t) (hashfunc_x64_128 t) 0 new_size (Some arr) 0
              (flags t) (max_load_factor t) (mkD 0 0) in
  old <-- (if bool_decide (array_size t = 0) then ret [] else the_array t) ;;
  nt <-- move_all ins old nt ;;
  t <-- ht_destroy (set_array (null_array (array_size t)) t) ;;
  ret (mkHt (hashfunc_x86_32 nt) (hashfunc_x86_128 nt) (hashfunc_x64_128 nt) (key_count nt) (array_size nt)
         (array nt) (collisions nt) (flags t) (max_load_factor t) (current_load_factor t)).

Definition load (t : hash_table) : double := double_div (collisions t) (array_size t).

(** The end of [ht_insert_he] when the key was not found: the link. *)
Definition link_entry (index : Z) (p : positive) (t : hash_table) (prev : option positive) : M hmem hash_table :=
  arr <-- the_array t ;;
  head <-- lift (rd arr index) ;;
  match head, prev with
  | None, _ => arr <-- lift (wr arr index (Some p)) ;; ret (set_array arr t)
  | Some _, None => fail NullDeref
  | Some _, Some q =>
      upd_entry q (set_next (Some p)) ;;;
      ret (set_collisions (uwrap 32 (collisions t + 1)) t)
  end.

(** [fuel] bounds how deep insertions that resize are nested. *)
Fixpoint ht_insert_he (fuel : nat) (t : hash_table) (entry : option positive) : M hmem hash_table :=
  match entry with
  | None => fail NullDeref
  | Some p =>
      upd_entry p (set_next None) ;;;
      e <-- get_entry p ;;
      index <-- ht_index t (he_key e) (he_key_size e) ;;
      arr <-- the_array t ;;
      tmp <-- lift (rd arr index) ;;
      match tmp with
      | None =>
          arr <-- lift (wr arr index (Some p)) ;;
          ret (set_key_count (uwrap 32 (key_count t + 1)) (set_array arr t))
      | Some _ =>
          now <-- ext Time ;;
          m <-- get ;;
          r <-- insert_walk (walk_fuel m) t index now p None None tmp ;;
          let '(t, prev, find_ret) := r in
          match find_ret with
          | Some q =>
              e <-- get_entry p ;;
              he_set_value (flags t) q (he_value e) (he_value_size e) ;;;
              he_destroy (flags t) p ;;;
              ret (set_load (load t) t)
          | None =>
              let t := set_key_count (uwrap 32 (key_count t + 1)) t in
              t <-- link_entry index p t prev ;;
              let t := set_load (load t) t in
              if negb (has_flag (flags t) HT_NO_AUTORESIZE)
                 && double_gtb (current_load_factor t) (max_load_factor t)
              then
                match fuel with
                | O => fail OutOfFuel
                | S f =>
                    t <-- resize_with (ht_insert_he f) t (uwrap 32 (array_size t * 2)) ;;
                    ret (set_load (load t) t)
                end
              else ret t
          end
      end
  end.

Definition ht_resize (fuel : nat) (t : hash_table) (new_size : Z) : M hmem hash_table :=
  resize_with (ht_insert_he fuel) t new_size.

Definition ht_insert (fuel : nat) (t : hash_table) (key : blob) (key_size : Z) (value : blob) (value_size : Z)
  : M hmem hash_table :=
  entry <-- he_create (flags t) key key_size value value_size ;;
  ht_insert_he fuel t entry.

(** The walk that [ht_get], [ht_contains] and [ht_remove] share: the first entry
    with the key, and the entry before it. *)
Fixpoint find_entry (fuel : nat) (tmp : hash_entry) (prev entry : option positive)
  : M hmem (option (option positive * positive)) :=
  match entry with
  | None => ret None
  | Some p =>
      match fuel with
      | O => fail OutOfFuel
      | S f =>
          e <-- get_entry p ;;
          same <-- he_key_compare e tmp ;;
          if same : bool then ret (Some (prev, p)) else find_entry f tmp (Some p) (he_next e)
      end
  end.

Definition ht_lookup (t : hash_table) (key : blob) (key_size : Z)
  : M hmem (Z * list (option positive) * option (option positive * positive)) :=
  index <-- ht_index t key key_size ;;
  arr <-- the_array t ;;
  entry <-- lift (rd arr index) ;;
  m <-- get ;;
  r <-- find_entry (walk_fuel m) (mkHe key None key_size 0 None) None entry ;;
  ret (index, arr, r).

(** [ht_get]: the entry whose value is returned, with its value and its size. *)
Definition ht_get (t : hash_table) (key : blob) (key_size : Z)
  : M hmem (option (positive * option blob * Z)) :=
  r <-- ht_lookup t key key_size ;;
  match snd r with
  | None => ret None
  | Some (_, p) => e <-- get_entry p ;; ret (Some (p, he_value e, he_value_size e))
  end.

Definition ht_contains (t : hash_table) (key : blob) (key_size : Z) : M hmem Z :=
  r <-- ht_lookup t key key_size ;;
  ret (match snd r with Some _ => 1 | None => 0 end).

Definition ht_remove (t : hash_table) (key : blob) (key_size : Z) : M hmem hash_table :=
  r <-- ht_lookup t key key_size ;;
  let '(index, arr, found) := r in
  match found with
  | None => ret t
  | Some (prev, p) =>
      e <-- get_entry p ;;
      t <-- match prev with
            | None => arr <-- lift (wr arr index (he_next e)) ;; ret (set_array arr t)
            | Some q => upd_entry q (set_next (he_next e)) ;;; ret t
            end ;;
      let t := set_key_count (uwrap 32 (key_count t - 1)) t in
      let t := match prev with Some _ => set_collisions (uwrap 32 (collisions t - 1)) t | None => t end in
      he_destroy (flags t) p ;;;
      ret t
  end.

Definition ht_size (t : hash_table) : Z := key_count t.

(** [ret[*key_count] = tmp->key]: the array has [n] elements. *)
Fixpoint keys_chain (fuel : nat) (n : Z) (acc : list blob) (entry : option positive) : M hmem (list blob) :=
  match entry with
  | None => ret acc
  | Some p =>
      match fuel with
      | O => fail OutOfFuel
      | S f =>
          e <-- get_entry p ;;
          if bool_decide (zlen acc < n) then keys_chain f n (acc ++ [he_key e]) (he_next e)
          else fail OutOfBounds
      end
  end.

Fixpoint keys_all (n : Z) (acc : list blob) (arr : list (option positive)) : M hmem (list blob) :=
  match arr with
  | [] => ret acc
  | h :: arr' => m <-- get ;; acc <-- keys_chain (walk_fuel m) n acc h ;; keys_all n acc arr'
  end.

Definition ht_keys (t : hash_table) : M hmem (option (list blob)) :=
  if bool_decide (key_count t = 0) then ret None
  else
    r <-- ext (Malloc (uwrap 32 (key_count t * 4))) ;;
    arr <-- (if bool_decide (array_size t = 0) then ret [] else the_array t) ;;
    if bool_decide (r = 0 /\ existsb (fun h => match h with Some _ => true | None => false end) arr = true)
    then fail NullDeref
    else keys <-- keys_all (uwrap 32 (key_count t * 4) / 4) [] arr ;; ret (Some keys).

Definition ht_clear (t : hash_table) : M hmem hash_table :=
  t' <-- ht_destroy t ;; ht_init (flags t') (max_load_factor t').

Definition ht_set_seed (seed : Z) : M hmem unit :=
  modify (fun m => mkMem (ents m) (cmem m) seed (menv m)).

(** ** The interface to the hash function

    What the table needs of it: a 32-bit number for every key of bytes. *)

Class HashLaw (h : HashFunc Z) : Prop :=
  hash_word : forall k len seed, Forall u8 k -> 0 <= len <= zlen k -> word 32 seed ->
    exists v, h k len seed = Ok v /\ word 32 v.

#[export] Instance murmur_hash_law : HashLaw MurmurHash3_x86_32.
Proof. intros k len seed. apply x86_32_safe. Qed.

(** ** Representation *)

(** An entry of a chain: its address, key and value. *)
Record node : Type := mkNode { ptr : positive; nk : list Z; nv : list Z }.

Definition he_of (n : node) (nx : option positive) : hash_entry :=
  mkHe (Own (nk n)) (Some (Own (nv n))) (zlen (nk n)) (zlen (nv n)) nx.

Fixpoint chain (E : gmap positive hash_entry) (h : option positive) (ns : list node) : Prop :=
  match ns with
  | [] => h = None
  | n :: ns' => h = Some (ptr n) /\ exists nx, E !! ptr n = Some (he_of n nx) /\ chain E nx ns'
  end.

Definition slot (h : HashFunc Z) (seed size : Z) (k : list Z) : nat :=
  match h k (zlen k) seed with Ok v => Z.to_nat (v mod size) | Ub _ => O end.

(** How many entries are not the first of their chain: [collisions] is at least
    this (the code does not count down when the first of several goes). *)
Definition overlap (L : list (list node)) : Z := foldr (fun c z => Z.max 0 (zlen c - 1) + z) 0 L.

Definition key_ok (k : list Z) : Prop := Forall u8 k /\ zlen k < 2 ^ 31.

(** The structure of a table without flags: bucket [i] of [L] lists the entries
    of chain [i], every key is in the bucket of its hash, and the entries and
    the keys are all different. *)
Record core (h : HashFunc Z) (m : hmem) (t : hash_table) (L : list (list node)) : Prop := {
  rep_hash : hashfunc_x86_32 t = Some h;
  rep_flags : flags t = HT_NONE;
  rep_arr : exists arr, array t = Some arr /\ Forall2 (chain (ents m)) arr L;
  rep_len : zlen L = array_size t;
  rep_size : 0 < array_size t < 2 ^ 30;
  rep_nodup : NoDup (map ptr (concat L));
  rep_keys : NoDup (map nk (concat L));
  rep_place : forall i c n, L !! i = Some c -> n ∈ c ->
    i = slot h (global_seed m) (array_size t) (nk n) /\ key_ok (nk n) /\ 4 <= zlen (nv n);
  rep_count : key_count t = zlen (concat L);
  rep_many : zlen (concat L) < 2 ^ 24;
  rep_load : max_load_factor t = load_005;
  rep_seed : word 32 (global_seed m) }.

(** The invariant: also, collisions are few. *)
Definition rep (h : HashFunc Z) (m : hmem) (t : hash_table) (L : list (list node)) : Prop :=
  core h m t L /\ overlap L <= collisions t /\ 10 * collisions t <= array_size t.

(** The map that the table is. *)
Definition nodes_map (ns : list node) : gmap (list Z) (list Z) :=
  list_to_map (map (fun n => (nk n, nv n)) ns).
Definition ht_map (L : list (list node)) : gmap (list Z) (list Z) := nodes_map (concat L).

Lemma nodes_keys ns : (map (fun n => (nk n, nv n)) ns).*1 = map nk ns.
Proof. induction ns as [|n ns IH]; simpl; [done|]. now f_equal. Qed.

Lemma nodes_map_perm ns ns' : NoDup (map nk ns) -> ns ≡ₚ ns' -> nodes_map ns = nodes_map ns'.
Proof.
  intros Hn Hp. apply list_to_map_proper; [now rewrite nodes_keys|]. now apply Permutation_map.
Qed.

Lemma nodes_map_none ns k : k ∉ map nk ns -> nodes_map ns !! k = None.
Proof. intros H. apply not_elem_of_list_to_map. now rewrite nodes_keys. Qed.

Lemma nodes_map_delete ns n : NoDup (map nk (n :: ns)) -> nodes_map ns = delete (nk n) (nodes_map (n :: ns)).
Proof.
  intros Hn. apply NoDup_cons in Hn as [Hn _]. unfold nodes_map. simpl.
  rewrite delete_insert_id; [done|]. now apply nodes_map_none.
Qed.

(** ** Chains *)

Lemma chain_frame E E' h ns : chain E h ns -> (forall n, n ∈ ns -> E' !! ptr n = E !! ptr n) -> chain E' h ns.
Proof.
  revert h. induction ns as [|n ns IH]; intros h; simpl; [done|]. intros [-> (nx & Hn & Hc)] HE.
  split; [done|]. exists nx. rewrite HE by constructor. split; [done|].
  apply IH; [done|]. intros n' Hn'. apply HE. now constructor.
Qed.

Lemma chain_length E h ns : chain E h ns -> NoDup (map ptr ns) -> (length ns <= size E)%nat.
Proof.
  intros Hc Hn.
  assert (list_to_set (map ptr ns) ⊆ dom E) as Hs.
  { intros p Hp. apply elem_of_list_to_set in Hp. revert h Hc Hp. clear Hn.
    induction ns as [|n ns IH]; simpl; intros h Hc Hp; [inversion Hp|].
    destruct Hc as [_ (nx & Hx & Hc)]. apply elem_of_cons in Hp as [-> |Hp]; [|eauto].
    apply elem_of_dom. eauto. }
  rewrite <- (length_map ptr ns), <- (size_list_to_set (C := gset positive) (map ptr ns)) by done.
  rewrite <- size_dom. now apply subseteq_size.
Qed.

Lemma chain_node E h ns n : chain E h ns -> n ∈ ns -> exists nx, E !! ptr n = Some (he_of n nx).
Proof.
  revert h. induction ns as [|n' ns IH]; intros h Hc Hn; [inversion Hn|].
  destruct Hc as [_ (nx & Hx & Hc)]. apply elem_of_cons in Hn as [-> |Hn]; [eauto|]. eauto.
Qed.

Lemma chain_head E h ns : chain E h ns -> h = match ns with [] => None | n :: _ => Some (ptr n) end.
Proof. destruct ns; simpl; [done|]. now intros [-> _]. Qed.

(** Cutting out a node in the middle. *)
Lemma chain_cut E h a q n b : NoDup (map ptr (a ++ q :: n :: b)) -> chain E h (a ++ q :: n :: b) ->
  exists nx, E !! ptr n = Some (he_of n nx) /\
    chain (<[ptr q := he_of q nx]> E) h (a ++ q :: b).
Proof.
  revert h. induction a as [|x a IH]; intros h Hn; simpl in *.
  - intros [-> (y & Hq & -> & nx & Hx & Hc)]. exists nx. split; [done|]. split; [done|].
    exists nx. rewrite lookup_insert_eq. split; [done|]. eapply chain_frame; [exact Hc|].
    intros n' Hn'. rewrite lookup_insert_ne; [done|]. intros E1.
    apply NoDup_cons in Hn as [Hn _]. apply Hn. constructor. rewrite E1. now apply list_elem_of_fmap_2.
  - intros [-> (y & Hx & Hc)]. apply NoDup_cons in Hn as [Hn Hn'].
    destruct (IH y Hn' Hc) as (nx & Hnx & Hc'). exists nx. split; [done|]. split; [done|].
    exists y. rewrite lookup_insert_ne; [done|]. intros E1. apply Hn. rewrite <- E1.
    apply (list_elem_of_fmap_2 ptr), elem_of_app. right. constructor.
Qed.

(** ** Lookup *)

Lemma get_entry_run m p e : ents m !! p = Some e -> get_entry p m = Ok (e, m).
Proof. intros H. unfold get_entry, bind, get. now rewrite H. Qed.

Lemma upd_entry_run m p e f : ents m !! p = Some e -> upd_entry p f m = Ok (tt, on_ents <[p := f e]> m).
Proof. intros H. unfold upd_entry. now rewrite (bind_Ok _ _ _ _ _ (get_entry_run _ _ _ H)). Qed.

Lemma slice_all {A} (l : list A) : slice 0 (zlen l) l = Ok l.
Proof.
  unfold slice. rewrite bool_decide_eq_true_2 by (unfold zlen; lia). unfold zlen. now rewrite Nat2Z.id, take_ge.
Qed.

Lemma compare_run n nx e2 k m : he_key e2 = Own k -> he_key_size e2 = zlen k ->
  he_key_compare (he_of n nx) e2 m = Ok (bool_decide (nk n = k), m).
Proof.
  intros Hk Hs. unfold he_key_compare. simpl. rewrite Hk, Hs. case_bool_decide as E.
  - rewrite bool_decide_eq_false_2; [done|]. intros E'. apply E. now rewrite E'.
  - unfold bind, ret, lift, memeq. simpl. rewrite slice_all.
    rewrite E, slice_all. done.
Qed.

Fixpoint find_node (prev : option positive) (k : list Z) (ns : list node) : option (option positive * node) :=
  match ns with
  | [] => None
  | n :: ns' => if bool_decide (nk n = k) then Some (prev, n) else find_node (Some (ptr n)) k ns'
  end.

Lemma find_entry_run m k ns : forall fuel prev h, chain (ents m) h ns -> (length ns <= fuel)%nat ->
  find_entry fuel (mkHe (Own k) None (zlen k) 0 None) prev h m
  = Ok ((fun r => (fst r, ptr (snd r))) <$> find_node prev k ns, m).
Proof.
  induction ns as [|n ns IH]; intros fuel prev h Hc Hf; simpl in Hc.
  - subst h. now destruct fuel.
  - destruct Hc as [-> (nx & Hn & Hc)]. destruct fuel as [|fuel]; [simpl in Hf; lia|]. cbn [find_entry].
    rewrite (bind_Ok _ _ _ _ _ (get_entry_run _ _ _ Hn)).
    erewrite bind_Ok by (apply compare_run; reflexivity). simpl find_node.
    case_bool_decide; [done|]. apply IH; [done|simpl in Hf; lia].
Qed.

Lemma find_node_spec k ns : forall prev,
  match find_node prev k ns with
  | None => k ∉ map nk ns
  | Some (pr, n) => exists a b, ns = a ++ n :: b /\ nk n = k /\ (k ∉ map nk a) /\
      pr = match last a with Some x => Some (ptr x) | None => prev end
  end.
Proof.
  induction ns as [|n ns IH]; intros prev; simpl; [apply not_elem_of_nil|].
  case_bool_decide as E.
  - exists [], ns. split; [done|]. split; [done|]. split; [apply not_elem_of_nil|done].
  - specialize (IH (Some (ptr n))). destruct (find_node _ _ _) as [[pr n']|].
    + destruct IH as (a & b & -> & Hk & Ha & ->). exists (n :: a), b.
      split; [done|]. split; [done|]. split; [apply not_elem_of_cons; split; [congruence|done]|].
      rewrite last_cons. now destruct (last a).
    + apply not_elem_of_cons. split; [congruence|done].
Qed.

(** One bucket among all. *)
Lemma concat_at {A} (L : list (list A)) i c : L !! i = Some c ->
  exists a b, concat L = a ++ c ++ b /\ forall c', concat (<[i := c']> L) = a ++ c' ++ b.
Proof.
  intros Hc. exists (concat (take i L)), (concat (drop (S i) L)). split.
  - rewrite <- (take_drop_middle L i c Hc) at 1. rewrite concat_app. done.
  - intros c'. rewrite insert_take_drop by (eapply lookup_lt_Some, Hc). rewrite concat_app. done.
Qed.

Lemma bucket_nodup {A B} (f : A -> B) L i c : L !! i = Some c -> NoDup (map f (concat L)) -> NoDup (map f c).
Proof.
  intros Hc. destruct (concat_at L i c Hc) as (a & b & -> & _). rewrite !map_app.
  intros Hn. apply NoDup_app in Hn as (_ & _ & Hn). now apply NoDup_app in Hn as (Hn & _).
Qed.

Lemma elem_of_bucket {A} (L : list (list A)) x : x ∈ concat L <-> exists i c, L !! i = Some c /\ x ∈ c.
Proof.
  rewrite list_elem_of_In, in_concat. split.
  - intros (c & Hc & Hx). apply list_elem_of_In in Hc, Hx. apply list_elem_of_lookup in Hc as [i Hi]. eauto.
  - intros (i & c & Hi & Hx). exists c. rewrite <- !list_elem_of_In. split; [|done].
    eapply list_elem_of_lookup_2, Hi.
Qed.

Lemma overlap_insert L i c c' : L !! i = Some c ->
  overlap (<[i := c']> L) = overlap L - Z.max 0 (zlen c - 1) + Z.max 0 (zlen c' - 1).
Proof.
  revert i. induction L as [|d L IH]; intros [|i] Hc; simpl in *; try discriminate.
  - injection Hc as ->. lia.
  - rewrite (IH i Hc). lia.
Qed.

Lemma overlap_nonneg L : 0 <= overlap L.
Proof. induction L; simpl; lia. Qed.

Section Table.
Context (h : HashFunc Z) {Hh : HashLaw h}.

#[local] Set Default Proof Using "Hh".

Lemma index_run m t L k : core h m t L -> key_ok k ->
  ht_index t (Own k) (zlen k) m = Ok (Z.of_nat (slot h (global_seed m) (array_size t) k), m) /\
  (slot h (global_seed m) (array_size t) k < length L)%nat.
Proof.
  intros R [Hk Hl]. pose proof (rep_size _ _ _ _ R) as Hs. pose proof (rep_len _ _ _ _ R) as HL.
  pose proof (zlen_nonneg k). unfold ht_index, slot. rewrite (rep_hash _ _ _ _ R).
  destruct (hash_word k (zlen k) (global_seed m) Hk) as (v & Hv & Hw); [lia|apply (rep_seed _ _ _ _ R)|].
  rewrite Hv. pose proof (Z.mod_pos_bound v (array_size t) ltac:(lia)). split; [|unfold zlen in HL; lia].
  rewrite (bind_Ok _ _ m k m), (bind_Ok _ _ m m m) by done.
  rewrite swrap_small by lia. rewrite (bind_Ok _ _ m v m) by (unfold lift; now rewrite Hv).
  rewrite bool_decide_eq_false_2 by lia. unfold ret. do 2 f_equal. lia.
Qed.

(** The chain of a key. *)
Lemma bucket_of m t L k : core h m t L -> key_ok k ->
  exists arr hd c, array t = Some arr /\
    rd arr (Z.of_nat (slot h (global_seed m) (array_size t) k)) = Ok hd /\
    arr !! slot h (global_seed m) (array_size t) k = Some hd /\
    L !! slot h (global_seed m) (array_size t) k = Some c /\ chain (ents m) hd c /\
    NoDup (map ptr c) /\ length arr = length L.
Proof.
  intros R Hk. destruct (index_run m t L k R Hk) as [_ Hlt]. set (i := slot _ _ _ _) in *.
  destruct (rep_arr _ _ _ _ R) as (arr & Ha & HF).
  destruct (lookup_lt_is_Some_2 L i Hlt) as [c Hc].
  destruct (Forall2_lookup_r _ _ _ _ _ HF Hc) as (hd & Hhd & Hch).
  exists arr, hd, c. split; [done|]. split; [apply rd_Some; [lia|now rewrite Nat2Z.id]|].
  do 3 (split; [done|]). split; [|eapply Forall2_length; exact HF].
  apply (bucket_nodup ptr L i c Hc). apply (rep_nodup _ _ _ _ R).
Qed.

Lemma lookup_run m t L k : core h m t L -> key_ok k ->
  exists arr c, array t = Some arr /\ L !! slot h (global_seed m) (array_size t) k = Some c /\
  ht_lookup t (Own k) (zlen k) m
  = Ok ((Z.of_nat (slot h (global_seed m) (array_size t) k), arr,
         (fun r => (fst r, ptr (snd r))) <$> find_node None k c), m).
Proof.
  intros R Hk. destruct (bucket_of m t L k R Hk) as (arr & hd & c & Ha & Hrd & _ & Hc & Hch & Hn & _).
  exists arr, c. split; [done|]. split; [done|]. unfold ht_lookup.
  rewrite (bind_Ok _ _ _ _ _ (proj1 (index_run m t L k R Hk))).
  rewrite (bind_Ok _ _ m arr m) by (unfold the_array; now rewrite Ha).
  rewrite (bind_Ok _ _ m hd m) by (unfold lift; now rewrite Hrd).
  rewrite (bind_Ok _ _ m m m) by done.
  erewrite bind_Ok; [reflexivity|]. apply find_entry_run; [done|].
  unfold walk_fuel. pose proof (chain_length _ _ _ Hch Hn). lia.
Qed.

(** A key is in the map exactly when its bucket has it. *)
Lemma ht_map_bucket m t L k c : core h m t L -> key_ok k ->
  L !! slot h (global_seed m) (array_size t) k = Some c ->
  ht_map L !! k = (nv ∘ snd) <$> find_node None k c.
Proof.
  intros R Hk Hc. pose proof (find_node_spec k c None) as Hf. unfold ht_map.
  destruct (find_node None k c) as [[pr n]|]; simpl.
  - destruct Hf as (a & b & -> & <- & _ & _). apply elem_of_list_to_map.
    { rewrite nodes_keys. apply (rep_keys _ _ _ _ R). }
    apply (list_elem_of_fmap_2 (fun n => (nk n, nv n))). apply elem_of_bucket. eexists _, _. split; [exact Hc|].
    apply elem_of_app. right. constructor.
  - apply not_elem_of_list_to_map. rewrite nodes_keys. intros Hin.
    apply list_elem_of_fmap in Hin as (n & -> & Hn). simpl in *.
    apply elem_of_bucket in Hn as (i & c' & Hi & Hn).
    destruct (rep_place _ _ _ _ R i c' n Hi Hn) as [-> _].
    rewrite Hc in Hi. injection Hi as <-. apply Hf. now apply list_elem_of_fmap_2.
Qed.

(** What [ht_get] and [ht_contains] answer. *)
Lemma get_run m t L k : core h m t L -> key_ok k ->
  ht_contains t (Own k) (zlen k) m = Ok (match ht_map L !! k with Some _ => 1 | None => 0 end, m) /\
  exists r, ht_get t (Own k) (zlen k) m = Ok (r, m) /\
    match ht_map L !! k, r with
    | Some v, Some (p, b, n) =>
        b = Some (Own v) /\ n = zlen v /\ mkNode p k v ∈ concat L /\
        exists nx, ents m !! p = Some (he_of (mkNode p k v) nx)
    | None, None => True
    | _, _ => False
    end.
Proof.
  intros R Hk. destruct (lookup_run m t L k R Hk) as (arr & c & Ha & Hc & Hl).
  rewrite (ht_map_bucket m t L k c R Hk Hc). unfold ht_contains, ht_get.
  rewrite !(bind_Ok _ _ _ _ _ Hl). pose proof (find_node_spec k c None) as Hf. cbn [snd].
  destruct (find_node None k c) as [[pr n]|]; simpl; [|split; [done|]; by exists None].
  split; [done|]. destruct Hf as (a & b & -> & <- & _).
  destruct (bucket_of m t L (nk n) R Hk) as (_ & hd & c' & _ & _ & _ & Hc' & Hch & _).
  rewrite Hc in Hc'. injection Hc' as <-.
  destruct (chain_node _ _ _ n Hch) as [nx Hnx]; [apply elem_of_app; right; constructor|].
  rewrite (bind_Ok _ _ _ _ _ (get_entry_run _ _ _ Hnx)).
  eexists. split; [reflexivity|]. simpl. split; [done|]. split; [done|]. split; [|exists nx; now destruct n].
  apply elem_of_bucket. eexists _, _. split; [exact Hc|]. apply elem_of_app. right. destruct n. constructor.
Qed.

(** Changing one bucket. *)
Lemma rep_bucket m t L i c m' t' hd' c' arr : core h m t L -> L !! i = Some c -> array t = Some arr ->
  global_seed m' = global_seed m ->
  hashfunc_x86_32 t' = hashfunc_x86_32 t -> flags t' = flags t -> max_load_factor t' = max_load_factor t -> array_size t' = array_size t ->
  array t' = Some (<[i := hd']> arr) -> chain (ents m') hd' c' ->
  (forall j d n, j <> i -> L !! j = Some d -> n ∈ d -> ents m' !! ptr n = ents m !! ptr n) ->
  NoDup (map ptr (concat (<[i := c']> L))) -> NoDup (map nk (concat (<[i := c']> L))) ->
  (forall n, n ∈ c' -> i = slot h (global_seed m) (array_size t) (nk n) /\ key_ok (nk n) /\ 4 <= zlen (nv n)) ->
  key_count t' = zlen (concat (<[i := c']> L)) -> zlen (concat (<[i := c']> L)) < 2 ^ 24 ->
  core h m' t' (<[i := c']> L).
Proof.
  intros R Hc Ha Es Eh Ef El Ez Ea Hch Hfr Hn1 Hn2 Hp Hk Hm.
  pose proof (lookup_lt_Some _ _ _ Hc) as Hi.
  split; rewrite ?Eh, ?Ef, ?El, ?Ez, ?Es; try done; try apply R.
  - exists (<[i := hd']> arr). split; [done|]. destruct (rep_arr _ _ _ _ R) as (arr' & Ea' & HF).
    rewrite Ha in Ea'. injection Ea' as <-. apply Forall2_same_length_lookup_2.
    { rewrite !length_insert. eapply Forall2_length, HF. }
    intros j x y Hx Hy. destruct (decide (j = i)) as [->|Hne].
    + rewrite list_lookup_insert_eq in Hx by (rewrite (Forall2_length _ _ _ HF); done).
      rewrite list_lookup_insert_eq in Hy by done. congruence.
    + rewrite list_lookup_insert_ne in Hx by done. rewrite list_lookup_insert_ne in Hy by done.
      eapply chain_frame; [eapply Forall2_lookup_lr; eauto|]. intros n Hin. eapply Hfr; eauto.
  - unfold zlen. rewrite length_insert. apply (rep_len _ _ _ _ R).
  - intros j d n Hj Hin. destruct (decide (j = i)) as [->|Hne].
    + rewrite list_lookup_insert_eq in Hj by done. injection Hj as <-. auto.
    + rewrite list_lookup_insert_ne in Hj by done. apply (rep_place _ _ _ _ R j d n Hj Hin).
Qed.

(** Entries of different buckets are different. *)
Lemma other_bucket m t L i c n j d n' : core h m t L -> L !! i = Some c -> n ∈ c ->
  j <> i -> L !! j = Some d -> n' ∈ d -> ptr n' <> ptr n.
Proof.
  intros R Hi Hn Hne Hj Hn' E.
  pose proof (rep_nodup _ _ _ _ R) as Hnd.
  assert (n' = n) as ->.
  { apply (NoDup_fmap_inj_on ptr (concat L)); [done|apply elem_of_bucket; eauto..|done]. }
  apply Hne. destruct (rep_place _ _ _ _ R j d n Hj Hn') as [-> _].
  now destruct (rep_place _ _ _ _ R i c n Hi Hn) as [-> _].
Qed.

(** Two states of the memory that agree outside a set of entries and on
    everything else. *)
Definition only_ents (ps : list positive) (m m' : hmem) : Prop :=
  (forall q, q ∉ ps -> ents m' !! q = ents m !! q) /\ cmem m' = cmem m /\ global_seed m' = global_seed m.

(** The bucket without one of its nodes. *)
Lemma rep_without m t L i a n b m' t' hd' arr : core h m t L -> L !! i = Some (a ++ n :: b) ->
  array t = Some arr -> global_seed m' = global_seed m ->
  hashfunc_x86_32 t' = hashfunc_x86_32 t -> flags t' = flags t -> max_load_factor t' = max_load_factor t -> array_size t' = array_size t ->
  array t' = Some (<[i := hd']> arr) -> chain (ents m') hd' (a ++ b) ->
  (forall q, q ∉ map ptr (a ++ n :: b) -> ents m' !! q = ents m !! q) ->
  key_count t' = uwrap 32 (key_count t - 1) ->
  core h m' t' (<[i := a ++ b]> L) /\ ht_map (<[i := a ++ b]> L) = delete (nk n) (ht_map L).
Proof.
  intros R Hc Ha Es Eh Ef El Ez Ea Hch Hfr Hk.
  destruct (concat_at L i _ Hc) as (A & B & EL & EL').
  assert (concat L ≡ₚ n :: concat (<[i := a ++ b]> L)) as HP
    by (rewrite EL, EL'; solve_Permutation).
  pose proof (rep_nodup _ _ _ _ R) as Hn1. pose proof (rep_keys _ _ _ _ R) as Hn2.
  rewrite (Permutation_map ptr HP) in Hn1. rewrite (Permutation_map nk HP) in Hn2.
  pose proof (rep_count _ _ _ _ R) as Hcn. pose proof (rep_many _ _ _ _ R) as Hmany.
  assert (zlen (concat L) = 1 + zlen (concat (<[i := a ++ b]> L))) as Hz
    by (rewrite HP, zlen_cons; lia).
  pose proof (zlen_nonneg (concat (<[i := a ++ b]> L))).
  split.
  - eapply (rep_bucket m t L i); eauto.
    + intros j d n' Hne Hj Hin. apply Hfr. intros Hin'. apply list_elem_of_fmap in Hin' as (x & Ex & Hx).
      eapply (other_bucket m t L i _ x j d n'); eauto.
    + now apply NoDup_cons in Hn1 as [_ Hn1].
    + now apply NoDup_cons in Hn2 as [_ Hn2].
    + intros x Hx. apply (rep_place _ _ _ _ R i _ x Hc). rewrite elem_of_app in Hx |- *.
      destruct Hx; [by left|right; by constructor].
    + rewrite Hk, uwrap_small by lia. lia.
    + lia.
  - unfold ht_map. rewrite (nodes_map_perm (concat L) _ (rep_keys _ _ _ _ R) HP).
    now apply nodes_map_delete.
Qed.

Lemma remove_run m t L k : rep h m t L -> key_ok k ->
  exists t' m' L', ht_remove t (Own k) (zlen k) m = Ok (t', m') /\ rep h m' t' L' /\
    ht_map L' = delete k (ht_map L) /\ only_ents (map ptr (concat L)) m m' /\ menv m' = menv m.
Proof.
  intros (R & Hcl & Hten) Hk. destruct (lookup_run m t L k R Hk) as (arr & c & Ha & Hc & Hl).
  unfold ht_remove. rewrite (bind_Ok _ _ _ _ _ Hl). set (i := slot _ _ _ _) in *.
  destruct (bucket_of m t L k R Hk) as (arr' & hd & c' & Ha' & Hrd & Hhd & Hc' & Hch & Hnd & Hlen).
  fold i in Hrd, Hhd, Hc'. rewrite Ha in Ha'. rewrite Hc in Hc'. injection Ha' as <-. injection Hc' as <-.
  pose proof (find_node_spec k c None) as Hf.
  destruct (find_node None k c) as [[pr n]|] eqn:Ef; simpl.
  2: { exists t, m, L. split; [done|]. split; [done|]. split; [|split; [|done]].
       - rewrite delete_id; [done|]. rewrite (ht_map_bucket m t L k c R Hk Hc), Ef. done.
       - split; [done|]. done. }
  destruct Hf as (a & b & -> & <- & Hka & ->).
  assert (forall q, q ∉ map ptr (concat L) -> q ∉ map ptr (a ++ n :: b)) as Hsub.
  { intros q Hq Hin. apply Hq. apply list_elem_of_fmap in Hin as (x & -> & Hx).
    apply list_elem_of_fmap_2, elem_of_bucket. eauto. }
  assert (0 <= Z.of_nat i < zlen arr) as Hi by (unfold zlen; apply lookup_lt_Some in Hhd; lia).
  pose proof (overlap_insert L i _ (a ++ b) Hc) as Hov. pose proof (overlap_nonneg (<[i := a ++ b]> L)) as Hov0.
  destruct (last a) as [q|] eqn:Hq.
  - apply last_Some in Hq as [a' ->]. rewrite <- app_assoc in Hch, Hnd. simpl in Hch, Hnd.
    destruct (chain_cut _ _ _ _ _ _ Hnd Hch) as (nx & Hnx & Hch').
    destruct (chain_node _ _ _ q Hch) as [qx Hqx]; [apply elem_of_app; right; constructor|].
    assert (ptr q <> ptr n) as Hqn.
    { rewrite map_app in Hnd. apply NoDup_app in Hnd as (_ & _ & Hnd). apply NoDup_cons in Hnd as [Hnd _].
      intros E. apply Hnd. rewrite E. constructor. }
    rewrite (bind_Ok _ _ _ _ _ (get_entry_run _ _ _ Hnx)). cbn [he_next he_of].
    set (m1 := on_ents <[ptr q := he_of q nx]> m).
    rewrite (bind_Ok _ _ m t m1)
      by (rewrite (bind_Ok _ _ m tt m1); [done|exact (upd_entry_run m (ptr q) _ (set_next nx) Hqx)]).
    set (m2 := on_ents (delete (ptr n)) m1).
    rewrite (bind_Ok _ _ m1 tt m2).
    2: { unfold he_destroy. rewrite (bind_Ok _ _ m1 (he_of n nx) m1); [done|]. apply get_entry_run.
         simpl. now rewrite lookup_insert_ne by done. }
    assert (forall x, x ∉ map ptr ((a' ++ [q]) ++ n :: b) -> ents m2 !! x = ents m !! x) as Hfr.
    { intros x Hx. rewrite map_app, map_app, !not_elem_of_app in Hx. destruct Hx as [[_ Hx1] Hx2].
      apply not_elem_of_cons in Hx1 as [Hx1 _]. apply not_elem_of_cons in Hx2 as [Hx2 _].
      simpl. rewrite lookup_delete_ne, lookup_insert_ne by congruence. done. }
    eexists _, m2, (<[i := (a' ++ [q]) ++ b]> L). split; [reflexivity|].
    destruct (rep_without m t L i (a' ++ [q]) n b m2
      (set_collisions (uwrap 32 (collisions t - 1)) (set_key_count (uwrap 32 (key_count t - 1)) t)) hd arr)
      as [R' Hmap]; try done.
    { simpl. now rewrite list_insert_id. }
    { rewrite <- app_assoc. simpl. eapply chain_frame; [exact Hch'|]. intros x Hx.
      simpl. rewrite lookup_delete_ne; [done|]. intros E.
      assert (map ptr (a' ++ q :: n :: b) ≡ₚ ptr n :: map ptr (a' ++ q :: b)) as HP
        by (rewrite !map_app; simpl; solve_Permutation).
      rewrite HP in Hnd. apply NoDup_cons in Hnd as [Hnd _]. apply Hnd. rewrite E. now apply list_elem_of_fmap_2. }
    split.
    { split; [exact R'|]. simpl. autorewrite with zlen in Hov. pose proof (zlen_nonneg a').
      pose proof (zlen_nonneg b). pose proof (rep_size _ _ _ _ R). rewrite uwrap_small; lia. } split; [exact Hmap|]. split; [|done]. split; [|done]. intros x Hx. apply Hfr. auto.
  - apply last_None in Hq as ->. simpl in Hch, Hnd, Hov, Hsub |- *. destruct Hch as [-> (nx & Hnx & Hch)].
    rewrite (bind_Ok _ _ _ _ _ (get_entry_run _ _ _ Hnx)). cbn [he_next he_of].
    erewrite bind_Ok by (rewrite (bind_Ok _ _ m (<[i := nx]> arr) m); [reflexivity|];
      unfold lift; rewrite wr_Ok by done; now rewrite Nat2Z.id).
    set (m2 := on_ents (delete (ptr n)) m).
    rewrite (bind_Ok _ _ m tt m2)
      by (unfold he_destroy; rewrite (bind_Ok _ _ _ _ _ (get_entry_run _ _ _ Hnx)); done).
    assert (forall x, x ∉ map ptr (n :: b) -> ents m2 !! x = ents m !! x) as Hfr.
    { intros x Hx. apply not_elem_of_cons in Hx as [Hx _]. simpl. now rewrite lookup_delete_ne by congruence. }
    eexists _, m2, (<[i := [] ++ b]> L). split; [reflexivity|].
    destruct (rep_without m t L i [] n b m2 (set_key_count (uwrap 32 (key_count t - 1)) (set_array (<[i := nx]> arr) t)) nx arr)
      as [R' Hmap]; try done.
    { eapply chain_frame; [exact Hch|]. intros x Hx. simpl. rewrite lookup_delete_ne; [done|]. intros E.
      apply NoDup_cons in Hnd as [Hnd _]. apply Hnd. rewrite E. now apply list_elem_of_fmap_2. }
    split.
    { split; [exact R'|]. simpl in *. rewrite zlen_cons in Hov. lia. } split; [exact Hmap|]. split; [|done]. split; [|done]. intros x Hx. apply Hfr. auto.
Qed.
End Table.

(** ** Load factors: facts *)

Lemma round_half_even_bounds n d : 0 < d ->
  2 * (round_half_even n d * d) <= 2 * n + d /\ 2 * n <= 2 * (round_half_even n d * d) + d.
Proof.
  intros Hd. unfold round_half_even. pose proof (Z.div_mod n d ltac:(lia)) as E.
  pose proof (Z.mod_pos_bound n d Hd). case_bool_decide; nia.
Qed.

Lemma gtb_cross m x s y : 0 <= s -> 0 <= y ->
  double_gtb (mkD m (- s)) (mkD x (- y)) = bool_decide (m * 2 ^ y > x * 2 ^ s).
Proof.
  intros Hs Hy. unfold double_gtb. simpl. apply bool_decide_ext.
  destruct (Z.le_ge_cases s y).
  - rewrite Z.min_r by lia. replace (- s - - y) with (y - s) by lia. replace (- y - - y) with 0 by lia.
    replace (2 ^ y) with (2 ^ (y - s) * 2 ^ s) by (rewrite <- Z.pow_add_r by lia; f_equal; lia). nia.
  - rewrite Z.min_l by lia. replace (- s - - s) with 0 by lia. replace (- y - - s) with (s - y) by lia.
    replace (2 ^ s) with (2 ^ (s - y) * 2 ^ y) by (rewrite <- Z.pow_add_r by lia; f_equal; lia). nia.
Qed.

(** The comparison with 0.05, without rounding. *)
Lemma load_test c s : 0 <= c < 2 ^ 31 -> 0 < s < 2 ^ 31 ->
  if double_gtb (double_div c s) load_005 then s < 21 * c else 10 * c <= s.
Proof.
  intros Hc Hs. unfold double_div. case_bool_decide as E0.
  { subst c. change (double_gtb (mkD 0 0) load_005) with false. cbv iota. lia. }
  pose proof (Z.log2_spec c ltac:(lia)) as [Lc _]. pose proof (Z.log2_spec s ltac:(lia)) as [_ Ls].
  pose proof (Z.log2_nonneg c). pose proof (Z.log2_nonneg s).
  assert (Z.log2 c < 31) by (apply Z.log2_lt_pow2; lia).
  set (s0 := 53 - (Z.log2 c - Z.log2 s)).
  set (sh := if bool_decide (c * 2 ^ s0 >= s * 2 ^ 53) then s0 - 1 else s0).
  assert (0 <= sh /\ s * 2 ^ 52 <= c * 2 ^ sh) as [Hsh Hlow].
  { assert (2 ^ (53 + Z.log2 s) <= c * 2 ^ s0) as Hbig.
    { replace (53 + Z.log2 s) with (Z.log2 c + s0) by (unfold s0; lia).
      rewrite Z.pow_add_r by (unfold s0; lia). apply Z.mul_le_mono_nonneg_r; lia. }
    rewrite Z.pow_add_r in Hbig by lia.
    unfold sh. case_bool_decide; (split; [unfold s0; lia|]).
    - replace (2 ^ s0) with (2 * 2 ^ (s0 - 1)) in * by (rewrite <- Z.pow_succ_r by (unfold s0; lia); f_equal; lia).
      change (2 ^ 53) with (2 * 2 ^ 52) in *. nia.
    - rewrite Z.pow_succ_r in Ls by lia. change (2 ^ 53) with (2 * 2 ^ 52) in *. nia. }
  destruct (round_half_even_bounds (c * 2 ^ sh) s ltac:(lia)) as [R1 R2].
  set (r := round_half_even (c * 2 ^ sh) s) in *. unfold load_005.
  change (-56) with (- (56)). rewrite (gtb_cross r 3602879701896397 sh 56) by lia.
  assert (0 < 2 ^ sh) as Hp by (apply Z.pow_pos_nonneg; lia). set (P := 2 ^ sh) in *.
  change (2 ^ 56) with 72057594037927936 in *. change (2 ^ 52) with 4503599627370496 in *.
  case_bool_decide as Hg; nia.
Qed.

(** ** The walk of an insertion *)

Definition sec_of (v : list Z) : Z := swrap 32 (le_num (take 4 v)).
Definition aged (now : Z) (n : node) : Prop := swrap 32 (now - sec_of (nv n)) > AGE_TIMEOUT.

Lemma tv_sec_run n nx m : 4 <= zlen (nv n) -> tv_sec (he_value (he_of n nx)) m = Ok (sec_of (nv n), m).
Proof.
  intros Hl. unfold tv_sec. simpl. rewrite (bind_Ok _ _ m (nv n) m) by done.
  rewrite (bind_Ok _ _ m (take 4 (nv n)) m); [done|].
  unfold lift, slice. rewrite bool_decide_eq_true_2 by lia. done.
Qed.

Definition walk_prev (prev : option positive) (ns : list node) : option positive :=
  match last ns with Some n => Some (ptr n) | None => prev end.

Fixpoint walk_find (find : option positive) (k : list Z) (ns : list node) : option positive :=
  match ns with
  | [] => find
  | n :: ns' => walk_find (if bool_decide (nk n = k) then Some (ptr n) else find) k ns'
  end.

(** Over entries that are not too old, the walk only looks. *)
Lemma walk_young m t i now p k v nx ns : ents m !! p = Some (he_of (mkNode p k v) nx) ->
  Forall (fun n => ~ aged now n /\ 4 <= zlen (nv n)) ns ->
  forall fuel prev find hd, chain (ents m) hd ns -> (length ns <= fuel)%nat ->
  insert_walk fuel t i now p prev find hd m = Ok ((t, walk_prev prev ns, walk_find find k ns), m).
Proof.
  intros Hp HF. induction HF as [|n ns [Hy Hl] HF IH]; intros fuel prev find hd Hc Hf; simpl in Hc.
  - subst hd. now destruct fuel.
  - destruct Hc as [-> (nx' & Hn & Hc)]. destruct fuel as [|fuel]; [simpl in Hf; lia|]. cbn [insert_walk].
    rewrite (bind_Ok _ _ _ _ _ (get_entry_run _ _ _ Hn)), (bind_Ok _ _ _ _ _ (tv_sec_run n nx' m Hl)).
    rewrite bool_decide_eq_false_2 by exact Hy. rewrite (bind_Ok _ _ _ _ _ (get_entry_run _ _ _ Hp)).
    rewrite (bind_Ok _ _ _ _ _ (compare_run n nx' (he_of (mkNode p k v) nx) k m eq_refl eq_refl)).
    rewrite (IH fuel) by (simpl in Hf; done || lia). unfold walk_prev. rewrite last_cons.
    cbn [walk_find]. case_bool_decide; now destruct (last ns).
Qed.

Lemma walk_find_absent find k ns : k ∉ map nk ns -> walk_find find k ns = find.
Proof.
  induction ns as [|n ns IH]; simpl; [done|]. intros Hk. apply not_elem_of_cons in Hk as [Hk Hks].
  rewrite bool_decide_eq_false_2 by congruence. auto.
Qed.

Lemma walk_find_present find n a b : NoDup (map nk (a ++ n :: b)) ->
  walk_find find (nk n) (a ++ n :: b) = Some (ptr n).
Proof.
  revert find. induction a as [|x a IH]; intros find Hn; simpl in *; apply NoDup_cons in Hn as [Hx Hn].
  - rewrite bool_decide_eq_true_2 by done. now rewrite walk_find_absent.
  - apply IH. done.
Qed.

Section Insert.
Context (h : HashFunc Z) {Hh : HashLaw h}.

#[local] Set Default Proof Using "Hh".

Lemma only_ents_refl ps m : only_ents ps m m.
Proof. done. Qed.

Lemma only_ents_trans ps qs m1 m2 m3 : only_ents ps m1 m2 -> only_ents qs m2 m3 -> only_ents (ps ++ qs) m1 m3.
Proof.
  intros (A1 & A2 & A3) (B1 & B2 & B3). split; [|split; congruence].
  intros q Hq. apply not_elem_of_app in Hq as [Hp Hq]. rewrite B1, A1 by done. done.
Qed.

Lemma only_ents_weaken ps qs m m' : only_ents ps m m' -> (forall q, q ∈ ps -> q ∈ qs) -> only_ents qs m m'.
Proof. intros (A1 & A) Hs. split; [|done]. intros q Hq. apply A1. auto. Qed.

(** The entries at the front of the chain that are too old are taken out, and
    the walk goes on with a table without them. *)
Lemma walk_old now i p ns old : forall m t L arr hd fuel,
  core h m t L -> L !! i = Some (old ++ ns) -> array t = Some arr -> arr !! i = Some hd ->
  Forall (aged now) old -> (length (old ++ ns) <= fuel)%nat ->
  exists m' t' arr' hd' fuel', (length ns <= fuel')%nat /\
    insert_walk fuel t (Z.of_nat i) now p None None hd m
    = insert_walk fuel' t' (Z.of_nat i) now p None None hd' m' /\
    core h m' t' (<[i := ns]> L) /\ array t' = Some arr' /\ arr' !! i = Some hd' /\
    only_ents (map ptr old) m m' /\ menv m' = menv m /\ collisions t' = collisions t /\
    array_size t' = array_size t.
Proof.
  induction old as [|n old IH]; intros m t L arr hd fuel R Hi Ha Hhd HF Hf.
  - exists m, t, arr, hd, fuel. rewrite list_insert_id by done. do 8 (split; [done|]). done.
  - apply Forall_cons_1 in HF as [Hn HF]. simpl in Hf. destruct fuel as [|fuel]; [lia|].
    destruct (rep_arr _ _ _ _ R) as (arr0 & E0 & H2). rewrite Ha in E0. injection E0 as <-.
    pose proof (Forall2_lookup_lr _ _ _ _ _ _ H2 Hhd Hi) as Hch.
    simpl in Hch. destruct Hch as [-> (nx & Hnx & Hch)].
    pose proof (rep_place _ _ _ _ R i _ n Hi ltac:(simpl; constructor)) as (_ & _ & Hl).
    assert (0 <= Z.of_nat i < zlen arr) as Hib by (unfold zlen; apply lookup_lt_Some in Hhd; lia).
    pose proof (bucket_nodup ptr L i _ Hi (rep_nodup _ _ _ _ R)) as Hnd. simpl in Hnd.
    apply NoDup_cons in Hnd as [Hnd _].
    set (m1 := on_ents (delete (ptr n)) m).
    set (t1 := set_array (<[i := nx]> arr) (set_key_count (uwrap 32 (key_count t - 1)) t)).
    assert (forall x, x ∉ map ptr (n :: old ++ ns) -> ents m1 !! x = ents m !! x) as Hfr.
    { intros x Hx. apply not_elem_of_cons in Hx as [Hx _]. simpl. now rewrite lookup_delete_ne by congruence. }
    destruct (rep_without h m t L i [] n (old ++ ns) m1 t1 nx arr) as [R1 _]; try done.
    { eapply chain_frame; [exact Hch|]. intros x Hx. simpl. rewrite lookup_delete_ne; [done|]. intros E.
      apply Hnd. rewrite E. now apply list_elem_of_fmap_2. }
    destruct (IH m1 t1 (<[i := old ++ ns]> L) (<[i := nx]> arr) nx fuel)
      as (m' & t' & arr' & hd' & fuel' & F1 & F2 & F3 & F4 & F5 & F6 & F7 & F8 & F9); try done.
    { apply list_lookup_insert_eq. eapply lookup_lt_Some, Hi. }
    { apply list_lookup_insert_eq. eapply lookup_lt_Some, Hhd. }
    { rewrite length_app in *. lia. }
    exists m', t', arr', hd', fuel'. split; [done|]. split.
    + rewrite <- F2. cbn [insert_walk].
      rewrite (bind_Ok _ _ _ _ _ (get_entry_run _ _ _ Hnx)), (bind_Ok _ _ _ _ _ (tv_sec_run n nx m Hl)).
      rewrite bool_decide_eq_true_2 by exact Hn.
      rewrite (bind_Ok _ _ m tt m1)
        by (unfold he_destroy; now rewrite (bind_Ok _ _ _ _ _ (get_entry_run _ _ _ Hnx))).
      rewrite (bind_Ok _ _ m1 arr m1) by (unfold the_array; simpl; now rewrite Ha).
      rewrite (bind_Ok _ _ m1 (<[i := nx]> arr) m1); [done|].
      unfold lift. rewrite wr_Ok by done. now rewrite Nat2Z.id.
    + rewrite list_insert_insert_eq in F3. split; [done|]. split; [done|]. split; [done|].
      split; [|done]. apply (only_ents_trans [ptr n] (map ptr old) m m1 m'); [|done].
      split; [|done]. intros q Hq. simpl. rewrite lookup_delete_ne; [done|].
      intros <-. apply Hq. constructor.
Qed.

(** A new node at the end of a bucket. *)
Lemma core_add m t L i c np m' t' hd' arr : core h m t L -> L !! i = Some c -> array t = Some arr ->
  i = slot h (global_seed m) (array_size t) (nk np) -> key_ok (nk np) -> 4 <= zlen (nv np) ->
  ptr np ∉ map ptr (concat L) -> nk np ∉ map nk (concat L) -> zlen (concat L) + 1 < 2 ^ 24 ->
  global_seed m' = global_seed m -> hashfunc_x86_32 t' = hashfunc_x86_32 t -> flags t' = flags t ->
  max_load_factor t' = max_load_factor t -> array_size t' = array_size t ->
  array t' = Some (<[i := hd']> arr) -> chain (ents m') hd' (c ++ [np]) ->
  (forall q, q ∉ map ptr c -> ents m' !! q = ents m !! q) ->
  key_count t' = uwrap 32 (key_count t + 1) ->
  core h m' t' (<[i := c ++ [np]]> L) /\ concat (<[i := c ++ [np]]> L) ≡ₚ np :: concat L.
Proof.
  intros R Hc Ha Hi Hk Hv Hp Hn Hmany Es Eh Ef El Ez Ea Hch Hfr Hcount.
  destruct (concat_at L i c Hc) as (A & B & EL & EL').
  assert (concat (<[i := c ++ [np]]> L) ≡ₚ np :: concat L) as HP by (rewrite EL, EL'; solve_Permutation).
  assert (zlen (concat (<[i := c ++ [np]]> L)) = zlen (concat L) + 1) as Hz
    by (rewrite HP, zlen_cons; lia).
  pose proof (zlen_nonneg (concat L)). pose proof (rep_count _ _ _ _ R).
  split; [|done]. eapply (rep_bucket h m t L i); eauto.
  - intros j d n Hne Hj Hin. apply Hfr. intros Hin'. apply list_elem_of_fmap in Hin' as (x & Ex & Hx).
    eapply (other_bucket h m t L i _ x j d n); eauto.
  - rewrite (Permutation_map ptr HP). apply NoDup_cons. split; [done|apply R].
  - rewrite (Permutation_map nk HP). apply NoDup_cons. split; [done|apply R].
  - intros n Hin. apply elem_of_app in Hin as [Hin|Hin]; [apply (rep_place _ _ _ _ R i c n Hc Hin)|].
    apply list_elem_of_singleton in Hin as ->. done.
  - rewrite Hcount, Hz, uwrap_small by lia. lia.
  - lia.
Qed.

Lemma chain_snoc E hd c q np : chain E hd (c ++ [q]) -> NoDup (map ptr (c ++ [q])) ->
  ptr np ∉ map ptr (c ++ [q]) -> E !! ptr np = Some (he_of np None) ->
  chain (<[ptr q := he_of q (Some (ptr np))]> E) hd ((c ++ [q]) ++ [np]).
Proof.
  revert hd. induction c as [|x c IH]; intros hd Hch Hnd Hp HE; simpl in *.
  - destruct Hch as [-> _]. split; [done|]. exists (Some (ptr np)). rewrite lookup_insert_eq.
    split; [done|]. split; [done|]. exists None. split; [|done].
    rewrite lookup_insert_ne; [done|]. intros E1. apply Hp. rewrite E1. constructor.
  - destruct Hch as [-> (nx & Hx & Hch)]. split; [done|]. exists nx.
    apply NoDup_cons in Hnd as [Hnx Hnd]. apply not_elem_of_cons in Hp as [_ Hp].
    rewrite lookup_insert_ne; [split; [done|now apply IH]|].
    intros E1. apply Hnx. rewrite <- E1. rewrite map_app. apply elem_of_app. right. constructor.
Qed.

Lemma link_run m t L c np arr hd : let i := slot h (global_seed m) (array_size t) (nk np) in
  core h m t L -> L !! i = Some c -> array t = Some arr -> arr !! i = Some hd ->
  ents m !! ptr np = Some (he_of np None) -> key_ok (nk np) -> 4 <= zlen (nv np) ->
  ptr np ∉ map ptr (concat L) -> nk np ∉ map nk (concat L) -> zlen (concat L) + 1 < 2 ^ 24 ->
  0 <= collisions t < 2 ^ 31 ->
  exists t' m', link_entry (Z.of_nat i) (ptr np) (set_key_count (uwrap 32 (key_count t + 1)) t) (walk_prev None c) m
    = Ok (t', m') /\ core h m' t' (<[i := c ++ [np]]> L) /\
    concat (<[i := c ++ [np]]> L) ≡ₚ np :: concat L /\
    only_ents (map ptr (concat L)) m m' /\ menv m' = menv m /\ array_size t' = array_size t /\
    collisions t' = collisions t + Z.min 1 (zlen c).
Proof.
  intros i R Hc Ha Hhd Hnp Hk Hv Hp Hn Hmany Hcl.
  destruct (rep_arr _ _ _ _ R) as (arr0 & E0 & H2). rewrite Ha in E0. injection E0 as <-.
  pose proof (Forall2_lookup_lr _ _ _ _ _ _ H2 Hhd Hc) as Hch.
  pose proof (bucket_nodup ptr L i _ Hc (rep_nodup _ _ _ _ R)) as Hnd.
  assert (forall x, x ∈ map ptr c -> x ∈ map ptr (concat L)) as Hsub.
  { intros x Hx. apply list_elem_of_fmap in Hx as (n & -> & Hin). apply list_elem_of_fmap_2, elem_of_bucket. eauto. }
  set (t0 := set_key_count _ t). unfold link_entry.
  rewrite (bind_Ok _ _ m arr m) by (unfold the_array; simpl; now rewrite Ha).
  rewrite (bind_Ok _ _ m hd m) by (unfold lift; rewrite (rd_Some _ _ hd); [done|lia|now rewrite Nat2Z.id]).
  destruct c as [|q c' _] using rev_ind.
  - simpl in Hch. subst hd.
    rewrite (bind_Ok _ _ m (<[i := Some (ptr np)]> arr) m).
    2: { unfold lift. apply lookup_lt_Some in Hhd. rewrite wr_Ok by (unfold zlen; lia). now rewrite Nat2Z.id. }
    eexists _, m. split; [reflexivity|].
    destruct (core_add m t L i [] np m (set_array (<[i := Some (ptr np)]> arr) t0) (Some (ptr np)) arr)
      as [R' HP]; try done.
    { simpl. split; [done|]. exists None. done. }
    split; [done|]. split; [done|]. split; [done|]. split; [done|]. split; [done|]. unfold zlen. simpl. lia.
  - rewrite (chain_head _ _ _ Hch). unfold walk_prev. rewrite last_snoc.
    destruct (chain_node _ _ _ q Hch) as [qx Hq]; [apply elem_of_app; right; constructor|].
    set (m' := on_ents <[ptr q := he_of q (Some (ptr np))]> m).
    eexists _, m'. split.
    { destruct c'; simpl;
      (rewrite (bind_Ok _ _ m tt m'); [reflexivity|exact (upd_entry_run m (ptr q) _ (set_next (Some (ptr np))) Hq)]). }
    destruct (core_add m t L i (c' ++ [q]) np m' (set_collisions (uwrap 32 (collisions t0 + 1)) t0) hd arr)
      as [R' HP]; try done.
    { simpl. now rewrite list_insert_id. }
    { apply chain_snoc; auto. }
    { intros x Hx. simpl. rewrite lookup_insert_ne; [done|]. intros <-. apply Hx.
      rewrite map_app. apply elem_of_app. right. constructor. }
    split; [done|]. split; [done|]. split; [|split; [done|]].
    + split; [|done]. intros x Hx. simpl. rewrite lookup_insert_ne; [done|]. intros <-. apply Hx, Hsub.
      rewrite map_app. apply elem_of_app. right. constructor.
    + split; [done|]. simpl. rewrite uwrap_small by lia. pose proof (zlen_nonneg c').
      autorewrite with zlen. lia.
Qed.

(** ** Resizing *)

(** The clock stands still, and memory is there. *)
Definition calm_env (now : Z) (m : hmem) : Prop :=
  (forall k, onum (menv m) k Time = now) /\ (forall k n, onum (menv m) k (Malloc n) <> 0).
Definition env_like (m m' : hmem) : Prop := onum (menv m') = onum (menv m).

Lemma calm_like now m m' : env_like m m' -> calm_env now m -> calm_env now m'.
Proof using. unfold env_like, calm_env. now intros ->. Qed.

Definition young (now : Z) (ns : list node) : Prop := Forall (fun n => ~ aged now n) ns.
Definition tight (t : hash_table) (L : list (list node)) : Prop := collisions t <= zlen (concat L).

(** Enough nesting for [N] entries from a table of size [s]. *)
Definition fuel_ok (f : nat) (s N : Z) : Prop := 21 * N < s * 2 ^ Z.of_nat f.

(** What a resize needs of the insertion: a new key joins a table of entries
    that are not too old. *)
Definition ins_spec (now N : Z) (f : nat) (ins : hash_table -> option positive -> M hmem hash_table) : Prop :=
  forall m t L np nx, rep h m t L -> tight t L -> fuel_ok f (array_size t) N -> calm_env now m ->
  young now (concat L) -> ~ aged now np -> ents m !! ptr np = Some (he_of np nx) ->
  ptr np ∉ map ptr (concat L) -> nk np ∉ map nk (concat L) -> key_ok (nk np) -> 4 <= zlen (nv np) ->
  zlen (concat L) + 1 <= N ->
  exists t' m' L', ins t (Some (ptr np)) m = Ok (t', m') /\ rep h m' t' L' /\ tight t' L' /\
    array_size t <= array_size t' /\ concat L' ≡ₚ np :: concat L /\
    only_ents (ptr np :: map ptr (concat L)) m m' /\ env_like m m'.

Definition node_ok (now : Z) (n : node) : Prop := ~ aged now n /\ key_ok (nk n) /\ 4 <= zlen (nv n).

Section Move.
Context (now N : Z) (f : nat) (ins : hash_table -> option positive -> M hmem hash_table).
Context (Hins : ins_spec now N f ins).

#[local] Set Default Proof Using "Hh Hins".

Lemma move_chain_run ns : forall m t L hd fuel,
  rep h m t L -> tight t L -> fuel_ok f (array_size t) N -> calm_env now m -> young now (concat L) ->
  chain (ents m) hd ns -> Forall (node_ok now) ns -> NoDup (map ptr (ns ++ concat L)) ->
  NoDup (map nk (ns ++ concat L)) -> (length ns <= fuel)%nat -> zlen (ns ++ concat L) <= N ->
  exists t' m' L', move_chain ins fuel t hd m = Ok (t', m') /\ rep h m' t' L' /\ tight t' L' /\
    array_size t <= array_size t' /\ concat L' ≡ₚ ns ++ concat L /\
    only_ents (map ptr (ns ++ concat L)) m m' /\ env_like m m'.
Proof.
  induction ns as [|n ns IH]; intros m t L hd fuel R Ht Hf He Hy Hch Hok Hn1 Hn2 Hl HN; simpl in Hch.
  - subst hd. exists t, m, L. split; [now destruct fuel|]. do 2 (split; [done|]). split; [lia|]. done.
  - destruct Hch as [-> (nx & Hnx & Hch)]. apply Forall_cons_1 in Hok as [(Ha & Hk & Hv) Hok].
    simpl in Hn1, Hn2, Hl. apply NoDup_cons in Hn1 as [Hp1 Hn1]. apply NoDup_cons in Hn2 as [Hp2 Hn2].
    rewrite map_app, not_elem_of_app in Hp1. rewrite map_app, not_elem_of_app in Hp2. destruct Hp1 as [Hp1 Hp1'], Hp2 as [Hp2 Hp2'].
    destruct fuel as [|fuel]; [lia|].
    simpl in HN. rewrite zlen_cons, zlen_app in HN. pose proof (zlen_nonneg ns).
    destruct (Hins m t L n nx) as (t1 & m1 & L1 & E1 & R1 & T1 & S1 & P1 & O1 & V1); try done; [lia|].
    destruct (IH m1 t1 L1 nx fuel) as (t2 & m2 & L2 & E2 & R2 & T2 & S2 & P2 & O2 & V2); try done.
    + unfold fuel_ok in *. nia.
    + eapply calm_like; eauto.
    + unfold young. rewrite P1. now constructor.
    + eapply chain_frame; [exact Hch|]. intros x Hx. apply O1. apply not_elem_of_cons. split.
      * intros E. apply Hp1. rewrite <- E. now apply list_elem_of_fmap_2.
      * intros Hin. rewrite map_app in Hn1. apply NoDup_app in Hn1 as (_ & Hn1 & _).
        eapply Hn1; [|exact Hin]. now apply list_elem_of_fmap_2.
    + rewrite map_app, (Permutation_map ptr P1), <- map_app, <- Permutation_middle. simpl.
      apply NoDup_cons. split; [|done]. rewrite map_app, not_elem_of_app. done.
    + rewrite map_app, (Permutation_map nk P1), <- map_app, <- Permutation_middle. simpl.
      apply NoDup_cons. split; [|done]. rewrite map_app, not_elem_of_app. done.
    + lia.
    + unfold zlen in *. rewrite length_app, (Permutation_length P1). simpl. lia.
    + exists t2, m2, L2. cbn [move_chain]. rewrite (bind_Ok _ _ _ _ _ (get_entry_run _ _ _ Hnx)).
      rewrite (bind_Ok _ _ _ _ _ E1). split; [exact E2|]. split; [done|]. split; [done|]. split; [lia|].
      split; [rewrite P2, P1; solve_Permutation|]. split.
      * eapply only_ents_weaken; [exact (only_ents_trans _ _ _ _ _ O1 O2)|]. intros q.
        rewrite map_app, (Permutation_map ptr P1). simpl. rewrite !map_app.
        rewrite ?elem_of_app, ?elem_of_cons, ?elem_of_app, ?elem_of_cons. tauto.
      * unfold env_like in *. congruence.
Qed.

Lemma move_all_run Lr : forall m t L arr,
  rep h m t L -> tight t L -> fuel_ok f (array_size t) N -> calm_env now m -> young now (concat L) ->
  Forall2 (chain (ents m)) arr Lr -> Forall (node_ok now) (concat Lr) ->
  NoDup (map ptr (concat Lr ++ concat L)) -> NoDup (map nk (concat Lr ++ concat L)) ->
  zlen (concat Lr ++ concat L) <= N ->
  exists t' m' L', move_all ins arr t m = Ok (t', m') /\ rep h m' t' L' /\ tight t' L' /\
    array_size t <= array_size t' /\ concat L' ≡ₚ concat Lr ++ concat L /\
    only_ents (map ptr (concat Lr ++ concat L)) m m' /\ env_like m m'.
Proof.
  induction Lr as [|c Lr IH]; intros m t L arr R Ht Hf He Hy H2 Hok Hn1 Hn2 HN.
  - apply Forall2_nil_inv_r in H2 as ->. exists t, m, L. do 3 (split; [done|]). split; [lia|]. done.
  - apply Forall2_cons_inv_r in H2 as (hd & arr' & Hch & H2 & ->). simpl concat in *.
    apply Forall_app in Hok as [Hok1 Hok2]. rewrite <- app_assoc in Hn1, Hn2, HN.
    assert (c ++ concat Lr ++ concat L ≡ₚ concat Lr ++ c ++ concat L) as HP by solve_Permutation.
    assert (NoDup (map ptr (c ++ concat L)) /\ NoDup (map nk (c ++ concat L)) /\ NoDup (map ptr c)) as (D1 & D2 & D3).
    { rewrite (Permutation_map ptr HP), map_app in Hn1. rewrite (Permutation_map nk HP), map_app in Hn2.
      apply NoDup_app in Hn1 as (_ & _ & Hn1). apply NoDup_app in Hn2 as (_ & _ & Hn2).
      split; [done|]. split; [done|]. rewrite map_app in Hn1. now apply NoDup_app in Hn1 as (Hn1 & _). }
    assert (zlen (c ++ concat L) <= N) as HN1.
    { rewrite !zlen_app in *. pose proof (zlen_nonneg (concat Lr)). lia. }
    destruct (move_chain_run c m t L hd (walk_fuel m)) as (t1 & m1 & L1 & E1 & R1 & T1 & S1 & P1 & O1 & V1); try done.
    { unfold walk_fuel. pose proof (chain_length _ _ _ Hch D3). lia. }
    assert (concat Lr ++ concat L1 ≡ₚ c ++ concat Lr ++ concat L) as HP1 by (rewrite P1; solve_Permutation).
    destruct (IH m1 t1 L1 arr') as (t2 & m2 & L2 & E2 & R2 & T2 & S2 & P2 & O2 & V2); try done.
    + unfold fuel_ok in *. nia.
    + eapply calm_like; eauto.
    + unfold young. rewrite P1. apply Forall_app. split; [|done].
      eapply Forall_impl; [exact Hok1|]. intros n Hn. apply Hn.
    + apply Forall2_same_length_lookup_2; [now apply Forall2_length in H2|]. intros j x y Hx Hy'.
      eapply chain_frame; [eapply Forall2_lookup_lr; eauto|]. intros n Hin. apply O1. intros Hq.
      rewrite (Permutation_map ptr HP), map_app in Hn1. apply NoDup_app in Hn1 as (_ & Hd & _).
      eapply Hd; [|exact Hq]. apply list_elem_of_fmap_2, elem_of_bucket. eauto.
    + now rewrite (Permutation_map ptr HP1).
    + now rewrite (Permutation_map nk HP1).
    + unfold zlen in *. now rewrite (Permutation_length HP1).
    + exists t2, m2, L2. cbn [move_all]. rewrite (bind_Ok _ _ m m m) by done.
      rewrite (bind_Ok _ _ _ _ _ E1). split; [exact E2|]. split; [done|]. split; [done|]. split; [lia|].
      split; [now rewrite P2, HP1, <- app_assoc|]. split.
      * eapply only_ents_weaken; [exact (only_ents_trans _ _ _ _ _ O1 O2)|]. intros q.
        rewrite (Permutation_map ptr HP1), !map_app. rewrite ?elem_of_app. tauto.
      * unfold env_like in *. congruence.
Qed.

Lemma concat_nil_rep {A} n : concat (replicate n (@nil A)) = [].
Proof using. induction n; simpl; auto. Qed.

Lemma rep_empty m t s : hashfunc_x86_32 t = Some h -> flags t = HT_NONE -> array t = Some (null_array s) ->
  array_size t = s -> 0 < s < 2 ^ 30 -> max_load_factor t = load_005 -> key_count t = 0 -> collisions t = 0 ->
  word 32 (global_seed m) -> rep h m t (replicate (Z.to_nat s) []).
Proof using.
  intros Eh Ef Ea Ez Hs El Ek Ec Hw.
  assert (forall n, overlap (replicate n []) = 0) as Ho
    by (induction n as [|n IH]; [done|]; unfold overlap in *; simpl; now rewrite IH).
  split; [|rewrite Ho, Ec, Ez; lia]. split; rewrite ?concat_nil_rep, ?Ez; try done; try constructor.
  - exists (null_array s). split; [done|]. unfold null_array. generalize (Z.to_nat s). intros n.
    induction n; simpl; constructor; auto. done.
  - rewrite zlen_replicate. lia.
  - apply lookup_replicate in H as [-> _]. inversion H0.
  - apply lookup_replicate in H as [-> _]. inversion H0.
Qed.

(** A resize keeps the entries; its size is the new one or more. *)
Lemma resize_run m t L s : core h m t L -> s = array_size t * 2 -> s < 2 ^ 30 ->
  fuel_ok f s N -> calm_env now m -> young now (concat L) -> zlen (concat L) <= N ->
  exists t' m' L', resize_with ins t (uwrap 32 s) m = Ok (t', m') /\ rep h m' t' L' /\ tight t' L' /\
    s <= array_size t' /\ concat L' ≡ₚ concat L /\ only_ents (map ptr (concat L)) m m' /\ env_like m m'.
Proof.
  intros R Es Hs Hf He Hy HN. pose proof (rep_size _ _ _ _ R) as Hz.
  rewrite uwrap_small by lia. unfold resize_with.
  set (m0 := put_env (logged (Malloc (uwrap 32 (s * 4))) (menv m)) m).
  rewrite (bind_Ok _ _ m (null_array s) m0).
  2: { unfold alloc_array. erewrite bind_Ok by reflexivity. rewrite bool_decide_eq_false_2 by lia.
       rewrite bool_decide_eq_false_2 by apply He. rewrite bool_decide_eq_false_2 by lia. reflexivity. }
  set (nt := mkHt _ _ _ _ _ _ _ _ _ _). destruct (rep_arr _ _ _ _ R) as (arr & Ha & H2).
  rewrite (bind_Ok _ _ m0 arr m0)
    by (rewrite bool_decide_eq_false_2 by lia; unfold the_array; now rewrite Ha).
  destruct (move_all_run L m0 nt (replicate (Z.to_nat s) []) arr)
    as (t' & m' & L' & E & R' & T' & S' & P' & O' & V'); try done.
  - apply rep_empty; try done; [apply R|apply R|lia|apply R|apply R].
  - unfold tight. rewrite concat_nil_rep. done.
  - rewrite concat_nil_rep. constructor.
  - apply Forall_forall. intros n Hn. unfold young in Hy. rewrite Forall_forall in Hy.
    split; [now apply Hy|]. apply elem_of_bucket in Hn as (i & c & Hi & Hin).
    apply (rep_place _ _ _ _ R i c n Hi Hin).
  - rewrite concat_nil_rep, app_nil_r. apply R.
  - rewrite concat_nil_rep, app_nil_r. apply R.
  - rewrite concat_nil_rep, app_nil_r. done.
  - rewrite concat_nil_rep, app_nil_r in P', O'. rewrite (bind_Ok _ _ _ _ _ E).
    rewrite (bind_Ok _ _ m' (mkHt None None None 0 0 None 0 (flags t) (max_load_factor t) (current_load_factor t)) m').
    2: { assert (forall k, destroy_all (flags t) (replicate k None) m' = Ok (tt, m')) as Hd
           by (induction k as [|k IH]; [done|]; cbn; exact IH).
         unfold ht_destroy. rewrite (bind_Ok _ _ m' tt m'); [done|].
         rewrite bool_decide_eq_false_2 by (simpl; lia). exact (Hd (Z.to_nat (array_size t))). }
    eexists _, m', L'. split; [reflexivity|]. destruct R' as (R' & Hov & Hten). split.
    { split; [|done]. split; try apply R'; apply R. }
    do 3 (split; [done|]). done.
Qed.
End Move.

(** ** Insertion of a new key *)

Lemma core_load t v m L : core h m t L -> core h m (set_load v t) L.
Proof using. intros R. split; apply R. Qed.

(** The end of an insertion: the load factor, and perhaps a resize. *)
Lemma maybe_resize now N f m t L : core h m t L -> overlap L <= collisions t < 2 ^ 31 ->
  calm_env now m -> young now (concat L) -> zlen (concat L) <= N ->
  (array_size t < 21 * collisions t -> exists f', f = S f' /\ ins_spec now N f' (ht_insert_he f') /\
     fuel_ok f' (array_size t * 2) N /\ array_size t * 2 < 2 ^ 30) ->
  exists t' m' L',
    (let t0 := set_load (load t) t in
     if negb (has_flag (flags t0) HT_NO_AUTORESIZE) && double_gtb (current_load_factor t0) (max_load_factor t0)
     then match f with
          | O => fail OutOfFuel
          | S f => t1 <-- resize_with (ht_insert_he f) t0 (uwrap 32 (array_size t0 * 2)) ;; ret (set_load (load t1) t1)
          end
     else ret t0) m = Ok (t', m') /\ rep h m' t' L' /\ (tight t L -> tight t' L') /\
    array_size t <= array_size t' /\ concat L' ≡ₚ concat L /\ only_ents (map ptr (concat L)) m m' /\ env_like m m'.
Proof.
  intros R Hov He Hy HN Hf. pose proof (rep_size _ _ _ _ R) as Hz. pose proof (overlap_nonneg L).
  cbv zeta. cbn [flags set_load current_load_factor max_load_factor array_size].
  rewrite (rep_flags _ _ _ _ R), (rep_load _ _ _ _ R). change (negb _) with true. cbn [andb].
  pose proof (load_test (collisions t) (array_size t) ltac:(lia) ltac:(lia)) as Hl. unfold load.
  destruct (double_gtb _ _).
  - destruct (Hf Hl) as (f' & -> & Hins & Hfu & H30).
    destruct (resize_run now N f' (ht_insert_he f') Hins m (set_load (double_div (collisions t) (array_size t)) t) L (array_size t * 2))
      as (t' & m' & L' & E & R' & T' & S' & P' & O' & V'); try done; [now apply core_load|].
    eexists _, m', L'. split; [rewrite (bind_Ok _ _ _ _ _ E); reflexivity|]. destruct R' as (R' & Hov' & Hten').
    split; [split; [now apply core_load|done]|]. split; [done|]. split; [simpl; lia|]. done.
  - eexists _, m, L. split; [reflexivity|].
    split; [split; [now apply core_load|simpl; lia]|]. split; [done|]. split; [simpl; lia|]. done.
Qed.

(** The two parts of [ht_insert_he]. *)
Definition insert_end (f : nat) (index : Z) (p : positive) (r : hash_table * option positive * option positive)
  : M hmem hash_table :=
  let '(t, prev, find_ret) := r in
  match find_ret with
  | Some q =>
      e <-- get_entry p ;;
      he_set_value (flags t) q (he_value e) (he_value_size e) ;;;
      he_destroy (flags t) p ;;;
      ret (set_load (load t) t)
  | None =>
      t <-- link_entry index p (set_key_count (uwrap 32 (key_count t + 1)) t) prev ;;
      let t := set_load (load t) t in
      if negb (has_flag (flags t) HT_NO_AUTORESIZE) && double_gtb (current_load_factor t) (max_load_factor t)
      then match f with
           | O => fail OutOfFuel
           | S f => t <-- resize_with (ht_insert_he f) t (uwrap 32 (array_size t * 2)) ;; ret (set_load (load t) t)
           end
      else ret t
  end.

Lemma ht_insert_he_unfold f t p :
  ht_insert_he f t (Some p)
  = (upd_entry p (set_next None) ;;;
     e <-- get_entry p ;;
     index <-- ht_index t (he_key e) (he_key_size e) ;;
     arr <-- the_array t ;;
     tmp <-- lift (rd arr index) ;;
     match tmp with
     | None => arr <-- lift (wr arr index (Some p)) ;; ret (set_key_count (uwrap 32 (key_count t + 1)) (set_array arr t))
     | Some _ =>
         now <-- ext Time ;;
         m <-- get ;;
         r <-- insert_walk (walk_fuel m) t index now p None None tmp ;;
         insert_end f index p r
     end).
Proof using. destruct f; reflexivity. Qed.

(** The start of an insertion, up to the walk. *)
Lemma insert_start f m t L np nx c arr hd : let i := slot h (global_seed m) (array_size t) (nk np) in
  core h m t L -> key_ok (nk np) -> ents m !! ptr np = Some (he_of np nx) ->
  ptr np ∉ map ptr (concat L) -> L !! i = Some c -> array t = Some arr -> arr !! i = Some hd ->
  let m1 := on_ents <[ptr np := he_of np None]> m in
  core h m1 t L /\ only_ents [ptr np] m m1 /\
  ht_insert_he f t (Some (ptr np)) m
  = match hd with
    | None => Ok (set_key_count (uwrap 32 (key_count t + 1)) (set_array (<[i := Some (ptr np)]> arr) t), m1)
    | Some _ =>
        (r <-- insert_walk (walk_fuel m1) t (Z.of_nat i) (onum (menv m) (length (trace (menv m))) Time) (ptr np) None None hd ;;
         insert_end f (Z.of_nat i) (ptr np) r) (put_env (logged Time (menv m)) m1)
    end.
Proof.
  intros i R Hk Hnp Hp Hc Ha Hhd m1.
  assert (core h m1 t L) as R1.
  { split; try apply R. destruct (rep_arr _ _ _ _ R) as (arr0 & E0 & H2). exists arr0. split; [done|].
    apply Forall2_same_length_lookup_2; [now apply Forall2_length in H2|]. intros j x y Hx Hy.
    eapply chain_frame; [eapply Forall2_lookup_lr; eauto|]. intros n Hin. simpl.
    rewrite lookup_insert_ne; [done|]. intros E. apply Hp. rewrite E.
    apply list_elem_of_fmap_2, elem_of_bucket. eauto. }
  split; [done|]. split.
  { split; [|done]. intros q Hq. simpl. rewrite lookup_insert_ne; [done|]. intros <-. apply Hq. constructor. }
  rewrite ht_insert_he_unfold.
  rewrite (bind_Ok _ _ m tt m1) by exact (upd_entry_run m (ptr np) _ (set_next None) Hnp).
  rewrite (bind_Ok _ _ m1 (he_of np None) m1) by (apply get_entry_run; simpl; apply lookup_insert_eq).
  cbn [he_of he_key he_key_size].
  rewrite (bind_Ok _ _ _ _ _ (proj1 (index_run h m1 t L (nk np) R1 Hk))).
  change (global_seed m1) with (global_seed m). fold i.
  rewrite (bind_Ok _ _ m1 arr m1) by (unfold the_array; now rewrite Ha).
  rewrite (bind_Ok _ _ m1 hd m1) by (unfold lift; rewrite (rd_Some _ _ hd); [done|lia|now rewrite Nat2Z.id]).
  destruct hd as [q|].
  - rewrite (bind_Ok _ _ m1 (onum (menv m) (length (trace (menv m))) Time) (put_env (logged Time (menv m)) m1)) by done.
    rewrite (bind_Ok _ _ _ (put_env (logged Time (menv m)) m1) (put_env (logged Time (menv m)) m1)) by done. done.
  - rewrite (bind_Ok _ _ m1 (<[i := Some (ptr np)]> arr) m1); [done|].
    unfold lift. apply lookup_lt_Some in Hhd. rewrite wr_Ok by (unfold zlen; lia). now rewrite Nat2Z.id.
Qed.

Lemma core_env e m t L : core h m t L -> core h (put_env e m) t L.
Proof using. intros R. split; apply R. Qed.

(** The walk of an insertion: what is too old at the front of the chain goes,
    the rest is looked at. *)
Lemma walk_run now m t L np old c arr hd : let i := slot h (global_seed m) (array_size t) (nk np) in
  core h m t L -> L !! i = Some (old ++ c) -> array t = Some arr -> arr !! i = Some hd ->
  Forall (aged now) old -> young now (concat (<[i := c]> L)) ->
  ents m !! ptr np = Some (he_of np None) -> ptr np ∉ map ptr (concat L) ->
  exists m' t' arr' hd',
    insert_walk (walk_fuel m) t (Z.of_nat i) now (ptr np) None None hd m
    = Ok ((t', walk_prev None c, walk_find None (nk np) c), m') /\
    core h m' t' (<[i := c]> L) /\ array t' = Some arr' /\ arr' !! i = Some hd' /\
    ents m' !! ptr np = Some (he_of np None) /\
    only_ents (map ptr (concat L)) m m' /\ menv m' = menv m /\ collisions t' = collisions t /\
    array_size t' = array_size t.
Proof.
  intros i R Hc Ha Hhd Hold Hy Hnp Hp.
  destruct (rep_arr _ _ _ _ R) as (arr0 & E0 & H2). rewrite Ha in E0. injection E0 as <-.
  pose proof (Forall2_lookup_lr _ _ _ _ _ _ H2 Hhd Hc) as Hch.
  pose proof (bucket_nodup ptr L i _ Hc (rep_nodup _ _ _ _ R)) as Hnd.
  pose proof (lookup_lt_Some _ _ _ Hc) as Hlt.
  assert (forall x, x ∈ map ptr old -> x ∈ map ptr (concat L)) as Hsub.
  { intros x Hx. apply list_elem_of_fmap in Hx as (n & -> & Hin). apply list_elem_of_fmap_2, elem_of_bucket.
    exists i, (old ++ c). split; [done|]. apply elem_of_app. by left. }
  destruct (walk_old now i (ptr np) c old m t L arr hd (walk_fuel m))
    as (m' & t' & arr' & hd' & fuel' & F1 & F2 & F3 & F4 & F5 & F6 & F7 & F8 & F9); try done.
  { unfold walk_fuel. pose proof (chain_length _ _ _ Hch Hnd). lia. }
  assert (ents m' !! ptr np = Some (he_of np None)) as Hnp'.
  { rewrite (proj1 F6); [done|]. auto. }
  exists m', t', arr', hd'. split; [|split; [done|]; split; [done|]; split; [done|]; split; [done|]; split; [|done]].
  - rewrite F2. destruct (rep_arr _ _ _ _ F3) as (arr1 & E1 & H3). rewrite F4 in E1. injection E1 as <-.
    apply (walk_young m' t' (Z.of_nat i) now (ptr np) (nk np) (nv np) None c); [by destruct np| |
      |done].
    + unfold young in Hy. apply Forall_forall. intros n Hn. rewrite Forall_forall in Hy.
      assert (<[i := c]> L !! i = Some c) as Hi by now apply list_lookup_insert_eq.
      split; [apply Hy, elem_of_bucket; eauto|]. apply (rep_place _ _ _ _ F3 i c n Hi Hn).
    + eapply Forall2_lookup_lr; [exact H3|exact F5|]. now apply list_lookup_insert_eq.
  - eapply only_ents_weaken; [exact F6|exact Hsub].
Qed.

Lemma insert_absent now N f m t L np nx old c : let i := slot h (global_seed m) (array_size t) (nk np) in
  rep h m t L -> L !! i = Some (old ++ c) -> Forall (aged now) old -> young now (concat (<[i := c]> L)) ->
  ~ aged now np -> calm_env now m -> ents m !! ptr np = Some (he_of np nx) ->
  ptr np ∉ map ptr (concat L) -> nk np ∉ map nk (concat (<[i := c]> L)) -> key_ok (nk np) ->
  4 <= zlen (nv np) -> zlen (concat (<[i := c]> L)) + 1 <= N -> N < 2 ^ 24 ->
  (array_size t < 21 * (collisions t + 1) -> exists f', f = S f' /\ ins_spec now N f' (ht_insert_he f') /\
     fuel_ok f' (array_size t * 2) N /\ array_size t * 2 < 2 ^ 30) ->
  exists t' m' L', ht_insert_he f t (Some (ptr np)) m = Ok (t', m') /\ rep h m' t' L' /\
    (old = [] -> tight t L -> tight t' L') /\ array_size t <= array_size t' /\
    concat L' ≡ₚ np :: concat (<[i := c]> L) /\
    only_ents (ptr np :: map ptr (concat L)) m m' /\ env_like m m'.
Proof.
  intros i (R & Hov & Hten) Hc Hold Hy Ha He Hnp Hp Hn Hk Hv HN H24 Hf.
  destruct (bucket_of h m t L (nk np) R Hk) as (arr & hd & c0 & Harr & _ & Hhd & Hc0 & Hch & _).
  fold i in Hhd, Hc0. rewrite Hc in Hc0. injection Hc0 as <-.
  pose proof (rep_size _ _ _ _ R) as Hz. pose proof (overlap_nonneg L) as Hov0.
  destruct (insert_start f m t L np nx (old ++ c) arr hd R Hk Hnp Hp Hc Harr Hhd) as (R1 & O1 & ->).
  fold i. set (m1 := on_ents _ m) in *. destruct hd as [q|].
  - set (m2 := put_env (logged Time (menv m)) m1).
    rewrite (proj1 He).
    destruct (walk_run now m2 t L np old c arr (Some q))
      as (m3 & t3 & arr3 & hd3 & E3 & R3 & A3 & H3 & P3 & O3 & V3 & C3 & S3); try done.
    { now apply core_env. } { simpl. apply lookup_insert_eq. }
    change (slot h (global_seed m2) (array_size t) (nk np)) with i in E3, R3, H3.
    change (walk_fuel m1) with (walk_fuel m2). rewrite (bind_Ok _ _ _ _ _ E3).
    rewrite walk_find_absent.
    2: { intros Hin. apply Hn. apply list_elem_of_fmap in Hin as (n & -> & Hin).
         apply list_elem_of_fmap_2, elem_of_bucket. exists i, c. split; [|done].
         apply list_lookup_insert_eq. eapply lookup_lt_Some, Hc. }
    assert (i = slot h (global_seed m3) (array_size t3) (nk np)) as Hi3
      by (rewrite S3, (proj2 (proj2 O3)); done).
    assert (forall x, x ∈ map ptr (concat (<[i := c]> L)) -> x ∈ map ptr (concat L)) as Hsub.
    { intros x. destruct (concat_at L i _ Hc) as (A & B & -> & ->). rewrite !map_app, !elem_of_app. tauto. }
    destruct (link_run m3 t3 (<[i := c]> L) c np arr3 hd3)
      as (t4 & m4 & E4 & R4 & P4 & O4 & V4 & S4 & C4); rewrite <- ?Hi3; try done; try lia.
    { apply list_lookup_insert_eq. eapply lookup_lt_Some, Hc. } { auto. }
    rewrite <- Hi3 in E4, R4, P4. rewrite list_insert_insert_eq in R4, P4.
    unfold insert_end. rewrite (bind_Ok _ _ _ _ _ E4).
    pose proof (overlap_insert L i (old ++ c) (c ++ [np]) Hc) as Hov4.
    autorewrite with zlen in Hov4. pose proof (zlen_nonneg c). pose proof (zlen_nonneg old).
    assert (zlen (concat (<[i := c ++ [np]]> L)) = 1 + zlen (concat (<[i := c]> L))) as Hz4
      by (rewrite P4, zlen_cons; lia).
    destruct (maybe_resize now N f m4 t4 (<[i := c ++ [np]]> L)) as (t5 & m5 & L5 & E5 & R5 & T5 & S5 & P5 & O5 & V5);
      try done; try lia.
    { eapply (calm_like now m); [|done]. unfold env_like. rewrite V4, V3. done. }
    { unfold young. rewrite P4. now constructor. }
    { rewrite S4, S3, C4, C3. intros Hlt. apply Hf. lia. }
    exists t5, m5, L5. split; [exact E5|]. split; [done|]. split; [|split; [lia|split; [now rewrite P5, P4|split]]].
    + intros -> Ht. apply T5. unfold tight in *. rewrite C4, C3, Hz4. simpl in Hc.
      rewrite list_insert_id by done. lia.
    + eapply only_ents_weaken; [exact (only_ents_trans _ _ _ _ _ O1 (only_ents_trans _ _ _ _ _ (O3 : only_ents _ m1 m3)
        (only_ents_trans _ _ _ _ _ O4 O5)))|].
      intros x. rewrite (Permutation_map ptr P4). simpl.
      rewrite ?elem_of_cons, ?elem_of_app, ?elem_of_cons, ?elem_of_nil. pose proof (Hsub x). tauto.
    + unfold env_like in *. rewrite V5, V4, V3. done.
  - assert (old ++ c = []) as E0 by (destruct (old ++ c); [done|]; destruct Hch; discriminate).
    apply app_eq_nil in E0 as [-> ->]. simpl in Hc.
    destruct (core_add m1 t L i [] np m1 (set_key_count (uwrap 32 (key_count t + 1)) (set_array (<[i := Some (ptr np)]> arr) t))
      (Some (ptr np)) arr) as [R' HP]; try done; try lia.
    { rewrite list_insert_id in Hn by done. done. }
    { rewrite list_insert_id in HN by done. lia. }
    { simpl. split; [done|]. exists None. rewrite lookup_insert_eq. done. }
    simpl in R', HP. eexists _, m1, (<[i := [np]]> L). split; [reflexivity|].
    pose proof (overlap_insert L i [] [np] Hc) as Hov4. unfold zlen in Hov4. simpl in Hov4.
    split; [split; [exact R'|simpl; lia]|]. split; [|split; [simpl; lia|split; [|split; [|done]]]].
    + intros _ Ht. unfold tight in *. simpl. unfold zlen in *. rewrite (Permutation_length HP). simpl. lia.
    + rewrite (list_insert_id L i []) by done. exact HP.
    + eapply only_ents_weaken; [exact O1|]. intros x Hx. apply list_elem_of_singleton in Hx as ->. constructor.
Qed.

(** Resizing ends: with enough nesting the insertion meets what it needs of
    itself. *)
Lemma ins_spec_all now N : N < 2 ^ 24 -> forall f, ins_spec now N f (ht_insert_he f).
Proof.
  intros H24 f. induction f as [|f IH]; intros m t L np nx R Ht Hf He Hy Ha Hnp Hp Hn Hk Hv HN;
    pose proof R as (Rc & _ & _); destruct (bucket_of h m t L (nk np) Rc Hk) as (_ & _ & c & _ & _ & _ & Hc & _);
    unfold tight, fuel_ok in *; pose proof (rep_size _ _ _ _ Rc) as Hz.
  - edestruct (insert_absent now N 0 m t L np nx [] c) as (t' & m' & L' & E & R' & T & S & P & O & V);
      rewrite ?list_insert_id; try done.
    { simpl in Hf. lia. }
    rewrite list_insert_id in P by done. exists t', m', L'. split; [done|]. split; [done|]. split; [now apply T|]. done.
  - edestruct (insert_absent now N (S f) m t L np nx [] c) as (t' & m' & L' & E & R' & T & S & P & O & V);
      rewrite ?list_insert_id; try done.
    { intros Hlt. exists f. split; [done|]. split; [done|]. unfold fuel_ok.
      rewrite Nat2Z.inj_succ, Z.pow_succ_r in Hf by lia. lia. }
    rewrite list_insert_id in P by done. exists t', m', L'. split; [done|]. split; [done|]. split; [now apply T|]. done.
Qed.

(** ** Insertion of a key that is there *)

Lemma chain_setv E hd a n b v : NoDup (map ptr (a ++ n :: b)) -> chain E hd (a ++ n :: b) ->
  exists nx, E !! ptr n = Some (he_of n nx) /\
    chain (<[ptr n := he_of (mkNode (ptr n) (nk n) v) nx]> E) hd (a ++ mkNode (ptr n) (nk n) v :: b).
Proof using.
  revert hd. induction a as [|x a IH]; intros hd Hn; simpl in *; apply NoDup_cons in Hn as [Hx Hn].
  - intros [-> (nx & Hnx & Hc)]. exists nx. split; [done|]. split; [done|]. exists nx.
    rewrite lookup_insert_eq. split; [done|]. eapply chain_frame; [exact Hc|]. intros y Hy.
    rewrite lookup_insert_ne; [done|]. intros E1. apply Hx. rewrite E1. now apply list_elem_of_fmap_2.
  - intros [-> (y & Hy & Hc)]. destruct (IH y Hn Hc) as (nx & Hnx & Hc'). exists nx. split; [done|].
    split; [done|]. exists y. rewrite lookup_insert_ne; [done|]. intros E1. apply Hx. rewrite <- E1.
    apply list_elem_of_fmap_2, elem_of_app. right. constructor.
Qed.

Lemma nodes_map_update A B a b n n' : nk n' = nk n -> NoDup (map nk (A ++ (a ++ n :: b) ++ B)) ->
  nodes_map (A ++ (a ++ n' :: b) ++ B) = <[nk n := nv n']> (nodes_map (A ++ (a ++ n :: b) ++ B)).
Proof using.
  intros Hk Hn.
  assert (forall x, A ++ (a ++ x :: b) ++ B ≡ₚ x :: A ++ (a ++ b) ++ B) as HP by (intros x; solve_Permutation).
  assert (NoDup (map nk (A ++ (a ++ n' :: b) ++ B))) as Hn'.
  { rewrite (Permutation_map nk (HP n')). rewrite (Permutation_map nk (HP n)) in Hn. simpl. now rewrite Hk. }
  rewrite (nodes_map_perm _ _ Hn (HP n)), (nodes_map_perm _ _ Hn' (HP n')). unfold nodes_map. simpl.
  now rewrite Hk, insert_insert_eq.
Qed.

(** A value that is overwritten in place. *)
Lemma rep_set_value m t L k v v' p : rep h m t L -> mkNode p k v ∈ concat L -> 4 <= zlen v' ->
  exists nx L', ents m !! p = Some (he_of (mkNode p k v) nx) /\
    rep h (on_ents <[p := he_of (mkNode p k v') nx]> m) t L' /\ ht_map L' = <[k := v']> (ht_map L).
Proof.
  intros (R & Hov & Hten) Hin Hv. apply elem_of_bucket in Hin as (i & c & Hi & Hin).
  apply list_elem_of_split in Hin as (a & b & ->). set (n := mkNode p k v) in *. set (n' := mkNode p k v').
  destruct (rep_arr _ _ _ _ R) as (arr & Ha & H2).
  destruct (Forall2_lookup_r _ _ _ _ _ H2 Hi) as (hd & Hhd & Hch).
  destruct (chain_setv _ _ _ _ _ v' (bucket_nodup ptr L i _ Hi (rep_nodup _ _ _ _ R)) Hch) as (nx & Hn & Hch').
  exists nx, (<[i := a ++ n' :: b]> L). split; [done|].
  destruct (concat_at L i _ Hi) as (A & B & EL & EL').
  assert (forall {B} (g : node -> B), g n' = g n -> map g (concat (<[i := a ++ n' :: b]> L)) = map g (concat L)) as Hsame.
  { intros X g Hg. rewrite EL, EL', !map_app. simpl. now rewrite Hg. }
  assert (zlen (concat (<[i := a ++ n' :: b]> L)) = zlen (concat L)) as Hzl
    by (rewrite <- (zlen_map ptr), (Hsame _ ptr), zlen_map; done).
  split.
  - split.
    + eapply (rep_bucket h m t L i (a ++ n :: b) _ _ hd _ arr); try done.
      * now rewrite list_insert_id.
      * intros j d x Hj Hd Hx. simpl. rewrite lookup_insert_ne; [done|]. intros E.
        eapply (other_bucket h m t L i _ n j d x); eauto. apply elem_of_app. right. constructor.
      * rewrite Hsame by done. apply R.
      * rewrite Hsame by done. apply R.
      * intros x Hx. apply elem_of_app in Hx as [Hx|Hx]; [|apply elem_of_cons in Hx as [->|Hx]].
        -- apply (rep_place _ _ _ _ R i _ x Hi). apply elem_of_app. by left.
        -- destruct (rep_place _ _ _ _ R i _ n Hi) as (E1 & E2 & _); [apply elem_of_app; right; constructor|].
           split; [exact E1|]. split; [exact E2|exact Hv].
        -- apply (rep_place _ _ _ _ R i _ x Hi). apply elem_of_app. right. by constructor.
      * rewrite Hzl. apply R.
      * rewrite Hzl. apply R.
    + rewrite (overlap_insert L i _ _ Hi). autorewrite with zlen. lia.
  - unfold ht_map. rewrite EL, EL'. apply (nodes_map_update A B a b n n'); [done|].
    rewrite <- EL. apply R.
Qed.

Lemma insert_present now f m t L np nx old a n b : let i := slot h (global_seed m) (array_size t) (nk np) in
  let n' := mkNode (ptr n) (nk n) (nv np) in
  rep h m t L -> L !! i = Some (old ++ a ++ n :: b) -> nk n = nk np -> Forall (aged now) old ->
  young now (concat (<[i := a ++ n :: b]> L)) -> calm_env now m -> ents m !! ptr np = Some (he_of np nx) ->
  ptr np ∉ map ptr (concat L) -> key_ok (nk np) -> 4 <= zlen (nv np) ->
  exists t' m', ht_insert_he f t (Some (ptr np)) m = Ok (t', m') /\
    rep h m' t' (<[i := a ++ n' :: b]> L) /\ array_size t' = array_size t /\
    only_ents (ptr np :: map ptr (concat L)) m m' /\ env_like m m'.
Proof.
  intros i n' (R & Hov & Hten) Hc Hkn Hold Hy He Hnp Hp Hk Hv.
  destruct (bucket_of h m t L (nk np) R Hk) as (arr & hd & c0 & Harr & _ & Hhd & Hc0 & Hch & Hnd & _).
  fold i in Hhd, Hc0. rewrite Hc in Hc0. injection Hc0 as <-.
  destruct (insert_start f m t L np nx (old ++ a ++ n :: b) arr hd R Hk Hnp Hp Hc Harr Hhd) as (R1 & O1 & ->).
  fold i. set (m1 := on_ents _ m) in *. pose proof (lookup_lt_Some _ _ _ Hc) as Hlt.
  destruct hd as [q|]; [|exfalso; now destruct old, a; destruct Hch].
  set (m2 := put_env (logged Time (menv m)) m1). rewrite (proj1 He).
  destruct (walk_run now m2 t L np old (a ++ n :: b) arr (Some q))
    as (m3 & t3 & arr3 & hd3 & E3 & R3 & A3 & H3 & P3 & O3 & V3 & C3 & S3); try done.
  { now apply core_env. } { simpl. apply lookup_insert_eq. }
  change (slot h (global_seed m2) (array_size t) (nk np)) with i in E3, R3, H3.
  change (walk_fuel m1) with (walk_fuel m2). rewrite (bind_Ok _ _ _ _ _ E3).
  set (L1 := <[i := a ++ n :: b]> L) in *.
  assert (L1 !! i = Some (a ++ n :: b)) as Hi1 by now apply list_lookup_insert_eq.
  rewrite <- Hkn, walk_find_present by (apply (bucket_nodup nk L1 i _ Hi1); apply R3).
  unfold insert_end. rewrite (bind_Ok _ _ _ _ _ (get_entry_run _ _ _ P3)). cbn [he_value he_value_size he_of].
  destruct (rep_arr _ _ _ _ R3) as (arr4 & E4 & H4). rewrite A3 in E4. injection E4 as <-.
  pose proof (Forall2_lookup_lr _ _ _ _ _ _ H4 H3 Hi1) as Hch3.
  destruct (chain_setv _ _ _ _ _ (nv np) (bucket_nodup ptr L1 i _ Hi1 (rep_nodup _ _ _ _ R3)) Hch3) as (nx3 & Hn3 & Hch4).
  set (m4 := put_env (logged (Malloc (zlen (nv np))) (menv m3)) m3).
  set (m5 := on_ents <[ptr n := he_of n' nx3]> m4).
  rewrite (bind_Ok _ _ m3 tt m5).
  2: { unfold he_set_value. rewrite (rep_flags _ _ _ _ R3). change (has_flag HT_NONE HT_VALUE_CONST) with false. cbv iota.
       rewrite (bind_Ok _ _ _ _ _ (get_entry_run _ _ _ Hn3)).
       rewrite (bind_Ok _ _ m3 (onum (menv m3) (length (trace (menv m3))) (Malloc (zlen (nv np)))) m4) by done.
       rewrite bool_decide_eq_false_2 by (rewrite V3; apply (proj2 He)).
       rewrite (bind_Ok _ _ m4 (nv np) m4), (bind_Ok _ _ m4 (nv np) m4) by (done || (unfold lift; now rewrite slice_all)).
       exact (upd_entry_run m4 (ptr n) _ (set_value (Some (Own (nv np))) (zlen (nv np))) Hn3). }
  assert (n ∈ concat L1) as Hin1 by (apply elem_of_bucket; eexists _, _; split; [exact Hi1|]; apply elem_of_app; right; constructor).
  assert (forall x, x ∈ map ptr (concat L1) -> x ∈ map ptr (concat L)) as Hsub.
  { intros x. destruct (concat_at L i _ Hc) as (A & B & -> & E'). unfold L1. rewrite E', !map_app, !elem_of_app. tauto. }
  assert (ptr np <> ptr n) as Hne.
  { intros E. apply Hp, Hsub. rewrite E. now apply list_elem_of_fmap_2. }
  set (m6 := on_ents (delete (ptr np)) m5).
  rewrite (bind_Ok _ _ m5 tt m6).
  2: { unfold he_destroy. rewrite (bind_Ok _ _ m5 (he_of np None) m5); [done|]. apply get_entry_run. simpl.
       now rewrite lookup_insert_ne by congruence. }
  assert (only_ents (ptr np :: map ptr (concat L)) m m6) as Oall.
  { eapply (only_ents_weaken ([ptr np] ++ map ptr (concat L) ++ [ptr n; ptr np])).
    - apply (only_ents_trans _ _ m m1 m6); [exact O1|]. apply (only_ents_trans _ _ m1 m3 m6); [exact O3|].
      split; [|done]. intros x Hx. apply not_elem_of_cons in Hx as [Hx1 Hx]. apply not_elem_of_cons in Hx as [Hx2 _].
      simpl. rewrite lookup_delete_ne, lookup_insert_ne by congruence. done.
    - intros x. rewrite ?elem_of_app, ?elem_of_cons, ?elem_of_nil.
      assert (ptr n ∈ map ptr (concat L)) by (apply Hsub; now apply list_elem_of_fmap_2).
      intros [[?|[]]|[?|[->|[?|[]]]]]; auto. }
  eexists _, m6. split; [reflexivity|].
  assert (forall {B} (g : node -> B), g n' = g n -> map g (concat (<[i := a ++ n' :: b]> L1)) = map g (concat L1)) as Hsame.
  { intros B g Hg. destruct (concat_at L1 i _ Hi1) as (X & Y & -> & ->). rewrite !map_app. simpl. now rewrite Hg. }
  assert (zlen (concat (<[i := a ++ n' :: b]> L1)) = zlen (concat L1)) as Hzl
    by (rewrite <- (zlen_map ptr), (Hsame _ ptr), zlen_map; done).
  assert (core h m6 (set_load (load t3) t3) (<[i := a ++ n' :: b]> L1)) as R6.
  { eapply (rep_bucket h m3 t3 L1 i (a ++ n :: b) m6 _ hd3 _ arr3); try done.
    - simpl. now rewrite list_insert_id.
    - eapply chain_frame; [exact Hch4|]. intros x Hx. simpl. rewrite lookup_delete_ne; [done|].
      intros E. apply Hp, Hsub. rewrite E. rewrite <- (Hsame _ ptr) by done.
      apply list_elem_of_fmap_2, elem_of_bucket. exists i, (a ++ n' :: b). split; [|done].
      apply list_lookup_insert_eq. eapply lookup_lt_Some, Hi1.
    - intros j d x Hj Hd Hx. simpl. rewrite lookup_delete_ne, lookup_insert_ne; [done| |].
      + intros E. eapply (other_bucket h m3 t3 L1 i _ n j d x); eauto. apply elem_of_app. right. constructor.
      + intros E. apply Hp, Hsub. rewrite E. apply list_elem_of_fmap_2, elem_of_bucket. eauto.
    - rewrite Hsame by done. apply R3.
    - rewrite Hsame by done. apply R3.
    - intros x Hx. apply elem_of_app in Hx as [Hx|Hx]; [|apply elem_of_cons in Hx as [->|Hx]].
      + apply (rep_place _ _ _ _ R3 i _ x Hi1). apply elem_of_app. by left.
      + simpl. split; [|split; [now rewrite Hkn|done]].
        apply (rep_place _ _ _ _ R3 i _ n Hi1). apply elem_of_app. right. constructor.
      + apply (rep_place _ _ _ _ R3 i _ x Hi1). apply elem_of_app. right. by constructor.
    - rewrite Hzl. apply R3.
    - rewrite Hzl. apply R3. }
  unfold L1 in R6. rewrite list_insert_insert_eq in R6.
  split; [|split; [done|split; [done|]]].
  - split; [exact R6|]. simpl. rewrite C3, S3. split; [|done].
    pose proof (overlap_insert L i _ (a ++ n' :: b) Hc) as Ho. autorewrite with zlen in Ho.
    pose proof (zlen_nonneg old). pose proof (zlen_nonneg a). pose proof (zlen_nonneg b). lia.
  - unfold env_like. simpl. now rewrite V3.
Qed.

(** ** The whole insertion *)

Definition fresh_kv (now : Z) (kv : list Z * list Z) : Prop := ~ swrap 32 (now - sec_of (snd kv)) > AGE_TIMEOUT.

#[local] Instance fresh_kv_dec now kv : Decision (fresh_kv now kv).
Proof using. unfold fresh_kv. apply _. Defined.

(** The entries that are not too old, as a part of the map. *)
Lemma nodes_map_young now old ns : NoDup (map nk (old ++ ns)) -> Forall (aged now) old -> young now ns ->
  nodes_map ns = filter (fresh_kv now) (nodes_map (old ++ ns)).
Proof using.
  intros Hn Ho Hy. induction Ho as [|n old Ha Ho IH]; simpl in *.
  - symmetry. apply map_filter_id. intros k v Hkv. apply elem_of_list_to_map_2 in Hkv.
    apply list_elem_of_fmap in Hkv as (n & [= -> ->] & Hin). unfold young in Hy. rewrite Forall_forall in Hy.
    now apply Hy.
  - apply NoDup_cons in Hn as [Hk Hn]. rewrite IH by done. unfold nodes_map at 2. simpl.
    rewrite map_filter_insert_False by (unfold fresh_kv; simpl; unfold aged in Ha; intuition).
    f_equal. rewrite delete_id; [done|]. now apply nodes_map_none.
Qed.

Lemma create_run m k v now : calm_env now m ->
  exists m1, he_create HT_NONE (Own k) (zlen k) (Own v) (zlen v) m = Ok (Some (fresh (dom (ents m))), m1) /\
    ents m1 = <[fresh (dom (ents m)) := he_of (mkNode (fresh (dom (ents m))) k v) None]> (ents m) /\
    cmem m1 = cmem m /\ global_seed m1 = global_seed m /\ env_like m m1.
Proof using.
  intros [_ Hm]. unfold he_create.
  assert (forall b n (w : hmem), onum (menv w) = onum (menv m) -> zlen b = n ->
    copy_of (Own b) n w = Ok (Some (Own b), put_env (logged (Malloc n) (menv w)) w)) as Hcopy.
  { intros b n w Ew <-. unfold copy_of.
    erewrite bind_Ok by reflexivity. rewrite bool_decide_eq_false_2 by (cbn; rewrite Ew; apply Hm).
    erewrite bind_Ok by reflexivity. erewrite bind_Ok; [reflexivity|]. unfold lift. now rewrite slice_all. }
  erewrite bind_Ok by reflexivity. rewrite bool_decide_eq_false_2 by apply Hm.
  erewrite bind_Ok by (apply (Hcopy k (zlen k)); done). cbv beta iota.
  erewrite bind_Ok by (apply (Hcopy v (zlen v)); done).
  eexists. split; [reflexivity|]. done.
Qed.

(** The new entry is outside the table. *)
Lemma create_rep now m t L k v : rep h m t L -> calm_env now m ->
  exists p m1, he_create (flags t) (Own k) (zlen k) (Own v) (zlen v) m = Ok (Some p, m1) /\
    rep h m1 t L /\ ents m1 = <[p := he_of (mkNode p k v) None]> (ents m) /\
    (p ∉ dom (ents m)) /\ (p ∉ map ptr (concat L)) /\
    cmem m1 = cmem m /\ global_seed m1 = global_seed m /\ env_like m m1.
Proof using.
  intros [Rc Ro] He. rewrite (rep_flags _ _ _ _ Rc).
  destruct (create_run m k v now He) as (m1 & E1 & Em1 & Ec1 & Es1 & Ev1).
  set (p := fresh (dom (ents m))) in *.
  assert (p ∉ dom (ents m)) as Hfresh by apply is_fresh.
  assert (forall n, n ∈ concat L -> ptr n ∈ dom (ents m)) as Hdom.
  { intros n Hn. apply elem_of_bucket in Hn as (j & d & Hj & Hd).
    destruct (rep_arr _ _ _ _ Rc) as (arr & _ & H2). destruct (Forall2_lookup_r _ _ _ _ _ H2 Hj) as (hd & _ & Hch).
    destruct (chain_node _ _ _ n Hch Hd) as [x Hx]. apply elem_of_dom. eauto. }
  exists p, m1. split; [done|]. split; [|split; [done|split; [done|split; [|done]]]].
  - split; [|done]. split; try apply Rc; [|rewrite Es1; apply Rc|rewrite Es1; apply Rc].
    destruct (rep_arr _ _ _ _ Rc) as (arr & Ha & H2). exists arr. split; [done|].
    apply Forall2_same_length_lookup_2; [now apply Forall2_length in H2|]. intros j x y Hx Hy'.
    eapply chain_frame; [eapply Forall2_lookup_lr; eauto|]. intros n Hin. rewrite Em1, lookup_insert_ne; [done|].
    intros E. apply Hfresh. rewrite E. apply Hdom, elem_of_bucket. eauto.
  - intros Hin. apply list_elem_of_fmap in Hin as (n & E & Hn). apply Hfresh. rewrite E. auto.
Qed.

Lemma ht_insert_run now N f m t L k v old c : let i := slot h (global_seed m) (array_size t) k in
  rep h m t L -> L !! i = Some (old ++ c) -> Forall (aged now) old -> young now (concat (<[i := c]> L)) ->
  fresh_kv now (k, v) -> calm_env now m -> key_ok k -> 4 <= zlen v ->
  zlen (concat L) + 1 <= N -> N < 2 ^ 24 -> array_size t * 2 < 2 ^ 30 -> fuel_ok f (array_size t * 2) N ->
  exists t' m' L', ht_insert (S f) t (Own k) (zlen k) (Own v) (zlen v) m = Ok (t', m') /\
    rep h m' t' L' /\ ht_map L' = <[k := v]> (filter (fresh_kv now) (ht_map L)) /\
    array_size t <= array_size t' /\ env_like m m' /\ cmem m' = cmem m /\ global_seed m' = global_seed m /\
    (forall q, q ∈ dom (ents m) -> q ∉ map ptr (concat L) -> ents m' !! q = ents m !! q).
Proof.
  intros i R Hc Hold Hy Hfr He Hk Hv HN H24 H30 Hf. pose proof R as (Rc & Hov & Hten).
  unfold ht_insert.
  destruct (create_rep now m t L k v R He) as (p & m1 & E1 & R1 & Em1 & Hfresh & Hp & Ec1 & Es1 & Ev1).
  rewrite (bind_Ok _ _ _ _ _ E1). set (np := mkNode p k v).
  assert (ents m1 !! ptr np = Some (he_of np None)) as Hnp by (rewrite Em1; apply lookup_insert_eq).
  assert (calm_env now m1) as He1 by (eapply calm_like; eauto).
  assert (slot h (global_seed m1) (array_size t) (nk np) = i) as Hi1 by (rewrite Es1; done).
  destruct (concat_at L i _ Hc) as (A & B & EL & EL').
  pose proof (rep_keys _ _ _ _ Rc) as Hnk.
  assert (concat L ≡ₚ old ++ concat (<[i := c]> L)) as HP by (rewrite EL, EL'; solve_Permutation).
  assert (ht_map (<[i := c]> L) = filter (fresh_kv now) (ht_map L)) as Hmap.
  { unfold ht_map. rewrite (nodes_map_perm _ _ Hnk HP). apply nodes_map_young; try done.
    now rewrite <- (Permutation_map nk HP). }
  assert (forall m', only_ents (ptr np :: map ptr (concat L)) m1 m' ->
    forall q, q ∈ dom (ents m) -> q ∉ map ptr (concat L) -> ents m' !! q = ents m !! q) as Hframe.
  { intros m' (O & _) q Hq Hq'. rewrite O, Em1, lookup_insert_ne; [done|intros <-; done|].
    apply not_elem_of_cons. split; [intros ->; done|done]. }
  destruct (decide (k ∈ map nk c)) as [Hin|Hout].
  - apply list_elem_of_fmap in Hin as (n & Ek & Hn). apply list_elem_of_split in Hn as (a & b & ->).
    destruct (insert_present now (S f) m1 t L np None old a n b) as (t' & m' & E & R' & S' & O' & V');
      rewrite ?Hi1; try done.
    rewrite Hi1 in R'. exists t', m'. eexists. split; [exact E|]. split; [exact R'|].
    split; [|split; [lia|split; [unfold env_like in *; congruence|]]].
    2: { pose proof (Hframe _ O') as Hfr'. destruct O' as (_ & O2 & O3).
         split; [congruence|]. split; [congruence|]. done. }
    rewrite <- Hmap. unfold ht_map. rewrite !EL', Ek.
    apply (nodes_map_update A B a b n (mkNode (ptr n) (nk n) v)); [done|].
    rewrite <- EL'. rewrite (Permutation_map nk HP), map_app in Hnk. now apply NoDup_app in Hnk as (_ & _ & Hnk).
  - assert (k ∉ map nk (concat (<[i := c]> L))) as Hk'.
    { intros Hin. apply list_elem_of_fmap in Hin as (n & Ek & Hn).
      assert (n ∈ concat L) as Hn' by (rewrite HP; apply elem_of_app; by right).
      apply elem_of_bucket in Hn' as (j & d & Hj & Hd). destruct (rep_place _ _ _ _ Rc j d n Hj Hd) as [Hji _].
      rewrite <- Ek in Hji. fold i in Hji. subst j. rewrite Hc in Hj. injection Hj as <-.
      apply elem_of_app in Hd as [Hd|Hd].
      - rewrite (Permutation_map nk HP), map_app in Hnk. apply NoDup_app in Hnk as (_ & Hnk & _).
        eapply Hnk; apply (list_elem_of_fmap_2 nk); eassumption.
      - apply Hout. rewrite Ek. now apply list_elem_of_fmap_2. }
    destruct (insert_absent now N (S f) m1 t L np None old c) as (t' & m' & L' & E & R' & _ & S' & P' & O' & V');
      rewrite ?Hi1; try done.
    { rewrite HP, zlen_app in HN. pose proof (zlen_nonneg old). lia. }
    { intros _. exists f. split; [done|]. split; [now apply ins_spec_all|done]. }
    rewrite Hi1 in P'. exists t', m', L'. split; [exact E|]. split; [exact R'|].
    split; [|split; [lia|split; [unfold env_like in *; congruence|]]].
    2: { pose proof (Hframe _ O') as Hfr'. destruct O' as (_ & O2 & O3).
         split; [congruence|]. split; [congruence|]. done. }
    rewrite <- Hmap. unfold ht_map. destruct R' as (R' & _).
    rewrite (nodes_map_perm _ _ (rep_keys _ _ _ _ R') P'). done.
Qed.
End Insert.

(** A new table is an empty map. *)
Lemma init_run now m : calm_env now m -> word 32 (global_seed m) ->
  exists t m', ht_init HT_NONE load_005 m = Ok (t, m') /\
    rep MurmurHash3_x86_32 m' t (replicate 64 []) /\ array_size t = 64 /\ env_like m m' /\
    global_seed m' = global_seed m.
Proof.
  intros [_ Hm] Hw. unfold ht_init.
  erewrite bind_Ok.
  2: { unfold alloc_array. erewrite bind_Ok by reflexivity. rewrite bool_decide_eq_false_2 by done.
       rewrite bool_decide_eq_false_2 by apply Hm.
       rewrite bool_decide_eq_false_2 by (unfold HT_INITIAL_SIZE; lia). reflexivity. }
  eexists _, _. split; [reflexivity|]. split; [|done]. now apply (rep_empty MurmurHash3_x86_32 _ _ 64).
Qed.

(** ** Ageing in the middle of a chain *)

(** The walk over entries that are not too old, with more behind them. *)
Lemma walk_young_app m t i now p k v nx ns rest : ents m !! p = Some (he_of (mkNode p k v) nx) ->
  Forall (fun n => ~ aged now n /\ 4 <= zlen (nv n)) ns ->
  forall fuel prev find hd, chain (ents m) hd (ns ++ rest) -> (length ns <= fuel)%nat ->
  exists hd', chain (ents m) hd' rest /\
  insert_walk fuel t i now p prev find hd m
  = insert_walk (fuel - length ns) t i now p (walk_prev prev ns) (walk_find find k ns) hd' m.
Proof.
  intros Hp HF. induction HF as [|n ns [Hy Hl] HF IH]; intros fuel prev find hd Hc Hf.
  - exists hd. simpl. rewrite Nat.sub_0_r. done.
  - simpl in Hc. destruct Hc as [-> (nx' & Hn & Hc)]. destruct fuel as [|fuel]; [simpl in Hf; lia|].
    destruct (IH fuel (Some (ptr n)) (if bool_decide (nk n = k) then Some (ptr n) else find) nx' Hc)
      as (hd' & Hc' & E); [simpl in Hf; lia|].
    exists hd'. split; [done|]. cbn [insert_walk length]. replace (S fuel - S (length ns))%nat with (fuel - length ns)%nat by lia.
    rewrite (bind_Ok _ _ _ _ _ (get_entry_run _ _ _ Hn)), (bind_Ok _ _ _ _ _ (tv_sec_run n nx' m Hl)).
    rewrite bool_decide_eq_false_2 by exact Hy. rewrite (bind_Ok _ _ _ _ _ (get_entry_run _ _ _ Hp)).
    rewrite (bind_Ok _ _ _ _ _ (compare_run n nx' (he_of (mkNode p k v) nx) k m eq_refl eq_refl)).
    unfold walk_prev in *. rewrite last_cons. cbn [walk_find]. cbn [he_next he_of]. rewrite E.
    now destruct (last ns).
Qed.

Section Ageing.
Context (h : HashFunc Z) {Hh : HashLaw h}.
Context (now : Z) (m : hmem) (t : hash_table) (L : list (list node)) (k v : list Z).
Context (ys rest : list node) (y a : node).

Let i := slot h (global_seed m) (array_size t) k.

Context (R : rep h m t L) (He : calm_env now m) (Hk : key_ok k).
Context (Hc : L !! i = Some ((ys ++ [y]) ++ a :: rest)) (Hy : young now (ys ++ [y])) (Ha : aged now a).

#[local] Set Default Proof Using "Type*".

(** An insertion into the bucket, up to the entry that is too old. *)
Lemma walk_to_old f : exists m2 p arr hd ax yx fuel,
  ents m2 !! ptr a = Some (he_of a ax) /\ chain (ents m2) ax rest /\ (length rest <= fuel)%nat /\
  ents m2 !! ptr y = Some (he_of y yx) /\ NoDup (map ptr (y :: a :: rest)) /\
  (p ∉ map ptr (concat L)) /\ array t = Some arr /\ arr !! i = Some (Some hd) /\
  ht_insert f t (Own k) (zlen k) (Own v) (zlen v) m
  = (r <-- insert_walk (S fuel) t (Z.of_nat i) now p (Some (ptr y)) (walk_find None k (ys ++ [y])) (Some (ptr a)) ;;
     insert_end f (Z.of_nat i) p r) m2.
Proof.
  unfold ht_insert.
  destruct (create_rep h now m t L k v R He) as (p & m1 & E1 & (R1 & _) & Em1 & Hfresh & Hp & _ & Es1 & Ev1).
  rewrite (bind_Ok _ _ _ _ _ E1). set (np := mkNode p k v).
  assert (ents m1 !! ptr np = Some (he_of np None)) as Hnp by (rewrite Em1; apply lookup_insert_eq).
  assert (calm_env now m1) as He1 by (eapply calm_like; eauto).
  assert (slot h (global_seed m1) (array_size t) (nk np) = i) as Hi1 by (rewrite Es1; done).
  destruct (bucket_of h m1 t L k R1 Hk) as (arr & hd & c & Harr & _ & Hhd & Hc1 & _).
  change k with (nk np) in Hhd, Hc1. rewrite Hi1 in Hhd, Hc1. rewrite Hc in Hc1. injection Hc1 as <-.
  destruct (insert_start h f m1 t L np None ((ys ++ [y]) ++ a :: rest) arr hd) as (R2 & O2 & E2);
    rewrite ?Hi1; try done.
  rewrite Hi1 in E2. change (ptr np) with p in E2. rewrite E2. set (m2 := on_ents _ m1) in *.
  destruct (rep_arr _ _ _ _ R2) as (arr0 & E0 & H2). rewrite Harr in E0. injection E0 as <-.
  pose proof (Forall2_lookup_lr _ _ _ _ _ _ H2 Hhd Hc) as Hch.
  pose proof (bucket_nodup ptr L i _ Hc (rep_nodup _ _ _ _ R2)) as Hnd.
  destruct hd as [hd|]; [|exfalso; destruct ys; destruct Hch; discriminate].
  rewrite (proj1 He1). pose proof (chain_length _ _ _ Hch Hnd) as Hlen.
  destruct (walk_young_app (put_env (logged Time (menv m1)) m2) t (Z.of_nat i) now p k v None (ys ++ [y]) (a :: rest))
    with (fuel := walk_fuel m2) (prev := @None positive) (find := @None positive) (hd := Some hd) as (hd' & Hch' & Ew); try done.
  { simpl. apply lookup_insert_eq. }
  { apply Forall_forall. intros n Hn. unfold young in Hy. rewrite Forall_forall in Hy. split; [now apply Hy|].
    apply (rep_place _ _ _ _ R2 i _ n Hc). apply elem_of_app. by left. }
  { unfold walk_fuel. rewrite !length_app in *. simpl in *. lia. }
  simpl in Hch'. destruct Hch' as [-> (ax & Hax & Hch')].
  destruct (chain_node _ _ _ y Hch) as [yx Hyx].
  { apply elem_of_app. left. apply elem_of_app. right. constructor. }
  exists (put_env (logged Time (menv m1)) m2), p, arr, hd, ax, yx, (walk_fuel m2 - length (ys ++ [y]) - 1)%nat.
  split; [done|]. split; [done|]. split; [unfold walk_fuel; rewrite !length_app in *; simpl in *; lia|].
  split; [done|]. split.
  { rewrite <- app_assoc, map_app in Hnd. now apply NoDup_app in Hnd as (_ & _ & Hnd). }
  split; [done|]. split; [done|]. split; [done|].
  replace (S (walk_fuel m2 - length (ys ++ [y]) - 1)) with (walk_fuel m2 - length (ys ++ [y]))%nat
    by (unfold walk_fuel; rewrite !length_app in *; simpl in *; lia).
  unfold bind. change (ptr np) with p. rewrite Ew. unfold walk_prev. now rewrite last_snoc.
Qed.

(** Two entries in a row that are too old, behind one that is not. *)
Lemma two_old_run f b rest' : rest = b :: rest' -> aged now b ->
  ht_insert f t (Own k) (zlen k) (Own v) (zlen v) m = Ub UseAfterFree.
Proof.
  intros Hr Hb. destruct (walk_to_old f)
    as (m2 & p & arr & hd & ax & yx & fuel & Ea & Hch & Hf & Ey & Hnd & _ & _ & _ & ->).
  pose proof R as (Rc & _ & _). rewrite Hr in Hch, Hnd, Hf. simpl in Hch, Hnd, Hf. destruct Hch as [-> (bx & Eb & _)].
  apply NoDup_cons in Hnd as [Hy1 Hnd]. apply NoDup_cons in Hnd as [Ha1 _].
  apply not_elem_of_cons in Hy1 as [Hya Hy1]. apply not_elem_of_cons in Hy1 as [Hyb _].
  apply not_elem_of_cons in Ha1 as [Hab _].
  assert (4 <= zlen (nv a) /\ 4 <= zlen (nv b)) as [La Lb].
  { split; apply (rep_place _ _ _ _ Rc i _ _ Hc); apply elem_of_app; right; rewrite Hr; repeat constructor. }
  destruct fuel as [|fuel]; [lia|]. apply bind_Ub. cbn [insert_walk].
  rewrite (bind_Ok _ _ _ _ _ (get_entry_run _ _ _ Ea)), (bind_Ok _ _ _ _ _ (tv_sec_run a _ m2 La)).
  rewrite bool_decide_eq_true_2 by exact Ha. cbn [he_next he_of].
  set (m3 := on_ents (delete (ptr a)) m2).
  rewrite (bind_Ok _ _ m2 tt m3) by (unfold he_destroy; now rewrite (bind_Ok _ _ _ _ _ (get_entry_run _ _ _ Ea))).
  set (m4 := on_ents <[ptr y := he_of y (Some (ptr b))]> m3).
  rewrite (bind_Ok _ _ m3 tt m4).
  2: { apply (upd_entry_run m3 (ptr y) (he_of y yx) (set_next (Some (ptr b)))).
       simpl. now rewrite lookup_delete_ne by congruence. }
  assert (ents m4 !! ptr b = Some (he_of b bx)) as Eb4
    by (simpl; now rewrite lookup_insert_ne, lookup_delete_ne by congruence).
  rewrite (bind_Ok _ _ _ _ _ (get_entry_run _ _ _ Eb4)), (bind_Ok _ _ _ _ _ (tv_sec_run b _ m4 Lb)).
  rewrite bool_decide_eq_true_2 by exact Hb.
  rewrite (bind_Ok _ _ m4 tt (on_ents (delete (ptr b)) m4))
    by (unfold he_destroy; now rewrite (bind_Ok _ _ _ _ _ (get_entry_run _ _ _ Eb4))).
  apply bind_Ub. unfold upd_entry. apply bind_Ub. unfold get_entry, bind, get. simpl.
  now rewrite lookup_delete_eq.
Qed.

(** An old entry at the end, behind one that is not, and a new key. *)
Lemma last_old_run f : rest = [] -> k ∉ map nk (ys ++ [y]) ->
  ht_insert f t (Own k) (zlen k) (Own v) (zlen v) m = Ub NullDeref.
Proof.
  intros Hr Hn. destruct (walk_to_old f)
    as (m2 & p & arr & hd & ax & yx & fuel & Ea & Hch & Hf & Ey & Hnd & _ & Harr & Hhd & ->).
  pose proof R as (Rc & _ & _). rewrite Hr in Hch, Hnd. simpl in Hch, Hnd. subst ax.
  apply NoDup_cons in Hnd as [Hy1 _]. apply not_elem_of_cons in Hy1 as [Hya _].
  assert (4 <= zlen (nv a)) as La.
  { apply (rep_place _ _ _ _ Rc i _ _ Hc); apply elem_of_app; right. constructor. }
  rewrite walk_find_absent by done. cbn [insert_walk].
  set (m3 := on_ents (delete (ptr a)) m2). set (m4 := on_ents <[ptr y := he_of y None]> m3).
  set (t1 := set_collisions (uwrap 32 (collisions t - 1)) (set_key_count (uwrap 32 (key_count t - 1)) t)).
  rewrite (bind_Ok _ _ m2 (t1, None, None) m4).
  2: { rewrite (bind_Ok _ _ _ _ _ (get_entry_run _ _ _ Ea)), (bind_Ok _ _ _ _ _ (tv_sec_run a _ m2 La)).
       rewrite bool_decide_eq_true_2 by exact Ha. cbn [he_next he_of].
       rewrite (bind_Ok _ _ m2 tt m3) by (unfold he_destroy; now rewrite (bind_Ok _ _ _ _ _ (get_entry_run _ _ _ Ea))).
       rewrite (bind_Ok _ _ m3 tt m4); [now destruct fuel|].
       apply (upd_entry_run m3 (ptr y) (he_of y yx) (set_next None)).
       simpl. now rewrite lookup_delete_ne by congruence. }
  unfold insert_end. apply bind_Ub. unfold link_entry.
  rewrite (bind_Ok _ _ m4 arr m4) by (unfold the_array; simpl; now rewrite Harr).
  rewrite (bind_Ok _ _ m4 (Some hd) m4)
    by (unfold lift; rewrite (rd_Some _ _ (Some hd)); [done|lia|now rewrite Nat2Z.id]).
  reflexivity.
Qed.
End Ageing.

(** ** Statements *)

(** C14: insertion.  For any hash function, with memory available and a clock that
    shows [now] during the call: the call returns (the nesting of its resizes is
    bounded), the invariant of the table holds again, and the table is the map
    with the key set to the value.  Entries older than 30 seconds that stand at
    the front of the key's chain are dropped and freed; those were all such
    entries.  No entry of another table is touched. *)
Theorem table_insert (h : HashFunc Z) (Hh : HashLaw h) (now N : Z) (f : nat) (m : hmem) (t : hash_table)
    (L : list (list node)) (k v : list Z) (old c : list node)
    (R : rep h m t L) (Hc : L !! slot h (global_seed m) (array_size t) k = Some (old ++ c))
    (Hold : Forall (aged now) old)
    (Hy : young now (concat (<[slot h (global_seed m) (array_size t) k := c]> L)))
    (Hfr : fresh_kv now (k, v)) (He : calm_env now m) (Hk : key_ok k) (Hv : 4 <= zlen v)
    (HN : zlen (concat L) + 1 <= N) (H24 : N < 2 ^ 24) (H30 : array_size t * 2 < 2 ^ 30)
    (Hf : fuel_ok f (array_size t * 2) N) :
  exists t' m' L', ht_insert (S f) t (Own k) (zlen k) (Own v) (zlen v) m = Ok (t', m') /\
    rep h m' t' L' /\ ht_map L' = <[k := v]> (filter (fresh_kv now) (ht_map L)) /\
    array_size t <= array_size t' /\
    (forall q, q ∈ dom (ents m) -> q ∉ map ptr (concat L) -> ents m' !! q = ents m !! q).
Proof.
  destruct (ht_insert_run h now N f m t L k v old c) as (t' & m' & L' & H1 & H2 & H3 & H4 & _ & _ & _ & H5); try done.
  exists t', m', L'. done.
Qed.

(** C31: lookup and removal.  [ht_contains] and [ht_get] answer as the map does
    and change nothing; [ht_remove] takes the key out of the map, keeps the
    invariant, frees at most the one entry and touches no entry of another
    table. *)
Theorem table_get_remove (h : HashFunc Z) (Hh : HashLaw h) (m : hmem) (t : hash_table) (L : list (list node))
    (k : list Z) (R : rep h m t L) (Hk : key_ok k) :
  ht_contains t (Own k) (zlen k) m = Ok (match ht_map L !! k with Some _ => 1 | None => 0 end, m) /\
  (exists r, ht_get t (Own k) (zlen k) m = Ok (r, m) /\
     (fun x => (snd (fst x), snd x)) <$> r = (fun v => (Some (Own v), zlen v)) <$> ht_map L !! k) /\
  (exists t' m' L', ht_remove t (Own k) (zlen k) m = Ok (t', m') /\ rep h m' t' L' /\
     ht_map L' = delete k (ht_map L) /\ only_ents (map ptr (concat L)) m m').
Proof.
  destruct (get_run h m t L k (proj1 R) Hk) as [H1 (r & H2 & H3)]. split; [done|]. split.
  - exists r. split; [done|]. destruct (ht_map L !! k) as [v|], r as [[[p b] n]|]; try done.
    destruct H3 as (-> & -> & _). done.
  - destruct (remove_run h m t L k R Hk) as (t' & m' & L' & E & R' & Hm & O & _). exists t', m', L'. done.
Qed.

(** C32: ageing inside a chain.  When an insertion meets an entry older than 30
    seconds behind one that is not, it goes on from the freed place: a second
    old entry right behind it makes it write into the freed one, and an old
    entry at the end of the chain makes the insertion of a new key write
    through NULL. *)
Theorem ageing_inside_chain (h : HashFunc Z) (Hh : HashLaw h) (now : Z) (f : nat) (m : hmem) (t : hash_table)
    (L : list (list node)) (k v : list Z) (ys rest : list node) (y a : node)
    (R : rep h m t L) (He : calm_env now m) (Hk : key_ok k)
    (Hc : L !! slot h (global_seed m) (array_size t) k = Some ((ys ++ [y]) ++ a :: rest))
    (Hy : young now (ys ++ [y])) (Ha : aged now a) :
  (forall b rest', rest = b :: rest' -> aged now b ->
     ht_insert f t (Own k) (zlen k) (Own v) (zlen v) m = Ub UseAfterFree) /\
  (rest = [] -> k ∉ map nk (ys ++ [y]) ->
     ht_insert f t (Own k) (zlen k) (Own v) (zlen v) m = Ub NullDeref).
Proof.
  split.
  - intros b rest' Hr Hb. eapply (two_old_run h now m t L k v ys rest y a); eauto.
  - intros Hr Hn. eapply (last_old_run h now m t L k v ys rest y a); eauto.
Qed.

(** ** Concrete tables *)

#[export] Instance blob_eq_dec : EqDecision blob.
Proof. solve_decision. Defined.
#[export] Instance hash_entry_eq_dec : EqDecision hash_entry.
Proof. solve_decision. Defined.

Definition demo_mem (now : Z) (E : gmap positive hash_entry) : hmem :=
  mkMem E ∅ 2976579765
    {| onum := fun _ c => match c with Time => now | _ => 1 end; obytes := fun _ _ => None; trace := [] |}.

Lemma demo_calm now E : calm_env now (demo_mem now E).
Proof. split; [done|]. intros k n. done. Qed.

(** A time stamp of 8 bytes. *)
Definition stamp (sec : Z) : list Z := [sec; 0; 0; 0; 0; 0; 0; 0].

Lemma table_insert_witness : exists t m1 t' m' L',
  ht_init HT_NONE load_005 (demo_mem 100 ∅) = Ok (t, m1) /\
  ht_insert 24 t (Own [56]) 1 (Own (stamp 100)) 8 m1 = Ok (t', m') /\
  ht_map L' = {[ [56] := stamp 100 ]} /\ rep MurmurHash3_x86_32 m' t' L'.
Proof.
  destruct (init_run 100 (demo_mem 100 ∅)) as (t & m1 & E1 & R1 & S1 & V1 & G1).
  - apply demo_calm.
  - by_check.
  - destruct (table_insert MurmurHash3_x86_32 murmur_hash_law 100 1 23 m1 t (replicate 64 []) [56] (stamp 100) [] [])
      as (t' & m' & L' & E2 & R2 & M2 & _).
    + exact R1.
    + rewrite S1, G1. vm_compute. reflexivity.
    + constructor.
    + rewrite S1, G1. assert (forall i, concat (<[i := []]> (replicate 64 (@nil node))) = []) as Hnil.
      { intros i. destruct (decide (i < 64)%nat) as [Hi|Hi].
        - rewrite list_insert_id; [reflexivity|]. now apply lookup_replicate_2.
        - rewrite list_insert_ge by (rewrite length_replicate; lia). reflexivity. }
      rewrite Hnil. constructor.
    + by_check.
    + eapply calm_like; [exact V1|apply demo_calm].
    + by_check.
    + by_check.
    + by_check.
    + by_check.
    + rewrite S1. by_check.
    + rewrite S1. unfold fuel_ok. by_check.
    + exists t, m1, t', m', L'. split; [exact E1|]. split; [exact E2|]. split; [exact M2|exact R2].
Defined.

(** The invariant as a test, for concrete tables. *)
Fixpoint chain_check (E : gmap positive hash_entry) (hd : option positive) (ns : list node) : bool :=
  match ns with
  | [] => bool_decide (hd = None)
  | n :: ns' =>
      bool_decide (hd = Some (ptr n)) &&
      match E !! ptr n with
      | Some e => bool_decide (e = he_of n (he_next e)) && chain_check E (he_next e) ns'
      | None => false
      end
  end.

Lemma chain_of_check E hd ns : chain_check E hd ns = true -> chain E hd ns.
Proof.
  revert hd. induction ns as [|n ns IH]; intros hd; simpl.
  - apply bool_decide_eq_true_1.
  - rewrite andb_true_iff. intros [->%bool_decide_eq_true_1 H]. split; [done|].
    destruct (E !! ptr n) as [e|]; [|done]. apply andb_true_iff in H as [He%bool_decide_eq_true_1 Hc].
    exists (he_next e). split; [now f_equal|auto].
Qed.

Definition place_check (h : HashFunc Z) (seed size : Z) (ic : nat * list node) : bool :=
  forallb (fun n => bool_decide (ic.1 = slot h seed size (nk n)) && bool_decide (Forall u8 (nk n)) &&
                    bool_decide (zlen (nk n) < 2 ^ 31) && bool_decide (4 <= zlen (nv n))) ic.2.

Definition demo_table (arr : list (option positive)) (n c : Z) : hash_table :=
  mkHt (Some MurmurHash3_x86_32) (Some MurmurHash3_x86_128) (Some MurmurHash3_x64_128) n 64 (Some arr) c
    HT_NONE load_005 (mkD 0 0).

Lemma rep_of_check m arr n c L :
  bool_decide (length arr = 64%nat /\ length L = 64%nat /\ NoDup (map ptr (concat L)) /\ NoDup (map nk (concat L)) /\
    n = zlen (concat L) /\ zlen (concat L) < 2 ^ 24 /\ overlap L <= c /\ 10 * c <= 64 /\
    0 <= global_seed m < 2 ^ 32) = true ->
  forallb (fun p => chain_check (ents m) p.1 p.2) (zip arr L) = true ->
  forallb (place_check MurmurHash3_x86_32 (global_seed m) 64) (imap pair L) = true ->
  rep MurmurHash3_x86_32 m (demo_table arr n c) L.
Proof.
  intros (H1 & H2 & H3 & H4 & H5 & H6 & H7 & H8 & H9)%bool_decide_eq_true_1 Hc Hp.
  split; [|done]. rewrite forallb_forall in Hc, Hp. split; try done.
  - exists arr. split; [done|]. apply Forall2_same_length_lookup_2; [congruence|]. intros i x y Hx Hy.
    apply chain_of_check, (Hc (x, y)), list_elem_of_In, (list_elem_of_lookup_2 _ i).
    rewrite lookup_zip_with, Hx, Hy. done.
  - unfold zlen. rewrite H2. done.
  - intros i d x Hi Hx.
    assert (place_check MurmurHash3_x86_32 (global_seed m) 64 (i, d) = true) as Hpc.
    { apply Hp, list_elem_of_In, (list_elem_of_lookup_2 _ i). rewrite list_lookup_imap, Hi. done. }
    unfold place_check in Hpc. rewrite forallb_forall in Hpc. specialize (Hpc x (proj1 (list_elem_of_In _ _) Hx)).
    rewrite !andb_true_iff in Hpc. destruct Hpc as [[[A%bool_decide_eq_true_1 B%bool_decide_eq_true_1]
      C%bool_decide_eq_true_1] D%bool_decide_eq_true_1]. done.
Qed.

(** Three keys of one bucket, with their time stamps. *)
Definition demo_nodes (s1 s2 s3 : Z) : list node :=
  [mkNode 1 [56] (stamp s1); mkNode 2 [117] (stamp s2); mkNode 3 [121] (stamp s3)].

Definition demo_ents (ns : list node) : gmap positive hash_entry :=
  list_to_map (imap (fun i n => (ptr n, he_of n (ptr <$> ns !! S i))) ns).

Definition demo_L (ns : list node) : list (list node) := <[5%nat := ns]> (replicate 64 []).
Definition demo_arr (ns : list node) : list (option positive) :=
  <[5%nat := ptr <$> head ns]> (replicate 64 None).

Definition demo_ht (ns : list node) : hash_table := demo_table (demo_arr ns) (zlen ns) (zlen ns - 1).

Lemma table_get_remove_witness :
  let m := demo_mem 100 (demo_ents (demo_nodes 90 91 92)) in
  let t := demo_ht (demo_nodes 90 91 92) in
  ht_contains t (Own [117]) 1 m = Ok (1, m) /\
  exists t' m' L', ht_remove t (Own [117]) 1 m = Ok (t', m') /\
    ht_map L' = {[ [56] := stamp 90; [121] := stamp 92 ]}.
Proof.
  destruct (table_get_remove MurmurHash3_x86_32 murmur_hash_law (demo_mem 100 (demo_ents (demo_nodes 90 91 92)))
    (demo_ht (demo_nodes 90 91 92)) (demo_L (demo_nodes 90 91 92)) [117]) as (H1 & _ & t' & m' & L' & H2 & _ & H3 & _).
  - apply rep_of_check; vm_compute; reflexivity.
  - by_check.
  - split; [exact H1|]. exists t', m', L'. split; [exact H2|]. rewrite H3. vm_compute. reflexivity.
Defined.

Definition is_aged (now : Z) (n : node) : bool := bool_decide (swrap 32 (now - sec_of (nv n)) > AGE_TIMEOUT).

Lemma aged_check now n : is_aged now n = true -> aged now n.
Proof. apply bool_decide_eq_true_1. Qed.

Lemma young_check now ns : forallb (fun n => negb (is_aged now n)) ns = true -> young now ns.
Proof.
  intros H. rewrite forallb_forall in H. apply Forall_forall. intros n Hn.
  apply list_elem_of_In, H, negb_true_iff in Hn. now apply bool_decide_eq_false_1 in Hn.
Qed.

Lemma ageing_inside_chain_witness :
  ht_insert 24 (demo_ht (demo_nodes 95 10 11)) (Own [123]) 1 (Own (stamp 100)) 8
    (demo_mem 100 (demo_ents (demo_nodes 95 10 11))) = Ub UseAfterFree /\
  ht_insert 24 (demo_ht (demo_nodes 95 96 11)) (Own [123]) 1 (Own (stamp 100)) 8
    (demo_mem 100 (demo_ents (demo_nodes 95 96 11))) = Ub NullDeref.
Proof.
  split.
  - destruct (ageing_inside_chain MurmurHash3_x86_32 murmur_hash_law 100 24
      (demo_mem 100 (demo_ents (demo_nodes 95 10 11))) (demo_ht (demo_nodes 95 10 11)) (demo_L (demo_nodes 95 10 11))
      [123] (stamp 100) [] [mkNode 3 [121] (stamp 11)] (mkNode 1 [56] (stamp 95)) (mkNode 2 [117] (stamp 10)))
      as [H _].
    + apply rep_of_check; vm_compute; reflexivity.
    + apply demo_calm.
    + by_check.
    + vm_compute. reflexivity.
    + apply young_check. vm_compute. reflexivity.
    + apply aged_check. vm_compute. reflexivity.
    + eapply H; [reflexivity|]. apply aged_check. vm_compute. reflexivity.
  - destruct (ageing_inside_chain MurmurHash3_x86_32 murmur_hash_law 100 24
      (demo_mem 100 (demo_ents (demo_nodes 95 96 11))) (demo_ht (demo_nodes 95 96 11)) (demo_L (demo_nodes 95 96 11))
      [123] (stamp 100) [mkNode 1 [56] (stamp 95)] [] (mkNode 2 [117] (stamp 96)) (mkNode 3 [121] (stamp 11)))
      as [_ H].
    + apply rep_of_check; vm_compute; reflexivity.
    + apply demo_calm.
    + by_check.
    + vm_compute. reflexivity.
    + apply young_check. vm_compute. reflexivity.
    + apply aged_check. vm_compute. reflexivity.
    + apply H; [reflexivity|by_check].
Defined.
