(* ===== verification/Collector.v ===== *)
(** * The collector: [infoCollect.c] and [network.c]

    A packet thread ([captureOne], called by libpcap) times TCP handshakes and
    hands the result to a thread that asks the radio about the station
    ([getArgs], [getInfo]), which puts it into the send queue; a third thread
    ([sendData]) writes the records to the server.  The two tables are those of
    [HashTable], the queue that of [Queue]. *)

From stdpp Require Import base list numbers gmap strings.
From Stdlib Require Import ZArith Lia.
From S2P Require Import Prelude CString Queue Murmur Env HashTable.
Import DSQueue.
Local Open Scope Z_scope.

Definition KEYLEN : Z := 25.
Definition MAXSIZE : Z := 65535.
Definition SERVER_PORT : Z := 7777.
Definition INSERT_FUEL : nat := 24.

(** ** Data *)

(** The two ways the code makes a [double]: the quotient of two [int]s, and
    [atof] of a decimal number [n / 10 ^ k]. *)
Inductive dbl : Type := DQuot (a b : Z) | DDec (n k : Z).

(** [struct Record]; [None]: not assigned since [malloc]. *)
Record Record_s : Type := mkRec {
  sta_mac : list Z;
  rssi : option Z;
  mode : option Z;
  au : option dbl;
  delay : Z;
  br : option dbl;
  r_tt : option Z;
  r_rt : option Z }.

(** [sizeof(Record)]: [double] and [long long] are aligned to 8 bytes. *)
Definition sizeof_Record : Z := 72.

Definition set_mode (v : Z) (r : Record_s) : Record_s :=
  mkRec (sta_mac r) (rssi r) (Some v) (au r) (delay r) (br r) (r_tt r) (r_rt r).
Definition set_au (v : dbl) (r : Record_s) : Record_s :=
  mkRec (sta_mac r) (rssi r) (mode r) (Some v) (delay r) (br r) (r_tt r) (r_rt r).
Definition set_rssi (v : Z) (r : Record_s) : Record_s :=
  mkRec (sta_mac r) (Some v) (mode r) (au r) (delay r) (br r) (r_tt r) (r_rt r).
Definition set_br (v : dbl) (r : Record_s) : Record_s :=
  mkRec (sta_mac r) (rssi r) (mode r) (au r) (delay r) (Some v) (r_tt r) (r_rt r).
Definition set_traffic (t v : Z) (r : Record_s) : Record_s :=
  mkRec (sta_mac r) (rssi r) (mode r) (au r) (delay r) (br r) (Some t) (Some v).

(** The state of the process. *)
Record cworld : Type := mkCw {
  cm : hmem;
  sessionTable : hash_table;
  stationTable : hash_table;
  cur_task : option Record_s;
  sendQueue : DSQueue Record_s;
  sent : list Record_s }.                     (** what was written to the server *)

Definition set_cm (m : hmem) (w : cworld) : cworld :=
  mkCw m (sessionTable w) (stationTable w) (cur_task w) (sendQueue w) (sent w).
Definition set_session (t : hash_table) (w : cworld) : cworld :=
  mkCw (cm w) t (stationTable w) (cur_task w) (sendQueue w) (sent w).
Definition set_station (t : hash_table) (w : cworld) : cworld :=
  mkCw (cm w) (sessionTable w) t (cur_task w) (sendQueue w) (sent w).
Definition set_task (r : option Record_s) (w : cworld) : cworld :=
  mkCw (cm w) (sessionTable w) (stationTable w) r (sendQueue w) (sent w).
Definition set_queue (q : DSQueue Record_s) (w : cworld) : cworld :=
  mkCw (cm w) (sessionTable w) (stationTable w) (cur_task w) q (sent w).
Definition set_sent (l : list Record_s) (w : cworld) : cworld :=
  mkCw (cm w) (sessionTable w) (stationTable w) (cur_task w) (sendQueue w) l.

#[export] Instance cworld_has_env : HasEnv cworld.
Proof.
  refine {| the_env := fun w => menv (cm w); put_env := fun e w => set_cm (put_env e (cm w)) w |}.
  - reflexivity.
  - reflexivity.
  - intros [[E c g e] s t k q l]. reflexivity.
Defined.

(** An operation of the hash tables. *)
Definition on_mem {A} (op : M hmem A) : M cworld A := fun w =>
  match op (cm w) with Ok (a, m) => Ok (a, set_cm m w) | Ub u => Ub u end.

Definition insert_session (k v : list Z) : M cworld unit :=
  w <-- get ;;
  t <-- on_mem (ht_insert INSERT_FUEL (sessionTable w) (Own k) (zlen k) (Own v) (zlen v)) ;;
  modify (set_session t).

(** [struct timeval]: seconds and microseconds, 32 bits each. *)
Definition timeval (sec usec : Z) : list Z := le_bytes 4 sec ++ le_bytes 4 usec.
(** [ThroughputRecord]: its last four bytes are padding. *)
Definition throughput (tx rx last : Z) : list Z := le_bytes 8 tx ++ le_bytes 8 rx ++ le_bytes 4 last ++ replicate 4 0.

(** ** Commands *)

(** [popen], one [fgets] into the zeroed [result[1024]], [pclose]: [None] when
    [popen] fails, else the line if there is one. *)
Definition ask (cmd : list Z) : M cworld (option (option (list Z))) :=
  out <-- popen cmd ;;
  match out with
  | None => ret None
  | Some bytes => ret (Some (match fgets 1024 bytes with Some (l, _) => Some (cstr l) | None => None end))
  end.

(** The same with two [fgets]. *)
Definition ask2 (cmd : list Z) : M cworld (option (option (list Z) * option (list Z))) :=
  out <-- popen cmd ;;
  match out with
  | None => ret None
  | Some bytes =>
      ret (Some (match fgets 1024 bytes with
                 | None => (None, None)
                 | Some (l, r) => (Some (cstr l), match fgets 1024 r with Some (l', _) => Some (cstr l') | None => None end)
                 end))
  end.

(** [sscanf(s, "%lld", &x)]: [old] when there is no number. *)
Definition scan_lld (s : list Z) (old : Z) : Z :=
  let '(neg, t) := scan_sign (skip_spaces s) in
  match span_digits 10 t with
  | ([], _) => old
  | (ds, _) =>
      let n := read_digits 10 0 ds in
      Z.max (- 2 ^ 63) (Z.min (2 ^ 63 - 1) (if neg : bool then - n else n))
  end.

(** [atof] of a number in decimal notation (with no exponent). *)
Definition atof (s : list Z) : dbl :=
  let '(neg, t) := scan_sign (skip_spaces s) in
  let '(ip, r) := span_digits 10 t in
  let fp := match r with 46 :: r' => fst (span_digits 10 r') | _ => [] end in
  let n := read_digits 10 0 (ip ++ fp) in
  DDec (if neg : bool then - n else n) (zlen fp).

(** [br == -1]: the number rounds to -1. *)
Definition is_minus1 (d : dbl) : bool :=
  match d with
  | DDec n k => bool_decide (- (2 * 10 ^ k) <= n * 2 ^ 54 + 10 ^ k * 2 ^ 54 <= 10 ^ k)
  | DQuot a b => bool_decide (a = - b)
  end.

Definition interface_name (i : Z) : list Z := if bool_decide (i = 0) then str "wlan0" else str "wlan1".

(** [sprintf] of a command into a local array of [n] bytes. *)
Definition command (n : Z) (text : list Z) : M cworld (list Z) :=
  if bool_decide (zlen text < n) then ret text else fail OutOfBounds.

(** The two commands of a traffic counter, for the transmitted and the received
    bytes of a station. *)
Definition bytes_cmd (dir : list Z) (r_mode : Z) (mac : list Z) : list Z :=
  str "iw " ++ interface_name r_mode ++ str " station get " ++ mac ++ str " |grep '" ++ dir
  ++ str " bytes'|awk -F ':' '{print $2}'".

(** One counter: -1 when there is no output. *)
Definition counter (cmd : list Z) : M cworld (option Z) :=
  r <-- ask cmd ;;
  ret (match r with None => None | Some None => Some (-1) | Some (Some l) => Some (scan_lld l (-1)) end).

Definition remove_station (k : list Z) : M cworld unit :=
  w <-- get ;;
  t <-- on_mem (ht_remove (stationTable w) (Own k) (zlen k)) ;;
  modify (set_station t).

(** ** [getInfo] *)

(** Its first part: on which radio the station is.  The command is printed into
    [get_type_cmd], an array of [size] bytes (50 in the source). *)
Definition GET_TYPE_CMD : Z := 50.
Definition info_mode (size : Z) (r : Record_s) : M cworld (option Record_s) :=
  cmd <-- command size (str "iw dev wlan0 station dump | grep " ++ cstr (sta_mac r)) ;;
  a <-- ask cmd ;;
  match a with
  | None => ret None
  | Some (Some _) => ret (Some (set_mode 0 r))
  | Some None => ret (Some (set_mode 1 r))
  end.

Definition the_mode (r : Record_s) : M cworld Z :=
  match mode r with Some m => ret m | None => fail UninitRead end.

(** Channel utilization, signal and bit rate. *)
Definition info_radio (r : Record_s) : M cworld (option Record_s) :=
  m <-- the_mode r ;;
  au_cmd <-- command 100 (str "iw dev " ++ interface_name m ++ str " survey dump|grep time |awk '{print $4}'") ;;
  a <-- ask2 au_cmd ;;
  match a with
  | None => ret None
  | Some (l1, l2) =>
      let active_time := match l1 with Some l => atoi l | None => -1 end in
      let buzy_time := match l2 with Some l => atoi l | None => -1 end in
      if bool_decide (active_time = -1 \/ buzy_time = -1) then ret None
      else
        let r := set_au (DQuot buzy_time active_time) r in
        rssi_cmd <-- command 100 (str "iw dev " ++ interface_name m ++ str " station get " ++ cstr (sta_mac r)
                                  ++ str "|grep signal:|awk '{print $2}'") ;;
        b <-- ask rssi_cmd ;;
        match b with
        | None => ret None
        | Some l =>
            let rssi := match l with Some l => atoi l | None => 1 end in
            if bool_decide (rssi = 1) then ret None
            else
              let r := set_rssi rssi r in
              br_cmd <-- command 100 (str "iwinfo " ++ interface_name m ++ str " info|grep 'Bit Rate:'|awk '{print $3}'") ;;
              c <-- ask br_cmd ;;
              match c with
              | None => ret None
              | Some None => ret None
              | Some (Some l) =>
                  let br := atof l in
                  if is_minus1 br then ret None else ret (Some (set_br br r))
              end
        end
  end.

(** The part of a first measurement: the counters are stored. *)
Definition info_first (r : Record_s) (cur_time : Z) (tt_cmd rt_cmd : list Z) : M cworld Z :=
  a <-- counter tt_cmd ;;
  match a with
  | None => ret 0
  | Some tx =>
      b <-- counter rt_cmd ;;
      match b with
      | None => ret 0
      | Some rx =>
          if bool_decide (rx = -1 \/ tx = -1) then ret 0
          else
            w <-- get ;;
            t <-- on_mem (ht_insert INSERT_FUEL (stationTable w) (Own (sta_mac r)) 18
                            (Own (throughput tx rx cur_time)) 24) ;;
            modify (set_station t) ;;;
            ret 0
      end
  end.

(** The part of a later measurement, at least 10 seconds after the last: the
    differences per second.  [t_Record] is the value of the entry [p]. *)
Definition info_again (r : Record_s) (cur_time time_gap : Z) (p : positive) (v : list Z) (tt_cmd rt_cmd : list Z)
  : M cworld (Z * Record_s) :=
  a <-- counter tt_cmd ;;
  match a with
  | None => remove_station (sta_mac r) ;;; ret (0, r)
  | Some tx =>
      b <-- counter rt_cmd ;;
      match b with
      | None => remove_station (sta_mac r) ;;; ret (0, r)
      | Some rx =>
          if bool_decide (rx = -1 \/ tx = -1) then remove_station (sta_mac r) ;;; ret (0, r)
          else
            tt0 <-- lift (rd_le 0 8 v) ;;
            rt0 <-- lift (rd_le 8 8 v) ;;
            let r := set_traffic (swrap 64 (tx - swrap 64 tt0) ÷ time_gap) (swrap 64 (rx - swrap 64 rt0) ÷ time_gap) r in
            v' <-- lift (splice 0 (le_bytes 8 tx ++ le_bytes 8 rx ++ le_bytes 4 cur_time) v) ;;
            on_mem (upd_entry p (fun e => set_value (Some (Own v')) (he_value_size e) e)) ;;;
            ret (1, r)
      end
  end.

(** With the answer of [ht_get]: the entry, its value and the size of that. *)
Definition info_found (r : Record_s) (cur_time : Z) (tt_cmd rt_cmd : list Z)
    (found : option (positive * option blob * Z)) : M cworld (Z * Record_s) :=
  match found with
  | None => c <-- info_first r cur_time tt_cmd rt_cmd ;; ret (c, r)
  | Some (p, value, _) =>
      match value with
      | None => fail NullDeref
      | Some b =>
          v <-- on_mem (bytes_of b) ;;
          last <-- lift (rd_le 16 4 v) ;;
          let time_gap := swrap 32 (cur_time - swrap 32 last) in
          if bool_decide (time_gap >= 10) then info_again r cur_time time_gap p v tt_cmd rt_cmd
          else ret (0, r)
      end
  end.

(** The traffic of the station since the last measurement. *)
Definition info_traffic (r : Record_s) : M cworld (Z * Record_s) :=
  m <-- the_mode r ;;
  tt_cmd <-- command 100 (bytes_cmd (str "tx") m (cstr (sta_mac r))) ;;
  rt_cmd <-- command 100 (bytes_cmd (str "rx") m (cstr (sta_mac r))) ;;
  cur_time <-- ext Time ;;
  let r := set_traffic 0 0 r in
  w <-- get ;;
  found <-- on_mem (ht_get (stationTable w) (Own (sta_mac r)) 18) ;;
  info_found r cur_time tt_cmd rt_cmd found.

(** Everything behind the first command. *)
Definition info_rest (r : Record_s) : M cworld (Z * Record_s) :=
  b <-- info_radio r ;;
  match b with
  | None => ret (0, r)
  | Some r => info_traffic r
  end.

(** The return value and the record. *)
Definition getInfo (size : Z) (r : Record_s) : M cworld (Z * Record_s) :=
  a <-- info_mode size r ;;
  match a with
  | None => ret (0, r)
  | Some r => info_rest r
  end.

(** ** The packet thread *)

Definition mac_string (mac : list Z) : list Z :=
  match mac with
  | [a; b; c; d; e; f] =>
      fmt_x 2 a ++ [58] ++ fmt_x 2 b ++ [58] ++ fmt_x 2 c ++ [58] ++ fmt_x 2 d ++ [58] ++ fmt_x 2 e ++ [58] ++ fmt_x 2 f
  | _ => []
  end.

(** [mac2String(mac, mac_string)] into an array of 18 bytes. *)
Definition mac2String (mac : list Z) (buf : list Z) : res (list Z) :=
  let! buf := splice 0 (replicate 18 0) buf in
  sprintf_at 0 (mac_string mac) buf.

(** The text of the key: the ports and the addresses, each pair smaller first.
    [sprintf] prints the first half at the start of [key_char] and the second
    behind it. *)
Definition pair_text (w : nat) (a b : Z) : list Z :=
  if bool_decide (b < a) then fmt_x w b ++ fmt_x w a else fmt_x w a ++ fmt_x w b.

Definition session_key (sport dport saddr daddr : Z) : list Z :=
  pair_text 4 sport dport ++ pair_text 8 saddr daddr.

(** What [captureOne] reads of a packet: the source MAC, ports, addresses and
    the SYN and ACK flags.  The numbers are read in the byte order of the
    machine. *)
Record packet_s : Type := mkPkt {
  p_shost : list Z; p_sport : Z; p_dport : Z; p_saddr : Z; p_daddr : Z; p_syn : bool; p_ack : bool }.

Definition parse_packet (packet : list Z) : res packet_s :=
  let! shost := slice 6 6 packet in
  let! vihl := rd packet 14 in
  let tcp := 14 + Z.land vihl 15 * 4 in
  let! sport := rd_le tcp 2 packet in
  let! dport := rd_le (tcp + 2) 2 packet in
  let! saddr := rd_le 26 4 packet in
  let! daddr := rd_le 30 4 packet in
  let! fl := rd packet (tcp + 13) in
  Ok (mkPkt shost sport dport saddr daddr (Z.testbit fl 1) (Z.testbit fl 4)).

Definition make_key (p : packet_s) : res (list Z) :=
  let! key_char := sprintf_at 0 (pair_text 4 (p_sport p) (p_dport p)) (replicate 25 0) in
  sprintf_at 8 (pair_text 8 (p_saddr p) (p_daddr p)) key_char.

(** [delay], computed in a 32-bit [long].  A delay that does not fit (about 35
    minutes) is an overflow of the language; here it wraps, as the compiled code
    does. *)
Definition delay_of (sec usec sec0 usec0 : Z) : Z := swrap 32 ((sec - sec0) * 1000000 + (usec - usec0)).

(** [captureOne]: [locked] says whether another thread holds the mutex. *)
Definition captureOne (locked : bool) (sec usec : Z) (packet : list Z) : M cworld unit :=
  p <-- lift (parse_packet packet) ;;
  key_char <-- lift (make_key p) ;;
  if p_syn p && p_ack p then insert_session key_char (timeval sec usec)
  else if p_ack p then
    w <-- get ;;
    c <-- on_mem (ht_contains (sessionTable w) (Own key_char) KEYLEN) ;;
    if bool_decide (c = 0) then ret tt
    else
      r <-- ext (Malloc sizeof_Record) ;;
      if bool_decide (r = 0) then fail NullDeref
      else
        mac <-- lift (mac2String (p_shost p) (replicate 18 0)) ;;
        found <-- on_mem (ht_get (sessionTable w) (Own key_char) KEYLEN) ;;
        match found with
        | Some (_, Some b, _) =>
            v <-- on_mem (bytes_of b) ;;
            sec0 <-- lift (rd_le 0 4 v) ;;
            usec0 <-- lift (rd_le 4 4 v) ;;
            let record := mkRec mac None None None (delay_of sec usec (swrap 32 sec0) (swrap 32 usec0)) None None None in
            t <-- on_mem (ht_remove (sessionTable w) (Own key_char) KEYLEN) ;;
            modify (set_session t) ;;;
            if locked then ret tt else modify (set_task (Some record))
        | _ => fail NullDeref
        end
  else ret tt.

(** ** The other threads *)

(** [getArgs] with a task, up to the call of [ds_queue_put]: the record to put,
    if [getInfo] succeeded. *)
Definition args_info (size : Z) : M cworld (option Record_s) :=
  w <-- get ;;
  match cur_task w with
  | None => fail NullDeref
  | Some r => a <-- getInfo size r ;; ret (if bool_decide (fst a <> 0) then Some (snd a) else None)
  end.

(** Where the thread of [getArgs] is: waiting for a task without the mutex, with
    the mutex and a task, or in [ds_queue_put] with the mutex. *)
Inductive phase : Type := Waiting | Working | Putting (r : Record_s).

Definition holds_mutex (ph : phase) : bool := match ph with Waiting => false | _ => true end.

(** [sendRecord(fd, record)]. *)
Definition sendRecord (fd : Z) (r : Record_s) : M cworld unit :=
  ext_ (Write fd sizeof_Record) ;;; modify (fun w => set_sent (sent w ++ [r]) w).

Inductive cevent : Type :=
| EPacket (sec usec : Z) (packet : list Z)
| EWake | EInfo | EFree | EPut (r : Record_s) | ESend (r : Record_s).

(** The steps of the process.  [size] is the size of [get_type_cmd], [fd] the
    socket. *)
Inductive cstep (size fd : Z) : phase * cworld -> cevent -> phase * cworld -> Prop :=
| c_packet ph w sec usec pkt w' :
    captureOne (holds_mutex ph) sec usec pkt w = Ok (tt, w') ->
    cstep size fd (ph, w) (EPacket sec usec pkt) (ph, w')
| c_wake w : cur_task w <> None -> cstep size fd (Waiting, w) EWake (Working, w)
| c_info w r w' : args_info size w = Ok (Some r, w') -> cstep size fd (Working, w) EInfo (Putting r, w')
| c_free w w' : args_info size w = Ok (None, w') -> cstep size fd (Working, w) EFree (Waiting, set_task None w')
| c_put r w q : ds_queue_put (sendQueue w) (Some r) = Ok (Some q) ->
    cstep size fd (Putting r, w) (EPut r) (Waiting, set_task None (set_queue q w))
| c_send ph w r q w' : ds_queue_get (sendQueue w) = Ok (Some (Some r, q)) ->
    sendRecord fd r (set_queue q w) = Ok (tt, w') ->
    cstep size fd (ph, w) (ESend r) (ph, w').

(** ** [network.c] and [main] *)

(** [initNetwork(&fd)]: [None] when the process exits. *)
Definition initNetwork (ip : list Z) : M hmem (option Z) :=
  fd <-- ext Socket ;;
  if bool_decide (fd = -1) then ret None
  else
    r <-- ext (Connect fd ip SERVER_PORT) ;;
    if bool_decide (r = -1) then ret None else ret (Some fd).

Definition closeNetwork (fd : Z) : M hmem unit := ext_ (Close fd).

(** [getMac(mac)]: the return code and the array [mac] of 30 bytes.  [ifr_name]
    holds 15 characters of the name; the address is what [ioctl] stored. *)
Definition getMac (interface : list Z) (hwaddr : list Z) (mac : list Z) : M hmem (Z * list Z) :=
  fd <-- ext Socket ;;
  if bool_decide (fd < 0) then ret (-1, mac)
  else
    r <-- ext (Ioctl fd) ;;
    if bool_decide (r < 0) then ret (-1, mac)
    else
      mac <-- lift (sprintf_at 0 (fmt_mac (take 6 hwaddr)) mac) ;;
      ext_ (Close fd) ;;;
      ret (0, mac).

(** [main] up to the start of the threads: the arguments are copied into arrays
    of 30 bytes; [None] when the process exits. *)
Definition main_start (argv : list (list Z)) (hwaddr : list Z) (junk : nat -> option Record_s)
  : M hmem (option (Z * hash_table * hash_table * DSQueue Record_s)) :=
  match argv with
  | _ :: a1 :: a2 :: _ =>
      interface <-- lift (sprintf_at 0 a1 (replicate 30 0)) ;;
      ip <-- lift (sprintf_at 0 a2 (replicate 30 0)) ;;
      getMac interface hwaddr (replicate 30 0) ;;;
      dev <-- ext (PcapOpen (cstr interface)) ;;
      if bool_decide (dev = 0) then ret None
      else
        s <-- ht_init HT_NONE load_005 ;;
        t <-- ht_init HT_NONE load_005 ;;
        q <-- lift (ds_queue_create junk MAXSIZE) ;;
        fd <-- initNetwork (cstr ip) ;;
        ret (match fd with None => None | Some fd => Some (fd, s, t, q) end)
  | _ => ret None
  end.

(** ** Numbers *)

Lemma swrap_uwrap w z : 0 <= w -> swrap w (z mod 2 ^ w) = swrap w z.
Proof. intros Hw. unfold swrap. now rewrite Zplus_mod_idemp_l. Qed.

Lemma timeval_read sec usec : s32 sec -> s32 usec ->
  exists a b, rd_le 0 4 (timeval sec usec) = Ok a /\ swrap 32 a = sec /\
    rd_le 4 4 (timeval sec usec) = Ok b /\ swrap 32 b = usec.
Proof.
  intros Hs Hu. unfold timeval.
  exists (sec mod 256 ^ 4), (usec mod 256 ^ 4). change (256 ^ 4) with (2 ^ 32).
  rewrite !swrap_uwrap, !swrap_small by (unfold s32 in *; simpl; lia). split; [|split; [done|split; [|done]]].
  - apply (rd_le_mid 4 sec [] (le_bytes 4 usec)). done.
  - rewrite <- (app_nil_r (le_bytes 4 usec)). apply (rd_le_mid 4 usec (le_bytes 4 sec) []). now rewrite zlen_le_bytes.
Qed.

Lemma timeval_sec sec usec : s32 sec -> sec_of (timeval sec usec) = sec.
Proof.
  intros Hs. unfold sec_of, timeval. rewrite take_app_le by (cbn; lia).
  rewrite take_ge by (cbn; lia). rewrite le_num_bytes. change (256 ^ Z.of_nat 4) with (2 ^ 32).
  rewrite swrap_uwrap, swrap_small by (unfold s32 in Hs; simpl; lia). done.
Qed.

(** ** The session key *)

Lemma fmt_x_read w a : 0 <= a -> read_digits 16 0 (fmt_x w a) = a.
Proof.
  intros Ha. unfold fmt_x.
  assert (forall n l, read_digits 16 0 (replicate n 48 ++ l) = read_digits 16 0 l) as ->
    by (induction n; simpl; auto).
  rewrite <- (app_nil_r (digits 16 a)), digits_read by lia. simpl. lia.
Qed.

Lemma fmt_x_length (w : nat) a : (1 <= w)%nat -> 0 <= a < 16 ^ Z.of_nat w -> length (fmt_x w a) = w.
Proof.
  intros Hw Ha. unfold fmt_x. destruct w as [|w]; [lia|].
  pose proof (digits_length 16 a w ltac:(lia) ltac:(lia) ltac:(lia)) as Hl.
  rewrite length_app, length_replicate. lia.
Qed.

Lemma pair_text_sym w a b : pair_text w a b = pair_text w b a.
Proof. unfold pair_text. repeat case_bool_decide; try done; try lia. assert (a = b) as -> by lia. done. Qed.

Lemma pair_text_length (w : nat) a b : (1 <= w)%nat -> 0 <= a < 16 ^ Z.of_nat w -> 0 <= b < 16 ^ Z.of_nat w ->
  length (pair_text w a b) = (w + w)%nat.
Proof. intros Hw Ha Hb. unfold pair_text. case_bool_decide; rewrite length_app, !fmt_x_length; lia. Qed.

Lemma pair_text_inj (w : nat) a b c d : (1 <= w)%nat -> 0 <= a < 16 ^ Z.of_nat w -> 0 <= b < 16 ^ Z.of_nat w ->
  0 <= c < 16 ^ Z.of_nat w -> 0 <= d < 16 ^ Z.of_nat w ->
  pair_text w a b = pair_text w c d -> (a = c /\ b = d) \/ (a = d /\ b = c).
Proof.
  intros Hw Ha Hb Hc Hd E.
  assert (forall x y z u, 0 <= x < 16 ^ Z.of_nat w -> 0 <= y -> 0 <= z < 16 ^ Z.of_nat w -> 0 <= u ->
    fmt_x w x ++ fmt_x w y = fmt_x w z ++ fmt_x w u -> x = z /\ y = u) as H.
  { intros x y z u Hx Hy Hz Hu Ex. apply app_inj_1 in Ex as [E1 E2]; [|rewrite !fmt_x_length by done; done].
    split; [rewrite <- (fmt_x_read w x), <- (fmt_x_read w z), E1 by lia; done|].
    rewrite <- (fmt_x_read w y), <- (fmt_x_read w u), E2 by lia. done. }
  unfold pair_text in E. repeat case_bool_decide; apply H in E; lia.
Qed.

Definition u16 (z : Z) : Prop := 0 <= z < 2 ^ 16.

(** Which packets share a session.  Two packets have the same key exactly
    when they have the same two ports, in either order, and the same two
    addresses, in either order: both directions of a connection meet, and so do
    the connections that have the ports of the two hosts exchanged. *)
Theorem session_key_pairs (sp dp sa da sp' dp' sa' da' : Z)
    (H1 : u16 sp) (H2 : u16 dp) (H3 : u32 sa) (H4 : u32 da)
    (H1' : u16 sp') (H2' : u16 dp') (H3' : u32 sa') (H4' : u32 da') :
  session_key sp dp sa da = session_key sp' dp' sa' da' <->
  ((sp = sp' /\ dp = dp') \/ (sp = dp' /\ dp = sp')) /\ ((sa = sa' /\ da = da') \/ (sa = da' /\ da = sa')).
Proof.
  unfold u16, u32 in *. split.
  - unfold session_key. intros E. apply app_inj_1 in E as [E1 E2].
    + apply pair_text_inj in E1; [|simpl; lia..]. apply pair_text_inj in E2; [|simpl; lia..]. done.
    + rewrite !pair_text_length; simpl; lia.
  - unfold session_key. intros [[[-> ->]|[-> ->]] [[-> ->]|[-> ->]]]; f_equal; auto using pair_text_sym.
Qed.

(** ** Handshakes *)

Record pkt_ok (p : packet_s) : Prop := {
  po_sport : u16 (p_sport p); po_dport : u16 (p_dport p);
  po_saddr : u32 (p_saddr p); po_daddr : u32 (p_daddr p);
  po_len : length (p_shost p) = 6%nat; po_mac : Forall u8 (p_shost p) }.

(** The array [key_char]: 24 characters and the final 0. *)
Definition key_of (p : packet_s) : list Z :=
  session_key (p_sport p) (p_dport p) (p_saddr p) (p_daddr p) ++ [0].

Lemma session_key_length p : pkt_ok p -> zlen (session_key (p_sport p) (p_dport p) (p_saddr p) (p_daddr p)) = 24.
Proof.
  intros []. unfold u16, u32 in *. unfold session_key, zlen.
  rewrite length_app, (pair_text_length 4), (pair_text_length 8) by (simpl; lia). done.
Qed.

Lemma fmt_x_chars w a : 0 <= a -> Forall u8 (fmt_x w a).
Proof.
  intros Ha. unfold fmt_x. apply Forall_app. split.
  - apply Forall_replicate. unfold u8. lia.
  - eapply Forall_impl; [apply digits_chars; lia|]. intros c (d & Hd & ->).
    pose proof (digit_chr_u8 d Hd). unfold u8. lia.
Qed.

Lemma key_of_ok p : pkt_ok p -> key_ok (key_of p) /\ zlen (key_of p) = KEYLEN.
Proof.
  intros Hp. pose proof (session_key_length p Hp) as Hl. destruct Hp. unfold u16, u32 in *.
  unfold key_of, key_ok. rewrite zlen_app, Hl. change (zlen [0]) with 1. split; [|done]. split; [|lia].
  apply Forall_app. split; [|repeat constructor; unfold u8; lia].
  unfold session_key, pair_text. repeat case_bool_decide; rewrite !Forall_app; repeat split; apply fmt_x_chars; lia.
Qed.

Lemma key_print p : pkt_ok p -> make_key p = Ok (key_of p).
Proof.
  intros []. unfold u16, u32 in *. unfold make_key, sprintf_at, key_of, session_key.
  pose proof (pair_text_length 4 (p_sport p) (p_dport p)) as H4.
  pose proof (pair_text_length 8 (p_saddr p) (p_daddr p)) as H8. simpl in H4, H8.
  set (a := pair_text 4 _ _) in *. set (b := pair_text 8 _ _) in *.
  specialize (H4 ltac:(lia) ltac:(lia) ltac:(lia)). specialize (H8 ltac:(lia) ltac:(lia) ltac:(lia)).
  change (replicate 25 0) with ([] ++ replicate 9 0 ++ replicate 16 0).
  rewrite (splice_mid []) by (done || rewrite length_app, H4; done). cbn [res_bind app].
  rewrite <- app_assoc. change ([0] ++ replicate 16 0) with (replicate 17 0 ++ []).
  rewrite splice_mid by (unfold zlen; rewrite ?H4, ?length_app, ?H8; done). now rewrite app_nil_r, app_assoc.
Qed.

Lemma mac_print m : length m = 6%nat -> Forall u8 m ->
  mac2String m (replicate 18 0) = Ok (mac_string m ++ [0]) /\ length (mac_string m) = 17%nat /\ 0 ∉ mac_string m.
Proof.
  intros Hl Hm. destruct m as [|a [|b [|c [|d [|e [|f [|]]]]]]]; try discriminate.
  repeat match goal with H : Forall _ (_ :: _) |- _ => apply Forall_cons_1 in H as [? H] end.
  assert (length (mac_string [a; b; c; d; e; f]) = 17%nat) as L17.
  { unfold mac_string. rewrite !length_app, !fmt_x2_length by done. done. }
  split; [|split; [done|]].
  - unfold mac2String. change (splice 0 (replicate 18 0) (replicate 18 0)) with (Ok (replicate 18 0)). cbn [res_bind].
    unfold sprintf_at. rewrite <- (app_nil_r (replicate 18 0)).
    rewrite <- (app_nil_r (mac_string [a; b; c; d; e; f] ++ [0])) at 2.
    apply (splice_mid [] (replicate 18 0)); [done|]. rewrite length_app, L17. done.
  - unfold mac_string. rewrite !not_elem_of_app.
    assert (forall x, u8 x -> 0 ∉ fmt_x 2 x) as Hno0.
    { intros x Hx Hin. pose proof (fmt_x2_u8 x Hx) as HF. rewrite Forall_forall in HF. specialize (HF 0 Hin). lia. }
    repeat split; auto; by_check.
Qed.

(** The sessions are in order and no session is too old. *)
Record session_ready (h : HashFunc Z) (now : Z) (w : cworld) (L : list (list node)) : Prop := {
  sr_rep : rep h (cm w) (sessionTable w) L;
  sr_calm : calm_env now (cm w);
  sr_young : young now (concat L);
  sr_few : zlen (concat L) < 2 ^ 23;
  sr_size : 64 <= array_size (sessionTable w) < 2 ^ 29 }.

Lemma on_mem_run {A} (op : M hmem A) w a m : op (cm w) = Ok (a, m) -> on_mem op w = Ok (a, set_cm m w).
Proof. intros H. unfold on_mem. now rewrite H. Qed.

Section Session.
Context (h : HashFunc Z) {Hh : HashLaw h} (now : Z).

#[local] Set Default Proof Using "Hh".

Lemma insert_session_run w L k v : session_ready h now w L -> key_ok k -> 4 <= zlen v -> fresh_kv now (k, v) ->
  exists t m L', insert_session k v w = Ok (tt, set_session t (set_cm m w)) /\ rep h m t L' /\
    ht_map L' = <[k := v]> (ht_map L) /\ calm_env now m.
Proof.
  intros [R He Hy Hf Hs] Hk Hv Hfr. destruct R as (Rc & Ro).
  destruct (bucket_of h (cm w) (sessionTable w) L k Rc Hk) as (_ & _ & c & _ & _ & _ & Hc & _).
  destruct (ht_insert_run h now (2 ^ 23) 23 (cm w) (sessionTable w) L k v [] c)
    as (t & m & L' & E & R' & Hm & _ & V & _); rewrite ?list_insert_id; try done; try lia.
  { unfold fuel_ok. change (2 ^ Z.of_nat 23) with (2 ^ 23). lia. }
  exists t, m, L'. split; [|split; [done|split; [|eapply calm_like; eauto]]].
  - unfold insert_session. rewrite (bind_Ok _ _ w w w) by done.
    now rewrite (bind_Ok _ _ _ _ _ (on_mem_run _ _ _ _ E)).
  - rewrite Hm. f_equal. apply map_filter_id. intros k' v' Hkv. apply elem_of_list_to_map_2 in Hkv.
    apply list_elem_of_fmap in Hkv as (n & [= -> ->] & Hin). unfold young in Hy. rewrite Forall_forall in Hy.
    now apply Hy.
Qed.

(** The second packet: the session is taken out and its delay handed on. *)
Lemma capture_ack w L p pk sec usec v : rep h (cm w) (sessionTable w) L -> calm_env now (cm w) -> pkt_ok p ->
  parse_packet pk = Ok p -> p_syn p = false -> p_ack p = true -> ht_map L !! key_of p = Some v ->
  forall sec0 usec0, rd_le 0 4 v = Ok sec0 -> rd_le 4 4 v = Ok usec0 ->
  let record := mkRec (mac_string (p_shost p) ++ [0]) None None None
                  (delay_of sec usec (swrap 32 sec0) (swrap 32 usec0)) None None None in
  exists t m L', (forall locked, captureOne locked sec usec pk w
    = Ok (tt, (if locked then fun w => w else set_task (Some record)) (set_session t (set_cm m w)))) /\
    rep h m t L' /\ ht_map L' = delete (key_of p) (ht_map L).
Proof.
  intros R He Hp Hpk Hs Ha Hv sec0 usec0 H1 H2 record. pose proof (key_of_ok p Hp) as [Hk Hl].
  set (w1 := put_env (logged (Malloc sizeof_Record) (menv (cm w))) w).
  assert (rep h (cm w1) (sessionTable w) L) as R1 by (destruct R; split; [now apply core_env|done]).
  destruct (get_run h (cm w) (sessionTable w) L (key_of p) (proj1 R) Hk) as [Hc _].
  destruct (get_run h (cm w1) (sessionTable w) L (key_of p) (proj1 R1) Hk) as [_ (r & Hg & Hr)].
  destruct (remove_run h (cm w1) (sessionTable w) L (key_of p) R1 Hk) as (t & m & L' & Hrm & R' & Hm & _).
  rewrite Hv in Hc, Hr. destruct r as [[[q b] n]|]; [|done]. destruct Hr as (-> & -> & _).
  exists t, m, L'. split; [|done]. intros locked. unfold captureOne. rewrite Hl in Hc, Hg, Hrm.
  rewrite (bind_Ok _ _ w p w) by (unfold lift; now rewrite Hpk).
  rewrite (bind_Ok _ _ w (key_of p) w) by (unfold lift; now rewrite key_print).
  rewrite Hs, Ha. cbn [andb]. rewrite (bind_Ok _ _ w w w) by done.
  rewrite (bind_Ok _ _ w 1 w).
  2: { rewrite (on_mem_run _ w 1 (cm w) Hc). now destruct w. }
  rewrite bool_decide_eq_false_2 by done.
  rewrite (bind_Ok _ _ w (onum (menv (cm w)) (length (trace (menv (cm w)))) (Malloc sizeof_Record)) w1) by done.
  rewrite bool_decide_eq_false_2 by apply (proj2 He).
  destruct (mac_print (p_shost p)) as (Hmac & _); [apply Hp|apply Hp|].
  rewrite (bind_Ok _ _ w1 (mac_string (p_shost p) ++ [0]) w1) by (unfold lift; now rewrite Hmac).
  rewrite (bind_Ok _ _ w1 (Some (q, Some (Own v), zlen v)) w1) by (rewrite (on_mem_run _ w1 _ (cm w1) Hg); done).
  rewrite (bind_Ok _ _ w1 v w1) by done.
  rewrite (bind_Ok _ _ w1 sec0 w1) by (unfold lift; now rewrite H1).
  rewrite (bind_Ok _ _ w1 usec0 w1) by (unfold lift; now rewrite H2).
  rewrite (bind_Ok _ _ w1 t (set_cm m w1)) by (apply (on_mem_run _ w1); exact Hrm).
  now destruct locked.
Qed.
End Session.

(** C33: the delay of a handshake.  The second packet of a TCP handshake (SYN and
    ACK) seen at one time and the third (ACK, the other way) seen at another:
    the record handed to the next thread carries the sender's address and the
    difference of the times in microseconds, the session is gone, and the other
    sessions are as before. *)
Theorem handshake_measured (h : HashFunc Z) (Hh : HashLaw h) (now : Z) (w : cworld) (L : list (list node))
    (locked : bool) (pk1 pk2 : list Z) (p1 p2 : packet_s) (s1 u1 s2 u2 : Z)
    (Hw : session_ready h now w L) (H1 : parse_packet pk1 = Ok p1) (H2 : parse_packet pk2 = Ok p2)
    (Hp1 : pkt_ok p1) (Hp2 : pkt_ok p2)
    (Hf1 : p_syn p1 = true /\ p_ack p1 = true) (Hf2 : p_syn p2 = false /\ p_ack p2 = true)
    (Hrev : p_sport p2 = p_dport p1 /\ p_dport p2 = p_sport p1 /\ p_saddr p2 = p_daddr p1 /\ p_daddr p2 = p_saddr p1)
    (Hs1 : s32 s1) (Hu1 : s32 u1) (Hnow : swrap 32 (now - s1) <= AGE_TIMEOUT) :
  exists w1 w2 L2, captureOne locked s1 u1 pk1 w = Ok (tt, w1) /\ captureOne false s2 u2 pk2 w1 = Ok (tt, w2) /\
    cur_task w2 = Some (mkRec (mac_string (p_shost p2) ++ [0]) None None None (delay_of s2 u2 s1 u1) None None None) /\
    rep h (cm w2) (sessionTable w2) L2 /\ ht_map L2 = delete (key_of p1) (ht_map L) /\
    stationTable w2 = stationTable w /\ sendQueue w2 = sendQueue w.
Proof.
  destruct (key_of_ok p1 Hp1) as [Hk Hl]. destruct (timeval_read s1 u1 Hs1 Hu1) as (a & b & Ra & Ea & Rb & Eb).
  assert (key_of p2 = key_of p1) as Ekey.
  { unfold key_of, session_key. destruct Hrev as (-> & -> & -> & ->).
    f_equal. f_equal; apply pair_text_sym. }
  destruct (insert_session_run h now w L (key_of p1) (timeval s1 u1) Hw Hk) as (t & m & L1 & E1 & R1 & M1 & C1).
  { unfold timeval. rewrite zlen_app, !zlen_le_bytes. lia. }
  { unfold fresh_kv. simpl. rewrite timeval_sec by done. lia. }
  destruct (capture_ack h now (set_session t (set_cm m w)) L1 p2 pk2 s2 u2 (timeval s1 u1) R1 C1 Hp2 H2
    (proj1 Hf2) (proj2 Hf2) ltac:(rewrite Ekey, M1; apply lookup_insert_eq) a b Ra Rb)
    as (t2 & m2 & L2 & E2 & R2 & M2).
  eexists _, _, L2. split; [|split; [exact (E2 false)|]].
  - unfold captureOne. rewrite (bind_Ok _ _ w p1 w) by (unfold lift; now rewrite H1).
    rewrite (bind_Ok _ _ w (key_of p1) w) by (unfold lift; now rewrite key_print).
    destruct Hf1 as [-> ->]. exact E1.
  - split; [simpl; now rewrite Ea, Eb|]. split; [exact R2|]. split; [|done].
    rewrite M2, M1, Ekey. apply delete_insert_eq.
Qed.

(** ** Traffic *)

Lemma scan_counter n : 0 <= n < 2 ^ 63 -> scan_lld (cstr (9 :: fmt_d 0 n ++ [10])) (-1) = n.
Proof.
  intros Hn. rewrite cstr_all.
  2: { intros [H|H]%elem_of_cons; [lia|]. apply elem_of_app in H as [H|H%list_elem_of_singleton]; [|lia].
       now apply (chars_no0 _ (fmt_d_chars 0 n)) in H. }
  destruct (dec_scanned n [10] ltac:(lia) ltac:(by_check)) as (H1 & H2 & H3 & H4).
  unfold scan_lld. rewrite H1, H2. destruct (fmt_d 0 n); [done|]. rewrite H3. lia.
Qed.

(** The line that [awk] prints of a counter of [iw]. *)
Definition counter_line (n : Z) : list Z := 9 :: fmt_d 0 n ++ [10].

Lemma counter_fgets n : 0 <= n < 2 ^ 63 -> fgets 1024 (counter_line n) = Some (counter_line n, []).
Proof.
  intros Hn. unfold fgets, counter_line. do 2 f_equal. change (9 :: fmt_d 0 n ++ [10]) with ((9 :: fmt_d 0 n) ++ 10 :: []).
  rewrite take_line_whole; [done| |].
  - intros [H|H]%elem_of_cons; [lia|]. pose proof (fmt_d_chars 0 n) as HF. rewrite Forall_forall in HF.
    specialize (HF 10 H). lia.
  - assert (fmt_d 0 n = digits 10 n) as -> by (unfold fmt_d; rewrite bool_decide_eq_false_2, Z.abs_eq by lia; done).
    pose proof (digits_length 10 n 18 ltac:(lia) ltac:(lia) ltac:(simpl; lia)). simpl. lia.
Qed.

Lemma counter_run cmd n w : 0 <= n < 2 ^ 63 ->
  obytes (menv (cm w)) (length (trace (menv (cm w)))) (Popen cmd) = Some (counter_line n) ->
  counter cmd w = Ok (Some n, set_cm (put_env (logged (Popen cmd) (menv (cm w))) (cm w)) w).
Proof.
  intros Hn Ho. unfold counter, ask, popen.
  rewrite (bind_Ok _ _ w (Some (Some (cstr (counter_line n)))) (set_cm (put_env (logged (Popen cmd) (menv (cm w))) (cm w)) w)).
  - unfold counter_line. now rewrite scan_counter.
  - rewrite (bind_Ok _ _ w (Some (counter_line n)) (set_cm (put_env (logged (Popen cmd) (menv (cm w))) (cm w)) w)).
    + now rewrite counter_fgets.
    + unfold ext_bytes. change (the_env w) with (menv (cm w)). now rewrite Ho.
Qed.

(** A record for the station [m] on radio [md], and the world's answers: the time
    [now] and the two counters. *)
Record traffic_ready (now md tx rx : Z) (m : list Z) (r : Record_s) (w : cworld) : Prop := {
  tr_mode : mode r = Some md;
  tr_mac : sta_mac r = mac_string m ++ [0];
  tr_len : length m = 6%nat;
  tr_u8 : Forall u8 m;
  tr_calm : calm_env now (cm w);
  tr_tx : 0 <= tx < 2 ^ 63;
  tr_rx : 0 <= rx < 2 ^ 63;
  tr_ask_tx : obytes (menv (cm w)) (S (length (trace (menv (cm w))))) (Popen (bytes_cmd (str "tx") md (mac_string m)))
              = Some (counter_line tx);
  tr_ask_rx : obytes (menv (cm w)) (S (S (length (trace (menv (cm w)))))) (Popen (bytes_cmd (str "rx") md (mac_string m)))
              = Some (counter_line rx) }.

Definition log_to (cs : list call) (m : hmem) : hmem := foldl (fun m c => put_env (logged c (menv m)) m) m cs.

Lemma log_to_core h cs m t L : rep h m t L -> rep h (log_to cs m) t L.
Proof.
  revert m. induction cs as [|c cs IH]; intros m R; [done|]. apply IH. destruct R. split; [now apply core_env|done].
Qed.

Lemma mac_key_ok m : length m = 6%nat -> Forall u8 m -> key_ok (mac_string m ++ [0]) /\ zlen (mac_string m ++ [0]) = 18.
Proof.
  intros Hl Hm. destruct (mac_print m Hl Hm) as (_ & H17 & _). unfold key_ok, zlen. rewrite length_app, H17.
  split; [split; [|simpl; lia]|done]. apply Forall_app. split; [|repeat constructor; unfold u8; lia].
  destruct m as [|a [|b [|c [|d [|e [|f [|]]]]]]]; try discriminate. unfold mac_string.
  repeat match goal with H : Forall _ (_ :: _) |- _ => apply Forall_cons_1 in H as [? H] end.
  rewrite !Forall_app. unfold u8 in *. repeat split; try (apply fmt_x_chars; lia); repeat constructor; unfold u8; lia.
Qed.

Lemma bytes_cmd_fits dir md m : length m = 6%nat -> Forall u8 m -> (length dir <= 2)%nat ->
  zlen (bytes_cmd dir md (mac_string m)) < 100.
Proof.
  intros Hl Hm Hd. destruct (mac_print m Hl Hm) as (_ & H17 & _). unfold bytes_cmd, zlen. rewrite !length_app, H17.
  assert (length (interface_name md) = 5%nat) as -> by (unfold interface_name; case_bool_decide; done).
  simpl. lia.
Qed.

(** The start of [info_traffic]: the commands fit their arrays. *)
Lemma traffic_start now md tx rx m r w : traffic_ready now md tx rx m r w ->
  info_traffic r w = (found <-- on_mem (ht_get (stationTable w) (Own (sta_mac r)) 18) ;;
    info_found (set_traffic 0 0 r) now (bytes_cmd (str "tx") md (mac_string m)) (bytes_cmd (str "rx") md (mac_string m)) found)
    (set_cm (log_to [Time] (cm w)) w).
Proof.
  intros []. destruct (mac_print m tr_len0 tr_u9) as (_ & _ & H0).
  assert (cstr (sta_mac r) = mac_string m) as Hc by (rewrite tr_mac0; apply cstr_app, H0).
  unfold info_traffic. rewrite Hc. rewrite (bind_Ok _ _ w md w) by (unfold the_mode; now rewrite tr_mode0).
  rewrite (bind_Ok _ _ w (bytes_cmd (str "tx") md (mac_string m)) w)
    by (unfold command; now rewrite bool_decide_eq_true_2 by now apply bytes_cmd_fits).
  rewrite (bind_Ok _ _ w (bytes_cmd (str "rx") md (mac_string m)) w)
    by (unfold command; now rewrite bool_decide_eq_true_2 by now apply bytes_cmd_fits).
  rewrite (bind_Ok _ _ w now (set_cm (log_to [Time] (cm w)) w)); [done|].
  unfold ext. now rewrite (proj1 tr_calm0).
Qed.

Lemma zlen_throughput tx rx last : zlen (throughput tx rx last) = 24.
Proof. unfold throughput. rewrite !zlen_app, !zlen_le_bytes. done. Qed.

Lemma throughput_read tx rx last : 0 <= tx < 2 ^ 63 -> 0 <= rx < 2 ^ 63 -> s32 last ->
  rd_le 0 8 (throughput tx rx last) = Ok tx /\ rd_le 8 8 (throughput tx rx last) = Ok rx /\
  exists l, rd_le 16 4 (throughput tx rx last) = Ok l /\ swrap 32 l = last.
Proof.
  intros Ht Hr Hl. unfold throughput.
  pose proof (rd_le_mid 8 tx [] (le_bytes 8 rx ++ le_bytes 4 last ++ replicate 4 0) 0 eq_refl) as H1.
  pose proof (rd_le_mid 8 rx (le_bytes 8 tx) (le_bytes 4 last ++ replicate 4 0) 8) as H2.
  pose proof (rd_le_mid 4 last (le_bytes 8 tx ++ le_bytes 8 rx) (replicate 4 0) 16) as H3.
  rewrite zlen_le_bytes in H2. rewrite zlen_app, !zlen_le_bytes, <- app_assoc in H3.
  specialize (H2 eq_refl). specialize (H3 eq_refl).
  change (256 ^ Z.of_nat 8) with (2 ^ 64) in *. change (256 ^ Z.of_nat 4) with (2 ^ 32) in *.
  rewrite Z.mod_small in H1, H2 by lia. split; [exact H1|]. split; [exact H2|].
  eexists. split; [exact H3|]. rewrite swrap_uwrap, swrap_small by (unfold s32 in Hl; simpl; lia). done.
Qed.

Lemma throughput_update tx rx last tx' rx' last' :
  splice 0 (le_bytes 8 tx' ++ le_bytes 8 rx' ++ le_bytes 4 last') (throughput tx rx last)
  = Ok (throughput tx' rx' last').
Proof.
  unfold throughput. rewrite (app_assoc (le_bytes 8 rx)), (app_assoc (le_bytes 8 tx)).
  rewrite (app_assoc (le_bytes 8 rx')), (app_assoc (le_bytes 8 tx')).
  apply (splice_mid [] _ (replicate 4 0)); [done|]. apply Nat2Z.inj. fold (zlen (le_bytes 8 tx ++ le_bytes 8 rx ++ le_bytes 4 last)).
  fold (zlen (le_bytes 8 tx' ++ le_bytes 8 rx' ++ le_bytes 4 last')). now rewrite !zlen_app, !zlen_le_bytes.
Qed.

Section Traffic.
Context (h : HashFunc Z) {Hh : HashLaw h} (now md tx rx : Z) (m : list Z) (r : Record_s) (w : cworld)
  (L : list (list node)).
Context (Hw : traffic_ready now md tx rx m r w) (R : rep h (cm w) (stationTable w) L).

#[local] Set Default Proof Using "Hh Hw R".

Let tt_cmd := bytes_cmd (str "tx") md (mac_string m).
Let rt_cmd := bytes_cmd (str "rx") md (mac_string m).
Let at_time (cs : list call) : cworld := set_cm (log_to (Time :: cs) (cm w)) w.

Lemma lookup_station : exists f,
  on_mem (ht_get (stationTable w) (Own (sta_mac r)) 18) (at_time []) = Ok (f, at_time []) /\
  match ht_map L !! sta_mac r, f with
  | Some v, Some (p, b, n) => b = Some (Own v) /\ mkNode p (sta_mac r) v ∈ concat L
  | None, None => True
  | _, _ => False
  end.
Proof.
  destruct (mac_key_ok m (tr_len _ _ _ _ _ _ _ Hw) (tr_u8 _ _ _ _ _ _ _ Hw)) as [Hk H18].
  rewrite <- (tr_mac _ _ _ _ _ _ _ Hw) in Hk, H18.
  destruct (get_run h (log_to [Time] (cm w)) (stationTable w) L (sta_mac r)) as [_ (f & Hg & Hf)];
    [apply (log_to_core h [Time] _ _ _ R)|done|].
  rewrite H18 in Hg. exists f. split; [exact (on_mem_run _ (at_time []) _ _ Hg)|].
  destruct (ht_map L !! sta_mac r), f as [[[p b] n]|]; try done. now destruct Hf as (-> & _ & Hin & _).
Qed.

(** The two counters are read one after the other. *)
Lemma counters_read :
  counter tt_cmd (at_time []) = Ok (Some tx, at_time [Popen tt_cmd]) /\
  counter rt_cmd (at_time [Popen tt_cmd]) = Ok (Some rx, at_time [Popen tt_cmd; Popen rt_cmd]).
Proof.
  destruct Hw. split; [rewrite (counter_run _ tx)|rewrite (counter_run _ rx)]; try done; cbn; rewrite !length_app; cbn;
    rewrite !Nat.add_1_r; done.
Qed.

Lemma measured_run tx0 rx0 last : 0 <= tx0 <= tx -> 0 <= rx0 <= rx -> s32 last -> s32 (now - last) ->
  10 <= now - last -> ht_map L !! sta_mac r = Some (throughput tx0 rx0 last) ->
  exists w' L', info_traffic r w = Ok ((1, set_traffic ((tx - tx0) ÷ (now - last)) ((rx - rx0) ÷ (now - last)) r), w') /\
    rep h (cm w') (stationTable w) L' /\ ht_map L' = <[sta_mac r := throughput tx rx now]> (ht_map L) /\
    w' = set_cm (cm w') w.
Proof.
  intros H1 H2 H3 H4 H5 Hv. rewrite (traffic_start _ _ _ _ _ _ _ Hw). destruct lookup_station as (f & Hf & Hs).
  rewrite (bind_Ok _ _ _ _ _ Hf). rewrite Hv in Hs. destruct f as [[[p b] n]|]; [|done]. destruct Hs as [-> Hin].
  pose proof (tr_tx _ _ _ _ _ _ _ Hw) as Htx. pose proof (tr_rx _ _ _ _ _ _ _ Hw) as Hrx.
  destruct (throughput_read tx0 rx0 last) as (Q1 & Q2 & l & Q3 & Q4); [lia..|done|].
  destruct counters_read as [C1 C2]. set (w3 := at_time [Popen tt_cmd; Popen rt_cmd]) in *.
  destruct (rep_set_value h (cm w3) (stationTable w) L (sta_mac r) _ (throughput tx rx now) p
    (log_to_core h [Time; Popen tt_cmd; Popen rt_cmd] _ _ _ R) Hin) as (nx & L' & En & R' & M').
  { rewrite zlen_throughput. lia. }
  exists (set_cm (on_ents <[p := he_of (mkNode p (sta_mac r) (throughput tx rx now)) nx]> (cm w3)) w), L'.
  split; [|done]. unfold info_found.
  rewrite (bind_Ok _ _ _ (throughput tx0 rx0 last) (at_time [])) by done.
  rewrite (bind_Ok _ _ _ l (at_time [])) by (unfold lift; now rewrite Q3).
  cbv zeta. rewrite Q4, (swrap_small 32 (now - last)) by (unfold s32 in H4; simpl; lia).
  rewrite bool_decide_eq_true_2 by lia. unfold info_again.
  rewrite (bind_Ok _ _ _ _ _ C1), (bind_Ok _ _ _ _ _ C2). rewrite bool_decide_eq_false_2 by lia.
  rewrite (bind_Ok _ _ w3 tx0 w3) by (unfold lift; now rewrite Q1).
  rewrite (bind_Ok _ _ w3 rx0 w3) by (unfold lift; now rewrite Q2). cbv zeta.
  rewrite (bind_Ok _ _ w3 (throughput tx rx now) w3) by (unfold lift; now rewrite throughput_update).
  erewrite bind_Ok by (apply on_mem_run, (upd_entry_run _ _ _ _ En)).
  rewrite !(swrap_small 64) by (rewrite ?(swrap_small 64); simpl; lia).
  unfold ret, he_of, set_value. simpl. rewrite !zlen_throughput. done.
Qed.

Lemma early_run tx0 rx0 last : 0 <= tx0 < 2 ^ 63 -> 0 <= rx0 < 2 ^ 63 -> s32 last -> s32 (now - last) ->
  now - last < 10 -> ht_map L !! sta_mac r = Some (throughput tx0 rx0 last) ->
  info_traffic r w = Ok ((0, set_traffic 0 0 r), at_time []).
Proof.
  intros H1 H2 H3 H4 H5 Hv. rewrite (traffic_start _ _ _ _ _ _ _ Hw). destruct lookup_station as (f & Hf & Hs).
  rewrite (bind_Ok _ _ _ _ _ Hf). rewrite Hv in Hs. destruct f as [[[p b] n]|]; [|done]. destruct Hs as [-> Hin].
  destruct (throughput_read tx0 rx0 last) as (_ & _ & l & Q3 & Q4); [lia..|done|]. unfold info_found.
  rewrite (bind_Ok _ _ _ (throughput tx0 rx0 last) (at_time [])) by done.
  rewrite (bind_Ok _ _ _ l (at_time [])) by (unfold lift; now rewrite Q3).
  cbv zeta. rewrite Q4, (swrap_small 32 (now - last)) by (unfold s32 in H4; simpl; lia).
  now rewrite bool_decide_eq_false_2 by lia.
Qed.

Lemma first_run old c : let i := slot h (global_seed (cm w)) (array_size (stationTable w)) (sta_mac r) in
  ht_map L !! sta_mac r = None -> L !! i = Some (old ++ c) -> Forall (aged now) old ->
  young now (concat (<[i := c]> L)) -> fresh_kv now (sta_mac r, throughput tx rx now) ->
  zlen (concat L) < 2 ^ 23 -> 64 <= array_size (stationTable w) < 2 ^ 29 ->
  exists t' w' L', info_traffic r w = Ok ((0, set_traffic 0 0 r), w') /\ w' = set_station t' (set_cm (cm w') w) /\
    rep h (cm w') t' L' /\
    ht_map L' !! sta_mac r = Some (throughput tx rx now) /\
    (forall k v, k <> sta_mac r -> ht_map L' !! k = Some v <-> ht_map L !! k = Some v /\ fresh_kv now (k, v)).
Proof.
  intros i Hn Hc Hold Hy Hfr Hfew Hsz. rewrite (traffic_start _ _ _ _ _ _ _ Hw). destruct lookup_station as (f & Hf & Hs).
  rewrite (bind_Ok _ _ _ _ _ Hf). rewrite Hn in Hs. destruct f as [|]; [done|].
  pose proof (tr_tx _ _ _ _ _ _ _ Hw) as Htx. pose proof (tr_rx _ _ _ _ _ _ _ Hw) as Hrx.
  destruct counters_read as [C1 C2]. set (w3 := at_time [Popen tt_cmd; Popen rt_cmd]) in *.
  destruct (mac_key_ok m (tr_len _ _ _ _ _ _ _ Hw) (tr_u8 _ _ _ _ _ _ _ Hw)) as [Hk H18].
  rewrite <- (tr_mac _ _ _ _ _ _ _ Hw) in Hk, H18.
  assert (4 <= zlen (throughput tx rx now)) as H4 by (rewrite zlen_throughput; lia).
  destruct (ht_insert_run h now (2 ^ 23) 23 (cm w3) (stationTable w) L (sta_mac r) (throughput tx rx now) old c)
    as (t & m' & L' & E & R' & M' & _); try done; try lia.
  { apply (log_to_core h [Time; Popen tt_cmd; Popen rt_cmd] _ _ _ R). }
  { apply (tr_calm _ _ _ _ _ _ _ Hw). }
  { unfold fuel_ok. change (2 ^ Z.of_nat 23) with (2 ^ 23). lia. }
  exists t, (set_station t (set_cm m' w)), L'. split; [|split; [done|split; [done|split]]].
  - unfold info_found, info_first. rewrite bind_assoc, (bind_Ok _ _ _ _ _ C1). cbv beta iota.
    rewrite bind_assoc, (bind_Ok _ _ _ _ _ C2). cbv beta iota. rewrite bool_decide_eq_false_2 by lia.
    rewrite bind_assoc, (bind_Ok _ _ w3 w3 w3) by done.
    rewrite H18, zlen_throughput in E. rewrite bind_assoc.
    erewrite bind_Ok by (apply (on_mem_run _ w3); exact E). done.
  - rewrite M'. apply lookup_insert_eq.
  - intros k v Hkr. rewrite M', lookup_insert_ne by done. apply map_lookup_filter_Some.
Qed.
End Traffic.

Lemma throughput_sec tx rx last : sec_of (throughput tx rx last) = swrap 32 tx.
Proof.
  unfold sec_of, throughput. rewrite take_app_le by (cbn; lia).
  change (take 4 (le_bytes 8 tx)) with (le_bytes 4 tx). rewrite le_num_bytes.
  change (256 ^ Z.of_nat 4) with (2 ^ 32). now rewrite swrap_uwrap.
Qed.

(** The rates.  For a station whose counters were stored at [last]: ten
    seconds later or more, the record gets the increase of each counter divided
    by the seconds gone by and is passed on (1), and the new counters are stored
    with the time; sooner, the record is dropped (0) and the table is not
    touched. *)
Theorem traffic_measured (h : HashFunc Z) (Hh : HashLaw h) (now md tx rx : Z) (m : list Z) (r : Record_s) (w : cworld)
    (L : list (list node)) (tx0 rx0 last : Z)
    (Hw : traffic_ready now md tx rx m r w) (R : rep h (cm w) (stationTable w) L)
    (Htx : 0 <= tx0 <= tx) (Hrx : 0 <= rx0 <= rx) (Hl : s32 last) (Hg : s32 (now - last))
    (Hv : ht_map L !! sta_mac r = Some (throughput tx0 rx0 last)) :
  if bool_decide (10 <= now - last) then
    exists w' L', info_traffic r w = Ok ((1, set_traffic ((tx - tx0) ÷ (now - last)) ((rx - rx0) ÷ (now - last)) r), w') /\
      rep h (cm w') (stationTable w) L' /\ ht_map L' = <[sta_mac r := throughput tx rx now]> (ht_map L) /\
      w' = set_cm (cm w') w
  else info_traffic r w = Ok ((0, set_traffic 0 0 r), put_env (logged Time (the_env w)) w).
Proof.
  case_bool_decide.
  - now apply (measured_run h now md tx rx m r w L Hw R).
  - pose proof (tr_tx _ _ _ _ _ _ _ Hw). pose proof (tr_rx _ _ _ _ _ _ _ Hw).
    apply (early_run h now md tx rx m r w L Hw R tx0 rx0 last); [lia..|done|done|lia|done].
Qed.

(** The first measurement of a station.  Its counters are stored and the
    record is dropped (0).  The insertion takes the first four bytes of a stored
    value for a time in seconds; in this table they are the low half of the
    count of sent bytes.  So of the stations at the front of the same chain those
    go, however recent, whose count is more than 30 below the time. *)
Theorem traffic_first (h : HashFunc Z) (Hh : HashLaw h) (now md tx rx : Z) (m : list Z) (r : Record_s) (w : cworld)
    (L : list (list node)) (old c : list node)
    (Hw : traffic_ready now md tx rx m r w) (R : rep h (cm w) (stationTable w) L)
    (Hn : ht_map L !! sta_mac r = None)
    (Hc : L !! slot h (global_seed (cm w)) (array_size (stationTable w)) (sta_mac r) = Some (old ++ c))
    (Hold : Forall (aged now) old)
    (Hy : young now (concat (<[slot h (global_seed (cm w)) (array_size (stationTable w)) (sta_mac r) := c]> L)))
    (Hfr : swrap 32 (now - swrap 32 tx) <= 30)
    (Hfew : zlen (concat L) < 2 ^ 23) (Hsz : 64 <= array_size (stationTable w) < 2 ^ 29) :
  exists t' w' L', info_traffic r w = Ok ((0, set_traffic 0 0 r), w') /\ w' = set_station t' (set_cm (cm w') w) /\
    rep h (cm w') t' L' /\ ht_map L' !! sta_mac r = Some (throughput tx rx now) /\
    (forall k tx' rx' last', k <> sta_mac r -> ht_map L !! k = Some (throughput tx' rx' last') ->
       ht_map L' !! k = Some (throughput tx' rx' last') <-> swrap 32 (now - swrap 32 tx') <= 30).
Proof.
  destruct (first_run h now md tx rx m r w L Hw R old c) as (t' & w' & L' & E & Ew & R' & M1 & M2); try done.
  { unfold fresh_kv. simpl. rewrite throughput_sec. unfold AGE_TIMEOUT. lia. }
  exists t', w', L'. split; [done|]. split; [done|]. split; [done|]. split; [done|].
  intros k tx' rx' last' Hk Hv. rewrite M2 by done. unfold fresh_kv. simpl. rewrite throughput_sec. unfold AGE_TIMEOUT.
  split; [intros [_ H]; lia|]. intros H. split; [done|lia].
Qed.

(** The command for the radio.  The text of the first command of [getInfo]
    has 50 characters for every address that [mac2String] prints; with its final
    0 it does not fit the array of 50 bytes, so every call writes past the end. *)
Theorem getInfo_overflow (m : list Z) (r : Record_s) (w : cworld)
    (Hm : sta_mac r = mac_string m ++ [0]) (Hl : length m = 6%nat) (Hu : Forall u8 m) :
  getInfo GET_TYPE_CMD r w = Ub OutOfBounds.
Proof.
  destruct (mac_print m Hl Hu) as (_ & H17 & H0). unfold getInfo, info_mode, command.
  rewrite Hm, cstr_app by done. rewrite bool_decide_eq_false_2; [done|].
  unfold zlen. rewrite length_app, H17. vm_compute. done.
Qed.

(** ** The threads together *)

(** The part of the state that only [ds_queue_put] and [sendData] change. *)
Definition mailbox (w : cworld) : DSQueue Record_s * list Record_s := (sendQueue w, sent w).

Lemma on_mem_mailbox {A} (op : M hmem A) : keeps mailbox (on_mem op).
Proof. intros w b w'. unfold on_mem. destruct (op (cm w)) as [[a m]|]; [|done]. now intros [= _ <-]. Qed.

Lemma capture_mailbox locked sec usec pk : keeps mailbox (captureOne locked sec usec pk).
Proof. unfold captureOne, insert_session. keeps_tac ltac:(apply on_mem_mailbox). Qed.

Lemma getInfo_mailbox size r : keeps mailbox (getInfo size r).
Proof.
  unfold getInfo, info_mode, info_rest, info_radio, info_traffic, info_found, info_again, info_first, remove_station,
    the_mode, counter, ask, ask2, popen, command. keeps_tac ltac:(apply on_mem_mailbox).
Qed.

Lemma args_mailbox size : keeps mailbox (args_info size).
Proof. unfold args_info. keeps_tac ltac:(apply getInfo_mailbox). Qed.

(** What the result of an operation satisfies, whatever the state. *)
Definition gives {A} (op : M cworld A) (P : A -> Prop) : Prop := forall w a w', op w = Ok (a, w') -> P a.

Lemma gives_ret {A} (a : A) (P : A -> Prop) : P a -> gives (ret a) P.
Proof. intros H w b w' [= <- _]. done. Qed.
Lemma gives_fail {A} u (P : A -> Prop) : gives (fail u) P.
Proof. intros w b w' [=]. Qed.
Lemma gives_bind {A B} (op : M cworld A) (k : A -> M cworld B) (Q : A -> Prop) (P : B -> Prop) :
  gives op Q -> (forall a, Q a -> gives (k a) P) -> gives (bind op k) P.
Proof. intros H1 H2 w b w' E. inv_bind E. eapply H2; eauto. Qed.
Lemma gives_any {A} (op : M cworld A) : gives op (fun _ => True).
Proof. done. Qed.

Ltac gives := repeat first
  [ apply gives_fail
  | apply gives_ret
  | eapply gives_bind; [apply gives_any|intros ? _]
  | match goal with |- gives (match ?x with _ => _ end) _ => destruct x end
  | case_bool_decide ].

(** A record with every member assigned. *)
Definition complete (r : Record_s) : Prop :=
  rssi r <> None /\ mode r <> None /\ au r <> None /\ br r <> None /\ r_tt r <> None /\ r_rt r <> None.

(** Only the measurements of a record are assigned by [getInfo]. *)
Definition same_packet (r r' : Record_s) : Prop := sta_mac r' = sta_mac r /\ delay r' = delay r.

Lemma mode_given size r : gives (info_mode size r) (fun o => forall r', o = Some r' -> mode r' <> None /\ same_packet r r').
Proof. unfold info_mode. gives; intros r' [= <-]; done. Qed.

Lemma radio_given r : gives (info_radio r) (fun o => forall r', o = Some r' ->
  mode r' = mode r /\ au r' <> None /\ rssi r' <> None /\ br r' <> None /\ same_packet r r').
Proof. unfold info_radio, the_mode. gives; intros r' [=]; subst r'; done. Qed.

Lemma traffic_given r : gives (info_traffic r) (fun o =>
  exists t v, snd o = set_traffic t v r).
Proof.
  unfold info_traffic, info_found, info_again, the_mode, remove_station. gives; eauto.
Qed.

Lemma getInfo_given size r :
  gives (getInfo size r) (fun o => fst o <> 0 -> complete (snd o) /\ same_packet r (snd o)).
Proof.
  unfold getInfo, info_rest. eapply gives_bind; [apply mode_given|]. intros [r1|] H1; [|now apply gives_ret].
  destruct (H1 r1 eq_refl) as [Hm Hs1]. eapply gives_bind; [apply radio_given|]. intros [r2|] H2; [|now apply gives_ret].
  destruct (H2 r2 eq_refl) as (Em & Ha & Hr & Hb & Hs2). intros w [c r3] w' E.
  destruct (traffic_given r2 w _ w' E) as (t & v & Er). simpl in Er. subst r3. intros _. simpl.
  unfold complete, same_packet in *. simpl. rewrite Em. intuition congruence.
Qed.

Definition puts (l : list cevent) : list Record_s :=
  omap (fun e => match e with EPut r => Some r | _ => None end) l.

Definition cinv (s : phase * cworld) : Prop :=
  wf (sendQueue (snd s)) /\ (forall r, fst s = Putting r -> complete r).

Lemma cstep_inv size fd s e s' : cinv s -> cstep size fd s e s' ->
  cinv s' /\ Forall complete (puts [e]) /\
  map Some (sent (snd s')) ++ items (sendQueue (snd s'))
  = map Some (sent (snd s)) ++ items (sendQueue (snd s)) ++ map Some (puts [e]).
Proof.
  intros [Hwf Hc] Hst.
  assert (forall w' ph', mailbox w' = mailbox (snd s) -> puts [e] = [] ->
    (forall r, ph' = Putting r -> complete r) ->
    cinv (ph', w') /\ Forall complete (puts [e]) /\ map Some (sent w') ++ items (sendQueue w')
    = map Some (sent (snd s)) ++ items (sendQueue (snd s)) ++ map Some (puts [e])) as Hkeep.
  { intros w' ph' [= Eq Es] -> Hph. unfold cinv. simpl. rewrite Eq, Es, app_nil_r. done. }
  destruct Hst as [ph w sec usec pk w' E|w Ht|w r w' E|w w' E|r w q E|ph w r q w' E E']; simpl in *.
  - apply (Hkeep w' ph); [eapply capture_mailbox; eauto|done|done].
  - apply (Hkeep w Working); done.
  - apply (Hkeep w' (Putting r)); [eapply args_mailbox; eauto|done|]. intros r' [= <-].
    unfold args_info in E. inv_bind E. injection E0 as <- <-. destruct (cur_task w) as [r0|]; [|done].
    inv_bind E. case_bool_decide as Hr; [|discriminate]. injection E as <- _.
    now apply (getInfo_given size r0 w a s).
  - apply (Hkeep (set_task None w') Waiting); [|done|done]. apply args_mailbox in E. done.
  - destruct (Threads.put_inv _ _ _ Hwf E) as (Hq & Hi & _). split; [by split|]. split; [|simpl; now rewrite Hi].
    constructor; [now apply Hc|constructor].
  - destruct (Threads.get_inv _ _ Hwf E) as (Hq & [[Hi _]|[? _]]); [|done].
    unfold sendRecord in E'. inv_bind E'. injection E0 as _ <-. injection E' as <-. split; [by split|]. split; [constructor|].
    simpl. rewrite map_app, app_nil_r, Hi, <- app_assoc. done.
Qed.

(** What the server gets, for any size of the array of [getInfo]'s command.  With
    the 50 bytes it has in the code, no record is ever completed
    ([getInfo_overflow]); with one more byte, in every interleaving of packets, of the thread
    that fills in the records and of the thread that sends them, the records sent
    followed by those still queued are the records that were put into the queue,
    in that order; each of them has every member assigned. *)
Theorem records_delivered (size fd : Z) (ph : phase) (w : cworld) (evs : list cevent) (ph' : phase) (w' : cworld)
    (Hwf : wf (sendQueue w)) (Hq : items (sendQueue w) = []) (Hs : sent w = [])
    (Hph : forall r, ph = Putting r -> complete r)
    (Hst : steps (cstep size fd) (ph, w) evs (ph', w')) :
  map Some (sent w') ++ items (sendQueue w') = map Some (puts evs) /\ Forall complete (puts evs) /\
  zlen (items (sendQueue w')) <= capacity (sendQueue w').
Proof.
  assert (forall s l s', cinv s -> steps (cstep size fd) s l s' -> cinv s' /\ Forall complete (puts l) /\
    map Some (sent (snd s')) ++ items (sendQueue (snd s'))
    = map Some (sent (snd s)) ++ items (sendQueue (snd s)) ++ map Some (puts l)) as H.
  { intros s l s' Hi Hr. induction Hr as [s|s e s1 l s' H1 H2 IH]; [now rewrite app_nil_r|].
    destruct (cstep_inv _ _ _ _ _ Hi H1) as (Hi1 & Hc1 & E1). destruct (IH Hi1) as (Hi2 & Hc2 & E2).
    unfold puts in *. change (e :: l) with ([e] ++ l). rewrite omap_app, map_app. split; [done|].
    split; [now apply Forall_app|]. rewrite E2, app_assoc, E1, <- !app_assoc. done. }
  destruct (H (ph, w) evs (ph', w') ltac:(by split) Hst) as ([Hwf' _] & Hc & E). simpl in *.
  rewrite Hq, Hs in E. split; [done|]. split; [done|]. rewrite items_length by done. apply Hwf'.
Qed.

(** ** A concrete process *)

(** A station on the first radio, measured 20 seconds ago, and an environment in
    which every command answers. *)
Definition demo_mac : list Z := [2; 17; 34; 51; 68; 85].
Definition demo_key : list Z := mac_string demo_mac ++ [0].
Definition demo_now : Z := 1000.

Definition demo_answer (c : call) : option (list Z) :=
  match c with
  | Popen cmd =>
      if bool_decide (cmd = bytes_cmd (str "tx") 0 (mac_string demo_mac)) then Some (counter_line 3000)
      else if bool_decide (cmd = bytes_cmd (str "rx") 0 (mac_string demo_mac)) then Some (counter_line 900)
      else if prefix_of (str "iw dev wlan0 station dump") cmd then Some (str "Station" ++ [10])
      else if prefix_of (str "iw dev wlan0 survey") cmd then Some (str "1000" ++ [10] ++ str "250" ++ [10])
      else if prefix_of (str "iwinfo") cmd then Some (str "54.0" ++ [10])
      else Some (str "-60" ++ [10])
  | _ => None
  end.

Definition demo_env : env :=
  {| onum := fun _ c => match c with Time => demo_now | _ => 1 end; obytes := fun _ => demo_answer; trace := [] |}.

Definition demo_chains (ns : list node) : list (list node) :=
  match ns with
  | n :: _ => <[slot MurmurHash3_x86_32 2976579765 64 (nk n) := ns]> (replicate 64 [])
  | [] => replicate 64 []
  end.
Definition demo_heads (L : list (list node)) : list (option positive) := map (fun c => ptr <$> head c) L.

Definition demo_stations : list node := [mkNode 1 demo_key (throughput 1000 500 980)].

Definition demo_cworld (stations : list node) : cworld :=
  mkCw (mkMem (demo_ents stations) ∅ 2976579765 demo_env)
    (demo_table (replicate 64 None) 0 0)
    (demo_table (demo_heads (demo_chains stations)) (zlen stations) 0)
    None {| buf := replicate 4 None; pos := 0; length_ := 0; capacity := 4; closed := false |} [].

(** A packet between two ports of two hosts: the flags SYN and ACK, then ACK. *)
Definition demo_packet (src sa da sp dp : list Z) (flags : Z) : list Z :=
  replicate 6 0 ++ src ++ [8; 0] ++ 69 :: replicate 11 0 ++ sa ++ da ++ sp ++ dp ++ replicate 9 0 ++ [flags] ++ replicate 6 0.

Definition host_a : list Z := [10; 0; 0; 7].
Definition host_b : list Z := [93; 184; 216; 34].
Definition syn_ack : list Z := demo_packet (replicate 6 9) host_b host_a [0; 80] [200; 21] 18.
Definition ack : list Z := demo_packet demo_mac host_a host_b [200; 21] [0; 80] 16.

Definition packet_of (pk : list Z) : packet_s :=
  match parse_packet pk with Ok p => p | Ub _ => mkPkt [] 0 0 0 0 false false end.

#[export] Instance u16_dec z : Decision (u16 z).
Proof. unfold u16. apply _. Defined.
#[export] Instance u32_dec z : Decision (u32 z).
Proof. unfold u32. apply _. Defined.

Lemma pkt_ok_check p : bool_decide (u16 (p_sport p) /\ u16 (p_dport p) /\ u32 (p_saddr p) /\ u32 (p_daddr p) /\
  length (p_shost p) = 6%nat /\ Forall u8 (p_shost p)) = true -> pkt_ok p.
Proof. intros (? & ? & ? & ? & ? & ?)%bool_decide_eq_true_1. by split. Qed.

Lemma demo_sessions stations :
  session_ready MurmurHash3_x86_32 demo_now (demo_cworld stations) (replicate 64 []).
Proof.
  split; [|split; [done|by intros ? ?]|constructor|done|done].
  apply rep_of_check; vm_compute; reflexivity.
Qed.

Lemma demo_rep : rep MurmurHash3_x86_32 (cm (demo_cworld demo_stations)) (stationTable (demo_cworld demo_stations))
  (demo_chains demo_stations).
Proof. apply rep_of_check; vm_compute; reflexivity. Qed.

Lemma session_key_pairs_witness :
  session_key 80 443 7 9 = session_key 443 80 7 9 /\ session_key 80 443 7 9 <> session_key 80 443 7 8.
Proof.
  split.
  - apply (session_key_pairs 80 443 7 9 443 80 7 9); try by_check; lia.
  - intros H. apply (session_key_pairs 80 443 7 9 80 443 7 8) in H; try by_check; lia.
Defined.

Lemma handshake_measured_witness : exists w1 w2,
  captureOne true 990 999000 syn_ack (demo_cworld []) = Ok (tt, w1) /\
  captureOne false 991 4000 ack w1 = Ok (tt, w2) /\
  cur_task w2 = Some (mkRec demo_key None None None 5000 None None None).
Proof.
  destruct (handshake_measured MurmurHash3_x86_32 murmur_hash_law demo_now (demo_cworld []) (replicate 64 []) true
    syn_ack ack (packet_of syn_ack) (packet_of ack) 990 999000 991 4000) as (w1 & w2 & L2 & H1 & H2 & H3 & _).
  - apply demo_sessions.
  - vm_compute. reflexivity.
  - vm_compute. reflexivity.
  - apply pkt_ok_check. vm_compute. reflexivity.
  - apply pkt_ok_check. vm_compute. reflexivity.
  - by_check.
  - by_check.
  - by_check.
  - by_check.
  - by_check.
  - by_check.
  - exists w1, w2. split; [exact H1|]. split; [exact H2|]. rewrite H3. vm_compute. reflexivity.
Defined.

Definition demo_record : Record_s := mkRec demo_key None (Some 0) None 5000 None None None.

Lemma demo_traffic stations : traffic_ready demo_now 0 3000 900 demo_mac demo_record (demo_cworld stations).
Proof. split; try done; try (split; [done|by intros ? ?]); [by_check|vm_compute; reflexivity..]. Qed.

Lemma traffic_measured_witness : exists w',
  info_traffic demo_record (demo_cworld demo_stations) = Ok ((1, set_traffic 100 20 demo_record), w').
Proof.
  pose proof (traffic_measured MurmurHash3_x86_32 murmur_hash_law demo_now 0 3000 900 demo_mac demo_record
    (demo_cworld demo_stations) (demo_chains demo_stations) 1000 500 980 (demo_traffic _) demo_rep
    ltac:(lia) ltac:(lia) ltac:(by_check) ltac:(by_check) ltac:(vm_compute; reflexivity)) as H.
  rewrite bool_decide_eq_true_2 in H by (unfold demo_now; lia). destruct H as (w' & L' & H & _).
  exists w'. exact H.
Defined.

(** Another station of the same chain, whose count of sent bytes is 5. *)
Definition other_key : list Z := mac_string [2; 0; 0; 0; 0; 25] ++ [0].
Definition other_stations : list node := [mkNode 1 other_key (throughput 5 6 999)].

Lemma traffic_first_witness : exists w' L',
  info_traffic demo_record (demo_cworld other_stations) = Ok ((0, set_traffic 0 0 demo_record), w') /\
  ht_map L' !! demo_key = Some (throughput 3000 900 1000) /\ ht_map L' !! other_key <> Some (throughput 5 6 999).
Proof.
  destruct (traffic_first MurmurHash3_x86_32 murmur_hash_law demo_now 0 3000 900 demo_mac demo_record
    (demo_cworld other_stations) (demo_chains other_stations) other_stations [])
    as (t' & w' & L' & H1 & _ & _ & H2 & H3).
  - apply demo_traffic.
  - apply rep_of_check; vm_compute; reflexivity.
  - vm_compute. reflexivity.
  - vm_compute. reflexivity.
  - constructor; [apply aged_check; vm_compute; reflexivity|constructor].
  - apply young_check. vm_compute. reflexivity.
  - by_check.
  - by_check.
  - by_check.
  - exists w', L'. split; [exact H1|]. split; [exact H2|]. intros H.
    apply (H3 other_key 5 6 999) in H; [by apply (bool_decide_eq_false_1 (swrap 32 (demo_now - swrap 32 5) <= 30)) in H|by_check|vm_compute; reflexivity].
Defined.

Lemma getInfo_overflow_witness : getInfo GET_TYPE_CMD demo_record (demo_cworld []) = Ub OutOfBounds.
Proof. apply (getInfo_overflow demo_mac demo_record (demo_cworld [])); by_check. Defined.

(** The state after an operation. *)
Definition after {A} (op : M cworld A) (w : cworld) : cworld := match op w with Ok (_, w') => w' | Ub _ => w end.

Lemma after_run {A} (op : M cworld A) w a :
  match op w with Ok (x, _) => Some x | Ub _ => None end = Some a -> op w = Ok (a, after op w).
Proof. unfold after. destruct (op w) as [[x w']|]; [now intros [= ->]|done]. Qed.

(** A handshake, its measurement with an array of 51 bytes, and the record on its
    way to the server. *)
Definition run_w1 : cworld := after (captureOne false 990 999000 syn_ack) (demo_cworld demo_stations).
Definition run_w2 : cworld := after (captureOne false 991 4000 ack) run_w1.
Definition run_w3 : cworld := after (args_info 51) run_w2.
Definition run_rec : Record_s := mkRec demo_key (Some (-60)) (Some 0) (Some (DQuot 250 1000)) 5000 (Some (DDec 540 1)) (Some 100) (Some 20).
Definition run_queue : DSQueue Record_s :=
  {| buf := Some run_rec :: replicate 3 None; pos := 0; length_ := 1; capacity := 4; closed := false |}.
Definition run_empty : DSQueue Record_s :=
  {| buf := replicate 4 None; pos := 1; length_ := 0; capacity := 4; closed := false |}.
Definition run_w4 : cworld := set_task None (set_queue run_queue run_w3).
Definition run_w5 : cworld := after (sendRecord 7 run_rec) (set_queue run_empty run_w4).

Definition run_events : list cevent :=
  [EPacket 990 999000 syn_ack; EPacket 991 4000 ack; EWake; EInfo; EPut run_rec; ESend run_rec].

Lemma demo_run : steps (cstep 51 7) (Waiting, demo_cworld demo_stations) run_events (Waiting, run_w5).
Proof.
  apply steps_cons with (Waiting, run_w1); [apply c_packet, after_run; vm_compute; reflexivity|].
  apply steps_cons with (Waiting, run_w2); [apply c_packet, after_run; vm_compute; reflexivity|].
  apply steps_cons with (Working, run_w2); [apply c_wake; vm_compute; discriminate|].
  apply steps_cons with (Putting run_rec, run_w3); 
    [apply c_info, (after_run (args_info 51) run_w2 (Some run_rec)); vm_compute; reflexivity|].
  apply steps_cons with (Waiting, run_w4); [apply c_put; vm_compute; reflexivity|].
  apply steps_cons with (Waiting, run_w5); [|apply steps_nil].
  apply (c_send 51 7 Waiting run_w4 run_rec run_empty); [vm_compute; reflexivity|apply after_run; reflexivity].
Qed.

Lemma records_delivered_witness : map Some (sent run_w5) ++ items (sendQueue run_w5) = [Some run_rec] /\ complete run_rec.
Proof.
  destruct (records_delivered 51 7 Waiting (demo_cworld demo_stations) run_events Waiting run_w5) as (H1 & H2 & _).
  - unfold wf. by_check.
  - vm_compute. reflexivity.
  - vm_compute. reflexivity.
  - intros r [=].
  - apply demo_run.
  - split; [exact H1|]. apply Forall_cons_1 in H2 as [H2 _]. exact H2.
Defined.
